(* ===== verification/_CoqProject ===== *)
-Q . S2P
Prelude.v
Errors.v
Timeweb.v
Slug.v
Configurator.v
Catalog.v
Shared.v
Effects.v
Lifecycle.v
Resolving.v
Firewall.v
RouterRefs.v
Router.v
RouterFacts.v
Network.v
NetworkFacts.v
FloatingIP.v
Server.v
ServerFacts.v
Credentials.v
Policy.v
Kubernetes.v
Nodepool.v
NodepoolFacts.v
Cluster.v
ClusterFacts.v
Addon.v
Cdn.v
CdnSettle.v
CdnSSL.v
CdnExternal.v
CdnFacts.v
CdnConverge.v
Project.v
SSHKey.v
Storage.v
S3Bucket.v
S3BucketFacts.v
S3User.v
S3UserFacts.v
Registry.v
RegistryFacts.v
Repository.v
Url.v
Routes.v
RoutesV2.v
Wire.v
WireFacts.v
Transport.v
TransportFacts.v
Iam.v
Online.v
Connector.v
Flight.v
Responses.v
