(* ===== verification/Prelude.v ===== *)
(** * Verification of the Crossplane provider for Timeweb Cloud

    The provider (Go, [internal/]) reconciles Kubernetes objects with the
    Timeweb Cloud REST API. A controller resolves credentials and references
    ([Connect]), then crossplane-runtime drives four methods per kind:
    [Observe] reads the upstream and says whether the object exists and is up to
    date, [Create], [Update] and [Delete] write. This library translates those
    methods, and the helpers they stand on, into executable definitions, and
    proves what they promise.

    ** Layers

    - [Errors]: Go's error values, their texts and [errors.Is]
      (clients/timeweb/errors.go, shared/resolver/errors.go, clients/rgwiam/iam.go).
    - [Timeweb]: an HTTP answer becomes success, not-found, transient or terminal
      ([Classify], [DecodeBody], the scrubbing of secrets; clients/timeweb/).
    - [Slug], [Configurator], [Catalog]: the read-only catalog resolver
      (shared/resolver/): presets by slug and size, configurator selection,
      the dimension registry, the TTL cache and [Resolve].
    - [Shared]: conditions, events, external names, immutable fields, placement
      (shared/conditions.go, events.go, externalname.go, immutable.go, ptr.go,
      map_resolver_error.go, azlocation.go).
    - [Credentials]: from a providerConfigRef to a token (shared/credentials.go).
    - [Policy]: bucket grants as IAM policies (clients/rgwiam/policy.go, sigv4.go).
    - [Effects]: the monad of the controllers. The upstream API is the class
      [Upstream]: a type of worlds and a function [serve] from a request and a
      world to a reply and a world. A computation threads the managed resource and
      the world, and records each call with its reply; an error keeps the state
      reached. [wp], [always] and [steps] are the program logics over it.
    - [Lifecycle]: what every controller does alike: the read that takes a not-found
      for absence, the delete that takes it for success, the order in which
      crossplane-runtime calls the methods in one pass ([reconcile]), runs that
      carry out a plan ([executes], [follows]) and the class [Settles] of a
      controller whose passes reach a state and keep it.
    - [Resolving]: the call of the catalog resolver from a controller.
    - [Firewall]: network/firewall_external.go over clients/timeweb/firewall.go.
    - [RouterRefs]: network/refs.go and the Router arm of connector.go.
    - [Router], [RouterFacts]: network/router_external.go, and its theorems.
    - [Network], [NetworkFacts]: network/network_external.go.
    - [FloatingIP]: network/floatingip_external.go.
    - [Server], [ServerFacts]: compute/: refs.go, connector.go, server_external.go
      and the bindings of floatingip_bind.go.
    - [Kubernetes]: what the Kubernetes kinds share: kubernetes/refs.go, connector.go,
      configurator.go and the version order of cluster_upgrade.go.
    - [Nodepool], [NodepoolFacts]: kubernetes/nodepool_external.go.
    - [Cluster], [ClusterFacts]: kubernetes/cluster_external.go, cluster_upgrade.go
      and router_integration.go.
    - [Addon]: kubernetes/addon_external.go.
    - [Cdn], [CdnSettle]: the settings half of cdn/external.go over
      clients/timeweb/cdn.go: payloads and the minimal PATCH, and its fixed point.
    - [CdnSSL], [CdnExternal]: cdn/ssl.go (the action of a pass for each certificate
      mode) and the life cycle of cdn/external.go.
    - [CdnFacts], [CdnConverge]: the theorems of a CDN pass and of sequences of passes.
    - [Project], [SSHKey]: project/external.go and sshkey/external.go, with their theorems.
    - [Storage]: the storage and IAM requests of the two S3 kinds
      (clients/timeweb/storages_users_v2.go, rgwiam/iam.go) and shared/adminkeys.go.
    - [S3Bucket], [S3BucketFacts]: s3bucket/external.go.
    - [S3User], [S3UserFacts]: s3user/connector.go and external.go.
    - [Registry], [RegistryFacts]: containerregistry/registry_external.go and credentials.go.
    - [Repository]: containerregistry/repository_external.go, with its theorems.
    - [Url]: what the client uses of net/url: escaping, queries, resolution of paths.
    - [Routes]: the request builders of the generated client
      (clients/timeweb/generated/zz_generated_client.go) behind the calls of the
      controllers, over the class [ParamStyle] of the code generator's runtime; and
      [RoutesV2]: the hand-written requests of firewall.go, cdn.go,
      storages_users_v2.go and the forms of rgwiam/sigv4.go.
    - [Wire], [WireFacts]: the requests of all controllers as one type, the builder each
      uses ([route]), the server's table of operations ([dispatch]), and how they agree.
    - [Transport], [TransportFacts]: clients/timeweb/client.go: what clients share, the
      transport that adds the token, the redirect policy and the loop of net/http around
      them, the two ways a call is made; the network is the class [Network].
    - [Iam]: the signed queries of rgwiam/sigv4.go and the plain [http.Client] that
      sends them, over the class [Signer].
    - [Online]: the controllers run over those clients: [online] is an [Upstream] whose
      world is the network and a log of what was sent.
    - [Connector]: the [Connect] of every kind: ProviderConfig, token, client, references.
    - [Flight]: the catalog cache under concurrent callers: a step relation between the
      lock sections of [getOrFetch], over the class [Singleflight].
    - [Responses]: the parsed answers of the catalog listings.

    ** State and operations

    A managed resource is the record [managed]: the external name, the spec
    ([ForProvider]), the status ([AtProvider]), the conditions and the events
    emitted. A controller method is a value of [M U (managed P O) A]; its request
    type has one constructor per API call it makes, and the reply type depends on
    the request. Long Go methods are split where the code has a phase of its own
    (the phases of [Router.Update] carry the lines they translate); an early
    [return] of the whole method is the constructor [Paced]. [crossplane-runtime]'s
    condition set is the class [CrossplaneRuntime] with the laws
    [CrossplaneLaws]; [MapRuntime] is an instance. Kubernetes reads are records of
    functions ([Kube], [SecretReader]): one snapshot for one [Connect].

    Errors are values of [result]; integers are [Z], with the [int64] range written
    out where the code parses or prints them; strings are byte strings; a map whose
    order the code does not use is a [gmap], a map it ranges over is a list.

    ** What is proved

    - No theft, no accident: a router never takes a floating IP or drops its last
      network, a firewall never takes a service of another group, a not-found is
      believed only on the canonical envelope, a namespaced ProviderConfig reaches
      no other namespace.
    - Writes follow from reads: each write of an [Update] is justified by what the
      same pass read, stays within the mutation budget, and none is issued past a
      failed guard; when nothing drifted nothing is written. What justifies a write, what
      bars one and what a patch carries is stated over the fields of the resource and of
      the reply, as relations kept apart from the functions of the model that decide it
      ([justified], [update_barred], [fields_patched], [patch_due], [creation_differs],
      [holds_gb], [update_run]).
    - Plans: the writes of a server's and of a node pool's [Update] are a list
      computed from what it read, carried out in order, cut short only by a failure;
      a pass of a CDN resource makes one change; a bucket, a registry and an SSH key
      send one patch behind their guards.
    - Certificates: an action on a certificate is one that the declared mode and the
      recorded ownership allow, a LetsEncrypt certificate is requested at most
      [maxIssueAttempts] times per window, and a custom certificate settles.
    - Convergence: firewall rules, node counts, server bindings, VPCs, CDN settings and
      certificates, projects and S3 users' policies reach the declared state in a bounded
      number of passes, and later passes only read. These are about a service whose calls
      succeed, each within what the API documents, written down as a class or a record
      next to the theorem: [FaithfulRules] (rules listed a page of a hundred at a time, which
      must hold those there and those missing), [FaithfulServer] (a free address of the
      server's zone is bound, no other), [FaithfulVpcs] (a body that is stored as sent, a VPC
      that can be deleted), [FaithfulCdn] (a trusted chain, a certificate no other resource
      uses), [FaithfulGroup] (counts between 1 and 100, bounds in order),
      [project_service] and [policy_service].
      The witnesses run on services in memory that refuse what is outside of that.
    - Adoption: a create finds the object a lost create left behind instead of making
      a second one, and the identity a pool was given is never dropped by accident.
    - Agreement: what [Observe] calls up to date is what [Update] has nothing to do
      about, and the corners where it is not.
    - Specifications: configurator selection against its order-theoretic
      description, slug matching against denotation, the cache against per-key
      isolation and one fetch per TTL, reference resolution, token resolution,
      the grants of an S3 user, and what a bucket mirrors of them.
    - Round trips: slugs with ids, composite names, policy documents, the docker login
      of a registry through base64, and the requests: each call with usable ids is
      dispatched, by the server's own table, to the operation and the arguments meant
      ([request_dispatched]).
    - Whose token: a call ends within ten requests, each to the API's host with the
      client's own token, whatever redirects the network answers
      ([credential_stays_home]), and a read of the REST API sends GETs only; clients of one host share
      one limiter; from the resource to the wire, what a tenant's controllers send carries
      the token of its own namespace's Secret, and the IAM queries of the S3 kinds carry
      none ([tenant_traffic]); resources that share a cache key share a token.
    - Deletion: a resource that is being deleted connects without its references, an S3
      user apart ([deletion_needs_no_reference], [duplicate_grant_blocks_deletion]).
    - Interleavings: under any schedule of callers, clock and invalidations, the cache
      answers a caller for its own key only; a herd on a key has one fetch under way at a
      time and, once an answer was kept, no further one; and every caller returns ([flights_keep_keys_apart], [herd_one_fetch], [callers_return]).
    - Divergences the models exposed, as theorems: [rules_converged_masks_missing],
      [deny_counts_as_grant], [scrub_escaped_quote_leaks], [unauthorized_expires],
      [location_only_update_rejected], [kubeconfig_never_retried],
      [nodepool_delete_without_cluster_leaks], [nodepool_preset_edit_unnoticed],
      [addon_deletion_never_ends], [server_identity_rounded],
      [second_ipv6_taken_for_ipv4], [server_edit_unnoticed],
      [network_description_edit], [padded_name_never_settles],
      [floatingip_immutable_edit_unnoticed], [mode_none_leaks_upload],
      [delete_leaves_certificates], [empty_headers_never_settle],
      [empty_header_masks_drift], [limit_bytes_overflow], [origin_outage_flips_ready],
      [bucket_size_edit_unnoticed], [bucket_edit_never_settles],
      [duplicate_grant_blocks_deletion], [deletion_needs_admin_keys],
      [renamed_user_deletes_another_policy], [registry_size_edit_unnoticed],
      [registry_edit_never_settles], [repository_deletion_never_ends],
      [unpushed_repository_created_again], [key_edit_never_settles],
      [unescaped_id_deletes_rule], [listings_unpaged], [dots_climb], [no_host_no_guard],
      [garbled_refusal_is_transient], [cluster_edit_unnoticed].

    ** Bounds and fuel

    Fuel appears in four places, each with a lemma or a bound that makes it
    enough: [redact] and [trim_left] use the length of the string (every step
    consumes a byte, [redact_fuel_enough]), [itoa] the number of digits of an
    [int] ([itoa_fmt_d]), and the redirect loops eleven rounds, where the policies
    stop at ten redirects ([do_enough], [follow_enough]). All other recursion is structural. The schedules of
    [Flight] are not bounded: [callers_return] bounds the steps the callers make in them. Mutation budgets
    ([maxRouterMutationsPerReconcile], [maxFirewallMutationsPerReconcile]) are the
    code's constants. The generated client reads and writes the API's numbers as
    [float32]: [f32] is the rounding of an integer to 24 significant bits, exact up
    to 2^24 ([f32_exact], [f32_error]); a decoded field of that type is the integer
    it holds. A conversion the code makes between [float32] and [int] is [f32] in
    the one direction and nothing in the other.

    ** Not modelled

    The network, the token bucket of golang.org/x/time/rate, timeouts and cancellation,
    [url.Parse] and the resolution of a Location are parameters of [Transport], nothing
    being assumed of them beyond what a theorem names; the signer of the AWS SDK is a class
    whose law names the scheme of its header, and its failures are left out. encoding/json, encoding/xml, x509 and SHA-256 are parameters of the files
    that use them. Goroutines are modelled where the code shares state between them and
    locks are taken in more than one section, the catalog cache; the shared limiters and
    transports are one section each, so their users are sequential. Transition times of
    conditions are left out.

    The builders and response types of the generated client that no controller uses, its
    fake, deepcopy, the CRD types' validation, the wiring of controllers, the reconciler
    of ProviderConfigs (crossplane-runtime's) and process start-up have no logic of their
    own: there is no state or decision of this program in them to model. *)

From Stdlib Require Export ZArith Lia Permutation Sorted Ascii.
From stdpp Require Export base gmap strings list pretty numbers sorting.

#[global] Open Scope Z_scope.

#[export] Set Warnings "-clear-no-such-hyp,-notation-for-abbreviation,-level-tolerance".

#[global] Arguments String.append !_ _ / : simpl nomatch.

(** ** Automation

    [go] is the database of the lemmas and [go_rw] of the equations the
    components extend and that drive their proofs. *)
Create HintDb go discriminated.
Create Rewrite HintDb go_rw.

(** Split every boolean conjunction and disjunction of the context, turn the
    equality tests on strings, integers and booleans into propositions. *)
Ltac split_and_or :=
  repeat match goal with
  | H : _ && _ = true |- _ => apply andb_true_iff in H; destruct H
  | H : _ || _ = false |- _ => apply orb_false_iff in H; destruct H
  | H : negb _ = true |- _ => apply negb_true_iff in H
  | H : negb _ = false |- _ => apply negb_false_iff in H
  | H : _ /\ _ |- _ => destruct H
  | H : exists _, _ |- _ => destruct H
  end.

(** Case analysis on the scrutinee of the innermost [match] of the goal. *)
Ltac go_case :=
  match goal with
  | |- context [match ?x with _ => _ end] =>
      lazymatch x with
      | context [match _ with _ => _ end] => fail
      | _ => let E := fresh "E" in destruct x eqn:E
      end
  end.

(** The same on a hypothesis. *)
Ltac go_case_in H :=
  match type of H with
  | context [match ?x with _ => _ end] =>
      lazymatch x with
      | context [match _ with _ => _ end] => fail
      | _ => let E := fresh "E" in destruct x eqn:E
      end
  end.

(** ** Errors-as-values: Go's [(T, error)] returns

    The error type is the parameter [E]; a Go function returning [(T, error)]
    is a function returning [result E T]. *)
Inductive result (E A : Type) : Type :=
| Ok (a : A)
| Err (e : E).
Arguments Ok {_ _} _.
Arguments Err {_ _} _.

#[export] Instance result_ret {E} : MRet (result E) := fun A a => Ok a.
#[export] Instance result_bind {E} : MBind (result E) :=
  fun A B f m => match m with Ok a => f a | Err e => Err e end.

Definition is_ok {E A} (r : result E A) : bool :=
  match r with Ok _ => true | Err _ => false end.

Lemma bind_ok {E A B} (m : result E A) (f : A -> result E B) b :
  m ≫= f = Ok b -> exists a, m = Ok a /\ f a = Ok b.
Proof. destruct m; simpl; [eauto | discriminate]. Qed.

Lemma bind_err {E A B} (m : result E A) (f : A -> result E B) e :
  m ≫= f = Err e -> m = Err e \/ exists a, m = Ok a /\ f a = Err e.
Proof. destruct m; simpl; intros H; [eauto | left; congruence]. Qed.

(** ** Machine integers *)

Definition int64_min : Z := - 2 ^ 63.
Definition int64_max : Z := 2 ^ 63 - 1.

(** Two's-complement wrap-around of an [int64] (and of Go's 64-bit [int]). *)
Definition int64_wrap (z : Z) : Z := (z + 2 ^ 63) mod 2 ^ 64 - 2 ^ 63.

Definition is_int64 (z : Z) : bool := (int64_min <=? z) && (z <=? int64_max).

#[global] Arguments is_int64 : simpl never.

Lemma is_int64_spec z : is_int64 z = true <-> int64_min <= z <= int64_max.
Proof. unfold is_int64. rewrite andb_true_iff, !Z.leb_le. tauto. Qed.

Lemma int64_wrap_id z : int64_min <= z <= int64_max -> int64_wrap z = z.
Proof.
  unfold int64_min, int64_max, int64_wrap. intros H.
  rewrite Z.mod_small; lia.
Qed.

Lemma int64_wrap_range z : int64_min <= int64_wrap z <= int64_max.
Proof.
  unfold int64_min, int64_max, int64_wrap.
  pose proof (Z.mod_pos_bound (z + 2 ^ 63) (2 ^ 64) eq_refl). lia.
Qed.

(** The integer a [float32] holds after converting [z] to it: rounded to 24 significant
    bits, to even on a tie. *)
Definition f32 (z : Z) : Z :=
  let a := Z.abs z in
  if a <? 2 ^ 24 then z
  else
    let ulp := 2 ^ (Z.log2 a - 23) in
    let q := a / ulp in
    let r := a mod ulp in
    let q := if (ulp <? 2 * r) || ((2 * r =? ulp) && Z.odd q) then q + 1 else q in
    Z.sgn z * (q * ulp).

Lemma f32_exact z : Z.abs z <= 2 ^ 24 -> f32 z = z.
Proof.
  intros H. unfold f32. destruct (Z.abs z <? 2 ^ 24) eqn:E; [done|].
  assert (z = 2 ^ 24 \/ z = - 2 ^ 24) as [-> | ->] by lia; reflexivity.
Qed.

Lemma f32_error z : 2 ^ 24 <= Z.abs z -> 2 * Z.abs (f32 z - z) <= 2 ^ (Z.log2 (Z.abs z) - 23).
Proof.
  intros H. unfold f32. destruct (Z.abs z <? 2 ^ 24) eqn:E; [lia|]. set (ulp := 2 ^ _).
  assert (24 <= Z.log2 (Z.abs z)) as Hl by (apply Z.log2_le_pow2; lia).
  assert (0 < ulp) as Hu by (apply Z.pow_pos_nonneg; lia).
  pose proof (Z.div_mod (Z.abs z) ulp ltac:(lia)) as Hd. pose proof (Z.mod_pos_bound (Z.abs z) ulp Hu) as Hm.
  set (q := Z.abs z / ulp) in *. set (r := Z.abs z mod ulp) in *.
  assert (Z.sgn z * Z.abs z = z) as Hz by lia.
  destruct (_ || _) eqn:Eb.
  - assert (ulp <= 2 * r) by lia. destruct (Z.sgn_spec z) as [[? ->]|[[? ->]|[? ->]]]; nia.
  - assert (2 * r <= ulp) by lia. destruct (Z.sgn_spec z) as [[? ->]|[[? ->]|[? ->]]]; nia.
Qed.

Lemma f32_bound z : Z.abs (f32 z) <= 2 * Z.abs z.
Proof.
  destruct (Z.abs z <? 2 ^ 24) eqn:E; [rewrite f32_exact; lia|].
  pose proof (f32_error z ltac:(lia)) as He.
  assert (2 ^ (Z.log2 (Z.abs z) - 23) <= 2 ^ Z.log2 (Z.abs z)) by (apply Z.pow_le_mono_r; lia).
  pose proof (Z.log2_spec (Z.abs z) ltac:(lia)). lia.
Qed.

(** ** Strings

    Go strings are byte sequences; so are Rocq's. *)
Definition dquote : ascii := Ascii.ascii_of_nat 34.
Definition newline : string := String (Ascii.ascii_of_nat 10) EmptyString.

#[global] Arguments dquote : simpl never.

Definition byte_val (c : ascii) : Z := Z.of_N (Ascii.N_of_ascii c).
Definition byte_of (z : Z) : ascii := Ascii.ascii_of_N (Z.to_N z).

Definition is_digit (c : ascii) : bool := (48 <=? byte_val c) && (byte_val c <=? 57).
Definition is_lower (c : ascii) : bool := (97 <=? byte_val c) && (byte_val c <=? 122).
Definition is_upper (c : ascii) : bool := (65 <=? byte_val c) && (byte_val c <=? 90).

Definition lower_byte (c : ascii) : ascii :=
  if is_upper c then byte_of (byte_val c + 32) else c.

(** Case mapping of a byte string, to lower case or, when [long_s] is set, by simple
    folding. Exact on ASCII letters and on the non-ASCII code points that map to one:
    U+212A KELVIN SIGN, U+0130 whose lower case is [i] but which folds to no letter,
    and U+017F which folds to [s]; other non-ASCII code points are left unchanged,
    which no test of the provider (all against ASCII literals) can see. *)
Fixpoint lower_with (long_s : bool) (s : string) : string :=
  match s with
  | EmptyString => EmptyString
  | String c rest =>
      match rest with
      | EmptyString => String (lower_byte c) EmptyString
      | String c2 rest2 =>
          if negb long_s && (byte_val c =? 196) && (byte_val c2 =? 176)
          then String (byte_of 105) (lower_with long_s rest2)
          else if long_s && (byte_val c =? 197) && (byte_val c2 =? 191)
          then String (byte_of 115) (lower_with long_s rest2)
          else match rest2 with
               | EmptyString => String (lower_byte c) (lower_with long_s rest)
               | String c3 rest3 =>
                   if (byte_val c =? 226) && (byte_val c2 =? 132) && (byte_val c3 =? 170)
                   then String (byte_of 107) (lower_with long_s rest3)
                   else String (lower_byte c) (lower_with long_s rest)
               end
      end
  end.

(** [strings.ToLower]. *)
Definition to_lower : string -> string := lower_with false.

(** [strings.EqualFold] against a lower-case ASCII literal. *)
Definition equal_fold (s lit : string) : bool := bool_decide (lower_with true s = lit).

Definition has_prefix (p s : string) : bool := String.prefix p s.

(** [strings.Contains]. *)
Fixpoint contains_str (s sub : string) : bool :=
  has_prefix sub s ||
  match s with
  | EmptyString => false
  | String _ s' => contains_str s' sub
  end.

(** [s[n:]]. *)
Fixpoint drop_str (n : nat) (s : string) : string :=
  match n, s with
  | O, _ => s
  | S n', EmptyString => EmptyString
  | S n', String _ s' => drop_str n' s'
  end.

(** [s[:n]]. *)
Fixpoint take_str (n : nat) (s : string) : string :=
  match n, s with
  | O, _ => EmptyString
  | S n', EmptyString => EmptyString
  | S n', String c s' => String c (take_str n' s')
  end.

(** [strings.Index]. *)
Fixpoint index_str (s sub : string) : option nat :=
  if has_prefix sub s then Some O
  else match s with
       | EmptyString => None
       | String _ s' => S <$> index_str s' sub
       end.

(** [strings.IndexByte]. *)
Fixpoint index_byte (s : string) (b : ascii) : option nat :=
  match s with
  | EmptyString => None
  | String c s' => if bool_decide (c = b) then Some O else S <$> index_byte s' b
  end.

(** [strings.LastIndexByte]. *)
Fixpoint last_index_byte (s : string) (b : ascii) : option nat :=
  match s with
  | EmptyString => None
  | String c s' =>
      match last_index_byte s' b with
      | Some n => Some (S n)
      | None => if bool_decide (c = b) then Some O else None
      end
  end.

(** *** Concatenation and slicing *)

Lemma length_append (a b : string) :
  String.length (a +:+ b) = (String.length a + String.length b)%nat.
Proof. induction a; simpl; auto. Qed.

Lemma drop_str_append (a b : string) : drop_str (String.length a) (a +:+ b) = b.
Proof. induction a; simpl; auto. Qed.

Lemma take_str_append (a b : string) : take_str (String.length a) (a +:+ b) = a.
Proof. induction a; simpl; [by destruct b|]. by f_equal. Qed.

Lemma length_drop_str n s : (String.length (drop_str n s) <= String.length s)%nat.
Proof.
  revert s; induction n as [|n IH]; intros [|c s]; simpl; try lia. specialize (IH s). lia.
Qed.

Lemma append_assoc (a b c : string) : (a +:+ b) +:+ c = a +:+ (b +:+ c).
Proof. induction a as [|x a IH]; [done|]. cbn [String.append]. by rewrite IH. Qed.

(** The UTF-8 encodings of the code points [unicode.IsSpace] accepts. *)
Definition bytes (l : list Z) : string :=
  foldr (fun z s => String (byte_of z) s) EmptyString l.

Definition space_encodings : list string :=
  (bytes <$> [[9]; [10]; [11]; [12]; [13]; [32]; [194; 133]; [194; 160]; [225; 154; 128]]) ++
  ((fun b => bytes [226; 128; b]) <$> [128; 129; 130; 131; 132; 133; 134; 135; 136; 137; 138; 168; 169; 175]) ++
  (bytes <$> [[226; 129; 159]; [227; 128; 128]]).

Fixpoint rev_str_app (s acc : string) : string :=
  match s with
  | EmptyString => acc
  | String c s' => rev_str_app s' (String c acc)
  end.

Definition rev_str (s : string) : string := rev_str_app s EmptyString.

Fixpoint strip_one (encs : list string) (s : string) : option string :=
  match encs with
  | [] => None
  | p :: encs' =>
      if has_prefix p s then Some (drop_str (String.length p) s) else strip_one encs' s
  end.

Fixpoint trim_left_fuel (encs : list string) (n : nat) (s : string) : string :=
  match n with
  | O => s
  | S n' => match strip_one encs s with Some s' => trim_left_fuel encs n' s' | None => s end
  end.

Definition trim_left (encs : list string) (s : string) : string :=
  trim_left_fuel encs (String.length s) s.

(** [strings.TrimSpace]: spaces are dropped on the left, then on the right. *)
Definition trim_space (s : string) : string :=
  let l := trim_left space_encodings s in
  rev_str (trim_left (rev_str <$> space_encodings) (rev_str l)).

Lemma append_nil_r s : s +:+ "" = s.
Proof. induction s as [|c s IH]; [done|]. cbn [String.append]. by rewrite IH. Qed.

Lemma rev_str_app_spec s acc : rev_str_app s acc = rev_str s +:+ acc.
Proof.
  unfold rev_str. revert acc. induction s as [|c s IH]; intros acc; [done|]. cbn [rev_str_app].
  rewrite IH, (IH (String c "")). by rewrite append_assoc.
Qed.

Lemma rev_str_append a b : rev_str (a +:+ b) = rev_str b +:+ rev_str a.
Proof.
  induction a as [|c a IH]; [by rewrite append_nil_r|]. cbn [String.append]. unfold rev_str at 1. cbn [rev_str_app].
  rewrite rev_str_app_spec, IH, append_assoc. f_equal. unfold rev_str at 2. cbn [rev_str_app]. by rewrite rev_str_app_spec.
Qed.

Lemma rev_str_involutive s : rev_str (rev_str s) = s.
Proof.
  induction s as [|c s IH]; [done|]. unfold rev_str at 2. cbn [rev_str_app].
  by rewrite rev_str_app_spec, rev_str_append, IH.
Qed.

Lemma has_prefix_iff p s : has_prefix p s = true <-> exists k, s = p +:+ k.
Proof.
  unfold has_prefix. revert s. induction p as [|c p IH]; intros s; [split; [intros _; by exists s|by destruct s]|].
  destruct s as [|d s]; [split; [done|by intros (k & Hk)]|].
  cbn. destruct (ascii_dec c d) as [<-|Hn]; [rewrite IH|]; split; [intros (k & ->)|intros (k & Hk)|done|intros (k & Hk)]; try (cbn in Hk; congruence).
  - by exists k.
  - exists k. cbn in Hk. congruence.
Qed.

(** What [strip_one] takes off is an encoding that starts the string. *)
Lemma strip_one_spec encs s :
  match strip_one encs s with
  | Some s' => exists p, p ∈ encs /\ s = p +:+ s'
  | None => forall p, p ∈ encs -> has_prefix p s = false
  end.
Proof.
  induction encs as [|p encs IH]; cbn [strip_one]; [by intros p ?%elem_of_nil|]. destruct (has_prefix p s) eqn:E.
  - apply has_prefix_iff in E as (k & ->). exists p. split; [left|]. by rewrite drop_str_append.
  - destruct (strip_one encs s) as [s'|]; [destruct IH as (p' & Hp & ->); exists p'; split; [by right|done]|].
    intros p' [->|Hp]%elem_of_cons; [done|by apply IH].
Qed.

Section Trim.
Variable encs : list string.
Hypothesis Hne : forall p, p ∈ encs -> p <> "".

(** [trim_left]: a suffix that none of the encodings starts. *)
Lemma trim_left_spec s : (exists k, s = k +:+ trim_left encs s) /\ strip_one encs (trim_left encs s) = None.
Proof.
  unfold trim_left. enough (forall n s, (String.length s <= n)%nat ->
    (exists k, s = k +:+ trim_left_fuel encs n s) /\ strip_one encs (trim_left_fuel encs n s) = None) as H by by apply H.
  clear s. induction n as [|n IH]; intros s Hn; cbn [trim_left_fuel].
  - split; [by exists ""|]. destruct s; [|cbn in Hn; lia]. pose proof (strip_one_spec encs "") as Hs.
    destruct (strip_one encs "") as [s'|]; [|done]. destruct Hs as (p & Hp & Hs). destruct p; [by apply Hne in Hp|done].
  - pose proof (strip_one_spec encs s) as Hs. destruct (strip_one encs s) as [s'|] eqn:E; [|by split; [exists ""|]].
    destruct Hs as (p & Hp & ->). destruct (IH s') as [(k & Hk) Hnone].
    + rewrite length_append in Hn. destruct p; [by apply Hne in Hp|]. cbn in Hn. lia.
    + split; [|done]. exists (p +:+ k). by rewrite append_assoc, <- Hk.
Qed.

Lemma trim_left_fixed s : strip_one encs s = None -> trim_left encs s = s.
Proof. intros H. unfold trim_left. destruct (String.length s); cbn [trim_left_fuel]; [done|]. by rewrite H. Qed.

Lemma strip_one_prefix a b : strip_one encs (a +:+ b) = None -> strip_one encs a = None.
Proof.
  intros H. pose proof (strip_one_spec encs (a +:+ b)) as Hs. rewrite H in Hs. pose proof (strip_one_spec encs a) as Ha.
  destruct (strip_one encs a) as [s'|]; [|done]. destruct Ha as (p & Hp & ->). specialize (Hs p Hp).
  assert (has_prefix p ((p +:+ s') +:+ b) = true) as Ht by (apply has_prefix_iff; exists (s' +:+ b); by rewrite append_assoc). congruence.
Qed.
End Trim.

(** [strings.TrimSpace] leaves no space at either end. *)
Lemma trim_space_idem s : trim_space (trim_space s) = trim_space s.
Proof.
  assert (forall p, p ∈ space_encodings -> p <> "") as H1.
  { apply Forall_forall. by apply (bool_decide_unpack _). }
  assert (forall p, p ∈ (rev_str <$> space_encodings) -> p <> "") as H2.
  { apply Forall_forall. by apply (bool_decide_unpack _). }
  unfold trim_space at 2 3. destruct (trim_left_spec space_encodings H1 s) as [_ Hl]. set (l := trim_left space_encodings s) in *.
  destruct (trim_left_spec (rev_str <$> space_encodings) H2 (rev_str l)) as [(k & Hk) Hr]. set (r := trim_left _ (rev_str l)) in *.
  assert (l = rev_str r +:+ rev_str k) as Hlr by (by rewrite <- (rev_str_involutive l), Hk, rev_str_append).
  unfold trim_space. rewrite (trim_left_fixed space_encodings) by (eapply strip_one_prefix; by rewrite <- Hlr).
  by rewrite rev_str_involutive, trim_left_fixed.
Qed.

(** [strings.Join]. *)
(** [strings.Split(v, sep)] for a one-byte separator. *)
Fixpoint split_byte (sep : ascii) (s : string) : list string :=
  match s with
  | EmptyString => [""]
  | String c s' =>
      if bool_decide (c = sep) then "" :: split_byte sep s'
      else match split_byte sep s' with
           | [] => [String c ""]
           | p :: ps => String c p :: ps
           end
  end.

Fixpoint join (sep : string) (l : list string) : string :=
  match l with
  | [] => ""
  | [x] => x
  | x :: l' => x +:+ sep +:+ join sep l'
  end.

Fixpoint no_byte (b : ascii) (s : string) : bool :=
  match s with EmptyString => true | String c s' => negb (bool_decide (c = b)) && no_byte b s' end.

(** The first separator splits a string in one way. *)
Lemma separator_split b x y u v :
  no_byte b x = true -> no_byte b y = true -> x +:+ String b u = y +:+ String b v -> x = y /\ u = v.
Proof.
  revert y. induction x as [|c x IH]; intros [|d y] Hx Hy H; cbn [String.append no_byte] in H, Hx, Hy; split_and_or.
  - by injection H.
  - injection H as <- _. by case_bool_decide.
  - injection H as -> _. by case_bool_decide.
  - injection H as <- H. destruct (IH y) as [-> ->]; done.
Qed.

(** Items that are not blank and hold no separator are what they join to. *)
Lemma join_inj b l l' :
  Forall (fun s => s <> "" /\ no_byte b s = true) l -> Forall (fun s => s <> "" /\ no_byte b s = true) l' ->
  join (String b "") l = join (String b "") l' -> l = l'.
Proof.
  assert (forall s u, no_byte b (s +:+ String b u) = true -> False) as Hno.
  { intros s u. induction s as [|c s IH]; cbn [String.append no_byte]; intros H; split_and_or; [by case_bool_decide|by apply IH]. }
  intros Hl. revert l'. induction Hl as [|x l [Hx Hb] Hl IH]; intros l' Hl' H.
  - destruct Hl' as [|y l' [Hy _] _]; [done|]. destruct l'; cbn [join] in H; [congruence|by destruct y].
  - destruct Hl' as [|y l' [Hy Hc] Hl']; [destruct l; cbn [join] in H; [congruence|by destruct x]|].
    destruct Hl as [|x' l Hx' Hl], Hl' as [|y' l' Hy' Hl']; cbn [join] in H.
    + by rewrite H.
    + subst x. by apply Hno in Hb.
    + subst y. by apply Hno in Hc.
    + apply separator_split in H as [-> H]; [|done..]. f_equal. apply IH; [by constructor|exact H].
Qed.

(** [fmt]'s [%d] (and [strconv.Itoa], [strconv.FormatInt] in base 10). *)
Definition fmt_d (z : Z) : string := pretty z.

(** [fmt]'s [%v] on a list of already rendered elements. *)
Definition fmt_list (l : list string) : string := "[" +:+ join " " l +:+ "]".

Definition hex_digit (z : Z) : string :=
  String (byte_of (if z <? 10 then 48 + z else 87 + z)) EmptyString.

(** [fmt]'s [%q] ([strconv.Quote]): exact on ASCII; a byte of a multi-byte
    code point is passed through, as [strconv.Quote] does for printable ones. *)
Definition quote_byte (c : ascii) : string :=
  let v := byte_val c in
  if v =? 34 then String (byte_of 92) (String dquote EmptyString)
  else if v =? 92 then bytes [92; 92]
  else if v =? 7 then bytes [92; 97]
  else if v =? 8 then bytes [92; 98]
  else if v =? 12 then bytes [92; 102]
  else if v =? 10 then bytes [92; 110]
  else if v =? 13 then bytes [92; 114]
  else if v =? 9 then bytes [92; 116]
  else if v =? 11 then bytes [92; 118]
  else if (v <? 32) || (v =? 127)
  then bytes [92; 120] +:+ hex_digit (v / 16) +:+ hex_digit (v mod 16)
  else String c EmptyString.

Fixpoint quote_body (s : string) : string :=
  match s with
  | EmptyString => EmptyString
  | String c s' => quote_byte c +:+ quote_body s'
  end.

Definition quote (s : string) : string :=
  String dquote EmptyString +:+ quote_body s +:+ String dquote EmptyString.

(** [strconv.Atoi] / [strconv.ParseInt(_, 10, 64)]: an optional sign, at least
    one digit, nothing else, and a value that fits 64 bits. *)
Fixpoint parse_digits (s : string) (acc : Z) : option Z :=
  match s with
  | EmptyString => Some acc
  | String c s' => if is_digit c then parse_digits s' (acc * 10 + (byte_val c - 48)) else None
  end.

Definition parse_nat (s : string) : option Z :=
  match s with EmptyString => None | _ => parse_digits s 0 end.

Definition atoi (s : string) : option Z :=
  let v := match s with
           | String c s' =>
               if byte_val c =? 45 then Z.opp <$> parse_nat s'
               else if byte_val c =? 43 then parse_nat s'
               else parse_nat s
           | EmptyString => None
           end in
  match v with
  | Some z => if is_int64 z then Some z else None
  | None => None
  end.

(** *** Rendered integers *)

Fixpoint all_digits (s : string) : bool :=
  match s with EmptyString => true | String c s' => is_digit c && all_digits s' end.

Lemma parse_digits_all s acc z : parse_digits s acc = Some z -> all_digits s = true.
Proof.
  revert acc. induction s as [|c s IH]; [done|]. intros acc. simpl.
  destruct (is_digit c); [|done]. simpl. apply IH.
Qed.

(** Parsing a rendered integer gives the integer back. *)
Lemma pretty_char_digit (d : N) :
  (d < 10)%N ->
  is_digit (pretty_N_char d) = true /\ byte_val (pretty_N_char d) - 48 = Z.of_N d.
Proof.
  intros H.
  assert (d = 0 \/ d = 1 \/ d = 2 \/ d = 3 \/ d = 4 \/ d = 5 \/ d = 6 \/ d = 7 \/ d = 8 \/ d = 9)%N
    as Hd by lia.
  repeat (destruct Hd as [->|Hd]; [by vm_compute|]). by subst.
Qed.

Lemma parse_pretty_go (x : N) : forall s,
  (0 < x)%N -> parse_digits (pretty_N_go x s) 0 = parse_digits s (Z.of_N x).
Proof.
  induction (N.lt_wf_0 x) as [x _ IH]; intros s Hx.
  rewrite pretty_N_go_step by done.
  destruct (pretty_char_digit (x `mod` 10)) as [Hd Hv]; [by apply N.mod_lt|].
  pose proof (N.div_mod x 10 ltac:(done)) as HD.
  destruct (decide (x `div` 10 = 0)%N) as [E|E].
  - rewrite E, pretty_N_go_0. simpl. rewrite Hd, Hv. f_equal. lia.
  - rewrite IH; [simpl; rewrite Hd, Hv; f_equal; lia | by apply N.div_lt | by apply N.neq_0_lt_0].
Qed.

Lemma parse_nat_pretty (p : positive) : parse_nat (pretty p) = Some (Z.pos p).
Proof.
  assert (parse_digits (pretty p) 0 = Some (Z.pos p)) as H.
  { exact (parse_pretty_go (N.pos p) "" eq_refl). }
  unfold parse_nat. destruct (pretty p) eqn:E; [|done]. simpl in H. congruence.
Qed.

Lemma fmt_d_digits z : 0 <= z -> all_digits (fmt_d z) = true /\ fmt_d z <> "".
Proof.
  unfold fmt_d. destruct z as [|p|p]; intros H; [done| |lia].
  change (pretty (Z.pos p)) with (pretty p). pose proof (parse_nat_pretty p) as HP.
  destruct (pretty p) eqn:E; [done|]. split; [|done]. by eapply parse_digits_all.
Qed.

Lemma length_pretty_go k : forall (x : N) s,
  (x < 10 ^ N.of_nat k)%N ->
  (String.length (pretty_N_go x s) <= k + String.length s)%nat.
Proof.
  induction k as [|k IH]; intros x s Hx.
  - simpl in Hx. assert (x = 0%N) as -> by lia. rewrite pretty_N_go_0. lia.
  - destruct (decide (x = 0%N)) as [->|Hz]; [rewrite pretty_N_go_0; lia|].
    rewrite pretty_N_go_step by lia.
    assert (x `div` 10 < 10 ^ N.of_nat k)%N as Hd.
    { apply N.Div0.div_lt_upper_bound. rewrite Nat2N.inj_succ, N.pow_succ_r' in Hx. lia. }
    specialize (IH _ (String (pretty_N_char (x `mod` 10)) s) Hd). cbn [String.length] in IH. lia.
Qed.

Lemma length_fmt_d z (k : nat) :
  (0 < k)%nat -> 0 <= z < 10 ^ Z.of_nat k -> (String.length (fmt_d z) <= k)%nat.
Proof.
  unfold fmt_d. intros Hk Hz. destruct z as [|p|p]; [simpl; lia| |lia].
  change (pretty (Z.pos p)) with (pretty_N_go (N.pos p) "").
  etransitivity; [apply (length_pretty_go k)|simpl; lia].
  apply N2Z.inj_lt. rewrite N2Z.inj_pow, nat_N_Z. simpl. lia.
Qed.

Lemma pretty_pos_hd (p : positive) :
  exists c s, pretty p = String c s /\ is_digit c = true.
Proof.
  pose proof (parse_nat_pretty p) as H. destruct (pretty p) as [|c s]; [done|].
  simpl in H. destruct (is_digit c) eqn:E; [eauto|done].
Qed.

Lemma atoi_fmt_d z : is_int64 z = true -> atoi (fmt_d z) = Some z.
Proof.
  intros Hz. unfold atoi, fmt_d. destruct z as [|p|p].
  - reflexivity.
  - change (pretty (Z.pos p)) with (pretty p).
    pose proof (parse_nat_pretty p) as HP. destruct (pretty_pos_hd p) as (c & s & E & Hc).
    rewrite E in HP |- *. unfold is_digit in Hc. split_and_or.
    rewrite !(proj2 (Z.eqb_neq _ _)), HP, Hz by lia. done.
  - change (pretty (Z.neg p)) with (String "-" (pretty p)). cbn -[is_int64 parse_nat].
    rewrite parse_nat_pretty.
    transitivity (if is_int64 (Z.neg p) then Some (Z.neg p) else None); [reflexivity|].
    by rewrite Hz.
Qed.

(** ** Sorting

    A stable insertion sort by a [less-than-or-equal] test: what
    [sort.SliceStable] computes, and what [sort.Strings] and [sort.Slice]
    compute up to the order of equal elements. *)
Section Sorting.
Context {A : Type} (leb : A -> A -> bool).

Fixpoint insert_by (x : A) (l : list A) : list A :=
  match l with
  | [] => [x]
  | y :: l' => if leb x y then x :: l else y :: insert_by x l'
  end.

Definition sort_by (l : list A) : list A := foldr insert_by [] l.

Lemma insert_by_perm x l : insert_by x l ≡ₚ x :: l.
Proof.
  induction l as [|y l IH]; simpl; [done|].
  destruct (leb x y); [done|]. rewrite IH. constructor.
Qed.

Lemma sort_by_perm l : sort_by l ≡ₚ l.
Proof. induction l; simpl; [done|]. by rewrite insert_by_perm, IHl. Qed.

Lemma elem_of_sort_by x l : x ∈ sort_by l <-> x ∈ l.
Proof. by rewrite sort_by_perm. Qed.

Lemma length_sort_by l : length (sort_by l) = length l.
Proof. by rewrite sort_by_perm. Qed.

Hypothesis leb_total : forall x y, leb x y = true \/ leb y x = true.
Hypothesis leb_trans : forall x y z, leb x y = true -> leb y z = true -> leb x z = true.

Lemma insert_by_hd x y l :
  leb y x = true -> HdRel (fun a b => leb a b = true) y l ->
  HdRel (fun a b => leb a b = true) y (insert_by x l).
Proof. destruct l as [|z l]; simpl; intros Hyx H; [by constructor|]. destruct (leb x z); constructor; auto. by inversion H. Qed.

Lemma insert_by_sorted x l :
  Sorted (fun a b => leb a b = true) l -> Sorted (fun a b => leb a b = true) (insert_by x l).
Proof.
  induction 1 as [|y l Hs IH Hd]; simpl; [by repeat constructor|].
  destruct (leb x y) eqn:E; [by repeat constructor|].
  constructor; [done|]. apply insert_by_hd; [|done].
  destruct (leb_total x y); congruence.
Qed.

Lemma sort_by_sorted l : StronglySorted (fun a b => leb a b = true) (sort_by l).
Proof.
  apply Sorted_StronglySorted; [intros ????; eauto|].
  induction l; simpl; [constructor|]. by apply insert_by_sorted.
Qed.

(** The head of the sorted list is a least element. *)
Lemma sort_by_head_min l x rest :
  sort_by l = x :: rest -> x ∈ l /\ forall y, y ∈ l -> leb x y = true.
Proof.
  intros E. pose proof (sort_by_sorted l) as HS. rewrite E in HS.
  split; [rewrite <- elem_of_sort_by, E; left|].
  intros y Hy. rewrite <- elem_of_sort_by, E in Hy.
  apply elem_of_cons in Hy as [->|Hy].
  - destruct (leb_total x x); done.
  - apply StronglySorted_inv in HS as [_ HF]. rewrite Forall_forall in HF. auto.
Qed.
End Sorting.

(** Byte-wise string order, as in Go. *)
Definition str_leb (a b : string) : bool := String.leb a b.
Definition sort_strings : list string -> list string := sort_by str_leb.

Lemma str_leb_total a b : str_leb a b = true \/ str_leb b a = true.
Proof. apply String.leb_total. Qed.

Lemma str_leb_trans a b c : str_leb a b = true -> str_leb b c = true -> str_leb a c = true.
Proof.
  intros H1 H2. pose proof (transitivity (R := String.le) (x := a) (y := b) (z := c)) as T.
  unfold String.le, str_leb in *. rewrite !Is_true_true in T. auto.
Qed.

Lemma str_leb_antisym a b : str_leb a b = true -> str_leb b a = true -> a = b.
Proof. apply String.leb_antisym. Qed.

(** Two sorted lists with the same elements are equal. *)
Lemma strongly_sorted_perm_eq l1 l2 :
  StronglySorted (fun a b => str_leb a b = true) l1 ->
  StronglySorted (fun a b => str_leb a b = true) l2 ->
  l1 ≡ₚ l2 -> l1 = l2.
Proof.
  intros H1 H2 HP.
  apply (StronglySorted_unique_strong (fun a b => str_leb a b = true)); [|done..].
  intros; by apply str_leb_antisym.
Qed.

Lemma sort_strings_perm_eq l1 l2 : sort_strings l1 = sort_strings l2 <-> l1 ≡ₚ l2.
Proof.
  split.
  - unfold sort_strings. intros E. by rewrite <- (sort_by_perm str_leb l1), <- (sort_by_perm str_leb l2), E.
  - intros HP. apply strongly_sorted_perm_eq;
      try (apply sort_by_sorted; [apply str_leb_total | apply str_leb_trans]).
    unfold sort_strings. by rewrite !sort_by_perm.
Qed.

Lemma filter_perm {A} (f : A -> bool) (l l' : list A) :
  l ≡ₚ l' -> List.filter f l ≡ₚ List.filter f l'.
Proof.
  induction 1; simpl; repeat case_match; try done.
  - by constructor.
  - by constructor.
  - by etransitivity.
Qed.

(** ** Association lists

    A Go map whose iteration order a computation may see is a list of pairs in
    the order of one iteration; [assoc] is the map lookup. *)
Fixpoint assoc {V} (k : string) (l : list (string * V)) : option V :=
  match l with
  | [] => None
  | (k', v) :: l' => if bool_decide (k = k') then Some v else assoc k l'
  end.

Lemma assoc_elem_of {V} k (l : list (string * V)) v : assoc k l = Some v -> (k, v) ∈ l.
Proof.
  induction l as [|[k' v'] l IH]; simpl; [done|]. case_bool_decide; intros.
  - simplify_eq. left.
  - right; auto.
Qed.

(** ** Optional pointers *)
Definition default_str (p : option string) : string := match p with Some s => s | None => "" end.
