(* ===== verification/Errors.v ===== *)
(** * Errors: Go's error values as the provider builds and inspects them

    The package-level sentinels, the typed error structs of
    [internal/clients/timeweb/errors.go],
    [internal/controller/shared/resolver/errors.go] and
    [internal/clients/rgwiam/iam.go], their [Error()] text and the
    [errors.Is] search over wrapped errors. *)

From S2P Require Import Prelude.

(** The package-level [errors.New] values callers compare against. *)
Inductive sentinel : Type :=
| ErrNotFound
| ErrTransient
| ErrPresetNotFound
| ErrPresetAmbiguous
| ErrNoConfiguratorAvailable
| ErrDimensionValueNotFound
| ErrCatalogUnauthorized
| ErrCatalogTransient
| ErrInvalidInput
| ErrUnknownDimension
| ErrDimensionFetcherUnwired
| ErrImmutableFieldChange
| ErrSizingSwitchRequiresRecreate
| ErrInvalidProviderConfigRef
| ErrTargetNotFound
| ErrTargetNotReady
| ErrK8sTargetNotFound
| ErrK8sTargetNotReady
| ErrServerTargetNotFound
| ErrServerTargetNotReady
| ErrNetworkLocationMismatch
| ErrOriginNotReady
| ErrVersionDowngrade
| ErrVersionLateral
| ErrDuplicateRule
| ErrNoSuchEntity
| ErrIAMTransient
| ErrStorageClassMismatch
| ErrS3TargetNotFound
| ErrS3TargetNotReady
| ErrDuplicateBucket
| ErrGrantSpec
| ErrCredentialsUnavailable.

#[export] Instance sentinel_eq_dec : EqDecision sentinel.
Proof. solve_decision. Defined.

Definition sentinel_text (s : sentinel) : string :=
  match s with
  | ErrNotFound => "timeweb: resource not found"
  | ErrTransient => "timeweb: transient error"
  | ErrPresetNotFound => "resolver: preset not found"
  | ErrPresetAmbiguous => "resolver: preset slug ambiguous"
  | ErrNoConfiguratorAvailable => "resolver: no configurator available"
  | ErrDimensionValueNotFound => "resolver: dimension value not found"
  | ErrCatalogUnauthorized => "resolver: catalog endpoint denied (401/403)"
  | ErrCatalogTransient => "resolver: catalog transient upstream failure"
  | ErrInvalidInput => "resolver: input type does not match dimension kind"
  | ErrUnknownDimension => "resolver: unknown dimension"
  | ErrDimensionFetcherUnwired =>
      "resolver: dimension registered but fetcher not wired (forward-compat stub)"
  | ErrImmutableFieldChange => "immutable field change"
  | ErrSizingSwitchRequiresRecreate => "sizing variant switch requires recreate"
  | ErrInvalidProviderConfigRef => "invalid spec.providerConfigRef"
  | ErrTargetNotFound => "network: referenced MR not found in same namespace"
  | ErrTargetNotReady => "network: referenced MR not yet ready"
  | ErrK8sTargetNotFound => "kubernetes: referenced MR not found in same namespace"
  | ErrK8sTargetNotReady => "kubernetes: referenced MR not yet ready"
  | ErrServerTargetNotFound => "compute/server: referenced MR not found in same namespace"
  | ErrServerTargetNotReady => "compute/server: referenced MR not yet ready (status.atProvider.upstreamID is empty)"
  | ErrNetworkLocationMismatch => "compute/server: referenced Network location does not match Server location"
  | ErrOriginNotReady => "cdn: origin is not resolvable yet"
  | ErrVersionDowngrade => "kubernetes/cluster: k8s version downgrade is not supported"
  | ErrVersionLateral =>
      "kubernetes/cluster: lateral version change (same semver, different build metadata) is not supported — use the exact catalog version string"
  | ErrDuplicateRule => "firewall: duplicate rule (same direction+protocol+port+cidr)"
  | ErrNoSuchEntity => "rgwiam: no such entity"
  | ErrIAMTransient => "rgwiam: transient error"
  | ErrStorageClassMismatch => "s3bucket: storage class mismatch"
  | ErrS3TargetNotFound => "s3user: referenced S3Bucket not found in same namespace"
  | ErrS3TargetNotReady => "s3user: referenced S3Bucket not yet ready"
  | ErrDuplicateBucket => "s3user: duplicate bucket in bucketAccess"
  | ErrGrantSpec => "s3user: each bucketAccess entry needs exactly one of bucketRef/bucketName"
  | ErrCredentialsUnavailable => "registry credentials not available"
  end.

(** Values of the [map[string]any] filter maps. *)
Inductive any_val : Type :=
| AStr (s : string)
| ABool (b : bool).

#[export] Instance any_val_eq_dec : EqDecision any_val.
Proof. solve_decision. Defined.

Definition fmt_v (v : any_val) : string :=
  match v with AStr s => s | ABool b => if b then "true" else "false" end.

(** [fmt]'s [%v] on a map: keys sorted. *)
Definition fmt_map {V} (render : V -> string) (m : list (string * V)) : string :=
  "map[" +:+ join " " ((fun kv => kv.1 +:+ ":" +:+ render kv.2) <$>
                       sort_by (fun a b => str_leb a.1 b.1) m) +:+ "]".

Record PresetNotFoundError := {
  pnf_Slug : string;
  pnf_ValidSlugs : list string;
  pnf_DimensionID : string;
  pnf_Location : string }.

Record PresetAmbiguousError := {
  pa_Slug : string;
  pa_UpstreamIDs : list Z;
  pa_DimensionID : string;
  pa_Disambiguate : string }.

Record ConfiguratorRejection := {
  cr_UpstreamID : Z;
  cr_Reason : string }.

Record NoConfiguratorAvailableError := {
  nc_Filters : list (string * any_val);
  nc_Sizing : list (string * Z);
  nc_ClosestRejected : ConfiguratorRejection;
  nc_DimensionID : string }.

Record DimensionValueNotFoundError := {
  dv_Value : string;
  dv_ValidValues : list string;
  dv_DimensionID : string }.

(** [timeweb.APIError]. *)
Record APIError := {
  api_StatusCode : Z;
  api_Code : string;
  api_Message : string }.

(** [rgwiam.QueryError]. *)
Record QueryError := {
  q_StatusCode : Z;
  q_Code : string;
  q_Message : string }.

#[local] Set Warnings "-register-all".

(** Error values. [Errorf] is [fmt.Errorf] with its rendered text and the
    errors its [%w] verbs wrap; [ErrorString] is an [errors.New] or a
    [fmt.Errorf] without [%w] that no caller compares against. *)
Inductive error : Type :=
| Sentinel (s : sentinel)
| ErrorString (msg : string)
| Errorf (msg : string) (wrapped : list error)
| EAPI (e : APIError)
| ETransient (StatusCode : Z) (Reason : string) (Underlying : option error)
| EPresetNotFound (e : PresetNotFoundError)
| EPresetAmbiguous (e : PresetAmbiguousError)
| ENoConfigurator (e : NoConfiguratorAvailableError)
| EDimensionValue (e : DimensionValueNotFoundError)
| EDimensionNotRegistered (Name : string)
| EQuery (e : QueryError).

(** A list joined up to twenty entries. *)
Definition maxSampleValues : nat := 20.

Definition joinSample (values : list string) : string :=
  match values with
  | [] => "<none>"
  | _ =>
      if (length values <=? maxSampleValues)%nat
      then join ", " values
      else join ", " (take maxSampleValues values) +:+ ", …"
  end.

Definition PresetNotFound_text (e : PresetNotFoundError) : string :=
  if bool_decide (pnf_Location e = "") then
    sentinel_text ErrPresetNotFound +:+ ": slug " +:+ quote (pnf_Slug e) +:+
    " in dimension " +:+ quote (pnf_DimensionID e) +:+
    " does not match any upstream entry (valid: " +:+ joinSample (pnf_ValidSlugs e) +:+ ")"
  else
    sentinel_text ErrPresetNotFound +:+ ": slug " +:+ quote (pnf_Slug e) +:+
    " in dimension " +:+ quote (pnf_DimensionID e) +:+
    " does not match any upstream entry for location " +:+ quote (pnf_Location e) +:+
    " (valid: " +:+ joinSample (pnf_ValidSlugs e) +:+ ")".

Definition PresetAmbiguous_text (e : PresetAmbiguousError) : string :=
  sentinel_text ErrPresetAmbiguous +:+ ": slug " +:+ quote (pa_Slug e) +:+
  " in dimension " +:+ quote (pa_DimensionID e) +:+
  " matches upstream IDs " +:+ fmt_list (fmt_d <$> pa_UpstreamIDs e) +:+
  "; disambiguate with " +:+ quote (pa_Disambiguate e).

Definition NoConfigurator_text (e : NoConfiguratorAvailableError) : string :=
  sentinel_text ErrNoConfiguratorAvailable +:+ ": dimension " +:+ quote (nc_DimensionID e) +:+
  " rejected inputs (filters=" +:+ fmt_map fmt_v (nc_Filters e) +:+
  ", sizing=" +:+ fmt_map fmt_d (nc_Sizing e) +:+ "); closest was upstream_id=" +:+
  fmt_d (cr_UpstreamID (nc_ClosestRejected e)) +:+
  " (" +:+ cr_Reason (nc_ClosestRejected e) +:+ ")".

Definition DimensionValue_text (e : DimensionValueNotFoundError) : string :=
  sentinel_text ErrDimensionValueNotFound +:+ ": value " +:+ quote (dv_Value e) +:+
  " is not in dimension " +:+ quote (dv_DimensionID e) +:+ "'s upstream set (valid: " +:+
  joinSample (dv_ValidValues e) +:+ ")".

Definition APIError_text (e : APIError) : string :=
  if bool_decide (api_Code e = "") then
    "timeweb api: " +:+ fmt_d (api_StatusCode e) +:+ ": " +:+ api_Message e
  else
    "timeweb api: " +:+ fmt_d (api_StatusCode e) +:+ " " +:+ api_Code e +:+ ": " +:+ api_Message e.

(** [rgwiam]'s hand-written [itoa]: digits are written right to left into a
    buffer; the loop runs while the (wrapped) value is positive. *)
Fixpoint itoa_loop (fuel : nat) (n : Z) (buf : string) : string :=
  match fuel with
  | O => buf
  | S f => if n >? 0 then itoa_loop f (n / 10) (String (byte_of (48 + n mod 10)) buf) else buf
  end.

Definition itoa (n : Z) : string :=
  if n =? 0 then "0"
  else if n <? 0 then "-" +:+ itoa_loop 20 (int64_wrap (- n)) ""
  else itoa_loop 20 n "".

Definition QueryError_text (e : QueryError) : string :=
  "rgwiam: IAM query error: code=" +:+ q_Code e +:+ " status=" +:+ itoa (q_StatusCode e) +:+
  " msg=" +:+ q_Message e.

(** [err.Error()]. *)
Fixpoint Error (e : error) : string :=
  match e with
  | Sentinel s => sentinel_text s
  | ErrorString m => m
  | Errorf m _ => m
  | EAPI a => APIError_text a
  | ETransient _ r (Some u) => "timeweb transient (" +:+ r +:+ "): " +:+ Error u
  | ETransient _ r None => "timeweb transient (" +:+ r +:+ ")"
  | EPresetNotFound x => PresetNotFound_text x
  | EPresetAmbiguous x => PresetAmbiguous_text x
  | ENoConfigurator x => NoConfigurator_text x
  | EDimensionValue x => DimensionValue_text x
  | EDimensionNotRegistered n => sentinel_text ErrUnknownDimension +:+ ": " +:+ n
  | EQuery q => QueryError_text q
  end.

(** [QueryError.Is]: which IAM failures count as transient. *)
Definition QueryError_transient (q : QueryError) : bool :=
  (q_StatusCode q =? 429) || (q_StatusCode q =? 0) ||
  ((500 <=? q_StatusCode q) && (q_StatusCode q <=? 599)).

(** [errors.Is(err, target)]: the error itself, its [Is] method, then what it
    wraps. *)
Fixpoint error_is (e : error) (t : sentinel) : bool :=
  match e with
  | Sentinel s => bool_decide (s = t)
  | ErrorString _ => false
  | Errorf _ ws => existsb (fun w => error_is w t) ws
  | EAPI _ => false
  | ETransient _ _ u =>
      bool_decide (t = ErrTransient) ||
      match u with Some e' => error_is e' t | None => false end
  | EPresetNotFound _ => bool_decide (ErrPresetNotFound = t)
  | EPresetAmbiguous _ => bool_decide (ErrPresetAmbiguous = t)
  | ENoConfigurator _ => bool_decide (ErrNoConfiguratorAvailable = t)
  | EDimensionValue _ => bool_decide (ErrDimensionValueNotFound = t)
  | EDimensionNotRegistered _ => bool_decide (ErrUnknownDimension = t)
  | EQuery q => bool_decide (t = ErrIAMTransient) && QueryError_transient q
  end.

(** [errors.As(err, &apiErr)] for a [*timeweb.APIError]. *)
Fixpoint as_api_error (e : error) : option APIError :=
  match e with
  | EAPI a => Some a
  | Errorf _ ws =>
      fold_right (fun w acc => match as_api_error w with Some a => Some a | None => acc end) None ws
  | ETransient _ _ (Some u) => as_api_error u
  | _ => None
  end.

(** [fmt.Errorf("<pre>%w", err)]. *)
Definition wrap_pre (pre : string) (e : error) : error := Errorf (pre +:+ Error e) [e].

(** [fmt.Errorf("%w<post>", err)]. *)
Definition wrap_post (e : error) (post : string) : error := Errorf (Error e +:+ post) [e].

Lemma error_is_wrap_pre p e t : error_is (wrap_pre p e) t = error_is e t.
Proof. simpl. by rewrite orb_false_r. Qed.

Lemma error_is_wrap_post p e t : error_is (wrap_post e p) t = error_is e t.
Proof. simpl. by rewrite orb_false_r. Qed.

#[export] Hint Rewrite error_is_wrap_pre error_is_wrap_post : go_rw.

Lemma pretty_char_byte (d : N) :
  (d < 10)%N -> byte_of (48 + Z.of_N d) = pretty.pretty_N_char d.
Proof.
  intros H.
  assert (d = 0 \/ d = 1 \/ d = 2 \/ d = 3 \/ d = 4 \/ d = 5 \/ d = 6 \/ d = 7 \/ d = 8 \/ d = 9)%N
    as Hd by lia.
  repeat (destruct Hd as [->|Hd]; [by vm_compute|]). by subst.
Qed.

(** Twenty digits are enough for every value the buffer can receive: [itoa]
    renders what [strconv.Itoa] would, on every [int] but the most negative. *)
Lemma itoa_loop_pretty : forall fuel (x : N) s,
  (x < 10 ^ N.of_nat fuel)%N -> itoa_loop fuel (Z.of_N x) s = pretty.pretty_N_go x s.
Proof.
  induction fuel as [|f IH]; intros x s Hx.
  - simpl in *. assert (x = 0%N) as -> by lia. done.
  - simpl. destruct (Z.of_N x >? 0) eqn:E.
    + rewrite pretty.pretty_N_go_step by lia.
      replace (Z.of_N x / 10) with (Z.of_N (x / 10)) by (by rewrite N2Z.inj_div).
      replace (Z.of_N x mod 10) with (Z.of_N (x mod 10)) by (by rewrite N2Z.inj_mod).
      rewrite pretty_char_byte by (by apply N.mod_lt).
      apply IH, N.Div0.div_lt_upper_bound. rewrite Nat2N.inj_succ, N.pow_succ_r' in Hx. lia.
    + assert (x = 0%N) as -> by lia. done.
Qed.

Lemma itoa_fmt_d n : int64_min < n <= int64_max -> itoa n = fmt_d n.
Proof.
  unfold int64_min, int64_max, itoa, fmt_d. intros Hn.
  destruct n as [|p|p]; [done| |].
  - change (Z.pos p =? 0) with false. change (Z.pos p <? 0) with false. cbv iota.
    change (Z.pos p) with (Z.of_N (N.pos p)). rewrite itoa_loop_pretty; [done|].
    change (10 ^ N.of_nat 20)%N with (100000000000000000000)%N. lia.
  - change (Z.neg p =? 0) with false. change (Z.neg p <? 0) with true. cbv iota.
    rewrite int64_wrap_id by (unfold int64_min, int64_max; lia).
    change (- Z.neg p) with (Z.of_N (N.pos p)). rewrite itoa_loop_pretty; [done|].
    change (10 ^ N.of_nat 20)%N with (100000000000000000000)%N. lia.
Qed.
