(* ===== verification/Timeweb.v ===== *)
(** * Timeweb: the upstream client's response classification

    [internal/clients/timeweb/errors.go], [decode.go] and the response half of
    the call helpers: how an HTTP answer of the Timeweb API becomes success, a
    not-found, a transient or a terminal error. *)

From S2P Require Import Prelude Errors.

(** ** JSON bodies *)

#[local] Set Warnings "-register-all".

Inductive json : Type :=
| JNull
| JBool (b : bool)
| JNum (text : string)
| JStr (s : string)
| JArr (l : list json)
| JObj (fields : list (string * json)).

(** What [io.ReadAll(io.LimitReader(resp.Body, 64*1024))] gives: the read
    failed, or the bytes read together with the value [encoding/json] parses
    them to ([None]: not valid JSON). *)
Inductive body : Type :=
| BodyReadError
| BodyBytes (raw : string) (parsed : option json).

(** [errorResponseBody]; [message] and [status_code] are decoded as [any]. *)
Record errorResponseBody := {
  StatusCodeField : option json;
  ErrorCode : string;
  MessageField : option json;
  ResponseID : string }.

Definition zero_error_body : errorResponseBody :=
  {| StatusCodeField := None; ErrorCode := ""; MessageField := None; ResponseID := "" |}.

(** One object member assigned by [json.Unmarshal]: keys match the field tags
    case-insensitively, later members overwrite earlier ones, [null] leaves a
    string field as it is, another type is an error ([None]). *)
Definition set_error_field (b : errorResponseBody) (k : string) (v : json) : option errorResponseBody :=
  if equal_fold k "status_code" then
    Some {| StatusCodeField := Some v; ErrorCode := ErrorCode b;
            MessageField := MessageField b; ResponseID := ResponseID b |}
  else if equal_fold k "error_code" then
    match v with
    | JStr s => Some {| StatusCodeField := StatusCodeField b; ErrorCode := s;
                        MessageField := MessageField b; ResponseID := ResponseID b |}
    | JNull => Some b
    | _ => None
    end
  else if equal_fold k "message" then
    Some {| StatusCodeField := StatusCodeField b; ErrorCode := ErrorCode b;
            MessageField := Some v; ResponseID := ResponseID b |}
  else if equal_fold k "response_id" then
    match v with
    | JStr s => Some {| StatusCodeField := StatusCodeField b; ErrorCode := ErrorCode b;
                        MessageField := MessageField b; ResponseID := s |}
    | JNull => Some b
    | _ => None
    end
  else Some b.

Fixpoint set_error_fields (b : errorResponseBody) (fs : list (string * json)) : option errorResponseBody :=
  match fs with
  | [] => Some b
  | (k, v) :: fs' =>
      match set_error_field b k v with
      | Some b' => set_error_fields b' fs'
      | None => None
      end
  end.

(** [json.Unmarshal(body, &b)] into an [errorResponseBody]. *)
Definition unmarshal_error_body (parsed : option json) : option errorResponseBody :=
  match parsed with
  | Some (JObj fs) => set_error_fields zero_error_body fs
  | Some JNull => Some zero_error_body
  | _ => None
  end.

(** ** HTTP responses *)

Record http_response := { StatusCode : Z; Body : body }.

(** [http.StatusText]. *)
Definition StatusText (code : Z) : string :=
  default "" (List.find (fun p => p.1 =? code)
    [(100, "Continue"); (101, "Switching Protocols"); (102, "Processing"); (103, "Early Hints");
     (200, "OK"); (201, "Created"); (202, "Accepted"); (203, "Non-Authoritative Information");
     (204, "No Content"); (205, "Reset Content"); (206, "Partial Content"); (207, "Multi-Status");
     (208, "Already Reported"); (226, "IM Used"); (300, "Multiple Choices");
     (301, "Moved Permanently"); (302, "Found"); (303, "See Other"); (304, "Not Modified");
     (305, "Use Proxy"); (307, "Temporary Redirect"); (308, "Permanent Redirect");
     (400, "Bad Request"); (401, "Unauthorized"); (402, "Payment Required"); (403, "Forbidden");
     (404, "Not Found"); (405, "Method Not Allowed"); (406, "Not Acceptable");
     (407, "Proxy Authentication Required"); (408, "Request Timeout"); (409, "Conflict");
     (410, "Gone"); (411, "Length Required"); (412, "Precondition Failed");
     (413, "Request Entity Too Large"); (414, "Request URI Too Long");
     (415, "Unsupported Media Type"); (416, "Requested Range Not Satisfiable");
     (417, "Expectation Failed"); (418, "I'm a teapot"); (421, "Misdirected Request");
     (422, "Unprocessable Entity"); (423, "Locked"); (424, "Failed Dependency");
     (425, "Too Early"); (426, "Upgrade Required"); (428, "Precondition Required");
     (429, "Too Many Requests"); (431, "Request Header Fields Too Large");
     (451, "Unavailable For Legal Reasons"); (500, "Internal Server Error");
     (501, "Not Implemented"); (502, "Bad Gateway"); (503, "Service Unavailable");
     (504, "Gateway Timeout"); (505, "HTTP Version Not Supported");
     (506, "Variant Also Negotiates"); (507, "Insufficient Storage"); (508, "Loop Detected");
     (510, "Not Extended"); (511, "Network Authentication Required")] ≫= fun p => Some p.2).

(** Which statuses are retryable. *)
Definition isTransientStatus (code : Z) : bool :=
  (code =? 408) || (code =? 409) || (code =? 425) || (code =? 429) ||
  ((500 <=? code) && (code <? 600)).

(** A [oneOf<string, []string>] message flattened to one line. *)
Fixpoint message_parts (items : list json) : list string :=
  match items with
  | [] => []
  | JStr s :: items' =>
      if bool_decide (trim_space s = "") then message_parts items'
      else trim_space s :: message_parts items'
  | _ :: items' => message_parts items'
  end.

Definition stringifyMessage (v : option json) : string :=
  match v with
  | Some (JStr s) => trim_space s
  | Some (JArr items) => join "; " (message_parts items)
  | _ => ""
  end.

(** *** Secret scrubbing *)

Definition pem_marker : string := "-----BEGIN".

(** The white space of a regular expression's [\s]. *)
Fixpoint skip_ws (s : string) : string :=
  match s with
  | String c s' =>
      if existsb (Z.eqb (byte_val c)) [9; 10; 12; 13; 32] then skip_ws s' else s
  | EmptyString => EmptyString
  end.

Definition secret_names : list string :=
  ["private_key"; "secret_key"; "access_key"; "secret"; "password"; "token"].

(** [secretKeyPattern] matched at the start of [s]: the member name and what
    follows the member. *)
Definition match_secret (s : string) : option (string * string) :=
  match s with
  | String q s1 =>
      if bool_decide (q = dquote) then
        match index_byte s1 dquote with
        | None => None
        | Some n =>
            let name := take_str n s1 in
            if existsb (fun k => equal_fold name k) secret_names then
              match skip_ws (drop_str (S n) s1) with
              | String c s2 =>
                  if byte_val c =? 58 then
                    match skip_ws s2 with
                    | String q2 s3 =>
                        if bool_decide (q2 = dquote) then
                          match index_byte s3 dquote with
                          | Some m => Some (name, drop_str (S m) s3)
                          | None => None
                          end
                        else None
                    | EmptyString => None
                    end
                  else None
              | EmptyString => None
              end
            else None
        end
      else None
  | EmptyString => None
  end.

Definition redacted_member (name : string) : string :=
  String dquote name +:+ String dquote (String (byte_of 58) (String dquote "[redacted]")) +:+
  String dquote EmptyString.

(** [secretKeyPattern.ReplaceAllString]: leftmost matches, left to right; every
    round consumes at least one byte, so the length of the text is enough
    fuel. *)
Fixpoint redact_fuel (n : nat) (s : string) : string :=
  match n with
  | O => s
  | S n' =>
      match match_secret s with
      | Some (name, rest) => redacted_member name +:+ redact_fuel n' rest
      | None =>
          match s with
          | EmptyString => EmptyString
          | String c s' => String c (redact_fuel n' s')
          end
      end
  end.

Definition redact (s : string) : string := redact_fuel (String.length s) s.

Definition scrubSecrets (s : string) : string :=
  redact (match index_str s pem_marker with
          | Some i => trim_space (take_str i s) +:+ " [PEM block redacted]"
          | None => s
          end).

(** *** The three readers of an error body *)

(** The canonical envelope of a 404: [error_code] and the rendered detail. *)
Definition readNotFoundEnvelope (resp : http_response) : string * string :=
  match Body resp with
  | BodyReadError => ("", "")
  | BodyBytes raw parsed =>
      if bool_decide (raw = "") then ("", "")
      else match unmarshal_error_body parsed with
           | None => ("", "")
           | Some b =>
               let msg := stringifyMessage (MessageField b) in
               let detail :=
                 if negb (bool_decide (msg = "")) && negb (bool_decide (ResponseID b = ""))
                 then msg +:+ " (response_id: " +:+ ResponseID b +:+ ")"
                 else if negb (bool_decide (msg = "")) then msg
                 else if negb (bool_decide (ResponseID b = ""))
                 then "response_id: " +:+ ResponseID b
                 else "" in
               (ErrorCode b, detail)
           end
  end.

Definition readErrorMessage (resp : http_response) : string :=
  match Body resp with
  | BodyReadError => ""
  | BodyBytes raw parsed =>
      if bool_decide (raw = "") then ""
      else
        let m := match unmarshal_error_body parsed with
                 | Some b => stringifyMessage (MessageField b)
                 | None => ""
                 end in
        if negb (bool_decide (m = "")) then m
        else
          let s := trim_space raw in
          if bool_decide (s = "") then ""
          else take_str 300 (scrubSecrets s)
  end.

Definition decodeAPIError (resp : http_response) : APIError :=
  let apiErr := {| api_StatusCode := StatusCode resp; api_Code := "";
                   api_Message := StatusText (StatusCode resp) |} in
  match Body resp with
  | BodyReadError => apiErr
  | BodyBytes raw parsed =>
      if bool_decide (raw = "") then apiErr
      else match unmarshal_error_body parsed with
           | None => apiErr
           | Some b =>
               let m := stringifyMessage (MessageField b) in
               {| api_StatusCode := StatusCode resp;
                  api_Code := ErrorCode b;
                  api_Message := if bool_decide (m = "") then StatusText (StatusCode resp) else m |}
           end
  end.

(** ** Classification *)

(** [Classify]: [None] is Go's [nil]; the argument is [nil] for no response. *)
Definition Classify (resp : option http_response) : option error :=
  match resp with
  | None => Some (ETransient 0 "nil response" None)
  | Some r =>
      if (200 <=? StatusCode r) && (StatusCode r <? 300) then None
      else if StatusCode r =? 404 then
        let (code, detail) := readNotFoundEnvelope r in
        if bool_decide (code = "") then
          Some (ETransient 404
            "404 without canonical error envelope (suspected upstream flap; not treating as deleted)"
            None)
        else if negb (bool_decide (detail = "")) then
          Some (wrap_post (Sentinel ErrNotFound) (": " +:+ detail))
        else Some (Sentinel ErrNotFound)
      else if isTransientStatus (StatusCode r) then
        let reason := StatusText (StatusCode r) in
        let msg := readErrorMessage r in
        Some (ETransient (StatusCode r)
                (if negb (bool_decide (msg = "")) then reason +:+ ": " +:+ msg else reason) None)
      else
        let e := decodeAPIError r in
        if (api_StatusCode e =? 403) && bool_decide (api_Code e = "networks_location_mismatch")
        then Some (ETransient (api_StatusCode e)
               ("Forbidden (networks_location_mismatch — newly created VPCs settle in ~1 min): "
                +:+ api_Message e) None)
        else Some (EAPI e)
  end.

(** A transport error, before any response. *)
Definition network_error (e : error) : error := ETransient 0 "network" (Some e).

Definition ClassifyNetworkError (err : option error) : option error :=
  match err with
  | None => None
  | Some e => Some (network_error e)
  end.

(** ** Calls *)

(** What reading and decoding a response body gives for a target type [A]:
    [io.ReadAll] failed, [json.Unmarshal] failed, or a value. The library's
    errors are opaque texts. *)
Inductive payload (A : Type) : Type :=
| ReadFailed (cause : string)
| DecodeFailed (cause : string)
| Decoded (a : A).
Arguments ReadFailed {_} _.
Arguments DecodeFailed {_} _.
Arguments Decoded {_} _.

(** [DecodeBody]. *)
Definition DecodeBody {A} (p : payload A) : result error A :=
  match p with
  | ReadFailed c => Err (wrap_pre "read body: " (ErrorString c))
  | DecodeFailed c => Err (wrap_pre "decode body: " (ErrorString c))
  | Decoded a => Ok a
  end.

(** The outcome of one client call whose body is to be decoded into an [A]: the
    transport failed before any response, or a response arrived. *)
Inductive reply (A : Type) : Type :=
| NetErr (cause : string)
| Reply (resp : http_response) (p : payload A).
Arguments NetErr {_} _.
Arguments Reply {_} _ _.

(** Call, classify, decode: the shape of every read. *)
Definition read_reply {A} (r : reply A) : result error A :=
  match r with
  | NetErr cause => Err (network_error (ErrorString cause))
  | Reply resp p =>
      match Classify (Some resp) with
      | Some e => Err e
      | None => DecodeBody p
      end
  end.

(** Call and classify, the body discarded: the shape of every write. *)
Definition write_reply {A} (r : reply A) : result error unit :=
  match r with
  | NetErr cause => Err (network_error (ErrorString cause))
  | Reply resp _ =>
      match Classify (Some resp) with
      | Some e => Err e
      | None => Ok tt
      end
  end.

(** ** Properties *)

(** A response that carries the canonical Timeweb error envelope. *)
Definition canonical_envelope (r : http_response) : Prop :=
  exists raw parsed b,
    Body r = BodyBytes raw parsed /\ raw <> "" /\
    unmarshal_error_body parsed = Some b /\ ErrorCode b <> "".

Lemma envelope_code_iff r :
  (readNotFoundEnvelope r).1 <> "" <-> canonical_envelope r.
Proof.
  unfold readNotFoundEnvelope, canonical_envelope.
  destruct (Body r) as [|raw parsed]; simpl.
  { split; [done|]. intros (?&?&?&?&_); done. }
  case_bool_decide as Hraw; simpl.
  { split; [done|]. intros (?&?&?&?&?&_). simplify_eq. }
  destruct (unmarshal_error_body parsed) as [b|] eqn:E; simpl.
  - split; [intros; by exists raw, parsed, b|].
    intros (?&?&?&?&?&?&?). by simplify_eq.
  - split; [done|]. intros (?&?&?&?&?&?&?). simplify_eq.
Qed.

(** Case analysis of [Classify] on the status class. *)
Lemma Classify_cases r :
  (Classify (Some r) = None /\ 200 <= StatusCode r < 300) \/
  (exists e, Classify (Some r) = Some e /\ ~ (200 <= StatusCode r < 300) /\
    ((error_is e ErrNotFound = true /\ error_is e ErrTransient = false /\
      StatusCode r = 404 /\ canonical_envelope r) \/
     (error_is e ErrTransient = true /\ error_is e ErrNotFound = false /\
      (isTransientStatus (StatusCode r) = true \/
       (StatusCode r = 404 /\ ~ canonical_envelope r) \/
       (StatusCode r = 403 /\ api_Code (decodeAPIError r) = "networks_location_mismatch"))) \/
     (e = EAPI (decodeAPIError r) /\ isTransientStatus (StatusCode r) = false /\
      StatusCode r <> 404))).
Proof.
  pose proof (envelope_code_iff r) as HE. unfold Classify.
  destruct (_ && _) eqn:E2; [left; split; [done|lia]|]. right.
  destruct (StatusCode r =? 404) eqn:E4.
  - destruct (readNotFoundEnvelope r) as [code detail]; simpl in HE.
    case_bool_decide as Hc; [|case_bool_decide as Hd]; simpl.
    + eexists; split; [done|]. split; [lia|]. right; left.
      repeat split. right; left. split; [lia|]. rewrite <- HE. auto.
    + eexists; split; [done|]. split; [lia|]. left. split_and!; [done|done|lia|]. by apply HE.
    + eexists; split; [done|]. split; [lia|]. left.
      split_and!; [done|done|lia|]. by apply HE.
  - destruct (isTransientStatus (StatusCode r)) eqn:Et.
    + eexists; split; [done|]. split; [lia|]. right; left. repeat split; auto.
    + destruct (_ && bool_decide _) eqn:Em; (eexists; split; [done|]; split; [lia|]).
      * right; left. repeat split; auto. right; right.
        apply andb_true_iff in Em as [Em1 Em2]. apply bool_decide_eq_true in Em2.
        split; [|done]. unfold decodeAPIError in Em1.
        destruct (Body r); [simpl in Em1; lia|]. case_bool_decide; [simpl in Em1; lia|].
        destruct (unmarshal_error_body _); simpl in Em1; lia.
      * right; right. repeat split; auto. lia.
Qed.

(** C3. A resource is reported as gone ([ErrNotFound]) exactly on a 404 whose
    body is the canonical Timeweb error envelope with an [error_code]; no other
    answer, an edge 404 in particular, is ever read as a deletion. *)
Theorem classify_not_found_iff (r : http_response) (e : error) :
  Classify (Some r) = Some e ->
  (error_is e ErrNotFound = true <-> StatusCode r = 404 /\ canonical_envelope r).
Proof.
  intros HC. destruct (Classify_cases r) as [[H _]|(e' & H & _ & Hc)]; [congruence|].
  assert (e' = e) as -> by congruence.
  destruct Hc as [(?&_&?&?)|[(_&Hn&Hr)|(->&?&?)]].
  - tauto.
  - rewrite Hn. split; [done|]. intros [H4 He].
    destruct Hr as [Ht|[[_ ?]|[? _]]]; [|done|lia]. by rewrite H4 in Ht.
  - simpl. split; [done|]. intros [? _]; done.
Qed.

(** A call fails with [ErrNotFound] only on a canonical 404. *)
Lemma Classify_not_found r e :
  Classify (Some r) = Some e -> error_is e ErrNotFound = true -> StatusCode r = 404 /\ canonical_envelope r.
Proof.
  intros HC He. destruct (Classify_cases r) as [[H _]|(e' & H & _ & Hc)]; [congruence|].
  assert (e' = e) as -> by congruence.
  destruct Hc as [(?&_&?&?)|[(_&Hn&_)|(->&_)]]; [done|congruence|done].
Qed.

Lemma read_reply_not_found {A} (r : reply A) e :
  read_reply r = Err e -> error_is e ErrNotFound = true ->
  exists resp p, r = Reply resp p /\ StatusCode resp = 404 /\ canonical_envelope resp.
Proof.
  destruct r as [c|resp p]; cbn [read_reply write_reply]; [by intros [= <-]|]. destruct (Classify (Some resp)) as [e'|] eqn:E.
  - intros He H. simplify_eq. exists resp, p. split; [done|]. by eapply Classify_not_found.
  - destruct p; simpl; intros; simplify_eq; done.
Qed.

Lemma write_reply_not_found {A} (r : reply A) e :
  write_reply r = Err e -> error_is e ErrNotFound = true ->
  exists resp p, r = Reply resp p /\ StatusCode resp = 404 /\ canonical_envelope resp.
Proof.
  destruct r as [c|resp p]; cbn [read_reply write_reply]; [by intros [= <-]|]. destruct (Classify (Some resp)) as [e'|] eqn:E; [|done].
  intros He H. simplify_eq. exists resp, p. split; [done|]. by eapply Classify_not_found.
Qed.

(** Every failed answer is transient exactly when its status is retryable
    (408, 409, 425, 429, 5xx), or it is a 404 without the canonical envelope, or
    it is the settle-delay [403 networks_location_mismatch]. *)
Theorem classify_transient_iff (r : http_response) (e : error) :
  Classify (Some r) = Some e ->
  (error_is e ErrTransient = true <->
     isTransientStatus (StatusCode r) = true \/
     (StatusCode r = 404 /\ ~ canonical_envelope r) \/
     (StatusCode r = 403 /\ api_Code (decodeAPIError r) = "networks_location_mismatch")).
Proof.
  intros HC. destruct (Classify_cases r) as [[H _]|(e' & H & Hs & Hc)]; [congruence|].
  assert (e' = e) as -> by congruence.
  destruct Hc as [(_&Ht&H4&Hcan)|[(Ht&_&Hr)|(->&Ht&H4)]].
  - rewrite Ht. split; [done|]. rewrite H4.
    intros [?|[[_ ?]|[? _]]]; [by vm_compute|done|lia].
  - tauto.
  - simpl. split; [done|]. intros [?|[[? _]|[H3 Hm]]]; [congruence|lia|].
    exfalso. revert HC. unfold Classify. rewrite H3, Hm. simpl.
    assert (api_StatusCode (decodeAPIError r) = 403) as ->.
    { unfold decodeAPIError. destruct (Body r); [done|]. case_bool_decide; [done|].
      by destruct (unmarshal_error_body _). }
    simpl. congruence.
Qed.

(** *** Scrubbing *)

Fixpoint no_dquote (s : string) : bool :=
  match s with
  | EmptyString => true
  | String c s' => negb (bool_decide (c = dquote)) && no_dquote s'
  end.

Lemma length_skip_ws s : (String.length (skip_ws s) <= String.length s)%nat.
Proof. induction s; [done|]. cbn [skip_ws]. go_case; simpl; lia. Qed.

(** The first quote after a quote-free text closes it. *)
Lemma index_byte_dquote v rest :
  no_dquote v = true -> index_byte (v +:+ String dquote rest) dquote = Some (String.length v).
Proof.
  induction v as [|c v IH]; simpl; intros H.
  - reflexivity.
  - apply andb_true_iff in H as [Hc Hv]. apply negb_true_iff, bool_decide_eq_false in Hc.
    rewrite bool_decide_false by done. by rewrite IH.
Qed.

Lemma match_secret_shrinks s name rest :
  match_secret s = Some (name, rest) -> (String.length rest < String.length s)%nat.
Proof.
  unfold match_secret. intros H. destruct s as [|q s1]; [done|].
  repeat (go_case_in H; try discriminate H). simplify_eq.
  repeat match goal with
  | E : skip_ws ?x = String _ _ |- _ =>
      apply (f_equal String.length) in E; pose proof (length_skip_ws x); cbn [String.length] in E
  end.
  match goal with |- (String.length (drop_str ?m ?t) < _)%nat => pose proof (length_drop_str m t) end.
  match goal with _ : (_ <= String.length (drop_str ?m ?t))%nat |- _ => pose proof (length_drop_str m t) end.
  cbn [String.length] in *. lia.
Qed.

Lemma redact_fuel_enough n s :
  (String.length s <= n)%nat -> redact_fuel n s = redact s.
Proof.
  unfold redact. remember (String.length s) as k eqn:Hk. revert k n Hk.
  enough (forall k n m s, (String.length s <= k)%nat -> (k <= n)%nat -> (k <= m)%nat ->
            redact_fuel n s = redact_fuel m s) as H.
  { intros k n Hk Hn. apply (H k); lia. }
  clear s. induction k as [|k IH]; intros n m s Hs Hn Hm.
  - destruct s; [|simpl in Hs; lia]. by destruct n, m.
  - destruct n as [|n], m as [|m]; try lia. cbn [redact_fuel].
    destruct (match_secret s) as [[name rest]|] eqn:E.
    + apply match_secret_shrinks in E. f_equal. apply IH; lia.
    + destruct s as [|c s]; [done|]. f_equal. simpl in Hs. apply IH; lia.
Qed.

(** The three equations of [redact], without fuel. *)
Lemma redact_match s name rest :
  match_secret s = Some (name, rest) -> redact s = redacted_member name +:+ redact rest.
Proof.
  intros E. pose proof (match_secret_shrinks _ _ _ E) as HL. unfold redact at 1.
  destruct (String.length s) as [|n] eqn:Es; [lia|]. cbn [redact_fuel]. rewrite E.
  f_equal. apply redact_fuel_enough. lia.
Qed.

Lemma redact_skip c s :
  match_secret (String c s) = None -> redact (String c s) = String c (redact s).
Proof. intros E. unfold redact. cbn [String.length redact_fuel]. by rewrite E. Qed.

Lemma redact_no_dquote pre s :
  no_dquote pre = true -> redact (pre +:+ s) = pre +:+ redact s.
Proof.
  induction pre as [|c pre IH]; [done|]. cbn [no_dquote]. intros H. split_and_or.
  cbn [String.append]. rewrite redact_skip; [by rewrite IH|].
  unfold match_secret. by case_bool_decide.
Qed.

(** A JSON string member [name:value], as [encoding/json] writes it. *)
Definition string_member (name value : string) : string :=
  String dquote (name +:+ String dquote (String (byte_of 58) (String dquote
    (value +:+ String dquote EmptyString)))).

Lemma match_string_member name value rest :
  no_dquote name = true -> no_dquote value = true ->
  existsb (fun k => equal_fold name k) secret_names = true ->
  match_secret (string_member name value +:+ rest) = Some (name, rest).
Proof.
  intros Hn Hv Hs. unfold string_member. cbn [String.append].
  cbv beta iota delta [match_secret].
  rewrite bool_decide_true by done. rewrite append_assoc. cbn [String.append].
  rewrite index_byte_dquote by done. rewrite take_str_append, Hs.
  replace (drop_str (S (String.length name)) _)
    with (String (byte_of 58) (String dquote (value +:+ String dquote rest))).
  2: { clear. induction name; simpl; [|done]. by rewrite append_assoc. }
  change (skip_ws (String (byte_of 58) ?t)) with (String (byte_of 58) t).
  cbv beta iota. assert ((byte_val (byte_of 58) =? 58) = true) as -> by reflexivity.
  change (skip_ws (String dquote ?t)) with (String dquote t). cbv beta iota.
  rewrite bool_decide_true, index_byte_dquote by done.
  do 2 f_equal. clear. induction value; simpl; done.
Qed.

(** A secret-named JSON string member is scrubbed whole: whatever its value
    (free of quotes), it is replaced by the redaction marker, and the text before
    and after it is processed independently of the value. *)
Theorem redact_secret_member (pre name value rest : string) :
  no_dquote pre = true -> no_dquote name = true -> no_dquote value = true ->
  existsb (fun k => equal_fold name k) secret_names = true ->
  redact (pre +:+ string_member name value +:+ rest) =
    pre +:+ redacted_member name +:+ redact rest.
Proof.
  intros Hp Hn Hv Hs. rewrite redact_no_dquote by done. f_equal.
  apply redact_match. by apply match_string_member.
Qed.

Lemma has_prefix_extend p a k1 k2 :
  (String.length p <= String.length a)%nat ->
  has_prefix p (a +:+ k1) = has_prefix p (a +:+ k2).
Proof.
  unfold has_prefix. revert a. induction p as [|c p IH]; intros [|d a]; simpl; intros H;
    try done; try lia; [by destruct k1, k2|].
  destruct (Ascii.ascii_dec c d); [|done]. apply IH. lia.
Qed.

Lemma has_prefix_refl p k : has_prefix p (p +:+ k) = true.
Proof.
  unfold has_prefix. induction p as [|c p IH]; simpl; [by destruct k|].
  destruct (Ascii.ascii_dec c c); done.
Qed.

(** Where the first marker of a text stands depends on nothing after it. *)
Lemma index_str_marker pre m k1 k2 :
  index_str (pre +:+ m +:+ k1) m = index_str (pre +:+ m +:+ k2) m /\
  exists i, index_str (pre +:+ m +:+ k1) m = Some i /\ (i <= String.length pre)%nat.
Proof.
  induction pre as [|c pre IH].
  - cbn [String.append]. assert (forall k, index_str (m +:+ k) m = Some O) as H.
    { intros k. pose proof (has_prefix_refl m k) as HP.
      destruct (m +:+ k); cbn [index_str]; by rewrite HP. }
    rewrite !H. split; [done|]. by exists O.
  - destruct IH as [IHe (i & IHi & Hle)]. cbn [String.append index_str].
    pose proof (has_prefix_extend m (String c (pre +:+ m)) k1 k2) as HP.
    cbn [String.append] in HP. rewrite !append_assoc in HP.
    rewrite HP by (cbn [String.length]; rewrite length_append; lia).
    destruct (has_prefix m (String c (pre +:+ m +:+ k2))).
    + split; [done|]. exists O. split; [done|lia].
    + rewrite IHe in IHi |- *. rewrite IHi. split; [done|]. exists (S i). simpl. split; [done|lia].
Qed.

(** Nothing that follows a PEM header reaches a scrubbed message: two bodies
    that agree up to and including the header are scrubbed to the same text. *)
Theorem scrub_pem_noninterference (pre k1 k2 : string) :
  scrubSecrets (pre +:+ pem_marker +:+ k1) = scrubSecrets (pre +:+ pem_marker +:+ k2).
Proof.
  unfold scrubSecrets. destruct (index_str_marker pre pem_marker k1 k2) as [He (i & Hi & Hle)].
  rewrite <- He, Hi. do 3 f_equal. clear -Hle. revert i Hle.
  induction pre as [|c pre IH]; intros [|i] Hle; simpl in *; try done; try lia.
  f_equal. apply IH. lia.
Qed.

(** A secret value that contains an escaped quote is redacted only up to it: the
    pattern's value part stops at the first quote byte. *)
Definition escaped_body : string :=
  String dquote "password" +:+ String dquote (String (byte_of 58) (String dquote "ab")) +:+
  bytes [92; 34] +:+ "TAIL" +:+ String dquote EmptyString.

Theorem scrub_escaped_quote_leaks :
  contains_str (scrubSecrets escaped_body) "TAIL" = true.
Proof. by vm_compute. Qed.

(** ** Witnesses *)

Definition not_found_response : http_response :=
  {| StatusCode := 404;
     Body := BodyBytes "{}" (Some (JObj [("error_code", JStr "not_found")])) |}.

Lemma classify_not_found_iff_witness :
  Classify (Some not_found_response) = Some (Sentinel ErrNotFound) /\ canonical_envelope not_found_response.
Proof.
  assert (Classify (Some not_found_response) = Some (Sentinel ErrNotFound)) as H by (vm_compute; reflexivity).
  split; [exact H|]. by apply (classify_not_found_iff not_found_response _ H).
Defined.

Lemma classify_transient_iff_witness :
  exists e, error_is e ErrTransient = true <->
     isTransientStatus 503 = true \/
     (503 = 404 /\ ~ canonical_envelope {| StatusCode := 503; Body := BodyReadError |}) \/
     (503 = 403 /\ api_Code (decodeAPIError {| StatusCode := 503; Body := BodyReadError |})
                     = "networks_location_mismatch").
Proof.
  eexists. apply (classify_transient_iff {| StatusCode := 503; Body := BodyReadError |}).
  vm_compute. reflexivity.
Defined.

Lemma redact_secret_member_witness :
  redact ("{" +:+ string_member "password" "hunter2" +:+ "}") =
    "{" +:+ redacted_member "password" +:+ redact "}".
Proof. apply redact_secret_member; vm_compute; reflexivity. Defined.
