(* ===== verification/Slug.v ===== *)
(** * Slug: preset matching by slug and by size

    [internal/controller/shared/resolver/slug.go] and [match_size.go]: the slug
    normal form, the [<base>-<id>] disambiguator, and the two ways an operator
    names an upstream preset. *)

From S2P Require Import Prelude Errors.

Record PresetEntry := {
  UpstreamID : Z;
  DescShort : string;
  Location : string;
  DiskGB : Z;
  StorageClass : string;
  Zone : string }.

#[export] Instance PresetEntry_eq_dec : EqDecision PresetEntry.
Proof. solve_decision. Defined.

(** ** Normal form *)

Definition dash : ascii := byte_of 45.
Definition is_alnum (c : ascii) : bool := is_lower c || is_digit c.

(** The loop of [normalize], after lower-casing: [prevDash] suppresses a dash.
    A byte of a multi-byte code point is not alphanumeric, so a code point
    gives what its bytes give: at most one dash. *)
Fixpoint normalize_loop (s : string) (prevDash : bool) : string :=
  match s with
  | EmptyString => EmptyString
  | String c s' =>
      if is_alnum c then String c (normalize_loop s' false)
      else if prevDash then normalize_loop s' true
      else String dash (normalize_loop s' true)
  end.

(** [strings.TrimRight(_, "-")]. *)
Fixpoint trim_right_dash (s : string) : string :=
  match s with
  | EmptyString => EmptyString
  | String c s' =>
      match trim_right_dash s' with
      | EmptyString => if bool_decide (c = dash) then EmptyString else String c EmptyString
      | t => String c t
      end
  end.

Definition normalize (s : string) : string :=
  trim_right_dash (normalize_loop (to_lower s) true).

Definition Slugify (descShort location : string) : string :=
  let short := normalize descShort in
  let loc := normalize location in
  if bool_decide (short = "") && bool_decide (loc = "") then ""
  else if bool_decide (loc = "") then short
  else if bool_decide (short = "") then loc
  else short +:+ String dash loc.

Definition SlugWithID (descShort location : string) (id : Z) : string :=
  let base := Slugify descShort location in
  if bool_decide (base = "") then fmt_d id
  else base +:+ String dash (fmt_d id).

(** [Some (base, id)] when the slug ends with a dash and up to 18 digits. *)
Definition splitDisambiguator (s : string) : option (string * Z) :=
  match last_index_byte s dash with
  | None => None
  | Some i =>
      if (i =? 0)%nat || (i =? String.length s - 1)%nat then None
      else
        let suffix := drop_str (S i) s in
        if (18 <? String.length suffix)%nat then None
        else match atoi suffix with
             | Some id => Some (take_str i s, id)
             | None => None
             end
  end.

Definition simplifiedSlug (e : PresetEntry) : string :=
  if negb (bool_decide (Location e = "")) && negb (bool_decide (normalize (DescShort e) = ""))
  then normalize (DescShort e)
  else Slugify (DescShort e) (Location e).

(** ** Matching by slug *)

Definition full_slug_matches (slug : string) (e : PresetEntry) : bool :=
  bool_decide (Slugify (DescShort e) (Location e) = slug).
Definition bare_slug_matches (slug : string) (e : PresetEntry) : bool :=
  bool_decide (normalize (DescShort e) = slug).

(** Step 1: the entry the disambiguator form designates. *)
Definition match_disambiguated (slug : string) (entries : list PresetEntry) : option Z :=
  match splitDisambiguator slug with
  | None => None
  | Some (base, id) =>
      UpstreamID <$> List.find (fun e => (UpstreamID e =? id) &&
                                 bool_decide (Slugify (DescShort e) (Location e) = base)) entries
  end.

(** Steps 2 and 3: full slugs first, bare short slugs only when none matches. *)
Definition slug_matches (slug : string) (entries : list PresetEntry) : list Z :=
  match UpstreamID <$> List.filter (full_slug_matches slug) entries with
  | [] => UpstreamID <$> List.filter (bare_slug_matches slug) entries
  | ms => ms
  end.

Definition disambiguation_hint (slug : string) (entries : list PresetEntry) : string :=
  match List.find (fun e => full_slug_matches slug e || bare_slug_matches slug e) entries with
  | Some e => SlugWithID (DescShort e) (Location e) (UpstreamID e)
  | None => ""
  end.

Definition valid_slugs (entries : list PresetEntry) : list string :=
  List.filter (fun s => negb (bool_decide (s = ""))) (simplifiedSlug <$> entries).

Definition MatchPresetSlug (slug0 : string) (entries : list PresetEntry) (dimensionID : string)
  : result error Z :=
  let slug := normalize slug0 in
  match match_disambiguated slug entries with
  | Some id => Ok id
  | None =>
      match slug_matches slug entries with
      | [] => Err (EPresetNotFound
                {| pnf_Slug := slug; pnf_ValidSlugs := valid_slugs entries;
                   pnf_DimensionID := dimensionID; pnf_Location := "" |})
      | [id] => Ok id
      | ids => Err (EPresetAmbiguous
                {| pa_Slug := slug; pa_UpstreamIDs := ids; pa_DimensionID := dimensionID;
                   pa_Disambiguate := disambiguation_hint slug entries |})
      end
  end.

(** ** Matching by size *)

Record PresetBySizeInput := {
  bs_DiskGB : Z;
  bs_Location : string;
  bs_StorageClass : string }.

Definition size_matches (i : PresetBySizeInput) (e : PresetEntry) : bool :=
  (DiskGB e =? bs_DiskGB i) &&
  (bool_decide (bs_Location i = "") || bool_decide (Location e = bs_Location i)) &&
  (bool_decide (bs_StorageClass i = "") || bool_decide (StorageClass e = bs_StorageClass i)).

Definition describeEntry (e : PresetEntry) : string :=
  let size := fmt_d (DiskGB e) +:+ "GB" in
  let cls := negb (bool_decide (StorageClass e = "")) in
  let loc := negb (bool_decide (Location e = "")) in
  if cls && loc then size +:+ "/" +:+ Location e +:+ "/" +:+ StorageClass e
  else if loc then size +:+ "/" +:+ Location e
  else if cls then size +:+ "/" +:+ StorageClass e
  else size.

Definition size_slug (i : PresetBySizeInput) : string :=
  "size=" +:+ fmt_d (bs_DiskGB i) +:+ "GB,location=" +:+ quote (bs_Location i) +:+
  ",storageClass=" +:+ quote (bs_StorageClass i).

Definition MatchPresetBySize (i : PresetBySizeInput) (entries : list PresetEntry)
    (dimensionID : string) : result error Z :=
  match List.filter (size_matches i) entries with
  | [] => Err (EPresetNotFound
            {| pnf_Slug := size_slug i; pnf_ValidSlugs := describeEntry <$> entries;
               pnf_DimensionID := dimensionID; pnf_Location := "" |})
  | [e] => Ok (UpstreamID e)
  | es => Err (EPresetAmbiguous
            {| pa_Slug := size_slug i; pa_UpstreamIDs := UpstreamID <$> es;
               pa_DimensionID := dimensionID;
               pa_Disambiguate := "narrow with location and/or storageClass" |})
  end.

(** ** The normal form is a normal form *)

(** Lower-case alphanumerics and single inner dashes; [prevDash] says whether a
    dash may not come next. *)
Fixpoint is_slug_from (prevDash : bool) (s : string) : bool :=
  match s with
  | EmptyString => negb prevDash
  | String c s' =>
      if is_alnum c then is_slug_from false s'
      else bool_decide (c = dash) && negb prevDash && is_slug_from true s'
  end.

Definition is_slug (s : string) : bool := bool_decide (s = "") || is_slug_from true s.

Lemma is_alnum_dash : is_alnum dash = false.
Proof. reflexivity. Qed.

Lemma slug_bytes_lower s b : is_slug_from b s = true -> to_lower s = s.
Proof.
  assert (forall c, is_alnum c = true \/ c = dash ->
            is_upper c = false /\ byte_val c < 128) as Hc.
  { intros c [H| ->]; [|split; [reflexivity|vm_compute; reflexivity]].
    unfold is_alnum, is_lower, is_digit, is_upper in *. lia. }
  unfold to_lower. revert b. induction s as [|c s IH]; intros b H; [done|].
  assert ((is_alnum c = true \/ c = dash) /\ exists b', is_slug_from b' s = true) as [Hcc [b' Hs]].
  { simpl in H. destruct (is_alnum c); [eauto|]. split_and_or. rewrite bool_decide_eq_true in *. eauto. }
  destruct (Hc c Hcc) as [Hu Hb]. specialize (IH b' Hs). cbn [lower_with].
  assert (lower_byte c = c) as Hl by (unfold lower_byte; by rewrite Hu).
  destruct s as [|c2 s2]; [by rewrite Hl|].
  rewrite (proj2 (Z.eqb_neq (byte_val c) 196)) by lia.
  rewrite (proj2 (Z.eqb_neq (byte_val c) 226)) by lia.
  cbn [andb]. rewrite Hl, IH. by destruct s2.
Qed.

Lemma normalize_loop_slug s b : is_slug_from b s = true -> normalize_loop s b = s.
Proof.
  revert b. induction s as [|c s IH]; intros b; [done|]. simpl.
  destruct (is_alnum c); intros H; [by rewrite IH|]. split_and_or.
  rewrite bool_decide_eq_true in *. subst. by rewrite IH.
Qed.

Lemma trim_right_dash_slug s b : is_slug_from b s = true -> trim_right_dash s = s.
Proof.
  revert b. induction s as [|c s IH]; intros b; [done|]. cbn [is_slug_from trim_right_dash].
  destruct (is_alnum c) eqn:E; intros H.
  - rewrite (IH _ H). destruct s; [|done]. rewrite bool_decide_false; [done|].
    intros ->. by rewrite is_alnum_dash in E.
  - split_and_or. destruct s as [|d s]; [done|]. by erewrite IH.
Qed.

Lemma normalize_slug s : is_slug s = true -> normalize s = s.
Proof.
  unfold is_slug, normalize. case_bool_decide as E; [by subst|]. simpl. intros H.
  rewrite (slug_bytes_lower _ _ H), normalize_loop_slug by done. by eapply trim_right_dash_slug.
Qed.

(** What the loop writes, trimmed, is a slug. *)
Lemma trim_normalize_loop s b :
  (trim_right_dash (normalize_loop s b) = "") \/
  is_slug_from b (trim_right_dash (normalize_loop s b)) = true.
Proof.
  revert b. induction s as [|c s IH]; intros b; [by left|]. cbn [normalize_loop].
  destruct (is_alnum c) eqn:E.
  - right. cbn [trim_right_dash].
    assert (c <> dash) as Hc by (intros ->; by rewrite is_alnum_dash in E).
    destruct (IH false) as [->|H].
    + rewrite bool_decide_false by done. cbn [is_slug_from]. by rewrite E.
    + destruct (trim_right_dash (normalize_loop s false)).
      * rewrite bool_decide_false by done. cbn [is_slug_from]. by rewrite E.
      * cbn [is_slug_from] in *. by rewrite E.
  - destruct b; [apply IH|]. cbn [trim_right_dash]. destruct (IH true) as [->|H].
    + left. by rewrite bool_decide_true.
    + destruct (trim_right_dash (normalize_loop s true)) eqn:ET; [by left; rewrite bool_decide_true|].
      right. cbn [is_slug_from] in *. rewrite is_alnum_dash, bool_decide_true by done. done.
Qed.

Lemma normalize_is_slug s : is_slug (normalize s) = true.
Proof.
  unfold is_slug, normalize. destruct (trim_normalize_loop (to_lower s) true) as [->|H]; [done|].
  by rewrite H, orb_true_r.
Qed.

(** Normalising is idempotent: the normal form of any operator-typed text is
    a slug (lower-case alphanumerics, single inner dashes) and is its own normal
    form. *)
Theorem normalize_idempotent (s : string) :
  is_slug (normalize s) = true /\ normalize (normalize s) = normalize s.
Proof. split; [|apply normalize_slug]; apply normalize_is_slug. Qed.

(** ** The disambiguator form *)

Lemma all_digits_slug s b : all_digits s = true -> s <> "" -> is_slug_from b s = true.
Proof.
  revert b. induction s as [|c s IH]; [done|]. cbn [all_digits is_slug_from]. intros b H _.
  split_and_or. unfold is_alnum. rewrite H, orb_true_r. destruct s; [done|]. by apply IH.
Qed.

Lemma is_slug_from_append a s b :
  is_slug_from b a = true -> is_slug_from true s = true ->
  is_slug_from b (a +:+ String dash s) = true.
Proof.
  revert b. induction a as [|c a IH]; intros b Ha Hs; cbn [is_slug_from String.append] in *.
  - rewrite is_alnum_dash, bool_decide_true, Ha by done. by rewrite Hs.
  - destruct (is_alnum c); [by apply IH|]. split_and_or.
    rewrite H, H1. simpl. by apply IH.
Qed.

Lemma Slugify_is_slug d l : is_slug (Slugify d l) = true.
Proof.
  unfold Slugify. pose proof (normalize_is_slug d) as Hd. pose proof (normalize_is_slug l) as Hl.
  repeat case_bool_decide; simpl; try done.
  unfold is_slug in *. apply orb_true_iff; right.
  rewrite bool_decide_false in Hd, Hl by done. by apply is_slug_from_append.
Qed.

Lemma last_index_digits a s :
  all_digits s = true -> last_index_byte (a +:+ String dash s) dash = Some (String.length a).
Proof.
  intros Hs. assert (last_index_byte s dash = None) as Hn.
  { induction s as [|c s IH]; [done|]. cbn [all_digits last_index_byte] in *. split_and_or.
    rewrite IH by done. rewrite bool_decide_false; [done|]. by intros ->. }
  induction a as [|c a IH]; cbn [String.append last_index_byte String.length].
  - by rewrite Hn, bool_decide_true.
  - by rewrite IH.
Qed.

(** Ids of at most 18 digits. *)
Definition short_id (id : Z) : Prop := 0 <= id < 10 ^ 18.

Lemma split_SlugWithID base id :
  base <> "" -> short_id id ->
  splitDisambiguator (base +:+ String dash (fmt_d id)) = Some (base, id).
Proof.
  intros Hb Hid. destruct (fmt_d_digits id) as [Hd Hne]; [by destruct Hid|].
  unfold splitDisambiguator. rewrite last_index_digits by done.
  assert (String.length base <> O) by (by destruct base).
  assert (String.length (fmt_d id) <> O) by (by destruct (fmt_d id)).
  rewrite length_append. cbn [String.length].
  rewrite (proj2 (Nat.eqb_neq _ _)), (proj2 (Nat.eqb_neq _ _)) by lia. cbn [orb].
  replace (drop_str (S (String.length base)) (base +:+ String dash (fmt_d id))) with (fmt_d id).
  2: { clear. induction base; [done|]. done. }
  rewrite (proj2 (Nat.ltb_ge _ _)) by (apply length_fmt_d; [lia|done]).
  rewrite atoi_fmt_d, take_str_append; [done|].
  apply is_int64_spec. unfold int64_min, int64_max, short_id in *. lia.
Qed.

(** The explicit form always designates its entry: for every upstream entry
    with a non-empty slug and an id of at most 18 digits, the slug
    [<short>-<location>-<id>] resolves to exactly that id, whatever the other
    entries of the catalog are. *)
Theorem slug_with_id_resolves (e : PresetEntry) (entries : list PresetEntry) (dim : string) :
  e ∈ entries -> Slugify (DescShort e) (Location e) <> "" -> short_id (UpstreamID e) ->
  MatchPresetSlug (SlugWithID (DescShort e) (Location e) (UpstreamID e)) entries dim
    = Ok (UpstreamID e).
Proof.
  intros He Hs Hid. unfold MatchPresetSlug, SlugWithID. rewrite bool_decide_false by done.
  rewrite normalize_slug.
  2: { unfold is_slug. apply orb_true_iff; right. apply is_slug_from_append.
       - pose proof (Slugify_is_slug (DescShort e) (Location e)) as H. unfold is_slug in H.
         by rewrite bool_decide_false in H.
       - destruct (fmt_d_digits (UpstreamID e)); [by destruct Hid|]. by apply all_digits_slug. }
  unfold match_disambiguated. rewrite split_SlugWithID by done.
  destruct (List.find _ entries) as [e'|] eqn:E.
  - apply List.find_some in E as [_ E]. split_and_or. simpl. f_equal. lia.
  - exfalso. apply list_elem_of_In in He. apply (List.find_none _ _ E) in He.
    rewrite Z.eqb_refl, bool_decide_true in He by done. done.
Qed.

(** ** What a slug denotes *)

(** The three accepted forms of a normalised slug. *)
Definition denotes (slug : string) (e : PresetEntry) : Prop :=
  (exists base, splitDisambiguator slug = Some (base, UpstreamID e) /\
                Slugify (DescShort e) (Location e) = base) \/
  full_slug_matches slug e = true \/ bare_slug_matches slug e = true.

Lemma match_disambiguated_some slug entries id :
  match_disambiguated slug entries = Some id ->
  exists e, e ∈ entries /\ UpstreamID e = id /\ denotes slug e.
Proof.
  unfold match_disambiguated. destruct (splitDisambiguator slug) as [[base i]|] eqn:E; [|done].
  destruct (List.find _ entries) as [e|] eqn:F; [|done]. intros [= <-].
  apply List.find_some in F as [He Hp]. split_and_or. rewrite bool_decide_eq_true in *.
  exists e. split; [by apply list_elem_of_In|]. split; [done|]. left. exists base.
  rewrite E. split; [|done]. repeat f_equal. lia.
Qed.

Definition slug_only_matches (slug : string) (e : PresetEntry) : bool :=
  full_slug_matches slug e || bare_slug_matches slug e.

Lemma slug_only_denotes slug e : slug_only_matches slug e = true -> denotes slug e.
Proof. unfold slug_only_matches, denotes. rewrite orb_true_iff. auto. Qed.

Lemma slug_matches_elem slug entries id :
  id ∈ slug_matches slug entries ->
  exists e, e ∈ entries /\ UpstreamID e = id /\ slug_only_matches slug e = true.
Proof.
  assert (forall (f : PresetEntry -> bool), id ∈ UpstreamID <$> List.filter f entries ->
            (forall e, f e = true -> slug_only_matches slug e = true) ->
            exists e, e ∈ entries /\ UpstreamID e = id /\ slug_only_matches slug e = true) as Hf.
  { intros f H Hd. apply list_elem_of_fmap in H as (e & -> & H).
    apply list_elem_of_In, List.filter_In in H as [H1 H2].
    exists e. rewrite list_elem_of_In. auto. }
  unfold slug_matches, slug_only_matches in *. destruct (_ <$> _) eqn:E; intros H.
  - apply (Hf _ H). intros e ->. apply orb_true_r.
  - rewrite <- E in H. apply (Hf _ H). by intros e ->.
Qed.

Lemma slug_matches_nil slug entries :
  slug_matches slug entries = [] ->
  forall e, e ∈ entries -> full_slug_matches slug e = false /\ bare_slug_matches slug e = false.
Proof.
  unfold slug_matches. intros H e He. apply list_elem_of_In in He.
  assert (forall f : PresetEntry -> bool, UpstreamID <$> List.filter f entries = [] -> f e = false) as Hn.
  { intros f Hf. apply fmap_nil_inv in Hf. destruct (f e) eqn:Ef; [|done].
    assert (In e (List.filter f entries)) as Hin by (by apply List.filter_In).
    by rewrite Hf in Hin. }
  destruct (UpstreamID <$> List.filter (full_slug_matches slug) entries) eqn:E; [|done].
  split; by apply Hn.
Qed.

(** The only errors of the two matchers. *)
Lemma match_preset_slug_cases slug entries dim e :
  MatchPresetSlug slug entries dim = Err e ->
  (exists x, e = EPresetNotFound x) \/ (exists x, e = EPresetAmbiguous x).
Proof.
  unfold MatchPresetSlug. destruct (match_disambiguated _ _); [done|].
  destruct (slug_matches _ _) as [|? [|? ?]]; intros; simplify_eq; eauto.
Qed.

Lemma match_size_cases i entries dim e :
  MatchPresetBySize i entries dim = Err e ->
  (exists x, e = EPresetNotFound x) \/ (exists x, e = EPresetAmbiguous x).
Proof.
  unfold MatchPresetBySize. destruct (List.filter _ _) as [|? [|? ?]]; intros; simplify_eq; eauto.
Qed.

(** Slug matching is sound and complete for the three accepted forms: a
    resolved id belongs to an entry the normalised slug denotes; not-found is
    reported only when no entry is denoted; an ambiguity lists at least two ids,
    each of a denoted entry; and there is no other error. *)
Theorem match_preset_slug_spec (slug : string) (entries : list PresetEntry) (dim : string) :
  match MatchPresetSlug slug entries dim with
  | Ok id => exists e, e ∈ entries /\ UpstreamID e = id /\ denotes (normalize slug) e
  | Err (EPresetNotFound _) => forall e, e ∈ entries -> ~ denotes (normalize slug) e
  | Err (EPresetAmbiguous a) =>
      (2 <= length (pa_UpstreamIDs a))%nat /\
      forall id, id ∈ pa_UpstreamIDs a ->
        exists e, e ∈ entries /\ UpstreamID e = id /\ denotes (normalize slug) e
  | Err _ => False
  end.
Proof.
  unfold MatchPresetSlug. destruct (match_disambiguated _ _) as [id|] eqn:D.
  { by apply match_disambiguated_some. }
  destruct (slug_matches _ _) as [|i [|j l]] eqn:E.
  - intros e He [(base & Hs & Hb)|Hd].
    + unfold match_disambiguated in D. rewrite Hs in D.
      destruct (List.find _ entries) eqn:F; [done|].
      apply list_elem_of_In in He. apply (List.find_none _ _ F) in He.
      by rewrite Z.eqb_refl, bool_decide_true in He.
    + destruct (slug_matches_nil _ _ E e He) as [H1 H2]. rewrite H1, H2 in Hd. by destruct Hd.
  - destruct (slug_matches_elem (normalize slug) entries i) as (e & ? & ? & ?); [rewrite E; left|].
    eauto using slug_only_denotes.
  - simpl. split; [lia|]. intros id Hid.
    destruct (slug_matches_elem (normalize slug) entries id) as (e & ? & ? & ?); [by rewrite E|].
    eauto using slug_only_denotes.
Qed.

(** The hint of an ambiguity works: the slug suggested in a
    [PresetAmbiguousError] resolves, against the same catalog, to an entry of
    that catalog. *)
Theorem ambiguity_hint_resolves (slug : string) (entries : list PresetEntry) (dim : string)
    (a : PresetAmbiguousError) :
  MatchPresetSlug slug entries dim = Err (EPresetAmbiguous a) ->
  normalize slug <> "" -> (forall e, e ∈ entries -> short_id (UpstreamID e)) ->
  exists e, e ∈ entries /\ denotes (normalize slug) e /\
    MatchPresetSlug (pa_Disambiguate a) entries dim = Ok (UpstreamID e).
Proof.
  intros H Hne Hids. pose proof (match_preset_slug_spec slug entries dim) as HS.
  rewrite H in HS. destruct HS as [Hlen Hall].
  unfold MatchPresetSlug in H. destruct (match_disambiguated _ _) eqn:D; [done|].
  assert (pa_Disambiguate a = disambiguation_hint (normalize slug) entries) as ->.
  { destruct (slug_matches _ _) as [|i [|j l]]; simplify_eq; done. }
  unfold disambiguation_hint. destruct (List.find _ entries) as [e|] eqn:F.
  - apply List.find_some in F as [He Hm]. apply list_elem_of_In in He. exists e.
    assert (denotes (normalize slug) e) as Hd.
    { right. by apply orb_true_iff in Hm. }
    split; [done|]. split; [done|]. apply slug_with_id_resolves; [done| |by apply Hids].
    intros E0. apply orb_true_iff in Hm as [Hm|Hm]; apply bool_decide_eq_true in Hm; [congruence|].
    revert E0. unfold Slugify. rewrite Hm. rewrite (bool_decide_false (normalize slug = "")) by done.
    simpl. case_bool_decide; [done|]. intros E0.
    destruct (normalize slug); done.
  - exfalso. destruct (pa_UpstreamIDs a) as [|i l] eqn:EI; [simpl in Hlen; lia|].
    destruct (slug_matches (normalize slug) entries) as [|i' [|j l']] eqn:EM; [done..|].
    simplify_eq. simpl in EI. simplify_eq.
    destruct (slug_matches_elem (normalize slug) entries i) as (e & He & _ & Hm); [rewrite EM; left|].
    apply list_elem_of_In in He. apply (List.find_none _ _ F) in He.
    unfold slug_only_matches in Hm. congruence.
Qed.

(** ** Matching by size *)

Lemma filter_singleton_split {A} (f : A -> bool) l e :
  List.filter f l = [e] <->
  exists l1 l2, l = l1 ++ e :: l2 /\ f e = true /\
    (forall x, x ∈ l1 ++ l2 -> f x = false).
Proof.
  split.
  - induction l as [|x l IH]; [done|]. simpl. destruct (f x) eqn:E.
    + intros [= <- Hn]. exists [], l. split; [done|]. split; [done|]. simpl. intros y Hy.
      destruct (f y) eqn:Ey; [|done]. apply list_elem_of_In in Hy.
      assert (In y (List.filter f l)) as Hin by (by apply List.filter_In). by rewrite Hn in Hin.
    + intros H. destruct (IH H) as (l1 & l2 & -> & He & Hl). exists (x :: l1), l2.
      split; [done|]. split; [done|]. simpl. intros y Hy. apply elem_of_cons in Hy as [->|Hy]; auto.
  - intros (l1 & l2 & -> & He & Hl). rewrite List.filter_app. simpl. rewrite He.
    assert (forall l', (forall x, x ∈ l' -> f x = false) -> List.filter f l' = []) as Hn.
    { induction l' as [|y l' IH]; [done|]. intros H. simpl. rewrite (H y) by left.
      apply IH. intros z Hz. apply H. by right. }
    rewrite !Hn; [done| |]; intros x Hx; apply Hl, elem_of_app; auto.
Qed.

(** A size resolves exactly when one single catalog entry has the requested
    disk, and the requested location and storage class where those are given;
    the answer does not depend on the order of the upstream catalog. *)
Theorem match_size_unique (i : PresetBySizeInput) (entries entries' : list PresetEntry)
    (dim : string) (id : Z) :
  entries ≡ₚ entries' ->
  (MatchPresetBySize i entries' dim = Ok id <->
   exists e l1 l2, entries = l1 ++ e :: l2 /\ UpstreamID e = id /\ size_matches i e = true /\
     (forall x, x ∈ l1 ++ l2 -> size_matches i x = false)).
Proof.
  intros HP.
  assert (MatchPresetBySize i entries' dim = Ok id <->
          exists e, List.filter (size_matches i) entries = [e] /\ UpstreamID e = id) as ->.
  { pose proof (filter_perm (size_matches i) _ _ HP) as HF. unfold MatchPresetBySize.
    destruct (List.filter (size_matches i) entries') as [|e1 [|e2 l]] eqn:E.
    - split; [done|]. intros (e & He & _). rewrite He in HF.
      apply Permutation_length in HF. done.
    - apply Permutation_singleton_r in HF. rewrite HF. split.
      + intros [= <-]. eauto.
      + intros (e & [= ->] & ->). done.
    - split; [done|]. intros (e & He & _). rewrite He in HF.
      apply Permutation_length in HF. done. }
  split.
  - intros (e & He & Hid). apply filter_singleton_split in He as (l1 & l2 & ? & ? & ?).
    exists e, l1, l2. auto.
  - intros (e & l1 & l2 & ? & ? & ? & ?). exists e. split; [|done].
    apply filter_singleton_split. exists l1, l2. auto.
Qed.

(** ** Concrete catalogs *)

Definition sample_preset (id : Z) (short loc : string) (disk : Z) (cls : string) : PresetEntry :=
  {| UpstreamID := id; DescShort := short; Location := loc; DiskGB := disk;
     StorageClass := cls; Zone := "" |}.

Definition sample_catalog : list PresetEntry :=
  [sample_preset 199 "SSD 15" "ru-1" 15 ""; sample_preset 200 "SSD 25" "ru-1" 25 "";
   sample_preset 201 "ssd-15" "ru-1" 15 "hot"].

Lemma slug_with_id_resolves_witness :
  sample_preset 199 "SSD 15" "ru-1" 15 "" ∈ sample_catalog /\
  MatchPresetSlug "ssd-15-ru-1-199" sample_catalog "ServerPreset" = Ok 199.
Proof.
  split; [left|].
  apply (slug_with_id_resolves (sample_preset 199 "SSD 15" "ru-1" 15 "") sample_catalog "ServerPreset").
  - left.
  - vm_compute. discriminate.
  - split; vm_compute; [discriminate|reflexivity].
Defined.

Lemma ambiguity_hint_resolves_witness :
  exists a, MatchPresetSlug "ssd-15" sample_catalog "ServerPreset" = Err (EPresetAmbiguous a) /\
    pa_UpstreamIDs a = [199; 201] /\
    exists e, e ∈ sample_catalog /\ denotes (normalize "ssd-15") e /\
      MatchPresetSlug (pa_Disambiguate a) sample_catalog "ServerPreset" = Ok (UpstreamID e).
Proof.
  eexists. split; [vm_compute; reflexivity|]. split; [reflexivity|].
  eapply ambiguity_hint_resolves.
  - vm_compute; reflexivity.
  - vm_compute; discriminate.
  - intros e He. unfold sample_catalog in He. unfold short_id.
    repeat (apply elem_of_cons in He as [->|He]; [cbn; lia|]). by apply elem_of_nil in He.
Defined.

Lemma match_size_unique_witness :
  MatchPresetBySize {| bs_DiskGB := 25; bs_Location := ""; bs_StorageClass := "" |}
    sample_catalog "ContainerRegistryPreset" = Ok 200.
Proof.
  apply (match_size_unique _ sample_catalog sample_catalog "ContainerRegistryPreset" 200 (Permutation_refl _)).
  exists (sample_preset 200 "SSD 25" "ru-1" 25 ""), [sample_preset 199 "SSD 15" "ru-1" 15 ""],
    [sample_preset 201 "ssd-15" "ru-1" 15 "hot"].
  split; [reflexivity|]. split; [reflexivity|]. split; [reflexivity|].
  intros x Hx. simpl in Hx. repeat (apply elem_of_cons in Hx as [->|Hx]; [reflexivity|]).
  by apply elem_of_nil in Hx.
Defined.
