(* ===== verification/Configurator.v ===== *)
(** * Configurator: the deterministic configurator selection

    [internal/controller/shared/resolver/select_configurator.go]: hard filters,
    the family tags, the capability bounds, the preference for standard
    families and the tightest fit.

    The maps a [range] walks ([Filters] and [Sizing] of the input) are lists of
    pairs in the order of one iteration: the selected entry does not depend on
    it (only which rejection is reported does). *)

From S2P Require Import Prelude Errors.

Record CapacityBound := { Min : Z; Step : Z; Max : Z }.

Record ConfiguratorEntry := {
  ce_UpstreamID : Z;
  ce_Filters : list (string * any_val);
  ce_Bounds : list (string * CapacityBound);
  ce_Tags : list string }.

Record ConfiguratorInput := {
  ci_Filters : list (string * any_val);
  ci_Sizing : list (string * Z);
  ci_RequireTags : list string }.

Record ConfiguratorOutput := {
  co_UpstreamID : Z;
  co_LockedSizing : list (string * Z) }.

(** ** The tests: [None] accepts, [Some reason] rejects *)

Definition promoTagMarkers : list string := ["discount"; "promo"; "sale"; "legacy"; "2022"].

Definition isPromoEntry (e : ConfiguratorEntry) : bool :=
  existsb (fun t => existsb (contains_str (to_lower t)) promoTagMarkers) (ce_Tags e).

Fixpoint matchTags_from (want0 : list string) (have want : list string) : option string :=
  match want with
  | [] => None
  | w :: want' =>
      if existsb (fun h => bool_decide (h = w)) have then matchTags_from want0 have want'
      else Some ("missing required family tag " +:+ quote w +:+ " (want " +:+ fmt_list want0 +:+ ")")
  end.

Definition matchTags (have want : list string) : option string := matchTags_from want have want.

Fixpoint matchFilters (have want : list (string * any_val)) : option string :=
  match want with
  | [] => None
  | (k, wv) :: want' =>
      match assoc k have with
      | None => Some ("missing filter " +:+ quote k)
      | Some hv =>
          if bool_decide (hv = wv) then matchFilters have want'
          else Some ("filter " +:+ quote k +:+ " = " +:+ fmt_v hv +:+ ", want " +:+ fmt_v wv)
      end
  end.

(** One axis: inclusive bounds, and alignment on the step ([int64]
    arithmetic: the difference may wrap, the remainder truncates). *)
Definition axis_check (axis : string) (v : Z) (b : CapacityBound) : option string :=
  if (v <? Min b) || (v >? Max b) then
    Some ("axis " +:+ quote axis +:+ " = " +:+ fmt_d v +:+ " outside [" +:+ fmt_d (Min b) +:+
          "," +:+ fmt_d (Max b) +:+ "]")
  else if (Step b >? 0) && negb (Z.rem (int64_wrap (v - Min b)) (Step b) =? 0) then
    Some ("axis " +:+ quote axis +:+ " = " +:+ fmt_d v +:+ " not aligned on step " +:+
          fmt_d (Step b) +:+ " (min " +:+ fmt_d (Min b) +:+ ")")
  else None.

Fixpoint matchSizing (bounds : list (string * CapacityBound)) (sizing : list (string * Z))
  : option string :=
  match sizing with
  | [] => None
  | (axis, v) :: sizing' =>
      match assoc axis bounds with
      | None => Some ("axis " +:+ quote axis +:+ " not supported by this configurator")
      | Some b =>
          match axis_check axis v b with
          | Some reason => Some reason
          | None => matchSizing bounds sizing'
          end
      end
  end.

(** A missing axis sorts last. *)
Definition maxBound (bounds : list (string * CapacityBound)) (axis : string) : Z :=
  match assoc axis bounds with
  | Some b => Max b
  | None => int64_max
  end.

(** ** Selection *)

(** One filtering loop: the entries kept, and the first rejection (its
    upstream id and reason). *)
Definition filter_step (test : ConfiguratorEntry -> option string)
    (acc : list ConfiguratorEntry * ConfiguratorRejection) (e : ConfiguratorEntry) :=
  match test e with
  | None => (acc.1 ++ [e], acc.2)
  | Some reason =>
      if bool_decide (cr_Reason acc.2 = "")
      then (acc.1, {| cr_UpstreamID := ce_UpstreamID e; cr_Reason := reason |})
      else acc
  end.

Definition filter_loop (test : ConfiguratorEntry -> option string) (l : list ConfiguratorEntry) :=
  fold_left (filter_step test) l ([], {| cr_UpstreamID := 0; cr_Reason := "" |}).

Fixpoint less_axes (axes : list string) (a b : ConfiguratorEntry) : bool :=
  match axes with
  | [] => ce_UpstreamID a <? ce_UpstreamID b
  | axis :: axes' =>
      let ai := maxBound (ce_Bounds a) axis in
      let bi := maxBound (ce_Bounds b) axis in
      if negb (ai =? bi) then ai <? bi else less_axes axes' a b
  end.

(** The comparison of the stable sort. *)
Definition fit_less : ConfiguratorEntry -> ConfiguratorEntry -> bool :=
  less_axes ["cpu"; "ramMB"; "diskGB"].

Definition fit_leb (a b : ConfiguratorEntry) : bool := negb (fit_less b a).

Definition no_configurator (input : ConfiguratorInput) (dimensionID : string)
    (r : ConfiguratorRejection) : error :=
  ENoConfigurator {| nc_Filters := ci_Filters input; nc_Sizing := ci_Sizing input;
                     nc_ClosestRejected := r; nc_DimensionID := dimensionID |}.

Definition promo_rejection (promo : list ConfiguratorEntry) : ConfiguratorRejection :=
  {| cr_UpstreamID := default 0 (head (ce_UpstreamID <$> promo));
     cr_Reason := "only promo/legacy configurators available for this location/size " +:+
       fmt_list (fmt_d <$> (ce_UpstreamID <$> promo)) +:+
       " — these are typically not orderable; choose a different region or a standard family" |}.

(** Steps 2 to 4, on the entries the hard filters and the family tags keep. *)
Definition select_fit (input : ConfiguratorInput) (afterFilter : list ConfiguratorEntry)
    (dimensionID : string) : result error ConfiguratorOutput :=
  let '(survivors, rejBound) :=
    filter_loop (fun e => matchSizing (ce_Bounds e) (ci_Sizing input)) afterFilter in
  match survivors with
  | [] => Err (no_configurator input dimensionID rejBound)
  | _ =>
      let standard := List.filter (fun e => negb (isPromoEntry e)) survivors in
      let promo := List.filter isPromoEntry survivors in
      match sort_by fit_leb standard with
      | [] => Err (no_configurator input dimensionID (promo_rejection promo))
      | chosen :: _ =>
          Ok {| co_UpstreamID := ce_UpstreamID chosen; co_LockedSizing := ci_Sizing input |}
      end
  end.

Definition SelectConfigurator (input : ConfiguratorInput) (entries : list ConfiguratorEntry)
    (dimensionID : string) : result error ConfiguratorOutput :=
  match entries with
  | [] => Err (no_configurator input dimensionID
            {| cr_UpstreamID := 0; cr_Reason := "no configurator entries returned by upstream" |})
  | _ =>
      let '(afterFilter, rejFilter) :=
        filter_loop (fun e => matchFilters (ce_Filters e) (ci_Filters input)) entries in
      match afterFilter with
      | [] => Err (no_configurator input dimensionID rejFilter)
      | _ =>
          match ci_RequireTags input with
          | [] => select_fit input afterFilter dimensionID
          | tags =>
              let '(afterTags, rejTag) := filter_loop (fun e => matchTags (ce_Tags e) tags) afterFilter in
              match afterTags with
              | [] => Err (no_configurator input dimensionID rejTag)
              | _ => select_fit input afterTags dimensionID
              end
          end
      end
  end.

(** ** The tests decide what they should *)

Definition filters_ok (have want : list (string * any_val)) : Prop :=
  forall k v, (k, v) ∈ want -> assoc k have = Some v.

Definition tags_ok (have want : list string) : Prop := forall t, t ∈ want -> t ∈ have.

(** The value lies in the bound and on its grid. *)
Definition in_bound (v : Z) (b : CapacityBound) : Prop :=
  Min b <= v <= Max b /\ (0 < Step b -> exists k, 0 <= k /\ v = Min b + k * Step b).

Definition sizing_ok (bounds : list (string * CapacityBound)) (sizing : list (string * Z)) : Prop :=
  forall axis v, (axis, v) ∈ sizing -> exists b, assoc axis bounds = Some b /\ in_bound v b.

(** Bounds whose width fits an [int64]: every catalog value does (cores, MB,
    GB and Mbps counts are non-negative). *)
Definition bounds_sane (bounds : list (string * CapacityBound)) : Prop :=
  forall axis b, assoc axis bounds = Some b -> 0 <= Min b /\ Max b <= int64_max.

Lemma matchFilters_none have want : matchFilters have want = None <-> filters_ok have want.
Proof.
  unfold filters_ok. induction want as [|[k wv] want IH]; simpl.
  - split; [|done]. intros _ k v H. by apply elem_of_nil in H.
  - split.
    + destruct (assoc k have) eqn:E; [|done]. case_bool_decide; [|done]. intros Hm k' v Hin.
      apply elem_of_cons in Hin as [[= -> ->]|Hin]; [congruence|]. by apply IH.
    + intros H. rewrite (H k wv) by left. rewrite bool_decide_true by done.
      apply IH. intros k' v Hin. apply H. by right.
Qed.

Lemma matchTags_none have want : matchTags have want = None <-> tags_ok have want.
Proof.
  unfold matchTags, tags_ok. generalize want at 1. intros want0.
  induction want as [|w want IH]; simpl.
  - split; [|done]. intros _ t H. by apply elem_of_nil in H.
  - split.
    + destruct (existsb _ have) eqn:E; [|done]. intros H t Ht.
      apply elem_of_cons in Ht as [->|Ht]; [|by apply IH].
      apply existsb_exists in E as (h & Hh & Hd). apply bool_decide_eq_true in Hd as ->.
      by apply list_elem_of_In.
    + intros H. assert (existsb (fun h => bool_decide (h = w)) have = true) as ->.
      { apply existsb_exists. exists w. split; [apply list_elem_of_In, H; left|by apply bool_decide_true]. }
      apply IH. intros t Ht. apply H. by right.
Qed.

Lemma axis_check_none axis v b :
  0 <= Min b -> Max b <= int64_max -> (axis_check axis v b = None <-> in_bound v b).
Proof.
  intros Hmin Hmax. unfold axis_check, in_bound.
  destruct ((v <? Min b) || (v >? Max b)) eqn:E1; [split; [done|lia]|].
  rewrite int64_wrap_id by (unfold int64_min in *; unfold int64_max in *; lia).
  destruct (Step b >? 0) eqn:E2; simpl.
  2: { split; [|done]. intros _. split; lia. }
  rewrite Z.rem_mod_nonneg by lia.
  destruct ((v - Min b) mod Step b =? 0) eqn:E3; simpl; split; try done.
  - intros _. split; [lia|]. intros _. exists ((v - Min b) / Step b).
    pose proof (Z.div_mod (v - Min b) (Step b)). pose proof (Z.div_pos (v - Min b) (Step b)). lia.
  - intros [_ Hk]. destruct Hk as (k & Hk & ->); [lia|].
    replace (Min b + k * Step b - Min b) with (k * Step b) in E3 by lia.
    rewrite Z.mod_mul in E3 by lia. done.
Qed.

Lemma matchSizing_none bounds sizing :
  bounds_sane bounds -> (matchSizing bounds sizing = None <-> sizing_ok bounds sizing).
Proof.
  intros HB. unfold sizing_ok. induction sizing as [|[axis v] sizing IH]; simpl.
  - split; [|done]. intros _ a v H. by apply elem_of_nil in H.
  - split.
    + destruct (assoc axis bounds) as [b|] eqn:E; [|done].
      destruct (axis_check axis v b) eqn:Ec; [done|]. intros H a v' Hin.
      apply elem_of_cons in Hin as [[= -> ->]|Hin]; [|by apply IH].
      exists b. split; [done|]. destruct (HB _ _ E). by apply (axis_check_none axis).
    + intros H. destruct (H axis v) as (b & Hb & Hin); [left|]. rewrite Hb.
      destruct (HB _ _ Hb) as [H0 H1]. rewrite (proj2 (axis_check_none axis v b H0 H1)) by done.
      apply IH. intros a v' Hin'. apply H. by right.
Qed.

(** ** The filtering loop *)

Definition accepts (test : ConfiguratorEntry -> option string) (e : ConfiguratorEntry) : bool :=
  match test e with None => true | Some _ => false end.

Lemma filter_loop_kept test l : (filter_loop test l).1 = List.filter (accepts test) l.
Proof.
  unfold filter_loop. generalize ({| cr_UpstreamID := 0; cr_Reason := "" |}) as r.
  assert (forall l acc r, (fold_left (filter_step test) l (acc, r)).1 = acc ++ List.filter (accepts test) l) as H.
  { clear l. induction l as [|e l IH]; intros acc r; simpl; [by rewrite app_nil_r|].
    unfold accepts, filter_step at 2. simpl. destruct (test e) eqn:E.
    - case_bool_decide; apply IH.
    - rewrite IH. simpl. by rewrite <- app_assoc. }
  intros r. apply H.
Qed.

Lemma elem_of_filter_loop test l e :
  e ∈ (filter_loop test l).1 <-> e ∈ l /\ test e = None.
Proof.
  rewrite filter_loop_kept, list_elem_of_In, List.filter_In, <- list_elem_of_In.
  unfold accepts. destruct (test e); naive_solver.
Qed.

(** ** The fit order *)

Lemma less_axes_irrefl axes a : less_axes axes a a = false.
Proof. induction axes; simpl; [lia|]. by rewrite Z.eqb_refl. Qed.

Lemma less_axes_total axes a b :
  less_axes axes a b = true \/ less_axes axes b a = true \/
  (ce_UpstreamID a = ce_UpstreamID b /\ less_axes axes a b = false /\ less_axes axes b a = false).
Proof.
  induction axes as [|x axes IH]; simpl; [lia|].
  rewrite (Z.eqb_sym (maxBound (ce_Bounds b) x)).
  destruct (maxBound (ce_Bounds a) x =? maxBound (ce_Bounds b) x) eqn:E; simpl; [done|lia].
Qed.

Lemma less_axes_asym axes a b : less_axes axes a b = true -> less_axes axes b a = false.
Proof.
  induction axes as [|x axes IH]; simpl; [lia|].
  rewrite (Z.eqb_sym (maxBound (ce_Bounds b) x)).
  destruct (maxBound (ce_Bounds a) x =? maxBound (ce_Bounds b) x) eqn:E; simpl; [done|lia].
Qed.

(** [a] not after [b] and [b] not after [c]. *)
Lemma less_axes_negtrans axes a b c :
  less_axes axes b a = false -> less_axes axes c b = false -> less_axes axes c a = false.
Proof.
  induction axes as [|x axes IH]; simpl; [lia|].
  destruct (maxBound (ce_Bounds b) x =? maxBound (ce_Bounds a) x) eqn:E1;
  destruct (maxBound (ce_Bounds c) x =? maxBound (ce_Bounds b) x) eqn:E2; simpl; intros H1 H2.
  - replace (maxBound (ce_Bounds c) x =? maxBound (ce_Bounds a) x) with true by lia. simpl. auto.
  - replace (maxBound (ce_Bounds c) x =? maxBound (ce_Bounds a) x) with false by lia. simpl. lia.
  - replace (maxBound (ce_Bounds c) x =? maxBound (ce_Bounds a) x) with false by lia. simpl. lia.
  - replace (maxBound (ce_Bounds c) x =? maxBound (ce_Bounds a) x) with false by lia. simpl. lia.
Qed.

Lemma fit_leb_total a b : fit_leb a b = true \/ fit_leb b a = true.
Proof.
  unfold fit_leb, fit_less. destruct (less_axes _ b a) eqn:E; [right|by left].
  by rewrite (less_axes_asym _ _ _ E).
Qed.

Lemma fit_leb_trans a b c : fit_leb a b = true -> fit_leb b c = true -> fit_leb a c = true.
Proof.
  unfold fit_leb, fit_less. rewrite !negb_true_iff. intros H1 H2.
  by apply (less_axes_negtrans _ a b c).
Qed.

(** Entries the fit order does not separate have the same upstream id. *)
Lemma fit_leb_antisym a b :
  fit_leb a b = true -> fit_leb b a = true -> ce_UpstreamID a = ce_UpstreamID b.
Proof.
  unfold fit_leb, fit_less. rewrite !negb_true_iff. intros H1 H2.
  destruct (less_axes_total ["cpu"; "ramMB"; "diskGB"] a b) as [?|[?|[? _]]]; congruence.
Qed.

#[export] Hint Resolve fit_leb_total fit_leb_trans : go.

(** ** The selection against its specification *)

(** What the operator may be given: every filter, every family tag and every
    sizing axis accepted, and not a promo or legacy entry. *)
Definition eligible (input : ConfiguratorInput) (e : ConfiguratorEntry) : Prop :=
  filters_ok (ce_Filters e) (ci_Filters input) /\ tags_ok (ce_Tags e) (ci_RequireTags input) /\
  matchSizing (ce_Bounds e) (ci_Sizing input) = None /\ isPromoEntry e = false.

Lemma select_fit_spec input kept dim :
  (exists out e, select_fit input kept dim = Ok out /\
    co_UpstreamID out = ce_UpstreamID e /\ co_LockedSizing out = ci_Sizing input /\
    e ∈ kept /\ matchSizing (ce_Bounds e) (ci_Sizing input) = None /\ isPromoEntry e = false /\
    (forall e', e' ∈ kept -> matchSizing (ce_Bounds e') (ci_Sizing input) = None ->
       isPromoEntry e' = false -> fit_leb e e' = true)) \/
  (exists r, select_fit input kept dim = Err (no_configurator input dim r) /\
    forall e, e ∈ kept -> matchSizing (ce_Bounds e) (ci_Sizing input) = None ->
      isPromoEntry e = true).
Proof.
  unfold select_fit.
  pose proof (elem_of_filter_loop (fun e => matchSizing (ce_Bounds e) (ci_Sizing input)) kept) as HK.
  destruct (filter_loop _ kept) as [surv rej]; simpl in HK.
  destruct surv as [|s0 surv'] eqn:ES.
  { right. eexists. split; [done|]. intros e He Hm.
    assert (e ∈ @nil ConfiguratorEntry) as Hn by (by apply HK). by apply elem_of_nil in Hn. }
  rewrite <- ES in *. clear ES s0 surv'.
  assert (forall e, e ∈ List.filter (fun e => negb (isPromoEntry e)) surv <->
            e ∈ kept /\ matchSizing (ce_Bounds e) (ci_Sizing input) = None /\ isPromoEntry e = false) as HF.
  { intros e. rewrite list_elem_of_In, List.filter_In, <- list_elem_of_In, HK, negb_true_iff. tauto. }
  destruct (sort_by fit_leb _) as [|chosen rest] eqn:Esort.
  - right. eexists. split; [done|]. intros e He Hm. destruct (isPromoEntry e) eqn:Ep; [done|].
    assert (e ∈ sort_by fit_leb (List.filter (fun e => negb (isPromoEntry e)) surv)) as Hin.
    { apply elem_of_sort_by, HF. auto. }
    rewrite Esort in Hin. by apply elem_of_nil in Hin.
  - left. apply sort_by_head_min in Esort as [Hin Hmin]; [|eauto with go..].
    apply HF in Hin as (? & ? & ?). eexists _, chosen.
    split; [done|]. do 5 (split; [done|]). intros e' ? ? ?. apply Hmin, HF. auto.
Qed.

Lemma select_configurator_cases input entries dim e :
  SelectConfigurator input entries dim = Err e -> exists r, e = no_configurator input dim r.
Proof.
  unfold SelectConfigurator, select_fit. repeat case_match; intros; simplify_eq; eauto.
Qed.

(** The selection by the tests and the order of the code. *)
Lemma selection_cases (input : ConfiguratorInput) (entries : list ConfiguratorEntry)
    (dim : string) :
  match SelectConfigurator input entries dim with
  | Ok out => exists e, e ∈ entries /\ eligible input e /\
      co_UpstreamID out = ce_UpstreamID e /\ co_LockedSizing out = ci_Sizing input /\
      forall e', e' ∈ entries -> eligible input e' -> fit_leb e e' = true
  | Err err => error_is err ErrNoConfiguratorAvailable = true /\
      forall e, e ∈ entries -> ~ eligible input e
  end.
Proof.
  unfold SelectConfigurator. destruct entries as [|e0 entries'] eqn:EE.
  { split; [reflexivity|]. intros e He. by apply elem_of_nil in He. }
  rewrite <- EE. clear EE e0 entries'.
  pose proof (elem_of_filter_loop (fun e => matchFilters (ce_Filters e) (ci_Filters input)) entries) as HF.
  destruct (filter_loop _ entries) as [kept rej]; simpl in HF.
  setoid_rewrite matchFilters_none in HF.
  destruct kept as [|k0 kept'] eqn:EK.
  { split; [reflexivity|]. intros e He (Hf & _).
    assert (e ∈ @nil ConfiguratorEntry) as Hn by (by apply HF). by apply elem_of_nil in Hn. }
  rewrite <- EK in *. clear EK k0 kept'.
  assert (forall kept2 dim,
    (forall e, e ∈ kept2 <-> e ∈ kept /\ tags_ok (ce_Tags e) (ci_RequireTags input)) ->
    match select_fit input kept2 dim with
    | Ok out => exists e, e ∈ entries /\ eligible input e /\
        co_UpstreamID out = ce_UpstreamID e /\ co_LockedSizing out = ci_Sizing input /\
        forall e', e' ∈ entries -> eligible input e' -> fit_leb e e' = true
    | Err err => error_is err ErrNoConfiguratorAvailable = true /\
        forall e, e ∈ entries -> ~ eligible input e
    end) as Hfit.
  { intros kept2 dim' Hk. setoid_rewrite HF in Hk. unfold eligible.
    destruct (select_fit_spec input kept2 dim') as
      [(out & e & -> & Hid & Hl & He & Hm & Hp & Hmin)|(r & -> & Hno)].
    - exists e. apply Hk in He as ((? & ?) & ?). split; [done|]. split; [done|].
      do 2 (split; [done|]). intros e' He' (Hf' & Ht' & Hm' & Hp'). apply Hmin; [|done..].
      apply Hk. auto.
    - split; [reflexivity|]. intros e He (Hf' & Ht' & Hm' & Hp').
      rewrite (Hno e) in Hp'; [done| |done]. apply Hk. auto. }
  destruct (ci_RequireTags input) as [|t0 ts] eqn:ET.
  { apply Hfit. intros e. split; [|naive_solver]. intros; split; [done|].
    intros t Ht. by apply elem_of_nil in Ht. }
  rewrite <- ET in *.
  pose proof (elem_of_filter_loop (fun e => matchTags (ce_Tags e) (ci_RequireTags input)) kept) as HT.
  destruct (filter_loop _ kept) as [kept2 rejT]; simpl in HT. setoid_rewrite matchTags_none in HT.
  destruct kept2 as [|k0 kept'] eqn:EK2; [|rewrite <- EK2 in *; by apply Hfit].
  split; [reflexivity|]. intros e He (Hf & Ht & _).
  assert (e ∈ @nil ConfiguratorEntry) as Hn by (apply HT; split; [by apply HF|done]).
  by apply elem_of_nil in Hn.
Qed.

(** *** The same, stated without the code's own tests and order *)

(** A promo or legacy entry: one of its tags, in lower case, has a marker in it. *)
Definition promo (e : ConfiguratorEntry) : Prop :=
  exists tag marker before after, tag ∈ ce_Tags e /\ marker ∈ ["discount"; "promo"; "sale"; "legacy"; "2022"] /\
    to_lower tag = before +:+ marker +:+ after.

(** What the operator may be given: every filter and family tag as asked, every axis
    within the bounds and on the step, and no promo or legacy entry. *)
Definition orderable (input : ConfiguratorInput) (e : ConfiguratorEntry) : Prop :=
  filters_ok (ce_Filters e) (ci_Filters input) /\ tags_ok (ce_Tags e) (ci_RequireTags input) /\
  sizing_ok (ce_Bounds e) (ci_Sizing input) /\ ~ promo e.

(** The largest value an entry offers on an axis; an axis it lacks counts as the largest
    [int64]. *)
Definition largest (e : ConfiguratorEntry) (axis : string) : Z :=
  match assoc axis (ce_Bounds e) with Some b => Max b | None => 2 ^ 63 - 1 end.

(** [a] is as tight as [b] or tighter: less cpu, or the same and less memory, or the same
    and less disk, or the same and an id that is not higher. *)
Definition as_tight (a b : ConfiguratorEntry) : Prop :=
  largest a "cpu" < largest b "cpu" \/ (largest a "cpu" = largest b "cpu" /\
  (largest a "ramMB" < largest b "ramMB" \/ (largest a "ramMB" = largest b "ramMB" /\
  (largest a "diskGB" < largest b "diskGB" \/ (largest a "diskGB" = largest b "diskGB" /\
   ce_UpstreamID a <= ce_UpstreamID b))))).

Lemma fit_leb_as_tight a b : fit_leb a b = true <-> as_tight a b.
Proof.
  unfold fit_leb, fit_less, as_tight, largest. cbn [less_axes]. unfold maxBound. change (2 ^ 63 - 1) with int64_max. cbv zeta.
  generalize (match assoc "cpu" (ce_Bounds a) with Some b0 => Max b0 | None => int64_max end)
    (match assoc "cpu" (ce_Bounds b) with Some b0 => Max b0 | None => int64_max end)
    (match assoc "ramMB" (ce_Bounds a) with Some b0 => Max b0 | None => int64_max end)
    (match assoc "ramMB" (ce_Bounds b) with Some b0 => Max b0 | None => int64_max end)
    (match assoc "diskGB" (ce_Bounds a) with Some b0 => Max b0 | None => int64_max end)
    (match assoc "diskGB" (ce_Bounds b) with Some b0 => Max b0 | None => int64_max end).
  intros c1 c2 r1 r2 d1 d2. rewrite negb_true_iff.
  destruct (c2 =? c1) eqn:E1; cbn [negb]; [|lia]. destruct (r2 =? r1) eqn:E2; cbn [negb]; [|lia]. destruct (d2 =? d1) eqn:E3; cbn [negb]; lia.
Qed.

Lemma contains_str_iff s sub : contains_str s sub = true <-> exists a b, s = a +:+ sub +:+ b.
Proof.
  induction s as [|c s IH]; cbn [contains_str]; rewrite orb_true_iff, has_prefix_iff; [|rewrite IH]; split.
  - intros [(k & E)|]; [by exists "", k|done].
  - intros ([|c a] & b & E); [left; by exists b|done].
  - intros [(k & E)|(a & b & ->)]; [by exists "", k|by exists (String c a), b].
  - intros ([|c' a] & b & E); [left; by exists b|]. right. injection E as -> E. by exists a, b.
Qed.

Lemma isPromoEntry_promo e : isPromoEntry e = true <-> promo e.
Proof.
  unfold isPromoEntry, promo. rewrite existsb_exists. split.
  - intros (t & Ht & Hm). apply existsb_exists in Hm as (m & Hm & Hc). apply contains_str_iff in Hc as (a & b & E).
    exists t, m, a, b. by rewrite !list_elem_of_In.
  - intros (t & m & a & b & Ht & Hm & E). exists t. split; [by apply list_elem_of_In|]. apply existsb_exists. exists m.
    split; [by apply list_elem_of_In|]. apply contains_str_iff. by exists a, b.
Qed.

Lemma eligible_orderable input e : bounds_sane (ce_Bounds e) -> eligible input e <-> orderable input e.
Proof.
  intros Hb. unfold eligible, orderable. rewrite (matchSizing_none _ _ Hb), <- isPromoEntry_promo, not_true_iff_false. done.
Qed.

(** C40. Configurator selection implements its specification, on entries whose bounds are
    non-negative [int64]s: it returns an orderable entry (filters, family tags, bounds
    and steps as asked, no promo or legacy tag) that is as tight as every orderable entry
    (smallest maximum cpu, then memory, then disk, then the lowest id), with the
    operator's sizing locked; and it fails, always with [ErrNoConfiguratorAvailable],
    only when no entry is orderable. *)
Theorem select_configurator_spec (input : ConfiguratorInput) (entries : list ConfiguratorEntry) (dim : string)
    (Hsane : forall e, e ∈ entries -> bounds_sane (ce_Bounds e)) :
  match SelectConfigurator input entries dim with
  | Ok out => exists e, e ∈ entries /\ orderable input e /\
      co_UpstreamID out = ce_UpstreamID e /\ co_LockedSizing out = ci_Sizing input /\
      forall e', e' ∈ entries -> orderable input e' -> as_tight e e'
  | Err err => error_is err ErrNoConfiguratorAvailable = true /\
      forall e, e ∈ entries -> ~ orderable input e
  end.
Proof.
  pose proof (selection_cases input entries dim) as H. destruct (SelectConfigurator input entries dim) as [out|err].
  - destruct H as (e & He & Hel & Hid & Hl & Hmin). exists e. split; [done|]. split; [by apply eligible_orderable; [apply Hsane|]|].
    do 2 (split; [done|]). intros e' He' Ho. apply fit_leb_as_tight, Hmin; [done|]. by apply eligible_orderable; [apply Hsane|].
  - destruct H as [H1 H2]. split; [done|]. intros e He Ho. apply (H2 e He). by apply eligible_orderable; [apply Hsane|].
Qed.

(** The selected configurator does not depend on the order in which the
    upstream catalog lists its entries: on a reordered catalog the same upstream
    id is selected, and a failure stays a failure. *)
Theorem selection_order_independent (input : ConfiguratorInput)
    (entries entries' : list ConfiguratorEntry) (dim : string) :
  entries ≡ₚ entries' ->
  match SelectConfigurator input entries dim, SelectConfigurator input entries' dim with
  | Ok o, Ok o' => co_UpstreamID o = co_UpstreamID o'
  | Err _, Err _ => True
  | _, _ => False
  end.
Proof.
  intros HP. pose proof (selection_cases input entries dim) as H1.
  pose proof (selection_cases input entries' dim) as H2.
  destruct (SelectConfigurator input entries dim) as [o|err], (SelectConfigurator input entries' dim)
    as [o'|err']; try setoid_rewrite <- HP in H2; [| | |done].
  - destruct H1 as (e & He & Hel & -> & _ & Hmin), H2 as (e' & He' & Hel' & -> & _ & Hmin').
    apply fit_leb_antisym; auto.
  - destruct H1 as (e & He & Hel & _), H2 as [_ H2]. by apply (H2 e).
  - destruct H2 as (e & He & Hel & _), H1 as [_ H1]. by apply (H1 e).
Qed.

(** A selected configurator supports what the operator asked for: every
    requested axis lies between the bounds of the entry and on its step grid,
    and every filter holds of it. *)
Theorem selected_configurator_fits (input : ConfiguratorInput)
    (entries : list ConfiguratorEntry) (dim : string) (out : ConfiguratorOutput) :
  (forall e, e ∈ entries -> bounds_sane (ce_Bounds e)) ->
  SelectConfigurator input entries dim = Ok out ->
  exists e, e ∈ entries /\ ce_UpstreamID e = co_UpstreamID out /\
    filters_ok (ce_Filters e) (ci_Filters input) /\
    (forall axis v, (axis, v) ∈ ci_Sizing input ->
       exists b, assoc axis (ce_Bounds e) = Some b /\ in_bound v b).
Proof.
  intros HB HS. pose proof (selection_cases input entries dim) as H. rewrite HS in H.
  destruct H as (e & He & (Hf & _ & Hm & _) & Hid & _). exists e.
  do 3 (split; [done|]). by apply matchSizing_none; [apply HB|].
Qed.

(** ** A concrete catalog *)

Definition sample_bounds (cpuMax ramMax : Z) : list (string * CapacityBound) :=
  [("cpu", {| Min := 1; Step := 1; Max := cpuMax |});
   ("ramMB", {| Min := 1024; Step := 1024; Max := ramMax |})].

Definition sample_configurator (id cpuMax ramMax : Z) (loc : string) (tags : list string) :=
  {| ce_UpstreamID := id; ce_Filters := [("location", AStr loc)];
     ce_Bounds := sample_bounds cpuMax ramMax; ce_Tags := tags |}.

Definition sample_configurators : list ConfiguratorEntry :=
  [sample_configurator 11 4 8192 "ru-1" ["ssd_2022"]; sample_configurator 47 16 65536 "ru-1" ["spb_nvme"];
   sample_configurator 39 8 32768 "ru-1" ["spb_nvme"]; sample_configurator 40 8 32768 "nl-1" []].

Definition sample_input : ConfiguratorInput :=
  {| ci_Filters := [("location", AStr "ru-1")]; ci_Sizing := [("cpu", 2); ("ramMB", 4096)];
     ci_RequireTags := [] |}.

Lemma selection_order_independent_witness :
  SelectConfigurator sample_input sample_configurators "ServerConfigurator" =
    Ok {| co_UpstreamID := 39; co_LockedSizing := [("cpu", 2); ("ramMB", 4096)] |} /\
  match SelectConfigurator sample_input sample_configurators "ServerConfigurator",
        SelectConfigurator sample_input (rev sample_configurators) "ServerConfigurator" with
  | Ok o, Ok o' => co_UpstreamID o = co_UpstreamID o'
  | Err _, Err _ => True
  | _, _ => False
  end.
Proof.
  split; [vm_compute; reflexivity|].
  apply (selection_order_independent sample_input sample_configurators (rev sample_configurators)).
  apply Permutation_rev.
Defined.

Lemma selected_configurator_fits_witness :
  exists e, e ∈ sample_configurators /\ ce_UpstreamID e = 39 /\
    filters_ok (ce_Filters e) (ci_Filters sample_input) /\
    (forall axis v, (axis, v) ∈ ci_Sizing sample_input ->
       exists b, assoc axis (ce_Bounds e) = Some b /\ in_bound v b).
Proof.
  apply (selected_configurator_fits sample_input sample_configurators "ServerConfigurator"
    {| co_UpstreamID := 39; co_LockedSizing := [("cpu", 2); ("ramMB", 4096)] |}).
  - intros e He axis b. unfold sample_configurators in He.
    repeat (apply elem_of_cons in He as [->|He];
      [cbn; repeat case_bool_decide; intros [= <-]; cbn; unfold int64_max; lia|]).
    by apply elem_of_nil in He.
  - vm_compute; reflexivity.
Defined.

Lemma select_configurator_spec_witness :
  SelectConfigurator sample_input sample_configurators "ServerConfigurator" =
    Ok {| co_UpstreamID := 39; co_LockedSizing := [("cpu", 2); ("ramMB", 4096)] |} /\
  exists e, e ∈ sample_configurators /\ orderable sample_input e /\ ce_UpstreamID e = 39 /\
    forall e', e' ∈ sample_configurators -> orderable sample_input e' -> as_tight e e'.
Proof.
  assert (SelectConfigurator sample_input sample_configurators "ServerConfigurator" =
    Ok {| co_UpstreamID := 39; co_LockedSizing := [("cpu", 2); ("ramMB", 4096)] |}) as E by (vm_compute; reflexivity).
  split; [exact E|]. pose proof (select_configurator_spec sample_input sample_configurators "ServerConfigurator") as H. rewrite E in H.
  destruct H as (e & He & Ho & Hid & _ & Hmin); [|by exists e].
  intros e He axis b. unfold sample_configurators in He.
  repeat (apply elem_of_cons in He as [->|He];
    [cbn; repeat case_bool_decide; intros [= <-]; cbn; unfold int64_max; lia|]).
  by apply elem_of_nil in He.
Defined.
