(* ===== verification/Catalog.v ===== *)
(** * Catalog: the read-only catalog resolver

    [internal/controller/shared/resolver/]: the dimension registry and its
    fetchers ([dimensions.go]), the TTL cache ([cache.go]) and [Resolve]
    ([resolve.go], [resolver.go]).

    The generated catalog client is a parameter: a record of the answers its
    calls give. Numeric fields of the upstream payloads are the [int64] values
    the fetchers convert them to. The cache is here as one caller meets it; [Flight]
    has many at once. *)

From S2P Require Import Prelude Errors Slug Configurator.

(** ** Keys *)

Inductive DimensionKind : Type := DimensionPreset | DimensionConfigurator | DimensionEnum.

#[export] Instance DimensionKind_eq_dec : EqDecision DimensionKind.
Proof. solve_decision. Defined.

#[export] Instance DimensionKind_countable : Countable DimensionKind.
Proof.
  refine (inj_countable'
    (fun k => match k with DimensionPreset => 0%nat | DimensionConfigurator => 1%nat | DimensionEnum => 2%nat end)
    (fun n => match n with O => DimensionPreset | S O => DimensionConfigurator | _ => DimensionEnum end) _).
  by intros [].
Defined.

Record PCRef := { pc_Kind : string; pc_Name : string; pc_Namespace : string }.
Record Dimension := { dim_Name : string; dim_Kind : DimensionKind }.
Record cacheKey := { key_pc : PCRef; key_dim : Dimension }.

#[export] Instance PCRef_eq_dec : EqDecision PCRef.
Proof. solve_decision. Defined.
#[export] Instance Dimension_eq_dec : EqDecision Dimension.
Proof. solve_decision. Defined.
#[export] Instance cacheKey_eq_dec : EqDecision cacheKey.
Proof. solve_decision. Defined.

#[export] Instance cacheKey_countable : Countable cacheKey.
Proof.
  refine (inj_countable'
    (fun k => (pc_Kind (key_pc k), pc_Name (key_pc k), pc_Namespace (key_pc k),
               dim_Name (key_dim k), dim_Kind (key_dim k)))
    (fun '(a, b, c, d, e) =>
       {| key_pc := {| pc_Kind := a; pc_Name := b; pc_Namespace := c |};
          key_dim := {| dim_Name := d; dim_Kind := e |} |}) _).
  by intros [[] []].
Defined.

(** ** Payloads and errors of the fetchers *)

Inductive catalog_payload : Type :=
| PPresets (l : list PresetEntry)
| PConfigurators (l : list ConfiguratorEntry)
| PValues (l : list string).

Definition isEmptySlice (p : catalog_payload) : bool :=
  match p with
  | PPresets [] | PConfigurators [] | PValues [] => true
  | _ => false
  end.

(** The head of an HTTP answer: status and (canonicalised) headers. *)
Record http_head := { hd_Status : Z; hd_Headers : list (string * string) }.

Definition upstreamRequestIDHeaders : list string :=
  ["X-Request-Id"; "X-Trace-Id"; "X-Correlation-Id"; "Request-Id"].

Definition requestIDFromResponse (resp : option http_head) : string :=
  match resp with
  | None => ""
  | Some r =>
      default "" (List.find (fun v => negb (bool_decide (v = "")))
        ((fun h => default_str (assoc h (hd_Headers r))) <$> upstreamRequestIDHeaders))
  end.

Definition classifyUpstream (resp : option http_head) (cause : error) : error :=
  let status := match resp with Some r => hd_Status r | None => 0 end in
  let id := requestIDFromResponse resp in
  let rid := if negb (bool_decide (id = "")) then " (request_id=" +:+ id +:+ ")" else "" in
  let text := "HTTP " +:+ fmt_d status +:+ rid +:+ ": " +:+ Error cause in
  if (status =? 401) || (status =? 403) then
    Errorf (sentinel_text ErrCatalogUnauthorized +:+ ": " +:+ text) [Sentinel ErrCatalogUnauthorized; cause]
  else if (status >=? 500) || (status =? 0) then
    Errorf (sentinel_text ErrCatalogTransient +:+ ": " +:+ text) [Sentinel ErrCatalogTransient; cause]
  else Errorf ("catalog " +:+ text) [cause].

(** The answer of one generated [Get…WithResponse] call: a transport error, or
    a response and its decoded 200 body when there is one. *)
Inductive catalog_reply (A : Type) : Type :=
| CatErr (cause : error)
| CatResp (resp : http_head) (json200 : option A).
Arguments CatErr {_} _.
Arguments CatResp {_} _ _.

Record K8sPresetOut := {
  kp_Type : option string; kp_DescriptionShort : option string; kp_Id : option Z;
  kp_Disk : option Z; kp_AvailabilityZone : option string }.
Record RegistryPresetOut := {
  rp_Id : Z; rp_DescriptionShort : string; rp_Location : option string; rp_Disk : Z }.
Record StoragePresetOut := {
  sp_Id : Z; sp_DescriptionShort : string; sp_Location : string; sp_Disk : Z;
  sp_StorageClass : string }.
Record ServerPresetOut := {
  vp_Id : Z; vp_DescriptionShort : string; vp_Location : string; vp_Disk : Z }.
Record ServersOsOut := {
  os_Name : option string; os_Version : option string; os_Id : option Z }.
Record RouterPresetOut := {
  tp_Id : Z; tp_NodeCount : Z; tp_Cpu : Z; tp_Ram : Z; tp_Location : string }.
Record Requirements := {
  CpuMin : Z; CpuStep : Z; CpuMax : Z; RamMin : Z; RamStep : Z; RamMax : Z;
  DiskMin : Z; DiskStep : Z; DiskMax : Z;
  NetworkBandwidthMin : Z; NetworkBandwidthStep : Z; NetworkBandwidthMax : Z;
  GpuMin : option Z; GpuStep : option Z; GpuMax : option Z }.
Record ServersConfigurator := {
  sc_Id : Z; sc_Location : string; sc_DiskType : string; sc_IsAllowedLocalNetwork : bool;
  sc_CpuFrequency : string; sc_Tags : option (list string); sc_Requirements : Requirements }.

(** The catalog client, by its answers. *)
Record CatalogClient := {
  GetRegistryPresets : catalog_reply (list RegistryPresetOut);
  GetStoragesPresets : catalog_reply (list StoragePresetOut);
  GetServersPresets : catalog_reply (list ServerPresetOut);
  GetOsList : catalog_reply (list ServersOsOut);
  GetKubernetesPresets : catalog_reply (list K8sPresetOut);
  GetK8SVersions : catalog_reply (list string);
  GetConfigurators : catalog_reply (list ServersConfigurator);
  GetK8sConfigurators : catalog_reply (list ServersConfigurator);
  GetRouterPresets : catalog_reply (list RouterPresetOut) }.

(** The prologue every fetcher shares: transport error, then a missing 200
    body. *)
Definition fetch_body {A} (r : catalog_reply A) (k : A -> catalog_payload)
  : result error catalog_payload :=
  match r with
  | CatErr e => Err (classifyUpstream None e)
  | CatResp h None => Err (classifyUpstream (Some h) (ErrorString "upstream returned non-200"))
  | CatResp h (Some a) => Ok (k a)
  end.

(** ** Fetchers *)

Definition k8s_preset_entry (p : K8sPresetOut) : PresetEntry :=
  {| UpstreamID := default 0 (kp_Id p); DescShort := default_str (kp_DescriptionShort p);
     Location := ""; DiskGB := match kp_Disk p with Some d => Z.quot d 1024 | None => 0 end;
     StorageClass := ""; Zone := default_str (kp_AvailabilityZone p) |}.

Definition fetchK8sPresetsByType (c : CatalogClient) (role : string) : result error catalog_payload :=
  fetch_body (GetKubernetesPresets c) (fun ps =>
    PPresets (k8s_preset_entry <$> List.filter (fun p => bool_decide (kp_Type p = Some role)) ps)).

Definition fetchK8sMasterPresets (c : CatalogClient) := fetchK8sPresetsByType c "master".
Definition fetchK8sWorkerPresets (c : CatalogClient) := fetchK8sPresetsByType c "worker".

Definition fetchK8sVersions (c : CatalogClient) : result error catalog_payload :=
  fetch_body (GetK8SVersions c) PValues.

Definition fetchContainerRegistryPresets (c : CatalogClient) : result error catalog_payload :=
  fetch_body (GetRegistryPresets c) (fun ps => PPresets ((fun p =>
    {| UpstreamID := rp_Id p; DescShort := rp_DescriptionShort p;
       Location := default_str (rp_Location p); DiskGB := rp_Disk p;
       StorageClass := ""; Zone := "" |}) <$> ps)).

Definition fetchS3BucketPresets (c : CatalogClient) : result error catalog_payload :=
  fetch_body (GetStoragesPresets c) (fun ps => PPresets ((fun p =>
    {| UpstreamID := sp_Id p; DescShort := sp_DescriptionShort p; Location := sp_Location p;
       DiskGB := Z.quot (sp_Disk p) 1024; StorageClass := sp_StorageClass p; Zone := "" |}) <$> ps)).

Definition fetchServerPresets (c : CatalogClient) : result error catalog_payload :=
  fetch_body (GetServersPresets c) (fun ps => PPresets ((fun p =>
    {| UpstreamID := vp_Id p; DescShort := vp_DescriptionShort p; Location := vp_Location p;
       DiskGB := Z.quot (vp_Disk p) 1024; StorageClass := ""; Zone := "" |}) <$> ps)).

Definition fetchServerOSImages (c : CatalogClient) : result error catalog_payload :=
  fetch_body (GetOsList c) (fun os => PPresets ((fun o =>
    {| UpstreamID := default 0 (os_Id o); DescShort := default_str (os_Name o);
       Location := default_str (os_Version o); DiskGB := 0; StorageClass := ""; Zone := "" |}) <$> os)).

Definition configurator_bounds (r : Requirements) : list (string * CapacityBound) :=
  [("cpu", {| Min := CpuMin r; Step := CpuStep r; Max := CpuMax r |});
   ("ramMB", {| Min := RamMin r; Step := RamStep r; Max := RamMax r |});
   ("diskGB", {| Min := Z.quot (DiskMin r) 1024; Step := Z.quot (DiskStep r) 1024;
                 Max := Z.quot (DiskMax r) 1024 |});
   ("bandwidth", {| Min := NetworkBandwidthMin r; Step := NetworkBandwidthStep r;
                    Max := NetworkBandwidthMax r |})] ++
  match GpuMin r, GpuMax r with
  | Some gmin, Some gmax =>
      [("gpu", {| Min := gmin; Step := default 0 (GpuStep r); Max := gmax |})]
  | _, _ => []
  end.

Definition configuratorEntries (cfgs : list ServersConfigurator) : list ConfiguratorEntry :=
  (fun cfg =>
    {| ce_UpstreamID := sc_Id cfg;
       ce_Filters := [("location", AStr (sc_Location cfg)); ("disk_type", AStr (sc_DiskType cfg));
                      ("is_allowed_local_network", ABool (sc_IsAllowedLocalNetwork cfg));
                      ("cpu_frequency", AStr (sc_CpuFrequency cfg))];
       ce_Bounds := configurator_bounds (sc_Requirements cfg);
       ce_Tags := default [] (sc_Tags cfg) |}) <$> cfgs.

Definition fetchServerConfigurators (c : CatalogClient) : result error catalog_payload :=
  fetch_body (GetConfigurators c) (fun cs => PConfigurators (configuratorEntries cs)).

Definition k8sMasterConfiguratorTag : string := "k8s_master_configurator".

Definition is_master_configurator (cfg : ServersConfigurator) : bool :=
  existsb (fun tag => bool_decide (tag = k8sMasterConfiguratorTag)) (default [] (sc_Tags cfg)).

Definition fetchK8sConfiguratorsByRole (c : CatalogClient) (master : bool) : result error catalog_payload :=
  fetch_body (GetK8sConfigurators c) (fun cs =>
    PConfigurators (configuratorEntries
      (List.filter (fun cfg => Bool.eqb (is_master_configurator cfg) master) cs))).

Definition fetchK8sMasterConfigurators (c : CatalogClient) := fetchK8sConfiguratorsByRole c true.
Definition fetchK8sWorkerConfigurators (c : CatalogClient) := fetchK8sConfiguratorsByRole c false.

Definition fetchRouterPresets (c : CatalogClient) : result error catalog_payload :=
  fetch_body (GetRouterPresets c) (fun ps => PPresets ((fun p =>
    {| UpstreamID := tp_Id p;
       DescShort := "router-" +:+ fmt_d (tp_NodeCount p) +:+ "x" +:+ fmt_d (tp_Cpu p) +:+ "-" +:+
                    fmt_d (tp_Ram p) +:+ "gb";
       Location := tp_Location p; DiskGB := 0; StorageClass := ""; Zone := tp_Location p |}) <$> ps)).

Definition fetchUnwired (_ : CatalogClient) : result error catalog_payload :=
  Err (Sentinel ErrDimensionFetcherUnwired).

(** ** The registry *)

Record dimensionDef := {
  def_kind : DimensionKind;
  def_fetch : CatalogClient -> result error catalog_payload }.

Definition defaultRegistry : list (string * dimensionDef) :=
  [("ContainerRegistryPreset", {| def_kind := DimensionPreset; def_fetch := fetchContainerRegistryPresets |});
   ("S3BucketPreset", {| def_kind := DimensionPreset; def_fetch := fetchS3BucketPresets |});
   ("ServerPreset", {| def_kind := DimensionPreset; def_fetch := fetchServerPresets |});
   ("ServerOSImage", {| def_kind := DimensionPreset; def_fetch := fetchServerOSImages |});
   ("KubernetesMasterPreset", {| def_kind := DimensionPreset; def_fetch := fetchK8sMasterPresets |});
   ("KubernetesWorkerPreset", {| def_kind := DimensionPreset; def_fetch := fetchK8sWorkerPresets |});
   ("KubernetesVersion", {| def_kind := DimensionEnum; def_fetch := fetchK8sVersions |});
   ("ServerConfigurator", {| def_kind := DimensionConfigurator; def_fetch := fetchServerConfigurators |});
   ("KubernetesMasterConfigurator",
      {| def_kind := DimensionConfigurator; def_fetch := fetchK8sMasterConfigurators |});
   ("KubernetesWorkerConfigurator",
      {| def_kind := DimensionConfigurator; def_fetch := fetchK8sWorkerConfigurators |});
   ("RouterPreset", {| def_kind := DimensionPreset; def_fetch := fetchRouterPresets |});
   ("KubernetesNetworkDriver", {| def_kind := DimensionEnum; def_fetch := fetchUnwired |});
   ("AvailabilityZone", {| def_kind := DimensionEnum; def_fetch := fetchUnwired |})].

(** ** The cache *)

(** Durations and clock readings are nanosecond counts. *)
Definition second : Z := 1000000000.
Definition MinTTL : Z := 60 * second.
Definition MaxTTL : Z := 3600 * second.
Definition DefaultTTL : Z := 300 * second.

Definition clampTTL (t : Z) : Z :=
  if t <=? 0 then DefaultTTL
  else if t <? MinTTL then MinTTL
  else if t >? MaxTTL then MaxTTL
  else t.

(** An entry holds a payload or a sticky error. *)
Record cacheEntry := {
  entry_result : result error catalog_payload;
  fetchedAt : Z }.

Record cache := {
  entries : gmap cacheKey cacheEntry;
  ttl : Z }.

Definition newCache (ttl0 : Z) : cache := {| entries := ∅; ttl := clampTTL ttl0 |}.

Definition expired (c : cache) (now : Z) (e : cacheEntry) : bool := now - fetchedAt e >=? ttl c.

(** [ok && !c.expired(e)]: what a check of the map at time [now] answers. *)
Definition cached (c : cache) (key : cacheKey) (now : Z) : option (result error catalog_payload) :=
  match entries c !! key with
  | Some e => if expired c now e then None else Some (entry_result e)
  | None => None
  end.

Definition store (c : cache) (key : cacheKey) (r : result error catalog_payload) (now : Z) : cache :=
  {| entries := <[key := {| entry_result := r; fetchedAt := now |}]> (entries c); ttl := ttl c |}.

(** [getOrFetch], for one caller: [t1] and [t2] are the clock readings of the
    two checks, [t3] the one of the store, [f] the answer of the fetcher. The
    last component tells whether the fetcher ran. *)
Definition getOrFetch (c : cache) (key : cacheKey) (t1 t2 t3 : Z) (f : result error catalog_payload)
  : cache * result error catalog_payload * bool :=
  match cached c key t1 with
  | Some r => (c, r, false)
  | None =>
      match cached c key t2 with
      | Some r => (c, r, false)
      | None =>
          match f with
          | Err e =>
              if error_is e ErrCatalogUnauthorized then (store c key (Err e) t3, Err e, true)
              else (c, Err e, true)
          | Ok p =>
              if isEmptySlice p then
                (c, Err (wrap_post (Sentinel ErrCatalogTransient) ": catalog returned 0 entries"), true)
              else (store c key (Ok p) t3, Ok p, true)
          end
      end
  end.

Definition invalidate (c : cache) (key : cacheKey) : cache :=
  {| entries := delete key (entries c); ttl := ttl c |}.

(** ** Resolve *)

Record PresetInput := { pi_Slug : string; pi_Zone : string; pi_Location : string }.

Inductive ResolveInput : Type :=
| InPreset (i : PresetInput)
| InPresetBySize (i : PresetBySizeInput)
| InConfigurator (i : ConfiguratorInput)
| InEnum (value : string).

Inductive ResolveOutput : Type :=
| OutPreset (id : Z)
| OutConfigurator (o : ConfiguratorOutput)
| OutEnum (valid : bool).

(** Drop the entries whose zone, resp. location, is set and different. *)
Definition zone_filter (zone : string) (l : list PresetEntry) : list PresetEntry :=
  if bool_decide (zone = "") then l
  else List.filter (fun e => bool_decide (Zone e = "") || bool_decide (Zone e = zone)) l.

Definition location_filter (loc : string) (l : list PresetEntry) : list PresetEntry :=
  if bool_decide (loc = "") then l
  else List.filter (fun e => bool_decide (Location e = "") || bool_decide (Location e = loc)) l.

(** [errors.As(err, &pnf)] and the assignment to [pnf.Location]. *)
Definition stamp_location (loc : string) (e : error) : error :=
  match e with
  | EPresetNotFound x =>
      EPresetNotFound {| pnf_Slug := pnf_Slug x; pnf_ValidSlugs := pnf_ValidSlugs x;
                         pnf_DimensionID := pnf_DimensionID x; pnf_Location := loc |}
  | _ => e
  end.

(** The resolution step on a fetched payload. *)
Definition resolve_payload (dim : Dimension) (p : catalog_payload) (input : ResolveInput)
  : result error ResolveOutput :=
  match dim_Kind dim with
  | DimensionPreset =>
      match p with
      | PPresets l =>
          match input with
          | InPreset i =>
              let l' := location_filter (pi_Location i) (zone_filter (pi_Zone i) l) in
              match MatchPresetSlug (pi_Slug i) l' (dim_Name dim) with
              | Ok id => Ok (OutPreset id)
              | Err e => Err (if bool_decide (pi_Location i = "") then e
                              else stamp_location (pi_Location i) e)
              end
          | InPresetBySize i =>
              match MatchPresetBySize i l (dim_Name dim) with
              | Ok id => Ok (OutPreset id)
              | Err e => Err e
              end
          | _ => Err (Sentinel ErrInvalidInput)
          end
      | _ => Err (Sentinel ErrInvalidInput)
      end
  | DimensionConfigurator =>
      match input, p with
      | InConfigurator i, PConfigurators l =>
          match SelectConfigurator i l (dim_Name dim) with
          | Ok o => Ok (OutConfigurator o)
          | Err e => Err e
          end
      | _, _ => Err (Sentinel ErrInvalidInput)
      end
  | DimensionEnum =>
      match input, p with
      | InEnum v, PValues l =>
          if existsb (fun x => bool_decide (x = v)) l then Ok (OutEnum true)
          else Err (EDimensionValue {| dv_Value := v; dv_ValidValues := l; dv_DimensionID := dim_Name dim |})
      | _, _ => Err (Sentinel ErrInvalidInput)
      end
  end.

(** [Resolve]: registry lookup, kind check, cached fetch, resolution. *)
Definition Resolve (client : CatalogClient) (c : cache) (pcRef : PCRef) (dim : Dimension)
    (t1 t2 t3 : Z) (input : ResolveInput) : cache * result error ResolveOutput :=
  match assoc (dim_Name dim) defaultRegistry with
  | None => (c, Err (EDimensionNotRegistered (dim_Name dim)))
  | Some def =>
      if negb (bool_decide (def_kind def = dim_Kind dim)) then (c, Err (Sentinel ErrInvalidInput))
      else
        let '(c', r, _) :=
          getOrFetch c {| key_pc := pcRef; key_dim := dim |} t1 t2 t3 (def_fetch def client) in
        match r with
        | Err e => (c', Err e)
        | Ok p => (c', resolve_payload dim p input)
        end
  end.

Definition Invalidate (c : cache) (pcRef : PCRef) (dim : Dimension) : cache :=
  invalidate c {| key_pc := pcRef; key_dim := dim |}.

(** ** The cache invariant *)

Definition payload_kind (p : catalog_payload) : DimensionKind :=
  match p with
  | PPresets _ => DimensionPreset
  | PConfigurators _ => DimensionConfigurator
  | PValues _ => DimensionEnum
  end.

(** Every entry is a non-empty payload of the key's kind, or a sticky
    authorization failure. *)
Definition entry_ok (key : cacheKey) (e : cacheEntry) : Prop :=
  match entry_result e with
  | Ok p => payload_kind p = dim_Kind (key_dim key) /\ isEmptySlice p = false
  | Err x => error_is x ErrCatalogUnauthorized = true /\ error_is x ErrInvalidInput = false
  end.

Definition cache_ok (c : cache) : Prop := map_Forall entry_ok (entries c).

Lemma newCache_ok t : cache_ok (newCache t).
Proof. apply map_Forall_empty. Qed.

Lemma fetch_body_kind {A} (r : catalog_reply A) k p kind :
  (forall a, payload_kind (k a) = kind) -> fetch_body r k = Ok p -> payload_kind p = kind.
Proof. intros Hk. destruct r as [|h [a|]]; simpl; intros; simplify_eq. apply Hk. Qed.

(** The fetchers are well typed: a registered dimension's fetcher delivers
    payloads of the dimension's kind. *)
Lemma registry_typed name def client p :
  assoc name defaultRegistry = Some def -> def_fetch def client = Ok p ->
  payload_kind p = def_kind def.
Proof.
  intros H. apply assoc_elem_of in H. unfold defaultRegistry in H.
  repeat (apply elem_of_cons in H as [[= -> ->]|H]; [cbn [def_fetch def_kind];
    solve [ unfold fetchK8sMasterPresets, fetchK8sWorkerPresets, fetchK8sPresetsByType,
              fetchK8sMasterConfigurators, fetchK8sWorkerConfigurators;
            eapply fetch_body_kind; reflexivity
          | discriminate ]|]).
  by apply elem_of_nil in H.
Qed.

(** What a fetch of the key may answer. *)
Definition fetched_ok (key : cacheKey) (r : result error catalog_payload) : Prop :=
  match r with
  | Ok p => payload_kind p = dim_Kind (key_dim key)
  | Err e => error_is e ErrInvalidInput = false
  end.

Lemma cached_ok c key t r : cache_ok c -> cached c key t = Some r -> fetched_ok key r.
Proof.
  unfold cached. intros HC. destruct (entries c !! key) as [e|] eqn:E; [|done].
  destruct (expired _ _ _); [done|]. intros [= <-]. specialize (HC _ _ E).
  unfold entry_ok in HC. unfold fetched_ok. by destruct (entry_result e), HC.
Qed.

Lemma getOrFetch_ok c key t1 t2 t3 f :
  cache_ok c -> fetched_ok key f ->
  cache_ok (getOrFetch c key t1 t2 t3 f).1.1 /\ fetched_ok key (getOrFetch c key t1 t2 t3 f).1.2.
Proof.
  intros HC Hf. unfold getOrFetch.
  destruct (cached c key t1) eqn:E1; [simpl; eauto using cached_ok|].
  destruct (cached c key t2) eqn:E2; [simpl; eauto using cached_ok|].
  destruct f as [p|e].
  - destruct (isEmptySlice p) eqn:Ee; simpl; (split; [|done]); [done|].
    by apply map_Forall_insert_2.
  - destruct (error_is e ErrCatalogUnauthorized) eqn:Ee; simpl; (split; [|done]); [|done].
    by apply map_Forall_insert_2.
Qed.

(** ** Resolve preserves the invariant and is well typed *)

Definition input_kind (i : ResolveInput) : DimensionKind :=
  match i with
  | InPreset _ | InPresetBySize _ => DimensionPreset
  | InConfigurator _ => DimensionConfigurator
  | InEnum _ => DimensionEnum
  end.

Lemma resolve_payload_typed dim p input e :
  payload_kind p = dim_Kind dim -> input_kind input = dim_Kind dim ->
  resolve_payload dim p input = Err e -> error_is e ErrInvalidInput = false.
Proof.
  unfold resolve_payload. intros Hp Hi.
  destruct (dim_Kind dim), p, input; simpl in *; try discriminate; intros H.
  - destruct (MatchPresetSlug _ _ _) eqn:E; [done|].
    apply match_preset_slug_cases in E as [[x ->]|[x ->]]; case_bool_decide; by simplify_eq.
  - destruct (MatchPresetBySize _ _ _) eqn:E; [done|].
    apply match_size_cases in E as [[x ->]|[x ->]]; by simplify_eq.
  - destruct (SelectConfigurator _ _ _) eqn:E; [done|].
    apply select_configurator_cases in E as [x ->]. by simplify_eq.
  - destruct (existsb _ _); by simplify_eq.
Qed.

(** Fetchers fail with a catalog failure, never with an input error of their
    own: what the generated client's transport errors must satisfy. *)
Definition reply_sane {A} (r : catalog_reply A) : Prop :=
  match r with CatErr e => error_is e ErrInvalidInput = false | CatResp _ _ => True end.

Definition client_sane (c : CatalogClient) : Prop :=
  reply_sane (GetRegistryPresets c) /\ reply_sane (GetStoragesPresets c) /\
  reply_sane (GetServersPresets c) /\ reply_sane (GetOsList c) /\
  reply_sane (GetKubernetesPresets c) /\ reply_sane (GetK8SVersions c) /\
  reply_sane (GetConfigurators c) /\ reply_sane (GetK8sConfigurators c) /\
  reply_sane (GetRouterPresets c).

Lemma classifyUpstream_is resp cause t :
  t <> ErrCatalogUnauthorized -> t <> ErrCatalogTransient ->
  error_is (classifyUpstream resp cause) t = error_is cause t.
Proof.
  intros H1 H2. unfold classifyUpstream. cbv zeta.
  repeat case_match; simpl; rewrite ?bool_decide_false by auto; by rewrite ?orb_false_r.
Qed.

Lemma fetch_body_err {A} (r : catalog_reply A) k e :
  reply_sane r -> fetch_body r k = Err e -> error_is e ErrInvalidInput = false.
Proof.
  destruct r as [c|h [a|]]; simpl; intros Hr H; simplify_eq; by rewrite classifyUpstream_is.
Qed.

Lemma registry_err name def client e :
  client_sane client -> assoc name defaultRegistry = Some def -> def_fetch def client = Err e ->
  error_is e ErrInvalidInput = false.
Proof.
  intros Hc H. destruct Hc as (?&?&?&?&?&?&?&?&?).
  apply assoc_elem_of in H. unfold defaultRegistry in H.
  repeat (apply elem_of_cons in H as [[= -> ->]|H]; [cbn [def_fetch];
    solve [ unfold fetchK8sMasterPresets, fetchK8sWorkerPresets, fetchK8sPresetsByType,
              fetchK8sMasterConfigurators, fetchK8sWorkerConfigurators;
            eapply fetch_body_err; eassumption
          | by intros [= <-] ]|]).
  by apply elem_of_nil in H.
Qed.

(** C39. Resolve is well typed: on a registered dimension of the right kind with
    an input of that kind it never fails with [ErrInvalidInput], and it keeps the
    cache well formed (each entry a non-empty payload of its key's kind or a
    sticky authorization failure). *)
Theorem resolve_well_typed (client : CatalogClient) (c : cache) (pc : PCRef) (dim : Dimension)
    (t1 t2 t3 : Z) (input : ResolveInput) (def : dimensionDef) :
  client_sane client -> cache_ok c ->
  assoc (dim_Name dim) defaultRegistry = Some def -> def_kind def = dim_Kind dim ->
  input_kind input = dim_Kind dim ->
  cache_ok (Resolve client c pc dim t1 t2 t3 input).1 /\
  (forall e, (Resolve client c pc dim t1 t2 t3 input).2 = Err e -> error_is e ErrInvalidInput = false).
Proof.
  intros Hcl HC Hreg Hkind Hin. unfold Resolve. rewrite Hreg, bool_decide_true by done. cbn [negb].
  set (key := {| key_pc := pc; key_dim := dim |}).
  assert (fetched_ok key (def_fetch def client)) as Hf.
  { unfold fetched_ok. destruct (def_fetch def client) eqn:E.
    - rewrite (registry_typed _ _ _ _ Hreg E). done.
    - by eapply registry_err. }
  destruct (getOrFetch_ok c key t1 t2 t3 _ HC Hf) as [H1 H2].
  destruct (getOrFetch _ _ _ _ _ _) as [[c' r] b]; simpl in *. destruct r as [p|e]; simpl in *.
  - split; [done|]. intros e. by apply resolve_payload_typed.
  - split; [done|]. by intros e' [= <-].
Qed.

(** ** Sequences of cache operations *)

Inductive cache_op : Type :=
| OpGet (key : cacheKey) (t1 t2 t3 : Z) (f : result error catalog_payload)
| OpInvalidate (key : cacheKey).

Definition op_key (o : cache_op) : cacheKey :=
  match o with OpGet k _ _ _ _ => k | OpInvalidate k => k end.

Definition step_op (c : cache) (o : cache_op) : cache :=
  match o with
  | OpGet k t1 t2 t3 f => (getOrFetch c k t1 t2 t3 f).1.1
  | OpInvalidate k => invalidate c k
  end.

Definition run_ops (c : cache) (os : list cache_op) : cache := fold_left step_op os c.

Lemma step_ttl c o : ttl (step_op c o) = ttl c.
Proof. destruct o; simpl; [unfold getOrFetch; by repeat case_match|done]. Qed.

Lemma step_other c o key :
  op_key o <> key -> entries (step_op c o) !! key = entries c !! key.
Proof.
  destruct o as [k t1 t2 t3 f|k]; simpl; intros Hk.
  - unfold getOrFetch. repeat case_match; simpl; rewrite ?lookup_insert_ne; done.
  - by rewrite lookup_delete_ne.
Qed.

(** A step on a key depends on that key's entry only. *)
Lemma step_same c c' o :
  ttl c = ttl c' -> entries c !! op_key o = entries c' !! op_key o ->
  entries (step_op c o) !! op_key o = entries (step_op c' o) !! op_key o.
Proof.
  intros Ht He. destruct o as [k t1 t2 t3 f|k]; simpl in *; [|by rewrite !lookup_delete_eq].
  assert (forall t, cached c k t = cached c' k t) as Hc.
  { intros t. unfold cached, expired. rewrite He, Ht. done. }
  unfold getOrFetch. rewrite !Hc. repeat case_match; simpl; rewrite ?lookup_insert_eq; done.
Qed.

(** Catalog entries are isolated per key: the entry of one (ProviderConfig,
    dimension) after any sequence of cache operations depends only on the
    operations on that key, so no ProviderConfig ever sees a payload or a sticky
    authorization failure of another. *)
Theorem cache_key_isolation (c : cache) (os : list cache_op) (key : cacheKey) :
  entries (run_ops c os) !! key =
  entries (run_ops c (List.filter (fun o => bool_decide (op_key o = key)) os)) !! key.
Proof.
  assert (forall os c c', ttl c = ttl c' -> entries c !! key = entries c' !! key ->
    entries (run_ops c os) !! key =
    entries (run_ops c' (List.filter (fun o => bool_decide (op_key o = key)) os)) !! key) as H.
  { clear. induction os as [|o os IH]; intros c c' Ht He; [done|]. simpl.
    case_bool_decide as Hk; simpl; apply IH.
    - by rewrite !step_ttl.
    - rewrite <- Hk in *. by apply step_same.
    - by rewrite step_ttl.
    - by rewrite step_other. }
  by apply H.
Qed.

(** An operation that leaves a fresh entry alone: not an invalidation of the
    key, and a read of it happens before the entry's expiry. *)
Definition keeps_fresh (key : cacheKey) (deadline : Z) (o : cache_op) : Prop :=
  match o with
  | OpGet k t1 _ _ _ => k = key -> t1 < deadline
  | OpInvalidate k => k <> key
  end.

Lemma fresh_hit c key e t1 t2 t3 f :
  entries c !! key = Some e -> t1 < fetchedAt e + ttl c ->
  getOrFetch c key t1 t2 t3 f = (c, entry_result e, false).
Proof.
  intros He Ht. unfold getOrFetch, cached. rewrite He.
  unfold expired. replace (t1 - fetchedAt e >=? ttl c) with false by lia. done.
Qed.

(** At most one catalog read per key per TTL: once an answer is stored, every
    later read of the key before the TTL has passed returns that same answer
    without calling the upstream, whatever other keys do in between and whatever
    the upstream would answer. *)
Theorem cache_one_fetch_per_ttl (c : cache) (key : cacheKey) (e : cacheEntry)
    (os : list cache_op) (t1 t2 t3 : Z) (f : result error catalog_payload) :
  entries c !! key = Some e ->
  Forall (keeps_fresh key (fetchedAt e + ttl c)) os ->
  t1 < fetchedAt e + ttl c ->
  (getOrFetch (run_ops c os) key t1 t2 t3 f).1.2 = entry_result e /\
  (getOrFetch (run_ops c os) key t1 t2 t3 f).2 = false.
Proof.
  intros He Hos Ht.
  assert (entries (run_ops c os) !! key = Some e /\ ttl (run_ops c os) = ttl c) as [He' Htl].
  { revert c He Hos Ht. induction os as [|o os IH]; intros c He Hos Ht; [done|].
    apply Forall_cons in Hos as [Ho Hos]. simpl.
    assert (entries (step_op c o) !! key = Some e) as Hs.
    { destruct (decide (op_key o = key)) as [<-|Hk]; [|by rewrite step_other].
      destruct o as [k s1 s2 s3 g|k]; simpl in *; [|done].
      by rewrite (fresh_hit _ _ e) by auto. }
    rewrite <- (step_ttl c o) in Hos, Ht |- *. by apply IH. }
  by rewrite (fresh_hit _ _ e) by (rewrite ?Htl; done).
Qed.

(** Failures are not pinned: after a transient failure, a permanent 4xx or an
    empty catalog the cache is what it was, so the next read calls the upstream
    again; only an authorization failure is stored, and it too is re-fetched once
    the TTL has passed. *)
Theorem cache_failures_not_pinned (c : cache) (key : cacheKey) (t1 t2 t3 t1' t2' t3' : Z)
    (f g : result error catalog_payload) :
  cached c key t1 = None -> cached c key t2 = None ->
  match f with Ok p => isEmptySlice p = true | Err e => error_is e ErrCatalogUnauthorized = false end ->
  (getOrFetch c key t1 t2 t3 f).1.1 = c /\ is_ok (getOrFetch c key t1 t2 t3 f).1.2 = false /\
  (cached c key t1' = None -> cached c key t2' = None ->
   (getOrFetch (getOrFetch c key t1 t2 t3 f).1.1 key t1' t2' t3' g).2 = true).
Proof.
  intros H1 H2 Hf. unfold getOrFetch at 1 2 4. rewrite H1, H2.
  destruct f as [p|e]; rewrite Hf; simpl; (split; [done|]; split; [done|]); intros H3 H4;
    unfold getOrFetch; rewrite H3, H4; by repeat case_match.
Qed.

(** A stored authorization failure stops being served when its TTL has passed,
    whether or not a fetch has succeeded since. *)
Theorem unauthorized_expires (c : cache) (key : cacheKey) (e : error) (t0 t1 t2 t3 : Z)
    (f : result error catalog_payload) :
  t1 - t0 >= ttl c -> t2 - t0 >= ttl c ->
  (getOrFetch (store c key (Err e) t0) key t1 t2 t3 f).2 = true.
Proof.
  intros H1 H2. unfold getOrFetch, cached, store, expired. simpl. rewrite lookup_insert_eq. simpl.
  replace (t1 - t0 >=? ttl c) with true by lia. replace (t2 - t0 >=? ttl c) with true by lia.
  by repeat case_match.
Qed.

(** ** Zones and roles *)

(** A preset is never resolved outside the requested zone or location: the
    id returned for a preset input belongs to an entry whose zone is empty or the
    requested one, and whose location is empty or the requested one. *)
Theorem resolve_respects_placement (dim : Dimension) (l : list PresetEntry) (i : PresetInput) (id : Z) :
  dim_Kind dim = DimensionPreset ->
  resolve_payload dim (PPresets l) (InPreset i) = Ok (OutPreset id) ->
  exists e, e ∈ l /\ UpstreamID e = id /\
    (pi_Zone i <> "" -> Zone e = "" \/ Zone e = pi_Zone i) /\
    (pi_Location i <> "" -> Location e = "" \/ Location e = pi_Location i) /\
    denotes (normalize (pi_Slug i)) e.
Proof.
  unfold resolve_payload. intros -> H.
  pose proof (match_preset_slug_spec (pi_Slug i)
    (location_filter (pi_Location i) (zone_filter (pi_Zone i) l)) (dim_Name dim)) as HS.
  destruct (MatchPresetSlug _ _ _) as [id'|e]; [|done]. simplify_eq.
  destruct HS as (e & He & Hid & Hd). exists e.
  assert (forall (loc : string) (l : list PresetEntry), e ∈ location_filter loc l ->
            e ∈ l /\ (loc <> "" -> Location e = "" \/ Location e = loc)) as HL.
  { clear. intros loc l. unfold location_filter. case_bool_decide; [done|].
    rewrite list_elem_of_In, List.filter_In, <- list_elem_of_In, orb_true_iff, !bool_decide_eq_true. tauto. }
  assert (forall (z : string) (l : list PresetEntry), e ∈ zone_filter z l ->
            e ∈ l /\ (z <> "" -> Zone e = "" \/ Zone e = z)) as HZ.
  { clear. intros z l. unfold zone_filter. case_bool_decide; [done|].
    rewrite list_elem_of_In, List.filter_In, <- list_elem_of_In, orb_true_iff, !bool_decide_eq_true. tauto. }
  apply HL in He as [He ?]. apply HZ in He as [He ?]. auto.
Qed.

(** The Kubernetes configurator catalog is partitioned by role: the master
    and the worker dimension never offer the same upstream entry, and every entry
    is offered to one of them. *)
Theorem k8s_configurators_partition (client : CatalogClient) (h : http_head)
    (cs : list ServersConfigurator) :
  GetK8sConfigurators client = CatResp h (Some cs) ->
  exists ms ws, fetchK8sMasterConfigurators client = Ok (PConfigurators (configuratorEntries ms)) /\
    fetchK8sWorkerConfigurators client = Ok (PConfigurators (configuratorEntries ws)) /\
    ms ++ ws ≡ₚ cs /\
    (forall c, c ∈ ms -> k8sMasterConfiguratorTag ∈ default [] (sc_Tags c)) /\
    (forall c, c ∈ ws -> k8sMasterConfiguratorTag ∉ default [] (sc_Tags c)).
Proof.
  intros H. unfold fetchK8sMasterConfigurators, fetchK8sWorkerConfigurators, fetchK8sConfiguratorsByRole.
  rewrite H. do 2 eexists. split; [reflexivity|]. split; [reflexivity|].
  assert (forall c, is_master_configurator c = true <-> k8sMasterConfiguratorTag ∈ default [] (sc_Tags c)) as HM.
  { intros c. unfold is_master_configurator. rewrite existsb_exists. setoid_rewrite bool_decide_eq_true.
    rewrite list_elem_of_In. naive_solver. }
  split; [|split].
  - clear H. induction cs as [|c cs IH]; simpl; [done|].
    destruct (is_master_configurator c); simpl; [by constructor|].
    rewrite <- Permutation_middle. by constructor.
  - intros c. rewrite list_elem_of_In, List.filter_In. intros [_ Hc]. apply HM.
    by destruct (is_master_configurator c).
  - intros c. rewrite list_elem_of_In, List.filter_In, <- HM. intros [_ Hc].
    by destruct (is_master_configurator c).
Qed.

(** ** Concrete instances *)

Definition sample_head : http_head := {| hd_Status := 200; hd_Headers := [] |}.

Definition sample_requirements : Requirements :=
  {| CpuMin := 2; CpuStep := 2; CpuMax := 8; RamMin := 2048; RamStep := 1024; RamMax := 16384;
     DiskMin := 10240; DiskStep := 5120; DiskMax := 102400; NetworkBandwidthMin := 100;
     NetworkBandwidthStep := 100; NetworkBandwidthMax := 1000; GpuMin := None; GpuStep := None;
     GpuMax := None |}.

Definition sample_k8s_configurator (id : Z) (tags : option (list string)) : ServersConfigurator :=
  {| sc_Id := id; sc_Location := "ru-3"; sc_DiskType := "nvme"; sc_IsAllowedLocalNetwork := true;
     sc_CpuFrequency := "3.3"; sc_Tags := tags; sc_Requirements := sample_requirements |}.

Definition sample_k8s_configurators : list ServersConfigurator :=
  [sample_k8s_configurator 57 (Some ["k8s_master_configurator"]);
   sample_k8s_configurator 61 (Some ["k8s_configurator_general"]); sample_k8s_configurator 63 None].

Definition sample_client : CatalogClient :=
  {| GetRegistryPresets := CatResp {| hd_Status := 401; hd_Headers := [("X-Request-Id", "r-1")] |} None;
     GetStoragesPresets := CatResp {| hd_Status := 503; hd_Headers := [] |} None;
     GetServersPresets := CatErr (ErrorString "dial tcp: i/o timeout");
     GetOsList := CatResp sample_head (Some []);
     GetKubernetesPresets := CatResp sample_head (Some []);
     GetK8SVersions := CatResp sample_head (Some ["v1.31.2"; "v1.32.1"]);
     GetConfigurators := CatResp sample_head (Some []);
     GetK8sConfigurators := CatResp sample_head (Some sample_k8s_configurators);
     GetRouterPresets := CatResp sample_head
       (Some [{| tp_Id := 2001; tp_NodeCount := 1; tp_Cpu := 1; tp_Ram := 1; tp_Location := "ru-3" |};
              {| tp_Id := 2003; tp_NodeCount := 1; tp_Cpu := 1; tp_Ram := 1; tp_Location := "ru-1" |}]) |}.

Definition sample_pc : PCRef := {| pc_Kind := "ProviderConfig"; pc_Name := "default"; pc_Namespace := "team-a" |}.
Definition router_dim : Dimension := {| dim_Name := "RouterPreset"; dim_Kind := DimensionPreset |}.
Definition router_input : ResolveInput :=
  InPreset {| pi_Slug := "router-1x1-1gb"; pi_Zone := "ru-3"; pi_Location := "ru-3" |}.

Example resolve_router_tier :
  (Resolve sample_client (newCache 0) sample_pc router_dim 0 1 2 router_input).2 = Ok (OutPreset 2001).
Proof. vm_compute. reflexivity. Qed.

Lemma resolve_well_typed_witness :
  cache_ok (Resolve sample_client (newCache 0) sample_pc router_dim 0 1 2 router_input).1 /\
  (forall e, (Resolve sample_client (newCache 0) sample_pc router_dim 0 1 2 router_input).2 = Err e ->
     error_is e ErrInvalidInput = false).
Proof.
  apply (resolve_well_typed _ _ _ _ _ _ _ _
    {| def_kind := DimensionPreset; def_fetch := fetchRouterPresets |}).
  - repeat split.
  - apply newCache_ok.
  - reflexivity.
  - reflexivity.
  - reflexivity.
Defined.

Definition router_key : cacheKey := {| key_pc := sample_pc; key_dim := router_dim |}.
Definition other_key : cacheKey :=
  {| key_pc := {| pc_Kind := "ProviderConfig"; pc_Name := "default"; pc_Namespace := "team-b" |};
     key_dim := router_dim |}.
Definition router_entry : cacheEntry :=
  {| entry_result := fetchRouterPresets sample_client; fetchedAt := 1000 |}.
Definition warm_cache : cache := {| entries := {[ router_key := router_entry ]}; ttl := DefaultTTL |}.

Lemma cache_one_fetch_per_ttl_witness :
  let os := [OpInvalidate other_key; OpGet router_key 2000 2000 2000 (Err (ErrorString "down"))] in
  (getOrFetch (run_ops warm_cache os) router_key 3000 3000 3000 (Err (ErrorString "down"))).1.2
    = fetchRouterPresets sample_client /\
  (getOrFetch (run_ops warm_cache os) router_key 3000 3000 3000 (Err (ErrorString "down"))).2 = false.
Proof.
  apply (cache_one_fetch_per_ttl warm_cache router_key router_entry).
  - apply lookup_singleton_eq.
  - constructor; [intros E; discriminate E|]. constructor; [intros _; reflexivity|constructor].
  - reflexivity.
Defined.

Lemma cache_failures_not_pinned_witness :
  (getOrFetch (newCache 0) router_key 0 1 2 (fetchS3BucketPresets sample_client)).1.1 = newCache 0 /\
  is_ok (getOrFetch (newCache 0) router_key 0 1 2 (fetchS3BucketPresets sample_client)).1.2 = false /\
  (cached (newCache 0) router_key 3 = None -> cached (newCache 0) router_key 4 = None ->
   (getOrFetch (getOrFetch (newCache 0) router_key 0 1 2 (fetchS3BucketPresets sample_client)).1.1
      router_key 3 4 5 (Ok (PValues []))).2 = true).
Proof.
  apply (cache_failures_not_pinned (newCache 0) router_key 0 1 2 3 4 5).
  - reflexivity.
  - reflexivity.
  - reflexivity.
Defined.

Definition router_tiers : list PresetEntry :=
  match fetchRouterPresets sample_client with Ok (PPresets l) => l | _ => [] end.

Lemma resolve_respects_placement_witness :
  exists e, e ∈ router_tiers /\ UpstreamID e = 2001 /\
    ("ru-3" <> "" -> Zone e = "" \/ Zone e = "ru-3") /\
    ("ru-3" <> "" -> Location e = "" \/ Location e = "ru-3") /\
    denotes (normalize "router-1x1-1gb") e.
Proof.
  apply (resolve_respects_placement router_dim router_tiers
    {| pi_Slug := "router-1x1-1gb"; pi_Zone := "ru-3"; pi_Location := "ru-3" |} 2001).
  - reflexivity.
  - vm_compute; reflexivity.
Defined.

Lemma k8s_configurators_partition_witness :
  exists ms ws, fetchK8sMasterConfigurators sample_client = Ok (PConfigurators (configuratorEntries ms)) /\
    fetchK8sWorkerConfigurators sample_client = Ok (PConfigurators (configuratorEntries ws)) /\
    ms ++ ws ≡ₚ sample_k8s_configurators /\
    (forall c, c ∈ ms -> k8sMasterConfiguratorTag ∈ default [] (sc_Tags c)) /\
    (forall c, c ∈ ws -> k8sMasterConfiguratorTag ∉ default [] (sc_Tags c)).
Proof. apply (k8s_configurators_partition sample_client sample_head). reflexivity. Defined.
