(* ===== verification/Shared.v ===== *)
(** * Shared: the helpers every controller uses

    [internal/controller/shared/]: conditions and their vocabulary
    ([conditions.go]), the event decision ([events.go]), external names
    ([externalname.go]), immutable fields ([immutable.go]), pointers
    ([ptr.go]), the resolver-error mapping ([map_resolver_error.go]) and the
    placement tables ([azlocation.go]). *)

From S2P Require Import Prelude Errors.

(** ** Conditions

    Transition times are left out. *)
Inductive ConditionStatus : Type := CTrue | CFalse | CUnknown.

#[export] Instance ConditionStatus_eq_dec : EqDecision ConditionStatus.
Proof. solve_decision. Defined.

Record Condition := {
  cond_Type : string;
  cond_Status : ConditionStatus;
  cond_Reason : string;
  cond_Message : string }.

(** The part of crossplane-runtime the controllers rely on: the condition set
    of a managed resource, its accessors, and the standard conditions. *)
Class CrossplaneRuntime := {
  conds : Type;
  SetConditions : Condition -> conds -> conds;
  GetCondition : string -> conds -> Condition;
  TypeReady : string;
  TypeSynced : string;
  Available : Condition;
  Creating : Condition;
  Deleting : Condition;
  Unavailable : Condition }.

(** Its documented behaviour: setting a condition replaces the one of its type
    and no other; the standard conditions are Ready conditions, True for
    [Available] and False for the other two. *)
Class CrossplaneLaws (R : CrossplaneRuntime) : Prop := {
  get_set_eq : forall c s, GetCondition (cond_Type c) (SetConditions c s) = c;
  get_set_ne : forall c s t, t <> cond_Type c -> GetCondition t (SetConditions c s) = GetCondition t s;
  ready_synced_ne : TypeReady <> TypeSynced;
  available_type : cond_Type Available = TypeReady;
  available_status : cond_Status Available = CTrue;
  creating_type : cond_Type Creating = TypeReady;
  creating_status : cond_Status Creating = CFalse;
  deleting_type : cond_Type Deleting = TypeReady;
  deleting_status : cond_Status Deleting = CFalse;
  unavailable_type : cond_Type Unavailable = TypeReady;
  unavailable_status : cond_Status Unavailable = CFalse }.

#[export] Hint Rewrite @get_set_eq using typeclasses eauto : go_rw.

(** Reasons of [conditions.go]. *)
Definition ReasonImmutableFieldChange : string := "ImmutableFieldChange".
Definition ReasonInvalidConfiguration : string := "InvalidConfiguration".
Definition ReasonAPIError : string := "APIError".
Definition ReasonPaymentRequired : string := "PaymentRequired".
Definition ReasonUpstreamFailed : string := "UpstreamFailed".
Definition ReasonPresetNotFound : string := "PresetNotFound".
Definition ReasonPresetAmbiguous : string := "PresetAmbiguous".
Definition ReasonNoConfiguratorAvailable : string := "NoConfiguratorAvailable".
Definition ReasonSizingSwitchRequiresRecreate : string := "SizingSwitchRequiresRecreate".
Definition ReasonCatalogUnauthorized : string := "CatalogUnauthorized".
Definition ReasonCatalogTransient : string := "CatalogTransient".
Definition ReasonDimensionValueNotFound : string := "DimensionValueNotFound".
Definition ReasonParentNotReady : string := "ParentNotReady".
Definition ReasonNoNetworksResolved : string := "NoNetworksResolved".
Definition ReasonServiceConflict : string := "ServiceConflict".
Definition ReasonOriginNotReady : string := "OriginNotReady".
Definition ReasonSuspended : string := "Suspended".
Definition ReasonNATIPUnavailable : string := "NATIPUnavailable".
Definition ReasonReconciling : string := "Reconciling".
Definition ReasonRouterNATRequired : string := "RouterNATRequired".
Definition ReasonExternalNameConflict : string := "ExternalNameConflict".
Definition ReasonAdoptionAmbiguous : string := "AdoptionAmbiguous".
Definition ReasonStorageClassMismatch : string := "StorageClassMismatch".
Definition ReasonUpstreamReclassified : string := "UpstreamReclassified".
Definition ReasonStorageClassAligned : string := "Aligned".
Definition ReasonSecretMissing : string := "SecretMissing".
Definition ReasonRepositoryNotPushed : string := "RepositoryNotPushed".
Definition ReasonBucketQuarantined : string := "BucketQuarantined".

(** *** Upstream states *)

Inductive UpstreamState : Type :=
| StateProvisioning | StateActive | StateUnfunded | StateFailed.

Definition active_states : list string :=
  ["active"; "started"; "running"; "on"; "ready"; "installed"; "created"].

Definition ClassifyUpstreamState (status : string) : UpstreamState :=
  let s := to_lower (trim_space status) in
  if bool_decide (s = "no_paid") then StateUnfunded
  else if bool_decide (s ∈ active_states) then StateActive
  else if contains_str s "error" || contains_str s "fail" then StateFailed
  else StateProvisioning.

Definition UnfundedMessage (kind : string) : string :=
  "the Timeweb account lacks the funds/quota for this " +:+ kind +:+
  " — top up the account; it proceeds once payment clears".

Definition ImmutableMessage (field : string) : string :=
  "field " +:+ quote field +:+ " is immutable; revert the change or delete and recreate the resource".

(** *** Events *)

Inductive EventType : Type := EventNormal | EventWarning.

#[export] Instance EventType_eq_dec : EqDecision EventType.
Proof. solve_decision. Defined.

Record Event := { ev_Type : EventType; ev_Reason : string; ev_Message : string }.

(** ** Pointers *)

Definition DerefString (p : option string) : string := default_str p.
Definition DerefBool (p : option bool) : bool := match p with Some b => b | None => false end.

Definition PtrEqString (p : option string) (s : string) : bool :=
  match p with None => bool_decide (s = "") | Some x => bool_decide (x = s) end.

Definition PtrEqStringPtr (a b : option string) : bool :=
  match a, b with
  | None, None => true
  | _, _ => bool_decide (default_str a = default_str b)
  end.

(** ** External names *)

Definition EncodeID (id : Z) : string := fmt_d id.

Definition DecodeID (externalName : string) : result error Z :=
  if bool_decide (externalName = "") then Err (ErrorString "external-name is empty")
  else match atoi externalName with
       | Some id => Ok id
       | None => Err (ErrorString ("external-name " +:+ quote externalName +:+
                                   " is not a numeric Timeweb ID"))
       end.

Definition slash : ascii := byte_of 47.

Definition EncodeComposite (parent child : string) : string := parent +:+ String slash child.

Definition DecodeComposite (externalName : string) : result error (string * string) :=
  if bool_decide (externalName = "") then Err (ErrorString "external-name is empty")
  else
    match index_byte externalName slash with
    | None => Err (ErrorString ("external-name " +:+ quote externalName +:+
                                " is not a valid parent/child composite"))
    | Some idx =>
        if (idx =? 0)%nat || (idx =? String.length externalName - 1)%nat
        then Err (ErrorString ("external-name " +:+ quote externalName +:+
                               " is not a valid parent/child composite"))
        else Ok (take_str idx externalName, drop_str (S idx) externalName)
    end.

(** ** Immutable fields *)

Record ImmutableField := { if_Name : string; if_Desired : string; if_Observed : string }.

Fixpoint FirstImmutableDiff (fields : list ImmutableField) : option string :=
  match fields with
  | [] => None
  | f :: fields' =>
      if negb (bool_decide (trim_space (if_Desired f) = trim_space (if_Observed f)))
      then Some (if_Name f)
      else FirstImmutableDiff fields'
  end.

(** ** Placement *)

Definition staticLocations : list (string * list string) :=
  [("ru-1", ["spb-1"; "spb-2"; "spb-3"; "spb-4"; "spb-5"]); ("ru-2", ["nsk-1"]);
   ("ru-3", ["msk-1"]); ("nl-1", ["ams-1"]); ("de-1", ["fra-1"]); ("kz-1", ["ala-1"]);
   ("us-4", ["us-4"]); ("pl-1", ["pl-1"])].

(** The reverse index: one assignment per zone of each location of the table,
    in the order [locs] the map is iterated in. *)
Definition buildAZToLocation (locs : list (string * list string)) : gmap string string :=
  fold_left (fun m entry => fold_left (fun m az => <[az := entry.1]> m) entry.2 m) locs ∅.

Definition azToLocation : gmap string string := buildAZToLocation staticLocations.

Definition AZToLocation (az : string) : result error string :=
  match azToLocation !! az with
  | Some loc => Ok loc
  | None => Err (ErrorString ("no catalog location known for availability zone " +:+ quote az +:+
                              " (CRD enum and azLocation table out of sync)"))
  end.

Definition LocationZones (location : string) : list string :=
  default [] (assoc location staticLocations).

Definition DefaultZoneForLocation (location : string) : result error string :=
  match LocationZones location with
  | [] => Err (ErrorString ("no availability zones known for location " +:+ quote location))
  | [z] => Ok z
  | zones => Err (ErrorString ("location " +:+ quote location +:+ " has multiple availability zones " +:+
                    fmt_list (sort_strings zones) +:+
                    " — set forProvider.availabilityZone explicitly"))
  end.

Definition ResolvePlacement (location : string) (az : option string) : result error (string * string) :=
  let hasLocation := negb (bool_decide (location = "")) in
  let zone := default_str az in
  let hasAZ := negb (bool_decide (zone = "")) in
  match hasLocation, hasAZ with
  | true, true =>
      match LocationZones location with
      | [] => Err (ErrorString ("unknown location " +:+ quote location))
      | zones =>
          if existsb (fun z => bool_decide (z = zone)) zones then Ok (location, zone)
          else Err (ErrorString ("availabilityZone " +:+ quote zone +:+ " does not belong to location " +:+
                      quote location +:+ " (valid zones: " +:+ fmt_list zones +:+ ")"))
      end
  | true, false =>
      match DefaultZoneForLocation location with
      | Ok z => Ok (location, z)
      | Err e => Err e
      end
  | false, true =>
      match AZToLocation zone with
      | Ok loc => Ok (loc, zone)
      | Err e => Err e
      end
  | false, false => Err (ErrorString "location is required")
  end.

(** ** Condition builders, events and the resolver-error mapping *)
Section Runtime.
Context `{R : CrossplaneRuntime}.

Definition SyncedFalse (reason message : string) : Condition :=
  {| cond_Type := TypeSynced; cond_Status := CFalse; cond_Reason := reason; cond_Message := message |}.

Definition ReadyFalse (reason message : string) : Condition :=
  {| cond_Type := TypeReady; cond_Status := CFalse; cond_Reason := reason; cond_Message := message |}.

Definition normalReasons : list string :=
  [cond_Reason Available; cond_Reason Creating; cond_Reason Deleting;
   ReasonParentNotReady; ReasonStorageClassAligned].

(** [RecordConditionChange]: the events it emits; [recorder] is false when
    the recorder is nil. *)
Definition RecordConditionChange (recorder : bool) (s : conds) (newCondition : Condition) : list Event :=
  if negb recorder then []
  else
    let current := GetCondition (cond_Type newCondition) s in
    if bool_decide (cond_Status current = cond_Status newCondition) &&
       bool_decide (cond_Reason current = cond_Reason newCondition) then []
    else [{| ev_Type := if bool_decide (cond_Reason newCondition ∈ normalReasons)
                        then EventNormal else EventWarning;
             ev_Reason := cond_Reason newCondition;
             ev_Message := cond_Message newCondition |}].

(** [RejectImmutableChange]: the new conditions, the events, the error. *)
Definition RejectImmutableChange (recorder : bool) (field : string) (s : conds)
  : conds * list Event * error :=
  let msg := ImmutableMessage field in
  (SetConditions (SyncedFalse ReasonImmutableFieldChange msg) s,
   if recorder then [{| ev_Type := EventWarning; ev_Reason := ReasonImmutableFieldChange;
                        ev_Message := msg |}] else [],
   Sentinel ErrImmutableFieldChange).

Definition RejectSizingSwitch (recorder : bool) (s : conds) : conds * list Event * error :=
  let msg := "sizing variant (presetName <-> resources) is immutable; delete and recreate the resource to change it" in
  (SetConditions (SyncedFalse ReasonSizingSwitchRequiresRecreate msg) s,
   if recorder then [{| ev_Type := EventWarning; ev_Reason := ReasonSizingSwitchRequiresRecreate;
                        ev_Message := msg |}] else [],
   Sentinel ErrSizingSwitchRequiresRecreate).

Definition MapResolverErrorToCondition (err : error) : Condition :=
  if error_is err ErrPresetNotFound then SyncedFalse ReasonPresetNotFound (Error err)
  else if error_is err ErrPresetAmbiguous then SyncedFalse ReasonPresetAmbiguous (Error err)
  else if error_is err ErrNoConfiguratorAvailable then
    SyncedFalse ReasonNoConfiguratorAvailable (Error err)
  else if error_is err ErrDimensionValueNotFound then
    SyncedFalse ReasonDimensionValueNotFound (Error err)
  else if error_is err ErrCatalogUnauthorized then SyncedFalse ReasonCatalogUnauthorized (Error err)
  else if error_is err ErrCatalogTransient then SyncedFalse ReasonCatalogTransient (Error err)
  else SyncedFalse ReasonAPIError (Error err).

(** *** Events fire on transitions only *)

Lemma RecordConditionChange_steady {L : CrossplaneLaws R} recorder s c :
  RecordConditionChange recorder (SetConditions c s) c = [].
Proof.
  unfold RecordConditionChange. destruct recorder; [|done]. simpl.
  rewrite get_set_eq, !bool_decide_true by done. done.
Qed.

(** Events mark transitions: recording and then setting a condition again,
    unchanged in status and reason, emits nothing; the first time, an event is
    emitted exactly when status or reason differ from the stored condition,
    with the new condition's reason. *)
Theorem condition_events_on_transition {L : CrossplaneLaws R} (s : conds) (c c' : Condition) :
  cond_Type c' = cond_Type c -> cond_Status c' = cond_Status c -> cond_Reason c' = cond_Reason c ->
  RecordConditionChange true (SetConditions c s) c' = [] /\
  (RecordConditionChange true s c <> [] <->
     cond_Status (GetCondition (cond_Type c) s) <> cond_Status c \/
     cond_Reason (GetCondition (cond_Type c) s) <> cond_Reason c) /\
  Forall (fun e => ev_Reason e = cond_Reason c) (RecordConditionChange true s c).
Proof.
  intros Ht Hs Hr. unfold RecordConditionChange. simpl. rewrite Ht, get_set_eq, Hs, Hr.
  rewrite !(bool_decide_true (_ = _)) by done. split; [done|].
  do 2 case_bool_decide; simpl; split; try tauto; by repeat constructor.
Qed.
End Runtime.

(** ** Immutable fields compared *)

(** A field without blanks around it: the comparison that trims and the one that
    does not agree on it. *)
Definition unpadded (f : ImmutableField) : Prop :=
  trim_space (if_Desired f) = if_Desired f /\ trim_space (if_Observed f) = if_Observed f.

Lemma no_diff_iff fields :
  Forall unpadded fields ->
  FirstImmutableDiff fields = None <-> Forall (fun f => if_Desired f = if_Observed f) fields.
Proof.
  induction 1 as [|f l [Hd Ho] Hl IH]; simpl; [by split; [constructor|]|].
  rewrite Hd, Ho, Forall_cons. case_bool_decide; simpl; [by rewrite IH; naive_solver|naive_solver].
Qed.

Lemma same_no_diff fields : Forall (fun f => if_Desired f = if_Observed f) fields -> FirstImmutableDiff fields = None.
Proof. induction 1 as [|f l E Hl IH]; simpl; [done|]. by rewrite E, bool_decide_true. Qed.

(** ** External names round-trip *)

Lemma DecodeID_EncodeID id : int64_min <= id <= int64_max -> DecodeID (EncodeID id) = Ok id.
Proof.
  intros H. apply is_int64_spec in H. pose proof (atoi_fmt_d id H) as HA.
  unfold DecodeID, EncodeID. rewrite bool_decide_false; [by rewrite HA|]. intros E. by rewrite E in HA.
Qed.

(** External names round-trip: an encoded upstream id decodes to itself, and
    decoding accepts nothing that is not a 64-bit decimal integer. *)
Theorem external_name_roundtrip (id : Z) (s : string) :
  (int64_min <= id <= int64_max -> DecodeID (EncodeID id) = Ok id) /\
  (DecodeID s = Ok id -> int64_min <= id <= int64_max /\ atoi s = Some id).
Proof.
  split; [apply DecodeID_EncodeID|].
  unfold DecodeID. case_bool_decide; [done|]. destruct (atoi s) as [z|] eqn:E; [|done].
    intros [= ->]. split; [|done]. apply is_int64_spec.
    unfold atoi in E. repeat case_match; simplify_eq; done.
Qed.

Lemma index_byte_append b s rest :
  no_byte b s = true -> index_byte (s +:+ String b rest) b = Some (String.length s).
Proof.
  induction s as [|c s IH]; intros H; cbn [String.append index_byte String.length].
  - by rewrite bool_decide_true.
  - cbn [no_byte] in H. split_and_or. rewrite H, IH by done. done.
Qed.

Lemma index_byte_split b s idx :
  index_byte s b = Some idx ->
  s = take_str idx s +:+ String b (drop_str (S idx) s) /\ no_byte b (take_str idx s) = true /\
  String.length (take_str idx s) = idx.
Proof.
  revert idx. induction s as [|c s IH]; [done|]. intros idx. cbn [index_byte].
  case_bool_decide as E.
  - intros [= <-]. subst. done.
  - destruct (index_byte s b) as [i|]; [|done]. intros [= <-].
    destruct (IH i eq_refl) as (H1 & H2 & H3). cbn [take_str drop_str String.append no_byte String.length].
    rewrite bool_decide_false, H2, H3 by done. split; [|done]. f_equal. exact H1.
Qed.

(** Composite external names round-trip: a non-empty parent without a slash
    and a non-empty child decode from their encoding, and whatever decodes is the
    encoding of its two segments, both non-empty, the parent without a slash. *)
Theorem composite_name_roundtrip (parent child s : string) :
  (parent <> "" -> child <> "" -> no_byte slash parent = true ->
   DecodeComposite (EncodeComposite parent child) = Ok (parent, child)) /\
  (DecodeComposite s = Ok (parent, child) ->
   s = EncodeComposite parent child /\ parent <> "" /\ child <> "" /\ no_byte slash parent = true).
Proof.
  unfold DecodeComposite, EncodeComposite. split.
  - intros Hp Hc Hs. rewrite bool_decide_false by (by destruct parent).
    rewrite index_byte_append by done. rewrite length_append. cbn [String.length].
    assert (String.length parent <> O) by (by destruct parent).
    assert (String.length child <> O) by (by destruct child).
    rewrite (proj2 (Nat.eqb_neq _ _)), (proj2 (Nat.eqb_neq _ _)) by lia. simpl orb. cbv iota.
    rewrite take_str_append. repeat f_equal. clear. induction parent; [done|]. exact IHparent.
  - case_bool_decide; [done|]. destruct (index_byte s slash) as [idx|] eqn:E; [|done].
    destruct (_ || _) eqn:Eg; [done|].
    apply index_byte_split in E as (Hs & Hn & Hl).
    remember (drop_str (S idx) s) as d eqn:Ed. intros [= H1 H2].
    pose proof (f_equal String.length Hs) as Hlen. rewrite length_append, Hl in Hlen.
    cbn [String.length] in Hlen. subst parent child. clear Ed. split; [done|].
    apply orb_false_iff in Eg as [E0 E1]. apply Nat.eqb_neq in E0, E1.
    split; [intros En; rewrite En in Hl; simpl in Hl; lia|].
    split; [intros En; rewrite En in Hlen; cbn [String.length] in Hlen; lia|done].
Qed.

(** ** Placement is consistent *)

Definition placement_ok (location zone : string) : bool :=
  existsb (fun z => bool_decide (z = zone)) (LocationZones location) &&
  match AZToLocation zone with Ok l => bool_decide (l = location) | Err _ => false end.

(** Every zone of every location of the table is indexed back to it, checked on
    the whole table. *)
Lemma table_consistent :
  forallb (fun e => forallb (fun z => placement_ok e.1 z) e.2) staticLocations = true.
Proof. vm_compute. reflexivity. Qed.

Lemma zones_consistent loc z : z ∈ LocationZones loc -> placement_ok loc z = true.
Proof.
  unfold LocationZones. destruct (assoc loc staticLocations) as [zs|] eqn:E; simpl;
    [|intros H; by apply elem_of_nil in H].
  intros Hz. apply assoc_elem_of in E. pose proof table_consistent as H.
  rewrite forallb_forall in H. apply list_elem_of_In in E. specialize (H _ E). simpl in H.
  rewrite forallb_forall in H. by apply H, list_elem_of_In.
Qed.

Lemma az_index_consistent :
  map_Forall (fun z l => placement_ok l z = true) azToLocation.
Proof. apply map_Forall_to_list. vm_compute. repeat constructor. Qed.

(** A resolved placement is consistent: whichever of the two fields the
    operator gave, the zone returned is one of the location's zones, the reverse
    index maps it back to that location, and the given fields are kept. *)
Theorem placement_consistent (location : string) (az : option string) (l z : string) :
  ResolvePlacement location az = Ok (l, z) ->
  z ∈ LocationZones l /\ AZToLocation z = Ok l /\
  (location <> "" -> l = location) /\ (default_str az <> "" -> z = default_str az).
Proof.
  assert (forall l z, placement_ok l z = true -> z ∈ LocationZones l /\ AZToLocation z = Ok l) as HP.
  { clear. unfold placement_ok. intros l z H. split_and_or. split.
    - apply existsb_exists in H as (z' & Hz & He). apply bool_decide_eq_true in He as ->.
      by apply list_elem_of_In.
    - destruct (AZToLocation z); [|done]. by apply bool_decide_eq_true in H0 as ->. }
  unfold ResolvePlacement. do 2 case_bool_decide; simpl; try done.
  - destruct (AZToLocation (default_str az)) as [loc|] eqn:E; [|done]. intros [= <- <-].
    unfold AZToLocation in E. destruct (azToLocation !! _) eqn:EA; [|done]. simplify_eq.
    apply az_index_consistent, HP in EA. naive_solver.
  - destruct (DefaultZoneForLocation location) as [z'|] eqn:E; [|done]. intros [= <- <-].
    unfold DefaultZoneForLocation in E. destruct (LocationZones location) as [|z1 [|? ?]] eqn:EL; try done.
    simplify_eq. assert (z' ∈ LocationZones location) as Hz by (rewrite EL; left).
    apply zones_consistent, HP in Hz as [? ?]. rewrite <- EL. naive_solver.
  - destruct (LocationZones location) as [|z1 zs] eqn:EL; [done|].
    match goal with |- (if ?b then _ else _) = _ -> _ => destruct b eqn:Ex end; [|done].
    intros [= <- <-].
    change (existsb (fun z' => bool_decide (z' = default_str az)) (z1 :: zs) = true) in Ex.
    apply existsb_exists in Ex as (z' & Hz & He). apply bool_decide_eq_true in He as ->.
    rewrite <- EL in Hz. apply list_elem_of_In, zones_consistent, HP in Hz as [? ?].
    auto.
Qed.

Lemma placement_consistent_witness :
  "msk-1" ∈ LocationZones "ru-3" /\ AZToLocation "msk-1" = Ok "ru-3" /\
  ("ru-3" <> "" -> "ru-3" = "ru-3") /\ (default_str None <> "" -> "msk-1" = default_str None).
Proof. apply (placement_consistent "ru-3" None). vm_compute. reflexivity. Defined.

(** Immutable-field detection: the reported field is the first one whose
    trimmed values differ; nothing is reported exactly when all agree. *)
Theorem first_immutable_diff_spec (fields : list ImmutableField) :
  match FirstImmutableDiff fields with
  | Some n => exists f before after, fields = before ++ f :: after /\ if_Name f = n /\
      trim_space (if_Desired f) <> trim_space (if_Observed f) /\
      Forall (fun g => trim_space (if_Desired g) = trim_space (if_Observed g)) before
  | None => Forall (fun g => trim_space (if_Desired g) = trim_space (if_Observed g)) fields
  end.
Proof.
  induction fields as [|f fields IH]; simpl; [constructor|]. case_bool_decide as E; simpl.
  - destruct (FirstImmutableDiff fields) as [n|].
    + destruct IH as (g & before & after & -> & ? & ? & ?). exists g, (f :: before), after. auto.
    + by constructor.
  - exists f, [], fields. auto.
Qed.

(** ** A concrete runtime, for witnesses *)

Definition MapRuntime : CrossplaneRuntime := {|
  conds := gmap string Condition;
  SetConditions := fun c s => <[cond_Type c := c]> s;
  GetCondition := fun t s => default {| cond_Type := t; cond_Status := CUnknown; cond_Reason := "";
                                        cond_Message := "" |} (s !! t);
  TypeReady := "Ready";
  TypeSynced := "Synced";
  Available := {| cond_Type := "Ready"; cond_Status := CTrue; cond_Reason := "Available"; cond_Message := "" |};
  Creating := {| cond_Type := "Ready"; cond_Status := CFalse; cond_Reason := "Creating"; cond_Message := "" |};
  Deleting := {| cond_Type := "Ready"; cond_Status := CFalse; cond_Reason := "Deleting"; cond_Message := "" |};
  Unavailable := {| cond_Type := "Ready"; cond_Status := CFalse; cond_Reason := "Unavailable"; cond_Message := "" |} |}.

Lemma MapRuntime_laws : CrossplaneLaws MapRuntime.
Proof.
  constructor; simpl; try done.
  - intros c s. by rewrite lookup_insert_eq.
  - intros c s t Ht. by rewrite lookup_insert_ne.
Qed.

(** ** Witnesses *)

Definition no_conds : @conds MapRuntime := (∅ : gmap string Condition).

#[local] Existing Instance MapRuntime.

Lemma condition_events_on_transition_witness :
  let c := {| cond_Type := "Ready"; cond_Status := CTrue; cond_Reason := "Available"; cond_Message := "" |} in
  RecordConditionChange true (SetConditions c no_conds) c = [] /\
  (RecordConditionChange true no_conds c <> [] <->
     cond_Status (GetCondition (cond_Type c) no_conds) <> cond_Status c \/
     cond_Reason (GetCondition (cond_Type c) no_conds) <> cond_Reason c) /\
  Forall (fun e => ev_Reason e = cond_Reason c) (RecordConditionChange true no_conds c).
Proof. apply (@condition_events_on_transition MapRuntime MapRuntime_laws); reflexivity. Defined.

Lemma external_name_roundtrip_witness :
  DecodeID (EncodeID (-42)) = Ok (-42) /\ DecodeID "-42" = Ok (-42) /\ atoi "-42" = Some (-42).
Proof.
  split; [|split].
  - apply (external_name_roundtrip (-42) ""). vm_compute. split; discriminate.
  - vm_compute. reflexivity.
  - apply (external_name_roundtrip (-42) "-42"). vm_compute. reflexivity.
Defined.

Lemma composite_name_roundtrip_witness :
  DecodeComposite (EncodeComposite "77" "a/b") = Ok ("77", "a/b") /\
  "77/a/b" = EncodeComposite "77" "a/b".
Proof.
  split.
  - apply (composite_name_roundtrip "77" "a/b" ""); [discriminate|discriminate|reflexivity].
  - apply (composite_name_roundtrip "77" "a/b" "77/a/b"). vm_compute. reflexivity.
Defined.
