(* ===== verification/Effects.v ===== *)
(** * Effects: controllers as computations over an arbitrary upstream

    A controller method reads and changes its managed resource, calls the
    Timeweb API and fails with an [error]. [M] threads the managed resource and
    the world behind the API, and records each call with its reply; an error
    keeps the state reached so far, as the Go code does. The API itself is not
    under [src/]: it is the parameter [Upstream], which may answer anything. *)

From S2P Require Import Prelude Errors Timeweb Shared.

(** A read whose decoding errors are wrapped: the reply of [call_decode]. *)
Definition read_reply_pre {A} (pre : string) (r : reply A) : result error A :=
  match r with
  | NetErr cause => Err (network_error (ErrorString cause))
  | Reply resp p =>
      match Classify (Some resp) with
      | Some e => Err e
      | None => match DecodeBody p with
                | Ok a => Ok a
                | Err e => Err (wrap_pre pre e)
                end
      end
  end.

Lemma read_reply_pre_ok {A} pre (r : reply A) a : read_reply_pre pre r = Ok a <-> read_reply r = Ok a.
Proof.
  destruct r as [c|resp p]; cbn [read_reply read_reply_pre]; [done|].
  destruct (Classify (Some resp)); [done|]. by destruct p.
Qed.

Lemma read_reply_pre_not_found {A} pre (r : reply A) e :
  read_reply_pre pre r = Err e -> error_is e ErrNotFound = true ->
  exists resp p, r = Reply resp p /\ StatusCode resp = 404 /\ canonical_envelope resp.
Proof.
  intros H He. apply read_reply_not_found with (e := e); [|done]. revert H.
  destruct r as [c|resp p]; cbn [read_reply read_reply_pre]; [by intros [= <-]|].
  destruct (Classify (Some resp)); [done|]. destruct p; simpl; intros; simplify_eq; done.
Qed.

(** [fmt.Errorf("<pre>%w", err)], or the error itself for no prefix. *)
Definition wrap_if (pre : string) (e : error) : error := if bool_decide (pre = "") then e else wrap_pre pre e.

Lemma error_is_wrap_if p e t : error_is (wrap_if p e) t = error_is e t.
Proof. unfold wrap_if. case_bool_decide; [done|apply error_is_wrap_pre]. Qed.

#[export] Hint Rewrite error_is_wrap_if : go_rw.

(** A read whose classification and decoding errors are wrapped apart: the reply
    of [call_pre]. *)
Definition read_reply_as {A} (prec pred : string) (r : reply A) : result error A :=
  match r with
  | NetErr cause => Err (network_error (ErrorString cause))
  | Reply resp p =>
      match Classify (Some resp) with
      | Some e => Err (wrap_if prec e)
      | None => match DecodeBody p with
                | Ok a => Ok a
                | Err e => Err (wrap_if pred e)
                end
      end
  end.

Definition write_reply_as {A} (prec : string) (r : reply A) : result error unit :=
  match r with
  | NetErr cause => Err (network_error (ErrorString cause))
  | Reply resp _ =>
      match Classify (Some resp) with
      | Some e => Err (wrap_if prec e)
      | None => Ok tt
      end
  end.

Lemma read_reply_as_ok {A} prec pred (r : reply A) a : read_reply_as prec pred r = Ok a <-> read_reply r = Ok a.
Proof.
  destruct r as [c|resp p]; cbn [read_reply read_reply_as]; [done|].
  destruct (Classify (Some resp)); [done|]. by destruct p.
Qed.

Lemma write_reply_as_ok {A} prec (r : reply A) : write_reply_as prec r = Ok tt <-> write_reply r = Ok tt.
Proof. destruct r as [c|resp p]; cbn [write_reply write_reply_as]; [done|]. by destruct (Classify (Some resp)). Qed.

Lemma read_reply_as_not_found {A} prec pred (r : reply A) e :
  read_reply_as prec pred r = Err e -> error_is e ErrNotFound = true ->
  exists resp p, r = Reply resp p /\ StatusCode resp = 404 /\ canonical_envelope resp.
Proof.
  destruct r as [c|resp p]; cbn [read_reply_as]; [by intros [= <-]|].
  destruct (Classify (Some resp)) as [e'|] eqn:E.
  - intros [= <-]. rewrite error_is_wrap_if. intros He. exists resp, p. split; [done|].
    by apply (Classify_not_found _ _ E).
  - destruct p; simpl; intros; simplify_eq; rewrite error_is_wrap_if in *; done.
Qed.

(** A read of the body as it is, its failure wrapped; nothing is decoded. *)
Definition read_reply_raw {A} (pre : string) (r : reply A) : result error A :=
  match r with
  | NetErr cause => Err (network_error (ErrorString cause))
  | Reply resp p =>
      match Classify (Some resp) with
      | Some e => Err e
      | None => match p with
                | Decoded a => Ok a
                | ReadFailed c | DecodeFailed c => Err (wrap_pre pre (ErrorString c))
                end
      end
  end.

(** The service behind the client: how it answers each request. [Rep q] is the
    type the body of a reply to [q] decodes to. *)
Class Upstream (Req : Type) (Rep : Req -> Type) := {
  World : Type;
  serve : forall q : Req, World -> reply (Rep q) * World }.

(** A call with the reply it got. *)
Record exchange {Req : Type} (Rep : Req -> Type) := Exchange {
  request : Req;
  answer : reply (Rep request) }.
Arguments Exchange {_ _} _ _.
Arguments request {_ _} _.
Arguments answer {_ _} _.

(** What one run leaves: its outcome, the managed resource, the world and the
    calls made, oldest first. *)
Record run {Req : Type} (Rep : Req -> Type) (S W A : Type) := Run {
  outcome : result error A;
  final : S;
  world : W;
  trace : list (exchange Rep) }.
Arguments Run {_ _ _ _ _} _ _ _ _.
Arguments outcome {_ _ _ _ _} _.
Arguments final {_ _ _ _ _} _.
Arguments world {_ _ _ _ _} _.
Arguments trace {_ _ _ _ _} _.

Definition M {Req : Type} {Rep : Req -> Type} (U : Upstream Req Rep) (S A : Type) : Type :=
  S -> World -> run Rep S World A.

Definition calls {Req : Type} {Rep : Req -> Type} {S W A : Type} (r : run Rep S W A) : list Req :=
  map request (trace r).

Section Operations.
Context {Req : Type} {Rep : Req -> Type} {U : Upstream Req Rep} {S : Type}.

#[export] Instance M_ret : MRet (M U S) := fun A a s w => Run (Ok a) s w [].

#[export] Instance M_bind : MBind (M U S) := fun A B f m s w =>
  let r := m s w in
  match outcome r with
  | Ok a => let r' := f a (final r) (world r) in
            Run (outcome r') (final r') (world r') (trace r ++ trace r')
  | Err e => Run (Err e) (final r) (world r) (trace r)
  end.

Definition throw {A} (e : error) : M U S A := fun s w => Run (Err e) s w [].

Definition get : M U S S := fun s w => Run (Ok s) s w [].

Definition modify (f : S -> S) : M U S unit := fun s w => Run (Ok tt) (f s) w [].

Definition lift {A} (r : result error A) : M U S A := fun s w => Run r s w [].

(** A value read outside the API: the clock, the Kubernetes store. *)
Definition consult {A} (f : World -> A) : M U S A := fun s w => Run (Ok (f w)) s w [].

(** An error handled by the caller instead of returned. *)
Definition try {A} (m : M U S A) : M U S (result error A) := fun s w =>
  let r := m s w in Run (Ok (outcome r)) (final r) (world r) (trace r).

(** [doJSON(call, &v)]: call, classify, decode. *)
Definition doJSON (q : Req) : M U S (Rep q) := fun s w =>
  let '(r, w') := serve q w in Run (read_reply r) s w' [Exchange q r].

(** The same with decoding errors wrapped, [fmt.Errorf("<pre>%w", err)]. *)
Definition call_decode (pre : string) (q : Req) : M U S (Rep q) := fun s w =>
  let '(r, w') := serve q w in Run (read_reply_pre pre r) s w' [Exchange q r].

(** Both errors with a prefix of their own, none where it is empty. *)
Definition call_pre (prec pred : string) (q : Req) : M U S (Rep q) := fun s w =>
  let '(r, w') := serve q w in Run (read_reply_as prec pred r) s w' [Exchange q r].

Definition do_pre (prec : string) (q : Req) : M U S unit := fun s w =>
  let '(r, w') := serve q w in Run (write_reply_as prec r) s w' [Exchange q r].

(** Call, classify, read the body without decoding it. *)
Definition call_raw (pre : string) (q : Req) : M U S (Rep q) := fun s w =>
  let '(r, w') := serve q w in Run (read_reply_raw pre r) s w' [Exchange q r].

(** [doJSON(call, nil)]: call, classify, discard the body. *)
Definition do_ (q : Req) : M U S unit := fun s w =>
  let '(r, w') := serve q w in Run (write_reply r) s w' [Exchange q r].

(** A call whose reply is classified by rules of its own. *)
Definition call_with {A} (q : Req) (f : reply (Rep q) -> result error A) : M U S A := fun s w =>
  let '(r, w') := serve q w in Run (f r) s w' [Exchange q r].

(** ** Reasoning: a predicate transformer on outcome, state, world and trace *)

Definition post (A : Type) : Type := result error A -> S -> World -> list (exchange Rep) -> Prop.

Definition wp {A} (m : M U S A) (Q : post A) (s : S) (w : World) : Prop :=
  Q (outcome (m s w)) (final (m s w)) (world (m s w)) (trace (m s w)).

Lemma wp_mono {A} (m : M U S A) (Q Q' : post A) s w :
  wp m Q s w -> (forall r s' w' t, Q r s' w' t -> Q' r s' w' t) -> wp m Q' s w.
Proof. unfold wp. auto. Qed.

Lemma wp_conj {A} (m : M U S A) (Q Q' : post A) s w :
  wp m Q s w -> wp m Q' s w -> wp m (fun r s' w' t => Q r s' w' t /\ Q' r s' w' t) s w.
Proof. unfold wp. auto. Qed.

Lemma wp_ret {A} (a : A) (Q : post A) s w : Q (Ok a) s w [] -> wp (mret a) Q s w.
Proof. done. Qed.

Lemma wp_throw {A} e (Q : post A) s w : Q (Err e) s w [] -> wp (throw e) Q s w.
Proof. done. Qed.

Lemma wp_lift {A} (r : result error A) (Q : post A) s w : Q r s w [] -> wp (lift r) Q s w.
Proof. done. Qed.

Lemma wp_get (Q : post S) s w : Q (Ok s) s w [] -> wp get Q s w.
Proof. done. Qed.

Lemma wp_modify f (Q : post unit) s w : Q (Ok tt) (f s) w [] -> wp (modify f) Q s w.
Proof. done. Qed.

Lemma wp_consult {A} (f : World -> A) (Q : post A) s w : Q (Ok (f w)) s w [] -> wp (consult f) Q s w.
Proof. done. Qed.

Lemma wp_try {A} (m : M U S A) (Q : post (result error A)) s w :
  wp m (fun r s' w' t => Q (Ok r) s' w' t) s w -> wp (try m) Q s w.
Proof. done. Qed.

Lemma wp_bind {A B} (m : M U S A) (f : A -> M U S B) (Q : post B) s w :
  wp m (fun r s' w' t =>
          match r with
          | Ok a => wp (f a) (fun r' s'' w'' t' => Q r' s'' w'' (t ++ t')) s' w'
          | Err e => Q (Err e) s' w' t
          end) s w ->
  wp (m ≫= f) Q s w.
Proof.
  unfold wp, mbind, M_bind. destruct (m s w) as [[a|e] s' w' t]; simpl; auto.
Qed.

Lemma wp_doJSON q (Q : post (Rep q)) s w :
  (forall r w', serve q w = (r, w') -> Q (read_reply r) s w' [Exchange q r]) ->
  wp (doJSON q) Q s w.
Proof. intros H. unfold wp, doJSON. destruct (serve q w) as [r w']. by apply H. Qed.

Lemma wp_call_decode pre q (Q : post (Rep q)) s w :
  (forall r w', serve q w = (r, w') -> Q (read_reply_pre pre r) s w' [Exchange q r]) ->
  wp (call_decode pre q) Q s w.
Proof. intros H. unfold wp, call_decode. destruct (serve q w) as [r w']. by apply H. Qed.

Lemma wp_do q (Q : post unit) s w :
  (forall r w', serve q w = (r, w') -> Q (write_reply r) s w' [Exchange q r]) ->
  wp (do_ q) Q s w.
Proof. intros H. unfold wp, do_. destruct (serve q w) as [r w']. by apply H. Qed.

Lemma wp_call_pre prec pred q (Q : post (Rep q)) s w :
  (forall r w', serve q w = (r, w') -> Q (read_reply_as prec pred r) s w' [Exchange q r]) ->
  wp (call_pre prec pred q) Q s w.
Proof. intros H. unfold wp, call_pre. destruct (serve q w) as [r w']. by apply H. Qed.

Lemma wp_call_raw pre q (Q : post (Rep q)) s w :
  (forall r w', serve q w = (r, w') -> Q (read_reply_raw pre r) s w' [Exchange q r]) ->
  wp (call_raw pre q) Q s w.
Proof. intros H. unfold wp, call_raw. destruct (serve q w) as [r w']. by apply H. Qed.

Lemma wp_call_with {A} q (f : reply (Rep q) -> result error A) (Q : post A) s w :
  (forall r w', serve q w = (r, w') -> Q (f r) s w' [Exchange q r]) ->
  wp (call_with q f) Q s w.
Proof. intros H. unfold wp, call_with. destruct (serve q w) as [r w']. by apply H. Qed.

Lemma wp_do_pre prec q (Q : post unit) s w :
  (forall r w', serve q w = (r, w') -> Q (write_reply_as prec r) s w' [Exchange q r]) ->
  wp (do_pre prec q) Q s w.
Proof. intros H. unfold wp, do_pre. destruct (serve q w) as [r w']. by apply H. Qed.
End Operations.

#[export] Typeclasses Opaque M.
#[global] Arguments M_ret : simpl never.
#[global] Arguments M_bind : simpl never.

(** Trace predicates that every prefix and concatenation respects. *)
Lemma Forall_app_intro {A} (P : A -> Prop) l k : Forall P l -> Forall P k -> Forall P (l ++ k).
Proof. intros. by apply Forall_app. Qed.

#[export] Hint Resolve Forall_app_intro Forall_nil_2 : go.

(** How many requests of a trace satisfy a test. *)
Definition count_calls {Req : Type} {Rep : Req -> Type} (p : Req -> bool) (t : list (exchange Rep)) : Z :=
  Z.of_nat (length (List.filter (fun x => p (request x)) t)).

Lemma count_calls_app {Req : Type} {Rep : Req -> Type} p (t t' : list (exchange Rep)) :
  count_calls p (t ++ t') = count_calls p t + count_calls p t'.
Proof. unfold count_calls. rewrite List.filter_app, length_app. lia. Qed.

Lemma count_calls_nil {Req : Type} {Rep : Req -> Type} p :
  count_calls p ([] : list (exchange Rep)) = 0.
Proof. done. Qed.

Lemma count_calls_cons {Req : Type} {Rep : Req -> Type} p (x : exchange Rep) t :
  count_calls p (x :: t) = (if p (request x) then 1 else 0) + count_calls p t.
Proof. unfold count_calls. simpl. destruct (p (request x)); simpl; lia. Qed.

Lemma count_calls_nonneg {Req : Type} {Rep : Req -> Type} p (t : list (exchange Rep)) :
  0 <= count_calls p t.
Proof. unfold count_calls. lia. Qed.

#[export] Hint Rewrite @count_calls_app @count_calls_nil @count_calls_cons : go_rw.

(** ** Predicates every run keeps

    [always P m]: the trace of any run of [m] satisfies [P]. For a predicate that
    holds of the empty trace and of the concatenation of two traces it holds of,
    [always] is compositional. *)
Section Always.
Context {Req : Type} {Rep : Req -> Type} {U : Upstream Req Rep} {S : Type}.
Variable P : list (exchange Rep) -> Prop.

Definition always {A} (m : M U S A) : Prop := forall s w, P (trace (m s w)).

Hypothesis P_nil : P [].
Hypothesis P_app : forall t t', P t -> P t' -> P (t ++ t').

Lemma always_ret {A} (a : A) : always (mret a).
Proof. intros s w. exact P_nil. Qed.

Lemma always_throw {A} e : always (throw e : M U S A).
Proof. intros s w. exact P_nil. Qed.

Lemma always_get : always get.
Proof. intros s w. exact P_nil. Qed.

Lemma always_modify f : always (modify f).
Proof. intros s w. exact P_nil. Qed.

Lemma always_lift {A} (r : result error A) : always (lift r).
Proof. intros s w. exact P_nil. Qed.

Lemma always_consult {A} (f : World -> A) : always (consult f).
Proof. intros s w. exact P_nil. Qed.

Lemma always_try {A} (m : M U S A) : always m -> always (try m).
Proof. intros H s w. apply H. Qed.

Lemma always_bind {A B} (m : M U S A) (f : A -> M U S B) :
  always m -> (forall a, always (f a)) -> always (m ≫= f).
Proof.
  intros Hm Hf s w. specialize (Hm s w). unfold mbind, M_bind.
  destruct (m s w) as [[a|e] s' w' t]; simpl in *; [|done]. apply P_app; [done|apply Hf].
Qed.

Lemma always_doJSON q : (forall r, P [Exchange q r]) -> always (doJSON q).
Proof. intros H s w. unfold doJSON. destruct (serve q w). apply H. Qed.

Lemma always_call_decode pre q : (forall r, P [Exchange q r]) -> always (call_decode pre q).
Proof. intros H s w. unfold call_decode. destruct (serve q w). apply H. Qed.

Lemma always_do q : (forall r, P [Exchange q r]) -> always (do_ q).
Proof. intros H s w. unfold do_. destruct (serve q w). apply H. Qed.

Lemma always_call_pre prec pred q : (forall r, P [Exchange q r]) -> always (call_pre prec pred q).
Proof. intros H s w. unfold call_pre. destruct (serve q w). apply H. Qed.

Lemma always_call_raw pre q : (forall r, P [Exchange q r]) -> always (call_raw pre q).
Proof. intros H s w. unfold call_raw. destruct (serve q w). apply H. Qed.

Lemma always_call_with {A} q (f : reply (Rep q) -> result error A) : (forall r, P [Exchange q r]) -> always (call_with q f).
Proof. intros H s w. unfold call_with. destruct (serve q w). apply H. Qed.

Lemma always_do_pre prec q : (forall r, P [Exchange q r]) -> always (do_pre prec q).
Proof. intros H s w. unfold do_pre. destruct (serve q w). apply H. Qed.
End Always.

(** Decompose [always P m] down to single calls; [nil] and [app] are the closure
    facts of [P]. *)
Ltac always_step nil app :=
  lazymatch goal with
  | |- always _ (mbind _ _) => apply (always_bind _ app); [|intros ?]
  | |- always _ (mret _) => exact (always_ret _ nil _)
  | |- always _ (throw _) => exact (always_throw _ nil _)
  | |- always _ get => exact (always_get _ nil)
  | |- always _ (consult _) => exact (always_consult _ nil _)
  | |- always _ (modify _) => exact (always_modify _ nil _)
  | |- always _ (lift _) => exact (always_lift _ nil _)
  | |- always _ (try _) => apply always_try
  | |- always ?P (doJSON ?q) => apply (always_doJSON P q); intros ?
  | |- always ?P (call_decode ?p ?q) => apply (always_call_decode P p q); intros ?
  | |- always ?P (call_pre ?p ?p' ?q) => apply (always_call_pre P p p' q); intros ?
  | |- always ?P (call_raw ?p ?q) => apply (always_call_raw P p q); intros ?
  | |- always ?P (call_with ?q ?f) => apply (always_call_with P q f); intros ?
  | |- always _ (do_ _) => apply always_do; intros ?
  | |- always _ (do_pre _ _) => apply always_do_pre; intros ?
  | |- always _ (match ?x with _ => _ end) => destruct x
  | |- always _ (let _ := _ in _) => cbv zeta
  end.

(** The same for a relation between the state and world before and after, when it
    is reflexive and transitive. *)
Section Steps.
Context {Req : Type} {Rep : Req -> Type} {U : Upstream Req Rep} {S : Type}.
Variable Rl : S -> World -> S -> World -> Prop.

Definition steps {A} (m : M U S A) : Prop :=
  forall s w, Rl s w (final (m s w)) (world (m s w)).

Hypothesis Rl_refl : forall s w, Rl s w s w.
Hypothesis Rl_trans : forall s w s' w' s'' w'', Rl s w s' w' -> Rl s' w' s'' w'' -> Rl s w s'' w''.

Lemma steps_ret {A} (a : A) : steps (mret a).
Proof. intros s w. apply Rl_refl. Qed.

Lemma steps_throw {A} e : steps (throw e : M U S A).
Proof. intros s w. apply Rl_refl. Qed.

Lemma steps_get : steps get.
Proof. intros s w. apply Rl_refl. Qed.

Lemma steps_modify f : (forall s w, Rl s w (f s) w) -> steps (modify f).
Proof. intros H s w. apply H. Qed.

Lemma steps_lift {A} (r : result error A) : steps (lift r).
Proof. intros s w. apply Rl_refl. Qed.

Lemma steps_try {A} (m : M U S A) : steps m -> steps (try m).
Proof. intros H s w. apply H. Qed.

Lemma steps_bind {A B} (m : M U S A) (f : A -> M U S B) :
  steps m -> (forall a, steps (f a)) -> steps (m ≫= f).
Proof.
  intros Hm Hf s w. specialize (Hm s w). unfold mbind, M_bind.
  destruct (m s w) as [[a|e] s' w' t]; simpl in *; [|done]. eapply Rl_trans; [done|apply Hf].
Qed.

Lemma steps_doJSON q : (forall s w r w', serve q w = (r, w') -> Rl s w s w') -> steps (doJSON q).
Proof. intros H s w. unfold doJSON. destruct (serve q w) eqn:E. by eapply H. Qed.

Lemma steps_call_decode pre q :
  (forall s w r w', serve q w = (r, w') -> Rl s w s w') -> steps (call_decode pre q).
Proof. intros H s w. unfold call_decode. destruct (serve q w) eqn:E. by eapply H. Qed.

Lemma steps_do q : (forall s w r w', serve q w = (r, w') -> Rl s w s w') -> steps (do_ q).
Proof. intros H s w. unfold do_. destruct (serve q w) eqn:E. by eapply H. Qed.
End Steps.

Ltac steps_step refl trans :=
  lazymatch goal with
  | |- steps _ (mbind _ _) => apply (steps_bind _ trans); [|intros ?]
  | |- steps _ (mret _) => exact (steps_ret _ refl _)
  | |- steps _ (throw _) => exact (steps_throw _ refl _)
  | |- steps _ get => exact (steps_get _ refl)
  | |- steps _ (modify _) => apply steps_modify; intros ? ?
  | |- steps _ (lift _) => exact (steps_lift _ refl _)
  | |- steps _ (try _) => apply steps_try
  | |- steps ?P (doJSON ?q) => apply (steps_doJSON P q); intros ? ? ? ? ?
  | |- steps ?P (call_decode ?p ?q) => apply (steps_call_decode P p q); intros ? ? ? ? ?
  | |- steps _ (do_ _) => apply steps_do; intros ? ? ? ? ?
  | |- steps _ (match ?x with _ => _ end) => destruct x
  | |- steps _ (let _ := _ in _) => cbv zeta
  end.

(** The same for a relation between the state before, the state after and the calls
    made in between, when it holds of doing nothing and composes. *)
Section Evolves.
Context {Req : Type} {Rep : Req -> Type} {U : Upstream Req Rep} {S : Type}.
Variable Rl : S -> S -> list (exchange Rep) -> Prop.

Definition evolves {A} (m : M U S A) : Prop := forall s w, Rl s (final (m s w)) (trace (m s w)).

Lemma wp_evolves {A} (m : M U S A) (Q : post A) s w :
  evolves m -> (forall r s' w' t, m s w = Run r s' w' t -> Rl s s' t -> Q r s' w' t) -> wp m Q s w.
Proof. intros H HQ. unfold wp. apply HQ; [by destruct (m s w)|apply H]. Qed.

Hypothesis Rl_refl : forall s, Rl s s [].
Hypothesis Rl_trans : forall s s' s'' t t', Rl s s' t -> Rl s' s'' t' -> Rl s s'' (t ++ t').

Lemma evolves_ret {A} (a : A) : evolves (mret a).
Proof. intros s w. apply Rl_refl. Qed.

Lemma evolves_throw {A} e : evolves (throw e : M U S A).
Proof. intros s w. apply Rl_refl. Qed.

Lemma evolves_get : evolves get.
Proof. intros s w. apply Rl_refl. Qed.

Lemma evolves_consult {A} (f : World -> A) : evolves (consult f).
Proof. intros s w. apply Rl_refl. Qed.

Lemma evolves_modify f : (forall s, Rl s (f s) []) -> evolves (modify f).
Proof. intros H s w. apply H. Qed.

Lemma evolves_try {A} (m : M U S A) : evolves m -> evolves (try m).
Proof. intros H s w. apply H. Qed.

Lemma evolves_bind {A B} (m : M U S A) (f : A -> M U S B) : evolves m -> (forall a, evolves (f a)) -> evolves (m ≫= f).
Proof.
  intros Hm Hf s w. specialize (Hm s w). unfold mbind, M_bind.
  destruct (m s w) as [[a|e] s' w' t]; simpl in *; [|done]. eapply Rl_trans; [done|apply Hf].
Qed.

Lemma evolves_doJSON q : (forall s r, Rl s s [Exchange q r]) -> evolves (doJSON q).
Proof. intros H s w. unfold doJSON. destruct (serve q w). apply H. Qed.

Lemma evolves_call_decode pre q : (forall s r, Rl s s [Exchange q r]) -> evolves (call_decode pre q).
Proof. intros H s w. unfold call_decode. destruct (serve q w). apply H. Qed.

Lemma evolves_call_with {A} q (f : reply (Rep q) -> result error A) :
  (forall s r, Rl s s [Exchange q r]) -> evolves (call_with q f).
Proof. intros H s w. unfold call_with. destruct (serve q w). apply H. Qed.

Lemma evolves_do q : (forall s r, Rl s s [Exchange q r]) -> evolves (do_ q).
Proof. intros H s w. unfold do_. destruct (serve q w). apply H. Qed.
End Evolves.

(** ** Fields a computation does not look at

    [oblivious φ m m']: run on a state changed by [φ], [m'] does what [m] does on the
    state itself, and the change goes through to the end. *)
Section Oblivious.
Context {Req : Type} {Rep : Req -> Type} {U : Upstream Req Rep} {S : Type}.
Variable φ : S -> S.

Definition oblivious {A} (m m' : M U S A) : Prop :=
  forall s w, m' (φ s) w = Run (outcome (m s w)) (φ (final (m s w))) (world (m s w)) (trace (m s w)).

Lemma oblivious_bind {A B} (m m' : M U S A) (f f' : A -> M U S B) :
  oblivious m m' -> (forall a, oblivious (f a) (f' a)) -> oblivious (m ≫= f) (m' ≫= f').
Proof.
  intros Hm Hf s w. unfold mbind, M_bind. rewrite Hm. destruct (m s w) as [[a|e] s1 w1 t1]; simpl; [|done].
  by rewrite Hf.
Qed.

Lemma oblivious_get {B} (f f' : S -> M U S B) :
  (forall s, oblivious (f s) (f' (φ s))) -> oblivious (get ≫= f) (get ≫= f').
Proof. intros Hf s w. unfold mbind, M_bind, get. simpl. by rewrite Hf. Qed.

Lemma oblivious_ret {A} (a : A) : oblivious (mret a) (mret a).
Proof. done. Qed.

Lemma oblivious_throw {A} e : oblivious (throw e : M U S A) (throw e).
Proof. done. Qed.

Lemma oblivious_modify f f' : (forall s, f' (φ s) = φ (f s)) -> oblivious (modify f) (modify f').
Proof. intros H s w. unfold modify. by rewrite H. Qed.

Lemma oblivious_call_decode pre q : oblivious (call_decode pre q) (call_decode pre q).
Proof. intros s w. unfold call_decode. by destruct (serve q w). Qed.

Lemma oblivious_do q : oblivious (do_ q) (do_ q).
Proof. intros s w. unfold do_. by destruct (serve q w). Qed.

Lemma oblivious_do_pre pre q : oblivious (do_pre pre q) (do_pre pre q).
Proof. intros s w. unfold do_pre. by destruct (serve q w). Qed.
End Oblivious.

#[export] Hint Resolve oblivious_ret oblivious_throw : go.

(** A successful reply. *)
Definition ok_reply {A : Type} (a : A) : reply A :=
  Reply {| StatusCode := 200; Body := BodyBytes "" None |} (Decoded a).

(** ** The managed resource *)

(** A managed resource: its spec, its observed state, its external name, its
    conditions and the events recorded on it. *)
Record managed `{R : CrossplaneRuntime} (P O : Type) := {
  ExternalName : string;
  ForProvider : P;
  AtProvider : O;
  Conditions : conds;
  Events : list Event }.
Arguments ExternalName {_ _ _} _.
Arguments ForProvider {_ _ _} _.
Arguments AtProvider {_ _ _} _.
Arguments Conditions {_ _ _} _.
Arguments Events {_ _ _} _.

Section Managed.
Context `{R : CrossplaneRuntime} {P O : Type}.

Definition set_external_name (n : string) (m : managed P O) : managed P O :=
  {| ExternalName := n; ForProvider := ForProvider m; AtProvider := AtProvider m;
     Conditions := Conditions m; Events := Events m |}.

Definition set_at_provider (o : O) (m : managed P O) : managed P O :=
  {| ExternalName := ExternalName m; ForProvider := ForProvider m; AtProvider := o;
     Conditions := Conditions m; Events := Events m |}.

Definition set_conditions (c : Condition) (m : managed P O) : managed P O :=
  {| ExternalName := ExternalName m; ForProvider := ForProvider m; AtProvider := AtProvider m;
     Conditions := SetConditions c (Conditions m); Events := Events m |}.

(** [recorder.Event(cr, …)] under a [recorder != nil] guard. *)
Definition record_event (recorder : bool) (e : Event) (m : managed P O) : managed P O :=
  if recorder
  then {| ExternalName := ExternalName m; ForProvider := ForProvider m; AtProvider := AtProvider m;
          Conditions := Conditions m; Events := Events m ++ [e] |}
  else m.

(** [RejectImmutableChange] and [RejectSizingSwitch] on a managed resource. *)
Definition apply_reject (x : conds * list Event * error) (m : managed P O) : managed P O :=
  {| ExternalName := ExternalName m; ForProvider := ForProvider m; AtProvider := AtProvider m;
     Conditions := x.1.1; Events := Events m ++ x.1.2 |}.

(** [RecordConditionChange] on a managed resource. *)
Definition record_condition_change (recorder : bool) (c : Condition) (m : managed P O) : managed P O :=
  {| ExternalName := ExternalName m; ForProvider := ForProvider m; AtProvider := AtProvider m;
     Conditions := Conditions m;
     Events := Events m ++ RecordConditionChange recorder (Conditions m) c |}.
End Managed.

Section Conditions.
Context `{R : CrossplaneRuntime} {P O Req : Type} {Rep : Req -> Type} {U : Upstream Req Rep}.

(** [cr.Status.SetConditions(c)]. *)
Definition put_condition (c : Condition) : M U (managed P O) unit := modify (set_conditions c).

(** [RecordConditionChange] followed by [SetConditions]. *)
Definition note_condition (recorder : bool) (c : Condition) : M U (managed P O) unit :=
  modify (fun cr => set_conditions c (record_condition_change recorder c cr)).

Definition note_event (recorder : bool) (ty : EventType) (reason msg : string) : M U (managed P O) unit :=
  modify (record_event recorder {| ev_Type := ty; ev_Reason := reason; ev_Message := msg |}).
End Conditions.

(** A call through a nil pointer: Go panics and the run of the method ends. *)
Definition nil_dereference : error :=
  ErrorString "runtime error: invalid memory address or nil pointer dereference".

(** A rejection helper of [immutable.go] run on the managed resource: its
    conditions and events change, and its error is returned. *)
Definition reject `{R : CrossplaneRuntime} {P O Req : Type} {Rep : Req -> Type} {U : Upstream Req Rep} {A : Type}
    (f : conds -> conds * list Event * error) : M U (managed P O) A :=
  cr ← get;
  modify (apply_reject (f (Conditions cr)));;
  throw (f (Conditions cr)).2.

Lemma oblivious_reject `{R : CrossplaneRuntime} {P O Req : Type} {Rep : Req -> Type} {U : Upstream Req Rep} {A : Type}
    (φ : managed P O -> managed P O) (f : conds -> conds * list Event * error) :
  (forall cr, Conditions (φ cr) = Conditions cr /\ forall x, apply_reject x (φ cr) = φ (apply_reject x cr)) ->
  oblivious (U := U) φ (reject f : M U (managed P O) A) (reject f).
Proof. intros H s w. unfold reject, mbind, M_bind. simpl. destruct (H s) as [-> H']. by rewrite H'. Qed.

Lemma wp_reject `{R : CrossplaneRuntime} {P O Req : Type} {Rep : Req -> Type} {U : Upstream Req Rep} {A : Type}
    (f : conds -> conds * list Event * error) (Q : post A) (cr : managed P O) w :
  Q (Err (f (Conditions cr)).2) (apply_reject (f (Conditions cr)) cr) w [] -> wp (reject f) Q cr w.
Proof. done. Qed.

(** One step of a run, whatever its first command is. *)
Ltac wp_step :=
  lazymatch goal with
  | |- wp (mbind _ _) _ _ _ => apply wp_bind
  | |- wp (mret _) _ _ _ => apply wp_ret
  | |- wp (throw _) _ _ _ => apply wp_throw
  | |- wp (lift _) _ _ _ => apply wp_lift
  | |- wp get _ _ _ => apply wp_get
  | |- wp (consult _) _ _ _ => apply wp_consult
  | |- wp (modify _) _ _ _ => apply wp_modify
  | |- wp (put_condition _) _ _ _ => apply wp_modify
  | |- wp (note_condition _ _) _ _ _ => apply wp_modify
  | |- wp (note_event _ _ _ _) _ _ _ => apply wp_modify
  | |- wp (reject _) _ _ _ => apply wp_reject
  | |- wp (try _) _ _ _ => apply wp_try
  | |- wp (doJSON ?q) ?Q ?s ?w => apply (wp_doJSON q Q s w); intros ? ? ?
  | |- wp (call_decode ?p ?q) ?Q ?s ?w => apply (wp_call_decode p q Q s w); intros ? ? ?
  | |- wp (call_pre ?p ?p' ?q) ?Q ?s ?w => apply (wp_call_pre p p' q Q s w); intros ? ? ?
  | |- wp (call_raw ?p ?q) ?Q ?s ?w => apply (wp_call_raw p q Q s w); intros ? ? ?
  | |- wp (call_with ?q ?f) ?Q ?s ?w => apply (wp_call_with q f Q s w); intros ? ? ?
  | |- wp (do_ _) _ _ _ => apply wp_do; intros ? ? ?
  | |- wp (do_pre _ _) _ _ _ => apply wp_do_pre; intros ? ? ?
  end; cbv beta iota.

(** Decompose [evolves Rl m] down to single calls and changes. *)
Ltac evolves_step refl trans :=
  lazymatch goal with
  | |- evolves _ (mbind _ _) => apply (evolves_bind _ trans); [|intros ?]
  | |- evolves _ (mret _) => exact (evolves_ret _ refl _)
  | |- evolves _ (throw _) => exact (evolves_throw _ refl _)
  | |- evolves _ get => exact (evolves_get _ refl)
  | |- evolves _ (consult _) => exact (evolves_consult _ refl _)
  | |- evolves _ (modify _) => apply evolves_modify; intros ?
  | |- evolves _ (put_condition _) => apply evolves_modify; intros ?
  | |- evolves _ (note_event _ _ _ _) => apply evolves_modify; intros ?
  | |- evolves _ (try _) => apply evolves_try
  | |- evolves ?P (doJSON ?q) => apply (evolves_doJSON P q); intros ? ?
  | |- evolves ?P (call_decode ?p ?q) => apply (evolves_call_decode P p q); intros ? ?
  | |- evolves ?P (call_with ?q ?f) => apply (evolves_call_with P q f); intros ? ?
  | |- evolves _ (note_condition _ _) => apply evolves_modify; intros ?
  | |- evolves _ (do_ _) => apply evolves_do; intros ? ?
  | |- evolves _ (match ?x with _ => _ end) => destruct x
  | |- evolves _ (let _ := _ in _) => cbv zeta
  end.

(** What [Observe] reports. *)
Record ExternalObservation := { ResourceExists : bool; ResourceUpToDate : bool }.

Definition not_exists : ExternalObservation := {| ResourceExists := false; ResourceUpToDate := false |}.
