(* ===== verification/Lifecycle.v ===== *)
(** * Lifecycle: the calls every controller makes alike, and the reconcile pass

    The read of [Observe] that takes a not-found for absence and the delete of
    [Delete] that takes it for success are written out in each controller of
    [internal/controller/]; they are the two combinators below. crossplane-runtime
    runs a controller in passes: it observes, then creates what is absent, updates
    what is not up to date, deletes what is being deleted. That documented order is
    [reconcile], and [Settles] is what a controller promises about its passes. *)

From S2P Require Import Prelude Errors Timeweb Shared Effects.

Section Shapes.
Context {Req : Type} {Rep : Req -> Type} {U : Upstream Req Rep}.

(** GET, [errors.Is(err, timeweb.ErrNotFound)], decode. *)
Definition get_or_absent {S A : Type} (absent : A) (pre : string) (q : Req) (found : Rep q -> M U S A) : M U S A :=
  r ← try (call_decode pre q);
  match r with
  | Ok v => found v
  | Err e => if error_is e ErrNotFound then mret absent else throw e
  end.

(** DELETE, with a not-found counting as deleted. *)
Definition delete_or_gone {S : Type} (q : Req) (deleted : M U S unit) : M U S unit :=
  r ← try (do_ q);
  match r with
  | Ok _ => deleted
  | Err e => if error_is e ErrNotFound then mret tt else throw e
  end.

Lemma wp_get_or_absent {S A} (absent : A) pre q found (Q : post A) (s : S) w :
  (forall r w', serve q w = (r, w') ->
     match read_reply_pre pre r with
     | Ok v => wp (found v) (fun o s' w'' t => Q o s' w'' (Exchange q r :: t)) s w'
     | Err e => Q (if error_is e ErrNotFound then Ok absent else Err e) s w' [Exchange q r]
     end) ->
  wp (get_or_absent absent pre q found) Q s w.
Proof.
  intros H. unfold get_or_absent. do 3 wp_step. specialize (H _ _ H0).
  destruct (read_reply_pre pre r); [done|]. destruct (error_is _ _); by wp_step.
Qed.

Lemma wp_delete_or_gone {S} q deleted (Q : post unit) (s : S) w :
  (forall r w', serve q w = (r, w') ->
     match write_reply r with
     | Ok _ => wp deleted (fun o s' w'' t => Q o s' w'' (Exchange q r :: t)) s w'
     | Err e => Q (if error_is e ErrNotFound then Ok tt else Err e) s w' [Exchange q r]
     end) ->
  wp (delete_or_gone q deleted) Q s w.
Proof.
  intros H. unfold delete_or_gone. do 3 wp_step. specialize (H _ _ H0).
  destruct (write_reply r); [done|]. destruct (error_is _ _); by wp_step.
Qed.

(** The API's own not-found, as opposed to a bare 404. *)
Definition gone {A} (r : reply A) : Prop :=
  exists resp p, r = Reply resp p /\ StatusCode resp = 404 /\ canonical_envelope resp.

Lemma gone_read {A} pre (r : reply A) e : read_reply_pre pre r = Err e -> error_is e ErrNotFound = true -> gone r.
Proof. apply read_reply_pre_not_found. Qed.

Lemma gone_write {A} (r : reply A) e : write_reply r = Err e -> error_is e ErrNotFound = true -> gone r.
Proof. apply write_reply_not_found. Qed.

Lemma gone_classified {A} (r : reply A) :
  gone r -> exists e, error_is e ErrNotFound = true /\ write_reply r = Err e /\ forall pre, read_reply_pre pre r = Err e.
Proof.
  intros (resp & p & -> & Hs & Hc). cbn [write_reply read_reply_pre].
  destruct (Classify_cases resp) as [[_ ?]|(e & -> & _ & [(He & _)|[(_ & _ & Hx)|(_ & _ & ?)]])]; [lia| |exfalso|done].
  - by exists e.
  - rewrite Hs in Hx. destruct Hx as [?|[[_ ?]|[? _]]]; done.
Qed.
End Shapes.

(** A not-found as the API sends it. *)
Definition gone_reply {A : Type} : reply A := Reply not_found_response (DecodeFailed "").

Lemma gone_reply_gone {A} : gone (gone_reply (A := A)).
Proof.
  assert (Classify (Some not_found_response) = Some (Sentinel ErrNotFound)) as H by (vm_compute; reflexivity).
  destruct (Classify_not_found _ _ H eq_refl). by exists not_found_response, (DecodeFailed "").
Qed.

(** ** Plans

    The calls of a run that carries out a plan: any prefix of it, all of it when the
    run succeeds. *)
Definition follows {Q : Type} (plan : list Q) (ok : bool) (t : list Q) : Prop :=
  t `prefix_of` plan /\ (ok = true -> t = plan).

Lemma follows_one {Q} (q : Q) (b : bool) : follows [q] b [q].
Proof. by split. Qed.

Lemma follows_bind {Q} (l1 l2 t1 t2 : list Q) b : follows l1 true t1 -> follows l2 b t2 -> follows (l1 ++ l2) b (t1 ++ t2).
Proof.
  intros [_ H1] [H2 H3]. rewrite H1 by done. split; [by apply prefix_app|]. intros Hb. by rewrite H3.
Qed.

Lemma follows_stop {Q} (l1 l2 t1 : list Q) : follows l1 false t1 -> follows (l1 ++ l2) false t1.
Proof. intros [H1 _]. split; [by apply prefix_app_r|done]. Qed.

Section Plans.
Context {Req : Type} {Rep : Req -> Type} {U : Upstream Req Rep} {S : Type}.

(** A computation that carries out a plan and leaves the managed resource alone. *)
Definition executes (m : M U S unit) (plan : list Req) : Prop :=
  forall s w, wp m (fun r s' w' t => s' = s /\ follows plan (is_ok r) (map request t)) s w.

Lemma executes_ret : executes (mret tt) [].
Proof. intros s w. wp_step. by repeat split. Qed.

Lemma executes_do q : executes (do_ q) [q].
Proof. intros s w. wp_step. split; [done|]. apply follows_one. Qed.

Lemma executes_delete q : executes (delete_or_gone q (mret tt)) [q].
Proof.
  intros s w. apply wp_delete_or_gone. intros r w' H. destruct (write_reply r).
  - wp_step. split; [done|]. apply follows_one.
  - split; [done|]. apply follows_one.
Qed.

Lemma executes_bind m m' l l' : executes m l -> executes m' l' -> executes (m;; m') (l ++ l').
Proof.
  intros H H' s w. apply wp_bind. eapply wp_mono; [apply H|]. intros [[]|e] s1 w1 t1 (-> & Hf).
  - eapply wp_mono; [apply H'|]. intros r s2 w2 t2 (-> & Hf'). split; [done|]. rewrite map_app. by apply follows_bind.
  - split; [done|]. by apply follows_stop.
Qed.

Lemma executes_bind_nil m m' l' : executes m [] -> executes m' l' -> executes (m;; m') l'.
Proof. intros H H'. by apply (executes_bind _ _ []). Qed.
End Plans.

(** ** The reconcile pass *)

Record Controller {Req : Type} {Rep : Req -> Type} (U : Upstream Req Rep) (S : Type) := {
  c_observe : M U S ExternalObservation;
  c_create : M U S unit;
  c_update : M U S unit;
  c_delete : M U S unit }.
Arguments c_observe {_ _ _ _} _.
Arguments c_create {_ _ _ _} _.
Arguments c_update {_ _ _ _} _.
Arguments c_delete {_ _ _ _} _.

Section Passes.
Context {Req : Type} {Rep : Req -> Type} {U : Upstream Req Rep} {S : Type}.

Definition reconcile (c : Controller U S) (deleting : bool) : M U S unit :=
  o ← c_observe c;
  if deleting then (if ResourceExists o then c_delete c else mret tt)
  else if negb (ResourceExists o) then c_create c
  else if negb (ResourceUpToDate o) then c_update c
  else mret tt.

Definition pass (c : Controller U S) (deleting : bool) (x : S * World) : S * World :=
  let r := reconcile c deleting x.1 x.2 in (final r, world r).

Definition passes (n : nat) (c : Controller U S) (deleting : bool) (x : S * World) : S * World :=
  Nat.iter n (pass c deleting) x.

(** The same passes as one run, whose trace is all the calls they make. *)
Fixpoint reconciles (n : nat) (c : Controller U S) (deleting : bool) : M U S unit :=
  match n with
  | O => mret tt
  | Datatypes.S n => try (reconcile c deleting);; reconciles n c deleting
  end.

(** The promise: from a state of rank [n] at most [n] passes reach rank zero, which
    passes keep. *)
Class Settles (c : Controller U S) (deleting : bool) (inv : nat -> S -> World -> Prop) : Prop := {
  settle_step n s w : inv (Datatypes.S n) s w -> let x := pass c deleting (s, w) in inv n x.1 x.2;
  settle_hold s w : inv 0%nat s w -> let x := pass c deleting (s, w) in inv 0%nat x.1 x.2 }.

Lemma passes_succ n c deleting x : passes (Datatypes.S n) c deleting x = passes n c deleting (pass c deleting x).
Proof. unfold passes. by rewrite Nat.iter_succ_r. Qed.

Lemma passes_settle (c : Controller U S) deleting inv (H : Settles c deleting inv) k n s w :
  inv k s w -> (k <= n)%nat -> let x := passes n c deleting (s, w) in inv 0%nat x.1 x.2.
Proof.
  revert k s w. induction n as [|n IH]; intros k s w Hi Hk; cbv zeta.
  - assert (k = 0)%nat as -> by lia. done.
  - rewrite passes_succ. destruct k as [|k].
    + apply (settle_hold (Settles := H)) in Hi. destruct (pass c deleting (s, w)) as [s' w']. by apply (IH 0%nat); [|lia].
    + apply (settle_step (Settles := H)) in Hi. destruct (pass c deleting (s, w)) as [s' w']. by apply (IH k); [|lia].
Qed.

(** A pass, by what its [Observe] reported. *)
Lemma wp_reconcile (c : Controller U S) (deleting : bool) (Q : post unit) s w :
  wp (c_observe c) (fun o s' w' t =>
    match o with
    | Err e => Q (Err e) s' w' t
    | Ok o => wp (if deleting then (if ResourceExists o then c_delete c else mret tt)
                  else if negb (ResourceExists o) then c_create c
                  else if negb (ResourceUpToDate o) then c_update c else mret tt)
                 (fun r s'' w'' t' => Q r s'' w'' (t ++ t')) s' w'
    end) s w ->
  wp (reconcile c deleting) Q s w.
Proof. intros H. by apply wp_bind. Qed.

Lemma concat_repeat_one {Q : Type} (q : Q) n : concat (repeat [q] n) = repeat q n.
Proof. induction n as [|n IH]; [done|]. cbn [repeat concat app]. by rewrite IH. Qed.

(** Passes that all make the same calls. *)
Lemma wp_reconciles_alike (c : Controller U S) (deleting : bool) (inv : S -> World -> Prop) (l : list Req) :
  (forall s w, inv s w -> wp (reconcile c deleting) (fun _ s' w' t => inv s' w' /\ map request t = l) s w) ->
  forall n s w, inv s w ->
  wp (reconciles n c deleting) (fun _ s' w' t => inv s' w' /\ map request t = concat (repeat l n)) s w.
Proof.
  intros H. induction n as [|n IH]; intros s w Hi; cbn [reconciles repeat concat]; [by wp_step|].
  do 2 wp_step. eapply wp_mono; [by apply H|]. intros r s1 w1 t1 [H1 Ht]. cbv beta iota.
  eapply wp_mono; [by apply IH|]. intros r' s2 w2 t2 [H2 Ht2]. split; [done|]. by rewrite map_app, Ht, Ht2.
Qed.

Lemma pass_wp (c : Controller U S) (deleting : bool) (P : S -> World -> Prop) s w :
  wp (reconcile c deleting) (fun _ s' w' _ => P s' w') s w -> let x := pass c deleting (s, w) in P x.1 x.2.
Proof. done. Qed.
End Passes.
