(* ===== verification/Resolving.v ===== *)
(** * Resolving: how a controller uses the catalog resolver

    The call of [resolver.Resolve] from a controller and the type assertions on its
    answer, shared by the controllers that size a resource. *)

From S2P Require Import Prelude Errors Shared Slug Configurator Catalog Effects.

(** [po, ok := out.(resolver.PresetOutput)]. *)
Definition preset_of (what : string) (r : result error ResolveOutput) : result error Z :=
  match r with
  | Err e => Err e
  | Ok (OutPreset id) => Ok id
  | Ok (OutConfigurator _) =>
      Err (ErrorString (what +:+ ": resolver returned resolver.ConfiguratorOutput, want PresetOutput"))
  | Ok (OutEnum _) => Err (ErrorString (what +:+ ": resolver returned resolver.EnumOutput, want PresetOutput"))
  end.

(** The same assertion as the storage and registry controllers word it. *)
Definition preset_output (what : string) (r : result error ResolveOutput) : result error Z :=
  match r with
  | Err e => Err e
  | Ok (OutPreset id) => Ok id
  | Ok (OutConfigurator _) => Err (ErrorString (what +:+ ": resolver returned unexpected output type resolver.ConfiguratorOutput"))
  | Ok (OutEnum _) => Err (ErrorString (what +:+ ": resolver returned unexpected output type resolver.EnumOutput"))
  end.

(** [co, ok := out.(resolver.ConfiguratorOutput)]. *)
Definition configurator_of (what : string) (r : result error ResolveOutput) : result error Z :=
  match r with
  | Err e => Err e
  | Ok (OutConfigurator o) => Ok (co_UpstreamID o)
  | Ok (OutPreset _) => Err (ErrorString (what +:+ ": resolver returned resolver.PresetOutput, want ConfiguratorOutput"))
  | Ok (OutEnum _) => Err (ErrorString (what +:+ ": resolver returned resolver.EnumOutput, want ConfiguratorOutput"))
  end.

Section Asking.
Context {Req : Type} {Rep : Req -> Type} {U : Upstream Req Rep} {S : Type}.
(** [resolver.Resolve]: its answer may depend on the account. *)
Variable resolve : World -> Dimension -> ResolveInput -> result error ResolveOutput.

Definition ask (dim : Dimension) (input : ResolveInput) : M U S (result error ResolveOutput) :=
  fun s w => Run (Ok (resolve w dim input)) s w [].

Lemma wp_ask dim input (Q : post (result error ResolveOutput)) s w :
  Q (Ok (resolve w dim input)) s w [] -> wp (ask dim input) Q s w.
Proof. done. Qed.
End Asking.
