(* ===== verification/Firewall.v ===== *)
(** * Firewall: the rule-group controller

    [internal/controller/network/firewall_external.go] over the calls of
    [internal/clients/timeweb/firewall.go]. The group's rules and attachments are
    sets keyed by canonical strings ([ruleKey], [attachKey]); [Update] moves the
    upstream sets towards the declared ones, at most
    [maxFirewallMutationsPerReconcile] writes at a time. *)

From S2P Require Import Prelude Errors Timeweb Shared Effects.

(** ** Payloads of the client *)

Record FirewallGroup := {
  fg_ID : string;
  fg_Name : string;
  fg_Description : string;
  fg_Policy : string;
  fg_CreatedAt : string;
  fg_UpdatedAt : string }.

Record FirewallRulePayload := {
  fr_ID : string;
  fr_Direction : string;
  fr_Protocol : string;
  fr_Port : option string;
  fr_CIDR : string;
  fr_Description : option string;
  fr_GroupID : string }.

(** The id is already a string: [FlexID] keeps a number's digits. *)
Record FirewallResource := { res_ID : string; res_Type : string }.

(** The client methods, with their arguments. *)
Inductive firewall_request : Type :=
| CreateFirewallGroup (name description policy : string)
| GetFirewallGroup (id : string)
| ListFirewallGroups
| PatchFirewallGroup (id name description : string)
| DeleteFirewallGroup (id : string)
| ListFirewallRules (groupID : string)
| CreateFirewallRule (groupID : string) (rule : FirewallRulePayload)
| DeleteFirewallRule (groupID ruleID : string)
| ListFirewallResources (groupID : string)
| LinkFirewallResource (groupID resourceID resourceType : string)
| UnlinkFirewallResource (groupID resourceID resourceType : string)
| GetServiceFirewallGroups (resourceType resourceID : string).

(** What each reply's body decodes to: the field the envelope struct names. *)
Definition firewall_reply (q : firewall_request) : Type :=
  match q with
  | CreateFirewallGroup _ _ _ | GetFirewallGroup _ => FirewallGroup
  | ListFirewallGroups => list FirewallGroup
  | ListFirewallRules _ => list FirewallRulePayload
  | ListFirewallResources _ => list FirewallResource
  | GetServiceFirewallGroups _ _ => list string
  | _ => unit
  end.

(** ** The managed resource *)

Record FirewallRule := {
  rule_Direction : string;
  rule_Protocol : string;
  rule_Port : option string;
  rule_CIDR : string;
  rule_Description : option string }.

Record ServiceAttachment := { ServiceID : string; ServiceType : string }.

Record FirewallParameters := {
  fw_Name : string;
  fw_Description : option string;
  fw_Policy : string;
  fw_Rules : list FirewallRule;
  fw_AttachedServices : list ServiceAttachment }.

Record FirewallRuleStatus := {
  rs_ID : string;
  rs_Direction : string;
  rs_Protocol : string;
  rs_Port : option string;
  rs_CIDR : string;
  rs_Description : option string }.

Record FirewallObservation := {
  fo_ID : option string;
  fo_Policy : option string;
  fo_RuleCount : option Z;
  fo_AttachedCount : option Z;
  fo_Rules : list FirewallRuleStatus;
  fo_AttachedServices : list ServiceAttachment;
  fo_CreatedAt : option string;
  fo_UpdatedAt : option string }.

(** ** Desired state *)

Definition defaultServiceType : string := "balancer".
Definition maxFirewallMutationsPerReconcile : Z := 8.
Definition errDuplicateRule : error :=
  ErrorString "firewall: duplicate rule (same direction+protocol+port+cidr)".

Definition effectivePolicy (p : FirewallParameters) : string :=
  if bool_decide (fw_Policy p = "") then "DROP" else fw_Policy p.

Definition ruleKey (direction protocol : string) (port : option string) (cidr : string) : string :=
  let p := if negb (bool_decide (to_lower protocol = "icmp")) then default_str port else "" in
  to_lower direction +:+ "|" +:+ to_lower protocol +:+ "|" +:+ p +:+ "|" +:+ cidr.

(** The key of an observed rule. *)
Definition payload_key (r : FirewallRulePayload) : string :=
  ruleKey (fr_Direction r) (fr_Protocol r) (fr_Port r) (fr_CIDR r).

Definition rule_port (r : FirewallRule) : option string :=
  if bool_decide (to_lower (rule_Protocol r) = "icmp") then None else rule_Port r.

Definition rule_key (r : FirewallRule) : string :=
  ruleKey (rule_Direction r) (rule_Protocol r) (rule_port r) (rule_CIDR r).

Definition rule_payload (r : FirewallRule) : FirewallRulePayload :=
  {| fr_ID := ""; fr_Direction := rule_Direction r; fr_Protocol := rule_Protocol r;
     fr_Port := rule_port r; fr_CIDR := rule_CIDR r; fr_Description := rule_Description r;
     fr_GroupID := "" |}.

Fixpoint desired_rules_loop (rules : list FirewallRule) (out : gmap string FirewallRulePayload) (dup : bool)
  : gmap string FirewallRulePayload * bool :=
  match rules with
  | [] => (out, dup)
  | r :: rules' =>
      match out !! rule_key r with
      | Some _ => desired_rules_loop rules' out true
      | None => desired_rules_loop rules' (<[rule_key r := rule_payload r]> out) dup
      end
  end.

Definition desiredRuleSet (p : FirewallParameters) : gmap string FirewallRulePayload * bool :=
  desired_rules_loop (fw_Rules p) ∅ false.

Definition rulesConverged (desired : gmap string FirewallRulePayload) (observed : list FirewallRulePayload) : bool :=
  (size desired =? length observed)%nat &&
  forallb (fun r => bool_decide (is_Some (desired !! payload_key r))) observed.

Definition normalizeType (t : string) : string :=
  if bool_decide (t = "") then defaultServiceType else t.

Definition attachKey (a : ServiceAttachment) : string :=
  normalizeType (ServiceType a) +:+ "|" +:+ ServiceID a.

Definition resource_attachment (r : FirewallResource) : ServiceAttachment :=
  {| ServiceID := res_ID r; ServiceType := res_Type r |}.

Definition resource_key (r : FirewallResource) : string := attachKey (resource_attachment r).

Definition desiredAttachSet (p : FirewallParameters) : gmap string ServiceAttachment :=
  fold_left (fun out a => <[attachKey a := a]> out) (fw_AttachedServices p) ∅.

Definition attachConverged (desired : gmap string ServiceAttachment) (observed : list FirewallResource) : bool :=
  (size desired =? length observed)%nat &&
  forallb (fun r => bool_decide (is_Some (desired !! resource_key r))) observed.

(** The values of a map in the order of its sorted keys. *)
Definition sorted_values {V} (m : gmap string V) : list V :=
  omap (fun k => m !! k) (sort_strings (map_to_list m).*1).

Definition sortedRulePayloads : gmap string FirewallRulePayload -> list FirewallRulePayload := sorted_values.
Definition sortedAttachments : gmap string ServiceAttachment -> list ServiceAttachment := sorted_values.

(** ** The external client *)
Section FirewallExternal.
Context `{R : CrossplaneRuntime} {U : Upstream firewall_request firewall_reply}.
(** Whether an event recorder is set. *)
Variable recorder : bool.

Notation firewall := (managed FirewallParameters FirewallObservation).
Notation FM := (M U firewall).

Definition populateFirewallStatus (g : FirewallGroup) (rules : list FirewallRulePayload)
    (resources : list FirewallResource) (cr : firewall) : firewall :=
  set_at_provider
    {| fo_ID := Some (fg_ID g);
       fo_Policy := Some (fg_Policy g);
       fo_RuleCount := Some (Z.of_nat (length rules));
       fo_AttachedCount := Some (Z.of_nat (length resources));
       fo_Rules := map (fun r => {| rs_ID := fr_ID r; rs_Direction := fr_Direction r;
                                    rs_Protocol := fr_Protocol r; rs_Port := fr_Port r;
                                    rs_CIDR := fr_CIDR r; rs_Description := fr_Description r |}) rules;
       fo_AttachedServices := map resource_attachment resources;
       fo_CreatedAt := if bool_decide (fg_CreatedAt g = "") then fo_CreatedAt (AtProvider cr)
                       else Some (fg_CreatedAt g);
       fo_UpdatedAt := if bool_decide (fg_UpdatedAt g = "") then fo_UpdatedAt (AtProvider cr)
                       else Some (fg_UpdatedAt g) |} cr.

Definition warn (reason msg : string) (cr : firewall) : firewall :=
  record_event recorder {| ev_Type := EventWarning; ev_Reason := reason; ev_Message := msg |}
    (set_conditions (SyncedFalse reason msg) cr).

Definition rejectDuplicate {A} : FM A :=
  modify (warn ReasonInvalidConfiguration
    "duplicate rule in spec.forProvider.rules (same direction+protocol+port+cidr)");;
  throw errDuplicateRule.

Definition getGroup (id : string) : FM FirewallGroup := doJSON (GetFirewallGroup id).
Definition listRules (id : string) : FM (list FirewallRulePayload) := doJSON (ListFirewallRules id).
Definition listResources (id : string) : FM (list FirewallResource) := doJSON (ListFirewallResources id).

Definition createGroup (p : FirewallParameters) : FM FirewallGroup :=
  doJSON (CreateFirewallGroup (fw_Name p) (default_str (fw_Description p)) (effectivePolicy p)).

Definition findGroupByName (name : string) : FM (option FirewallGroup) :=
  groups ← doJSON ListFirewallGroups;
  mret (List.find (fun g => bool_decide (fg_Name g = name)) groups).

(** The group other than [groupID] the reverse lookup names, if any; a failed
    lookup is no conflict. *)
Definition other_group (groupID : string) (groups : result error (list string)) : option string :=
  match groups with
  | Ok gs => List.find (fun g => negb (bool_decide (g = groupID))) gs
  | Err _ => None
  end.

Definition boundElsewhere (groupID serviceID serviceType : string) : FM (option string) :=
  groups ← try (doJSON (GetServiceFirewallGroups serviceType serviceID));
  mret (other_group groupID groups).

Definition attach (groupID : string) (a : ServiceAttachment) : FM unit :=
  let svcType := normalizeType (ServiceType a) in
  other ← boundElsewhere groupID (ServiceID a) svcType;
  match other with
  | Some g =>
      let msg := "service " +:+ svcType +:+ "/" +:+ ServiceID a +:+
                 " is already attached to firewall group " +:+ quote g in
      modify (warn ReasonServiceConflict msg);;
      throw (ErrorString ("firewall: " +:+ msg))
  | None => do_ (LinkFirewallResource groupID (ServiceID a) svcType)
  end.

(** The delete loop of [reconcileRules]: the keys seen, the budget left, and
    whether the budget ran out. *)
Fixpoint prune_rules (id : string) (desired : gmap string FirewallRulePayload)
    (observed : list FirewallRulePayload) (seen : gset string) (budget : Z) : FM (gset string * Z * bool) :=
  match observed with
  | [] => mret (seen, budget, false)
  | r :: observed' =>
      let seen := {[payload_key r]} ∪ seen in
      if budget <=? 0 then mret (seen, budget, true)
      else match desired !! payload_key r with
           | None =>
               do_ (DeleteFirewallRule id (fr_ID r));;
               prune_rules id desired observed' seen (budget - 1)
           | Some _ => prune_rules id desired observed' seen budget
           end
  end.

Fixpoint create_rules (id : string) (seen : gset string) (rules : list FirewallRulePayload) (budget : Z) : FM Z :=
  match rules with
  | [] => mret budget
  | r :: rules' =>
      if budget <=? 0 then mret budget
      else if bool_decide (payload_key r ∈ seen) then create_rules id seen rules' budget
      else do_ (CreateFirewallRule id r);; create_rules id seen rules' (budget - 1)
  end.

Definition reconcileRules (p : FirewallParameters) (id : string) (budget : Z) : FM Z :=
  let desired := (desiredRuleSet p).1 in
  observed ← listRules id;
  x ← prune_rules id desired observed ∅ budget;
  let '(seen, budget, exhausted) := x in
  if exhausted : bool then mret budget
  else create_rules id seen (sortedRulePayloads desired) budget.

Fixpoint prune_attachments (id : string) (desired : gmap string ServiceAttachment)
    (observed : list FirewallResource) (seen : gset string) (budget : Z) : FM (gset string * Z * bool) :=
  match observed with
  | [] => mret (seen, budget, false)
  | r :: observed' =>
      let seen := {[resource_key r]} ∪ seen in
      if budget <=? 0 then mret (seen, budget, true)
      else match desired !! resource_key r with
           | None =>
               do_ (UnlinkFirewallResource id (res_ID r) (normalizeType (res_Type r)));;
               prune_attachments id desired observed' seen (budget - 1)
           | Some _ => prune_attachments id desired observed' seen budget
           end
  end.

Fixpoint link_attachments (id : string) (seen : gset string) (services : list ServiceAttachment)
    (budget : Z) : FM Z :=
  match services with
  | [] => mret budget
  | a :: services' =>
      if budget <=? 0 then mret budget
      else if bool_decide (attachKey a ∈ seen) then link_attachments id seen services' budget
      else attach id a;; link_attachments id seen services' (budget - 1)
  end.

Definition reconcileAttachments (p : FirewallParameters) (id : string) (budget : Z) : FM Z :=
  let desired := desiredAttachSet p in
  observed ← listResources id;
  x ← prune_attachments id desired observed ∅ budget;
  let '(seen, budget, exhausted) := x in
  if exhausted : bool then mret budget
  else link_attachments id seen (sortedAttachments desired) budget.

Definition firewall_up_to_date (p : FirewallParameters) (group : FirewallGroup)
    (rules : list FirewallRulePayload) (resources : list FirewallResource) : bool :=
  negb (desiredRuleSet p).2 &&
  bool_decide (fg_Name group = fw_Name p) &&
  bool_decide (fg_Description group = default_str (fw_Description p)) &&
  bool_decide (fg_Policy group = effectivePolicy p) &&
  rulesConverged (desiredRuleSet p).1 rules &&
  attachConverged (desiredAttachSet p) resources.

Definition Observe : FM ExternalObservation :=
  cr ← get;
  let id := ExternalName cr in
  if bool_decide (id = "") then mret not_exists
  else
    group ← try (getGroup id);
    match group with
    | Err err => if error_is err ErrNotFound then mret not_exists else throw err
    | Ok group =>
        rules ← listRules id;
        resources ← listResources id;
        modify (fun cr => set_conditions Available (populateFirewallStatus group rules resources cr));;
        mret {| ResourceExists := true;
                ResourceUpToDate := firewall_up_to_date (ForProvider cr) group rules resources |}
    end.

Fixpoint each {A} (f : A -> FM unit) (l : list A) : FM unit :=
  match l with
  | [] => mret tt
  | a :: l' => f a;; each f l'
  end.

Definition Create : FM unit :=
  cr ← get;
  let p := ForProvider cr in
  if (desiredRuleSet p).2 then rejectDuplicate
  else
    existing ← findGroupByName (fw_Name p);
    match existing with
    | Some g =>
        modify (fun cr => set_conditions Creating (set_external_name (fg_ID g) cr))
    | None =>
        group ← createGroup p;
        modify (set_external_name (fg_ID group));;
        each (fun r => do_ (CreateFirewallRule (fg_ID group) r)) (sortedRulePayloads (desiredRuleSet p).1);;
        each (fun a => attach (fg_ID group) a) (sortedAttachments (desiredAttachSet p));;
        modify (set_conditions Creating)
    end.

Definition Update : FM unit :=
  cr ← get;
  let p := ForProvider cr in
  if (desiredRuleSet p).2 then rejectDuplicate
  else
    let id := ExternalName cr in
    group ← getGroup id;
    match FirstImmutableDiff [{| if_Name := "policy"; if_Desired := effectivePolicy p;
                                 if_Observed := fg_Policy group |}] with
    | Some field =>
        reject (RejectImmutableChange recorder field)
    | None =>
        (if negb (bool_decide (fg_Name group = fw_Name p)) ||
            negb (bool_decide (fg_Description group = default_str (fw_Description p)))
         then do_ (PatchFirewallGroup id (fw_Name p) (default_str (fw_Description p)))
         else mret tt);;
        budget ← reconcileRules p id maxFirewallMutationsPerReconcile;
        reconcileAttachments p id budget;;
        mret tt
    end.

Definition Delete : FM unit :=
  cr ← get;
  let id := ExternalName cr in
  if bool_decide (id = "") then mret tt
  else
    r ← try (do_ (DeleteFirewallGroup id));
    match r with
    | Err err => if error_is err ErrNotFound then mret tt else throw err
    | Ok _ => modify (set_conditions Deleting)
    end.
End FirewallExternal.

(** ** Keys and desired sets *)

Lemma desired_rules_loop_spec rules out dup :
  (forall k r, out !! k = Some r -> payload_key r = k) ->
  let d := desired_rules_loop rules out dup in
  (forall k r, d.1 !! k = Some r -> payload_key r = k) /\
  dom d.1 = dom out ∪ list_to_set (map rule_key rules) /\
  (d.2 = false <-> dup = false /\ NoDup (map rule_key rules) /\
                   forall r, r ∈ rules -> out !! rule_key r = None).
Proof.
  revert out dup. induction rules as [|r rules IH]; intros out dup Hk; simpl.
  - split_and!; [done|set_solver|]. split; [|tauto]. intros ->. split_and!; [done|constructor|].
    intros r Hr. by apply elem_of_nil in Hr.
  - destruct (out !! rule_key r) as [x|] eqn:E; simpl.
    + destruct (IH out true Hk) as (H1 & H2 & H3). split_and!; [done| |].
      * rewrite H2. assert (rule_key r ∈ dom out) by (apply elem_of_dom; eexists; exact E). set_solver.
      * rewrite H3. split; [intros [? _]; done|]. intros (_ & _ & H). exfalso.
        rewrite (H r) in E; [done|left].
    + assert (forall k y, <[rule_key r := rule_payload r]> out !! k = Some y -> payload_key y = k) as Hk'.
      { intros k y. rewrite lookup_insert_Some. intros [[<- <-]|[_ Hy]]; [done|exact (Hk k y Hy)]. }
      destruct (IH _ dup Hk') as (H1 & H2 & H3). split_and!; [done| |].
      * rewrite H2, dom_insert_L. set_solver.
      * rewrite H3, NoDup_cons. split.
        -- intros (-> & Hn & Hl). split_and!; [done| |done|].
           ++ intros Hin. apply list_elem_of_fmap in Hin as (r' & Hr' & Hin).
              specialize (Hl r' Hin). by rewrite <- Hr', lookup_insert_eq in Hl.
           ++ intros r' [->|Hin]%elem_of_cons; [done|]. specialize (Hl r' Hin).
              by apply lookup_insert_None in Hl as [? _].
        -- intros (-> & [Hnin Hn] & Hl). split_and!; [done|done|]. intros r' Hin.
           apply lookup_insert_None. split; [apply Hl; by right|].
           intros Heq. apply Hnin. apply list_elem_of_fmap. by exists r'.
Qed.

Lemma desiredRuleSet_keys p k r : (desiredRuleSet p).1 !! k = Some r -> payload_key r = k.
Proof. apply (desired_rules_loop_spec (fw_Rules p) ∅ false). intros ? ? H. by rewrite lookup_empty in H. Qed.

Lemma desired_attach_keys_loop l (out : gmap string ServiceAttachment) :
  (forall k a, out !! k = Some a -> attachKey a = k) ->
  forall k a, fold_left (fun out a => <[attachKey a := a]> out) l out !! k = Some a -> attachKey a = k.
Proof.
  revert out. induction l as [|x l IH]; intros out Hk; [done|]. simpl. apply IH.
  intros k a. rewrite lookup_insert_Some. intros [[<- <-]|[_ Ha]]; [done|exact (Hk k a Ha)].
Qed.

Lemma desiredAttachSet_keys p k a : desiredAttachSet p !! k = Some a -> attachKey a = k.
Proof. apply desired_attach_keys_loop. intros ? ? H. by rewrite lookup_empty in H. Qed.

Lemma elem_of_sorted_values {V} (m : gmap string V) v :
  v ∈ sorted_values m <-> exists k, m !! k = Some v.
Proof.
  unfold sorted_values. rewrite list_elem_of_omap. split.
  - intros (k & _ & H). eauto.
  - intros (k & H). exists k. split; [|done]. unfold sort_strings. apply elem_of_sort_by.
    apply list_elem_of_fmap. exists (k, v). split; [done|]. by apply elem_of_map_to_list.
Qed.

(** ** What the loops do *)

(** The writes [Update] paces: rules and attachments. *)
Definition paced (q : firewall_request) : bool :=
  match q with
  | CreateFirewallRule _ _ | DeleteFirewallRule _ _
  | LinkFirewallResource _ _ _ | UnlinkFirewallResource _ _ _ => true
  | _ => false
  end.

Definition fw_write (q : firewall_request) : bool :=
  match q with
  | CreateFirewallGroup _ _ _ | PatchFirewallGroup _ _ _ | DeleteFirewallGroup _ => true
  | _ => paced q
  end.

Section LoopSpecs.
Context `{R : CrossplaneRuntime} {U : Upstream firewall_request firewall_reply}.
Variable recorder : bool.

Notation firewall := (managed FirewallParameters FirewallObservation).

(** A run whose calls all satisfy [P], whose paced writes fit [b] and whose
    answer satisfies [Q] once they are deducted. *)
Definition spends {A} (P : firewall_request -> Prop) (b : Z) (left : A -> Z) (Q : A -> Prop)
  : post (U := U) (S := firewall) A :=
  fun r _ _ t =>
    Forall (fun x => P (request x)) t /\
    match r with
    | Ok a => 0 <= left a /\ count_calls paced t + left a = b /\ Q a
    | Err _ => count_calls paced t <= b
    end.

Lemma spends_call {A} (P : firewall_request -> Prop) b (left : A -> Z) Q (x : exchange firewall_reply) r s w t :
  P (request x) -> spends P (if paced (request x) then b - 1 else b) left Q r s w t ->
  spends P b left Q r s w (x :: t).
Proof.
  intros HP [HF HR]. split; [by constructor|]. rewrite count_calls_cons.
  destruct r; [|destruct (paced _); lia]. destruct HR as (? & ? & ?).
  destruct (paced _); (split_and!; [done|lia|done]).
Qed.

Lemma spends_mono {A} (P P' : firewall_request -> Prop) b (left : A -> Z) (Q Q' : A -> Prop) r s w t :
  spends P b left Q r s w t -> (forall q, P q -> P' q) -> (forall a, Q a -> Q' a) ->
  spends P' b left Q' r s w t.
Proof.
  intros [HF HR] HP HQ. split; [by eapply Forall_impl; [done|]; simpl; auto|].
  destruct r; [|done]. destruct HR as (? & ? & ?). auto.
Qed.

Lemma prune_rules_spec id desired observed seen b s w :
  0 <= b ->
  wp (prune_rules id desired observed seen b)
     (spends (fun q => exists y, y ∈ observed /\ desired !! payload_key y = None /\
                                 q = DeleteFirewallRule id (fr_ID y))
             b (fun a => a.1.2)
             (fun a => a.2 = false -> a.1.1 = seen ∪ list_to_set (map payload_key observed))) s w.
Proof.
  revert seen b s w. induction observed as [|y observed IH]; intros seen b s w Hb; simpl.
  - wp_step. split; [constructor|]. simpl. split_and!; [done|done|set_solver].
  - assert (forall b' w' s', 0 <= b' -> wp (prune_rules id desired observed ({[payload_key y]} ∪ seen) b')
      (spends (fun q => exists z, z ∈ y :: observed /\ desired !! payload_key z = None /\
                                 q = DeleteFirewallRule id (fr_ID z))
             b' (fun a => a.1.2)
             (fun a => a.2 = false -> a.1.1 = seen ∪ list_to_set (map payload_key (y :: observed)))) s' w')
      as IH'.
    { intros b' w' s' Hb'. eapply wp_mono; [by apply IH|]. intros r ? ? t Hs.
      eapply spends_mono; [exact Hs| |]; simpl.
      - intros q (z & ? & ? & ?). exists z. split_and!; [by right|done|done].
      - intros a Ha Hf. rewrite Ha by done. set_solver. }
    go_case; [wp_step; split; [constructor|]; simpl; split_and!; [done|done|done]|].
    destruct (desired !! payload_key y) eqn:Ek; [by apply IH'|].
    repeat wp_step. destruct (write_reply r) as [[]|e].
    + eapply wp_mono; [apply IH'; lia|]. intros r' s' w2 t Hs. apply spends_call; [|done].
      exists y. split_and!; [left|done|done].
    + split; [|by rewrite count_calls_cons; simpl; unfold count_calls; simpl; lia].
      constructor; [|constructor]. exists y. split_and!; [left|done|done].
Qed.

Lemma create_rules_spec id seen rules b s w :
  0 <= b ->
  wp (create_rules id seen rules b)
     (spends (fun q => exists y, y ∈ rules /\ payload_key y ∉ seen /\ q = CreateFirewallRule id y)
             b (fun b' => b') (fun _ => True)) s w.
Proof.
  revert b s w. induction rules as [|y rules IH]; intros b s w Hb; simpl.
  - wp_step. by split; [constructor|].
  - assert (forall b' s' w', 0 <= b' -> wp (create_rules id seen rules b')
      (spends (fun q => exists z, z ∈ y :: rules /\ payload_key z ∉ seen /\ q = CreateFirewallRule id z)
             b' (fun b' => b') (fun _ => True)) s' w') as IH'.
    { intros b' s' w' Hb'. eapply wp_mono; [by apply IH|]. intros r ? ? t Hs.
      eapply spends_mono; [exact Hs| |done]. intros q (z & ? & ? & ?). exists z. split_and!; [by right|done|done]. }
    go_case; [wp_step; by split; [constructor|]|].
    case_bool_decide as Hk; [by apply IH'|].
    repeat wp_step. destruct (write_reply r) as [[]|e].
    + eapply wp_mono; [apply IH'; lia|]. intros r' s' w2 t Hs. apply spends_call; [|done].
      exists y. split_and!; [left|done|done].
    + split; [|by rewrite count_calls_cons; simpl; unfold count_calls; simpl; lia].
      constructor; [|constructor]. exists y. split_and!; [left|done|done].
Qed.

Lemma prune_attachments_spec id desired observed seen b s w :
  0 <= b ->
  wp (prune_attachments id desired observed seen b)
     (spends (fun q => exists y, y ∈ observed /\ desired !! resource_key y = None /\
                                 q = UnlinkFirewallResource id (res_ID y) (normalizeType (res_Type y)))
             b (fun a => a.1.2)
             (fun a => a.2 = false -> a.1.1 = seen ∪ list_to_set (map resource_key observed))) s w.
Proof.
  revert seen b s w. induction observed as [|y observed IH]; intros seen b s w Hb; simpl.
  - wp_step. split; [constructor|]. simpl. split_and!; [done|done|set_solver].
  - assert (forall b' w' s', 0 <= b' -> wp (prune_attachments id desired observed ({[resource_key y]} ∪ seen) b')
      (spends (fun q => exists z, z ∈ y :: observed /\ desired !! resource_key z = None /\
                                 q = UnlinkFirewallResource id (res_ID z) (normalizeType (res_Type z)))
             b' (fun a => a.1.2)
             (fun a => a.2 = false -> a.1.1 = seen ∪ list_to_set (map resource_key (y :: observed)))) s' w')
      as IH'.
    { intros b' w' s' Hb'. eapply wp_mono; [by apply IH|]. intros r ? ? t Hs.
      eapply spends_mono; [exact Hs| |]; simpl.
      - intros q (z & ? & ? & ?). exists z. split_and!; [by right|done|done].
      - intros a Ha Hf. rewrite Ha by done. set_solver. }
    go_case; [wp_step; split; [constructor|]; simpl; split_and!; [done|done|done]|].
    destruct (desired !! resource_key y) eqn:Ek; [by apply IH'|].
    repeat wp_step. destruct (write_reply r) as [[]|e].
    + eapply wp_mono; [apply IH'; lia|]. intros r' s' w2 t Hs. apply spends_call; [|done].
      exists y. split_and!; [left|done|done].
    + split; [|by rewrite count_calls_cons; simpl; unfold count_calls; simpl; lia].
      constructor; [|constructor]. exists y. split_and!; [left|done|done].
Qed.

(** The two calls [attach] may make. *)
Definition attach_call (id : string) (a : ServiceAttachment) (q : firewall_request) : Prop :=
  q = GetServiceFirewallGroups (normalizeType (ServiceType a)) (ServiceID a) \/
  q = LinkFirewallResource id (ServiceID a) (normalizeType (ServiceType a)).

Lemma attach_spec id a s w :
  wp (attach recorder id a)
     (fun r _ _ t => Forall (fun x => attach_call id a (request x)) t /\
                     count_calls paced t <= 1 /\ (is_ok r = true -> count_calls paced t = 1)) s w.
Proof.
  unfold attach, boundElsewhere. repeat wp_step.
  destruct (other_group id (read_reply r)).
  - repeat wp_step. simpl. split; [|done]. repeat constructor.
  - repeat wp_step. simpl. split; [|done]. constructor; [by left|]. constructor; [by right|constructor].
Qed.

Lemma link_attachments_spec id seen services b s w :
  0 <= b ->
  wp (link_attachments recorder id seen services b)
     (spends (fun q => exists a, a ∈ services /\ attachKey a ∉ seen /\ attach_call id a q)
             b (fun b' => b') (fun _ => True)) s w.
Proof.
  revert b s w. induction services as [|a services IH]; intros b s w Hb; simpl.
  - wp_step. by split; [constructor|].
  - assert (forall b' s' w', 0 <= b' -> wp (link_attachments recorder id seen services b')
      (spends (fun q => exists z, z ∈ a :: services /\ attachKey z ∉ seen /\ attach_call id z q)
             b' (fun b' => b') (fun _ => True)) s' w') as IH'.
    { intros b' s' w' Hb'. eapply wp_mono; [by apply IH|]. intros r ? ? t Hs.
      eapply spends_mono; [exact Hs| |done]. intros q (z & ? & ? & ?). exists z. split_and!; [by right|done|done]. }
    go_case; [wp_step; by split; [constructor|]|].
    case_bool_decide as Hk; [by apply IH'|].
    wp_step. eapply wp_mono; [apply attach_spec|]. intros r s' w' t (HF & Hc & Hok).
    assert (Forall (fun x => exists z, z ∈ a :: services /\ attachKey z ∉ seen /\ attach_call id z (request x)) t)
      as HF' by (eapply Forall_impl; [exact HF|]; intros x Hx; exists a; split_and!; [left|done|done]).
    destruct r as [[]|e]; [|by split; [|lia]].
    eapply wp_mono; [apply (IH' (b - 1)); lia|]. intros r' s'' w'' t' [HF2 HR]. simpl in Hok.
    split; [by apply Forall_app_intro|]. rewrite count_calls_app, Hok by done.
    destruct r'; [|lia]. destruct HR as (? & ? & ?). split_and!; [done|lia|done].
Qed.
End LoopSpecs.

(** ** Update only writes the difference *)

(** The rules (resources) that the listings of a trace returned. *)
Definition listed_rules (t : list (exchange firewall_reply)) : list FirewallRulePayload :=
  flat_map (fun x => match x with
                     | Exchange (ListFirewallRules _) r =>
                         match read_reply r with Ok l => l | Err _ => [] end
                     | _ => []
                     end) t.

Definition listed_resources (t : list (exchange firewall_reply)) : list FirewallResource :=
  flat_map (fun x => match x with
                     | Exchange (ListFirewallResources _) r =>
                         match read_reply r with Ok l => l | Err _ => [] end
                     | _ => []
                     end) t.

(** What a call of [Update] on group [id] must rest on, given the rules and the
    resources listed. *)
Definition justified (p : FirewallParameters) (id : string) (rules : list FirewallRulePayload)
    (resources : list FirewallResource) (q : firewall_request) : Prop :=
  match q with
  | DeleteFirewallRule gid rid =>
      gid = id /\ exists r, r ∈ rules /\ fr_ID r = rid /\ (desiredRuleSet p).1 !! payload_key r = None
  | CreateFirewallRule gid r =>
      gid = id /\ (desiredRuleSet p).1 !! payload_key r = Some r /\ payload_key r ∉ map payload_key rules
  | UnlinkFirewallResource gid sid ty =>
      gid = id /\ exists r, r ∈ resources /\ res_ID r = sid /\ normalizeType (res_Type r) = ty /\
                            desiredAttachSet p !! resource_key r = None
  | LinkFirewallResource gid sid ty =>
      gid = id /\ exists a, desiredAttachSet p !! attachKey a = Some a /\ ServiceID a = sid /\
                            normalizeType (ServiceType a) = ty /\ attachKey a ∉ map resource_key resources
  | PatchFirewallGroup gid name desc =>
      gid = id /\ name = fw_Name p /\ desc = default_str (fw_Description p)
  | CreateFirewallGroup _ _ _ | DeleteFirewallGroup _ => False
  | _ => True
  end.

Definition is_listing (q : firewall_request) : bool :=
  match q with ListFirewallRules _ | ListFirewallResources _ => true | _ => false end.

Definition rule_side (q : firewall_request) : bool :=
  match q with
  | ListFirewallRules _ | CreateFirewallRule _ _ | DeleteFirewallRule _ _ => true
  | _ => false
  end.

Definition attach_side (q : firewall_request) : bool :=
  match q with
  | ListFirewallResources _ | LinkFirewallResource _ _ _ | UnlinkFirewallResource _ _ _
  | GetServiceFirewallGroups _ _ => true
  | _ => false
  end.

Lemma justified_rule_side p id rules res res' q :
  rule_side q = true -> justified p id rules res q -> justified p id rules res' q.
Proof. by destruct q. Qed.

Lemma justified_attach_side p id rules rules' res q :
  attach_side q = true -> justified p id rules res q -> justified p id rules' res q.
Proof. by destruct q. Qed.

Lemma listed_none t :
  Forall (fun x => is_listing (request x) = false) t -> listed_rules t = [] /\ listed_resources t = [].
Proof. induction 1 as [|[q r] t Hq _ [IH1 IH2]]; [done|]. destruct q; simpl in *; rewrite ?IH1, ?IH2; done. Qed.

Lemma listed_rules_app t t' : listed_rules (t ++ t') = listed_rules t ++ listed_rules t'.
Proof. apply flat_map_app. Qed.

Lemma listed_resources_app t t' : listed_resources (t ++ t') = listed_resources t ++ listed_resources t'.
Proof. apply flat_map_app. Qed.

Lemma listed_rules_here id (r : reply (list FirewallRulePayload)) l t :
  read_reply r = Ok l -> listed_rules (Exchange (ListFirewallRules id) r :: t) = l ++ listed_rules t.
Proof.
  intros H. change (match read_reply r with Ok l => l | Err _ => [] end ++ listed_rules t = l ++ listed_rules t).
  by rewrite H.
Qed.

Lemma listed_resources_here id (r : reply (list FirewallResource)) l t :
  read_reply r = Ok l -> listed_resources (Exchange (ListFirewallResources id) r :: t) = l ++ listed_resources t.
Proof.
  intros H. change (match read_reply r with Ok l => l | Err _ => [] end ++ listed_resources t = l ++ listed_resources t).
  by rewrite H.
Qed.

Section UpdateSpec.
Context `{R : CrossplaneRuntime} {U : Upstream firewall_request firewall_reply}.
Variable recorder : bool.

Notation firewall := (managed FirewallParameters FirewallObservation).

(** A trace on one side (rules or attachments) whose calls rest on the rules and
    resources of the trace itself, within a budget of paced writes. *)
Definition accounted {A} (p : FirewallParameters) (id : string) (side : firewall_request -> bool)
    (b : Z) (left : A -> Z) : post (U := U) (S := firewall) A :=
  fun r _ _ t =>
    Forall (fun x => justified p id (listed_rules t) (listed_resources t) (request x)) t /\
    Forall (fun x => side (request x) = true) t /\
    match r with
    | Ok a => 0 <= left a /\ count_calls paced t + left a = b
    | Err _ => count_calls paced t <= b
    end.

(** The budget part of [accounted]. *)
Definition within {A} (b : Z) (left : A -> Z) (r : result error A) (t : list (exchange firewall_reply)) : Prop :=
  match r with
  | Ok a => 0 <= left a /\ count_calls paced t + left a = b
  | Err _ => count_calls paced t <= b
  end.

Lemma rules_accounted {A} p id b (left : A -> Z) (l : reply (list FirewallRulePayload)) observed r s w t :
  read_reply l = Ok observed ->
  Forall (fun x => justified p id observed [] (request x) /\ is_listing (request x) = false /\ rule_side (request x) = true) t ->
  within b left r t ->
  accounted p id rule_side b left r s w (Exchange (ListFirewallRules id) l :: t) /\
  listed_resources (Exchange (ListFirewallRules id) l :: t) = [].
Proof.
  intros Hl HF Hb. apply Forall_and in HF as [HF [Hn Hside]%Forall_and]. apply listed_none in Hn as [H1 H2].
  assert (listed_resources (Exchange (ListFirewallRules id) l :: t) = []) as H3 by done.
  split; [|done]. split; [|split; [by constructor|exact Hb]].
  rewrite (listed_rules_here id l observed t Hl), H1, H3, app_nil_r. by constructor.
Qed.

Lemma resources_accounted {A} p id b (left : A -> Z) (l : reply (list FirewallResource)) observed r s w t :
  read_reply l = Ok observed ->
  Forall (fun x => justified p id [] observed (request x) /\ is_listing (request x) = false /\ attach_side (request x) = true) t ->
  within b left r t ->
  accounted p id attach_side b left r s w (Exchange (ListFirewallResources id) l :: t) /\
  listed_rules (Exchange (ListFirewallResources id) l :: t) = [].
Proof.
  intros Hl HF Hb. apply Forall_and in HF as [HF [Hn Hside]%Forall_and]. apply listed_none in Hn as [H1 H2].
  assert (listed_rules (Exchange (ListFirewallResources id) l :: t) = []) as H3 by done.
  split; [|done]. split; [|split; [by constructor|exact Hb]].
  rewrite (listed_resources_here id l observed t Hl), H2, H3, app_nil_r. by constructor.
Qed.

Lemma listing_failed {A} p id side b (left : A -> Z) e s w (x : exchange firewall_reply) :
  0 <= b -> is_listing (request x) = true -> side (request x) = true -> accounted p id side b left (Err e) s w [x].
Proof.
  intros Hb Hx Hs. destruct x as [q r]. destruct q; try done; (split_and!; [by repeat constructor|by repeat constructor|done]).
Qed.

Lemma delete_rule_justified p id observed r :
  r ∈ observed -> (desiredRuleSet p).1 !! payload_key r = None ->
  justified p id observed [] (DeleteFirewallRule id (fr_ID r)).
Proof. intros ? ?. split; [done|]. by exists r. Qed.

Lemma create_rule_justified p id observed r :
  r ∈ sortedRulePayloads (desiredRuleSet p).1 -> payload_key r ∉ map payload_key observed ->
  justified p id observed [] (CreateFirewallRule id r).
Proof.
  intros Hr ?. split; [done|]. apply elem_of_sorted_values in Hr as [k Hk].
  rewrite <- (desiredRuleSet_keys _ _ _ Hk) in Hk. done.
Qed.

Lemma reconcileRules_spec p id b s w :
  0 <= b ->
  wp (reconcileRules p id b)
     (fun r s' w' t => accounted p id rule_side b (fun b' => b') r s' w' t /\ listed_resources t = []) s w.
Proof.
  intros Hb. unfold reconcileRules. wp_step. unfold listRules. wp_step.
  destruct (read_reply r) as [observed|e] eqn:Er; [|by split; [apply listing_failed|]].
  wp_step. eapply wp_mono; [by apply prune_rules_spec|].
  intros [[[seen b'] ex]|e] s1 w1 t1 [HF HR]; simpl in *; cycle 1.
  { apply (rules_accounted p id b _ r observed); [done| |exact HR].
    eapply Forall_impl; [exact HF|]. intros x (y & ? & ? & ->). split; [by apply delete_rule_justified|by split]. }
  assert (Forall (fun x => justified p id observed [] (request x) /\ is_listing (request x) = false /\ rule_side (request x) = true) t1) as HF1.
  { eapply Forall_impl; [exact HF|]. intros x (y & ? & ? & ->). split; [by apply delete_rule_justified|by split]. }
  destruct HR as (Hb' & Hc & Hs). destruct ex.
  - wp_step. rewrite app_nil_r. by apply (rules_accounted p id b _ r observed).
  - eapply wp_mono; [by apply create_rules_spec|]. intros r2 s2 w2 t2 [HF2 HR2].
    apply (rules_accounted p id b _ r observed); [done| |].
    + apply Forall_app_intro; [done|]. eapply Forall_impl; [exact HF2|].
      intros x (y & Hy & Hk & ->). split; [|by split]. apply create_rule_justified; [done|].
      rewrite Hs in Hk by done. set_solver.
    + unfold within. rewrite count_calls_app. destruct r2; lia.
Qed.

Lemma unlink_justified p id observed r :
  r ∈ observed -> desiredAttachSet p !! resource_key r = None ->
  justified p id [] observed (UnlinkFirewallResource id (res_ID r) (normalizeType (res_Type r))).
Proof. intros ? ?. split; [done|]. by exists r. Qed.

Lemma attach_justified p id observed a q :
  a ∈ sortedAttachments (desiredAttachSet p) -> attachKey a ∉ map resource_key observed ->
  attach_call id a q -> justified p id [] observed q /\ is_listing q = false /\ attach_side q = true.
Proof.
  intros Ha ? [->| ->]; [done|]. split; [|by split]. split; [done|]. apply elem_of_sorted_values in Ha as [k Hk].
  rewrite <- (desiredAttachSet_keys _ _ _ Hk) in Hk. by exists a.
Qed.

Lemma reconcileAttachments_spec p id b s w :
  0 <= b ->
  wp (reconcileAttachments recorder p id b)
     (fun r s' w' t => accounted p id attach_side b (fun b' => b') r s' w' t /\ listed_rules t = []) s w.
Proof.
  intros Hb. unfold reconcileAttachments. wp_step. unfold listResources. wp_step.
  destruct (read_reply r) as [observed|e] eqn:Er; [|by split; [apply listing_failed|]].
  wp_step. eapply wp_mono; [by apply prune_attachments_spec|].
  intros [[[seen b'] ex]|e] s1 w1 t1 [HF HR]; simpl in *; cycle 1.
  { apply (resources_accounted p id b _ r observed); [done| |exact HR].
    eapply Forall_impl; [exact HF|]. intros x (y & ? & ? & ->). split; [by apply unlink_justified|by split]. }
  assert (Forall (fun x => justified p id [] observed (request x) /\ is_listing (request x) = false /\ attach_side (request x) = true) t1) as HF1.
  { eapply Forall_impl; [exact HF|]. intros x (y & ? & ? & ->). split; [by apply unlink_justified|by split]. }
  destruct HR as (Hb' & Hc & Hs). destruct ex.
  - wp_step. rewrite app_nil_r. by apply (resources_accounted p id b _ r observed).
  - eapply wp_mono; [by apply link_attachments_spec|]. intros r2 s2 w2 t2 [HF2 HR2].
    apply (resources_accounted p id b _ r observed); [done| |].
    + apply Forall_app_intro; [done|]. eapply Forall_impl; [exact HF2|].
      intros x (y & Hy & Hk & Hq). apply (attach_justified _ _ _ y); [done| |done].
      rewrite Hs in Hk by done. set_solver.
    + unfold within. rewrite count_calls_app. destruct r2; lia.
Qed.

(** The three phases of [Update], put together. *)
Lemma phases_accounted p id t0 t1 t2 :
  Forall (fun x => is_listing (request x) = false /\ justified p id [] [] (request x) /\
                   rule_side (request x) = false /\ attach_side (request x) = false) t0 ->
  Forall (fun x => justified p id (listed_rules t1) (listed_resources t1) (request x)) t1 ->
  Forall (fun x => rule_side (request x) = true) t1 -> listed_resources t1 = [] ->
  Forall (fun x => justified p id (listed_rules t2) (listed_resources t2) (request x)) t2 ->
  Forall (fun x => attach_side (request x) = true) t2 -> listed_rules t2 = [] ->
  let t := t0 ++ t1 ++ t2 in
  Forall (fun x => justified p id (listed_rules t) (listed_resources t) (request x)) t.
Proof.
  intros H0 H1 S1 E1 H2 S2 E2. simpl. apply Forall_and in H0 as [L0 H0].
  destruct (listed_none _ L0) as [L1 L2].
  rewrite !listed_rules_app, !listed_resources_app, L1, L2, E1, E2, app_nil_r. simpl.
  rewrite !Forall_app. split_and!.
  - eapply Forall_impl; [exact H0|]. intros [q r] (Hj & Hr & Ha). by destruct q.
  - eapply Forall_impl; [apply Forall_and; exact (conj H1 S1)|].
    intros x [Hj Hs]. by eapply justified_rule_side.
  - eapply Forall_impl; [apply Forall_and; exact (conj H2 S2)|].
    intros x [Hj Hs]. by eapply justified_attach_side.
Qed.

Lemma count_writes_paced (t : list (exchange firewall_reply)) :
  Forall (fun x => rule_side (request x) || attach_side (request x) = true) t ->
  count_calls fw_write t = count_calls paced t.
Proof.
  induction 1 as [|[q r] t Hq _ IH]; [done|]. rewrite !count_calls_cons, IH. by destruct q.
Qed.

(** The rule and attachment phases of [Update] after a prefix of other calls. *)
Definition reconcile_both (p : FirewallParameters) (id : string) : M U firewall unit :=
  budget ← reconcileRules p id maxFirewallMutationsPerReconcile;
  reconcileAttachments recorder p id budget;;
  mret tt.

(** What [Update] promises of its trace. *)
Definition update_ok (p : FirewallParameters) (id : string) (t : list (exchange firewall_reply)) : Prop :=
  Forall (fun x => justified p id (listed_rules t) (listed_resources t) (request x)) t /\
  count_calls paced t <= maxFirewallMutationsPerReconcile /\
  count_calls fw_write t <= count_calls paced t + 1.

Lemma reconcile_both_spec p id t0 s w :
  Forall (fun x => is_listing (request x) = false /\ justified p id [] [] (request x) /\
                   rule_side (request x) = false /\ attach_side (request x) = false) t0 ->
  count_calls paced t0 = 0 -> count_calls fw_write t0 <= 1 ->
  wp (reconcile_both p id) (fun _ _ _ t => update_ok p id (t0 ++ t)) s w.
Proof.
  intros H0 Hp Hw. unfold reconcile_both.
  wp_step. eapply wp_mono; [by apply reconcileRules_spec|]. intros r1 s1 w1 t1 [(J1 & S1 & B1) L1].
  assert (forall t2, Forall (fun x => justified p id (listed_rules t2) (listed_resources t2) (request x)) t2 ->
    Forall (fun x => attach_side (request x) = true) t2 -> listed_rules t2 = [] ->
    count_calls paced t1 + count_calls paced t2 <= maxFirewallMutationsPerReconcile ->
    update_ok p id (t0 ++ t1 ++ t2)) as Hjoin.
  { intros t2 J2 S2 L2 B2. split; [by apply phases_accounted|].
    assert (count_calls fw_write (t1 ++ t2) = count_calls paced (t1 ++ t2)) as Hc.
    { apply count_writes_paced, Forall_app_intro; (eapply Forall_impl; [done|]); simpl;
        intros x ->; by rewrite ?orb_true_r. }
    rewrite !(count_calls_app _ t0), Hc, !count_calls_app. lia. }
  destruct r1 as [b1|e].
  - destruct B1 as [Hb1 Hc1]. wp_step. eapply wp_mono; [by apply reconcileAttachments_spec|].
    intros r2 s2 w2 t2 [(J2 & S2 & B2) L2].
    destruct r2; [wp_step; rewrite app_nil_r|]; (apply Hjoin; [done|done|done|lia]).
  - specialize (Hjoin []). rewrite app_nil_r in Hjoin. apply Hjoin; try constructor.
    rewrite count_calls_nil. lia.
Qed.

Lemma Update_spec cr w :
  wp (Update recorder) (fun r _ _ t => update_ok (ForProvider cr) (ExternalName cr) t) cr w.
Proof.
  unfold Update. wp_step. wp_step. cbv zeta. set (p := ForProvider cr). set (id := ExternalName cr).
  destruct (desiredRuleSet p).2.
  { unfold rejectDuplicate. repeat wp_step. split_and!; [constructor|by vm_compute|by vm_compute]. }
  wp_step. unfold getGroup. wp_step. destruct (read_reply r) as [group|e].
  2: { split_and!; [repeat constructor|by vm_compute|by vm_compute]. }
  destruct (FirstImmutableDiff _).
  { unfold reject. repeat wp_step. split_and!; [repeat constructor|by vm_compute|by vm_compute]. }
  wp_step. destruct (_ || _).
  - wp_step. destruct (write_reply r0) as [[]|e].
    + change (wp (reconcile_both p id) (fun _ _ _ t => update_ok p id
        ([Exchange (GetFirewallGroup id) r] ++ [Exchange (PatchFirewallGroup id (fw_Name p)
           (default_str (fw_Description p))) r0] ++ t)) cr w'0).
      eapply wp_mono; [apply reconcile_both_spec with (t0 := [Exchange (GetFirewallGroup id) r;
        Exchange (PatchFirewallGroup id (fw_Name p) (default_str (fw_Description p))) r0])|done];
        [by repeat constructor|by vm_compute|by vm_compute].
    + split_and!; [by repeat constructor|by vm_compute|by vm_compute].
  - wp_step.
    eapply wp_mono; [apply reconcile_both_spec with (t0 := [Exchange (GetFirewallGroup id) r])|done];
        [by repeat constructor|by vm_compute|by vm_compute].
Qed.
End UpdateSpec.

(** ** Never steal a service *)

(** A reverse lookup of the service that names no group other than [gid] (a
    failed lookup included). *)
Definition clear_lookup (gid sid ty : string) (x : exchange firewall_reply) : bool :=
  match x with
  | Exchange (GetServiceFirewallGroups ty' sid') r =>
      bool_decide (ty = ty') && bool_decide (sid = sid') &&
      bool_decide (other_group gid (read_reply r) = None)
  | _ => false
  end.

(** Every link call directly follows a clear lookup of its service; [prev] is the
    exchange before the trace. *)
Fixpoint links_guarded (prev : option (exchange firewall_reply)) (t : list (exchange firewall_reply)) : bool :=
  match t with
  | [] => true
  | x :: t' =>
      match request x with
      | LinkFirewallResource gid sid ty =>
          match prev with Some y => clear_lookup gid sid ty y | None => false end
      | _ => true
      end && links_guarded (Some x) t'
  end.

Lemma links_guarded_any prev t : links_guarded None t = true -> links_guarded prev t = true.
Proof. destruct t as [|x t]; [done|]. simpl. by destruct (request x). Qed.

Lemma links_guarded_prev prev t t' :
  links_guarded prev t = true -> links_guarded None t' = true -> links_guarded prev (t ++ t') = true.
Proof.
  revert prev. induction t as [|x t IH]; intros prev H Ht'; simpl in *; [by apply links_guarded_any|].
  apply andb_true_iff in H as [-> H]. simpl. by apply IH.
Qed.

Lemma links_guarded_app t t' :
  links_guarded None t = true -> links_guarded None t' = true -> links_guarded None (t ++ t') = true.
Proof. apply links_guarded_prev. Qed.

Section NoSteal.
Context `{R : CrossplaneRuntime} {U : Upstream firewall_request firewall_reply}.
Variable recorder : bool.

Notation guarded m := (always (fun t => links_guarded None t = true) m).

Ltac walk := repeat (always_step (eq_refl : links_guarded None [] = true) links_guarded_app); try reflexivity.

Lemma attach_guarded id a : guarded (attach recorder id a).
Proof.
  intros s w. change (wp (attach recorder id a) (fun _ _ _ t => links_guarded None t = true) s w).
  unfold attach, boundElsewhere. repeat wp_step.
  destruct (other_group id (read_reply r)) eqn:E; repeat wp_step; [done|].
  simpl. by rewrite !bool_decide_true.
Qed.

Lemma each_guarded {A} (f : A -> M U _ unit) l : (forall a, guarded (f a)) -> guarded (each f l).
Proof. intros Hf. induction l; simpl; walk; auto. Qed.

Lemma prune_rules_guarded id d l seen b : guarded (prune_rules id d l seen b).
Proof. revert seen b. induction l; intros; simpl; walk; auto. Qed.

Lemma create_rules_guarded id seen l b : guarded (create_rules id seen l b).
Proof. revert b. induction l; intros; simpl; walk; auto. Qed.

Lemma prune_attachments_guarded id d l seen b : guarded (prune_attachments id d l seen b).
Proof. revert seen b. induction l; intros; simpl; walk; auto. Qed.

Lemma link_attachments_guarded id seen l b : guarded (link_attachments recorder id seen l b).
Proof. revert b. induction l; intros; simpl; walk; auto using attach_guarded. Qed.

Hint Resolve prune_rules_guarded create_rules_guarded prune_attachments_guarded
  link_attachments_guarded attach_guarded each_guarded : go.

(** C4. A service is never taken from another group: in every run of [Create]
    and of [Update], each link call directly follows a reverse lookup of the
    same service whose answer named no group other than the one linked to. *)
Theorem firewall_never_steals (cr : managed FirewallParameters FirewallObservation) (w : World) :
  links_guarded None (trace (Create recorder cr w)) = true /\
  links_guarded None (trace (Update recorder cr w)) = true.
Proof.
  split; revert cr w.
  - change (guarded (Create recorder)).
    unfold Create, rejectDuplicate, findGroupByName, createGroup. walk; try (apply each_guarded; intros; walk); auto with go.
  - change (guarded (Update recorder)).
    unfold Update, rejectDuplicate, getGroup, reject, reconcileRules, reconcileAttachments, listRules, listResources.
    walk; auto with go.
Qed.

(** [Update] paces itself: at most eight rule and attachment writes, and at
    most one other write (the PATCH of name and description); it never creates
    or deletes a group. *)
Theorem firewall_update_paced (cr : managed FirewallParameters FirewallObservation) (w : World) :
  let t := trace (Update recorder cr w) in
  count_calls paced t <= 8 /\ count_calls fw_write t <= count_calls paced t + 1.
Proof. apply (Update_spec recorder cr w). Qed.

(** [Update] writes only the difference: it deletes only listed rules whose
    key is not declared, creates only declared rules whose key is not listed,
    unlinks only listed services that are not declared, links only declared
    services that are not listed, and patches only the group's own name and
    description to the declared ones. *)
Theorem firewall_update_justified (cr : managed FirewallParameters FirewallObservation) (w : World) :
  let t := trace (Update recorder cr w) in
  Forall (fun x => justified (ForProvider cr) (ExternalName cr) (listed_rules t) (listed_resources t)
                     (request x)) t.
Proof. apply (Update_spec recorder cr w). Qed.
End NoSteal.

(** ** Convergence *)

(** Calls that leave rules alone. *)
Definition keeps_rules (q : firewall_request) : bool :=
  match q with
  | GetFirewallGroup _ | PatchFirewallGroup _ _ _ | ListFirewallGroups => true
  | _ => attach_side q
  end.

(** The documented behaviour of the endpoints of group [gid], on the rules
    [rules_of w] the service holds: reading the group returns its policy and a
    patch of it is accepted; listing returns the first [room] rules (the API document
    gives 100 where no limit is sent, and none is); creating a rule the service takes
    ([accepts]) appends it under a fresh id, while there is room; deleting removes the
    one with the id. *)
Class FaithfulRules {U : Upstream firewall_request firewall_reply} (gid policy : string) (room : nat)
    (accepts : FirewallRulePayload -> Prop) (rules_of : World -> list FirewallRulePayload) : Prop := {
  faithful_frame q w r w' : serve q w = (r, w') -> keeps_rules q = true -> rules_of w' = rules_of w;
  faithful_group w r w' :
    serve (GetFirewallGroup gid) w = (r, w') ->
    exists g, read_reply r = Ok g /\ fg_Policy g = policy;
  faithful_patch n d w r w' : serve (PatchFirewallGroup gid n d) w = (r, w') -> write_reply r = Ok tt;
  faithful_list w r w' :
    serve (ListFirewallRules gid) w = (r, w') ->
    read_reply r = Ok (take room (rules_of w)) /\ rules_of w' = rules_of w;
  faithful_create y w r w' :
    serve (CreateFirewallRule gid y) w = (r, w') -> accepts y -> (length (rules_of w) < room)%nat ->
    write_reply r = Ok tt /\
    exists y', payload_key y' = payload_key y /\ fr_ID y' ∉ map fr_ID (rules_of w) /\
               rules_of w' = rules_of w ++ [y'];
  faithful_delete i w r w' :
    serve (DeleteFirewallRule gid i) w = (r, w') ->
    write_reply r = Ok tt /\
    rules_of w' = List.filter (fun y => negb (bool_decide (fr_ID y = i))) (rules_of w) }.

(** The rules to delete and the rules to create. *)
Definition unwanted (d : gmap string FirewallRulePayload) (l : list FirewallRulePayload) : list FirewallRulePayload :=
  List.filter (fun r => bool_decide (d !! payload_key r = None)) l.

Definition missing (vs l : list FirewallRulePayload) : list FirewallRulePayload :=
  List.filter (fun v => bool_decide (payload_key v ∉ map payload_key l)) vs.

Definition distance (d : gmap string FirewallRulePayload) (l : list FirewallRulePayload) : Z :=
  Z.of_nat (length (unwanted d l) + length (missing (sorted_values d) l)).

Lemma filter_all {A} (f : A -> bool) l : (forall x, x ∈ l -> f x = true) -> List.filter f l = l.
Proof.
  induction l as [|a l IH]; intros H; simpl; [done|]. rewrite (H a) by left. f_equal.
  apply IH. intros x Hx. apply H. by right.
Qed.

Lemma filter_ext_elem {A} (f g : A -> bool) l :
  (forall x, x ∈ l -> f x = g x) -> List.filter f l = List.filter g l.
Proof.
  induction l as [|a l IH]; intros H; simpl; [done|]. rewrite (H a), IH; [done| |left].
  intros x Hx. apply H. by right.
Qed.

(** Removing the one element with a given id removes one unwanted element. *)
Lemma unwanted_delete d W y :
  NoDup (map fr_ID W) -> y ∈ W -> d !! payload_key y = None ->
  let W' := List.filter (fun z => negb (bool_decide (fr_ID z = fr_ID y))) W in
  S (length (unwanted d W')) = length (unwanted d W) /\
  (forall z, z ∈ W -> fr_ID z <> fr_ID y -> z ∈ W') /\
  (forall k, is_Some (d !! k) -> (k ∈ map payload_key W' <-> k ∈ map payload_key W)) /\
  NoDup (map fr_ID W').
Proof.
  induction W as [|z W IH]; intros Hn Hy Hd; [by apply elem_of_nil in Hy|]. simpl in *.
  apply NoDup_cons in Hn as [Hz Hn]. apply elem_of_cons in Hy as [<-|Hy].
  - rewrite bool_decide_true by done. simpl.
    assert (List.filter (fun z => negb (bool_decide (fr_ID z = fr_ID y))) W = W) as ->.
    { apply filter_all. intros x Hx. rewrite bool_decide_false; [done|]. intros E.
      apply Hz. rewrite <- E. apply list_elem_of_fmap. by exists x. }
    rewrite bool_decide_true by done. split_and!; [done| | |done].
    + intros z [->|Hx]%elem_of_cons; done.
    + intros k [v Hk]. split; [by right|]. intros [->|Hx]%elem_of_cons; [congruence|done].
  - assert (fr_ID z <> fr_ID y) as Hne.
    { intros E. apply Hz. rewrite E. apply list_elem_of_fmap. by exists y. }
    rewrite (bool_decide_false (fr_ID z = fr_ID y)) by done. simpl.
    destruct (IH Hn Hy Hd) as (H1 & H2 & H3 & H4). split_and!.
    + case_bool_decide; simpl; lia.
    + intros x [->|Hx]%elem_of_cons Hxy; [left|right; by apply H2].
    + intros k Hk. specialize (H3 k Hk). rewrite !elem_of_cons. tauto.
    + apply NoDup_cons. split; [|done]. intros Hin. apply Hz.
      apply list_elem_of_fmap in Hin as (x & -> & Hx). apply list_elem_of_fmap. exists x. split; [done|].
      apply list_elem_of_In, List.filter_In in Hx as [Hx _]. by apply list_elem_of_In.
Qed.

Lemma missing_ext vs l l' :
  (forall v, v ∈ vs -> (payload_key v ∈ map payload_key l <-> payload_key v ∈ map payload_key l')) ->
  missing vs l = missing vs l'.
Proof.
  intros H. apply filter_ext_elem. intros v Hv. apply bool_decide_ext. by rewrite H.
Qed.

Lemma keys_of_values (d : gmap string FirewallRulePayload) ks :
  (forall k v, d !! k = Some v -> payload_key v = k) -> Forall (fun k => is_Some (d !! k)) ks ->
  map payload_key (omap (fun k => d !! k) ks) = ks.
Proof.
  intros Hk. induction 1 as [|k ks [v Hv] _ IH]; csimpl; [done|]. rewrite Hv. csimpl.
  by rewrite IH, (Hk k v).
Qed.

Lemma NoDup_keys_sorted_values (d : gmap string FirewallRulePayload) :
  (forall k v, d !! k = Some v -> payload_key v = k) -> NoDup (map payload_key (sorted_values d)).
Proof.
  intros Hk. unfold sorted_values. rewrite keys_of_values; [|done|].
  - unfold sort_strings. rewrite sort_by_perm. apply NoDup_fst_map_to_list.
  - apply Forall_forall. intros k Hin. unfold sort_strings in Hin. rewrite sort_by_perm in Hin.
    apply list_elem_of_fmap in Hin as ([k' v] & -> & Hin). apply elem_of_map_to_list in Hin. by exists v.
Qed.

Lemma length_zero_filter {A} (f : A -> bool) l :
  length (List.filter f l) = O -> forall x, x ∈ l -> f x = false.
Proof.
  induction l as [|a l IH]; simpl; [intros _ x Hx; by apply elem_of_nil in Hx|].
  destruct (f a) eqn:E; simpl; [done|]. intros H x [->|Hx]%elem_of_cons; auto.
Qed.

Lemma distance_zero (d : gmap string FirewallRulePayload) l :
  (forall k v, d !! k = Some v -> payload_key v = k) -> distance d l = 0 ->
  forall k, k ∈ map payload_key l <-> is_Some (d !! k).
Proof.
  intros Hk H k. unfold distance in H. assert (length (unwanted d l) = O) as H1 by lia.
  assert (length (missing (sorted_values d) l) = O) as H2 by lia. split.
  - intros Hin. apply list_elem_of_fmap in Hin as (r & -> & Hr).
    pose proof (length_zero_filter _ _ H1 r Hr) as Hf. apply bool_decide_eq_false in Hf.
    by apply not_eq_None_Some.
  - intros [v Hv]. pose proof (length_zero_filter _ _ H2 v) as Hf. rewrite bool_decide_eq_false in Hf.
    rewrite (Hk k v Hv) in Hf. apply dec_stable, Hf, elem_of_sorted_values. by exists k.
Qed.

Section Convergence.
Context `{R : CrossplaneRuntime} {U : Upstream firewall_request firewall_reply}.
Context (recorder : bool) (gid policy : string) (room : nat) (accepts : FirewallRulePayload -> Prop)
        (rules_of : World -> list FirewallRulePayload) `{!FaithfulRules gid policy room accepts rules_of}.

Notation firewall := (managed FirewallParameters FirewallObservation).

Lemma prune_converges d l seen b (s : firewall) w :
  0 <= b -> NoDup (map fr_ID (rules_of w)) -> NoDup (map fr_ID l) -> (forall y, y ∈ l -> y ∈ rules_of w) ->
  wp (prune_rules gid d l seen b) (fun r _ w' _ =>
    exists seen' b' ex, r = Ok (seen', b', ex) /\ NoDup (map fr_ID (rules_of w')) /\ 0 <= b' /\
      (forall k, is_Some (d !! k) -> (k ∈ map payload_key (rules_of w') <-> k ∈ map payload_key (rules_of w))) /\
      (length (rules_of w') <= length (rules_of w))%nat /\
      Z.of_nat (length (unwanted d (rules_of w'))) = Z.of_nat (length (unwanted d (rules_of w))) - (b - b') /\
      (if ex : bool then b' = 0
       else b - b' = Z.of_nat (length (unwanted d l)) /\ seen' = seen ∪ list_to_set (map payload_key l))) s w.
Proof.
  revert seen b s w. induction l as [|y l IH]; intros seen b s w Hb HN Hl Hin; simpl.
  - wp_step. exists seen, b, false. split_and!; try done; simpl; [lia|lia|clear; set_solver].
  - simpl in Hl. apply NoDup_cons in Hl as [Hy Hl]. go_case.
    { wp_step. exists ({[payload_key y]} ∪ seen), b, true. split_and!; try done; lia. }
    destruct (d !! payload_key y) as [v|] eqn:Ed.
    + eapply wp_mono; [apply IH; try done; intros z Hz; apply Hin; by right|].
      intros r s' w' t (seen' & b' & ex & -> & H1 & H2 & H3 & HL & H4 & H5). exists seen', b', ex.
      split_and!; try done. destruct ex; [done|]. rewrite bool_decide_false by done.
      destruct H5 as [? ->]. split; [done|clear; set_solver].
    + wp_step. wp_step. destruct (faithful_delete (fr_ID y) w r w' H) as [-> Hw'].
      destruct (unwanted_delete d (rules_of w) y HN (Hin y ltac:(left)) Ed) as (K1 & K2 & K3 & K4).
      rewrite <- Hw' in K1, K2, K3, K4.
      eapply wp_mono; [apply IH; try done; [lia|]|].
      { intros z Hz. apply K2; [apply Hin; by right|]. intros E'. apply Hy. rewrite <- E'.
        apply list_elem_of_fmap. by exists z. }
      intros r' s' w2 t (seen' & b' & ex & -> & H1 & H2 & H3 & HL & H4 & H5). exists seen', b', ex.
      split_and!; try done; [| |lia|].
      * intros k Hk. by rewrite H3, K3.
      * rewrite Hw' in HL. etransitivity; [exact HL|apply filter_length_le].
      * destruct ex; [done|]. rewrite bool_decide_true by done. simpl. destruct H5 as [? ->].
        split; [lia|clear; set_solver].
Qed.

Lemma create_converges d seen vs b (s : firewall) w :
  0 <= b -> NoDup (map payload_key vs) -> NoDup (map fr_ID (rules_of w)) ->
  (forall v, v ∈ vs -> is_Some (d !! payload_key v)) ->
  (forall v, v ∈ vs -> (payload_key v ∈ seen <-> payload_key v ∈ map payload_key (rules_of w))) ->
  (forall v, v ∈ vs -> accepts v) -> (length (rules_of w) + length (missing vs (rules_of w)) <= room)%nat ->
  wp (create_rules gid seen vs b) (fun r _ w' _ =>
    is_ok r = true /\ NoDup (map fr_ID (rules_of w')) /\
    (length (rules_of w') + length (missing vs (rules_of w')) <= room)%nat /\
    unwanted d (rules_of w') = unwanted d (rules_of w) /\
    (forall k, k ∉ map payload_key vs ->
       (k ∈ map payload_key (rules_of w') <-> k ∈ map payload_key (rules_of w))) /\
    Z.of_nat (length (missing vs (rules_of w'))) =
      Z.max 0 (Z.of_nat (length (missing vs (rules_of w))) - b)) s w.
Proof.
  revert b s w. induction vs as [|v vs IH]; intros b s w Hb HN HI Hd Hs Ha HR; simpl; revert HR.
  - intros HR. wp_step. split_and!; try done. simpl. lia.
  - simpl in HN. apply NoDup_cons in HN as [Hv HN]. go_case.
    { intros HR. wp_step. split_and!; try done. lia. }
    assert (forall z, z ∈ vs -> is_Some (d !! payload_key z)) as Hd' by (intros; apply Hd; by right).
    assert (forall z, z ∈ vs -> accepts z) as Ha' by (intros; apply Ha; by right).
    assert (forall z, z ∈ vs -> payload_key z <> payload_key v) as Hne.
    { intros z Hz E'. apply Hv. rewrite <- E'. apply list_elem_of_fmap. by exists z. }
    case_bool_decide as Hk.
    + apply (Hs v ltac:(left)) in Hk. intros HR. simpl in HR. rewrite (bool_decide_false (_ ∉ map payload_key (rules_of w))) in HR by tauto.
      eapply wp_mono; [apply IH; try done; intros; apply Hs; by right|].
      intros r s' w' t (H1 & H2 & HR' & H3 & H4 & H5). pose proof (proj2 (H4 _ Hv) Hk) as Hk'.
      rewrite (bool_decide_false (_ ∉ map payload_key (rules_of w'))) by tauto.
      rewrite (bool_decide_false (_ ∉ map payload_key (rules_of w))) by tauto.
      split_and!; try done. intros k Hkn. apply H4. intros Hx. apply Hkn. by right.
    + rewrite (Hs v ltac:(left)) in Hk. intros HR. simpl in HR. rewrite (bool_decide_true (_ ∉ map payload_key (rules_of w))) in HR by done. simpl in HR.
      assert (length (rules_of w) + S (length (missing vs (rules_of w))) <= room)%nat as HR0 by exact HR. clear HR.
      wp_step. wp_step. destruct (faithful_create v w r w' H (Ha v ltac:(left)) ltac:(lia)) as [-> (y' & Hy' & Hfr & Hw')].
      assert (forall z, z ∈ vs -> (payload_key z ∈ map payload_key (rules_of w') <->
                                   payload_key z ∈ map payload_key (rules_of w))) as Hsame.
      { intros z Hz. rewrite Hw', map_app. simpl. rewrite elem_of_app, list_elem_of_singleton, Hy'.
        specialize (Hne z Hz). tauto. }
      eapply wp_mono; [apply IH; try done; [lia| | |]|].
      { rewrite Hw', map_app. apply NoDup_app. split_and!; [done| |apply NoDup_singleton].
        intros x Hx. simpl. rewrite list_elem_of_singleton. by intros ->. }
      { intros z Hz. rewrite Hsame by done. apply Hs. by right. }
      { rewrite (missing_ext vs (rules_of w') (rules_of w)) by done. rewrite Hw', length_app. simpl. lia. }
      intros r' s' w2 t (H1 & H2 & HR' & H3 & H4 & H5).
      assert (payload_key v ∈ map payload_key (rules_of w2)) as Hv2.
      { apply H4; [done|]. rewrite Hw', map_app, <- Hy', elem_of_app. right. left. }
      rewrite (bool_decide_false (_ ∉ map payload_key (rules_of w2))) by tauto.
      rewrite bool_decide_true by done. simpl. split_and!; [done|done|done| | |].
      * rewrite H3, Hw'. unfold unwanted. rewrite List.filter_app. simpl. rewrite Hy'.
        destruct (Hd v ltac:(left)) as [x Hx]. rewrite bool_decide_false by congruence. apply app_nil_r.
      * intros k Hkn. rewrite elem_of_cons in Hkn. rewrite H4 by tauto. rewrite Hw', map_app. simpl.
        rewrite elem_of_app, list_elem_of_singleton, Hy'. tauto.
      * rewrite H5, (missing_ext vs (rules_of w') (rules_of w)) by done. unfold missing. lia.
Qed.

(** The service takes the declared rules, and they fit next to those it holds. *)
Definition fits (p : FirewallParameters) (l : list FirewallRulePayload) : Prop :=
  let declared := sorted_values (desiredRuleSet p).1 in
  (forall v, v ∈ declared -> accepts v) /\ (length l + length (missing declared l) <= room)%nat.

Lemma reconcileRules_progress p b (s : firewall) w :
  0 <= b -> NoDup (map fr_ID (rules_of w)) -> fits p (rules_of w) ->
  wp (reconcileRules p gid b) (fun r _ w' _ =>
    is_ok r = true /\ NoDup (map fr_ID (rules_of w')) /\ fits p (rules_of w') /\
    distance (desiredRuleSet p).1 (rules_of w') =
      Z.max 0 (distance (desiredRuleSet p).1 (rules_of w) - b)) s w.
Proof.
  intros Hb HN [Ha HR]. set (d := (desiredRuleSet p).1) in *. unfold reconcileRules, listRules, fits. fold d. cbv zeta.
  wp_step. wp_step. destruct (faithful_list w r w' H) as [Hr Hw]. rewrite Hr, take_ge by lia. rewrite <- Hw in HN, HR |- *.
  wp_step. eapply wp_mono; [by apply (prune_converges d); try done|].
  intros r1 s1 w1 t1 (seen & b1 & ex & -> & N1 & B1 & K1 & L1 & U1 & E1).
  assert (missing (sorted_values d) (rules_of w1) = missing (sorted_values d) (rules_of w')) as Hm.
  { apply missing_ext. intros v Hv. apply K1. apply elem_of_sorted_values in Hv as [k Hk].
    rewrite (desiredRuleSet_keys p k v Hk). by exists v. }
  unfold distance. destruct ex.
  - wp_step. rewrite Hm. split_and!; [done|done|done|lia|lia].
  - destruct E1 as [Hu ->]. change (sortedRulePayloads d) with (sorted_values d).
    eapply wp_mono; [apply (create_converges d); try done|].
    + apply NoDup_keys_sorted_values. apply desiredRuleSet_keys.
    + intros v Hv. apply elem_of_sorted_values in Hv as [k Hk].
      rewrite (desiredRuleSet_keys p k v Hk). by exists v.
    + intros v Hv. apply elem_of_sorted_values in Hv as [k Hk].
      rewrite K1; [|rewrite (desiredRuleSet_keys p k v Hk); by exists v]. set_solver.
    + rewrite Hm. lia.
    + intros r2 s2 w2 t2 (H1 & H2 & HR2 & H3 & H4 & H5). split_and!; [done|done|done|done|].
      rewrite H3. rewrite Hm in H5. lia.
Qed.

(** The rule phase leaves the managed resource alone. *)
Lemma reconcileRules_keeps_state p b (x : FirewallParameters) (s : firewall) w :
  wp (reconcileRules p gid b) (fun _ s' _ _ => s' = s) s w.
Proof.
  change (wp (reconcileRules p gid b) (fun _ s' w' _ => (fun s _ s' _ => s' = s) s w s' w') s w).
  revert s w. change (steps (fun s _ s' _ => s' = s) (reconcileRules p gid b)).
  assert (forall (s : firewall) (w : World), (fun s _ s' _ => s' = s) s w s w) as Hrefl by done.
  assert (forall (s : firewall) (w : World) s' w' s'' (w'' : World),
    (fun s (_ : World) s' (_ : World) => s' = s) s w s' w' ->
    (fun s (_ : World) s' (_ : World) => s' = s) s' w' s'' w'' -> s'' = s) as Htrans by congruence.
  assert (forall d l seen b, steps (fun (s : firewall) _ s' _ => s' = s) (prune_rules gid d l seen b)) as Hp.
  { intros d l. induction l; intros; simpl; repeat (steps_step Hrefl Htrans); auto. }
  assert (forall seen l b, steps (fun (s : firewall) _ s' _ => s' = s) (create_rules gid seen l b)) as Hc.
  { intros seen l. induction l; intros; simpl; repeat (steps_step Hrefl Htrans); auto. }
  unfold reconcileRules, listRules. repeat (steps_step Hrefl Htrans); auto.
Qed.

(** The attachment phase leaves the rules, the spec and the name alone. *)
Definition same_rules (s : firewall) (w : World) (s' : firewall) (w' : World) : Prop :=
  rules_of w' = rules_of w /\ ForProvider s' = ForProvider s /\ ExternalName s' = ExternalName s.

Lemma same_rules_refl s w : same_rules s w s w.
Proof. done. Qed.

Lemma same_rules_trans s w s' w' s'' w'' :
  same_rules s w s' w' -> same_rules s' w' s'' w'' -> same_rules s w s'' w''.
Proof. unfold same_rules. intros (?&?&?) (?&?&?). split_and!; congruence. Qed.

Ltac walk := repeat (steps_step same_rules_refl same_rules_trans);
  try (split_and!; [by eapply faithful_frame|done|done]).

Lemma attach_same_rules a : steps same_rules (attach recorder gid a).
Proof. unfold attach, boundElsewhere, warn. walk. by destruct recorder. Qed.

Lemma prune_attachments_same_rules d l seen b : steps same_rules (prune_attachments gid d l seen b).
Proof. revert seen b. induction l; intros; simpl; walk; auto. Qed.

Lemma link_attachments_same_rules seen l b : steps same_rules (link_attachments recorder gid seen l b).
Proof. revert b. induction l; intros; simpl; walk; auto using attach_same_rules. Qed.

Lemma reconcileAttachments_same_rules p b : steps same_rules (reconcileAttachments recorder p gid b).
Proof.
  unfold reconcileAttachments, listResources. walk;
    auto using prune_attachments_same_rules, link_attachments_same_rules.
Qed.

Lemma Update_progress (cr : firewall) w :
  ExternalName cr = gid -> (desiredRuleSet (ForProvider cr)).2 = false ->
  policy = effectivePolicy (ForProvider cr) -> NoDup (map fr_ID (rules_of w)) -> fits (ForProvider cr) (rules_of w) ->
  wp (Update recorder) (fun _ cr' w' _ =>
    ForProvider cr' = ForProvider cr /\ ExternalName cr' = ExternalName cr /\
    NoDup (map fr_ID (rules_of w')) /\ fits (ForProvider cr) (rules_of w') /\
    distance (desiredRuleSet (ForProvider cr)).1 (rules_of w') =
      Z.max 0 (distance (desiredRuleSet (ForProvider cr)).1 (rules_of w) - 8)) cr w.
Proof.
  intros Hid Hdup Hpol HN HF.
  set (d := (desiredRuleSet (ForProvider cr)).1).
  assert (forall w0, rules_of w0 = rules_of w -> wp (reconcile_both recorder (ForProvider cr) gid)
    (fun _ cr' w' _ => ForProvider cr' = ForProvider cr /\ ExternalName cr' = ExternalName cr /\
       NoDup (map fr_ID (rules_of w')) /\ fits (ForProvider cr) (rules_of w') /\
       distance d (rules_of w') = Z.max 0 (distance d (rules_of w) - 8)) cr w0) as Hboth.
  { intros w0 Hw0. unfold reconcile_both. wp_step.
    eapply wp_mono; [apply wp_conj; [apply reconcileRules_progress; [done|by rewrite Hw0|by rewrite Hw0]|
                                     apply (reconcileRules_keeps_state _ _ (ForProvider cr))]|].
    intros r1 s1 w1 t1 [(Hok & N1 & R1 & D1) ->]. rewrite Hw0 in D1. destruct r1 as [b1|]; [|done].
    wp_step. pose proof (reconcileAttachments_same_rules (ForProvider cr) b1 cr w1) as (F1 & F2 & F3).
    unfold wp at 1. destruct (reconcileAttachments _ _ _ _ _ _) as [r2 s2 w2 t2]; simpl in *.
    destruct r2; [wp_step|]; by rewrite F1, F2, F3. }
  unfold Update. wp_step. wp_step. cbv zeta. rewrite Hdup. rewrite Hid in Hboth |- *. wp_step. unfold getGroup. wp_step.
  pose proof (faithful_frame _ _ _ _ H eq_refl) as Hw1.
  destruct (faithful_group w r w' H) as (g & -> & Hg). simpl. rewrite Hg, Hpol, bool_decide_true by done.
  simpl. wp_step. destruct (_ || _).
  - wp_step. rewrite (faithful_patch _ _ _ _ _ H0). refine (Hboth w'0 _).
    rewrite <- Hw1. by eapply faithful_frame.
  - wp_step. exact (Hboth w' Hw1).
Qed.

(** One reconcile: the resource and the world after an [Update]. *)
Definition reconcile (x : firewall * World) : firewall * World :=
  let r := Update recorder x.1 x.2 in (final r, world r).

(** C5. Rules converge: against a service whose calls succeed and which pages as
    documented, where it takes every declared rule and the rules it holds and those that
    are missing fit in one page (100), repeated [Update]s, eight writes at a time, bring
    the rule set to the declared one: after [n] of them, if at most [8 n] rules differed,
    the group holds exactly the declared keys. *)
Theorem firewall_rules_converge (cr : firewall) (w : World) (n : nat) :
  ExternalName cr = gid -> (desiredRuleSet (ForProvider cr)).2 = false ->
  policy = effectivePolicy (ForProvider cr) -> NoDup (map fr_ID (rules_of w)) -> fits (ForProvider cr) (rules_of w) ->
  distance (desiredRuleSet (ForProvider cr)).1 (rules_of w) <= 8 * Z.of_nat n ->
  let l := rules_of (Nat.iter n reconcile (cr, w)).2 in
  forall k, k ∈ map payload_key l <-> is_Some ((desiredRuleSet (ForProvider cr)).1 !! k).
Proof.
  intros Hid Hdup Hpol HN HF Hn. simpl. set (d := (desiredRuleSet (ForProvider cr)).1) in *.
  assert (let x := Nat.iter n reconcile (cr, w) in
    ForProvider x.1 = ForProvider cr /\ ExternalName x.1 = gid /\ NoDup (map fr_ID (rules_of x.2)) /\
    fits (ForProvider cr) (rules_of x.2) /\
    distance d (rules_of x.2) = Z.max 0 (distance d (rules_of w) - 8 * Z.of_nat n)) as (F1 & F2 & F3 & _ & F4).
  { clear Hn. induction n as [|n IH]; simpl.
    - split_and!; try done. unfold distance. lia.
    - destruct (Nat.iter n reconcile (cr, w)) as [cr1 w1]; simpl in *. destruct IH as (I1 & I2 & I3 & IF & I4).
      pose proof (Update_progress cr1 w1 I2) as HU. rewrite I1 in HU.
      destruct (HU Hdup Hpol I3 IF) as (J1 & J2 & J3 & JF & J4). rewrite I2 in J2.
      split_and!; [done|done|done|done|]. etransitivity; [exact J4|]. fold d. rewrite I4. lia. }
  apply distance_zero; [apply desiredRuleSet_keys|]. fold d. rewrite F4. lia.
Qed.
End Convergence.

(** ** Rejections, observation, the convergence test *)

Section Observation.
Context `{R : CrossplaneRuntime} {U : Upstream firewall_request firewall_reply}.
Variable recorder : bool.

Notation firewall := (managed FirewallParameters FirewallObservation).

(** Invalid specs are refused before any write: a duplicate rule makes
    [Create] and [Update] fail with [errDuplicateRule] and no call at all; a
    changed policy makes [Update] fail with [ErrImmutableFieldChange] after
    reading the group and nothing else; each sets the matching Synced=False
    condition. *)
Theorem firewall_refuses_before_writing {L : CrossplaneLaws R} (cr : firewall) (w : World) :
  let p := ForProvider cr in
  ((desiredRuleSet p).2 = true ->
     Forall (fun r => outcome r = Err errDuplicateRule /\ trace r = [] /\
                      cond_Reason (GetCondition TypeSynced (Conditions (final r))) = ReasonInvalidConfiguration /\
                      cond_Status (GetCondition TypeSynced (Conditions (final r))) = CFalse)
            [Create recorder cr w; Update recorder cr w]) /\
  (forall a w' g,
     (desiredRuleSet p).2 = false -> serve (GetFirewallGroup (ExternalName cr)) w = (a, w') ->
     read_reply a = Ok g -> trim_space (effectivePolicy p) <> trim_space (fg_Policy g) ->
     let r := Update recorder cr w in
     outcome r = Err (Sentinel ErrImmutableFieldChange) /\
     calls r = [GetFirewallGroup (ExternalName cr)] /\
     cond_Reason (GetCondition TypeSynced (Conditions (final r))) = ReasonImmutableFieldChange /\
     cond_Status (GetCondition TypeSynced (Conditions (final r))) = CFalse).
Proof.
  assert (forall c s, cond_Type c = TypeSynced -> GetCondition TypeSynced (SetConditions c s) = c) as Hc.
  { intros c s E. rewrite <- E. apply get_set_eq. }
  split.
  - intros Hd. repeat constructor; unfold Create, Update, rejectDuplicate, warn, record_event, mbind, M_bind; simpl;
      rewrite Hd; simpl; try done; destruct recorder; simpl; by rewrite Hc.
  - intros a w' g Hd Hs Ha Hp.
    change (wp (Update recorder) (fun r s' _ t => r = Err (Sentinel ErrImmutableFieldChange) /\
      map request t = [GetFirewallGroup (ExternalName cr)] /\
      cond_Reason (GetCondition TypeSynced (Conditions s')) = ReasonImmutableFieldChange /\
      cond_Status (GetCondition TypeSynced (Conditions s')) = CFalse) cr w).
    unfold Update, getGroup, reject. wp_step. wp_step. cbv zeta. rewrite Hd. wp_step. wp_step.
    rewrite Hs in H. simplify_eq. rewrite Ha. simpl. rewrite bool_decide_false by done. simpl.
    repeat wp_step. simpl. by rewrite Hc.
Qed.

(** Observing is read-only and never forgets a live group: [Observe] writes
    nothing; it reports the group absent only when there is no external name or
    when reading the group got a canonical 404; and when it reports it present,
    the status mirrors the replies and [ResourceUpToDate] is the comparison of
    the spec with them. *)
Theorem firewall_observe_spec (cr : firewall) (w : World) :
  wp Observe (fun r cr' _ t =>
    Forall (fun x => fw_write (request x) = false) t /\
    match r with
    | Ok o =>
        if ResourceExists o then
          exists g rules res,
            cr' = set_conditions Available (populateFirewallStatus g rules res cr) /\
            ResourceUpToDate o = firewall_up_to_date (ForProvider cr) g rules res /\
            listed_rules t = rules /\ listed_resources t = res
        else cr' = cr /\
          (ExternalName cr = "" \/
           exists resp p, t = [Exchange (GetFirewallGroup (ExternalName cr)) (Reply resp p)] /\
                          StatusCode resp = 404 /\ canonical_envelope resp)
    | Err e => cr' = cr
    end) cr w.
Proof.
  unfold Observe. wp_step. wp_step. cbv zeta. case_bool_decide as Hid.
  { wp_step. split; [constructor|]. simpl. auto. }
  wp_step. unfold getGroup. wp_step. wp_step. destruct (read_reply r) as [g|e] eqn:Eg.
  - wp_step. unfold listRules. wp_step. destruct (read_reply r0) as [rules|e] eqn:Er.
    + wp_step. unfold listResources. wp_step. destruct (read_reply r1) as [res|e] eqn:Es.
      * repeat wp_step. split; [by repeat constructor|]. simpl. exists g, rules, res. split_and!; [done|done| |].
        -- exact (eq_trans (listed_rules_here (ExternalName cr) r0 rules
             [Exchange (ListFirewallResources (ExternalName cr)) r1] Er) (app_nil_r _)).
        -- exact (eq_trans (listed_resources_here (ExternalName cr) r1 res [] Es) (app_nil_r _)).
      * split; [by repeat constructor|done].
    + split; [by repeat constructor|done].
  - destruct (error_is e ErrNotFound) eqn:En; wp_step; (split; [by repeat constructor|]); [|done].
    simpl. split; [done|]. right.
    destruct (read_reply_not_found r e Eg En) as (resp & p & -> & H4 & Hc). eauto.
Qed.
End Observation.

(** The convergence test is right on lists without repeated keys: it answers
    true exactly when the observed keys are the declared ones. *)
Theorem rules_converged_iff (desired : gmap string FirewallRulePayload) (observed : list FirewallRulePayload) :
  NoDup (map payload_key observed) ->
  (rulesConverged desired observed = true <->
   forall k, k ∈ map payload_key observed <-> is_Some (desired !! k)).
Proof.
  intros HN. unfold rulesConverged. rewrite andb_true_iff, Nat.eqb_eq, forallb_forall.
  assert (size desired = size (dom desired)) as -> by (symmetry; apply size_dom).
  assert (length observed = size (list_to_set (map payload_key observed) : gset string)) as ->.
  { rewrite size_list_to_set by done. by rewrite length_map. }
  split.
  - intros [Hs Hf].
    assert ((list_to_set (map payload_key observed) : gset string) = dom desired) as Heq.
    { apply leibniz_equiv, set_subseteq_size_equiv; [|lia]. intros k Hk.
      apply elem_of_list_to_set, list_elem_of_fmap in Hk as (r & -> & Hr).
      apply list_elem_of_In, Hf, bool_decide_eq_true in Hr. by apply elem_of_dom. }
    intros k. rewrite <- elem_of_dom, <- Heq. symmetry. apply elem_of_list_to_set.
  - intros H. assert ((list_to_set (map payload_key observed) : gset string) = dom desired) as ->.
    { apply set_eq. intros k. by rewrite elem_of_list_to_set, H, elem_of_dom. }
    split; [done|]. intros r Hr. apply bool_decide_eq_true, H, list_elem_of_fmap.
    exists r. split; [done|]. by apply list_elem_of_In.
Qed.

(** The test accepts a group that lacks a declared rule when another rule is
    there twice: the lengths agree and every observed key is declared. *)
Definition dup_rule (id port : string) : FirewallRulePayload :=
  {| fr_ID := id; fr_Direction := "ingress"; fr_Protocol := "tcp"; fr_Port := Some port;
     fr_CIDR := "0.0.0.0/0"; fr_Description := None; fr_GroupID := "" |}.

(** The convergence test misses a declared rule behind a repeated one: the
    group holds port 80 twice and not 443, and [rulesConverged] answers true. *)
Theorem rules_converged_masks_missing :
  exists desired observed k,
    rulesConverged desired observed = true /\ is_Some (desired !! k) /\ k ∉ map payload_key observed.
Proof.
  exists (<[payload_key (dup_rule "" "80") := dup_rule "" "80"]>
          {[payload_key (dup_rule "" "443") := dup_rule "" "443"]}),
         [dup_rule "r1" "80"; dup_rule "r2" "80"], (payload_key (dup_rule "" "443")).
  split; [by vm_compute|]. split; [by vm_compute; eexists|].
  apply (bool_decide_unpack (_ ∉ _)). by vm_compute.
Qed.

(** ** Witnesses: a service that behaves as documented *)

(** One group [g1] with policy DROP; the world is its rules, a hundred at most, each with a
    CIDR. *)
Definition stored (y : FirewallRulePayload) (id : string) : FirewallRulePayload :=
  {| fr_ID := id; fr_Direction := fr_Direction y; fr_Protocol := fr_Protocol y; fr_Port := fr_Port y;
     fr_CIDR := fr_CIDR y; fr_Description := fr_Description y; fr_GroupID := "g1" |}.

Definition sim_group : FirewallGroup :=
  {| fg_ID := "g1"; fg_Name := "web"; fg_Description := ""; fg_Policy := "DROP";
     fg_CreatedAt := ""; fg_UpdatedAt := "" |}.

Definition sim_serve (q : firewall_request) (w : list FirewallRulePayload)
  : reply (firewall_reply q) * list FirewallRulePayload :=
  match q with
  | CreateFirewallGroup _ _ _ | GetFirewallGroup _ => (ok_reply sim_group, w)
  | ListFirewallGroups => (ok_reply [sim_group], w)
  | PatchFirewallGroup _ _ _ => (ok_reply tt, w)
  | DeleteFirewallGroup _ => (ok_reply tt, [])
  | ListFirewallRules _ => (ok_reply (take 100 w), w)
  | CreateFirewallRule _ y =>
      if bool_decide (fr_CIDR y = "") || (100 <=? length w)%nat then (NetErr "refused", w)
      else (ok_reply tt, w ++ [stored y (fresh (list_to_set (map fr_ID w) : gset string))])
  | DeleteFirewallRule _ i => (ok_reply tt, List.filter (fun y => negb (bool_decide (fr_ID y = i))) w)
  | ListFirewallResources _ => (ok_reply [], w)
  | LinkFirewallResource _ _ _ => (ok_reply tt, w)
  | UnlinkFirewallResource _ _ _ => (ok_reply tt, w)
  | GetServiceFirewallGroups _ _ => (ok_reply [], w)
  end.

Definition SimFirewall : Upstream firewall_request firewall_reply :=
  {| World := list FirewallRulePayload; serve := sim_serve |}.

Definition sim_world (l : list FirewallRulePayload) : @World _ _ SimFirewall := l.

#[local] Existing Instances MapRuntime SimFirewall.

#[local] Instance SimFirewall_faithful : FaithfulRules (U := SimFirewall) "g1" "DROP" 100 (fun y => fr_CIDR y <> "")
  (fun w : list FirewallRulePayload => w).
Proof.
  constructor.
  - intros q w r w' H Hq. destruct q; try done; simpl in H; congruence.
  - intros w r w' [= <- <-]. by exists sim_group.
  - by intros n d w r w' [= <- <-].
  - by intros w r w' [= <- <-].
  - intros y w r w' H Hy Hl. cbn [serve SimFirewall sim_serve] in H. rewrite bool_decide_eq_false_2 in H by done.
    rewrite (proj2 (Nat.leb_gt 100 (length w))) in H by exact Hl. cbn [orb] in H. injection H as <- <-. split; [done|]. eexists. split; [|split; [|reflexivity]]; [done|].
    simpl. intros H'. apply (elem_of_list_to_set (C := gset string)) in H'. by apply is_fresh in H'.
  - by intros i w r w' [= <- <-].
Qed.

Definition web_rule (port : string) : FirewallRule :=
  {| rule_Direction := "ingress"; rule_Protocol := "tcp"; rule_Port := Some port;
     rule_CIDR := "0.0.0.0/0"; rule_Description := None |}.

Definition web_firewall (rules : list FirewallRule) (policy : string)
  : managed FirewallParameters FirewallObservation :=
  {| ExternalName := "g1";
     ForProvider := {| fw_Name := "web"; fw_Description := None; fw_Policy := policy; fw_Rules := rules;
                       fw_AttachedServices := [] |};
     AtProvider := {| fo_ID := None; fo_Policy := None; fo_RuleCount := None; fo_AttachedCount := None;
                      fo_Rules := []; fo_AttachedServices := []; fo_CreatedAt := None; fo_UpdatedAt := None |};
     Conditions := no_conds; Events := [] |}.

Lemma firewall_rules_converge_witness :
  let l := (Nat.iter 1 (reconcile true)
              (web_firewall [web_rule "80"; web_rule "443"] "", [dup_rule "r1" "22"])).2 in
  payload_key (dup_rule "" "443") ∈ map payload_key l /\ payload_key (dup_rule "" "22") ∉ map payload_key l.
Proof.
  pose proof (firewall_rules_converge (U := SimFirewall) true "g1" "DROP" 100 (fun y => fr_CIDR y <> "") (fun w : list FirewallRulePayload => w)
    (web_firewall [web_rule "80"; web_rule "443"] "") [dup_rule "r1" "22"] 1 eq_refl eq_refl eq_refl (NoDup_singleton _)) as H.
  cbv zeta in H. unshelve epose proof (H _ _) as H'; [|vm_compute; discriminate|].
  { split; [|vm_compute; lia]. intros v Hv. vm_compute in Hv. apply list_elem_of_In in Hv as [<-|[<-|[]]]; discriminate. }
  split.
  - apply H'. vm_compute. by eexists.
  - intros Hk. apply H' in Hk. vm_compute in Hk. by destruct Hk.
Defined.

Lemma firewall_refuses_before_writing_witness :
  trace (Update true (web_firewall [web_rule "80"; web_rule "80"] "") (sim_world [])) = [] /\
  calls (Update true (web_firewall [] "ACCEPT") (sim_world [])) = [GetFirewallGroup "g1"].
Proof.
  split.
  - pose proof (proj1 (@firewall_refuses_before_writing MapRuntime SimFirewall true MapRuntime_laws
      (web_firewall [web_rule "80"; web_rule "80"] "") (sim_world [])) eq_refl) as H.
    apply Forall_cons in H as [_ H]. apply Forall_cons in H as [(_ & H & _) _]. exact H.
  - apply (proj2 (@firewall_refuses_before_writing MapRuntime SimFirewall true MapRuntime_laws (web_firewall [] "ACCEPT") (sim_world []))
      (ok_reply sim_group) (sim_world []) sim_group); try reflexivity. vm_compute. discriminate.
Defined.

Lemma rules_converged_iff_witness :
  rulesConverged {[payload_key (dup_rule "" "80") := dup_rule "" "80"]} [dup_rule "r1" "80"] = true <->
  forall k, k ∈ map payload_key [dup_rule "r1" "80"] <->
            is_Some (({[payload_key (dup_rule "" "80") := dup_rule "" "80"]} : gmap string FirewallRulePayload) !! k).
Proof. apply rules_converged_iff. simpl. apply NoDup_singleton. Defined.
