(* ===== verification/RouterRefs.v ===== *)
(** * RouterRefs: references resolved at Connect time

    [internal/controller/network/refs.go] and the part of [connector.go] that
    uses it: the network attachments, project and static routes a Router
    declares, with each reference replaced by the upstream value the referenced
    object carries. The Kubernetes API is a parameter: a snapshot the reads of
    one [Connect] see. *)

From S2P Require Import Prelude Errors Shared.

(** ** What the Kubernetes reads give *)

Inductive kube_get (A : Type) : Type :=
| KFound (a : A)
| KNotFound
| KError (msg : string).
Arguments KFound {_} _.
Arguments KNotFound {_}.
Arguments KError {_} _.

(** The fields read of each kind; [Ready] is the status of the Ready condition. *)
Record NetworkView := { nv_UpstreamID : option string; nv_Ready : ConditionStatus }.
Record FloatingIPView := { fv_IP : option string; fv_Ready : ConditionStatus }.
Record ProjectView := { pv_ID : option Z }.
Record RouterView := { rv_Ready : ConditionStatus; rv_Networks : list (string * option string) }.

(** Listing by label selector: an invalid selector, a failed list, or items. *)
Inductive kube_list : Type :=
| SelectorInvalid (msg : string)
| ListFailed (msg : string)
| Listed (items : list NetworkView).

Record Kube (Selector : Type) := {
  get_network : string -> string -> kube_get NetworkView;
  get_floating_ip : string -> string -> kube_get FloatingIPView;
  get_router : string -> string -> kube_get RouterView;
  get_project : string -> string -> kube_get ProjectView;
  list_networks : string -> Selector -> kube_list }.
Arguments get_network {_} _.
Arguments get_floating_ip {_} _.
Arguments get_router {_} _.
Arguments get_project {_} _.
Arguments list_networks {_} _.

(** ** The declared side *)

Record FloatingIPSelector := { fs_Ref : option string; fs_IP : option string }.

Record RouterNetworkAttachment (Selector : Type) := {
  NetworkRef : option string;
  NetworkID : option string;
  NetworkSelector : option Selector;
  NATFloatingIP : option FloatingIPSelector;
  DHCP : bool;
  Gateway : option string;
  ReservedIPs : list string }.
Arguments NetworkRef {_} _.
Arguments NetworkID {_} _.
Arguments NetworkSelector {_} _.
Arguments NATFloatingIP {_} _.
Arguments DHCP {_} _.
Arguments Gateway {_} _.
Arguments ReservedIPs {_} _.

Record RouterStaticRouteVia := { via_RouterRef : string; via_NetworkRef : string }.

Record RouterStaticRoute := {
  sr_Subnet : string;
  sr_Nexthop : option string;
  sr_Via : option RouterStaticRouteVia }.

(** ** The resolved side *)

Record resolvedAttachment := {
  ra_NetworkID : string;
  ra_NATIP : string;
  ra_DHCP : bool;
  ra_Gateway : option string;
  ra_ReservedIPs : list string }.

Record resolvedRoute := { rr_Subnet : string; rr_Nexthop : string }.

Definition kind_not_found (kind name ns : string) : error :=
  wrap_post (Sentinel ErrTargetNotFound) (": " +:+ kind +:+ " " +:+ quote name +:+ " in namespace " +:+ quote ns).

Definition get_failed (kind name ns msg : string) : error :=
  wrap_pre ("get " +:+ kind +:+ " " +:+ ns +:+ "/" +:+ name +:+ ": ") (ErrorString msg).

Definition not_ready (kind name why : string) : error :=
  wrap_post (Sentinel ErrTargetNotReady) (": " +:+ kind +:+ " " +:+ quote name +:+ why).

Section Refs.
Context {Selector : Type} (kube : Kube Selector) (ns : string).

Definition resolveRouterNetworkRef (name : string) : result error string :=
  match get_network kube ns name with
  | KNotFound => Err (kind_not_found "Network" name ns)
  | KError msg => Err (get_failed "Network" name ns msg)
  | KFound target =>
      if bool_decide (default_str (nv_UpstreamID target) = "")
      then Err (not_ready "Network" name " (status.atProvider.upstreamID is empty)")
      else if negb (bool_decide (nv_Ready target = CTrue))
      then Err (not_ready "Network" name " (not Ready=True)")
      else Ok (default_str (nv_UpstreamID target))
  end.

Definition network_usable (n : NetworkView) : bool :=
  negb (bool_decide (default_str (nv_UpstreamID n) = "")) && bool_decide (nv_Ready n = CTrue).

Definition resolveRouterNetworkSelector (ls : Selector) : result error (list string) :=
  match list_networks kube ns ls with
  | SelectorInvalid msg => Err (wrap_pre "network/router: invalid networkSelector: " (ErrorString msg))
  | ListFailed msg =>
      Err (wrap_pre ("network/router: list Networks by selector in namespace " +:+ quote ns +:+ ": ")
             (ErrorString msg))
  | Listed items =>
      Ok (sort_strings (map (fun n => default_str (nv_UpstreamID n)) (List.filter network_usable items)))
  end.

Definition resolveFloatingIPRef (name : string) : result error string :=
  match get_floating_ip kube ns name with
  | KNotFound => Err (kind_not_found "FloatingIP" name ns)
  | KError msg => Err (get_failed "FloatingIP" name ns msg)
  | KFound target =>
      if bool_decide (default_str (fv_IP target) = "")
      then Err (not_ready "FloatingIP" name " (status.atProvider.ip is empty)")
      else if negb (bool_decide (fv_Ready target = CTrue))
      then Err (not_ready "FloatingIP" name " (not Ready=True)")
      else Ok (default_str (fv_IP target))
  end.

Definition resolveProjectRef (name : string) : result error Z :=
  match get_project kube ns name with
  | KNotFound => Err (kind_not_found "Project" name ns)
  | KError msg => Err (get_failed "Project" name ns msg)
  | KFound target =>
      match pv_ID target with
      | None => Err (not_ready "Project" name "")
      | Some id => Ok id
      end
  end.

Definition resolveStaticRouteVia (via : RouterStaticRouteVia) : result error string :=
  netID ← resolveRouterNetworkRef (via_NetworkRef via);
  match get_router kube ns (via_RouterRef via) with
  | KNotFound => Err (kind_not_found "Router" (via_RouterRef via) ns)
  | KError msg => Err (get_failed "Router" (via_RouterRef via) ns msg)
  | KFound neighbor =>
      if negb (bool_decide (rv_Ready neighbor = CTrue))
      then Err (not_ready "Router" (via_RouterRef via) " (not Ready=True)")
      else
        match List.find (fun n => bool_decide (n.1 = netID) && negb (bool_decide (default_str n.2 = "")))
                        (rv_Networks neighbor) with
        | Some n => Ok (default_str n.2)
        | None => Err (not_ready "Router" (via_RouterRef via)
                    (" has no observed gateway in network " +:+ netID +:+
                     " (not attached yet, or gateway not observed)"))
        end
  end.

(** The resolved route of the [i]-th declared one. *)
Definition resolve_route (i : Z) (r : RouterStaticRoute) : result error resolvedRoute :=
  if negb (bool_decide (default_str (sr_Nexthop r) = ""))
  then Ok {| rr_Subnet := sr_Subnet r; rr_Nexthop := default_str (sr_Nexthop r) |}
  else match sr_Via r with
       | Some via =>
           nh ← resolveStaticRouteVia via;
           Ok {| rr_Subnet := sr_Subnet r; rr_Nexthop := nh |}
       | None => Err (ErrorString ("network/router: staticRoutes[" +:+ fmt_d i +:+
                                   "]: one of nexthop or via must be set"))
       end.

Fixpoint routes_loop (i : Z) (declared : list RouterStaticRoute) : result error (list resolvedRoute) :=
  match declared with
  | [] => Ok []
  | r :: declared' =>
      x ← resolve_route i r;
      out ← routes_loop (i + 1) declared';
      Ok (x :: out)
  end.

Definition resolveRouterStaticRoutes (declared : list RouterStaticRoute) : result error (list resolvedRoute) :=
  routes_loop 0 declared.

(** The NAT address of an explicit entry; "" when NAT is off. *)
Definition resolve_nat (i : Z) (nat : option FloatingIPSelector) : result error string :=
  match nat with
  | None => Ok ""
  | Some s =>
      if negb (bool_decide (default_str (fs_IP s) = "")) then Ok (default_str (fs_IP s))
      else match fs_Ref s with
           | Some ref => resolveFloatingIPRef ref
           | None => Err (ErrorString ("network/router: networks[" +:+ fmt_d i +:+
                                       "].natFloatingIP: one of ref or ip must be set"))
           end
  end.

Definition resolve_network_id (i : Z) (a : RouterNetworkAttachment Selector) : result error string :=
  if negb (bool_decide (default_str (NetworkID a) = "")) then Ok (default_str (NetworkID a))
  else match NetworkRef a with
       | Some ref => resolveRouterNetworkRef ref
       | None => Err (ErrorString ("network/router: networks[" +:+ fmt_d i +:+
                      "]: one of networkRef, networkID, or networkSelector must be set"))
       end.

Definition attachment_of (id natip : string) (a : RouterNetworkAttachment Selector) : resolvedAttachment :=
  {| ra_NetworkID := id; ra_NATIP := natip; ra_DHCP := DHCP a; ra_Gateway := Gateway a;
     ra_ReservedIPs := ReservedIPs a |}.

Notation table := (gmap string resolvedAttachment * list string)%type.

(** [byID[id] = ra], recording a new id at the end of [order]. *)
Definition put (t : table) (ra : resolvedAttachment) : table :=
  (<[ra_NetworkID ra := ra]> t.1,
   match t.1 !! ra_NetworkID ra with Some _ => t.2 | None => t.2 ++ [ra_NetworkID ra] end).

(** Pass 1: the explicit entries, [i] the index of the first. *)
Fixpoint explicit_pass (i : Z) (entries : list (RouterNetworkAttachment Selector)) (t : table) : result error table :=
  match entries with
  | [] => Ok t
  | a :: entries' =>
      match NetworkSelector a with
      | Some _ => explicit_pass (i + 1) entries' t
      | None =>
          id ← resolve_network_id i a;
          natip ← resolve_nat i (NATFloatingIP a);
          explicit_pass (i + 1) entries' (put t (attachment_of id natip a))
      end
  end.

(** Pass 2: the ids of a selector entry not yet claimed. *)
Fixpoint claim (a : RouterNetworkAttachment Selector) (ids : list string) (t : table) : table :=
  match ids with
  | [] => t
  | id :: ids' =>
      match t.1 !! id with
      | Some _ => claim a ids' t
      | None => claim a ids' (<[id := attachment_of id "" a]> t.1, t.2 ++ [id])
      end
  end.

Fixpoint selector_pass (entries : list (RouterNetworkAttachment Selector)) (t : table) : result error table :=
  match entries with
  | [] => Ok t
  | a :: entries' =>
      match NetworkSelector a with
      | None => selector_pass entries' t
      | Some ls =>
          ids ← resolveRouterNetworkSelector ls;
          selector_pass entries' (claim a ids t)
      end
  end.

(** [byID[id]] of a missing key is the zero value. *)
Definition zero_attachment : resolvedAttachment :=
  {| ra_NetworkID := ""; ra_NATIP := ""; ra_DHCP := false; ra_Gateway := None; ra_ReservedIPs := [] |}.

Definition emit (t : table) : list resolvedAttachment := map (fun id => default zero_attachment (t.1 !! id)) t.2.

Definition resolve_project (projectID : option Z) (projectRef : option string) : result error (option Z) :=
  match projectID with
  | Some p => Ok (Some p)
  | None => match projectRef with
            | Some ref => p ← resolveProjectRef ref; Ok (Some p)
            | None => Ok None
            end
  end.

Definition resolveRouterRefs (networks : list (RouterNetworkAttachment Selector))
    (projectID : option Z) (projectRef : option string) : result error (list resolvedAttachment * option Z) :=
  t1 ← explicit_pass 0 networks (∅, []);
  t2 ← selector_pass networks t1;
  p ← resolve_project projectID projectRef;
  Ok (emit t2, p).

(** The Router arm of [Connect]: nothing is resolved while deleting. *)
Definition connect_router (deleting : bool) (networks : list (RouterNetworkAttachment Selector))
    (projectID : option Z) (projectRef : option string) (declared : list RouterStaticRoute)
  : result error (list resolvedAttachment * option Z * list resolvedRoute) :=
  if deleting then Ok ([], None, [])
  else match resolveRouterRefs networks projectID projectRef with
       | Err e => Err (wrap_pre "network/router: resolve references: " e)
       | Ok (nets, pid) =>
           match resolveRouterStaticRoutes declared with
           | Err e => Err (wrap_pre "network/router: resolve references: " e)
           | Ok routes => Ok (nets, pid, routes)
           end
       end.

(** ** The tables *)

(** Entries agree with their keys and [order] lists the keys once each. *)
Definition table_ok (t : table) : Prop :=
  (forall k ra, t.1 !! k = Some ra -> ra_NetworkID ra = k) /\
  NoDup t.2 /\ (forall k, k ∈ t.2 <-> is_Some (t.1 !! k)).

Lemma table_ok_empty : table_ok (∅, []).
Proof.
  split_and!; simpl; [intros k ra H; by rewrite lookup_empty in H|constructor|].
  intros k. rewrite lookup_empty. split; [intros H; by apply elem_of_nil in H|by intros [? ?]].
Qed.

Lemma table_ok_insert t k ra :
  table_ok t -> ra_NetworkID ra = k ->
  table_ok (<[k := ra]> t.1, match t.1 !! k with Some _ => t.2 | None => t.2 ++ [k] end).
Proof.
  intros (H1 & H2 & H3) Hk. split_and!; simpl.
  - intros k' ra'. rewrite lookup_insert_Some. intros [[<- <-]|[_ H]]; [done|by apply H1].
  - destruct (t.1 !! k) eqn:E; [done|]. apply NoDup_app. split_and!; [done| |apply NoDup_singleton].
    intros x Hx ->%list_elem_of_singleton. apply H3 in Hx. rewrite E in Hx. by destruct Hx.
  - intros k'. destruct (decide (k' = k)) as [->|Hne].
    + rewrite lookup_insert_eq. split; [by eexists|]. intros _. destruct (t.1 !! k) eqn:E.
      * apply H3. by eexists.
      * apply elem_of_app. right. left.
    + rewrite lookup_insert_ne by done. rewrite <- H3. destruct (t.1 !! k); [done|].
      rewrite elem_of_app, list_elem_of_singleton. tauto.
Qed.

(** Bind inversion for results. *)
Lemma bind_ok_inv {A B} (r : result error A) (f : A -> result error B) b :
  r ≫= f = Ok b -> exists a, r = Ok a /\ f a = Ok b.
Proof. destruct r as [a|e]; [by exists a|done]. Qed.

(** An explicit entry resolved to a given attachment. *)
Definition explicit_source (i : Z) (a : RouterNetworkAttachment Selector) (ra : resolvedAttachment) : Prop :=
  NetworkSelector a = None /\ resolve_network_id i a = Ok (ra_NetworkID ra) /\
  resolve_nat i (NATFloatingIP a) = Ok (ra_NATIP ra) /\
  ra = attachment_of (ra_NetworkID ra) (ra_NATIP ra) a.

Lemma put_lookup t ra k ra' :
  (put t ra).1 !! k = Some ra' -> (k = ra_NetworkID ra /\ ra' = ra) \/ t.1 !! k = Some ra'.
Proof. simpl. rewrite lookup_insert_Some. intros [[<- <-]|[_ ?]]; auto. Qed.

Lemma put_keeps t ra k : is_Some (t.1 !! k) -> is_Some ((put t ra).1 !! k).
Proof. intros H. simpl. apply lookup_insert_is_Some'. by right. Qed.

Lemma explicit_pass_spec i entries t t' :
  table_ok t -> explicit_pass i entries t = Ok t' ->
  table_ok t' /\
  (forall k, is_Some (t.1 !! k) -> is_Some (t'.1 !! k)) /\
  (forall j a, entries !! j = Some a -> NetworkSelector a = None ->
     exists ra, explicit_source (i + Z.of_nat j) a ra /\ is_Some (t'.1 !! ra_NetworkID ra)) /\
  (forall k ra, t'.1 !! k = Some ra ->
     t.1 !! k = Some ra \/ exists j a, entries !! j = Some a /\ explicit_source (i + Z.of_nat j) a ra).
Proof.
  revert i t. induction entries as [|a entries IH]; intros i t Ht H; cbn [explicit_pass] in H.
  { injection H as <-. split_and!; auto. intros j a Hj. by rewrite lookup_nil in Hj. }
  match goal with |- ?G => assert (forall t0, table_ok t0 -> explicit_pass (i + 1) entries t0 = Ok t' ->
    (forall k, is_Some (t.1 !! k) -> is_Some (t0.1 !! k)) ->
    (NetworkSelector a = None -> exists ra, explicit_source i a ra /\ is_Some (t0.1 !! ra_NetworkID ra)) ->
    (forall k ra, t0.1 !! k = Some ra -> t.1 !! k = Some ra \/ explicit_source i a ra) -> G) as Hstep end;
    [|destruct (NetworkSelector a) as [ls|] eqn:Es].
  - intros t0 Ht0 H0 Hk0 Hs0 Hv0. destruct (IH (i + 1) t0 Ht0 H0) as (K1 & K2 & K3 & K4).
    split_and!; [exact K1|auto| |].
    + intros [|j] a' Hj Ha; simpl in Hj.
      * simplify_eq. destruct (Hs0 Ha) as (ra & Hra & Hin). exists ra. rewrite Z.add_0_r. auto.
      * destruct (K3 j a' Hj Ha) as (ra & Hra & Hin). exists ra.
        by replace (i + Z.of_nat (S j)) with (i + 1 + Z.of_nat j) by lia.
    + intros k ra Hk. destruct (K4 k ra Hk) as [Hk'|(j & a' & Hj & Ha')].
      * destruct (Hv0 k ra Hk') as [?|?]; [by left|]. right. exists O, a. by rewrite Z.add_0_r.
      * right. exists (S j), a'. by replace (i + Z.of_nat (S j)) with (i + 1 + Z.of_nat j) by lia.
  - apply (Hstep t); auto; done.
  - apply bind_ok_inv in H as (id & Hid & H). apply bind_ok_inv in H as (natip & Hnat & H).
    set (ra := attachment_of id natip a) in *.
    assert (explicit_source i a ra) as Hsrc by done.
    apply (Hstep (put t ra)); auto.
    + by apply table_ok_insert.
    + intros k. apply put_keeps.
    + intros _. exists ra. split; [done|]. simpl. rewrite lookup_insert_eq. by eexists.
    + intros k ra' Hk. apply put_lookup in Hk as [[-> ->]|Hk]; auto.
Qed.

(** A selector entry that claims an id. *)
Definition selector_source (a : RouterNetworkAttachment Selector) (ra : resolvedAttachment) : Prop :=
  exists ls ids, NetworkSelector a = Some ls /\ resolveRouterNetworkSelector ls = Ok ids /\
                 ra_NetworkID ra ∈ ids /\ ra = attachment_of (ra_NetworkID ra) "" a.

Lemma claim_spec a ids t :
  table_ok t ->
  table_ok (claim a ids t) /\
  (forall k ra, t.1 !! k = Some ra -> (claim a ids t).1 !! k = Some ra) /\
  (forall id, id ∈ ids -> is_Some ((claim a ids t).1 !! id)) /\
  (forall k ra, (claim a ids t).1 !! k = Some ra ->
     t.1 !! k = Some ra \/ (t.1 !! k = None /\ k ∈ ids /\ ra = attachment_of k "" a)).
Proof.
  revert t. induction ids as [|id ids IH]; intros t Ht; simpl.
  { split_and!; auto. intros id H. by apply elem_of_nil in H. }
  destruct (t.1 !! id) as [ra0|] eqn:E.
  - destruct (IH t Ht) as (K1 & K2 & K3 & K4). split_and!; auto.
    + intros k [->|Hk]%elem_of_cons; [|auto]. exists ra0. auto.
    + intros k ra Hk. destruct (K4 k ra Hk) as [?|(? & ? & ?)]; [by left|]. right. split_and!; [done|by right|done].
  - pose proof (table_ok_insert t id (attachment_of id "" a) Ht eq_refl) as Ht'. rewrite E in Ht'.
    destruct (IH _ Ht') as (K1 & K2 & K3 & K4). split_and!; auto.
    + intros k ra Hk. apply K2. simpl. rewrite lookup_insert_ne; [done|congruence].
    + intros k [->|Hk]%elem_of_cons; [|auto]. eexists. apply K2. simpl. apply lookup_insert_eq.
    + intros k ra Hk. destruct (K4 k ra Hk) as [Hk'|(Hn & Hin & ->)]; simpl in *.
      * apply lookup_insert_Some in Hk' as [[<- <-]|[_ ?]]; [|by left]. right. split_and!; [done|left|done].
      * apply lookup_insert_None in Hn as [? ?]. right. split_and!; [done|by right|done].
Qed.

Lemma selector_pass_spec entries t t' :
  table_ok t -> selector_pass entries t = Ok t' ->
  table_ok t' /\
  (forall k ra, t.1 !! k = Some ra -> t'.1 !! k = Some ra) /\
  (forall a ls, a ∈ entries -> NetworkSelector a = Some ls ->
     exists ids, resolveRouterNetworkSelector ls = Ok ids /\ forall id, id ∈ ids -> is_Some (t'.1 !! id)) /\
  (forall k ra, t'.1 !! k = Some ra ->
     t.1 !! k = Some ra \/ (t.1 !! k = None /\ exists a, a ∈ entries /\ selector_source a ra)).
Proof.
  revert t. induction entries as [|a entries IH]; intros t Ht H; cbn [selector_pass] in H.
  { injection H as <-. split_and!; auto. intros a ls Ha. by apply elem_of_nil in Ha. }
  destruct (NetworkSelector a) as [ls|] eqn:Es.
  - apply bind_ok_inv in H as (ids & Hids & H).
    destruct (claim_spec a ids t Ht) as (C1 & C2 & C3 & C4).
    destruct (IH _ C1 H) as (K1 & K2 & K3 & K4). split_and!; auto.
    + intros a' ls' [->|Ha]%elem_of_cons Hl; [|eauto]. simplify_eq. exists ids. split; [done|].
      intros id Hid. destruct (C3 id Hid) as [ra Hra]. exists ra. auto.
    + intros k ra Hk. destruct (K4 k ra Hk) as [Hk'|(Hn & a' & Ha' & Hsrc)].
      * destruct (C4 k ra Hk') as [?|(? & ? & ->)]; [by left|]. right. split; [done|].
        exists a. split; [left|]. exists ls, ids. done.
      * right. split; [|exists a'; split; [by right|done]].
        destruct (t.1 !! k) eqn:E; [|done]. by rewrite (C2 _ _ E) in Hn.
  - destruct (IH t Ht H) as (K1 & K2 & K3 & K4). split_and!; auto.
    + intros a' ls' [->|Ha]%elem_of_cons Hl; [congruence|eauto].
    + intros k ra Hk. destruct (K4 k ra Hk) as [?|(? & a' & ? & ?)]; [by left|].
      right. split; [done|]. exists a'. split; [by right|done].
Qed.

Lemma emit_spec t ra : table_ok t -> ra ∈ emit t <-> t.1 !! ra_NetworkID ra = Some ra.
Proof.
  intros (H1 & H2 & H3). unfold emit. rewrite list_elem_of_fmap. split.
  - intros (k & -> & Hk). apply H3 in Hk as [r Hr]. rewrite Hr. simpl. by rewrite (H1 k r Hr).
  - intros H. exists (ra_NetworkID ra). rewrite H. split; [done|]. apply H3. by exists ra.
Qed.

Lemma emit_ids t : table_ok t -> map ra_NetworkID (emit t) = t.2.
Proof.
  intros (H1 & H2 & H3). unfold emit. rewrite map_map. clear H2. destruct t as [m l]; simpl in *.
  assert (forall k, k ∈ l -> is_Some (m !! k)) as H by (intros k; apply H3). clear H3.
  induction l as [|k l IH]; simpl; [done|]. rewrite IH by (intros; apply H; by right). f_equal.
  destruct (H k ltac:(left)) as [r Hr]. rewrite Hr. simpl. by apply H1.
Qed.

(** C37. Reference resolution: the resolved network ids are distinct; every
    explicit entry's id and every id a selector matched are among them; an
    attachment whose id an explicit entry names carries an explicit entry's
    settings, and any other carries a selector entry's settings, NAT off. *)
Theorem refs_explicit_wins (networks : list (RouterNetworkAttachment Selector))
    (projectID : option Z) (projectRef : option string) (nets : list resolvedAttachment) (p : option Z) :
  resolveRouterRefs networks projectID projectRef = Ok (nets, p) ->
  NoDup (map ra_NetworkID nets) /\
  (forall j a, networks !! j = Some a -> NetworkSelector a = None ->
     exists ra, explicit_source (Z.of_nat j) a ra /\ ra_NetworkID ra ∈ map ra_NetworkID nets) /\
  (forall a ls, a ∈ networks -> NetworkSelector a = Some ls ->
     exists ids, resolveRouterNetworkSelector ls = Ok ids /\
                 forall id, id ∈ ids -> id ∈ map ra_NetworkID nets) /\
  (forall ra, ra ∈ nets ->
     (exists j a, networks !! j = Some a /\ explicit_source (Z.of_nat j) a ra) \/
     (ra_NATIP ra = "" /\ (exists a, a ∈ networks /\ selector_source a ra) /\
      forall j a ra', networks !! j = Some a -> explicit_source (Z.of_nat j) a ra' ->
                      ra_NetworkID ra' <> ra_NetworkID ra)).
Proof.
  unfold resolveRouterRefs. intros H. apply bind_ok_inv in H as (t1 & H1 & H).
  apply bind_ok_inv in H as (t2 & H2 & H). apply bind_ok_inv in H as (p' & _ & [= <- <-]).
  destruct (explicit_pass_spec _ _ _ _ table_ok_empty H1) as (T1 & _ & E1 & V1).
  destruct (selector_pass_spec _ _ _ T1 H2) as (T2 & K2 & S2 & V2).
  rewrite (emit_ids t2 T2). pose proof T2 as (_ & HN & Hdom). split_and!; [done| | |].
  - intros j a Hj Ha. destruct (E1 j a Hj Ha) as (ra & Hra & [r Hr]). exists ra. split; [done|].
    apply Hdom. exists r. auto.
  - intros a ls Ha Hl. destruct (S2 a ls Ha Hl) as (ids & Hids & Hin). exists ids. split; [done|].
    intros id Hid. by apply Hdom, Hin.
  - intros ra Hra. apply (emit_spec t2 ra T2) in Hra. destruct (V2 _ _ Hra) as [Hk|(Hn & Hsrc)].
    + left. destruct (V1 _ _ Hk) as [Hk'|?]; [cbn [fst] in Hk'; by rewrite lookup_empty in Hk'|done].
    + right. split_and!; [|done|].
      * destruct Hsrc as (a & _ & ls & ids & _ & _ & _ & ->). done.
      * intros j a ra' Hj Hs Heq. destruct (E1 j a Hj (proj1 Hs)) as (ra2 & Hra2 & [r Hr]).
        destruct Hra2 as (_ & Hid2 & _). destruct Hs as (_ & Hid & _). rewrite Z.add_0_l, Hid in Hid2. simplify_eq.
        congruence.
Qed.

(** Only usable targets resolve: a Network reference gives an id exactly when
    the Network exists with that non-empty upstream id and is Ready; a selector
    gives exactly the ids of the listed Networks that pass the same test; a
    FloatingIP reference gives an address exactly when it exists with that
    non-empty address and is Ready. *)
Theorem refs_ready_gate (name id : string) (ls : Selector) :
  (resolveRouterNetworkRef name = Ok id <->
     exists n, get_network kube ns name = KFound n /\ nv_UpstreamID n = Some id /\ id <> "" /\
               nv_Ready n = CTrue) /\
  (forall ids, resolveRouterNetworkSelector ls = Ok ids ->
     exists items, list_networks kube ns ls = Listed items /\
       forall x, x ∈ ids <-> exists n, n ∈ items /\ nv_UpstreamID n = Some x /\ x <> "" /\ nv_Ready n = CTrue) /\
  (resolveFloatingIPRef name = Ok id <->
     exists f, get_floating_ip kube ns name = KFound f /\ fv_IP f = Some id /\ id <> "" /\
               fv_Ready f = CTrue).
Proof.
  split_and!.
  - unfold resolveRouterNetworkRef. destruct (get_network kube ns name) as [n| |msg]; try (split; [done|naive_solver]).
    destruct (nv_UpstreamID n) as [u|] eqn:Eu; simpl; repeat case_bool_decide; simpl; split; try naive_solver.
  - unfold resolveRouterNetworkSelector. intros ids H. destruct (list_networks kube ns ls) as [| |items]; try done.
    injection H as <-. exists items. split; [done|]. intros x. unfold sort_strings. rewrite elem_of_sort_by.
    rewrite list_elem_of_fmap. split.
    + intros (n & -> & Hn). apply list_elem_of_In, List.filter_In in Hn as [Hn Hu]. unfold network_usable in Hu.
      split_and_or. apply bool_decide_eq_true in H0. apply bool_decide_eq_false in H. exists n.
      apply list_elem_of_In in Hn. destruct (nv_UpstreamID n); done.
    + intros (n & Hn & Hu & Hx & Hr). exists n. rewrite Hu. split; [done|].
      apply list_elem_of_In, List.filter_In. split; [by apply list_elem_of_In|]. unfold network_usable.
      rewrite Hu. simpl. by rewrite bool_decide_false, bool_decide_true.
  - unfold resolveFloatingIPRef. destruct (get_floating_ip kube ns name) as [n| |msg]; try (split; [done|naive_solver]).
    destruct (fv_IP n) as [u|] eqn:Eu; simpl; repeat case_bool_decide; simpl; split; try naive_solver.
Qed.
End Refs.

(** ** Witnesses *)

Definition sample_kube : Kube string := {|
  get_network := fun _ n => if bool_decide (n = "lan")
                            then KFound {| nv_UpstreamID := Some "network-1"; nv_Ready := CTrue |} else KNotFound;
  get_floating_ip := fun _ _ => KFound {| fv_IP := Some "203.0.113.7"; fv_Ready := CTrue |};
  get_router := fun _ _ => KNotFound;
  get_project := fun _ _ => KNotFound;
  list_networks := fun _ _ => Listed [{| nv_UpstreamID := Some "network-2"; nv_Ready := CTrue |};
                                      {| nv_UpstreamID := Some "network-1"; nv_Ready := CTrue |};
                                      {| nv_UpstreamID := Some "network-3"; nv_Ready := CFalse |}] |}.

Definition sample_networks : list (RouterNetworkAttachment string) :=
  [{| NetworkRef := None; NetworkID := None; NetworkSelector := Some "env=dev"; NATFloatingIP := None;
      DHCP := false; Gateway := None; ReservedIPs := [] |};
   {| NetworkRef := Some "lan"; NetworkID := None; NetworkSelector := None;
      NATFloatingIP := Some {| fs_Ref := Some "fip"; fs_IP := None |};
      DHCP := true; Gateway := None; ReservedIPs := [] |}].

Definition sample_resolved : list resolvedAttachment :=
  [{| ra_NetworkID := "network-1"; ra_NATIP := "203.0.113.7"; ra_DHCP := true; ra_Gateway := None;
      ra_ReservedIPs := [] |};
   {| ra_NetworkID := "network-2"; ra_NATIP := ""; ra_DHCP := false; ra_Gateway := None; ra_ReservedIPs := [] |}].

Lemma refs_explicit_wins_witness :
  resolveRouterRefs sample_kube "default" sample_networks None None = Ok (sample_resolved, None) /\
  NoDup (map ra_NetworkID sample_resolved).
Proof.
  assert (resolveRouterRefs sample_kube "default" sample_networks None None = Ok (sample_resolved, None)) as H
    by (vm_compute; reflexivity).
  split; [exact H|]. exact (proj1 (refs_explicit_wins sample_kube "default" sample_networks None None _ _ H)).
Defined.

Lemma refs_ready_gate_witness :
  resolveRouterNetworkSelector sample_kube "default" "env=dev" = Ok ["network-1"; "network-2"] /\
  exists items, list_networks sample_kube "default" "env=dev" = Listed items /\
    exists n, n ∈ items /\ nv_UpstreamID n = Some "network-2" /\ "network-2" <> "" /\ nv_Ready n = CTrue.
Proof.
  assert (resolveRouterNetworkSelector sample_kube "default" "env=dev" = Ok ["network-1"; "network-2"]) as H
    by (vm_compute; reflexivity).
  split; [exact H|].
  destruct (proj1 (proj2 (refs_ready_gate sample_kube "default" "" "" "env=dev")) _ H) as (items & Hi & Hx).
  exists items. split; [exact Hi|]. apply Hx. right. left.
Defined.
