(* ===== verification/Router.v ===== *)
(** * Router: the router controller

    [internal/controller/network/router_external.go]: [Observe], [Create],
    [Update] and [Delete] of a Router over the Timeweb router, network,
    static-route and floating-IP calls. [Update] is one pass of phases under one
    mutation budget; [Observe] alone decides convergence. *)

From S2P Require Import Prelude Errors Timeweb Slug Configurator Catalog Shared Effects RouterRefs.

(** ** Payloads of the generated client *)

Record RouterIp := { ip_Ip : string; ip_Nat : option string }.
Record ParentService := { ps_Id : Z; ps_Type : string }.

Record RouterOut := {
  ro_Id : string;
  ro_Name : string;
  ro_Comment : option string;
  ro_Status : string;
  ro_Zone : string;
  ro_PresetId : Z;
  ro_ProjectId : option Z;
  ro_Ips : list RouterIp;
  ro_ParentServices : list ParentService }.

Record NetworkOut := {
  no_Id : string;
  no_Name : string;
  no_Gateway : option string;
  no_NatIp : option string;
  no_DhcpEnabled : bool;
  no_ReservedIps : list string }.

Record StaticRouteOut := { so_Id : string; so_Subnet : string; so_Nexthop : string }.
Record DnatRuleOut := { do_PublicIp : string }.

(** [resource_id] is a JSON string or a number; the number is the integer the
    client's [float32] decoding gives. *)
Record FloatingIp := {
  fip_Id : string;
  fip_Ip : option string;
  fip_ResourceType : option string;
  fip_ResourceId : option (string + Z) }.

Record routerNetworkIn := {
  ni_Id : string;
  ni_Gateway : option string;
  ni_ReservedIps : option (list string) }.

Record RouterIn := {
  ri_Name : string;
  ri_PresetId : Z;
  ri_Comment : option string;
  ri_Networks : list routerNetworkIn;
  ri_Ips : option (list string);
  ri_ProjectId : option Z }.

Inductive router_request : Type :=
| CreateRouter (body : RouterIn)
| GetRouter (id : string)
| GetNetworks (id : string)
| GetRouters
| UpdateRouter (id : string) (name comment : option string)
| DeleteRouter (id : string)
| AddNetworks (id : string) (networks : list routerNetworkIn)
| DeleteRouterNetwork (id network : string)
| PatchNetwork (id network : string) (dhcp : bool)
| UpdateRouterNat (id network natIp : string)
| DeleteRouterNat (id network : string)
| GetStaticRoutes (id : string)
| PostStaticRoute (id subnet nexthop : string)
| DeleteStaticRoute (id route : string)
| GetFloatingIps
| BindFloatingIp (fip router : string)
| UnbindFloatingIp (fip : string)
| GetDnat (id : string).

Definition router_reply (q : router_request) : Type :=
  match q with
  | CreateRouter _ | GetRouter _ => RouterOut
  | GetNetworks _ => list NetworkOut
  | GetRouters => list RouterOut
  | GetStaticRoutes _ => list StaticRouteOut
  | GetFloatingIps => list FloatingIp
  | GetDnat _ => list DnatRuleOut
  | _ => unit
  end.

(** ** The managed resource *)

Record RouterParameters := {
  rp_Name : string;
  rp_Comment : option string;
  rp_Location : string;
  rp_AvailabilityZone : option string;
  rp_PresetName : string }.

Record RouterNetworkStatus := {
  rns_ID : string;
  rns_Name : option string;
  rns_Gateway : option string;
  rns_NATIP : option string;
  rns_DHCPEnabled : option bool;
  rns_ReservedIPs : list string }.

Record RouterIPStatus := { ris_IP : string; ris_NATNetwork : option string }.
Record RouterParentService := { rps_ID : string; rps_Type : string }.

Record RouterObservation := {
  rb_UpstreamID : option string;
  rb_State : option string;
  rb_LockedPresetID : option Z;
  rb_Networks : list RouterNetworkStatus;
  rb_IPs : list RouterIPStatus;
  rb_ParentServices : list RouterParentService;
  rb_StaticRoutes : list StaticRouteOut;
  rb_ResolvedProjectID : option Z }.

(** ** Pure helpers *)

Definition maxRouterMutationsPerReconcile : Z := 8.

Definition no_networks_msg : string :=
  "router network attachments resolve to zero networks — a networkSelector matched nothing (or only not-yet-Ready Networks) and no explicit networkRef/networkID is set; the upstream requires at least one network. Label/create a matching Ready Network or add an explicit attachment. Blocking until at least one network resolves".

Definition network_in (a : resolvedAttachment) : routerNetworkIn :=
  {| ni_Id := ra_NetworkID a; ni_Gateway := ra_Gateway a;
     ni_ReservedIps := match ra_ReservedIPs a with [] => None | ips => Some ips end |}.

(** The distinct NAT addresses, in order of first appearance. *)
Fixpoint nat_ips (seen : gset string) (attachments : list resolvedAttachment) : list string :=
  match attachments with
  | [] => []
  | a :: rest =>
      if negb (bool_decide (ra_NATIP a = "")) && negb (bool_decide (ra_NATIP a ∈ seen))
      then ra_NATIP a :: nat_ips ({[ra_NATIP a]} ∪ seen) rest
      else nat_ips seen rest
  end.

Definition buildCreateRouterBody (fp : RouterParameters) (tierID : Z)
    (attachments : list resolvedAttachment) (projectID : option Z) : RouterIn :=
  {| ri_Name := rp_Name fp;
     ri_PresetId := tierID;
     ri_Comment := rp_Comment fp;
     ri_Networks := map network_in attachments;
     ri_Ips := match nat_ips ∅ attachments with [] => None | ips => Some ips end;
     ri_ProjectId := projectID |}.

Definition observedDHCPEnabled (n : NetworkOut) : bool := no_DhcpEnabled n.

Definition routerOwnedIPs (r : RouterOut) : gset string := list_to_set (map ip_Ip (ro_Ips r)).

(** [observed[n.Id] = n], the last one winning. *)
Definition by_id (nets : list NetworkOut) : gmap string NetworkOut :=
  fold_left (fun m n => <[no_Id n := n]> m) nets ∅.

Definition declared_ids (attachments : list resolvedAttachment) : gset string :=
  list_to_set (map ra_NetworkID attachments).

Definition staticRoutesUpToDate (declared : list resolvedRoute) (observed : list StaticRouteOut) : bool :=
  (length declared =? length observed)%nat &&
  let obs : gmap string string := fold_left (fun m r => <[so_Subnet r := so_Nexthop r]> m) observed ∅ in
  forallb (fun d => bool_decide (obs !! rr_Subnet d = Some (rr_Nexthop d))) declared.

Inductive natIPState : Type := natIPFree | natIPBoundToRouter | natIPBoundElsewhere | natIPMissing.

Definition resource_id (f : FloatingIp) : string :=
  match fip_ResourceId f with
  | Some (inl s) => s
  | Some (inr n) => fmt_d n
  | None => ""
  end.

(** The classification of a declared NAT address against the listed IPs: the
    floating-IP id, the state and the holder. *)
Fixpoint classify_nat (routerID addr : string) (fips : list FloatingIp) : string * natIPState * string :=
  match fips with
  | [] => ("", natIPMissing, "")
  | f :: rest =>
      if negb (bool_decide (default_str (fip_Ip f) = addr)) then classify_nat routerID addr rest
      else match fip_ResourceType f with
           | None => (fip_Id f, natIPFree, "")
           | Some rtype =>
               if bool_decide (rtype = "router") && bool_decide (resource_id f = routerID)
               then (fip_Id f, natIPBoundToRouter, "")
               else (fip_Id f, natIPBoundElsewhere, rtype +:+ "/" +:+ resource_id f)
           end
  end.

(** What [isRouterUpToDate] compares of one attachment. *)
Definition attachment_converged (observed : gmap string NetworkOut) (blocked : gmap string string)
    (a : resolvedAttachment) : bool :=
  match observed !! ra_NetworkID a with
  | None => false
  | Some n =>
      Bool.eqb (observedDHCPEnabled n) (ra_DHCP a) &&
      (bool_decide (ra_NATIP a = default_str (no_NatIp n)) ||
       bool_decide (is_Some (blocked !! ra_NetworkID a)))
  end.

Definition sortedKeys (m : gmap string string) : list string := sort_strings (map_to_list m).*1.

(** How a phase of [Update] ends: with the mutations issued so far, or with
    [Update] returning at the budget. *)
Inductive flow : Type := Next (ops : Z) | Paced.

Section RouterExternal.
Context `{R : CrossplaneRuntime} {U : Upstream router_request router_reply}.
Variable recorder : bool.
(** [resolver.Resolve] for router tiers. *)
Variable resolve_preset : World -> PresetInput -> result error ResolveOutput.
(** What [Connect] resolved. *)
Variable resolvedNetworks : list resolvedAttachment.
Variable resolvedProjectID : option Z.
Variable resolvedRoutes : list resolvedRoute.

Notation router := (managed RouterParameters RouterObservation).
Notation RM := (M U router).

Definition set_cond (c : Condition) : RM unit :=
  modify (fun cr => set_conditions c (record_condition_change recorder c cr)).

Definition emit_event (ty : EventType) (reason msg : string) : RM unit :=
  modify (record_event recorder {| ev_Type := ty; ev_Reason := reason; ev_Message := msg |}).

Definition blockNoNetworks {A} : RM A :=
  set_cond (SyncedFalse ReasonNoNetworksResolved no_networks_msg);;
  throw (ErrorString ("network/router: " +:+ no_networks_msg)).

(** *** Reads *)

Definition get_router_and_networks (id : string) : RM (RouterOut * list NetworkOut) :=
  r ← call_decode "network/router: " (GetRouter id);
  nets ← call_decode "network/router: " (GetNetworks id);
  mret (r, nets).

Definition getStaticRoutes (id : string) : RM (list StaticRouteOut) :=
  call_decode "network/router: static-routes: " (GetStaticRoutes id).

Definition findRoutersByName (name : string) : RM (list RouterOut) :=
  rs ← call_decode "network/router: list routers: " GetRouters;
  mret (List.filter (fun r => bool_decide (ro_Name r = name)) rs).

Definition natIPBindability (routerID addr : string) : RM (string * natIPState * string) :=
  fips ← call_decode "network/router: floating-ips list: " GetFloatingIps;
  mret (classify_nat routerID addr fips).

Definition getDnatRules (id : string) : RM (list DnatRuleOut) :=
  call_decode "network/router: dnat-rules: " (GetDnat id).

Definition resolveTier (slug resolvedZone : string) : RM Z :=
  match AZToLocation resolvedZone with
  | Err e => throw (wrap_pre "network/router: " e)
  | Ok location =>
      out ← (fun s w => Run (resolve_preset w {| pi_Slug := slug; pi_Zone := location;
                                                 pi_Location := location |}) s w []);
      match out with
      | OutPreset id => mret id
      | OutConfigurator _ =>
          throw (ErrorString "network/router: resolver returned resolver.ConfiguratorOutput, want PresetOutput")
      | OutEnum _ =>
          throw (ErrorString "network/router: resolver returned resolver.EnumOutput, want PresetOutput")
      end
  end.

(** A tier failure mapped to its condition, then returned. *)
Definition tier_or_condition (slug zone : string) : RM Z :=
  t ← try (resolveTier slug zone);
  match t with
  | Ok id => mret id
  | Err e => set_cond (MapResolverErrorToCondition e);; throw e
  end.

(** *** Status *)

Definition network_status (n : NetworkOut) : RouterNetworkStatus :=
  {| rns_ID := no_Id n; rns_Name := Some (no_Name n); rns_Gateway := no_Gateway n;
     rns_NATIP := no_NatIp n; rns_DHCPEnabled := Some (no_DhcpEnabled n);
     rns_ReservedIPs := no_ReservedIps n |}.

Definition ip_status (i : RouterIp) : RouterIPStatus :=
  {| ris_IP := ip_Ip i;
     ris_NATNetwork := if bool_decide (default_str (ip_Nat i) = "") then None else ip_Nat i |}.

Definition parent_status (p : ParentService) : RouterParentService :=
  {| rps_ID := fmt_d (ps_Id p); rps_Type := ps_Type p |}.

Definition populateRouterStatus (r : RouterOut) (nets : list NetworkOut) (cr : router) : router :=
  let o := AtProvider cr in
  set_at_provider
    {| rb_UpstreamID := Some (ro_Id r);
       rb_State := Some (ro_Status r);
       rb_LockedPresetID := if ro_PresetId r =? 0 then rb_LockedPresetID o else Some (ro_PresetId r);
       rb_Networks := map network_status nets;
       rb_IPs := map ip_status (ro_Ips r);
       rb_ParentServices := map parent_status (ro_ParentServices r);
       rb_StaticRoutes := rb_StaticRoutes o;
       rb_ResolvedProjectID := match ro_ProjectId r with
                               | Some p => if p =? 0 then rb_ResolvedProjectID o else Some p
                               | None => rb_ResolvedProjectID o
                               end |} cr.

Definition set_status_routes (routes : list StaticRouteOut) (cr : router) : router :=
  let o := AtProvider cr in
  set_at_provider
    {| rb_UpstreamID := rb_UpstreamID o; rb_State := rb_State o; rb_LockedPresetID := rb_LockedPresetID o;
       rb_Networks := rb_Networks o; rb_IPs := rb_IPs o; rb_ParentServices := rb_ParentServices o;
       rb_StaticRoutes := routes; rb_ResolvedProjectID := rb_ResolvedProjectID o |} cr.

Definition router_ready_condition (state : string) : Condition :=
  let s := to_lower state in
  if bool_decide (s = "no_paid") then
    ReadyFalse ReasonPaymentRequired ("upstream router state is " +:+ quote "no_paid" +:+
      ": the Timeweb account lacks the funds/quota — top up the account; the router will provision once payment clears")
  else if contains_str s "started" || contains_str s "active" || contains_str s "running" then Available
  else if contains_str s "error" || contains_str s "fail" then
    ReadyFalse ReasonUpstreamFailed ("upstream router state is " +:+ quote state +:+
      ": provisioning failed and will not recover on its own — delete and recreate the Router (check the availabilityZone / tier pairing and the Timeweb panel for details) — if the Timeweb account lacks a full month's balance for all resources this can surface as " +:+ quote "error" +:+
      "; check the panel/billing before recreating")
  else Creating.

Definition setRouterReadyCondition (state : string) : RM unit := set_cond (router_ready_condition state).

(** *** NAT rows that cannot converge now *)

Fixpoint blocked_loop (routerID : string) (owned : gset string) (observed : gmap string NetworkOut)
    (attachments : list resolvedAttachment) (blocked : gmap string string) : RM (gmap string string) :=
  match attachments with
  | [] => mret blocked
  | a :: rest =>
      match observed !! ra_NetworkID a with
      | None => blocked_loop routerID owned observed rest blocked
      | Some n =>
          if bool_decide (ra_NATIP a = "") || bool_decide (ra_NATIP a ∈ owned) ||
             bool_decide (ra_NATIP a = default_str (no_NatIp n))
          then blocked_loop routerID owned observed rest blocked
          else
            x ← natIPBindability routerID (ra_NATIP a);
            match x.1.2 with
            | natIPBoundElsewhere =>
                blocked_loop routerID owned observed rest
                  (<[ra_NetworkID a := "natFloatingIP " +:+ ra_NATIP a +:+ " (network " +:+ ra_NetworkID a +:+
                     "): bound to " +:+ x.2 +:+
                     " — free it (or change the declaration); NAT converges automatically once the address is bindable"]> blocked)
            | natIPMissing =>
                blocked_loop routerID owned observed rest
                  (<[ra_NetworkID a := "natFloatingIP " +:+ ra_NATIP a +:+ " (network " +:+ ra_NetworkID a +:+
                     "): no floating IP with this address exists"]> blocked)
            | _ => blocked_loop routerID owned observed rest blocked
            end
      end
  end.

Definition blockedNATRows (r : RouterOut) (nets : list NetworkOut) : RM (gmap string string) :=
  blocked_loop (ro_Id r) (routerOwnedIPs r) (by_id nets) resolvedNetworks ∅.

(** *** Observe *)

Definition isRouterUpToDate (r : RouterOut) (nets : list NetworkOut) (natBlocked : gmap string string) : RM bool :=
  cr ← get;
  let fp := ForProvider cr in
  if negb (bool_decide (rp_Name fp = ro_Name r)) then mret false
  else if negb (bool_decide (default_str (rp_Comment fp) = default_str (ro_Comment r))) then mret false
  else if negb (length resolvedNetworks =? length nets)%nat then mret false
  else if negb (forallb (attachment_converged (by_id nets) natBlocked) resolvedNetworks) then mret false
  else match ResolvePlacement (rp_Location fp) (rp_AvailabilityZone fp) with
       | Err e => throw (wrap_pre "network/router: " e)
       | Ok (_, zone) =>
           tierID ← resolveTier (rp_PresetName fp) zone;
           match rb_LockedPresetID (AtProvider cr) with
           | Some lp => mret (lp =? tierID)
           | None => mret true
           end
       end.

Definition exists_up_to_date : ExternalObservation := {| ResourceExists := true; ResourceUpToDate := true |}.

(** The last part of [Observe], on a started router: blocked NAT rows, routes
    and the verdict. *)
Definition observe_drift (id : string) (r : RouterOut) (nets : list NetworkOut) : RM ExternalObservation :=
  blocked ← blockedNATRows r nets;
  (if bool_decide (blocked = ∅) then mret tt
   else set_cond (ReadyFalse ReasonNATIPUnavailable
          (join "; " (omap (fun k => blocked !! k) (sortedKeys blocked)))));;
  routes ← getStaticRoutes id;
  modify (set_status_routes routes);;
  upToDate ← try (isRouterUpToDate r nets blocked);
  match upToDate with
  | Err e => set_cond (MapResolverErrorToCondition e);; throw e
  | Ok b => mret {| ResourceExists := true;
                    ResourceUpToDate := b && staticRoutesUpToDate resolvedRoutes routes |}
  end.

Definition Observe : RM ExternalObservation :=
  cr ← get;
  let id := ExternalName cr in
  if bool_decide (id = "") then mret not_exists
  else
    x ← try (get_router_and_networks id);
    match x with
    | Err e => if error_is e ErrNotFound then mret not_exists else throw e
    | Ok (r, nets) =>
        modify (populateRouterStatus r nets);;
        match ResolvePlacement (rp_Location (ForProvider cr)) (rp_AvailabilityZone (ForProvider cr)) with
        | Err e =>
            set_cond (ReadyFalse ReasonUpstreamFailed ("invalid placement: " +:+ Error e));;
            mret exists_up_to_date
        | Ok (_, resolvedZone) =>
            if negb (bool_decide (ro_Zone r = "")) && negb (bool_decide (ro_Zone r = resolvedZone)) then
              set_cond (ReadyFalse ReasonUpstreamFailed
                ("upstream placed the router in zone " +:+ quote (ro_Zone r) +:+ " but " +:+ quote resolvedZone +:+
                 " was requested — the upstream derives zone from the tier and mis-places instead of rejecting; delete and recreate"));;
              mret exists_up_to_date
            else
              setRouterReadyCondition (ro_Status r);;
              if equal_fold (ro_Status r) "starting" then mret exists_up_to_date
              else observe_drift id r nets
        end
    end.

(** *** Create *)

(** After the adoption guard. *)
Definition create_new (fp : RouterParameters) : RM unit :=
  match resolvedNetworks with
  | [] => blockNoNetworks
  | _ =>
      match ResolvePlacement (rp_Location fp) (rp_AvailabilityZone fp) with
      | Err e => throw (wrap_pre "network/router: " e)
      | Ok (_, zone) =>
          tierID ← tier_or_condition (rp_PresetName fp) zone;
          r ← call_decode "network/router: "
                (CreateRouter (buildCreateRouterBody fp tierID resolvedNetworks resolvedProjectID));
          modify (set_external_name (ro_Id r));;
          set_cond Creating
      end
  end.

(** [ambiguous]: an earlier create is incomplete or annotated as failed. *)
Definition Create (ambiguous : bool) : RM unit :=
  cr ← get;
  let fp := ForProvider cr in
  if ambiguous then
    matches ← findRoutersByName (rp_Name fp);
    match matches with
    | [] => create_new fp
    | [m] => modify (set_external_name (ro_Id m))
    | _ => throw (ErrorString ("network/router: " +:+ fmt_d (Z.of_nat (length matches)) +:+
             " upstream routers named " +:+ quote (rp_Name fp) +:+
             " — adopt explicitly by setting the external-name annotation"))
    end
  else create_new fp.

(** *** Update, phase by phase *)

(** PATCH name and comment when they drifted. *)
Definition patch_phase (id : string) (fp : RouterParameters) (r : RouterOut) : RM unit :=
  let name := if negb (bool_decide (rp_Name fp = ro_Name r)) then Some (rp_Name fp) else None in
  let comment := if negb (bool_decide (default_str (rp_Comment fp) = default_str (ro_Comment r)))
                 then Some (default_str (rp_Comment fp)) else None in
  match name, comment with
  | None, None => mret tt
  | _, _ => do_ (UpdateRouter id name comment)
  end.

Definition emitNetworkEvent (reason verb networkID : string) : RM unit :=
  emit_event EventNormal reason (verb +:+ " network " +:+ networkID).

Fixpoint attached_events (missing : list routerNetworkIn) : RM unit :=
  match missing with
  | [] => mret tt
  | m :: rest => emitNetworkEvent "AttachedNetwork" "attached" (ni_Id m);; attached_events rest
  end.

Definition missing_networks (observed : gmap string NetworkOut) : list routerNetworkIn :=
  map network_in (List.filter (fun a => bool_decide (observed !! ra_NetworkID a = None)) resolvedNetworks).

(** Attach the missing networks in one batched call; the mutations issued. *)
Definition attach_phase (id : string) (observed : gmap string NetworkOut) : RM Z :=
  match missing_networks observed with
  | [] => mret 0
  | missing =>
      do_ (AddNetworks id missing);;
      attached_events missing;;
      mret 1
  end.

(** Detach the undeclared networks, never the last one. *)
Fixpoint detach_phase (id : string) (nets : list NetworkOut) (upstreamCount ops : Z) : RM flow :=
  match nets with
  | [] => mret (Next ops)
  | n :: rest =>
      if bool_decide (no_Id n ∈ declared_ids resolvedNetworks) then detach_phase id rest upstreamCount ops
      else if maxRouterMutationsPerReconcile <=? ops then mret Paced
      else if upstreamCount <=? 1 then mret (Next ops)
      else
        do_ (DeleteRouterNetwork id (no_Id n));;
        emitNetworkEvent "DetachedNetwork" "detached" (no_Id n);;
        detach_phase id rest (upstreamCount - 1) (ops + 1)
  end.

(** Release the address NAT just left: true when an unbind was acknowledged. *)
Definition releaseNATIP (routerID addr : string) : RM bool :=
  if existsb (fun a => bool_decide (ra_NATIP a = addr)) resolvedNetworks then mret false
  else
    let retained ty why :=
      emit_event ty "RetainedNATFloatingIP" ("floating IP " +:+ addr +:+ " left bound: " +:+ why);; mret false in
    rules ← try (getDnatRules routerID);
    match rules with
    | Err e => retained EventWarning ("DNAT guard read failed (" +:+ Error e +:+ ")")
    | Ok rules =>
        if existsb (fun r => bool_decide (do_PublicIp r = addr)) rules
        then retained EventNormal "a DNAT rule forwards it"
        else
          x ← try (natIPBindability routerID addr);
          match x with
          | Err e => retained EventWarning ("lookup failed (" +:+ Error e +:+ ")")
          | Ok (fipID, natIPBoundToRouter, _) =>
              u ← try (do_ (UnbindFloatingIp fipID));
              match u with
              | Err e => retained EventWarning ("unbind failed (" +:+ Error e +:+ ")")
              | Ok _ =>
                  emit_event EventNormal "ReleasedNATFloatingIP"
                    ("released floating IP " +:+ addr +:+ " (NAT removed; address unbound from router)");;
                  mret true
              end
          | Ok _ => mret false
          end
    end.

Definition bindNATIP (fipID routerID addr : string) : RM unit :=
  do_ (BindFloatingIp fipID routerID);;
  emit_event EventNormal "BoundNATFloatingIP" ("bound floating IP " +:+ addr +:+ " to router for NAT").

(** The release that follows a NAT write, within the budget. *)
Definition release_after (routerID addr : string) (ops : Z) : RM Z :=
  if ops <? maxRouterMutationsPerReconcile then
    released ← releaseNATIP routerID addr;
    mret (if released : bool then ops + 1 else ops)
  else mret ops.

Definition dhcp_step (id : string) (a : resolvedAttachment) (n : NetworkOut) (ops : Z) : RM flow :=
  if Bool.eqb (observedDHCPEnabled n) (ra_DHCP a) then mret (Next ops)
  else if maxRouterMutationsPerReconcile <=? ops then mret Paced
  else do_ (PatchNetwork id (ra_NetworkID a) (ra_DHCP a));; mret (Next (ops + 1)).

(** An address the router does not own is bound first, if it is free. *)
Definition bind_step (id : string) (a : resolvedAttachment) (ops : Z) : RM flow :=
  x ← natIPBindability id (ra_NATIP a);
  match x with
  | (fipID, natIPFree, _) =>
      if maxRouterMutationsPerReconcile <=? ops then mret Paced
      else bindNATIP fipID id (ra_NATIP a);; mret (Next (ops + 1))
  | _ => mret (Next ops)
  end.

Definition nat_step (id : string) (owned : gset string) (a : resolvedAttachment) (n : NetworkOut)
    (ops : Z) : RM flow :=
  let observedNAT := default_str (no_NatIp n) in
  if negb (bool_decide (ra_NATIP a = "")) && negb (bool_decide (ra_NATIP a = observedNAT)) then
    if negb (bool_decide (ra_NATIP a ∈ owned)) then bind_step id a ops
    else if maxRouterMutationsPerReconcile <=? ops then mret Paced
    else
      do_ (UpdateRouterNat id (ra_NetworkID a) (ra_NATIP a));;
      if negb (bool_decide (observedNAT = "")) then
        ops' ← release_after id observedNAT (ops + 1); mret (Next ops')
      else mret (Next (ops + 1))
  else if bool_decide (ra_NATIP a = "") && negb (bool_decide (observedNAT = "")) then
    if maxRouterMutationsPerReconcile <=? ops then mret Paced
    else
      do_ (DeleteRouterNat id (ra_NetworkID a));;
      ops' ← release_after id observedNAT (ops + 1);
      mret (Next ops')
  else mret (Next ops).

(** DHCP and NAT of the networks already attached. *)
Fixpoint converge_phase (id : string) (owned : gset string) (observed : gmap string NetworkOut)
    (attachments : list resolvedAttachment) (ops : Z) : RM flow :=
  match attachments with
  | [] => mret (Next ops)
  | a :: rest =>
      match observed !! ra_NetworkID a with
      | None => converge_phase id owned observed rest ops
      | Some n =>
          d ← dhcp_step id a n ops;
          match d with
          | Paced => mret Paced
          | Next ops =>
              x ← nat_step id owned a n ops;
              match x with
              | Paced => mret Paced
              | Next ops => converge_phase id owned observed rest ops
              end
          end
      end
  end.

(** Delete the undeclared routes and those whose nexthop changed; the subnets
    that remain. *)
Fixpoint delete_routes (id : string) (declared : gmap string string) (routes : list StaticRouteOut)
    (observed : gmap string string) (ops : Z) : RM (option (gmap string string * Z)) :=
  match routes with
  | [] => mret (Some (observed, ops))
  | r :: rest =>
      if bool_decide (declared !! so_Subnet r = Some (so_Nexthop r))
      then delete_routes id declared rest observed ops
      else if maxRouterMutationsPerReconcile <=? ops then mret None
      else
        do_ (DeleteStaticRoute id (so_Id r));;
        delete_routes id declared rest (delete (so_Subnet r) observed) (ops + 1)
  end.

Fixpoint post_routes (id : string) (observed : gmap string string) (declared : list resolvedRoute)
    (ops : Z) : RM flow :=
  match declared with
  | [] => mret (Next ops)
  | d :: rest =>
      if bool_decide (observed !! rr_Subnet d = Some (rr_Nexthop d)) then post_routes id observed rest ops
      else if maxRouterMutationsPerReconcile <=? ops then mret Paced
      else
        do_ (PostStaticRoute id (rr_Subnet d) (rr_Nexthop d));;
        post_routes id observed rest (ops + 1)
  end.

Definition routes_phase (id : string) (ops : Z) : RM unit :=
  routes ← getStaticRoutes id;
  let declaredRoutes : gmap string string :=
    fold_left (fun m r => <[rr_Subnet r := rr_Nexthop r]> m) resolvedRoutes ∅ in
  let observedRoutes : gmap string string :=
    fold_left (fun m r => <[so_Subnet r := so_Nexthop r]> m) routes ∅ in
  x ← delete_routes id declaredRoutes routes observedRoutes ops;
  match x with
  | None => mret tt
  | Some (observed, ops) => post_routes id observed resolvedRoutes ops;; mret tt
  end.

(** The mutating part of [Update], after its guards. *)
Definition converge (id : string) (fp : RouterParameters) (r : RouterOut) (nets : list NetworkOut) : RM unit :=
  patch_phase id fp r;;
  let observed := by_id nets in
  ops ← attach_phase id observed;
  d ← detach_phase id nets (Z.of_nat (length nets) + Z.of_nat (length (missing_networks observed))) ops;
  match d with
  | Paced => mret tt
  | Next ops =>
      c ← converge_phase id (routerOwnedIPs r) observed resolvedNetworks ops;
      match c with
      | Paced => mret tt
      | Next ops => routes_phase id ops
      end
  end.

Definition Update : RM unit :=
  cr ← get;
  let id := ExternalName cr in
  let fp := ForProvider cr in
  if bool_decide (id = "") then throw (ErrorString "network/router: empty external-name on Update")
  else
    x ← get_router_and_networks id;
    let '(r, nets) := x in
    if equal_fold (ro_Status r) "starting" then mret tt
    else match resolvedNetworks with
         | [] => blockNoNetworks
         | _ =>
             match ResolvePlacement (rp_Location fp) (rp_AvailabilityZone fp) with
             | Err e => throw (wrap_pre "network/router: " e)
             | Ok (_, zone) =>
                 tierID ← tier_or_condition (rp_PresetName fp) zone;
                 if negb (ro_PresetId r =? 0) && negb (tierID =? ro_PresetId r)
                 then reject (RejectImmutableChange recorder "presetName")
                 else converge id fp r nets
             end
         end.

(** *** Delete *)

Definition Delete : RM unit :=
  cr ← get;
  match rb_ParentServices (AtProvider cr) with
  | _ :: _ as services =>
      let msg := "router serves " +:+ fmt_d (Z.of_nat (length services)) +:+ " bound service(s) (" +:+
                 join ", " (map (fun s => rps_Type s +:+ "/" +:+ rps_ID s) services) +:+
                 ") — delete/unbind them first; deletion stays pending" in
      emit_event EventWarning "DeletionBlocked" msg;;
      throw (ErrorString ("network/router: " +:+ msg))
  | [] =>
      let id := ExternalName cr in
      if bool_decide (id = "") then mret tt
      else
        x ← try (do_ (DeleteRouter id));
        match x with
        | Err e => if error_is e ErrNotFound then mret tt else throw e
        | Ok _ => set_cond Deleting
        end
  end.
End RouterExternal.
