(* ===== verification/RouterFacts.v ===== *)
(** * RouterFacts: what the router controller guarantees

    Theorems on the definitions of [Router]: which writes a run of [Update] may
    issue, how many, and what each rests on; what [Observe], [Create] and
    [Delete] promise. *)

From S2P Require Import Prelude Errors Timeweb Slug Configurator Catalog Shared Effects RouterRefs Router.

(** ** Classes of calls *)

(** The mutations [Update] counts towards its budget. *)
Definition counted_request (q : router_request) : bool :=
  match q with
  | AddNetworks _ _ | DeleteRouterNetwork _ _ | PatchNetwork _ _ _ | UpdateRouterNat _ _ _
  | DeleteRouterNat _ _ | PostStaticRoute _ _ _ | DeleteStaticRoute _ _ | BindFloatingIp _ _ => true
  | _ => false
  end.

(** An unbind counts once acknowledged. *)
Definition counted (x : exchange router_reply) : bool :=
  match x with
  | Exchange (UnbindFloatingIp _) r => is_ok (write_reply r)
  | Exchange q _ => counted_request q
  end.

Definition spent (t : list (exchange router_reply)) : Z := Z.of_nat (length (List.filter counted t)).

Definition router_write (q : router_request) : bool :=
  match q with
  | CreateRouter _ | UpdateRouter _ _ _ | DeleteRouter _ | UnbindFloatingIp _ => true
  | _ => counted_request q
  end.

Definition is_detach (q : router_request) : bool :=
  match q with DeleteRouterNetwork _ _ => true | _ => false end.

Lemma spent_nil : spent [] = 0.
Proof. done. Qed.

Lemma spent_app t t' : spent (t ++ t') = spent t + spent t'.
Proof. unfold spent. rewrite List.filter_app, length_app. lia. Qed.

Lemma spent_cons x t : spent (x :: t) = (if counted x then 1 else 0) + spent t.
Proof. unfold spent. simpl. destruct (counted x); simpl; lia. Qed.

Lemma spent_nonneg t : 0 <= spent t.
Proof. unfold spent. lia. Qed.

Section Costs.
Context `{R : CrossplaneRuntime} {U : Upstream router_request router_reply}.
Variable recorder : bool.
Variable resolve_preset : World -> PresetInput -> result error ResolveOutput.
Variable resolvedNetworks : list resolvedAttachment.
Variable resolvedProjectID : option Z.
Variable resolvedRoutes : list resolvedRoute.

Notation router := (managed RouterParameters RouterObservation).
Notation max := maxRouterMutationsPerReconcile.

(** Runs whose calls satisfy [P], that start with [ops] mutations spent, stay
    within the budget and report what they spent. *)
Definition costs {A} (P : router_request -> Prop) (ops : Z) (left : A -> option Z)
  : post (U := U) (S := router) A :=
  fun r _ _ t =>
    Forall (fun x => P (request x)) t /\ ops + spent t <= max /\
    match r with
    | Ok a => forall n, left a = Some n -> n = ops + spent t
    | Err _ => True
    end.

Definition flow_left (f : flow) : option Z := match f with Next n => Some n | Paced => None end.

Lemma costs_ret {A} P ops (left : A -> option Z) a s w :
  ops <= max -> (forall n, left a = Some n -> n = ops) -> wp (mret a) (costs P ops left) s w.
Proof.
  intros Hm H. apply wp_ret. split_and!; [constructor|rewrite spent_nil; lia|].
  intros n Hn. rewrite spent_nil, (H n Hn). lia.
Qed.

Lemma costs_modify P ops f s w :
  ops <= max -> wp (modify f) (costs P ops (fun _ => Some ops)) s w.
Proof.
  intros Hm. apply wp_modify. split_and!; [constructor|rewrite spent_nil; lia|].
  intros n [= <-]. rewrite spent_nil. lia.
Qed.

Lemma costs_bind {A B} P ops (left : A -> option Z) (left' : B -> option Z) (m : M U router A)
    (f : A -> M U router B) s w :
  wp m (costs P ops left) s w ->
  (forall a n s' w', default n (left a) = n -> n <= max -> wp (f a) (costs P n left') s' w') ->
  wp (m ≫= f) (costs P ops left') s w.
Proof.
  intros Hm Hf. apply wp_bind. eapply wp_mono; [exact Hm|]. intros [a|e] s' w' t (H1 & H2 & H3).
  - eapply wp_mono; [apply (Hf a (ops + spent t)); [|done]|].
    + destruct (left a) as [n|] eqn:E; simpl; [|done]. by apply H3.
    + intros r s'' w'' t' (K1 & K2 & K3). rewrite <- Z.add_assoc, <- spent_app in K2, K3.
      split_and!; [by apply Forall_app_intro|done|done].
  - by split_and!.
Qed.

Lemma costs_write {P : router_request -> Prop} {ops} q s w :
  P q -> counted_request q = true -> ops < max ->
  wp (do_ q) (costs P ops (fun _ => Some (ops + 1))) s w.
Proof.
  intros HP Hc Hm. apply wp_do. intros r w' _.
  assert (spent [Exchange q r] = 1) as Hs by (rewrite spent_cons, spent_nil; by destruct q).
  split_and!; [by repeat constructor|lia|]. destruct (write_reply r); [|done]. intros n [= <-]. lia.
Qed.

Lemma costs_read {A} {P : router_request -> Prop} {ops} (m : M U router A) s w :
  wp m (fun _ _ _ t => Forall (fun x => P (request x) /\ router_write (request x) = false) t) s w ->
  ops <= max -> wp m (costs P ops (fun _ => Some ops)) s w.
Proof.
  intros H Hm. eapply wp_mono; [exact H|]. intros r s' w' t HF.
  assert (spent t = 0) as Hs.
  { clear -HF. induction HF as [|[q a] t [_ Hq] _ IH]; [done|]. rewrite spent_cons, IH. by destruct q. }
  split_and!; [by eapply Forall_impl; [exact HF|]; intros x [? _]|lia|].
  destruct r; [|done]. intros n [= <-]. lia.
Qed.

Lemma costs_mono {A} P P' ops (left left' : A -> option Z) (m : M U router A) s w :
  wp m (costs P ops left) s w -> (forall q, P q -> P' q) -> (forall a n, left' a = Some n -> left a = Some n) ->
  wp m (costs P' ops left') s w.
Proof.
  intros H HP Hl. eapply wp_mono; [exact H|]. intros r s' w' t (H1 & H2 & H3).
  split_and!; [by eapply Forall_impl; [exact H1|]; simpl; auto|done|]. destruct r; [|done]. auto.
Qed.

(** ** What each write of [Update] rests on *)

(** Given the router and networks read at the start of the pass. What binds, unbinds and
    route changes rest on is read later in the pass: see [nat_safe] and [grounded]. *)
Definition justified (id : string) (fp : RouterParameters) (r : RouterOut) (nets : list NetworkOut)
    (q : router_request) : Prop :=
  match q with
  | UpdateRouter i name comment =>
      i = id /\ (forall x, name = Some x -> x = rp_Name fp /\ x <> ro_Name r) /\
      (forall x, comment = Some x -> x = default_str (rp_Comment fp) /\ x <> default_str (ro_Comment r)) /\
      (name <> None \/ comment <> None)
  | AddNetworks i l => i = id /\ l = missing_networks resolvedNetworks (by_id nets) /\ l <> []
  | DeleteRouterNetwork i n => i = id /\ n ∈ map no_Id nets /\ n ∉ map ra_NetworkID resolvedNetworks
  | PatchNetwork i n d =>
      i = id /\ exists a o, a ∈ resolvedNetworks /\ ra_NetworkID a = n /\ by_id nets !! n = Some o /\
                            d = ra_DHCP a /\ no_DhcpEnabled o <> d
  | UpdateRouterNat i n ip =>
      i = id /\ exists a o, a ∈ resolvedNetworks /\ ra_NetworkID a = n /\ by_id nets !! n = Some o /\
                            ip = ra_NATIP a /\ ip <> "" /\ ip <> default_str (no_NatIp o) /\
                            ip ∈ map ip_Ip (ro_Ips r)
  | DeleteRouterNat i n =>
      i = id /\ exists a o, a ∈ resolvedNetworks /\ ra_NetworkID a = n /\ by_id nets !! n = Some o /\
                            ra_NATIP a = "" /\ default_str (no_NatIp o) <> ""
  | BindFloatingIp _ i => i = id
  | PostStaticRoute i subnet nexthop =>
      i = id /\ exists d, d ∈ resolvedRoutes /\ rr_Subnet d = subnet /\ rr_Nexthop d = nexthop
  | DeleteStaticRoute i _ => i = id
  | CreateRouter _ | DeleteRouter _ => False
  | _ => True
  end.

Section Phases.
Variables (id : string) (fp : RouterParameters) (r : RouterOut) (nets : list NetworkOut).
Notation P := (justified id fp r nets).

Lemma emit_costs ops ty reason msg s w :
  ops <= max -> wp (emit_event recorder ty reason msg) (costs P ops (fun _ => Some ops)) s w.
Proof. apply costs_modify. Qed.

Lemma attached_events_costs ops missing s w :
  ops <= max -> wp (attached_events recorder missing) (costs P ops (fun _ => Some ops)) s w.
Proof.
  revert s w. induction missing as [|m rest IH]; intros s w Hm; simpl; [by apply costs_ret; [|intros n [= <-]]|].
  eapply costs_bind; [by apply emit_costs|]. intros a n s' w' [= <-] _. by apply IH.
Qed.

Lemma attach_phase_costs s w :
  wp (attach_phase recorder resolvedNetworks id (by_id nets)) (costs P 0 Some) s w.
Proof.
  unfold attach_phase. destruct (missing_networks resolvedNetworks (by_id nets)) as [|m rest] eqn:E.
  - apply costs_ret; [by vm_compute|]. by intros n [= <-].
  - eapply costs_bind; [apply costs_write; [by rewrite <- E; split_and!; [|rewrite E|rewrite E]|done|by vm_compute]|].
    intros _ n s' w' [= <-] Hn. eapply costs_bind; [by apply attached_events_costs|].
    intros _ n' s'' w'' [= <-] Hn'. apply costs_ret; [done|]. by intros n [= <-].
Qed.

Lemma detach_phase_costs l count ops s w :
  ops <= max -> (forall n, n ∈ l -> n ∈ nets) ->
  wp (detach_phase recorder resolvedNetworks id l count ops) (costs P ops flow_left) s w.
Proof.
  revert count ops s w. induction l as [|n l IH]; intros count ops s w Hm Hin; simpl.
  - apply costs_ret; [done|]. by intros n [= <-].
  - case_bool_decide as Hd; [apply IH; [done|]; intros; apply Hin; by right|].
    go_case; [by apply costs_ret|]. go_case; [by apply costs_ret; [|intros ? [= <-]]|].
    eapply costs_bind; [apply costs_write; [|done|lia]|].
    { split_and!; [done| |].
      - apply list_elem_of_fmap. exists n. split; [done|]. apply Hin. left.
      - intros Hx. apply Hd. unfold declared_ids. by apply elem_of_list_to_set. }
    intros _ k s' w' [= <-] Hk. eapply costs_bind; [by apply emit_costs|].
    intros _ k' s'' w'' [= <-] Hk'. apply IH; [done|]. intros; apply Hin; by right.
Qed.

Lemma natIPBindability_costs ops addr s w :
  ops <= max -> wp (natIPBindability id addr) (costs P ops (fun _ => Some ops)) s w.
Proof.
  intros Hm. apply costs_read; [|done]. unfold natIPBindability. wp_step. wp_step.
  destruct (read_reply_pre _ _); [wp_step|]; by repeat constructor.
Qed.

(** A call that may fail and counts only once acknowledged. *)
Lemma unbind_costs ops fip s w :
  ops < max ->
  wp (try (do_ (UnbindFloatingIp fip))) (costs P ops (fun r => Some (if is_ok r then ops + 1 else ops))) s w.
Proof.
  intros Hm. apply wp_try, wp_do. intros x w' _.
  assert (spent [Exchange (UnbindFloatingIp fip) x] = if is_ok (write_reply x) then 1 else 0) as Hs.
  { rewrite spent_cons, spent_nil. change (counted (Exchange (UnbindFloatingIp fip) x)) with (is_ok (write_reply x)).
    destruct (is_ok (write_reply x)); lia. }
  split_and!; [by repeat constructor| |].
  - rewrite Hs. destruct (is_ok _); lia.
  - intros n [= <-]. rewrite Hs. destruct (is_ok _); lia.
Qed.

Lemma releaseNATIP_costs ops addr s w :
  ops < max ->
  wp (releaseNATIP recorder resolvedNetworks id addr)
     (costs P ops (fun b : bool => Some (if b then ops + 1 else ops))) s w.
Proof.
  intros Hm. unfold releaseNATIP. destruct (existsb _ _).
  { apply costs_ret; [lia|]. by intros n [= <-]. }
  assert (forall ty why s' w', wp (emit_event recorder ty "RetainedNATFloatingIP"
      ("floating IP " +:+ addr +:+ " left bound: " +:+ why);; mret false)
      (costs P ops (fun b : bool => Some (if b then ops + 1 else ops))) s' w') as Hret.
  { intros ty why s' w'. eapply costs_bind; [apply emit_costs; lia|]. intros _ n s'' w'' [= <-] Hn.
    apply costs_ret; [done|]. by intros n [= <-]. }
  cbv zeta. eapply (costs_bind _ _ (fun _ => Some ops)).
  { apply costs_read; [|lia]. apply wp_try. unfold getDnatRules. wp_step. by repeat constructor. }
  intros [rules|e] n s' w' [= <-] Hn; [|apply Hret]. destruct (existsb _ _); [apply Hret|].
  eapply (costs_bind _ _ (fun _ => Some ops)).
  { apply costs_read; [|lia]. apply wp_try. unfold natIPBindability. wp_step. wp_step.
    destruct (read_reply_pre _ _); [wp_step|]; by repeat constructor. }
  intros [[[fipID st] holder]|e] n s'' w'' [= <-] Hn'; [|apply Hret].
  destruct st; try (apply costs_ret; [lia|]; by intros n [= <-]).
  eapply costs_bind; [by apply unbind_costs|]. intros [[]|e] n s3 w3 [= <-] Hn3; simpl; [|apply Hret].
  eapply costs_bind; [by apply emit_costs|]. intros _ n s4 w4 [= <-] Hn4.
  apply costs_ret; [done|]. by intros n [= <-].
Qed.

Lemma release_after_costs ops addr s w :
  ops <= max -> wp (release_after recorder resolvedNetworks id addr ops) (costs P ops Some) s w.
Proof.
  intros Hm. unfold release_after. go_case; [|apply costs_ret; [done|]; by intros n [= <-]].
  eapply costs_bind; [apply releaseNATIP_costs; lia|]. intros b n s' w' [= <-] Hn.
  destruct b; (apply costs_ret; [done|]; by intros n [= <-]).
Qed.

Lemma dhcp_step_costs a n ops s w :
  ops <= max -> a ∈ resolvedNetworks -> by_id nets !! ra_NetworkID a = Some n ->
  wp (dhcp_step id a n ops) (costs P ops flow_left) s w.
Proof.
  intros Hm Ha Hn. unfold dhcp_step, observedDHCPEnabled. go_case; [apply costs_ret; [done|]; by intros k [= <-]|].
  go_case; [by apply costs_ret|]. apply eqb_false_iff in E.
  eapply costs_bind; [apply costs_write; [|done|lia]|].
  { split; [done|]. exists a, n. done. }
  intros _ k s' w' [= <-] Hk. apply costs_ret; [done|]. by intros k [= <-].
Qed.

Lemma bind_step_costs a ops s w :
  ops <= max -> wp (bind_step recorder id a ops) (costs P ops flow_left) s w.
Proof.
  intros Hm. unfold bind_step. eapply costs_bind; [by apply natIPBindability_costs|].
  intros [[fipID st] holder] n s' w' [= <-] Hn. destruct st; try (by apply costs_ret; [|intros k [= <-]]).
  go_case; [by apply costs_ret|]. unfold bindNATIP.
  eapply (costs_bind _ _ (fun _ => Some (ops + 1))).
  - eapply costs_bind; [apply costs_write; [done|done|lia]|]. intros _ k s'' w'' [= <-] Hk. by apply emit_costs.
  - intros _ k s'' w'' [= <-] Hk. by apply costs_ret; [|intros ? [= <-]].
Qed.

Lemma nat_step_costs a n ops s w :
  ops <= max -> a ∈ resolvedNetworks -> by_id nets !! ra_NetworkID a = Some n ->
  wp (nat_step recorder resolvedNetworks id (routerOwnedIPs r) a n ops) (costs P ops flow_left) s w.
Proof.
  intros Hm Ha Hn. unfold nat_step. cbv zeta.
  assert (forall k s' w', k <= max -> wp (ops' ← release_after recorder resolvedNetworks id
    (default_str (no_NatIp n)) k; mret (Next ops')) (costs P k flow_left) s' w') as Hrel.
  { intros k s' w' Hk. eapply costs_bind; [by apply release_after_costs|]. intros k' k'' s'' w'' [= <-] Hk'.
    by apply costs_ret; [|intros ? [= <-]]. }
  destruct (negb _ && _) eqn:E1; [|destruct (bool_decide _ && _) eqn:E2].
  - apply andb_true_iff in E1 as [Hx Hy]. apply negb_true_iff, bool_decide_eq_false in Hx, Hy.
    case_bool_decide as Ho; simpl; [|by apply bind_step_costs].
    go_case; [by apply costs_ret|]. eapply costs_bind; [apply costs_write; [|done|lia]|].
    { split; [done|]. exists a, n. split_and!; try done. unfold routerOwnedIPs in Ho.
      by apply elem_of_list_to_set in Ho. }
    intros _ k s' w' [= <-] Hk. destruct (negb _); [by apply Hrel|]. by apply costs_ret; [|intros ? [= <-]].
  - apply andb_true_iff in E2 as [Hx Hy]. apply bool_decide_eq_true in Hx.
    apply negb_true_iff, bool_decide_eq_false in Hy.
    go_case; [by apply costs_ret|]. eapply costs_bind; [apply costs_write; [|done|lia]|].
    { split; [done|]. by exists a, n. }
    intros _ k s' w' [= <-] Hk. by apply Hrel.
  - by apply costs_ret; [|intros ? [= <-]].
Qed.

Lemma converge_phase_costs l ops s w :
  ops <= max -> (forall a, a ∈ l -> a ∈ resolvedNetworks) ->
  wp (converge_phase recorder resolvedNetworks id (routerOwnedIPs r) (by_id nets) l ops)
     (costs P ops flow_left) s w.
Proof.
  revert ops s w. induction l as [|a l IH]; intros ops s w Hm Hin; simpl.
  - by apply costs_ret; [|intros ? [= <-]].
  - assert (a ∈ resolvedNetworks) as Ha by (apply Hin; left).
    assert (forall b, b ∈ l -> b ∈ resolvedNetworks) as Hl by (intros; apply Hin; by right).
    destruct (by_id nets !! ra_NetworkID a) as [n|] eqn:En; [|by apply IH].
    eapply costs_bind; [by apply dhcp_step_costs|]. intros [k|] k' s' w' Hk Hk'; simpl in Hk; [|by apply costs_ret].
    subst k'. eapply costs_bind; [by apply nat_step_costs|].
    intros [k2|] k' s2 w2 Hk2 Hk2'; simpl in Hk2; [|by apply costs_ret]. subst k'. by apply IH.
Qed.

Lemma delete_routes_costs declared routes observed ops s w :
  ops <= max ->
  wp (delete_routes id declared routes observed ops)
     (costs P ops (fun x => match x with Some (_, n) => Some n | None => None end)) s w.
Proof.
  revert observed ops s w. induction routes as [|x routes IH]; intros observed ops s w Hm; simpl.
  - by apply costs_ret; [|intros ? [= <-]].
  - case_bool_decide; [by apply IH|]. go_case; [by apply costs_ret|].
    eapply costs_bind; [apply costs_write; [done|done|lia]|]. intros _ k s' w' [= <-] Hk. by apply IH.
Qed.

Lemma post_routes_costs observed declared ops s w :
  ops <= max -> (forall d, d ∈ declared -> d ∈ resolvedRoutes) ->
  wp (post_routes id observed declared ops) (costs P ops flow_left) s w.
Proof.
  revert ops s w. induction declared as [|d declared IH]; intros ops s w Hm Hin; simpl.
  - by apply costs_ret; [|intros ? [= <-]].
  - assert (forall b, b ∈ declared -> b ∈ resolvedRoutes) as Hl by (intros; apply Hin; by right).
    case_bool_decide; [by apply IH|]. go_case; [by apply costs_ret|].
    eapply costs_bind; [apply costs_write; [|done|lia]|].
    { split; [done|]. exists d. split_and!; [apply Hin; left|done|done]. }
    intros _ k s' w' [= <-] Hk. by apply IH.
Qed.

Lemma routes_phase_costs ops s w :
  ops <= max -> wp (routes_phase resolvedRoutes id ops) (costs P ops (fun _ => None)) s w.
Proof.
  intros Hm. unfold routes_phase. eapply (costs_bind _ _ (fun _ => Some ops)).
  { apply costs_read; [|done]. unfold getStaticRoutes. wp_step. by repeat constructor. }
  intros routes n s' w' [= <-] Hn. cbv zeta. eapply costs_bind; [by apply delete_routes_costs|].
  intros [[observed k]|] n s2 w2 Hk Hk'; simpl in Hk; [|by apply costs_ret]. subst n.
  eapply costs_bind; [by apply post_routes_costs|]. intros f n s3 w3 _ Hn3. by apply costs_ret.
Qed.
End Phases.

Lemma patch_phase_costs id fp r nets s w :
  wp (patch_phase id fp r) (costs (justified id fp r nets) 0 (fun _ => Some 0)) s w.
Proof.
  unfold patch_phase. do 2 case_bool_decide; simpl; try (apply costs_ret; [by vm_compute|by intros ? [= <-]]).
  all: apply wp_do; intros x w' _; split_and!;
    [constructor; [|constructor]|by vm_compute|by destruct (write_reply x); [intros ? [= <-]|]];
    split_and!; try done; try (by left); try (by right); intros y [= <-]; done.
Qed.

Lemma converge_costs id fp r nets s w :
  wp (converge recorder resolvedNetworks resolvedRoutes id fp r nets)
     (costs (justified id fp r nets) 0 (fun _ => None)) s w.
Proof.
  unfold converge. eapply costs_bind; [apply patch_phase_costs|]. intros _ n s1 w1 [= <-] _. cbv zeta.
  eapply costs_bind; [apply attach_phase_costs|]. intros ops n s2 w2 [= <-] Hn.
  eapply costs_bind; [apply detach_phase_costs; [done|auto]|]. intros [k|] n s3 w3 Hk Hn3; simpl in Hk;
    [subst n|by apply costs_ret].
  eapply costs_bind; [apply converge_phase_costs; [done|auto]|]. intros [k2|] n s4 w4 Hk Hn4; simpl in Hk;
    [subst n|by apply costs_ret].
  by apply routes_phase_costs.
Qed.

(** *** The last network stays *)

Definition no_detach (t : list (exchange router_reply)) : Prop := count_calls is_detach t = 0.

Lemma no_detach_nil : no_detach [].
Proof. done. Qed.

Lemma no_detach_app t t' : no_detach t -> no_detach t' -> no_detach (t ++ t').
Proof. unfold no_detach. rewrite count_calls_app. lia. Qed.

Ltac walk := repeat (always_step no_detach_nil no_detach_app); try reflexivity.

Lemma patch_no_detach id fp r : always (S := router) no_detach (patch_phase id fp r).
Proof. unfold patch_phase. walk. Qed.

Lemma attach_no_detach id observed : always no_detach (attach_phase recorder resolvedNetworks id observed).
Proof.
  assert (forall l, always no_detach (attached_events recorder l : M U router unit)) as He.
  { induction l; simpl; unfold emitNetworkEvent, emit_event; walk; auto. }
  unfold attach_phase. walk; auto.
Qed.

Lemma release_no_detach id addr ops :
  always no_detach (release_after recorder resolvedNetworks id addr ops : M U router Z).
Proof.
  unfold release_after, releaseNATIP, getDnatRules, natIPBindability, emit_event. walk.
Qed.

Lemma converge_no_detach id owned observed l ops :
  always no_detach (converge_phase recorder resolvedNetworks id owned observed l ops : M U router flow).
Proof.
  revert ops. induction l as [|a l IH]; intros ops; simpl;
    unfold dhcp_step, nat_step, bind_step, bindNATIP, natIPBindability, emit_event; walk;
    auto using release_no_detach.
Qed.

Lemma routes_no_detach id ops : always no_detach (routes_phase resolvedRoutes id ops : M U router unit).
Proof.
  assert (forall d l o k, always no_detach (delete_routes id d l o k : M U router _)) as Hd.
  { intros d l. induction l; intros; simpl; walk; auto. }
  assert (forall o l k, always no_detach (post_routes id o l k : M U router _)) as Hp.
  { intros o l. induction l; intros; simpl; walk; auto. }
  unfold routes_phase, getStaticRoutes. walk; auto.
Qed.

Lemma detach_count id l count ops (s : router) w :
  wp (detach_phase recorder resolvedNetworks id l count ops)
     (fun _ _ _ t => count_calls is_detach t <= Z.max 0 (count - 1)) s w.
Proof.
  revert count ops s w. induction l as [|n l IH]; intros count ops s w; simpl.
  - wp_step. rewrite count_calls_nil. lia.
  - go_case; [apply IH|]. go_case; [wp_step; rewrite count_calls_nil; lia|].
    go_case; [wp_step; rewrite count_calls_nil; lia|]. repeat wp_step.
    destruct (write_reply r) as [[]|e]; [|rewrite count_calls_cons, count_calls_nil; simpl; lia].
    unfold emitNetworkEvent, emit_event. repeat wp_step. eapply wp_mono; [apply IH|].
    intros r' s' w2 t Ht. cbv beta in *. simpl app. rewrite count_calls_cons. simpl. lia.
Qed.

Lemma always_wp {A} (Q : list (exchange router_reply) -> Prop) (m : M U router A) s w :
  always Q m -> wp m (fun _ _ _ t => Q t) s w.
Proof. intros H. apply H. Qed.

Lemma converge_detach_count id fp r nets (s : router) w :
  wp (converge recorder resolvedNetworks resolvedRoutes id fp r nets)
     (fun _ _ _ t => count_calls is_detach t <=
        Z.max 0 (Z.of_nat (length nets) +
                 Z.of_nat (length (missing_networks resolvedNetworks (by_id nets))) - 1)) s w.
Proof.
  unfold converge. wp_step. eapply wp_mono; [apply always_wp, patch_no_detach|]. intros [[]|e] s1 w1 t1 H1; unfold no_detach in *; [|lia].
  cbv zeta. wp_step. eapply wp_mono; [apply always_wp, attach_no_detach|]. intros [ops|e] s2 w2 t2 H2;
    [|rewrite count_calls_app; unfold no_detach in *; lia].
  wp_step. eapply wp_mono; [apply detach_count|]. unfold no_detach in *.
  intros [[k|]|e] s3 w3 t3 H3; [|wp_step; rewrite !count_calls_app, count_calls_nil; lia|
                                 rewrite !count_calls_app; lia].
  wp_step. eapply wp_mono; [apply always_wp, converge_no_detach|]. unfold no_detach.
  intros [[k2|]|e] s4 w4 t4 H4; [|wp_step; rewrite !count_calls_app, count_calls_nil; lia|
                                  rewrite !count_calls_app; lia].
  eapply wp_mono; [apply always_wp, routes_no_detach|]. unfold no_detach.
  intros r5 s5 w5 t5 H5. rewrite !count_calls_app. lia.
Qed.

(** *** The whole of [Update] *)

(** What a run that got past the guards started from: the router and the
    networks it read. *)
Definition past_guards (cr : router) (r : RouterOut) (nets : list NetworkOut)
    (t t' : list (exchange router_reply)) : Prop :=
  exists a b zone location tier w1,
    t = Exchange (GetRouter (ExternalName cr)) a :: Exchange (GetNetworks (ExternalName cr)) b :: t' /\
    read_reply a = Ok r /\ read_reply b = Ok nets /\
    ExternalName cr <> "" /\ equal_fold (ro_Status r) "starting" = false /\ resolvedNetworks <> [] /\
    (exists l, ResolvePlacement (rp_Location (ForProvider cr)) (rp_AvailabilityZone (ForProvider cr)) = Ok (l, zone)) /\
    AZToLocation zone = Ok location /\
    resolve_preset w1 {| pi_Slug := rp_PresetName (ForProvider cr); pi_Zone := location;
                         pi_Location := location |} = Ok (OutPreset tier) /\
    (ro_PresetId r = 0 \/ ro_PresetId r = tier).

(** A run of [Update] either writes nothing or passes the guards and continues
    as [converge]. *)
Lemma Update_shape (cr : router) w :
  wp (Update recorder resolve_preset resolvedNetworks resolvedRoutes)
     (fun _ _ _ t =>
        Forall (fun x => router_write (request x) = false) t \/
        exists r nets s1 w1, past_guards cr r nets t
          (trace (converge recorder resolvedNetworks resolvedRoutes (ExternalName cr) (ForProvider cr) r nets s1 w1)))
     cr w.
Proof.
  unfold Update. wp_step. wp_step. cbv zeta. case_bool_decide as Hid; [wp_step; left; constructor|].
  wp_step. unfold get_router_and_networks. wp_step. wp_step.
  destruct (read_reply_pre _ r) as [ro|e] eqn:Ea; [|left; by repeat constructor].
  wp_step. wp_step. destruct (read_reply_pre _ r0) as [nets|e] eqn:Eb; [|left; by repeat constructor].
  apply read_reply_pre_ok in Ea, Eb. wp_step. cbv beta iota.
  destruct (equal_fold (ro_Status ro) "starting") eqn:Es; [wp_step; left; by repeat constructor|].
  destruct (decide (resolvedNetworks = [])) as [Hn|Hn].
  { rewrite Hn. unfold blockNoNetworks, set_cond. repeat wp_step. left; by repeat constructor. }
  assert (forall (A : Type) (x y : A), match resolvedNetworks with [] => x | _ :: _ => y end = y) as Hmatch
    by (intros; by destruct resolvedNetworks).
  rewrite Hmatch. clear Hmatch.
  destruct (ResolvePlacement _ _) as [[l zone]|e] eqn:Ep; [|wp_step; left; by repeat constructor].
  wp_step. unfold tier_or_condition. wp_step. wp_step. unfold resolveTier.
  assert (forall e s' w' Q, (Q : post (U := U) (S := router) Z)
      (Err e) (set_conditions (MapResolverErrorToCondition e)
        (record_condition_change recorder (MapResolverErrorToCondition e) s')) w' [] ->
      wp (set_cond recorder (MapResolverErrorToCondition e);; throw e) Q s' w') as Hset by done.
  destruct (AZToLocation zone) as [location|e] eqn:Ez;
    [|wp_step; apply Hset; left; by repeat constructor].
  wp_step. unfold wp at 1. simpl. destruct (resolve_preset w'0 _) as [out|e] eqn:Et;
    [|apply Hset; left; by repeat constructor].
  destruct out as [tier|o|b]; try (wp_step; apply Hset; left; by repeat constructor).
  repeat wp_step. destruct (_ && _) eqn:Eg.
  { unfold reject. repeat wp_step. left; by repeat constructor. }
  unfold wp. right. exists ro, nets, cr, w'0.
  exists r, r0, zone, location, tier, w'0. split_and!; try done; [by eexists|]. lia.
Qed.

(** [Update] writes only past its guards: a run either issues no write at
    all, or it read a router that is not starting, at least one network is
    resolved, the placement is valid, and the tier resolved in the placement's
    location is the router's own (or the router reports none). *)
Theorem router_update_guarded (cr : router) w :
  let t := trace (Update recorder resolve_preset resolvedNetworks resolvedRoutes cr w) in
  Forall (fun x => router_write (request x) = false) t \/
  exists r nets t', past_guards cr r nets t t'.
Proof.
  destruct (Update_shape cr w) as [H|(r & nets & s1 & w1 & H)]; [by left|]. right. eauto.
Qed.

Lemma no_write_spent t : Forall (fun x => router_write (request x) = false) t -> spent t = 0.
Proof. induction 1 as [|[q r] t Hq _ IH]; [done|]. rewrite spent_cons, IH. by destruct q. Qed.

Lemma no_write_detach (t : list (exchange router_reply)) : Forall (fun x => router_write (request x) = false) t -> count_calls is_detach t = 0.
Proof. induction 1 as [|[q r] t Hq _ IH]; [done|]. rewrite count_calls_cons, IH. by destruct q. Qed.

(** One pass of [Update] spends at most eight mutations (attaching,
    detaching, DHCP, NAT, binds, acknowledged unbinds, routes), whatever the
    size of the difference. *)
Theorem router_update_paced (cr : router) w :
  spent (trace (Update recorder resolve_preset resolvedNetworks resolvedRoutes cr w)) <= 8.
Proof.
  destruct (Update_shape cr w) as [H|(r & nets & s1 & w1 & (a & b & ? & ? & ? & ? & -> & _))].
  - rewrite no_write_spent by done. lia.
  - destruct (converge_costs (ExternalName cr) (ForProvider cr) r nets s1 w1) as (_ & H & _).
    rewrite !spent_cons. simpl. unfold maxRouterMutationsPerReconcile in H. lia.
Qed.

(** C2. [Update] never empties the router: a run detaches nothing, or it detaches
    strictly fewer networks than the router had plus those the run attaches; a
    declared network is never detached. *)
Theorem router_keeps_a_network (cr : router) w :
  let t := trace (Update recorder resolve_preset resolvedNetworks resolvedRoutes cr w) in
  (count_calls is_detach t = 0 \/
   exists r nets t', past_guards cr r nets t t' /\
     count_calls is_detach t <
       Z.of_nat (length nets) + Z.of_nat (length (missing_networks resolvedNetworks (by_id nets)))) /\
  Forall (fun x => forall i n, request x = DeleteRouterNetwork i n -> n ∉ map ra_NetworkID resolvedNetworks) t.
Proof.
  destruct (Update_shape cr w) as [H|(r & nets & s1 & w1 & H)].
  - split; [left; by apply no_write_detach|]. eapply Forall_impl; [exact H|].
    intros x Hx i n E. cbv beta in Hx. by rewrite E in Hx.
  - pose proof H as (a & b & zone & location & tier & w2 & Ht & _ & _ & _ & _ & Hne & _). split.
    + right. do 3 eexists. split; [exact H|]. rewrite Ht, !count_calls_cons. simpl.
      pose proof (converge_detach_count (ExternalName cr) (ForProvider cr) r nets s1 w1) as Hc. unfold wp in Hc.
      assert (0 < Z.of_nat (length nets) + Z.of_nat (length (missing_networks resolvedNetworks (by_id nets))))
        as Hpos; [|lia].
      destruct nets as [|n nets]; [|simpl; lia]. unfold missing_networks, by_id. simpl.
      destruct resolvedNetworks as [|x l]; [done|]. simpl. rewrite lookup_empty. simpl. lia.
    + rewrite Ht. constructor; [done|]. constructor; [done|].
      pose proof (proj1 (converge_costs (ExternalName cr) (ForProvider cr) r nets s1 w1)) as HF.
      eapply Forall_impl; [exact HF|]. intros x Hx i n E. cbv beta in Hx. rewrite E in Hx. apply Hx.
Qed.

(** *** Floating IPs are never taken nor dropped *)

(** A listing in which the floating IP [fip] with address [addr] satisfies [held]. *)
Definition lists_fip (x : option (exchange router_reply)) (fip addr : string) (held : FloatingIp -> Prop) : Prop :=
  exists l fips f, x = Some (Exchange GetFloatingIps l) /\ read_reply l = Ok fips /\ f ∈ fips /\
    fip_Id f = fip /\ default_str (fip_Ip f) = addr /\ held f.

(** Each bind directly follows a listing where the IP is unbound and its address
    is declared; each unbind directly follows a read of the DNAT rules without
    the address and a listing where the IP is bound to this router, the address
    being declared nowhere. [pp] and [p] are the two exchanges before. *)
Fixpoint nat_safe (id : string) (pp p : option (exchange router_reply)) (t : list (exchange router_reply)) : Prop :=
  match t with
  | [] => True
  | x :: t' =>
      match request x with
      | BindFloatingIp fip i =>
          exists a, a ∈ resolvedNetworks /\ ra_NATIP a <> "" /\
            lists_fip p fip (ra_NATIP a) (fun f => fip_ResourceType f = None)
      | UnbindFloatingIp fip =>
          exists addr d rules, addr ∉ map ra_NATIP resolvedNetworks /\
            pp = Some (Exchange (GetDnat id) d) /\ read_reply d = Ok rules /\ addr ∉ map do_PublicIp rules /\
            lists_fip p fip addr (fun f => fip_ResourceType f = Some "router" /\ resource_id f = id)
      | _ => True
      end /\ nat_safe id p (Some x) t'
  end.

Lemma nat_safe_none id pp p t : nat_safe id None None t -> nat_safe id pp p t.
Proof.
  assert (forall p0 q0, (p0 = None \/ p0 = q0) -> forall t pp0 pq0, (pp0 = None \/ pp0 = pq0) ->
    nat_safe id pp0 p0 t -> nat_safe id pq0 q0 t) as Hmono.
  { intros p0 q0 Hp t0. revert p0 q0 Hp.
    induction t0 as [|x t0 IH]; intros p0 q0 Hp pp0 pq0 Hpp; simpl; [done|].
    intros [Hx Ht]. split; [|by eapply (IH (Some x)); [right|exact Hp|]].
    destruct (request x); try done.
    - destruct Hx as (a & ? & ? & Hl). exists a. split_and!; try done.
      destruct Hp as [->| ->]; [|done]. by destruct Hl as (? & ? & ? & ? & _).
    - destruct Hx as (addr & d & rules & ? & Hd & ? & ? & Hl).
      exists addr, d, rules. destruct Hpp as [->| ->]; [done|].
      destruct Hp as [->| ->]; [|done]. by destruct Hl as (? & ? & ? & ? & _). }
  apply (Hmono None p); by left.
Qed.

Lemma nat_safe_app id pp p t t' :
  nat_safe id pp p t -> nat_safe id None None t' -> nat_safe id pp p (t ++ t').
Proof.
  revert pp p. induction t as [|x t IH]; intros pp p H H'; simpl in *; [by apply nat_safe_none|].
  destruct H as [Hx Ht]. split; [done|]. by apply IH.
Qed.

Lemma nat_safe_nil id : nat_safe id None None [].
Proof. done. Qed.

Lemma classify_nat_free routerID addr fips fip holder :
  classify_nat routerID addr fips = (fip, natIPFree, holder) ->
  exists f, f ∈ fips /\ fip_Id f = fip /\ default_str (fip_Ip f) = addr /\ fip_ResourceType f = None.
Proof.
  induction fips as [|f fips IH]; simpl; [done|]. case_bool_decide as Ha; simpl.
  - destruct (fip_ResourceType f) as [ty|] eqn:Et; [by destruct (_ && _)|]. intros [= <- _].
    exists f. split_and!; [left|done|done|done].
  - intros H. destruct (IH H) as (g & Hg & Hrest). exists g. split; [by right|done].
Qed.

Lemma classify_nat_bound routerID addr fips fip holder :
  classify_nat routerID addr fips = (fip, natIPBoundToRouter, holder) ->
  exists f, f ∈ fips /\ fip_Id f = fip /\ default_str (fip_Ip f) = addr /\
            fip_ResourceType f = Some "router" /\ resource_id f = routerID.
Proof.
  induction fips as [|f fips IH]; simpl; [done|]. case_bool_decide as Ha; simpl.
  - destruct (fip_ResourceType f) as [ty|] eqn:Et; [|done]. destruct (_ && _) eqn:E; [|done]. intros [= <- _].
    split_and_or. apply bool_decide_eq_true in H, H0. subst ty. exists f. split_and!; [left|done|done|done|done].
  - intros H. destruct (IH H) as (g & Hg & Hrest). exists g. split; [by right|done].
Qed.

Lemma bind_step_safe id a ops :
  a ∈ resolvedNetworks -> ra_NATIP a <> "" ->
  always (nat_safe id None None) (bind_step recorder id a ops : M U router flow).
Proof.
  intros Ha Hn s w. change (wp (bind_step recorder id a ops) (fun _ _ _ t => nat_safe id None None t) s w).
  unfold bind_step, natIPBindability. wp_step. wp_step. wp_step.
  destruct (read_reply_pre _ r) as [fips|e] eqn:Er; [|done]. apply read_reply_pre_ok in Er. wp_step.
  destruct (classify_nat id (ra_NATIP a) fips) as [[fip st] holder] eqn:Ec.
  destruct st; try done. destruct (_ <=? _); [done|]. unfold bindNATIP, emit_event. repeat wp_step.
  assert (nat_safe id None None [Exchange GetFloatingIps r; Exchange (BindFloatingIp fip id) r0]) as Hs.
  { split; [done|]. split; [|done]. exists a. split_and!; [done|done|].
    destruct (classify_nat_free _ _ _ _ _ Ec) as (f & Hf & Hid & Hip & Hty). exists r, fips, f. done. }
  destruct (write_reply r0); [repeat wp_step|]; exact Hs.
Qed.

Lemma release_safe id addr :
  always (nat_safe id None None) (releaseNATIP recorder resolvedNetworks id addr : M U router bool).
Proof.
  intros s w. change (wp (releaseNATIP recorder resolvedNetworks id addr) (fun _ _ _ t => nat_safe id None None t) s w).
  unfold releaseNATIP. destruct (existsb _ resolvedNetworks) eqn:Ed; [done|]. cbv zeta.
  assert (addr ∉ map ra_NATIP resolvedNetworks) as Hdecl.
  { intros Hin. apply list_elem_of_fmap in Hin as (a & -> & Ha). apply list_elem_of_In in Ha.
    assert (existsb (fun b => bool_decide (ra_NATIP b = ra_NATIP a)) resolvedNetworks = true) as Hx; [|congruence].
    apply existsb_exists. exists a. split; [done|]. by apply bool_decide_eq_true. }
  wp_step. unfold getDnatRules. wp_step. wp_step.
  destruct (read_reply_pre _ r) as [rules|e] eqn:Er; [|unfold emit_event; by repeat wp_step].
  apply read_reply_pre_ok in Er.
  destruct (existsb _ rules) eqn:Ex; [unfold emit_event; by repeat wp_step|].
  assert (addr ∉ map do_PublicIp rules) as Hdnat.
  { intros Hin. apply list_elem_of_fmap in Hin as (d & -> & Hd). apply list_elem_of_In in Hd.
    assert (existsb (fun b => bool_decide (do_PublicIp b = do_PublicIp d)) rules = true) as Hx; [|congruence].
    apply existsb_exists. exists d. split; [done|]. by apply bool_decide_eq_true. }
  wp_step. unfold natIPBindability. wp_step. wp_step. wp_step.
  destruct (read_reply_pre _ r0) as [fips|e] eqn:Er0; [|unfold emit_event; by repeat wp_step].
  apply read_reply_pre_ok in Er0. wp_step.
  destruct (classify_nat id addr fips) as [[fip st] holder] eqn:Ec. destruct st; try (by repeat wp_step).
  repeat wp_step.
  assert (nat_safe id None None [Exchange (GetDnat id) r; Exchange GetFloatingIps r0;
                                 Exchange (UnbindFloatingIp fip) r1]) as Hs.
  { split; [done|]. split; [done|]. split; [|done]. exists addr, r, rules. split_and!; try done.
    destruct (classify_nat_bound _ _ _ _ _ Ec) as (f & Hf & Hid & Hip & Hty & Hrid). exists r0, fips, f. done. }
  destruct (write_reply r1); unfold emit_event; repeat wp_step; exact Hs.
Qed.

Ltac walk_safe id := repeat (always_step (nat_safe_nil id) (nat_safe_app id None None)); try done.

Lemma nat_step_safe id owned a n ops :
  a ∈ resolvedNetworks ->
  always (nat_safe id None None) (nat_step recorder resolvedNetworks id owned a n ops : M U router flow).
Proof.
  intros Ha. unfold nat_step, release_after. cbv zeta.
  destruct (negb (bool_decide (ra_NATIP a = "")) && _) eqn:E.
  - apply andb_true_iff in E as [E _]. apply negb_true_iff, bool_decide_eq_false in E.
    destruct (negb _); [by apply bind_step_safe|]. walk_safe id; apply release_safe.
  - walk_safe id; apply release_safe.
Qed.

Lemma converge_phase_safe id owned observed ops :
  always (nat_safe id None None)
    (converge_phase recorder resolvedNetworks id owned observed resolvedNetworks ops : M U router flow).
Proof.
  assert (forall l, (forall a, a ∈ l -> a ∈ resolvedNetworks) -> forall k, always (nat_safe id None None)
    (converge_phase recorder resolvedNetworks id owned observed l k : M U router flow)) as H; [|by apply H].
  induction l as [|a l IH]; intros Hl k; cbn [converge_phase]; [done|].
  assert (forall y, y ∈ l -> y ∈ resolvedNetworks) as Hl' by (intros; apply Hl; by right).
  destruct (observed !! ra_NetworkID a) as [n|]; [|by apply IH].
  apply (always_bind _ (nat_safe_app id None None)); [unfold dhcp_step; walk_safe id|].
  intros [k1|]; [|done]. apply (always_bind _ (nat_safe_app id None None)); [by apply nat_step_safe, Hl; left|].
  intros [k2|]; [by apply IH|done].
Qed.

Lemma attached_events_safe id l : always (nat_safe id None None) (attached_events recorder l : M U router unit).
Proof. induction l; simpl; unfold emitNetworkEvent, emit_event; walk_safe id; auto. Qed.

Lemma detach_phase_safe id l count ops :
  always (nat_safe id None None) (detach_phase recorder resolvedNetworks id l count ops : M U router flow).
Proof.
  revert count ops. induction l; intros; simpl; unfold emitNetworkEvent, emit_event; walk_safe id; auto.
Qed.

Lemma delete_routes_safe id d l o k : always (nat_safe id None None) (delete_routes id d l o k : M U router _).
Proof. revert o k. induction l; intros; simpl; walk_safe id; auto. Qed.

Lemma post_routes_safe id o l k : always (nat_safe id None None) (post_routes id o l k : M U router _).
Proof. revert k. induction l; intros; simpl; walk_safe id; auto. Qed.

Lemma converge_nat_safe id fp r nets : always (nat_safe id None None) (converge recorder resolvedNetworks resolvedRoutes id fp r nets : M U router unit).
Proof.
  unfold converge. walk_safe id; auto using converge_phase_safe.
  all: try (unfold patch_phase, attach_phase, routes_phase, getStaticRoutes; walk_safe id).
  all: auto using converge_phase_safe, attached_events_safe, detach_phase_safe, delete_routes_safe, post_routes_safe.
Qed.

(** C1. Floating IPs stay where they are: [Update] binds one to the router only
    directly after seeing it unbound and only for a declared address; it unbinds
    one only directly after seeing it bound to this very router, with no DNAT
    rule on its address and no attachment declaring it. *)
Theorem router_never_steals_ip (cr : router) w :
  nat_safe (ExternalName cr) None None
    (trace (Update recorder resolve_preset resolvedNetworks resolvedRoutes cr w)).
Proof.
  destruct (Update_shape cr w) as [H|(r & nets & s1 & w1 & (a & b & ? & ? & ? & ? & -> & _))].
  { generalize (@None (exchange router_reply)) at 1 2. induction H as [|[q y] t Hq _ IH]; [done|].
    intros o. split; [by destruct q|]. apply nat_safe_none. exact (IH None). }
  split; [done|]. split; [done|]. apply nat_safe_none.
  apply converge_nat_safe.
Qed.

(** *** Route changes rest on the routes read *)

(** The next hop declared for a subnet (the last one, were it declared twice), and the one listed. *)
Definition declared_nexthop (subnet : string) : option string :=
  rr_Nexthop <$> last (List.filter (fun d => bool_decide (rr_Subnet d = subnet)) resolvedRoutes).

Definition listed_nexthop (routes : list StaticRouteOut) (subnet : string) : option string :=
  so_Nexthop <$> last (List.filter (fun r => bool_decide (so_Subnet r = subnet)) routes).

(** A call after the calls [before] of the pass: a route is deleted only if the pass listed
    it and its subnet and next hop are not declared; one is added only if the listing does
    not have it, or the pass has deleted one of its subnet. *)
Definition route_grounded (id : string) (before : list (exchange router_reply)) (q : router_request) : Prop :=
  match q with
  | DeleteStaticRoute i route =>
      exists rep routes r, Exchange (GetStaticRoutes id) rep ∈ before /\ read_reply rep = Ok routes /\
        r ∈ routes /\ so_Id r = route /\ declared_nexthop (so_Subnet r) <> Some (so_Nexthop r)
  | PostStaticRoute i subnet nexthop =>
      exists rep routes, Exchange (GetStaticRoutes id) rep ∈ before /\ read_reply rep = Ok routes /\
        (listed_nexthop routes subnet <> Some nexthop \/
         exists r, r ∈ routes /\ so_Subnet r = subnet /\ DeleteStaticRoute id (so_Id r) ∈ map request before)
  | _ => True
  end.

Fixpoint grounded (id : string) (before t : list (exchange router_reply)) : Prop :=
  match t with
  | [] => True
  | x :: t' => route_grounded id before (request x) /\ grounded id (before ++ [x]) t'
  end.

Definition no_route_write (t : list (exchange router_reply)) : Prop :=
  Forall (fun x => match request x with DeleteStaticRoute _ _ | PostStaticRoute _ _ _ => false | _ => true end = true) t.

Lemma no_route_nil : no_route_write [].
Proof. constructor. Qed.

Lemma no_route_app t t' : no_route_write t -> no_route_write t' -> no_route_write (t ++ t').
Proof. apply Forall_app_intro. Qed.

Lemma no_route_grounded id before t : no_route_write t -> grounded id before t.
Proof.
  intros H. revert before. induction H as [|x t Hx _ IH]; intros before; [done|]. split; [|apply IH]. by destruct (request x).
Qed.

Lemma grounded_app id before t t' : grounded id before t -> grounded id (before ++ t) t' -> grounded id before (t ++ t').
Proof.
  revert before. induction t as [|x t IH]; intros before; cbn [grounded app]; [by rewrite app_nil_r|].
  intros [Hx Ht] Ht'. split; [done|]. apply IH; [done|]. by rewrite <- app_assoc.
Qed.

Lemma grounded_more id before0 before t : before ⊆ before0 -> grounded id before t -> grounded id before0 t.
Proof.
  revert before before0. induction t as [|x t IH]; intros before before0 Hs; [done|]. intros [Hx Ht]. split.
  - unfold route_grounded in *. destruct (request x); try done.
    + destruct Hx as (rep & routes & Hin & Hr & [Hl|(r & H1 & H2 & H3)]); exists rep, routes; (split; [by apply Hs|]; split; [done|]); [by left|].
      right. exists r. split; [done|]. split; [done|]. apply list_elem_of_fmap in H3 as (y & -> & Hy). apply list_elem_of_fmap_2. by apply Hs.
    + destruct Hx as (rep & routes & r & Hin & Hx). exists rep, routes, r. split; [by apply Hs|done].
  - eapply IH; [|exact Ht]. intros y. rewrite !elem_of_app. intros [?|?]; [left; by apply Hs|by right].
Qed.

Lemma fold_insert_last {A} (f g : A -> string) (l : list A) (m : gmap string string) (k : string) :
  fold_left (fun m r => <[f r := g r]> m) l m !! k =
  match last (List.filter (fun r => bool_decide (f r = k)) l) with Some r => Some (g r) | None => m !! k end.
Proof.
  revert m. induction l as [|x l IH]; intros m; [done|]. cbn [fold_left List.filter]. rewrite IH. case_bool_decide as Hx.
  - destruct (last (List.filter _ l)) as [y|] eqn:E.
    + destruct (List.filter _ l) as [|z l'] eqn:El; [done|]. by rewrite last_cons_cons, E.
    + apply last_None in E. rewrite E. cbn. by rewrite Hx, lookup_insert_eq.
  - destruct (last _); [done|]. by rewrite lookup_insert_ne.
Qed.

(** The map of routes the phase works with: as listed, but for subnets it deleted from. *)
Definition tracks (id : string) (all : list StaticRouteOut) (before : list (exchange router_reply)) (observed : gmap string string) : Prop :=
  forall s, observed !! s = listed_nexthop all s \/
    exists r, r ∈ all /\ so_Subnet r = s /\ DeleteStaticRoute id (so_Id r) ∈ map request before.

Lemma delete_routes_grounded id all rep declared routes observed ops before (s : router) w :
  Exchange (GetStaticRoutes id) rep ∈ before -> read_reply rep = Ok all -> (forall r, r ∈ routes -> r ∈ all) ->
  (forall k, declared !! k = declared_nexthop k) -> tracks id all before observed ->
  wp (delete_routes id declared routes observed ops) (fun r _ _ t => grounded id before t /\
    match r with Ok (Some (observed', _)) => tracks id all (before ++ t) observed' | _ => True end) s w.
Proof.
  revert observed ops before s w. induction routes as [|x routes IH]; intros observed ops before s w Hin Hr Hall Hd Ht; cbn [delete_routes].
  { wp_step. split; [done|]. by rewrite app_nil_r. }
  case_bool_decide as Hx; [apply IH; auto; intros; apply Hall; by right|]. destruct (_ <=? ops); [by wp_step|]. do 2 wp_step.
  assert (route_grounded id before (DeleteStaticRoute id (so_Id x))) as Hg.
  { exists rep, all, x. split; [done|]. split; [done|]. split; [apply Hall; left|]. split; [done|]. by rewrite <- Hd. }
  destruct (write_reply r) as [[]|e]; [|by split].
  eapply wp_mono; [apply (IH _ _ (before ++ [Exchange (DeleteStaticRoute id (so_Id x)) r]))|]; [set_solver|done|intros; apply Hall; by right|done| |].
  - intros k. rewrite map_app. destruct (decide (so_Subnet x = k)) as [<-|Hk].
    + right. exists x. split; [apply Hall; left|]. split; [done|]. cbn [map]. set_solver.
    + rewrite lookup_delete_ne by done. destruct (Ht k) as [?|(y & ? & ? & ?)]; [by left|right]. exists y. set_solver.
  - intros o s' w2 t2 [Hgt Ho]. split; [by split|]. destruct o as [[[? ?]|]|]; try done. by rewrite <- app_assoc in Ho.
Qed.

Lemma post_routes_grounded id all rep observed declared ops before (s : router) w :
  Exchange (GetStaticRoutes id) rep ∈ before -> read_reply rep = Ok all -> tracks id all before observed ->
  wp (post_routes id observed declared ops) (fun _ _ _ t => grounded id before t) s w.
Proof.
  revert ops before s w. induction declared as [|d declared IH]; intros ops before s w Hin Hr Ht; cbn [post_routes]; [by wp_step|].
  case_bool_decide as Hx; [by apply IH|]. destruct (_ <=? ops); [by wp_step|]. do 2 wp_step.
  assert (route_grounded id before (PostStaticRoute id (rr_Subnet d) (rr_Nexthop d))) as Hg.
  { exists rep, all. split; [done|]. split; [done|]. destruct (Ht (rr_Subnet d)) as [<-|He]; [by left|by right]. }
  destruct (write_reply r) as [[]|e]; [|by split].
  eapply wp_mono; [apply (IH _ (before ++ [Exchange (PostStaticRoute id (rr_Subnet d) (rr_Nexthop d)) r]))|]; [set_solver|done| |].
  - intros k. destruct (Ht k) as [?|(y & ? & ? & ?)]; [by left|right]. exists y. rewrite map_app. set_solver.
  - intros o s' w2 t2 Hgt. by split.
Qed.

Lemma routes_phase_grounded id ops (s : router) w :
  wp (routes_phase resolvedRoutes id ops) (fun _ _ _ t => grounded id [] t) s w.
Proof.
  unfold routes_phase, getStaticRoutes. do 2 wp_step. cbn [router_reply] in *.
  destruct (read_reply_pre _ r) as [routes|e] eqn:Er; [|by split]. apply read_reply_pre_ok in Er. cbv zeta. wp_step.
  set (x := Exchange (GetStaticRoutes id) r).
  eapply wp_mono; [apply (delete_routes_grounded id routes r _ _ _ _ [x])|]; [by left|done|done| | |].
  - intros k. rewrite fold_insert_last. unfold declared_nexthop. by destruct (last _).
  - intros k. left. rewrite fold_insert_last. unfold listed_nexthop. by destruct (last _).
  - intros [[[observed k]|]|e] s2 w2 t2 [Hg Ho]; [|wp_step; rewrite app_nil_r; by split|by split]. wp_step.
    eapply wp_mono; [apply (post_routes_grounded id routes r _ _ _ ([x] ++ t2)); [by left|done|done]|].
    intros f s3 w3 t3 Hg3. assert (grounded id [] ([x] ++ (t2 ++ t3))) as Hall by (split; [done|]; exact (grounded_app id [x] _ _ Hg Hg3)).
    destruct f; [wp_step; by rewrite app_nil_r|done].
Qed.

Lemma converge_grounded id fp r nets (s : router) w :
  wp (converge recorder resolvedNetworks resolvedRoutes id fp r nets) (fun _ _ _ t => grounded id [] t) s w.
Proof.
  assert (forall l ops, always no_route_write (converge_phase recorder resolvedNetworks id (routerOwnedIPs r) (by_id nets) l ops
    : M U router flow)) as Hc.
  { induction l as [|a l IH]; intros ops; simpl;
      unfold dhcp_step, nat_step, bind_step, bindNATIP, natIPBindability, emit_event, release_after, releaseNATIP, getDnatRules, emit_event;
      repeat (always_step no_route_nil no_route_app); try (by repeat constructor); auto; unfold natIPBindability; repeat (always_step no_route_nil no_route_app); by repeat constructor. }
  assert (forall l, always no_route_write (attached_events recorder l : M U router unit)) as He.
  { induction l; simpl; unfold emitNetworkEvent, emit_event; repeat (always_step no_route_nil no_route_app); try (by repeat constructor); auto. }
  assert (forall l c ops, always no_route_write (detach_phase recorder resolvedNetworks id l c ops : M U router flow)) as Hd.
  { induction l; intros; simpl; unfold emitNetworkEvent, emit_event; repeat (always_step no_route_nil no_route_app); try (by repeat constructor); auto. }
  unfold converge. wp_step. eapply wp_mono; [apply (always_wp no_route_write)|].
  { unfold patch_phase. repeat (always_step no_route_nil no_route_app); by repeat constructor. }
  intros [[]|e] s1 w1 t1 H1; [|by apply no_route_grounded]. cbv zeta. wp_step. eapply wp_mono; [apply (always_wp no_route_write)|].
  { unfold attach_phase. repeat (always_step no_route_nil no_route_app); try (by repeat constructor); auto. }
  intros [ops|e] s2 w2 t2 H2; [|by apply no_route_grounded, no_route_app]. wp_step. eapply wp_mono; [apply (always_wp no_route_write), Hd|].
  assert (forall l, no_route_write l -> grounded id [] (t1 ++ t2 ++ l)) as Hstop
    by (intros l Hl; by apply no_route_grounded, no_route_app, no_route_app).
  intros [[k|]|e] s3 w3 t3 H3; [|wp_step; rewrite app_nil_r; by apply Hstop|by apply Hstop]. wp_step.
  eapply wp_mono; [apply (always_wp no_route_write), Hc|].
  intros [[k2|]|e] s4 w4 t4 H4; [|wp_step; rewrite app_nil_r; by apply Hstop, no_route_app|by apply Hstop, no_route_app].
  eapply wp_mono; [apply routes_phase_grounded|]. intros r5 s5 w5 t5 H5. rewrite !app_assoc.
  apply grounded_app; [rewrite <- !app_assoc; by apply Hstop, no_route_app|]. by apply (grounded_more _ _ []); [set_solver|].
Qed.

(** C36. Every write of [Update] rests on what the pass read. A run writes nothing, or it
    got past the guards and then: a network is detached only if the router has it and it
    is not declared, attached only if declared and absent, its DHCP set only to the
    declared differing value, NAT set only to the declared, differing, owned address and
    removed only where none is declared; a floating IP is bound only right after a listing
    that shows it free, for a declared address, and unbound only right after reads that
    show it bound to this router, forwarded by no DNAT rule, and its address declared
    nowhere; a route is deleted only if the pass listed it and it is not declared, and
    added only if declared and not listed (or one of its subnet was just deleted); the
    router itself is never created or deleted, and its name and comment are patched only
    when they differ. *)
Theorem router_update_justified (cr : router) w :
  let t := trace (Update recorder resolve_preset resolvedNetworks resolvedRoutes cr w) in
  Forall (fun x => router_write (request x) = false) t \/
  exists r nets t', past_guards cr r nets t t' /\
    Forall (fun x => justified (ExternalName cr) (ForProvider cr) r nets (request x)) t' /\
    nat_safe (ExternalName cr) None None t' /\ grounded (ExternalName cr) [] t'.
Proof.
  destruct (Update_shape cr w) as [H|(r & nets & s1 & w1 & H)]; [by left|]. right.
  do 3 eexists. split; [exact H|]. split; [apply (converge_costs (ExternalName cr) (ForProvider cr) r nets s1 w1)|].
  split; [apply converge_nat_safe|apply (converge_grounded (ExternalName cr) (ForProvider cr) r nets s1 w1)].
Qed.

(** *** Create and Delete *)

Definition is_create (q : router_request) : bool := match q with CreateRouter _ => true | _ => false end.

Definition same_name (cr : router) (rs : list RouterOut) : list RouterOut :=
  List.filter (fun r => bool_decide (ro_Name r = rp_Name (ForProvider cr))) rs.

(** The run ends with one POST of the resolved networks, made on a first attempt
    or after listing no router of the name. *)
Definition posted (cr : router) (ambiguous : bool) (r : result error unit) (cr' : router)
    (t : list (exchange router_reply)) : Prop :=
  exists pre body x, t = pre ++ [Exchange (CreateRouter body) x] /\ resolvedNetworks <> [] /\
    ri_Name body = rp_Name (ForProvider cr) /\ ri_Networks body = map network_in resolvedNetworks /\
    (if ambiguous then exists a rs, pre = [Exchange GetRouters a] /\ read_reply a = Ok rs /\ same_name cr rs = []
     else pre = []) /\
    match r with
    | Ok _ => exists out, read_reply x = Ok out /\ ExternalName cr' = ro_Id out
    | Err _ => ExternalName cr' = ExternalName cr
    end.

Lemma create_new_spec (cr0 : router) w :
  wp (create_new recorder resolve_preset resolvedNetworks resolvedProjectID (ForProvider cr0))
     (fun r cr' _ t =>
        (count_calls is_create t = 0 /\ is_ok r = false /\ ExternalName cr' = ExternalName cr0) \/
        exists body x, t = [Exchange (CreateRouter body) x] /\ resolvedNetworks <> [] /\
          ri_Name body = rp_Name (ForProvider cr0) /\ ri_Networks body = map network_in resolvedNetworks /\
          match r with
          | Ok _ => exists out, read_reply x = Ok out /\ ExternalName cr' = ro_Id out
          | Err _ => ExternalName cr' = ExternalName cr0
          end) cr0 w.
Proof.
  unfold create_new. destruct (decide (resolvedNetworks = [])) as [Hn|Hn].
  { rewrite Hn. unfold blockNoNetworks, set_cond. repeat wp_step. left. by rewrite ?count_calls_nil. }
  assert (forall (A : Type) (x y : A), match resolvedNetworks with [] => x | _ :: _ => y end = y) as Hmatch
    by (intros; by destruct resolvedNetworks).
  rewrite Hmatch. clear Hmatch.
  destruct (ResolvePlacement _ _) as [[l zone]|e]; [|wp_step; left; by rewrite count_calls_nil].
  wp_step. unfold tier_or_condition. wp_step. wp_step. unfold resolveTier.
  destruct (AZToLocation zone) as [location|e]; [|unfold set_cond; repeat wp_step; by left].
  wp_step. unfold wp at 1. simpl. destruct (resolve_preset w _) as [out|e]; [|unfold set_cond; repeat wp_step; by left].
  destruct out as [tier|o|b]; try (unfold set_cond; repeat wp_step; by left).
  repeat wp_step. destruct (read_reply_pre _ r) as [out|e] eqn:Er; [unfold set_cond; repeat wp_step|].
  - right. eexists _, r. split_and!; try done. exists out. split; [by apply read_reply_pre_ok in Er|done].
  - right. by eexists _, r.
Qed.

(** [Create] never makes a duplicate: after an attempt that may have
    succeeded, it lists the routers first, adopts the only one of the name
    without posting, and refuses when there are several; it posts at most once,
    only on a first attempt or when no router has the name, never without a
    network, and the external name becomes the id returned; otherwise it fails
    with the external name untouched. *)
Theorem router_create_adopts (cr : router) (ambiguous : bool) w :
  wp (Create recorder resolve_preset resolvedNetworks resolvedProjectID ambiguous)
     (fun r cr' _ t =>
        (exists a rs m, ambiguous = true /\ t = [Exchange GetRouters a] /\ read_reply a = Ok rs /\
           same_name cr rs = [m] /\ r = Ok tt /\ cr' = set_external_name (ro_Id m) cr) \/
        posted cr ambiguous r cr' t \/
        (count_calls is_create t = 0 /\ is_ok r = false /\ ExternalName cr' = ExternalName cr)) cr w.
Proof.
  unfold Create. wp_step. wp_step. cbv zeta. destruct ambiguous.
  - wp_step. unfold findRoutersByName. wp_step. wp_step.
    destruct (read_reply_pre _ r) as [rs|e] eqn:Er; [|by right; right].
    apply read_reply_pre_ok in Er. wp_step. fold (same_name cr rs).
    destruct (same_name cr rs) as [|m [|m' ms]] eqn:Em.
    + eapply wp_mono; [apply create_new_spec|]. intros r' s' w2 t H2. right.
      destruct H2 as [(H1 & H2 & H3)|(body & x & -> & Hn & Hb1 & Hb2 & Hr)].
      * right. split_and!; [|done|done]. simpl. by rewrite count_calls_cons, H1.
      * left. exists [Exchange GetRouters r], body, x. split_and!; try done. exists r, rs. done.
    + wp_step. left. exists r, rs, m. done.
    + wp_step. by right; right.
  - eapply wp_mono; [apply create_new_spec|]. intros r' s' w2 t H2. right.
    destruct H2 as [H2|(body & x & -> & Hn & Hb1 & Hb2 & Hr)]; [by right|].
    left. exists [], body, x. done.
Qed.

(** The call that deleting the router makes, and its reply when it is done. *)
Definition delete_outcome (cr : router) (r : result error unit) (t : list (exchange router_reply)) : Prop :=
  exists x, t = [Exchange (DeleteRouter (ExternalName cr)) x] /\
    (is_ok r = false \/ write_reply x = Ok tt \/
     exists resp p, x = Reply resp p /\ StatusCode resp = 404 /\ canonical_envelope resp).

(** Deletion waits for bound services: while the observed router serves any,
    [Delete] fails without a call; otherwise it calls the API at most once, to
    delete this router, and succeeds only when there is no external name, when
    the call succeeded, or on a canonical 404. *)
Theorem router_delete_waits (cr : router) w :
  wp (Delete recorder) (fun r _ _ t =>
    match rb_ParentServices (AtProvider cr) with
    | _ :: _ => t = [] /\ is_ok r = false
    | [] =>
        (ExternalName cr = "" /\ t = [] /\ r = Ok tt) \/ delete_outcome cr r t
    end) cr w.
Proof.
  unfold Delete. wp_step. wp_step. destruct (rb_ParentServices (AtProvider cr)) as [|s l].
  - cbv zeta. case_bool_decide as Hid; [wp_step; left; done|]. wp_step. repeat wp_step.
    destruct (write_reply r) as [[]|e] eqn:Er.
    + unfold set_cond. wp_step. right. exists r. split; [done|]. right. by left.
    + destruct (error_is e ErrNotFound) eqn:En; wp_step; right; exists r; (split; [done|]); [|by left].
      right; right. by eapply write_reply_not_found.
  - unfold emit_event. repeat wp_step. done.
Qed.

(** *** Observe *)

Definition no_write (t : list (exchange router_reply)) : Prop :=
  Forall (fun x => router_write (request x) = false) t.

(** The parts of the status [populateRouterStatus] owns. *)
Definition mirrors (ro : RouterOut) (nets : list NetworkOut) (o : RouterObservation) : Prop :=
  rb_UpstreamID o = Some (ro_Id ro) /\ rb_State o = Some (ro_Status ro) /\
  rb_Networks o = map network_status nets /\ rb_IPs o = map ip_status (ro_Ips ro) /\
  rb_ParentServices o = map parent_status (ro_ParentServices ro).

Lemma populate_mirrors ro nets (cr : router) : mirrors ro nets (AtProvider (populateRouterStatus ro nets cr)).
Proof. done. Qed.

Lemma blocked_loop_quiet id owned observed l blocked (s : router) w :
  wp (blocked_loop id owned observed l blocked) (fun _ s' _ t => no_write t /\ s' = s) s w.
Proof.
  revert blocked s w. induction l as [|a l IH]; intros blocked s w; cbn [blocked_loop]; [by wp_step; split; [constructor|]|].
  destruct (observed !! ra_NetworkID a) as [n|]; [|apply IH]. destruct (_ || _); [apply IH|].
  wp_step. unfold natIPBindability. wp_step. wp_step.
  destruct (read_reply_pre _ r) as [fips|e]; [|by split; [repeat constructor|]]. wp_step. cbn [app].
  destruct (classify_nat id (ra_NATIP a) fips) as [[fip st] holder]; simpl.
  assert (forall b, wp (blocked_loop id owned observed l b)
    (fun _ s' _ t => no_write (Exchange GetFloatingIps r :: t) /\ s' = s) s w') as H1.
  { intros b. eapply wp_mono; [apply IH|]. intros r1 s1 w1 t1 [Ht ->]. split; [|done]. by constructor. }
  destruct st; apply H1.
Qed.

Lemma observe_drift_spec id ro nets (s : router) w :
  mirrors ro nets (AtProvider s) ->
  wp (observe_drift recorder resolve_preset resolvedNetworks resolvedRoutes id ro nets)
     (fun r s' _ t => no_write t /\
        match r with Ok o => ResourceExists o = true /\ mirrors ro nets (AtProvider s') | Err _ => True end) s w.
Proof.
  intros Hs. unfold observe_drift, blockedNATRows. wp_step. eapply wp_mono; [apply blocked_loop_quiet|].
  intros [blocked|e] s1 w1 t1 [Ht1 ->]; [|done]. wp_step.
  assert (wp (if bool_decide (blocked = ∅) then mret tt
              else set_cond recorder (ReadyFalse ReasonNATIPUnavailable
                (join "; " (omap (fun k => blocked !! k) (sortedKeys blocked)))))
            (fun r s' _ t => r = Ok tt /\ mirrors ro nets (AtProvider s') /\ t = []) s w1) as Hc.
  { case_bool_decide; [by wp_step|]. unfold set_cond. wp_step. done. }
  eapply wp_mono; [exact Hc|]. intros r s2 w2 t2 (-> & Hs2 & ->). wp_step. unfold getStaticRoutes. wp_step.
  destruct (read_reply_pre _ r) as [routes|e]; [|split; [apply Forall_app_intro; [done|by repeat constructor]|done]].
  wp_step. wp_step. wp_step. wp_step.
  assert (forall s3 w3, wp (isRouterUpToDate resolve_preset resolvedNetworks ro nets blocked)
    (fun _ s' _ t => s' = s3 /\ t = []) s3 w3) as Hup.
  { intros s3 w3. unfold isRouterUpToDate. wp_step. wp_step. cbv zeta.
    do 4 (match goal with |- wp (if ?b then _ else _) _ _ _ => destruct b; [by wp_step|] end).
    destruct (ResolvePlacement _ _) as [[l zone]|e]; [|by wp_step]. wp_step. unfold resolveTier.
    destruct (AZToLocation zone); [|by wp_step]. wp_step. unfold wp at 1. simpl.
    destruct (resolve_preset _ _) as [[tier|o|b]|e]; try done.
    wp_step. destruct (rb_LockedPresetID _); by wp_step. }
  eapply wp_mono; [apply Hup|]. intros [b|e] s4 w4 t4 [-> ->].
  - wp_step. cbn [app]. split; [apply Forall_app_intro; [done|by repeat constructor]|]. done.
  - unfold set_cond. repeat wp_step. cbn [app].
    split; [apply Forall_app_intro; [done|by repeat constructor]|]. done.
Qed.

(** [Observe] of a router is read-only and forgets nothing: it writes
    nothing; it reports the router absent only without an external name or on a
    canonical 404 of its last read, leaving the resource unchanged; when it
    reports it present, the status mirrors the router and networks it read, and
    a starting router is never reported as drifted. *)
Theorem router_observe_spec (cr : router) w :
  wp (Observe recorder resolve_preset resolvedNetworks resolvedRoutes)
     (fun r cr' _ t => no_write t /\
        match r with
        | Ok o =>
            if ResourceExists o then
              exists a b ro nets t', t = Exchange (GetRouter (ExternalName cr)) a
                                      :: Exchange (GetNetworks (ExternalName cr)) b :: t' /\
                read_reply a = Ok ro /\ read_reply b = Ok nets /\ mirrors ro nets (AtProvider cr') /\
                negb (equal_fold (ro_Status ro) "starting") || ResourceUpToDate o = true
            else cr' = cr /\
              (ExternalName cr = "" \/
               exists q resp p, last t = Some (Exchange q (Reply resp p)) /\
                                StatusCode resp = 404 /\ canonical_envelope resp)
        | Err _ => True
        end) cr w.
Proof.
  unfold Observe. wp_step. wp_step. cbv zeta. case_bool_decide as Hid.
  { wp_step. split; [constructor|]. simpl. auto. }
  wp_step. unfold get_router_and_networks. wp_step. wp_step. wp_step.
  destruct (read_reply_pre _ r) as [ro|e] eqn:Ea.
  2: { destruct (error_is e ErrNotFound) eqn:En; wp_step; (split; [by repeat constructor|]); [|done].
       simpl. split; [done|]. right.
       destruct (read_reply_pre_not_found _ r e Ea En) as (resp & p & -> & H4 & Hc).
       by exists (GetRouter (ExternalName cr)), resp, p. }
  wp_step. wp_step. destruct (read_reply_pre _ r0) as [nets|e] eqn:Eb.
  2: { destruct (error_is e ErrNotFound) eqn:En; wp_step; (split; [by repeat constructor|]); [|done].
       simpl. split; [done|]. right.
       destruct (read_reply_pre_not_found _ r0 e Eb En) as (resp & p & -> & H4 & Hc).
       by exists (GetNetworks (ExternalName cr)), resp, p. }
  apply read_reply_pre_ok in Ea, Eb. wp_step. wp_step. wp_step.
  pose proof (populate_mirrors ro nets cr) as Hm.
  assert (forall (s' : router) o t', mirrors ro nets (AtProvider s') ->
    negb (equal_fold (ro_Status ro) "starting") || ResourceUpToDate o = true -> ResourceExists o = true ->
    no_write t' ->
    no_write (Exchange (GetRouter (ExternalName cr)) r :: Exchange (GetNetworks (ExternalName cr)) r0 :: t') /\
    (if ResourceExists o then exists a b ro' nets' t'',
       Exchange (GetRouter (ExternalName cr)) r :: Exchange (GetNetworks (ExternalName cr)) r0 :: t' =
         Exchange (GetRouter (ExternalName cr)) a :: Exchange (GetNetworks (ExternalName cr)) b :: t'' /\
       read_reply a = Ok ro' /\ read_reply b = Ok nets' /\ mirrors ro' nets' (AtProvider s') /\
       negb (equal_fold (ro_Status ro') "starting") || ResourceUpToDate o = true
     else s' = cr /\ (ExternalName cr = "" \/ exists q resp p,
       last (Exchange (GetRouter (ExternalName cr)) r :: Exchange (GetNetworks (ExternalName cr)) r0 :: t') =
         Some (Exchange q (Reply resp p)) /\ StatusCode resp = 404 /\ canonical_envelope resp))) as Hdone.
  { intros s' o t' Hms Hst -> Ht. split; [by repeat constructor|]. by exists r, r0, ro, nets, t'. }
  destruct (ResolvePlacement _ _) as [[l zone]|e].
  2: { unfold set_cond. repeat wp_step. apply (Hdone _ exists_up_to_date []); [exact Hm|by rewrite orb_true_r|done|constructor]. }
  destruct (_ && _).
  { unfold set_cond. repeat wp_step. apply (Hdone _ exists_up_to_date []); [exact Hm|by rewrite orb_true_r|done|constructor]. }
  unfold setRouterReadyCondition, set_cond. wp_step. wp_step. destruct (equal_fold (ro_Status ro) "starting") eqn:Es.
  { wp_step. apply (Hdone _ exists_up_to_date []); [exact Hm|done|done|constructor]. }
  eapply wp_mono; [apply observe_drift_spec; exact Hm|]. intros r1 s1 w1 t1 [Ht Hr1]. cbn [app].
  destruct r1 as [o|e]; [|split; [by repeat constructor|done]]. destruct Hr1 as [Ho Hms].
  by apply Hdone.
Qed.

(** *** Observe and Update agree: no write without drift *)

(** The attachment part of [isRouterUpToDate], with no blocked NAT row. *)
Definition in_sync (fp : RouterParameters) (ro : RouterOut) (nets : list NetworkOut) : bool :=
  bool_decide (rp_Name fp = ro_Name ro) &&
  bool_decide (default_str (rp_Comment fp) = default_str (ro_Comment ro)) &&
  (length resolvedNetworks =? length nets)%nat &&
  forallb (attachment_converged (by_id nets) ∅) resolvedNetworks.

Lemma by_id_dom nets : dom (by_id nets) = list_to_set (map no_Id nets).
Proof.
  unfold by_id. assert (forall m : gmap string NetworkOut,
    dom (fold_left (fun m n => <[no_Id n := n]> m) nets m) = dom m ∪ list_to_set (map no_Id nets)) as H.
  { induction nets as [|n nets IH]; intros m; simpl; [set_solver|]. rewrite IH, dom_insert_L. set_solver. }
  rewrite H. set_solver.
Qed.

Lemma in_sync_networks fp ro nets :
  in_sync fp ro nets = true -> NoDup (map ra_NetworkID resolvedNetworks) ->
  (forall a, a ∈ resolvedNetworks -> exists n, by_id nets !! ra_NetworkID a = Some n /\
     observedDHCPEnabled n = ra_DHCP a /\ ra_NATIP a = default_str (no_NatIp n)) /\
  (forall n, n ∈ nets -> no_Id n ∈ declared_ids resolvedNetworks).
Proof.
  unfold in_sync. intros H HN. apply andb_true_iff in H as [H Hf]. apply andb_true_iff in H as [_ Hlen].
  apply Nat.eqb_eq in Hlen. rewrite forallb_forall in Hf.
  assert (forall a, a ∈ resolvedNetworks -> exists n, by_id nets !! ra_NetworkID a = Some n /\
     observedDHCPEnabled n = ra_DHCP a /\ ra_NATIP a = default_str (no_NatIp n)) as H1.
  { intros a Ha. apply list_elem_of_In, Hf in Ha. unfold attachment_converged in Ha.
    destruct (by_id nets !! ra_NetworkID a) as [n|]; [|done]. exists n.
    apply andb_true_iff in Ha as [Hd Hn]. apply eqb_prop in Hd. split_and!; [done|done|].
    apply orb_true_iff in Hn as [Hn|Hn]; apply bool_decide_eq_true in Hn; [done|].
    rewrite lookup_empty in Hn. by destruct Hn. }
  split; [done|]. intros n Hn. unfold declared_ids. apply elem_of_list_to_set, list_elem_of_In.
  apply (List.NoDup_length_incl (l := map ra_NetworkID resolvedNetworks) (l' := map no_Id nets)).
  - by apply NoDup_ListNoDup.
  - rewrite !length_map. lia.
  - intros k Hk. apply list_elem_of_In, list_elem_of_fmap in Hk as (a & -> & Ha).
    destruct (H1 a Ha) as (o & Ho & _). apply list_elem_of_In.
    assert (ra_NetworkID a ∈ dom (by_id nets)) as Hd by (apply elem_of_dom; by exists o).
    rewrite by_id_dom in Hd. by apply elem_of_list_to_set in Hd.
  - apply in_map. by apply list_elem_of_In.
Qed.

Lemma converge_phase_quiet id owned observed l ops (s : router) w :
  (forall a, a ∈ l -> exists n, observed !! ra_NetworkID a = Some n /\
     observedDHCPEnabled n = ra_DHCP a /\ ra_NATIP a = default_str (no_NatIp n)) ->
  converge_phase recorder resolvedNetworks id owned observed l ops s w = Run (Ok (Next ops)) s w [].
Proof.
  revert ops s w. induction l as [|a l IH]; intros ops s w Hl; simpl; [done|].
  destruct (Hl a ltac:(left)) as (n & -> & Hd & Hn).
  unfold mbind, M_bind, dhcp_step. rewrite Hd, eqb_reflx. simpl. unfold nat_step. cbv zeta.
  rewrite Hn, (bool_decide_true (default_str _ = default_str _)), andb_false_r by done.
  destruct (bool_decide (default_str (no_NatIp n) = "")); simpl;
    (rewrite IH by (intros; apply Hl; by right)); done.
Qed.

Lemma detach_phase_quiet id l count ops (s : router) w :
  (forall n, n ∈ l -> no_Id n ∈ declared_ids resolvedNetworks) ->
  detach_phase recorder resolvedNetworks id l count ops s w = Run (Ok (Next ops)) s w [].
Proof.
  revert count ops s w. induction l as [|n l IH]; intros count ops s w Hl; simpl; [done|].
  rewrite bool_decide_true by (apply Hl; left). apply IH. intros; apply Hl; by right.
Qed.

Definition observed_routes (routes : list StaticRouteOut) : gmap string string :=
  fold_left (fun m r => <[so_Subnet r := so_Nexthop r]> m) routes ∅.

Definition declared_routes : gmap string string :=
  fold_left (fun m r => <[rr_Subnet r := rr_Nexthop r]> m) resolvedRoutes ∅.

(** A map filled from a list without repeated keys. *)
Lemma fold_insert_lookup {A} (key val : A -> string) l (m : gmap string string) x :
  NoDup (map key l) -> x ∈ l -> fold_left (fun m r => <[key r := val r]> m) l m !! key x = Some (val x).
Proof.
  revert m. induction l as [|y l IH]; intros m HN Hx; [by apply elem_of_nil in Hx|]. simpl in *.
  apply NoDup_cons in HN as [Hy HN]. apply elem_of_cons in Hx as [->|Hx]; [|by apply IH].
  assert (forall m0 : gmap string string, m0 !! key y = Some (val y) ->
    fold_left (fun m r => <[key r := val r]> m) l m0 !! key y = Some (val y)) as H; [|apply H, lookup_insert_eq].
  clear IH HN m. induction l as [|z l IH]; intros m0 Hm0; simpl; [done|]. simpl in Hy.
  rewrite not_elem_of_cons in Hy. apply IH; [tauto|]. rewrite lookup_insert_ne; [done|]. intros E. by destruct Hy.
Qed.

Lemma fold_insert_inv {A} (key val : A -> string) l (m : gmap string string) k v :
  fold_left (fun m r => <[key r := val r]> m) l m !! k = Some v ->
  m !! k = Some v \/ exists x, x ∈ l /\ key x = k /\ val x = v.
Proof.
  revert m. induction l as [|y l IH]; intros m H; simpl in H; [by left|].
  destruct (IH _ H) as [H1|(x & Hx & Hk & Hv)]; [|right; exists x; split_and!; [by right|done|done]].
  apply lookup_insert_Some in H1 as [[Hk Hv]|[_ H1]]; [|by left]. right. exists y. split_and!; [left|done|done].
Qed.

Lemma routes_up_to_date_all routes :
  staticRoutesUpToDate resolvedRoutes routes = true -> NoDup (map rr_Subnet resolvedRoutes) ->
  (forall d, d ∈ resolvedRoutes -> observed_routes routes !! rr_Subnet d = Some (rr_Nexthop d)) /\
  (forall r, r ∈ routes -> declared_routes !! so_Subnet r = Some (so_Nexthop r)).
Proof.
  unfold staticRoutesUpToDate. intros H HN. apply andb_true_iff in H as [Hlen Hf]. apply Nat.eqb_eq in Hlen.
  rewrite forallb_forall in Hf.
  assert (forall d, d ∈ resolvedRoutes -> observed_routes routes !! rr_Subnet d = Some (rr_Nexthop d)) as H1.
  { intros d Hd. apply list_elem_of_In, Hf, bool_decide_eq_true in Hd. exact Hd. }
  split; [done|].
  assert (incl (map rr_Subnet resolvedRoutes) (map so_Subnet routes)) as Hincl.
  { intros k Hk. apply list_elem_of_In, list_elem_of_fmap in Hk as (d & -> & Hd).
    destruct (fold_insert_inv so_Subnet so_Nexthop routes ∅ _ _ (H1 d Hd)) as [He|(x & Hx & Hk & _)].
    - by rewrite lookup_empty in He.
    - apply list_elem_of_In. rewrite <- Hk. apply list_elem_of_fmap. by exists x. }
  assert (length (map so_Subnet routes) <= length (map rr_Subnet resolvedRoutes))%nat as Hle
    by (rewrite !length_map; lia).
  assert (NoDup (map so_Subnet routes)) as HNr.
  { apply NoDup_ListNoDup. eapply List.NoDup_incl_NoDup; [apply NoDup_ListNoDup, HN|exact Hle|exact Hincl]. }
  intros r Hr. assert (In (so_Subnet r) (map rr_Subnet resolvedRoutes)) as Hin.
  { apply (List.NoDup_length_incl (proj1 (NoDup_ListNoDup _) HN) Hle Hincl). apply in_map. by apply list_elem_of_In. }
  apply list_elem_of_In, list_elem_of_fmap in Hin as (d & Hd & Hdin).
  pose proof (H1 d Hdin) as Hobs. rewrite <- Hd in Hobs.
  pose proof (fold_insert_lookup so_Subnet so_Nexthop routes ∅ r HNr Hr) as Hobs2.
  unfold observed_routes in Hobs. rewrite Hobs in Hobs2. injection Hobs2 as Hnh.
  rewrite Hd, <- Hnh. by apply fold_insert_lookup.
Qed.

Lemma delete_routes_quiet id declared l o ops (s : router) w :
  (forall r, r ∈ l -> declared !! so_Subnet r = Some (so_Nexthop r)) ->
  delete_routes id declared l o ops s w = Run (Ok (Some (o, ops))) s w [].
Proof.
  revert o ops s w. induction l as [|x l IH]; intros o ops s w Hl; simpl; [done|].
  rewrite bool_decide_true by (apply Hl; left). apply IH. intros; apply Hl; by right.
Qed.

Lemma post_routes_quiet id observed l ops (s : router) w :
  (forall d, d ∈ l -> observed !! rr_Subnet d = Some (rr_Nexthop d)) ->
  post_routes id observed l ops s w = Run (Ok (Next ops)) s w [].
Proof.
  revert ops s w. induction l as [|x l IH]; intros ops s w Hl; simpl; [done|].
  rewrite bool_decide_true by (apply Hl; left). apply IH. intros; apply Hl; by right.
Qed.

Lemma converge_quiet id fp ro nets (s : router) w :
  in_sync fp ro nets = true -> NoDup (map ra_NetworkID resolvedNetworks) -> NoDup (map rr_Subnet resolvedRoutes) ->
  wp (converge recorder resolvedNetworks resolvedRoutes id fp ro nets) (fun _ _ _ t =>
    exists x t', t = Exchange (GetStaticRoutes id) x :: t' /\
      forall routes, read_reply x = Ok routes -> staticRoutesUpToDate resolvedRoutes routes = true -> t' = []) s w.
Proof.
  intros Hs HN HNr. destruct (in_sync_networks fp ro nets Hs HN) as [H1 H2].
  unfold in_sync in Hs. apply andb_true_iff in Hs as [Hs _]. apply andb_true_iff in Hs as [Hs _].
  apply andb_true_iff in Hs as [Hname Hcomment]. apply bool_decide_eq_true in Hname, Hcomment.
  unfold converge, patch_phase. rewrite Hname, Hcomment, !bool_decide_true by done. simpl. wp_step. wp_step.
  assert (missing_networks resolvedNetworks (by_id nets) = []) as Hmiss.
  { unfold missing_networks. destruct (List.filter _ _) as [|a l] eqn:Ef; [done|]. exfalso.
    assert (In a (a :: l)) as Ha by (by left). rewrite <- Ef in Ha. apply List.filter_In in Ha as [Ha Hb].
    apply list_elem_of_In in Ha. destruct (H1 a Ha) as (n & Hn & _). rewrite Hn in Hb.
    by rewrite bool_decide_false in Hb. }
  unfold attach_phase. rewrite Hmiss. wp_step. wp_step. wp_step. unfold wp at 1. rewrite detach_phase_quiet by done.
  simpl. wp_step. unfold wp at 1. rewrite converge_phase_quiet by done. simpl.
  unfold routes_phase. wp_step. unfold getStaticRoutes. wp_step.
  destruct (read_reply_pre _ r) as [routes|e] eqn:Er.
  - apply read_reply_pre_ok in Er. cbv zeta.
    destruct (staticRoutesUpToDate resolvedRoutes routes) eqn:Eu.
    + destruct (routes_up_to_date_all routes Eu HNr) as [R1 R2]. fold declared_routes. fold (observed_routes routes).
      wp_step. unfold wp at 1. rewrite delete_routes_quiet by done. simpl. wp_step. unfold wp at 1.
      rewrite post_routes_quiet by done. simpl. wp_step. exists r, []. done.
    + unfold wp. exists r. eexists. split; [reflexivity|]. intros routes' Hr'.
      assert ((Ok routes' : result error (list StaticRouteOut)) = Ok routes) as [= ->]
        by exact (eq_trans (eq_sym Hr') Er).
      by rewrite Eu.
  - exists r, []. done.
Qed.

(** No churn: when the router read by [Update] has the declared name,
    comment, attachments, DHCP and NAT (the tests of [isRouterUpToDate]) and the
    routes it lists are the declared ones, the whole pass issues only its three
    reads. *)
Theorem router_update_quiet (cr : router) w :
  NoDup (map ra_NetworkID resolvedNetworks) -> NoDup (map rr_Subnet resolvedRoutes) ->
  let t := trace (Update recorder resolve_preset resolvedNetworks resolvedRoutes cr w) in
  no_write t \/
  exists ro nets t', past_guards cr ro nets t t' /\
    (in_sync (ForProvider cr) ro nets = true ->
     exists x t'', t' = Exchange (GetStaticRoutes (ExternalName cr)) x :: t'' /\
       forall routes, read_reply x = Ok routes -> staticRoutesUpToDate resolvedRoutes routes = true -> t'' = []).
Proof.
  intros HN HNr. destruct (Update_shape cr w) as [H|(r & nets & s1 & w1 & H)]; [by left|]. right.
  do 3 eexists. split; [exact H|]. intros Hs.
  exact (converge_quiet (ExternalName cr) (ForProvider cr) r nets s1 w1 Hs HN HNr).
Qed.
End Costs.

(** ** Witnesses: a simulated service

    The world is the router's network list; one floating IP is free. *)

Definition sim_router_out : RouterOut := {|
  ro_Id := "r1"; ro_Name := "edge"; ro_Comment := None; ro_Status := "started"; ro_Zone := "msk-1";
  ro_PresetId := 7; ro_ProjectId := None; ro_Ips := []; ro_ParentServices := [] |}.

Definition sim_network (id : string) (dhcp : bool) : NetworkOut := {|
  no_Id := id; no_Name := id; no_Gateway := None; no_NatIp := None; no_DhcpEnabled := dhcp; no_ReservedIps := [] |}.

Definition sim_router_serve (q : router_request) (w : list NetworkOut) : reply (router_reply q) * list NetworkOut :=
  match q with
  | CreateRouter _ => (ok_reply sim_router_out, w)
  | GetRouter _ => (ok_reply sim_router_out, w)
  | GetNetworks _ => (ok_reply w, w)
  | GetRouters => (ok_reply [sim_router_out], w)
  | UpdateRouter _ _ _ => (ok_reply tt, w)
  | DeleteRouter _ => (ok_reply tt, [])
  | AddNetworks _ l => (ok_reply tt, w ++ map (fun n => sim_network (ni_Id n) false) l)
  | DeleteRouterNetwork _ n => (ok_reply tt, List.filter (fun x => negb (bool_decide (no_Id x = n))) w)
  | PatchNetwork _ n d =>
      (ok_reply tt, map (fun x => if bool_decide (no_Id x = n) then sim_network n d else x) w)
  | UpdateRouterNat _ _ _ => (ok_reply tt, w)
  | DeleteRouterNat _ _ => (ok_reply tt, w)
  | GetStaticRoutes _ => (ok_reply [], w)
  | PostStaticRoute _ _ _ => (ok_reply tt, w)
  | DeleteStaticRoute _ _ => (ok_reply tt, w)
  | GetFloatingIps =>
      (ok_reply [{| fip_Id := "fip-1"; fip_Ip := Some "203.0.113.7"; fip_ResourceType := None;
                    fip_ResourceId := None |}], w)
  | BindFloatingIp _ _ => (ok_reply tt, w)
  | UnbindFloatingIp _ => (ok_reply tt, w)
  | GetDnat _ => (ok_reply [], w)
  end.

Definition SimRouter : Upstream router_request router_reply :=
  {| World := list NetworkOut; serve := sim_router_serve |}.

Definition sim_nets (l : list NetworkOut) : @World _ _ SimRouter := l.

Definition sim_resolve (_ : @World _ _ SimRouter) (_ : PresetInput) : result error ResolveOutput := Ok (OutPreset 7).

#[local] Existing Instances MapRuntime SimRouter.

Definition edge_router : managed RouterParameters RouterObservation := {|
  ExternalName := "r1";
  ForProvider := {| rp_Name := "edge"; rp_Comment := None; rp_Location := "ru-3"; rp_AvailabilityZone := None;
                    rp_PresetName := "router-1x1-1gb-ru-3" |};
  AtProvider := {| rb_UpstreamID := None; rb_State := None; rb_LockedPresetID := None; rb_Networks := [];
                   rb_IPs := []; rb_ParentServices := []; rb_StaticRoutes := []; rb_ResolvedProjectID := None |};
  Conditions := no_conds; Events := [] |}.

Definition attachment (id nat : string) : resolvedAttachment :=
  {| ra_NetworkID := id; ra_NATIP := nat; ra_DHCP := false; ra_Gateway := None; ra_ReservedIPs := [] |}.

(** One pass that attaches, detaches, and binds a free address. *)
Example update_converges :
  calls (Update true sim_resolve [attachment "n1" "203.0.113.7"; attachment "n2" ""] []
           edge_router (sim_nets [sim_network "n1" false; sim_network "n3" false])) =
  [GetRouter "r1"; GetNetworks "r1";
   AddNetworks "r1" [{| ni_Id := "n2"; ni_Gateway := None; ni_ReservedIps := None |}];
   DeleteRouterNetwork "r1" "n3"; GetFloatingIps; BindFloatingIp "fip-1" "r1"; GetStaticRoutes "r1"].
Proof. vm_compute. reflexivity. Qed.

(** A drained attachment set blocks instead of detaching. *)
Example update_blocks_drain :
  calls (Update true sim_resolve [] [] edge_router (sim_nets [sim_network "n1" false])) =
  [GetRouter "r1"; GetNetworks "r1"].
Proof. vm_compute. reflexivity. Qed.

(** A possibly-created router of the same name is adopted. *)
Example create_adopts_existing :
  calls (Create true sim_resolve [attachment "n1" ""] None true edge_router (sim_nets [])) = [GetRouters].
Proof. vm_compute. reflexivity. Qed.

Lemma router_update_quiet_witness :
  let t := trace (Update true sim_resolve [attachment "n1" ""] [] edge_router (sim_nets [sim_network "n1" false])) in
  map request t = [GetRouter "r1"; GetNetworks "r1"; GetStaticRoutes "r1"] /\ (no_write t \/
  exists ro nets t', past_guards sim_resolve [attachment "n1" ""] edge_router ro nets t t' /\
    (in_sync [attachment "n1" ""] (ForProvider edge_router) ro nets = true ->
     exists x t'', t' = Exchange (GetStaticRoutes (ExternalName edge_router)) x :: t'' /\
       forall routes, read_reply x = Ok routes -> staticRoutesUpToDate [] routes = true -> t'' = [])).
Proof.
  split; [vm_compute; reflexivity|].
  apply (router_update_quiet (U := SimRouter) true sim_resolve [attachment "n1" ""] []).
  - simpl. apply NoDup_singleton.
  - constructor.
Defined.
