(* ===== verification/Network.v ===== *)
(** * Network: the VPC controller

    [internal/controller/network/network_external.go]: [Observe], [Create],
    [Update] and [Delete] of a Network over the VPC calls. The external name is the
    upstream id. *)

From S2P Require Import Prelude Errors Timeweb Shared Effects Lifecycle.

(** ** Payloads *)

(** [twgen.Vpc]: the fields the controller reads. *)
Record Vpc := {
  vpc_AvailabilityZone : string;
  vpc_Description : string;
  vpc_Id : string;
  vpc_Location : string;
  vpc_Name : string;
  vpc_SubnetV4 : string;
  vpc_Type : string }.

Record CreateVpc := {
  cv_AvailabilityZone : option string;
  cv_Description : option string;
  cv_Location : string;
  cv_Name : string;
  cv_SubnetV4 : string }.

(** An absent field is left out of the body. *)
Record UpdateVpc := { up_Description : option string; up_Name : option string }.

Inductive network_request : Type :=
| GetVPC (id : string)
| CreateVPC (body : CreateVpc)
| UpdateVPCs (id : string) (body : UpdateVpc)
| DeleteVPC (id : string).

Definition network_reply (q : network_request) : Type :=
  match q with
  | GetVPC _ | CreateVPC _ => Vpc
  | _ => unit
  end.

(** ** The managed resource *)

Record NetworkParameters := {
  ntw_Name : string;
  ntw_SubnetCIDR : string;
  ntw_Location : string;
  ntw_Description : option string;
  ntw_AvailabilityZone : option string }.

Record NetworkObservation := {
  nto_UpstreamID : option string;
  nto_AssignedCIDR : option string;
  nto_State : option string }.

(** ** Helpers *)

Definition buildCreateVPCBody (fp : NetworkParameters) : CreateVpc :=
  {| cv_AvailabilityZone := ntw_AvailabilityZone fp;
     cv_Description := ntw_Description fp;
     cv_Location := ntw_Location fp;
     cv_Name := ntw_Name fp;
     cv_SubnetV4 := ntw_SubnetCIDR fp |}.

Definition isNetworkUpToDate (spec : NetworkParameters) (v : Vpc) : bool :=
  if negb (bool_decide (ntw_Name spec = vpc_Name v)) then false
  else if negb (bool_decide (ntw_SubnetCIDR spec = vpc_SubnetV4 v)) then false
  else if negb (bool_decide (ntw_Location spec = vpc_Location v)) then false
  else if match ntw_AvailabilityZone spec with
          | Some az => negb (bool_decide (az = vpc_AvailabilityZone v))
          | None => false
          end then false
  else if negb (bool_decide (DerefString (ntw_Description spec) = vpc_Description v)) then false
  else true.

(** The fields [Update] refuses to change, in the order it checks them. *)
Definition network_checks (fp : NetworkParameters) (observed : Vpc) : list ImmutableField :=
  [{| if_Name := "name"; if_Desired := ntw_Name fp; if_Observed := vpc_Name observed |};
   {| if_Name := "subnetCIDR"; if_Desired := ntw_SubnetCIDR fp; if_Observed := vpc_SubnetV4 observed |};
   {| if_Name := "location"; if_Desired := ntw_Location fp; if_Observed := vpc_Location observed |}] ++
  match ntw_AvailabilityZone fp with
  | Some az => [{| if_Name := "availabilityZone"; if_Desired := az; if_Observed := vpc_AvailabilityZone observed |}]
  | None => []
  end.

(** ** The external client *)
Section NetworkExternal.
Context `{R : CrossplaneRuntime} {U : Upstream network_request network_reply}.
Variable recorder : bool.

Notation network := (managed NetworkParameters NetworkObservation).
Notation VM := (M U network).

Definition populateNetworkStatus (v : Vpc) (cr : network) : network :=
  set_at_provider {| nto_UpstreamID := Some (vpc_Id v); nto_AssignedCIDR := Some (vpc_SubnetV4 v);
                     nto_State := Some (vpc_Type v) |} cr.

Definition observe_vpc (v : Vpc) : VM ExternalObservation :=
  modify (populateNetworkStatus v);;
  note_condition recorder Available;;
  cr ← get;
  mret {| ResourceExists := true; ResourceUpToDate := isNetworkUpToDate (ForProvider cr) v |}.

Definition Observe : VM ExternalObservation :=
  cr ← get;
  if bool_decide (ExternalName cr = "") then mret not_exists
  else get_or_absent not_exists "network/network: " (GetVPC (ExternalName cr)) observe_vpc.

Definition Create : VM unit :=
  cr ← get;
  v ← call_decode "network/network: " (CreateVPC (buildCreateVPCBody (ForProvider cr)));
  modify (set_external_name (vpc_Id v));;
  modify (populateNetworkStatus v);;
  note_condition recorder Creating.

Definition Update : VM unit :=
  cr ← get;
  let fp := ForProvider cr in
  if bool_decide (ExternalName cr = "") then throw (ErrorString "network/network: empty external-name on Update")
  else
    observed ← call_decode "network/network: " (GetVPC (ExternalName cr));
    match FirstImmutableDiff (network_checks fp observed) with
    | Some field => reject (RejectImmutableChange recorder field)
    | None =>
        if bool_decide (DerefString (ntw_Description fp) = vpc_Description observed) then mret tt
        else do_ (UpdateVPCs (ExternalName cr) {| up_Description := ntw_Description fp; up_Name := None |})
    end.

Definition Delete : VM unit :=
  cr ← get;
  if bool_decide (ExternalName cr = "") then mret tt
  else delete_or_gone (DeleteVPC (ExternalName cr)) (note_condition recorder Deleting).

Definition network_controller : Controller U network :=
  {| c_observe := Observe; c_create := Create; c_update := Update; c_delete := Delete |}.
End NetworkExternal.
