(* ===== verification/NetworkFacts.v ===== *)
(** * NetworkFacts: what the VPC controller promises

    What an [Update] may do, the agreement of [Observe] with it, and the whole life
    of a Network against a service that keeps a map of VPCs. *)

From S2P Require Import Prelude Errors Timeweb Shared Effects Lifecycle Network.

(** ** The tests *)

Lemma up_to_date_fields fp v :
  isNetworkUpToDate fp v = true <->
  Forall (fun f => if_Desired f = if_Observed f) (network_checks fp v) /\ DerefString (ntw_Description fp) = vpc_Description v.
Proof.
  unfold isNetworkUpToDate, network_checks. rewrite Forall_app, !Forall_cons. simpl.
  destruct (ntw_AvailabilityZone fp); rewrite ?Forall_singleton, ?Forall_nil; simpl;
    repeat (case_bool_decide; simpl; [|by split; [done|intuition]]); by intuition.
Qed.

(** [Observe] and [Update] agree: for values without blanks around them, a VPC is up
    to date exactly when [Update] would neither reject a change nor send one. *)
Theorem network_observe_update_agree (fp : NetworkParameters) (v : Vpc) :
  Forall unpadded (network_checks fp v) ->
  isNetworkUpToDate fp v = true <->
    FirstImmutableDiff (network_checks fp v) = None /\ DerefString (ntw_Description fp) = vpc_Description v.
Proof. intros H. by rewrite up_to_date_fields, no_diff_iff. Qed.

(** Without that they do not: a trailing blank in the declared name is drift to
    [Observe] and no change to [Update], which then does nothing, on every pass. *)
Example padded_name_never_settles :
  let fp := {| ntw_Name := "vpc "; ntw_SubnetCIDR := "10.0.0.0/24"; ntw_Location := "ru-1"; ntw_Description := None;
               ntw_AvailabilityZone := None |} in
  let v := {| vpc_AvailabilityZone := "spb-1"; vpc_Description := ""; vpc_Id := "n1"; vpc_Location := "ru-1"; vpc_Name := "vpc";
              vpc_SubnetV4 := "10.0.0.0/24"; vpc_Type := "ovn" |} in
  isNetworkUpToDate fp v = false /\ FirstImmutableDiff (network_checks fp v) = None.
Proof. vm_compute. done. Qed.

Section NetworkFacts.
Context `{R : CrossplaneRuntime} {U : Upstream network_request network_reply}.
Variable recorder : bool.

Notation network := (managed NetworkParameters NetworkObservation).
Notation Observe := (Observe recorder).
Notation Create := (Create recorder).
Notation Update := (Update recorder).
Notation Delete := (Delete recorder).

(** The patch due on a VPC whose immutable fields are as declared. *)
Definition network_due (fp : NetworkParameters) (v : Vpc) : list UpdateVpc :=
  if bool_decide (DerefString (ntw_Description fp) = vpc_Description v) then []
  else [{| up_Description := ntw_Description fp; up_Name := None |}].

(** An [Update] reads the VPC and then either fails with the read, or rejects the
    first immutable field that changed and writes nothing, or sends the one patch
    that is due, which carries the declared description and nothing else. *)
Theorem network_update_spec {L : CrossplaneLaws R} (cr : network) (w : World) :
  ExternalName cr <> "" ->
  exists rep t, trace (Update cr w) = Exchange (Rep := network_reply) (GetVPC (ExternalName cr)) rep :: t /\
    match read_reply_pre (A := Vpc) "network/network: " rep with
    | Err e => outcome (Update cr w) = Err e /\ t = []
    | Ok v =>
        match FirstImmutableDiff (network_checks (ForProvider cr) v) with
        | Some field =>
            outcome (Update cr w) = Err (Sentinel ErrImmutableFieldChange) /\ t = [] /\
            GetCondition TypeSynced (Conditions (final (Update cr w))) =
              SyncedFalse ReasonImmutableFieldChange (ImmutableMessage field)
        | None =>
            map request t = map (UpdateVPCs (ExternalName cr)) (network_due (ForProvider cr) v) /\
            final (Update cr w) = cr /\
            (t = [] -> outcome (Update cr w) = Ok tt)
        end
    end.
Proof.
  intros He.
  change (wp Update (fun o s' w' tr => exists rep t, tr = Exchange (Rep := network_reply) (GetVPC (ExternalName cr)) rep :: t /\
    match read_reply_pre (A := Vpc) "network/network: " rep with
    | Err e => o = Err e /\ t = []
    | Ok v =>
        match FirstImmutableDiff (network_checks (ForProvider cr) v) with
        | Some field => o = Err (Sentinel ErrImmutableFieldChange) /\ t = [] /\
            GetCondition TypeSynced (Conditions s') = SyncedFalse ReasonImmutableFieldChange (ImmutableMessage field)
        | None => map request t = map (UpdateVPCs (ExternalName cr)) (network_due (ForProvider cr) v) /\ s' = cr /\
            (t = [] -> o = Ok tt)
        end
    end) cr w).
  unfold Network.Update, network_due. do 2 wp_step. rewrite bool_decide_false by done. do 2 wp_step. cbn [network_reply] in *.
  destruct (read_reply_pre _ r) as [v|e] eqn:Er; [|exists r, []; cbn [network_reply]; by rewrite Er].
  destruct (FirstImmutableDiff _) as [field|] eqn:Ed.
  - wp_step. exists r, []. split; [done|]. cbn [network_reply]. rewrite Er, Ed. do 2 (split; [done|]).
    apply (get_set_eq (SyncedFalse ReasonImmutableFieldChange (ImmutableMessage field))).
  - case_bool_decide as Eb; wp_step.
    + exists r, []. split; [done|]. cbn [network_reply]. by rewrite Er, Ed, bool_decide_true.
    + exists r. eexists. split; [done|]. cbn [network_reply]. by rewrite Er, Ed, bool_decide_false.
Qed.

(** ** A faithful service *)

(** A VPC as created from a body. *)
Definition created_from (b : CreateVpc) (v : Vpc) : Prop :=
  vpc_Name v = cv_Name b /\ vpc_SubnetV4 v = cv_SubnetV4 b /\ vpc_Location v = cv_Location b /\
  vpc_Description v = default_str (cv_Description b) /\
  (forall az, cv_AvailabilityZone b = Some az -> vpc_AvailabilityZone v = az).

Definition with_description (d : string) (v : Vpc) : Vpc :=
  {| vpc_AvailabilityZone := vpc_AvailabilityZone v; vpc_Description := d; vpc_Id := vpc_Id v; vpc_Location := vpc_Location v;
     vpc_Name := vpc_Name v; vpc_SubnetV4 := vpc_SubnetV4 v; vpc_Type := vpc_Type v |}.

(** The description patch; an absent field changes nothing. *)
Definition patch_vpc (u : UpdateVpc) (v : Vpc) : Vpc :=
  match up_Description u with Some d => with_description d v | None => v end.

(** The account keeps the VPCs by id: a read gives the VPC stored, a create stores a
    new one under a fresh id, a patch changes it, a delete removes it, and a VPC that
    is not there is reported by the API's own not-found. Not every body is stored as it
    is sent (a name is trimmed, a subnet may be refused) and not every VPC can be deleted
    (one of type bgp, which a router left behind, cannot): [takes] and [frees] are those
    that are, and what is made of a body that is taken can be deleted. *)
Class FaithfulVpcs (takes : CreateVpc -> Prop) (frees : Vpc -> Prop) (vpcs : World -> gmap string Vpc) : Prop := {
  vpc_get id w r w' : serve (GetVPC id) w = (r, w') -> vpcs w' = vpcs w /\
    match vpcs w !! id with Some v => read_reply (A := Vpc) r = Ok v | None => gone r end;
  vpc_create b w r w' : serve (CreateVPC b) w = (r, w') -> takes b ->
    exists v, read_reply (A := Vpc) r = Ok v /\ created_from b v /\ frees v /\
    vpc_Id v <> "" /\ vpcs w !! vpc_Id v = None /\ vpcs w' = <[vpc_Id v := v]> (vpcs w);
  vpc_update id u w r w' : serve (UpdateVPCs id u) w = (r, w') ->
    match vpcs w !! id with
    | Some v => write_reply r = Ok tt /\ vpcs w' = <[id := patch_vpc u v]> (vpcs w)
    | None => gone r /\ vpcs w' = vpcs w
    end;
  vpc_delete id w r w' : serve (DeleteVPC id) w = (r, w') ->
    match vpcs w !! id with
    | Some v => frees v -> write_reply r = Ok tt /\ vpcs w' = delete id (vpcs w)
    | None => gone r /\ vpcs w' = vpcs w
    end }.

Section Life.
Context {takes : CreateVpc -> Prop} {frees : Vpc -> Prop} {vpcs : World -> gmap string Vpc} {F : FaithfulVpcs takes frees vpcs}.

Lemma created_up_to_date fp v : created_from (buildCreateVPCBody fp) v -> isNetworkUpToDate fp v = true.
Proof.
  intros (Hn & Hs & Hl & Hd & Haz). simpl in *. apply up_to_date_fields. split; [|by rewrite Hd].
  unfold network_checks. destruct (ntw_AvailabilityZone fp) as [az|]; simpl; repeat constructor; simpl; try done.
  symmetry. by apply Haz.
Qed.

(** Reading a stored or a missing VPC. *)
Lemma Observe_stored (cr : network) w v (Q : post ExternalObservation) :
  ExternalName cr <> "" -> vpcs w !! ExternalName cr = Some v ->
  (forall s' w' t, ExternalName s' = ExternalName cr -> ForProvider s' = ForProvider cr -> vpcs w' = vpcs w ->
     map request t = [GetVPC (ExternalName cr)] ->
     Q (Ok {| ResourceExists := true; ResourceUpToDate := isNetworkUpToDate (ForProvider cr) v |}) s' w' t) ->
  wp Observe Q cr w.
Proof.
  intros He Hv HQ. unfold Network.Observe. do 2 wp_step. rewrite bool_decide_false by done.
  apply wp_get_or_absent. intros r w' Hs. destruct (vpc_get _ _ _ _ Hs) as [Hw Hr]. rewrite Hv in Hr.
  apply (read_reply_pre_ok "network/network: ") in Hr. cbn [network_reply] in *. rewrite Hr. unfold observe_vpc. do 7 wp_step. by apply HQ.
Qed.

Lemma Observe_missing (cr : network) w (Q : post ExternalObservation) :
  ExternalName cr = "" \/ vpcs w !! ExternalName cr = None ->
  (forall w' t, vpcs w' = vpcs w -> Q (Ok not_exists) cr w' t) -> wp Observe Q cr w.
Proof.
  intros Hm HQ. unfold Network.Observe. do 2 wp_step. case_bool_decide as He; [wp_step; by apply HQ|].
  destruct Hm as [?|Hm]; [done|]. apply wp_get_or_absent. intros r w' Hs.
  destruct (vpc_get _ _ _ _ Hs) as [Hw Hr]. rewrite Hm in Hr. destruct (gone_classified r Hr) as (e & Hn & _ & Hp).
  cbn [network_reply] in *. rewrite Hp, Hn. by apply HQ.
Qed.

(** The states a Network goes through: not created, then stored and up to date. *)
Definition network_life (fp : NetworkParameters) (w0 : World) (k : nat) (cr : network) (w : World) : Prop :=
  ForProvider cr = fp /\
  match k with
  | 0%nat => exists v, frees v /\ vpc_Id v <> "" /\ vpcs w0 !! vpc_Id v = None /\ vpcs w = <[vpc_Id v := v]> (vpcs w0) /\
               ExternalName cr = vpc_Id v /\ isNetworkUpToDate fp v = true
  | 1%nat => ExternalName cr = "" /\ vpcs w = vpcs w0 /\ takes (buildCreateVPCBody fp)
  | _ => False
  end.

Lemma life_created fp w0 cr w :
  network_life fp w0 1 cr w -> let x := pass (network_controller recorder) false (cr, w) in network_life fp w0 0 x.1 x.2.
Proof.
  intros (Hfp & He & Hw & Ht). apply pass_wp, wp_reconcile. cbn [c_observe c_create network_controller fst snd].
  apply Observe_missing; [by left|]. intros w1 t Hw1. cbn [ResourceExists not_exists negb].
  unfold Network.Create. do 4 wp_step. rewrite <- Hfp in Ht. destruct (vpc_create _ _ _ _ H Ht) as (v & Hr & Hc & Hfree & Hid & Hf & Hv).
  apply (read_reply_pre_ok "network/network: ") in Hr. cbn [network_reply] in *. rewrite Hr. do 5 wp_step.
  split; [by destruct recorder|]. exists v. rewrite Hw1, Hw in Hf, Hv. split_and!; [done..| |].
  - by destruct recorder.
  - rewrite <- Hfp. by apply created_up_to_date.
Qed.

Lemma life_held fp w0 cr w :
  network_life fp w0 0 cr w -> let x := pass (network_controller recorder) false (cr, w) in network_life fp w0 0 x.1 x.2.
Proof.
  intros (Hfp & v & Hfree & Hid & Hf & Hw & Hx & Hu). apply pass_wp, wp_reconcile. cbn [c_observe network_controller fst snd].
  apply (Observe_stored cr w v); [by rewrite Hx|by rewrite Hx, Hw, lookup_insert_eq|]. intros s' w' t HE HP HW Ht.
  cbn [ResourceExists ResourceUpToDate negb]. rewrite Hfp, Hu. cbn [negb]. wp_step.
  split; [by rewrite HP|]. exists v. by rewrite HW, HE.
Qed.

#[export] Instance network_settles fp w0 : Settles (network_controller recorder) false (network_life fp w0).
Proof.
  split; [|apply life_held]. intros [|k] cr w H; [by apply life_created|]. by destruct H.
Qed.
(** Under deletion: still stored, then gone and the account as it was before. *)
Definition network_end (w0 : World) (k : nat) (cr : network) (w : World) : Prop :=
  ExternalName cr <> "" /\ vpcs w0 !! ExternalName cr = None /\
  match k with
  | 0%nat => vpcs w = vpcs w0
  | 1%nat => exists v, frees v /\ vpcs w = <[ExternalName cr := v]> (vpcs w0)
  | _ => False
  end.

Lemma end_deleted w0 cr w :
  network_end w0 1 cr w -> let x := pass (network_controller recorder) true (cr, w) in network_end w0 0 x.1 x.2.
Proof.
  intros (He & Hf & v & Hfree & Hw). apply pass_wp, wp_reconcile. cbn [c_observe network_controller fst snd].
  apply (Observe_stored cr w v); [done|by rewrite Hw, lookup_insert_eq|]. intros s' w' t HE HP HW Ht.
  cbn [ResourceExists c_delete network_controller]. unfold Network.Delete. do 2 wp_step. rewrite bool_decide_false by congruence.
  apply wp_delete_or_gone. intros r w2 Hs. apply vpc_delete in Hs. rewrite HE, HW, Hw, lookup_insert_eq in Hs.
  destruct (Hs Hfree) as [Hr Hv]. cbn [network_reply] in *. rewrite Hr. cbv beta iota. wp_step. unfold network_end.
  replace (ExternalName (set_conditions _ _)) with (ExternalName cr) by (by destruct recorder).
  split; [done|]. split; [done|]. rewrite Hv. by rewrite delete_insert_id.
Qed.

Lemma end_held w0 cr w :
  network_end w0 0 cr w -> let x := pass (network_controller recorder) true (cr, w) in network_end w0 0 x.1 x.2.
Proof.
  intros (He & Hf & Hw). apply pass_wp, wp_reconcile. cbn [c_observe network_controller fst snd].
  apply Observe_missing; [right; by rewrite Hw|]. intros w' t HW. cbn [ResourceExists not_exists]. wp_step.
  unfold network_end. by rewrite HW.
Qed.

#[export] Instance network_ends w0 : Settles (network_controller recorder) true (network_end w0).
Proof. split; [|apply end_held]. intros [|k] cr w H; [by apply end_deleted|]. by destruct H as (_ & _ & ?). Qed.

(** C10. The life of a Network whose declaration the service takes as it is, at a service
    that answers every call, keeps what it made and lets go of it: created once under a
    fresh id and up to date from then on, every later pass making the one read; and once
    it is being deleted, gone, with the account as it was before the Network was
    declared. Nothing is said of a create whose answer is lost, of a name the service
    trims, nor of a VPC it will not delete. *)
Theorem network_lifecycle (cr : network) (w : World) (n m : nat) (x y : network * World) :
  ExternalName cr = "" -> takes (buildCreateVPCBody (ForProvider cr)) ->
  x = passes (S n) (network_controller recorder) false (cr, w) ->
  y = passes (S m) (network_controller recorder) true x ->
  (exists v, vpcs w !! vpc_Id v = None /\ vpcs x.2 = <[vpc_Id v := v]> (vpcs w) /\ ExternalName x.1 = vpc_Id v /\
     isNetworkUpToDate (ForProvider x.1) v = true) /\
  calls (reconcile (network_controller recorder) false x.1 x.2) = [GetVPC (ExternalName x.1)] /\
  vpcs y.2 = vpcs w /\ outcome (Observe y.1 y.2) = Ok not_exists.
Proof.
  intros He Htk Ex Ey.
  assert (network_life (ForProvider cr) w 0 x.1 x.2) as Hx.
  { rewrite Ex. apply (passes_settle _ _ _ _ 1); [|lia]. by split. }
  destruct Hx as (Hfp & v & Hfree & Hid & Hf & Hw & HE & Hu).
  assert (network_end w 0 y.1 y.2) as (Hy & Hyf & Hyw).
  { rewrite Ey. clear Ex Ey. destruct x as [cr' w']. apply (passes_settle _ _ _ (network_ends w) 1); [|lia]. cbn [fst snd] in *.
    unfold network_end. rewrite HE. split_and!; [done..|]. by exists v. }
  split_and!; [exists v; by rewrite Hfp| |done|].
  - change (wp (reconcile (network_controller recorder) false) (fun _ _ _ t => map request t = [GetVPC (ExternalName x.1)]) x.1 x.2).
    apply wp_reconcile. cbn [c_observe network_controller].
    apply (Observe_stored x.1 x.2 v); [by rewrite HE|by rewrite HE, Hw, lookup_insert_eq|]. intros s' w' t _ _ _ Ht.
    cbn [ResourceExists ResourceUpToDate negb]. rewrite Hfp, Hu. cbn [negb]. wp_step. by rewrite app_nil_r.
  - change (wp Observe (fun o _ _ _ => o = Ok not_exists) y.1 y.2). apply Observe_missing; [right; by rewrite Hyw|done].
Qed.
(** The description a pass leaves: the declared one, and what was there when none is
    declared. *)
Definition described (fp : NetworkParameters) (v : Vpc) : Vpc :=
  match ntw_Description fp with Some d => with_description d v | None => v end.

Lemma described_same fp v : DerefString (ntw_Description fp) = vpc_Description v -> described fp v = v.
Proof. unfold described. destruct (ntw_Description fp), v; simpl; intros; by subst. Qed.

Lemma described_twice fp v : described fp (described fp v) = described fp v.
Proof. unfold described. by destruct (ntw_Description fp). Qed.

Lemma Update_stored (cr : network) w v (Q : post unit) :
  ExternalName cr <> "" -> vpcs w !! ExternalName cr = Some v ->
  FirstImmutableDiff (network_checks (ForProvider cr) v) = None ->
  (forall w' t, vpcs w' = <[ExternalName cr := described (ForProvider cr) v]> (vpcs w) -> Q (Ok tt) cr w' t) ->
  wp Update Q cr w.
Proof.
  intros He Hv Hd HQ. unfold Network.Update. do 2 wp_step. rewrite bool_decide_false by done. do 2 wp_step.
  destruct (vpc_get _ _ _ _ H) as [Hw Hr]. rewrite Hv in Hr.
  apply (read_reply_pre_ok "network/network: ") in Hr. cbn [network_reply] in *. rewrite Hr, Hd.
  case_bool_decide as Eb; wp_step.
  - apply HQ. rewrite described_same by done. by rewrite insert_id, Hw by done.
  - pose proof (vpc_update _ _ _ _ _ H0) as Hu. rewrite Hw, Hv in Hu. destruct Hu as [Hr' Hw'].
    cbn [network_reply] in *. rewrite Hr'. by apply HQ.
Qed.

(** A Network whose immutable fields are as declared: stored with its description
    not yet, and then for good, the one a pass leaves. *)
Definition network_edited (fp : NetworkParameters) (id : string) (w0 : World) (v : Vpc) (k : nat) (cr : network) (w : World)
  : Prop :=
  ForProvider cr = fp /\ ExternalName cr = id /\ id <> "" /\
  Forall (fun f => if_Desired f = if_Observed f) (network_checks fp v) /\
  match k with
  | 0%nat => vpcs w = <[id := described fp v]> (vpcs w0)
  | 1%nat => vpcs w = vpcs w0 /\ vpcs w !! id = Some v
  | _ => False
  end.

Lemma checks_described fp v : network_checks fp (described fp v) = network_checks fp v.
Proof. unfold described. by destruct (ntw_Description fp). Qed.

(** One pass over a stored VPC leaves it described. *)
Lemma pass_describes fp v cr w :
  ForProvider cr = fp -> ExternalName cr <> "" -> vpcs w !! ExternalName cr = Some v ->
  Forall (fun f => if_Desired f = if_Observed f) (network_checks fp v) ->
  let x := pass (network_controller recorder) false (cr, w) in
  ForProvider x.1 = fp /\ ExternalName x.1 = ExternalName cr /\
  vpcs x.2 = <[ExternalName cr := described fp v]> (vpcs w).
Proof.
  intros Hfp He Hv Hs.
  apply (pass_wp _ _ (fun s' w' => ForProvider s' = fp /\ ExternalName s' = ExternalName cr /\
    vpcs w' = <[ExternalName cr := described fp v]> (vpcs w))).
  apply wp_reconcile. apply (Observe_stored cr w v); [done..|]. intros s' w' t HE HP HW _.
  cbn [ResourceExists ResourceUpToDate negb c_update network_controller]. rewrite Hfp.
  destruct (isNetworkUpToDate fp v) eqn:Eu; cbn [negb].
  - wp_step. split_and!; [by rewrite HP|done|]. apply up_to_date_fields in Eu as [_ Hdesc].
    by rewrite HW, described_same, insert_id.
  - apply (Update_stored _ _ v); rewrite ?HE, ?HW, ?HP, ?Hfp; [done|done|by apply same_no_diff|]. intros w2 t' Hw2.
    split_and!; congruence.
Qed.

#[export] Instance network_edit_settles fp id w0 v :
  Settles (network_controller recorder) false (network_edited fp id w0 v).
Proof.
  split.
  - intros [|k] cr w (Hfp & <- & He & Hs & Hk); [|done]. destruct Hk as [Hw Hv].
    destruct (pass_describes fp v cr w) as (H1 & H2 & H3); [done..|]. cbv zeta. unfold network_edited.
    split_and!; [done..|]. by rewrite H3, Hw.
  - intros cr w (Hfp & <- & He & Hs & Hw).
    destruct (pass_describes fp (described fp v) cr w) as (H1 & H2 & H3);
      [done|done|by rewrite Hw, lookup_insert_eq|by rewrite checks_described|].
    cbv zeta. unfold network_edited. split_and!; [done..|]. by rewrite H3, Hw, described_twice, insert_insert_eq.
Qed.

(** An edit of the description reaches the VPC in one pass and changes nothing else.
    Taking the description out of the declaration changes nothing at all: the patch
    that is sent carries no field, the VPC keeps the old description, and it is
    never up to date again. *)
Theorem network_description_edit (cr : network) (w : World) (v : Vpc) (n : nat) :
  ExternalName cr <> "" -> vpcs w !! ExternalName cr = Some v ->
  Forall (fun f => if_Desired f = if_Observed f) (network_checks (ForProvider cr) v) ->
  let x := passes (S n) (network_controller recorder) false (cr, w) in
  ForProvider x.1 = ForProvider cr /\
  match ntw_Description (ForProvider cr) with
  | Some d => vpcs x.2 = <[ExternalName cr := with_description d v]> (vpcs w) /\
              isNetworkUpToDate (ForProvider cr) (with_description d v) = true
  | None => vpcs x.2 = vpcs w /\ (vpc_Description v <> "" -> isNetworkUpToDate (ForProvider cr) v = false)
  end.
Proof.
  intros He Hv Hs. cbv zeta. set (x := passes _ _ _ _).
  assert (network_edited (ForProvider cr) (ExternalName cr) w v 0 x.1 x.2) as (Hfp & _ & _ & _ & Hw).
  { apply (passes_settle _ _ _ _ 1); [|lia]. by split. }
  split; [done|]. rewrite Hw. unfold described. destruct (ntw_Description (ForProvider cr)) as [d|] eqn:Ed.
  - split; [done|]. apply up_to_date_fields. by rewrite Ed.
  - split; [by rewrite insert_id|]. intros Hne. apply not_true_iff_false.
    rewrite up_to_date_fields, Ed. simpl. by intros [_ ?].
Qed.
End Life.
End NetworkFacts.

(** ** Witnesses *)

(** An account of VPCs, whose names it trims; it keeps the bgp ones. *)
Definition fresh_id (m : gmap string Vpc) : string := fresh (dom m ∪ {[""]} : gset string).

Definition new_vpc (b : CreateVpc) (id : string) : Vpc :=
  {| vpc_AvailabilityZone := default "spb-1" (cv_AvailabilityZone b); vpc_Description := default_str (cv_Description b);
     vpc_Id := id; vpc_Location := cv_Location b; vpc_Name := trim_space (cv_Name b); vpc_SubnetV4 := cv_SubnetV4 b; vpc_Type := "ovn" |}.

Definition sim_vpcs (q : network_request) (m : gmap string Vpc) : reply (network_reply q) * gmap string Vpc :=
  match q with
  | GetVPC id => (match m !! id with Some v => ok_reply v | None => gone_reply end, m)
  | CreateVPC b =>
      if bool_decide (trim_space (cv_Name b) = "") then (NetErr "refused", m)
      else (ok_reply (new_vpc b (fresh_id m)), <[fresh_id m := new_vpc b (fresh_id m)]> m)
  | UpdateVPCs id u =>
      match m !! id with
      | Some v => (ok_reply tt, <[id := patch_vpc u v]> m)
      | None => (gone_reply, m)
      end
  | DeleteVPC id =>
      match m !! id with
      | Some v => if bool_decide (vpc_Type v = "bgp") then (NetErr "refused", m) else (ok_reply tt, delete id m)
      | None => (gone_reply, m)
      end
  end.

Definition SimVpcs : Upstream network_request network_reply := {| World := gmap string Vpc; serve := sim_vpcs |}.

Lemma fresh_id_spec m : fresh_id m <> "" /\ m !! fresh_id m = None.
Proof.
  pose proof (is_fresh (dom m ∪ {[""]} : gset string)) as H. fold (fresh_id m) in H.
  split; [set_solver|]. apply not_elem_of_dom. set_solver.
Qed.

Definition sim_takes (b : CreateVpc) : Prop := trim_space (cv_Name b) = cv_Name b /\ cv_Name b <> "".

#[export] Instance SimVpcs_faithful : FaithfulVpcs (U := SimVpcs) sim_takes (fun v => vpc_Type v <> "bgp") (fun m => m).
Proof.
  split.
  - intros id w r w' H. cbn [serve SimVpcs sim_vpcs] in H.
    injection H as <- <-. split; [done|]. cbn in w.
    destruct (w !! id) as [v|]; cbv beta iota; [reflexivity|apply gone_reply_gone].
  - intros b w r w' H [Ht Hne]. cbn [serve SimVpcs sim_vpcs] in H. rewrite bool_decide_eq_false_2 in H by congruence.
    injection H as <- <-. exists (new_vpc b (fresh_id w)). destruct (fresh_id_spec w). split_and!; try done.
    split_and!; try done. simpl. by intros az ->.
  - intros id u w r w' H. cbn [serve SimVpcs sim_vpcs] in H.
    cbn in w. destruct (w !! id) as [v|]; cbv beta iota in H |- *; injection H as <- <-; [done|].
    split; [apply gone_reply_gone|done].
  - intros id w r w' H. cbn [serve SimVpcs sim_vpcs] in H. cbn in w.
    destruct (w !! id) as [v|] eqn:E; cbv beta iota in H |- *.
    + intros Hf. rewrite bool_decide_eq_false_2 in H by done. by injection H as <- <-.
    + injection H as <- <-. split; [apply gone_reply_gone|done].
Qed.

#[local] Existing Instance MapRuntime.

Definition sample_network (name : string) (description : option string) : managed NetworkParameters NetworkObservation :=
  {| ExternalName := name;
     ForProvider := {| ntw_Name := "vpc"; ntw_SubnetCIDR := "10.0.0.0/24"; ntw_Location := "ru-1";
                       ntw_Description := description; ntw_AvailabilityZone := None |};
     AtProvider := {| nto_UpstreamID := None; nto_AssignedCIDR := None; nto_State := None |};
     Conditions := no_conds; Events := [] |}.

Definition sample_vpc : Vpc :=
  {| vpc_AvailabilityZone := "spb-3"; vpc_Description := "old"; vpc_Id := "n1"; vpc_Location := "ru-1"; vpc_Name := "vpc";
     vpc_SubnetV4 := "10.0.0.0/24"; vpc_Type := "ovn" |}.

Lemma network_observe_update_agree_witness :
  isNetworkUpToDate (ForProvider (sample_network "n1" None)) sample_vpc = true <->
    FirstImmutableDiff (network_checks (ForProvider (sample_network "n1" None)) sample_vpc) = None /\ "" = "old".
Proof.
  apply (network_observe_update_agree (ForProvider (sample_network "n1" None)) sample_vpc).
  repeat constructor; vm_compute; reflexivity.
Defined.

Lemma network_update_spec_witness :
  let run := Update (U := SimVpcs) true (sample_network "n1" (Some "new")) {["n1" := sample_vpc]} in
  exists rep t, trace run = Exchange (Rep := network_reply) (GetVPC "n1") rep :: t /\
    match read_reply_pre (A := Vpc) "network/network: " rep with
    | Err e => outcome run = Err e /\ t = []
    | Ok v =>
        match FirstImmutableDiff (network_checks (ForProvider (sample_network "n1" (Some "new"))) v) with
        | Some field =>
            outcome run = Err (Sentinel ErrImmutableFieldChange) /\ t = [] /\
            GetCondition TypeSynced (Conditions (final run)) =
              SyncedFalse ReasonImmutableFieldChange (ImmutableMessage field)
        | None =>
            map request t = map (UpdateVPCs "n1") (network_due (ForProvider (sample_network "n1" (Some "new"))) v) /\
            final run = sample_network "n1" (Some "new") /\ (t = [] -> outcome run = Ok tt)
        end
    end.
Proof.
  apply (network_update_spec (L := MapRuntime_laws) (U := SimVpcs) true (sample_network "n1" (Some "new"))
    {["n1" := sample_vpc]}). discriminate.
Defined.

Lemma network_lifecycle_witness :
  let x := passes 3 (network_controller (U := SimVpcs) true) false (sample_network "" None, ∅) in
  let y := passes 2 (network_controller (U := SimVpcs) true) true x in
  (exists v, (∅ : gmap string Vpc) !! vpc_Id v = None /\ x.2 = <[vpc_Id v := v]> ∅ /\ ExternalName x.1 = vpc_Id v /\
     isNetworkUpToDate (ForProvider x.1) v = true) /\
  calls (reconcile (network_controller (U := SimVpcs) true) false x.1 x.2) = [GetVPC (ExternalName x.1)] /\
  y.2 = ∅ /\ outcome (Observe (U := SimVpcs) true y.1 y.2) = Ok not_exists.
Proof.
  apply (network_lifecycle (U := SimVpcs) (vpcs := fun m => m) (F := SimVpcs_faithful) true (sample_network "" None) ∅ 2 1);
    [reflexivity|split; [reflexivity|discriminate]|reflexivity..].
Defined.

Lemma network_description_edit_witness :
  let x := passes 2 (network_controller (U := SimVpcs) true) false (sample_network "n1" None, {["n1" := sample_vpc]}) in
  ForProvider x.1 = ForProvider (sample_network "n1" None) /\
  x.2 = {["n1" := sample_vpc]} /\
  (vpc_Description sample_vpc <> "" -> isNetworkUpToDate (ForProvider (sample_network "n1" None)) sample_vpc = false).
Proof.
  apply (network_description_edit (U := SimVpcs) (vpcs := fun m => m) (F := SimVpcs_faithful) true (sample_network "n1" None)
    {["n1" := sample_vpc]} sample_vpc 1); [discriminate|reflexivity|].
  repeat constructor.
Defined.
