(* ===== verification/FloatingIP.v ===== *)
(** * FloatingIP: the floating-IP controller

    [internal/controller/network/floatingip_external.go]: a FloatingIP is pure
    allocation. [Create] allocates it, [Update] edits its comment, [Delete] releases
    it; who holds it is only mirrored into the status. *)

From S2P Require Import Prelude Errors Timeweb Shared Effects Lifecycle.

(** ** Payloads *)

(** [twgen.FloatingIp]: the fields read. [resource_id] is a JSON string or a number,
    the number as its [float32] decoding holds it. *)
Record FloatingIp := {
  fi_AvailabilityZone : string;
  fi_Comment : option string;
  fi_Id : string;
  fi_Ip : option string;
  fi_IsDdosGuard : bool;
  fi_ResourceId : option (string + Z);
  fi_ResourceType : option string }.

Record CreateFloatingIp := { cf_AvailabilityZone : string; cf_IsDdosGuard : bool }.

Inductive fip_request : Type :=
| GetFloatingIp (id : string)
| CreateFloatingIp_ (body : CreateFloatingIp)
| UpdateFloatingIP (id : string) (comment : option string)
| DeleteFloatingIP (id : string).

Definition fip_reply (q : fip_request) : Type :=
  match q with
  | GetFloatingIp _ | CreateFloatingIp_ _ => FloatingIp
  | _ => unit
  end.

(** The two readings of [resource_id]: [json.Unmarshal] into a [float32] and into a
    string. *)
Definition AsFloatingIpResourceId0 (r : string + Z) : option Z := match r with inr n => Some n | inl _ => None end.
Definition AsFloatingIpResourceId1 (r : string + Z) : option string := match r with inl s => Some s | inr _ => None end.

(** ** The managed resource *)

Record FloatingIPParameters := {
  fpp_Location : string;
  fpp_Comment : option string;
  fpp_AvailabilityZone : option string;
  fpp_IsDDoSGuard : bool }.

Record FloatingIPBindingObservation := {
  fbo_ResourceType : option string;
  fbo_ResourceID : option Z;
  fbo_ResourceUUID : option string }.

Record FloatingIPObservation := {
  fpo_UpstreamID : option string;
  fpo_IP : option string;
  fpo_ObservedBoundTo : option FloatingIPBindingObservation;
  fpo_ObservedBoundSummary : option string }.

(** ** Helpers *)

Definition availabilityZoneFor (fp : FloatingIPParameters) : result error string :=
  if negb (bool_decide (default_str (fpp_AvailabilityZone fp) = "")) then Ok (default_str (fpp_AvailabilityZone fp))
  else match DefaultZoneForLocation (fpp_Location fp) with
       | Ok az => Ok az
       | Err e => Err (wrap_pre "network/floatingip: " e)
       end.

Definition isFloatingIPUpToDate (spec : FloatingIPParameters) (fip : FloatingIp) : bool :=
  bool_decide (DerefString (fpp_Comment spec) = DerefString (fi_Comment fip)).

(** The holder: type, UUID if there is one, number otherwise; and its summary. *)
Definition bound_to (fip : FloatingIp) : option FloatingIPBindingObservation * option string :=
  match fi_ResourceType fip with
  | None => (None, None)
  | Some rt =>
      let '(uuid, num) :=
        match fi_ResourceId fip with
        | None => (None, None)
        | Some r =>
            match AsFloatingIpResourceId1 r with
            | Some u => if bool_decide (u = "") then (None, AsFloatingIpResourceId0 r) else (Some u, None)
            | None => (None, AsFloatingIpResourceId0 r)
            end
        end in
      let idStr := match uuid with
                   | Some u => u
                   | None => match num with Some n => fmt_d n | None => "" end
                   end in
      (Some {| fbo_ResourceType := Some rt; fbo_ResourceID := num; fbo_ResourceUUID := uuid |},
       Some (if bool_decide (idStr = "") then rt else rt +:+ "/" +:+ idStr))
  end.

Definition fip_status (fip : FloatingIp) : FloatingIPObservation :=
  {| fpo_UpstreamID := Some (fi_Id fip); fpo_IP := fi_Ip fip;
     fpo_ObservedBoundTo := (bound_to fip).1; fpo_ObservedBoundSummary := (bound_to fip).2 |}.

Definition fmt_bool (b : bool) : string := if b then "true" else "false".

Definition fip_checks (fp : FloatingIPParameters) (az : string) (observed : FloatingIp) : list ImmutableField :=
  [{| if_Name := "availabilityZone"; if_Desired := az; if_Observed := fi_AvailabilityZone observed |};
   {| if_Name := "isDDoSGuard"; if_Desired := fmt_bool (fpp_IsDDoSGuard fp); if_Observed := fmt_bool (fi_IsDdosGuard observed) |}].

(** The connection details of a status. *)
Definition floatingIPConnectionDetails (o : FloatingIPObservation) : gmap string string :=
  let cd : gmap string string := match fpo_IP o with Some ip => <["ip" := ip]> ∅ | None => ∅ end in
  match fpo_UpstreamID o with Some id => <["upstreamID" := id]> cd | None => cd end.

(** ** The external client *)
Section FloatingIPExternal.
Context `{R : CrossplaneRuntime} {U : Upstream fip_request fip_reply}.
Variable recorder : bool.

Notation fip := (managed FloatingIPParameters FloatingIPObservation).
Notation FM := (M U fip).

Definition populateFloatingIPStatus (f : FloatingIp) (cr : fip) : fip := set_at_provider (fip_status f) cr.

Definition observe_fip (f : FloatingIp) : FM (ExternalObservation * gmap string string) :=
  modify (populateFloatingIPStatus f);;
  note_condition recorder Available;;
  cr ← get;
  mret ({| ResourceExists := true; ResourceUpToDate := isFloatingIPUpToDate (ForProvider cr) f |},
        floatingIPConnectionDetails (AtProvider cr)).

Definition Observe : FM (ExternalObservation * gmap string string) :=
  cr ← get;
  if bool_decide (ExternalName cr = "") then mret (not_exists, ∅)
  else get_or_absent (not_exists, ∅) "network/floatingip: " (GetFloatingIp (ExternalName cr)) observe_fip.

Definition Create : FM (gmap string string) :=
  cr ← get;
  az ← lift (availabilityZoneFor (ForProvider cr));
  f ← call_decode "network/floatingip: "
        (CreateFloatingIp_ {| cf_AvailabilityZone := az; cf_IsDdosGuard := fpp_IsDDoSGuard (ForProvider cr) |});
  modify (set_external_name (fi_Id f));;
  modify (populateFloatingIPStatus f);;
  note_condition recorder Creating;;
  cr ← get;
  mret (floatingIPConnectionDetails (AtProvider cr)).

Definition Update : FM unit :=
  cr ← get;
  let fp := ForProvider cr in
  if bool_decide (ExternalName cr = "") then throw (ErrorString "network/floatingip: empty external-name on Update")
  else
    observed ← call_decode "network/floatingip: " (GetFloatingIp (ExternalName cr));
    az ← lift (availabilityZoneFor fp);
    match FirstImmutableDiff (fip_checks fp az observed) with
    | Some field => reject (RejectImmutableChange recorder field)
    | None =>
        if bool_decide (DerefString (fpp_Comment fp) = DerefString (fi_Comment observed)) then mret tt
        else do_ (UpdateFloatingIP (ExternalName cr) (fpp_Comment fp))
    end.

Definition Delete : FM unit :=
  cr ← get;
  if bool_decide (ExternalName cr = "") then mret tt
  else delete_or_gone (DeleteFloatingIP (ExternalName cr)) (note_condition recorder Deleting).

(** ** What it promises *)

(** The comment patch due on an allocated address. *)
Definition comment_due (fp : FloatingIPParameters) (f : FloatingIp) : list (option string) :=
  if isFloatingIPUpToDate fp f then [] else [fpp_Comment fp].

(** An [Update] reads the address and then either fails with the read or with a
    placement it cannot resolve, or rejects the first immutable field that changed
    and writes nothing, or sends the comment when it differs, and only then. *)
Theorem floatingip_update_spec {L : CrossplaneLaws R} (cr : fip) (w : World) :
  ExternalName cr <> "" ->
  exists rep t, trace (Update cr w) = Exchange (Rep := fip_reply) (GetFloatingIp (ExternalName cr)) rep :: t /\
    match read_reply_pre (A := FloatingIp) "network/floatingip: " rep, availabilityZoneFor (ForProvider cr) with
    | Err e, _ => outcome (Update cr w) = Err e /\ t = []
    | Ok _, Err e => outcome (Update cr w) = Err e /\ t = []
    | Ok f, Ok az =>
        match FirstImmutableDiff (fip_checks (ForProvider cr) az f) with
        | Some field =>
            outcome (Update cr w) = Err (Sentinel ErrImmutableFieldChange) /\ t = [] /\
            GetCondition TypeSynced (Conditions (final (Update cr w))) =
              SyncedFalse ReasonImmutableFieldChange (ImmutableMessage field)
        | None =>
            map request t = map (UpdateFloatingIP (ExternalName cr)) (comment_due (ForProvider cr) f) /\
            final (Update cr w) = cr /\ (t = [] -> outcome (Update cr w) = Ok tt)
        end
    end.
Proof.
  intros He.
  change (wp Update (fun o s' w' tr => exists rep t, tr = Exchange (Rep := fip_reply) (GetFloatingIp (ExternalName cr)) rep :: t /\
    match read_reply_pre (A := FloatingIp) "network/floatingip: " rep, availabilityZoneFor (ForProvider cr) with
    | Err e, _ => o = Err e /\ t = []
    | Ok _, Err e => o = Err e /\ t = []
    | Ok f, Ok az =>
        match FirstImmutableDiff (fip_checks (ForProvider cr) az f) with
        | Some field => o = Err (Sentinel ErrImmutableFieldChange) /\ t = [] /\
            GetCondition TypeSynced (Conditions s') = SyncedFalse ReasonImmutableFieldChange (ImmutableMessage field)
        | None => map request t = map (UpdateFloatingIP (ExternalName cr)) (comment_due (ForProvider cr) f) /\ s' = cr /\
            (t = [] -> o = Ok tt)
        end
    end) cr w).
  unfold Update, comment_due, isFloatingIPUpToDate. do 2 wp_step. rewrite bool_decide_false by done. do 2 wp_step.
  cbn [fip_reply] in *. destruct (read_reply_pre _ r) as [f|e] eqn:Er; [|exists r, []; cbn [fip_reply]; by rewrite Er].
  do 2 wp_step. destruct (availabilityZoneFor _) as [az|e] eqn:Ea; [|exists r, []; cbn [fip_reply]; by rewrite Er].
  destruct (FirstImmutableDiff _) as [field|] eqn:Ed.
  - wp_step. exists r, []. split; [done|]. cbn [fip_reply]. rewrite Er, Ed. do 2 (split; [done|]).
    apply (get_set_eq (SyncedFalse ReasonImmutableFieldChange (ImmutableMessage field))).
  - destruct (bool_decide _) eqn:Eb; wp_step; exists r; eexists; (split; [done|]); cbn [fip_reply]; by rewrite Er, Ed, Eb.
Qed.

(** An edit of a field [Update] would reject never gets there: only the comment
    decides whether the address is up to date, so with the comment unchanged [Update]
    is not called and nothing is said. *)
Theorem floatingip_immutable_edit_unnoticed (fp : FloatingIPParameters) (f : FloatingIp) (location : string)
    (az : option string) (ddos : bool) :
  isFloatingIPUpToDate {| fpp_Location := location; fpp_Comment := fpp_Comment fp; fpp_AvailabilityZone := az;
                          fpp_IsDDoSGuard := ddos |} f = isFloatingIPUpToDate fp f /\
  (ddos <> fi_IsDdosGuard f -> forall zone,
     is_Some (FirstImmutableDiff (fip_checks {| fpp_Location := location; fpp_Comment := fpp_Comment fp;
                                                fpp_AvailabilityZone := az; fpp_IsDDoSGuard := ddos |} zone f))).
Proof.
  split; [done|]. intros Hd zone. unfold fip_checks. simpl.
  destruct (bool_decide (trim_space zone = _)); simpl; [|done].
  rewrite bool_decide_false; [done|]. destruct ddos, (fi_IsDdosGuard f); simpl; done.
Qed.
End FloatingIPExternal.

(** ** Witnesses *)

Definition sample_address : FloatingIp :=
  {| fi_AvailabilityZone := "msk-1"; fi_Comment := Some "old"; fi_Id := "ip-1"; fi_Ip := Some "203.0.113.7";
     fi_IsDdosGuard := false; fi_ResourceId := Some (inl "7f3c"); fi_ResourceType := Some "router" |}.

Definition one_address (q : fip_request) (w : FloatingIp) : reply (fip_reply q) * FloatingIp :=
  match q with
  | GetFloatingIp _ | CreateFloatingIp_ _ => (ok_reply w, w)
  | UpdateFloatingIP _ _ | DeleteFloatingIP _ => (ok_reply tt, w)
  end.

Definition OneAddress : Upstream fip_request fip_reply := {| World := FloatingIp; serve := one_address |}.

#[local] Existing Instance MapRuntime.

Definition sample_fip : managed FloatingIPParameters FloatingIPObservation :=
  {| ExternalName := "ip-1";
     ForProvider := {| fpp_Location := "ru-3"; fpp_Comment := Some "new"; fpp_AvailabilityZone := None; fpp_IsDDoSGuard := false |};
     AtProvider := fip_status sample_address; Conditions := no_conds; Events := [] |}.

Lemma floatingip_update_spec_witness :
  let run := Update (U := OneAddress) true sample_fip sample_address in
  exists rep t, trace run = Exchange (Rep := fip_reply) (GetFloatingIp "ip-1") rep :: t /\
    match read_reply_pre (A := FloatingIp) "network/floatingip: " rep, availabilityZoneFor (ForProvider sample_fip) with
    | Err e, _ => outcome run = Err e /\ t = []
    | Ok _, Err e => outcome run = Err e /\ t = []
    | Ok f, Ok az =>
        match FirstImmutableDiff (fip_checks (ForProvider sample_fip) az f) with
        | Some field =>
            outcome run = Err (Sentinel ErrImmutableFieldChange) /\ t = [] /\
            GetCondition TypeSynced (Conditions (final run)) =
              SyncedFalse ReasonImmutableFieldChange (ImmutableMessage field)
        | None =>
            map request t = map (UpdateFloatingIP "ip-1") (comment_due (ForProvider sample_fip) f) /\
            final run = sample_fip /\ (t = [] -> outcome run = Ok tt)
        end
    end.
Proof.
  apply (floatingip_update_spec (L := MapRuntime_laws) (U := OneAddress) true sample_fip sample_address). discriminate.
Defined.

Example sample_comment_sent :
  calls (Update (U := OneAddress) true sample_fip sample_address) = [GetFloatingIp "ip-1"; UpdateFloatingIP "ip-1" (Some "new")].
Proof. vm_compute. reflexivity. Qed.
