(* ===== verification/Server.v ===== *)
(** * Server: the cloud-server controller

    [internal/controller/compute/]: the references of [refs.go] and the Connect of
    [connector.go], [Observe], [Create], [Update] and [Delete] of
    [server_external.go], and the floating-IP bindings of [floatingip_bind.go]. The
    API's numbers reach the code as [float32]; a conversion to one is [f32], and a
    field of type [float32] is the integer it holds. *)

From S2P Require Import Prelude Errors Timeweb Slug Configurator Catalog Shared Effects Lifecycle Resolving RouterRefs.
From S2P Require Import Network FloatingIP.

(** ** Payloads *)

Record VdsIp := { vi_Ip : string; vi_Type : string }.
Record VdsNetwork := { vn_Type : string; vn_Ips : option (list VdsIp) }.

(** [twgen.Vds]: the fields read. *)
Record Vds := {
  vds_AvailabilityZone : string;
  vds_CloudInit : option string;
  vds_Comment : string;
  vds_ConfiguratorId : option Z;
  vds_Id : Z;
  vds_Location : string;
  vds_Name : string;
  vds_Networks : list VdsNetwork;
  vds_OsId : Z;
  vds_PresetId : option Z;
  vds_Status : string }.

Record ServerConfiguration := {
  sc_ConfiguratorId : Z;
  sc_Cpu : Z;
  sc_Disk : Z;
  sc_Gpu : option Z;
  sc_Ram : Z }.

(** [twgen.CreateServer]: the fields the controller sets. *)
Record CreateServerBody := {
  sb_AvailabilityZone : option string;
  sb_CloudInit : option string;
  sb_Comment : option string;
  sb_Configuration : option ServerConfiguration;
  sb_Hostname : option string;
  sb_Name : string;
  sb_NetworkId : option string;
  sb_OsId : option Z;
  sb_PresetId : option Z;
  sb_ProjectId : option Z;
  sb_SshKeysIds : option (list Z) }.

Record UpdateServerBody := {
  su_CloudInit : option string;
  su_Comment : option string;
  su_Name : option string }.

Inductive server_request : Type :=
| GetServer (id : Z)
| CreateServer (body : CreateServerBody)
| UpdateServer (id : Z) (body : UpdateServerBody)
| DeleteServer (id : Z)
| GetFloatingIp (fip : string)
| BindFloatingIp (fip : string) (resourceID : Z) (resourceType : string)
| UnbindFloatingIp (fip : string)
| GetVPC (id : string).

Definition server_reply (q : server_request) : Type :=
  match q with
  | GetServer _ | CreateServer _ => Vds
  | GetFloatingIp _ => FloatingIp
  | GetVPC _ => Vpc
  | _ => unit
  end.

(** ** The managed resource *)

Record ServerOS := { os_Image : string; os_Version : string }.

Record ServerResources := {
  sr_CPU : Z;
  sr_RAMGB : Z;
  sr_DiskGB : Z;
  sr_DiskType : option string;
  sr_BandwidthMbps : option Z;
  sr_GPU : option Z;
  sr_CPUFrequencyTier : option string;
  sr_EnableLocalNetwork : option bool }.

(** References are names; a selector is only tested for being set. *)
Record ServerParameters := {
  sp_Name : string;
  sp_PresetName : option string;
  sp_Resources : option ServerResources;
  sp_Location : string;
  sp_OS : ServerOS;
  sp_Hostname : option string;
  sp_Comment : option string;
  sp_CloudInit : option string;
  sp_AvailabilityZone : option string;
  sp_SSHKeyRefs : list string;
  sp_SSHKeySelector : bool;
  sp_SSHKeyIDs : list Z;
  sp_NetworkRef : option string;
  sp_NetworkSelector : bool;
  sp_NetworkID : option string;
  sp_ProjectRef : option string;
  sp_ProjectSelector : bool;
  sp_ProjectID : option Z;
  sp_FloatingIPRefs : list string;
  sp_FloatingIPSelector : bool;
  sp_FloatingIPIDs : list string }.

Record ServerObservation := {
  so_UpstreamID : option Z;
  so_LockedPresetID : option Z;
  so_LockedOSID : option Z;
  so_LockedConfiguratorID : option Z;
  so_PublicIP : option string;
  so_PublicIPv6 : option string;
  so_PrivateIP : option string;
  so_ResolvedNetworkID : option string;
  so_ResolvedProjectID : option Z;
  so_ResolvedSSHKeyIDs : list Z;
  so_BoundFloatingIPs : list string;
  so_State : option string;
  so_AvailabilityZone : option string }.

(** ** References *)

Record resolvedRefs := {
  rr_projectID : option Z;
  rr_sshKeyIDs : list Z;
  rr_networkID : option string;
  rr_floatingIPIDs : list string }.

(** The Kubernetes reads: of a Network its upstream id and location. *)
Record ServerReads := {
  read_server_network : string -> string -> kube_get (option string * string);
  read_server_project : string -> string -> kube_get (option Z);
  read_server_key : string -> string -> kube_get (option Z);
  read_server_fip : string -> string -> kube_get (option string) }.

Section ServerRefs.
Variable kube : ServerReads.
Variable ns : string.

Definition server_target_not_found (kind name : string) : error :=
  wrap_post (Sentinel ErrServerTargetNotFound) (": " +:+ kind +:+ " " +:+ quote name +:+ " in namespace " +:+ quote ns).

Definition server_target_not_ready (kind name : string) : error :=
  wrap_post (Sentinel ErrServerTargetNotReady) (": " +:+ kind +:+ " " +:+ quote name).

(** A target whose id must be there. *)
Definition target_id {A} (kind name : string) (v : kube_get (option A)) : result error A :=
  match v with
  | KNotFound => Err (server_target_not_found kind name)
  | KError msg => Err (get_failed kind name ns msg)
  | KFound None => Err (server_target_not_ready kind name)
  | KFound (Some a) => Ok a
  end.

(** An empty id counts as none. *)
Definition some_id (id : option string) : option string :=
  if bool_decide (default_str id = "") then None else Some (default_str id).

Definition map_get {A B} (f : A -> B) (v : kube_get A) : kube_get B :=
  match v with KFound a => KFound (f a) | KNotFound => KNotFound | KError m => KError m end.

Fixpoint resolveFloatingIPRefs (refs : list string) : result error (list string) :=
  match refs with
  | [] => Ok []
  | name :: rest =>
      id ← target_id "FloatingIP" name (map_get some_id (read_server_fip kube ns name));
      ids ← resolveFloatingIPRefs rest;
      Ok (id :: ids)
  end.

Definition resolveProjectRef (name : string) : result error Z :=
  target_id "Project" name (read_server_project kube ns name).

Fixpoint resolveSSHKeyRefs (refs : list string) : result error (list Z) :=
  match refs with
  | [] => Ok []
  | name :: rest =>
      id ← target_id "SSHKey" name (read_server_key kube ns name);
      ids ← resolveSSHKeyRefs rest;
      Ok (id :: ids)
  end.

Definition resolveNetworkRef (name : string) : result error (string * string) :=
  target_id "Network" name
    (map_get (fun v => match some_id v.1 with Some id => Some (id, v.2) | None => None end)
             (read_server_network kube ns name)).

Definition location_mismatch (what name loc location : string) : error :=
  wrap_post (Sentinel ErrNetworkLocationMismatch)
    (": " +:+ what +:+ " " +:+ quote name +:+ " is in " +:+ quote loc +:+ " but Server is in " +:+ quote location).

Definition resolve_server_project (fp : ServerParameters) : result error (option Z) :=
  match sp_ProjectID fp, sp_ProjectRef fp with
  | Some id, _ => Ok (Some id)
  | None, Some name => id ← resolveProjectRef name; Ok (Some id)
  | None, None =>
      if sp_ProjectSelector fp
      then Err (ErrorString "compute/server: forProvider.projectSelector is not implemented — use projectRef or projectID")
      else Ok None
  end.

Definition resolve_server_keys (fp : ServerParameters) : result error (list Z) :=
  match sp_SSHKeyIDs fp, sp_SSHKeyRefs fp with
  | _ :: _, _ => Ok (sp_SSHKeyIDs fp)
  | [], _ :: _ => resolveSSHKeyRefs (sp_SSHKeyRefs fp)
  | [], [] =>
      if sp_SSHKeySelector fp
      then Err (ErrorString "compute/server: forProvider.sshKeySelector is not implemented — use sshKeyRefs or sshKeyIDs")
      else Ok []
  end.

Definition resolve_server_network (fp : ServerParameters) : result error (option string) :=
  match sp_NetworkID fp, sp_NetworkRef fp with
  | Some id, _ => Ok (Some id)
  | None, Some name =>
      v ← resolveNetworkRef name;
      if negb (bool_decide (v.2 = "")) && negb (bool_decide (v.2 = sp_Location fp))
      then Err (location_mismatch "Network" name v.2 (sp_Location fp))
      else Ok (Some v.1)
  | None, None =>
      if sp_NetworkSelector fp
      then Err (ErrorString "compute/server: forProvider.networkSelector is not implemented — use networkRef or networkID")
      else Ok None
  end.

Definition resolve_server_fips (fp : ServerParameters) : result error (list string) :=
  match sp_FloatingIPIDs fp, sp_FloatingIPRefs fp with
  | _ :: _, _ => Ok (sp_FloatingIPIDs fp)
  | [], _ :: _ => resolveFloatingIPRefs (sp_FloatingIPRefs fp)
  | [], [] =>
      if sp_FloatingIPSelector fp
      then Err (ErrorString "compute/server: forProvider.floatingIPSelector is not implemented — use floatingIPRefs or floatingIPIDs")
      else Ok []
  end.

Definition resolveRefs (fp : ServerParameters) : result error resolvedRefs :=
  project ← resolve_server_project fp;
  keys ← resolve_server_keys fp;
  network ← resolve_server_network fp;
  fips ← resolve_server_fips fp;
  Ok {| rr_projectID := project; rr_sshKeyIDs := keys; rr_networkID := network; rr_floatingIPIDs := fips |}.

Definition no_refs : resolvedRefs :=
  {| rr_projectID := None; rr_sshKeyIDs := []; rr_networkID := None; rr_floatingIPIDs := [] |}.

(** [Connect] resolves nothing for a Server that is being deleted. *)
Definition connect_server (deleting : bool) (fp : ServerParameters) : result error resolvedRefs :=
  if deleting then Ok no_refs
  else match resolveRefs fp with
       | Ok r => Ok r
       | Err e => Err (wrap_pre "compute/server: resolve references: " e)
       end.
End ServerRefs.

(** ** Pure helpers *)

Definition toSet (ss : list string) : gset string := list_to_set ss.

(** The first occurrence of each string, in order. *)
Fixpoint dedupe_from (seen : gset string) (ss : list string) : list string :=
  match ss with
  | [] => []
  | s :: rest => if bool_decide (s ∈ seen) then dedupe_from seen rest else s :: dedupe_from ({[s]} ∪ seen) rest
  end.

Definition dedupeStrings (ss : list string) : list string := dedupe_from ∅ ss.

Definition stringSetsEqual (a b : list string) : bool :=
  (size (toSet a) =? size (toSet b))%nat && forallb (fun k => bool_decide (k ∈ toSet b)) (elements (toSet a)).

(** The first public IPv4, public IPv6 and private address found; an empty string is
    a slot not yet filled. *)
Definition ip_step (isPrivate : bool) (acc : string * string * string) (ip : VdsIp) : string * string * string :=
  let '(pub4, pub6, priv) := acc in
  if isPrivate && bool_decide (priv = "") then (pub4, pub6, vi_Ip ip)
  else if negb isPrivate && contains_str (to_lower (vi_Type ip)) "v6" && bool_decide (pub6 = "") then (pub4, vi_Ip ip, priv)
  else if negb isPrivate && bool_decide (pub4 = "") then (vi_Ip ip, pub6, priv)
  else acc.

Definition network_private (n : VdsNetwork) : bool :=
  contains_str (to_lower (vn_Type n)) "local" || contains_str (to_lower (vn_Type n)) "private".

Definition network_ips (acc : string * string * string) (n : VdsNetwork) : string * string * string :=
  match vn_Ips n with
  | None => acc
  | Some ips => fold_left (ip_step (network_private n)) ips acc
  end.

Definition extractIPs (v : Vds) : string * string * string := fold_left network_ips (vds_Networks v) ("", "", "").

(** A value that is set only when it is not the zero value. *)
Definition set_nonempty (s : string) (old : option string) : option string := if bool_decide (s = "") then old else Some s.
Definition set_nonzero (n : option Z) (old : option Z) : option Z :=
  match n with Some n => if n =? 0 then old else Some n | None => old end.

Definition server_status (v : Vds) (o : ServerObservation) : ServerObservation :=
  let '(pub4, pub6, priv) := extractIPs v in
  {| so_UpstreamID := Some (vds_Id v);
     so_LockedPresetID := set_nonzero (vds_PresetId v) (so_LockedPresetID o);
     so_LockedOSID := so_LockedOSID o;
     so_LockedConfiguratorID := set_nonzero (vds_ConfiguratorId v) (so_LockedConfiguratorID o);
     so_PublicIP := set_nonempty pub4 (so_PublicIP o);
     so_PublicIPv6 := set_nonempty pub6 (so_PublicIPv6 o);
     so_PrivateIP := set_nonempty priv (so_PrivateIP o);
     so_ResolvedNetworkID := so_ResolvedNetworkID o;
     so_ResolvedProjectID := so_ResolvedProjectID o;
     so_ResolvedSSHKeyIDs := so_ResolvedSSHKeyIDs o;
     so_BoundFloatingIPs := so_BoundFloatingIPs o;
     so_State := Some (vds_Status v);
     so_AvailabilityZone := set_nonempty (vds_AvailabilityZone v) (so_AvailabilityZone o) |}.

Definition refs_status (refs : resolvedRefs) (o : ServerObservation) : ServerObservation :=
  {| so_UpstreamID := so_UpstreamID o; so_LockedPresetID := so_LockedPresetID o; so_LockedOSID := so_LockedOSID o;
     so_LockedConfiguratorID := so_LockedConfiguratorID o; so_PublicIP := so_PublicIP o; so_PublicIPv6 := so_PublicIPv6 o;
     so_PrivateIP := so_PrivateIP o;
     so_ResolvedNetworkID := match rr_networkID refs with Some n => Some n | None => so_ResolvedNetworkID o end;
     so_ResolvedProjectID := match rr_projectID refs with Some p => Some p | None => so_ResolvedProjectID o end;
     so_ResolvedSSHKeyIDs := match rr_sshKeyIDs refs with [] => so_ResolvedSSHKeyIDs o | ks => ks end;
     so_BoundFloatingIPs := so_BoundFloatingIPs o; so_State := so_State o; so_AvailabilityZone := so_AvailabilityZone o |}.

Definition bound_status (bound : list string) (o : ServerObservation) : ServerObservation :=
  {| so_UpstreamID := so_UpstreamID o; so_LockedPresetID := so_LockedPresetID o; so_LockedOSID := so_LockedOSID o;
     so_LockedConfiguratorID := so_LockedConfiguratorID o; so_PublicIP := so_PublicIP o; so_PublicIPv6 := so_PublicIPv6 o;
     so_PrivateIP := so_PrivateIP o; so_ResolvedNetworkID := so_ResolvedNetworkID o;
     so_ResolvedProjectID := so_ResolvedProjectID o; so_ResolvedSSHKeyIDs := so_ResolvedSSHKeyIDs o;
     so_BoundFloatingIPs := bound; so_State := so_State o; so_AvailabilityZone := so_AvailabilityZone o |}.

(** What [Create] locks: the sizing variant and the image. *)
Definition lock_status (custom : bool) (presetID configuratorID osID : Z) (o : ServerObservation) : ServerObservation :=
  {| so_UpstreamID := so_UpstreamID o;
     so_LockedPresetID := if custom then so_LockedPresetID o else Some presetID;
     so_LockedOSID := Some osID;
     so_LockedConfiguratorID := if custom then Some configuratorID else so_LockedConfiguratorID o;
     so_PublicIP := so_PublicIP o; so_PublicIPv6 := so_PublicIPv6 o; so_PrivateIP := so_PrivateIP o;
     so_ResolvedNetworkID := so_ResolvedNetworkID o; so_ResolvedProjectID := so_ResolvedProjectID o;
     so_ResolvedSSHKeyIDs := so_ResolvedSSHKeyIDs o; so_BoundFloatingIPs := so_BoundFloatingIPs o; so_State := so_State o;
     so_AvailabilityZone := so_AvailabilityZone o |}.

Definition isServerUpToDate (spec : ServerParameters) (status : ServerObservation) (v : Vds) : bool :=
  if bool_decide (is_Some (sp_PresetName spec)) && bool_decide (is_Some (so_LockedConfiguratorID status)) then false
  else if bool_decide (is_Some (sp_Resources spec)) && bool_decide (is_Some (so_LockedPresetID status)) then false
  else if negb (bool_decide (sp_Name spec = vds_Name v)) then false
  else if match sp_Comment spec with Some c => negb (bool_decide (c = vds_Comment v)) | None => false end then false
  else if match sp_CloudInit spec with
          | Some c => negb (bool_decide (c = default_str (vds_CloudInit v)))
          | None => false
          end then false
  else true.

Definition serverConnectionDetails (spec : ServerParameters) (o : ServerObservation) : gmap string string :=
  let put (k : string) (v : option string) (m : gmap string string) := match v with Some s => <[k := s]> m | None => m end in
  put "upstreamID" (match so_UpstreamID o with Some n => Some (fmt_d n) | None => None end)
    (put "hostname" (sp_Hostname spec)
      (put "privateIP" (so_PrivateIP o) (put "publicIPv6" (so_PublicIPv6 o) (put "publicIP" (so_PublicIP o) ∅)))).

Definition buildCreateServerBody (fp : ServerParameters) (presetID configuratorID osID : Z) (refs : resolvedRefs)
  : CreateServerBody :=
  {| sb_AvailabilityZone := sp_AvailabilityZone fp;
     sb_CloudInit := sp_CloudInit fp;
     sb_Comment := sp_Comment fp;
     sb_Configuration :=
       match sp_Resources fp with
       | Some r => Some {| sc_ConfiguratorId := configuratorID;
                           sc_Cpu := f32 (sr_CPU r);
                           sc_Disk := f32 (int64_wrap (sr_DiskGB r * 1024));
                           sc_Gpu := Some (match sr_GPU r with Some g => f32 g | None => 0 end);
                           sc_Ram := f32 (int64_wrap (sr_RAMGB r * 1024)) |}
       | None => None
       end;
     sb_Hostname := sp_Hostname fp;
     sb_Name := sp_Name fp;
     sb_NetworkId := rr_networkID refs;
     sb_OsId := Some osID;
     sb_PresetId := match sp_Resources fp with Some _ => None | None => Some presetID end;
     sb_ProjectId := match rr_projectID refs with Some p => Some (f32 p) | None => None end;
     sb_SshKeysIds := match rr_sshKeyIDs refs with [] => None | ks => Some (map f32 ks) end |}.

(** The configurator query of a [resources] block. *)
Definition server_configurator_input (location : string) (r : ServerResources) : ConfiguratorInput :=
  {| ci_Filters :=
       [("location", AStr location)] ++
       match sr_DiskType r with Some d => [("disk_type", AStr d)] | None => [] end ++
       match sr_CPUFrequencyTier r with Some f => [("cpu_frequency", AStr f)] | None => [] end ++
       match sr_EnableLocalNetwork r with Some b => [("is_allowed_local_network", ABool b)] | None => [] end;
     ci_Sizing :=
       [("cpu", sr_CPU r); ("ramMB", int64_wrap (sr_RAMGB r * 1024)); ("diskGB", sr_DiskGB r)] ++
       match sr_BandwidthMbps r with Some b => [("bandwidth", b)] | None => [] end ++
       match sr_GPU r with Some g => [("gpu", g)] | None => [] end;
     ci_RequireTags := [] |}.

(** The immutable field an observed server contradicts, in the order of the guards. *)
Definition server_immutable_change (spec : ServerParameters) (status : ServerObservation) (observed : Vds) : option string :=
  if match so_LockedPresetID status, vds_PresetId observed with
     | Some p, Some q => negb (p =? q)
     | _, _ => false
     end then Some "presetName"
  else if negb (bool_decide (vds_Location observed = "")) && negb (bool_decide (sp_Location spec = vds_Location observed))
  then Some "location"
  else match so_LockedOSID status with
       | Some o => if negb (o =? vds_OsId observed) then Some "os" else None
       | None => None
       end.

(** The patch of the fields that differ. *)
Definition server_patch (spec : ServerParameters) (observed : Vds) : UpdateServerBody :=
  {| su_Name := if bool_decide (sp_Name spec = vds_Name observed) then None else Some (sp_Name spec);
     su_Comment := match sp_Comment spec with
                   | Some c => if bool_decide (c = vds_Comment observed) then None else Some c
                   | None => None
                   end;
     su_CloudInit := match sp_CloudInit spec, vds_CloudInit observed with
                     | Some c, Some d => if bool_decide (c = d) then None else Some c
                     | Some c, None => Some c
                     | None, _ => None
                     end |}.

Definition dirty (p : UpdateServerBody) : bool :=
  match su_Name p, su_Comment p, su_CloudInit p with
  | None, None, None => false
  | _, _, _ => true
  end.

(** ** The external client *)
Section ServerExternal.
Context `{R : CrossplaneRuntime} {U : Upstream server_request server_reply}.
Variable recorder : bool.
(** [resolver.Resolve]. *)
Variable resolve : World -> Dimension -> ResolveInput -> result error ResolveOutput.
(** What [Connect] resolved. *)
Variable resolved : resolvedRefs.

Notation server := (managed ServerParameters ServerObservation).
Notation SM := (M U server).

(** *** Sizing *)

Definition resolvePreset (slug location : string) : SM Z :=
  r ← ask resolve {| dim_Name := "ServerPreset"; dim_Kind := DimensionPreset |}
        (InPreset {| pi_Slug := slug; pi_Zone := ""; pi_Location := location |});
  id ← lift (preset_of "compute/server" r);
  mret (f32 id).

Definition resolveConfigurator (location : string) (r : ServerResources) : SM Z :=
  o ← ask resolve {| dim_Name := "ServerConfigurator"; dim_Kind := DimensionConfigurator |}
        (InConfigurator (server_configurator_input location r));
  id ← lift (configurator_of "compute/server" o);
  mret (f32 id).

Definition resolveOSImage (os : ServerOS) : SM Z :=
  r ← ask resolve {| dim_Name := "ServerOSImage"; dim_Kind := DimensionPreset |}
        (InPreset {| pi_Slug := Slugify (os_Image os) (os_Version os); pi_Zone := ""; pi_Location := "" |});
  id ← lift (preset_of "compute/server" r);
  mret (f32 id).

Definition checkNetworkLocationByID (vpcID serverLocation : string) : SM unit :=
  r ← try (call_decode "compute/server: VPC: " (GetVPC vpcID));
  match r with
  | Err e =>
      if error_is e ErrNotFound
      then throw (wrap_post (Sentinel ErrServerTargetNotFound) (": VPC " +:+ quote vpcID +:+ " (networkID import path)"))
      else throw e
  | Ok v =>
      if negb (bool_decide (vpc_Location v = "")) && negb (bool_decide (vpc_Location v = serverLocation))
      then throw (location_mismatch "VPC" vpcID (vpc_Location v) serverLocation)
      else mret tt
  end.

(** *** Floating-IP bindings *)

(** The server a floating IP is bound to, if it is bound to one. *)
Definition floatingIPBoundServer (fip : string) : SM (option Z) :=
  get_or_absent None "compute/server: floating-ip: " (GetFloatingIp fip) (fun f =>
    mret (match fi_ResourceType f, fi_ResourceId f with
          | Some rt, Some r => if bool_decide (rt = "server") then AsFloatingIpResourceId0 r else None
          | _, _ => None
          end)).

Fixpoint observe_loop (fips : list string) (serverID : Z) : SM (list string) :=
  match fips with
  | [] => mret []
  | fip :: rest =>
      boundTo ← floatingIPBoundServer fip;
      bound ← observe_loop rest serverID;
      mret (match boundTo with Some n => if n =? serverID then fip :: bound else bound | None => bound end)
  end.

Definition observeBoundFloatingIPs (candidates : list string) (serverID : Z) : SM (list string) :=
  observe_loop (dedupeStrings candidates) serverID.

Definition bindFloatingIP (fip : string) (serverID : Z) : SM unit := do_ (BindFloatingIp fip (f32 serverID) "server").

Definition unbindFloatingIP (fip : string) : SM unit := delete_or_gone (UnbindFloatingIp fip) (mret tt).

Fixpoint unbind_loop (fips : list string) (desired : gset string) : SM unit :=
  match fips with
  | [] => mret tt
  | fip :: rest =>
      (if bool_decide (fip ∈ desired) then mret tt else unbindFloatingIP fip);;
      unbind_loop rest desired
  end.

Fixpoint bind_loop (fips : list string) (bound : gset string) (serverID : Z) (serverOn : bool) : SM unit :=
  match fips with
  | [] => mret tt
  | fip :: rest =>
      if bool_decide (fip ∈ bound) then bind_loop rest bound serverID serverOn
      else if negb serverOn then mret tt
      else bindFloatingIP fip serverID;; bind_loop rest bound serverID serverOn
  end.

Definition reconcileFloatingIPBindings (serverID : Z) (desired currentlyBound : list string) (serverOn : bool) : SM unit :=
  unbind_loop (dedupeStrings currentlyBound) (toSet desired);;
  bind_loop (dedupeStrings desired) (toSet currentlyBound) serverID serverOn.

(** The declared floating IPs and those last seen bound. *)
Definition candidates (cr : server) : list string := rr_floatingIPIDs resolved ++ so_BoundFloatingIPs (AtProvider cr).

(** *** Observe *)

Definition populateServerStatus (v : Vds) (cr : server) : server := set_at_provider (server_status v (AtProvider cr)) cr.

Definition populateResolvedRefs (cr : server) : server := set_at_provider (refs_status resolved (AtProvider cr)) cr.

Definition server_ready_condition (state : string) : Condition :=
  let s := to_lower state in
  if bool_decide (s = "on") then Available
  else if bool_decide (s = "off") then Unavailable
  else if bool_decide (s = "no_paid") then
    ReadyFalse ReasonPaymentRequired ("upstream server state is " +:+ quote "no_paid" +:+
      ": the Timeweb account lacks the funds/quota to start this server — top up the account; the server will start once payment clears")
  else Creating.

Definition setReadyCondition (state : string) : SM unit := note_condition recorder (server_ready_condition state).

Definition observe_server (v : Vds) : SM (ExternalObservation * gmap string string) :=
  modify (populateServerStatus v);;
  modify populateResolvedRefs;;
  setReadyCondition (vds_Status v);;
  cr ← get;
  bound ← observeBoundFloatingIPs (candidates cr) (vds_Id v);
  modify (fun cr => set_at_provider (bound_status bound (AtProvider cr)) cr);;
  cr ← get;
  mret ({| ResourceExists := true;
           ResourceUpToDate := isServerUpToDate (ForProvider cr) (AtProvider cr) v &&
                               stringSetsEqual bound (rr_floatingIPIDs resolved) |},
        serverConnectionDetails (ForProvider cr) (AtProvider cr)).

Definition Observe : SM (ExternalObservation * gmap string string) :=
  cr ← get;
  if bool_decide (ExternalName cr = "") then mret (not_exists, ∅)
  else match DecodeID (ExternalName cr) with
       | Err _ => mret (not_exists, ∅)
       | Ok id => get_or_absent (not_exists, ∅) "compute/server: " (GetServer id) observe_server
       end.

(** *** Create *)

(** The preset or configurator id of the declared sizing; the other id is 0. *)
Definition resolve_server_sizing (fp : ServerParameters) : SM (result error (Z * Z)) :=
  match sp_Resources fp with
  | Some r => try (id ← resolveConfigurator (sp_Location fp) r; mret (0, id))
  | None =>
      match sp_PresetName fp with
      | None => throw nil_dereference
      | Some slug => try (id ← resolvePreset slug (sp_Location fp); mret (id, 0))
      end
  end.

(** A resolver error: surfaced as its condition, then returned. *)
Definition surfaced {A} (r : result error A) : SM A :=
  match r with
  | Ok a => mret a
  | Err e => note_condition recorder (MapResolverErrorToCondition e);; throw e
  end.

Definition check_imported_network (fp : ServerParameters) : SM unit :=
  match sp_NetworkRef fp, sp_NetworkID fp with
  | None, Some id => checkNetworkLocationByID id (sp_Location fp)
  | _, _ => mret tt
  end.

Definition Create : SM (gmap string string) :=
  cr ← get;
  let fp := ForProvider cr in
  check_imported_network fp;;
  os ← try (resolveOSImage (sp_OS fp));
  osID ← surfaced os;
  sizing ← resolve_server_sizing fp;
  ids ← surfaced sizing;
  v ← call_decode "compute/server: " (CreateServer (buildCreateServerBody fp ids.1 ids.2 osID resolved));
  modify (set_external_name (EncodeID (vds_Id v)));;
  modify (populateServerStatus v);;
  modify populateResolvedRefs;;
  modify (fun cr => set_at_provider
    (lock_status (bool_decide (is_Some (sp_Resources fp))) ids.1 ids.2 osID (AtProvider cr)) cr);;
  put_condition Creating;;
  cr ← get;
  mret (serverConnectionDetails (ForProvider cr) (AtProvider cr)).

(** *** Update and Delete *)

Definition server_sizing_switched (spec : ServerParameters) (status : ServerObservation) : bool :=
  (bool_decide (is_Some (sp_Resources spec)) && bool_decide (is_Some (so_LockedPresetID status))) ||
  (negb (bool_decide (is_Some (sp_Resources spec))) && bool_decide (is_Some (so_LockedConfiguratorID status))).

Definition patch_server (id : Z) (p : UpdateServerBody) : SM unit :=
  if negb (dirty p) then mret tt else do_ (UpdateServer id p).

Definition Update : SM unit :=
  cr ← get;
  match DecodeID (ExternalName cr) with
  | Err e => throw (wrap_pre "compute/server: decode external-name: " e)
  | Ok id =>
      observed ← call_decode "compute/server: " (GetServer id);
      if server_sizing_switched (ForProvider cr) (AtProvider cr) then reject (RejectSizingSwitch recorder)
      else match server_immutable_change (ForProvider cr) (AtProvider cr) observed with
           | Some field => reject (RejectImmutableChange recorder field)
           | None =>
               currentlyBound ← observeBoundFloatingIPs (candidates cr) id;
               reconcileFloatingIPBindings id (rr_floatingIPIDs resolved) currentlyBound
                 (bool_decide (to_lower (vds_Status observed) = "on"));;
               patch_server id (server_patch (ForProvider cr) observed)
           end
  end.

Fixpoint unbind_all (fips : list string) : SM unit :=
  match fips with
  | [] => mret tt
  | fip :: rest => unbindFloatingIP fip;; unbind_all rest
  end.

Definition Delete : SM unit :=
  cr ← get;
  match DecodeID (ExternalName cr) with
  | Err _ => mret tt
  | Ok id =>
      unbind_all (so_BoundFloatingIPs (AtProvider cr));;
      delete_or_gone (DeleteServer id) (put_condition Deleting)
  end.

Definition server_controller : Controller U server :=
  {| c_observe := o ← Observe; mret o.1; c_create := Create;; mret tt; c_update := Update; c_delete := Delete |}.
End ServerExternal.
