(* ===== verification/ServerFacts.v ===== *)
(** * ServerFacts: what the cloud-server controller promises

    The floating-IP bindings as a plan, the [Update] that carries it out and its
    convergence, what [Observe] confirms, and where the [float32] ids of the API
    client stop naming the server that was meant. *)

From S2P Require Import Prelude Errors Timeweb Slug Configurator Catalog Shared Effects Lifecycle Resolving RouterRefs.
From S2P Require Import Network FloatingIP Server.

(** ** Sets of addresses *)

Lemma elem_of_dedupe_from ss seen s : s ∈ dedupe_from seen ss <-> s ∈ ss /\ s ∉ seen.
Proof.
  revert seen. induction ss as [|x ss IH]; intros seen; simpl; [set_solver|].
  case_bool_decide as Hx; rewrite ?elem_of_cons, IH; [set_solver|].
  destruct (decide (s = x)) as [->|]; set_solver.
Qed.

Lemma NoDup_dedupe_from ss seen : NoDup (dedupe_from seen ss).
Proof.
  revert seen. induction ss as [|x ss IH]; intros seen; simpl; [constructor|].
  case_bool_decide; [done|]. constructor; [|done]. rewrite elem_of_dedupe_from. set_solver.
Qed.

Lemma elem_of_dedupe ss s : s ∈ dedupeStrings ss <-> s ∈ ss.
Proof. unfold dedupeStrings. rewrite elem_of_dedupe_from. set_solver. Qed.

Lemma NoDup_dedupe ss : NoDup (dedupeStrings ss).
Proof. apply NoDup_dedupe_from. Qed.

Lemma elem_of_toSet ss s : s ∈ toSet ss <-> s ∈ ss.
Proof. unfold toSet. apply elem_of_list_to_set. Qed.

(** The set comparison is set equality, whatever the order and the repetitions. *)
Lemma stringSetsEqual_iff a b : stringSetsEqual a b = true <-> forall s, s ∈ a <-> s ∈ b.
Proof.
  unfold stringSetsEqual. rewrite andb_true_iff, Nat.eqb_eq, forallb_forall. split.
  - intros [Hn Hs] s. rewrite <- !elem_of_toSet. revert s. apply set_equiv.
    apply set_subseteq_size_equiv; [|lia]. intros x Hx.
    by apply (bool_decide_eq_true_1 (x ∈ toSet b)), Hs, list_elem_of_In, elem_of_elements.
  - intros H. assert (toSet a = toSet b) as -> by (apply leibniz_equiv; intros s; rewrite !elem_of_toSet; apply H).
    split; [done|]. intros x Hx. apply bool_decide_eq_true. by apply elem_of_elements, list_elem_of_In.
Qed.

(** ** The bindings as a plan *)

Definition keeps (set : gset string) (negated : bool) (l : list string) : list string :=
  List.filter (fun s => xorb negated (bool_decide (s ∈ set))) l.

(** First the addresses bound and no longer declared are let go; then, once the
    server is on, the declared ones it does not hold are bound to it. *)
Definition bindings_plan (id : Z) (desired bound : list string) (on : bool) : list server_request :=
  map UnbindFloatingIp (keeps (toSet desired) true (dedupeStrings bound)) ++
  (if on then map (fun f => BindFloatingIp f (f32 id) "server") (keeps (toSet bound) true (dedupeStrings desired)) else []).

Definition update_plan (id : Z) (refs : resolvedRefs) (spec : ServerParameters) (observed : Vds) (bound : list string)
  : list server_request :=
  bindings_plan id (rr_floatingIPIDs refs) bound (bool_decide (to_lower (vds_Status observed) = "on")) ++
  (if dirty (server_patch spec observed) then [UpdateServer id (server_patch spec observed)] else []).

Section ServerFacts.
Context `{R : CrossplaneRuntime} {U : Upstream server_request server_reply}.
Variable recorder : bool.
Variable resolve : World -> Dimension -> ResolveInput -> result error ResolveOutput.
Variable resolved : resolvedRefs.

Notation server := (managed ServerParameters ServerObservation).
Notation Observe := (Observe recorder resolved).
Notation Update := (Update recorder resolved).

Lemma unbind_loop_executes fips desired :
  executes (U := U) (S := server) (unbind_loop fips desired) (map UnbindFloatingIp (keeps desired true fips)).
Proof.
  induction fips as [|f rest IH]; simpl; [apply executes_ret|]. case_bool_decide; simpl.
  - apply executes_bind_nil; [apply executes_ret|done].
  - change (UnbindFloatingIp f :: ?l) with ([UnbindFloatingIp f] ++ l). apply executes_bind; [apply executes_delete|done].
Qed.

Lemma bind_loop_executes fips bound id on :
  executes (U := U) (S := server) (bind_loop fips bound id on)
    (if on then map (fun f => BindFloatingIp f (f32 id) "server") (keeps bound true fips) else []).
Proof.
  induction fips as [|f rest IH]; simpl; [by destruct on; apply executes_ret|]. case_bool_decide; simpl; [done|].
  destruct on; simpl; [|apply executes_ret].
  change (BindFloatingIp f ?x ?y :: ?l) with ([BindFloatingIp f x y] ++ l). apply executes_bind; [apply executes_do|done].
Qed.

Lemma patch_executes id p :
  executes (U := U) (S := server) (patch_server id p) (if dirty p then [UpdateServer id p] else []).
Proof. unfold patch_server. destruct (dirty p); simpl; [apply executes_do|apply executes_ret]. Qed.

Lemma bindings_execute id desired bound on :
  executes (U := U) (S := server) (reconcileFloatingIPBindings id desired bound on) (bindings_plan id desired bound on).
Proof. apply executes_bind; [apply unbind_loop_executes|apply bind_loop_executes]. Qed.

(** ** What the reads confirm *)

(** The server a floating-IP reply names. *)
Definition holder (f : FloatingIp) : option Z :=
  match fi_ResourceType f, fi_ResourceId f with
  | Some rt, Some r => if bool_decide (rt = "server") then AsFloatingIpResourceId0 r else None
  | _, _ => None
  end.

(** The addresses whose reads said that the server holds them. *)
Definition confirmed_by (id : Z) (x : exchange server_reply) : option string :=
  match request x as q return reply (server_reply q) -> option string with
  | GetFloatingIp f => fun rep =>
      match read_reply rep with
      | Ok addr => if bool_decide (holder addr = Some id) then Some f else None
      | Err _ => None
      end
  | _ => fun _ => None
  end (answer x).

Definition confirmed (id : Z) (t : list (exchange server_reply)) : list string := omap (confirmed_by id) t.

Definition confirming (id : Z) (fips : list string) (r : result error (list string)) (t : list (exchange server_reply)) : Prop :=
  map request t `prefix_of` map GetFloatingIp fips /\
  forall bound, r = Ok bound -> map request t = map GetFloatingIp fips /\ bound = confirmed id t.

(** One address read, the rest still to come. *)
Lemma confirming_cons id f fips (r : reply FloatingIp) (o : option Z) res t :
  o = match read_reply r with Ok a => holder a | Err _ => None end ->
  confirming id fips res t ->
  confirming id (f :: fips)
    (match res with
     | Ok b => Ok (match o with Some n => if n =? id then f :: b else b | None => b end)
     | Err e => Err e
     end) (Exchange (Rep := server_reply) (GetFloatingIp f) r :: t).
Proof.
  intros -> [Hp Hb]. split; [by apply prefix_cons|]. destruct res as [b|e]; [|done]. intros bound [= <-].
  destruct (Hb b) as [Ht ->]; [done|]. split; [cbn; by rewrite Ht|]. unfold confirmed. cbn [omap list_omap].
  unfold confirmed_by at 2. cbn. destruct (read_reply r) as [a|e]; [|done]. destruct (holder a) as [n|]; [|done].
  destruct (n =? id) eqn:E; [rewrite bool_decide_true by (f_equal; lia)|rewrite bool_decide_false by (intros [= ?]; lia)]; done.
Qed.

Lemma observe_loop_spec fips id (cr : server) w :
  wp (observe_loop fips id) (fun r s' w' t => s' = cr /\ confirming id fips r t) cr w.
Proof.
  revert cr w. induction fips as [|f rest IH]; intros cr w; simpl.
  { wp_step. do 2 (split; [done|]). by intros bound [= <-]. }
  wp_step. unfold floatingIPBoundServer. apply wp_get_or_absent. intros r w1 Hs. cbn [server_reply] in *.
  assert (forall o : option Z, o = match read_reply (A := FloatingIp) r with Ok a => holder a | Err _ => None end ->
    wp (bound ← observe_loop rest id; mret (match o with Some n => if n =? id then f :: bound else bound | None => bound end))
       (fun r0 s' w' t => s' = cr /\ confirming id (f :: rest) r0 (Exchange (Rep := server_reply) (GetFloatingIp f) r :: t)) cr w1)
    as Hrest.
  { intros o Ho. wp_step. eapply wp_mono; [apply IH|]. intros res s2 w2 t2 (-> & Hc).
    pose proof (confirming_cons id f rest r o res t2 Ho Hc) as H. destruct res; [wp_step; by rewrite app_nil_r|done]. }
  destruct (read_reply_pre _ r) as [a|e] eqn:Er.
  - apply read_reply_pre_ok in Er. wp_step. apply (Hrest (holder a)). by rewrite Er.
  - assert (forall a, read_reply r <> Ok a) as Hno.
    { intros a Ha. apply (read_reply_pre_ok "compute/server: floating-ip: ") in Ha. congruence. }
    destruct (error_is e ErrNotFound).
    + apply (Hrest None). destruct (read_reply r) as [a|]; [by destruct (Hno a)|done].
    + split; [done|]. split; [|done]. cbn. by apply prefix_cons, prefix_nil.
Qed.

(** ** Update *)

(** What an [Update] that read the server does: the guards, then the reads of the
    addresses, then the plan those reads give. *)
Definition update_result (cr : server) (id : Z) (observed : Vds) (r : result error unit) (t : list (exchange server_reply)) : Prop :=
  if server_sizing_switched (ForProvider cr) (AtProvider cr)
  then r = Err (Sentinel ErrSizingSwitchRequiresRecreate) /\ t = []
  else match server_immutable_change (ForProvider cr) (AtProvider cr) observed with
       | Some _ => r = Err (Sentinel ErrImmutableFieldChange) /\ t = []
       | None =>
           exists reads writes, t = reads ++ writes /\
             map request reads `prefix_of` map GetFloatingIp (dedupeStrings (candidates resolved cr)) /\
             (map request reads = map GetFloatingIp (dedupeStrings (candidates resolved cr)) /\
                follows (update_plan id resolved (ForProvider cr) observed (confirmed id reads)) (is_ok r) (map request writes) \/
              writes = [] /\ is_ok r = false)
       end.

(** [Update] by the plan of the code. *)
Lemma update_follows_plan (cr : server) (w : World) (id : Z) :
  DecodeID (ExternalName cr) = Ok id ->
  exists rep t, trace (Update cr w) = Exchange (Rep := server_reply) (GetServer id) rep :: t /\
    match read_reply_pre (A := Vds) "compute/server: " rep with
    | Err e => outcome (Update cr w) = Err e /\ t = []
    | Ok observed => update_result cr id observed (outcome (Update cr w)) t
    end.
Proof.
  intros Hid.
  change (wp Update (fun o s' w' tr => exists rep t, tr = Exchange (Rep := server_reply) (GetServer id) rep :: t /\
    match read_reply_pre (A := Vds) "compute/server: " rep with
    | Err e => o = Err e /\ t = []
    | Ok observed => update_result cr id observed o t
    end) cr w).
  unfold Server.Update. wp_step. wp_step. rewrite Hid. wp_step. wp_step. cbn [server_reply] in *.
  destruct (read_reply_pre _ r) as [v|e] eqn:Er; [|exists r, []; cbn [server_reply]; by rewrite Er].
  assert (forall o t, update_result cr id v o t -> exists rep t', [Exchange (Rep := server_reply) (GetServer id) r] ++ t =
      Exchange (Rep := server_reply) (GetServer id) rep :: t' /\
    match read_reply_pre (A := Vds) "compute/server: " rep with
    | Err e => o = Err e /\ t' = []
    | Ok observed => update_result cr id observed o t'
    end) as Hres by (intros o t H'; exists r, t; split; [done|]; by rewrite Er).
  destruct (server_sizing_switched _ _) eqn:E1; [wp_step; apply Hres; unfold update_result; by rewrite E1|].
  destruct (server_immutable_change _ _ _) as [field|] eqn:E2; [wp_step; apply Hres; unfold update_result; by rewrite E1, E2|].
  wp_step. eapply wp_mono; [apply observe_loop_spec|]. intros [bound|e] s1 w1 t1 (-> & Hp & Hb).
  2: { apply Hres. unfold update_result. rewrite E1, E2. exists t1, []. rewrite app_nil_r. split; [done|]. split; [done|]. by right. }
  destruct (Hb bound) as [Hreads ->]; [done|].
  eapply wp_mono; [apply executes_bind; [apply bindings_execute|apply patch_executes]|].
  intros o s2 w2 t2 (-> & Hf). apply (Hres _ (t1 ++ t2)). unfold update_result. rewrite E1, E2.
  exists t1, t2. split; [done|]. split; [done|]. by left.
Qed.

(** *** The same, stated without the code's own decisions *)

(** The kind of sizing declared is not the one recorded at creation. *)
Definition sizing_differs (spec : ServerParameters) (status : ServerObservation) : Prop :=
  is_Some (sp_Resources spec) /\ is_Some (so_LockedPresetID status) \/
  sp_Resources spec = None /\ is_Some (so_LockedConfiguratorID status).

(** The server read has another preset or image than the one recorded, or another
    location than the declared one. *)
Definition creation_differs (spec : ServerParameters) (status : ServerObservation) (observed : Vds) : Prop :=
  (exists p q, so_LockedPresetID status = Some p /\ vds_PresetId observed = Some q /\ p <> q) \/
  (vds_Location observed <> "" /\ sp_Location spec <> vds_Location observed) \/
  (exists o, so_LockedOSID status = Some o /\ o <> vds_OsId observed).

(** The patch: each field is carried exactly when it is declared and not as read; where
    no field is, there is no patch. *)
Record carries_differences (spec : ServerParameters) (observed : Vds) (b : UpdateServerBody) : Prop := {
  carries_name n : su_Name b = Some n <-> n = sp_Name spec /\ vds_Name observed <> n;
  carries_comment c : su_Comment b = Some c <-> sp_Comment spec = Some c /\ vds_Comment observed <> c;
  carries_cloudinit c : su_CloudInit b = Some c <-> sp_CloudInit spec = Some c /\ vds_CloudInit observed <> Some c }.

Definition patch_due (id : Z) (spec : ServerParameters) (observed : Vds) (l : list server_request) : Prop :=
  exists b, carries_differences spec observed b /\
    (l = [] <-> su_Name b = None /\ su_Comment b = None /\ su_CloudInit b = None) /\ (l = [] \/ l = [UpdateServer id b]).

(** The writes: the addresses released, those bound, the patch. *)
Inductive writes_due (cr : server) (id : Z) (observed : Vds) (had : list string) : list server_request -> Prop :=
| writes_are released bound patch :
    NoDup released -> (forall f, f ∈ released <-> f ∈ had /\ f ∉ rr_floatingIPIDs resolved) ->
    NoDup bound -> (forall f, f ∈ bound <-> f ∈ rr_floatingIPIDs resolved /\ f ∉ had /\ to_lower (vds_Status observed) = "on") ->
    patch_due id (ForProvider cr) observed patch ->
    writes_due cr id observed had (map UnbindFloatingIp released ++ map (fun f => BindFloatingIp f (f32 id) "server") bound ++ patch).

Lemma sizing_switched_iff spec status : server_sizing_switched spec status = true <-> sizing_differs spec status.
Proof.
  unfold server_sizing_switched, sizing_differs. rewrite orb_true_iff, !andb_true_iff, negb_true_iff, !bool_decide_eq_true, bool_decide_eq_false.
  by rewrite eq_None_not_Some.
Qed.

Lemma immutable_change_iff spec status observed :
  is_Some (server_immutable_change spec status observed) <-> creation_differs spec status observed.
Proof.
  unfold server_immutable_change, creation_differs. destruct (so_LockedPresetID status) as [p|], (vds_PresetId observed) as [q|],
    (so_LockedOSID status) as [o|]; repeat case_bool_decide; cbn; repeat case_match; rewrite ?is_Some_alt; naive_solver lia.
Qed.

Lemma server_patch_carries spec observed : carries_differences spec observed (server_patch spec observed).
Proof.
  split; intros c; unfold server_patch; cbn; repeat case_match; repeat case_bool_decide; naive_solver.
Qed.

Lemma patch_of_plan id spec observed :
  patch_due id spec observed (if dirty (server_patch spec observed) then [UpdateServer id (server_patch spec observed)] else []).
Proof.
  exists (server_patch spec observed). split; [apply server_patch_carries|].
  unfold dirty. repeat case_match; split; try tauto; split; try done; by intros (? & ? & ?).
Qed.

Lemma NoDup_keeps set b l : NoDup l -> NoDup (keeps set b l).
Proof. intros H. apply NoDup_ListNoDup, List.NoDup_filter. by apply NoDup_ListNoDup. Qed.

Lemma elem_of_keeps_out set l f : f ∈ keeps set true l <-> f ∈ l /\ f ∉ set.
Proof.
  unfold keeps. rewrite list_elem_of_In, filter_In, <- list_elem_of_In. case_bool_decide; cbn; naive_solver.
Qed.

Lemma writes_of_plan cr id observed had : writes_due cr id observed had (update_plan id resolved (ForProvider cr) observed had).
Proof.
  unfold update_plan, bindings_plan. rewrite <- app_assoc. case_bool_decide as Hon.
  - apply writes_are; [..|apply patch_of_plan]; try apply NoDup_keeps, NoDup_dedupe;
      intros f; rewrite elem_of_keeps_out, elem_of_dedupe, elem_of_toSet; tauto.
  - apply (writes_are _ _ _ _ (keeps (toSet (rr_floatingIPIDs resolved)) true (dedupeStrings had)) []);
      [apply NoDup_keeps, NoDup_dedupe| |constructor| |apply patch_of_plan]; intros f.
    + by rewrite elem_of_keeps_out, elem_of_dedupe, elem_of_toSet.
    + set_solver.
Qed.

(** C9. Every [Update] carries out its plan. It reads the server. A kind of sizing other
    than the recorded one is refused, then a preset, location or image other than that
    of creation, and nothing is written. Else it reads each declared or recorded address
    once; and the writes are then, in order, the release of each address the server was
    read to hold and no longer declares, the binding of each it declares and was not
    read to hold, if it is on, and one patch, which carries the name, the comment and the
    cloud-init text each exactly when declared and not as read, and is left out when it
    would carry nothing. A failing call ends the pass with the rest not begun. The
    hostname, which the documentation lists as patched, is never carried. *)
Theorem server_update_refines_plan (cr : server) (w : World) (id : Z) :
  DecodeID (ExternalName cr) = Ok id ->
  let r := outcome (Update cr w) in
  exists rep t, trace (Update cr w) = Exchange (Rep := server_reply) (GetServer id) rep :: t /\
    match read_reply_pre (A := Vds) "compute/server: " rep with
    | Err e => r = Err e /\ t = []
    | Ok observed =>
        (sizing_differs (ForProvider cr) (AtProvider cr) -> r = Err (Sentinel ErrSizingSwitchRequiresRecreate) /\ t = []) /\
        (~ sizing_differs (ForProvider cr) (AtProvider cr) -> creation_differs (ForProvider cr) (AtProvider cr) observed ->
           r = Err (Sentinel ErrImmutableFieldChange) /\ t = []) /\
        (~ sizing_differs (ForProvider cr) (AtProvider cr) -> ~ creation_differs (ForProvider cr) (AtProvider cr) observed ->
           exists asked reads writes, t = reads ++ writes /\
             NoDup asked /\ (forall f, f ∈ asked <-> f ∈ rr_floatingIPIDs resolved \/ f ∈ so_BoundFloatingIPs (AtProvider cr)) /\
             map request reads `prefix_of` map GetFloatingIp asked /\
             (writes = [] /\ is_ok r = false \/
              map request reads = map GetFloatingIp asked /\
              exists due, writes_due cr id observed (confirmed id reads) due /\ follows due (is_ok r) (map request writes)))
    end.
Proof.
  intros Hid r. destruct (update_follows_plan cr w id Hid) as (rep & t & Ht & H). exists rep, t. split; [exact Ht|].
  destruct (read_reply_pre (A := Vds) "compute/server: " rep) as [observed|e]; [|exact H]. unfold update_result in H. fold r in H.
  rewrite <- sizing_switched_iff, <- immutable_change_iff.
  destruct (server_sizing_switched _ _); [split; [by intros _|by split; intros []]|]. split; [done|].
  destruct (server_immutable_change _ _ _) as [field|]; (split; [|]).
  - by intros _ _.
  - intros _ Hn. destruct Hn. by eexists.
  - by intros _ [? [=]].
  - intros _ _. destruct H as (reads & writes & -> & Hp & Hw). exists (dedupeStrings (candidates resolved cr)), reads, writes.
    split; [done|]. split; [apply NoDup_dedupe|]. split; [intros f; rewrite elem_of_dedupe; unfold candidates; by rewrite elem_of_app|].
    split; [done|]. destruct Hw as [[Hr Hf]|[-> Hf]]; [right|by left]. split; [done|]. eexists. split; [apply writes_of_plan|exact Hf].
Qed.

(** ** Delete, and the identity of a server *)

Notation Create := (Create recorder resolve resolved).

(** [Delete] lets every recorded address go, in order, then deletes the server; the
    first failure ends it. *)
Lemma delete_follows (cr : server) (w : World) (id : Z) :
  DecodeID (ExternalName cr) = Ok id ->
  wp Server.Delete (fun r s' w' t =>
    follows (map UnbindFloatingIp (so_BoundFloatingIPs (AtProvider cr)) ++ [DeleteServer id]) (is_ok r) (map request t)) cr w.
Proof.
  intros Hid. unfold Server.Delete. do 2 wp_step. rewrite Hid. wp_step.
  assert (forall l, executes (U := U) (S := server) (unbind_all l) (map UnbindFloatingIp l)) as Hu.
  { induction l as [|f l IH]; [apply executes_ret|]. apply (executes_bind _ _ [_]); [apply executes_delete|done]. }
  eapply wp_mono; [apply Hu|]. intros [[]|e] s1 w1 t1 (-> & Hf); [|by apply follows_stop].
  apply wp_delete_or_gone. intros r w2 _. destruct (write_reply r).
  - wp_step. cbn [app]. rewrite map_app. apply follows_bind; [exact Hf|]. apply follows_one.
  - cbn [app]. rewrite map_app. apply follows_bind; [exact Hf|]. apply follows_one.
Qed.

Lemma create_named (cr : server) (w : World) :
  wp Create (fun r s' w' t => is_ok r = true -> exists b rep v w1 w2, serve (CreateServer b) w1 = (rep, w2) /\
    read_reply (A := Vds) rep = Ok v /\ ExternalName s' = EncodeID (vds_Id v)) cr w.
Proof.
  unfold Server.Create. do 2 wp_step.
  do 5 (apply wp_bind; apply (wp_mono _ (fun _ _ _ _ => True)); [exact I|]; intros [?|?] ? ? ? _; [|by cbn]).
  wp_step. wp_step. destruct (read_reply_pre _ r) as [v|e] eqn:Er; [|done]. do 12 wp_step. intros _.
  apply read_reply_pre_ok in Er. eexists _, _, v, _, _. split; [exact H|]. done.
Qed.

(** The API's ids are read as [float32]. A server created under the id [n] is
    recorded under [n] rounded to 24 significant bits, and it is that id every later
    call names: the deletion releases the recorded addresses and deletes server
    [f32 n]. Up to 2^24 that is the server created; the first id beyond is taken for
    its neighbour. *)
Theorem server_identity_rounded (cr s : server) (w : World) (n : Z) :
  (forall b w1 r w2 v, serve (CreateServer b) w1 = (r, w2) -> read_reply (A := Vds) r = Ok v -> vds_Id v = f32 n) ->
  Z.abs n < 2 ^ 62 ->
  is_ok (outcome (Create cr w)) = true -> s = final (Create cr w) ->
  DecodeID (ExternalName s) = Ok (f32 n) /\
  (forall w', let d := Server.Delete s w' in
     follows (map UnbindFloatingIp (so_BoundFloatingIPs (AtProvider s)) ++ [DeleteServer (f32 n)]) (is_ok (outcome d)) (calls d)) /\
  (Z.abs n <= 2 ^ 24 -> f32 n = n) /\ (n = 2 ^ 24 + 1 -> f32 n = 2 ^ 24).
Proof.
  intros Hs Hn Hok Es. assert (DecodeID (ExternalName s) = Ok (f32 n)) as Hd.
  { destruct (create_named cr w Hok) as (b & rep & v & w1 & w2 & Hrun & Hv & HE). rewrite <- Es in HE.
    rewrite HE, (Hs _ _ _ _ _ Hrun Hv). apply DecodeID_EncodeID. pose proof (f32_bound n).
    unfold int64_min, int64_max. lia. }
  split_and!; [done| |apply f32_exact|by intros ->]. intros w' d. apply (delete_follows s w' _ Hd).
Qed.

(** ** Convergence

    A service that keeps one server under its id and, for each address, its availability
    zone and the server that holds it; the client reads that id as a [float32]. What is
    relied on: the server is read as it is; a patch of its mutable fields is accepted; an
    address is read with its holder, or not found, which nobody holds; a bound address can
    be released; and an address that nobody holds can be bound to the server in whose
    zone it is. Nothing is assumed of binding an address that is held or in another zone,
    which the API refuses. *)
Definition patch_vds (p : UpdateServerBody) (v : Vds) : Vds :=
  {| vds_AvailabilityZone := vds_AvailabilityZone v;
     vds_CloudInit := match su_CloudInit p with Some c => Some c | None => vds_CloudInit v end;
     vds_Comment := default (vds_Comment v) (su_Comment p);
     vds_ConfiguratorId := vds_ConfiguratorId v; vds_Id := vds_Id v; vds_Location := vds_Location v;
     vds_Name := default (vds_Name v) (su_Name p);
     vds_Networks := vds_Networks v; vds_OsId := vds_OsId v; vds_PresetId := vds_PresetId v; vds_Status := vds_Status v |}.

Class FaithfulServer (id : Z) (server_of : World -> Vds) (holds : World -> gmap string Z) (zone : string -> string) : Prop := {
  server_get w r w' : serve (GetServer id) w = (r, w') ->
    read_reply (A := Vds) r = Ok (server_of w) /\ server_of w' = server_of w /\ holds w' = holds w;
  server_patched p w r w' : serve (UpdateServer id p) w = (r, w') ->
    write_reply r = Ok tt /\ server_of w' = patch_vds p (server_of w) /\ holds w' = holds w;
  address_get f w r w' : serve (GetFloatingIp f) w = (r, w') ->
    ((exists a, read_reply (A := FloatingIp) r = Ok a /\ holder a = f32 <$> (holds w !! f)) \/ (gone r /\ holds w !! f = None)) /\
    server_of w' = server_of w /\ holds w' = holds w;
  address_bind f w r w' : serve (BindFloatingIp f id "server") w = (r, w') ->
    holds w !! f = None -> zone f = vds_AvailabilityZone (server_of w) ->
    write_reply r = Ok tt /\ server_of w' = server_of w /\ holds w' = <[f := id]> (holds w);
  address_unbind f w r w' : serve (UnbindFloatingIp f) w = (r, w') -> holds w !! f = Some id ->
    write_reply r = Ok tt /\ server_of w' = server_of w /\ holds w' = delete f (holds w) }.

Section Converge.
Context {id : Z} {server_of : World -> Vds} {holds : World -> gmap string Z} {zone : string -> string}.
Context {F : FaithfulServer id server_of holds zone}.

(** Every address is held by a server whose id a [float32] can hold. *)
Definition exact_ids (w : World) : Prop := forall f n, holds w !! f = Some n -> f32 n = n.

(** The addresses of a list the server holds. *)
Definition held (w : World) (l : list string) : list string :=
  List.filter (fun f => bool_decide (holds w !! f = Some id)) l.

Definition same_world (w w' : World) : Prop := server_of w' = server_of w /\ holds w' = holds w.

Lemma observe_faithful fips (cr : server) w :
  exact_ids w ->
  wp (observe_loop fips id) (fun r s' w' t => s' = cr /\ same_world w w' /\ r = Ok (held w fips) /\
    map request t = map GetFloatingIp fips) cr w.
Proof.
  revert cr w. induction fips as [|f rest IH]; intros cr w Hx; simpl; [by wp_step; repeat split|].
  wp_step. unfold floatingIPBoundServer. apply wp_get_or_absent. intros r w1 Hs.
  destruct (address_get _ _ _ _ Hs) as (Hget & Hv & Hw). cbn [server_reply] in *.
  assert (forall o, o = f32 <$> holds w !! f -> wp (bound ← observe_loop rest id;
      mret (match o with Some n => if n =? id then f :: bound else bound | None => bound end))
    (fun r0 s' w' t => s' = cr /\ same_world w w' /\ r0 = Ok (held w (f :: rest)) /\
      map request (Exchange (Rep := server_reply) (GetFloatingIp f) r :: t) = map GetFloatingIp (f :: rest)) cr w1) as Hrest.
  { intros o Hh. wp_step.
  eapply wp_mono; [apply IH; by unfold exact_ids; rewrite Hw|]. intros res s2 w2 t2 (-> & (Hv2 & Hw2) & -> & Ht). wp_step.
  split; [done|]. split; [split; congruence|]. rewrite app_nil_r. cbn [map app request]. rewrite Ht. split; [|done]. rewrite Hh.
  assert (held w1 rest = held w rest) as -> by (unfold held; by rewrite Hw). unfold held. cbn [List.filter].
  destruct (holds w !! f) as [n|] eqn:En; simpl; [|done]. rewrite (Hx _ _ En).
  destruct (n =? id) eqn:E; [rewrite bool_decide_true by (f_equal; lia)|rewrite bool_decide_false by (intros [= ?]; lia)]; done. }
  destruct Hget as [(a & Ha & Hh)|[Hg Hh]].
  - apply (read_reply_pre_ok "compute/server: floating-ip: ") in Ha. rewrite Ha. wp_step. exact (Hrest (holder a) Hh).
  - destruct (gone_classified _ Hg) as (e & He & _ & Hr). rewrite Hr, He. apply (Hrest None). by rewrite Hh.
Qed.

Lemma unbind_faithful fips desired (cr : server) w :
  NoDup fips -> (forall f, f ∈ fips -> holds w !! f = Some id) ->
  wp (unbind_loop fips desired) (fun r s' w' t => r = Ok tt /\ s' = cr /\ server_of w' = server_of w /\
    forall f, holds w' !! f = if decide (f ∈ fips /\ f ∉ desired) then None else holds w !! f) cr w.
Proof.
  revert cr w. induction fips as [|g rest IH]; intros cr w Hnd Hheld; simpl.
  { wp_step. by repeat split. }
  apply NoDup_cons in Hnd as [Hng Hnd]. case_bool_decide as Hg; wp_step.
  - wp_step. eapply wp_mono; [apply IH; [done|set_solver]|]. intros r s' w' t (-> & -> & Hv & Hh). do 3 (split; [done|]). intros f. rewrite Hh.
    apply decide_ext. set_solver.
  - unfold unbindFloatingIP. apply wp_delete_or_gone. intros r w1 Hs.
    destruct (address_unbind _ _ _ _ Hs) as (Hr & Hv1 & Hh1); [apply Hheld; set_solver|].
    cbn [server_reply] in *. rewrite Hr. wp_step. eapply wp_mono; [apply IH; [done|]|].
    { intros f Hf. rewrite Hh1, lookup_delete_ne by set_solver. apply Hheld. set_solver. }
    intros r' s' w' t (-> & -> & Hv & Hh).
    do 2 (split; [done|]). split; [congruence|]. intros f. rewrite Hh, Hh1. destruct (decide (f = g)) as [->|Hne].
    + rewrite lookup_delete_eq, (decide_True (P := g ∈ g :: rest /\ g ∉ desired)) by set_solver. by destruct (decide _).
    + rewrite lookup_delete_ne by done. apply decide_ext. set_solver.
Qed.

Lemma bind_faithful fips bound (cr : server) w :
  f32 id = id -> NoDup fips ->
  (forall f, f ∈ fips -> f ∉ bound -> holds w !! f = None /\ zone f = vds_AvailabilityZone (server_of w)) ->
  wp (bind_loop fips bound id true) (fun r s' w' t => r = Ok tt /\ s' = cr /\ server_of w' = server_of w /\
    forall f, holds w' !! f = if decide (f ∈ fips /\ f ∉ bound) then Some id else holds w !! f) cr w.
Proof.
  intros Hid. revert cr w. induction fips as [|g rest IH]; intros cr w Hnd Hfree; simpl.
  { wp_step. by repeat split. }
  apply NoDup_cons in Hnd as [Hng Hnd]. case_bool_decide as Hg.
  - eapply wp_mono; [apply IH; [done|set_solver]|]. intros r s' w' t (-> & -> & Hv & Hh). do 3 (split; [done|]). intros f. rewrite Hh.
    apply decide_ext. set_solver.
  - unfold bindFloatingIP. wp_step. apply wp_do. intros r w1 H. rewrite Hid in H. destruct (Hfree g) as [Hfg Hzg]; [set_solver|done|].
    destruct (address_bind _ _ _ _ H Hfg Hzg) as (Hr & Hv1 & Hh1). cbn [server_reply] in *. rewrite Hr.
    eapply wp_mono; [apply IH; [done|]|].
    { intros f Hf Hb. rewrite Hh1, lookup_insert_ne, Hv1 by set_solver. apply Hfree; [set_solver|done]. }
    intros r' s' w2 t (-> & -> & Hv & Hh).
    do 2 (split; [done|]). split; [congruence|]. intros f. rewrite Hh, Hh1. destruct (decide (f = g)) as [->|Hne].
    + rewrite lookup_insert_eq, (decide_True (P := g ∈ g :: rest /\ g ∉ bound)) by set_solver. by destruct (decide _).
    + rewrite lookup_insert_ne by done. apply decide_ext. set_solver.
Qed.

Lemma elem_of_held w l f : f ∈ held w l <-> f ∈ l /\ holds w !! f = Some id.
Proof. unfold held. rewrite list_elem_of_In, filter_In, <- list_elem_of_In, bool_decide_eq_true. done. Qed.

(** The declared addresses are in the server's zone, and no other server's. *)
Definition bindable (w : World) : Prop :=
  forall f, f ∈ rr_floatingIPIDs resolved ->
    (holds w !! f = None \/ holds w !! f = Some id) /\ zone f = vds_AvailabilityZone (server_of w).

(** A server as [Create] leaves one: sized the one way that is declared and locked,
    in the place and with the image it was declared with. *)
Record as_created (fp : ServerParameters) (o : ServerObservation) (v : Vds) : Prop := {
  sized : match sp_Resources fp with
          | Some _ => sp_PresetName fp = None /\ so_LockedPresetID o = None /\ vds_PresetId v = None
          | None => so_LockedConfiguratorID o = None /\ vds_ConfiguratorId v = None
          end;
  preset_known : vds_PresetId v <> Some 0;
  located : vds_Location v = "" \/ sp_Location fp = vds_Location v;
  imaged : forall n, so_LockedOSID o = Some n -> n = vds_OsId v }.

(** What [Observe] reads of a server the service holds. *)
Definition server_seen (cr : server) (w : World) : ServerObservation :=
  bound_status (held w (dedupeStrings (candidates resolved cr)))
    (refs_status resolved (server_status (server_of w) (AtProvider cr))).

Definition server_agrees (cr : server) (w : World) : bool :=
  isServerUpToDate (ForProvider cr) (server_seen cr w) (server_of w) &&
  stringSetsEqual (held w (dedupeStrings (candidates resolved cr))) (rr_floatingIPIDs resolved).

Lemma Observe_faithful (cr : server) w (Q : post (ExternalObservation * gmap string string)) :
  DecodeID (ExternalName cr) = Ok id -> vds_Id (server_of w) = id -> exact_ids w ->
  (forall s' w' t details, ForProvider s' = ForProvider cr -> ExternalName s' = ExternalName cr ->
     AtProvider s' = server_seen cr w -> same_world w w' ->
     map request t = GetServer id :: map GetFloatingIp (dedupeStrings (candidates resolved cr)) ->
     Q (Ok ({| ResourceExists := true; ResourceUpToDate := server_agrees cr w |}, details)) s' w' t) ->
  wp Observe Q cr w.
Proof.
  intros Hid Hv Hx HQ. unfold Server.Observe. do 2 wp_step. rewrite bool_decide_false by (by intros E; rewrite E in Hid).
  rewrite Hid. apply wp_get_or_absent. intros r w1 Hs. destruct (server_get _ _ _ Hs) as (Hr & Hv1 & Hw1).
  apply (read_reply_pre_ok "compute/server: ") in Hr. cbn [server_reply] in *. rewrite Hr. unfold observe_server, setReadyCondition.
  do 9 wp_step. set (s1 := set_conditions _ _).
  assert (candidates resolved s1 = candidates resolved cr) as Hc.
  { unfold s1, candidates. cbn. unfold server_status. by destruct (extractIPs (server_of w)) as [[? ?] ?]. }
  unfold observeBoundFloatingIPs. rewrite Hv.
  eapply wp_mono; [apply observe_faithful; by unfold exact_ids; rewrite Hw1|].
  intros res s2 w2 t2 (-> & (Hv2 & Hw2) & -> & Ht). do 5 wp_step.
  assert (forall l, held w1 l = held w l) as Hheld by (intros l; unfold held; by rewrite Hw1).
  rewrite Hc in *. rewrite app_nil_r, !Hheld. apply HQ; [by cbn|by cbn|by cbn|split; congruence|]. cbn. by rewrite Ht.
Qed.

(** The holder of an address after an [Update]: the server, of each declared address,
    whoever held it; nobody, of those it held that were candidates and are not
    declared; of the others, who held it before. *)
Definition rebound (cands : list string) (h : gmap string Z) (f : string) : option Z :=
  if decide (f ∈ rr_floatingIPIDs resolved) then Some id
  else if decide (f ∈ cands /\ h !! f = Some id) then None
  else h !! f.

Lemma NoDup_held w l : NoDup l -> NoDup (held w l).
Proof. intros H. by apply NoDup_ListNoDup, List.NoDup_filter, NoDup_ListNoDup. Qed.

Lemma rebind_faithful (cr : server) w cands :
  f32 id = id -> rr_floatingIPIDs resolved ⊆ cands -> bindable w ->
  wp (reconcileFloatingIPBindings id (rr_floatingIPIDs resolved) (held w (dedupeStrings cands)) true)
    (fun r s' w' t => r = Ok tt /\ s' = cr /\ server_of w' = server_of w /\
      forall f, holds w' !! f = rebound cands (holds w) f) cr w.
Proof.
  intros Hid Hsub Hb. apply wp_bind. eapply wp_mono; [apply unbind_faithful; [apply NoDup_dedupe|]|].
  { intros f. rewrite elem_of_dedupe, elem_of_held. tauto. }
  intros r1 s1 w1 t1 (-> & -> & Hv1 & Hh1). eapply wp_mono; [apply bind_faithful; [done|apply NoDup_dedupe|]|].
  { intros f Hf Hn. rewrite elem_of_dedupe in Hf. rewrite elem_of_toSet, elem_of_held, elem_of_dedupe in Hn. rewrite Hh1, Hv1.
    destruct (Hb f Hf) as [[Ho|Ho] Hz]; [|by destruct Hn; split; [apply Hsub|]]. split; [by case_decide|done]. }
  intros r2 s2 w2 t2 (-> & -> & Hv2 & Hh2).
  do 2 (split; [done|]). split; [congruence|]. intros f. rewrite Hh2, Hh1. unfold rebound.
  specialize (Hsub f). destruct (decide (holds w !! f = Some id)) as [E|E];
    repeat case_decide; try done; exfalso; rewrite ?elem_of_dedupe, ?elem_of_toSet, ?elem_of_held, ?elem_of_dedupe in *; tauto.
Qed.

Lemma patch_vds_clean p v : dirty p = false -> patch_vds p v = v.
Proof. destruct p as [[|] [|] [|]], v; try done. Qed.

Lemma server_Update_faithful (cr : server) w :
  DecodeID (ExternalName cr) = Ok id -> f32 id = id -> exact_ids w ->
  to_lower (vds_Status (server_of w)) = "on" ->
  server_sizing_switched (ForProvider cr) (AtProvider cr) = false ->
  server_immutable_change (ForProvider cr) (AtProvider cr) (server_of w) = None -> bindable w ->
  wp Update (fun r s' w' t => r = Ok tt /\ s' = cr /\
    server_of w' = patch_vds (server_patch (ForProvider cr) (server_of w)) (server_of w) /\
    forall f, holds w' !! f = rebound (candidates resolved cr) (holds w) f) cr w.
Proof.
  intros Hid Hf Hx Hon Hs Hi Hbind. unfold Server.Update. do 2 wp_step. rewrite Hid. do 2 wp_step.
  destruct (server_get _ _ _ H) as (Hr & Hv1 & Hw1).
  apply (read_reply_pre_ok "compute/server: ") in Hr. cbn [server_reply] in *. rewrite Hr, Hs, Hi. wp_step.
  eapply wp_mono; [apply observe_faithful; by unfold exact_ids; rewrite Hw1|].
  intros res s2 w2 t2 (-> & (Hv2 & Hw2) & -> & _). wp_step. rewrite bool_decide_true by done.
  assert (held w' (dedupeStrings (candidates resolved cr)) = held w2 (dedupeStrings (candidates resolved cr))) as ->
    by (unfold held; by rewrite Hw2).
  eapply wp_mono; [apply rebind_faithful; [done|intros f Hin; unfold candidates; set_solver|]|].
  { intros f Hin. rewrite Hw2, Hw1, Hv2, Hv1. by apply Hbind. }
  intros r3 s3 w3 t3 (-> & -> & Hv3 & Hh3). rewrite Hw2, Hw1 in Hh3. unfold patch_server.
  destruct (dirty _) eqn:Ed; cbn [negb]; wp_step.
  - destruct (server_patched _ _ _ _ H0) as (Hr4 & Hv4 & Hw4). cbn [server_reply] in *. rewrite Hr4.
    do 2 (split; [done|]). split; [rewrite Hv4; congruence|]. intros f. by rewrite Hw4.
  - do 2 (split; [done|]). rewrite patch_vds_clean by done. split; [congruence|done].
Qed.

(** *** Passes *)

(** The mutable fields are as declared. *)
Definition fields_match (fp : ServerParameters) (v : Vds) : bool :=
  bool_decide (sp_Name fp = vds_Name v) &&
  match sp_Comment fp with Some c => bool_decide (c = vds_Comment v) | None => true end &&
  match sp_CloudInit fp with Some c => bool_decide (c = default_str (vds_CloudInit v)) | None => true end.

Lemma fields_match_patched fp v : fields_match fp (patch_vds (server_patch fp v) v) = true.
Proof.
  unfold fields_match, server_patch. destruct v as [? [ci|] ? ? ? ? ? ? ? ? ?], (sp_Comment fp), (sp_CloudInit fp); cbn;
    repeat case_bool_decide; cbn in *; congruence.
Qed.

Lemma as_created_patched fp o p v : as_created fp o v -> as_created fp o (patch_vds p v).
Proof. by intros []. Qed.

(** What a pass reads of such a server passes the guards. *)
Lemma as_created_seen fp (cr : server) w :
  as_created fp (AtProvider cr) (server_of w) ->
  as_created fp (server_seen cr w) (server_of w) /\
  isServerUpToDate fp (server_seen cr w) (server_of w) = fields_match fp (server_of w) /\
  server_sizing_switched fp (server_seen cr w) = false /\
  server_immutable_change fp (server_seen cr w) (server_of w) = None.
Proof.
  intros [Hs Hp Hl Ho]. unfold server_seen, server_status. destruct (extractIPs (server_of w)) as [[? ?] ?].
  assert (forall n, so_LockedOSID (AtProvider cr) = Some n -> (n =? vds_OsId (server_of w)) = true) as Ho'
    by (intros n Hn; apply Z.eqb_eq; auto).
  split_and!.
  - constructor; cbn; [|done..]. destruct (sp_Resources fp).
    + by destruct Hs as (-> & -> & ->).
    + by destruct Hs as (-> & ->).
  - unfold isServerUpToDate, fields_match. cbn. destruct (sp_Resources fp) as [r|].
    + destruct Hs as (-> & -> & ->). cbn. destruct (sp_Comment fp), (sp_CloudInit fp); repeat case_bool_decide; done.
    + destruct Hs as (-> & ->). cbn. rewrite andb_false_r. destruct (sp_Comment fp), (sp_CloudInit fp); repeat case_bool_decide; done.
  - unfold server_sizing_switched. cbn. destruct (sp_Resources fp).
    + by destruct Hs as (_ & -> & ->).
    + by destruct Hs as (-> & ->).
  - unfold server_immutable_change. cbn.
    assert (negb (bool_decide (vds_Location (server_of w) = "")) && negb (bool_decide (sp_Location fp = vds_Location (server_of w))) = false)
      as -> by (destruct Hl; repeat case_bool_decide; done).
    assert (match so_LockedOSID (AtProvider cr) with
            | Some o => if negb (o =? vds_OsId (server_of w)) then Some "os" else None
            | None => None
            end = None) as -> by (destruct (so_LockedOSID (AtProvider cr)) as [n|]; [by rewrite Ho'|done]).
    destruct (vds_PresetId (server_of w)) as [q|]; cbn; [|by destruct (so_LockedPresetID _)].
    destruct (q =? 0) eqn:Eq; [apply Z.eqb_eq in Eq; by subst|]. by rewrite Z.eqb_refl.
Qed.

Lemma rebound_exact cands w w' :
  f32 id = id -> exact_ids w -> (forall f, holds w' !! f = rebound cands (holds w) f) -> exact_ids w'.
Proof. intros Hid Hx Hh f n. rewrite Hh. unfold rebound. repeat case_decide; [congruence|done|apply Hx]. Qed.

(** [Observe] is content exactly when an [Update] has nothing to move. *)
Lemma server_agrees_iff (cr : server) w :
  as_created (ForProvider cr) (AtProvider cr) (server_of w) ->
  server_agrees cr w = true <->
    fields_match (ForProvider cr) (server_of w) = true /\
    forall f, holds w !! f = rebound (candidates resolved cr) (holds w) f.
Proof.
  intros H. apply as_created_seen in H as (_ & Hu & _). unfold server_agrees. rewrite Hu, andb_true_iff, stringSetsEqual_iff.
  assert ((forall f, f ∈ held w (dedupeStrings (candidates resolved cr)) <-> f ∈ rr_floatingIPIDs resolved) <->
    (forall f, holds w !! f = rebound (candidates resolved cr) (holds w) f)) as ->; [|done].
  assert (rr_floatingIPIDs resolved ⊆ candidates resolved cr) as Hsub by (intros f; unfold candidates; set_solver).
  split; intros Hf f; specialize (Hf f); specialize (Hsub f); revert Hf; rewrite elem_of_held, elem_of_dedupe;
    unfold rebound; repeat case_decide; intros Hf; try tauto; try (split; tauto). split; [|tauto]. intros [? Hh]. congruence.
Qed.

Notation server_pass := (pass (server_controller recorder resolve resolved) false).

Lemma pass_content (cr : server) w (Q : post unit) :
  DecodeID (ExternalName cr) = Ok id -> vds_Id (server_of w) = id -> exact_ids w -> server_agrees cr w = true ->
  (forall s' w' t, ForProvider s' = ForProvider cr -> ExternalName s' = ExternalName cr ->
     AtProvider s' = server_seen cr w -> same_world w w' ->
     map request t = GetServer id :: map GetFloatingIp (dedupeStrings (candidates resolved cr)) -> Q (Ok tt) s' w' t) ->
  wp (reconcile (server_controller recorder resolve resolved) false) Q cr w.
Proof.
  intros Hid Hv Hx Ha HQ. apply wp_reconcile. cbn [c_observe server_controller]. apply wp_bind.
  apply Observe_faithful; [done..|]. intros s' w' t details H1 H2 H3 H4 H5. rewrite Ha. wp_step.
  cbn [ResourceExists ResourceUpToDate negb fst]. wp_step. rewrite !app_nil_r. by apply HQ.
Qed.

Lemma pass_moves (cr : server) w (Q : post unit) :
  DecodeID (ExternalName cr) = Ok id -> f32 id = id -> vds_Id (server_of w) = id -> exact_ids w ->
  to_lower (vds_Status (server_of w)) = "on" -> as_created (ForProvider cr) (AtProvider cr) (server_of w) ->
  bindable w -> server_agrees cr w = false ->
  (forall s' w' t, ForProvider s' = ForProvider cr -> ExternalName s' = ExternalName cr ->
     AtProvider s' = server_seen cr w ->
     server_of w' = patch_vds (server_patch (ForProvider cr) (server_of w)) (server_of w) ->
     (forall f, holds w' !! f = rebound (candidates resolved cr) (holds w) f) -> Q (Ok tt) s' w' t) ->
  wp (reconcile (server_controller recorder resolve resolved) false) Q cr w.
Proof.
  intros Hid Hf Hv Hx Hon Hc Hb Ha HQ. apply as_created_seen in Hc as (_ & _ & Hs & Hi).
  apply wp_reconcile. cbn [c_observe server_controller]. apply wp_bind.
  apply Observe_faithful; [done..|]. intros s' w' t details H1 H2 H3 [Hv' Hw'] _. rewrite Ha. wp_step.
  cbn [ResourceExists ResourceUpToDate negb c_update fst].
  eapply wp_mono; [apply server_Update_faithful; rewrite ?H1, ?H2, ?H3, ?Hv'; try done; by unfold exact_ids, bindable; rewrite ?Hw', ?Hv'|].
  intros r s2 w2 t2 (-> & -> & Hv2 & Hh2). apply HQ; try done; [by rewrite Hv2, H1, Hv'|]. intros f. rewrite Hh2, Hw'.
  unfold candidates at 1. rewrite H3. unfold rebound. cbn [so_BoundFloatingIPs server_seen bound_status].
  repeat case_decide; try done; exfalso; rewrite ?elem_of_app, ?elem_of_held, ?elem_of_dedupe in *; tauto.
Qed.

(** What every pass keeps, and the two states: as it was found, and as declared. *)
Definition server_life (fp : ServerParameters) (name : string) (cands : list string) (w0 : World) (k : nat) (cr : server)
  (w : World) : Prop :=
  ForProvider cr = fp /\ ExternalName cr = name /\ as_created fp (AtProvider cr) (server_of w) /\
  vds_Id (server_of w) = id /\ exact_ids w /\ to_lower (vds_Status (server_of w)) = "on" /\
  match k with
  | 0%nat =>
      candidates resolved cr ⊆ cands /\ fields_match fp (server_of w) = true /\
      server_of w ∈ [server_of w0; patch_vds (server_patch fp (server_of w0)) (server_of w0)] /\
      forall f, holds w !! f = rebound cands (holds w0) f
  | 1%nat => candidates resolved cr = cands /\ same_world w0 w /\ bindable w
  | _ => False
  end.

Lemma seen_candidates (cr cr' : server) w :
  AtProvider cr' = server_seen cr w -> candidates resolved cr' ⊆ candidates resolved cr.
Proof.
  intros H f. unfold candidates at 1. rewrite H. unfold server_seen, bound_status. cbn.
  rewrite elem_of_app, elem_of_held, elem_of_dedupe. unfold candidates. set_solver.
Qed.

Lemma rebound_idem cands cands' h h' f :
  cands' ⊆ cands -> (forall g, h' !! g = rebound cands h g) -> h' !! f = rebound cands' h' f.
Proof.
  intros Hsub Hh. unfold rebound. rewrite Hh. unfold rebound.
  destruct (decide (f ∈ rr_floatingIPIDs resolved)) as [|Hn]; [done|].
  destruct (decide (f ∈ cands /\ h !! f = Some id)) as [|Hc]; [by case_decide|]. case_decide as Hc'; [|done].
  destruct Hc' as [Hf Hh']. by destruct Hc; split; [apply Hsub|].
Qed.

Lemma server_life_step fp name cands w0 cr w :
  DecodeID name = Ok id -> f32 id = id ->
  server_life fp name cands w0 1 cr w -> let x := server_pass (cr, w) in server_life fp name cands w0 0 x.1 x.2.
Proof.
  intros Hid Hf (<- & <- & Hc & Hv & Hx & Hon & <- & (Hsv & Hsh) & Hb).
  apply (pass_wp _ _ (server_life (ForProvider cr) (ExternalName cr) (candidates resolved cr) w0 0)).
  pose proof (as_created_seen _ _ _ Hc) as (Hc' & _). destruct (server_agrees cr w) eqn:Ea.
  - apply pass_content; [done..|]. intros s' w' t H1 H2 H3 [H4 H5] _. apply server_agrees_iff in Ea as [Hm Hr]; [|done].
    unfold server_life. rewrite H3, H4. split_and!; try done; [by unfold exact_ids; rewrite H5|by apply (seen_candidates cr s' w)| |].
    + rewrite Hsv. set_solver.
    + intros f. by rewrite H5, Hr, Hsh.
  - apply pass_moves; [done..|]. intros s' w' t H1 H2 H3 H4 H5. unfold server_life. rewrite H3, H4.
    split_and!; try done; [by apply as_created_patched|by eapply rebound_exact|by apply (seen_candidates cr s' w)| | |].
    + apply fields_match_patched.
    + rewrite Hsv. set_solver.
    + intros f. by rewrite H5, Hsh.
Qed.

Lemma server_life_hold fp name cands w0 cr w :
  DecodeID name = Ok id ->
  server_life fp name cands w0 0 cr w ->
  server_agrees cr w = true /\ let x := server_pass (cr, w) in server_life fp name cands w0 0 x.1 x.2.
Proof.
  intros Hid (<- & <- & Hc & Hv & Hx & Hon & Hsub & Hm & Hsv & Hh).
  assert (server_agrees cr w = true) as Ha.
  { apply server_agrees_iff; [done|]. split; [done|]. intros f. by apply (rebound_idem cands _ (holds w0)). }
  split; [done|]. apply (pass_wp _ _ (server_life (ForProvider cr) (ExternalName cr) cands w0 0)).
  pose proof (as_created_seen _ _ _ Hc) as (Hc' & _).
  apply pass_content; [done..|]. intros s' w' t H1 H2 H3 [H4 H5] _. unfold server_life. rewrite H3, H4.
  split_and!; try done; [by unfold exact_ids; rewrite H5| |intros f; by rewrite H5, Hh].
  intros f Hin. apply Hsub. revert Hin. by apply (seen_candidates cr s' w).
Qed.

Lemma server_settles fp name cands w0 :
  DecodeID name = Ok id -> f32 id = id ->
  Settles (server_controller recorder resolve resolved) false (server_life fp name cands w0).
Proof.
  intros Hid Hf. split.
  - intros [|k] cr w H; [by apply server_life_step|]. by destruct H as (_ & _ & _ & _ & _ & _ & ?).
  - intros cr w H. by apply server_life_hold.
Qed.

(** C8. One pass settles a server that is on and as it was created, under an id that a
    [float32] holds exactly (so are those of the other holders), where the declared addresses are in its zone and held by no
    other server, on a service that accepts the patch and the releases and binds a free
    address of the zone ([FaithfulServer]). After the pass the declared addresses are the
    server's, those it held and no longer declares are nobody's, no other address has
    moved, and its mutable fields are as declared with the rest of it untouched. Any later
    pass only reads: the server, and each address that is declared or was its own. *)
Theorem server_passes_settle (cr : server) (w : World) (n : nat) :
  DecodeID (ExternalName cr) = Ok id -> f32 id = id -> vds_Id (server_of w) = id -> exact_ids w ->
  to_lower (vds_Status (server_of w)) = "on" -> as_created (ForProvider cr) (AtProvider cr) (server_of w) -> bindable w ->
  let x := passes (S n) (server_controller recorder resolve resolved) false (cr, w) in
  (forall f, holds x.2 !! f = rebound (candidates resolved cr) (holds w) f) /\
  fields_match (ForProvider cr) (server_of x.2) = true /\
  server_of x.2 ∈ [server_of w; patch_vds (server_patch (ForProvider cr) (server_of w)) (server_of w)] /\
  calls (reconcile (server_controller recorder resolve resolved) false x.1 x.2) =
    GetServer id :: map GetFloatingIp (dedupeStrings (candidates resolved x.1)).
Proof.
  intros Hid Hf Hv Hx Hon Hc Hb x.
  assert (server_life (ForProvider cr) (ExternalName cr) (candidates resolved cr) w 0 x.1 x.2) as Hl.
  { apply (passes_settle _ _ _ (server_settles _ _ _ _ Hid Hf) 1); [|lia].
    unfold server_life. by split_and!. }
  destruct (server_life_hold _ _ _ _ _ _ Hid Hl) as [Ha _].
  destruct Hl as (_ & HE & Hc' & Hv' & Hx' & _ & _ & Hm & Hsv & Hh). split_and!; [done..|].
  change (wp (reconcile (server_controller recorder resolve resolved) false)
    (fun _ _ _ t => map request t = GetServer id :: map GetFloatingIp (dedupeStrings (candidates resolved x.1))) x.1 x.2).
  apply pass_content; [by rewrite HE|done..].
Qed.
End Converge.
End ServerFacts.

(** ** Edits that go unnoticed

    [Update]'s comment has the hostname patched and every other field rejected. Only
    the name, the comment, the cloud-init text and the kind of sizing are compared, so
    an edit of any other field is neither. *)
Lemma server_edit_unnoticed (fp fp' : ServerParameters) (o : ServerObservation) (v : Vds) :
  sp_Name fp = sp_Name fp' -> sp_Comment fp = sp_Comment fp' -> sp_CloudInit fp = sp_CloudInit fp' ->
  (is_Some (sp_PresetName fp) <-> is_Some (sp_PresetName fp')) -> (is_Some (sp_Resources fp) <-> is_Some (sp_Resources fp')) ->
  isServerUpToDate fp o v = isServerUpToDate fp' o v /\ server_patch fp v = server_patch fp' v /\
  server_sizing_switched fp o = server_sizing_switched fp' o.
Proof.
  intros Hn Hc Hi Hp Hr. unfold isServerUpToDate, server_patch, server_sizing_switched. rewrite Hn, Hc, Hi.
  rewrite (bool_decide_ext _ _ Hp), (bool_decide_ext _ _ Hr). done.
Qed.

Definition sample_vds (networks : list VdsNetwork) (id : Z) : Vds :=
  {| vds_AvailabilityZone := "spb-3"; vds_CloudInit := None; vds_Comment := "old"; vds_ConfiguratorId := None; vds_Id := id;
     vds_Location := "ru-1"; vds_Name := "web"; vds_Networks := networks; vds_OsId := 99; vds_PresetId := Some 5;
     vds_Status := "on" |}.

(** A second public IPv6 address fills the slot of the public IPv4 one. *)
Example second_ipv6_taken_for_ipv4 :
  extractIPs (sample_vds [{| vn_Type := "public"; vn_Ips := Some [{| vi_Ip := "2001:db8::1"; vi_Type := "ipv6" |};
                                                                  {| vi_Ip := "2001:db8::2"; vi_Type := "ipv6" |};
                                                                  {| vi_Ip := "192.0.2.1"; vi_Type := "ipv4" |}] |}] 7) =
    ("2001:db8::2", "2001:db8::1", "").
Proof. vm_compute. reflexivity. Qed.

(** ** Witnesses *)

Record server_account := { acc_server : Vds; acc_holds : gmap string Z }.

Definition with_holds (h : gmap string Z) (a : server_account) : server_account :=
  {| acc_server := acc_server a; acc_holds := h |}.

Definition sim_address (o : option Z) : FloatingIp :=
  {| fi_AvailabilityZone := "spb-3"; fi_Comment := None; fi_Id := "f"; fi_Ip := None; fi_IsDdosGuard := false;
     fi_ResourceId := match o with Some n => Some (inr (f32 n)) | None => None end;
     fi_ResourceType := match o with Some _ => Some "server" | None => None end |}.

(** The addresses are in one zone, but for "far". *)
Definition sim_zone (f : string) : string := if bool_decide (f = "far") then "msk-1" else "spb-3".

Definition sim_server (id : Z) (q : server_request) (a : server_account) : reply (server_reply q) * server_account :=
  match q with
  | GetServer i => (if i =? id then ok_reply (acc_server a) else gone_reply, a)
  | CreateServer _ => (ok_reply (sample_vds [] (f32 id)), a)
  | UpdateServer _ p => (ok_reply tt, {| acc_server := patch_vds p (acc_server a); acc_holds := acc_holds a |})
  | DeleteServer _ => (ok_reply tt, a)
  | GetFloatingIp f => (ok_reply (sim_address (acc_holds a !! f)), a)
  | BindFloatingIp f n _ =>
      if bool_decide (acc_holds a !! f = None) && bool_decide (sim_zone f = vds_AvailabilityZone (acc_server a))
      then (ok_reply tt, with_holds (<[f := n]> (acc_holds a)) a) else (NetErr "409 bound or in another zone", a)
  | UnbindFloatingIp f => (ok_reply tt, with_holds (delete f (acc_holds a)) a)
  | GetVPC _ => (gone_reply, a)
  end.

Definition SimServer (id : Z) : Upstream server_request server_reply := {| World := server_account; serve := sim_server id |}.

#[export] Instance SimServer_faithful id : FaithfulServer (U := SimServer id) id acc_server acc_holds sim_zone.
Proof.
  split.
  - intros w r w' H. cbn [serve SimServer sim_server] in H. rewrite Z.eqb_refl in H. by injection H as <- <-.
  - intros p w r w' H. by injection H as <- <-.
  - intros f w r w' H. injection H as <- <-. split; [|done]. left. exists (sim_address (acc_holds w !! f)). split; [done|].
    unfold holder, sim_address. cbn. by destruct (acc_holds w !! f).
  - intros f w r w' H Hn Hz. cbn [serve SimServer sim_server] in H. rewrite !bool_decide_true in H by done. by injection H as <- <-.
  - intros f w r w' H _. by injection H as <- <-.
Qed.

#[local] Existing Instance MapRuntime.

Definition sample_server_spec (preset : option string) : ServerParameters :=
  {| sp_Name := "web"; sp_PresetName := preset; sp_Resources := None; sp_Location := "ru-1";
     sp_OS := {| os_Image := "ubuntu"; os_Version := "24.04" |}; sp_Hostname := None; sp_Comment := Some "new";
     sp_CloudInit := None; sp_AvailabilityZone := None; sp_SSHKeyRefs := []; sp_SSHKeySelector := false; sp_SSHKeyIDs := [];
     sp_NetworkRef := None; sp_NetworkSelector := false; sp_NetworkID := None; sp_ProjectRef := None;
     sp_ProjectSelector := false; sp_ProjectID := None; sp_FloatingIPRefs := []; sp_FloatingIPSelector := false;
     sp_FloatingIPIDs := ["b"] |}.

Definition sample_server (name : string) (bound : list string) : managed ServerParameters ServerObservation :=
  {| ExternalName := name; ForProvider := sample_server_spec (Some "premium-2");
     AtProvider :=
       {| so_UpstreamID := None; so_LockedPresetID := Some 5; so_LockedOSID := Some 99; so_LockedConfiguratorID := None;
          so_PublicIP := None; so_PublicIPv6 := None; so_PrivateIP := None; so_ResolvedNetworkID := None;
          so_ResolvedProjectID := None; so_ResolvedSSHKeyIDs := []; so_BoundFloatingIPs := bound; so_State := None;
          so_AvailabilityZone := None |};
     Conditions := no_conds; Events := [] |}.

Definition sample_refs : resolvedRefs :=
  {| rr_projectID := None; rr_sshKeyIDs := []; rr_networkID := None; rr_floatingIPIDs := ["b"] |}.

(** Server 7 holds "a"; "b", which is declared, is free; "c" is held by server 8. *)
Definition sample_account : server_account :=
  {| acc_server := sample_vds [] 7; acc_holds := {["a" := 7; "c" := 8]} |}.

Definition sample_resolve {W : Type} (w : W) (d : Dimension) (i : ResolveInput) : result error ResolveOutput :=
  Ok (OutPreset 5).

(** The server a call read. *)
Definition server_read (x : exchange server_reply) : option (result error Vds) :=
  match request x as q return reply (server_reply q) -> option (result error Vds) with
  | GetServer _ => fun rep => Some (read_reply_pre "compute/server: " rep)
  | _ => fun _ => None
  end (answer x).

Lemma server_update_refines_plan_witness :
  let run := Update (U := SimServer 7) true sample_refs (sample_server "7" ["a"]) sample_account in
  outcome run = Ok tt /\
  exists had due, writes_due sample_refs (sample_server "7" ["a"]) 7 (sample_vds [] 7) had due /\ due `suffix_of` map request (trace run).
Proof.
  split; [vm_compute; reflexivity|].
  pose proof (server_update_refines_plan (U := SimServer 7) true sample_refs (sample_server "7" ["a"]) sample_account 7
    ltac:(vm_compute; reflexivity)) as H0. cbv zeta in H0. destruct H0 as (rep & t & Ht & H).
  assert (Some (Ok (sample_vds [] 7)) = Some (read_reply_pre (A := Vds) "compute/server: " rep)) as Hr.
  { transitivity (match trace (Update (U := SimServer 7) true sample_refs (sample_server "7" ["a"]) sample_account) with
                  | x :: _ => server_read x
                  | [] => None
                  end); [vm_compute; reflexivity|by rewrite Ht]. }
  injection Hr as Hr. rewrite <- Hr in H.
  destruct H as (_ & _ & H). destruct H as (asked & reads & writes & -> & _ & _ & _ & Hw).
  - intros [[H _]|[_ H]]; by destruct H.
  - intros [(p & q & H1 & H2 & H3)|[[_ H]|(o & H1 & H2)]]; [|by destruct H|]; simplify_eq/=.
  - destruct Hw as [[_ Hw]|(_ & due & Hd & Hf)]; [discriminate Hw|]. exists (confirmed 7 reads), due. split; [exact Hd|].
    destruct Hf as [_ Hf]. rewrite <- Hf by (vm_compute; reflexivity). exists (map request (Exchange (Rep := server_reply) (GetServer 7) rep :: reads)).
    rewrite Ht. cbn [map app]. by rewrite map_app.
Defined.

Lemma server_passes_settle_witness :
  let cr := sample_server "7" ["a"] in
  let x := passes 2 (server_controller (U := SimServer 7) true sample_resolve sample_refs) false (cr, sample_account) in
  (forall f, acc_holds x.2 !! f = rebound (id := 7) sample_refs (candidates sample_refs cr) (acc_holds sample_account) f) /\
  fields_match (ForProvider cr) (acc_server x.2) = true /\
  acc_server x.2 ∈ [acc_server sample_account;
                    patch_vds (server_patch (ForProvider cr) (acc_server sample_account)) (acc_server sample_account)] /\
  calls (reconcile (server_controller (U := SimServer 7) true sample_resolve sample_refs) false x.1 x.2) =
    GetServer 7 :: map GetFloatingIp (dedupeStrings (candidates sample_refs x.1)).
Proof.
  apply (server_passes_settle (U := SimServer 7) (id := 7) (server_of := acc_server) (holds := acc_holds) (zone := sim_zone) true sample_resolve
    sample_refs (sample_server "7" ["a"]) sample_account 1).
  - vm_compute. reflexivity.
  - vm_compute. reflexivity.
  - reflexivity.
  - intros f n. cbn [acc_holds sample_account]. rewrite lookup_insert_Some, lookup_singleton_Some.
    intros [[_ <-]|[_ [_ <-]]]; reflexivity.
  - vm_compute. reflexivity.
  - constructor; cbn; [done|done|by right|congruence].
  - intros f Hf. apply list_elem_of_singleton in Hf as ->. split; [by left|reflexivity].
Defined.

Lemma server_identity_rounded_witness :
  let s := final (Create (U := SimServer 16777217) true sample_resolve sample_refs (sample_server "" []) sample_account) in
  DecodeID (ExternalName s) = Ok (f32 16777217) /\
  (forall w', let d := Server.Delete (U := SimServer 16777217) s w' in
     follows (map UnbindFloatingIp (so_BoundFloatingIPs (AtProvider s)) ++ [DeleteServer (f32 16777217)]) (is_ok (outcome d)) (calls d)) /\
  (Z.abs 16777217 <= 2 ^ 24 -> f32 16777217 = 16777217) /\ (16777217 = 2 ^ 24 + 1 -> f32 16777217 = 2 ^ 24).
Proof.
  refine (server_identity_rounded (U := SimServer 16777217) true sample_resolve sample_refs (sample_server "" [])
    (final (Create (U := SimServer 16777217) true sample_resolve sample_refs (sample_server "" []) sample_account))
    sample_account 16777217 _ _ _ _).
  - intros b w1 r w2 v H. injection H as <- _. intros [= <-]. reflexivity.
  - vm_compute. reflexivity.
  - vm_compute. reflexivity.
  - reflexivity.
Defined.
