(* ===== verification/Credentials.v ===== *)
(** * Credentials: from a providerConfigRef to a token

    [internal/controller/shared/credentials.go] over the accessors of
    [apis/v1alpha1/managed.go]: which ProviderConfig a managed resource's
    reference names, which namespace its Secret is read from, and the token. The
    Kubernetes reads are parameters. *)

From S2P Require Import Prelude Errors Shared RouterRefs.

Definition PCKindNamespaced : string := "ProviderConfig".
Definition PCKindCluster : string := "ClusterProviderConfig".

(** [xpv2.CredentialsSourceSecret]. *)
Definition CredentialsSourceSecret : string := "Secret".

Record ProviderConfigReference := { pcr_Kind : string; pcr_Name : string }.

(** [spec.credentials.secretRef]. *)
Record SecretKeySelector := { sel_Name : string; sel_Namespace : string; sel_Key : string }.

Record ProviderCredentials := { cred_Source : string; cred_SecretRef : option SecretKeySelector }.

(** A ProviderConfig of either kind; [pc_Own] is its own namespace, "" for a
    cluster-scoped one. *)
Record ProviderConfig := { pc_Own : string; pc_Credentials : ProviderCredentials }.

Definition credSecretName (c : ProviderCredentials) : string :=
  match cred_SecretRef c with Some r => sel_Name r | None => "" end.
Definition credSecretKey (c : ProviderCredentials) : string :=
  match cred_SecretRef c with Some r => sel_Key r | None => "" end.
Definition credSecretNamespace (c : ProviderCredentials) : string :=
  match cred_SecretRef c with Some r => sel_Namespace r | None => "" end.

(** The reads: namespaced configs by namespace and name, cluster configs by name,
    Secret data by namespace and name. *)
Record SecretReader := {
  get_provider_config : string -> string -> kube_get ProviderConfig;
  get_cluster_config : string -> kube_get ProviderConfig;
  get_secret : string -> string -> kube_get (list (string * string)) }.

Definition invalid_ref {A} (why : string) : result error A :=
  Err (wrap_post (Sentinel ErrInvalidProviderConfigRef) (": " +:+ why)).

Section Resolve.
Variable kube : SecretReader.

Definition lookupProviderConfig (mrNamespace : string) (pcRef : ProviderConfigReference)
  : result error (ProviderConfig * bool) :=
  if bool_decide (pcr_Kind pcRef = PCKindNamespaced) then
    if bool_decide (mrNamespace = "")
    then invalid_ref (quote PCKindNamespaced +:+ " kind requires the managed resource to be namespaced")
    else match get_provider_config kube mrNamespace (pcr_Name pcRef) with
         | KFound pc => Ok (pc, true)
         | KNotFound =>
             invalid_ref ("ProviderConfig " +:+ quote (pcr_Name pcRef) +:+ " not found in namespace " +:+
               quote mrNamespace +:+ " (no silent fallback to ClusterProviderConfig — set spec.providerConfigRef.kind: ClusterProviderConfig if that's what you meant)")
         | KError msg => Err (get_failed "ProviderConfig" (pcr_Name pcRef) mrNamespace msg)
         end
  else if bool_decide (pcr_Kind pcRef = PCKindCluster) || bool_decide (pcr_Kind pcRef = "") then
    match get_cluster_config kube (pcr_Name pcRef) with
    | KFound pc => Ok (pc, false)
    | KNotFound =>
        invalid_ref ("ClusterProviderConfig " +:+ quote (pcr_Name pcRef) +:+
          " not found (no silent fallback to a namespaced ProviderConfig — set spec.providerConfigRef.kind: ProviderConfig if that's what you meant)")
    | KError msg => Err (wrap_pre ("get ClusterProviderConfig " +:+ quote (pcr_Name pcRef) +:+ ": ") (ErrorString msg))
    end
  else invalid_ref ("unsupported providerConfigRef.kind " +:+ quote (pcr_Kind pcRef) +:+ " (expected " +:+
         quote PCKindNamespaced +:+ " or " +:+ quote PCKindCluster +:+ ")").

Definition resolveSecretNamespace (pc : ProviderConfig) (isNamespaced : bool) : result error string :=
  let want := credSecretNamespace (pc_Credentials pc) in
  if isNamespaced then
    if bool_decide (want = "") then Ok (pc_Own pc)
    else if negb (bool_decide (want = pc_Own pc)) then
      invalid_ref ("namespaced ProviderConfig in " +:+ quote (pc_Own pc) +:+ " references a Secret in " +:+
        quote want +:+ " — cross-namespace references are not supported on kind ProviderConfig; use ClusterProviderConfig if you need cross-namespace")
    else Ok (pc_Own pc)
  else if bool_decide (want = "") then
    invalid_ref "ClusterProviderConfig is missing credentials.secretRef.namespace (required for cluster-scoped PC)"
  else Ok want.

(** The part of [ResolveToken] after the lookup. *)
Definition read_token (pcName : string) (pc : ProviderConfig) (isNamespaced : bool) : result error string :=
  let c := pc_Credentials pc in
  if negb (bool_decide (cred_Source c = CredentialsSourceSecret)) then
    invalid_ref ("ProviderConfig " +:+ quote pcName +:+ " has unsupported credentials.source " +:+
      quote (cred_Source c) +:+ " (only Secret is supported in v0.1)")
  else
    let name := credSecretName c in
    let key := credSecretKey c in
    if bool_decide (name = "") || bool_decide (key = "") then
      invalid_ref ("ProviderConfig " +:+ quote pcName +:+ " is missing credentials.secretRef.{name,key}")
    else
      secretNS ← resolveSecretNamespace pc isNamespaced;
      let failed msg := Err (wrap_pre ("get credential Secret " +:+ secretNS +:+ "/" +:+ name +:+ ": ") (ErrorString msg)) in
      match get_secret kube secretNS name with
      | KNotFound => failed "not found"
      | KError msg => failed msg
      | KFound data =>
          match assoc key data with
          | Some raw =>
              if bool_decide (trim_space raw = "")
              then Err (ErrorString ("credential Secret " +:+ secretNS +:+ "/" +:+ name +:+ " key " +:+
                                     quote key +:+ " is empty"))
              else Ok (trim_space raw)
          | None => Err (ErrorString ("credential Secret " +:+ secretNS +:+ "/" +:+ name +:+ " key " +:+
                                      quote key +:+ " is empty"))
          end
      end.

(** The token and the matched config. *)
Definition ResolveToken (mrNamespace : string) (pcRef : option ProviderConfigReference)
  : result error (string * ProviderConfig) :=
  match pcRef with
  | None => invalid_ref "spec.providerConfigRef.name is required"
  | Some ref =>
      if bool_decide (pcr_Name ref = "") then invalid_ref "spec.providerConfigRef.name is required"
      else
        x ← lookupProviderConfig mrNamespace ref;
        token ← read_token (pcr_Name ref) x.1 x.2;
        Ok (token, x.1)
  end.

(** Contradictory kinds or reads. *)
Ltac bad_kind :=
  first [congruence |
         match goal with
         | H1 : pcr_Kind ?r = _, H2 : pcr_Kind ?r = _ |- _ => rewrite H1 in H2; discriminate H2
         end].

(** The Secret a token came from. *)
Definition token_source (mrNamespace : string) (ref : ProviderConfigReference) (pc : ProviderConfig)
    (ns : string) : Prop :=
  (pcr_Kind ref = PCKindNamespaced /\ mrNamespace <> "" /\
   get_provider_config kube mrNamespace (pcr_Name ref) = KFound pc /\ ns = pc_Own pc /\
   (credSecretNamespace (pc_Credentials pc) = "" \/ credSecretNamespace (pc_Credentials pc) = pc_Own pc)) \/
  ((pcr_Kind ref = PCKindCluster \/ pcr_Kind ref = "") /\
   get_cluster_config kube (pcr_Name ref) = KFound pc /\ ns = credSecretNamespace (pc_Credentials pc) /\ ns <> "").

(** The three steps of [ResolveToken], each as an equivalence. *)
Lemma lookup_iff mrNamespace ref pc b :
  lookupProviderConfig mrNamespace ref = Ok (pc, b) <->
  (b = true /\ pcr_Kind ref = PCKindNamespaced /\ mrNamespace <> "" /\
   get_provider_config kube mrNamespace (pcr_Name ref) = KFound pc) \/
  (b = false /\ (pcr_Kind ref = PCKindCluster \/ pcr_Kind ref = "") /\
   get_cluster_config kube (pcr_Name ref) = KFound pc).
Proof.
  unfold lookupProviderConfig. case_bool_decide as Hk.
  - case_bool_decide as Hm.
    { split; [done|]. intros [(_ & _ & ? & _)|(_ & [?|?] & _)]; [done|bad_kind..]. }
    destruct (get_provider_config kube mrNamespace (pcr_Name ref)) as [pc'| |m]; (split; [intros [=]; subst; by left|]);
      intros [(-> & _ & _ & Hg)|(_ & [?|?] & _)]; [congruence|bad_kind..].
  - destruct (bool_decide _ || bool_decide _) eqn:Ek.
    + assert (pcr_Kind ref = PCKindCluster \/ pcr_Kind ref = "") as Hk2.
      { apply orb_true_iff in Ek as [E|E]; apply bool_decide_eq_true in E; auto. }
      destruct (get_cluster_config kube (pcr_Name ref)) as [pc'| |m]; (split; [intros [=]; subst; by right|]);
        intros [(_ & ? & _)|(-> & _ & Hg)]; congruence.
    + apply orb_false_iff in Ek as [E1 E2]. apply bool_decide_eq_false in E1, E2.
      split; [done|]. intros [(_ & ? & _)|(_ & [?|?] & _)]; done.
Qed.

Lemma secret_namespace_iff pc b ns :
  resolveSecretNamespace pc b = Ok ns <->
  if b then ns = pc_Own pc /\ (credSecretNamespace (pc_Credentials pc) = "" \/
                               credSecretNamespace (pc_Credentials pc) = pc_Own pc)
  else ns = credSecretNamespace (pc_Credentials pc) /\ ns <> "".
Proof. destruct b; unfold resolveSecretNamespace; repeat case_bool_decide; simpl; split; naive_solver. Qed.

(** What the key of the Secret holds, trimmed. *)
Definition secret_token (pc : ProviderConfig) (ns token : string) : Prop :=
  exists data raw, get_secret kube ns (credSecretName (pc_Credentials pc)) = KFound data /\
    assoc (credSecretKey (pc_Credentials pc)) data = Some raw /\ trim_space raw = token /\ token <> "".

Lemma read_token_iff n pc b token :
  read_token n pc b = Ok token <->
  cred_Source (pc_Credentials pc) = CredentialsSourceSecret /\
  credSecretName (pc_Credentials pc) <> "" /\ credSecretKey (pc_Credentials pc) <> "" /\
  exists ns, resolveSecretNamespace pc b = Ok ns /\ secret_token pc ns token.
Proof.
  unfold read_token, secret_token. case_bool_decide as Hs; simpl; [|split; [done|naive_solver]].
  do 2 case_bool_decide; simpl; try (split; [done|naive_solver]).
  destruct (resolveSecretNamespace pc b) as [ns|e]; simpl; [|split; [done|naive_solver]].
  destruct (get_secret kube ns _) as [data| |m] eqn:Eg; simpl;
    [|split; [done|intros (_ & _ & _ & ns' & [= <-] & data' & raw' & Hg & _); congruence]..].
  destruct (assoc _ data) as [raw|] eqn:Er;
    [|split; [done|intros (_ & _ & _ & ns' & [= <-] & data' & raw' & Hg & Ha & _); congruence]].
  case_bool_decide as Hr; (split; [try done|]).
  - intros (_ & _ & _ & ns' & [= <-] & data' & raw' & Hg & Ha & Ht & Hne). congruence.
  - intros [= <-]. split_and!; try done. exists ns. split; [done|]. by exists data, raw.
  - intros (_ & _ & _ & ns' & [= <-] & data' & raw' & Hg & Ha & Ht & Hne). congruence.
Qed.

(** C7. Where a token comes from: [ResolveToken] succeeds exactly when the
    reference names a config of the kind it says (no fallback to the other
    kind), that config takes its credentials from a Secret with name and key,
    the Secret lies in the config's own namespace (namespaced kind) or in the
    namespace it names (cluster kind), and the key holds more than white space;
    the token is that value trimmed. *)
Theorem resolve_token_iff (mrNamespace : string) (ref : ProviderConfigReference) (token : string)
    (pc : ProviderConfig) :
  ResolveToken mrNamespace (Some ref) = Ok (token, pc) <->
  pcr_Name ref <> "" /\ cred_Source (pc_Credentials pc) = CredentialsSourceSecret /\
  credSecretName (pc_Credentials pc) <> "" /\ credSecretKey (pc_Credentials pc) <> "" /\
  exists ns, token_source mrNamespace ref pc ns /\ secret_token pc ns token.
Proof.
  unfold ResolveToken. case_bool_decide as Hn; [split; [done|naive_solver]|]. split.
  - destruct (lookupProviderConfig mrNamespace ref) as [[pc' b]|e] eqn:El; simpl; [|done].
    destruct (read_token _ pc' b) as [tok|e] eqn:Et; simpl; [|done]. intros [= -> ->].
    apply read_token_iff in Et as (? & ? & ? & ns & Hns & Htok). apply secret_namespace_iff in Hns.
    split_and!; try done. exists ns. split; [|done].
    apply lookup_iff in El as [(-> & ? & ? & ?)|(-> & ? & ?)]; destruct Hns as [-> ?]; [by left|by right].
  - intros (_ & ? & ? & ? & ns & Hsrc & Htok).
    assert (exists b, lookupProviderConfig mrNamespace ref = Ok (pc, b) /\ resolveSecretNamespace pc b = Ok ns)
      as (b & Hl & Hns).
    { destruct Hsrc as [(? & ? & ? & ? & ?)|(? & ? & ? & ?)]; [exists true|exists false];
        rewrite lookup_iff, secret_namespace_iff; (split; [|done]); [left|right]; by split_and!. }
    rewrite Hl. simpl. rewrite (proj2 (read_token_iff _ _ _ token)); [done|]. split_and!; [done..|]. by exists ns.
Qed.
End Resolve.

(** C6. Tenants stay apart: for a namespaced config, the outcome (token or error)
    depends on nothing outside the resource's namespace: two clusters with the
    same ProviderConfigs and Secrets in that namespace give the same result,
    whatever their other Secrets and their ClusterProviderConfigs are. *)
Theorem token_isolation (k k' : SecretReader) (ns : string) (ref : ProviderConfigReference) :
  pcr_Kind ref = PCKindNamespaced ->
  (forall n pc, get_provider_config k ns n = KFound pc -> pc_Own pc = ns) ->
  (forall n, get_provider_config k' ns n = get_provider_config k ns n) ->
  (forall n, get_secret k' ns n = get_secret k ns n) ->
  ResolveToken k' ns (Some ref) = ResolveToken k ns (Some ref).
Proof.
  intros Hk Hown Hpc Hs. unfold ResolveToken, lookupProviderConfig. rewrite Hk.
  rewrite (bool_decide_true (PCKindNamespaced = _)) by done. case_bool_decide; [done|]. case_bool_decide; [done|]. rewrite Hpc.
  destruct (get_provider_config k ns (pcr_Name ref)) as [pc| |m] eqn:Eg; simpl; [|done|done].
  apply Hown in Eg. f_equal. unfold read_token.
  assert (forall n, resolveSecretNamespace pc true = Ok n -> n = ns) as Hns.
  { intros n. unfold resolveSecretNamespace. repeat case_bool_decide; simpl; intros [= <-]; done. }
  destruct (negb _); [done|]. destruct (_ || _); [done|].
  destruct (resolveSecretNamespace pc true) as [n|e] eqn:En; simpl; [|done].
  by rewrite (Hns n eq_refl), Hs.
Qed.

(** ** Witnesses *)

Definition sample_config (source_ns : string) : ProviderConfig :=
  {| pc_Own := "team-a";
     pc_Credentials := {| cred_Source := "Secret";
       cred_SecretRef := Some {| sel_Name := "tw"; sel_Namespace := source_ns; sel_Key := "token" |} |} |}.

Definition sample_reader (others : string) : SecretReader := {|
  get_provider_config := fun ns n => if bool_decide (ns = "team-a") then KFound (sample_config "") else KNotFound;
  get_cluster_config := fun _ => KNotFound;
  get_secret := fun ns n => if bool_decide (ns = "team-a") then KFound [("token", " s3cr3t ")]
                            else KFound [("token", others)] |}.

Definition sample_ref : ProviderConfigReference := {| pcr_Kind := "ProviderConfig"; pcr_Name := "default" |}.

Example resolve_trims_token :
  ResolveToken (sample_reader "x") "team-a" (Some sample_ref) = Ok ("s3cr3t", sample_config "").
Proof. vm_compute. reflexivity. Qed.

Lemma token_isolation_witness :
  ResolveToken (sample_reader "y") "team-a" (Some sample_ref) =
  ResolveToken (sample_reader "x") "team-a" (Some sample_ref).
Proof.
  apply token_isolation; try reflexivity.
  intros n pc H. injection H as <-. reflexivity.
Defined.
