(* ===== verification/Policy.v ===== *)
(** * Policy: bucket grants as an IAM policy

    [internal/clients/rgwiam/policy.go]: the merged inline policy a user's grants
    render to, the comparison of two policies and the level a policy gives on a
    bucket; the pure parts of [sigv4.go]. A policy document is the JSON value its
    text parses to ([None]: not JSON). When a key repeats the last one counts. *)

From S2P Require Import Prelude Errors Timeweb.

Definition LevelRead : string := "read".
Definition LevelReadWrite : string := "read-write".
Definition LevelAdmin : string := "admin".
Definition policyVersion : string := "2012-10-17".

Record Grant := { g_Bucket : string; g_Level : string }.

Record statement := {
  st_Sid : string;
  st_Effect : string;
  st_Action : list string;
  st_Resource : list string }.

Record policyDoc := { pd_Version : string; pd_Statement : list statement }.

(** ** JSON *)

(** [flexStrings.UnmarshalJSON]: a string, null (read as ""), or an array of
    strings. *)
Fixpoint json_strings (l : list json) : option (list string) :=
  match l with
  | [] => Some []
  | JStr s :: l' => cons s <$> json_strings l'
  | JNull :: l' => cons "" <$> json_strings l'
  | _ => None
  end.

Definition flexStrings_unmarshal (v : json) : option (list string) :=
  match v with
  | JStr s => Some [s]
  | JNull => Some [""]
  | JArr l => json_strings l
  | _ => None
  end.

Definition flexStrings_marshal (l : list string) : json := JArr (map JStr l).

Definition zero_statement : statement := {| st_Sid := ""; st_Effect := ""; st_Action := []; st_Resource := [] |}.

(** A string field: null leaves it, any other type is an error. *)
Definition string_field (old : string) (v : json) : option string :=
  match v with JStr s => Some s | JNull => Some old | _ => None end.

Definition set_statement_field (s : statement) (k : string) (v : json) : option statement :=
  if equal_fold k "sid" then
    x ← string_field (st_Sid s) v;
    Some {| st_Sid := x; st_Effect := st_Effect s; st_Action := st_Action s; st_Resource := st_Resource s |}
  else if equal_fold k "effect" then
    x ← string_field (st_Effect s) v;
    Some {| st_Sid := st_Sid s; st_Effect := x; st_Action := st_Action s; st_Resource := st_Resource s |}
  else if equal_fold k "action" then
    x ← flexStrings_unmarshal v;
    Some {| st_Sid := st_Sid s; st_Effect := st_Effect s; st_Action := x; st_Resource := st_Resource s |}
  else if equal_fold k "resource" then
    x ← flexStrings_unmarshal v;
    Some {| st_Sid := st_Sid s; st_Effect := st_Effect s; st_Action := st_Action s; st_Resource := x |}
  else Some s.

Fixpoint set_statement_fields (s : statement) (fs : list (string * json)) : option statement :=
  match fs with
  | [] => Some s
  | (k, v) :: fs' => s' ← set_statement_field s k v; set_statement_fields s' fs'
  end.

Definition statement_unmarshal (v : json) : option statement :=
  match v with
  | JObj fs => set_statement_fields zero_statement fs
  | JNull => Some zero_statement
  | _ => None
  end.

Fixpoint statements_unmarshal (l : list json) : option (list statement) :=
  match l with
  | [] => Some []
  | v :: l' => s ← statement_unmarshal v; cons s <$> statements_unmarshal l'
  end.

Definition set_doc_field (d : policyDoc) (k : string) (v : json) : option policyDoc :=
  if equal_fold k "version" then
    x ← string_field (pd_Version d) v;
    Some {| pd_Version := x; pd_Statement := pd_Statement d |}
  else if equal_fold k "statement" then
    match v with
    | JArr l => x ← statements_unmarshal l; Some {| pd_Version := pd_Version d; pd_Statement := x |}
    | JNull => Some {| pd_Version := pd_Version d; pd_Statement := [] |}
    | _ => None
    end
  else Some d.

Fixpoint set_doc_fields (d : policyDoc) (fs : list (string * json)) : option policyDoc :=
  match fs with
  | [] => Some d
  | (k, v) :: fs' => d' ← set_doc_field d k v; set_doc_fields d' fs'
  end.

(** [json.Unmarshal([]byte(doc), &p)] for a [policyDoc]. *)
Definition policy_unmarshal (doc : option json) : option policyDoc :=
  match doc with
  | Some (JObj fs) => set_doc_fields {| pd_Version := ""; pd_Statement := [] |} fs
  | Some JNull => Some {| pd_Version := ""; pd_Statement := [] |}
  | _ => None
  end.

(** [json.Marshal]: an empty Sid is omitted. *)
Definition statement_marshal (s : statement) : json :=
  JObj ((if bool_decide (st_Sid s = "") then [] else [("Sid", JStr (st_Sid s))]) ++
        [("Effect", JStr (st_Effect s)); ("Action", flexStrings_marshal (st_Action s));
         ("Resource", flexStrings_marshal (st_Resource s))]).

Definition policy_marshal (d : policyDoc) : json :=
  JObj [("Version", JStr (pd_Version d)); ("Statement", JArr (map statement_marshal (pd_Statement d)))].

(** ** Rendering *)

Definition arn (bucket : string) : string := "arn:aws:s3:::" +:+ bucket.
Definition arnObjects (bucket : string) : string := "arn:aws:s3:::" +:+ bucket +:+ "/*".

Definition read_actions : list string := ["s3:Get*"; "s3:List*"].

Definition writes_objects (level : string) : bool :=
  bool_decide (level = LevelReadWrite) || bool_decide (level = LevelAdmin).

Definition objectActions (level : string) : list string :=
  if writes_objects level then ["s3:*"] else read_actions.

Definition bucketActions (level : string) : list string :=
  if bool_decide (level = LevelAdmin) then ["s3:*"] else read_actions.

Definition base_statement : statement :=
  {| st_Sid := "IamListAllMyBuckets"; st_Effect := "Allow"; st_Action := ["s3:ListAllMyBuckets"];
     st_Resource := ["*"] |}.

Definition grant_statements (g : Grant) : list statement :=
  [{| st_Sid := if writes_objects (g_Level g) then "AllowFullAccessToObjects" else "AllowReadObjectsInBucket";
      st_Effect := "Allow"; st_Action := objectActions (g_Level g); st_Resource := [arnObjects (g_Bucket g)] |};
   {| st_Sid := if bool_decide (g_Level g = LevelAdmin) then "AllowFullBucketAccess" else "AllowReadBucketMetadata";
      st_Effect := "Allow"; st_Action := bucketActions (g_Level g); st_Resource := [arn (g_Bucket g)] |}].

(** [sort.Slice] by bucket. It is not stable: where two grants name one bucket the
    model keeps their order; the code's may differ, and no theorem depends on it. *)
Definition sort_grants (grants : list Grant) : list Grant :=
  sort_by (fun a b => str_leb (g_Bucket a) (g_Bucket b)) grants.

Definition render_doc (grants : list Grant) : policyDoc :=
  {| pd_Version := policyVersion; pd_Statement := base_statement :: flat_map grant_statements (sort_grants grants) |}.

Definition RenderPolicy (grants : list Grant) : json := policy_marshal (render_doc grants).

(** ** Comparison *)

Definition canonical (s : statement) : string :=
  to_lower (st_Effect s) +:+ "|" +:+ join "," (sort_strings (st_Action s)) +:+ "|" +:+
  join "," (sort_strings (st_Resource s)).

Definition canonicalStatements (doc : option json) : option (list string) :=
  p ← policy_unmarshal doc;
  Some (sort_strings (map canonical (pd_Statement p))).

Definition PoliciesEqual (a b : option json) : bool :=
  match canonicalStatements a, canonicalStatements b with
  | Some ca, Some cb => bool_decide (ca = cb)
  | _, _ => false
  end.

(** [sha256_hex] stands for [hex.EncodeToString(sha256.Sum256(...))]. *)
Definition PolicyHash (sha256_hex : string -> string) (doc : option json) : string :=
  match canonicalStatements doc with
  | Some c => sha256_hex (join newline c)
  | None => ""
  end.

(** ** The level on a bucket *)

Definition contains (xs : list string) (want : string) : bool := existsb (fun x => bool_decide (x = want)) xs.

(** The statements naming a resource, and whether one allows everything. *)
Definition names_resource (r : string) (stmts : list statement) : bool :=
  existsb (fun s => contains (st_Resource s) r) stmts.

Definition full_on (r : string) (stmts : list statement) : bool :=
  existsb (fun s => contains (st_Resource s) r && contains (st_Action s) "s3:*") stmts.

Definition DeriveLevelForBucket (doc : option json) (bucket : string) : string * bool :=
  match policy_unmarshal doc with
  | None => ("", false)
  | Some p =>
      let present := names_resource (arnObjects bucket) (pd_Statement p) ||
                     names_resource (arn bucket) (pd_Statement p) in
      if negb present then ("", false)
      else
        let objFull := full_on (arnObjects bucket) (pd_Statement p) in
        let bktFull := full_on (arn bucket) (pd_Statement p) in
        if objFull && bktFull then (LevelAdmin, true)
        else if objFull then (LevelReadWrite, true)
        else (LevelRead, true)
  end.

(** ** The IAM Query replies *)

(** The outcome of one signed call: transport error, unreadable body, or a
    status with the [Code] and [Message] its XML error envelope carries. *)
Inductive iam_reply : Type :=
| IamNetErr (msg : string)
| IamReadErr (msg : string)
| IamReply (status : Z) (body code message : string).

Definition classifyQueryError (status : Z) (code message : string) : error :=
  if bool_decide (code = "NoSuchEntity") then Sentinel ErrNoSuchEntity
  else EQuery {| q_StatusCode := status; q_Code := code; q_Message := message |}.

(** The part of [iamClient.do] after sending. *)
Definition iam_do (r : iam_reply) : result error string :=
  match r with
  | IamNetErr msg => Err (Errorf (sentinel_text ErrIAMTransient +:+ ": " +:+ msg) [Sentinel ErrIAMTransient; ErrorString msg])
  | IamReadErr msg =>
      Err (Errorf (sentinel_text ErrIAMTransient +:+ ": read body: " +:+ msg) [Sentinel ErrIAMTransient; ErrorString msg])
  | IamReply status body code message =>
      if (200 <=? status) && (status <? 300) then Ok body else Err (classifyQueryError status code message)
  end.

Definition hex_value (c : ascii) : option Z :=
  let b := byte_val c in
  if (48 <=? b) && (b <=? 57) then Some (b - 48)
  else if (97 <=? b) && (b <=? 102) then Some (b - 87)
  else if (65 <=? b) && (b <=? 70) then Some (b - 55)
  else None.

(** [url.QueryUnescape]. *)
Fixpoint query_unescape (s : string) : option string :=
  match s with
  | EmptyString => Some EmptyString
  | String c s1 =>
      if bool_decide (c = byte_of 37) then
        match s1 with
        | String h (String l s2) =>
            match hex_value h, hex_value l with
            | Some x, Some y => String (byte_of (16 * x + y)) <$> query_unescape s2
            | _, _ => None
            end
        | _ => None
        end
      else if bool_decide (c = byte_of 43) then String (byte_of 32) <$> query_unescape s1
      else String c <$> query_unescape s1
  end.

Definition decodePolicyDocument (s : string) : string :=
  if negb (contains_str s "%") then s
  else match query_unescape s with
       | Some dec => if contains_str dec "{" then dec else s
       | None => s
       end.

(** ** Round trip *)

Lemma json_strings_map l : json_strings (map JStr l) = Some l.
Proof. induction l as [|s l IH]; simpl; [done|]. by rewrite IH. Qed.

(** Evaluate the comparisons of constant keys. *)
Ltac fold_keys :=
  unfold set_statement_field, set_doc_field;
  repeat match goal with
         | |- context [equal_fold ?a ?b] =>
             let v := eval vm_compute in (equal_fold a b) in change (equal_fold a b) with v
         end;
  cbn -[json_strings statements_unmarshal].

Lemma statement_roundtrip s : statement_unmarshal (statement_marshal s) = Some s.
Proof.
  destruct s as [sid e a r]. unfold statement_unmarshal, statement_marshal; simpl.
  case_bool_decide; subst; simpl; fold_keys; by rewrite !json_strings_map.
Qed.

Lemma statements_roundtrip l : statements_unmarshal (map statement_marshal l) = Some l.
Proof.
  induction l as [|s l IH]; cbn [statements_unmarshal map]; [done|]. by rewrite statement_roundtrip; simpl; rewrite IH.
Qed.

Lemma doc_roundtrip d : policy_unmarshal (Some (policy_marshal d)) = Some d.
Proof.
  destruct d as [v l]. unfold policy_unmarshal, policy_marshal. cbn [set_doc_fields pd_Version pd_Statement].
  fold_keys. by rewrite statements_roundtrip.
Qed.

(** Policy documents round-trip: parsing what rendering marshals gives back
    the document, statement by statement. *)
Theorem policy_roundtrip (d : policyDoc) : policy_unmarshal (Some (policy_marshal d)) = Some d.
Proof. apply doc_roundtrip. Qed.

(** ** Equality of policies *)

Lemma canonicalStatements_perm a b pa pb :
  policy_unmarshal a = Some pa -> policy_unmarshal b = Some pb ->
  (canonicalStatements a = canonicalStatements b <->
   map canonical (pd_Statement pa) ≡ₚ map canonical (pd_Statement pb)).
Proof.
  intros Ha Hb. unfold canonicalStatements. rewrite Ha, Hb. simpl. rewrite <- sort_strings_perm_eq.
  split; [by intros [= ->]|by intros ->].
Qed.

(** What policy equality means: two documents are equal exactly when both
    parse and their statements are the same multiset up to Sid, the case of the
    effect and the order of actions and resources; so it is symmetric and
    transitive, and equal documents have the same hash. *)
Theorem policies_equal_iff (sha256_hex : string -> string) (a b : option json) :
  (PoliciesEqual a b = true <->
   exists pa pb, policy_unmarshal a = Some pa /\ policy_unmarshal b = Some pb /\
     map canonical (pd_Statement pa) ≡ₚ map canonical (pd_Statement pb)) /\
  PoliciesEqual b a = PoliciesEqual a b /\
  (PoliciesEqual a b = true -> PolicyHash sha256_hex a = PolicyHash sha256_hex b).
Proof.
  split_and!.
  - unfold PoliciesEqual. destruct (policy_unmarshal a) as [pa|] eqn:Ea.
    + destruct (policy_unmarshal b) as [pb|] eqn:Eb.
      * pose proof (canonicalStatements_perm a b pa pb Ea Eb) as HP.
        unfold canonicalStatements in *. rewrite Ea, Eb in *. simpl in *. rewrite bool_decide_eq_true. split.
        -- intros H. exists pa, pb. split_and!; [done|done|]. apply HP. by rewrite H.
        -- intros (pa' & pb' & [= <-] & [= <-] & H). apply HP in H. by injection H.
      * unfold canonicalStatements. rewrite Ea, Eb. simpl. split; [done|naive_solver].
    + unfold canonicalStatements. rewrite Ea. simpl. split; [done|naive_solver].
  - unfold PoliciesEqual. destruct (canonicalStatements a), (canonicalStatements b); try done.
    by apply bool_decide_ext.
  - unfold PoliciesEqual, PolicyHash. destruct (canonicalStatements a), (canonicalStatements b); try done.
    intros H. by apply bool_decide_eq_true in H as ->.
Qed.

(** ** Equality, statement by statement *)

(** Two statements that say the same: one effect, the same actions and resources. *)
Definition alike (a b : statement) : Prop :=
  to_lower (st_Effect a) = to_lower (st_Effect b) /\ st_Action a ≡ₚ st_Action b /\ st_Resource a ≡ₚ st_Resource b.

(** A document that gives the grants: its statements are theirs, in any order. *)
Definition gives (doc : option json) (grants : list Grant) : Prop :=
  exists p l, policy_unmarshal doc = Some p /\ pd_Statement p ≡ₚ l /\ Forall2 alike l (pd_Statement (render_doc grants)).

(** The names of the policy grammar: no action or resource is blank or holds a comma or a
    bar, and an effect is one of the two. *)
Definition plain (s : string) : bool := negb (bool_decide (s = "")) && no_byte "," s && no_byte "|" s.

Definition well_stated (s : statement) : bool :=
  bool_decide (to_lower (st_Effect s) ∈ ["allow"; "deny"]) && forallb plain (st_Action s) && forallb plain (st_Resource s).

Definition well_written (p : policyDoc) : Prop := Forall (fun s => well_stated s = true) (pd_Statement p).

Lemma plain_items l : forallb plain l = true -> Forall (fun s => s <> "" /\ no_byte "," s = true) (sort_strings l).
Proof.
  rewrite forallb_forall. intros H. apply Forall_forall. intros s Hs. unfold sort_strings in Hs. rewrite sort_by_perm in Hs.
  apply list_elem_of_In, H in Hs. unfold plain in Hs. split_and_or. by case_bool_decide.
Qed.

Lemma no_byte_app b s t : no_byte b (s +:+ t) = no_byte b s && no_byte b t.
Proof. induction s as [|c s IH]; cbn [String.append no_byte]; [done|]. by rewrite IH, andb_assoc. Qed.

Lemma plain_joined l : forallb plain l = true -> no_byte "|" (join "," (sort_strings l)) = true.
Proof.
  rewrite forallb_forall. intros H. assert (Forall (fun s => no_byte "|" s = true) (sort_strings l)) as Hl.
  { apply Forall_forall. intros s Hs. unfold sort_strings in Hs. rewrite sort_by_perm in Hs.
    apply list_elem_of_In, H in Hs. unfold plain in Hs. by split_and_or. }
  induction Hl as [|x [|y k] Hx Hk IH]; [done|done|].
  change (join "," (x :: y :: k)) with (x +:+ "," +:+ join "," (y :: k)). by rewrite !no_byte_app, Hx, IH.
Qed.

Lemma canonical_inj a b : well_stated a = true -> well_stated b = true -> canonical a = canonical b -> alike a b.
Proof.
  assert (forall s, s ∈ ["allow"; "deny"] -> no_byte "|" s = true) as He
    by (intros s Hs; apply list_elem_of_In in Hs as [<-|[<-|[]]]; done).
  unfold well_stated. intros Ha Hb H. split_and_or. do 2 case_bool_decide; try done. unfold canonical in H.
  apply separator_split in H as [E1 H]; [|by apply He..].
  apply separator_split in H as [E2 E3]; [|by apply plain_joined..]. split; [done|].
  split; apply sort_strings_perm_eq; eapply join_inj; eauto using plain_items.
Qed.

Lemma canonical_map_inj l k :
  Forall (fun s => well_stated s = true) l -> Forall (fun s => well_stated s = true) k ->
  map canonical l = map canonical k -> Forall2 alike l k.
Proof.
  intros Hl. revert k. induction Hl as [|a l Ha Hl IH]; intros k Hk H; destruct Hk as [|b k Hb Hk]; cbn [map] in H; try done.
  injection H as H1 H2. constructor; [by apply canonical_inj|by apply IH].
Qed.

Lemma canonical_alike a b : alike a b -> canonical a = canonical b.
Proof.
  intros (He & Ha & Hr). unfold canonical. rewrite He.
  by rewrite (proj2 (sort_strings_perm_eq _ _) Ha), (proj2 (sort_strings_perm_eq _ _) Hr).
Qed.

#[export] Instance render_doc_proper : Proper ((≡ₚ) ==> (≡ₚ)) (fun g => pd_Statement (render_doc g)).
Proof.
  intros g g' H. simpl. constructor. unfold sort_grants.
  rewrite (sort_by_perm _ g), (sort_by_perm _ g'). by apply Permutation_flat_map.
Qed.

(** Rendering is stable: the order in which grants are listed does not show in
    the policy, which compares equal (and hashes the same) under any reordering. *)
Theorem render_order_independent (sha256_hex : string -> string) (g g' : list Grant) :
  g ≡ₚ g' ->
  PoliciesEqual (Some (RenderPolicy g)) (Some (RenderPolicy g')) = true /\
  PolicyHash sha256_hex (Some (RenderPolicy g)) = PolicyHash sha256_hex (Some (RenderPolicy g')).
Proof.
  intros H. assert (PoliciesEqual (Some (RenderPolicy g)) (Some (RenderPolicy g')) = true) as He.
  { unfold PoliciesEqual, canonicalStatements, RenderPolicy.
    rewrite !doc_roundtrip. cbn [mbind option_bind]. apply bool_decide_eq_true, sort_strings_perm_eq.
    apply (Permutation_map canonical). exact (render_doc_proper g g' H). }
  split; [done|]. unfold PoliciesEqual, PolicyHash in *.
  destruct (canonicalStatements (Some (RenderPolicy g))), (canonicalStatements (Some (RenderPolicy g'))); try done.
  by apply bool_decide_eq_true in He as ->.
Qed.

(** ** Derived levels *)

(** A bucket name without a slash, as S3 requires. *)
Fixpoint no_slash (s : string) : bool :=
  match s with
  | EmptyString => true
  | String c s' => negb (bool_decide (c = byte_of 47)) && no_slash s'
  end.

Lemma append_inj_l p a b : p +:+ a = p +:+ b -> a = b.
Proof. induction p as [|c p IH]; cbn [String.append]; [done|]. intros [= H]. by apply IH. Qed.

Lemma slash_not_bucket a b : no_slash b = true -> b <> a +:+ "/*".
Proof.
  intros H ->. induction a as [|c a IH]; cbn [String.append no_slash] in H; [by vm_compute in H|].
  apply andb_true_iff in H as [_ H]. by apply IH.
Qed.

Lemma arn_inj a b : arn a = arn b <-> a = b.
Proof. unfold arn. split; [apply append_inj_l|by intros ->]. Qed.

Lemma append_slash_inj a b : no_slash a = true -> no_slash b = true -> a +:+ "/*" = b +:+ "/*" -> a = b.
Proof.
  revert b. induction a as [|c a IH]; intros [|d b] Ha Hb H; cbn [String.append no_slash] in *; try done.
  - apply andb_true_iff in Hb as [Hd _]. injection H as Hc _. subst d. by vm_compute in Hd.
  - apply andb_true_iff in Ha as [Hd _]. injection H as Hc _. subst c. by vm_compute in Hd.
  - apply andb_true_iff in Ha as [_ Ha]. apply andb_true_iff in Hb as [_ Hb]. injection H as -> H.
    f_equal. by apply IH.
Qed.

Lemma existsb_flat_map {A B} (f : B -> bool) (g : A -> list B) l :
  existsb f (flat_map g l) = existsb (fun a => existsb f (g a)) l.
Proof. induction l as [|a l IH]; simpl; [done|]. by rewrite existsb_app, IH. Qed.

Lemma existsb_ext_elem {A} (f g : A -> bool) l :
  (forall x, x ∈ l -> f x = g x) -> existsb f l = existsb g l.
Proof.
  induction l as [|a l IH]; intros H; simpl; [done|]. rewrite (H a) by left. f_equal.
  apply IH. intros x Hx. apply H. by right.
Qed.

Lemma existsb_false_elem {A} (f : A -> bool) l : (forall x, x ∈ l -> f x = false) -> existsb f l = false.
Proof. intros H. rewrite (existsb_ext_elem f (fun _ => false)) by done. induction l; simpl; [done|]. apply IHl. intros x Hx. apply H. by right. Qed.

Lemma existsb_perm {A} (f : A -> bool) l l' : l ≡ₚ l' -> existsb f l = existsb f l'.
Proof. intros H. induction H; simpl; auto; try congruence. by rewrite !orb_assoc, (orb_comm (f y)). Qed.

(** Whether a grant of the bucket satisfies a test. *)
Definition granted (p : string -> bool) (bucket : string) (grants : list Grant) : bool :=
  existsb (fun g => bool_decide (g_Bucket g = bucket) && p (g_Level g)) grants.

(** Grants of distinct buckets, whose names and levels are those the API takes. *)
Definition proper_grants (grants : list Grant) : Prop :=
  NoDup (map g_Bucket grants) /\
  Forall (fun g => no_slash (g_Bucket g) && no_byte "," (g_Bucket g) && no_byte "|" (g_Bucket g) = true /\
                   g_Level g ∈ [LevelRead; LevelReadWrite; LevelAdmin]) grants.

Lemma plain_around p s s' :
  p <> "" -> no_byte "," p && no_byte "|" p = true -> no_byte "," s && no_byte "|" s = true ->
  no_byte "," s' && no_byte "|" s' = true -> plain (p +:+ s +:+ s') = true.
Proof.
  intros Hne Hp Hs Hs'. split_and_or. unfold plain. rewrite !no_byte_app.
  rewrite bool_decide_eq_false_2 by by destruct p. cbn [negb andb].
  by repeat (apply andb_true_iff; split).
Qed.

Lemma rendered_well_written grants : proper_grants grants -> well_written (render_doc grants).
Proof.
  intros [_ Hg]. rewrite Forall_forall in Hg. apply Forall_forall. intros s Hs.
  cbn [render_doc pd_Statement] in Hs. apply elem_of_cons in Hs as [->|Hs]; [by vm_compute|].
  apply list_elem_of_In, in_flat_map in Hs as (g & Hin%list_elem_of_In & Hs).
  unfold sort_grants in Hin. rewrite sort_by_perm in Hin. destruct (Hg g Hin) as [Hn _]. split_and_or.
  assert (no_byte "," (g_Bucket g) && no_byte "|" (g_Bucket g) = true) as Hb by by apply andb_true_iff.
  assert (plain (arnObjects (g_Bucket g)) = true) as Ho by by apply plain_around.
  assert (plain (arn (g_Bucket g)) = true) as Ha.
  { unfold arn. rewrite <- (append_nil_r (g_Bucket g)). by apply plain_around. }
  cbn [grant_statements In] in Hs. destruct Hs as [<-|[<-|[]]]; unfold well_stated; cbn [st_Effect st_Action st_Resource].
  - unfold objectActions. cbn [forallb]. rewrite Ho. by destruct (writes_objects _).
  - unfold bucketActions. cbn [forallb]. rewrite Ha. by destruct (bool_decide (g_Level g = _)).
Qed.

(** On well written documents the comparison of policies is this equality. *)
Lemma PoliciesEqual_gives doc grants :
  proper_grants grants -> (forall p, policy_unmarshal doc = Some p -> well_written p) ->
  (PoliciesEqual doc (Some (RenderPolicy grants)) = true <-> gives doc grants).
Proof.
  intros Hg Hw. pose proof (rendered_well_written grants Hg) as Hr. unfold PoliciesEqual, RenderPolicy, canonicalStatements, gives.
  rewrite doc_roundtrip. destruct (policy_unmarshal doc) as [p|] eqn:Ep; cbn [mbind option_bind];
    [|split; [done|intros (p & l & H & _); congruence]]. specialize (Hw p eq_refl).
  rewrite bool_decide_eq_true, sort_strings_perm_eq. split.
  - intros H. symmetry in H. apply Permutation_map_inv in H as (l & Hl & Hp). exists p, l. split_and!; [done|done|].
    apply canonical_map_inj; [|exact Hr|done]. unfold well_written in Hw. by rewrite Hp in Hw.
  - intros (p' & l & [= <-] & Hp & Hl). rewrite Hp. clear Hp. induction Hl as [|a b l k Hab Hl IH]; [done|].
    cbn [map]. by rewrite (canonical_alike _ _ Hab), IH.
Qed.

Lemma gives_rendered grants : gives (Some (RenderPolicy grants)) grants.
Proof.
  unfold gives, RenderPolicy. rewrite doc_roundtrip. eexists _, _. split_and!; [done|done|].
  induction (pd_Statement (render_doc grants)); by constructor.
Qed.

(** What a bucket's level is read from is the same in statements that say the same. *)
Lemma contains_perm l l' r : l ≡ₚ l' -> contains l r = contains l' r.
Proof. intros H. unfold contains. by apply existsb_perm. Qed.

Lemma gives_level doc grants bucket :
  gives doc grants -> DeriveLevelForBucket doc bucket = DeriveLevelForBucket (Some (RenderPolicy grants)) bucket.
Proof.
  intros (p & l & Hp & Hpl & Hl). unfold DeriveLevelForBucket, RenderPolicy. rewrite Hp, doc_roundtrip.
  assert (forall r, names_resource r (pd_Statement p) = names_resource r (pd_Statement (render_doc grants)) /\
                    full_on r (pd_Statement p) = full_on r (pd_Statement (render_doc grants))) as H.
  { intros r. unfold names_resource, full_on. generalize dependent (pd_Statement p). intros k Hkl.
    assert (forall f, (forall a b, alike a b -> f a = f b) -> existsb f k = existsb f (pd_Statement (render_doc grants))) as Hf.
    { intros f Hf. transitivity (existsb f l).
      - by apply existsb_perm.
      - clear Hkl. induction Hl as [|a b l' k' Hab Hl IH]; [done|]. cbn [existsb]. by rewrite (Hf _ _ Hab), IH. }
    split; apply Hf; intros a b (_ & Ha & Hr); by rewrite (contains_perm _ _ r Hr), ?(contains_perm _ _ "s3:*" Ha). }
  by rewrite !(proj1 (H _)), !(proj2 (H _)).
Qed.

#[local] Arguments contains : simpl never.
#[local] Arguments bool_decide : simpl never.

Section Derived.
Variables (grants : list Grant) (bucket : string).
Hypothesis bucket_ok : no_slash bucket = true.
Hypothesis grants_ok : forallb (fun g => no_slash (g_Bucket g)) grants = true.

Lemma grant_ok g : g ∈ sort_grants grants -> no_slash (g_Bucket g) = true.
Proof.
  intros Hg. unfold sort_grants in Hg. rewrite sort_by_perm in Hg.
  rewrite forallb_forall in grants_ok. by apply grants_ok, list_elem_of_In.
Qed.

(** A test over the statements of the rendered policy. *)
Lemma existsb_rendered (f : statement -> bool) (p : string -> bool) :
  f base_statement = false ->
  (forall g, g ∈ sort_grants grants ->
     existsb f (grant_statements g) = bool_decide (g_Bucket g = bucket) && p (g_Level g)) ->
  existsb f (pd_Statement (render_doc grants)) = granted p bucket grants.
Proof.
  intros Hb Hg. cbn [render_doc pd_Statement existsb]. rewrite Hb, existsb_flat_map. simpl.
  unfold granted. rewrite <- (existsb_perm _ _ _ (sort_by_perm (fun a b => str_leb (g_Bucket a) (g_Bucket b)) grants)).
  by apply existsb_ext_elem.
Qed.

Lemma objects_eq g : g ∈ sort_grants grants ->
  bool_decide (arnObjects (g_Bucket g) = arnObjects bucket) = bool_decide (g_Bucket g = bucket).
Proof.
  intros Hg. apply bool_decide_ext. unfold arnObjects. split; [|by intros ->].
  intros H. apply append_inj_l in H. apply append_slash_inj; [by apply grant_ok|done|done].
Qed.

Lemma bucket_eq g : bool_decide (arn (g_Bucket g) = arn bucket) = bool_decide (g_Bucket g = bucket).
Proof. apply bool_decide_ext. apply arn_inj. Qed.

Lemma cross_ne g : g ∈ sort_grants grants ->
  bool_decide (arn (g_Bucket g) = arnObjects bucket) = false /\
  bool_decide (arnObjects (g_Bucket g) = arn bucket) = false.
Proof.
  intros Hg. split; apply bool_decide_eq_false; unfold arn, arnObjects; intros H; apply append_inj_l in H.
  - by apply (slash_not_bucket bucket (g_Bucket g)); [apply grant_ok|].
  - by apply (slash_not_bucket (g_Bucket g) bucket).
Qed.

Lemma full_actions_objects level : contains (objectActions level) "s3:*" = writes_objects level.
Proof. unfold objectActions. by destruct (writes_objects level). Qed.

Lemma full_actions_bucket level : contains (bucketActions level) "s3:*" = bool_decide (level = LevelAdmin).
Proof. unfold bucketActions. by case_bool_decide. Qed.

Lemma contains_one r r' : contains [r] r' = bool_decide (r = r').
Proof. unfold contains. simpl. apply orb_false_r. Qed.

Lemma names_grant g r :
  existsb (fun s => contains (st_Resource s) r) (grant_statements g) =
    bool_decide (arnObjects (g_Bucket g) = r) || bool_decide (arn (g_Bucket g) = r).
Proof. cbn [grant_statements existsb st_Resource]. by rewrite !contains_one, orb_false_r. Qed.

Lemma full_grant g r :
  existsb (fun s => contains (st_Resource s) r && contains (st_Action s) "s3:*") (grant_statements g) =
    bool_decide (arnObjects (g_Bucket g) = r) && writes_objects (g_Level g) ||
    bool_decide (arn (g_Bucket g) = r) && bool_decide (g_Level g = LevelAdmin).
Proof.
  cbn [grant_statements existsb st_Resource st_Action].
  by rewrite !contains_one, full_actions_objects, full_actions_bucket, orb_false_r.
Qed.

Notation stmts := (pd_Statement (render_doc grants)).

Lemma names_objects : names_resource (arnObjects bucket) stmts = granted (fun _ => true) bucket grants.
Proof.
  apply existsb_rendered; [done|]. intros g Hg.
  by rewrite names_grant, (proj1 (cross_ne g Hg)), objects_eq, orb_false_r, andb_true_r.
Qed.

Lemma names_bucket : names_resource (arn bucket) stmts = granted (fun _ => true) bucket grants.
Proof.
  apply existsb_rendered; [done|]. intros g Hg.
  by rewrite names_grant, (proj2 (cross_ne g Hg)), bucket_eq, orb_false_l, andb_true_r.
Qed.

Lemma full_objects : full_on (arnObjects bucket) stmts = granted writes_objects bucket grants.
Proof.
  apply existsb_rendered; [done|]. intros g Hg.
  by rewrite full_grant, (proj1 (cross_ne g Hg)), objects_eq, andb_false_l, orb_false_r.
Qed.

Lemma full_bucket :
  full_on (arn bucket) stmts = granted (fun l => bool_decide (l = LevelAdmin)) bucket grants.
Proof.
  apply existsb_rendered; [done|]. intros g Hg.
  by rewrite full_grant, (proj2 (cross_ne g Hg)), bucket_eq, andb_false_l, orb_false_l.
Qed.

(** The highest level granted on the bucket, if any. *)
Definition granted_level : option string :=
  if granted (fun l => bool_decide (l = LevelAdmin)) bucket grants then Some LevelAdmin
  else if granted writes_objects bucket grants then Some LevelReadWrite
  else if granted (fun _ => true) bucket grants then Some LevelRead
  else None.

Lemma derived_level :
  DeriveLevelForBucket (Some (RenderPolicy grants)) bucket =
    match granted_level with Some l => (l, true) | None => ("", false) end.
Proof.
  unfold granted_level, DeriveLevelForBucket, RenderPolicy. rewrite doc_roundtrip.
  rewrite names_objects, names_bucket, full_objects, full_bucket.
  assert (forall p q : string -> bool, (forall l, p l = true -> q l = true) ->
    granted p bucket grants = true -> granted q bucket grants = true) as Hmono.
  { intros p q Hpq. unfold granted. rewrite !existsb_exists. intros (g & Hg & Hb). exists g. split; [done|].
    apply andb_true_iff in Hb as [-> Hp]. by apply Hpq. }
  rewrite orb_diag.
  destruct (granted (fun l => bool_decide (l = LevelAdmin)) bucket grants) eqn:Ea.
  - rewrite (Hmono _ writes_objects) with (2 := Ea); [|intros l ->%bool_decide_eq_true; done].
    rewrite (Hmono _ (fun _ => true)) with (2 := Ea); [done|done].
  - rewrite andb_false_r. destruct (granted writes_objects bucket grants) eqn:Ew.
    + by rewrite (Hmono _ (fun _ => true)) with (2 := Ew).
    + by destruct (granted (fun _ => true) bucket grants).
Qed.

(** The level read back from a rendered policy is the level granted: none
    when no grant names the bucket, else admin, read-write or read, the highest
    granted on it, whatever the grants on other buckets. *)
Theorem derived_level_is_granted :
  DeriveLevelForBucket (Some (RenderPolicy grants)) bucket =
    if granted (fun l => bool_decide (l = LevelAdmin)) bucket grants then (LevelAdmin, true)
    else if granted writes_objects bucket grants then (LevelReadWrite, true)
    else if granted (fun _ => true) bucket grants then (LevelRead, true)
    else ("", false).
Proof.
  rewrite derived_level. unfold granted_level. by repeat (destruct (granted _ _ _); [done|]).
Qed.
End Derived.

(** Of proper grants: each bucket its level, and no other bucket any. *)
Lemma granted_of grants g p :
  NoDup (map g_Bucket grants) -> g ∈ grants -> granted p (g_Bucket g) grants = p (g_Level g).
Proof.
  intros Hn Hg. unfold granted. induction grants as [|h grants IH]; [by apply elem_of_nil in Hg|].
  cbn [map] in Hn. apply NoDup_cons in Hn as [Hh Hn]. cbn [existsb]. apply elem_of_cons in Hg as [<-|Hg].
  - rewrite bool_decide_eq_true_2 by done. rewrite <- (orb_false_r (p (g_Level g))) at 2. cbn [andb]. f_equal.
    apply existsb_false_elem. intros h Hh'. rewrite bool_decide_eq_false_2; [done|]. intros E. apply Hh.
    apply list_elem_of_fmap. by exists h.
  - rewrite IH by done. rewrite bool_decide_eq_false_2; [done|]. intros E. apply Hh. rewrite E.
    apply list_elem_of_fmap. by exists g.
Qed.

Lemma proper_no_slash grants : proper_grants grants -> forallb (fun g => no_slash (g_Bucket g)) grants = true.
Proof.
  intros [_ Hg]. rewrite Forall_forall in Hg. apply forallb_forall. intros g Hin%list_elem_of_In.
  destruct (Hg g Hin) as [H _]. by split_and_or.
Qed.

Lemma derived_declared grants g :
  proper_grants grants -> g ∈ grants -> DeriveLevelForBucket (Some (RenderPolicy grants)) (g_Bucket g) = (g_Level g, true).
Proof.
  intros Hp Hg. pose proof (proper_no_slash grants Hp) as Hs. destruct Hp as [Hn Hf]. rewrite Forall_forall in Hf.
  destruct (Hf g Hg) as [Hb Hl]. split_and_or. rewrite derived_level by done. unfold granted_level.
  rewrite !granted_of by done. apply list_elem_of_In in Hl as [<-|[<-|[<-|[]]]]; by vm_compute.
Qed.

Lemma derived_undeclared grants bucket :
  proper_grants grants -> no_slash bucket = true -> bucket ∉ map g_Bucket grants ->
  DeriveLevelForBucket (Some (RenderPolicy grants)) bucket = ("", false).
Proof.
  intros Hp Hb Hn. rewrite derived_level by (try apply proper_no_slash; done). unfold granted_level.
  assert (forall p, granted p bucket grants = false) as H; [|by rewrite !H].
  intros p. apply existsb_false_elem. intros g Hg. rewrite bool_decide_eq_false_2; [done|]. intros E. apply Hn.
  apply list_elem_of_fmap. by exists g.
Qed.

(** A statement's effect is not read: a policy that denies everything on a
    bucket is reported as granting admin on it. *)
Theorem deny_counts_as_grant (bucket : string) :
  DeriveLevelForBucket (Some (policy_marshal {| pd_Version := policyVersion;
    pd_Statement := [{| st_Sid := ""; st_Effect := "Deny"; st_Action := ["s3:*"];
                        st_Resource := [arn bucket; arnObjects bucket] |}] |})) bucket = (LevelAdmin, true).
Proof.
  unfold DeriveLevelForBucket. rewrite doc_roundtrip. unfold full_on, names_resource, contains.
  cbn [pd_Statement existsb st_Resource st_Action].
  rewrite !(bool_decide_eq_true_2 (arn bucket = arn bucket)) by exact eq_refl.
  rewrite !(bool_decide_eq_true_2 (arnObjects bucket = arnObjects bucket)) by exact eq_refl.
  by rewrite !orb_true_r.
Qed.

(** The outcome of an IAM call: a 2xx gives the body; a transport or read
    failure, a 429 or a 5xx (or no status) is transient; a [NoSuchEntity] envelope
    is [ErrNoSuchEntity]; no other failure is either. *)
Theorem iam_do_classified (r : iam_reply) :
  match iam_do r with
  | Ok body => exists status code msg, r = IamReply status body code msg /\ 200 <= status < 300
  | Err e =>
      (error_is e ErrIAMTransient = true <->
         match r with
         | IamReply status _ code _ =>
             code <> "NoSuchEntity" /\ (status = 429 \/ status = 0 \/ 500 <= status <= 599)
         | _ => True
         end) /\
      (error_is e ErrNoSuchEntity = true <-> exists status body msg, r = IamReply status body "NoSuchEntity" msg)
  end.
Proof.
  destruct r as [m|m|status body code msg]; simpl.
  - split; [done|]. split; [done|]. intros (?&?&?&?). done.
  - split; [done|]. split; [done|]. intros (?&?&?&?). done.
  - destruct (_ && _) eqn:E; [exists status, code, msg; split; [done|lia]|].
    unfold classifyQueryError. case_bool_decide as Hc; simpl.
    + split; [by split; [|intros [? _]]|]. split; [|done]. intros _. subst. by eauto.
    + unfold QueryError_transient. simpl. split.
      * split; [intros H; split; [done|]; lia|]. intros [_ H]. apply orb_true_iff. lia.
      * split; [done|]. intros (?&?&?&?). simplify_eq.
Qed.

(** ** Witnesses *)

Definition sample_grants : list Grant :=
  [{| g_Bucket := "logs"; g_Level := "read" |}; {| g_Bucket := "data"; g_Level := "admin" |}].

Lemma render_order_independent_witness :
  PoliciesEqual (Some (RenderPolicy sample_grants)) (Some (RenderPolicy (rev sample_grants))) = true.
Proof.
  apply (render_order_independent (fun s => s)). simpl. apply Permutation_swap.
Defined.

Lemma derived_level_is_granted_witness :
  DeriveLevelForBucket (Some (RenderPolicy sample_grants)) "data" = (LevelAdmin, true) /\
  DeriveLevelForBucket (Some (RenderPolicy sample_grants)) "logs" = (LevelRead, true) /\
  DeriveLevelForBucket (Some (RenderPolicy sample_grants)) "other" = ("", false).
Proof.
  split_and!.
  - exact (derived_level_is_granted sample_grants "data" eq_refl eq_refl).
  - exact (derived_level_is_granted sample_grants "logs" eq_refl eq_refl).
  - exact (derived_level_is_granted sample_grants "other" eq_refl eq_refl).
Defined.
