(* ===== verification/Kubernetes.v ===== *)
(** * Kubernetes: what the cluster, node-pool and add-on controllers share

    [internal/controller/kubernetes/]: the references of [refs.go] and the arms of
    [connector.go], the configurator lookup of [configurator.go], the version
    order of [cluster_upgrade.go], and the cluster payload. *)

From S2P Require Import Prelude Errors Shared Slug Configurator Catalog Effects Resolving RouterRefs.

(** ** References *)

(** A KubernetesCluster or Router as the resolver sees it. *)
Record UpstreamView := { uv_UpstreamID : option string; uv_Ready : ConditionStatus }.

Record KubeReads := {
  read_cluster : string -> string -> kube_get UpstreamView;
  read_router : string -> string -> kube_get UpstreamView;
  read_network : string -> string -> kube_get (option string);
  read_project : string -> string -> kube_get (option Z) }.

Section K8sRefs.
Variable kube : KubeReads.
Variable ns : string.

Definition target_not_found (kind name : string) : error :=
  wrap_post (Sentinel ErrK8sTargetNotFound) (": " +:+ kind +:+ " " +:+ quote name +:+ " in namespace " +:+ quote ns).

Definition target_not_ready (kind name why : string) : error :=
  wrap_post (Sentinel ErrK8sTargetNotReady) (": " +:+ kind +:+ " " +:+ quote name +:+ why).

(** A target that must be provisioned and Ready. *)
Definition ready_target (kind name : string) (v : kube_get UpstreamView) : result error string :=
  match v with
  | KNotFound => Err (target_not_found kind name)
  | KError msg => Err (get_failed kind name ns msg)
  | KFound target =>
      if bool_decide (default_str (uv_UpstreamID target) = "")
      then Err (target_not_ready kind name " (status.atProvider.upstreamID is empty)")
      else if negb (bool_decide (uv_Ready target = CTrue))
      then Err (target_not_ready kind name " (not Ready=True)")
      else Ok (default_str (uv_UpstreamID target))
  end.

(** [selector]: whether a [clusterSelector] is set. *)
Definition resolveClusterRef (ref : option string) (selector : bool) (id : option string) : result error string :=
  if negb (bool_decide (default_str id = "")) then Ok (default_str id)
  else match ref with
       | Some name => ready_target "KubernetesCluster" name (read_cluster kube ns name)
       | None =>
           if selector
           then Err (ErrorString "kubernetes: clusterSelector is not implemented in v0.x — use clusterRef or clusterID")
           else Err (ErrorString "kubernetes: one of clusterRef, clusterSelector, clusterID must be set")
       end.

Definition resolveClusterRouterDecl (routerID routerRef : option string) : result error string :=
  if negb (bool_decide (default_str routerID = "")) then Ok (default_str routerID)
  else match routerRef with
       | Some name => ready_target "Router" name (read_router kube ns name)
       | None => Ok ""
       end.

Definition resolveNetworkRef (name : string) : result error string :=
  match read_network kube ns name with
  | KNotFound => Err (target_not_found "Network" name)
  | KError msg => Err (get_failed "Network" name ns msg)
  | KFound id => if bool_decide (default_str id = "") then Err (target_not_ready "Network" name "")
                 else Ok (default_str id)
  end.

Definition resolveProjectRef (name : string) : result error Z :=
  match read_project kube ns name with
  | KNotFound => Err (target_not_found "Project" name)
  | KError msg => Err (get_failed "Project" name ns msg)
  | KFound None => Err (target_not_ready "Project" name "")
  | KFound (Some id) => Ok id
  end.

(** The declared placement of a cluster: flat id, reference, selector. *)
Record ClusterDeps := {
  cd_NetworkID : option string;
  cd_NetworkRef : option string;
  cd_NetworkSelector : bool;
  cd_ProjectID : option Z;
  cd_ProjectRef : option string;
  cd_ProjectSelector : bool;
  cd_RouterID : option string;
  cd_RouterRef : option string }.

Definition resolve_dep_network (d : ClusterDeps) : result error string :=
  if negb (bool_decide (default_str (cd_NetworkID d) = "")) then Ok (default_str (cd_NetworkID d))
  else match cd_NetworkRef d with
       | Some name => resolveNetworkRef name
       | None =>
           if cd_NetworkSelector d
           then Err (ErrorString "kubernetes: networkSelector is not implemented in v0.x — use networkRef or networkID")
           else Ok ""
       end.

Definition resolve_dep_project (d : ClusterDeps) : result error (option Z) :=
  match cd_ProjectID d with
  | Some id => Ok (Some id)
  | None =>
      match cd_ProjectRef d with
      | Some name => id ← resolveProjectRef name; Ok (Some id)
      | None =>
          if cd_ProjectSelector d
          then Err (ErrorString "kubernetes: projectSelector is not implemented in v0.x — use projectRef or projectID")
          else Ok None
      end
  end.

Definition resolveClusterDeps (d : ClusterDeps) : result error (string * option Z) :=
  networkID ← resolve_dep_network d;
  projectID ← resolve_dep_project d;
  Ok (networkID, projectID).

Definition wrap_refs {A} (kind : string) (r : result error A) : result error A :=
  match r with
  | Ok a => Ok a
  | Err e => Err (wrap_pre ("kubernetes/" +:+ kind) e)
  end.

(** The arms of [Connect]: what the external carries. References are resolved
    only while the resource is not being deleted. *)
Definition connect_cluster (deleting : bool) (d : ClusterDeps) : result error (string * option Z * string) :=
  if deleting then Ok ("", None, "")
  else
    x ← wrap_refs "cluster: resolve references: " (resolveClusterDeps d);
    router ← wrap_refs "cluster: resolve references: " (resolveClusterRouterDecl (cd_RouterID d) (cd_RouterRef d));
    Ok (x.1, x.2, router).

Definition connect_nodepool (deleting : bool) (ref : option string) (selector : bool) (id : option string)
  : result error string :=
  if deleting then Ok "" else wrap_refs "nodepool: resolve cluster reference: " (resolveClusterRef ref selector id).

Definition connect_addon (deleting : bool) (ref : option string) (selector : bool) (id : option string)
  : result error string :=
  if deleting then Ok "" else wrap_refs "addon: resolve cluster reference: " (resolveClusterRef ref selector id).
End K8sRefs.

(** ** Sizing *)

Definition DimKubernetesMasterConfigurator : Dimension :=
  {| dim_Name := "KubernetesMasterConfigurator"; dim_Kind := DimensionConfigurator |}.
Definition DimKubernetesWorkerConfigurator : Dimension :=
  {| dim_Name := "KubernetesWorkerConfigurator"; dim_Kind := DimensionConfigurator |}.
Definition DimKubernetesMasterPreset : Dimension :=
  {| dim_Name := "KubernetesMasterPreset"; dim_Kind := DimensionPreset |}.
Definition DimKubernetesWorkerPreset : Dimension :=
  {| dim_Name := "KubernetesWorkerPreset"; dim_Kind := DimensionPreset |}.
Definition DimKubernetesVersion : Dimension :=
  {| dim_Name := "KubernetesVersion"; dim_Kind := DimensionEnum |}.

Definition tagWorkerGeneral : string := "k8s_configurator_general".
Definition tagWorkerDedicatedCPU : string := "k8s_configurator_dedicated_cpu".

Definition workerFlavorTags (flavor : string) : list string :=
  if bool_decide (flavor = "dedicated-cpu") then [tagWorkerDedicatedCPU] else [tagWorkerGeneral].

(** The configurator query of a sizing block. *)
Definition configurator_input (location : string) (cpu ramGB diskGB : Z) (gpu : option Z) (requireTags : list string)
  : ConfiguratorInput :=
  {| ci_Filters := [("location", AStr location)];
     ci_Sizing := [("cpu", cpu); ("ramMB", int64_wrap (ramGB * 1024)); ("diskGB", diskGB)] ++
                  match gpu with Some g => [("gpu", g)] | None => [] end;
     ci_RequireTags := requireTags |}.

Section Sizing.
Context {Req : Type} {Rep : Req -> Type} {U : Upstream Req Rep} {S : Type}.
(** [resolver.Resolve]. *)
Variable resolve : World -> Dimension -> ResolveInput -> result error ResolveOutput.

Definition resolveK8sConfigurator (dim : Dimension) (location : string) (cpu ramGB diskGB : Z) (gpu : option Z)
    (requireTags : list string) : M U S Z :=
  r ← ask resolve dim (InConfigurator (configurator_input location cpu ramGB diskGB gpu requireTags));
  lift (configurator_of "kubernetes" r).

Definition resolve_preset_in (what : string) (dim : Dimension) (slug zone location : string) : M U S Z :=
  r ← ask resolve dim (InPreset {| pi_Slug := slug; pi_Zone := zone; pi_Location := location |});
  lift (preset_of what r).

Lemma wp_resolveK8sConfigurator dim location cpu ramGB diskGB gpu tags (Q : post Z) s w :
  (forall r, Q r s w []) -> wp (resolveK8sConfigurator dim location cpu ramGB diskGB gpu tags) Q s w.
Proof. intros H. unfold resolveK8sConfigurator. apply wp_bind, wp_ask, wp_lift, H. Qed.

Lemma wp_resolve_preset_in what dim slug zone location (Q : post Z) s w :
  (forall r, Q r s w []) -> wp (resolve_preset_in what dim slug zone location) Q s w.
Proof. intros H. unfold resolve_preset_in. apply wp_bind, wp_ask, wp_lift, H. Qed.
End Sizing.

(** ** Versions *)

Fixpoint leading_digits (s : string) : string :=
  match s with
  | EmptyString => EmptyString
  | String c s' => if is_digit c then String c (leading_digits s') else EmptyString
  end.

(** [strconv.Atoi] of a number too large for an [int] gives the largest one. *)
Definition leadingInt (s : string) : Z :=
  match parse_nat (leading_digits s) with
  | Some n => Z.min n int64_max
  | None => 0
  end.

Definition splitVersion (v : string) : list Z :=
  let v := if has_prefix "v" v then drop_str 1 v else v in
  let v := match index_byte v (byte_of 43) with Some i => take_str i v | None => v end in
  map leadingInt (split_byte (byte_of 46) v).

Fixpoint versions_loop (n : nat) (pa pb : list Z) : bool :=
  match n with
  | O => false
  | S n =>
      let x := hd 0 pa in
      let y := hd 0 pb in
      if negb (x =? y) then x >? y else versions_loop n (tl pa) (tl pb)
  end.

Definition versionNewer (a b : string) : bool :=
  let pa := splitVersion a in
  let pb := splitVersion b in
  versions_loop (Nat.max (length pa) (length pb)) pa pb.

Definition allZero (v : list Z) : bool := forallb (fun x => x =? 0) v.

(** ** The cluster payload *)

Record ClusterNetworkCIDR := { PodsNetwork : string; ServicesNetwork : string }.

Record clusterBody := {
  cb_ID : Z;
  cb_Name : string;
  cb_Status : string;
  cb_Description : string;
  cb_K8sVersion : string;
  cb_NetworkDriver : string;
  cb_PresetID : Z;
  cb_ConfiguratorID : Z;
  cb_CPU : Z;
  cb_RAM : Z;
  cb_Disk : Z;
  cb_AvailabilityZone : string;
  cb_ProjectID : Z;
  cb_NetworkID : string;
  cb_NetworkCidr : option ClusterNetworkCIDR }.
