(* ===== verification/Nodepool.v ===== *)
(** * Nodepool: the worker-group controller

    [internal/controller/kubernetes/nodepool_external.go] and the nodepool half of
    [router_integration.go]: [Observe], [Create], [Update] and [Delete] of a
    KubernetesClusterNodepool over the node-group calls of its parent cluster. *)

From S2P Require Import Prelude Errors Timeweb Slug Configurator Catalog Shared Effects Resolving RouterRefs Kubernetes.

(** ** Payloads *)

Record nodeGroupKV := { kv_Key : string; kv_Value : string }.
Record nodeGroupTaint := { gt_Key : string; gt_Value : string; gt_Effect : string }.

Record nodeGroupBody := {
  gb_ID : Z;
  gb_Name : string;
  gb_PresetID : Z;
  gb_ConfiguratorID : Z;
  gb_NodeCount : Z;
  gb_Labels : list nodeGroupKV;
  gb_Taints : list nodeGroupTaint;
  gb_IsAutoscaling : bool;
  gb_MinSize : option Z;
  gb_MaxSize : option Z }.

Record groupNodeBody := {
  nd_ID : Z;
  nd_Status : string;
  nd_NodeIP : option string;
  nd_CreatedAt : option string }.

(** [twgen.Taint], [twgen.NodeGroupIn] and [twgen.NodeGroupUpdate]. *)
Record Taint := { ta_Key : string; ta_Value : option string; ta_Effect : string }.

Record NodeConfiguration := {
  nc_ConfiguratorId : Z;
  nc_Cpu : Z;
  nc_Disk : Z;
  nc_Gpu : option Z;
  nc_Ram : Z }.

Record NodeGroupIn := {
  gi_Name : string;
  gi_NodeCount : Z;
  gi_PresetId : option Z;
  gi_Configuration : option NodeConfiguration;
  gi_PublicIpEnabled : option bool;
  gi_Labels : option (list nodeGroupKV);
  gi_Taints : option (list Taint);
  gi_IsAutoscaling : option bool;
  gi_MinSize : option Z;
  gi_MaxSize : option Z;
  gi_IsAutohealing : option bool }.

Record NodeGroupUpdate := {
  gu_Name : option string;
  gu_Labels : option (list nodeGroupKV);
  gu_Taints : option (list Taint);
  gu_IsAutoscaling : option bool;
  gu_MinSize : option Z;
  gu_MaxSize : option Z }.

Inductive nodepool_request : Type :=
| GetCluster (cluster : Z)
| GetClusterNodeGroups (cluster : Z)
| GetClusterNodeGroup (cluster group : Z)
| GetClusterNodesFromGroup (cluster group : Z)
| CreateClusterNodeGroup (cluster : Z) (body : NodeGroupIn)
| UpdateClusterNodeGroup (cluster group : Z) (body : NodeGroupUpdate)
| IncreaseCountOfNodesInGroup (cluster group count : Z)
| ReduceCountOfNodesInGroup (cluster group count : Z)
| DeleteClusterNodeGroup (cluster group : Z).

Definition nodepool_reply (q : nodepool_request) : Type :=
  match q with
  | GetCluster _ => clusterBody
  | GetClusterNodeGroups _ => list nodeGroupBody
  | GetClusterNodeGroup _ _ | CreateClusterNodeGroup _ _ => nodeGroupBody
  | GetClusterNodesFromGroup _ _ => list groupNodeBody
  | _ => unit
  end.

(** ** The managed resource *)

Record KubernetesNodepoolResources := {
  nr_CPU : Z;
  nr_RAMGB : Z;
  nr_DiskGB : Z;
  nr_GPU : option Z;
  nr_Flavor : string }.

Record NodepoolTaint := { nt_Key : string; nt_Value : option string; nt_Effect : string }.
Record NodepoolAutoscaling := { as_Enabled : bool; as_MinSize : Z; as_MaxSize : Z }.

Record NodepoolParameters := {
  np_Name : string;
  np_PresetName : option string;
  np_Resources : option KubernetesNodepoolResources;
  np_NodeCount : Z;
  np_PublicIP : option bool;
  np_Labels : gmap string string;
  np_Taints : list NodepoolTaint;
  np_Autoscaling : option NodepoolAutoscaling;
  np_Autohealing : option bool }.

Record NodepoolAutoscalingStatus := {
  ast_Enabled : bool;
  ast_MinSize : option Z;
  ast_MaxSize : option Z }.

Record NodepoolObservation := {
  nb_UpstreamID : option string;
  nb_ClusterID : option string;
  nb_ObservedNodeCount : option Z;
  nb_LockedPresetID : option Z;
  nb_LockedConfiguratorID : option Z;
  nb_Nodes : list groupNodeBody;
  nb_Sizing : option string;
  nb_Labels : gmap string string;
  nb_Taints : list NodepoolTaint;
  nb_Autoscaling : option NodepoolAutoscalingStatus }.

(** ** Pure helpers *)

Definition declaredLabels (labels : gmap string string) : list nodeGroupKV :=
  map (fun k => {| kv_Key := k; kv_Value := default "" (labels !! k) |}) (sort_strings (map_to_list labels).*1).

Definition declaredTaints (taints : list NodepoolTaint) : list Taint :=
  map (fun t => {| ta_Key := nt_Key t; ta_Value := Some (default_str (nt_Value t)); ta_Effect := nt_Effect t |}) taints.

(** The identity of a taint. *)
Definition taint_id (t : NodepoolTaint) : string * string * string := (nt_Key t, default_str (nt_Value t), nt_Effect t).
Definition observed_taint_id (t : nodeGroupTaint) : string * string * string := (gt_Key t, gt_Value t, gt_Effect t).

Definition nodepoolMetadataUpToDate (spec : NodepoolParameters) (g : nodeGroupBody) : bool :=
  (size (np_Labels spec) =? length (gb_Labels g))%nat &&
  forallb (fun kv => bool_decide (np_Labels spec !! kv_Key kv = Some (kv_Value kv))) (gb_Labels g) &&
  (length (np_Taints spec) =? length (gb_Taints g))%nat &&
  let want : gset (string * string * string) := list_to_set (map taint_id (np_Taints spec)) in
  forallb (fun t => bool_decide (observed_taint_id t ∈ want)) (gb_Taints g).

(** The observed bounds against the declared ones. *)
Definition bounds_match (a : NodepoolAutoscaling) (g : nodeGroupBody) : bool :=
  bool_decide (gb_MinSize g = Some (as_MinSize a)) && bool_decide (gb_MaxSize g = Some (as_MaxSize a)).

(** Autoscaling declared on. *)
Definition declared_on (spec : NodepoolParameters) : option NodepoolAutoscaling :=
  match np_Autoscaling spec with
  | Some a => if as_Enabled a then Some a else None
  | None => None
  end.

Definition isNodepoolUpToDate (spec : NodepoolParameters) (status : NodepoolObservation) (g : nodeGroupBody) : bool :=
  if bool_decide (is_Some (np_PresetName spec)) && bool_decide (is_Some (nb_LockedConfiguratorID status)) then false
  else if bool_decide (is_Some (np_Resources spec)) && bool_decide (is_Some (nb_LockedPresetID status)) then false
  else if negb (nodepoolMetadataUpToDate spec g) then false
  else match declared_on spec with
       | Some a =>
           if negb (gb_IsAutoscaling g) then false
           else bounds_match a g
       | None =>
           if gb_IsAutoscaling g then false
           else np_NodeCount spec =? gb_NodeCount g
       end.

Definition buildCreateNodeGroupBody (fp : NodepoolParameters) (presetID configuratorID : Z) : NodeGroupIn :=
  {| gi_Name := np_Name fp;
     gi_NodeCount := np_NodeCount fp;
     gi_PresetId := match np_Resources fp with Some _ => None | None => Some presetID end;
     gi_Configuration :=
       match np_Resources fp with
       | Some r => Some {| nc_ConfiguratorId := configuratorID;
                           nc_Cpu := nr_CPU r;
                           nc_Disk := int64_wrap (nr_DiskGB r * 1024);
                           nc_Gpu := match nr_GPU r with
                                     | Some n => if n >? 0 then Some n else None
                                     | None => None
                                     end;
                           nc_Ram := int64_wrap (nr_RAMGB r * 1024) |}
       | None => None
       end;
     gi_PublicIpEnabled := np_PublicIP fp;
     gi_Labels := if (0 <? size (np_Labels fp))%nat then Some (declaredLabels (np_Labels fp)) else None;
     gi_Taints := if (0 <? length (np_Taints fp))%nat then Some (declaredTaints (np_Taints fp)) else None;
     gi_IsAutoscaling := match declared_on fp with Some _ => Some true | None => None end;
     gi_MinSize := match declared_on fp with Some a => Some (as_MinSize a) | None => None end;
     gi_MaxSize := match declared_on fp with Some a => Some (as_MaxSize a) | None => None end;
     gi_IsAutohealing := np_Autohealing fp |}.

(** The patches [Update] sends: each carries the fields it owns and no other. *)
Definition metadata_patch (spec : NodepoolParameters) : NodeGroupUpdate :=
  {| gu_Name := Some (np_Name spec);
     gu_Labels := Some (declaredLabels (np_Labels spec));
     gu_Taints := Some (declaredTaints (np_Taints spec));
     gu_IsAutoscaling := None; gu_MinSize := None; gu_MaxSize := None |}.

Definition autoscaling_patch (a : NodepoolAutoscaling) : NodeGroupUpdate :=
  {| gu_Name := None; gu_Labels := None; gu_Taints := None;
     gu_IsAutoscaling := Some true; gu_MinSize := Some (as_MinSize a); gu_MaxSize := Some (as_MaxSize a) |}.

Definition disable_patch : NodeGroupUpdate :=
  {| gu_Name := None; gu_Labels := None; gu_Taints := None;
     gu_IsAutoscaling := Some false; gu_MinSize := None; gu_MaxSize := None |}.

Definition routerRequiredCodes : list string :=
  ["router_required_for_worker_groups_without_public_ip";
   "router_must_have_nat_ip_for_cluster_network";
   "router_must_have_dhcp_enabled_for_cluster_network"].

Definition nodeIsActive (status : string) : bool :=
  let s := to_lower status in
  contains_str s "active" || contains_str s "started" || contains_str s "running" ||
  contains_str s "ready" || bool_decide (s = "on").

Definition node_failed (n : groupNodeBody) : bool :=
  let s := to_lower (nd_Status n) in contains_str s "error" || contains_str s "fail".

Fixpoint first_failed (nodes : list groupNodeBody) : option groupNodeBody :=
  match nodes with
  | [] => None
  | n :: rest => if node_failed n then Some n else first_failed rest
  end.

Definition node_failed_msg (n : groupNodeBody) : string :=
  "worker node " +:+ fmt_d (nd_ID n) +:+ " state is " +:+ quote (nd_Status n) +:+
  ": provisioning failed and will not recover on its own — check the Timeweb panel; scale or recreate the nodepool".

Definition count_active (nodes : list groupNodeBody) : Z :=
  Z.of_nat (length (List.filter (fun n => nodeIsActive (nd_Status n)) nodes)).

Definition conflict_msg (extName remembered : string) : string :=
  "external-name " +:+ quote extName +:+
  " does not match the group this resource created (status.atProvider.upstreamID=" +:+ remembered +:+
  "): the crossplane.io/external-name annotation is provider-owned and appears externally overwritten (GitOps pin?). Restore external-name to " +:+
  remembered +:+
  " (and stop rendering the annotation in git), or clear status.atProvider.upstreamID to deliberately create a NEW group. Refusing to create a duplicate".

Definition ambiguous_msg (matches : list nodeGroupBody) : string :=
  "previous create ended ambiguously and " +:+ fmt_d (Z.of_nat (length matches)) +:+
  " upstream groups match the declared identity (" +:+ join ", " (map (fun m => EncodeID (gb_ID m)) matches) +:+
  "): adopt ONE explicitly by setting the crossplane.io/external-name annotation and remove the extras — refusing to guess or create another".

Definition router_required_msg (code : string) : string :=
  "private worker pools need the cluster integrated with a router (upstream: " +:+ code +:+
  "): set spec.forProvider.routerRef on the KubernetesCluster (and ensure the router attachment of the cluster network has NAT and DHCP); integration is a day-2 operation — recreating the cluster is NOT required".

(** Whether a listed group carries the declared identity. *)
Definition identity_matches (name : string) (presetID configuratorID : Z) (g : nodeGroupBody) : bool :=
  bool_decide (gb_Name g = name) &&
  negb (negb (presetID =? 0) && negb (gb_PresetID g =? presetID)) &&
  negb (negb (configuratorID =? 0) && negb (gb_ConfiguratorID g =? 0) && negb (gb_ConfiguratorID g =? configuratorID)).

(** ** The external client *)
Section NodepoolExternal.
Context `{R : CrossplaneRuntime} {U : Upstream nodepool_request nodepool_reply}.
Variable recorder : bool.
(** [resolver.Resolve]. *)
Variable resolve : World -> Dimension -> ResolveInput -> result error ResolveOutput.
(** The parent cluster [Connect] resolved; empty during deletion. *)
Variable resolvedClusterID : string.
(** [meta.ExternalCreateIncomplete] and the create-failed annotation. *)
Variable createIncomplete : bool.
Variable createFailed : string.

Notation nodepool := (managed NodepoolParameters NodepoolObservation).
Notation NM := (M U nodepool).

Definition clusterID (status : NodepoolObservation) : result error Z :=
  DecodeID (if bool_decide (default_str (nb_ClusterID status) = "") then resolvedClusterID
            else default_str (nb_ClusterID status)).

Definition parentClusterAZ (cluster : Z) : NM string :=
  c ← call_pre ("kubernetes/nodepool: get parent cluster " +:+ fmt_d cluster +:+ ": ")
               "kubernetes/nodepool: parent cluster: " (GetCluster cluster);
  mret (cb_AvailabilityZone c).

Definition parentClusterLocation (cluster : Z) : NM string :=
  az ← parentClusterAZ cluster;
  lift (AZToLocation az).

Definition resolveWorkerPreset (slug zone location : string) : NM Z :=
  resolve_preset_in resolve "kubernetes/nodepool" DimKubernetesWorkerPreset slug zone location.

(** *** Status *)

(** The observed labels as a map: the last value of a key wins. *)
Definition labels_map (l : list nodeGroupKV) : gmap string string :=
  fold_left (fun m kv => <[kv_Key kv := kv_Value kv]> m) l ∅.

Definition taint_status (t : nodeGroupTaint) : NodepoolTaint :=
  {| nt_Key := gt_Key t;
     nt_Value := if bool_decide (gt_Value t = "") then None else Some (gt_Value t);
     nt_Effect := gt_Effect t |}.

Definition sizing_column (fp : NodepoolParameters) (old : option string) : option string :=
  match np_PresetName fp with
  | Some p => Some ("preset:" +:+ p)
  | None =>
      match np_Resources fp with
      | Some r => Some (fmt_d (nr_CPU r) +:+ "cpu/" +:+ fmt_d (nr_RAMGB r) +:+ "gb/" +:+ fmt_d (nr_DiskGB r) +:+ "gb")
      | None => old
      end
  end.

Definition nodepool_status (fp : NodepoolParameters) (g : nodeGroupBody) (o : NodepoolObservation) : NodepoolObservation :=
  {| nb_UpstreamID := Some (EncodeID (gb_ID g));
     nb_ClusterID := nb_ClusterID o;
     nb_ObservedNodeCount := Some (gb_NodeCount g);
     nb_LockedPresetID := if gb_PresetID g =? 0 then nb_LockedPresetID o else Some (gb_PresetID g);
     nb_LockedConfiguratorID := nb_LockedConfiguratorID o;
     nb_Nodes := nb_Nodes o;
     nb_Sizing := sizing_column fp (nb_Sizing o);
     nb_Labels := labels_map (gb_Labels g);
     nb_Taints := map taint_status (gb_Taints g);
     nb_Autoscaling := Some {| ast_Enabled := gb_IsAutoscaling g; ast_MinSize := gb_MinSize g;
                               ast_MaxSize := gb_MaxSize g |} |}.

Definition populateNodepoolStatus (g : nodeGroupBody) (cr : nodepool) : nodepool :=
  set_at_provider (nodepool_status (ForProvider cr) g (AtProvider cr)) cr.

Definition set_cluster_id (id : string) (cr : nodepool) : nodepool :=
  let o := AtProvider cr in
  set_at_provider
    {| nb_UpstreamID := nb_UpstreamID o; nb_ClusterID := Some id; nb_ObservedNodeCount := nb_ObservedNodeCount o;
       nb_LockedPresetID := nb_LockedPresetID o; nb_LockedConfiguratorID := nb_LockedConfiguratorID o;
       nb_Nodes := nb_Nodes o; nb_Sizing := nb_Sizing o; nb_Labels := nb_Labels o; nb_Taints := nb_Taints o;
       nb_Autoscaling := nb_Autoscaling o |} cr.

Definition publishNodeList (nodes : list groupNodeBody) (cr : nodepool) : nodepool :=
  let o := AtProvider cr in
  set_at_provider
    {| nb_UpstreamID := nb_UpstreamID o; nb_ClusterID := nb_ClusterID o; nb_ObservedNodeCount := nb_ObservedNodeCount o;
       nb_LockedPresetID := nb_LockedPresetID o; nb_LockedConfiguratorID := nb_LockedConfiguratorID o;
       nb_Nodes := nodes; nb_Sizing := nb_Sizing o; nb_Labels := nb_Labels o; nb_Taints := nb_Taints o;
       nb_Autoscaling := nb_Autoscaling o |} cr.

(** The sizing id [Create] locks. *)
Definition lock_sizing (presetID configuratorID : Z) (cr : nodepool) : nodepool :=
  let o := AtProvider cr in
  let custom := bool_decide (is_Some (np_Resources (ForProvider cr))) in
  set_at_provider
    {| nb_UpstreamID := nb_UpstreamID o; nb_ClusterID := nb_ClusterID o; nb_ObservedNodeCount := nb_ObservedNodeCount o;
       nb_LockedPresetID := if custom then nb_LockedPresetID o else Some presetID;
       nb_LockedConfiguratorID := if custom then Some configuratorID else nb_LockedConfiguratorID o;
       nb_Nodes := nb_Nodes o; nb_Sizing := nb_Sizing o; nb_Labels := nb_Labels o; nb_Taints := nb_Taints o;
       nb_Autoscaling := nb_Autoscaling o |} cr.

(** The Ready condition of the observed nodes, and whether an event is recorded. *)
Definition nodepool_ready (upToDate zeroOK : bool) (declared : Z) (nodes : list groupNodeBody) : Condition * bool :=
  match first_failed nodes with
  | Some n => (ReadyFalse ReasonUpstreamFailed (node_failed_msg n), true)
  | None =>
      if negb upToDate
      then (ReadyFalse ReasonReconciling "worker node count is converging to the desired value", false)
      else if (declared =? 0) && (length nodes =? 0)%nat
      then (if zeroOK then Available else Creating, true)
      else if count_active nodes <? declared
      then (ReadyFalse ReasonReconciling
              (fmt_d (count_active nodes) +:+ "/" +:+ fmt_d declared +:+ " worker nodes provisioned (" +:+
               fmt_d (Z.of_nat (length nodes)) +:+ " listed)"), false)
      else (Available, true)
  end.

Definition setNodepoolReadyCondition (upToDate zeroOK : bool) (declared : Z) (nodes : list groupNodeBody) : NM unit :=
  let c := nodepool_ready upToDate zeroOK declared nodes in
  if c.2 then note_condition recorder c.1 else put_condition c.1.

(** *** Observe *)

Definition parkExternalNameConflict (extName remembered : string) : NM ExternalObservation :=
  note_condition recorder (ReadyFalse ReasonExternalNameConflict (conflict_msg extName remembered));;
  mret {| ResourceExists := true; ResourceUpToDate := true |}.

Definition observeGroupNodes (cluster group : Z) : NM (list groupNodeBody) :=
  call_pre "kubernetes/nodepool: list group nodes: " "kubernetes/nodepool: group nodes: "
           (GetClusterNodesFromGroup cluster group).

(** A zero floor declared on an autoscaling pool that has converged. *)
Definition zero_ok (upToDate : bool) (spec : NodepoolParameters) : bool :=
  upToDate && match declared_on spec with Some a => as_MinSize a =? 0 | None => false end.

Definition observe_found (cluster group : Z) (g : nodeGroupBody) : NM ExternalObservation :=
  modify (populateNodepoolStatus g);;
  modify (set_cluster_id (EncodeID cluster));;
  cr ← get;
  let upToDate := isNodepoolUpToDate (ForProvider cr) (AtProvider cr) g in
  nodes ← observeGroupNodes cluster group;
  modify (publishNodeList nodes);;
  setNodepoolReadyCondition upToDate (zero_ok upToDate (ForProvider cr)) (gb_NodeCount g) nodes;;
  mret {| ResourceExists := true; ResourceUpToDate := upToDate |}.

Definition Observe : NM ExternalObservation :=
  cr ← get;
  let remembered := default_str (nb_UpstreamID (AtProvider cr)) in
  match DecodeID (ExternalName cr) with
  | Err _ =>
      if negb (bool_decide (remembered = "")) then parkExternalNameConflict (ExternalName cr) remembered
      else mret not_exists
  | Ok group =>
      match clusterID (AtProvider cr) with
      | Err _ => mret not_exists
      | Ok cluster =>
          r ← try (call_decode "kubernetes/nodepool: " (GetClusterNodeGroup cluster group));
          match r with
          | Ok g => observe_found cluster group g
          | Err e =>
              if error_is e ErrNotFound
              then if negb (bool_decide (remembered = "")) && negb (bool_decide (remembered = EncodeID group))
                   then parkExternalNameConflict (ExternalName cr) remembered
                   else mret not_exists
              else throw e
          end
      end
  end.

(** *** Create *)

Definition findGroupsByIdentity (cluster : Z) (name : string) (presetID configuratorID : Z) : NM (list nodeGroupBody) :=
  gs ← call_decode "kubernetes/nodepool: node-groups list: " (GetClusterNodeGroups cluster);
  mret (List.filter (identity_matches name presetID configuratorID) gs).

Definition explainRouterIntegration (e : error) : NM error :=
  match as_api_error e with
  | None => mret e
  | Some a =>
      if negb (bool_decide (api_Code a ∈ routerRequiredCodes)) then mret e
      else
        let msg := router_required_msg (api_Code a) in
        note_condition recorder (SyncedFalse ReasonRouterNATRequired msg);;
        mret (wrap_pre ("kubernetes/nodepool: " +:+ msg +:+ ": ") e)
  end.

(** The preset or configurator id of the declared sizing; the other id is 0. *)
Definition resolve_sizing (spec : NodepoolParameters) (cluster : Z) : NM (result error (Z * Z)) :=
  match np_Resources spec with
  | Some r =>
      id ← try (location ← parentClusterLocation cluster;
                resolveK8sConfigurator resolve DimKubernetesWorkerConfigurator location (nr_CPU r) (nr_RAMGB r)
                  (nr_DiskGB r) (nr_GPU r) (workerFlavorTags (nr_Flavor r)));
      mret (match id with Ok c => Ok (0, c) | Err e => Err e end)
  | None =>
      place ← try (az ← parentClusterAZ cluster; loc ← lift (AZToLocation az); mret (az, loc));
      match place with
      | Err e => mret (Err e)
      | Ok (az, loc) =>
          match np_PresetName spec with
          | None => throw nil_dereference
          | Some slug =>
              id ← try (resolveWorkerPreset slug az loc);
              mret (match id with Ok p => Ok (p, 0) | Err e => Err e end)
          end
      end
  end.

Definition create_group (cluster presetID configuratorID : Z) : NM unit :=
  cr ← get;
  r ← try (call_decode "kubernetes/nodepool: "
             (CreateClusterNodeGroup cluster (buildCreateNodeGroupBody (ForProvider cr) presetID configuratorID)));
  match r with
  | Err e => e' ← explainRouterIntegration e; throw e'
  | Ok g =>
      modify (set_external_name (EncodeID (gb_ID g)));;
      modify (set_cluster_id (EncodeID cluster));;
      modify (populateNodepoolStatus g);;
      modify (lock_sizing presetID configuratorID);;
      put_condition Creating
  end.

(** Whether the guard against a lost create runs. *)
Definition previous_create_ambiguous : bool := createIncomplete || negb (bool_decide (createFailed = "")).

(** The lookup of the groups a lost create may have left, before another post. *)
Definition adopt_or_create (cluster presetID configuratorID : Z) : NM unit :=
  cr ← get;
  matches ← findGroupsByIdentity cluster (np_Name (ForProvider cr)) presetID configuratorID;
  match matches with
  | [] => create_group cluster presetID configuratorID
  | [m] =>
      modify (set_external_name (EncodeID (gb_ID m)));;
      modify (set_cluster_id (EncodeID cluster))
  | _ =>
      note_condition recorder (SyncedFalse ReasonAdoptionAmbiguous (ambiguous_msg matches));;
      throw (ErrorString ("kubernetes/nodepool: " +:+ ambiguous_msg matches))
  end.

Definition Create : NM unit :=
  cr ← get;
  match DecodeID resolvedClusterID with
  | Err e => throw (wrap_pre "kubernetes/nodepool: parent cluster not resolved: " e)
  | Ok cluster =>
      sizing ← resolve_sizing (ForProvider cr) cluster;
      match sizing with
      | Err e => note_condition recorder (MapResolverErrorToCondition e);; throw e
      | Ok (presetID, configuratorID) =>
          if previous_create_ambiguous then adopt_or_create cluster presetID configuratorID
          else create_group cluster presetID configuratorID
      end
  end.

(** *** Update and Delete *)

Definition patchNodeGroup (cluster group : Z) (body : NodeGroupUpdate) : NM unit :=
  do_pre "kubernetes/nodepool: group patch: " (UpdateClusterNodeGroup cluster group body).

(** A declared sizing variant other than the locked one. *)
Definition sizing_switched (cr : nodepool) : bool :=
  match np_Resources (ForProvider cr) with
  | Some _ => bool_decide (is_Some (nb_LockedPresetID (AtProvider cr)))
  | None => bool_decide (is_Some (nb_LockedConfiguratorID (AtProvider cr)))
  end.

Definition preset_changed (cr : nodepool) (observed : nodeGroupBody) : bool :=
  match nb_LockedPresetID (AtProvider cr) with
  | Some p => negb (gb_PresetID observed =? 0) && negb (p =? gb_PresetID observed)
  | None => false
  end.

Definition converge_metadata (spec : NodepoolParameters) (cluster group : Z) (observed : nodeGroupBody) : NM unit :=
  if negb (nodepoolMetadataUpToDate spec observed)
  then do_pre "kubernetes/nodepool: update labels/taints: " (UpdateClusterNodeGroup cluster group (metadata_patch spec))
  else mret tt.

Definition node_delta (spec : NodepoolParameters) (observed : nodeGroupBody) : Z :=
  int64_wrap (np_NodeCount spec - gb_NodeCount observed).

Definition converge_count (spec : NodepoolParameters) (cluster group : Z) (observed : nodeGroupBody) : NM unit :=
  match declared_on spec with
  | Some a =>
      if negb (gb_IsAutoscaling observed) || negb (bounds_match a observed)
      then patchNodeGroup cluster group (autoscaling_patch a)
      else mret tt
  | None =>
      if gb_IsAutoscaling observed then patchNodeGroup cluster group disable_patch
      else
        let delta := node_delta spec observed in
        if delta >? 0 then do_ (IncreaseCountOfNodesInGroup cluster group delta)
        else if delta <? 0 then do_ (ReduceCountOfNodesInGroup cluster group (int64_wrap (- delta)))
        else mret tt
  end.

Definition Update : NM unit :=
  cr ← get;
  match DecodeID (ExternalName cr) with
  | Err e => throw (wrap_pre "kubernetes/nodepool: decode external-name: " e)
  | Ok group =>
      match clusterID (AtProvider cr) with
      | Err e => throw (wrap_pre "kubernetes/nodepool: parent cluster id unknown: " e)
      | Ok cluster =>
          observed ← call_decode "kubernetes/nodepool: " (GetClusterNodeGroup cluster group);
          if sizing_switched cr then reject (RejectSizingSwitch recorder)
          else if preset_changed cr observed then reject (RejectImmutableChange recorder "presetName")
          else
            converge_metadata (ForProvider cr) cluster group observed;;
            converge_count (ForProvider cr) cluster group observed
      end
  end.

Definition Delete : NM unit :=
  cr ← get;
  match DecodeID (ExternalName cr) with
  | Err _ => mret tt
  | Ok group =>
      match clusterID (AtProvider cr) with
      | Err _ => mret tt
      | Ok cluster =>
          r ← try (do_ (DeleteClusterNodeGroup cluster group));
          match r with
          | Ok _ => put_condition Deleting
          | Err e => if error_is e ErrNotFound then mret tt else throw e
          end
      end
  end.
End NodepoolExternal.
