(* ===== verification/NodepoolFacts.v ===== *)
(** * NodepoolFacts: what the worker-group controller promises

    The specification of [Nodepool]: metadata comparison against set equality, the
    abstract plan of an [Update] and its refinement, agreement of [Observe] and
    [Update], convergence, identity and adoption. *)

From S2P Require Import Prelude Errors Timeweb Slug Configurator Catalog Shared Effects Lifecycle Resolving RouterRefs Kubernetes Nodepool.

(** ** Labels and taints *)

Lemma elem_of_label_keys (m : gmap string string) k : k ∈ (map_to_list m).*1 <-> is_Some (m !! k).
Proof.
  rewrite list_elem_of_fmap. split.
  - intros ([k' v] & -> & H). apply elem_of_map_to_list in H. by exists v.
  - intros [v H]. exists (k, v). split; [done|]. by apply elem_of_map_to_list.
Qed.

Lemma declaredLabels_keys (m : gmap string string) :
  map kv_Key (declaredLabels m) = sort_strings (map_to_list m).*1.
Proof. unfold declaredLabels. rewrite map_map. simpl. apply map_id. Qed.

Lemma declaredLabels_elem (m : gmap string string) kv :
  kv ∈ declaredLabels m <-> m !! kv_Key kv = Some (kv_Value kv).
Proof.
  unfold declaredLabels. rewrite list_elem_of_In, in_map_iff. split.
  - intros (k & <- & Hk). cbn [kv_Key kv_Value]. apply list_elem_of_In, elem_of_sort_by, elem_of_label_keys in Hk.
    destruct Hk as [v Hv]. by rewrite Hv.
  - intros H. exists (kv_Key kv). rewrite H. destruct kv as [k v]. cbn [default] in *. split; [done|].
    apply list_elem_of_In, elem_of_sort_by, elem_of_label_keys. by eexists.
Qed.

Lemma NoDup_declaredLabels_keys (m : gmap string string) : NoDup (map kv_Key (declaredLabels m)).
Proof. rewrite declaredLabels_keys. unfold sort_strings. rewrite sort_by_perm. apply NoDup_fst_map_to_list. Qed.

Lemma length_declaredLabels (m : gmap string string) : length (declaredLabels m) = size m.
Proof.
  unfold declaredLabels. rewrite length_map. unfold sort_strings. rewrite length_sort_by, length_fmap.
  apply length_map_to_list.
Qed.

(** The map a list of labels denotes when no key repeats. *)
Lemma labels_map_app l k : labels_map (l ++ [k]) = <[kv_Key k := kv_Value k]> (labels_map l).
Proof. unfold labels_map. by rewrite fold_left_app. Qed.

Lemma labels_map_lookup l : NoDup (map kv_Key l) ->
  forall k v, labels_map l !! k = Some v <-> {| kv_Key := k; kv_Value := v |} ∈ l.
Proof.
  induction l as [|x l IH] using rev_ind; intros HN k v.
  - unfold labels_map. simpl. rewrite lookup_empty. split; [done|intros H; inversion H].
  - rewrite map_app in HN. apply NoDup_app in HN as (HN & Hx & _). rewrite labels_map_app, elem_of_app, list_elem_of_singleton.
    destruct (decide (kv_Key x = k)) as [<-|Hne].
    + rewrite lookup_insert_eq. split.
      * intros [= <-]. right. by destruct x.
      * intros [H| <-]; [|done]. exfalso. apply (Hx (kv_Key x)); [|simpl; left].
        change (kv_Key x) with (kv_Key {| kv_Key := kv_Key x; kv_Value := v |}). by apply list_elem_of_fmap_2.
    + rewrite lookup_insert_ne, IH by done. split; [tauto|]. intros [?| <-]; [done|]. by cbn in Hne.
Qed.

Lemma size_labels_map l : NoDup (map kv_Key l) -> size (labels_map l) = length l.
Proof.
  induction l as [|x l IH] using rev_ind; intros HN; [done|].
  rewrite map_app in HN. apply NoDup_app in HN as (HN & Hx & _).
  assert (labels_map l !! kv_Key x = None) as Hn.
  { apply eq_None_not_Some. intros [v E]. apply labels_map_lookup in E; [|done].
    apply (Hx (kv_Key x)); [|simpl; left].
    change (kv_Key x) with (kv_Key {| kv_Key := kv_Key x; kv_Value := v |}). by apply list_elem_of_fmap_2. }
  rewrite labels_map_app, map_size_insert_None, IH, length_app by done. simpl. lia.
Qed.

Lemma labels_map_declared (m : gmap string string) : labels_map (declaredLabels m) = m.
Proof.
  apply map_eq. intros k. apply option_eq. intros v.
  rewrite labels_map_lookup by apply NoDup_declaredLabels_keys. by rewrite declaredLabels_elem.
Qed.

(** The metadata test is set equality: with no label key and no taint repeated, the
    observed group is up to date exactly when its labels, as a map, are the declared
    ones and its taints are the declared ones in some order. *)
Theorem metadata_up_to_date_iff (spec : NodepoolParameters) (g : nodeGroupBody) :
  NoDup (map kv_Key (gb_Labels g)) -> NoDup (map observed_taint_id (gb_Taints g)) ->
  NoDup (map taint_id (np_Taints spec)) ->
  nodepoolMetadataUpToDate spec g = true <->
    labels_map (gb_Labels g) = np_Labels spec /\
    map observed_taint_id (gb_Taints g) ≡ₚ map taint_id (np_Taints spec).
Proof.
  intros HL HT HD. unfold nodepoolMetadataUpToDate.
  rewrite !andb_true_iff, !forallb_forall, !Nat.eqb_eq. split.
  - intros (((Hs & Hl) & Hn) & Ht). split.
    + apply map_subseteq_size_eq; [|rewrite size_labels_map by done; lia].
      apply map_subseteq_spec. intros k v Hk. apply labels_map_lookup in Hk; [|done].
      apply list_elem_of_In, Hl, bool_decide_eq_true in Hk. done.
    + apply submseteq_length_Permutation; [|rewrite !length_map; lia].
      apply NoDup_submseteq; [done|]. intros x Hx. apply list_elem_of_fmap in Hx as (t & -> & Hx).
      apply list_elem_of_In, Ht, bool_decide_eq_true in Hx. by apply elem_of_list_to_set in Hx.
  - intros [HM HP]. split; [split; [split|]|].
    + by rewrite <- HM, size_labels_map.
    + intros kv Hk. apply bool_decide_eq_true. rewrite <- HM. apply labels_map_lookup; [done|].
      apply list_elem_of_In in Hk. by destruct kv.
    + apply Permutation_length in HP. rewrite !length_map in HP. lia.
    + intros t Ht. apply bool_decide_eq_true, elem_of_list_to_set. rewrite <- HP.
      apply list_elem_of_fmap. exists t. split; [done|]. by apply list_elem_of_In.
Qed.

(** The patch of labels and taints, once stored as sent, leaves nothing to change. *)
Definition stored_taints (l : list Taint) : list nodeGroupTaint :=
  map (fun t => {| gt_Key := ta_Key t; gt_Value := default_str (ta_Value t); gt_Effect := ta_Effect t |}) l.

Lemma metadata_stored (spec : NodepoolParameters) (g : nodeGroupBody) :
  gb_Labels g = declaredLabels (np_Labels spec) -> gb_Taints g = stored_taints (declaredTaints (np_Taints spec)) ->
  nodepoolMetadataUpToDate spec g = true.
Proof.
  intros HL HT. unfold nodepoolMetadataUpToDate, stored_taints, declaredTaints in *. rewrite HL, HT.
  rewrite length_declaredLabels, !length_map, !Nat.eqb_refl. simpl. rewrite andb_true_r.
  apply andb_true_iff. split; apply forallb_forall; intros x Hx.
  - apply bool_decide_eq_true, declaredLabels_elem. by apply list_elem_of_In.
  - apply bool_decide_eq_true, elem_of_list_to_set. rewrite map_map in Hx. apply in_map_iff in Hx as (t & <- & Ht).
    apply list_elem_of_fmap. exists t. split; [done|]. by apply list_elem_of_In.
Qed.

(** ** The abstract plan of an [Update]

    What has to change on a group, and when it is due. *)
Inductive intent : Type :=
| Relabel
| TurnOn (a : NodepoolAutoscaling)
| TurnOff
| AddNodes (n : Z)
| RemoveNodes (n : Z).

Inductive due (spec : NodepoolParameters) (g : nodeGroupBody) : intent -> Prop :=
| due_relabel : nodepoolMetadataUpToDate spec g = false -> due spec g Relabel
| due_on a : declared_on spec = Some a ->
    gb_IsAutoscaling g = false \/ gb_MinSize g <> Some (as_MinSize a) \/ gb_MaxSize g <> Some (as_MaxSize a) ->
    due spec g (TurnOn a)
| due_off : declared_on spec = None -> gb_IsAutoscaling g = true -> due spec g TurnOff
| due_add n : declared_on spec = None -> gb_IsAutoscaling g = false ->
    0 < n -> gb_NodeCount g + n = np_NodeCount spec -> due spec g (AddNodes n)
| due_remove n : declared_on spec = None -> gb_IsAutoscaling g = false ->
    0 < n -> gb_NodeCount g - n = np_NodeCount spec -> due spec g (RemoveNodes n).

#[export] Hint Constructors due : go.

Definition intent_request (spec : NodepoolParameters) (cluster group : Z) (i : intent) : nodepool_request :=
  match i with
  | Relabel => UpdateClusterNodeGroup cluster group (metadata_patch spec)
  | TurnOn a => UpdateClusterNodeGroup cluster group (autoscaling_patch a)
  | TurnOff => UpdateClusterNodeGroup cluster group disable_patch
  | AddNodes n => IncreaseCountOfNodesInGroup cluster group n
  | RemoveNodes n => ReduceCountOfNodesInGroup cluster group n
  end.

(** The metadata part and the rest, as lists of at most one intent. *)
Definition relabel_plan (spec : NodepoolParameters) (g : nodeGroupBody) : list intent :=
  if nodepoolMetadataUpToDate spec g then [] else [Relabel].

Definition count_plan (spec : NodepoolParameters) (g : nodeGroupBody) : list intent :=
  match declared_on spec with
  | Some a => if gb_IsAutoscaling g && bounds_match a g then [] else [TurnOn a]
  | None =>
      if gb_IsAutoscaling g then [TurnOff]
      else let d := np_NodeCount spec - gb_NodeCount g in
           if d >? 0 then [AddNodes d] else if d <? 0 then [RemoveNodes (- d)] else []
  end.

Definition update_plan (spec : NodepoolParameters) (g : nodeGroupBody) : list intent :=
  relabel_plan spec g ++ count_plan spec g.

(** The plan is what is due, each once. *)
Lemma bounds_match_iff a g :
  bounds_match a g = true <-> gb_MinSize g = Some (as_MinSize a) /\ gb_MaxSize g = Some (as_MaxSize a).
Proof. unfold bounds_match. by rewrite andb_true_iff, !bool_decide_eq_true. Qed.

Lemma elem_of_update_plan spec g i : i ∈ update_plan spec g <-> due spec g i.
Proof.
  unfold update_plan, relabel_plan, count_plan. rewrite elem_of_app. split.
  - intros [H|H].
    + destruct (nodepoolMetadataUpToDate spec g) eqn:E; [inversion H|]. apply list_elem_of_singleton in H as ->. auto with go.
    + destruct (declared_on spec) as [a|] eqn:E.
      * destruct (gb_IsAutoscaling g && bounds_match a g) eqn:B; [inversion H|].
        apply list_elem_of_singleton in H as ->. apply due_on; [done|].
        apply andb_false_iff in B as [B|B]; [by left|]. right.
        unfold bounds_match in B. apply andb_false_iff in B as [B|B]; apply bool_decide_eq_false in B; tauto.
      * destruct (gb_IsAutoscaling g) eqn:B; [apply list_elem_of_singleton in H as ->; auto with go|].
        cbv zeta in H. repeat case_match; try (inversion H; fail); apply list_elem_of_singleton in H as ->.
        -- apply due_add; auto; lia.
        -- apply due_remove; auto; lia.
  - destruct 1 as [H|a Ha H|Ha H|n Ha H Hn E|n Ha H Hn E].
    + left. rewrite H. left.
    + right. rewrite Ha. replace (gb_IsAutoscaling g && bounds_match a g) with false; [left|].
      symmetry. apply andb_false_iff. destruct (gb_IsAutoscaling g); [right|by left].
      apply not_true_iff_false. rewrite bounds_match_iff. naive_solver.
    + right. rewrite Ha, H. left.
    + right. rewrite Ha, H. cbv zeta. replace (_ >? 0) with true by lia.
      apply list_elem_of_singleton. f_equal. lia.
    + right. rewrite Ha, H. cbv zeta. replace (_ >? 0) with false by lia. replace (_ <? 0) with true by lia.
      apply list_elem_of_singleton. f_equal. lia.
Qed.

Lemma NoDup_update_plan spec g : NoDup (update_plan spec g).
Proof.
  unfold update_plan, relabel_plan, count_plan. cbv zeta.
  repeat case_match; simpl; repeat (constructor; [set_solver|]); constructor.
Qed.

(** ** The code follows the plan *)

Section NodepoolFacts.
Context `{R : CrossplaneRuntime} {U : Upstream nodepool_request nodepool_reply}.
Variable recorder : bool.
Variable resolve : World -> Dimension -> ResolveInput -> result error ResolveOutput.
Variable resolvedClusterID : string.
Variable createIncomplete : bool.
Variable createFailed : string.

Notation nodepool := (managed NodepoolParameters NodepoolObservation).
Notation Update := (Update recorder resolvedClusterID).
Notation Observe := (Observe recorder resolvedClusterID).
Notation Delete := (Delete resolvedClusterID).
Notation Create := (Create recorder resolve resolvedClusterID createIncomplete createFailed).

(** A difference of node counts an [int] and its opposite can hold. *)
Definition delta_fits (spec : NodepoolParameters) (g : nodeGroupBody) : Prop :=
  - int64_max <= np_NodeCount spec - gb_NodeCount g <= int64_max.

Lemma node_delta_fits spec g : delta_fits spec g -> node_delta spec g = np_NodeCount spec - gb_NodeCount g.
Proof. intros H. apply int64_wrap_id. unfold delta_fits, int64_min, int64_max in *. lia. Qed.

Lemma converge_metadata_spec spec c i g (cr : nodepool) w :
  wp (converge_metadata spec c i g) (fun r s' w' t =>
    s' = cr /\ follows (map (intent_request spec c i) (relabel_plan spec g)) (is_ok r) (map request t)) cr w.
Proof.
  unfold converge_metadata, relabel_plan. destruct (nodepoolMetadataUpToDate spec g); cbn [negb]; wp_step.
  - by repeat split.
  - split; [done|]. split; simpl; auto.
Qed.

Lemma converge_count_spec spec c i g (cr : nodepool) w :
  wp (converge_count spec c i g) (fun r s' w' t =>
    s' = cr /\ (delta_fits spec g ->
      follows (map (intent_request spec c i) (count_plan spec g)) (is_ok r) (map request t))) cr w.
Proof.
  unfold converge_count, count_plan, patchNodeGroup. cbv zeta.
  destruct (declared_on spec) as [a|].
  { rewrite <- negb_andb. destruct (gb_IsAutoscaling g && bounds_match a g); cbn [negb]; wp_step;
      (split; [done|]); intros _; [by repeat split|apply follows_one]. }
  destruct (gb_IsAutoscaling g); [wp_step; split; [done|]; intros _; apply follows_one|].
  destruct (node_delta spec g >? 0) eqn:E1; [|destruct (node_delta spec g <? 0) eqn:E2]; wp_step;
    (split; [done|]); intros HF; rewrite node_delta_fits in * by done; rewrite E1, ?E2; cbn [map request intent_request].
  - apply follows_one.
  - rewrite int64_wrap_id by (unfold delta_fits, int64_min, int64_max in *; lia). apply follows_one.
  - by repeat split.
Qed.

(** What an [Update] that could read its group does. *)
Definition update_result (cr : nodepool) (c i : Z) (rep : reply nodeGroupBody)
    (r : result error unit) (t : list nodepool_request) : Prop :=
  match read_reply_pre "kubernetes/nodepool: " rep with
  | Err e => r = Err e /\ t = []
  | Ok g =>
      if sizing_switched cr then r = Err (Sentinel ErrSizingSwitchRequiresRecreate) /\ t = []
      else if preset_changed cr g then r = Err (Sentinel ErrImmutableFieldChange) /\ t = []
      else delta_fits (ForProvider cr) g ->
           follows (map (intent_request (ForProvider cr) c i) (update_plan (ForProvider cr) g)) (is_ok r) t
  end.

Lemma nodepool_update_follows (cr : nodepool) w c i :
  DecodeID (ExternalName cr) = Ok i -> clusterID resolvedClusterID (AtProvider cr) = Ok c ->
  wp Update (fun r s' w' t =>
    ForProvider s' = ForProvider cr /\ AtProvider s' = AtProvider cr /\ ExternalName s' = ExternalName cr /\
    exists rep w1 t', serve (GetClusterNodeGroup c i) w = (rep, w1) /\
      t = Exchange (Rep := nodepool_reply) (GetClusterNodeGroup c i) rep :: t' /\
      update_result cr c i rep r (map request t')) cr w.
Proof.
  intros Hi Hc. unfold Nodepool.Update. wp_step. wp_step. rewrite Hi, Hc. wp_step. wp_step.
  destruct (read_reply_pre "kubernetes/nodepool: " r) as [g|e] eqn:Er;
    cbn [nodepool_reply] in Er; [|do 3 (split; [done|]); eexists _, _, []; split; [done|]; split; [done|]; unfold update_result; by rewrite Er].
  destruct (sizing_switched cr) eqn:E1.
  { wp_step. cbn. do 3 (split; [done|]). eexists _, _, []. split; [done|]. split; [done|].
    unfold update_result. by rewrite Er, E1. }
  destruct (preset_changed cr g) eqn:E2.
  { wp_step. cbn. do 3 (split; [done|]). eexists _, _, []. split; [done|]. split; [done|].
    unfold update_result. by rewrite Er, E1, E2. }
  wp_step. eapply wp_mono; [apply converge_metadata_spec|]. intros r1 s1 w1 t1 (-> & H1).
  assert (forall rr tt, (delta_fits (ForProvider cr) g ->
            follows (map (intent_request (ForProvider cr) c i) (update_plan (ForProvider cr) g)) (is_ok rr) tt) ->
          update_result cr c i r rr tt) as Hres.
  { intros rr tt Hf. unfold update_result. rewrite Er, E1, E2. done. }
  unfold update_plan in Hres. rewrite map_app in Hres. destruct r1 as [[]|e].
  - eapply wp_mono; [apply converge_count_spec|]. intros r2 s2 w2 t2 (-> & H2). do 3 (split; [done|]).
    eexists _, _, _. split; [done|]. split; [done|]. apply Hres. intros HF. rewrite map_app. apply follows_bind; [done|]. by apply H2.
  - do 3 (split; [done|]). eexists _, _, _. split; [done|]. split; [done|]. apply Hres. intros HF. cbn [is_ok] in *.
    by apply follows_stop.
Qed.

(** C32. An [Update] refines the plan: it reads its group once; unless the read fails or
    an immutable field changed, every write that follows is one of the changes due
    on the group as read, none is repeated, and an [Update] that succeeds has made
    every change that was due. *)
Theorem nodepool_update_refines_plan (cr : nodepool) (w : World) (c i : Z) :
  DecodeID (ExternalName cr) = Ok i -> clusterID resolvedClusterID (AtProvider cr) = Ok c ->
  exists rep t, trace (Update cr w) = Exchange (Rep := nodepool_reply) (GetClusterNodeGroup c i) rep :: t /\
    match read_reply_pre "kubernetes/nodepool: " rep with
    | Err e => outcome (Update cr w) = Err e /\ t = []
    | Ok g =>
        if sizing_switched cr || preset_changed cr g then is_ok (outcome (Update cr w)) = false /\ t = []
        else delta_fits (ForProvider cr) g ->
          exists steps, map request t = map (intent_request (ForProvider cr) c i) steps /\ NoDup steps /\
            Forall (due (ForProvider cr) g) steps /\
            (outcome (Update cr w) = Ok tt -> forall s, due (ForProvider cr) g s -> s ∈ steps)
    end.
Proof.
  intros Hi Hc. destruct (nodepool_update_follows cr w c i Hi Hc) as (_ & _ & _ & rep & w1 & t & _ & Ht & Hr).
  exists rep, t. split; [done|]. unfold update_result in Hr. cbn [nodepool_reply] in *.
  destruct (read_reply_pre _ rep) as [g|e]; [|destruct Hr as [? ?%map_eq_nil]; done].
  assert (map request t = [] -> t = []) as Hnil by apply map_eq_nil.
  destruct (sizing_switched cr); [destruct Hr as [E H]; rewrite E; cbn; auto|]. cbn [orb].
  destruct (preset_changed cr g); [destruct Hr as [E H]; rewrite E; cbn; auto|].
  intros HF. destruct (Hr HF) as [[k Hk] Hok].
  assert (map request t = map (intent_request (ForProvider cr) c i) (take (length t) (update_plan (ForProvider cr) g))) as HE.
  { rewrite <- firstn_map, Hk, take_app_length'; [done|]. by rewrite length_map. }
  exists (take (length t) (update_plan (ForProvider cr) g)). split; [done|]. split; [|split].
  - eapply sublist_NoDup; [apply NoDup_update_plan|apply sublist_take].
  - apply Forall_forall. intros s Hs. apply elem_of_update_plan. apply (elem_of_sublist _ _ _ Hs), sublist_take.
  - intros HO s Hs. rewrite HO in Hok. specialize (Hok eq_refl).
    rewrite take_ge; [by apply elem_of_update_plan|].
    apply (f_equal length) in Hok. rewrite !length_map in Hok. lia.
Qed.

Lemma count_plan_nil spec g :
  count_plan spec g = [] <->
  match declared_on spec with
  | Some a => if negb (gb_IsAutoscaling g) then false else bounds_match a g
  | None => if gb_IsAutoscaling g then false else np_NodeCount spec =? gb_NodeCount g
  end = true.
Proof.
  unfold count_plan. cbv zeta. destruct (declared_on spec) as [a|]; destruct (gb_IsAutoscaling g); cbn [negb andb];
    try (by split); [by destruct (bounds_match a g)|].
  destruct (_ >? 0) eqn:E1; [|destruct (_ <? 0) eqn:E2]; (split; [try done; intros _; lia|intros E3; try done; lia]).
Qed.

(** [Observe] and [Update] agree: for a pool sized in one way, [Observe] reports a
    group up to date exactly when no change is due on it and the sizing variant is
    the locked one. *)
Theorem up_to_date_iff_nothing_due (cr : nodepool) (g : nodeGroupBody) :
  (is_Some (np_PresetName (ForProvider cr)) <-> np_Resources (ForProvider cr) = None) ->
  isNodepoolUpToDate (ForProvider cr) (AtProvider cr) g = true <->
    sizing_switched cr = false /\ forall s, ~ due (ForProvider cr) g s.
Proof.
  intros Hone. transitivity (sizing_switched cr = false /\ update_plan (ForProvider cr) g = []).
  - assert (forall b, (b = true <-> count_plan (ForProvider cr) g = []) ->
        (if negb (nodepoolMetadataUpToDate (ForProvider cr) g) then false else b) = true <->
        update_plan (ForProvider cr) g = []) as HM.
    { intros b Hb. unfold update_plan, relabel_plan. by destruct (nodepoolMetadataUpToDate _ _). }
    unfold isNodepoolUpToDate, sizing_switched.
    destruct (np_Resources (ForProvider cr)) as [z|].
    + rewrite (bool_decide_false (is_Some (np_PresetName _))) by naive_solver.
      rewrite (bool_decide_true (is_Some (Some z))) by done. cbn [andb].
      destruct (bool_decide _); [naive_solver|]. rewrite HM by (symmetry; apply count_plan_nil). naive_solver.
    + rewrite (bool_decide_true (is_Some (np_PresetName _))) by tauto.
      rewrite (bool_decide_false (is_Some None)) by (by intros [? ?]). cbn [andb].
      destruct (bool_decide _); [naive_solver|]. rewrite HM by (symmetry; apply count_plan_nil). naive_solver.
  - setoid_rewrite <- elem_of_update_plan. split; intros [Hs Hp]; (split; [done|]).
    + rewrite Hp. intros s. apply not_elem_of_nil.
    + by apply elem_of_nil_inv.
Qed.
End NodepoolFacts.

(** ** Convergence

    A service that does what an acceptable patch says: labels and taints are replaced
    when sent, autoscaling goes on with the bounds sent or off with its bounds cleared;
    and that moves the node count by the amount asked, within what the CRD lets be
    declared: up to at most 100 nodes, down to at least one. Nothing is assumed of a
    reduction to no node, which was seen not to stick, nor of bounds the CRD refuses; a
    count the autoscaler owns may be anything. [group_of w] is the group the service
    holds. *)
Definition patched (u : NodeGroupUpdate) (g g' : nodeGroupBody) : Prop :=
  gb_PresetID g' = gb_PresetID g /\
  gb_Labels g' = default (gb_Labels g) (gu_Labels u) /\
  gb_Taints g' = default (gb_Taints g) (stored_taints <$> gu_Taints u) /\
  match gu_IsAutoscaling u with
  | None => gb_IsAutoscaling g' = gb_IsAutoscaling g /\ gb_MinSize g' = gb_MinSize g /\
            gb_MaxSize g' = gb_MaxSize g /\ gb_NodeCount g' = gb_NodeCount g
  | Some true => gb_IsAutoscaling g' = true /\ gb_MinSize g' = gu_MinSize u /\ gb_MaxSize g' = gu_MaxSize u
  | Some false => gb_IsAutoscaling g' = false /\ gb_MinSize g' = None /\ gb_MaxSize g' = None
  end.

Definition with_count (n : Z) (g : nodeGroupBody) : nodeGroupBody :=
  {| gb_ID := gb_ID g; gb_Name := gb_Name g; gb_PresetID := gb_PresetID g; gb_ConfiguratorID := gb_ConfiguratorID g;
     gb_NodeCount := n; gb_Labels := gb_Labels g; gb_Taints := gb_Taints g; gb_IsAutoscaling := gb_IsAutoscaling g;
     gb_MinSize := gb_MinSize g; gb_MaxSize := gb_MaxSize g |}.

(** Bounds the CRD accepts: from 0 and from 1, the maximum no smaller than the minimum. *)
Definition bounds_valid (lo hi : Z) : Prop := 0 <= lo <= hi /\ 1 <= hi.

Definition acceptable (u : NodeGroupUpdate) : Prop :=
  match gu_IsAutoscaling u with
  | Some true => exists lo hi, gu_MinSize u = Some lo /\ gu_MaxSize u = Some hi /\ bounds_valid lo hi
  | _ => True
  end.

Class FaithfulGroup {U : Upstream nodepool_request nodepool_reply} (c i : Z) (group_of : World -> nodeGroupBody) : Prop := {
  group_count w : 0 <= gb_NodeCount (group_of w) <= int64_max;
  group_get w r w' : serve (GetClusterNodeGroup c i) w = (r, w') ->
    read_reply r = Ok (group_of w) /\ group_of w' = group_of w;
  group_patch u w r w' : serve (UpdateClusterNodeGroup c i u) w = (r, w') -> acceptable u ->
    write_reply r = Ok tt /\ patched u (group_of w) (group_of w');
  group_increase n w r w' : serve (IncreaseCountOfNodesInGroup c i n) w = (r, w') ->
    0 < n -> gb_NodeCount (group_of w) + n <= 100 ->
    write_reply r = Ok tt /\ group_of w' = with_count (gb_NodeCount (group_of w) + n) (group_of w);
  group_reduce n w r w' : serve (ReduceCountOfNodesInGroup c i n) w = (r, w') ->
    0 < n -> 1 <= gb_NodeCount (group_of w) - n ->
    write_reply r = Ok tt /\ group_of w' = with_count (gb_NodeCount (group_of w) - n) (group_of w) }.

(** The same scaling state: what the count half of [Update] looks at. *)
Definition same_scale (g g' : nodeGroupBody) : Prop :=
  gb_PresetID g' = gb_PresetID g /\ gb_IsAutoscaling g' = gb_IsAutoscaling g /\ gb_MinSize g' = gb_MinSize g /\
  gb_MaxSize g' = gb_MaxSize g /\ gb_NodeCount g' = gb_NodeCount g.

Definition same_metadata (g g' : nodeGroupBody) : Prop :=
  gb_PresetID g' = gb_PresetID g /\ gb_Labels g' = gb_Labels g /\ gb_Taints g' = gb_Taints g.

Lemma same_metadata_up_to_date spec g g' :
  same_metadata g g' -> nodepoolMetadataUpToDate spec g' = nodepoolMetadataUpToDate spec g.
Proof. intros (_ & HL & HT). unfold nodepoolMetadataUpToDate. by rewrite HL, HT. Qed.

Lemma same_scale_plan spec g g' : same_scale g g' -> count_plan spec g' = count_plan spec g.
Proof. intros (_ & HA & H1 & H2 & HN). unfold count_plan, bounds_match. by rewrite HA, H1, H2, HN. Qed.

Section Converge.
Context `{R : CrossplaneRuntime} {U : Upstream nodepool_request nodepool_reply}.
Variable recorder : bool.
Variable resolvedClusterID : string.
Variables c i : Z.
Variable group_of : World -> nodeGroupBody.
Context `{!FaithfulGroup c i group_of}.

Notation nodepool := (managed NodepoolParameters NodepoolObservation).
Notation Update := (Update recorder resolvedClusterID).

Lemma write_reply_as_faithful {A} pre (r : reply A) : write_reply r = Ok tt -> write_reply_as pre r = Ok tt.
Proof. apply write_reply_as_ok. Qed.

Lemma converge_metadata_faithful spec g (cr : nodepool) w :
  g = group_of w ->
  wp (converge_metadata spec c i g) (fun r s' w' t =>
    r = Ok tt /\ s' = cr /\ nodepoolMetadataUpToDate spec (group_of w') = true /\ same_scale g (group_of w')) cr w.
Proof.
  intros ->. unfold converge_metadata. destruct (nodepoolMetadataUpToDate spec (group_of w)) eqn:E; cbn [negb]; wp_step.
  - by repeat split.
  - apply group_patch in H as [Hr (HP & HL & HT & HS)]; [|done]. split; [by apply write_reply_as_faithful|]. split; [done|].
    split; [|by unfold same_scale]. by apply metadata_stored.
Qed.

(** After the count half, either nothing is left of it, or autoscaling has just been
    switched off. *)
Lemma converge_count_faithful spec g (cr : nodepool) w :
  1 <= np_NodeCount spec <= 100 -> (forall a, declared_on spec = Some a -> bounds_valid (as_MinSize a) (as_MaxSize a)) ->
  0 <= gb_NodeCount g <= int64_max -> same_scale g (group_of w) ->
  wp (converge_count spec c i g) (fun r s' w' t =>
    r = Ok tt /\ s' = cr /\ same_metadata (group_of w) (group_of w') /\
    (count_plan spec (group_of w') = [] \/
     declared_on spec = None /\ gb_IsAutoscaling g = true /\ gb_IsAutoscaling (group_of w') = false)) cr w.
Proof.
  intros HN HB HG (HP & HA & Hmin & Hmax & HC). unfold converge_count, patchNodeGroup. cbv zeta.
  rewrite node_delta_fits by (unfold delta_fits, int64_max in *; lia).
  destruct (declared_on spec) as [a|] eqn:Ed.
  { rewrite <- negb_andb. destruct (gb_IsAutoscaling g && bounds_match a g) eqn:E; cbn [negb]; wp_step.
    - do 2 (split; [done|]). split; [by repeat split|]. left. unfold count_plan, bounds_match in *.
      by rewrite Ed, HA, Hmin, Hmax, E.
    - apply group_patch in H as [Hr (HP' & HL & HT & HA' & Hmin' & Hmax')];
        [|exists (as_MinSize a), (as_MaxSize a); do 2 (split; [done|]); by apply HB]. split; [by apply write_reply_as_faithful|].
      do 2 (split; [done|]). left. apply count_plan_nil. rewrite Ed, HA'. cbn [negb]. by apply bounds_match_iff. }
  destruct (gb_IsAutoscaling g) eqn:Eg; [|destruct (_ >? 0) eqn:E1; [|destruct (_ <? 0) eqn:E2]]; wp_step.
  - apply group_patch in H as [Hr (HP' & HL & HT & HA' & Hmin' & Hmax')]; [|done]. split; [by apply write_reply_as_faithful|].
    do 2 (split; [done|]). by right.
  - apply group_increase in H as [Hr HW]; [|lia..]. do 2 (split; [done|]). rewrite HW. split; [done|]. left.
    apply count_plan_nil. rewrite Ed. cbn. rewrite HA. lia.
  - rewrite int64_wrap_id in H by (unfold int64_min, int64_max in *; lia).
    apply group_reduce in H as [Hr HW]; [|lia..]. do 2 (split; [done|]). rewrite HW. split; [done|]. left.
    apply count_plan_nil. rewrite Ed. cbn. rewrite HA. lia.
  - do 2 (split; [done|]). split; [done|]. left. apply count_plan_nil. rewrite Ed, HA, HC. lia.
Qed.

(** A pool whose sizing the guards of [Update] accept. *)
Definition sizing_settled (cr : nodepool) (g : nodeGroupBody) : Prop :=
  sizing_switched cr = false /\ preset_changed cr g = false.

Lemma Update_faithful (cr : nodepool) w :
  DecodeID (ExternalName cr) = Ok i -> clusterID resolvedClusterID (AtProvider cr) = Ok c ->
  1 <= np_NodeCount (ForProvider cr) <= 100 ->
  (forall a, declared_on (ForProvider cr) = Some a -> bounds_valid (as_MinSize a) (as_MaxSize a)) -> sizing_settled cr (group_of w) ->
  wp Update (fun r s' w' t =>
    r = Ok tt /\ s' = cr /\ gb_PresetID (group_of w') = gb_PresetID (group_of w) /\
    nodepoolMetadataUpToDate (ForProvider cr) (group_of w') = true /\
    (count_plan (ForProvider cr) (group_of w') = [] \/
     declared_on (ForProvider cr) = None /\ gb_IsAutoscaling (group_of w) = true /\
     gb_IsAutoscaling (group_of w') = false)) cr w.
Proof.
  intros Hi Hc HN HB [H1 H2]. unfold Nodepool.Update. wp_step. wp_step. rewrite Hi, Hc. wp_step. wp_step.
  destruct (group_get _ _ _ H) as [Hr Hw]. apply (read_reply_pre_ok "kubernetes/nodepool: ") in Hr.
  rewrite Hr, H1, H2. wp_step.
  eapply wp_mono; [by apply converge_metadata_faithful; symmetry|]. intros ? ? w1 t1 (-> & -> & HM & HS).
  eapply wp_mono; [apply converge_count_faithful; [done|done|apply group_count|done]|].
  intros ? ? w2 t2 (-> & -> & HM' & HC). do 2 (split; [done|]).
  split; [by rewrite (proj1 HM'), (proj1 HS)|]. split; [|done]. by rewrite (same_metadata_up_to_date _ _ _ HM').
Qed.

Definition reconcile (x : nodepool * World) : nodepool * World :=
  (final (Update x.1 x.2), world (Update x.1 x.2)).

(** C31. Two [Update]s are enough. For a declaration within what the CRD accepts (1 to 100
    nodes, autoscaling bounds in order) whose sizing the guards accept, from any group,
    against a service that accepts the patches of labels, taints and autoscaling and moves
    the count between 1 and 100 as asked ([FaithfulGroup]): after two or more passes the
    group is up to date, and a further [Update] succeeds, reads the group and writes
    nothing. *)
Theorem nodepool_update_converges (cr : nodepool) (w : World) (n : nat) :
  (2 <= n)%nat -> DecodeID (ExternalName cr) = Ok i -> clusterID resolvedClusterID (AtProvider cr) = Ok c ->
  1 <= np_NodeCount (ForProvider cr) <= 100 ->
  (forall a, declared_on (ForProvider cr) = Some a -> bounds_valid (as_MinSize a) (as_MaxSize a)) -> sizing_settled cr (group_of w) ->
  (is_Some (np_PresetName (ForProvider cr)) <-> np_Resources (ForProvider cr) = None) ->
  let x := Nat.iter n reconcile (cr, w) in
  x.1 = cr /\ isNodepoolUpToDate (ForProvider cr) (AtProvider cr) (group_of x.2) = true /\
  outcome (Update x.1 x.2) = Ok tt /\ calls (Update x.1 x.2) = [GetClusterNodeGroup c i].
Proof.
  intros Hn Hi Hc HN HB HS Hone.
  assert (forall k, let x := Nat.iter k reconcile (cr, w) in x.1 = cr /\ sizing_settled cr (group_of x.2) /\
    ((1 <= k)%nat -> nodepoolMetadataUpToDate (ForProvider cr) (group_of x.2) = true /\
       (count_plan (ForProvider cr) (group_of x.2) = [] \/ gb_IsAutoscaling (group_of x.2) = false)) /\
    ((2 <= k)%nat -> update_plan (ForProvider cr) (group_of x.2) = [])) as Hk.
  { induction k as [|k IH]; [repeat split; try apply HS; lia|]. cbv zeta in *.
    rewrite Nat.iter_succ. destruct (Nat.iter k reconcile (cr, w)) as [cr' w']. cbn [fst snd] in IH.
    destruct IH as (-> & HS' & IH1 & IH2).
    destruct (Update_faithful cr w' Hi Hc HN HB HS') as (_ & Hs & HP & HM & HC).
    unfold reconcile. cbn [fst snd]. split; [done|]. split; [|split].
    - destruct HS' as [? HP']. split; [done|]. unfold preset_changed in *. by rewrite HP.
    - intros _. split; [done|]. destruct HC as [?|(_ & _ & ?)]; auto.
    - intros Hk. unfold update_plan, relabel_plan. rewrite HM. simpl. destruct HC as [?|(Hd & HA & HA')]; [done|].
      destruct (IH1 ltac:(lia)) as [_ [HC|HA'']]; [|congruence]. apply count_plan_nil in HC. by rewrite Hd, HA in HC. }
  specialize (Hk n). cbv zeta in *. destruct (Nat.iter n reconcile (cr, w)) as [cr' w']. cbn [fst snd] in *.
  destruct Hk as (-> & HS' & _ & HP). specialize (HP Hn). split; [done|]. split; [|split].
  - apply up_to_date_iff_nothing_due; [done|]. split; [apply HS'|]. intros s. rewrite <- elem_of_update_plan, HP.
    apply not_elem_of_nil.
  - by destruct (Update_faithful cr w' Hi Hc HN HB HS') as (-> & _).
  - destruct (nodepool_update_follows recorder resolvedClusterID cr w' c i Hi Hc) as (_ & _ & _ & rep & w1 & t & Hw & Ht & Hr).
    apply group_get in Hw as [Hg _]. apply (read_reply_pre_ok "kubernetes/nodepool: ") in Hg.
    unfold calls. rewrite Ht. simpl. f_equal. unfold update_result in Hr. cbn [nodepool_reply] in *.
    rewrite Hg, (proj1 HS'), (proj2 HS'), HP in Hr. destruct Hr as [[l Hl] _].
    + pose proof (group_count (group_of := group_of) w'). unfold delta_fits, int64_max in *. lia.
    + symmetry in Hl. by apply app_eq_nil in Hl as [? _].
Qed.
End Converge.

(** ** Identity and adoption *)
Section Identity.
Context `{R : CrossplaneRuntime} {U : Upstream nodepool_request nodepool_reply}.
Variable recorder : bool.
Variable resolve : World -> Dimension -> ResolveInput -> result error ResolveOutput.
Variable resolvedClusterID : string.
Variable createIncomplete : bool.
Variable createFailed : string.

Notation nodepool := (managed NodepoolParameters NodepoolObservation).
Notation Observe := (Observe recorder resolvedClusterID).
Notation Delete := (Delete resolvedClusterID).
Notation Create := (Create recorder resolve resolvedClusterID createIncomplete createFailed).

(** The sizing resolved of a declaration, for a parent cluster in a zone: a configurator
    for declared resources, a preset for a declared slug; the other id is 0. *)
Inductive sized (w : World) (spec : NodepoolParameters) (zone : string) : Z -> Z -> Prop :=
| sized_by_resources z location o :
    np_Resources spec = Some z -> AZToLocation zone = Ok location ->
    resolve w DimKubernetesWorkerConfigurator
      (InConfigurator (configurator_input location (nr_CPU z) (nr_RAMGB z) (nr_DiskGB z) (nr_GPU z) (workerFlavorTags (nr_Flavor z)))) =
      Ok (OutConfigurator o) ->
    sized w spec zone 0 (co_UpstreamID o)
| sized_by_preset slug location p :
    np_Resources spec = None -> np_PresetName spec = Some slug -> AZToLocation zone = Ok location ->
    resolve w DimKubernetesWorkerPreset (InPreset {| pi_Slug := slug; pi_Zone := zone; pi_Location := location |}) = Ok (OutPreset p) ->
    sized w spec zone p 0.

Lemma resolve_sizing_spec spec c (cr : nodepool) w :
  wp (resolve_sizing resolve spec c) (fun r s' w' t => s' = cr /\ exists rep, serve (GetCluster c) w = (rep, w') /\
    t = [Exchange (Rep := nodepool_reply) (GetCluster c) rep] /\
    match r with
    | Ok (Ok (p, k)) => exists parent, read_reply (A := clusterBody) rep = Ok parent /\ sized w' spec (cb_AvailabilityZone parent) p k
    | _ => forall parent p k, read_reply (A := clusterBody) rep = Ok parent -> ~ sized w' spec (cb_AvailabilityZone parent) p k
    end) cr w.
Proof.
  unfold resolve_sizing, parentClusterLocation, parentClusterAZ, resolveWorkerPreset, resolveK8sConfigurator, resolve_preset_in.
  destruct (np_Resources spec) as [z|] eqn:Ez.
  - do 6 wp_step. cbn [nodepool_reply] in *. destruct (read_reply_as _ _ r) as [a|e] eqn:Er.
    + apply read_reply_as_ok in Er. do 2 wp_step. destruct (AZToLocation _) as [location|e] eqn:El.
      * apply wp_bind, wp_ask, wp_lift. destruct (resolve w' _ _) as [[p0|o|b]|e] eqn:Eo; cbn [configurator_of]; wp_step;
          (split; [done|]); exists r; do 2 (split; [done|]).
        2: { exists a. split; [done|]. by apply (sized_by_resources _ _ _ z location). }
        all: intros parent p k Hp Hz; rewrite Er in Hp; injection Hp as <-; inversion Hz; congruence.
      * wp_step. split; [done|]. exists r. do 2 (split; [done|]). intros parent p k Hp Hz. rewrite Er in Hp. injection Hp as <-. inversion Hz; congruence.
    + wp_step. split; [done|]. exists r. do 2 (split; [done|]). intros parent p k Hp. exfalso.
      apply (read_reply_as_ok ("kubernetes/nodepool: get parent cluster " +:+ fmt_d c +:+ ": ") "kubernetes/nodepool: parent cluster: ") in Hp.
      congruence.
  - do 5 wp_step. cbn [nodepool_reply] in *. destruct (read_reply_as _ _ r) as [a|e] eqn:Er.
    + apply read_reply_as_ok in Er. do 3 wp_step. destruct (AZToLocation _) as [loc|e] eqn:El.
      2: { wp_step. split; [done|]. exists r. do 2 (split; [done|]). intros parent p k Hp Hz. rewrite Er in Hp. injection Hp as <-. inversion Hz; congruence. }
      wp_step. destruct (np_PresetName spec) as [slug|] eqn:Es; wp_step.
      2: { split; [done|]. exists r. do 2 (split; [done|]). intros parent p k Hp Hz. rewrite Er in Hp. injection Hp as <-. inversion Hz; congruence. }
      wp_step. apply wp_bind, wp_ask, wp_lift. destruct (resolve w' _ _) as [[p0|o|b]|e] eqn:Eo; cbn [preset_of]; wp_step;
        (split; [done|]); exists r; do 2 (split; [done|]).
      1: { exists a. split; [done|]. by apply (sized_by_preset _ _ _ slug loc). }
      all: intros parent p k Hp Hz; rewrite Er in Hp; injection Hp as <-; inversion Hz; congruence.
    + wp_step. split; [done|]. exists r. do 2 (split; [done|]). intros parent p k Hp. exfalso.
      apply (read_reply_as_ok ("kubernetes/nodepool: get parent cluster " +:+ fmt_d c +:+ ": ") "kubernetes/nodepool: parent cluster: ") in Hp.
      congruence.
Qed.

(** The body of a group: the declared name and number of nodes, and the sizing resolved. *)
Record declares (spec : NodepoolParameters) (p k : Z) (b : NodeGroupIn) : Prop := {
  declares_name : gi_Name b = np_Name spec;
  declares_count : gi_NodeCount b = np_NodeCount spec;
  declares_preset : gi_PresetId b = (if decide (np_Resources spec = None) then Some p else None);
  declares_configurator : nc_ConfiguratorId <$> gi_Configuration b = (if decide (np_Resources spec = None) then None else Some k) }.

(** A run that posts one group: it takes the identity the reply gives, or none. *)
Definition posted (cr : nodepool) (c p k : Z) (r : result error unit) (s' : nodepool) (t : list (exchange nodepool_reply)) : Prop :=
  exists body rep, t = [Exchange (Rep := nodepool_reply) (CreateClusterNodeGroup c body) rep] /\ declares (ForProvider cr) p k body /\
    match read_reply (A := nodeGroupBody) rep with
    | Ok g => r = Ok tt /\ ExternalName s' = EncodeID (gb_ID g) /\ nb_ClusterID (AtProvider s') = Some (EncodeID c) /\
              nb_UpstreamID (AtProvider s') = Some (EncodeID (gb_ID g))
    | Err _ => is_ok r = false /\ ExternalName s' = ExternalName cr
    end.

Lemma body_declares spec p k : declares spec p k (buildCreateNodeGroupBody spec p k).
Proof. unfold buildCreateNodeGroupBody. by split; try done; cbn; destruct (np_Resources spec); case_decide. Qed.

Lemma explain_spec e (cr : nodepool) w :
  wp (explainRouterIntegration recorder e) (fun r s' w' t => is_ok r = true /\ ExternalName s' = ExternalName cr /\ t = []) cr w.
Proof. unfold explainRouterIntegration. repeat case_match; try wp_step; [done| |done]. wp_step. wp_step. by destruct recorder. Qed.

Lemma create_group_spec c p k (cr : nodepool) w :
  wp (create_group recorder c p k) (fun r s' w' t => posted cr c p k r s' t) cr w.
Proof.
  unfold create_group. wp_step. wp_step. wp_step. wp_step. wp_step.
  destruct (read_reply_pre _ r) as [g|e] eqn:E.
  - apply read_reply_pre_ok in E. do 9 wp_step. eexists _, r. split; [done|]. split; [apply body_declares|]. cbn [nodepool_reply] in *. rewrite E. done.
  - wp_step. eapply wp_mono; [apply explain_spec|]. intros [e'|e'] s1 w1 t (Ho & Hn & ->); [|done]. wp_step.
    eexists _, r. split; [done|]. split; [apply body_declares|]. cbn [nodepool_reply] in *. destruct (read_reply r) as [g|e''] eqn:E'; [|done].
    apply (read_reply_pre_ok "kubernetes/nodepool: ") in E'. congruence.
Qed.

(** A group has the declared identity: the name, and the preset or the configurator
    resolved (a listing may leave the configurator out). *)
Definition is_declared (cr : nodepool) (p k : Z) (g : nodeGroupBody) : Prop :=
  gb_Name g = np_Name (ForProvider cr) /\ (p <> 0 -> gb_PresetID g = p) /\ (k <> 0 -> gb_ConfiguratorID g = 0 \/ gb_ConfiguratorID g = k).

(** The groups listed before a create that may repeat a lost one: with none of the
    declared identity one is posted, the only one is adopted, several stop the create. *)
Definition adopted (cr : nodepool) (c p k : Z) (r : result error unit) (s' : nodepool)
    (t : list (exchange nodepool_reply)) : Prop :=
  exists rep t', t = Exchange (Rep := nodepool_reply) (GetClusterNodeGroups c) rep :: t' /\
    match read_reply (A := list nodeGroupBody) rep with
    | Err _ => t' = [] /\ is_ok r = false /\ ExternalName s' = ExternalName cr
    | Ok gs =>
        (posted cr c p k r s' t' /\ forall g, g ∈ gs -> ~ is_declared cr p k g) \/
        (exists l1 m l2, gs = l1 ++ m :: l2 /\ is_declared cr p k m /\ (forall g, g ∈ l1 ++ l2 -> ~ is_declared cr p k g) /\
           t' = [] /\ r = Ok tt /\ ExternalName s' = EncodeID (gb_ID m) /\ nb_ClusterID (AtProvider s') = Some (EncodeID c)) \/
        (exists l1 m l2 m' l3, gs = l1 ++ m :: l2 ++ m' :: l3 /\ is_declared cr p k m /\ is_declared cr p k m' /\
           t' = [] /\ is_ok r = false /\ ExternalName s' = ExternalName cr)
    end.

Lemma identity_matches_declared (cr : nodepool) p k g : identity_matches (np_Name (ForProvider cr)) p k g = true <-> is_declared cr p k g.
Proof.
  unfold identity_matches, is_declared. rewrite !andb_true_iff, bool_decide_eq_true.
  destruct (Z.eqb_spec p 0), (Z.eqb_spec k 0), (Z.eqb_spec (gb_PresetID g) p), (Z.eqb_spec (gb_ConfiguratorID g) 0), (Z.eqb_spec (gb_ConfiguratorID g) k);
    cbn; naive_solver.
Qed.

(** What a filter keeps, as the places of the list it is kept from. *)
Lemma filter_places {A} (f : A -> bool) (l : list A) :
  match List.filter f l with
  | [] => forall x, x ∈ l -> f x = false
  | [m] => exists l1 l2, l = l1 ++ m :: l2 /\ f m = true /\ forall x, x ∈ l1 ++ l2 -> f x = false
  | m :: m' :: _ => exists l1 l2 l3, l = l1 ++ m :: l2 ++ m' :: l3 /\ f m = true /\ f m' = true
  end.
Proof.
  induction l as [|a l IH]; cbn [List.filter]; [by intros x Hx%elem_of_nil|]. destruct (f a) eqn:Ea.
  - destruct (List.filter f l) as [|m [|m' ms]].
    + exists [], l. by split.
    + destruct IH as (l1 & l2 & -> & Hm & _). by exists [], l1, l2.
    + destruct IH as (l1 & l2 & l3 & -> & Hm & _). by exists [], l1, (l2 ++ m' :: l3).
  - destruct (List.filter f l) as [|m [|m' ms]].
    + intros x [->|Hx]%elem_of_cons; [done|by apply IH].
    + destruct IH as (l1 & l2 & -> & Hm & Hx). exists (a :: l1), l2. do 2 (split; [done|]). intros x [->|Hy]%elem_of_cons; [done|by apply Hx].
    + destruct IH as (l1 & l2 & l3 & -> & Hm). by exists (a :: l1), l2, l3.
Qed.

Lemma adopt_or_create_spec c p k (cr : nodepool) w :
  wp (adopt_or_create recorder c p k) (fun r s' w' t => adopted cr c p k r s' t) cr w.
Proof.
  unfold adopt_or_create, findGroupsByIdentity. do 5 wp_step. cbn [nodepool_reply] in *.
  destruct (read_reply_pre _ r) as [gs|e] eqn:E.
  2: { exists r, []. split; [done|]. destruct (read_reply (A := list nodeGroupBody) r) as [gs|e'] eqn:E'; [|done].
       apply (read_reply_pre_ok "kubernetes/nodepool: node-groups list: ") in E'. congruence. }
  apply read_reply_pre_ok in E. wp_step. pose proof (filter_places (identity_matches (np_Name (ForProvider cr)) p k) gs) as Hf.
  assert (forall g, identity_matches (np_Name (ForProvider cr)) p k g = false -> ~ is_declared cr p k g) as Hno
    by (intros g Hg Hd; apply identity_matches_declared in Hd; congruence).
  destruct (List.filter _ gs) as [|m [|m' ms]].
  - eapply wp_mono; [apply create_group_spec|]. intros o s' w1 t Hp. exists r, t. split; [done|]. rewrite E. left. auto.
  - destruct Hf as (l1 & l2 & -> & Hm & Hx). do 3 wp_step. exists r, []. split; [done|]. rewrite E. right. left. exists l1, m, l2.
    split; [done|]. split; [by apply identity_matches_declared|]. split; [auto|done].
  - destruct Hf as (l1 & l2 & l3 & -> & Hm & Hm'). do 3 wp_step. exists r, []. split; [done|]. rewrite E. right. right.
    exists l1, m, l2, m', l3. split; [done|]. do 2 (split; [by apply identity_matches_declared|]). do 2 (split; [done|]). by destruct recorder.
Qed.

(** C33. A create reads the parent cluster. Unless the declared preset or resources resolve
    for the zone read, nothing is posted. With the ids resolved: when an earlier create
    ended ambiguously (it is marked incomplete, or failed), the groups of the cluster are
    listed; the only one with the declared identity (the name and the preset or the
    configurator resolved) is adopted, several stop it, and only when there is none is one
    posted. Without an earlier create one is posted at once. What is posted has the
    declared name and number of nodes and the ids resolved; at most one group is posted,
    and the resource takes the identity of the group posted or adopted, or keeps its own. *)
Theorem nodepool_create_never_duplicates (cr : nodepool) (w : World) (c : Z) :
  DecodeID resolvedClusterID = Ok c ->
  let r := Create cr w in
  exists rep w1 t, serve (GetCluster c) w = (rep, w1) /\ trace r = Exchange (Rep := nodepool_reply) (GetCluster c) rep :: t /\
    ((t = [] /\ is_ok (outcome r) = false /\ ExternalName (final r) = ExternalName cr /\
      forall parent p k, read_reply (A := clusterBody) rep = Ok parent -> ~ sized w1 (ForProvider cr) (cb_AvailabilityZone parent) p k) \/
     exists parent p k, read_reply (A := clusterBody) rep = Ok parent /\ sized w1 (ForProvider cr) (cb_AvailabilityZone parent) p k /\
       (createIncomplete = true \/ createFailed <> "" -> adopted cr c p k (outcome r) (final r) t) /\
       (createIncomplete = false -> createFailed = "" -> posted cr c p k (outcome r) (final r) t)).
Proof.
  intros Hc. cbv zeta.
  change (wp Create (fun o s' w' tr => exists rep w1 t, serve (GetCluster c) w = (rep, w1) /\
    tr = Exchange (Rep := nodepool_reply) (GetCluster c) rep :: t /\
    ((t = [] /\ is_ok o = false /\ ExternalName s' = ExternalName cr /\
      forall parent p k, read_reply (A := clusterBody) rep = Ok parent -> ~ sized w1 (ForProvider cr) (cb_AvailabilityZone parent) p k) \/
     exists parent p k, read_reply (A := clusterBody) rep = Ok parent /\ sized w1 (ForProvider cr) (cb_AvailabilityZone parent) p k /\
       (createIncomplete = true \/ createFailed <> "" -> adopted cr c p k o s' t) /\
       (createIncomplete = false -> createFailed = "" -> posted cr c p k o s' t))) cr w).
  unfold Nodepool.Create. wp_step. wp_step. rewrite Hc. wp_step.
  eapply wp_mono; [apply resolve_sizing_spec|]. intros [[[p k]|e]|e] s1 w1 t0 (-> & rep & Hs & -> & Hz).
  - destruct Hz as (parent & Hp & Hz). destruct (previous_create_ambiguous _ _) eqn:Ha; unfold previous_create_ambiguous in Ha.
    + eapply wp_mono; [apply adopt_or_create_spec|]. intros o s' w2 t Ht. exists rep, w1, t. do 2 (split; [done|]). right. exists parent, p, k.
      do 2 (split; [done|]). split; [done|]. intros -> ->. done.
    + eapply wp_mono; [apply create_group_spec|]. intros o s' w2 t Ht. exists rep, w1, t. do 2 (split; [done|]). right. exists parent, p, k.
      do 2 (split; [done|]). split; [|done]. apply orb_false_iff in Ha as [-> Ha]. apply negb_false_iff, bool_decide_eq_true in Ha. by intros [?|?].
  - do 3 wp_step. exists rep, w1, []. do 2 (split; [done|]). left. do 2 (split; [done|]). split; [by destruct recorder|done].
  - exists rep, w1, []. do 2 (split; [done|]). by left.
Qed.

(** What [Observe] answers. *)
Definition remembers (cr : nodepool) (id : string) : Prop := nb_UpstreamID (AtProvider cr) = Some id /\ id <> "".

(** A group [Observe] may call gone: nothing is remembered, or the group the
    resource remembers is the one its external name gives, whose lookup the API
    answered with its own not-found, or no parent cluster is known to look in. *)
Definition may_be_gone (cr : nodepool) (t : list (exchange nodepool_reply)) : Prop :=
  match DecodeID (ExternalName cr) with
  | Err _ => default_str (nb_UpstreamID (AtProvider cr)) = ""
  | Ok i =>
      match clusterID resolvedClusterID (AtProvider cr) with
      | Err _ => t = []
      | Ok c =>
          default_str (nb_UpstreamID (AtProvider cr)) ∈ [""; EncodeID i] /\
          exists resp p, t = [Exchange (Rep := nodepool_reply) (GetClusterNodeGroup c i) (Reply resp p)] /\
            StatusCode resp = 404 /\ canonical_envelope resp
      end
  end.

(** [Observe] never reports a group absent, and so never lets a second one be
    created, while the status remembers another group than the one the external
    name gives; a not-found is believed only on the API's own envelope. It writes
    nothing. *)
Theorem nodepool_observe_keeps_identity (cr : nodepool) (w : World) :
  (outcome (Observe cr w) = Ok not_exists -> may_be_gone cr (trace (Observe cr w))) /\
  Forall (fun q => match q with GetClusterNodeGroup _ _ | GetClusterNodesFromGroup _ _ => True | _ => False end)
    (calls (Observe cr w)).
Proof.
  change (wp Observe (fun o s' w' t => (o = Ok not_exists -> may_be_gone cr t) /\
    Forall (fun q => match q with GetClusterNodeGroup _ _ | GetClusterNodesFromGroup _ _ => True | _ => False end)
      (map request t)) cr w).
  unfold Nodepool.Observe, may_be_gone. wp_step. wp_step.
  destruct (DecodeID (ExternalName cr)) as [i|e].
  2: { case_bool_decide as E; cbn [negb]; [by wp_step|].
       unfold parkExternalNameConflict. by do 3 wp_step. }
  destruct (clusterID resolvedClusterID (AtProvider cr)) as [c|e]; [|by wp_step].
  do 3 wp_step. cbn [nodepool_reply] in *. destruct (read_reply_pre _ r) as [g|e] eqn:Er.
  - unfold observe_found, observeGroupNodes, setNodepoolReadyCondition. do 8 wp_step.
    destruct (read_reply_as _ _ _); [|split; [done|by repeat constructor]].
    do 3 wp_step. destruct (nodepool_ready _ _ _ _) as [cd []]; cbn [snd]; wp_step; wp_step;
      (split; [done|by repeat constructor]).
  - destruct (error_is e ErrNotFound) eqn:En; [|wp_step; split; [done|by repeat constructor]].
    destruct (_ && _) eqn:Eb.
    + unfold parkExternalNameConflict. do 3 wp_step. split; [done|by repeat constructor].
    + wp_step. split; [|by repeat constructor]. intros _.
      destruct (read_reply_pre_not_found _ _ _ Er En) as (resp & p & -> & Hs & Hc).
      split; [|by exists resp, p]. apply andb_false_iff in Eb.
      destruct Eb as [Eb|Eb]; apply negb_false_iff, bool_decide_eq_true in Eb; rewrite Eb; [left|right; left].
Qed.

(** The nodes that make a pool Ready: none failed, and as many active as the group
    counts; for a group that counts none and lists none, a declared zero floor. *)
Definition nodes_ready (zeroOK : bool) (declared : Z) (nodes : list groupNodeBody) : Prop :=
  Forall (fun n => node_failed n = false) nodes /\
  (if (declared =? 0) && (length nodes =? 0)%nat then zeroOK = true
   else declared <= Z.of_nat (length (List.filter (fun n => nodeIsActive (nd_Status n)) nodes))).

Lemma first_failed_none nodes : first_failed nodes = None <-> Forall (fun n => node_failed n = false) nodes.
Proof.
  induction nodes as [|n nodes IH]; simpl; [by split; [constructor|]|]. rewrite Forall_cons, <- IH.
  destruct (node_failed n); naive_solver.
Qed.

Lemma nodepool_ready_spec {L : CrossplaneLaws R} u z declared nodes :
  cond_Type (nodepool_ready u z declared nodes).1 = TypeReady /\
  (cond_Status (nodepool_ready u z declared nodes).1 = CTrue <-> u = true /\ nodes_ready z declared nodes).
Proof.
  unfold nodepool_ready, nodes_ready. rewrite <- first_failed_none.
  destruct (first_failed nodes); [split; [done|]; simpl; naive_solver|].
  destruct u; cbn [negb]; [|split; [done|]; simpl; naive_solver].
  destruct (_ && _).
  - destruct z; cbn [fst]; rewrite ?available_type, ?available_status, ?creating_type, ?creating_status; naive_solver.
  - fold (count_active nodes). destruct (_ <? _) eqn:E; cbn [fst]; rewrite ?available_type, ?available_status;
      (split; [done|]); (split; [|try done; intros (_ & _ & ?); lia]); [done|]. intros _. split_and!; [done..|lia].
Qed.

(** [Observe] of a group that exists and lists its nodes: it reports the verdict of
    the up-to-date test on the status it has just written, publishes the listed
    nodes, and Ready is true exactly when the group is up to date and its nodes are
    ready, whatever node count the group itself claims. *)
Theorem nodepool_observe_spec {L : CrossplaneLaws R} (cr : nodepool) (w : World) (c i : Z)
    (rep : reply nodeGroupBody) (w1 : World) (g : nodeGroupBody) (repn : reply (list groupNodeBody)) (w2 : World)
    (nodes : list groupNodeBody) :
  DecodeID (ExternalName cr) = Ok i -> clusterID resolvedClusterID (AtProvider cr) = Ok c ->
  serve (GetClusterNodeGroup c i) w = (rep, w1) -> read_reply rep = Ok g ->
  serve (GetClusterNodesFromGroup c i) w1 = (repn, w2) -> read_reply repn = Ok nodes ->
  let s' := final (Observe cr w) in
  let u := isNodepoolUpToDate (ForProvider cr) (nodepool_status (ForProvider cr) g (AtProvider cr)) g in
  outcome (Observe cr w) = Ok {| ResourceExists := true; ResourceUpToDate := u |} /\
  nb_Nodes (AtProvider s') = nodes /\ nb_ClusterID (AtProvider s') = Some (EncodeID c) /\
  nb_UpstreamID (AtProvider s') = Some (EncodeID (gb_ID g)) /\
  (cond_Status (GetCondition TypeReady (Conditions s')) = CTrue <->
     u = true /\ nodes_ready (zero_ok u (ForProvider cr)) (gb_NodeCount g) nodes).
Proof.
  intros Hi Hc Hs1 Hg Hs2 Hn. cbv zeta.
  change (wp Observe (fun o s' w' t =>
    o = Ok {| ResourceExists := true;
              ResourceUpToDate := isNodepoolUpToDate (ForProvider cr) (nodepool_status (ForProvider cr) g (AtProvider cr)) g |} /\
    nb_Nodes (AtProvider s') = nodes /\ nb_ClusterID (AtProvider s') = Some (EncodeID c) /\
    nb_UpstreamID (AtProvider s') = Some (EncodeID (gb_ID g)) /\
    (cond_Status (GetCondition TypeReady (Conditions s')) = CTrue <->
       isNodepoolUpToDate (ForProvider cr) (nodepool_status (ForProvider cr) g (AtProvider cr)) g = true /\
       nodes_ready (zero_ok (isNodepoolUpToDate (ForProvider cr) (nodepool_status (ForProvider cr) g (AtProvider cr)) g)
                     (ForProvider cr)) (gb_NodeCount g) nodes)) cr w).
  unfold Nodepool.Observe. wp_step. wp_step. rewrite Hi, Hc. do 3 wp_step. rewrite Hs1 in H. simplify_eq.
  apply (read_reply_pre_ok "kubernetes/nodepool: ") in Hg. cbn [nodepool_reply] in *. rewrite Hg.
  unfold observe_found, observeGroupNodes, setNodepoolReadyCondition. do 8 wp_step.
  rewrite Hs2 in H. simplify_eq. apply (read_reply_as_ok "kubernetes/nodepool: list group nodes: " "kubernetes/nodepool: group nodes: ") in Hn.
  cbn [nodepool_reply] in *. rewrite Hn. do 3 wp_step.
  set (u := isNodepoolUpToDate _ _ _). cbn [ForProvider set_cluster_id populateNodepoolStatus set_at_provider].
  change (isNodepoolUpToDate (ForProvider cr) (nodepool_status (ForProvider cr) g (AtProvider cr)) g) with u.
  destruct (nodepool_ready_spec u (zero_ok u (ForProvider cr)) (gb_NodeCount g) nodes) as [HT HS].
  destruct (nodepool_ready u _ _ nodes) as [cd b]; destruct b; cbn [fst snd] in *; do 2 wp_step;
    do 4 (split; [done|]); rewrite <- HS, <- HT; unfold record_condition_change; cbn [Conditions set_conditions];
    by rewrite get_set_eq.
Qed.

(** A pool deleted before any [Observe] has written its parent cluster into the
    status: [Connect] resolves no reference during deletion, so [Delete] makes no
    call and succeeds, and [Observe] calls the group gone without asking, whatever
    group the external name gives. *)
Theorem nodepool_delete_without_cluster_leaks (cr : nodepool) (w : World) (i : Z) :
  resolvedClusterID = "" -> DecodeID (ExternalName cr) = Ok i -> default_str (nb_ClusterID (AtProvider cr)) = "" ->
  outcome (Delete cr w) = Ok tt /\ trace (Delete cr w) = [] /\
  outcome (Observe cr w) = Ok not_exists /\ trace (Observe cr w) = [].
Proof.
  intros Hr Hi Hc.
  assert (exists e, clusterID resolvedClusterID (AtProvider cr) = Err e) as [e He].
  { unfold clusterID. rewrite Hc, Hr. by eexists. }
  change (wp Delete (fun o s' w' t => o = Ok tt /\ t = [] /\ outcome (Observe cr w) = Ok not_exists /\ trace (Observe cr w) = []) cr w).
  unfold Nodepool.Delete. wp_step. wp_step. rewrite Hi, He. wp_step. do 2 (split; [done|]).
  change (wp Observe (fun o s' w' t => o = Ok not_exists /\ t = []) cr w).
  unfold Nodepool.Observe. wp_step. wp_step. rewrite Hi, He. by wp_step.
Qed.

(** Otherwise [Delete] asks once for the group the external name gives, and
    succeeds only if the API deleted it or answered that it does not exist. *)
Theorem nodepool_delete_spec (cr : nodepool) (w : World) (c i : Z) :
  DecodeID (ExternalName cr) = Ok i -> clusterID resolvedClusterID (AtProvider cr) = Ok c ->
  exists rep, trace (Delete cr w) = [Exchange (Rep := nodepool_reply) (DeleteClusterNodeGroup c i) rep] /\
    (outcome (Delete cr w) = Ok tt ->
       write_reply rep = Ok tt \/
       exists resp p, rep = Reply resp p /\ StatusCode resp = 404 /\ canonical_envelope resp).
Proof.
  intros Hi Hc.
  change (wp Delete (fun o s' w' t => exists rep, t = [Exchange (Rep := nodepool_reply) (DeleteClusterNodeGroup c i) rep] /\
    (o = Ok tt -> write_reply rep = Ok tt \/
       exists resp p, rep = Reply resp p /\ StatusCode resp = 404 /\ canonical_envelope resp)) cr w).
  unfold Nodepool.Delete. wp_step. wp_step. rewrite Hi, Hc. do 3 wp_step.
  destruct (write_reply r) as [[]|e] eqn:E; [wp_step; exists r; split; [done|]; by left|].
  destruct (error_is e ErrNotFound) eqn:En; wp_step; exists r; (split; [done|]); [|done].
  intros _. right. by eapply write_reply_not_found.
Qed.

(** The declared preset edited. *)
Definition with_preset (p : string) (spec : NodepoolParameters) : NodepoolParameters :=
  {| np_Name := np_Name spec; np_PresetName := Some p; np_Resources := np_Resources spec;
     np_NodeCount := np_NodeCount spec; np_PublicIP := np_PublicIP spec; np_Labels := np_Labels spec;
     np_Taints := np_Taints spec; np_Autoscaling := np_Autoscaling spec; np_Autohealing := np_Autohealing spec |}.

Definition edit_preset (p : string) (cr : nodepool) : nodepool :=
  {| ExternalName := ExternalName cr; ForProvider := with_preset p (ForProvider cr); AtProvider := AtProvider cr;
     Conditions := Conditions cr; Events := Events cr |}.

(** The declared preset of an existing pool is compared with nothing: after an edit
    of it [Observe]'s verdict is what it was, and [Update] makes the same calls and
    ends the same way. *)
Theorem nodepool_preset_edit_unnoticed (cr : nodepool) (w : World) (g : nodeGroupBody) (p : string) :
  is_Some (np_PresetName (ForProvider cr)) ->
  isNodepoolUpToDate (ForProvider (edit_preset p cr)) (AtProvider (edit_preset p cr)) g =
    isNodepoolUpToDate (ForProvider cr) (AtProvider cr) g /\
  trace (Update recorder resolvedClusterID (edit_preset p cr) w) = trace (Update recorder resolvedClusterID cr w) /\
  outcome (Update recorder resolvedClusterID (edit_preset p cr) w) = outcome (Update recorder resolvedClusterID cr w).
Proof.
  intros Hp. split.
  - unfold isNodepoolUpToDate. cbn [ForProvider AtProvider edit_preset with_preset np_PresetName].
    by rewrite (bool_decide_true (is_Some (np_PresetName _))), (bool_decide_true (is_Some (Some p))) by eauto.
  - enough (oblivious (edit_preset p) (Update recorder resolvedClusterID) (Update recorder resolvedClusterID)) as HO
      by (rewrite HO; done).
    unfold Update. apply oblivious_get. intros s.
    cbn [ExternalName ForProvider AtProvider edit_preset].
    destruct (DecodeID _) as [i|]; [|auto with go]. destruct (clusterID _ _) as [c|]; [|auto with go].
    apply oblivious_bind; [exact (oblivious_call_decode (edit_preset p) "kubernetes/nodepool: " (GetClusterNodeGroup c i))|].
    intros o.
    change (sizing_switched (edit_preset p s)) with (sizing_switched s).
    change (preset_changed (edit_preset p s) o) with (preset_changed s o).
    destruct (sizing_switched s); [apply oblivious_reject; by split|].
    destruct (preset_changed s o); [apply oblivious_reject; by split|].
    apply oblivious_bind; [|intros _].
    + unfold converge_metadata, metadata_patch. cbn [np_Name np_Labels np_Taints with_preset].
      change (nodepoolMetadataUpToDate (with_preset p (ForProvider s)) o) with (nodepoolMetadataUpToDate (ForProvider s) o).
      destruct (nodepoolMetadataUpToDate _ _); [apply oblivious_ret|apply oblivious_do_pre].
    + unfold converge_count, patchNodeGroup, node_delta. cbn [np_NodeCount with_preset].
      change (declared_on (with_preset p (ForProvider s))) with (declared_on (ForProvider s)).
      cbv zeta. repeat case_match; (apply oblivious_ret || apply oblivious_do_pre || apply oblivious_do).
Qed.
End Identity.

(** ** A created group is up to date *)

(** The group a service that stores what it is sent makes of a create. *)
Definition group_from (b : NodeGroupIn) (id : Z) : nodeGroupBody :=
  {| gb_ID := id; gb_Name := gi_Name b; gb_PresetID := default 0 (gi_PresetId b);
     gb_ConfiguratorID := match gi_Configuration b with Some k => nc_ConfiguratorId k | None => 0 end;
     gb_NodeCount := gi_NodeCount b;
     gb_Labels := default [] (gi_Labels b);
     gb_Taints := stored_taints (default [] (gi_Taints b));
     gb_IsAutoscaling := default false (gi_IsAutoscaling b);
     gb_MinSize := gi_MinSize b; gb_MaxSize := gi_MaxSize b |}.

(** A group created from a declaration and stored as sent passes the test [Observe]
    runs on it, whatever labels, taints and autoscaling are declared, so a create is
    followed by no corrective update; and it carries the identity a repeated create
    looks for, so a create whose result was lost finds it. *)
Theorem created_group_up_to_date (spec : NodepoolParameters) (st : NodepoolObservation) (p k id : Z) :
  nb_LockedPresetID st = None -> nb_LockedConfiguratorID st = None ->
  (is_Some (np_PresetName spec) <-> np_Resources spec = None) -> (np_Resources spec <> None -> p = 0) ->
  let g := group_from (buildCreateNodeGroupBody spec p k) id in
  isNodepoolUpToDate spec (nodepool_status spec g st) g = true /\ identity_matches (np_Name spec) p k g = true.
Proof.
  intros HP HC Hone Hp g.
  assert (nodepoolMetadataUpToDate spec g = true) as HM.
  { apply metadata_stored; unfold g, group_from, buildCreateNodeGroupBody; simpl.
    - destruct (0 <? size _)%nat eqn:E; [done|]. symmetry. apply length_zero_iff_nil. rewrite length_declaredLabels.
      apply Nat.ltb_ge in E. cbn. lia.
    - destruct (np_Taints spec); done. }
  split.
  - unfold isNodepoolUpToDate. cbn [nb_LockedConfiguratorID nb_LockedPresetID nodepool_status]. rewrite HC, HM.
    rewrite (bool_decide_false (is_Some None)) by (by intros [? ?]). rewrite andb_false_r. cbn [negb].
    replace (bool_decide (is_Some (np_Resources spec)) && _) with false.
    + unfold g, group_from, buildCreateNodeGroupBody, bounds_match. simpl. destruct (declared_on spec); simpl; [|lia].
      by rewrite !bool_decide_true.
    + symmetry. apply andb_false_iff. unfold g, group_from, buildCreateNodeGroupBody. simpl.
      destruct (np_Resources spec); [right|by left]. simpl. rewrite HP. by rewrite bool_decide_false by (by intros [? ?]).
  - unfold identity_matches, g, group_from, buildCreateNodeGroupBody. simpl. rewrite bool_decide_true by done. simpl.
    destruct (np_Resources spec); simpl.
    + rewrite Hp by done. simpl. by rewrite Z.eqb_refl, andb_false_r.
    + by rewrite Z.eqb_refl, !andb_false_r.
Qed.

(** ** A concrete service, for the witnesses *)

(** The service holds one group and a node list; it refuses bounds out of order, and a
    reduction leaves one node. *)
Definition clamp_group (g : nodeGroupBody) : nodeGroupBody :=
  with_count (Z.max 0 (Z.min int64_max (gb_NodeCount g))) g.

Definition sim_patch (u : NodeGroupUpdate) (g : nodeGroupBody) : nodeGroupBody :=
  {| gb_ID := gb_ID g; gb_Name := default (gb_Name g) (gu_Name u); gb_PresetID := gb_PresetID g;
     gb_ConfiguratorID := gb_ConfiguratorID g; gb_NodeCount := gb_NodeCount g;
     gb_Labels := default (gb_Labels g) (gu_Labels u);
     gb_Taints := default (gb_Taints g) (stored_taints <$> gu_Taints u);
     gb_IsAutoscaling := default (gb_IsAutoscaling g) (gu_IsAutoscaling u);
     gb_MinSize := match gu_IsAutoscaling u with None => gb_MinSize g | Some true => gu_MinSize u | Some false => None end;
     gb_MaxSize := match gu_IsAutoscaling u with None => gb_MaxSize g | Some true => gu_MaxSize u | Some false => None end |}.

Definition sim_refuses (u : NodeGroupUpdate) : bool :=
  match gu_IsAutoscaling u, gu_MinSize u, gu_MaxSize u with
  | Some true, Some lo, Some hi => (hi <? lo) || (lo <? 0) || (hi <? 1)
  | Some true, _, _ => true
  | _, _, _ => false
  end.

Definition sim_cluster : clusterBody :=
  {| cb_ID := 5; cb_Name := "prod"; cb_Status := "active"; cb_Description := ""; cb_K8sVersion := "v1.31.4";
     cb_NetworkDriver := "flannel"; cb_PresetID := 403; cb_ConfiguratorID := 0; cb_CPU := 2; cb_RAM := 4096;
     cb_Disk := 40960; cb_AvailabilityZone := "msk-1"; cb_ProjectID := 1; cb_NetworkID := "net"; cb_NetworkCidr := None |}.

Definition sim_serve (q : nodepool_request) (w : nodeGroupBody * list groupNodeBody)
  : reply (nodepool_reply q) * (nodeGroupBody * list groupNodeBody) :=
  match q with
  | GetCluster _ => (ok_reply sim_cluster, w)
  | GetClusterNodeGroups _ => (ok_reply [clamp_group w.1], w)
  | GetClusterNodeGroup _ _ => (ok_reply (clamp_group w.1), w)
  | GetClusterNodesFromGroup _ _ => (ok_reply w.2, w)
  | CreateClusterNodeGroup _ b => (ok_reply (group_from b 77), (group_from b 77, w.2))
  | UpdateClusterNodeGroup _ _ u =>
      if sim_refuses u then (NetErr "400 bounds", w) else (ok_reply tt, (sim_patch u (clamp_group w.1), w.2))
  | IncreaseCountOfNodesInGroup _ _ n =>
      (ok_reply tt, (with_count (gb_NodeCount (clamp_group w.1) + n) w.1, w.2))
  | ReduceCountOfNodesInGroup _ _ n =>
      (ok_reply tt, (with_count (Z.max 1 (gb_NodeCount (clamp_group w.1) - n)) w.1, w.2))
  | DeleteClusterNodeGroup _ _ => (ok_reply tt, w)
  end.

Definition SimNodepool : Upstream nodepool_request nodepool_reply :=
  {| World := nodeGroupBody * list groupNodeBody; serve := sim_serve |}.

Lemma clamp_in_range g n : 0 <= n <= int64_max -> clamp_group (with_count n g) = with_count n g.
Proof. intros H. unfold clamp_group, with_count. simpl. f_equal. lia. Qed.

#[local] Instance SimNodepool_faithful c i :
  FaithfulGroup (U := SimNodepool) c i (fun w : nodeGroupBody * list groupNodeBody => clamp_group w.1).
Proof.
  assert (forall g, 0 <= gb_NodeCount (clamp_group g) <= int64_max) as HC.
  { intros g. unfold clamp_group, int64_max. simpl. lia. }
  constructor.
  - intros w. apply HC.
  - intros w r w' [= <- <-]. done.
  - intros u w r w' H Ha. cbn [serve SimNodepool sim_serve] in H. assert (sim_refuses u = false) as Hr.
    { unfold sim_refuses, acceptable in *. destruct (gu_IsAutoscaling u) as [[]|]; [|done..]. destruct Ha as (lo & hi & -> & -> & Hb & Hc).
      lia. }
    rewrite Hr in H. injection H as <- <-. split; [done|]. specialize (HC w.1). destruct w as [g ns]. unfold patched. simpl in *.
    destruct (gu_IsAutoscaling u) as [[]|]; repeat split; simpl; try done; unfold int64_max in *; lia.
  - intros n w r w' [= <- <-] Hn Hm. split; [done|]. specialize (HC w.1). cbn [fst] in *.
    rewrite clamp_in_range; [done|].
    unfold clamp_group, int64_max in *. simpl in *. lia.
  - intros n w r w' [= <- <-] Hn Hm. split; [done|]. specialize (HC w.1). cbn [fst] in *.
    cbv beta in *.
    change (clamp_group (with_count (Z.max 1 (gb_NodeCount (clamp_group w.1) - n)) w.1) =
            with_count (gb_NodeCount (clamp_group w.1) - n) (clamp_group w.1)).
    rewrite (Z.max_r 1), clamp_in_range by lia. done.
Qed.

#[local] Existing Instance MapRuntime.

Definition sample_spec : NodepoolParameters :=
  {| np_Name := "workers"; np_PresetName := Some "k8s-2-4"; np_Resources := None; np_NodeCount := 3;
     np_PublicIP := None; np_Labels := {["tier" := "web"]}; np_Taints := [{| nt_Key := "gpu"; nt_Value := None; nt_Effect := "NoSchedule" |}];
     np_Autoscaling := None; np_Autohealing := None |}.

(** Autoscaling on, other labels, another count. *)
Definition sample_group : nodeGroupBody :=
  {| gb_ID := 77; gb_Name := "workers"; gb_PresetID := 401; gb_ConfiguratorID := 0; gb_NodeCount := 5;
     gb_Labels := [{| kv_Key := "tier"; kv_Value := "db" |}]; gb_Taints := []; gb_IsAutoscaling := true;
     gb_MinSize := Some 2; gb_MaxSize := Some 6 |}.

Definition sample_observation : NodepoolObservation :=
  {| nb_UpstreamID := Some "77"; nb_ClusterID := Some "5"; nb_ObservedNodeCount := None; nb_LockedPresetID := Some 401;
     nb_LockedConfiguratorID := None; nb_Nodes := []; nb_Sizing := None; nb_Labels := ∅; nb_Taints := [];
     nb_Autoscaling := None |}.

Definition sample_pool (o : NodepoolObservation) : managed NodepoolParameters NodepoolObservation :=
  {| ExternalName := "77"; ForProvider := sample_spec; AtProvider := o; Conditions := no_conds; Events := [] |}.

Definition sample_nodes : list groupNodeBody :=
  [{| nd_ID := 1; nd_Status := "active"; nd_NodeIP := None; nd_CreatedAt := None |}].

Definition sample_world : @World _ _ SimNodepool := (sample_group, sample_nodes).

Lemma nodepool_update_converges_witness :
  let x := Nat.iter 2 (reconcile (U := SimNodepool) true "") (sample_pool sample_observation, sample_world) in
  x.1 = sample_pool sample_observation /\
  isNodepoolUpToDate sample_spec sample_observation (clamp_group x.2.1) = true /\
  outcome (Update (U := SimNodepool) true "" x.1 x.2) = Ok tt /\
  calls (Update (U := SimNodepool) true "" x.1 x.2) = [GetClusterNodeGroup 5 77].
Proof.
  apply (nodepool_update_converges (U := SimNodepool) true "" 5 77 (fun w : nodeGroupBody * list groupNodeBody => clamp_group w.1)).
  - lia.
  - reflexivity.
  - reflexivity.
  - simpl. lia.
  - intros a Ha. discriminate Ha.
  - split; reflexivity.
  - split; [reflexivity|]. intros _. eexists. reflexivity.
Defined.

Lemma up_to_date_iff_nothing_due_witness :
  isNodepoolUpToDate sample_spec sample_observation sample_group = true <->
    sizing_switched (sample_pool sample_observation) = false /\ forall s, ~ due sample_spec sample_group s.
Proof.
  apply (up_to_date_iff_nothing_due (sample_pool sample_observation) sample_group).
  split; [reflexivity|]. intros _. eexists. reflexivity.
Defined.

Lemma nodepool_update_refines_plan_witness :
  exists rep t,
    trace (Update (U := SimNodepool) true "" (sample_pool sample_observation) sample_world) =
      Exchange (Rep := nodepool_reply) (GetClusterNodeGroup 5 77) rep :: t /\
    match read_reply_pre "kubernetes/nodepool: " rep with
    | Err e => outcome (Update (U := SimNodepool) true "" (sample_pool sample_observation) sample_world) = Err e /\ t = []
    | Ok g =>
        if sizing_switched (sample_pool sample_observation) || preset_changed (sample_pool sample_observation) g
        then is_ok (outcome (Update (U := SimNodepool) true "" (sample_pool sample_observation) sample_world)) = false /\ t = []
        else delta_fits sample_spec g ->
          exists steps, map request t = map (intent_request sample_spec 5 77) steps /\ NoDup steps /\
            Forall (due sample_spec g) steps /\
            (outcome (Update (U := SimNodepool) true "" (sample_pool sample_observation) sample_world) = Ok tt ->
             forall s, due sample_spec g s -> s ∈ steps)
    end.
Proof.
  apply (nodepool_update_refines_plan (U := SimNodepool) true "" (sample_pool sample_observation) sample_world 5 77);
    reflexivity.
Defined.

Lemma nodepool_create_never_duplicates_witness :
  let resolve := fun (_ : World (Upstream := SimNodepool)) (_ : Dimension) (_ : ResolveInput) => Ok (OutPreset 401) : result error ResolveOutput in
  let cr := sample_pool sample_observation in
  let r := Create (U := SimNodepool) true resolve "5" true "" cr sample_world in
  exists parent p k t, sized resolve sample_world (ForProvider cr) (cb_AvailabilityZone parent) p k /\ p = 401 /\
    adopted cr 5 p k (outcome r) (final r) t.
Proof.
  pose proof (nodepool_create_never_duplicates (U := SimNodepool) true (fun _ _ _ => Ok (OutPreset 401)) "5" true ""
    (sample_pool sample_observation) sample_world 5 ltac:(vm_compute; reflexivity)) as H. cbv zeta in *.
  destruct H as (rep & w1 & t & Hs & _ & [(_ & H & _)|(parent & p & k & _ & Hz & H & _)]); [vm_compute in H; discriminate H|].
  exists parent, p, k, t. injection Hs as _ <-. split; [exact Hz|]. split; [|apply H; by left].
  destruct Hz as [z location o Hr|slug location p _ _ _ Hp]; [discriminate Hr|by injection Hp].
Defined.

(** The declared group, listed as created: Ready. *)
Definition settled_group : nodeGroupBody := group_from (buildCreateNodeGroupBody sample_spec 401 0) 77.

Definition active_node (id : Z) : groupNodeBody :=
  {| nd_ID := id; nd_Status := "active"; nd_NodeIP := None; nd_CreatedAt := None |}.

Lemma nodepool_observe_spec_witness :
  let nodes := [active_node 1; active_node 2; active_node 3] in
  let w := (settled_group, nodes) in
  let cr := sample_pool sample_observation in
  let s' := final (Observe (U := SimNodepool) true "" cr w) in
  let u := isNodepoolUpToDate sample_spec (nodepool_status sample_spec settled_group sample_observation) settled_group in
  outcome (Observe (U := SimNodepool) true "" cr w) = Ok {| ResourceExists := true; ResourceUpToDate := u |} /\
  nb_Nodes (AtProvider s') = nodes /\ nb_ClusterID (AtProvider s') = Some (EncodeID 5) /\
  nb_UpstreamID (AtProvider s') = Some (EncodeID 77) /\
  (cond_Status (GetCondition TypeReady (Conditions s')) = CTrue <->
     u = true /\ nodes_ready (zero_ok u sample_spec) 3 nodes).
Proof.
  apply (nodepool_observe_spec (L := MapRuntime_laws) (U := SimNodepool) true "" (sample_pool sample_observation)
    (settled_group, [active_node 1; active_node 2; active_node 3]) 5 77 (ok_reply settled_group)
    (settled_group, [active_node 1; active_node 2; active_node 3]) settled_group
    (ok_reply [active_node 1; active_node 2; active_node 3])
    (settled_group, [active_node 1; active_node 2; active_node 3]) [active_node 1; active_node 2; active_node 3]);
    reflexivity.
Defined.

(** And the verdict there is Ready. *)
Example settled_pool_ready :
  nodes_ready (zero_ok (isNodepoolUpToDate sample_spec sample_observation settled_group) sample_spec) 3
    [active_node 1; active_node 2; active_node 3] /\
  isNodepoolUpToDate sample_spec sample_observation settled_group = true.
Proof. split; [split; [repeat constructor|]; vm_compute; discriminate|]. vm_compute. reflexivity. Qed.

Definition fresh_observation : NodepoolObservation :=
  {| nb_UpstreamID := None; nb_ClusterID := None; nb_ObservedNodeCount := None; nb_LockedPresetID := None;
     nb_LockedConfiguratorID := None; nb_Nodes := []; nb_Sizing := None; nb_Labels := ∅; nb_Taints := [];
     nb_Autoscaling := None |}.

Lemma nodepool_delete_without_cluster_leaks_witness :
  let cr := sample_pool fresh_observation in
  outcome (Delete (U := SimNodepool) "" cr sample_world) = Ok tt /\ trace (Delete (U := SimNodepool) "" cr sample_world) = [] /\
  outcome (Observe (U := SimNodepool) true "" cr sample_world) = Ok not_exists /\
  trace (Observe (U := SimNodepool) true "" cr sample_world) = [].
Proof.
  apply (nodepool_delete_without_cluster_leaks (U := SimNodepool) true "" (sample_pool fresh_observation) sample_world 77);
    reflexivity.
Defined.

Lemma nodepool_delete_spec_witness :
  exists rep, trace (Delete (U := SimNodepool) "" (sample_pool sample_observation) sample_world) =
      [Exchange (Rep := nodepool_reply) (DeleteClusterNodeGroup 5 77) rep] /\
    (outcome (Delete (U := SimNodepool) "" (sample_pool sample_observation) sample_world) = Ok tt ->
       write_reply rep = Ok tt \/
       exists resp p, rep = Reply resp p /\ StatusCode resp = 404 /\ canonical_envelope resp).
Proof.
  apply (nodepool_delete_spec (U := SimNodepool) "" (sample_pool sample_observation) sample_world 5 77); reflexivity.
Defined.

Lemma nodepool_preset_edit_unnoticed_witness :
  let cr := sample_pool sample_observation in
  isNodepoolUpToDate (ForProvider (edit_preset "k8s-8-16" cr)) (AtProvider (edit_preset "k8s-8-16" cr)) settled_group =
    isNodepoolUpToDate (ForProvider cr) (AtProvider cr) settled_group /\
  trace (Update (U := SimNodepool) true "" (edit_preset "k8s-8-16" cr) sample_world) =
    trace (Update (U := SimNodepool) true "" cr sample_world) /\
  outcome (Update (U := SimNodepool) true "" (edit_preset "k8s-8-16" cr) sample_world) =
    outcome (Update (U := SimNodepool) true "" cr sample_world).
Proof.
  apply (nodepool_preset_edit_unnoticed (U := SimNodepool) true "" (sample_pool sample_observation) sample_world
           settled_group "k8s-8-16"). eexists. reflexivity.
Defined.

Lemma created_group_up_to_date_witness :
  isNodepoolUpToDate sample_spec (nodepool_status sample_spec settled_group fresh_observation) settled_group = true /\
  identity_matches "workers" 401 0 settled_group = true.
Proof.
  apply (created_group_up_to_date sample_spec fresh_observation 401 0 77); try reflexivity.
  - split; [reflexivity|]. intros _. eexists. reflexivity.
  - intros H. by destruct H.
Defined.

Lemma metadata_up_to_date_iff_witness :
  nodepoolMetadataUpToDate sample_spec settled_group = true <->
    labels_map (gb_Labels settled_group) = np_Labels sample_spec /\
    map observed_taint_id (gb_Taints settled_group) ≡ₚ map taint_id (np_Taints sample_spec).
Proof. apply (metadata_up_to_date_iff sample_spec settled_group); vm_compute; repeat constructor; set_solver. Defined.
