(* ===== verification/Cluster.v ===== *)
(** * Cluster: the Kubernetes cluster controller

    [internal/controller/kubernetes/cluster_external.go], the version upgrade of
    [cluster_upgrade.go] and the router integration of [router_integration.go]:
    [Observe], [Create], [Update] and [Delete] of a KubernetesCluster. *)

From S2P Require Import Prelude Errors Timeweb Slug Configurator Catalog Shared Effects Resolving RouterRefs Kubernetes.

(** ** Payloads *)

Record ClusterConfiguration := {
  cc_ConfiguratorId : Z;
  cc_Cpu : Z;
  cc_Disk : Z;
  cc_Gpu : option Z;
  cc_Ram : Z }.

(** [twgen.ClusterIn]: the fields the controller sets. *)
Record ClusterIn := {
  cl_Name : string;
  cl_K8sVersion : string;
  cl_NetworkDriver : string;
  cl_AvailabilityZone : option string;
  cl_ClusterNetworkCidr : option ClusterNetworkCIDR;
  cl_Configuration : option ClusterConfiguration;
  cl_PresetId : option Z;
  cl_Description : option string;
  cl_MasterNodesCount : option Z;
  cl_NetworkId : option string;
  cl_ProjectId : option Z }.

(** What the integration reads of a listed router. *)
Record IntegrationService := { is_Id : Z; is_Type : string }.
Record RouterNetworkMeta := { rm_Id : string; rm_NatIp : option string }.
Record IntegrationRouter := {
  ir_Id : string;
  ir_ParentServices : list IntegrationService;
  ir_Networks : list RouterNetworkMeta }.

Inductive cluster_request : Type :=
| GetCluster (id : Z)
| GetClusters
| CreateCluster (body : ClusterIn)
| UpdateCluster (id : Z) (name description : option string)
| UpdateClusterWithBody (id : Z) (contentType body : string)
| UpdateClusterVersion (id : Z) (version : string)
| DeleteCluster (id : Z)
| GetClusterKubeconfig (id : Z)
| GetRouters.

Definition cluster_reply (q : cluster_request) : Type :=
  match q with
  | GetCluster _ | CreateCluster _ => clusterBody
  | GetClusters => list clusterBody
  | GetClusterKubeconfig _ => string
  | GetRouters => list IntegrationRouter
  | _ => unit
  end.

(** ** The managed resource *)

Record KubernetesResources := { kr_CPU : Z; kr_RAMGB : Z; kr_DiskGB : Z }.

Record KubernetesClusterParameters := {
  kp_Name : string;
  kp_K8sVersion : string;
  kp_NetworkDriver : string;
  kp_ClusterNetworkCIDR : option ClusterNetworkCIDR;
  kp_Location : string;
  kp_AvailabilityZone : option string;
  kp_PresetName : option string;
  kp_Resources : option KubernetesResources;
  kp_Description : option string;
  kp_MasterNodesCount : option Z;
  kp_Deps : ClusterDeps }.

Record KubernetesClusterObservation := {
  kb_UpstreamID : option string;
  kb_State : option string;
  kb_K8sVersion : option string;
  kb_LockedPresetID : option Z;
  kb_LockedConfiguratorID : option Z;
  kb_ResolvedNetworkID : option string;
  kb_ClusterNetworkCIDR : option ClusterNetworkCIDR;
  kb_RouterIntegrated : option bool;
  kb_IntegratedRouterID : option string;
  kb_AutoCreatedNetworkID : option string;
  kb_ResolvedProjectID : option Z;
  kb_CPU : option Z;
  kb_RAM : option Z;
  kb_Disk : option Z;
  kb_Sizing : option string }.

(** ** Pure helpers *)

Definition reasonUpgrading : string := "Upgrading".
Definition reasonIntegratedRouter : string := "IntegratedRouter".
Definition reasonDetachedRouter : string := "DetachedRouterIntegration".

Definition buildCreateClusterBody (fp : KubernetesClusterParameters) (presetID configuratorID : Z)
    (networkID : string) (projectID : option Z) (resolvedZone : string) : ClusterIn :=
  {| cl_Name := kp_Name fp;
     cl_K8sVersion := kp_K8sVersion fp;
     cl_NetworkDriver := kp_NetworkDriver fp;
     cl_AvailabilityZone := Some resolvedZone;
     cl_ClusterNetworkCidr := kp_ClusterNetworkCIDR fp;
     cl_Configuration :=
       match kp_Resources fp with
       | Some r => Some {| cc_ConfiguratorId := configuratorID; cc_Cpu := kr_CPU r;
                           cc_Disk := int64_wrap (kr_DiskGB r * 1024); cc_Gpu := None;
                           cc_Ram := int64_wrap (kr_RAMGB r * 1024) |}
       | None => None
       end;
     cl_PresetId := match kp_Resources fp with Some _ => None | None => Some presetID end;
     cl_Description := kp_Description fp;
     cl_MasterNodesCount := kp_MasterNodesCount fp;
     cl_NetworkId := if bool_decide (networkID = "") then None else Some networkID;
     cl_ProjectId := projectID |}.

(** A value the upstream reports, kept from before where it reports none. *)
Definition keep_zero (n : Z) (old : option Z) : option Z := if n =? 0 then old else Some n.

Definition cluster_sizing_column (fp : KubernetesClusterParameters) (old : option string) : option string :=
  match kp_PresetName fp with
  | Some p => Some ("preset:" +:+ p)
  | None =>
      match kp_Resources fp with
      | Some r => Some (fmt_d (kr_CPU r) +:+ "cpu/" +:+ fmt_d (kr_RAMGB r) +:+ "gb/" +:+ fmt_d (kr_DiskGB r) +:+ "gb")
      | None => old
      end
  end.

(** No network declared: the one reported is the one the upstream made. *)
Definition network_less (d : ClusterDeps) : bool :=
  bool_decide (cd_NetworkRef d = None) && negb (cd_NetworkSelector d) && bool_decide (cd_NetworkID d = None).

Definition cluster_status (fp : KubernetesClusterParameters) (c : clusterBody) (o : KubernetesClusterObservation)
  : KubernetesClusterObservation :=
  {| kb_UpstreamID := Some (EncodeID (cb_ID c));
     kb_State := Some (cb_Status c);
     kb_K8sVersion := if bool_decide (cb_K8sVersion c = "") then kb_K8sVersion o else Some (cb_K8sVersion c);
     kb_LockedPresetID := keep_zero (cb_PresetID c) (kb_LockedPresetID o);
     kb_LockedConfiguratorID := keep_zero (cb_ConfiguratorID c) (kb_LockedConfiguratorID o);
     kb_ResolvedNetworkID := kb_ResolvedNetworkID o;
     kb_ClusterNetworkCIDR := match cb_NetworkCidr c with Some n => Some n | None => kb_ClusterNetworkCIDR o end;
     kb_RouterIntegrated := kb_RouterIntegrated o;
     kb_IntegratedRouterID := kb_IntegratedRouterID o;
     kb_AutoCreatedNetworkID := if negb (bool_decide (cb_NetworkID c = "")) && network_less (kp_Deps fp)
                                then Some (cb_NetworkID c) else kb_AutoCreatedNetworkID o;
     kb_ResolvedProjectID := keep_zero (cb_ProjectID c) (kb_ResolvedProjectID o);
     kb_CPU := keep_zero (cb_CPU c) (kb_CPU o);
     kb_RAM := keep_zero (cb_RAM c) (kb_RAM o);
     kb_Disk := keep_zero (cb_Disk c) (kb_Disk o);
     kb_Sizing := cluster_sizing_column fp (kb_Sizing o) |}.

Definition isClusterUpToDate (spec : KubernetesClusterParameters) (status : KubernetesClusterObservation)
    (c : clusterBody) : bool :=
  if bool_decide (is_Some (kp_PresetName spec)) && bool_decide (is_Some (kb_LockedConfiguratorID status)) then false
  else if bool_decide (is_Some (kp_Resources spec)) && bool_decide (is_Some (kb_LockedPresetID status)) then false
  else if negb (bool_decide (kp_Name spec = cb_Name c)) then false
  else if match kp_Description spec with
          | Some d => negb (bool_decide (d = cb_Description c))
          | None => false
          end then false
  else if negb (bool_decide (cb_K8sVersion c = "")) && negb (bool_decide (kp_K8sVersion spec = cb_K8sVersion c)) then false
  else true.

Definition cluster_matches (name az : string) (projectID : option Z) (c : clusterBody) : bool :=
  bool_decide (cb_Name c = name) &&
  negb (negb (bool_decide (az = "")) && negb (bool_decide (cb_AvailabilityZone c = "")) &&
        negb (bool_decide (cb_AvailabilityZone c = az))) &&
  match projectID with
  | Some p => (cb_ProjectID c =? 0) || (cb_ProjectID c =? p)
  | None => true
  end.

(** *** Router integration *)

Record integrationState := {
  st_integratedWith : string;
  st_declaredFound : bool;
  st_declaredHasNet : bool;
  st_declaredHasNAT : bool;
  st_declaredNetSeen : bool }.

(** One attached network of the declared router. *)
Definition network_step (networkID : string) (st : integrationState) (n : RouterNetworkMeta) : integrationState :=
  if bool_decide (rm_Id n = networkID)
  then {| st_integratedWith := st_integratedWith st; st_declaredFound := st_declaredFound st; st_declaredHasNet := true;
          st_declaredHasNAT := negb (bool_decide (default_str (rm_NatIp n) = ""));
          st_declaredNetSeen := st_declaredNetSeen st |}
  else st.

Definition serves_cluster (cluster : Z) (r : IntegrationRouter) : bool :=
  existsb (fun ps => bool_decide (is_Type ps = "k8s") && (is_Id ps =? cluster)) (ir_ParentServices r).

(** One listed router. *)
Definition router_step (cluster : Z) (declared networkID : string) (st : integrationState) (r : IntegrationRouter)
  : integrationState :=
  let st := if serves_cluster cluster r
            then {| st_integratedWith := ir_Id r; st_declaredFound := st_declaredFound st;
                    st_declaredHasNet := st_declaredHasNet st; st_declaredHasNAT := st_declaredHasNAT st;
                    st_declaredNetSeen := st_declaredNetSeen st |}
            else st in
  if negb (bool_decide (declared = "")) && bool_decide (ir_Id r = declared)
  then fold_left (network_step networkID) (ir_Networks r)
         {| st_integratedWith := st_integratedWith st; st_declaredFound := true;
            st_declaredHasNet := st_declaredHasNet st; st_declaredHasNAT := st_declaredHasNAT st;
            st_declaredNetSeen := st_declaredNetSeen st |}
  else st.

Definition integration_of (cluster : Z) (declared networkID : string) (routers : list IntegrationRouter) : integrationState :=
  fold_left (router_step cluster declared networkID) routers
    {| st_integratedWith := ""; st_declaredFound := false; st_declaredHasNet := false; st_declaredHasNAT := false;
       st_declaredNetSeen := negb (bool_decide (networkID = "")) |}.

Definition integrationWaitMessage (st : integrationState) (declared networkID : string) : string :=
  if negb (st_declaredFound st) then "declared router " +:+ declared +:+ " not observed upstream yet"
  else if st_declaredNetSeen st && negb (st_declaredHasNet st) then
    "declared router " +:+ declared +:+ " is not attached to the cluster network " +:+ networkID +:+
    " yet — integration waits for the attachment"
  else if st_declaredNetSeen st && negb (st_declaredHasNAT st) then
    "declared router " +:+ declared +:+ " attaches network " +:+ networkID +:+
    " without NAT — integration waits for NAT (declare natFloatingIP on the router attachment)"
  else "".

(** The raw body of the integration patch; no router is an explicit JSON null. *)
Definition integration_body (routerUUID : option string) : string :=
  "{" +:+ quote "virtual_router_id" +:+ ":" +:+ match routerUUID with Some u => quote u | None => "null" end +:+ "}".

(** ** The external client *)
Section ClusterExternal.
Context `{R : CrossplaneRuntime} {U : Upstream cluster_request cluster_reply}.
Variable recorder : bool.
(** [resolver.Resolve]. *)
Variable resolve : World -> Dimension -> ResolveInput -> result error ResolveOutput.
(** What [Connect] resolved. *)
Variable resolvedNetworkID : string.
Variable resolvedProjectID : option Z.
Variable resolvedRouterID : string.
(** [meta.ExternalCreateIncomplete] and the create-failed annotation. *)
Variable createIncomplete : bool.
Variable createFailed : string.

Notation cluster := (managed KubernetesClusterParameters KubernetesClusterObservation).
Notation CM := (M U cluster).

Definition populateClusterStatus (c : clusterBody) (cr : cluster) : cluster :=
  set_at_provider (cluster_status (ForProvider cr) c (AtProvider cr)) cr.

Definition set_integration (integrated : option bool) (router : option string) (cr : cluster) : cluster :=
  let o := AtProvider cr in
  set_at_provider
    {| kb_UpstreamID := kb_UpstreamID o; kb_State := kb_State o; kb_K8sVersion := kb_K8sVersion o;
       kb_LockedPresetID := kb_LockedPresetID o; kb_LockedConfiguratorID := kb_LockedConfiguratorID o;
       kb_ResolvedNetworkID := kb_ResolvedNetworkID o; kb_ClusterNetworkCIDR := kb_ClusterNetworkCIDR o;
       kb_RouterIntegrated := integrated; kb_IntegratedRouterID := router;
       kb_AutoCreatedNetworkID := kb_AutoCreatedNetworkID o; kb_ResolvedProjectID := kb_ResolvedProjectID o;
       kb_CPU := kb_CPU o; kb_RAM := kb_RAM o; kb_Disk := kb_Disk o; kb_Sizing := kb_Sizing o |} cr.

Definition set_integrated (b : bool) (cr : cluster) : cluster :=
  set_integration (Some b) (kb_IntegratedRouterID (AtProvider cr)) cr.

Definition set_integrated_router (r : option string) (cr : cluster) : cluster :=
  set_integration (kb_RouterIntegrated (AtProvider cr)) r cr.

(** *** Resolver and version *)

Definition resolveMasterPreset (slug zone location : string) : CM Z :=
  resolve_preset_in resolve "kubernetes/cluster" DimKubernetesMasterPreset slug zone location.

Definition validateVersion (version : string) : CM unit :=
  r ← ask resolve DimKubernetesVersion (InEnum version);
  lift (match r with Ok _ => Ok tt | Err e => Err e end).

(** A rejected version: its condition, then the error. *)
Definition version_rejected {A} (c : Condition) (e : error) : CM A :=
  note_condition recorder c;; throw e.

Definition unparsed_version (desired : string) : error :=
  ErrorString ("kubernetes/cluster: desired k8sVersion " +:+ quote desired +:+
               " could not be parsed — use the exact catalog version string").

Definition version_error (s : sentinel) (observed desired : string) : error :=
  wrap_post (Sentinel s) (": from " +:+ quote observed +:+ " to " +:+ quote desired).

Definition upgrading (observed desired : string) : Condition :=
  {| cond_Type := TypeReady; cond_Status := CFalse; cond_Reason := reasonUpgrading;
     cond_Message := "upgrading Kubernetes version from " +:+ quote observed +:+ " to " +:+ quote desired |}.

Definition reconcileVersion (id : Z) (observedVersion : string) : CM bool :=
  cr ← get;
  let desired := kp_K8sVersion (ForProvider cr) in
  if bool_decide (observedVersion = "") || bool_decide (desired = observedVersion) then mret false
  else if (length (splitVersion desired) =? 0)%nat || allZero (splitVersion desired) then
    version_rejected (SyncedFalse ReasonDimensionValueNotFound (Error (unparsed_version desired))) (unparsed_version desired)
  else if negb (versionNewer desired observedVersion) then
    let e := version_error (if versionNewer observedVersion desired then ErrVersionDowngrade else ErrVersionLateral)
               observedVersion desired in
    version_rejected (SyncedFalse ReasonImmutableFieldChange (Error e)) e
  else
    v ← try (validateVersion desired);
    match v with
    | Err e => version_rejected (MapResolverErrorToCondition e) e
    | Ok _ =>
        do_ (UpdateClusterVersion id desired);;
        note_condition recorder (upgrading observedVersion desired);;
        mret true
    end.

(** *** Router integration *)

Definition cluster_network (cr : cluster) : string :=
  if bool_decide (resolvedNetworkID = "") then default_str (kb_ResolvedNetworkID (AtProvider cr)) else resolvedNetworkID.

Definition readIntegrationState (id : Z) (declared : string) : CM integrationState :=
  routers ← call_decode "kubernetes/cluster: routers list: " GetRouters;
  cr ← get;
  mret (integration_of id declared (cluster_network cr) routers).

Definition integrationPatch (id : Z) (routerUUID : option string) : CM unit :=
  do_ (UpdateClusterWithBody id "application/json" (integration_body routerUUID)).

(** Neither declared nor recorded. *)
Definition never_declared (cr : cluster) : bool :=
  bool_decide (resolvedRouterID = "") && bool_decide (default_str (kb_IntegratedRouterID (AtProvider cr)) = "").

Definition observe_declared (st : integrationState) : CM bool :=
  let integrated := bool_decide (st_integratedWith st = resolvedRouterID) in
  modify (set_integrated integrated);;
  if integrated then modify (set_integrated_router (Some resolvedRouterID));; mret false
  else
    cr ← get;
    let msg := integrationWaitMessage st resolvedRouterID (cluster_network cr) in
    if negb (bool_decide (msg = ""))
    then note_condition recorder (ReadyFalse ReasonRouterNATRequired msg);; mret false
    else mret true.

Definition observe_removed (st : integrationState) : CM bool :=
  let integrated := negb (bool_decide (st_integratedWith st = "")) in
  modify (set_integrated integrated);;
  if negb integrated then modify (set_integrated_router None);; mret false else mret true.

Definition observeRouterIntegration (id : Z) : CM bool :=
  cr ← get;
  if never_declared cr then mret false
  else
    r ← try (readIntegrationState id resolvedRouterID);
    match r with
    | Err _ => mret false
    | Ok st => if negb (bool_decide (resolvedRouterID = "")) then observe_declared st else observe_removed st
    end.

Definition convergeRouterIntegration (id : Z) : CM unit :=
  cr ← get;
  if never_declared cr then mret tt
  else
    st ← readIntegrationState id resolvedRouterID;
    if negb (bool_decide (resolvedRouterID = "")) && negb (bool_decide (st_integratedWith st = resolvedRouterID)) then
      cr ← get;
      if negb (bool_decide (integrationWaitMessage st resolvedRouterID (cluster_network cr) = "")) then mret tt
      else
        integrationPatch id (Some resolvedRouterID);;
        modify (set_integrated_router (Some resolvedRouterID));;
        note_event recorder EventNormal reasonIntegratedRouter ("integrated cluster with router " +:+ resolvedRouterID)
    else if bool_decide (resolvedRouterID = "") && negb (bool_decide (st_integratedWith st = "")) then
      integrationPatch id None;;
      modify (set_integrated_router None);;
      modify (set_integrated false);;
      note_event recorder EventNormal reasonDetachedRouter "router integration removed (declaration deleted)"
    else if bool_decide (resolvedRouterID = "") then modify (set_integrated_router None)
    else mret tt.

(** *** Observe *)

(** The Ready condition of an upstream status, and whether it is active. *)
Definition cluster_ready_condition (state : string) : Condition * bool :=
  let s := to_lower state in
  if bool_decide (s = "no_paid") then
    (ReadyFalse ReasonPaymentRequired ("upstream cluster state is " +:+ quote "no_paid" +:+
       ": the Timeweb account lacks the funds/quota — top up the account; the cluster will provision once payment clears"), false)
  else if contains_str s "active" || contains_str s "started" || contains_str s "running" || bool_decide (s = "on")
  then (Available, true)
  else if contains_str s "error" || contains_str s "fail" then
    (ReadyFalse ReasonUpstreamFailed ("upstream cluster state is " +:+ quote state +:+
       ": provisioning failed and will not recover on its own — delete and recreate the KubernetesCluster (check the availability zone / sizing pairing and the Timeweb panel for details)"), false)
  else (Creating, false).

Definition setClusterReadyCondition (state : string) : CM bool :=
  note_condition recorder (cluster_ready_condition state).1;;
  mret (cluster_ready_condition state).2.

(** [io.LimitReader]. *)
Definition limit_read (limit : nat) (s : string) : string :=
  if (String.length s <=? limit)%nat then s else take_str limit s.

(** The [kubeconfig] connection detail, when there is one. *)
Definition kubeconfigConnectionDetails (id : Z) : CM (option string) :=
  r ← try (call_raw "kubernetes/cluster: read kubeconfig: " (GetClusterKubeconfig id));
  match r with
  | Err e => if error_is e ErrNotFound then mret None else throw e
  | Ok body =>
      let body := limit_read (Nat.pow 2 20) body in
      if bool_decide (body = "") then mret None else mret (Some body)
  end.

Definition misplaced_msg (observed zone : string) : string :=
  "upstream created the cluster in " +:+ quote observed +:+ " but " +:+ quote zone +:+
  " was requested — the upstream mis-places instead of rejecting; delete and recreate".

(** Parked: the operator has to act, nothing is updated. *)
Definition parked : ExternalObservation * option string :=
  ({| ResourceExists := true; ResourceUpToDate := true |}, None).

Definition observe_placed (id : Z) (c : clusterBody) : CM (ExternalObservation * option string) :=
  cr ← get;
  let prev := cond_Status (GetCondition TypeReady (Conditions cr)) in
  ready ← setClusterReadyCondition (cb_Status c);
  details ← (if ready && negb (bool_decide (prev = CTrue)) then kubeconfigConnectionDetails id else mret None);
  drift ← observeRouterIntegration id;
  cr ← get;
  mret ({| ResourceExists := true;
           ResourceUpToDate := isClusterUpToDate (ForProvider cr) (AtProvider cr) c && negb drift |}, details).

Definition observe_found (id : Z) (c : clusterBody) : CM (ExternalObservation * option string) :=
  modify (populateClusterStatus c);;
  cr ← get;
  match ResolvePlacement (kp_Location (ForProvider cr)) (kp_AvailabilityZone (ForProvider cr)) with
  | Err e =>
      note_condition recorder (ReadyFalse ReasonUpstreamFailed ("invalid placement: " +:+ Error e));;
      mret parked
  | Ok (_, zone) =>
      if negb (bool_decide (cb_AvailabilityZone c = "")) && negb (bool_decide (cb_AvailabilityZone c = zone)) then
        note_condition recorder (ReadyFalse ReasonUpstreamFailed (misplaced_msg (cb_AvailabilityZone c) zone));;
        mret parked
      else observe_placed id c
  end.

Definition Observe : CM (ExternalObservation * option string) :=
  cr ← get;
  match DecodeID (ExternalName cr) with
  | Err _ => mret (not_exists, None)
  | Ok id =>
      r ← try (call_decode "kubernetes/cluster: " (GetCluster id));
      match r with
      | Err e => if error_is e ErrNotFound then mret (not_exists, None) else throw e
      | Ok c => observe_found id c
      end
  end.

(** *** Create *)

Definition findClustersByName (name az : string) (projectID : option Z) : CM (list clusterBody) :=
  cs ← call_decode "kubernetes/cluster: list clusters: " GetClusters;
  mret (List.filter (cluster_matches name az projectID) cs).

(** The preset or configurator id of the declared sizing; the other id is 0. *)
Definition resolve_cluster_sizing (fp : KubernetesClusterParameters) (location zone : string) : CM (result error (Z * Z)) :=
  match kp_Resources fp with
  | Some r =>
      id ← try (resolveK8sConfigurator resolve DimKubernetesMasterConfigurator location (kr_CPU r) (kr_RAMGB r)
                  (kr_DiskGB r) None []);
      mret (match id with Ok c => Ok (0, c) | Err e => Err e end)
  | None =>
      match kp_PresetName fp with
      | None => throw nil_dereference
      | Some slug =>
          id ← try (resolveMasterPreset slug zone location);
          mret (match id with Ok p => Ok (p, 0) | Err e => Err e end)
      end
  end.

(** What [Create] adds to the status of the cluster it made. *)
Definition lock_cluster (presetID configuratorID : Z) (cr : cluster) : cluster :=
  let o := AtProvider cr in
  let custom := bool_decide (is_Some (kp_Resources (ForProvider cr))) in
  set_at_provider
    {| kb_UpstreamID := kb_UpstreamID o; kb_State := kb_State o; kb_K8sVersion := kb_K8sVersion o;
       kb_LockedPresetID := if custom then kb_LockedPresetID o else Some presetID;
       kb_LockedConfiguratorID := if custom then Some configuratorID else kb_LockedConfiguratorID o;
       kb_ResolvedNetworkID := if bool_decide (resolvedNetworkID = "") then kb_ResolvedNetworkID o else Some resolvedNetworkID;
       kb_ClusterNetworkCIDR := kb_ClusterNetworkCIDR o; kb_RouterIntegrated := kb_RouterIntegrated o;
       kb_IntegratedRouterID := kb_IntegratedRouterID o; kb_AutoCreatedNetworkID := kb_AutoCreatedNetworkID o;
       kb_ResolvedProjectID := match resolvedProjectID with Some p => Some p | None => kb_ResolvedProjectID o end;
       kb_CPU := kb_CPU o; kb_RAM := kb_RAM o; kb_Disk := kb_Disk o; kb_Sizing := kb_Sizing o |} cr.

Definition create_cluster : CM unit :=
  cr ← get;
  validateVersion (kp_K8sVersion (ForProvider cr));;
  match ResolvePlacement (kp_Location (ForProvider cr)) (kp_AvailabilityZone (ForProvider cr)) with
  | Err e => throw (wrap_pre "kubernetes/cluster: " e)
  | Ok (location, zone) =>
      sizing ← resolve_cluster_sizing (ForProvider cr) location zone;
      match sizing with
      | Err e => note_condition recorder (MapResolverErrorToCondition e);; throw e
      | Ok (presetID, configuratorID) =>
          c ← call_decode "kubernetes/cluster: "
                (CreateCluster (buildCreateClusterBody (ForProvider cr) presetID configuratorID resolvedNetworkID
                                  resolvedProjectID zone));
          modify (set_external_name (EncodeID (cb_ID c)));;
          modify (populateClusterStatus c);;
          modify (lock_cluster presetID configuratorID);;
          put_condition Creating
      end
  end.

(** Whether the guard against a lost create runs. *)
Definition previous_create_ambiguous : bool := createIncomplete || negb (bool_decide (createFailed = "")).

Definition Create : CM unit :=
  cr ← get;
  if previous_create_ambiguous then
    match ResolvePlacement (kp_Location (ForProvider cr)) (kp_AvailabilityZone (ForProvider cr)) with
    | Err e => throw (wrap_pre "kubernetes/cluster: " e)
    | Ok (_, zone) =>
        matches ← findClustersByName (kp_Name (ForProvider cr)) zone resolvedProjectID;
        match matches with
        | [] => create_cluster
        | [m] => modify (set_external_name (EncodeID (cb_ID m)))
        | _ =>
            throw (ErrorString ("kubernetes/cluster: " +:+ fmt_d (Z.of_nat (length matches)) +:+ " upstream clusters named " +:+
                     quote (kp_Name (ForProvider cr)) +:+ " in zone " +:+ quote zone +:+
                     " — adopt explicitly by setting the external-name annotation"))
        end
    end
  else create_cluster.

(** *** Update and Delete *)

Definition cluster_sizing_switched (cr : cluster) : bool :=
  match kp_Resources (ForProvider cr) with
  | Some _ => bool_decide (is_Some (kb_LockedPresetID (AtProvider cr)))
  | None => bool_decide (is_Some (kb_LockedConfiguratorID (AtProvider cr)))
  end.

(** The immutable field the observed cluster contradicts, in the order of the guards. *)
Definition immutable_change (cr : cluster) (observed : clusterBody) : option string :=
  let fp := ForProvider cr in
  if negb (bool_decide (cb_NetworkDriver observed = "")) && negb (bool_decide (kp_NetworkDriver fp = cb_NetworkDriver observed))
  then Some "networkDriver"
  else if negb (bool_decide (cb_AvailabilityZone observed = "")) &&
          negb (bool_decide (DerefString (kp_AvailabilityZone fp) = cb_AvailabilityZone observed))
  then Some "availabilityZone"
  else match kb_LockedPresetID (AtProvider cr) with
       | Some p => if negb (cb_PresetID observed =? 0) && negb (p =? cb_PresetID observed) then Some "presetName" else None
       | None => None
       end.

(** The fields of the name and description patch; neither, and none is sent. *)
Definition name_patch (fp : KubernetesClusterParameters) (observed : clusterBody) : option string :=
  if bool_decide (kp_Name fp = cb_Name observed) then None else Some (kp_Name fp).

Definition description_patch (fp : KubernetesClusterParameters) (observed : clusterBody) : option string :=
  match kp_Description fp with
  | Some d => if bool_decide (d = cb_Description observed) then None else Some d
  | None => None
  end.

Definition patch_cluster (id : Z) (fp : KubernetesClusterParameters) (observed : clusterBody) : CM unit :=
  match name_patch fp observed, description_patch fp observed with
  | None, None => mret tt
  | n, d => do_ (UpdateCluster id n d)
  end.

Definition Update : CM unit :=
  cr ← get;
  match DecodeID (ExternalName cr) with
  | Err e => throw (wrap_pre "kubernetes/cluster: decode external-name: " e)
  | Ok id =>
      observed ← call_decode "kubernetes/cluster: " (GetCluster id);
      if cluster_sizing_switched cr then reject (RejectSizingSwitch recorder)
      else match immutable_change cr observed with
           | Some field => reject (RejectImmutableChange recorder field)
           | None =>
               _ ← reconcileVersion id (cb_K8sVersion observed);
               convergeRouterIntegration id;;
               patch_cluster id (ForProvider cr) observed
           end
  end.

Definition Delete : CM unit :=
  cr ← get;
  match DecodeID (ExternalName cr) with
  | Err _ => mret tt
  | Ok id =>
      r ← try (do_ (DeleteCluster id));
      match r with
      | Ok _ => put_condition Deleting
      | Err e => if error_is e ErrNotFound then mret tt else throw e
      end
  end.
End ClusterExternal.
