(* ===== verification/ClusterFacts.v ===== *)
(** * ClusterFacts: what the Kubernetes cluster controller promises

    The version order, what each write of an [Update] needs, adoption, placement,
    the router integration and the kubeconfig. *)

From S2P Require Import Prelude Errors Timeweb Slug Configurator Catalog Shared Effects Resolving RouterRefs Kubernetes Cluster.

(** ** The version order

    Versions compare by their dotted components, a missing component counting as
    zero. *)
Definition component (v : list Z) (i : nat) : Z := nth i v 0.

Definition version_gt (pa pb : list Z) : Prop :=
  exists i, (forall j, (j < i)%nat -> component pa j = component pb j) /\ component pb i < component pa i.

Lemma component_tl v i : component (tl v) i = component v (S i).
Proof. unfold component. destruct v; [by destruct i|done]. Qed.

Lemma component_hd v : component v 0 = hd 0 v.
Proof. by destruct v. Qed.

Lemma component_ge v i : (length v <= i)%nat -> component v i = 0.
Proof. apply nth_overflow. Qed.

Lemma versions_loop_spec n : forall pa pb,
  versions_loop n pa pb = true <->
  exists i, (i < n)%nat /\ (forall j, (j < i)%nat -> component pa j = component pb j) /\ component pb i < component pa i.
Proof.
  induction n as [|n IH]; intros pa pb; simpl; [split; [done|intros (i & ? & _); lia]|].
  rewrite <- !component_hd. destruct (component pa 0 =? component pb 0) eqn:E; simpl.
  - apply Z.eqb_eq in E. rewrite IH. split.
    + intros (i & Hi & Hj & Hc). rewrite !component_tl in Hc. exists (S i). split; [lia|]. split; [|done].
      intros [|j] Hlt; [done|]. rewrite <- !component_tl. apply Hj. lia.
    + intros ([|i] & Hi & Hj & Hc); [lia|]. exists i. rewrite !component_tl. split; [lia|]. split; [|done].
      intros j Hlt. rewrite !component_tl. apply Hj. lia.
  - split.
    + intros H. exists O. split; [lia|]. split; [lia|]. lia.
    + intros ([|i] & Hi & Hj & Hc); [lia|]. specialize (Hj O ltac:(lia)). lia.
Qed.

Lemma versionNewer_gt a b : versionNewer a b = true <-> version_gt (splitVersion a) (splitVersion b).
Proof.
  unfold versionNewer. rewrite versions_loop_spec. split.
  - intros (i & _ & H). by exists i.
  - intros (i & Hj & Hc). exists i. split; [|done].
    destruct (decide (i < Nat.max (length (splitVersion a)) (length (splitVersion b)))%nat) as [|Hge]; [done|].
    rewrite !component_ge in Hc by lia. lia.
Qed.

Lemma version_gt_trans pa pb pc : version_gt pa pb -> version_gt pb pc -> version_gt pa pc.
Proof.
  intros (i & Hi & Hci) (j & Hj & Hcj). destruct (Nat.lt_trichotomy i j) as [H|[->|H]].
  - exists i. split; [|rewrite <- Hj by lia; lia]. intros k Hk. rewrite Hi by lia. apply Hj. lia.
  - exists j. split; [|lia]. intros k Hk. rewrite Hi by lia. by apply Hj.
  - exists j. split; [|rewrite Hi by lia; lia]. intros k Hk. rewrite Hi by lia. by apply Hj.
Qed.

Lemma version_gt_irrefl p : ~ version_gt p p.
Proof. intros (i & _ & H). lia. Qed.

(** Two versions neither of which is newer have the same components. *)
Lemma version_gt_total pa pb :
  version_gt pa pb \/ version_gt pb pa \/ forall i, component pa i = component pb i.
Proof.
  assert (forall n, (exists i, (i < n)%nat /\ (forall j, (j < i)%nat -> component pa j = component pb j) /\ component pa i <> component pb i)
            \/ forall i, (i < n)%nat -> component pa i = component pb i) as H.
  { induction n as [|n [(i & Hi & Hj & Hc)|IH]]; [right; lia|left; exists i; auto with lia|].
    destruct (decide (component pa n = component pb n)) as [E|E].
    - right. intros i Hi. destruct (decide (i = n)) as [->|]; [done|]. apply IH. lia.
    - left. exists n. auto with lia. }
  destruct (H (Nat.max (length pa) (length pb))) as [(i & _ & Hj & Hc)|He].
  - destruct (Z.lt_total (component pa i) (component pb i)) as [?|[?|?]]; [|done|left; by exists i].
    right; left. exists i. split; [|done]. intros j Hlt. symmetry. by apply Hj.
  - right; right. intros i. destruct (decide (i < Nat.max (length pa) (length pb))%nat); [by apply He|].
    rewrite !component_ge by lia. done.
Qed.

(** The comparison of versions is the lexicographic order of their components, the
    shorter version padded with zeros: a strict order, two versions being
    incomparable exactly when all components agree, so that the code's three cases
    of upgrade, downgrade and lateral change are disjoint and exhaustive. *)
Theorem version_order (a b c : string) :
  (versionNewer a b = true <-> version_gt (splitVersion a) (splitVersion b)) /\
  versionNewer a a = false /\
  (versionNewer a b = true -> versionNewer b c = true -> versionNewer a c = true) /\
  (versionNewer a b = true -> versionNewer b a = false) /\
  (versionNewer a b = false /\ versionNewer b a = false <->
     forall i, component (splitVersion a) i = component (splitVersion b) i).
Proof.
  assert (forall x y, versionNewer x y = false <-> ~ version_gt (splitVersion x) (splitVersion y)) as Hf.
  { intros x y. rewrite <- versionNewer_gt. by destruct (versionNewer x y). }
  split; [apply versionNewer_gt|]. split; [apply Hf, version_gt_irrefl|].
  rewrite !Hf, !versionNewer_gt. split; [apply version_gt_trans|]. split.
  - intros H1 H2. eapply version_gt_irrefl, version_gt_trans; eassumption.
  - split.
    + intros [H1 H2]. destruct (version_gt_total (splitVersion a) (splitVersion b)) as [?|[?|?]]; done.
    + intros He. split; intros (i & _ & H); rewrite He in H; lia.
Qed.

Example k0s_upgrade : versionNewer "v1.31.14+k0s.0" "v1.31.13+k0s.1" = true.
Proof. reflexivity. Qed.

Example k0s_lateral : versionNewer "v1.31.14+k0s.1" "v1.31.14+k0s.0" = false.
Proof. reflexivity. Qed.

(** ** What the routers say *)

Lemma NoDup_fmap_elem {A B} (f : A -> B) (l : list A) x y :
  NoDup (map f l) -> x ∈ l -> y ∈ l -> f x = f y -> x = y.
Proof.
  induction l as [|a l IH]; intros HN Hx Hy E; [inversion Hx|]. simpl in HN. apply NoDup_cons in HN as [Ha HN].
  apply elem_of_cons in Hx as [->|Hx]; apply elem_of_cons in Hy as [->|Hy]; [done|..|by apply IH].
  - destruct Ha. rewrite E. by apply list_elem_of_fmap_2.
  - destruct Ha. rewrite <- E. by apply list_elem_of_fmap_2.
Qed.

Lemma network_fold_none net ns st :
  Forall (fun n => rm_Id n <> net) ns -> fold_left (network_step net) ns st = st.
Proof.
  intros H. revert st. induction H as [|n ns Hn _ IH]; intros st; simpl; [done|].
  unfold network_step at 2. by rewrite bool_decide_false.
Qed.

Lemma network_fold_keeps net ns : forall st,
  st_integratedWith (fold_left (network_step net) ns st) = st_integratedWith st /\
  st_declaredFound (fold_left (network_step net) ns st) = st_declaredFound st /\
  st_declaredNetSeen (fold_left (network_step net) ns st) = st_declaredNetSeen st.
Proof.
  induction ns as [|n ns IH]; intros st; simpl; [done|].
  destruct (IH (network_step net st n)) as (-> & -> & ->). unfold network_step. by case_bool_decide.
Qed.

Lemma network_fold_some net ns n st :
  NoDup (map rm_Id ns) -> n ∈ ns -> rm_Id n = net ->
  st_declaredHasNet (fold_left (network_step net) ns st) = true /\
  st_declaredHasNAT (fold_left (network_step net) ns st) = negb (bool_decide (default_str (rm_NatIp n) = "")).
Proof.
  intros HN Hn Hnet. apply list_elem_of_split in Hn as (l1 & l2 & ->). rewrite map_app in HN. simpl in HN.
  apply NoDup_app in HN as (_ & _ & HN). apply NoDup_cons in HN as [HN _].
  rewrite fold_left_app. simpl. rewrite network_fold_none.
  - unfold network_step. by rewrite bool_decide_true.
  - apply Forall_forall. intros m Hm E. apply HN. rewrite Hnet, <- E. by apply list_elem_of_fmap_2.
Qed.

(** A listing of routers names each router and each of its networks once, and at
    most one router serves the cluster. *)
Definition routers_listed_once (id : Z) (routers : list IntegrationRouter) : Prop :=
  NoDup (map ir_Id routers) /\
  (forall r r', r ∈ routers -> r' ∈ routers -> serves_cluster id r = true -> serves_cluster id r' = true -> r = r') /\
  Forall (fun r => NoDup (map rm_Id (ir_Networks r))) routers.

Definition declared_view (st : integrationState) : bool * bool * bool :=
  (st_declaredFound st, st_declaredHasNet st, st_declaredHasNAT st).

Lemma routers_fold_none id declared net routers : forall st,
  Forall (fun r => ir_Id r <> declared) routers ->
  declared_view (fold_left (router_step id declared net) routers st) = declared_view st.
Proof.
  induction routers as [|r routers IH]; intros st H; simpl; [done|]. apply Forall_cons in H as [Hr H].
  rewrite IH by done. unfold router_step. rewrite (bool_decide_false (ir_Id r = declared)), andb_false_r by done.
  by destruct (serves_cluster id r).
Qed.

Lemma routers_fold_netseen id declared net routers : forall st,
  st_declaredNetSeen (fold_left (router_step id declared net) routers st) = st_declaredNetSeen st.
Proof.
  induction routers as [|r routers IH]; intros st; simpl; [done|]. rewrite IH. unfold router_step. cbv zeta.
  destruct (_ && _); [rewrite (proj2 (proj2 (network_fold_keeps _ _ _)))|]; by destruct (serves_cluster id r).
Qed.

Lemma routers_fold_served id declared net routers : forall st,
  st_integratedWith (fold_left (router_step id declared net) routers st) =
  match last (List.filter (serves_cluster id) routers) with Some r => ir_Id r | None => st_integratedWith st end.
Proof.
  induction routers as [|r routers IH]; intros st; simpl; [done|]. rewrite IH.
  assert (st_integratedWith (router_step id declared net st r) =
          if serves_cluster id r then ir_Id r else st_integratedWith st) as ->.
  { unfold router_step. cbv zeta. destruct (_ && _);
      [rewrite (proj1 (network_fold_keeps _ _ _))|]; by destruct (serves_cluster id r). }
  destruct (serves_cluster id r); [|done].
  destruct (List.filter (serves_cluster id) routers) as [|r' rs] eqn:E; [done|]. rewrite last_cons_cons.
  by destruct (last (r' :: rs)) eqn:El; [|apply last_None in El].
Qed.

Lemma router_step_declared id declared net r st :
  declared <> "" -> ir_Id r = declared -> NoDup (map rm_Id (ir_Networks r)) ->
  declared_view st = (false, false, false) ->
  let st' := router_step id declared net st r in
  st_declaredFound st' = true /\
  (forall n, n ∈ ir_Networks r -> rm_Id n = net ->
     st_declaredHasNet st' = true /\ st_declaredHasNAT st' = negb (bool_decide (default_str (rm_NatIp n) = ""))) /\
  (Forall (fun n => rm_Id n <> net) (ir_Networks r) -> st_declaredHasNet st' = false).
Proof.
  intros Hd Hr HN Hv. unfold declared_view in Hv. cbv zeta. unfold router_step.
  rewrite bool_decide_false, bool_decide_true by done. cbn [negb andb].
  split; [by rewrite (proj1 (proj2 (network_fold_keeps _ _ _)))|]. split.
  - intros n Hn Hnet. by apply network_fold_some.
  - intros HF. rewrite network_fold_none by done. simpl. destruct (serves_cluster id r); simpl; by simplify_eq.
Qed.

Lemma routers_fold_declared id declared net routers r st :
  NoDup (map ir_Id routers) -> r ∈ routers -> ir_Id r = declared ->
  exists st', declared_view st' = declared_view st /\
    declared_view (fold_left (router_step id declared net) routers st) = declared_view (router_step id declared net st' r).
Proof.
  intros HN Hr Hid. apply list_elem_of_split in Hr as (l1 & l2 & ->). rewrite map_app in HN. simpl in HN.
  apply NoDup_app in HN as (_ & H1 & HN). apply NoDup_cons in HN as [H2 _].
  exists (fold_left (router_step id declared net) l1 st). rewrite fold_left_app. simpl.
  rewrite !routers_fold_none; [done|..]; apply Forall_forall; intros x Hx E.
  - apply H2. rewrite Hid, <- E. by apply list_elem_of_fmap_2.
  - apply (H1 (ir_Id x)); [by apply list_elem_of_fmap_2|]. rewrite E, <- Hid. left.
Qed.

Lemma integrated_iff (id : Z) (declared net : string) (routers : list IntegrationRouter) :
  declared <> "" -> routers_listed_once id routers ->
  st_integratedWith (integration_of id declared net routers) = declared <->
  exists r, r ∈ routers /\ ir_Id r = declared /\ serves_cluster id r = true.
Proof.
  intros Hd (HN & Hone & HNets). unfold integration_of.
  rewrite routers_fold_served. cbn [st_integratedWith].
  destruct (last (List.filter (serves_cluster id) routers)) as [r|] eqn:El.
  + apply last_Some_elem_of, list_elem_of_In, filter_In in El as [Hr Hs]. apply list_elem_of_In in Hr. split.
    * intros E. by exists r.
    * intros (r' & Hr' & <- & Hs'). f_equal. by apply Hone.
  + apply last_None in El. split; [intros <-; by destruct Hd|]. intros (r & Hr & _ & Hs).
    assert (r ∈ List.filter (serves_cluster id) routers) as H by (apply list_elem_of_In, filter_In; by rewrite <- list_elem_of_In).
    rewrite El in H. inversion H.
Qed.

Lemma integration_wait_iff (id : Z) (declared net : string) (routers : list IntegrationRouter) :
  declared <> "" -> routers_listed_once id routers ->
  integrationWaitMessage (integration_of id declared net routers) declared net = "" <->
  exists r, r ∈ routers /\ ir_Id r = declared /\
    (net <> "" -> exists n, n ∈ ir_Networks r /\ rm_Id n = net /\ default_str (rm_NatIp n) <> "").
Proof.
  intros Hd (HN & Hone & HNets). unfold integration_of.
  unfold integrationWaitMessage. rewrite routers_fold_netseen. cbn [st_declaredNetSeen].
  destruct (decide (Exists (fun r => ir_Id r = declared) routers)) as [HE|HE].
  2: { apply not_Exists_Forall in HE; [|apply _].
       pose proof (routers_fold_none id declared net routers
         {| st_integratedWith := ""; st_declaredFound := false; st_declaredHasNet := false; st_declaredHasNAT := false;
            st_declaredNetSeen := negb (bool_decide (net = "")) |} HE) as Hv.
       unfold declared_view in Hv. simplify_eq. rewrite H. cbn [st_declaredFound negb]. split; [done|].
       intros (r & Hr & E & _). rewrite Forall_forall in HE. by destruct (HE r). }
  apply Exists_exists in HE as (r & Hr & Hid).
  destruct (routers_fold_declared id declared net routers r
    {| st_integratedWith := ""; st_declaredFound := false; st_declaredHasNet := false; st_declaredHasNAT := false;
       st_declaredNetSeen := negb (bool_decide (net = "")) |} HN Hr Hid) as (st' & Hv' & Hv).
  assert (NoDup (map rm_Id (ir_Networks r))) as HNr by (rewrite Forall_forall in HNets; auto).
  destruct (router_step_declared id declared net r st' Hd Hid HNr Hv') as (HF & Hsome & Hnone).
  unfold declared_view in Hv. injection Hv as -> -> ->. rewrite HF. cbn [negb].
  assert (forall r', r' ∈ routers -> ir_Id r' = declared -> r' = r) as Huniq.
  { intros r' Hr' E. rewrite <- Hid in E. by apply (NoDup_fmap_elem ir_Id routers). }
  case_bool_decide as En; cbn [negb andb]; [split; [|done]; intros _; by exists r|].
  destruct (decide (Exists (fun n => rm_Id n = net) (ir_Networks r))) as [HX|HX].
  + apply Exists_exists in HX as (n & Hn & Hnid). destruct (Hsome n Hn Hnid) as [-> ->]. cbn [negb].
    rewrite negb_involutive. case_bool_decide as Ee.
    * split; [done|].
      intros (r' & Hr' & E & HX). rewrite (Huniq r' Hr' E) in HX. destruct (HX En) as (n' & Hn' & Hnid' & Hnat).
      destruct (Hsome n' Hn' Hnid') as [_ HA]. destruct (Hsome n Hn Hnid) as [_ HB].
      by rewrite HA, bool_decide_false, bool_decide_true in HB.
    * split; [|done]. intros _. exists r. split; [done|]. split; [done|]. intros _. by exists n.
  + apply not_Exists_Forall in HX; [|apply _]. rewrite Hnone by done. cbn [negb]. split; [done|].
    intros (r' & Hr' & E & HY). rewrite (Huniq r' Hr' E) in HY. destruct (HY En) as (n & Hn & Hnid & _).
    rewrite Forall_forall in HX. by destruct (HX n).
Qed.

(** The verdict drawn from a listing of the account's routers: the cluster is
    integrated with the declared router exactly when that router serves it, and the
    integration need not wait exactly when the router is listed and, where the
    cluster network is known, attaches it with a NAT address. *)
Theorem integration_state_spec (id : Z) (declared net : string) (routers : list IntegrationRouter) :
  declared <> "" -> routers_listed_once id routers ->
  let st := integration_of id declared net routers in
  (st_integratedWith st = declared <-> exists r, r ∈ routers /\ ir_Id r = declared /\ serves_cluster id r = true) /\
  (integrationWaitMessage st declared net = "" <->
     exists r, r ∈ routers /\ ir_Id r = declared /\
       (net <> "" -> exists n, n ∈ ir_Networks r /\ rm_Id n = net /\ default_str (rm_NatIp n) <> "")).
Proof. intros Hd HO. split; [by apply integrated_iff|by apply integration_wait_iff]. Qed.

(** ** Updates *)
Section ClusterFacts.
Context `{R : CrossplaneRuntime} {U : Upstream cluster_request cluster_reply}.
Variable recorder : bool.
Variable resolve : World -> Dimension -> ResolveInput -> result error ResolveOutput.
Variable resolvedNetworkID : string.
Variable resolvedProjectID : option Z.
Variable resolvedRouterID : string.
Variable createIncomplete : bool.
Variable createFailed : string.

Notation cluster := (managed KubernetesClusterParameters KubernetesClusterObservation).
Notation Update := (Update recorder resolve resolvedNetworkID resolvedRouterID).
Notation Observe := (Observe recorder resolvedNetworkID resolvedRouterID).
Notation Create := (Create recorder resolve resolvedNetworkID resolvedProjectID createIncomplete createFailed).
Notation xt := (list (exchange cluster_reply)).

(** The integration patch due on a listing of routers, if any. *)
Definition integration_due (cr : cluster) (id : Z) (routers : list IntegrationRouter) : option (option string) :=
  let st := integration_of id resolvedRouterID (cluster_network resolvedNetworkID cr) routers in
  if bool_decide (resolvedRouterID = "") then
    if bool_decide (st_integratedWith st = "") then None else Some None
  else if bool_decide (st_integratedWith st = resolvedRouterID) then None
  else if bool_decide (integrationWaitMessage st resolvedRouterID (cluster_network resolvedNetworkID cr) = "")
       then Some (Some resolvedRouterID) else None.

Definition integration_patch (id : Z) (r : option string) : cluster_request :=
  UpdateClusterWithBody id "application/json" (integration_body r).

Ltac routers_read Er r w' st :=
  do 2 (split; [done|]); exists r, w'; eexists; (split; [done|]); (split; [reflexivity|]);
  rewrite Er; fold st; repeat match goal with E : bool_decide _ = _ |- _ => rewrite E; clear E end; done.

Lemma converge_spec id (cr : cluster) w :
  wp (convergeRouterIntegration recorder resolvedNetworkID resolvedRouterID id) (fun r s' w' t =>
    ForProvider s' = ForProvider cr /\ ExternalName s' = ExternalName cr /\
    if never_declared resolvedRouterID cr then t = [] /\ r = Ok tt
    else exists rep w1 t', serve GetRouters w = (rep, w1) /\ t = Exchange (Rep := cluster_reply) GetRouters rep :: t' /\
      match read_reply (A := list IntegrationRouter) rep with
      | Err _ => t' = [] /\ is_ok r = false
      | Ok routers => map request t' = map (integration_patch id) (option_list (integration_due cr id routers))
      end) cr w.
Proof.
  unfold convergeRouterIntegration, readIntegrationState, integrationPatch, integration_due. wp_step. wp_step.
  destruct (never_declared _ _); [by wp_step|]. wp_step. wp_step. wp_step.
  cbn [cluster_reply] in *. destruct (read_reply_pre _ r) as [routers|e] eqn:Er.
  2: { do 2 (split; [done|]). exists r, w', []. do 2 (split; [done|]).
       destruct (read_reply r) as [x|e'] eqn:E; [|done].
       apply (read_reply_pre_ok "kubernetes/cluster: routers list: ") in E. congruence. }
  apply read_reply_pre_ok in Er. wp_step. wp_step. wp_step.
  set (st := integration_of _ _ _ _).
  destruct (bool_decide (resolvedRouterID = "")) eqn:Ed; cbn [negb andb].
  - destruct (bool_decide (st_integratedWith st = "")) eqn:E; cbn [negb]; [wp_step; routers_read Er r w' st|].
    wp_step. wp_step. destruct (write_reply _) as [[]|e]; [|routers_read Er r w' st].
    do 5 wp_step. destruct recorder; routers_read Er r w' st.
  - destruct (bool_decide (st_integratedWith st = resolvedRouterID)) eqn:E; cbn [negb];
      [wp_step; routers_read Er r w' st|].
    wp_step. wp_step. fold st. destruct (bool_decide (integrationWaitMessage st _ _ = "")) eqn:Em; cbn [negb];
      [|wp_step; routers_read Er r w' st].
    wp_step. wp_step. destruct (write_reply _) as [[]|e]; [|routers_read Er r w' st].
    do 3 wp_step. destruct recorder; routers_read Er r w' st.
Qed.

(** What [Observe] says of the integration: drift exactly when [Update] has a patch. *)
Lemma observe_integration_spec id (cr : cluster) w :
  wp (observeRouterIntegration recorder resolvedNetworkID resolvedRouterID id) (fun r s' w' t =>
    ForProvider s' = ForProvider cr /\ ExternalName s' = ExternalName cr /\
    if never_declared resolvedRouterID cr then t = [] /\ r = Ok false
    else exists rep w1 t', serve GetRouters w = (rep, w1) /\ t = Exchange (Rep := cluster_reply) GetRouters rep :: t' /\
      match read_reply (A := list IntegrationRouter) rep with
      | Err _ => t' = [] /\ r = Ok false
      | Ok routers => t' = [] /\ r = Ok (bool_decide (is_Some (integration_due cr id routers)))
      end) cr w.
Proof.
  unfold observeRouterIntegration, readIntegrationState, observe_declared, observe_removed, integration_due.
  wp_step. wp_step. destruct (never_declared _ _); [by wp_step|]. do 4 wp_step.
  cbn [cluster_reply] in *. destruct (read_reply_pre _ r) as [routers|e] eqn:Er.
  2: { wp_step. do 2 (split; [done|]). exists r, w', []. do 2 (split; [done|]).
       destruct (read_reply r) as [x|e'] eqn:E; [|done].
       apply (read_reply_pre_ok "kubernetes/cluster: routers list: ") in E. congruence. }
  apply read_reply_pre_ok in Er. do 3 wp_step. set (st := integration_of _ _ _ _).
  destruct (bool_decide (resolvedRouterID = "")) eqn:Ed; cbn [negb].
  - destruct (bool_decide (st_integratedWith st = "")) eqn:E; cbn [negb]; do 2 wp_step.
    + do 2 wp_step. routers_read Er r w' st.
    + wp_step. routers_read Er r w' st.
  - destruct (bool_decide (st_integratedWith st = resolvedRouterID)) eqn:E; do 2 wp_step.
    + do 3 wp_step. routers_read Er r w' st.
    + do 2 wp_step.
      change (cluster_network resolvedNetworkID (set_integrated false cr)) with (cluster_network resolvedNetworkID cr).
      destruct (bool_decide (integrationWaitMessage st _ _ = "")) eqn:Em; cbn [negb]; [wp_step; routers_read Er r w' st|].
      do 3 wp_step. destruct recorder; routers_read Er r w' st.
Qed.

(** C35. [Observe] reports integration drift exactly when [Update] would patch: on the
    same answer to the routers listing the first says drift if and only if the
    second issues the integration patch that is due, and otherwise it issues
    nothing; so blocked integrations cause no update loop, and pending ones are
    never missed. *)
Theorem integration_observe_update_agree (id : Z) (cr : cluster) (w w1 : World) (rep : reply (list IntegrationRouter))
    (routers : list IntegrationRouter) :
  serve GetRouters w = (rep, w1) -> read_reply rep = Ok routers -> never_declared resolvedRouterID cr = false ->
  let observe := observeRouterIntegration recorder resolvedNetworkID resolvedRouterID id cr w in
  let update := convergeRouterIntegration recorder resolvedNetworkID resolvedRouterID id cr w in
  outcome observe = Ok (bool_decide (is_Some (integration_due cr id routers))) /\ calls observe = [GetRouters] /\
  calls update = GetRouters :: map (integration_patch id) (option_list (integration_due cr id routers)).
Proof.
  intros Hs Hr Hn. cbv zeta. unfold calls.
  destruct (observe_integration_spec id cr w) as (_ & _ & HO).
  destruct (converge_spec id cr w) as (_ & _ & HC). rewrite Hn in HO, HC.
  destruct HO as (rep1 & w2 & t1 & Hs1 & Ht1 & HO). destruct HC as (rep2 & w3 & t2 & Hs2 & Ht2 & HC).
  cbn [cluster_reply] in *. rewrite Hs in Hs1, Hs2. simplify_eq. rewrite Hr in HO, HC. destruct HO as [-> HO].
  rewrite Ht1, Ht2. simpl. by rewrite HC.
Qed.

(** The parts of an [Update] past its guards: the version, the integration, the name
    and description. [ok] says whether the part ended without an error. *)
Definition version_part (cr : cluster) (id : Z) (observed : clusterBody) (w : World) (ok : bool) (t : xt) : Prop :=
  let desired := kp_K8sVersion (ForProvider cr) in
  (t = [] /\ (ok = true -> cb_K8sVersion observed = "" \/ desired = cb_K8sVersion observed)) \/
  (map request t = [UpdateClusterVersion id desired] /\
   cb_K8sVersion observed <> "" /\ version_gt (splitVersion desired) (splitVersion (cb_K8sVersion observed)) /\
   exists out, resolve w DimKubernetesVersion (InEnum desired) = Ok out).

Definition integration_part (cr : cluster) (id : Z) (ok : bool) (t : xt) : Prop :=
  if never_declared resolvedRouterID cr then t = []
  else exists rep t', t = Exchange (Rep := cluster_reply) GetRouters rep :: t' /\
    match read_reply (A := list IntegrationRouter) rep with
    | Err _ => t' = [] /\ ok = false
    | Ok routers => map request t' = map (integration_patch id) (option_list (integration_due cr id routers))
    end.

Definition patch_part (cr : cluster) (id : Z) (observed : clusterBody) (t : xt) : Prop :=
  map request t =
    if bool_decide (name_patch (ForProvider cr) observed = None) &&
       bool_decide (description_patch (ForProvider cr) observed = None) then []
    else [UpdateCluster id (name_patch (ForProvider cr) observed) (description_patch (ForProvider cr) observed)].

Lemma reconcileVersion_spec id observed (cr : cluster) w :
  wp (reconcileVersion recorder resolve id (cb_K8sVersion observed)) (fun r s' w' t =>
    ForProvider s' = ForProvider cr /\ AtProvider s' = AtProvider cr /\ ExternalName s' = ExternalName cr /\
    version_part cr id observed w (is_ok r) t) cr w.
Proof.
  unfold reconcileVersion, version_rejected, version_part. cbv zeta. wp_step. wp_step.
  destruct (bool_decide (cb_K8sVersion observed = "")) eqn:E1; cbn [orb].
  { apply bool_decide_eq_true in E1. wp_step. do 3 (split; [done|]). left. auto. }
  apply bool_decide_eq_false in E1. case_bool_decide as E2.
  { wp_step. do 3 (split; [done|]). left. auto. }
  destruct (_ || _); [do 3 wp_step; destruct recorder; do 3 (split; [done|]); by left|].
  destruct (versionNewer _ _) eqn:E3; cbn [negb];
    [|destruct (versionNewer (cb_K8sVersion observed) _); do 3 wp_step; destruct recorder; do 3 (split; [done|]); by left].
  apply versionNewer_gt in E3. unfold validateVersion. do 3 wp_step. apply wp_ask. wp_step.
  destruct (resolve w _ _) as [out|e] eqn:Er; [|do 3 wp_step; destruct recorder; do 3 (split; [done|]); by left].
  do 2 wp_step. destruct (write_reply _) as [[]|e];
    [do 3 wp_step; destruct recorder|]; do 3 (split; [done|]); right; eauto.
Qed.

Lemma patch_cluster_spec id observed (cr s : cluster) w :
  wp (patch_cluster id (ForProvider cr) observed) (fun r s' w' t => patch_part cr id observed t) s w.
Proof.
  unfold patch_cluster, patch_part.
  destruct (name_patch _ _) as [n|]; [|destruct (description_patch _ _) as [d|]]; wp_step; done.
Qed.

Lemma version_part_any cr id observed w t b : version_part cr id observed w true t -> version_part cr id observed w b t.
Proof. intros [[? H]|H]; [left; auto|by right]. Qed.

Lemma integration_part_any cr id t b : integration_part cr id true t -> integration_part cr id b t.
Proof.
  unfold integration_part. destruct (never_declared _ _); [done|]. intros (rep & t' & Ht & H). exists rep, t'. split; [done|].
  destruct (read_reply _); [done|]. by destruct H.
Qed.

Lemma converge_part id (cr s : cluster) w :
  ForProvider s = ForProvider cr -> AtProvider s = AtProvider cr ->
  wp (convergeRouterIntegration recorder resolvedNetworkID resolvedRouterID id) (fun r s' w' t =>
    integration_part cr id (is_ok r) t) s w.
Proof.
  intros HF HA. eapply wp_mono; [apply converge_spec|]. intros r s' w' t (_ & _ & H). unfold integration_part.
  assert (never_declared resolvedRouterID s = never_declared resolvedRouterID cr) as Hn by (unfold never_declared; by rewrite HA).
  assert (forall routers, integration_due s id routers = integration_due cr id routers) as Hd.
  { intros routers. unfold integration_due, cluster_network. by rewrite HA. }
  rewrite Hn in H. destruct (never_declared _ cr); [by destruct H|].
  destruct H as (rep & w1 & t' & _ & Ht & H). exists rep, t'. split; [done|]. cbn [cluster_reply] in *.
  destruct (read_reply rep); [by rewrite <- Hd|done].
Qed.

(** The parts of [t], in order, each reached only when the ones before succeeded. *)
Definition update_parts (cr : cluster) (id : Z) (observed : clusterBody) (w : World) (r : result error unit) (t : xt) : Prop :=
  exists tv ti tp, t = tv ++ ti ++ tp /\ version_part cr id observed w (is_ok r) tv /\
    (ti = [] \/ integration_part cr id (is_ok r) ti) /\ (tp = [] \/ patch_part cr id observed tp) /\
    (r = Ok tt -> integration_part cr id true ti /\ patch_part cr id observed tp).

Lemma update_body_spec id observed (cr : cluster) w :
  wp (_ ← reconcileVersion recorder resolve id (cb_K8sVersion observed);
      convergeRouterIntegration recorder resolvedNetworkID resolvedRouterID id;;
      patch_cluster id (ForProvider cr) observed) (fun r s' w' t => update_parts cr id observed w r t) cr w.
Proof.
  wp_step. eapply wp_mono; [apply reconcileVersion_spec|]. intros [v|e] s1 w1 tv (HF & HA & _ & HV).
  2: { exists tv, [], []. split; [by rewrite app_nil_r|]. split; [done|]. split; [by left|]. split; [by left|done]. }
  wp_step. eapply wp_mono; [by apply (converge_part id cr)|]. intros [[]|e] s2 w2 ti HI.
  2: { exists tv, ti, []. split; [by rewrite app_nil_r|]. split; [by apply version_part_any|].
       split; [by right|]. split; [by left|done]. }
  eapply wp_mono; [apply patch_cluster_spec|]. intros r s3 w3 tp HP. exists tv, ti, tp. split; [done|].
  split; [by apply version_part_any|]. split; [right; by apply integration_part_any|]. auto.
Qed.

(** [Update] by the decisions of the code. *)
Lemma update_follows_parts (cr : cluster) (w : World) (id : Z) :
  DecodeID (ExternalName cr) = Ok id ->
  exists rep w1 t, serve (GetCluster id) w = (rep, w1) /\
    trace (Update cr w) = Exchange (Rep := cluster_reply) (GetCluster id) rep :: t /\
    match read_reply_pre (A := clusterBody) "kubernetes/cluster: " rep with
    | Err e => outcome (Update cr w) = Err e /\ t = []
    | Ok observed =>
        if cluster_sizing_switched cr || bool_decide (is_Some (immutable_change cr observed))
        then is_ok (outcome (Update cr w)) = false /\ t = []
        else update_parts cr id observed w1 (outcome (Update cr w)) t
    end.
Proof.
  intros Hid.
  change (wp Update (fun r s' w' tr => exists rep w1 t, serve (GetCluster id) w = (rep, w1) /\
    tr = Exchange (Rep := cluster_reply) (GetCluster id) rep :: t /\
    match read_reply_pre (A := clusterBody) "kubernetes/cluster: " rep with
    | Err e => r = Err e /\ t = []
    | Ok observed =>
        if cluster_sizing_switched cr || bool_decide (is_Some (immutable_change cr observed))
        then is_ok r = false /\ t = []
        else update_parts cr id observed w1 r t
    end) cr w).
  unfold Cluster.Update. wp_step. wp_step. rewrite Hid. wp_step. wp_step. cbn [cluster_reply] in *.
  destruct (read_reply_pre _ r) as [observed|e] eqn:Er;
    [|exists r, w', []; do 2 (split; [done|]); cbn [cluster_reply]; by rewrite Er].
  destruct (cluster_sizing_switched cr) eqn:E1.
  { wp_step. exists r, w', []. do 2 (split; [done|]). cbn [cluster_reply]. by rewrite Er. }
  destruct (immutable_change cr observed) as [f|] eqn:E2.
  { wp_step. exists r, w', []. do 2 (split; [done|]). cbn [cluster_reply]. by rewrite Er, E2. }
  eapply wp_mono; [apply update_body_spec|]. intros o s' w2 t Ht. exists r, w', t. do 2 (split; [done|]).
  cbn [cluster_reply]. by rewrite Er, E2.
Qed.

(** *** The same, stated without the code's own decisions *)

(** What stops a pass before any write: the other kind of sizing than the one recorded, or
    a network driver, a zone or a preset read that is not the declared or recorded one. *)
Definition update_barred (cr : cluster) (observed : clusterBody) : Prop :=
  let fp := ForProvider cr in let o := AtProvider cr in
  (is_Some (kp_Resources fp) /\ is_Some (kb_LockedPresetID o)) \/
  (kp_Resources fp = None /\ is_Some (kb_LockedConfiguratorID o)) \/
  (cb_NetworkDriver observed <> "" /\ cb_NetworkDriver observed <> kp_NetworkDriver fp) \/
  (cb_AvailabilityZone observed <> "" /\ cb_AvailabilityZone observed <> default_str (kp_AvailabilityZone fp)) \/
  (exists p, kb_LockedPresetID o = Some p /\ cb_PresetID observed <> 0 /\ cb_PresetID observed <> p).

(** The version is raised, or left alone. *)
Definition version_raised (cr : cluster) (id : Z) (observed : clusterBody) (w : World) (ok : bool) (l : list cluster_request) : Prop :=
  let desired := kp_K8sVersion (ForProvider cr) in
  (l = [] /\ (ok = true -> cb_K8sVersion observed = "" \/ desired = cb_K8sVersion observed)) \/
  (l = [UpdateClusterVersion id desired] /\ cb_K8sVersion observed <> "" /\
   version_gt (splitVersion desired) (splitVersion (cb_K8sVersion observed)) /\
   exists out, resolve w DimKubernetesVersion (InEnum desired) = Ok out).

(** The integration writes a listing justifies: with the declared router, listed but not
    serving the cluster, which attaches the cluster's network with NAT where that network
    is known; with none, where a router serves the cluster and none is declared. *)
Inductive integration_write (cr : cluster) (id : Z) (routers : list IntegrationRouter) : option string -> Prop :=
| integrates r :
    resolvedRouterID <> "" -> r ∈ routers -> ir_Id r = resolvedRouterID -> serves_cluster id r = false ->
    (cluster_network resolvedNetworkID cr <> "" ->
       exists n, n ∈ ir_Networks r /\ rm_Id n = cluster_network resolvedNetworkID cr /\ default_str (rm_NatIp n) <> "") ->
    integration_write cr id routers (Some resolvedRouterID)
| detaches r : resolvedRouterID = "" -> r ∈ routers -> ir_Id r <> "" -> serves_cluster id r = true -> integration_write cr id routers None.

(** No integration was ever declared and nothing is asked; or the routers are listed, and
    the one write that is justified goes out, if any is. *)
Definition integration_converged (cr : cluster) (id : Z) (ok : bool) (t : xt) : Prop :=
  (resolvedRouterID = "" /\ default_str (kb_IntegratedRouterID (AtProvider cr)) = "" /\ t = []) \/
  ((resolvedRouterID <> "" \/ default_str (kb_IntegratedRouterID (AtProvider cr)) <> "") /\
   exists rep t', t = Exchange (Rep := cluster_reply) GetRouters rep :: t' /\
     ((is_ok (read_reply (A := list IntegrationRouter) rep) = false /\ t' = [] /\ ok = false) \/
      exists routers, read_reply (A := list IntegrationRouter) rep = Ok routers /\
        (routers_listed_once id routers ->
           (t' = [] /\ forall x, ~ integration_write cr id routers x) \/
           (exists x, map request t' = [integration_patch id x] /\ integration_write cr id routers x)))).

(** The patch carries the name and the description each exactly when it is declared and
    not as read; there is none when it would carry nothing. *)
Definition fields_patched (cr : cluster) (id : Z) (observed : clusterBody) (l : list cluster_request) : Prop :=
  exists n d, (forall x, n = Some x <-> x = kp_Name (ForProvider cr) /\ cb_Name observed <> x) /\
    (forall x, d = Some x <-> kp_Description (ForProvider cr) = Some x /\ cb_Description observed <> x) /\
    ((n = None /\ d = None /\ l = []) \/ ((is_Some n \/ is_Some d) /\ l = [UpdateCluster id n d])).

Lemma cluster_sizing_switched_iff (cr : cluster) :
  cluster_sizing_switched cr = true <->
  (is_Some (kp_Resources (ForProvider cr)) /\ is_Some (kb_LockedPresetID (AtProvider cr))) \/
  (kp_Resources (ForProvider cr) = None /\ is_Some (kb_LockedConfiguratorID (AtProvider cr))).
Proof.
  unfold cluster_sizing_switched. destruct (kp_Resources _) as [r|]; rewrite bool_decide_eq_true; split.
  - left. by split; [exists r|].
  - by intros [[_ H]|[? _]].
  - by right.
  - by intros [[[? ?] _]|[_ H]].
Qed.

Lemma cluster_immutable_change_iff (cr : cluster) observed :
  is_Some (immutable_change cr observed) <->
  (cb_NetworkDriver observed <> "" /\ cb_NetworkDriver observed <> kp_NetworkDriver (ForProvider cr)) \/
  (cb_AvailabilityZone observed <> "" /\ cb_AvailabilityZone observed <> default_str (kp_AvailabilityZone (ForProvider cr))) \/
  (exists p, kb_LockedPresetID (AtProvider cr) = Some p /\ cb_PresetID observed <> 0 /\ cb_PresetID observed <> p).
Proof.
  unfold immutable_change, DerefString, default_str. cbv zeta. set (az := match kp_AvailabilityZone _ with Some s => s | None => "" end).
  clearbody az. rewrite <- !bool_decide_not, <- !bool_decide_and. case_bool_decide as H1; [split; [intros _; left; naive_solver|by eexists]|].
  case_bool_decide as H2; [split; [intros _; right; left; naive_solver|by eexists]|].
  destruct (kb_LockedPresetID _) as [p|].
  - destruct (Z.eqb_spec (cb_PresetID observed) 0) as [E|E], (Z.eqb_spec p (cb_PresetID observed)) as [E'|E']; cbn [negb andb];
      (split; [|by eexists] || split); first [by intros [] | naive_solver].
  - split; [by intros []|]. naive_solver.
Qed.

Lemma update_barred_iff (cr : cluster) observed :
  cluster_sizing_switched cr || bool_decide (is_Some (immutable_change cr observed)) = true <-> update_barred cr observed.
Proof. rewrite orb_true_iff, bool_decide_eq_true, cluster_sizing_switched_iff, cluster_immutable_change_iff. unfold update_barred. cbv zeta. tauto. Qed.

Lemma integration_due_iff (cr : cluster) id routers x :
  routers_listed_once id routers -> integration_due cr id routers = Some x <-> integration_write cr id routers x.
Proof.
  intros Ho. unfold integration_due. cbv zeta. case_bool_decide as Hd.
  - unfold integration_of. rewrite routers_fold_served. cbn [st_integratedWith].
    destruct (last (List.filter (serves_cluster id) routers)) as [r|] eqn:El.
    + apply last_Some_elem_of, list_elem_of_In, filter_In in El as [Hr Hs]. apply list_elem_of_In in Hr. case_bool_decide as Hn.
      * split; [done|]. intros [r' ? ?|r' _ Hr' Hne Hs']; [done|]. destruct Ho as (_ & Hone & _). by rewrite (Hone r' r) in Hne.
      * split; [intros [= <-]; by apply (detaches _ _ _ r)|by intros []].
    + apply last_None in El. cbn. split; [done|]. intros [r' ? ?|r' _ Hr' Hne Hs']; [done|].
      assert (r' ∈ List.filter (serves_cluster id) routers) as H by (apply list_elem_of_In, filter_In; by rewrite <- list_elem_of_In).
      rewrite El in H. inversion H.
  - case_bool_decide as Hi; [|case_bool_decide as Hw].
    + apply integrated_iff in Hi as (r & Hr & He & Hs); [|done..]. split; [done|]. intros [r' _ Hr' He' Hs' _|]; [|done].
      destruct Ho as (HN & _ & _). rewrite <- He in He'. rewrite (NoDup_fmap_elem ir_Id routers r' r HN Hr' Hr He') in Hs'. congruence.
    + apply integration_wait_iff in Hw as (r & Hr & He & Hn); [|done..]. split.
      * intros [= <-]. apply (integrates _ _ _ r); [done..| |done]. destruct (serves_cluster id r) eqn:E; [|done]. destruct Hi.
        apply integrated_iff; [done..|]. by exists r.
      * intros []; [done|contradiction].
    + split; [done|]. intros [r _ Hr He _ Hn|]; [|done]. destruct Hw. apply integration_wait_iff; [done..|]. by exists r.
Qed.

Lemma integration_part_converged (cr : cluster) id ok t : integration_part cr id ok t -> integration_converged cr id ok t.
Proof.
  unfold integration_part, integration_converged, never_declared.
  destruct (decide (resolvedRouterID = "")) as [H1|H1]; [rewrite (bool_decide_true _ H1)|rewrite (bool_decide_false _ H1)];
    (destruct (decide (default_str (kb_IntegratedRouterID (AtProvider cr)) = "")) as [H2|H2];
       [rewrite (bool_decide_true _ H2)|rewrite (bool_decide_false _ H2)]); cbn [andb]; [by left|..];
    (intros (rep & t' & Ht & H); right; split; [auto|exists rep, t'; split; [exact Ht|]];
     destruct (read_reply _) as [routers|e]; [right; exists routers; split; [done|]; intros Ho|left; by destruct H];
     pose proof (integration_due_iff cr id routers) as Hi; destruct (integration_due cr id routers) as [x|];
     [right; exists x; split; [exact H|by apply Hi]|left; split; [by apply map_eq_nil in H|intros x Hx; by apply Hi in Hx]]).
Qed.

Lemma patch_part_fields (cr : cluster) id observed t : patch_part cr id observed t -> fields_patched cr id observed (map request t).
Proof.
  unfold patch_part. intros ->. exists (name_patch (ForProvider cr) observed), (description_patch (ForProvider cr) observed).
  unfold name_patch, description_patch. split; [|split].
  - intros x. case_bool_decide; naive_solver.
  - intros x. destruct (kp_Description _) as [d|]; [case_bool_decide|]; naive_solver.
  - destruct (kp_Description _) as [d|]; repeat (case_bool_decide; try done); cbn [andb]; rewrite ?is_Some_alt; naive_solver.
Qed.

(** C34. Every write of an [Update] is justified by what the same pass read. Past a failed
    read, and where the kind of sizing is not the recorded one or the network driver, the
    zone or the preset read is not the declared or recorded one, nothing is written. Else
    the version is only ever raised, to the declared one, after the catalog accepted it;
    the integration write is the one the routers just listed justify; the last patch
    carries the name and the description each exactly when declared and not as read. A
    part is reached only when the ones before it succeeded, and an [Update] that succeeds
    has left none of them out. An edit of masterNodesCount or presetName, which the
    documentation says is rejected, is not among what is refused
    ([cluster_edit_unnoticed]). *)
Theorem cluster_update_justified (cr : cluster) (w : World) (id : Z) :
  DecodeID (ExternalName cr) = Ok id ->
  let r := outcome (Update cr w) in
  exists rep w1 t, serve (GetCluster id) w = (rep, w1) /\
    trace (Update cr w) = Exchange (Rep := cluster_reply) (GetCluster id) rep :: t /\
    match read_reply_pre (A := clusterBody) "kubernetes/cluster: " rep with
    | Err e => r = Err e /\ t = []
    | Ok observed =>
        (update_barred cr observed -> is_ok r = false /\ t = []) /\
        (~ update_barred cr observed ->
           exists tv ti tp, t = tv ++ ti ++ tp /\ version_raised cr id observed w1 (is_ok r) (map request tv) /\
             (ti = [] \/ integration_converged cr id (is_ok r) ti) /\ (tp = [] \/ fields_patched cr id observed (map request tp)) /\
             (is_ok r = true -> integration_converged cr id true ti /\ fields_patched cr id observed (map request tp)))
    end.
Proof.
  intros Hid r. destruct (update_follows_parts cr w id Hid) as (rep & w1 & t & Hs & Ht & H). exists rep, w1, t. split; [exact Hs|].
  split; [exact Ht|]. destruct (read_reply_pre (A := clusterBody) "kubernetes/cluster: " rep) as [observed|e]; [|exact H].
  pose proof (update_barred_iff cr observed) as Hb. destruct (_ || _); [split; [done|intros Hn; destruct Hn; by apply Hb]|].
  split; [by intros Hbar; apply Hb in Hbar|]. intros _. destruct H as (tv & ti & tp & -> & HV & HI & HP & HA). fold r in HV, HI, HA.
  exists tv, ti, tp. split; [done|]. split.
  - destruct HV as [[-> HV]|HV]; [by left|by right].
  - split; [destruct HI as [?|HI]; [by left|right; by apply integration_part_converged]|].
    split; [destruct HP as [?|HP]; [by left|right; by apply patch_part_fields]|].
    intros Hok. destruct r as [[]|]; [|done]. destruct (HA eq_refl) as [H1 H2].
    split; [by apply integration_part_converged|by apply patch_part_fields].
Qed.

(** What the guards look at: neither the declared preset nor the number of masters. *)
Lemma cluster_edit_unnoticed (cr cr' : cluster) (observed : clusterBody) :
  AtProvider cr = AtProvider cr' -> kp_NetworkDriver (ForProvider cr) = kp_NetworkDriver (ForProvider cr') ->
  kp_AvailabilityZone (ForProvider cr) = kp_AvailabilityZone (ForProvider cr') ->
  immutable_change cr observed = immutable_change cr' observed.
Proof. intros H1 H2 H3. unfold immutable_change. by rewrite H1, H2, H3. Qed.

Ltac fields_differ :=
  match goal with |- context [kp_Description ?fp] => destruct (kp_Description fp) end;
  repeat (case_bool_decide; cbn [negb andb]); naive_solver.

(** Apart from the integration and the sizing lock, [Observe] calls a cluster up to
    date exactly when the name and description patch is empty and the version is
    the declared one or not reported. *)
Theorem cluster_up_to_date_iff (cr : cluster) (c : clusterBody) :
  (is_Some (kp_PresetName (ForProvider cr)) <-> kp_Resources (ForProvider cr) = None) ->
  isClusterUpToDate (ForProvider cr) (AtProvider cr) c = true <->
    cluster_sizing_switched cr = false /\ name_patch (ForProvider cr) c = None /\
    description_patch (ForProvider cr) c = None /\
    (cb_K8sVersion c = "" \/ kp_K8sVersion (ForProvider cr) = cb_K8sVersion c).
Proof.
  intros Hone.
  unfold isClusterUpToDate, cluster_sizing_switched, name_patch, description_patch.
  destruct (kp_Resources (ForProvider cr)) as [z|].
  - rewrite (bool_decide_false (is_Some (kp_PresetName _))), (bool_decide_true (is_Some (Some z))) by naive_solver.
    cbn [andb]. destruct (bool_decide (is_Some (kb_LockedPresetID _))); [naive_solver|].
    fields_differ.
  - rewrite (bool_decide_true (is_Some (kp_PresetName _))), (bool_decide_false (is_Some None)) by
      (try tauto; by intros [? ?]).
    cbn [andb]. destruct (bool_decide (is_Some (kb_LockedConfiguratorID _))); [naive_solver|].
    fields_differ.
Qed.

(** A cluster declared by location alone, placed where that location says, can never
    be updated: the zone guard compares the observed zone with the unset
    [availabilityZone] and rejects every [Update] as an immutable change. *)
Theorem location_only_update_rejected (cr : cluster) (w w1 : World) (id : Z) (rep : reply clusterBody)
    (c : clusterBody) (location : string) :
  DecodeID (ExternalName cr) = Ok id -> serve (GetCluster id) w = (rep, w1) -> read_reply rep = Ok c ->
  kp_AvailabilityZone (ForProvider cr) = None ->
  ResolvePlacement (kp_Location (ForProvider cr)) None = Ok (location, cb_AvailabilityZone c) ->
  cb_AvailabilityZone c <> "" -> cluster_sizing_switched cr = false ->
  outcome (Update cr w) = Err (Sentinel ErrImmutableFieldChange) /\ calls (Update cr w) = [GetCluster id].
Proof.
  intros Hid Hs Hr Haz Hp Hz Hsz.
  change (wp Update (fun o s' w' t => o = Err (Sentinel ErrImmutableFieldChange) /\ map request t = [GetCluster id]) cr w).
  unfold Cluster.Update. wp_step. wp_step. rewrite Hid. wp_step. wp_step. cbn [cluster_reply] in *.
  rewrite Hs in H. simplify_eq. apply (read_reply_pre_ok "kubernetes/cluster: ") in Hr. rewrite Hr, Hsz.
  assert (exists f, immutable_change cr c = Some f) as [f ->].
  { unfold immutable_change. rewrite Haz. cbv zeta. cbn [DerefString default_str].
    rewrite (bool_decide_false (cb_AvailabilityZone c = "")), (bool_decide_false ("" = _)) by congruence. cbn [negb andb].
    case_match; by eexists. }
  by wp_step.
Qed.

(** *** Observe *)

(** The requests one [Observe] may make. *)
Definition observe_request (id : Z) (kubeconfig : bool) (q : cluster_request) : Prop :=
  q = GetCluster id \/ q = GetRouters \/ (kubeconfig = true /\ q = GetClusterKubeconfig id).

Definition observe_requests (id : Z) (kubeconfig : bool) (t : xt) : Prop :=
  Forall (fun x => observe_request id kubeconfig (request x)) t.

Lemma observe_requests_nil id k : observe_requests id k [].
Proof. constructor. Qed.

Lemma observe_requests_app id k t t' :
  observe_requests id k t -> observe_requests id k t' -> observe_requests id k (t ++ t').
Proof. apply Forall_app_intro. Qed.

Ltac observe_calls id k :=
  repeat always_step (observe_requests_nil id k) (observe_requests_app id k);
  (apply Forall_cons_2; [unfold observe_request; simpl; auto|apply Forall_nil_2]).

Lemma observe_integration_calls id k :
  always (observe_requests id k) (observeRouterIntegration recorder resolvedNetworkID resolvedRouterID id).
Proof.
  unfold observeRouterIntegration, readIntegrationState, observe_declared, observe_removed, note_condition.
  observe_calls id k.
Qed.

Lemma kubeconfig_calls id : always (observe_requests id true) (kubeconfigConnectionDetails id).
Proof. unfold kubeconfigConnectionDetails. observe_calls id true. Qed.

(** Whether Ready is True in the conditions. *)
Definition ready_now (cr : cluster) : bool := bool_decide (cond_Status (GetCondition TypeReady (Conditions cr)) = CTrue).

Lemma observe_placed_calls id c (cr : cluster) w :
  wp (observe_placed recorder resolvedNetworkID resolvedRouterID id c) (fun r s' w' t =>
    observe_requests id (negb (ready_now cr)) t) cr w.
Proof.
  unfold observe_placed, setClusterReadyCondition. do 6 wp_step.
  assert (forall k b, (b = true -> k = true) -> always (observe_requests id k)
    (details ← (if b then kubeconfigConnectionDetails id else mret None);
     drift ← observeRouterIntegration recorder resolvedNetworkID resolvedRouterID id;
     s ← get;
     mret ({| ResourceExists := true;
              ResourceUpToDate := isClusterUpToDate (ForProvider s) (AtProvider s) c && negb drift |}, details))) as HA.
  { intros k b Hb. apply always_bind; [apply observe_requests_app|destruct b; [rewrite Hb by done; apply kubeconfig_calls|]|].
    - apply always_ret, observe_requests_nil.
    - intros d. apply always_bind; [apply observe_requests_app|apply observe_integration_calls|].
      intros x. observe_calls id k. }
  apply (HA _ _). intros [_ ?]%andb_true_iff. done.
Qed.

Lemma Observe_calls (cr : cluster) w id :
  DecodeID (ExternalName cr) = Ok id -> observe_requests id (negb (ready_now cr)) (trace (Observe cr w)).
Proof.
  intros Hid. change (wp Observe (fun r s' w' t => observe_requests id (negb (ready_now cr)) t) cr w).
  assert (forall r, observe_requests id (negb (ready_now cr)) [Exchange (Rep := cluster_reply) (GetCluster id) r]) as H1.
  { intros r. repeat constructor. }
  unfold Cluster.Observe. wp_step. wp_step. rewrite Hid. do 3 wp_step. cbn [cluster_reply] in *.
  destruct (read_reply_pre _ r) as [c|e]; [|destruct (error_is e ErrNotFound); wp_step; apply H1].
  unfold observe_found. do 4 wp_step.
  destruct (ResolvePlacement _ _) as [[loc zone]|e]; [|do 3 wp_step; apply H1].
  destruct (_ && _); [do 3 wp_step; apply H1|].
  eapply wp_mono; [apply observe_placed_calls|]. intros r' s' w2 t Ht. simpl. constructor; [by left|exact Ht].
Qed.

(** [Observe] only reads, and asks for the kubeconfig at most while Ready is not yet
    True; it reports the cluster absent only for an external name that is no id or
    on the API's own not-found for that id. *)
Theorem cluster_observe_reads_only (cr : cluster) (w : World) (id : Z) :
  DecodeID (ExternalName cr) = Ok id ->
  Forall (observe_request id (negb (ready_now cr))) (calls (Observe cr w)) /\
  (forall d, outcome (Observe cr w) = Ok (not_exists, d) ->
     exists resp p, trace (Observe cr w) = [Exchange (Rep := cluster_reply) (GetCluster id) (Reply resp p)] /\
       StatusCode resp = 404 /\ canonical_envelope resp).
Proof.
  intros Hid. split.
  - pose proof (Observe_calls cr w id Hid) as H. unfold calls. by apply Forall_map.
  - change (wp Observe (fun o s' w' t => forall d, o = Ok (not_exists, d) ->
      exists resp p, t = [Exchange (Rep := cluster_reply) (GetCluster id) (Reply resp p)] /\
        StatusCode resp = 404 /\ canonical_envelope resp) cr w).
    unfold Cluster.Observe. wp_step. wp_step. rewrite Hid. do 3 wp_step. cbn [cluster_reply] in *.
    destruct (read_reply_pre _ r) as [c|e] eqn:Er.
    + unfold observe_found. do 4 wp_step.
      destruct (ResolvePlacement _ _) as [[loc zone]|e]; [|by do 3 wp_step].
      destruct (_ && _); [by do 3 wp_step|].
      unfold observe_placed. do 3 wp_step. apply (wp_mono _ (fun _ _ _ _ => True)); [done|]. intros [b|e] s1 w1 t1 _; [|done].
      wp_step. apply (wp_mono _ (fun _ _ _ _ => True)); [done|]. intros [d|e] s2 w2 t2 _; [|done].
      wp_step. apply (wp_mono _ (fun _ _ _ _ => True)); [done|]. intros [x|e] s3 w3 t3 _; [|done]. by do 3 wp_step.
    + destruct (error_is e ErrNotFound) eqn:En; [|by wp_step]. wp_step. intros d _.
      destruct (read_reply_pre_not_found _ _ _ Er En) as (resp & p & -> & Hs & Hc). by exists resp, p.
Qed.

(** A kubeconfig that could not be read when the cluster became active is never asked
    for again: the pass that fails to read it has already set Ready to True, and no
    later [Observe] of a Ready cluster asks. *)
Theorem kubeconfig_never_retried {L : CrossplaneLaws R} (cr : cluster) (w w1 w2 : World) (id : Z)
    (rep : reply clusterBody) (c : clusterBody) (repk : reply string) (e : error) (location : string) :
  DecodeID (ExternalName cr) = Ok id -> serve (GetCluster id) w = (rep, w1) -> read_reply rep = Ok c ->
  ResolvePlacement (kp_Location (ForProvider cr)) (kp_AvailabilityZone (ForProvider cr)) = Ok (location, cb_AvailabilityZone c) ->
  (cluster_ready_condition (cb_Status c)).2 = true -> ready_now cr = false -> never_declared resolvedRouterID cr = true ->
  serve (GetClusterKubeconfig id) w1 = (repk, w2) -> read_reply_raw "kubernetes/cluster: read kubeconfig: " repk = Err e ->
  let s' := final (Observe cr w) in
  ready_now s' = true /\ (forall o, outcome (Observe cr w) = Ok o -> o.2 = None) /\
  forall w', GetClusterKubeconfig id ∉ calls (Observe s' w').
Proof.
  intros Hid Hs Hr Hp Ha Hn Hnd Hk Hke. cbv zeta.
  assert (wp Observe (fun o s' w' t => ExternalName s' = ExternalName cr /\ ready_now s' = true /\
    forall d, o = Ok d -> d.2 = None) cr w) as (HE & HR & HO).
  { assert ((cluster_ready_condition (cb_Status c)).1 = Available) as Hav.
    { revert Ha. unfold cluster_ready_condition. by repeat case_match. }
    unfold Cluster.Observe. wp_step. wp_step. rewrite Hid. do 3 wp_step. cbn [cluster_reply] in *.
    rewrite Hs in H. simplify_eq. apply (read_reply_pre_ok "kubernetes/cluster: ") in Hr. rewrite Hr.
    unfold observe_found. do 4 wp_step. cbn [ForProvider populateClusterStatus set_at_provider].
    rewrite Hp, (bool_decide_true (cb_AvailabilityZone c = cb_AvailabilityZone c)), andb_false_r by done.
    unfold observe_placed, setClusterReadyCondition, kubeconfigConnectionDetails. do 6 wp_step.
    change (cond_Status (GetCondition TypeReady (Conditions (populateClusterStatus c cr)))) with
      (cond_Status (GetCondition TypeReady (Conditions cr))).
    fold (ready_now cr). rewrite Ha, Hn, Hav. cbn [negb andb]. do 4 wp_step. cbn [cluster_reply] in *.
    match goal with H : serve _ _ = (_, _) |- _ => rewrite Hk in H; simplify_eq end. rewrite Hke.
    set (s1 := set_conditions _ _).
    assert (ExternalName s1 = ExternalName cr /\ ready_now s1 = true /\ never_declared resolvedRouterID s1 = true) as (H1 & H2 & H3).
    { unfold s1, record_condition_change, ready_now. cbn [Conditions set_conditions ExternalName]. split; [done|]. split; [|done].
      apply bool_decide_eq_true. rewrite <- available_type, get_set_eq. apply available_status. }
    unfold observeRouterIntegration. destruct (error_is e ErrNotFound); [|by wp_step].
    do 4 wp_step. rewrite H3. do 4 wp_step. split; [done|]. split; [done|]. by intros d [= <-]. }
  split; [done|]. split; [done|]. intros w' Hin.
  assert (DecodeID (ExternalName (final (Observe cr w))) = Ok id) as Hid' by (by rewrite HE).
  pose proof (Observe_calls _ w' id Hid') as HC. rewrite HR in HC. unfold observe_requests in HC.
  apply list_elem_of_fmap in Hin as (x & Hx & Hin). rewrite Forall_forall in HC. apply HC in Hin.
  rewrite <- Hx in Hin. by destruct Hin as [?|[?|[? ?]]].
Qed.

(** A cluster the upstream placed in another zone than the declared one is parked:
    [Observe] makes no further call, reports it existing and up to date so that
    nothing is updated or recreated, and leaves Ready False. *)
Theorem cluster_misplacement_parks {L : CrossplaneLaws R} (cr : cluster) (w w1 : World) (id : Z)
    (rep : reply clusterBody) (c : clusterBody) (location zone : string) :
  DecodeID (ExternalName cr) = Ok id -> serve (GetCluster id) w = (rep, w1) -> read_reply rep = Ok c ->
  ResolvePlacement (kp_Location (ForProvider cr)) (kp_AvailabilityZone (ForProvider cr)) = Ok (location, zone) ->
  cb_AvailabilityZone c <> "" -> cb_AvailabilityZone c <> zone ->
  outcome (Observe cr w) = Ok parked /\ calls (Observe cr w) = [GetCluster id] /\
  GetCondition TypeReady (Conditions (final (Observe cr w))) =
    ReadyFalse ReasonUpstreamFailed (misplaced_msg (cb_AvailabilityZone c) zone).
Proof.
  intros Hid Hs Hr Hp Hz Hne.
  change (wp Observe (fun o s' w' t => o = Ok parked /\ map request t = [GetCluster id] /\
    GetCondition TypeReady (Conditions s') = ReadyFalse ReasonUpstreamFailed (misplaced_msg (cb_AvailabilityZone c) zone)) cr w).
  unfold Cluster.Observe. wp_step. wp_step. rewrite Hid. do 3 wp_step. cbn [cluster_reply] in *.
  rewrite Hs in H. simplify_eq. apply (read_reply_pre_ok "kubernetes/cluster: ") in Hr. rewrite Hr.
  unfold observe_found. do 4 wp_step. cbn [ForProvider populateClusterStatus set_at_provider].
  rewrite Hp, !bool_decide_false by done. cbn [negb andb]. do 3 wp_step. split; [done|]. split; [done|].
  unfold record_condition_change. cbn [Conditions set_conditions].
  exact (get_set_eq (ReadyFalse ReasonUpstreamFailed _) _).
Qed.

(** *** Create *)

(** A run that posts one cluster. *)
Definition cluster_posted (cr : cluster) (w : World) (r : result error unit) (s' : cluster) (t : xt) : Prop :=
  exists p k location zone out rep,
    ResolvePlacement (kp_Location (ForProvider cr)) (kp_AvailabilityZone (ForProvider cr)) = Ok (location, zone) /\
    resolve w DimKubernetesVersion (InEnum (kp_K8sVersion (ForProvider cr))) = Ok out /\
    t = [Exchange (Rep := cluster_reply)
           (CreateCluster (buildCreateClusterBody (ForProvider cr) p k resolvedNetworkID resolvedProjectID zone)) rep] /\
    match read_reply (A := clusterBody) rep with
    | Ok c => r = Ok tt /\ ExternalName s' = EncodeID (cb_ID c)
    | Err _ => is_ok r = false /\ ExternalName s' = ExternalName cr
    end.

(** One that posts nothing: no identity is taken and an error is returned. *)
Definition cluster_refused (cr : cluster) (r : result error unit) (s' : cluster) (t : xt) : Prop :=
  t = [] /\ is_ok r = false /\ ExternalName s' = ExternalName cr.

Lemma resolve_cluster_sizing_spec fp location zone (cr : cluster) w :
  wp (resolve_cluster_sizing resolve fp location zone) (fun r s' w' t => s' = cr /\ w' = w /\ t = []) cr w.
Proof.
  unfold resolve_cluster_sizing, resolveMasterPreset. destruct (kp_Resources fp).
  - do 2 wp_step. apply wp_resolveK8sConfigurator. intros [?|?]; by wp_step.
  - destruct (kp_PresetName fp); [|by wp_step]. do 2 wp_step. apply wp_resolve_preset_in. intros [?|?]; by wp_step.
Qed.

Lemma create_cluster_spec (cr : cluster) w :
  wp (create_cluster recorder resolve resolvedNetworkID resolvedProjectID) (fun r s' w' t =>
    cluster_refused cr r s' t \/ cluster_posted cr w r s' t) cr w.
Proof.
  unfold create_cluster, validateVersion, cluster_refused. do 4 wp_step. apply wp_ask. wp_step.
  destruct (resolve w _ _) as [out|e] eqn:Ev; [|by left].
  destruct (ResolvePlacement _ _) as [[location zone]|e] eqn:Ep; [|wp_step; by left].
  wp_step. eapply wp_mono; [apply resolve_cluster_sizing_spec|]. intros [[[p k]|e]|e] s1 w1 t (-> & -> & ->); [|do 3 wp_step|by left].
  - do 2 wp_step. cbn [cluster_reply] in *. destruct (read_reply_pre _ r) as [c|e] eqn:Er.
    + apply read_reply_pre_ok in Er. do 7 wp_step. right. exists p, k, location, zone, out, r.
      do 3 (split; [done|]). cbn [cluster_reply]. by rewrite Er.
    + right. exists p, k, location, zone, out, r. do 3 (split; [done|]). cbn [cluster_reply].
      destruct (read_reply r) as [c|e'] eqn:Er'; [|done].
      apply (read_reply_pre_ok "kubernetes/cluster: ") in Er'. congruence.
  - left. by destruct recorder.
Qed.

(** The lookup of the clusters a lost create may have left. *)
Definition cluster_adopted (cr : cluster) (w : World) (r : result error unit) (s' : cluster) (t : xt) : Prop :=
  cluster_refused cr r s' t \/
  exists location zone rep w1 t',
    ResolvePlacement (kp_Location (ForProvider cr)) (kp_AvailabilityZone (ForProvider cr)) = Ok (location, zone) /\
    serve GetClusters w = (rep, w1) /\ t = Exchange (Rep := cluster_reply) GetClusters rep :: t' /\
    match read_reply (A := list clusterBody) rep with
    | Err _ => cluster_refused cr r s' t'
    | Ok cs =>
        match List.filter (cluster_matches (kp_Name (ForProvider cr)) zone resolvedProjectID) cs with
        | [] => cluster_refused cr r s' t' \/ cluster_posted cr w1 r s' t'
        | [m] => t' = [] /\ r = Ok tt /\ ExternalName s' = EncodeID (cb_ID m)
        | _ => cluster_refused cr r s' t'
        end
    end.

(** A create never mints a second cluster for a lost one: when an earlier create
    ended ambiguously it first lists the clusters, adopts the one that carries the
    declared name, zone and project, refuses to choose among several, and posts only
    when there is none; it posts at most once, to the zone the placement gives, with
    a version the catalog accepts. *)
Theorem cluster_create_adopts (cr : cluster) (w : World) :
  let r := Create cr w in
  if Cluster.previous_create_ambiguous createIncomplete createFailed then
    cluster_adopted cr w (outcome r) (final r) (trace r)
  else cluster_refused cr (outcome r) (final r) (trace r) \/ cluster_posted cr w (outcome r) (final r) (trace r).
Proof.
  cbv zeta.
  change (wp Create (fun r s' w' t => if Cluster.previous_create_ambiguous createIncomplete createFailed
    then cluster_adopted cr w r s' t else cluster_refused cr r s' t \/ cluster_posted cr w r s' t) cr w).
  unfold Cluster.Create, findClustersByName. do 2 wp_step.
  destruct (Cluster.previous_create_ambiguous _ _); [|apply create_cluster_spec].
  destruct (ResolvePlacement _ _) as [[location zone]|e] eqn:Ep; [|wp_step; by left].
  do 3 wp_step. cbn [cluster_reply] in *. unfold cluster_adopted.
  destruct (read_reply_pre _ r) as [cs|e] eqn:Er.
  2: { right. exists location, zone, r, w', []. do 3 (split; [done|]). cbn [cluster_reply].
       destruct (read_reply r) as [cs|e'] eqn:Er'; [|done].
       apply (read_reply_pre_ok "kubernetes/cluster: list clusters: ") in Er'. congruence. }
  apply read_reply_pre_ok in Er. wp_step.
  destruct (List.filter _ cs) as [|m [|m' ms]] eqn:Em.
  - eapply wp_mono; [apply create_cluster_spec|]. intros o s' w2 t Ht. right.
    exists location, zone, r, w', t. do 3 (split; [done|]). cbn [cluster_reply]. by rewrite Er, Em.
  - wp_step. right. exists location, zone, r, w', []. do 3 (split; [done|]). cbn [cluster_reply]. by rewrite Er, Em.
  - wp_step. right. exists location, zone, r, w', []. do 3 (split; [done|]). cbn [cluster_reply]. by rewrite Er, Em.
Qed.
End ClusterFacts.

(** ** A concrete service, for the witnesses *)

(** One cluster, the account's routers, and the kubeconfig (empty: none yet). *)
Record sim_world := { sw_cluster : clusterBody; sw_routers : list IntegrationRouter; sw_kubeconfig : string }.

Definition not_found_reply {A : Type} : reply A :=
  Reply {| StatusCode := 404; Body := BodyBytes "{}" (Some (JObj [("error_code", JStr "not_found")])) |}
        (DecodeFailed "EOF").

Definition sim_serve (q : cluster_request) (w : sim_world) : reply (cluster_reply q) * sim_world :=
  match q with
  | GetCluster _ => (ok_reply (sw_cluster w), w)
  | CreateCluster _ => (ok_reply (sw_cluster w), w)
  | GetClusters => (ok_reply [sw_cluster w], w)
  | GetClusterKubeconfig _ =>
      (if bool_decide (sw_kubeconfig w = "") then not_found_reply else ok_reply (sw_kubeconfig w), w)
  | GetRouters => (ok_reply (sw_routers w), w)
  | _ => (ok_reply tt, w)
  end.

Definition SimCluster : Upstream cluster_request cluster_reply := {| World := sim_world; serve := sim_serve |}.

#[local] Existing Instance MapRuntime.

Definition sample_cluster (zone : string) : clusterBody :=
  {| cb_ID := 5; cb_Name := "prod"; cb_Status := "active"; cb_Description := ""; cb_K8sVersion := "v1.31.13+k0s.0";
     cb_NetworkDriver := "cilium"; cb_PresetID := 403; cb_ConfiguratorID := 0; cb_CPU := 2; cb_RAM := 4096;
     cb_Disk := 40960; cb_AvailabilityZone := zone; cb_ProjectID := 1; cb_NetworkID := "net-1"; cb_NetworkCidr := None |}.

Definition no_deps : ClusterDeps :=
  {| cd_NetworkID := None; cd_NetworkRef := None; cd_NetworkSelector := false; cd_ProjectID := None;
     cd_ProjectRef := None; cd_ProjectSelector := false; cd_RouterID := None; cd_RouterRef := None |}.

Definition cluster_spec (name : string) (az : option string) : KubernetesClusterParameters :=
  {| kp_Name := name; kp_K8sVersion := "v1.31.14+k0s.0"; kp_NetworkDriver := "cilium"; kp_ClusterNetworkCIDR := None;
     kp_Location := "ru-3"; kp_AvailabilityZone := az; kp_PresetName := Some "k8s-master-2-4"; kp_Resources := None;
     kp_Description := None; kp_MasterNodesCount := None; kp_Deps := no_deps |}.

Definition cluster_observation (router : option string) : KubernetesClusterObservation :=
  {| kb_UpstreamID := Some "5"; kb_State := None; kb_K8sVersion := None; kb_LockedPresetID := Some 403;
     kb_LockedConfiguratorID := None; kb_ResolvedNetworkID := Some "net-1"; kb_ClusterNetworkCIDR := None;
     kb_RouterIntegrated := None; kb_IntegratedRouterID := router; kb_AutoCreatedNetworkID := None;
     kb_ResolvedProjectID := None; kb_CPU := None; kb_RAM := None; kb_Disk := None; kb_Sizing := None |}.

Definition cluster_cr (spec : KubernetesClusterParameters) (o : KubernetesClusterObservation)
  : managed KubernetesClusterParameters KubernetesClusterObservation :=
  {| ExternalName := "5"; ForProvider := spec; AtProvider := o; Conditions := no_conds; Events := [] |}.

Definition router (id : string) (nat : option string) (clusters : list Z) : IntegrationRouter :=
  {| ir_Id := id; ir_ParentServices := map (fun c => {| is_Id := c; is_Type := "k8s" |}) clusters;
     ir_Networks := [{| rm_Id := "net-1"; rm_NatIp := nat |}] |}.

Definition sample_routers : list IntegrationRouter := [router "r-a" None [5]; router "r-b" (Some "203.0.113.7") []].

Definition sim_at (zone : string) (kubeconfig : string) : @World _ _ SimCluster :=
  {| sw_cluster := sample_cluster zone; sw_routers := sample_routers; sw_kubeconfig := kubeconfig |}.

Lemma integration_state_spec_witness :
  let st := integration_of 5 "r-b" "net-1" sample_routers in
  (st_integratedWith st = "r-b" <->
     exists r, r ∈ sample_routers /\ ir_Id r = "r-b" /\ serves_cluster 5 r = true) /\
  (integrationWaitMessage st "r-b" "net-1" = "" <->
     exists r, r ∈ sample_routers /\ ir_Id r = "r-b" /\
       ("net-1" <> "" -> exists n, n ∈ ir_Networks r /\ rm_Id n = "net-1" /\ default_str (rm_NatIp n) <> "")).
Proof.
  apply (integration_state_spec 5 "r-b" "net-1" sample_routers); [discriminate|]. split; [|split].
  - vm_compute. repeat constructor; set_solver.
  - intros r r' Hr Hr'. unfold sample_routers in *.
    apply elem_of_cons in Hr as [->|Hr]; apply elem_of_cons in Hr' as [->|Hr']; [done|..];
      try apply list_elem_of_singleton in Hr as ->; try apply list_elem_of_singleton in Hr' as ->; done.
  - repeat constructor; simpl; set_solver.
Defined.

Lemma integration_observe_update_agree_witness :
  let cr := cluster_cr (cluster_spec "prod" (Some "msk-1")) (cluster_observation None) in
  let w := sim_at "msk-1" "" in
  let observe := observeRouterIntegration (U := SimCluster) true "" "r-b" 5 cr w in
  let update := convergeRouterIntegration (U := SimCluster) true "" "r-b" 5 cr w in
  outcome observe = Ok (bool_decide (is_Some (integration_due "" "r-b" cr 5 sample_routers))) /\
  calls observe = [GetRouters] /\
  calls update = GetRouters :: map (integration_patch 5) (option_list (integration_due "" "r-b" cr 5 sample_routers)).
Proof.
  apply (integration_observe_update_agree (U := SimCluster) true "" "r-b" 5
    (cluster_cr (cluster_spec "prod" (Some "msk-1")) (cluster_observation None)) (sim_at "msk-1" "") (sim_at "msk-1" "")
    (ok_reply sample_routers) sample_routers); reflexivity.
Defined.

(** The move from one router to the other is due there. *)
Example move_is_due :
  integration_due "" "r-b" (cluster_cr (cluster_spec "prod" (Some "msk-1")) (cluster_observation None)) 5 sample_routers =
  Some (Some "r-b").
Proof. vm_compute. reflexivity. Qed.

Lemma cluster_up_to_date_iff_witness :
  isClusterUpToDate (cluster_spec "prod" None) (cluster_observation None) (sample_cluster "msk-1") = true <->
    cluster_sizing_switched (cluster_cr (cluster_spec "prod" None) (cluster_observation None)) = false /\
    name_patch (cluster_spec "prod" None) (sample_cluster "msk-1") = None /\
    description_patch (cluster_spec "prod" None) (sample_cluster "msk-1") = None /\
    (cb_K8sVersion (sample_cluster "msk-1") = "" \/ kp_K8sVersion (cluster_spec "prod" None) = cb_K8sVersion (sample_cluster "msk-1")).
Proof.
  apply (cluster_up_to_date_iff (cluster_cr (cluster_spec "prod" None) (cluster_observation None)) (sample_cluster "msk-1")).
  split; [reflexivity|]. intros _. eexists. reflexivity.
Defined.

Lemma location_only_update_rejected_witness :
  let cr := cluster_cr (cluster_spec "renamed" None) (cluster_observation None) in
  outcome (Update (U := SimCluster) true (fun _ _ _ => Ok (OutEnum true)) "" "" cr (sim_at "msk-1" "")) =
    Err (Sentinel ErrImmutableFieldChange) /\
  calls (Update (U := SimCluster) true (fun _ _ _ => Ok (OutEnum true)) "" "" cr (sim_at "msk-1" "")) = [GetCluster 5].
Proof.
  apply (location_only_update_rejected (U := SimCluster) true (fun _ _ _ => Ok (OutEnum true)) "" ""
    (cluster_cr (cluster_spec "renamed" None) (cluster_observation None)) (sim_at "msk-1" "") (sim_at "msk-1" "") 5
    (ok_reply (sample_cluster "msk-1")) (sample_cluster "msk-1") "ru-3"); try reflexivity; discriminate.
Defined.

Lemma cluster_misplacement_parks_witness :
  let cr := cluster_cr (cluster_spec "prod" (Some "msk-1")) (cluster_observation None) in
  outcome (Observe (U := SimCluster) true "" "" cr (sim_at "ams-1" "")) = Ok parked /\
  calls (Observe (U := SimCluster) true "" "" cr (sim_at "ams-1" "")) = [GetCluster 5] /\
  GetCondition TypeReady (Conditions (final (Observe (U := SimCluster) true "" "" cr (sim_at "ams-1" "")))) =
    ReadyFalse ReasonUpstreamFailed (misplaced_msg "ams-1" "msk-1").
Proof.
  apply (cluster_misplacement_parks (L := MapRuntime_laws) (U := SimCluster) true "" ""
    (cluster_cr (cluster_spec "prod" (Some "msk-1")) (cluster_observation None)) (sim_at "ams-1" "") (sim_at "ams-1" "") 5
    (ok_reply (sample_cluster "ams-1")) (sample_cluster "ams-1") "ru-3" "msk-1"); try reflexivity; discriminate.
Defined.

Lemma cluster_observe_reads_only_witness :
  let cr := cluster_cr (cluster_spec "prod" (Some "msk-1")) (cluster_observation None) in
  let w := sim_at "msk-1" "apiVersion: v1" in
  Forall (observe_request 5 (negb (ready_now cr))) (calls (Observe (U := SimCluster) true "" "" cr w)) /\
  (forall d, outcome (Observe (U := SimCluster) true "" "" cr w) = Ok (not_exists, d) ->
     exists resp p, trace (Observe (U := SimCluster) true "" "" cr w) =
         [Exchange (Rep := cluster_reply) (GetCluster 5) (Reply resp p)] /\
       StatusCode resp = 404 /\ canonical_envelope resp).
Proof.
  apply (cluster_observe_reads_only (U := SimCluster) true "" ""
    (cluster_cr (cluster_spec "prod" (Some "msk-1")) (cluster_observation None)) (sim_at "msk-1" "apiVersion: v1") 5).
  reflexivity.
Defined.

Lemma kubeconfig_never_retried_witness :
  let cr := cluster_cr (cluster_spec "prod" (Some "msk-1")) (cluster_observation None) in
  let s' := final (Observe (U := SimCluster) true "" "" cr (sim_at "msk-1" "")) in
  ready_now s' = true /\
  (forall o, outcome (Observe (U := SimCluster) true "" "" cr (sim_at "msk-1" "")) = Ok o -> o.2 = None) /\
  forall w', GetClusterKubeconfig 5 ∉ calls (Observe (U := SimCluster) true "" "" s' w').
Proof.
  apply (kubeconfig_never_retried (L := MapRuntime_laws) (U := SimCluster) true "" ""
    (cluster_cr (cluster_spec "prod" (Some "msk-1")) (cluster_observation None)) (sim_at "msk-1" "") (sim_at "msk-1" "")
    (sim_at "msk-1" "") 5 (ok_reply (sample_cluster "msk-1")) (sample_cluster "msk-1") not_found_reply (Sentinel ErrNotFound)
    "ru-3"); vm_compute; reflexivity.
Defined.

(** The cluster a call read. *)
Definition cluster_read (x : exchange cluster_reply) : option (result error clusterBody) :=
  match request x as q return reply (cluster_reply q) -> option (result error clusterBody) with
  | GetCluster _ => fun rep => Some (read_reply_pre "kubernetes/cluster: " rep)
  | _ => fun _ => None
  end (answer x).

Lemma cluster_update_justified_witness :
  let cr := cluster_cr (cluster_spec "renamed" (Some "msk-1")) (cluster_observation None) in
  let resolve := fun (_ : sim_world) (_ : Dimension) (_ : ResolveInput) => Ok (OutEnum true) : result error ResolveOutput in
  let u := Update (U := SimCluster) true resolve "" "r-b" cr (sim_at "msk-1" "") in
  exists observed tp, ~ update_barred cr observed /\ fields_patched cr 5 observed (map request tp) /\ tp `suffix_of` trace u.
Proof.
  set (cr := cluster_cr (cluster_spec "renamed" (Some "msk-1")) (cluster_observation None)).
  set (resolve := fun (_ : sim_world) (_ : Dimension) (_ : ResolveInput) => Ok (OutEnum true) : result error ResolveOutput).
  pose proof (cluster_update_justified (U := SimCluster) true resolve "" "r-b" cr (sim_at "msk-1" "") 5 ltac:(vm_compute; reflexivity)) as H0.
  cbv zeta in H0. destruct H0 as (rep & w1 & t & _ & Ht & H).
  assert (exists observed, Some (Ok observed) = Some (read_reply_pre (A := clusterBody) "kubernetes/cluster: " rep) /\ ~ update_barred cr observed)
    as (observed & Hr & Hn).
  { assert (Some (read_reply_pre (A := clusterBody) "kubernetes/cluster: " rep) =
      match trace (Update (U := SimCluster) true resolve "" "r-b" cr (sim_at "msk-1" "")) with x :: _ => cluster_read x | [] => None end) as ->
      by (by rewrite Ht).
    eexists. split; [vm_compute; reflexivity|]. intros Hb. apply update_barred_iff in Hb. vm_compute in Hb. discriminate Hb. }
  injection Hr as Hr. rewrite <- Hr in H. destruct H as [_ H]. destruct (H Hn) as (tv & ti & tp & -> & _ & _ & _ & Hall).
  exists observed, tp. split; [exact Hn|]. split; [apply Hall; vm_compute; reflexivity|]. cbv zeta. rewrite Ht.
  eexists (_ :: tv ++ ti). cbn [app]. by rewrite app_assoc.
Defined.

(** There the pass upgrades, moves the integration, and renames, in that order. *)
Example sample_update_calls :
  calls (Update (U := SimCluster) true (fun _ _ _ => Ok (OutEnum true)) "" "r-b"
           (cluster_cr (cluster_spec "renamed" (Some "msk-1")) (cluster_observation None)) (sim_at "msk-1" "")) =
  [GetCluster 5; UpdateClusterVersion 5 "v1.31.14+k0s.0"; GetRouters; integration_patch 5 (Some "r-b");
   UpdateCluster 5 (Some "renamed") None].
Proof. vm_compute. reflexivity. Qed.
