(* ===== verification/Addon.v ===== *)
(** * Addon: the cluster add-on controller

    [internal/controller/kubernetes/addon_external.go]: [Observe], [Create] and
    [Delete] of a KubernetesClusterAddon; [Update] changes nothing. The external
    name is the add-on type. *)

From S2P Require Import Prelude Errors Timeweb Shared Effects RouterRefs Kubernetes.

Record addonOut := { ao_ID : Z; ao_Type : string; ao_Status : string; ao_Version : string }.
Record addonConfigOut := { ac_Type : string; ac_Version : string }.
Record InstallAddon := { in_Type : string; in_Version : string; in_ConfigType : string; in_YamlConfig : string }.

Inductive addon_request : Type :=
| GetKubernetesAddons (cluster : Z)
| GetKubernetesAddonsConfig (cluster : Z)
| PostKubernetesAddons (cluster : Z) (body : InstallAddon)
| DeleteKubernetesAddons (cluster addon : Z).

Definition addon_reply (q : addon_request) : Type :=
  match q with
  | GetKubernetesAddons _ => list addonOut
  | GetKubernetesAddonsConfig _ => list addonConfigOut
  | _ => unit
  end.

Record KubernetesClusterAddonParameters := {
  ap_Type : string;
  ap_Version : string;
  ap_YAMLConfig : option string;
  ap_ConfigType : option string }.

Record KubernetesClusterAddonObservation := {
  ab_AddonID : option string;
  ab_ClusterID : option string;
  ab_Status : option string;
  ab_InstalledVersion : option string }.

Fixpoint findAddon (addons : list addonOut) (addonType : string) : option addonOut :=
  match addons with
  | [] => None
  | a :: rest => if bool_decide (ao_Type a = addonType) then Some a else findAddon rest addonType
  end.

Definition addonIsInstalling (status : string) : bool :=
  let s := to_lower status in
  if bool_decide (s = "installed") || contains_str s "active" || contains_str s "running" then false
  else contains_str s "install" || contains_str s "pending" || contains_str s "creating".

Definition buildInstallAddonBody (fp : KubernetesClusterAddonParameters) : InstallAddon :=
  {| in_Type := ap_Type fp;
     in_Version := ap_Version fp;
     in_ConfigType := if bool_decide (default_str (ap_ConfigType fp) = "") then "custom" else default_str (ap_ConfigType fp);
     in_YamlConfig := default_str (ap_YAMLConfig fp) |}.

(** Whether a catalog offers the type and version. *)
Definition offered (addonType version : string) (catalog : list addonConfigOut) : bool :=
  existsb (fun c => bool_decide (ac_Type c = addonType) && bool_decide (ac_Version c = version)) catalog.

Definition not_offered_error (addonType version : string) (catalog : list addonConfigOut) : error :=
  ErrorString ("kubernetes/addon: type " +:+ quote addonType +:+ " version " +:+ quote version +:+
    " is not in the cluster's addons catalog; valid: " +:+
    join ", " (map (fun c => ac_Type c +:+ "@" +:+ ac_Version c) catalog)).

Section AddonExternal.
Context `{R : CrossplaneRuntime} {U : Upstream addon_request addon_reply}.
Variable recorder : bool.
Variable resolvedClusterID : string.

Notation addon := (managed KubernetesClusterAddonParameters KubernetesClusterAddonObservation).
Notation AM := (M U addon).

Definition addonClusterID (status : KubernetesClusterAddonObservation) : result error Z :=
  DecodeID (if bool_decide (default_str (ab_ClusterID status) = "") then resolvedClusterID
            else default_str (ab_ClusterID status)).

Definition listAddons (cluster : Z) : AM (list addonOut) :=
  call_decode "kubernetes/addon: " (GetKubernetesAddons cluster).

Definition addon_ready_condition (status : string) : Condition :=
  let s := to_lower status in
  if contains_str s "error" || contains_str s "fail" then
    ReadyFalse ReasonUpstreamFailed ("upstream addon status is " +:+ quote status +:+
      ": installation failed — delete and recreate the KubernetesClusterAddon")
  else match ClassifyUpstreamState status with
       | StateUnfunded => ReadyFalse ReasonPaymentRequired (UnfundedMessage "addon")
       | _ => if contains_str s "active" || contains_str s "running" || bool_decide (s = "installed")
              then Available else Creating
       end.

Definition setAddonReadyCondition (status : string) : AM unit := note_condition recorder (addon_ready_condition status).

Definition addon_status (cluster : Z) (a : addonOut) (o : KubernetesClusterAddonObservation) : KubernetesClusterAddonObservation :=
  {| ab_AddonID := Some (EncodeID (ao_ID a));
     ab_ClusterID := Some (EncodeID cluster);
     ab_Status := Some (ao_Status a);
     ab_InstalledVersion := if bool_decide (ao_Version a = "") then ab_InstalledVersion o else Some (ao_Version a) |}.

Definition exists_settled : ExternalObservation := {| ResourceExists := true; ResourceUpToDate := true |}.

(** An add-on last seen installing. *)
Definition mid_install (o : KubernetesClusterAddonObservation) : bool :=
  match ab_Status o with Some s => addonIsInstalling s | None => false end.

Definition Observe : AM ExternalObservation :=
  cr ← get;
  if bool_decide (ExternalName cr = "") then mret not_exists
  else match addonClusterID (AtProvider cr) with
       | Err _ => mret not_exists
       | Ok cluster =>
           addons ← listAddons cluster;
           match findAddon addons (ExternalName cr) with
           | None =>
               if mid_install (AtProvider cr)
               then note_condition recorder Creating;; mret exists_settled
               else mret not_exists
           | Some a =>
               modify (fun cr => set_at_provider (addon_status cluster a (AtProvider cr)) cr);;
               setAddonReadyCondition (ao_Status a);;
               mret exists_settled
           end
       end.

Definition validateAddonCatalog (cluster : Z) (addonType version : string) : AM unit :=
  catalog ← call_decode "kubernetes/addon: catalog: " (GetKubernetesAddonsConfig cluster);
  if offered addonType version catalog then mret tt else throw (not_offered_error addonType version catalog).

Definition set_addon_cluster (id : string) (cr : addon) : addon :=
  let o := AtProvider cr in
  set_at_provider {| ab_AddonID := ab_AddonID o; ab_ClusterID := Some id; ab_Status := ab_Status o;
                     ab_InstalledVersion := ab_InstalledVersion o |} cr.

Definition Create : AM unit :=
  cr ← get;
  match DecodeID resolvedClusterID with
  | Err e => throw (wrap_pre "kubernetes/addon: parent cluster not resolved: " e)
  | Ok cluster =>
      validateAddonCatalog cluster (ap_Type (ForProvider cr)) (ap_Version (ForProvider cr));;
      do_ (PostKubernetesAddons cluster (buildInstallAddonBody (ForProvider cr)));;
      modify (set_external_name (ap_Type (ForProvider cr)));;
      modify (set_addon_cluster (EncodeID cluster));;
      put_condition Creating
  end.

Definition Update : AM unit := mret tt.

Definition Delete : AM unit :=
  cr ← get;
  match addonClusterID (AtProvider cr) with
  | Err _ => mret tt
  | Ok cluster =>
      match ab_AddonID (AtProvider cr) with
      | None => mret tt
      | Some s =>
          match atoi s with
          | None => mret tt
          | Some addon =>
              r ← try (do_ (DeleteKubernetesAddons cluster addon));
              match r with
              | Ok _ => put_condition Deleting
              | Err e => if error_is e ErrNotFound then mret tt else throw e
              end
          end
      end
  end.

(** ** What it promises *)

Lemma findAddon_spec addons ty :
  match findAddon addons ty with
  | Some a => a ∈ addons /\ ao_Type a = ty
  | None => Forall (fun a => ao_Type a <> ty) addons
  end.
Proof.
  induction addons as [|a rest IH]; simpl; [constructor|]. case_bool_decide as E; [split; [left|done]|].
  destruct (findAddon rest ty); [destruct IH; split; [by right|done]|by constructor].
Qed.

(** [Create] installs only what the cluster's catalog offers: it posts at most once,
    after the catalog it has just read listed the declared type and version, and it
    takes the type as its external name exactly when the post succeeded. *)
Theorem addon_create_catalog_valid (cr : addon) (w : World) (c : Z) :
  DecodeID resolvedClusterID = Ok c ->
  exists rep t, trace (Create cr w) = Exchange (Rep := addon_reply) (GetKubernetesAddonsConfig c) rep :: t /\
    match read_reply (A := list addonConfigOut) rep with
    | Err _ => t = [] /\ is_ok (outcome (Create cr w)) = false /\ ExternalName (final (Create cr w)) = ExternalName cr
    | Ok catalog =>
        if offered (ap_Type (ForProvider cr)) (ap_Version (ForProvider cr)) catalog then
          exists repp, t = [Exchange (Rep := addon_reply) (PostKubernetesAddons c (buildInstallAddonBody (ForProvider cr))) repp] /\
            outcome (Create cr w) = write_reply repp /\
            ExternalName (final (Create cr w)) = if is_ok (write_reply repp) then ap_Type (ForProvider cr) else ExternalName cr
        else t = [] /\ outcome (Create cr w) = Err (not_offered_error (ap_Type (ForProvider cr)) (ap_Version (ForProvider cr)) catalog) /\
             ExternalName (final (Create cr w)) = ExternalName cr
    end.
Proof.
  intros Hc.
  change (wp Create (fun o s' w' tr => exists rep t, tr = Exchange (Rep := addon_reply) (GetKubernetesAddonsConfig c) rep :: t /\
    match read_reply (A := list addonConfigOut) rep with
    | Err _ => t = [] /\ is_ok o = false /\ ExternalName s' = ExternalName cr
    | Ok catalog =>
        if offered (ap_Type (ForProvider cr)) (ap_Version (ForProvider cr)) catalog then
          exists repp, t = [Exchange (Rep := addon_reply) (PostKubernetesAddons c (buildInstallAddonBody (ForProvider cr))) repp] /\
            o = write_reply repp /\ ExternalName s' = if is_ok (write_reply repp) then ap_Type (ForProvider cr) else ExternalName cr
        else t = [] /\ o = Err (not_offered_error (ap_Type (ForProvider cr)) (ap_Version (ForProvider cr)) catalog) /\
             ExternalName s' = ExternalName cr
    end) cr w).
  unfold Create, validateAddonCatalog. do 2 wp_step. rewrite Hc. do 3 wp_step. cbn [addon_reply] in *.
  destruct (read_reply_pre _ r) as [catalog|e] eqn:Er.
  2: { exists r, []. split; [done|]. cbn [addon_reply]. destruct (read_reply r) as [x|e'] eqn:Er'; [|done].
       apply (read_reply_pre_ok "kubernetes/addon: catalog: ") in Er'. congruence. }
  apply read_reply_pre_ok in Er. destruct (offered _ _ catalog) eqn:Eo; wp_step.
  2: { exists r, []. split; [done|]. cbn [addon_reply]. by rewrite Er, Eo. }
  wp_step. wp_step. destruct (write_reply _) as [[]|e] eqn:Ew; [do 5 wp_step|];
    (exists r; eexists; split; [reflexivity|]; cbn [addon_reply] in *; rewrite Er, Eo; eexists; split; [reflexivity|];
     cbn [addon_reply] in *; by rewrite Ew).
Qed.

(** [Observe] makes one call, and reports the add-on existing exactly when the
    cluster lists its type or the last status seen was that of an installation in
    progress; a listed add-on is recorded as listed, its Ready condition the one its
    status stands for. *)
Theorem addon_observe_spec {L : CrossplaneLaws R} (cr : addon) (w w1 : World) (c : Z)
    (rep : reply (list addonOut)) (addons : list addonOut) :
  ExternalName cr <> "" -> addonClusterID (AtProvider cr) = Ok c ->
  serve (GetKubernetesAddons c) w = (rep, w1) -> read_reply rep = Ok addons ->
  let s' := final (Observe cr w) in
  calls (Observe cr w) = [GetKubernetesAddons c] /\
  (outcome (Observe cr w) = Ok exists_settled <->
     (exists a, a ∈ addons /\ ao_Type a = ExternalName cr) \/ mid_install (AtProvider cr) = true) /\
  match findAddon addons (ExternalName cr) with
  | Some a => AtProvider s' = addon_status c a (AtProvider cr) /\
      (cond_Status (GetCondition TypeReady (Conditions s')) = CTrue <-> addon_ready_condition (ao_Status a) = Available)
  | None => AtProvider s' = AtProvider cr
  end.
Proof.
  intros He Hc Hs Hr. cbv zeta.
  change (wp Observe (fun o s' w' t => map request t = [GetKubernetesAddons c] /\
    (o = Ok exists_settled <-> (exists a, a ∈ addons /\ ao_Type a = ExternalName cr) \/ mid_install (AtProvider cr) = true) /\
    match findAddon addons (ExternalName cr) with
    | Some a => AtProvider s' = addon_status c a (AtProvider cr) /\
        (cond_Status (GetCondition TypeReady (Conditions s')) = CTrue <-> addon_ready_condition (ao_Status a) = Available)
    | None => AtProvider s' = AtProvider cr
    end) cr w).
  unfold Observe, listAddons, setAddonReadyCondition. do 2 wp_step. rewrite bool_decide_false, Hc by done. do 2 wp_step.
  cbn [addon_reply] in *. rewrite Hs in H. simplify_eq.
  apply (read_reply_pre_ok "kubernetes/addon: ") in Hr. rewrite Hr.
  pose proof (findAddon_spec addons (ExternalName cr)) as HF. destruct (findAddon addons _) as [a|].
  - do 5 wp_step. split; [done|]. split; [split; [left; by exists a|done]|]. split; [by destruct recorder|].
    unfold record_condition_change. cbn [Conditions set_conditions].
    assert (forall cd s, cond_Type cd = TypeReady -> GetCondition TypeReady (SetConditions cd s) = cd) as Hget.
    { intros cd s' <-. apply get_set_eq. }
    unfold addon_ready_condition. rewrite Hget by (repeat case_match; try done; apply available_type || apply creating_type).
    repeat case_match; simpl; rewrite ?available_status, ?creating_status; (split; [try done|intros E; try by apply (f_equal cond_Status) in E; rewrite ?available_status, ?creating_status in E]).
  - rewrite Forall_forall in HF. destruct (mid_install _) eqn:Em.
    + do 3 wp_step. split; [done|]. split; [split; [by right|done]|]. by destruct recorder.
    + wp_step. split; [done|]. split; [|done]. split; [done|]. intros [(a & Ha & Ht)|?]; [by destruct (HF a)|done].
Qed.

(** *** Deleting an add-on that was last seen installing

    One pass over an add-on under deletion: [Observe], then [Delete]. *)
Definition deletion_pass (x : addon * World) : addon * World :=
  let o := Observe x.1 x.2 in
  let d := Delete (final o) (world o) in
  (final d, world d).

Definition same_identity (cr s : addon) : Prop := ExternalName s = ExternalName cr /\ AtProvider s = AtProvider cr.

(** A cluster that does not list the add-on. *)
Definition unlisted (c : Z) (ty : string) : Prop :=
  forall w rep w1 addons, serve (GetKubernetesAddons c) w = (rep, w1) -> read_reply (A := list addonOut) rep = Ok addons ->
    Forall (fun a => ao_Type a <> ty) addons.

Lemma Delete_keeps (cr : addon) w : same_identity cr (final (Delete cr w)).
Proof.
  change (wp Delete (fun o s' w' t => same_identity cr s') cr w). unfold Delete. do 2 wp_step.
  destruct (addonClusterID _); [|by wp_step]. destruct (ab_AddonID _); [|by wp_step]. destruct (atoi _); [|by wp_step].
  do 3 wp_step. destruct (write_reply _) as [[]|e]; [by wp_step|]. destruct (error_is _ _); by wp_step.
Qed.

Lemma Observe_unlisted (cr : addon) w c :
  ExternalName cr <> "" -> addonClusterID (AtProvider cr) = Ok c -> mid_install (AtProvider cr) = true ->
  unlisted c (ExternalName cr) ->
  same_identity cr (final (Observe cr w)) /\
  (outcome (Observe cr w) = Ok exists_settled \/ is_ok (outcome (Observe cr w)) = false).
Proof.
  intros He Hc Hm Hu.
  change (wp Observe (fun o s' w' t => same_identity cr s' /\ (o = Ok exists_settled \/ is_ok o = false)) cr w).
  unfold Observe, listAddons. do 2 wp_step. rewrite bool_decide_false, Hc by done. do 2 wp_step. cbn [addon_reply] in *.
  destruct (read_reply_pre _ r) as [addons|e] eqn:Er; [|split; [done|by right]].
  apply read_reply_pre_ok in Er. pose proof (Hu _ _ _ _ H Er) as HF. rewrite Forall_forall in HF.
  pose proof (findAddon_spec addons (ExternalName cr)) as HA. destruct (findAddon addons _) as [a|].
  - destruct HA as [Ha Ht]. by destruct (HF a).
  - rewrite Hm. do 3 wp_step. split; [by destruct recorder|by left].
Qed.

(** An add-on deleted while its last status was that of an installation in progress
    is never reported gone, however often it is deleted and observed and although
    the cluster no longer lists it: the status the guard reads is only replaced when
    the add-on is listed. *)
Theorem addon_deletion_never_ends (cr : addon) (w : World) (c : Z) (n : nat) :
  ExternalName cr <> "" -> addonClusterID (AtProvider cr) = Ok c -> mid_install (AtProvider cr) = true ->
  unlisted c (ExternalName cr) ->
  let x := Nat.iter n deletion_pass (cr, w) in
  outcome (Observe x.1 x.2) <> Ok not_exists.
Proof.
  intros He Hc Hm Hu.
  assert (same_identity cr (Nat.iter n deletion_pass (cr, w)).1) as [HE HA].
  { induction n as [|n [IHe IHa]]; [done|]. rewrite Nat.iter_succ. destruct (Nat.iter n deletion_pass (cr, w)) as [s w'].
    cbn [fst] in *. unfold deletion_pass. cbn [fst snd].
    destruct (Observe_unlisted s w' c) as [[HE1 HA1] _]; [by rewrite ?IHe, ?IHa..|].
    destruct (Delete_keeps (final (Observe s w')) (world (Observe s w'))) as [HE2 HA2].
    split; [by rewrite HE2, HE1|by rewrite HA2, HA1]. }
  cbv zeta. set (x := Nat.iter n deletion_pass (cr, w)) in *.
  destruct (Observe_unlisted x.1 x.2 c) as [_ [Ho|Ho]]; [by rewrite ?HE, ?HA..| |]; intros E; rewrite E in Ho; done.
Qed.
End AddonExternal.

(** ** Witnesses *)

(** A service with a fixed listing and catalog. *)
Definition sim_addons (q : addon_request) (w : list addonOut * list addonConfigOut)
  : reply (addon_reply q) * (list addonOut * list addonConfigOut) :=
  match q with
  | GetKubernetesAddons _ => (ok_reply w.1, w)
  | GetKubernetesAddonsConfig _ => (ok_reply w.2, w)
  | _ => (ok_reply tt, w)
  end.

Definition SimAddons : Upstream addon_request addon_reply :=
  {| World := list addonOut * list addonConfigOut; serve := sim_addons |}.

(** One that lists no add-on. *)
Definition no_addons (q : addon_request) (w : unit) : reply (addon_reply q) * unit :=
  match q with
  | GetKubernetesAddons _ => (ok_reply [], w)
  | GetKubernetesAddonsConfig _ => (ok_reply [], w)
  | _ => (ok_reply tt, w)
  end.

Definition EmptyCluster : Upstream addon_request addon_reply := {| World := unit; serve := no_addons |}.

#[local] Existing Instance MapRuntime.

Definition sample_addon (status : option string) : managed KubernetesClusterAddonParameters KubernetesClusterAddonObservation :=
  {| ExternalName := "cert-manager";
     ForProvider := {| ap_Type := "cert-manager"; ap_Version := "1.15.3"; ap_YAMLConfig := None; ap_ConfigType := None |};
     AtProvider := {| ab_AddonID := Some "12"; ab_ClusterID := Some "5"; ab_Status := status; ab_InstalledVersion := None |};
     Conditions := no_conds; Events := [] |}.

Definition sample_addons : list addonOut :=
  [{| ao_ID := 12; ao_Type := "cert-manager"; ao_Status := "installed"; ao_Version := "1.15.3" |}].

Lemma addon_create_catalog_valid_witness :
  let cr := sample_addon None in
  let w := (sample_addons, [{| ac_Type := "cert-manager"; ac_Version := "1.15.3" |}]) in
  let run := Create (U := SimAddons) "5" cr w in
  exists rep t, trace run = Exchange (Rep := addon_reply) (GetKubernetesAddonsConfig 5) rep :: t /\
    match read_reply (A := list addonConfigOut) rep with
    | Err _ => t = [] /\ is_ok (outcome run) = false /\ ExternalName (final run) = "cert-manager"
    | Ok catalog =>
        if offered "cert-manager" "1.15.3" catalog then
          exists repp, t = [Exchange (Rep := addon_reply) (PostKubernetesAddons 5 (buildInstallAddonBody (ForProvider cr))) repp] /\
            outcome run = write_reply repp /\
            ExternalName (final run) = if is_ok (write_reply repp) then "cert-manager" else "cert-manager"
        else t = [] /\ outcome run = Err (not_offered_error "cert-manager" "1.15.3" catalog) /\
             ExternalName (final run) = "cert-manager"
    end.
Proof.
  apply (addon_create_catalog_valid (U := SimAddons) "5" (sample_addon None)
    (sample_addons, [{| ac_Type := "cert-manager"; ac_Version := "1.15.3" |}]) 5). reflexivity.
Defined.

Lemma addon_observe_spec_witness :
  let cr := sample_addon None in
  let w := (sample_addons, []) in
  let s' := final (Observe (U := SimAddons) true "" cr w) in
  calls (Observe (U := SimAddons) true "" cr w) = [GetKubernetesAddons 5] /\
  (outcome (Observe (U := SimAddons) true "" cr w) = Ok exists_settled <->
     (exists a, a ∈ sample_addons /\ ao_Type a = "cert-manager") \/ mid_install (AtProvider cr) = true) /\
  match findAddon sample_addons "cert-manager" with
  | Some a => AtProvider s' = addon_status 5 a (AtProvider cr) /\
      (cond_Status (GetCondition TypeReady (Conditions s')) = CTrue <-> addon_ready_condition (ao_Status a) = Available)
  | None => AtProvider s' = AtProvider cr
  end.
Proof.
  apply (addon_observe_spec (L := MapRuntime_laws) (U := SimAddons) true "" (sample_addon None) (sample_addons, [])
    (sample_addons, []) 5 (ok_reply sample_addons) sample_addons); try reflexivity; discriminate.
Defined.

Lemma addon_deletion_never_ends_witness :
  let x := Nat.iter 7 (deletion_pass (U := EmptyCluster) true "") (sample_addon (Some "installing"), tt) in
  outcome (Observe (U := EmptyCluster) true "" x.1 x.2) <> Ok not_exists.
Proof.
  apply (addon_deletion_never_ends (U := EmptyCluster) true "" (sample_addon (Some "installing")) tt 5 7).
  - discriminate.
  - reflexivity.
  - vm_compute. reflexivity.
  - intros w rep w1 addons [= <- <-] [= <-]. constructor.
Defined.
