(* ===== verification/Cdn.v ===== *)
(** * Cdn: the CDN payloads, the declared settings and their difference

    [internal/clients/timeweb/cdn.go] and the pure half of
    [internal/controller/cdn/external.go]: what is read, what a PATCH carries, and the
    minimal PATCH toward what is declared. A body field left out of the JSON is
    [Absent]; an explicit null is [Null]. *)

From S2P Require Import Prelude Errors Timeweb Shared Effects.
From Stdlib Require Import QArith.
#[local] Open Scope Z_scope.

(** ** Payloads *)

(** A [json.RawMessage] with [omitempty]. *)
Inductive raw (A : Type) : Type := Absent | Null | Value (a : A).
Arguments Absent {_}.
Arguments Null {_}.
Arguments Value {_} _.

(** [cache_ratio] by its decimal text. *)
Record CDNTrafficUsage := { tu_Requests : Z; tu_OutgoingTraffic : Z; tu_CacheRatio : string }.

Record CDNHTTPResource := {
  hr_ID : Z;
  hr_Name : string;
  hr_Description : string;
  hr_Status : string;
  hr_Source : string;
  hr_CDNDomain : string;
  hr_PresetID : Z;
  hr_ProjectID : Z;
  hr_StorageID : option Z;
  hr_TrafficLimitBytes : option Z;
  hr_TrafficUsage : option CDNTrafficUsage }.

Record CDNServer := { cs_Host : string; cs_Port : Z }.
Record CDNAWSAuth := { aws_AccessKey : string; aws_SecretKey : string }.
Record CDNCacheTTL := { ct_TTL : gmap string Z }.
Record CDNBrowserTTL := { bt_TTL : Z }.
Record CDNAlwaysOnline := { ao_StaleConditions : list string }.
Record CDNQueryArgs := { qa_Mode : string; qa_List : list string }.

Record CDNConfigCache := {
  cc_CDN : option CDNCacheTTL;
  cc_Browser : option CDNBrowserTTL;
  cc_AlwaysOnline : option CDNAlwaysOnline;
  cc_QueryArgs : option CDNQueryArgs }.

(** [mp4] as the raw JSON text. *)
Record CDNPackaging := { pk_MP4 : string }.

Record CDNConfigDelivery := {
  cd_HTTP3 : option bool;
  cd_Gzip : option bool;
  cd_LargeFiles : option bool;
  cd_SliceSize : option Z;
  cd_ImageOptimization : option bool;
  cd_Packaging : option CDNPackaging }.

Record CDNConfigCors := { cors_Domains : list string; cors_Always : option bool }.

(** An empty [request] map is left out of a body. *)
Record CDNConfigHTTPHeaders := { hh_Request : gmap string string; hh_Cors : option CDNConfigCors }.
Record CDNConfigRobots := { rb_Type : option string; rb_Content : option string }.
Record CDNSecureToken := { st_SecretKey : string; st_RestrictByIP : bool }.

Record CDNConfigSecurity := {
  se_Redirect : option bool;
  se_CertificateID : option Z;
  se_SecureToken : option CDNSecureToken }.

Record CDNConfigSecurityPatch := {
  sep_Redirect : option bool;
  sep_CertificateID : raw Z;
  sep_SecureToken : raw CDNSecureToken }.

(** An empty [aliases] list is left out of a body. *)
Record CDNConfigDomains := { dm_Aliases : list string }.

Record CDNConfigOrigin := {
  og_Servers : list CDNServer;
  og_UseHTTPS : option bool;
  og_AWS : option CDNAWSAuth }.

Record CDNConfigOriginPatch := { ogp_AWS : raw CDNAWSAuth }.

Record CDNConfig := {
  cfg_Cache : option CDNConfigCache;
  cfg_Delivery : option CDNConfigDelivery;
  cfg_HTTPHeaders : option CDNConfigHTTPHeaders;
  cfg_Robots : option CDNConfigRobots;
  cfg_Security : option CDNConfigSecurity;
  cfg_Domains : option CDNConfigDomains;
  cfg_Origin : option CDNConfigOrigin }.

Record CDNConfigPatch := {
  cp_Cache : option CDNConfigCache;
  cp_Delivery : option CDNConfigDelivery;
  cp_HTTPHeaders : option CDNConfigHTTPHeaders;
  cp_Robots : option CDNConfigRobots;
  cp_Security : option CDNConfigSecurityPatch;
  cp_Domains : option CDNConfigDomains;
  cp_Origin : option CDNConfigOriginPatch }.

Record CDNResourceWrite := {
  rw_Name : option string;
  rw_Description : option string;
  rw_ProjectID : option Z;
  rw_PresetID : option Z;
  rw_Server : option CDNServer;
  rw_StorageID : option Z;
  rw_UseHTTPS : option bool;
  rw_TrafficLimitBytes : raw Z;
  rw_Config : option CDNConfigPatch }.

(** A [float64] cost is the rational it is. *)
Record CDNPreset := { cpr_ID : Z; cpr_Cost : Q }.

Record CDNCertificate := {
  ce_ID : Z;
  ce_Type : string;
  ce_CN : string;
  ce_Domains : list string;
  ce_ExpiresAt : string }.

Record CDNCertificateTask := { ta_ID : Z; ta_Status : string }.

Definition DefaultCDNPresetID : Z := 3807.

Definition MP4Enabled (p : option CDNPackaging) : bool :=
  match p with
  | Some p => negb (bool_decide (pk_MP4 p = "")) && negb (bool_decide (pk_MP4 p = "null"))
  | None => false
  end.

(** ** The managed resource *)

Record CdnSecretRef := { csr_Name : string; csr_Key : option string }.

Record CdnOrigin := {
  o_BucketRef : option string;
  o_Domain : option string;
  o_IP : option string;
  o_HTTPS : option bool;
  o_Port : option Z;
  o_AWSAuthSecretRef : option CdnSecretRef }.

Record CdnSSL := { ssl_Mode : string; ssl_CertificateSecretRef : option CdnSecretRef }.
Record CdnSecureToken := { tk_SecretRef : CdnSecretRef; tk_RestrictByIP : option bool }.

Record CdnCache := {
  ca_EdgeTTLSeconds : option Z;
  ca_BrowserTTLSeconds : option Z;
  ca_AlwaysOnline : option bool;
  ca_QueryStringCacheKeyMode : option string;
  ca_QueryStringCacheKeyParams : list string }.

Record CdnSecurity := { sy_ForceHTTPS : option bool; sy_SecureToken : option CdnSecureToken }.
Record CdnRobots := { ro_Mode : string; ro_Custom : option string }.

Record CdnPerformance := {
  pe_HTTP3 : option bool;
  pe_Gzip : option bool;
  pe_LargeFileSlicingMB : option Z;
  pe_ContentOptimization : option string;
  pe_Robots : option CdnRobots }.

Record CdnCors := { cr_Origins : list string; cr_AlwaysAddHeader : option bool }.
Record CdnRequestHeader := { rh_Name : string; rh_Value : string }.

(** [Domains] and [RequestHeaders] tell an absent list from an empty one. *)
Record CdnParameters := {
  p_Name : option string;
  p_Description : option string;
  p_ProjectID : option Z;
  p_Origin : CdnOrigin;
  p_Cache : option CdnCache;
  p_Security : option CdnSecurity;
  p_Performance : option CdnPerformance;
  p_Cors : option CdnCors;
  p_Domains : option (list string);
  p_SSL : option CdnSSL;
  p_TrafficLimitGBPerMonth : option Z;
  p_RequestHeaders : option (list CdnRequestHeader) }.

(** ** Small helpers *)

Definition strDeref (p : option string) : string := match p with Some s => s | None => "" end.
Definition strDerefOr (p : option string) (def : string) : string := if bool_decide (strDeref p = "") then def else strDeref p.
Definition i64Deref (p : option Z) : Z := match p with Some n => n | None => 0 end.
Definition bDeref (p : option bool) : bool := match p with Some b => b | None => false end.
Definition slicesEqual (a b : list string) : bool := bool_decide (a = b).

(** A key that is missing reads as the empty string. *)
Definition mapsEqual (a b : gmap string string) : bool :=
  (size a =? size b)%nat &&
  forallb (fun kv => bool_decide (strDeref (b !! (kv.1 : string)) = kv.2)) (map_to_list a).

Definition ttlOf (t : option CDNCacheTTL) : Z := match t with Some t => i64Deref (ct_TTL t !! "2xx") | None => 0 end.

Definition isSuspendedState (s : string) : bool :=
  bool_decide (to_lower s ∈ ["suspended"; "paused"; "stopped"; "blocked"; "disabled"; "no_paid"]).

Definition has_suffix (suffix s : string) : bool := has_prefix (rev_str suffix) (rev_str s).

Definition aliasesOf (cfg : CDNConfig) : list string :=
  match cfg_Domains cfg with Some d => dm_Aliases d | None => [] end.

Definition technicalAlias (cfg : CDNConfig) : string :=
  strDeref (List.find (has_suffix ".cdn.twcstorage.ru") (aliasesOf cfg)).

Definition customAliases (cfg : CDNConfig) : list string :=
  List.filter (fun a => negb (bool_decide (a = technicalAlias cfg))) (aliasesOf cfg).

Definition domainsAttached (domains : list string) (cfg : CDNConfig) : bool :=
  forallb (fun d => bool_decide (d ∈ aliasesOf cfg)) domains.

Definition effectiveName (name : string) (p : CdnParameters) : string :=
  if bool_decide (strDeref (p_Name p) = "") then name else strDeref (p_Name p).

Definition defaultStaleConditions : list string := ["error"; "timeout"].

Definition desiredQueryArgs (c : CdnCache) : option CDNQueryArgs :=
  match ca_QueryStringCacheKeyMode c with
  | Some mode =>
      Some {| qa_Mode := mode;
              qa_List := if bool_decide (mode = "all") then [] else sort_strings (ca_QueryStringCacheKeyParams c) |}
  | None => None
  end.

Definition queryArgsEqual (a b : option CDNQueryArgs) : bool :=
  match a, b with
  | None, None => true
  | Some a, Some b => bool_decide (qa_Mode a = qa_Mode b) && slicesEqual (qa_List a) (sort_strings (qa_List b))
  | _, _ => false
  end.

(** ** Secrets and the origin, once resolved *)

(** [domains] sorted, the expiry as a day. *)
Record certIdentity := { ci_cn : string; ci_domains : list string; ci_expiryDay : string }.

Record resolvedSecrets := {
  rs_secureTokenKey : string;
  rs_awsAccessKey : string;
  rs_awsSecretKey : string;
  rs_certPEM : string;
  rs_keyPEM : string;
  rs_certIdentity : option certIdentity }.

Record resolvedOrigin := { og_server : option CDNServer; og_storageID : option Z; og_useHTTPS : bool }.

Definition originPort (o : CdnOrigin) (https : bool) : Z :=
  match o_Port o with Some p => p | None => if https then 443 else 80 end.

(** The read of a bucket: whether it is Ready, and its upstream id; or the error's text. *)
Definition resolve_origin (read_bucket : string -> result string (bool * option Z)) (o : CdnOrigin)
  : result string resolvedOrigin :=
  let https := match o_HTTPS o with Some b => b | None => true end in
  match o_BucketRef o, o_Domain o, o_IP o with
  | Some name, _, _ =>
      match read_bucket name with
      | Err e => Err ("origin S3Bucket " +:+ quote name +:+ " not found: " +:+ e)
      | Ok (true, Some id) => Ok {| og_server := None; og_storageID := Some id; og_useHTTPS := https |}
      | Ok _ => Err ("origin S3Bucket " +:+ quote name +:+ " is not Ready yet")
      end
  | None, Some d, _ =>
      Ok {| og_server := Some {| cs_Host := d; cs_Port := originPort o https |}; og_storageID := None; og_useHTTPS := https |}
  | None, None, Some ip =>
      Ok {| og_server := Some {| cs_Host := ip; cs_Port := originPort o https |}; og_storageID := None; og_useHTTPS := https |}
  | None, None, None => Ok {| og_server := None; og_storageID := None; og_useHTTPS := https |}
  end.

Definition originDrifted (want : resolvedOrigin) (res : CDNHTTPResource) (cfg : CDNConfig) : bool :=
  let obsHTTPS := match cfg_Origin cfg with
                  | Some o => match og_UseHTTPS o with Some b => b | None => true end
                  | None => true
                  end in
  if negb (Bool.eqb (og_useHTTPS want) obsHTTPS) then true
  else match og_storageID want, og_server want with
       | Some sid, _ => match hr_StorageID res with Some s => negb (s =? sid) | None => true end
       | None, Some server =>
           match hr_StorageID res, cfg_Origin cfg with
           | Some _, _ => true
           | None, None => true
           | None, Some o =>
               match og_Servers o with
               | [] => true
               | s :: _ => negb (bool_decide (cs_Host s = cs_Host server)) || negb (cs_Port s =? cs_Port server)
               end
           end
       | None, None => false
       end.

(** ** The difference, section by section

    A section that is not declared is not looked at. *)

Definition desired_domains (p : CdnParameters) (cfg : CDNConfig) : option CDNConfigDomains :=
  match p_Domains p with
  | Some ds =>
      if slicesEqual (sort_strings ds) (sort_strings (customAliases cfg)) then None
      else Some {| dm_Aliases := sort_strings ds |}
  | None => None
  end.

Definition desired_aws (p : CdnParameters) (cfg : CDNConfig) (sec : resolvedSecrets) : option CDNConfigOriginPatch :=
  match o_AWSAuthSecretRef (p_Origin p), o_BucketRef (p_Origin p) with
  | Some _, None =>
      let want := {| aws_AccessKey := rs_awsAccessKey sec; aws_SecretKey := rs_awsSecretKey sec |} in
      let matched := match cfg_Origin cfg with
                     | Some o => match og_AWS o with
                                 | Some a => bool_decide (aws_AccessKey a = aws_AccessKey want) &&
                                             bool_decide (aws_SecretKey a = aws_SecretKey want)
                                 | None => false
                                 end
                     | None => false
                     end in
      if matched then None else Some {| ogp_AWS := Value want |}
  | _, _ => None
  end.

(** The part of the cache section that is compared: edge and browser TTL, serve-stale
    on or off, query arguments. *)
Definition cache_view (c : option CDNConfigCache) : Z * Z * bool * option CDNQueryArgs :=
  match c with
  | Some c => (ttlOf (cc_CDN c), match cc_Browser c with Some b => bt_TTL b | None => 0 end,
               bool_decide (is_Some (cc_AlwaysOnline c)), cc_QueryArgs c)
  | None => (0, 0, false, None)
  end.

Definition wanted_cache (c : CdnCache) (obs : option CDNConfigCache) : CDNConfigCache :=
  let edge := i64Deref (ca_EdgeTTLSeconds c) in
  let browser := i64Deref (ca_BrowserTTLSeconds c) in
  {| cc_CDN := if 0 <? edge then Some {| ct_TTL := {["2xx" := edge]} |} else None;
     cc_Browser := if 0 <? browser then Some {| bt_TTL := browser |} else None;
     cc_AlwaysOnline :=
       if bDeref (ca_AlwaysOnline c)
       then match obs with
            | Some o => match cc_AlwaysOnline o with
                        | Some a => Some {| ao_StaleConditions := ao_StaleConditions a |}
                        | None => Some {| ao_StaleConditions := defaultStaleConditions |}
                        end
            | None => Some {| ao_StaleConditions := defaultStaleConditions |}
            end
       else None;
     cc_QueryArgs := desiredQueryArgs c |}.

Definition desired_cache (p : CdnParameters) (cfg : CDNConfig) : option CDNConfigCache :=
  match p_Cache p with
  | Some c =>
      let '(edge, browser, online, qa) := cache_view (cfg_Cache cfg) in
      if negb (i64Deref (ca_EdgeTTLSeconds c) =? edge) || negb (i64Deref (ca_BrowserTTLSeconds c) =? browser) ||
         negb (Bool.eqb (bDeref (ca_AlwaysOnline c)) online) || negb (queryArgsEqual (desiredQueryArgs c) qa)
      then Some (wanted_cache c (cfg_Cache cfg)) else None
  | None => None
  end.

Definition observed_token (cfg : CDNConfig) : option CDNSecureToken :=
  match cfg_Security cfg with Some s => se_SecureToken s | None => None end.

Definition desired_redirect (s : CdnSecurity) (cfg : CDNConfig) : option bool :=
  let obs := match cfg_Security cfg with Some o => bDeref (se_Redirect o) | None => false end in
  if Bool.eqb (bDeref (sy_ForceHTTPS s)) obs then None else Some (bDeref (sy_ForceHTTPS s)).

Definition desired_token (s : CdnSecurity) (cfg : CDNConfig) (sec : resolvedSecrets) : raw CDNSecureToken :=
  match sy_SecureToken s, observed_token cfg with
  | Some tk, obs =>
      let want := {| st_SecretKey := rs_secureTokenKey sec; st_RestrictByIP := bDeref (tk_RestrictByIP tk) |} in
      if match obs with
         | Some o => Bool.eqb (st_RestrictByIP o) (st_RestrictByIP want) &&
                     (bool_decide (st_SecretKey o = "") || bool_decide (st_SecretKey o = st_SecretKey want))
         | None => false
         end then Absent else Value want
  | None, Some _ => Null
  | None, None => Absent
  end.

Definition desired_security (p : CdnParameters) (cfg : CDNConfig) (sec : resolvedSecrets) : option CDNConfigSecurityPatch :=
  match p_Security p with
  | Some s =>
      match desired_redirect s cfg, desired_token s cfg sec with
      | None, Absent => None
      | r, t => Some {| sep_Redirect := r; sep_CertificateID := Absent; sep_SecureToken := t |}
      end
  | None => None
  end.

(** What is compared of the delivery section. *)
Definition desiredDelivery (perf : CdnPerformance) (obs : option CDNConfigDelivery) : option CDNConfigDelivery :=
  let wantLarge := bool_decide (is_Some (pe_LargeFileSlicingMB perf)) in
  let wantSlice := i64Deref (pe_LargeFileSlicingMB perf) in
  let mode := strDerefOr (pe_ContentOptimization perf) "off" in
  let wantImage := bool_decide (mode = "images") in
  let wantMP4 := bool_decide (mode = "video") in
  let get (f : CDNConfigDelivery -> option bool) := match obs with Some o => bDeref (f o) | None => false end in
  let obsSlice := match obs with Some o => i64Deref (cd_SliceSize o) | None => 0 end in
  let obsMP4 := match obs with Some o => MP4Enabled (cd_Packaging o) | None => false end in
  if Bool.eqb (bDeref (pe_HTTP3 perf)) (get cd_HTTP3) && Bool.eqb (bDeref (pe_Gzip perf)) (get cd_Gzip) &&
     Bool.eqb wantLarge (get cd_LargeFiles) && (negb wantLarge || (wantSlice =? obsSlice)) &&
     Bool.eqb wantImage (get cd_ImageOptimization) && Bool.eqb wantMP4 obsMP4
  then None
  else Some {| cd_HTTP3 := Some (bDeref (pe_HTTP3 perf)); cd_Gzip := Some (bDeref (pe_Gzip perf));
               cd_LargeFiles := Some wantLarge;
               cd_SliceSize := if wantLarge then Some wantSlice else None;
               cd_ImageOptimization := Some wantImage;
               cd_Packaging :=
                 if Bool.eqb wantMP4 obsMP4 then None
                 else Some {| pk_MP4 := if wantMP4 then "{}" else "null" |} |}.

Definition desired_robots (perf : CdnPerformance) (cfg : CDNConfig) : option CDNConfigRobots :=
  match pe_Robots perf with
  | Some r =>
      let '(obsType, obsContent) :=
        match cfg_Robots cfg with Some o => (strDeref (rb_Type o), strDeref (rb_Content o)) | None => ("", "") end in
      if bool_decide (ro_Mode r = obsType) && bool_decide (strDeref (ro_Custom r) = obsContent) then None
      else Some {| rb_Type := Some (ro_Mode r);
                   rb_Content := if bool_decide (ro_Mode r = "custom") then Some (strDeref (ro_Custom r)) else None |}
  | None => None
  end.

Definition wanted_headers (hs : list CdnRequestHeader) : gmap string string :=
  fold_left (fun m h => <[rh_Name h := rh_Value h]> m) hs ∅.

Definition desired_request_headers (p : CdnParameters) (cfg : CDNConfig) : option (gmap string string) :=
  match p_RequestHeaders p with
  | Some hs =>
      let obs := match cfg_HTTPHeaders cfg with Some h => hh_Request h | None => ∅ end in
      if mapsEqual (wanted_headers hs) obs then None else Some (wanted_headers hs)
  | None => None
  end.

Definition desired_cors (p : CdnParameters) (cfg : CDNConfig) : option CDNConfigCors :=
  match p_Cors p with
  | Some c =>
      let obs := match cfg_HTTPHeaders cfg with Some h => hh_Cors h | None => None end in
      let obsDomains := match obs with Some o => sort_strings (cors_Domains o) | None => [] end in
      let obsAlways := match obs with Some o => bDeref (cors_Always o) | None => false end in
      if slicesEqual (sort_strings (cr_Origins c)) obsDomains && Bool.eqb (bDeref (cr_AlwaysAddHeader c)) obsAlways then None
      else Some {| cors_Domains := sort_strings (cr_Origins c); cors_Always := Some (bDeref (cr_AlwaysAddHeader c)) |}
  | None => None
  end.

Definition desiredHTTPHeaders (p : CdnParameters) (cfg : CDNConfig) : option CDNConfigHTTPHeaders :=
  match desired_request_headers p cfg, desired_cors p cfg with
  | None, None => None
  | r, c => Some {| hh_Request := match r with Some m => m | None => ∅ end; hh_Cors := c |}
  end.

Definition desired_delivery (p : CdnParameters) (cfg : CDNConfig) : option CDNConfigDelivery :=
  match p_Performance p with Some perf => desiredDelivery perf (cfg_Delivery cfg) | None => None end.

Definition desired_robots_of (p : CdnParameters) (cfg : CDNConfig) : option CDNConfigRobots :=
  match p_Performance p with Some perf => desired_robots perf cfg | None => None end.

Definition desiredConfig (p : CdnParameters) (cfg : CDNConfig) (sec : resolvedSecrets) : option CDNConfigPatch :=
  match {| cp_Cache := desired_cache p cfg; cp_Delivery := desired_delivery p cfg;
           cp_HTTPHeaders := desiredHTTPHeaders p cfg; cp_Robots := desired_robots_of p cfg;
           cp_Security := desired_security p cfg sec; cp_Domains := desired_domains p cfg;
           cp_Origin := desired_aws p cfg sec |} with
  | {| cp_Cache := None; cp_Delivery := None; cp_HTTPHeaders := None; cp_Robots := None; cp_Security := None;
       cp_Domains := None; cp_Origin := None |} => None
  | w => Some w
  end.

(** GiB as bytes, in an [int64]. *)
Definition limit_bytes (gb : Z) : Z := int64_wrap (Z.shiftl gb 30).

Definition desired_limit (p : CdnParameters) (res : CDNHTTPResource) : raw Z :=
  match p_TrafficLimitGBPerMonth p with
  | None => Absent
  | Some gb =>
      if gb =? 0 then match hr_TrafficLimitBytes res with Some _ => Null | None => Absent end
      else match hr_TrafficLimitBytes res with
           | Some b => if b =? limit_bytes gb then Absent else Value (limit_bytes gb)
           | None => Value (limit_bytes gb)
           end
  end.

Definition is_absent {A} (r : raw A) : bool := match r with Absent => true | _ => false end.

(** The PATCH, given the origin when it resolves, and whether it carries anything. *)
Definition desired_write (name : string) (p : CdnParameters) (origin : option resolvedOrigin) (res : CDNHTTPResource)
    (cfg : CDNConfig) (sec : resolvedSecrets) : CDNResourceWrite * bool :=
  let wname := if bool_decide (hr_Name res = effectiveName name p) then None else Some (effectiveName name p) in
  let desc := if bool_decide (hr_Description res = strDeref (p_Description p)) then None else Some (strDeref (p_Description p)) in
  let proj := match p_ProjectID p with
              | Some pid => if pid =? hr_ProjectID res then None else Some pid
              | None => None
              end in
  let drifted := match origin with Some o => if originDrifted o res cfg then Some o else None | None => None end in
  let limit := desired_limit p res in
  let config := desiredConfig p cfg sec in
  ({| rw_Name := wname; rw_Description := desc; rw_ProjectID := proj; rw_PresetID := None;
      rw_Server := match drifted with Some o => og_server o | None => None end;
      rw_StorageID := match drifted with Some o => og_storageID o | None => None end;
      rw_UseHTTPS := match drifted with Some o => Some (og_useHTTPS o) | None => None end;
      rw_TrafficLimitBytes := limit; rw_Config := config |},
   bool_decide (is_Some wname) || bool_decide (is_Some desc) || bool_decide (is_Some proj) ||
   bool_decide (is_Some drifted) || negb (is_absent limit) || bool_decide (is_Some config)).
