(* ===== verification/CdnSettle.v ===== *)
(** * CdnSettle: what the settings difference promises

    A PATCH touches only what is declared; once the API has applied it as its
    captured contract says ([applied]), nothing is left to change. The corners where
    that fails are theorems too. *)

From S2P Require Import Prelude Errors Timeweb Shared Effects Cdn.

(** ** Only what is declared *)

Definition no_config : CDNConfigPatch :=
  {| cp_Cache := None; cp_Delivery := None; cp_HTTPHeaders := None; cp_Robots := None; cp_Security := None;
     cp_Domains := None; cp_Origin := None |}.

Definition sections (p : CdnParameters) (cfg : CDNConfig) (sec : resolvedSecrets) : CDNConfigPatch :=
  {| cp_Cache := desired_cache p cfg; cp_Delivery := desired_delivery p cfg;
     cp_HTTPHeaders := desiredHTTPHeaders p cfg; cp_Robots := desired_robots_of p cfg;
     cp_Security := desired_security p cfg sec; cp_Domains := desired_domains p cfg;
     cp_Origin := desired_aws p cfg sec |}.

Lemma desiredConfig_sections p cfg sec : default no_config (desiredConfig p cfg sec) = sections p cfg sec.
Proof. unfold desiredConfig, sections. by repeat case_match; simplify_eq. Qed.

Lemma desiredConfig_clean p cfg sec : sections p cfg sec = no_config -> desiredConfig p cfg sec = None.
Proof. unfold desiredConfig, sections, no_config. intros H. injection H as -> -> -> -> -> -> ->. done. Qed.

(** Sections that are not declared are not written, and the certificate slot never is
    by the settings. *)
Theorem patch_touches_only_declared (name : string) (p : CdnParameters) (origin : option resolvedOrigin)
    (res : CDNHTTPResource) (cfg : CDNConfig) (sec : resolvedSecrets) (c : CDNConfigPatch) :
  rw_Config (desired_write name p origin res cfg sec).1 = Some c ->
  (p_Cache p = None -> cp_Cache c = None) /\
  (p_Security p = None -> cp_Security c = None) /\
  (forall s, cp_Security c = Some s -> sep_CertificateID s = Absent) /\
  (p_Performance p = None -> cp_Delivery c = None /\ cp_Robots c = None) /\
  (p_RequestHeaders p = None -> forall h, cp_HTTPHeaders c = Some h -> hh_Request h = ∅) /\
  (p_Cors p = None -> forall h, cp_HTTPHeaders c = Some h -> hh_Cors h = None) /\
  (p_Domains p = None -> cp_Domains c = None) /\
  (o_AWSAuthSecretRef (p_Origin p) = None -> cp_Origin c = None).
Proof.
  intros H. change (desiredConfig p cfg sec = Some c) in H.
  assert (c = sections p cfg sec) as -> by (by rewrite <- desiredConfig_sections, H). unfold sections.
  cbn. unfold desired_cache, desired_security, desired_delivery, desired_robots_of, desiredHTTPHeaders, desired_request_headers,
    desired_cors, desired_domains, desired_aws.
  split_and!; try (intros ->; done).
  - intros s Hs. by repeat case_match; simplify_eq.
  - intros -> h Hh. by repeat case_match; simplify_eq.
  - intros -> h Hh. by repeat case_match; simplify_eq.
Qed.

(** ** What the API does with a PATCH

    A key that is not sent is kept; a section is replaced or merged per key as the
    comments of [cdn.go] record of the wire. The aliases come back with the technical
    domain the API manages itself. *)

Definition key {A B} (o : option A) (f : A -> option B) : option B := match o with Some a => f a | None => None end.
Definition later {A} (new old : option A) : option A := match new with Some _ => new | None => old end.
Definition later_raw {A} (new : raw A) (old : option A) : option A :=
  match new with Absent => old | Null => None | Value v => Some v end.

Definition observed_request (h : option CDNConfigHTTPHeaders) : gmap string string :=
  match h with Some h => hh_Request h | None => ∅ end.

Definition observed_servers (cfg : CDNConfig) : list CDNServer := match cfg_Origin cfg with Some o => og_Servers o | None => [] end.

Definition technical (a : string) : Prop := has_suffix ".cdn.twcstorage.ru" a = true.

Section Applied.
Variables (w : CDNResourceWrite) (res : CDNHTTPResource) (cfg : CDNConfig) (res' : CDNHTTPResource) (cfg' : CDNConfig).

Notation c := (default no_config (rw_Config w)).

Record AppliedResource : Prop := {
  ap_Name : hr_Name res' = default (hr_Name res) (rw_Name w);
  ap_Description : hr_Description res' = default (hr_Description res) (rw_Description w);
  ap_ProjectID : hr_ProjectID res' = default (hr_ProjectID res) (rw_ProjectID w);
  ap_Limit : hr_TrafficLimitBytes res' = later_raw (rw_TrafficLimitBytes w) (hr_TrafficLimitBytes res);
  ap_Scheme : key (cfg_Origin cfg') og_UseHTTPS = later (rw_UseHTTPS w) (key (cfg_Origin cfg) og_UseHTTPS);
  ap_Storage : hr_StorageID res' =
    match rw_StorageID w, rw_Server w with
    | Some s, _ => Some s
    | None, Some _ => None
    | None, None => hr_StorageID res
    end;
  ap_Servers : rw_StorageID w = None ->
    observed_servers cfg' = match rw_Server w with Some s => [s] | None => observed_servers cfg end }.

Definition merged {A} (f : CDNConfigDelivery -> option A) : Prop :=
  key (cfg_Delivery cfg') f = later (key (cp_Delivery c) f) (key (cfg_Delivery cfg) f).

Record AppliedConfig : Prop := {
  ap_Cache : cfg_Cache cfg' = later (cp_Cache c) (cfg_Cache cfg);
  ap_HTTP3 : merged cd_HTTP3;
  ap_Gzip : merged cd_Gzip;
  ap_LargeFiles : merged cd_LargeFiles;
  ap_Image : merged cd_ImageOptimization;
  ap_Slice : merged cd_SliceSize;
  ap_Packaging : merged cd_Packaging;
  ap_Request : observed_request (cfg_HTTPHeaders cfg') =
    if bool_decide (observed_request (cp_HTTPHeaders c) = ∅) then observed_request (cfg_HTTPHeaders cfg)
    else observed_request (cp_HTTPHeaders c);
  ap_Cors : key (cfg_HTTPHeaders cfg') hh_Cors = later (key (cp_HTTPHeaders c) hh_Cors) (key (cfg_HTTPHeaders cfg) hh_Cors);
  ap_Robots : cfg_Robots cfg' = later (cp_Robots c) (cfg_Robots cfg);
  ap_Redirect : key (cfg_Security cfg') se_Redirect = later (key (cp_Security c) sep_Redirect) (key (cfg_Security cfg) se_Redirect);
  ap_Token : observed_token cfg' = match cp_Security c with
                                   | Some s => later_raw (sep_SecureToken s) (observed_token cfg)
                                   | None => observed_token cfg
                                   end;
  ap_Aliases : match cp_Domains c with
               | Some {| dm_Aliases := (_ :: _) as l |} => exists t, technical t /\ aliasesOf cfg' ≡ₚ t :: l
               | _ => aliasesOf cfg' = aliasesOf cfg
               end;
  ap_AWS : key (cfg_Origin cfg') og_AWS = match cp_Origin c with
                                       | Some o => later_raw (ogp_AWS o) (key (cfg_Origin cfg) og_AWS)
                                       | None => key (cfg_Origin cfg) og_AWS
                                       end }.
End Applied.

(** What the CRD validates of the declared settings, no empty list, and no declared
    domain of the API's own zone. *)
Record admissible (p : CdnParameters) : Prop := {
  ad_ttl : forall ca, p_Cache p = Some ca -> 0 <= i64Deref (ca_EdgeTTLSeconds ca) /\ 0 <= i64Deref (ca_BrowserTTLSeconds ca);
  ad_robots : forall pe ro, p_Performance p = Some pe -> pe_Robots pe = Some ro -> ro_Mode ro <> "custom" -> ro_Custom ro = None;
  ad_headers : p_RequestHeaders p <> Some [];
  ad_domains : p_Domains p <> Some [];
  ad_technical : forall ds d, p_Domains p = Some ds -> d ∈ ds -> ~ technical d }.

(** ** Settled after one PATCH *)

Lemma sort_strings_idemp l : sort_strings (sort_strings l) = sort_strings l.
Proof. apply sort_strings_perm_eq. unfold sort_strings. apply sort_by_perm. Qed.

Lemma slicesEqual_refl l : slicesEqual l l = true.
Proof. by apply bool_decide_eq_true. Qed.

Lemma mapsEqual_refl m : mapsEqual m m = true.
Proof.
  unfold mapsEqual. rewrite Nat.eqb_refl. simpl. apply forallb_forall. intros [k v] H.
  apply bool_decide_eq_true. simpl. apply list_elem_of_In, elem_of_map_to_list in H. by rewrite H.
Qed.

Lemma queryArgsEqual_refl c : queryArgsEqual (desiredQueryArgs c) (desiredQueryArgs c) = true.
Proof.
  unfold queryArgsEqual, desiredQueryArgs. case_match; [|done]. simplify_eq. simpl. case_match; simplify_eq; simpl.
  rewrite bool_decide_eq_true_2 by done. simpl. case_bool_decide; [done|]. by rewrite sort_strings_idemp, slicesEqual_refl.
Qed.

(** The comparison of the delivery section looks at six keys. *)
Definition delivery_view (pe : CdnPerformance) (h3 gz lf im : option bool) (sl : option Z) (pk : option CDNPackaging) : option CDNConfigDelivery :=
  let wantLarge := bool_decide (is_Some (pe_LargeFileSlicingMB pe)) in
  let mode := strDerefOr (pe_ContentOptimization pe) "off" in
  if Bool.eqb (bDeref (pe_HTTP3 pe)) (bDeref h3) && Bool.eqb (bDeref (pe_Gzip pe)) (bDeref gz) && Bool.eqb wantLarge (bDeref lf) &&
     (negb wantLarge || (i64Deref (pe_LargeFileSlicingMB pe) =? i64Deref sl)) &&
     Bool.eqb (bool_decide (mode = "images")) (bDeref im) && Bool.eqb (bool_decide (mode = "video")) (MP4Enabled pk)
  then None
  else Some {| cd_HTTP3 := Some (bDeref (pe_HTTP3 pe)); cd_Gzip := Some (bDeref (pe_Gzip pe)); cd_LargeFiles := Some wantLarge;
               cd_SliceSize := if wantLarge then Some (i64Deref (pe_LargeFileSlicingMB pe)) else None;
               cd_ImageOptimization := Some (bool_decide (mode = "images"));
               cd_Packaging := if Bool.eqb (bool_decide (mode = "video")) (MP4Enabled pk) then None
                               else Some {| pk_MP4 := if bool_decide (mode = "video") then "{}" else "null" |} |}.

Lemma delivery_viewed pe d :
  desiredDelivery pe d = delivery_view pe (key d cd_HTTP3) (key d cd_Gzip) (key d cd_LargeFiles) (key d cd_ImageOptimization)
                           (key d cd_SliceSize) (key d cd_Packaging).
Proof. by destruct d. Qed.

Lemma wanted_headers_nonempty hs : hs <> [] -> wanted_headers hs <> ∅.
Proof.
  unfold wanted_headers. destruct hs as [|h hs]; [done|]. intros _. simpl.
  assert (forall m : gmap string string, m <> ∅ -> fold_left (fun m h => <[rh_Name h := rh_Value h]> m) hs m <> ∅) as H.
  { induction hs as [|h' hs IH]; simpl; [done|]. intros m _. apply IH, insert_non_empty. }
  apply H, insert_non_empty.
Qed.

(** The declared domains are the aliases less the one of the API's own zone. *)
Lemma customAliases_of cfg t ds :
  technical t -> (forall d, d ∈ ds -> ~ technical d) -> aliasesOf cfg ≡ₚ t :: ds -> customAliases cfg ≡ₚ ds.
Proof.
  intros Ht Hds Hal. assert (technicalAlias cfg = t) as Hta.
  { unfold technicalAlias. destruct (List.find _ (aliasesOf cfg)) as [x|] eqn:Ef; simpl.
    - apply find_some in Ef as [Hx Hs]. apply list_elem_of_In in Hx. rewrite Hal in Hx.
      apply elem_of_cons in Hx as [->|Hx]; [done|]. by destruct (Hds x).
    - assert (t ∈ aliasesOf cfg) as Hin by (rewrite Hal; left). apply list_elem_of_In in Hin.
      unfold technical in Ht. by rewrite (find_none _ _ Ef _ Hin) in Ht. }
  unfold customAliases. rewrite Hta. rewrite (filter_perm _ _ _ Hal). simpl. rewrite bool_decide_eq_true_2 by done. simpl.
  rewrite forallb_filter_id; [done|]. apply forallb_forall. intros x Hx%list_elem_of_In.
  rewrite bool_decide_eq_false_2; [done|]. intros ->. by apply (Hds t).
Qed.

Section Settle.
Variables (p : CdnParameters) (sec : resolvedSecrets) (cfg cfg' : CDNConfig) (w : CDNResourceWrite).
Hypothesis Hp : admissible p.
Hypothesis Hw : rw_Config w = desiredConfig p cfg sec.
Hypothesis Ha : AppliedConfig w cfg cfg'.

Lemma written : default no_config (rw_Config w) = sections p cfg sec.
Proof. rewrite Hw. apply desiredConfig_sections. Qed.

Lemma settle_cache : desired_cache p cfg' = None.
Proof.
  pose proof (ap_Cache _ _ _ Ha) as H. rewrite written in H. cbn [sections cp_Cache] in H. revert H.
  unfold desired_cache. destruct (p_Cache p) as [ca|] eqn:E; [|done]. destruct (ad_ttl _ Hp _ E) as [H1 H2].
  destruct (cache_view (cfg_Cache cfg)) as [[[e b] o] q] eqn:Ev. destruct (_ || _) eqn:Ed; simpl; intros ->.
  - cbn [cache_view wanted_cache cc_CDN cc_Browser cc_AlwaysOnline cc_QueryArgs]. rewrite queryArgsEqual_refl.
    assert (ttlOf (if 0 <? i64Deref (ca_EdgeTTLSeconds ca) then Some {| ct_TTL := {["2xx" := i64Deref (ca_EdgeTTLSeconds ca)]} |} else None)
            = i64Deref (ca_EdgeTTLSeconds ca)) as ->
      by (destruct (Z.ltb_spec 0 (i64Deref (ca_EdgeTTLSeconds ca))); simpl; [by rewrite lookup_singleton_eq|lia]).
    destruct (Z.ltb_spec 0 (i64Deref (ca_BrowserTTLSeconds ca))) as [|Hb]; [|replace (i64Deref (ca_BrowserTTLSeconds ca)) with 0 by lia];
      cbn [bt_TTL]; rewrite !Z.eqb_refl; destruct (bDeref _); simpl; repeat case_match; done.
  - by rewrite Ev, Ed.
Qed.

Lemma settle_redirect s : p_Security p = Some s -> desired_redirect s cfg' = None.
Proof.
  intros E. pose proof (ap_Redirect _ _ _ Ha) as H. rewrite written in H. cbn [sections cp_Security] in H.
  unfold desired_security in H. rewrite E in H.
  assert (forall c, match cfg_Security c with Some o => bDeref (se_Redirect o) | None => false end
                    = bDeref (key (cfg_Security c) se_Redirect)) as Hk by (intros c; by destruct (cfg_Security c)).
  unfold desired_redirect in *. rewrite Hk in *. rewrite H. clear H.
  destruct (Bool.eqb _ (bDeref (key (cfg_Security cfg) _))) eqn:Er.
  - destruct (desired_token s cfg sec); simpl; by rewrite Er.
  - destruct (desired_token s cfg sec); simpl; by rewrite eqb_reflx.
Qed.

Lemma settle_token s : p_Security p = Some s -> desired_token s cfg' sec = Absent.
Proof.
  intros E. pose proof (ap_Token _ _ _ Ha) as H. rewrite written in H. cbn [sections cp_Security] in H.
  unfold desired_security in H. rewrite E in H.
  assert (observed_token cfg' = later_raw (desired_token s cfg sec) (observed_token cfg)) as Ho
    by (destruct (desired_redirect s cfg), (desired_token s cfg sec) eqn:Et; done).
  unfold desired_token. rewrite Ho. unfold desired_token. destruct (sy_SecureToken s) as [tk|]; destruct (observed_token cfg) as [o|]; cbn [later_raw]; try done.
  - destruct (_ && _) eqn:Em; cbn [later_raw]; [by rewrite Em|].
    cbn [st_RestrictByIP st_SecretKey]. by rewrite eqb_reflx, (bool_decide_eq_true_2 (rs_secureTokenKey sec = rs_secureTokenKey sec) eq_refl), orb_true_r.
  - cbn [st_RestrictByIP st_SecretKey]. by rewrite eqb_reflx, (bool_decide_eq_true_2 (rs_secureTokenKey sec = rs_secureTokenKey sec) eq_refl), orb_true_r.
Qed.

Lemma settle_security : desired_security p cfg' sec = None.
Proof.
  unfold desired_security. destruct (p_Security p) as [s|] eqn:E; [|done]. by rewrite settle_redirect, settle_token.
Qed.

Lemma settle_robots : desired_robots_of p cfg' = None.
Proof.
  pose proof (ap_Robots _ _ _ Ha) as H. rewrite written in H. cbn [sections cp_Robots] in H. revert H.
  unfold desired_robots_of, desired_robots. destruct (p_Performance p) as [pe|] eqn:E; [|done].
  destruct (pe_Robots pe) as [ro|] eqn:Er; [|done]. pose proof (ad_robots _ Hp _ _ E Er) as Hc.
  destruct (match cfg_Robots cfg with Some _ => _ | None => _ end) as [ty co] eqn:Eo. destruct (_ && _) eqn:Ed; simpl; intros ->.
  - by rewrite Eo, Ed.
  - cbn [rb_Type rb_Content]. destruct (decide (ro_Mode ro = "custom")) as [Hm|Hm].
    + by rewrite (bool_decide_eq_true_2 _ Hm); cbn [strDeref]; rewrite !bool_decide_eq_true_2.
    + rewrite (bool_decide_eq_false_2 _ Hm), Hc by done. cbn [strDeref]. by rewrite !bool_decide_eq_true_2.
Qed.

Lemma settle_aws : desired_aws p cfg' sec = None.
Proof.
  pose proof (ap_AWS _ _ _ Ha) as H. rewrite written in H. cbn [sections cp_Origin] in H. revert H.
  unfold desired_aws. destruct (o_AWSAuthSecretRef _); [|done]. destruct (o_BucketRef _); [done|].
  assert (forall c, match cfg_Origin c with
                    | Some o => match og_AWS o with
                                | Some a => bool_decide (aws_AccessKey a = rs_awsAccessKey sec) &&
                                            bool_decide (aws_SecretKey a = rs_awsSecretKey sec)
                                | None => false
                                end
                    | None => false
                    end = match key (cfg_Origin c) og_AWS with
                          | Some a => bool_decide (aws_AccessKey a = rs_awsAccessKey sec) &&
                                      bool_decide (aws_SecretKey a = rs_awsSecretKey sec)
                          | None => false
                          end) as Hk by (intros x; by destruct (cfg_Origin x)).
  cbn [aws_AccessKey aws_SecretKey]. rewrite !Hk. destruct (match key (cfg_Origin cfg) og_AWS with Some _ => _ | None => _ end) eqn:Em.
  - intros ->. by rewrite Em.
  - cbn [ogp_AWS later_raw]. intros ->. cbn [aws_AccessKey aws_SecretKey]. by rewrite !bool_decide_eq_true_2.
Qed.

Lemma settle_delivery : desired_delivery p cfg' = None.
Proof.
  pose proof (ap_HTTP3 _ _ _ Ha) as H1. pose proof (ap_Gzip _ _ _ Ha) as H2. pose proof (ap_LargeFiles _ _ _ Ha) as H3.
  pose proof (ap_Image _ _ _ Ha) as H4. pose proof (ap_Slice _ _ _ Ha) as H5. pose proof (ap_Packaging _ _ _ Ha) as H6.
  unfold merged in *. rewrite written in *. cbn [sections cp_Delivery] in *. revert H1 H2 H3 H4 H5 H6.
  unfold desired_delivery. destruct (p_Performance p) as [pe|]; [|done].
  rewrite !(delivery_viewed pe (cfg_Delivery cfg')), !(delivery_viewed pe (cfg_Delivery cfg)).
  unfold delivery_view. destruct (_ && _) eqn:Em; cbn [key later]; intros -> -> -> -> H5 H6.
  - by rewrite H5, H6, Em.
  - cbn [key cd_HTTP3 cd_Gzip cd_LargeFiles cd_ImageOptimization cd_SliceSize cd_Packaging bDeref] in *. rewrite H5, H6, !eqb_reflx.
    destruct (Bool.eqb (bool_decide (strDerefOr _ _ = "video")) _) eqn:Ev; cbn [later];
      destruct (pe_LargeFileSlicingMB pe); simpl; rewrite ?Z.eqb_refl, ?Ev; simpl; try done; by destruct (bool_decide _).
Qed.

Lemma settle_request : desired_request_headers p cfg' = None.
Proof.
  pose proof (ap_Request _ _ _ Ha) as H. rewrite written in H. cbn [sections cp_HTTPHeaders] in H. revert H.
  unfold desiredHTTPHeaders, desired_request_headers. destruct (p_RequestHeaders p) as [hs|] eqn:E; [|done].
  change (match cfg_HTTPHeaders cfg with Some h => hh_Request h | None => ∅ end) with (observed_request (cfg_HTTPHeaders cfg)).
  change (match cfg_HTTPHeaders cfg' with Some h => hh_Request h | None => ∅ end) with (observed_request (cfg_HTTPHeaders cfg')).
  destruct (mapsEqual (wanted_headers hs) _) eqn:Em.
  - assert (observed_request (match desired_cors p cfg with
                              | Some c => Some {| hh_Request := ∅; hh_Cors := Some c |} | None => None end) = ∅) as Hn
      by (by destruct (desired_cors p cfg)).
    destruct (desired_cors p cfg); cbn [observed_request hh_Request]; rewrite bool_decide_eq_true_2 by done; intros ->; by rewrite Em.
  - cbn [observed_request hh_Request]. rewrite bool_decide_eq_false_2.
    + intros ->. by rewrite mapsEqual_refl.
    + apply wanted_headers_nonempty. intros ->. by apply (ad_headers _ Hp).
Qed.

Lemma settle_cors : desired_cors p cfg' = None.
Proof.
  pose proof (ap_Cors _ _ _ Ha) as H. rewrite written in H. cbn [sections cp_HTTPHeaders] in H.
  assert (key (cfg_HTTPHeaders cfg') hh_Cors = later (desired_cors p cfg) (key (cfg_HTTPHeaders cfg) hh_Cors)) as Hk
    by (rewrite H; unfold desiredHTTPHeaders; by destruct (desired_request_headers p cfg), (desired_cors p cfg)).
  clear H. revert Hk. unfold desired_cors. destruct (p_Cors p) as [c|]; [|done].
  change (match cfg_HTTPHeaders cfg with Some h => hh_Cors h | None => None end) with (key (cfg_HTTPHeaders cfg) hh_Cors).
  change (match cfg_HTTPHeaders cfg' with Some h => hh_Cors h | None => None end) with (key (cfg_HTTPHeaders cfg') hh_Cors).
  destruct (_ && _) eqn:Em; cbn [later]; intros ->; [by rewrite Em|].
  cbn [cors_Domains cors_Always bDeref]. by rewrite sort_strings_idemp, slicesEqual_refl, eqb_reflx.
Qed.

Lemma settle_domains : desired_domains p cfg' = None.
Proof.
  pose proof (ap_Aliases _ _ _ Ha) as H. rewrite written in H. cbn [sections cp_Domains] in H. revert H.
  unfold desired_domains. destruct (p_Domains p) as [ds|] eqn:E; [|done]. pose proof (ad_technical _ Hp ds) as Ht.
  destruct (slicesEqual _ _) eqn:Em.
  - intros H. unfold customAliases, technicalAlias in *. by rewrite H, Em.
  - destruct (sort_strings ds) as [|d l] eqn:Es.
    + exfalso. apply (ad_domains _ Hp). rewrite E. f_equal. apply Permutation_nil.
      rewrite <- Es. unfold sort_strings. by rewrite sort_by_perm.
    + intros (t & Htt & Hal). rewrite <- Es in *. unfold slicesEqual. rewrite bool_decide_eq_true_2; [done|].
      apply sort_strings_perm_eq. symmetry. apply (customAliases_of _ t); [done| |].
      * intros a Ha'. by apply Ht.
      * rewrite Hal. constructor. unfold sort_strings. apply sort_by_perm.
Qed.

Lemma settle_sections : sections p cfg' sec = no_config.
Proof.
  unfold sections, no_config, desiredHTTPHeaders. by rewrite settle_cache, settle_delivery, settle_request, settle_cors, settle_robots,
    settle_security, settle_domains, settle_aws.
Qed.
End Settle.

(** ** The resource's own fields *)

Lemma originDrifted_viewed o res cfg :
  originDrifted o res cfg =
  if negb (Bool.eqb (og_useHTTPS o) (default true (key (cfg_Origin cfg) og_UseHTTPS))) then true
  else match og_storageID o, og_server o with
       | Some sid, _ => match hr_StorageID res with Some s => negb (s =? sid) | None => true end
       | None, Some sv =>
           match hr_StorageID res, observed_servers cfg with
           | None, s :: _ => negb (bool_decide (cs_Host s = cs_Host sv)) || negb (cs_Port s =? cs_Port sv)
           | _, _ => true
           end
       | None, None => false
       end.
Proof.
  unfold originDrifted, observed_servers. destruct (cfg_Origin cfg) as [[srv [b|] aws]|]; simpl; repeat case_match; done.
Qed.

Lemma settle_origin o w res cfg res' cfg' :
  AppliedResource w res cfg res' cfg' ->
  rw_Server w = (if originDrifted o res cfg then og_server o else None) ->
  rw_StorageID w = (if originDrifted o res cfg then og_storageID o else None) ->
  rw_UseHTTPS w = (if originDrifted o res cfg then Some (og_useHTTPS o) else None) ->
  originDrifted o res' cfg' = false.
Proof.
  intros Ha H1 H2 H3. pose proof (ap_Scheme _ _ _ _ _ Ha) as Hs. pose proof (ap_Storage _ _ _ _ _ Ha) as Ht.
  pose proof (ap_Servers _ _ _ _ _ Ha) as Hv. rewrite H1, H2, H3 in *. clear H1 H2 H3.
  rewrite originDrifted_viewed in Hs, Ht, Hv |- *. rewrite Hs, Ht. clear Hs Ht. revert Hv. destruct (negb _) eqn:E1.
  - cbn [later default]. rewrite eqb_reflx. simpl. destruct (og_storageID o); [by rewrite Z.eqb_refl|].
    destruct (og_server o); [|done]. intros ->; [|done]. simpl. by rewrite bool_decide_eq_true_2, Z.eqb_refl.
  - destruct (og_storageID o) as [sid|]; [|destruct (og_server o) as [sv|]].
    + destruct (match hr_StorageID res with Some _ => _ | None => _ end) eqn:E2; cbn [later default].
      * by rewrite eqb_reflx, Z.eqb_refl.
      * by rewrite E1, E2.
    + destruct (match hr_StorageID res with Some _ => _ | None => _ end) eqn:E2; cbn [later default]; intros ->; try done.
      * rewrite eqb_reflx. simpl. by rewrite bool_decide_eq_true_2, Z.eqb_refl.
      * by rewrite E1, E2.
    + cbn [later default]. by rewrite E1.
Qed.

Lemma settle_limit p w res cfg res' cfg' :
  AppliedResource w res cfg res' cfg' -> rw_TrafficLimitBytes w = desired_limit p res -> desired_limit p res' = Absent.
Proof.
  intros Ha Hw. pose proof (ap_Limit _ _ _ _ _ Ha) as Hl. rewrite Hw in Hl. revert Hl.
  unfold desired_limit. destruct (p_TrafficLimitGBPerMonth p) as [gb|]; [|done].
  destruct (gb =? 0); [|destruct (hr_TrafficLimitBytes res) as [b|] eqn:Eb].
  - destruct (hr_TrafficLimitBytes res); cbn [later_raw]; by intros ->.
  - destruct (b =? _) eqn:E; cbn [later_raw]; intros ->; [by rewrite E|by rewrite Z.eqb_refl].
  - cbn [later_raw]. intros ->. by rewrite Z.eqb_refl.
Qed.

Lemma written_or_same (old new : string) : default old (if bool_decide (old = new) then None else Some new) = new.
Proof. by case_bool_decide. Qed.

(** C23. For declared settings that are [admissible], one PATCH is enough: once the API has
    applied it, whatever was observed before, the computation of the PATCH finds nothing
    that differs and no further PATCH is due. Admissible excludes an empty list of request
    headers or of domains (their removal is never sent, [empty_headers_never_settle]), a
    domain under the API's own zone, and what the CRD refuses: a negative TTL, and custom
    robots text under another mode. That nothing differs is the code's own comparison,
    which takes a declared header of empty value for any other header
    ([empty_header_masks_drift]). *)
Theorem settings_settle (name : string) (p : CdnParameters) (origin : option resolvedOrigin)
    (res : CDNHTTPResource) (cfg : CDNConfig) (sec : resolvedSecrets) (res' : CDNHTTPResource) (cfg' : CDNConfig) :
  admissible p ->
  AppliedResource (desired_write name p origin res cfg sec).1 res cfg res' cfg' ->
  AppliedConfig (desired_write name p origin res cfg sec).1 cfg cfg' ->
  (desired_write name p origin res' cfg' sec).2 = false.
Proof.
  intros Hp Hr Hc.
  assert (desiredConfig p cfg' sec = None) as Hcfg.
  { apply desiredConfig_clean. by apply (settle_sections p sec cfg cfg' (desired_write name p origin res cfg sec).1). }
  assert (desired_limit p res' = Absent) as Hl by (by apply (settle_limit p _ res cfg res' cfg' Hr)).
  assert (match origin with Some o => if originDrifted o res' cfg' then Some o else None | None => None end = None) as Ho.
  { destruct origin as [o|]; [|done]. erewrite settle_origin; [done|exact Hr|cbn; by destruct (originDrifted o res cfg)..]. }
  assert (hr_Name res' = effectiveName name p) as Hn
    by (rewrite (ap_Name _ _ _ _ _ Hr); apply written_or_same).
  assert (hr_Description res' = strDeref (p_Description p)) as Hd
    by (rewrite (ap_Description _ _ _ _ _ Hr); apply written_or_same).
  assert (match p_ProjectID p with Some pid => if pid =? hr_ProjectID res' then None else Some pid | None => None end = None) as Hj.
  { rewrite (ap_ProjectID _ _ _ _ _ Hr). cbn [desired_write fst rw_ProjectID]. destruct (p_ProjectID p) as [pid|]; [|done].
    destruct (pid =? hr_ProjectID res) eqn:E; cbn [default]; [by rewrite E|by rewrite Z.eqb_refl]. }
  unfold desired_write. cbn [snd]. rewrite Hcfg, Hl, Ho, Hn, Hd, Hj.
  rewrite (bool_decide_eq_true_2 (effectiveName name p = _) eq_refl), (bool_decide_eq_true_2 (strDeref (p_Description p) = _) eq_refl).
  reflexivity.
Qed.

(** ** Where it does not settle, and where it stops too early *)

(** The comparison of headers is equality where no declared value is empty. *)
Lemma mapsEqual_correct want obs :
  (forall k v, want !! k = Some v -> v <> "") -> mapsEqual want obs = true <-> want = obs.
Proof.
  intros Hv. split; [|intros <-; apply mapsEqual_refl]. unfold mapsEqual. rewrite andb_true_iff, Nat.eqb_eq, forallb_forall.
  intros [Hs Hf]. apply map_subseteq_size_eq; [|lia]. apply map_subseteq_spec. intros k v Hk.
  assert (In (k, v) (map_to_list want)) as Hin by (by apply list_elem_of_In, elem_of_map_to_list).
  apply Hf, bool_decide_eq_true in Hin. cbn [fst snd] in Hin. destruct (obs !! k); simpl in *; [by subst|]. by destruct (Hv _ _ Hk).
Qed.

(** A declared header of empty value hides another one: [X-Old] stays upstream and
    [X-New] is never written. *)
Lemma empty_header_masks_drift :
  mapsEqual (wanted_headers [{| rh_Name := "X-New"; rh_Value := "" |}]) {["X-Old" := "v"]} = true /\
  wanted_headers [{| rh_Name := "X-New"; rh_Value := "" |}] <> {["X-Old" := "v"]}.
Proof.
  split; [vm_compute; reflexivity|]. intros H. apply (f_equal (fun m => m !! "X-New")) in H. vm_compute in H. done.
Qed.

(** An empty list of headers, declared against a non-empty one upstream, is left out
    of the PATCH: every pass sends it and none changes anything. *)
Theorem empty_headers_never_settle (name : string) (p : CdnParameters) (origin : option resolvedOrigin)
    (res : CDNHTTPResource) (cfg : CDNConfig) (sec : resolvedSecrets) (res' : CDNHTTPResource) (cfg' : CDNConfig) :
  p_RequestHeaders p = Some [] -> observed_request (cfg_HTTPHeaders cfg) <> ∅ ->
  AppliedConfig (desired_write name p origin res cfg sec).1 cfg cfg' ->
  (desired_write name p origin res cfg sec).2 = true /\
  observed_request (cfg_HTTPHeaders cfg') = observed_request (cfg_HTTPHeaders cfg) /\
  (desired_write name p origin res' cfg' sec).2 = true.
Proof.
  intros Hh Hn Hc.
  assert (forall r c, observed_request (cfg_HTTPHeaders c) <> ∅ -> (desired_write name p origin r c sec).2 = true) as Hd.
  { intros r c Hc'. unfold desired_write. cbn [snd]. assert (is_Some (desiredConfig p c sec)) as Hs.
    { destruct (desiredConfig p c sec) eqn:E; [done|]. pose proof (desiredConfig_sections p c sec) as Hx. rewrite E in Hx.
      cbn [default] in Hx. apply (f_equal cp_HTTPHeaders) in Hx. cbn [sections no_config cp_HTTPHeaders] in Hx.
      unfold desiredHTTPHeaders, desired_request_headers in Hx. rewrite Hh in Hx.
      change (match cfg_HTTPHeaders c with Some h => hh_Request h | None => ∅ end) with (observed_request (cfg_HTTPHeaders c)) in Hx.
      destruct (mapsEqual _ _) eqn:Em; [|done]. exfalso. apply Hc'. apply mapsEqual_correct in Em; [done|].
      intros k v. unfold wanted_headers. simpl. by rewrite lookup_empty. }
    by rewrite (bool_decide_eq_true_2 _ Hs), !orb_true_r. }
  assert (observed_request (cfg_HTTPHeaders cfg') = observed_request (cfg_HTTPHeaders cfg)) as He.
  { rewrite (ap_Request _ _ _ Hc). assert (default no_config (rw_Config (desired_write name p origin res cfg sec).1) = sections p cfg sec)
      as -> by apply desiredConfig_sections. cbn [sections cp_HTTPHeaders].
    rewrite bool_decide_eq_true_2; [done|]. unfold desiredHTTPHeaders, desired_request_headers. rewrite Hh.
    destruct (mapsEqual _ _); [by destruct (desired_cors p cfg)|done]. }
  split_and!; [by apply Hd|done|]. apply Hd. by rewrite He.
Qed.

(** GiB past [2^33] leave the [int64]: the limit asked for is the opposite of a cap. *)
Lemma limit_bytes_overflow : limit_bytes (2 ^ 33) = - 2 ^ 63 /\ limit_bytes (2 ^ 34) = 0.
Proof. split; vm_compute; reflexivity. Qed.

Lemma limit_bytes_exact gb : 0 <= gb < 2 ^ 33 -> limit_bytes gb = gb * 2 ^ 30.
Proof. intros H. unfold limit_bytes. rewrite Z.shiftl_mul_pow2 by lia. apply int64_wrap_id. unfold int64_min, int64_max. lia. Qed.

(** ** Witnesses *)

Definition wx_origin : CdnOrigin :=
  {| o_BucketRef := None; o_Domain := Some "origin.example.com"; o_IP := None; o_HTTPS := Some true; o_Port := None;
     o_AWSAuthSecretRef := None |}.

Definition wx_params (headers : option (list CdnRequestHeader)) : CdnParameters :=
  {| p_Name := None; p_Description := Some "site"; p_ProjectID := Some 7; p_Origin := wx_origin;
     p_Cache := Some {| ca_EdgeTTLSeconds := Some 3600; ca_BrowserTTLSeconds := None; ca_AlwaysOnline := Some true;
                        ca_QueryStringCacheKeyMode := None; ca_QueryStringCacheKeyParams := [] |};
     p_Security := None; p_Performance := None; p_Cors := None; p_Domains := Some ["cdn.example.com"]; p_SSL := None;
     p_TrafficLimitGBPerMonth := Some 10; p_RequestHeaders := headers |}.

Definition wx_resource (description : string) (project : Z) (limit : option Z) : CDNHTTPResource :=
  {| hr_ID := 5; hr_Name := "web"; hr_Description := description; hr_Status := "active"; hr_Source := "origin.example.com";
     hr_CDNDomain := "abc.cdn.twcstorage.ru"; hr_PresetID := 3807; hr_ProjectID := project; hr_StorageID := None;
     hr_TrafficLimitBytes := limit; hr_TrafficUsage := None |}.

Definition wx_config (cache : option CDNConfigCache) (aliases : list string) (request : gmap string string) : CDNConfig :=
  {| cfg_Cache := cache; cfg_Delivery := None; cfg_HTTPHeaders := Some {| hh_Request := request; hh_Cors := None |};
     cfg_Robots := None; cfg_Security := None; cfg_Domains := Some {| dm_Aliases := aliases |};
     cfg_Origin := Some {| og_Servers := [{| cs_Host := "origin.example.com"; cs_Port := 443 |}]; og_UseHTTPS := Some true;
                           og_AWS := None |} |}.

Definition wx_secrets : resolvedSecrets :=
  {| rs_secureTokenKey := ""; rs_awsAccessKey := ""; rs_awsSecretKey := ""; rs_certPEM := ""; rs_keyPEM := "";
     rs_certIdentity := None |}.

Definition wx_cache : CDNConfigCache :=
  {| cc_CDN := Some {| ct_TTL := {["2xx" := 3600]} |}; cc_Browser := None;
     cc_AlwaysOnline := Some {| ao_StaleConditions := defaultStaleConditions |}; cc_QueryArgs := None |}.

Definition wx_domain : resolvedOrigin :=
  {| og_server := Some {| cs_Host := "origin.example.com"; cs_Port := 443 |}; og_storageID := None; og_useHTTPS := true |}.

Lemma patch_touches_only_declared_witness :
  forall c, rw_Config (desired_write "web" (wx_params None) (Some wx_domain) (wx_resource "" 0 None)
                         (wx_config None ["abc.cdn.twcstorage.ru"] {["X-A" := "1"]}) wx_secrets).1 = Some c ->
  cp_Security c = None.
Proof.
  intros c H. destruct (patch_touches_only_declared "web" (wx_params None) (Some wx_domain) _ _ wx_secrets c H) as (_ & Hs & _).
  by apply Hs.
Defined.

Lemma settings_settle_witness :
  (desired_write "web" (wx_params None) (Some wx_domain) (wx_resource "site" 7 (Some (10 * 2 ^ 30)))
     (wx_config (Some wx_cache) ["abc.cdn.twcstorage.ru"; "cdn.example.com"] {["X-A" := "1"]}) wx_secrets).2 = false.
Proof.
  apply (settings_settle "web" (wx_params None) (Some wx_domain) (wx_resource "" 0 None)
           (wx_config None ["abc.cdn.twcstorage.ru"] {["X-A" := "1"]})).
  - split; try done.
    + intros ca [= <-]. simpl. lia.
    + intros ds d [= <-] ->%list_elem_of_singleton. vm_compute. done.
  - split; try (vm_compute; reflexivity).
  - split; try (vm_compute; reflexivity). vm_compute. exists "abc.cdn.twcstorage.ru". by split.
Defined.

Lemma empty_headers_never_settle_witness :
  (desired_write "web" (wx_params (Some [])) (Some wx_domain) (wx_resource "site" 7 (Some (10 * 2 ^ 30)))
     (wx_config (Some wx_cache) ["abc.cdn.twcstorage.ru"; "cdn.example.com"] {["X-A" := "1"]}) wx_secrets).2 = true.
Proof.
  apply (empty_headers_never_settle "web" (wx_params (Some [])) (Some wx_domain)
    (wx_resource "site" 7 (Some (10 * 2 ^ 30)))
    (wx_config (Some wx_cache) ["abc.cdn.twcstorage.ru"; "cdn.example.com"] {["X-A" := "1"]}) wx_secrets
    (wx_resource "site" 7 (Some (10 * 2 ^ 30)))
    (wx_config (Some wx_cache) ["abc.cdn.twcstorage.ru"; "cdn.example.com"] {["X-A" := "1"]})).
  - reflexivity.
  - vm_compute. done.
  - split; vm_compute; reflexivity.
Defined.
