(* ===== verification/CdnSSL.v ===== *)
(** * CdnSSL: the certificate slot of a CDN resource

    [internal/controller/cdn/ssl.go]: the identity of a certificate, the owner
    marker, the fingerprint that resets the retry budget, and [computeSSL], which
    derives the one certificate action of a pass. Times are nanoseconds. *)

From S2P Require Import Prelude Errors Timeweb Shared Effects Cdn.

(** ** Constants *)

Definition sslStatePending : string := "pending".
Definition sslStateIssuing : string := "issuing".
Definition sslStateBound : string := "bound".
Definition sslStateFailed : string := "failed".
Definition sslStateExhausted : string := "exhausted".

Definition maxIssueAttempts : Z := 4.
Definition issueSpacing : Z := 15 * 60 * 10 ^ 9.

(** [sslAction]: the kind and, where it has one, its target. *)
Inductive sslAction : Type :=
| ActionNone
| ActionIssue
| ActionUpload
| ActionBind (certID : Z)
| ActionUnbind
| ActionDeleteOld (certID : Z).

#[export] Instance sslAction_eq_dec : EqDecision sslAction.
Proof. solve_decision. Defined.

(** ** Identities and the owner marker *)

Definition certIdentity_equal (a b : certIdentity) : bool :=
  bool_decide (ci_cn a = ci_cn b) && bool_decide (ci_expiryDay a = ci_expiryDay b) && slicesEqual (ci_domains a) (ci_domains b).

Definition day_of (t : string) : string := if (10 <=? String.length t)%nat then take_str 10 t else t.

Definition identityOf (c : CDNCertificate) : certIdentity :=
  {| ci_cn := ce_CN c; ci_domains := sort_strings (ce_Domains c); ci_expiryDay := day_of (ce_ExpiresAt c) |}.

Record x509_certificate := { x5_CommonName : string; x5_DNSNames : list string; x5_NotAfterDay : string }.

(** [parseTLSCertificate], over the PEM and X.509 decoders: the first block's type and
    bytes, and what a certificate says. *)
Definition parseTLSCertificate (pem_decode : string -> option (string * string))
    (parse_x509 : string -> result string x509_certificate) (crt : string) : result error certIdentity :=
  match pem_decode crt with
  | Some ("CERTIFICATE", block) =>
      match parse_x509 block with
      | Err e => Err (ErrorString ("parse tls.crt: " +:+ e))
      | Ok x =>
          let domains := match x5_DNSNames x with
                         | [] => if bool_decide (x5_CommonName x = "") then [] else [x5_CommonName x]
                         | ds => ds
                         end in
          Ok {| ci_cn := x5_CommonName x; ci_domains := sort_strings domains; ci_expiryDay := x5_NotAfterDay x |}
      end
  | _ => Err (ErrorString "tls.crt does not start with a PEM CERTIFICATE block")
  end.

(** [CdnCertificateStatus]: the fields that are set. *)
Record CdnCertificateStatus := {
  cst_ID : option Z;
  cst_Type : option string;
  cst_CN : option string;
  cst_ExpiresAt : option string }.

(** A field the marker does not have does not tell certificates apart. *)
Definition agrees (m : option string) (v : string) : bool :=
  match m with Some x => bool_decide (x = v) | None => true end.

Definition managedMatches (m : option CdnCertificateStatus) (c : CDNCertificate) : bool :=
  match m with
  | None => false
  | Some m =>
      bool_decide (cst_ID m = Some (ce_ID c)) && agrees (cst_Type m) (ce_Type c) && agrees (cst_CN m) (ce_CN c) &&
      match cst_ExpiresAt m with
      | Some e =>
          if (10 <=? String.length e)%nat && (10 <=? String.length (ce_ExpiresAt c))%nat
          then bool_decide (take_str 10 e = take_str 10 (ce_ExpiresAt c)) else true
      | None => true
      end
  end.

Definition markerFor (c : CDNCertificate) : CdnCertificateStatus :=
  {| cst_ID := Some (ce_ID c); cst_Type := Some (ce_Type c); cst_CN := Some (ce_CN c); cst_ExpiresAt := Some (ce_ExpiresAt c) |}.

(** ** One action per pass *)

Record sslInputs := {
  in_mode : string;
  in_desired : option certIdentity;
  in_boundID : option Z;
  in_managed : option CdnCertificateStatus;
  in_certificates : list CDNCertificate;
  in_tasks : list CDNCertificateTask;
  in_domainsAttached : bool;
  in_prevState : string;
  in_budgetKey : string;
  in_prevBudgetKey : string;
  in_attempts : Z;
  in_lastAttempt : option Z;
  in_now : Z }.

Record sslOutcome := {
  out_action : sslAction;
  out_state : string;
  out_attempts : Z;
  out_managed : option CdnCertificateStatus }.

(** The latest task is the one of the greatest id. *)
Definition latestTask (tasks : list CDNCertificateTask) : option CDNCertificateTask :=
  fold_left (fun latest t =>
    match latest with
    | None => Some t
    | Some l => if ta_ID l <? ta_ID t then Some t else latest
    end) tasks None.

Definition is_le (c : CDNCertificate) : bool := bool_decide (ce_Type c = "lets_encrypt").

Definition marker_or (m : option CdnCertificateStatus) (c : CDNCertificate) : CdnCertificateStatus :=
  match m with Some m => m | None => markerFor c end.

(** A bound certificate: our old one goes first, then the copies of the bound one. *)
Definition custom_cleanup (certs : list CDNCertificate) (desired : certIdentity) (bound : CDNCertificate)
    (managed : CdnCertificateStatus) (attempts : Z) : sslOutcome :=
  let finish (managed : CdnCertificateStatus) :=
    {| out_action :=
         match List.find (fun c => negb (ce_ID c =? ce_ID bound) && certIdentity_equal (identityOf c) desired) certs with
         | Some c => ActionDeleteOld (ce_ID c)
         | None => ActionNone
         end;
       out_state := sslStateBound; out_attempts := attempts; out_managed := Some managed |} in
  if match cst_ID managed with Some i => negb (i =? ce_ID bound) | None => false end
  then match List.find (managedMatches (Some managed)) certs with
       | Some c => {| out_action := ActionDeleteOld (ce_ID c); out_state := sslStateBound; out_attempts := attempts;
                      out_managed := Some managed |}
       | None => finish (markerFor bound)
       end
  else finish managed.

Definition compute_custom (i : sslInputs) (attempts : Z) : sslOutcome :=
  let out (st : string) (a : sslAction) :=
    {| out_action := a; out_state := st; out_attempts := attempts; out_managed := in_managed i |} in
  match in_desired i with
  | None => out sslStateFailed ActionNone
  | Some d =>
      match List.find (fun c => certIdentity_equal (identityOf c) d) (in_certificates i) with
      | None =>
          if bool_decide (in_budgetKey i = in_prevBudgetKey i) && bool_decide (in_prevState i = sslStateFailed)
          then out sslStateFailed ActionNone else out sslStatePending ActionUpload
      | Some m =>
          if bool_decide (in_boundID i = Some (ce_ID m))
          then custom_cleanup (in_certificates i) d m (marker_or (in_managed i) m) attempts
          else out sslStatePending (ActionBind (ce_ID m))
      end
  end.

(** What stands in the way of an issuance: the bound certificate, when it is listed and
    is not from Let's Encrypt, or a listed one that is ours. *)
Definition le_slot (i : sslInputs) : option (string * sslAction) :=
  match match in_boundID i with
        | Some b => List.find (fun c => (ce_ID c =? b) && negb (is_le c)) (in_certificates i)
        | None => None
        end with
  | Some c => if managedMatches (in_managed i) c then Some (sslStatePending, ActionUnbind) else Some (sslStateFailed, ActionNone)
  | None =>
      match List.find (fun c => managedMatches (in_managed i) c && negb (is_le c)) (in_certificates i) with
      | Some c => Some (sslStatePending, ActionDeleteOld (ce_ID c))
      | None => None
      end
  end.

Definition le_issue (i : sslInputs) (attempts : Z) : string * sslAction :=
  if match latestTask (in_tasks i) with Some t => bool_decide (ta_Status t = "in_progress") | None => false end
  then (sslStateIssuing, ActionNone)
  else if negb (in_domainsAttached i) then (sslStatePending, ActionNone)
  else if maxIssueAttempts <=? attempts then (sslStateExhausted, ActionNone)
  else if (0 <? attempts) && match in_lastAttempt i with Some t => in_now i - t <? issueSpacing | None => false end
  then (sslStateFailed, ActionNone)
  else (sslStatePending, ActionIssue).

Definition compute_le (i : sslInputs) (attempts : Z) : sslOutcome :=
  let out (r : string * sslAction) :=
    {| out_action := r.2; out_state := r.1; out_attempts := attempts; out_managed := in_managed i |} in
  match List.find is_le (in_certificates i) with
  | Some le =>
      if bool_decide (in_boundID i = Some (ce_ID le))
      then {| out_action := ActionNone; out_state := sslStateBound; out_attempts := attempts;
              out_managed := Some (marker_or (in_managed i) le) |}
      else out (sslStatePending, ActionBind (ce_ID le))
  | None => match le_slot i with Some r => out r | None => out (le_issue i attempts) end
  end.

Definition compute_none (i : sslInputs) (attempts : Z) : sslOutcome :=
  match in_boundID i with
  | Some _ => {| out_action := ActionUnbind; out_state := sslStatePending; out_attempts := attempts; out_managed := in_managed i |}
  | None =>
      match List.find (managedMatches (in_managed i)) (in_certificates i) with
      | Some c => {| out_action := ActionDeleteOld (ce_ID c); out_state := sslStatePending; out_attempts := attempts;
                     out_managed := in_managed i |}
      | None => {| out_action := ActionNone; out_state := ""; out_attempts := attempts; out_managed := None |}
      end
  end.

Definition computeSSL (i : sslInputs) : sslOutcome :=
  let attempts := if bool_decide (in_budgetKey i = in_prevBudgetKey i) then in_attempts i else 0 in
  if bool_decide (in_mode i = "custom") then compute_custom i attempts
  else if bool_decide (in_mode i = "letsEncrypt") then compute_le i attempts
  else if bool_decide (in_mode i = "none") then compute_none i attempts
  else {| out_action := ActionNone; out_state := ""; out_attempts := attempts; out_managed := in_managed i |}.

(** ** The budget's fingerprint: FNV-1a over the declaration, in hexadecimal *)

Definition fnv_step (h : Z) (b : ascii) : Z := Z.lxor h (byte_val b) * 1099511628211 mod 2 ^ 64.

Fixpoint fnv_from (h : Z) (s : string) : Z :=
  match s with EmptyString => h | String b s => fnv_from (fnv_step h b) s end.

Definition fnv64a (s : string) : Z := fnv_from 14695981039346656037 s.

Fixpoint hex_digits (fuel : nat) (n : Z) (acc : string) : string :=
  match fuel with
  | O => acc
  | S fuel =>
      let acc := hex_digit (n mod 16) +:+ acc in
      if n / 16 =? 0 then acc else hex_digits fuel (n / 16) acc
  end.

(** [strconv.FormatUint(h, 16)]: sixteen digits hold 64 bits. *)
Definition fmt_hex (n : Z) : string := hex_digits 16 n "".

Definition sslBudgetKey (domains : list string) (ssl : option CdnSSL) (desired : option certIdentity) : string :=
  fmt_hex (fnv64a (join "," (sort_strings domains) +:+
    match ssl with Some s => "|" +:+ ssl_Mode s | None => "" end +:+
    match desired with
    | Some d => "|" +:+ ci_cn d +:+ "|" +:+ join "," (ci_domains d) +:+ "|" +:+ ci_expiryDay d
    | None => ""
    end)).

Example fnv_empty : fmt_hex (fnv64a "") = "cbf29ce484222325".
Proof. vm_compute. reflexivity. Qed.

Example fnv_a : fmt_hex (fnv64a "a") = "af63dc4c8601ec8c".
Proof. vm_compute. reflexivity. Qed.
