(* ===== verification/CdnExternal.v ===== *)
(** * CdnExternal: the CDN controller

    [internal/controller/cdn/external.go] and the calling half of [ssl.go]:
    [Observe] with the purge and retry annotations, [Create], [Update] and [Delete].
    The clock, the Kubernetes reads, the patch that removes an annotation and the PEM
    and X.509 decoders are parameters. *)

From S2P Require Import Prelude Errors Timeweb Shared Effects Lifecycle Cdn CdnSSL.
From Stdlib Require Import QArith.
#[local] Open Scope Z_scope.

(** ** Calls and the managed resource *)

Inductive cdn_request : Type :=
| ListCDNHTTPResources
| GetCDNHTTPResource (id : string)
| GetCDNHTTPResourceConfiguration (id : string)
| CreateCDNHTTPResource (body : CDNResourceWrite)
| PatchCDNHTTPResource (id : string) (body : CDNResourceWrite)
| DeleteCDNHTTPResource (id : string)
| ClearCDNCache (id purgeType : string) (paths : list string)
| ListCDNPresets
| ListCDNCertificates (resourceID : string)
| ListAllCDNCertificates
| ListCDNCertificateTasks (resourceID : string)
| UploadCDNCertificate (certPEM keyPEM : string)
| IssueCDNCertificate (resourceID : Z)
| DeleteCDNCertificate (id : string).

Definition cdn_reply (q : cdn_request) : Type :=
  match q with
  | ListCDNHTTPResources => list CDNHTTPResource
  | GetCDNHTTPResource _ | CreateCDNHTTPResource _ => CDNHTTPResource
  | GetCDNHTTPResourceConfiguration _ => CDNConfig
  | ListCDNPresets => list CDNPreset
  | ListCDNCertificates _ | ListAllCDNCertificates => list CDNCertificate
  | ListCDNCertificateTasks _ => list CDNCertificateTask
  | _ => unit
  end.

Record CdnSettingsMirror := {
  mi_Cache : option CdnCache;
  mi_Security : option CdnSecurity;
  mi_Performance : option CdnPerformance;
  mi_Cors : option CdnCors;
  mi_RequestHeaderNames : list string }.

Record CdnTrafficUsage := {
  us_Requests : option Z;
  us_OutgoingTrafficBytes : option Z;
  us_CacheRatio : option string }.

Record CdnSSLStatus := {
  ss_State : option string;
  ss_IssueAttempts : option Z;
  ss_LastIssueAttemptAt : option Z;
  ss_BudgetKey : option string }.

Record CdnObservation := {
  co_ID : option Z;
  co_TechnicalDomain : option string;
  co_State : option string;
  co_Source : option string;
  co_LockedPresetID : option Z;
  co_LastPurgedAt : option Z;
  co_Domains : list string;
  co_ObservedSettings : option CdnSettingsMirror;
  co_TrafficUsage : option CdnTrafficUsage;
  co_Certificate : option CdnCertificateStatus;
  co_ManagedCertificate : option CdnCertificateStatus;
  co_SSL : option CdnSSLStatus;
  co_TrafficLimitBytes : option Z }.

(** What the operator declares: the spec, and the annotations that trigger actions. *)
Record CdnDeclared := { de_ForProvider : CdnParameters; de_Annotations : gmap string string }.

Definition PurgeAnnotation : string := "cdn.timeweb.crossplane.io/purge".
Definition RetrySSLAnnotation : string := "cdn.timeweb.crossplane.io/retry-ssl".

(** ** Status *)

Definition settingsMirror (cfg : CDNConfig) : CdnSettingsMirror :=
  {| mi_Cache :=
       match cfg_Cache cfg with
       | Some c =>
           Some {| ca_EdgeTTLSeconds := Some (ttlOf (cc_CDN c));
                   ca_BrowserTTLSeconds := Some (match cc_Browser c with Some b => bt_TTL b | None => 0 end);
                   ca_AlwaysOnline := Some (bool_decide (is_Some (cc_AlwaysOnline c)));
                   ca_QueryStringCacheKeyMode := match cc_QueryArgs c with Some q => Some (qa_Mode q) | None => None end;
                   ca_QueryStringCacheKeyParams := match cc_QueryArgs c with Some q => qa_List q | None => [] end |}
       | None => None
       end;
     mi_Security :=
       match cfg_Security cfg with
       | Some s => Some {| sy_ForceHTTPS := se_Redirect s; sy_SecureToken := None |}
       | None => None
       end;
     mi_Performance :=
       match cfg_Delivery cfg with
       | Some d =>
           Some {| pe_HTTP3 := cd_HTTP3 d; pe_Gzip := cd_Gzip d;
                   pe_LargeFileSlicingMB := if bDeref (cd_LargeFiles d) then cd_SliceSize d else None;
                   pe_ContentOptimization :=
                     Some (if bDeref (cd_ImageOptimization d) then "images"
                           else if MP4Enabled (cd_Packaging d) then "video" else "off");
                   pe_Robots :=
                     match cfg_Robots cfg with
                     | Some r => match rb_Type r with
                                 | Some t => Some {| ro_Mode := t; ro_Custom := rb_Content r |}
                                 | None => None
                                 end
                     | None => None
                     end |}
       | None => None
       end;
     mi_Cors :=
       match cfg_HTTPHeaders cfg with
       | Some h => match hh_Cors h with
                   | Some c => Some {| cr_Origins := cors_Domains c; cr_AlwaysAddHeader := cors_Always c |}
                   | None => None
                   end
       | None => None
       end;
     mi_RequestHeaderNames :=
       match cfg_HTTPHeaders cfg with
       | Some h => sort_strings (map fst (map_to_list (hh_Request h)))
       | None => []
       end |}.

Definition nonempty (s : string) (old : option string) : option string := if bool_decide (s = "") then old else Some s.

(** The mirror of what was read; a value that is absent upstream leaves the old one
    where the code does not assign. *)
Definition populate (res : CDNHTTPResource) (cfg : CDNConfig) (o : CdnObservation) : CdnObservation :=
  {| co_ID := Some (hr_ID res);
     co_TechnicalDomain := nonempty (hr_CDNDomain res) (co_TechnicalDomain o);
     co_State := Some (hr_Status res);
     co_Source := Some (hr_Source res);
     co_LockedPresetID :=
       match co_LockedPresetID o with
       | Some p => Some p
       | None => if hr_PresetID res =? 0 then None else Some (hr_PresetID res)
       end;
     co_LastPurgedAt := co_LastPurgedAt o;
     co_Domains := match cfg_Domains cfg with Some d => dm_Aliases d | None => co_Domains o end;
     co_ObservedSettings := Some (settingsMirror cfg);
     co_TrafficUsage :=
       match hr_TrafficUsage res with
       | Some u => Some {| us_Requests := Some (tu_Requests u); us_OutgoingTrafficBytes := Some (tu_OutgoingTraffic u);
                           us_CacheRatio := Some (tu_CacheRatio u) |}
       | None => co_TrafficUsage o
       end;
     co_Certificate := co_Certificate o;
     co_ManagedCertificate := co_ManagedCertificate o;
     co_SSL := co_SSL o;
     co_TrafficLimitBytes := hr_TrafficLimitBytes res |}.

Definition with_purged (t : Z) (o : CdnObservation) : CdnObservation :=
  {| co_ID := co_ID o; co_TechnicalDomain := co_TechnicalDomain o; co_State := co_State o; co_Source := co_Source o;
     co_LockedPresetID := co_LockedPresetID o; co_LastPurgedAt := Some t; co_Domains := co_Domains o;
     co_ObservedSettings := co_ObservedSettings o; co_TrafficUsage := co_TrafficUsage o; co_Certificate := co_Certificate o;
     co_ManagedCertificate := co_ManagedCertificate o; co_SSL := co_SSL o; co_TrafficLimitBytes := co_TrafficLimitBytes o |}.

Definition with_certificates (current managed : option CdnCertificateStatus) (ssl : option CdnSSLStatus) (o : CdnObservation)
  : CdnObservation :=
  {| co_ID := co_ID o; co_TechnicalDomain := co_TechnicalDomain o; co_State := co_State o; co_Source := co_Source o;
     co_LockedPresetID := co_LockedPresetID o; co_LastPurgedAt := co_LastPurgedAt o; co_Domains := co_Domains o;
     co_ObservedSettings := co_ObservedSettings o; co_TrafficUsage := co_TrafficUsage o; co_Certificate := current;
     co_ManagedCertificate := managed; co_SSL := ssl; co_TrafficLimitBytes := co_TrafficLimitBytes o |}.

Definition with_created (preset : Z) (domain : string) (o : CdnObservation) : CdnObservation :=
  {| co_ID := co_ID o; co_TechnicalDomain := nonempty domain (co_TechnicalDomain o); co_State := co_State o;
     co_Source := co_Source o; co_LockedPresetID := Some preset; co_LastPurgedAt := co_LastPurgedAt o;
     co_Domains := co_Domains o; co_ObservedSettings := co_ObservedSettings o; co_TrafficUsage := co_TrafficUsage o;
     co_Certificate := co_Certificate o; co_ManagedCertificate := co_ManagedCertificate o; co_SSL := co_SSL o;
     co_TrafficLimitBytes := co_TrafficLimitBytes o |}.

(** [ensureSSLStatus], and the status it leaves. *)
Definition ssl_status (o : CdnObservation) : CdnSSLStatus :=
  match co_SSL o with
  | Some s => s
  | None => {| ss_State := None; ss_IssueAttempts := None; ss_LastIssueAttemptAt := None; ss_BudgetKey := None |}
  end.

Definition with_ssl (s : CdnSSLStatus) (o : CdnObservation) : CdnObservation :=
  with_certificates (co_Certificate o) (co_ManagedCertificate o) (Some s) o.

(** The retry annotation resets the budget. *)
Definition reset_budget (o : CdnObservation) : CdnObservation :=
  with_ssl {| ss_State := ss_State (ssl_status o); ss_IssueAttempts := Some 0; ss_LastIssueAttemptAt := None;
              ss_BudgetKey := ss_BudgetKey (ssl_status o) |} o.

Definition with_attempt (attempts : Z) (at_ : Z) (o : CdnObservation) : CdnObservation :=
  with_ssl {| ss_State := ss_State (ssl_status o); ss_IssueAttempts := Some attempts; ss_LastIssueAttemptAt := Some at_;
              ss_BudgetKey := ss_BudgetKey (ssl_status o) |} o.

Definition with_state (st : string) (o : CdnObservation) : CdnObservation :=
  with_ssl {| ss_State := Some st; ss_IssueAttempts := ss_IssueAttempts (ssl_status o);
              ss_LastIssueAttemptAt := ss_LastIssueAttemptAt (ssl_status o); ss_BudgetKey := ss_BudgetKey (ssl_status o) |} o.

Definition without_managed (o : CdnObservation) : CdnObservation := with_certificates (co_Certificate o) None (co_SSL o) o.

(** ** The SSL inputs and their mirror *)

Definition domains_of (p : CdnParameters) : list string := match p_Domains p with Some ds => ds | None => [] end.
Definition mode_of (p : CdnParameters) : string := match p_SSL p with Some s => ssl_Mode s | None => "" end.

Definition sslInputsFor (p : CdnParameters) (o : CdnObservation) (cfg : CDNConfig) (certs : list CDNCertificate)
    (tasks : list CDNCertificateTask) (sec : resolvedSecrets) (now : Z) : sslInputs :=
  {| in_mode := mode_of p;
     in_desired := rs_certIdentity sec;
     in_boundID := match cfg_Security cfg with Some s => se_CertificateID s | None => None end;
     in_managed := co_ManagedCertificate o;
     in_certificates := certs;
     in_tasks := tasks;
     in_domainsAttached := domainsAttached (domains_of p) cfg;
     in_prevState := match co_SSL o with Some s => strDeref (ss_State s) | None => "" end;
     in_budgetKey := sslBudgetKey (domains_of p) (p_SSL p) (rs_certIdentity sec);
     in_prevBudgetKey := match co_SSL o with Some s => strDeref (ss_BudgetKey s) | None => "" end;
     in_attempts := match co_SSL o with Some s => i64Deref (ss_IssueAttempts s) | None => 0 end;
     in_lastAttempt := match co_SSL o with Some s => ss_LastIssueAttemptAt s | None => None end;
     in_now := now |}.

Definition bound_certificate (cfg : CDNConfig) (certs : list CDNCertificate) : option CdnCertificateStatus :=
  match match cfg_Security cfg with Some s => se_CertificateID s | None => None end with
  | Some id => match List.find (fun c => ce_ID c =? id) certs with Some c => Some (markerFor c) | None => None end
  | None => None
  end.

Definition mirrorSSL (p : CdnParameters) (cfg : CDNConfig) (certs : list CDNCertificate) (out : sslOutcome)
    (sec : resolvedSecrets) (o : CdnObservation) : CdnObservation :=
  with_certificates (bound_certificate cfg certs) (out_managed out)
    (Some {| ss_State := if bool_decide (out_state out = "") then None else Some (out_state out);
             ss_IssueAttempts := Some (out_attempts out);
             ss_LastIssueAttemptAt := ss_LastIssueAttemptAt (ssl_status o);
             ss_BudgetKey := Some (sslBudgetKey (domains_of p) (p_SSL p) (rs_certIdentity sec)) |}) o.

(** ** The purge annotation *)

Definition purge_entry (p : string) : result error string :=
  if has_prefix "/" p then Ok p
  else Err (ErrorString ("purge entry " +:+ quote p +:+ " must start with '/' (use " +:+ quote "all" +:+ " for a full purge)")).

Fixpoint purge_entries (raws : list string) : result error (list string) :=
  match raws with
  | [] => Ok []
  | r :: rest => p ← purge_entry (trim_space r); ps ← purge_entries rest; Ok (p :: ps)
  end.

Definition parsePurge (val : string) : result error (string * list string) :=
  if bool_decide (val = "all") then Ok ("full", [])
  else if bool_decide (trim_space val = "") then
    Err (ErrorString ("purge annotation is empty; use " +:+ quote "all" +:+ " or a comma-separated list of /-rooted paths"))
  else ps ← purge_entries (split_byte (byte_of 44) val); Ok ("partial", ps).

(** ** Secrets *)
Section Secrets.
(** The data of a Secret of the Cdn's namespace. *)
Variable read_secret : string -> result error (gmap string string).
Variable pem_decode : string -> option (string * string).
Variable parse_x509 : string -> result string x509_certificate.

Definition secretValue (name key : string) : result error string :=
  match read_secret name with
  | Err e => Err (wrap_pre ("secret " +:+ quote name +:+ ": ") e)
  | Ok data =>
      let v := strDeref (data !! key) in
      if bool_decide (v = "")
      then Err (ErrorString ("secret " +:+ quote name +:+ ": key " +:+ quote key +:+ " missing or empty"))
      else Ok v
  end.

Definition prefixed {A} (pre : string) (r : result error A) : result error A :=
  match r with Ok a => Ok a | Err e => Err (wrap_pre pre e) end.

Definition token_secret (p : CdnParameters) : result error string :=
  match p_Security p with
  | Some s =>
      match sy_SecureToken s with
      | Some tk =>
          prefixed "secureToken: "
            (secretValue (csr_Name (tk_SecretRef tk)) (match csr_Key (tk_SecretRef tk) with Some k => k | None => "secret" end))
      | None => Ok ""
      end
  | None => Ok ""
  end.

Definition aws_secret (p : CdnParameters) : result error (string * string) :=
  match o_AWSAuthSecretRef (p_Origin p), o_BucketRef (p_Origin p) with
  | Some r, None =>
      ak ← prefixed "awsAuth: " (secretValue (csr_Name r) "access_key");
      sk ← prefixed "awsAuth: " (secretValue (csr_Name r) "secret_key");
      Ok (ak, sk)
  | _, _ => Ok ("", "")
  end.

Definition certificate_secret (p : CdnParameters) : result error (string * string * option certIdentity) :=
  match p_SSL p with
  | Some s =>
      match ssl_CertificateSecretRef s with
      | Some r =>
          if bool_decide (ssl_Mode s = "custom") then
            crt ← prefixed "ssl certificate: " (secretValue (csr_Name r) "tls.crt");
            key ← prefixed "ssl certificate: " (secretValue (csr_Name r) "tls.key");
            id ← prefixed "ssl certificate: " (parseTLSCertificate pem_decode parse_x509 crt);
            Ok (crt, key, Some id)
          else Ok ("", "", None)
      | None => Ok ("", "", None)
      end
  | None => Ok ("", "", None)
  end.

Definition resolveSpecSecrets (p : CdnParameters) : result error resolvedSecrets :=
  token ← token_secret p;
  aws ← aws_secret p;
  cert ← certificate_secret p;
  Ok {| rs_secureTokenKey := token; rs_awsAccessKey := aws.1; rs_awsSecretKey := aws.2; rs_certPEM := cert.1.1;
        rs_keyPEM := cert.1.2; rs_certIdentity := cert.2 |}.
End Secrets.

Definition connectionDetails (res : CDNHTTPResource) : gmap string string :=
  if bool_decide (hr_CDNDomain res = "") then ∅
  else <["technical_domain" := hr_CDNDomain res]> (<["url" := "https://" +:+ hr_CDNDomain res]> ∅).

(** The cheapest preset, the one of the least id among those. *)
Definition cheaper (best p : CDNPreset) : CDNPreset :=
  if negb (Qle_bool (cpr_Cost best) (cpr_Cost p)) || (Qeq_bool (cpr_Cost p) (cpr_Cost best) && (cpr_ID p <? cpr_ID best))
  then p else best.

Definition cheapest (ps : list CDNPreset) : Z :=
  match ps with [] => DefaultCDNPresetID | p :: rest => cpr_ID (fold_left cheaper rest p) end.

(** ** The external client *)
Section CdnExternal.
Context `{R : CrossplaneRuntime} {U : Upstream cdn_request cdn_reply}.
Variable recorder : bool.
(** The object's name, and whether it is being deleted. *)
Variable name : string.
Variable deleting : bool.
(** [metav1.Now], the Secrets, the origin S3Bucket (Ready, upstream id), and the merge
    patch that removes an annotation. *)
Variable now : World -> Z.
Variable read_secret : World -> string -> result error (gmap string string).
Variable read_bucket : World -> string -> result string (bool * option Z).
Variable kube_patch : World -> string -> result error unit.
Variable pem_decode : string -> option (string * string).
Variable parse_x509 : string -> result string x509_certificate.

Notation cdn := (managed CdnDeclared CdnObservation).
Notation CM := (M U cdn).

Definition spec (cr : cdn) : CdnParameters := de_ForProvider (ForProvider cr).

Definition map_status (f : CdnObservation -> CdnObservation) : CM unit := modify (fun cr => set_at_provider (f (AtProvider cr)) cr).

Definition without_annotation (key : string) (cr : cdn) : cdn :=
  {| ExternalName := ExternalName cr;
     ForProvider := {| de_ForProvider := spec cr; de_Annotations := delete key (de_Annotations (ForProvider cr)) |};
     AtProvider := AtProvider cr; Conditions := Conditions cr; Events := Events cr |}.

(** The annotation is gone from the object in hand even when the patch fails. *)
Definition removeAnnotation (key : string) : CM unit :=
  modify (without_annotation key);;
  r ← consult (fun w => kube_patch w key);
  match r with
  | Ok _ => mret tt
  | Err e => throw (wrap_pre ("cdn: remove " +:+ key +:+ " annotation: ") e)
  end.

(** *** Reads *)

Definition resolveOrigin : CM resolvedOrigin :=
  cr ← get;
  r ← consult (fun w => resolve_origin (read_bucket w) (p_Origin (spec cr)));
  match r with
  | Ok o => mret o
  | Err msg =>
      put_condition (ReadyFalse ReasonOriginNotReady msg);;
      throw (wrap_post (Sentinel ErrOriginNotReady) (": " +:+ msg))
  end.

Definition buildDesiredWrite (res : CDNHTTPResource) (cfg : CDNConfig) (sec : resolvedSecrets) : CM (CDNResourceWrite * bool) :=
  origin ← (if deleting then mret None
            else r ← try resolveOrigin; mret (match r with Ok o => Some o | Err _ => None end));
  cr ← get;
  mret (desired_write name (spec cr) origin res cfg sec).

Definition findByName (n : string) : CM (option CDNHTTPResource) :=
  l ← doJSON ListCDNHTTPResources;
  mret (List.find (fun r => bool_decide (hr_Name r = n)) l).

Definition resolvePresetID : CM Z :=
  r ← try (doJSON ListCDNPresets);
  mret (match r with Ok ps => cheapest ps | Err _ => DefaultCDNPresetID end).

Definition certificatesForMode (id mode : string) : CM (list CDNCertificate) :=
  if bool_decide (mode = "custom") then doJSON ListAllCDNCertificates else doJSON (ListCDNCertificates id).

(** Secrets, with the condition that reports a failure. *)
Definition spec_secrets : CM resolvedSecrets :=
  cr ← get;
  r ← consult (fun w => resolveSpecSecrets (read_secret w) pem_decode parse_x509 (spec cr));
  match r with
  | Ok sec => mret sec
  | Err e => put_condition (SyncedFalse ReasonInvalidConfiguration (Error e));; throw e
  end.

(** *** Purge *)

Definition handlePurge (res : CDNHTTPResource) : CM unit :=
  cr ← get;
  match de_Annotations (ForProvider cr) !! PurgeAnnotation with
  | None => mret tt
  | Some val =>
      match parsePurge val with
      | Err e => note_event recorder EventWarning "PurgeInvalid" (Error e);; removeAnnotation PurgeAnnotation
      | Ok (purgeType, paths) =>
          if isSuspendedState (hr_Status res) then
            note_event recorder EventNormal "PurgeDeferred"
              ("purge pending: upstream is " +:+ quote (hr_Status res) +:+ ", will purge once unsuspended")
          else
            r ← try (do_ (ClearCDNCache (ExternalName cr) purgeType paths));
            match r with
            | Err e => note_event recorder EventWarning "PurgeFailed" (Error e)
            | Ok _ =>
                t ← consult now;
                map_status (with_purged t);;
                note_event recorder EventNormal "CachePurged"
                  (if bool_decide (purgeType = "partial") then "paths: " +:+ join ", " paths else "full purge");;
                removeAnnotation PurgeAnnotation
            end
      end
  end.

(** *** Observe *)

Definition ssl_reads (id mode : string) : CM (list CDNCertificate * list CDNCertificateTask) :=
  certs ← certificatesForMode id mode;
  tasks ← doJSON (ListCDNCertificateTasks id);
  mret (certs, tasks).

Definition compute_ssl (cfg : CDNConfig) (l : list CDNCertificate * list CDNCertificateTask) (sec : resolvedSecrets)
  : CM sslOutcome :=
  cr ← get;
  t ← consult now;
  mret (computeSSL (sslInputsFor (spec cr) (AtProvider cr) cfg l.1 l.2 sec t)).

Definition observeSSL (cfg : CDNConfig) (sec : resolvedSecrets) : CM bool :=
  cr ← get;
  match p_SSL (spec cr) with
  | None => mret false
  | Some ssl =>
      (if bool_decide (is_Some (de_Annotations (ForProvider cr) !! RetrySSLAnnotation))
       then map_status reset_budget;; removeAnnotation RetrySSLAnnotation else mret tt);;
      l ← ssl_reads (ExternalName cr) (ssl_Mode ssl);
      out ← compute_ssl cfg l sec;
      map_status (mirrorSSL (spec cr) cfg l.1 out sec);;
      mret (negb (bool_decide (out_action out = ActionNone)))
  end.

Definition observed (up_to_date : bool) (res : CDNHTTPResource) : ExternalObservation * gmap string string :=
  ({| ResourceExists := true; ResourceUpToDate := up_to_date |}, connectionDetails res).

Definition observe_cdn (id : string) (res : CDNHTTPResource) : CM (ExternalObservation * gmap string string) :=
  cfg ← doJSON (GetCDNHTTPResourceConfiguration id);
  map_status (populate res cfg);;
  handlePurge res;;
  if isSuspendedState (hr_Status res) then
    put_condition (ReadyFalse ReasonSuspended
      ("upstream CDN resource is " +:+ quote (hr_Status res) +:+ " (limit/billing suspension); resolve in the panel"));;
    mret (observed true res)
  else
    put_condition Available;;
    sec ← spec_secrets;
    sslDirty ← observeSSL cfg sec;
    w ← buildDesiredWrite res cfg sec;
    mret (observed (negb w.2 && negb sslDirty) res).

Definition Observe : CM (ExternalObservation * gmap string string) :=
  cr ← get;
  if bool_decide (ExternalName cr = "") then mret (not_exists, ∅)
  else match DecodeID (ExternalName cr) with
       | Err _ => mret (not_exists, ∅)
       | Ok _ =>
           r ← try (doJSON (GetCDNHTTPResource (ExternalName cr)));
           match r with
           | Err e => if error_is e ErrNotFound then mret (not_exists, ∅) else throw e
           | Ok res => observe_cdn (ExternalName cr) res
           end
       end.

(** *** Create *)

Definition create_body (p : CdnParameters) (origin : resolvedOrigin) (preset : Z) : CDNResourceWrite :=
  {| rw_Name := Some (effectiveName name p); rw_Description := p_Description p; rw_ProjectID := p_ProjectID p;
     rw_PresetID := Some preset; rw_Server := og_server origin; rw_StorageID := og_storageID origin;
     rw_UseHTTPS := Some (og_useHTTPS origin); rw_TrafficLimitBytes := Absent; rw_Config := None |}.

Definition create_cdn (origin : resolvedOrigin) : CM (gmap string string) :=
  preset ← resolvePresetID;
  cr ← get;
  res ← doJSON (CreateCDNHTTPResource (create_body (spec cr) origin preset));
  modify (set_external_name (EncodeID (hr_ID res)));;
  map_status (with_created (hr_PresetID res) (hr_CDNDomain res));;
  put_condition Creating;;
  mret (connectionDetails res).

Definition Create : CM (gmap string string) :=
  origin ← resolveOrigin;
  cr ← get;
  existing ← findByName (effectiveName name (spec cr));
  match existing with
  | Some r => modify (set_external_name (EncodeID (hr_ID r)));; put_condition Creating;; mret ∅
  | None => create_cdn origin
  end.

(** *** Update *)

Definition certificate_write (id : raw Z) : CDNResourceWrite :=
  {| rw_Name := None; rw_Description := None; rw_ProjectID := None; rw_PresetID := None; rw_Server := None;
     rw_StorageID := None; rw_UseHTTPS := None; rw_TrafficLimitBytes := Absent;
     rw_Config := Some {| cp_Cache := None; cp_Delivery := None; cp_HTTPHeaders := None; cp_Robots := None;
                          cp_Security := Some {| sep_Redirect := None; sep_CertificateID := id; sep_SecureToken := Absent |};
                          cp_Domains := None; cp_Origin := None |} |}.

Definition upload (sec : resolvedSecrets) : CM unit :=
  r ← try (do_ (UploadCDNCertificate (rs_certPEM sec) (rs_keyPEM sec)));
  match r with
  | Ok _ => mret tt
  | Err e =>
      if error_is e ErrTransient then throw e
      else note_event recorder EventWarning "SSLUploadFailed" (Error e);; map_status (with_state sslStateFailed)
  end.

(** The attempt is charged before the call, and given back when a task is in flight. *)
Definition issue (resourceID : Z) : CM unit :=
  cr ← get;
  t ← consult now;
  let prev := i64Deref (ss_IssueAttempts (ssl_status (AtProvider cr))) in
  map_status (with_attempt (prev + 1) t);;
  r ← try (do_ (IssueCDNCertificate resourceID));
  match r with
  | Ok _ => mret tt
  | Err e =>
      if contains_str (Error e) "cert_issue_task_already_exists" then
        map_status (with_attempt prev t);;
        note_event recorder EventNormal "SSLIssuanceFailed" "issuance task already in flight upstream; waiting"
      else
        note_event recorder EventWarning "SSLIssuanceFailed" (Error e);;
        if maxIssueAttempts <=? prev + 1 then
          note_event recorder EventWarning "SSLBudgetExhausted"
            ("Let's Encrypt retry budget spent (" +:+ fmt_d (prev + 1) +:+ " attempts); fix DNS and annotate " +:+
             RetrySSLAnnotation +:+ " to retry")
        else mret tt
  end.

(** The marker is cleared only with the certificate it marks. *)
Definition delete_certificate (certID : Z) : CM unit :=
  do_ (DeleteCDNCertificate (fmt_d certID));;
  note_event recorder EventNormal "CertificateRemoved" ("removed managed certificate " +:+ fmt_d certID);;
  cr ← get;
  if match co_ManagedCertificate (AtProvider cr) with
     | Some m => match cst_ID m with Some i => bool_decide (fmt_d i = fmt_d certID) | None => false end
     | None => false
     end
  then map_status without_managed else mret tt.

Definition executeSSLAction (a : sslAction) (sec : resolvedSecrets) (resourceID : Z) : CM unit :=
  match a with
  | ActionNone => mret tt
  | ActionUpload => upload sec
  | ActionIssue => issue resourceID
  | ActionBind id => do_ (PatchCDNHTTPResource (fmt_d resourceID) (certificate_write (Value id)))
  | ActionUnbind => do_ (PatchCDNHTTPResource (fmt_d resourceID) (certificate_write Null))
  | ActionDeleteOld id => delete_certificate id
  end.

Definition patch_settings (id : string) (w : CDNResourceWrite) : CM unit :=
  r ← try (do_ (PatchCDNHTTPResource id w));
  match r with
  | Ok _ => mret tt
  | Err e => put_condition (SyncedFalse ReasonUpstreamFailed (Error e));; throw e
  end.

Definition update_ssl (id : string) (cfg : CDNConfig) (sec : resolvedSecrets) : CM unit :=
  cr ← get;
  match p_SSL (spec cr) with
  | None => mret tt
  | Some ssl =>
      l ← ssl_reads id (ssl_Mode ssl);
      out ← compute_ssl cfg l sec;
      executeSSLAction (out_action out) sec (match DecodeID id with Ok n => n | Err _ => 0 end)
  end.

Definition Update : CM unit :=
  cr ← get;
  let id := ExternalName cr in
  res ← doJSON (GetCDNHTTPResource id);
  if isSuspendedState (hr_Status res) then mret tt
  else
    cfg ← doJSON (GetCDNHTTPResourceConfiguration id);
    sec ← spec_secrets;
    w ← buildDesiredWrite res cfg sec;
    let '(patch, dirty) := w in
    if (dirty : bool) then patch_settings id patch else update_ssl id cfg sec.

Definition Delete : CM unit :=
  cr ← get;
  if bool_decide (ExternalName cr = "") then mret tt
  else match DecodeID (ExternalName cr) with
       | Err _ => mret tt
       | Ok _ => delete_or_gone (DeleteCDNHTTPResource (ExternalName cr)) (put_condition Deleting)
       end.

Definition cdn_controller : Controller U cdn :=
  {| c_observe := (o ← Observe; mret o.1); c_create := (Create;; mret tt); c_update := Update; c_delete := Delete |}.
End CdnExternal.
