(* ===== verification/CdnFacts.v ===== *)
(** * CdnFacts: what the CDN controller promises

    The certificate action of a pass: when each one is due, that [Observe] and
    [Update] agree on it, that the Let's Encrypt budget bounds the issuances over any
    number of passes, that one pass makes one change, and that a declared certificate
    ends up bound, alone of its identity. *)

From S2P Require Import Prelude Errors Timeweb Shared Effects Lifecycle Cdn CdnSettle CdnSSL CdnExternal.

(** ** Which action a pass may take *)

Lemma find_listed {A} (f : A -> bool) l x : List.find f l = Some x -> x ∈ l /\ f x = true.
Proof. intros H. apply find_some in H as [H ?]. by apply list_elem_of_In in H. Qed.

Lemma find_absent {A} (f : A -> bool) l x : List.find f l = None -> x ∈ l -> f x = false.
Proof. intros H Hx. apply (find_none _ _ H). by apply list_elem_of_In. Qed.

Lemma managedMatches_id m c : managedMatches m c = true -> m ≫= cst_ID = Some (ce_ID c).
Proof. destruct m as [m|]; [|done]. simpl. rewrite !andb_true_iff. intros [[[H _] _] _]. by apply bool_decide_eq_true in H. Qed.

(** What entitles a pass to an action. *)
Definition entitled (i : sslInputs) (a : sslAction) : Prop :=
  match a with
  | ActionNone => True
  | ActionUpload =>
      in_mode i = "custom" /\
      exists d, in_desired i = Some d /\ forall c, c ∈ in_certificates i -> certIdentity_equal (identityOf c) d = false
  | ActionBind id =>
      in_boundID i <> Some id /\
      exists c, c ∈ in_certificates i /\ ce_ID c = id /\
        (in_mode i = "letsEncrypt" /\ is_le c = true \/
         in_mode i = "custom" /\ exists d, in_desired i = Some d /\ certIdentity_equal (identityOf c) d = true)
  | ActionUnbind =>
      exists b, in_boundID i = Some b /\
        (in_mode i = "none" \/
         in_mode i = "letsEncrypt" /\
         exists c, c ∈ in_certificates i /\ ce_ID c = b /\ is_le c = false /\ managedMatches (in_managed i) c = true)
  | ActionDeleteOld id =>
      in_boundID i <> Some id /\
      exists c, c ∈ in_certificates i /\ ce_ID c = id /\
        (managedMatches (in_managed i) c = true \/
         in_mode i = "custom" /\ (exists d, in_desired i = Some d /\ certIdentity_equal (identityOf c) d = true))
  | ActionIssue =>
      in_mode i = "letsEncrypt" /\ in_domainsAttached i = true /\
      (forall c, c ∈ in_certificates i -> is_le c = false) /\
      (in_budgetKey i = in_prevBudgetKey i -> in_attempts i < maxIssueAttempts /\
         (0 < in_attempts i -> forall t, in_lastAttempt i = Some t -> issueSpacing <= in_now i - t))
  end.

Lemma entitled_custom i a : in_mode i = "custom" -> entitled i (out_action (compute_custom i a)).
Proof.
  intros Hm. unfold compute_custom. destruct (in_desired i) as [d|] eqn:Ed; [|done].
  destruct (List.find _ (in_certificates i)) as [m|] eqn:Ef.
  - apply find_listed in Ef as [Hin Hid]. case_bool_decide as Hb.
    + assert (entitled i (match List.find (fun c => negb (ce_ID c =? ce_ID m) && certIdentity_equal (identityOf c) d)
                                         (in_certificates i) with Some c => ActionDeleteOld (ce_ID c) | None => ActionNone end)) as Hdup.
      { destruct (List.find _ _) as [c|] eqn:Ec; [|done]. apply find_listed in Ec as [Hc [Hn He]%andb_true_iff].
        simpl. rewrite Hb. split; [intros [= E]; by rewrite E, Z.eqb_refl in Hn|]. exists c. split_and!; [done..|]. right. eauto. }
      unfold custom_cleanup. destruct (match cst_ID _ with Some _ => _ | None => _ end) eqn:Eo; [|by apply Hdup].
      destruct (List.find (managedMatches _) _) as [c|] eqn:Ec; [|by apply Hdup].
      apply find_listed in Ec as [Hc Hmc]. pose proof (managedMatches_id _ _ Hmc) as Hi. simpl in Hi. rewrite Hi in Eo.
      destruct (in_managed i) as [mk|] eqn:Emk; cbn [marker_or] in *; simpl in Hi.
      * simpl. rewrite Hb. split; [intros [= E]; rewrite E, Z.eqb_refl in Eo; done|]. exists c. rewrite Emk. auto.
      * cbn [markerFor cst_ID] in Hi. injection Hi as Hi. by rewrite <- Hi, Z.eqb_refl in Eo.
    + simpl. split; [done|]. exists m. split_and!; [done..|]. right. eauto.
  - destruct (_ && _); simpl; [done|]. split; [done|]. exists d. split; [done|]. intros c Hc. by apply (find_absent _ _ _ Ef).
Qed.

Lemma entitled_le i a :
  in_mode i = "letsEncrypt" -> a = (if bool_decide (in_budgetKey i = in_prevBudgetKey i) then in_attempts i else 0) ->
  entitled i (out_action (compute_le i a)).
Proof.
  intros Hm Ha. unfold compute_le. destruct (List.find is_le _) as [le|] eqn:Ef.
  { apply find_listed in Ef as [Hin Hle]. destruct (decide (in_boundID i = Some (ce_ID le))) as [Hb|Hb]; [by rewrite (bool_decide_eq_true_2 _ Hb)|rewrite (bool_decide_eq_false_2 _ Hb); simpl]. split; [done|]. exists le. auto. }
  assert (forall c, c ∈ in_certificates i -> is_le c = false) as Hno by (intros c Hc; by apply (find_absent _ _ _ Ef)).
  clear Ef. unfold le_slot. destruct (match in_boundID i with Some _ => _ | None => _ end) as [c|] eqn:Eb.
  { destruct (in_boundID i) as [b|] eqn:Ebd; [|done]. apply find_listed in Eb as [Hc [Hid _]%andb_true_iff].
    destruct (managedMatches _ c) eqn:Em; simpl; [|done]. exists b. split; [done|]. right. split; [done|]. exists c.
    split_and!; auto. lia. }
  destruct (List.find _ (in_certificates i)) as [c|] eqn:Ec; simpl.
  { apply find_listed in Ec as [Hc [Hmc _]%andb_true_iff]. split; [|exists c; auto].
    intros Hb. rewrite Hb in Eb. pose proof (find_absent _ _ _ Eb Hc) as Hf. cbv beta in Hf. by rewrite Z.eqb_refl, Hno in Hf. }
  unfold le_issue. destruct (match latestTask _ with Some _ => _ | None => _ end); [done|].
  destruct (in_domainsAttached i) eqn:Ed; simpl; [|done]. destruct (Z.leb_spec maxIssueAttempts a); [done|].
  destruct (_ && _) eqn:Es; [done|]. split_and!; [done..|]. intros Hk. rewrite bool_decide_eq_true_2 in Ha by done. subst a.
  split; [done|]. intros Hpos t Ht. rewrite Ht in Es. destruct (Z.ltb_spec 0 (in_attempts i)); [|lia]. simpl in Es. lia.
Qed.

Lemma entitled_none i a : in_mode i = "none" -> entitled i (out_action (compute_none i a)).
Proof.
  intros Hm. unfold compute_none. destruct (in_boundID i) as [b|] eqn:Eb; simpl; [exists b; auto|].
  destruct (List.find _ _) as [c|] eqn:Ec; simpl; [|done]. apply find_listed in Ec as [Hc Hmc]. rewrite Eb. split; [done|].
  exists c. auto.
Qed.

Lemma computeSSL_entitled i : entitled i (out_action (computeSSL i)).
Proof.
  unfold computeSSL. case_bool_decide; [by apply entitled_custom|]. case_bool_decide; [by apply entitled_le|].
  case_bool_decide; [by apply entitled_none|done].
Qed.

(** A pass only does what it is entitled to. It deletes a certificate only if it is
    listed, is not the one bound, and either carries the owner marker (id, type, name
    and expiry day agree) or, in custom mode, has the identity of the declared one; it
    binds only a listed certificate of the declared identity, or from Let's Encrypt; it
    unbinds in mode none, or its own certificate that stands in the way of an issuance;
    it uploads only when nothing of that identity is listed; it asks Let's Encrypt only
    with the domains attached, nothing issued, and within the budget and its spacing. *)
Theorem ssl_action_authorized (i : sslInputs) : entitled i (out_action (computeSSL i)).
Proof. apply computeSSL_entitled. Qed.

(** ** The mirror of a plan plans the same *)

(** What [Update] reads after [Observe] has mirrored its outcome. *)
Definition replan (i : sslInputs) : sslInputs :=
  {| in_mode := in_mode i; in_desired := in_desired i; in_boundID := in_boundID i;
     in_managed := out_managed (computeSSL i);
     in_certificates := in_certificates i; in_tasks := in_tasks i; in_domainsAttached := in_domainsAttached i;
     in_prevState := out_state (computeSSL i); in_budgetKey := in_budgetKey i; in_prevBudgetKey := in_budgetKey i;
     in_attempts := out_attempts (computeSSL i); in_lastAttempt := in_lastAttempt i; in_now := in_now i |}.

Lemma sslInputs_mirror p o cfg certs tasks sec now :
  sslInputsFor p (mirrorSSL p cfg certs (computeSSL (sslInputsFor p o cfg certs tasks sec now)) sec o) cfg certs tasks sec now
  = replan (sslInputsFor p o cfg certs tasks sec now).
Proof.
  unfold replan. set (out := computeSSL _). unfold sslInputsFor, mirrorSSL, with_certificates. cbn. f_equal.
  - by case_bool_decide.
  - unfold ssl_status. by destruct (co_SSL o).
Qed.

Lemma out_attempts_custom i a : out_attempts (compute_custom i a) = a.
Proof. unfold compute_custom, custom_cleanup. by repeat case_match. Qed.

Lemma out_attempts_le i a : out_attempts (compute_le i a) = a.
Proof. unfold compute_le. by repeat case_match. Qed.

Lemma replan_cleanup certs d b mk a a' mk' :
  out_managed (custom_cleanup certs d b mk a) = Some mk' ->
  out_action (custom_cleanup certs d b mk' a') = out_action (custom_cleanup certs d b mk a).
Proof.
  unfold custom_cleanup. destruct (match cst_ID mk with Some _ => _ | None => _ end) eqn:Eo.
  - destruct (List.find (managedMatches (Some mk)) certs) as [c|] eqn:Ec; simpl; intros [= <-].
    + by rewrite Eo, Ec.
    + cbn [markerFor cst_ID]. by rewrite Z.eqb_refl.
  - simpl. intros [= <-]. by rewrite Eo.
Qed.

Lemma find_none_of {A} (f : A -> bool) l : (forall x, f x = false) -> List.find f l = None.
Proof. intros H. induction l as [|x l IH]; [done|]. simpl. by rewrite H. Qed.

Lemma replan_custom i a :
  in_mode i = "custom" ->
  let i' := {| in_mode := in_mode i; in_desired := in_desired i; in_boundID := in_boundID i;
               in_managed := out_managed (compute_custom i a); in_certificates := in_certificates i; in_tasks := in_tasks i;
               in_domainsAttached := in_domainsAttached i; in_prevState := out_state (compute_custom i a);
               in_budgetKey := in_budgetKey i; in_prevBudgetKey := in_budgetKey i; in_attempts := a;
               in_lastAttempt := in_lastAttempt i; in_now := in_now i |} in
  out_action (compute_custom i' a) = out_action (compute_custom i a).
Proof.
  intros Hm. unfold compute_custom. cbn [in_desired in_certificates in_boundID in_managed in_budgetKey in_prevBudgetKey in_prevState].
  destruct (in_desired i) as [d|]; [|done]. destruct (List.find _ (in_certificates i)) as [m|] eqn:Ef.
  - destruct (decide (in_boundID i = Some (ce_ID m))) as [Hb|Hb];
      [rewrite !(bool_decide_eq_true_2 _ Hb)|by rewrite !(bool_decide_eq_false_2 _ Hb)].
    destruct (out_managed (custom_cleanup _ _ _ _ _)) as [mk'|] eqn:Ek; cbn [marker_or].
    + by eapply replan_cleanup.
    + exfalso. revert Ek. unfold custom_cleanup. by repeat case_match.
  - rewrite (bool_decide_eq_true_2 (in_budgetKey i = in_budgetKey i) eq_refl).
    by destruct (bool_decide (in_budgetKey i = in_prevBudgetKey i) && bool_decide (in_prevState i = sslStateFailed)).
Qed.

(** C25. What [Observe] reports due is what [Update] then does: with the outcome mirrored
    into the status and nothing changed upstream, the plan is the same. *)
Theorem ssl_observe_update_agree p o cfg certs tasks sec now :
  out_action (computeSSL (sslInputsFor p (mirrorSSL p cfg certs (computeSSL (sslInputsFor p o cfg certs tasks sec now)) sec o)
                            cfg certs tasks sec now))
  = out_action (computeSSL (sslInputsFor p o cfg certs tasks sec now)).
Proof.
  rewrite sslInputs_mirror. set (i := sslInputsFor _ _ _ _ _ _ _). clearbody i.
  unfold replan, computeSSL. cbn [in_mode in_budgetKey in_prevBudgetKey in_attempts]. rewrite (bool_decide_eq_true_2 (in_budgetKey i = in_budgetKey i) eq_refl).
  set (a := if bool_decide (in_budgetKey i = in_prevBudgetKey i) then _ else _). clearbody a.
  destruct (decide (in_mode i = "custom")) as [Hc|Hc]; [rewrite !(bool_decide_eq_true_2 _ Hc)|rewrite !(bool_decide_eq_false_2 _ Hc)].
  { rewrite out_attempts_custom. by apply replan_custom. }
  destruct (decide (in_mode i = "letsEncrypt")) as [Hl|Hl]; [rewrite !(bool_decide_eq_true_2 _ Hl)|rewrite !(bool_decide_eq_false_2 _ Hl)].
  { rewrite out_attempts_le. unfold compute_le, le_slot. cbn. destruct (List.find is_le _) as [le|] eqn:Ef.
    - by destruct (bool_decide (in_boundID i = Some (ce_ID le))).
    - destruct (match in_boundID i with Some _ => _ | None => _ end) as [c|]; cbn.
      + by destruct (managedMatches (in_managed i) c) eqn:E; cbn; rewrite E.
      + destruct (List.find (fun c => managedMatches (in_managed i) c && _) _) eqn:E; cbn; by rewrite E. }
  destruct (decide (in_mode i = "none")) as [Hn|Hn]; [rewrite !(bool_decide_eq_true_2 _ Hn)|rewrite !(bool_decide_eq_false_2 _ Hn)]; [|done].
  unfold compute_none. cbn. destruct (in_boundID i); [done|]. destruct (List.find (managedMatches (in_managed i)) _) eqn:Ef; cbn; [by rewrite Ef|].
  by rewrite find_none_of.
Qed.

(** ** The Let's Encrypt budget *)

(** An issuance that counts: one the API did not turn down because another is already
    in flight. *)
Definition is_charged (x : exchange cdn_reply) : bool :=
  match request x as q return reply (cdn_reply q) -> bool with
  | IssueCDNCertificate _ => fun r =>
      match write_reply r with Err e => negb (contains_str (Error e) "cert_issue_task_already_exists") | Ok _ => true end
  | _ => fun _ => false
  end (answer x).

Definition charged (t : list (exchange cdn_reply)) : Z := Z.of_nat (length (List.filter is_charged t)).

Lemma charged_app t t' : charged (t ++ t') = charged t + charged t'.
Proof. unfold charged. rewrite List.filter_app, length_app. lia. Qed.

Lemma charged_cons x t : charged (x :: t) = (if is_charged x then 1 else 0) + charged t.
Proof. unfold charged. simpl. destruct (is_charged x); simpl; lia. Qed.

(** The budget window of a declaration, and what the status says was spent in it. *)
Definition window (p : CdnParameters) : string := sslBudgetKey (domains_of p) (p_SSL p) None.

Definition status_window (o : CdnObservation) : string := match co_SSL o with Some s => strDeref (ss_BudgetKey s) | None => "" end.
Definition status_attempts (o : CdnObservation) : Z := match co_SSL o with Some s => i64Deref (ss_IssueAttempts s) | None => 0 end.

Definition spent (p : CdnParameters) (o : CdnObservation) : Z :=
  if bool_decide (window p = status_window o) then status_attempts o else 0.

Section Budget.
Context `{R : CrossplaneRuntime} {U : Upstream cdn_request cdn_reply}.
Variable recorder : bool.
Variable name : string.
Variable deleting : bool.
Variable now : World -> Z.
Variable read_secret : World -> string -> result error (gmap string string).
Variable read_bucket : World -> string -> result string (bool * option Z).
Variable kube_patch : World -> string -> result error unit.
Variable pem_decode : string -> option (string * string).
Variable parse_x509 : string -> result string x509_certificate.

Notation cdn := (managed CdnDeclared CdnObservation).

(** A Cdn in mode letsEncrypt, without the annotation that resets the budget. *)
Definition budgeted (s : cdn) : Prop :=
  mode_of (spec s) = "letsEncrypt" /\ de_Annotations (ForProvider s) !! RetrySSLAnnotation = None.

Definition spending (s s' : cdn) (t : list (exchange cdn_reply)) : Prop :=
  budgeted s -> budgeted s' /\ spec s' = spec s /\
  spent (spec s') (AtProvider s') = spent (spec s) (AtProvider s) + charged t /\
  spent (spec s') (AtProvider s') <= Z.max maxIssueAttempts (spent (spec s) (AtProvider s)).

Lemma spending_refl s : spending s s [].
Proof. intros H. split_and!; [done..| |lia]. unfold charged. simpl. lia. Qed.

Lemma spending_trans s s' s'' t t' : spending s s' t -> spending s' s'' t' -> spending s s'' (t ++ t').
Proof.
  intros H H' Hb. destruct (H Hb) as (Hb' & E & Hs & Hm). destruct (H' Hb') as (Hb'' & E' & Hs' & Hm').
  split; [done|]. split; [congruence|]. rewrite charged_app. lia.
Qed.

(** A change that leaves the spec, the annotations and the budget alone. *)
Lemma spending_same (f : cdn -> cdn) s :
  ForProvider (f s) = ForProvider s -> status_window (AtProvider (f s)) = status_window (AtProvider s) ->
  status_attempts (AtProvider (f s)) = status_attempts (AtProvider s) -> spending s (f s) [].
Proof.
  intros H1 H2 H3 Hb. unfold budgeted, spec, spent in *. rewrite H1, H2, H3.
  split; [done|]. split; [done|]. unfold charged. simpl. lia.
Qed.

Lemma spending_keep (f : cdn -> cdn) s :
  ForProvider (f s) = ForProvider s -> co_SSL (AtProvider (f s)) = co_SSL (AtProvider s) -> spending s (f s) [].
Proof. intros H1 H2. apply spending_same; [done|unfold status_window|unfold status_attempts]; by rewrite H2. Qed.

Lemma spending_quiet s q r : is_charged (Exchange q r) = false -> spending s s [Exchange q r].
Proof. intros H Hb. split; [done|]. split; [done|]. rewrite charged_cons, H. unfold charged. simpl. lia. Qed.

Lemma spending_event e s : spending s (record_event recorder e s) [].
Proof. apply (spending_keep (record_event recorder e)); by destruct recorder. Qed.

Lemma spending_unannotate key s : spending s (without_annotation key s) [].
Proof.
  intros [H1 H2]. unfold budgeted, without_annotation, spec in *. cbn. split.
  - split; [done|]. apply lookup_delete_None. by right.
  - split; [done|]. unfold charged. simpl. lia.
Qed.

Ltac spend := repeat first [evolves_step spending_refl spending_trans | by apply spending_keep | by apply spending_quiet
                           | apply spending_unannotate | apply spending_event].

Lemma removeAnnotation_spending key : evolves spending (removeAnnotation kube_patch key).
Proof. unfold removeAnnotation. spend. Qed.

Lemma handlePurge_spending res : evolves spending (handlePurge recorder now kube_patch res).
Proof.
  unfold handlePurge, map_status. repeat first [apply removeAnnotation_spending | progress spend].
Qed.

Lemma buildDesiredWrite_spending res cfg sec : evolves spending (buildDesiredWrite name deleting read_bucket res cfg sec).
Proof. unfold buildDesiredWrite, resolveOrigin. spend. Qed.

Lemma spec_secrets_spending : evolves spending (spec_secrets read_secret pem_decode parse_x509).
Proof. unfold spec_secrets. spend. Qed.

Lemma ssl_reads_spending id mode : evolves spending (ssl_reads id mode).
Proof. unfold ssl_reads, certificatesForMode. spend. Qed.

(** In mode letsEncrypt no certificate is declared. *)
Lemma spec_secrets_le (Q : post resolvedSecrets) (s : cdn) w :
  mode_of (spec s) = "letsEncrypt" ->
  (forall r s' w' t, spending s s' t -> (forall sec, r = Ok sec -> rs_certIdentity sec = None /\ s' = s) -> Q r s' w' t) ->
  wp (spec_secrets read_secret pem_decode parse_x509) Q s w.
Proof.
  intros Hm HQ. unfold spec_secrets. do 4 wp_step. destruct (resolveSpecSecrets _ _ _ _) as [sec|e] eqn:E.
  - wp_step. apply HQ; [apply spending_refl|]. intros sec' [= <-]. split; [|done]. revert E. unfold resolveSpecSecrets, certificate_secret.
    unfold mode_of in Hm. destruct (p_SSL (spec s)) as [ssl|]; [|done]. rewrite Hm.
    destruct (token_secret _ _); simpl; [|done]. destruct (aws_secret _ _); simpl; [|done].
    destruct (ssl_CertificateSecretRef ssl); simpl; by intros [= <-].
  - do 2 wp_step. wp_step. apply HQ; [by apply spending_keep|done].
Qed.

(** One more command of a run that has kept [spending] so far. *)
Definition spends {A} (s0 : cdn) (t0 : list (exchange cdn_reply)) (P : result error A -> cdn -> Prop) : post A :=
  fun r s' _ t => spending s0 s' (t0 ++ t) /\ P r s'.

Lemma spends_bind {A B} (m : M U cdn A) (f : A -> M U cdn B) s0 t0 P s w :
  evolves spending m -> spending s0 s t0 -> (forall e s', P (Err e) s') ->
  (forall a s' w' t, spending s0 s' t -> wp (f a) (spends s0 t P) s' w') ->
  wp (m ≫= f) (spends s0 t0 P) s w.
Proof.
  intros Hm Hs He Hf. apply wp_bind. apply (wp_evolves _ _ _ _ _ Hm). intros r s' w' t _ Ht.
  pose proof (spending_trans _ _ _ _ _ Hs Ht) as H. destruct r as [a|e]; [|by split].
  eapply wp_mono; [by apply Hf|]. unfold spends. intros r s'' w'' t' [H1 H2]. by rewrite app_assoc.
Qed.

Lemma spends_evolves {A} (m : M U cdn A) s0 t0 (P : result error A -> cdn -> Prop) s w :
  evolves spending m -> spending s0 s t0 -> (forall r s', P r s') -> wp m (spends s0 t0 P) s w.
Proof.
  intros Hm Hs HP. apply (wp_evolves _ _ _ _ _ Hm). intros r s' w' t _ Ht. split; [by eapply spending_trans|done].
Qed.

(** The window of the status is the declared one. *)
Definition in_window (s : cdn) : Prop := status_window (AtProvider s) = window (spec s).

Lemma mirror_spending cfg l sec s t :
  rs_certIdentity sec = None ->
  let f := mirrorSSL (spec s) cfg l.1 (computeSSL (sslInputsFor (spec s) (AtProvider s) cfg l.1 l.2 sec t)) sec in
  spending s (set_at_provider (f (AtProvider s)) s) [] /\ in_window (set_at_provider (f (AtProvider s)) s).
Proof.
  intros Hsec f. unfold f. split; [|unfold in_window, status_window; cbn; by rewrite Hsec].
  intros [Hm Hn]. split; [done|]. split; [done|].
  match goal with |- ?x = _ /\ _ => assert (x = spent (spec s) (AtProvider s)) as -> end; [|unfold charged; simpl; lia].
  unfold spent at 1. unfold status_window, status_attempts. cbn. rewrite Hsec.
  rewrite bool_decide_eq_true_2 by done. unfold computeSSL. cbn [sslInputsFor in_mode in_budgetKey in_prevBudgetKey in_attempts].
  change (de_ForProvider (ForProvider s)) with (spec s). rewrite Hm, Hsec. rewrite bool_decide_eq_false_2 by done.
  rewrite bool_decide_eq_true_2 by done. by rewrite out_attempts_le.
Qed.

Lemma observeSSL_le cfg sec s w s0 t0 (P : result error bool -> cdn -> Prop) :
  rs_certIdentity sec = None -> spending s0 s t0 -> budgeted s0 -> (forall e s', P (Err e) s') ->
  (forall b s', in_window s' -> P (Ok b) s') ->
  wp (observeSSL now kube_patch cfg sec) (spends s0 t0 P) s w.
Proof.
  intros Hsec Hs Hb0 He HP. destruct (Hs Hb0) as ([Hm Hn] & _ & _). unfold observeSSL. do 2 wp_step.
  unfold mode_of in Hm. destruct (p_SSL (spec s)) as [ssl|] eqn:Essl; [|done].
  rewrite bool_decide_eq_false_2 by (rewrite Hn; by intros [? ?]). do 2 wp_step. cbn [app].
  apply spends_bind; [apply ssl_reads_spending|done|done|]. intros l s1 w1 t1 Hs1. unfold compute_ssl. do 4 wp_step. wp_step.
  unfold map_status. do 3 wp_step. cbn [app]. destruct (Hs1 Hb0) as (Hb1 & E1 & _).
  assert (spec s = spec s1) as -> by (rewrite E1; symmetry; by destruct (Hs Hb0) as (_ & -> & _)).
  destruct (mirror_spending cfg l sec s1 (now w1) Hsec) as [H1 H2].
  split; [rewrite app_nil_r, <- (app_nil_r t1); by eapply spending_trans|]. apply HP. done.
Qed.

Notation Observe := (Observe recorder name deleting now read_secret read_bucket kube_patch pem_decode parse_x509).
Notation Update := (Update recorder name deleting now read_secret read_bucket pem_decode parse_x509).
Notation Create := (Create name read_bucket).
Notation controller := (cdn_controller recorder name deleting now read_secret read_bucket kube_patch pem_decode parse_x509).

(** [Observe] spends nothing, and what it finds out of date it has opened the window of. *)
Definition opened {A} (r : result error (ExternalObservation * A)) (s : cdn) : Prop :=
  forall o, r = Ok o -> ResourceExists o.1 = true -> ResourceUpToDate o.1 = false -> in_window s.

Lemma wp_spends_nil {A} (m : M U cdn A) (P : result error A -> cdn -> Prop) s w :
  wp m (spends s [] P) s w -> wp m (fun r s' _ t => spending s s' t /\ P r s') s w.
Proof. done. Qed.

(** Nothing but conditions and events changes. *)
Definition still (s s' : cdn) (_ : list (exchange cdn_reply)) : Prop := ForProvider s' = ForProvider s /\ AtProvider s' = AtProvider s.

Lemma buildDesiredWrite_still res cfg sec : evolves still (buildDesiredWrite name deleting read_bucket res cfg sec).
Proof.
  assert (forall s, still s s []) as Hr by done.
  assert (forall s s' s'' t t', still s s' t -> still s' s'' t' -> still s s'' (t ++ t')) as Ht
    by (intros s s' s'' t t' [H1 H2] [H3 H4]; split; congruence).
  unfold buildDesiredWrite, resolveOrigin. repeat first [evolves_step Hr Ht | done].
Qed.

Lemma wp_of {A} Rl (m : M U cdn A) : evolves Rl m -> forall s w, wp m (fun _ s' _ t => Rl s s' t) s w.
Proof. intros H s w. apply H. Qed.

Lemma observe_cdn_spending id res s w s0 t0 :
  budgeted s0 -> spending s0 s t0 ->
  wp (observe_cdn recorder name deleting now read_secret read_bucket kube_patch pem_decode parse_x509 id res) (spends s0 t0 opened) s w.
Proof.
  intros Hb Hs. unfold observe_cdn. apply spends_bind; [spend|done|done|]. intros cfg s1 w1 t1 Hs1.
  apply spends_bind; [unfold map_status; spend|done|done|]. intros _ s2 w2 t2 Hs2.
  apply spends_bind; [apply handlePurge_spending|done|done|]. intros _ s3 w3 t3 Hs3.
  destruct (isSuspendedState (hr_Status res)).
  { apply spends_bind; [spend|done|done|]. intros _ s4 w4 t4 Hs4. wp_step. split; [by rewrite app_nil_r|]. by intros o [= <-]. }
  apply spends_bind; [spend|done|done|]. intros _ s4 w4 t4 Hs4. destruct (Hs4 Hb) as ([Hm _] & _).
  apply wp_bind, spec_secrets_le; [done|]. intros r s5 w5 t5 Ht Hsec. pose proof (spending_trans _ _ _ _ _ Hs4 Ht) as Hs5.
  destruct r as [sec|e]; [|by split]. destruct (Hsec _ eq_refl) as [Hno ->].
  eapply (wp_mono _ (spends s0 (t4 ++ t5) opened)); [|intros r s' w' t [H1 H2]; unfold spends; by rewrite app_assoc].
  apply wp_bind. eapply wp_mono; [apply (observeSSL_le cfg sec s4 w5 s0 (t4 ++ t5) (fun r s' => is_ok r = true -> in_window s'));
    [done|done|done|done|by intros b s']|].
  intros [dirty|e] s6 w6 t6 [Hs6 Hw]; [|by split].
  apply wp_bind. eapply wp_mono; [apply (wp_conj _ _ _ _ _ (wp_of _ _ (buildDesiredWrite_spending res cfg sec) s6 w6)
                                           (wp_of _ _ (buildDesiredWrite_still res cfg sec) s6 w6))|].
  intros r s7 w7 t7 [Ht7 [E1 E2]]. pose proof (spending_trans _ _ _ _ _ Hs6 Ht7) as Hs7. rewrite <- app_assoc in Hs7.
  destruct r as [u|e]; [|by split]. wp_step. split; [by rewrite app_nil_r|]. intros o [= <-] _ _.
  unfold in_window, spec. rewrite E1, E2. by apply Hw.
Qed.

Lemma Observe_spending s w : budgeted s -> wp Observe (fun r s' _ t => spending s s' t /\ opened r s') s w.
Proof.
  intros Hb. unfold CdnExternal.Observe. do 2 wp_step. case_bool_decide; [wp_step; split; [apply spending_refl|by intros o [= <-]]|].
  destruct (DecodeID _); [|wp_step; split; [apply spending_refl|by intros o [= <-]]].
  apply (spends_bind _ _ s []); [spend|apply spending_refl|done|]. intros r s1 w1 t1 Hs1.
  destruct r as [res|e]; [by apply observe_cdn_spending|].
  destruct (error_is e ErrNotFound); wp_step; (split; [by rewrite app_nil_r|]); by intros o [= <-].
Qed.

(** *** Update *)

Lemma ssl_action_plan p o cfg certs tasks sec t :
  entitled (sslInputsFor p o cfg certs tasks sec t) (out_action (computeSSL (sslInputsFor p o cfg certs tasks sec t))).
Proof. apply computeSSL_entitled. Qed.

Lemma in_window_spent s : in_window s -> spent (spec s) (AtProvider s) = status_attempts (AtProvider s).
Proof. unfold in_window, spent. intros ->. by rewrite bool_decide_eq_true_2. Qed.

(** A new count in the open window. *)
Lemma attempt_spent n t s :
  in_window s -> let s' := set_at_provider (with_attempt n t (AtProvider s)) s in
  (budgeted s -> budgeted s') /\ spec s' = spec s /\ in_window s' /\ status_attempts (AtProvider s') = n.
Proof.
  intros Hw. unfold in_window, status_window, status_attempts in *. cbn. split_and!; try done. etransitivity; [|exact Hw].
  unfold ssl_status. by destruct (co_SSL (AtProvider s)).
Qed.

Lemma issue_spending rid s w :
  in_window s -> status_attempts (AtProvider s) < maxIssueAttempts ->
  wp (issue recorder now rid) (fun _ s' _ t => spending s s' t) s w.
Proof.
  intros Hw Ha. unfold issue. do 4 wp_step. cbn [app].
  assert (i64Deref (ss_IssueAttempts (ssl_status (AtProvider s))) = status_attempts (AtProvider s)) as ->
    by (unfold ssl_status, status_attempts; by destruct (co_SSL (AtProvider s))).
  set (n := status_attempts (AtProvider s)) in *. unfold map_status. do 5 wp_step. cbn [app].
  destruct (attempt_spent (n + 1) (now w) s Hw) as (Hb1 & E1 & Hw1 & Hn1). set (s1 := set_at_provider _ s) in *.
  assert (forall r, is_charged (Exchange (IssueCDNCertificate rid) r) = true -> spending s s1 [Exchange (IssueCDNCertificate rid) r]) as Hc.
  { intros r0 Hc Hb. split; [by apply Hb1|]. split; [done|]. rewrite charged_cons, Hc, !in_window_spent, Hn1 by done. unfold charged. simpl. lia. }
  destruct (write_reply r) as [u|e] eqn:Er.
  - wp_step. cbn [app]. apply Hc. unfold is_charged. cbn [request answer]. by rewrite Er.
  - destruct (contains_str _ _) eqn:Et.
    + do 3 wp_step. cbn [app]. destruct (attempt_spent n (now w) s1 Hw1) as (Hb2 & E2 & Hw2 & Hn2).
      apply (spending_trans _ (set_at_provider (with_attempt n (now w) (AtProvider s1)) s1) _ [Exchange _ r] []);
        [|apply spending_event]. intros Hb. split; [by auto|]. split; [congruence|].
      rewrite charged_cons, !in_window_spent, Hn2 by done. unfold is_charged. cbn [request answer]. rewrite Er, Et. unfold charged. simpl. lia.
    + assert (evolves (U := U) spending (note_event recorder EventWarning "SSLIssuanceFailed" (Error e);;
        if maxIssueAttempts <=? n + 1 then note_event recorder EventWarning "SSLBudgetExhausted"
            ("Let's Encrypt retry budget spent (" +:+ fmt_d (n + 1) +:+ " attempts); fix DNS and annotate " +:+
             RetrySSLAnnotation +:+ " to retry") else mret tt)) as Hev by (spend; destruct (_ <=? _); spend).
      eapply wp_mono; [exact (wp_of _ _ Hev s1 w')|]. intros r1 s2 w2 t2 H2.
      apply (spending_trans _ s1 _ [Exchange _ r] t2); [|exact H2].
      apply Hc. unfold is_charged. cbn [request answer]. by rewrite Er, Et.
Qed.

Lemma executeSSLAction_spending a sec rid s w :
  (a = ActionIssue -> in_window s /\ status_attempts (AtProvider s) < maxIssueAttempts) ->
  wp (executeSSLAction recorder now a sec rid) (fun _ s' _ t => spending s s' t) s w.
Proof.
  intros Ha. destruct a; cbn [executeSSLAction]; [by apply spending_refl|by apply issue_spending; apply Ha|..]; apply wp_of.
  - unfold upload, map_status. spend. apply (spending_same (fun cr => set_at_provider (with_state sslStateFailed (AtProvider cr)) cr)); [done|..];
      unfold status_window, status_attempts; cbn [set_at_provider AtProvider with_state with_ssl with_certificates co_SSL];
      unfold ssl_status; by destruct (co_SSL (AtProvider _)).
  - spend.
  - spend.
  - unfold delete_certificate, map_status. spend.
Qed.

Lemma update_ssl_spending id cfg sec s w :
  budgeted s -> in_window s -> rs_certIdentity sec = None ->
  wp (update_ssl recorder now id cfg sec) (fun _ s' _ t => spending s s' t) s w.
Proof.
  intros Hb Hw Hsec. destruct Hb as [Hm Hn]. unfold update_ssl. do 2 wp_step. cbn [app].
  destruct (p_SSL (spec s)) as [ssl|] eqn:Essl; [|by unfold mode_of in Hm; rewrite Essl in Hm].
  assert (evolves (U := U) (fun s s' t => spending s s' t /\ s' = s) (ssl_reads id (ssl_Mode ssl))) as Hrd.
  { unfold ssl_reads, certificatesForMode.
    assert (forall s, spending s s [] /\ s = s) as H0 by (intros; split; [apply spending_refl|done]).
    assert (forall s1 s2 s3 t1 t2, spending s1 s2 t1 /\ s2 = s1 -> spending s2 s3 t2 /\ s3 = s2 -> spending s1 s3 (t1 ++ t2) /\ s3 = s1) as H1
      by (intros s1 s2 s3 t1 t2 [? ->] [? ->]; split; [by eapply spending_trans|done]).
    repeat first [evolves_step H0 H1 | split; [by apply spending_quiet|done]]. }
  apply wp_bind. eapply wp_mono; [apply (wp_of _ _ Hrd)|]. intros r s1 w1 t1 [Ht1 ->]. destruct r as [l|e]; [|done].
  unfold compute_ssl. do 4 wp_step. do 2 wp_step. cbn [app]. eapply wp_mono; [apply executeSSLAction_spending|].
  - intros Ha. split; [done|]. pose proof (ssl_action_plan (spec s) (AtProvider s) cfg l.1 l.2 sec (now w1)) as He. rewrite Ha in He.
    cbn [entitled sslInputsFor in_budgetKey in_prevBudgetKey in_attempts] in He. destruct He as (_ & _ & _ & He).
    destruct He as [He _]; [|done]. rewrite Hsec. symmetry. exact Hw.
  - intros r s2 w2 t2 Ht2. by eapply spending_trans.
Qed.

Lemma Update_spending s w : budgeted s -> in_window s -> wp Update (fun _ s' _ t => spending s s' t) s w.
Proof.
  intros Hb Hw. unfold CdnExternal.Update. do 3 wp_step. wp_step. cbn [app].
  assert (forall q (r : reply (cdn_reply q)), is_charged (Exchange q r) = false -> spending s s [Exchange q r]) as Hq
    by (intros; by apply spending_quiet).
  destruct (read_reply r) as [res|e]; [|by apply Hq]. destruct (isSuspendedState _); [wp_step; cbn [app]; by apply Hq|].
  do 2 wp_step. cbn [app]. pose proof (spending_trans _ _ _ _ _ (Hq _ r eq_refl) (Hq _ r0 eq_refl)) as H2. cbn [app] in H2.
  destruct (read_reply r0) as [cfg|e]; [|done]. apply wp_bind, spec_secrets_le; [by destruct Hb|]. intros r1 s1 w1 t1 Ht1 Hsec.
  destruct r1 as [sec|e]; [|by apply (spending_trans _ s _ [_; _] t1)]. destruct (Hsec _ eq_refl) as [Hno ->].
  apply wp_bind. eapply wp_mono; [apply (wp_conj _ _ _ _ _ (wp_of _ _ (buildDesiredWrite_spending res cfg sec) s w1)
                                           (wp_of _ _ (buildDesiredWrite_still res cfg sec) s w1))|].
  intros r2 s2 w2 t2 [Ht2 [E1 E2]]. pose proof (spending_trans _ _ _ _ _ H2 (spending_trans _ _ _ _ _ Ht1 Ht2)) as H4. cbn [app] in H4.
  destruct r2 as [[patch dirty]|e]; [|done]. cbv beta iota. destruct (H4 Hb) as (Hb2 & _).
  assert (in_window s2) as Hw2 by (unfold in_window, spec; rewrite E1, E2; exact Hw).
  eapply (wp_mono _ (fun _ s' _ t => spending s2 s' t)).
  - destruct dirty; [apply wp_of; unfold patch_settings; spend|by apply update_ssl_spending].
  - intros r3 s3 w3 t3 H3. pose proof (spending_trans _ _ _ _ _ H4 H3) as H5. cbn [app] in H5. by rewrite <- app_assoc in H5.
Qed.

Lemma Create_spending : evolves spending Create.
Proof.
  unfold CdnExternal.Create, resolveOrigin, findByName, create_cdn, resolvePresetID, map_status. spend.
Qed.

Lemma Delete_spending : evolves spending (U := U) Delete.
Proof. unfold CdnExternal.Delete, delete_or_gone. spend. Qed.

Lemma reconcile_spending del : evolves spending (reconcile controller del).
Proof.
  intros s w Hb. revert Hb. change (wp (reconcile controller del) (fun _ s' _ t => spending s s' t) s w).
  assert (forall P : Prop, (budgeted s -> P) -> budgeted s -> P) as Hi by auto.
  unfold wp. intros Hb. pose proof Hb as Hb'. revert Hb.
  change (wp (reconcile controller del) (fun _ s' _ t => spending s s' t) s w).
  apply wp_reconcile. unfold cdn_controller, c_observe. cbn [c_delete c_create c_update]. apply wp_bind.
  eapply wp_mono; [by apply Observe_spending|]. intros r s1 w1 t1 [H1 Ho]. destruct r as [o|e]; [|done]. wp_step. rewrite app_nil_r.
  eapply (wp_mono _ (fun _ s' _ t => spending s1 s' t)); [|intros; by eapply spending_trans].
  destruct del; [destruct (ResourceExists o.1); apply wp_of; [apply Delete_spending|spend]|].
  destruct (ResourceExists o.1) eqn:Ee; cbn [negb]; [|apply wp_of; unfold CdnExternal.Create; apply (evolves_bind _ spending_trans);
    [apply Create_spending|intros; spend]].
  destruct (ResourceUpToDate o.1) eqn:Eu; cbn [negb]; [apply wp_of; spend|].
  apply Update_spending; [by apply H1|]. by apply (Ho o).
Qed.

Lemma reconciles_spending n del : evolves spending (reconciles n controller del).
Proof.
  induction n as [|n IH]; cbn [reconciles]; [spend|]. apply (evolves_bind _ spending_trans); [|intros; apply IH].
  apply evolves_try, reconcile_spending.
Qed.

(** C22. However many passes run, as long as mode letsEncrypt and the domains stay
    declared and nobody asks for a retry, at most four issuances are charged in all, less
    what the status says was already spent, whatever the API answers, and the status
    keeps the exact count. *)
Theorem letsencrypt_budget (n : nat) (del : bool) (s : cdn) (w : World) :
  budgeted s ->
  wp (reconciles n controller del) (fun _ s' _ t =>
    charged t <= Z.max 0 (maxIssueAttempts - spent (spec s) (AtProvider s)) /\
    spent (spec s') (AtProvider s') = spent (spec s) (AtProvider s) + charged t) s w.
Proof.
  intros Hb. eapply wp_mono; [exact (wp_of _ _ (reconciles_spending n del) s w)|]. intros r s' w' t H.
  destruct (H Hb) as (_ & _ & H1 & H2). lia.
Qed.
End Budget.

(** ** One change per pass *)

Definition mutates (q : cdn_request) : bool :=
  match q with
  | CreateCDNHTTPResource _ | PatchCDNHTTPResource _ _ | DeleteCDNHTTPResource _ | ClearCDNCache _ _ _
  | UploadCDNCertificate _ _ | IssueCDNCertificate _ | DeleteCDNCertificate _ => true
  | _ => false
  end.

Definition writes (t : list (exchange cdn_reply)) : list cdn_request := List.filter mutates (map request t).

Lemma writes_app t t' : writes (t ++ t') = writes t ++ writes t'.
Proof. unfold writes. by rewrite map_app, List.filter_app. Qed.

(** The request that carries out an action. *)
Definition request_of (a : sslAction) (sec : resolvedSecrets) (rid : Z) : list cdn_request :=
  match a with
  | ActionNone => []
  | ActionUpload => [UploadCDNCertificate (rs_certPEM sec) (rs_keyPEM sec)]
  | ActionIssue => [IssueCDNCertificate rid]
  | ActionBind c => [PatchCDNHTTPResource (fmt_d rid) (certificate_write (Value c))]
  | ActionUnbind => [PatchCDNHTTPResource (fmt_d rid) (certificate_write Null)]
  | ActionDeleteOld c => [DeleteCDNCertificate (fmt_d c)]
  end.

Section OneWrite.
Context `{R : CrossplaneRuntime} {U : Upstream cdn_request cdn_reply}.
Variable recorder : bool.
Variable name : string.
Variable deleting : bool.
Variable now : World -> Z.
Variable read_secret : World -> string -> result error (gmap string string).
Variable read_bucket : World -> string -> result string (bool * option Z).
Variable pem_decode : string -> option (string * string).
Variable parse_x509 : string -> result string x509_certificate.

Notation cdn := (managed CdnDeclared CdnObservation).
Notation Update := (Update recorder name deleting now read_secret read_bucket pem_decode parse_x509).

(** A read, or a change of conditions and events. *)
Definition reading (s s' : cdn) (t : list (exchange cdn_reply)) : Prop := still s s' [] /\ writes t = [].

Lemma reading_refl s : reading s s [].
Proof. done. Qed.

Lemma reading_trans s s' s'' t t' : reading s s' t -> reading s' s'' t' -> reading s s'' (t ++ t').
Proof. intros [[H1 H2] H3] [[H4 H5] H6]. split; [split; congruence|]. by rewrite writes_app, H3, H6. Qed.

Ltac reads := repeat first [evolves_step reading_refl reading_trans | done].

Lemma spec_secrets_reading : evolves (U := U) reading (spec_secrets read_secret pem_decode parse_x509).
Proof. unfold spec_secrets. reads. Qed.

Lemma ssl_reads_reading id mode : evolves (U := U) reading (ssl_reads id mode).
Proof. unfold ssl_reads, certificatesForMode. reads. Qed.

Lemma buildDesiredWrite_reading res cfg sec : evolves (U := U) reading (buildDesiredWrite name deleting read_bucket res cfg sec).
Proof. unfold buildDesiredWrite, resolveOrigin. reads. Qed.

(** The origin as the pass resolves it, and the secrets it reads, in a given world. *)
Definition origin_read (s : cdn) (w : World) : option resolvedOrigin :=
  if deleting then None else match resolve_origin (read_bucket w) (p_Origin (spec s)) with Ok o => Some o | Err _ => None end.

Definition secrets_read (s : cdn) (w : World) : result error resolvedSecrets :=
  resolveSpecSecrets (read_secret w) pem_decode parse_x509 (spec s).

(** What it answers is the difference with the origin just resolved. *)
Lemma buildDesiredWrite_result res cfg sec (s : cdn) w :
  wp (buildDesiredWrite name deleting read_bucket res cfg sec) (fun r s' w' t => still s s' [] /\ w' = w /\ t = [] /\
    r = Ok (desired_write name (spec s) (origin_read s w) res cfg sec)) s w.
Proof.
  unfold buildDesiredWrite, resolveOrigin, origin_read. destruct deleting; [do 5 wp_step; by repeat split|].
  do 7 wp_step. destruct (resolve_origin (read_bucket w) (p_Origin (spec s))) as [o|e]; repeat wp_step; by repeat split.
Qed.

Lemma spec_secrets_result (s : cdn) w :
  wp (spec_secrets read_secret pem_decode parse_x509) (fun r s' w' t => w' = w /\ t = [] /\ r = secrets_read s w /\ (is_ok r = true -> s' = s)) s w.
Proof.
  unfold spec_secrets, secrets_read. do 4 wp_step. destruct (resolveSpecSecrets _ _ _ _) as [sec|e]; repeat wp_step; by repeat split.
Qed.

Lemma executeSSLAction_calls a sec rid (s : cdn) w :
  wp (executeSSLAction recorder now a sec rid) (fun _ _ _ t => map request t = request_of a sec rid) s w.
Proof.
  destruct a; cbn [executeSSLAction request_of].
  - by wp_step.
  - unfold issue, map_status. do 9 wp_step. destruct (write_reply r); [by wp_step|].
    destruct (contains_str _ _); [by repeat wp_step|]. do 2 wp_step. destruct (_ <=? _); by wp_step.
  - unfold upload. do 3 wp_step. destruct (write_reply r); [by wp_step|]. destruct (error_is _ _); unfold map_status; by repeat wp_step.
  - by wp_step.
  - by wp_step.
  - unfold delete_certificate, map_status. do 2 wp_step. destruct (write_reply r); [|done]. do 4 wp_step.
    match goal with |- context[if ?b then _ else _] => destruct b end; by wp_step.
Qed.

(** The listing of certificates a mode calls for: the account's in custom mode, else those
    of the resource. *)
Inductive certificates_listed (id mode : string) (w : World) : exchange cdn_reply -> result error (list CDNCertificate) -> World -> Prop :=
| account_listed rep w' : mode = "custom" -> serve ListAllCDNCertificates w = (rep, w') ->
    certificates_listed id mode w (Exchange ListAllCDNCertificates rep) (read_reply (A := list CDNCertificate) rep) w'
| own_listed rep w' : mode <> "custom" -> serve (ListCDNCertificates id) w = (rep, w') ->
    certificates_listed id mode w (Exchange (ListCDNCertificates id) rep) (read_reply (A := list CDNCertificate) rep) w'.

(** The write that carries nothing. *)
Definition empty_write : CDNResourceWrite :=
  {| rw_Name := None; rw_Description := None; rw_ProjectID := None; rw_PresetID := None; rw_Server := None; rw_StorageID := None;
     rw_UseHTTPS := None; rw_TrafficLimitBytes := Absent; rw_Config := None |}.

(** The certificate part, from the listings of the pass and the clock after them: none
    where no certificate is declared; a listing that fails ends it. *)
Definition certificate_part (s : cdn) (cfg : CDNConfig) (sec : resolvedSecrets) (w : World) (o : result error unit)
    (t : list (exchange cdn_reply)) : Prop :=
  let id := ExternalName s in
  match p_SSL (spec s) with
  | None => o = Ok tt /\ t = []
  | Some ssl => exists x certs w1 t', certificates_listed id (ssl_Mode ssl) w x certs w1 /\ t = x :: t' /\
      match certs with
      | Err e => o = Err e /\ t' = []
      | Ok certs => exists rep w2 acts, serve (ListCDNCertificateTasks id) w1 = (rep, w2) /\
          t' = Exchange (Rep := cdn_reply) (ListCDNCertificateTasks id) rep :: acts /\
          match read_reply (A := list CDNCertificateTask) rep with
          | Err e => o = Err e /\ acts = []
          | Ok tasks =>
              map request acts =
                request_of (out_action (computeSSL (sslInputsFor (spec s) (AtProvider s) cfg certs tasks sec (now w2)))) sec
                  (match DecodeID id with Ok n => n | Err _ => 0 end)
          end
      end
  end.

(** One [Update], call by call. *)
Definition update_run (s : cdn) (w : World) (o : result error unit) (t : list (exchange cdn_reply)) : Prop :=
  let id := ExternalName s in
  exists r1 w1 t1, serve (GetCDNHTTPResource id) w = (r1, w1) /\ t = Exchange (Rep := cdn_reply) (GetCDNHTTPResource id) r1 :: t1 /\
  match read_reply (A := CDNHTTPResource) r1 with
  | Err e => o = Err e /\ t1 = []
  | Ok res =>
      (to_lower (hr_Status res) ∈ ["suspended"; "paused"; "stopped"; "blocked"; "disabled"; "no_paid"] /\ o = Ok tt /\ t1 = []) \/
      (to_lower (hr_Status res) ∉ ["suspended"; "paused"; "stopped"; "blocked"; "disabled"; "no_paid"] /\
       exists r2 w2 t2, serve (GetCDNHTTPResourceConfiguration id) w1 = (r2, w2) /\
         t1 = Exchange (Rep := cdn_reply) (GetCDNHTTPResourceConfiguration id) r2 :: t2 /\
         match read_reply (A := CDNConfig) r2, secrets_read s w2 with
         | Err e, _ => o = Err e /\ t2 = []
         | Ok _, Err e => o = Err e /\ t2 = []
         | Ok cfg, Ok sec =>
             let patch := (desired_write name (spec s) (origin_read s w2) res cfg sec).1 in
             (patch <> empty_write /\ exists r3, t2 = [Exchange (PatchCDNHTTPResource id patch) r3] /\ is_ok o = is_ok (write_reply r3)) \/
             (patch = empty_write /\ certificate_part s cfg sec w2 o t2)
         end)
  end.

Lemma dirty_empty p origin res cfg sec :
  if (desired_write name p origin res cfg sec).2 then (desired_write name p origin res cfg sec).1 <> empty_write
  else (desired_write name p origin res cfg sec).1 = empty_write.
Proof.
  unfold desired_write, empty_write. cbv zeta. cbn [fst snd].
  generalize (if bool_decide (hr_Name res = effectiveName name p) then None else Some (effectiveName name p)) as wname.
  generalize (if bool_decide (hr_Description res = strDeref (p_Description p)) then None else Some (strDeref (p_Description p))) as desc.
  generalize (match p_ProjectID p with Some pid => if pid =? hr_ProjectID res then None else Some pid | None => None end) as proj.
  generalize (match origin with Some o => if originDrifted o res cfg then Some o else None | None => None end) as drifted.
  intros [o|] [j|] [d|] [n|]; destruct (desired_limit p res), (desiredConfig p cfg sec); cbn; congruence.
Qed.

Lemma ssl_reads_spec id mode (Q : post (list CDNCertificate * list CDNCertificateTask)) (s : cdn) w :
  (forall x certs w1, certificates_listed id mode w x certs w1 ->
     match certs with
     | Err e => Q (Err e) s w1 [x]
     | Ok l => forall rep w2, serve (ListCDNCertificateTasks id) w1 = (rep, w2) ->
         Q (match read_reply (A := list CDNCertificateTask) rep with Ok tasks => Ok (l, tasks) | Err e => Err e end) s w2
           [x; Exchange (Rep := cdn_reply) (ListCDNCertificateTasks id) rep]
     end) ->
  wp (ssl_reads id mode) Q s w.
Proof.
  intros HQ. unfold ssl_reads, certificatesForMode. wp_step. case_bool_decide as Hm; wp_step.
  - specialize (HQ _ _ _ (account_listed id mode w r w' Hm H)). cbn [cdn_reply] in *. destruct (read_reply r) as [certs|e]; [|exact HQ].
    do 2 wp_step. specialize (HQ _ _ H0). cbn [cdn_reply] in *. destruct (read_reply r0); [wp_step|]; exact HQ.
  - specialize (HQ _ _ _ (own_listed id mode w r w' Hm H)). cbn [cdn_reply] in *. destruct (read_reply r) as [certs|e]; [|exact HQ].
    do 2 wp_step. specialize (HQ _ _ H0). cbn [cdn_reply] in *. destruct (read_reply r0); [wp_step|]; exact HQ.
Qed.

Lemma update_ssl_result cfg sec (s s0 : cdn) w :
  spec s = spec s0 -> AtProvider s = AtProvider s0 ->
  wp (update_ssl recorder now (ExternalName s0) cfg sec) (fun o _ _ t => certificate_part s0 cfg sec w o t) s w.
Proof.
  intros Es Ea. unfold update_ssl, certificate_part. do 2 wp_step. rewrite Es. destruct (p_SSL (spec s0)) as [ssl|]; [|by wp_step].
  apply wp_bind, ssl_reads_spec. intros x certs w1 Hx. destruct certs as [certs|e]; [|by exists x, (Err e), w1, []].
  intros rep w2 Hs. cbn [cdn_reply] in *. destruct (read_reply rep) as [tasks|e] eqn:Et.
  2: { exists x, (Ok certs), w1, [Exchange (Rep := cdn_reply) (ListCDNCertificateTasks (ExternalName s0)) rep].
       do 2 (split; [done|]). exists rep, w2, []. by rewrite Et. }
  unfold compute_ssl. do 4 wp_step. do 2 wp_step. cbn [app]. eapply wp_mono; [apply executeSSLAction_calls|]. intros o s2 w3 t3 H3.
  exists x, (Ok certs), w1, (Exchange (Rep := cdn_reply) (ListCDNCertificateTasks (ExternalName s0)) rep :: t3).
  do 2 (split; [done|]). exists rep, w2, t3. do 2 (split; [done|]). by rewrite Et, H3, Es, Ea.
Qed.

Lemma update_run_holds (s : cdn) (w : World) : wp Update (fun o _ _ t => update_run s w o t) s w.
Proof.
  unfold CdnExternal.Update, update_run. do 4 wp_step. cbn [app]. cbn [cdn_reply] in *.
  destruct (read_reply r) as [res|e] eqn:Er; [|exists r, w', []; do 2 (split; [done|]); by rewrite Er].
  unfold isSuspendedState. case_bool_decide as Hs; [wp_step; exists r, w', []; do 2 (split; [done|]); rewrite Er; by left|].
  do 2 wp_step. cbn [app]. cbn [cdn_reply] in *. set (x1 := Exchange (Rep := cdn_reply) (GetCDNHTTPResource (ExternalName s)) r).
  set (x2 := Exchange (Rep := cdn_reply) (GetCDNHTTPResourceConfiguration (ExternalName s)) r0).
  assert (forall o t, match read_reply (A := CDNConfig) r0, secrets_read s w'0 with
    | Err e, _ => o = Err e /\ t = []
    | Ok _, Err e => o = Err e /\ t = []
    | Ok cfg, Ok sec =>
        let patch := (desired_write name (spec s) (origin_read s w'0) res cfg sec).1 in
        (patch <> empty_write /\ exists r3, t = [Exchange (PatchCDNHTTPResource (ExternalName s) patch) r3] /\ is_ok o = is_ok (write_reply r3)) \/
        (patch = empty_write /\ certificate_part s cfg sec w'0 o t)
    end -> update_run s w o (x1 :: x2 :: t)) as Hres.
  { intros o t Ht. exists r, w', (x2 :: t). split; [done|]. split; [done|]. rewrite Er. right. split; [done|].
    exists r0, w'0, t. by do 2 (split; [done|]). }
  destruct (read_reply r0) as [cfg|e]; [|by apply Hres].
  apply wp_bind. eapply wp_mono; [apply spec_secrets_result|]. intros r1 s1 w1 t1 (-> & -> & -> & Hs1).
  destruct (secrets_read s w'0) as [sec|e]; [|by apply Hres]. rewrite Hs1 by done.
  apply wp_bind. eapply wp_mono; [apply buildDesiredWrite_result|]. intros r2 s2 w2 t2 ([H4 H5] & -> & -> & ->).
  pose proof (dirty_empty (spec s) (origin_read s w'0) res cfg sec) as Hd.
  destruct (desired_write _ _ _ _ _ _) as [patch dirty]. cbv beta iota. cbn [fst snd] in *. destruct dirty.
  - unfold patch_settings. do 3 wp_step. destruct (write_reply r1) as [[]|e] eqn:Ew; repeat wp_step; apply Hres; left; (split; [done|]); exists r1;
      (split; [reflexivity|]); by rewrite Ew.
  - eapply wp_mono; [apply update_ssl_result; [unfold spec; congruence|done]|]. intros o s3 w3 t3 H3. apply (Hres o t3). by right.
Qed.

Lemma request_of_one a sec rid : (length (List.filter mutates (request_of a sec rid)) <= 1)%nat.
Proof. destruct a; cbn; lia. Qed.

Lemma update_run_once s w o t : update_run s w o t -> (length (writes t) <= 1)%nat.
Proof.
  intros (r1 & w1 & t1 & _ & -> & H). unfold writes. cbn [map List.filter mutates request].
  destruct (read_reply (A := CDNHTTPResource) r1) as [res|e]; [|destruct H as [_ ->]; cbn; lia].
  destruct H as [(_ & _ & ->)|(_ & r2 & w2 & t2 & _ & -> & H)]; [cbn; lia|]. cbn [map List.filter mutates request].
  destruct (read_reply (A := CDNConfig) r2) as [cfg|e]; [|destruct H as [_ ->]; cbn; lia].
  destruct (secrets_read s w2) as [sec|e]; [|destruct H as [_ ->]; cbn; lia].
  destruct H as [(_ & r3 & -> & _)|[_ H]]; [cbn; lia|]. unfold certificate_part in H.
  destruct (p_SSL (spec s)) as [ssl|]; [|destruct H as [_ ->]; cbn; lia].
  destruct H as (x & certs & w3 & t' & Hx & -> & H). cbn [map List.filter].
  assert (mutates (request x) = false) as -> by (by destruct Hx). destruct certs as [certs|e]; [|destruct H as [_ ->]; cbn; lia].
  destruct H as (rep & w4 & acts & _ & -> & H). cbn [map List.filter mutates request].
  destruct (read_reply (A := list CDNCertificateTask) rep); [rewrite H; apply request_of_one|destruct H as [_ ->]; cbn; lia].
Qed.

(** C24. An [Update] makes at most one change upstream, and it is this. When the resource or
    its configuration cannot be read, the resource is suspended, or the declared secrets
    cannot be read: none. Else, when the declared settings differ from those read: the
    one PATCH that carries the differences, with the origin and the secrets as resolved
    in the pass. Else, when a certificate is declared: the request of the one action the
    certificate plan gives on the certificates and tasks listed in the pass, if it gives
    one; none when a listing fails. *)
Theorem update_makes_one_change (s : cdn) (w : World) :
  wp Update (fun o _ _ t => update_run s w o t /\ (length (writes t) <= 1)%nat) s w.
Proof.
  eapply wp_mono; [apply update_run_holds|]. intros o s' w' t H. split; [exact H|]. exact (update_run_once _ _ _ _ H).
Qed.
End OneWrite.

(** ** What the life cycle leaves undone *)
Section Undone.
Context `{R : CrossplaneRuntime} {U : Upstream cdn_request cdn_reply}.

(** The readiness of the origin gates the creation; but the difference that [Observe]
    computes of a live resource resolves it too, and an origin bucket that is not ready
    turns the resource's own Ready condition to False without making it out of date. *)
Lemma origin_outage_flips_ready (name : string) (read_bucket : World -> string -> result string (bool * option Z))
    res cfg sec (s : managed CdnDeclared CdnObservation) w msg :
  resolve_origin (read_bucket w) (p_Origin (spec s)) = Err msg ->
  wp (buildDesiredWrite name false read_bucket res cfg sec) (fun r s' _ _ =>
    s' = set_conditions (ReadyFalse ReasonOriginNotReady msg) s /\
    r = Ok (desired_write name (spec s) None res cfg sec)) s w.
Proof. intros H. unfold buildDesiredWrite, resolveOrigin. do 7 wp_step. rewrite H. by repeat wp_step. Qed.

(** A deletion calls for the resource alone: the certificate the provider made stays in
    the account. *)
Lemma delete_leaves_certificates :
  always (fun t => forall x, x ∈ t -> exists id, request x = DeleteCDNHTTPResource id)
    (Delete : M U (managed CdnDeclared CdnObservation) unit).
Proof.
  assert (forall t t' : list (exchange cdn_reply), (forall x, x ∈ t -> exists id, request x = DeleteCDNHTTPResource id) ->
    (forall x, x ∈ t' -> exists id, request x = DeleteCDNHTTPResource id) ->
    forall x, x ∈ t ++ t' -> exists id, request x = DeleteCDNHTTPResource id) as Happ by (intros t t' H H' x [?|?]%elem_of_app; auto).
  assert (forall x : exchange cdn_reply, x ∈ [] -> exists id, request x = DeleteCDNHTTPResource id) as Hnil by (intros x H; by apply elem_of_nil in H).
  unfold Delete, delete_or_gone, put_condition. repeat always_step Hnil Happ.
  intros x ->%list_elem_of_singleton. by eexists.
Qed.
End Undone.
