(* ===== verification/CdnConverge.v ===== *)
(** * CdnConverge: a declared certificate ends up bound, alone of its identity

    Custom mode against a service that does what it documents: the passes upload the
    declared certificate, bind it, and delete the old one and the copies, one step per
    pass; the rank of a state is the number of steps left. *)

From S2P Require Import Prelude Errors Timeweb Shared Effects Lifecycle Cdn CdnSettle CdnSSL CdnExternal CdnFacts.

(** ** The plan of custom mode *)
Section Plan.
Variable d : certIdentity.
























End Plan.

(** ** A service that does what it documents *)

(** The PATCH of the certificate slot is per key. *)
Definition set_certificate (o : option Z) (cfg : CDNConfig) : CDNConfig :=
  {| cfg_Cache := cfg_Cache cfg; cfg_Delivery := cfg_Delivery cfg; cfg_HTTPHeaders := cfg_HTTPHeaders cfg;
     cfg_Robots := cfg_Robots cfg;
     cfg_Security := Some {| se_Redirect := key (cfg_Security cfg) se_Redirect; se_CertificateID := o;
                             se_SecureToken := observed_token cfg |};
     cfg_Domains := cfg_Domains cfg; cfg_Origin := cfg_Origin cfg |}.

Definition bind_certificate (n : Z) : CDNConfig -> CDNConfig := set_certificate (Some n).

Definition bound_of (cfg : CDNConfig) : option Z := key (cfg_Security cfg) se_CertificateID.


Section Faithful.
Context `{R : CrossplaneRuntime} {U : Upstream cdn_request cdn_reply}.
Variable pem_decode : string -> option (string * string).
Variable parse_x509 : string -> result string x509_certificate.

(** The resource, its settings and the certificates of the account: reads leave them,
    an upload of a chain the service trusts (any other is turned down, 422) adds the
    certificate whose PEM was sent, a listed certificate can be bound, and a delete of one
    that no resource is bound to (409 otherwise), neither this one nor another
    ([elsewhere]), removes it. *)
Class FaithfulCdn (trusted : string -> Prop) (elsewhere : Z -> Prop) (res_of : World -> CDNHTTPResource) (cfg_of : World -> CDNConfig) (certs_of : World -> list CDNCertificate) : Prop := {
  cdn_get w r w' : serve (GetCDNHTTPResource (EncodeID (hr_ID (res_of w)))) w = (r, w') ->
    read_reply (A := CDNHTTPResource) r = Ok (res_of w) /\ res_of w' = res_of w /\ cfg_of w' = cfg_of w /\ certs_of w' = certs_of w;
  cdn_config w r w' : serve (GetCDNHTTPResourceConfiguration (EncodeID (hr_ID (res_of w)))) w = (r, w') ->
    read_reply (A := CDNConfig) r = Ok (cfg_of w) /\ res_of w' = res_of w /\ cfg_of w' = cfg_of w /\ certs_of w' = certs_of w;
  cdn_certificates w r w' : serve ListAllCDNCertificates w = (r, w') ->
    read_reply (A := list CDNCertificate) r = Ok (certs_of w) /\ res_of w' = res_of w /\ cfg_of w' = cfg_of w /\ certs_of w' = certs_of w;
  cdn_tasks id w r w' : serve (ListCDNCertificateTasks id) w = (r, w') ->
    (exists l, read_reply (A := list CDNCertificateTask) r = Ok l) /\
    res_of w' = res_of w /\ cfg_of w' = cfg_of w /\ certs_of w' = certs_of w;
  cdn_upload crt pkey d w r w' : serve (UploadCDNCertificate crt pkey) w = (r, w') ->
    parseTLSCertificate pem_decode parse_x509 crt = Ok d -> trusted crt ->
    write_reply r = Ok tt /\ res_of w' = res_of w /\ cfg_of w' = cfg_of w /\
    exists c, certIdentity_equal (identityOf c) d = true /\ ~ elsewhere (ce_ID c) /\ certs_of w' ≡ₚ c :: certs_of w;
  cdn_bind n w r w' : serve (PatchCDNHTTPResource (EncodeID (hr_ID (res_of w))) (certificate_write (Value n))) w = (r, w') ->
    n ∈ map ce_ID (certs_of w) ->
    write_reply r = Ok tt /\ res_of w' = res_of w /\ cfg_of w' = bind_certificate n (cfg_of w) /\ certs_of w' = certs_of w;
  cdn_delete n w r w' : serve (DeleteCDNCertificate (fmt_d n)) w = (r, w') ->
    n ∈ map ce_ID (certs_of w) -> bound_of (cfg_of w) <> Some n -> ~ elsewhere n ->
    write_reply r = Ok tt /\ res_of w' = res_of w /\ cfg_of w' = cfg_of w /\
    certs_of w' = List.filter (fun c => negb (ce_ID c =? n)) (certs_of w) }.

Variables (trusted : string -> Prop) (elsewhere : Z -> Prop).
Variables (res_of : World -> CDNHTTPResource) (cfg_of : World -> CDNConfig) (certs_of : World -> list CDNCertificate).
Context {F : FaithfulCdn trusted elsewhere res_of cfg_of certs_of}.
Variable recorder : bool.
Variable name : string.
Variable now : World -> Z.
Variable read_secret : World -> string -> result error (gmap string string).
Variable read_bucket : World -> string -> result string (bool * option Z).
Variable kube_patch : World -> string -> result error unit.

Notation cdn := (managed CdnDeclared CdnObservation).
Notation Observe := (Observe recorder name false now read_secret read_bucket kube_patch pem_decode parse_x509).
Notation Update := (Update recorder name false now read_secret read_bucket pem_decode parse_x509).
Notation controller := (cdn_controller recorder name false now read_secret read_bucket kube_patch pem_decode parse_x509).

(** The declaration: custom mode, its secrets and its origin resolved. *)
Variables (p : CdnParameters) (ssl : CdnSSL) (sec : resolvedSecrets) (d : certIdentity) (origin : resolvedOrigin).
Hypothesis Hssl : p_SSL p = Some ssl.
Hypothesis Hmode : ssl_Mode ssl = "custom".
Hypothesis Hsec : forall w, resolveSpecSecrets (read_secret w) pem_decode parse_x509 p = Ok sec.
Hypothesis Hd : rs_certIdentity sec = Some d.
Hypothesis Htrusted : trusted (rs_certPEM sec).
Hypothesis Horigin : forall w, resolve_origin (read_bucket w) (p_Origin p) = Ok origin.


























End Faithful.

(** ** A service in memory, and the witnesses *)

Record sim_cdn := { sm_resource : CDNHTTPResource; sm_config : CDNConfig; sm_certificates : list CDNCertificate; sm_next : Z }.

Definition sim_pem (s : string) : option (string * string) := Some ("CERTIFICATE", s).
Definition sim_x509 (s : string) : result string x509_certificate :=
  Ok {| x5_CommonName := s; x5_DNSNames := []; x5_NotAfterDay := "2030-01-01" |}.

(** The certificate the service makes of a PEM. *)
Definition sim_certificate (crt : string) (n : Z) : CDNCertificate :=
  {| ce_ID := n; ce_Type := "custom"; ce_CN := crt; ce_Domains := if bool_decide (crt = "") then [] else [crt]; ce_ExpiresAt := "2030-01-01" |}.

Definition with_config (cfg : CDNConfig) (w : sim_cdn) : sim_cdn :=
  {| sm_resource := sm_resource w; sm_config := cfg; sm_certificates := sm_certificates w; sm_next := sm_next w |}.
Definition with_certs (l : list CDNCertificate) (w : sim_cdn) : sim_cdn :=
  {| sm_resource := sm_resource w; sm_config := sm_config w; sm_certificates := l; sm_next := sm_next w + 1 |}.

Definition sim_serve (q : cdn_request) (w : sim_cdn) : reply (cdn_reply q) * sim_cdn :=
  match q as q return reply (cdn_reply q) * sim_cdn with
  | ListCDNHTTPResources => (ok_reply [sm_resource w], w)
  | GetCDNHTTPResource _ => (ok_reply (sm_resource w), w)
  | GetCDNHTTPResourceConfiguration _ => (ok_reply (sm_config w), w)
  | CreateCDNHTTPResource _ => (ok_reply (sm_resource w), w)
  | PatchCDNHTTPResource _ body =>
      (ok_reply tt,
       match rw_Config body with
       | Some c => match cp_Security c with
                   | Some s => match sep_CertificateID s with
                               | Value n => with_config (bind_certificate n (sm_config w)) w
                               | Null => with_config (set_certificate None (sm_config w)) w
                               | Absent => w
                               end
                   | None => w
                   end
       | None => w
       end)
  | DeleteCDNHTTPResource _ | ClearCDNCache _ _ _ | IssueCDNCertificate _ => (ok_reply tt, w)
  | ListCDNPresets => (ok_reply [], w)
  | ListCDNCertificates _ => (ok_reply (List.filter is_le (sm_certificates w)), w)
  | ListAllCDNCertificates => (ok_reply (sm_certificates w), w)
  | ListCDNCertificateTasks _ => (ok_reply [], w)
  | UploadCDNCertificate crt _ =>
      if bool_decide (crt = "self-signed") then (NetErr "cert_add_root_not_trusted", w)
      else (ok_reply tt, with_certs (sm_certificates w ++ [sim_certificate crt (Z.max 3 (sm_next w))]) w)
  | DeleteCDNCertificate id =>
      if bool_decide (fmt_d <$> bound_of (sm_config w) = Some id) || bool_decide (id = "2") then (NetErr "certificate_in_use", w)
      else (ok_reply tt, with_certs (List.filter (fun c => negb (bool_decide (fmt_d (ce_ID c) = id))) (sm_certificates w)) w)
  end.

Definition SimCdn : Upstream cdn_request cdn_reply := {| World := sim_cdn; serve := sim_serve |}.

(** Certificate 2 is another resource's; a chain that ends in itself is not trusted. *)
#[export] Instance SimCdn_faithful :
  FaithfulCdn (U := SimCdn) sim_pem sim_x509 (fun crt => crt <> "self-signed") (fun n => n = 2) sm_resource sm_config sm_certificates.
Proof.
  split; intros; match goal with H : serve _ _ = _ |- _ => cbn [serve SimCdn sim_serve] in H; rename H into Hs end;
    try (injection Hs as <- <-; done).
  - injection Hs as <- <-. split; [by eexists|done].
  - rewrite bool_decide_eq_false_2 in Hs by done. injection Hs as <- <-.
    split_and!; try done. exists (sim_certificate crt (Z.max 3 (sm_next w))). split_and!; [|cbn; lia|symmetry; apply Permutation_cons_append].
    match goal with H : parseTLSCertificate _ _ _ = _ |- _ => revert H end. unfold parseTLSCertificate. cbn.
    intros [= <-]. unfold certIdentity_equal, identityOf. cbn. unfold slicesEqual. by rewrite !bool_decide_eq_true_2.
  - match goal with H : bound_of _ <> _ |- _ => rename H into Hb end.
    assert (forall m, fmt_d m = fmt_d n <-> m = n) as Hinj.
    { intros m. unfold fmt_d. split; [intros E; by apply (inj pretty) in E|by intros ->]. }
    rewrite bool_decide_eq_false_2 in Hs by (destruct (bound_of (sm_config w)); cbn; [rewrite (inj_iff Some), Hinj|]; congruence).
    rewrite bool_decide_eq_false_2 in Hs by (change "2" with (fmt_d 2); intros E; symmetry in E; by apply Hinj in E).
    injection Hs as <- <-. split_and!; try done. cbn. apply List.filter_ext. intros c. f_equal.
    rewrite (bool_decide_ext _ _ (Hinj (ce_ID c))). destruct (Z.eqb_spec (ce_ID c) n); by case_bool_decide.
Qed.

#[local] Existing Instance MapRuntime.

Definition sim_secret (_ : sim_cdn) (_ : string) : result error (gmap string string) :=
  Ok {["tls.crt" := "www.example.com"; "tls.key" := "pem key"]}.
Definition sim_bucket (_ : sim_cdn) (_ : string) : result string (bool * option Z) := Err "not found".
Definition sim_now (w : sim_cdn) : Z := sm_next w.
Definition sim_patch (_ : sim_cdn) (_ : string) : result error unit := Ok tt.

Definition sim_ssl (mode : string) : CdnSSL :=
  {| ssl_Mode := mode; ssl_CertificateSecretRef := if bool_decide (mode = "custom") then Some {| csr_Name := "tls"; csr_Key := None |} else None |}.

Definition sim_params (mode : string) : CdnParameters :=
  {| p_Name := None; p_Description := None; p_ProjectID := None; p_Origin := wx_origin; p_Cache := None; p_Security := None;
     p_Performance := None; p_Cors := None; p_Domains := None; p_SSL := Some (sim_ssl mode); p_TrafficLimitGBPerMonth := None;
     p_RequestHeaders := None |}.



(** The old certificate of ours and one that is not. *)
Definition sim_old : CDNCertificate :=
  {| ce_ID := 1; ce_Type := "custom"; ce_CN := "www.example.com"; ce_Domains := ["www.example.com"]; ce_ExpiresAt := "2026-01-01T00:00:00Z" |}.
Definition sim_stranger : CDNCertificate :=
  {| ce_ID := 2; ce_Type := "custom"; ce_CN := "shop.example.com"; ce_Domains := ["shop.example.com"]; ce_ExpiresAt := "2031-01-01" |}.

Definition sim_world : sim_cdn :=
  {| sm_resource := wx_resource "" 0 None; sm_config := bind_certificate 1 (wx_config None ["abc.cdn.twcstorage.ru"] ∅);
     sm_certificates := [sim_old; sim_stranger]; sm_next := 3 |}.

Definition sim_observation (managed : option CdnCertificateStatus) (ssl : option CdnSSLStatus) : CdnObservation :=
  {| co_ID := None; co_TechnicalDomain := None; co_State := None; co_Source := None; co_LockedPresetID := None;
     co_LastPurgedAt := None; co_Domains := []; co_ObservedSettings := None; co_TrafficUsage := None; co_Certificate := None;
     co_ManagedCertificate := managed; co_SSL := ssl; co_TrafficLimitBytes := None |}.

Definition sim_managed (mode : string) : managed CdnDeclared CdnObservation :=
  {| ExternalName := "5"; ForProvider := {| de_ForProvider := sim_params mode; de_Annotations := ∅ |};
     AtProvider := sim_observation (Some (markerFor sim_old)) None; Conditions := no_conds; Events := [] |}.


Lemma letsencrypt_budget_witness :
  wp (U := SimCdn) (reconciles 20 (cdn_controller (U := SimCdn) true "web" false sim_now sim_secret sim_bucket sim_patch sim_pem sim_x509) false)
    (fun _ _ _ t => charged t <= maxIssueAttempts) (sim_managed "letsEncrypt") sim_world.
Proof.
  eapply wp_mono; [apply (letsencrypt_budget (U := SimCdn) true "web" false sim_now sim_secret sim_bucket sim_patch sim_pem sim_x509 20 false)|].
  - split; reflexivity.
  - cbv beta. intros r s' w' t [H _]. exact H.
Defined.

(** Mode none promises to unbind and delete the certificate the provider made. An upload
    is only in the account-wide list, mode none reads the list of the resource: the
    certificate is unbound and stays, and the marker that would have let it be deleted is
    dropped. *)
Lemma mode_none_leaks_upload :
  let x := passes 3 (cdn_controller (U := SimCdn) true "web" false sim_now sim_secret sim_bucket sim_patch sim_pem sim_x509) false
             (sim_managed "none", sim_world) in
  bound_of (sm_config x.2) = None /\ map ce_ID (sm_certificates x.2) = [1; 2] /\ co_ManagedCertificate (AtProvider x.1) = None /\
  (outcome (Observe (U := SimCdn) true "web" false sim_now sim_secret sim_bucket sim_patch sim_pem sim_x509 x.1 x.2)
   = Ok ({| ResourceExists := true; ResourceUpToDate := true |}, connectionDetails (sm_resource sim_world))).
Proof. vm_compute. repeat split. Qed.

(** The same in mode letsEncrypt: the slot is held by our upload, which the list of the
    resource does not show, so it is never cleared and every issuance is asked for
    against it. *)
Lemma letsencrypt_slot_not_cleared :
  let x := passes 5 (cdn_controller (U := SimCdn) true "web" false sim_now sim_secret sim_bucket sim_patch sim_pem sim_x509) false
             (sim_managed "letsEncrypt", sim_world) in
  bound_of (sm_config x.2) = Some 1 /\ map ce_ID (sm_certificates x.2) = [1; 2].
Proof. vm_compute. repeat split. Qed.
