(* ===== verification/Project.v ===== *)
(** * Project: the project controller

    [internal/controller/project/external.go]: [Observe], [Create], [Update] and
    [Delete] of a Project. A nil field of the PATCH is an explicit null: the generated
    type has no [omitempty] on it. *)

From S2P Require Import Prelude Errors Timeweb Shared Effects Lifecycle.

(** ** Payloads *)

Record ProjectOut := {
  pj_AccountId : string;
  pj_AvatarId : option string;
  pj_Description : string;
  pj_Id : Z;
  pj_IsDefault : bool;
  pj_Name : string }.

Record CreateProject := { cp_AvatarId : option string; cp_Description : option string; cp_Name : string }.
Record UpdateProject := { up_AvatarId : option string; up_Description : option string; up_Name : option string }.

Inductive project_request : Type :=
| GetProject (id : Z)
| CreateProjectRequest (body : CreateProject)
| UpdateProjectRequest (id : Z) (body : UpdateProject)
| DeleteProject (id : Z).

Definition project_reply (q : project_request) : Type :=
  match q with GetProject _ | CreateProjectRequest _ => ProjectOut | _ => unit end.

(** ** The managed resource *)

Record ProjectParameters := { prj_Name : string; prj_Description : option string; prj_AvatarID : option string }.
Record ProjectObservation := { po_ID : option Z; po_AccountID : option string; po_IsDefault : option bool }.

Definition isUpToDate (spec : ProjectParameters) (p : ProjectOut) : bool :=
  if negb (bool_decide (prj_Name spec = pj_Name p)) then false
  else if negb (PtrEqString (prj_Description spec) (pj_Description p)) then false
  else if negb (PtrEqStringPtr (prj_AvatarID spec) (pj_AvatarId p)) then false
  else true.

Definition project_body (fp : ProjectParameters) : CreateProject :=
  {| cp_AvatarId := prj_AvatarID fp; cp_Description := prj_Description fp; cp_Name := prj_Name fp |}.

Definition project_patch (fp : ProjectParameters) : UpdateProject :=
  {| up_AvatarId := prj_AvatarID fp; up_Description := prj_Description fp; up_Name := Some (prj_Name fp) |}.

(** ** The external client *)
Section ProjectExternal.
Context `{R : CrossplaneRuntime} {U : Upstream project_request project_reply}.
Variable recorder : bool.

Notation project := (managed ProjectParameters ProjectObservation).
Notation PM := (M U project).

Definition populateStatus (p : ProjectOut) (cr : project) : project :=
  set_at_provider {| po_ID := Some (pj_Id p); po_AccountID := Some (pj_AccountId p); po_IsDefault := Some (pj_IsDefault p) |} cr.

Definition observe_project (p : ProjectOut) : PM ExternalObservation :=
  modify (populateStatus p);;
  note_condition recorder Available;;
  cr ← get;
  mret {| ResourceExists := true; ResourceUpToDate := isUpToDate (ForProvider cr) p |}.

Definition Observe : PM ExternalObservation :=
  cr ← get;
  if bool_decide (ExternalName cr = "") then mret not_exists
  else match DecodeID (ExternalName cr) with
       | Err _ => mret not_exists
       | Ok id => get_or_absent not_exists "project: " (GetProject id) observe_project
       end.

Definition Create : PM unit :=
  cr ← get;
  p ← call_decode "project: " (CreateProjectRequest (project_body (ForProvider cr)));
  modify (set_external_name (EncodeID (pj_Id p)));;
  modify (populateStatus p);;
  note_condition recorder Creating.

Definition Update : PM unit :=
  cr ← get;
  match DecodeID (ExternalName cr) with
  | Err e => throw (wrap_pre "project: decode external-name: " e)
  | Ok id => do_ (UpdateProjectRequest id (project_patch (ForProvider cr)))
  end.

Definition Delete : PM unit :=
  cr ← get;
  match DecodeID (ExternalName cr) with
  | Err _ => mret tt
  | Ok id => delete_or_gone (DeleteProject id) (put_condition Deleting)
  end.

Definition project_controller : Controller U project :=
  {| c_observe := Observe; c_create := Create; c_update := Update; c_delete := Delete |}.
End ProjectExternal.

(** ** Facts *)
Section Facts.
Context `{R : CrossplaneRuntime} {U : Upstream project_request project_reply}.
Variable recorder : bool.
Variables (id : Z) (fp : ProjectParameters).
Variable stored : World -> ProjectOut.

Notation project := (managed ProjectParameters ProjectObservation).
Notation controller := (project_controller recorder).

(** A service that keeps the project and applies a patch as JSON merge does: a null
    clears the field. *)
Record project_service : Prop := {
  project_read w : serve (GetProject id) w = (ok_reply (stored w), w);
  project_patched body w : exists w', serve (UpdateProjectRequest id body) w = (ok_reply tt, w') /\
    pj_Name (stored w') = default (pj_Name (stored w)) (up_Name body) /\
    pj_Description (stored w') = default_str (up_Description body) /\ pj_AvatarId (stored w') = up_AvatarId body }.

Definition declares (s : project) : Prop := DecodeID (ExternalName s) = Ok id /\ ForProvider s = fp.

Lemma wp_project_observe (service : project_service) (s : project) w (Q : post ExternalObservation) :
  declares s ->
  (forall s', declares s' -> Q (Ok {| ResourceExists := true; ResourceUpToDate := isUpToDate fp (stored w) |}) s' w
                               [Exchange (GetProject id) (ok_reply (stored w))]) ->
  wp (Observe recorder) Q s w.
Proof.
  intros [Hid Hfp] HQ. unfold Observe. do 2 wp_step. rewrite bool_decide_eq_false_2, Hid
    by (intros He; rewrite He in Hid; discriminate Hid).
  apply wp_get_or_absent. intros rep w'. rewrite (project_read service). intros [= <- <-].
  change (read_reply_pre "project: " (ok_reply (stored w))) with (Ok (E := error) (stored w)). cbv beta iota.
  unfold observe_project. repeat wp_step. cbn [ForProvider set_conditions record_condition_change populateStatus set_at_provider].
  rewrite Hfp. by apply HQ.
Qed.

(** What the patch leaves is what the spec declares, an edit that takes the description
    or the avatar away included. *)
Lemma patched_up_to_date p p' :
  pj_Name p' = default (pj_Name p) (up_Name (project_patch fp)) -> pj_Description p' = default_str (up_Description (project_patch fp)) ->
  pj_AvatarId p' = up_AvatarId (project_patch fp) -> isUpToDate fp p' = true.
Proof.
  cbn [up_Name up_Description up_AvatarId project_patch default from_option]. intros Hn Hd Ha.
  unfold isUpToDate, PtrEqString, PtrEqStringPtr. rewrite Hn, Hd, Ha, (bool_decide_eq_true_2 (prj_Name fp = prj_Name fp)) by done.
  destruct (prj_Description fp); cbn [default_str]; rewrite bool_decide_eq_true_2 by done; cbn [negb];
    (destruct (prj_AvatarID fp); cbn [default_str]; [|done]); by rewrite bool_decide_eq_true_2.
Qed.

(** Any edit of a project is made by one pass and noticed as made by the next: a pass
    reads the project and, exactly when it is not as declared, patches it once; from then
    on every pass is one read. *)
Theorem project_edit_settles (service : project_service) (n : nat) (cr : project) (w : World) (Hcr : declares cr) :
  calls (reconciles (S n) controller false cr w) =
    GetProject id :: (if isUpToDate fp (stored w) then [] else [UpdateProjectRequest id (project_patch fp)]) ++ repeat (GetProject id) n.
Proof.
  change (wp (reconciles (S n) controller false) (fun _ _ _ t => map request t =
    GetProject id :: (if isUpToDate fp (stored w) then [] else [UpdateProjectRequest id (project_patch fp)]) ++ repeat (GetProject id) n) cr w).
  assert (forall s w1, declares s /\ isUpToDate fp (stored w1) = true -> wp (reconcile controller false) (fun _ s' w' t =>
    (declares s' /\ isUpToDate fp (stored w') = true) /\ map request t = [GetProject id]) s w1) as Hquiet.
  { intros s w1 [Hs Hu]. apply wp_reconcile, (wp_project_observe service); [done|]. intros s' Hs'. rewrite Hu. cbn [ResourceExists ResourceUpToDate negb].
    by wp_step. }
  enough (wp (reconcile controller false) (fun _ s' w' t => (declares s' /\ isUpToDate fp (stored w') = true) /\
            map request t = GetProject id :: (if isUpToDate fp (stored w) then [] else [UpdateProjectRequest id (project_patch fp)])) cr w) as Hfirst.
  { cbn [reconciles]. do 2 wp_step. eapply wp_mono; [exact Hfirst|]. intros r s1 w1 t1 [H1 Ht1]. cbv beta iota.
    eapply wp_mono; [exact (wp_reconciles_alike controller false _ [GetProject id] Hquiet n s1 w1 H1)|].
    intros r' s2 w2 t2 [_ Ht2]. by rewrite map_app, Ht1, Ht2, concat_repeat_one. }
  destruct (isUpToDate fp (stored w)) eqn:Hu; [by apply Hquiet|].
  apply wp_reconcile, (wp_project_observe service); [done|]. intros s' [Hid Hfp]. rewrite Hu. cbn [ResourceExists ResourceUpToDate negb].
  cbn [c_update project_controller]. unfold Update. do 2 wp_step. rewrite Hid, Hfp. wp_step.
  destruct (project_patched service (project_patch fp) w) as (w2 & H2 & Hn & Hd & Ha). rewrite H2 in H. injection H as <- <-.
  split; [split; [done|]|done]. by apply (patched_up_to_date (stored w)).
Qed.
End Facts.

(** ** Witness *)

Definition sample_project : ProjectOut :=
  {| pj_AccountId := "acc"; pj_AvatarId := Some "a-1"; pj_Description := "old"; pj_Id := 3; pj_IsDefault := false; pj_Name := "shop" |}.

Definition patch_project (body : UpdateProject) (p : ProjectOut) : ProjectOut :=
  {| pj_AccountId := pj_AccountId p; pj_AvatarId := up_AvatarId body; pj_Description := default_str (up_Description body);
     pj_Id := pj_Id p; pj_IsDefault := pj_IsDefault p; pj_Name := default (pj_Name p) (up_Name body) |}.

Definition one_project_serve (q : project_request) (p : ProjectOut) : reply (project_reply q) * ProjectOut :=
  match q with
  | GetProject _ => (ok_reply p, p)
  | UpdateProjectRequest _ body => (ok_reply tt, patch_project body p)
  | CreateProjectRequest _ => (NetErr "not served", p)
  | DeleteProject _ => (gone_reply, p)
  end.

#[export] Instance OneProject : Upstream project_request project_reply := {| World := ProjectOut; serve := one_project_serve |}.

(** The description and the avatar are taken out of the spec. *)
Definition sample_fp : ProjectParameters := {| prj_Name := "shop"; prj_Description := None; prj_AvatarID := None |}.

Definition sample_cr : managed ProjectParameters ProjectObservation :=
  {| ExternalName := "3"; ForProvider := sample_fp; AtProvider := {| po_ID := None; po_AccountID := None; po_IsDefault := None |};
     Conditions := no_conds; Events := [] |}.

Lemma project_edit_settles_witness :
  calls (reconciles (U := OneProject) 3 (project_controller (R := MapRuntime) (U := OneProject) true) false sample_cr sample_project) =
    [GetProject 3; UpdateProjectRequest 3 (project_patch sample_fp); GetProject 3; GetProject 3].
Proof.
  apply (project_edit_settles (R := MapRuntime) (U := OneProject) true 3 sample_fp (fun w => w)) with (n := 2%nat).
  - split; [reflexivity|]. intros body w. exists (patch_project body w). by repeat split.
  - split; reflexivity.
Defined.
