(* ===== verification/SSHKey.v ===== *)
(** * SSHKey: the SSH-key controller

    [internal/controller/sshkey/external.go]: name and body are immutable, only
    [isDefault] is patched. [sk_CreatedAt] is the text the code's [Format] gives of the
    decoded time. *)

From S2P Require Import Prelude Errors Timeweb Shared Effects Lifecycle.

(** ** Payloads *)

Record SshKeyServer := { ks_Id : Z; ks_Name : string }.

Record SshKey := {
  sk_Body : string;
  sk_CreatedAt : string;
  sk_Id : Z;
  sk_IsDefault : option bool;
  sk_Name : string;
  sk_UsedBy : list SshKeyServer }.

Record CreateKeyBody := { ck_Body : string; ck_IsDefault : bool; ck_Name : string }.
Record UpdateKeyBody := { uk_Body : option string; uk_IsDefault : option bool; uk_Name : option string }.

Inductive sshkey_request : Type :=
| GetKey (id : Z)
| CreateKey (body : CreateKeyBody)
| UpdateKey (id : Z) (body : UpdateKeyBody)
| DeleteKey (id : Z).

Definition sshkey_reply (q : sshkey_request) : Type := match q with GetKey _ | CreateKey _ => SshKey | _ => unit end.

(** ** The managed resource *)

Record SSHKeyParameters := { kp_Name : string; kp_Body : string; kp_IsDefault : option bool }.
Record SSHKeyUsedByServer := { ub_ID : Z; ub_Name : string }.
Record SSHKeyObservation := { ko_ID : option Z; ko_CreatedAt : option string; ko_UsedBy : list SSHKeyUsedByServer }.

Definition sshkey_up_to_date (spec : SSHKeyParameters) (k : SshKey) : bool :=
  if negb (Bool.eqb (DerefBool (kp_IsDefault spec)) (DerefBool (sk_IsDefault k))) then false
  else if negb (bool_decide (kp_Name spec = sk_Name k)) || negb (bool_decide (kp_Body spec = sk_Body k)) then false
  else true.

Definition sshkey_checks (spec : SSHKeyParameters) (k : SshKey) : list ImmutableField :=
  [{| if_Name := "body"; if_Desired := kp_Body spec; if_Observed := sk_Body k |};
   {| if_Name := "name"; if_Desired := kp_Name spec; if_Observed := sk_Name k |}].

Definition sshkey_body (fp : SSHKeyParameters) : CreateKeyBody :=
  {| ck_Body := kp_Body fp; ck_IsDefault := DerefBool (kp_IsDefault fp); ck_Name := kp_Name fp |}.

Definition sshkey_patch (fp : SSHKeyParameters) : UpdateKeyBody :=
  {| uk_Body := None; uk_IsDefault := kp_IsDefault fp; uk_Name := None |}.

(** ** The external client *)
Section SSHKeyExternal.
Context `{R : CrossplaneRuntime} {U : Upstream sshkey_request sshkey_reply}.
Variable recorder : bool.

Notation sshkey := (managed SSHKeyParameters SSHKeyObservation).
Notation KM := (M U sshkey).

Definition populateStatus (k : SshKey) (cr : sshkey) : sshkey :=
  set_at_provider {| ko_ID := Some (sk_Id k); ko_CreatedAt := Some (sk_CreatedAt k);
                     ko_UsedBy := map (fun u => {| ub_ID := ks_Id u; ub_Name := ks_Name u |}) (sk_UsedBy k) |} cr.

Definition observe_sshkey (k : SshKey) : KM ExternalObservation :=
  modify (populateStatus k);;
  note_condition recorder Available;;
  cr ← get;
  mret {| ResourceExists := true; ResourceUpToDate := sshkey_up_to_date (ForProvider cr) k |}.

Definition Observe : KM ExternalObservation :=
  cr ← get;
  if bool_decide (ExternalName cr = "") then mret not_exists
  else match DecodeID (ExternalName cr) with
       | Err _ => mret not_exists
       | Ok id => get_or_absent not_exists "sshkey: " (GetKey id) observe_sshkey
       end.

Definition Create : KM unit :=
  cr ← get;
  k ← call_decode "sshkey: " (CreateKey (sshkey_body (ForProvider cr)));
  modify (set_external_name (EncodeID (sk_Id k)));;
  modify (populateStatus k);;
  note_condition recorder Creating.

Definition Update : KM unit :=
  cr ← get;
  match DecodeID (ExternalName cr) with
  | Err e => throw (wrap_pre "sshkey: decode external-name: " e)
  | Ok id =>
      k ← call_decode "sshkey: " (GetKey id);
      match FirstImmutableDiff (sshkey_checks (ForProvider cr) k) with
      | Some field => reject (RejectImmutableChange recorder field)
      | None => do_ (UpdateKey id (sshkey_patch (ForProvider cr)))
      end
  end.

Definition Delete : KM unit :=
  cr ← get;
  match DecodeID (ExternalName cr) with
  | Err _ => mret tt
  | Ok id => delete_or_gone (DeleteKey id) (put_condition Deleting)
  end.

Definition sshkey_controller : Controller U sshkey :=
  {| c_observe := Observe; c_create := Create; c_update := Update; c_delete := Delete |}.
End SSHKeyExternal.

(** ** Facts *)
Section Facts.
Context `{R : CrossplaneRuntime} {U : Upstream sshkey_request sshkey_reply}.
Variable recorder : bool.

Notation sshkey := (managed SSHKeyParameters SSHKeyObservation).
Notation controller := (sshkey_controller recorder).
Notation Update := (Update recorder).

(** A key's [Update], after its one read: a changed name or body, blanks around them
    apart, is refused before anything is written; otherwise one patch is sent, which
    carries the default flag and nothing else. *)
Theorem sshkey_update_spec (cr : sshkey) (w : World) (id : Z) (Hid : DecodeID (ExternalName cr) = Ok id) :
  let run := Update cr w in
  exists rep t, trace run = Exchange (Rep := sshkey_reply) (GetKey id) rep :: t /\
    match read_reply_pre (A := SshKey) "sshkey: " rep with
    | Err e => outcome run = Err e /\ t = [] /\ final run = cr
    | Ok k =>
        if bool_decide (trim_space (kp_Body (ForProvider cr)) = trim_space (sk_Body k) /\
                        trim_space (kp_Name (ForProvider cr)) = trim_space (sk_Name k))
        then map request t = [UpdateKey id {| uk_Body := None; uk_IsDefault := kp_IsDefault (ForProvider cr); uk_Name := None |}] /\
             final run = cr
        else outcome run = Err (Sentinel ErrImmutableFieldChange) /\ t = []
    end.
Proof.
  cbv zeta. pattern (outcome (Update cr w)), (final (Update cr w)), (trace (Update cr w)).
  match goal with |- ?P _ _ _ => change (wp Update (fun o s' _ t => P o s' t) cr w) end.
  unfold SSHKey.Update. do 2 wp_step. rewrite Hid. do 2 wp_step. cbn [sshkey_reply] in *.
  destruct (read_reply_pre "sshkey: " r) as [k|e] eqn:Er; [|by exists r, []; rewrite Er].
  unfold sshkey_checks. cbn [FirstImmutableDiff if_Desired if_Observed if_Name].
  destruct (decide (trim_space (kp_Body (ForProvider cr)) = trim_space (sk_Body k))) as [Hb|Hb].
  - rewrite (bool_decide_eq_true_2 _ Hb). cbn [negb].
    destruct (decide (trim_space (kp_Name (ForProvider cr)) = trim_space (sk_Name k))) as [Hn|Hn].
    + rewrite (bool_decide_eq_true_2 _ Hn). cbn [negb]. wp_step. exists r; eexists. split; [reflexivity|]. rewrite Er.
      by rewrite bool_decide_eq_true_2.
    + rewrite (bool_decide_eq_false_2 _ Hn). cbn [negb]. wp_step. exists r, []. rewrite Er.
      by rewrite bool_decide_eq_false_2 by naive_solver.
  - rewrite (bool_decide_eq_false_2 _ Hb). cbn [negb]. wp_step. exists r, []. rewrite Er.
    by rewrite bool_decide_eq_false_2 by naive_solver.
Qed.

(** ** Edits that are never made *)
Variables (id : Z) (fp : SSHKeyParameters) (stored : World -> SshKey).

(** A service whose patches change the default flag alone, when they carry one. *)
Record sshkey_service : Prop := {
  key_read w : serve (GetKey id) w = (ok_reply (stored w), w);
  key_patched flag w : exists w', serve (UpdateKey id {| uk_Body := None; uk_IsDefault := flag; uk_Name := None |}) w = (ok_reply tt, w') /\
    sk_Body (stored w') = sk_Body (stored w) /\ sk_Name (stored w') = sk_Name (stored w) /\
    (flag = None -> sk_IsDefault (stored w') = sk_IsDefault (stored w)) }.

Definition declares (s : sshkey) : Prop := DecodeID (ExternalName s) = Ok id /\ ForProvider s = fp.

(** Drift that [Update] neither refuses nor repairs: a body or a name the service keeps
    without the blanks around it, or a default flag taken out of the spec. *)
Definition not_carried (k : SshKey) : Prop :=
  trim_space (kp_Body fp) = trim_space (sk_Body k) /\ trim_space (kp_Name fp) = trim_space (sk_Name k) /\
  (kp_Body fp <> sk_Body k \/ kp_Name fp <> sk_Name k \/ (kp_IsDefault fp = None /\ DerefBool (sk_IsDefault k) = true)).

Lemma not_carried_drift k : not_carried k -> sshkey_up_to_date fp k = false.
Proof.
  intros (_ & _ & H). unfold sshkey_up_to_date. destruct (negb (Bool.eqb _ _)) eqn:E; [done|].
  destruct H as [Hb|[Hn|[Hd Hk]]]; [|by rewrite (bool_decide_eq_false_2 _ Hn)|].
  - rewrite (bool_decide_eq_false_2 _ Hb). by rewrite orb_true_r.
  - rewrite Hd, Hk in E. discriminate E.
Qed.

(** A key declared with blanks the service trimmed, the newline a key file ends with for
    one, or whose default flag was taken out of the spec while it is set, is never up to
    date and never refused: every pass reads it twice and sends it the same patch. *)
Theorem key_edit_never_settles (service : sshkey_service) (n : nat) (cr : sshkey) (w : World)
    (Hcr : declares cr) (Hp : not_carried (stored w)) :
  calls (reconciles n controller false cr w) = concat (repeat [GetKey id; GetKey id; UpdateKey id (sshkey_patch fp)] n).
Proof.
  enough (wp (reconciles n controller false) (fun _ s' w' t => (declares s' /\ not_carried (stored w')) /\
            map request t = concat (repeat [GetKey id; GetKey id; UpdateKey id (sshkey_patch fp)] n)) cr w) as [_ Ht] by exact Ht.
  apply (wp_reconciles_alike controller false (fun s w' => declares s /\ not_carried (stored w'))); [|done].
  clear n cr w Hcr Hp. intros s w [[Hid Hfp] Hp]. apply wp_reconcile. cbn [c_observe sshkey_controller].
  unfold Observe. do 2 wp_step. rewrite bool_decide_eq_false_2, Hid by (intros He; rewrite He in Hid; discriminate Hid).
  apply wp_get_or_absent. intros rep w'. rewrite (key_read service). intros [= <- <-].
  change (read_reply_pre "sshkey: " (ok_reply (stored w))) with (Ok (E := error) (stored w)). cbv beta iota.
  unfold observe_sshkey. repeat wp_step. cbn [ForProvider set_conditions record_condition_change populateStatus set_at_provider].
  rewrite Hfp, (not_carried_drift _ Hp). cbn [ResourceExists ResourceUpToDate negb c_update sshkey_controller].
  unfold SSHKey.Update. do 2 wp_step. cbn [ExternalName ForProvider set_conditions record_condition_change populateStatus set_at_provider].
  rewrite Hid. do 2 wp_step. rewrite (key_read service) in H. injection H as <- <-.
  change (read_reply_pre "sshkey: " (ok_reply (stored w))) with (Ok (E := error) (stored w)). cbv beta iota. rewrite Hfp.
  destruct Hp as (Hb & Hn & Hd). unfold sshkey_checks. cbn [FirstImmutableDiff if_Desired if_Observed if_Name].
  rewrite (bool_decide_eq_true_2 _ Hb), (bool_decide_eq_true_2 _ Hn). cbn [negb]. wp_step.
  destruct (key_patched service (kp_IsDefault fp) w) as (w2 & H2 & Hb2 & Hn2 & Hf2).
  change {| uk_Body := None; uk_IsDefault := kp_IsDefault fp; uk_Name := None |} with (sshkey_patch fp) in H2.
  rewrite H2 in H. injection H as <- <-. split; [|done]. split; [done|]. unfold not_carried. rewrite Hb2, Hn2.
  split; [done|]. split; [done|]. destruct Hd as [?|[?|[Hd Hk]]]; [by left|by right; left|]. right; right. by rewrite Hf2.
Qed.
End Facts.

(** ** Witnesses *)

Definition sample_key : SshKey :=
  {| sk_Body := "ssh-ed25519 AAAA"; sk_CreatedAt := "2026-05-01T00:00:00Z"; sk_Id := 4; sk_IsDefault := Some false; sk_Name := "ci"; sk_UsedBy := [] |}.

Definition patch_key (body : UpdateKeyBody) (k : SshKey) : SshKey :=
  {| sk_Body := default (sk_Body k) (uk_Body body); sk_CreatedAt := sk_CreatedAt k; sk_Id := sk_Id k;
     sk_IsDefault := match uk_IsDefault body with Some b => Some b | None => sk_IsDefault k end;
     sk_Name := default (sk_Name k) (uk_Name body); sk_UsedBy := sk_UsedBy k |}.

Definition one_key_serve (q : sshkey_request) (k : SshKey) : reply (sshkey_reply q) * SshKey :=
  match q with
  | GetKey _ => (ok_reply k, k)
  | UpdateKey _ body => (ok_reply tt, patch_key body k)
  | CreateKey _ => (NetErr "not served", k)
  | DeleteKey _ => (gone_reply, k)
  end.

#[export] Instance OneKey : Upstream sshkey_request sshkey_reply := {| World := SshKey; serve := one_key_serve |}.

(** The body as a file holds it, newline included. *)
Definition key_fp : SSHKeyParameters :=
  {| kp_Name := "ci"; kp_Body := "ssh-ed25519 AAAA" +:+ newline; kp_IsDefault := Some true |}.

Definition key_cr : managed SSHKeyParameters SSHKeyObservation :=
  {| ExternalName := "4"; ForProvider := key_fp; AtProvider := {| ko_ID := None; ko_CreatedAt := None; ko_UsedBy := [] |};
     Conditions := no_conds; Events := [] |}.

Lemma sshkey_update_spec_witness :
  calls (Update (R := MapRuntime) (U := OneKey) true key_cr sample_key) =
    [GetKey 4; UpdateKey 4 {| uk_Body := None; uk_IsDefault := Some true; uk_Name := None |}].
Proof.
  destruct (sshkey_update_spec (R := MapRuntime) (U := OneKey) true key_cr sample_key 4 eq_refl) as (rep & t & _).
  vm_compute. reflexivity.
Defined.

Lemma key_edit_never_settles_witness :
  calls (reconciles (U := OneKey) 2 (sshkey_controller (R := MapRuntime) (U := OneKey) true) false key_cr sample_key) =
    [GetKey 4; GetKey 4; UpdateKey 4 (sshkey_patch key_fp); GetKey 4; GetKey 4; UpdateKey 4 (sshkey_patch key_fp)].
Proof.
  apply (key_edit_never_settles (R := MapRuntime) (U := OneKey) true 4 key_fp (fun w => w)) with (n := 2%nat).
  - split; [reflexivity|]. intros flag w. eexists. split; [reflexivity|]. split; [reflexivity|]. split; [reflexivity|].
    intros ->. reflexivity.
  - split; reflexivity.
  - split; [vm_compute; reflexivity|split; [vm_compute; reflexivity|left; discriminate]].
Defined.
