(* ===== verification/Storage.v ===== *)
(** * Storage: the object-storage services the two controllers talk to

    The bucket calls of the generated client, the scoped-user calls of
    [internal/clients/timeweb/storages_users_v2.go], the IAM Query calls of
    [internal/clients/rgwiam/sigv4.go] and [DeriveAdminKeys] of
    [internal/controller/shared/adminkeys.go]. A signed call carries its key pair. *)

From S2P Require Import Prelude Errors Timeweb Shared Effects Policy.

(** ** Payloads *)

(** [generated.Bucket]: the fields read. [bk_MovedInQuarantineAt] is the text the
    code's [Format] gives of the decoded time. *)
Record Bucket := {
  bk_Description : string;
  bk_IsUnlimited : bool;
  bk_Size : Z;
  bk_Used : Z;
  bk_Hostname : string;
  bk_Id : Z;
  bk_Location : string;
  bk_MovedInQuarantineAt : option string;
  bk_Name : string;
  bk_ObjectAmount : Z;
  bk_PresetId : option Z;
  bk_ProjectId : Z;
  bk_Status : string;
  bk_StorageClass : string;
  bk_Type : string }.

Record CreateStorageBody := {
  sb_Name : string;
  sb_Type : string;
  sb_PresetId : option Z;
  sb_Description : option string;
  sb_ProjectId : option Z }.

Record UpdateStorageBody := {
  su_BucketType : option string;
  su_Description : option string;
  su_PresetId : option Z }.

Record IAMUser := {
  iu_ID : string;
  iu_Name : string;
  iu_AccessKey : string;
  iu_SecretKey : string;
  iu_Status : string }.

(** The key pair a query is signed with. *)
Record AdminKeys := { ak_AccessKey : string; ak_SecretKey : string }.

(** What the XML of a query reply decodes to: the error's [Code] and [Message], empty
    where there is none, and the result. *)
Record iam_body := { ib_Code : string; ib_Message : string; ib_PolicyDocument : string }.

Inductive storage_request : Type :=
| GetStorage (id : Z)
| CreateStorage (body : CreateStorageBody)
| UpdateStorage (id : Z) (body : UpdateStorageBody)
| DeleteStorage (id : Z)
| GetStorageUsers
| ListStorageUsersV2
| GetStorageUserV2 (id : string)
| CreateStorageUserV2 (name : string)
| DeleteStorageUserV2 (id : string)
| GetUserPolicyQuery (keys : AdminKeys) (userName policyName : string)
| PutUserPolicyQuery (keys : AdminKeys) (userName policyName policyDocument : string)
| DeleteUserPolicyQuery (keys : AdminKeys) (userName policyName : string).

Definition storage_reply (q : storage_request) : Type :=
  match q with
  | GetStorage _ | CreateStorage _ => Bucket
  | GetStorageUsers => list AdminKeys
  | ListStorageUsersV2 => list IAMUser
  | GetStorageUserV2 _ | CreateStorageUserV2 _ => IAMUser
  | GetUserPolicyQuery _ _ _ | PutUserPolicyQuery _ _ _ _ | DeleteUserPolicyQuery _ _ _ => iam_body
  | _ => unit
  end.

(** ** The IAM Query client *)

Definition PolicyName : string := "iam-user-policy".

(** The reply as [iamClient.do] receives it: [xml.Unmarshal] ignores its failure on
    an error body. *)
Definition iam_reply_of (r : reply iam_body) : iam_reply :=
  match r with
  | NetErr msg => IamNetErr msg
  | Reply _ (ReadFailed msg) => IamReadErr msg
  | Reply resp (DecodeFailed _) => IamReply (StatusCode resp) "" "" ""
  | Reply resp (Decoded b) => IamReply (StatusCode resp) (ib_PolicyDocument b) (ib_Code b) (ib_Message b)
  end.

(** The document of [GetUserPolicy]. *)
Definition iam_document (r : reply iam_body) : result error string :=
  match iam_do (iam_reply_of r) with
  | Err e => Err e
  | Ok doc => match r with
              | Reply _ (DecodeFailed c) => Err (wrap_pre "rgwiam: decode GetUserPolicy: " (ErrorString c))
              | _ => Ok (decodePolicyDocument doc)
              end
  end.

(** The other calls discard the body. *)
Definition iam_done (r : reply iam_body) : result error unit :=
  match iam_do (iam_reply_of r) with Ok _ => Ok tt | Err e => Err e end.

Section Calls.
Context {U : Upstream storage_request storage_reply} {S : Type}.

Definition GetUserPolicy (keys : AdminKeys) (userName policyName : string) : M U S string :=
  call_with (GetUserPolicyQuery keys userName policyName) iam_document.

Definition PutUserPolicy (keys : AdminKeys) (userName policyName policyDocument : string) : M U S unit :=
  call_with (PutUserPolicyQuery keys userName policyName policyDocument) iam_done.

Definition DeleteUserPolicy (keys : AdminKeys) (userName policyName : string) : M U S unit :=
  call_with (DeleteUserPolicyQuery keys userName policyName) iam_done.

(** The first super-user's keys, both set. *)
Definition DeriveAdminKeys : M U S AdminKeys :=
  users ← doJSON GetStorageUsers;
  match users with
  | u :: _ =>
      if bool_decide (ak_AccessKey u = "") || bool_decide (ak_SecretKey u = "")
      then throw (ErrorString "no account-admin S3 keys found at /api/v1/storages/users")
      else mret u
  | [] => throw (ErrorString "no account-admin S3 keys found at /api/v1/storages/users")
  end.
End Calls.

(** ** Facts *)

(** A reply without the policy is [ErrNoSuchEntity] and nothing else is. *)
Lemma iam_do_no_entity r e :
  iam_do (iam_reply_of r) = Err e -> error_is e ErrNoSuchEntity = true ->
  exists resp b, r = Reply resp (Decoded b) /\ ib_Code b = "NoSuchEntity".
Proof.
  destruct r as [msg|resp [msg|msg|b]]; cbn [iam_reply_of iam_do].
  - intros [= <-]. done.
  - intros [= <-]. done.
  - destruct (_ && _); [done|]. intros [= <-]. done.
  - destruct (_ && _); [done|]. unfold classifyQueryError. case_bool_decide; [by eauto|]. intros [= <-]. done.
Qed.

(** Administrator keys are never half set. *)
Theorem admin_keys_complete {U : Upstream storage_request storage_reply} {S : Type} (s : S) (w : World) :
  let r := DeriveAdminKeys (U := U) s w in
  calls r = [GetStorageUsers] /\ final r = s /\
  forall k, outcome r = Ok k -> ak_AccessKey k <> "" /\ ak_SecretKey k <> "".
Proof.
  change (wp DeriveAdminKeys (fun o s' _ t => map request t = [GetStorageUsers] /\ s' = s /\
    forall k, o = Ok k -> ak_AccessKey k <> "" /\ ak_SecretKey k <> "") s w).
  unfold DeriveAdminKeys. do 2 wp_step. destruct (read_reply r) as [[|u l]|e]; cbv beta iota; [by wp_step| |done].
  destruct (bool_decide (ak_AccessKey u = "")) eqn:Ha; cbn [orb]; [by wp_step|].
  destruct (bool_decide (ak_SecretKey u = "")) eqn:Hs; [by wp_step|]. wp_step.
  apply bool_decide_eq_false in Ha, Hs. repeat split; by intros; simplify_eq.
Qed.
