(* ===== verification/S3Bucket.v ===== *)
(** * S3Bucket: the bucket controller

    [internal/controller/s3bucket/external.go]. The name is immutable; the tier is
    resolved from the declared size and class when the bucket is created and when it is
    resized within its class; the users of a bucket are mirrored from their policies.
    A field of type [float32] is the integer it holds, a conversion to one is [f32]. *)

From S2P Require Import Prelude Errors Timeweb Slug Configurator Catalog Shared Effects Lifecycle Resolving Policy Storage.

(** ** The managed resource *)

Record S3BucketParameters := {
  bp_Name : string;
  bp_Type : string;
  bp_StorageClass : string;
  bp_InitialSizeGB : Z;
  bp_Location : option string;
  bp_Description : option string;
  bp_ProjectID : option Z }.

Record S3BucketDiskStats := { ds_SizeKB : Z; ds_UsedKB : Z; ds_IsUnlimited : bool }.

Record S3BucketAttachedUser := { au_Name : string; au_AccessLevel : string }.

Record S3BucketObservation := {
  bo_ID : option Z;
  bo_Hostname : option string;
  bo_Location : option string;
  bo_StorageClass : option string;
  bo_Status : option string;
  bo_LockedPresetID : option Z;
  bo_DiskStats : option S3BucketDiskStats;
  bo_ObjectAmount : option Z;
  bo_MovedInQuarantineAt : option string;
  bo_AttachedUsers : list S3BucketAttachedUser }.

Definition no_bucket : S3BucketObservation :=
  {| bo_ID := None; bo_Hostname := None; bo_Location := None; bo_StorageClass := None; bo_Status := None;
     bo_LockedPresetID := None; bo_DiskStats := None; bo_ObjectAmount := None; bo_MovedInQuarantineAt := None;
     bo_AttachedUsers := [] |}.

Definition TypeStorageClassDrift : string := "StorageClassDrift".

Definition DimS3BucketPreset : Dimension := {| dim_Name := "S3BucketPreset"; dim_Kind := DimensionPreset |}.

Definition kbPerGB : Z := 1024 * 1024.

(** ** Helpers *)

Definition isUpToDate (spec : S3BucketParameters) (b : Bucket) : bool :=
  if negb (bool_decide (bp_Type spec = bk_Type b)) then false
  else if negb (PtrEqString (bp_Description spec) (bk_Description b)) then false
  else match bp_ProjectID spec with
       | Some p => bool_decide (p = bk_ProjectId b)
       | None => true
       end.

(** A preset id that is set: neither nil nor zero. *)
Definition preset_set (p : option Z) : option Z :=
  match p with Some i => if bool_decide (i = 0) then None else Some i | None => None end.

Definition bucket_status (o : S3BucketObservation) (b : Bucket) : S3BucketObservation :=
  {| bo_ID := Some (bk_Id b); bo_Hostname := Some (bk_Hostname b); bo_Location := Some (bk_Location b);
     bo_StorageClass := Some (bk_StorageClass b); bo_Status := Some (bk_Status b);
     bo_LockedPresetID := match bo_LockedPresetID o with Some p => Some p | None => preset_set (bk_PresetId b) end;
     bo_DiskStats := Some {| ds_SizeKB := bk_Size b; ds_UsedKB := bk_Used b; ds_IsUnlimited := bk_IsUnlimited b |};
     bo_ObjectAmount := Some (bk_ObjectAmount b);
     bo_MovedInQuarantineAt := match bk_MovedInQuarantineAt b with
                               | Some t => Some t
                               | None => bo_MovedInQuarantineAt o
                               end;
     bo_AttachedUsers := bo_AttachedUsers o |}.

Definition with_locked_preset (p : Z) (o : S3BucketObservation) : S3BucketObservation :=
  {| bo_ID := bo_ID o; bo_Hostname := bo_Hostname o; bo_Location := bo_Location o; bo_StorageClass := bo_StorageClass o;
     bo_Status := bo_Status o; bo_LockedPresetID := Some p; bo_DiskStats := bo_DiskStats o;
     bo_ObjectAmount := bo_ObjectAmount o; bo_MovedInQuarantineAt := bo_MovedInQuarantineAt o;
     bo_AttachedUsers := bo_AttachedUsers o |}.

Definition with_attached_users (l : list S3BucketAttachedUser) (o : S3BucketObservation) : S3BucketObservation :=
  {| bo_ID := bo_ID o; bo_Hostname := bo_Hostname o; bo_Location := bo_Location o; bo_StorageClass := bo_StorageClass o;
     bo_Status := bo_Status o; bo_LockedPresetID := bo_LockedPresetID o; bo_DiskStats := bo_DiskStats o;
     bo_ObjectAmount := bo_ObjectAmount o; bo_MovedInQuarantineAt := bo_MovedInQuarantineAt o; bo_AttachedUsers := l |}.

Definition buildConnection (b : Bucket) : gmap string string :=
  <["endpoint" := bk_Hostname b]> (<["bucket" := bk_Name b]> (<["region" := bk_Location b]> ∅)).

Definition create_body (fp : S3BucketParameters) (presetID : Z) : CreateStorageBody :=
  {| sb_Name := bp_Name fp; sb_Type := bp_Type fp; sb_PresetId := Some (f32 presetID);
     sb_Description := bp_Description fp; sb_ProjectId := f32 <$> bp_ProjectID fp |}.

Definition update_body (fp : S3BucketParameters) (presetID : option Z) : UpdateStorageBody :=
  {| su_BucketType := Some (bp_Type fp); su_Description := bp_Description fp; su_PresetId := f32 <$> presetID |}.

(** The size is known and not the declared one. *)
Definition resize_due (fp : S3BucketParameters) (b : Bucket) : bool :=
  negb (bk_IsUnlimited b) && (0 <? bk_Size b) && negb (bool_decide (Z.quot (bk_Size b) kbPerGB = bp_InitialSizeGB fp)).

(** The class the upstream reports, when it is not the declared one. *)
Definition class_mismatch (fp : S3BucketParameters) (b : Bucket) : bool :=
  negb (bool_decide (bk_StorageClass b = "")) && negb (bool_decide (bk_StorageClass b = bp_StorageClass fp)).

Definition mismatch_message (declared observed : string) : string :=
  "storage class mismatch: spec declares " +:+ quote declared +:+ " but upstream reports " +:+ quote observed +:+
  "; set spec.forProvider.storageClass to " +:+ quote observed +:+ " to align (cross-class moves are not supported day-2)".

Definition bucket_checks (fp : S3BucketParameters) (b : Bucket) : list ImmutableField :=
  [{| if_Name := "name"; if_Desired := bp_Name fp; if_Observed := bk_Name b |}].

Definition drift_message (declared observed : string) : string :=
  "declared " +:+ quote declared +:+ ", upstream reports " +:+ quote observed +:+
  "; set spec.forProvider.storageClass to " +:+ quote observed +:+
  " to align (no automatic re-tiering — a class change is a paid move)".

(** ** The external client *)
Section S3BucketExternal.
Context `{R : CrossplaneRuntime} {U : Upstream storage_request storage_reply}.
Variable recorder : bool.
(** Whether the client of the mirror is wired. *)
Variable twFull : bool.
Variable resolve : World -> Dimension -> ResolveInput -> result error ResolveOutput.
(** [encoding/json] reading a document. *)
Variable json_decode : string -> option json.

Notation bucket := (managed S3BucketParameters S3BucketObservation).
Notation BM := (M U bucket).

Definition populateStatus (b : Bucket) (cr : bucket) : bucket := set_at_provider (bucket_status (AtProvider cr) b) cr.

Definition set_attached_users (l : list S3BucketAttachedUser) (cr : bucket) : bucket :=
  set_at_provider (with_attached_users l (AtProvider cr)) cr.

Definition lock_preset (p : Z) (cr : bucket) : bucket := set_at_provider (with_locked_preset p (AtProvider cr)) cr.

Definition bucket_condition (state : string) : Condition :=
  if equal_fold state "quarantined"
  then ReadyFalse ReasonBucketQuarantined "bucket is in quarantine — check Timeweb panel for remediation steps"
  else match ClassifyUpstreamState state with
       | StateUnfunded => ReadyFalse ReasonPaymentRequired (UnfundedMessage "bucket")
       | StateActive => Available
       | _ => Creating
       end.

Definition setBucketReadyCondition (state : string) : BM unit := note_condition recorder (bucket_condition state).

Definition drift_condition (declared observed : string) (c : conds) : option Condition :=
  if bool_decide (observed = "") then None
  else if negb (bool_decide (observed = declared)) then
    Some {| cond_Type := TypeStorageClassDrift; cond_Status := CTrue; cond_Reason := ReasonUpstreamReclassified;
            cond_Message := drift_message declared observed |}
  else if negb (bool_decide (cond_Reason (GetCondition TypeStorageClassDrift c) = "")) then
    Some {| cond_Type := TypeStorageClassDrift; cond_Status := CFalse; cond_Reason := ReasonStorageClassAligned;
            cond_Message := "spec and upstream storage class match" |}
  else None.

Definition setStorageClassDriftCondition (observed : string) : BM unit :=
  cr ← get;
  match drift_condition (bp_StorageClass (ForProvider cr)) observed (Conditions cr) with
  | Some c => note_condition recorder c
  | None => mret tt
  end.

(** One entry per user whose policy can be read and names the bucket. *)
Fixpoint attached_loop (keys : AdminKeys) (bucketName : string) (users : list IAMUser) : BM (list S3BucketAttachedUser) :=
  match users with
  | [] => mret []
  | u :: us =>
      doc ← try (GetUserPolicy keys (iu_Name u) PolicyName);
      rest ← attached_loop keys bucketName us;
      mret match doc with
           | Err _ => rest
           | Ok doc =>
               let '(level, present) := DeriveLevelForBucket (json_decode doc) bucketName in
               if present then {| au_Name := iu_Name u; au_AccessLevel := level |} :: rest else rest
           end
  end.

Definition populateAttachedUsers : BM unit :=
  if negb twFull then mret tt
  else
    users ← try (doJSON ListStorageUsersV2);
    match users with
    | Err _ => mret tt
    | Ok [] => modify (set_attached_users [])
    | Ok users =>
        keys ← try DeriveAdminKeys;
        match keys with
        | Err _ => mret tt
        | Ok keys =>
            cr ← get;
            attached ← attached_loop keys (bp_Name (ForProvider cr)) users;
            modify (set_attached_users attached)
        end
    end.

Definition observe_bucket (b : Bucket) : BM (ExternalObservation * gmap string string) :=
  modify (populateStatus b);;
  populateAttachedUsers;;
  setBucketReadyCondition (bk_Status b);;
  setStorageClassDriftCondition (bk_StorageClass b);;
  cr ← get;
  mret ({| ResourceExists := true; ResourceUpToDate := isUpToDate (ForProvider cr) b |}, buildConnection b).

Definition Observe : BM (ExternalObservation * gmap string string) :=
  cr ← get;
  if bool_decide (ExternalName cr = "") then mret (not_exists, ∅)
  else match DecodeID (ExternalName cr) with
       | Err _ => mret (not_exists, ∅)
       | Ok id => get_or_absent (not_exists, ∅) "s3bucket: " (GetStorage id) observe_bucket
       end.

Definition bucket_query (fp : S3BucketParameters) : ResolveInput :=
  InPresetBySize {| bs_DiskGB := bp_InitialSizeGB fp; bs_Location := default_str (bp_Location fp);
                    bs_StorageClass := bp_StorageClass fp |}.

Definition resolvePresetID : BM Z :=
  cr ← get;
  out ← ask resolve DimS3BucketPreset (bucket_query (ForProvider cr));
  match out with
  | Err e => note_condition recorder (MapResolverErrorToCondition e);; throw e
  | Ok _ => lift (preset_output "s3bucket" out)
  end.

Definition Create : BM (gmap string string) :=
  presetID ← resolvePresetID;
  cr ← get;
  b ← call_decode "s3bucket: " (CreateStorage (create_body (ForProvider cr) presetID));
  modify (set_external_name (EncodeID (bk_Id b)));;
  modify (populateStatus b);;
  modify (lock_preset (default presetID (preset_set (bk_PresetId b))));;
  put_condition Creating;;
  mret (buildConnection b).

Definition Update : BM (gmap string string) :=
  cr ← get;
  match DecodeID (ExternalName cr) with
  | Err e => throw (wrap_pre "s3bucket: decode external-name: " e)
  | Ok id =>
      b ← call_decode "s3bucket: " (GetStorage id);
      let fp := ForProvider cr in
      match FirstImmutableDiff (bucket_checks fp b) with
      | Some field => reject (RejectImmutableChange recorder field)
      | None =>
          if class_mismatch fp b then
            note_condition recorder (SyncedFalse ReasonStorageClassMismatch
                                       (mismatch_message (bp_StorageClass fp) (bk_StorageClass b)));;
            throw (Sentinel ErrStorageClassMismatch)
          else
            resized ← (if resize_due fp b then (p ← resolvePresetID; mret (Some p)) else mret None);
            do_ (UpdateStorage id (update_body fp resized));;
            match resized with Some p => modify (lock_preset p) | None => mret tt end;;
            mret (buildConnection b)
      end
  end.

Definition Delete : BM unit :=
  cr ← get;
  match DecodeID (ExternalName cr) with
  | Err _ => mret tt
  | Ok id => delete_or_gone (DeleteStorage id) (put_condition Deleting)
  end.

Definition bucket_controller : Controller U bucket :=
  {| c_observe := o ← Observe; mret o.1; c_create := Create;; mret tt; c_update := Update;; mret tt; c_delete := Delete |}.
End S3BucketExternal.
