(* ===== verification/S3BucketFacts.v ===== *)
(** * S3BucketFacts: what the bucket controller does

    [Observe] only reads and its report depends on the bucket alone; the mirror of the
    attached users shows the levels their policies grant; [Update] sends one patch, a
    tier only to resize; the edits its patch cannot carry are sent for ever. *)

From S2P Require Import Prelude Errors Timeweb Slug Configurator Catalog Shared Effects Lifecycle Resolving Policy Storage S3Bucket.

(** The requests that change nothing. *)
Definition s3_read (q : storage_request) : bool :=
  match q with
  | GetStorage _ | GetStorageUsers | ListStorageUsersV2 | GetStorageUserV2 _ | GetUserPolicyQuery _ _ _ => true
  | _ => false
  end.

Section Facts.
Context `{R : CrossplaneRuntime} {L : CrossplaneLaws R} {U : Upstream storage_request storage_reply}.
Variables (recorder twFull : bool).
Variable resolve : World -> Dimension -> ResolveInput -> result error ResolveOutput.
Variable json_decode : string -> option json.

Notation bucket := (managed S3BucketParameters S3BucketObservation).
Notation xt := (list (exchange storage_reply)).
Notation Observe := (Observe recorder twFull json_decode).
Notation Update := (Update recorder resolve).
Notation controller := (bucket_controller recorder twFull resolve json_decode).

(** ** The mirror *)

Definition reads (t : xt) : Prop := Forall (fun q => s3_read q = true) (map request t).

Lemma reads_app t t' : reads t -> reads t' -> reads (t ++ t').
Proof. unfold reads. rewrite map_app. apply Forall_app_intro. Qed.

Definition s3_kept {A} (m : M U bucket A) : Prop :=
  forall s w, wp m (fun _ s' _ t => s' = s /\ reads t) s w.

Lemma s3_kept_bind {A B} (m : M U bucket A) (f : A -> M U bucket B) :
  s3_kept m -> (forall a, s3_kept (f a)) -> s3_kept (m ≫= f).
Proof.
  intros Hm Hf s w. wp_step. eapply wp_mono; [apply Hm|]. intros [a|e] s1 w1 t1 [-> H1]; [|done].
  eapply wp_mono; [apply Hf|]. intros r s2 w2 t2 [-> H2]. split; [done|by apply reads_app].
Qed.

Lemma s3_kept_keys : s3_kept DeriveAdminKeys.
Proof.
  apply s3_kept_bind; [intros s w; wp_step; by repeat constructor|].
  intros [|u l] s w; cbv beta iota; [by wp_step; repeat constructor|].
  destruct (_ || _); wp_step; by repeat constructor.
Qed.

Lemma wp_attached_loop keys name users s w :
  wp (attached_loop json_decode keys name users) (fun r s' _ t => (exists l, r = Ok l) /\ s' = s /\ reads t) s w.
Proof.
  revert w. induction users as [|u us IH]; intros w; cbn [attached_loop]; [wp_step; split; [eauto|by repeat constructor]|].
  do 2 wp_step. unfold GetUserPolicy. wp_step. wp_step. eapply wp_mono; [apply IH|].
  intros r' s' w'' t ([l ->] & -> & Ht). wp_step. rewrite app_nil_r.
  split; [eauto|]. split; [done|]. by apply reads_app; [repeat constructor|].
Qed.

(** The mirror never fails, only reads, and changes nothing but the list it keeps. *)
Lemma wp_populateAttachedUsers s w :
  wp (populateAttachedUsers twFull json_decode) (fun r s' _ t =>
    r = Ok tt /\ reads t /\ (s' = s \/ exists l, s' = set_attached_users l s)) s w.
Proof.
  unfold populateAttachedUsers. destruct twFull; cbn [negb]; [|wp_step; by repeat constructor; left].
  do 3 wp_step. destruct (read_reply r) as [[|u us]|e].
  - wp_step. split; [done|]. split; [by repeat constructor|]. eauto.
  - do 2 wp_step. eapply wp_mono; [apply s3_kept_keys|]. intros [k|e] s1 w1 t1 [-> H1]; cbv beta iota.
    + do 3 wp_step. eapply wp_mono; [apply wp_attached_loop|]. intros r2 s2 w2 t2 ([l ->] & -> & H2). wp_step.
      rewrite app_nil_r. split; [done|]. split; [|eauto].
      apply reads_app; [by repeat constructor|]. by apply reads_app.
    + wp_step. rewrite app_nil_r. split; [done|]. split; [|by left]. by apply reads_app; [repeat constructor|].
  - wp_step. split; [done|]. split; [by repeat constructor|]. by left.
Qed.

(** ** Observe *)

Lemma drift_condition_type declared observed c k : drift_condition declared observed c = Some k -> cond_Type k = TypeStorageClassDrift.
Proof. unfold drift_condition. repeat case_match; intros; by simplify_eq. Qed.

Lemma bucket_condition_type state : cond_Type (bucket_condition state) = TypeReady.
Proof.
  unfold bucket_condition. destruct (equal_fold state "quarantined"); [done|].
  destruct (ClassifyUpstreamState state); [apply creating_type|apply available_type|done|apply creating_type].
Qed.

Lemma get_set_both (k c : Condition) (x : conds) :
  cond_Type k <> cond_Type c ->
  GetCondition (cond_Type k) (SetConditions c (SetConditions k x)) = k /\
  GetCondition (cond_Type c) (SetConditions c (SetConditions k x)) = c.
Proof. intros H. by rewrite get_set_ne, !get_set_eq. Qed.

Definition observation (fp : S3BucketParameters) (b : Bucket) : ExternalObservation * gmap string string :=
  ({| ResourceExists := true; ResourceUpToDate := isUpToDate fp b |}, buildConnection b).

Lemma wp_observe_bucket b s w :
  TypeReady <> TypeStorageClassDrift ->
  wp (observe_bucket recorder twFull json_decode b) (fun r s' _ t =>
    r = Ok (observation (ForProvider s) b) /\ reads t /\
    ForProvider s' = ForProvider s /\ ExternalName s' = ExternalName s /\
    GetCondition TypeReady (Conditions s') = bucket_condition (bk_Status b) /\
    (class_mismatch (ForProvider s) b = true ->
     cond_Status (GetCondition TypeStorageClassDrift (Conditions s')) = CTrue)) s w.
Proof.
  intros Hne. unfold observe_bucket. do 3 wp_step. eapply wp_mono; [apply wp_populateAttachedUsers|].
  intros r s1 w1 t1 (-> & Ht & Hs). cbv beta iota. unfold setBucketReadyCondition, setStorageClassDriftCondition.
  assert (ForProvider s1 = ForProvider s /\ ExternalName s1 = ExternalName s) as [Hfp Hen]
    by (destruct Hs as [->|[l ->]]; done).
  do 5 wp_step. set (k := bucket_condition (bk_Status b)).
  assert (cond_Type k = TypeReady) as Hk by apply bucket_condition_type.
  destruct (drift_condition _ _ _) as [c|] eqn:Ed.
  - pose proof (drift_condition_type _ _ _ _ Ed) as Hc. repeat wp_step. rewrite ?app_nil_r.
    cbn [app ForProvider set_conditions record_condition_change ExternalName Conditions] in *. rewrite ?Hfp, ?Hen in *.
    destruct (get_set_both k c (Conditions s1)) as [Gk Gc]; [congruence|]. rewrite Hk in Gk. rewrite Hc in Gc.
    rewrite Gk, Gc. repeat split; try done. intros Hm. unfold drift_condition, class_mismatch in *.
    destruct (bool_decide (bk_StorageClass b = "")); [done|]. destruct (bool_decide (bk_StorageClass b = bp_StorageClass _)); [done|].
    cbn [negb] in Ed. by simplify_eq.
  - repeat wp_step. rewrite ?app_nil_r.
    cbn [app ForProvider set_conditions record_condition_change ExternalName Conditions] in *. rewrite ?Hfp, ?Hen in *.
    pose proof (get_set_eq k (Conditions s1)) as Gk. rewrite Hk in Gk. rewrite Gk. repeat split; try done. intros Hm. unfold drift_condition, class_mismatch in *.
    destruct (bool_decide (bk_StorageClass b = "")); [done|]. by destruct (bool_decide (bk_StorageClass b = bp_StorageClass _)).
Qed.

(** What a bucket's [Observe] does: it only reads; a bucket that is gone is reported
    absent and no other failure is; otherwise the report, the connection details, which
    hold no credential, and the Ready condition depend on the bucket alone, whatever
    becomes of the mirror, and a class that is not the declared one is surfaced. *)
Theorem bucket_observe_spec (cr : bucket) (w : World) (id : Z) (Hid : DecodeID (ExternalName cr) = Ok id)
    (Hty : TypeReady <> TypeStorageClassDrift) :
  let run := Observe cr w in
  Forall (fun q => s3_read q = true) (calls run) /\ ForProvider (final run) = ForProvider cr /\
  ExternalName (final run) = ExternalName cr /\
  exists rep t, trace run = Exchange (Rep := storage_reply) (GetStorage id) rep :: t /\
    match read_reply_pre (A := Bucket) "s3bucket: " rep with
    | Err e => t = [] /\ final run = cr /\
               (outcome run = Ok (not_exists, ∅) /\ gone rep \/ outcome run = Err e /\ error_is e ErrNotFound = false)
    | Ok b =>
        outcome run = Ok (observation (ForProvider cr) b) /\
        dom (buildConnection b) = {["endpoint"; "bucket"; "region"]} /\
        GetCondition TypeReady (Conditions (final run)) = bucket_condition (bk_Status b) /\
        (class_mismatch (ForProvider cr) b = true ->
         cond_Status (GetCondition TypeStorageClassDrift (Conditions (final run))) = CTrue)
    end.
Proof.
  cbv zeta. unfold calls. pattern (outcome (Observe cr w)), (final (Observe cr w)), (trace (Observe cr w)).
  match goal with |- ?P _ _ _ => change (wp Observe (fun o s' _ t => P o s' t) cr w) end.
  unfold S3Bucket.Observe. do 2 wp_step. rewrite bool_decide_eq_false_2, Hid
    by (intros He; rewrite He in Hid; discriminate Hid).
  apply wp_get_or_absent. intros rep w' _. destruct (read_reply_pre "s3bucket: " rep) as [b|e] eqn:Er.
  - eapply wp_mono; [by apply wp_observe_bucket|]. intros r s' w'' t (-> & Ht & H1 & H2 & H3 & H4).
    cbn [app map request]. split; [by constructor|]. split; [done|]. split; [done|]. exists rep, t.
    cbn [storage_reply] in *. rewrite Er. by repeat split.
  - cbn [app map request]. split; [by repeat constructor|]. split; [done|]. split; [done|]. exists rep, [].
    split; [done|]. cbn [storage_reply] in *. rewrite Er. split; [done|]. split; [done|].
    destruct (error_is e ErrNotFound) eqn:En; [left|right]; [|done]. split; [done|]. by eapply gone_read.
Qed.

(** ** Update *)

Lemma wp_bucket_preset (s : bucket) w (Q : post Z) :
  (forall p, preset_output "s3bucket" (resolve w DimS3BucketPreset (bucket_query (ForProvider s))) = Ok p -> Q (Ok p) s w []) ->
  (forall e s', preset_output "s3bucket" (resolve w DimS3BucketPreset (bucket_query (ForProvider s))) = Err e ->
     AtProvider s' = AtProvider s -> Q (Err e) s' w []) ->
  wp (resolvePresetID recorder resolve) Q s w.
Proof.
  intros HOk HErr. unfold resolvePresetID. do 2 wp_step. apply wp_bind, wp_ask. cbv beta iota.
  destruct (resolve _ _ _) as [out|e]; [|do 3 wp_step; by apply HErr].
  wp_step. destruct (preset_output "s3bucket" (Ok out)) eqn:E; [by apply HOk|by apply HErr].
Qed.

(** The tier a patch of the bucket carries: none unless it is resized, else the
    resolver's answer for the declared size and class. *)
Definition tier_due (w : World) (fp : S3BucketParameters) (b : Bucket) : result error (option Z) :=
  if resize_due fp b then
    match preset_output "s3bucket" (resolve w DimS3BucketPreset (bucket_query fp)) with
    | Ok p => Ok (Some p)
    | Err e => Err e
    end
  else Ok None.

(** [Update] by the decisions of the code. *)
Lemma bucket_update_cases (cr : bucket) (w : World) (id : Z) (Hid : DecodeID (ExternalName cr) = Ok id) :
  let run := Update cr w in
  exists rep t, trace run = Exchange (Rep := storage_reply) (GetStorage id) rep :: t /\
    match read_reply_pre (A := Bucket) "s3bucket: " rep with
    | Err e => outcome run = Err e /\ t = [] /\ final run = cr
    | Ok b =>
        match FirstImmutableDiff (bucket_checks (ForProvider cr) b) with
        | Some _ => outcome run = Err (Sentinel ErrImmutableFieldChange) /\ t = []
        | None =>
            if class_mismatch (ForProvider cr) b
            then outcome run = Err (Sentinel ErrStorageClassMismatch) /\ t = [] /\
                 cond_Reason (GetCondition TypeSynced (Conditions (final run))) = ReasonStorageClassMismatch
            else match tier_due (serve (GetStorage id) w).2 (ForProvider cr) b with
                 | Err e => outcome run = Err e /\ t = [] /\ AtProvider (final run) = AtProvider cr
                 | Ok tier =>
                     map request t = [UpdateStorage id (update_body (ForProvider cr) tier)] /\
                     final run = (if is_ok (outcome run) then from_option lock_preset (fun s => s) tier cr else cr)
                 end
        end
    end.
Proof.
  cbv zeta. pattern (outcome (Update cr w)), (final (Update cr w)), (trace (Update cr w)).
  match goal with |- ?P _ _ _ => change (wp Update (fun o s' _ t => P o s' t) cr w) end.
  unfold S3Bucket.Update. do 2 wp_step. rewrite Hid. do 2 wp_step. rewrite H. cbn [snd storage_reply] in *.
  destruct (read_reply_pre "s3bucket: " r) as [b|e] eqn:Er; [|by exists r, []; rewrite Er].
  destruct (FirstImmutableDiff _) as [f|] eqn:Ef; [wp_step; exists r, []; by rewrite Er, Ef|].
  destruct (class_mismatch _ b) eqn:Em.
  - do 3 wp_step. exists r, []. rewrite Er, Ef, Em. cbn [app set_conditions Conditions record_condition_change].
    split; [done|]. split; [done|]. split; [done|]. set (k := SyncedFalse _ _). change TypeSynced with (cond_Type k).
    by rewrite get_set_eq.
  - wp_step. assert (forall P : post (option Z), (forall p, tier_due w' (ForProvider cr) b = Ok p -> P (Ok p) cr w' []) ->
      (forall e s', tier_due w' (ForProvider cr) b = Err e -> AtProvider s' = AtProvider cr -> P (Err e) s' w' []) ->
      wp (if resize_due (ForProvider cr) b then p ← resolvePresetID recorder resolve; mret (Some p) else mret None) P cr w') as Ht.
    { intros P HOk HErr. unfold tier_due in *. destruct (resize_due _ _); [|wp_step; by apply HOk].
      wp_step. apply wp_bucket_preset.
      - intros p Hp. rewrite Hp in HOk. wp_step. by apply HOk.
      - intros e s' He Hs. rewrite He in HErr. by apply HErr. }
    apply Ht.
    + intros p Hp. do 2 wp_step. destruct (write_reply r0) as [[]|e] eqn:Ew.
      * destruct p as [p|]; repeat wp_step; exists r; eexists; (split; [reflexivity|]); rewrite Er, Ef, Em, Hp; by split.
      * exists r; eexists. split; [reflexivity|]. rewrite Er, Ef, Em, Hp. by split.
    + intros e s' He Hs. exists r, []. by rewrite Er, Ef, Em, He.
Qed.

(** The whole gigabytes of a bucket (the upstream reports kilobytes), where its size is
    known: it is limited, and the size reported is positive. *)
Definition holds_gb (b : Bucket) (gb : Z) : Prop :=
  bk_IsUnlimited b = false /\ 0 < bk_Size b /\ gb * 1048576 <= bk_Size b < (gb + 1) * 1048576.

(** The resolver's answer for the declared size, class and location. *)
Definition tier_answer (w : World) (fp : S3BucketParameters) : result error ResolveOutput :=
  resolve w DimS3BucketPreset
    (InPresetBySize {| bs_DiskGB := bp_InitialSizeGB fp; bs_Location := default_str (bp_Location fp); bs_StorageClass := bp_StorageClass fp |}).

(** The tier a patch carries: none where the size is not known or is the declared one. *)
Inductive tier_sent (w : World) (fp : S3BucketParameters) (b : Bucket) : option Z -> Prop :=
| tier_kept : (forall gb, holds_gb b gb -> gb = bp_InitialSizeGB fp) -> tier_sent w fp b None
| tier_changed gb p : holds_gb b gb -> gb <> bp_InitialSizeGB fp -> tier_answer w fp = Ok (OutPreset p) -> tier_sent w fp b (Some p).

Lemma resize_due_iff fp b : if resize_due fp b then exists gb, holds_gb b gb /\ gb <> bp_InitialSizeGB fp
  else forall gb, holds_gb b gb -> gb = bp_InitialSizeGB fp.
Proof.
  unfold resize_due, holds_gb. change kbPerGB with 1048576.
  destruct (bk_IsUnlimited b); cbn [negb andb]; [by intros gb [? _]|]. destruct (0 <? bk_Size b) eqn:E; cbn [andb]; [|intros gb (_ & ? & _); lia].
  pose proof (Z.quot_div_nonneg (bk_Size b) 1048576 ltac:(lia) ltac:(lia)) as Hq.
  pose proof (Z.div_mod (bk_Size b) 1048576 ltac:(lia)). pose proof (Z.mod_pos_bound (bk_Size b) 1048576 ltac:(lia)).
  case_bool_decide as Hd; cbn [negb]; [intros gb (_ & _ & ?); lia|]. exists (Z.quot (bk_Size b) 1048576). split; [split; [done|lia]|done].
Qed.

(** C26. The whole of a bucket's [Update], after its one read: a bucket of another name
    (blanks around it aside) and one of another class are refused before anything is
    written. Otherwise one patch goes out, with the declared type and description and,
    exactly when the size upstream is known and differs from the declared one in whole
    gigabytes, the tier the resolver answers for the declared size, class and location; if
    the resolver has none, nothing is written. The recorded tier changes only with a
    patch that carried one and went through. *)
Theorem bucket_update_spec (cr : bucket) (w : World) (id : Z) (Hid : DecodeID (ExternalName cr) = Ok id) :
  let run := Update cr w in
  let fp := ForProvider cr in
  exists rep t, trace run = Exchange (Rep := storage_reply) (GetStorage id) rep :: t /\
    match read_reply_pre (A := Bucket) "s3bucket: " rep with
    | Err e => outcome run = Err e /\ t = [] /\ final run = cr
    | Ok b =>
        (trim_space (bp_Name fp) <> trim_space (bk_Name b) -> outcome run = Err (Sentinel ErrImmutableFieldChange) /\ t = []) /\
        (trim_space (bp_Name fp) = trim_space (bk_Name b) -> bk_StorageClass b <> "" -> bk_StorageClass b <> bp_StorageClass fp ->
           outcome run = Err (Sentinel ErrStorageClassMismatch) /\ t = [] /\
           cond_Reason (GetCondition TypeSynced (Conditions (final run))) = ReasonStorageClassMismatch) /\
        (trim_space (bp_Name fp) = trim_space (bk_Name b) -> bk_StorageClass b = "" \/ bk_StorageClass b = bp_StorageClass fp ->
           (exists e gb, outcome run = Err e /\ t = [] /\ AtProvider (final run) = AtProvider cr /\
              holds_gb b gb /\ gb <> bp_InitialSizeGB fp /\ forall p, tier_answer (serve (GetStorage id) w).2 fp <> Ok (OutPreset p)) \/
           (exists tier, tier_sent (serve (GetStorage id) w).2 fp b tier /\
              map request t = [UpdateStorage id {| su_BucketType := Some (bp_Type fp); su_Description := bp_Description fp;
                                                   su_PresetId := f32 <$> tier |}] /\
              bo_LockedPresetID (AtProvider (final run)) =
                (if is_ok (outcome run) && bool_decide (is_Some tier) then tier else bo_LockedPresetID (AtProvider cr))))
    end.
Proof.
  cbv zeta. destruct (bucket_update_cases cr w id Hid) as (rep & t & Ht & H). exists rep, t. split; [exact Ht|].
  destruct (read_reply_pre (A := Bucket) "s3bucket: " rep) as [b|e]; [|exact H]. cbn [bucket_checks FirstImmutableDiff if_Desired if_Observed] in H.
  pose proof (resize_due_iff (ForProvider cr) b) as Hdue. unfold class_mismatch, tier_due in H. split; [|split].
  - intros Hn. by rewrite bool_decide_false in H.
  - intros Hn Hc Hd. by rewrite (bool_decide_true _ Hn), !bool_decide_false in H.
  - intros Hn Hc. rewrite (bool_decide_true _ Hn) in H. cbn [negb] in H.
    replace (negb _ && negb _) with false in H by (destruct Hc; repeat case_bool_decide; done).
    destruct (resize_due (ForProvider cr) b); [destruct Hdue as (gb & Hgb & Hne)|].
    + destruct (preset_output "s3bucket" _) as [p|e] eqn:Ep; [right; exists (Some p)|left; exists e, gb].
      * destruct H as [H1 H2]. split; [|split; [exact H1|rewrite H2; by destruct (is_ok _)]]. eapply tier_changed; [done|done|].
        revert Ep. unfold tier_answer, bucket_query. destruct (resolve _ _ _) as [[]|]; cbn; congruence.
      * destruct H as (H1 & H2 & H3). repeat split; try done; try apply Hgb. intros p Hp. unfold tier_answer in Hp.
        unfold bucket_query in Ep. by rewrite Hp in Ep.
    + right. exists None. destruct H as [H1 H2]. split; [by apply tier_kept|]. split; [exact H1|]. rewrite H2. by destruct (is_ok _).
Qed.

(** ** Edits that are never made *)

(** A bucket read the same way by every pass. *)
Definition bucket_steady (id : Z) (b : Bucket) (w : World) : Prop :=
  serve (GetStorage id) w = (ok_reply b, w).

Lemma read_ok_bucket pre (b : Bucket) : read_reply_pre pre (ok_reply b) = Ok b.
Proof. done. Qed.

Lemma wp_Observe_ok (cr : bucket) w id b (Q : post (ExternalObservation * gmap string string)) :
  DecodeID (ExternalName cr) = Ok id -> bucket_steady id b w ->
  wp (observe_bucket recorder twFull json_decode b)
    (fun o s' w' t => Q o s' w' (Exchange (GetStorage id) (ok_reply b) :: t)) cr w -> wp Observe Q cr w.
Proof.
  intros Hid Hb H. unfold S3Bucket.Observe. do 2 wp_step. rewrite bool_decide_eq_false_2, Hid
    by (intros He; rewrite He in Hid; discriminate Hid).
  apply wp_get_or_absent. intros rep w'. rewrite Hb. intros [= <- <-]. by rewrite read_ok_bucket.
Qed.
End Facts.

Section Stuck.
Context `{R : CrossplaneRuntime} {L : CrossplaneLaws R} {U : Upstream storage_request storage_reply}.
Variable recorder : bool.
Variable resolve : World -> Dimension -> ResolveInput -> result error ResolveOutput.
Variable json_decode : string -> option json.
Variables (id : Z) (fp : S3BucketParameters).

Notation bucket := (managed S3BucketParameters S3BucketObservation).
Notation controller := (bucket_controller recorder false resolve json_decode).

(** The managed resource between two passes. *)
Definition declares (s : bucket) : Prop := DecodeID (ExternalName s) = Ok id /\ ForProvider s = fp.

Lemma wp_plain_observe (s : bucket) w b (Q : post ExternalObservation) :
  declares s -> bucket_steady id b w ->
  (forall s', declares s' -> Q (Ok {| ResourceExists := true; ResourceUpToDate := isUpToDate fp b |}) s' w
                               [Exchange (GetStorage id) (ok_reply b)]) ->
  wp (c_observe controller) Q s w.
Proof.
  intros [Hid Hfp] Hb HQ. cbn [c_observe bucket_controller]. wp_step. eapply wp_Observe_ok; [done..|].
  unfold observe_bucket, populateAttachedUsers, setBucketReadyCondition, setStorageClassDriftCondition.
  cbn [negb]. repeat wp_step.
  destruct (drift_condition _ _ _) as [c|]; repeat wp_step; cbn [ForProvider set_conditions record_condition_change
    populateStatus set_at_provider fst app]; rewrite Hfp; by apply HQ.
Qed.

(** An edit of the size alone does nothing: for a bucket whose type, description and
    project are the declared ones, every pass is one read, whatever size is declared
    and however far it is from the size the bucket has. *)
Theorem bucket_size_edit_unnoticed (b : Bucket) (Hup : isUpToDate fp b = true) (n : nat) (cr : bucket) (w : World)
    (Hcr : declares cr) (Hb : bucket_steady id b w) :
  let run := reconciles n controller false cr w in
  calls run = repeat (GetStorage id) n /\ world run = w /\ ForProvider (final run) = fp.
Proof.
  enough (wp (reconciles n controller false) (fun _ s' w' t => (declares s' /\ w' = w) /\
            map request t = concat (repeat [GetStorage id] n)) cr w) as [[[_ ?] ?] Ht].
  { split; [|done]. unfold calls. by rewrite Ht, concat_repeat_one. }
  apply (wp_reconciles_alike controller false (fun s w' => declares s /\ w' = w) [GetStorage id]); [|done].
  intros s w' [Hs ->]. apply wp_reconcile. eapply wp_plain_observe; [done..|].
  intros s' Hs'. rewrite Hup. cbn [ResourceExists ResourceUpToDate negb]. by wp_step.
Qed.

(** An edit the patch cannot carry: a description taken out of the spec, or a project
    the bucket is not in. *)
Definition not_carried (b : Bucket) : Prop :=
  (bp_Description fp = None /\ bk_Description b <> "") \/ (exists p, bp_ProjectID fp = Some p /\ p <> bk_ProjectId b).

Lemma bucket_not_carried_drift b : not_carried b -> isUpToDate fp b = false.
Proof.
  unfold not_carried, isUpToDate, PtrEqString. intros [[-> H]|(p & -> & H)].
  - rewrite (bool_decide_eq_false_2 _ H). by destruct (negb _).
  - rewrite (bool_decide_eq_false_2 _ H). destruct (negb (bool_decide (bp_Type fp = bk_Type b))); [done|]. by destruct (negb _).
Qed.

(** A service that applies to the bucket what a patch carries and nothing else. *)
Definition patched (body : UpdateStorageBody) (b b' : Bucket) : Prop :=
  bk_Name b' = bk_Name b /\ bk_ProjectId b' = bk_ProjectId b /\ bk_StorageClass b' = bk_StorageClass b /\
  bk_Description b' = default (bk_Description b) (su_Description body) /\
  (su_PresetId body = None -> bk_Size b' = bk_Size b /\ bk_IsUnlimited b' = bk_IsUnlimited b).

Variable stored : World -> Bucket.
Hypothesis get_stored : forall w, serve (GetStorage id) w = (ok_reply (stored w), w).
Hypothesis patch_stored : forall body w, exists w',
  serve (UpdateStorage id body) w = (ok_reply tt, w') /\ patched body (stored w) (stored w').

(** What the loop needs of a bucket: the edit is not carried, and [Update] gets past
    its guards without a resize. *)
Definition looping (b : Bucket) : Prop :=
  not_carried b /\ FirstImmutableDiff (bucket_checks fp b) = None /\ class_mismatch fp b = false /\ resize_due fp b = false.

Lemma looping_patched b b' : looping b -> patched (update_body fp None) b b' -> looping b'.
Proof.
  intros (Hn & Hi & Hc & Hr) (H1 & H2 & H3 & H4 & H5). destruct H5 as [H5 H6]; [done|]. split_and!.
  - destruct Hn as [[Hd He]|Hp]; [left|right; by rewrite H2].
    split; [done|]. rewrite H4. cbn [su_Description update_body]. by rewrite Hd.
  - unfold bucket_checks in *. by rewrite H1.
  - unfold class_mismatch in *. by rewrite H3.
  - unfold resize_due in *. by rewrite H5, H6.
Qed.

(** Such an edit is never made and never given up: every pass reads the bucket twice
    and sends it the same patch. *)
Theorem bucket_edit_never_settles (n : nat) (cr : bucket) (w : World)
    (Hcr : declares cr) (Hb : looping (stored w)) :
  calls (reconciles n controller false cr w) =
    concat (repeat [GetStorage id; GetStorage id; UpdateStorage id (update_body fp None)] n).
Proof.
  enough (wp (reconciles n controller false) (fun _ s' w' t => (declares s' /\ looping (stored w')) /\
            map request t = concat (repeat [GetStorage id; GetStorage id; UpdateStorage id (update_body fp None)] n)) cr w)
    as [_ Ht] by exact Ht.
  apply (wp_reconciles_alike controller false (fun s w' => declares s /\ looping (stored w'))
           [GetStorage id; GetStorage id; UpdateStorage id (update_body fp None)]); [|done].
  clear n cr w Hcr Hb. intros s w [Hs Hl]. apply wp_reconcile. eapply wp_plain_observe; [done|apply get_stored|].
  intros s' [Hid Hfp]. rewrite (bucket_not_carried_drift _ (proj1 Hl)). cbn [ResourceExists ResourceUpToDate negb].
  cbn [c_update bucket_controller]. unfold Update. do 3 wp_step. rewrite Hid. do 2 wp_step.
  rewrite get_stored in H. injection H as <- <-. rewrite read_ok_bucket. destruct Hl as (Hn & Hi & Hc & Hr). rewrite Hfp.
  cbn [storage_reply]. rewrite Hi, Hc, Hr. do 4 wp_step. destruct (patch_stored (update_body fp None) w) as (w2 & H2 & Hp).
  rewrite H2 in H. injection H as <- <-. cbn [write_reply]. change (write_reply (ok_reply tt)) with (Ok (E := error) tt).
  cbv beta iota. repeat wp_step. split; [|done]. split; [done|]. by apply (looping_patched (stored w)).
Qed.
End Stuck.

(** ** The mirror shows what the policies grant *)
Section Mirror.
Context `{R : CrossplaneRuntime} {L : CrossplaneLaws R} {U : Upstream storage_request storage_reply}.
Variables (recorder : bool) (json_decode : string -> option json).
Variables (users : list IAMUser) (keys : AdminKeys) (grants_of : IAMUser -> list Grant) (document : IAMUser -> string).

Notation bucket := (managed S3BucketParameters S3BucketObservation).

(** An account whose users carry the policies the user controller renders. *)
Record granting (w : World) : Prop := {
  users_listed : serve ListStorageUsersV2 w = (ok_reply users, w);
  keys_listed : exists rest, serve GetStorageUsers w = (ok_reply (keys :: rest), w);
  keys_set : ak_AccessKey keys <> "" /\ ak_SecretKey keys <> "";
  policies_read u : u ∈ users ->
    serve (GetUserPolicyQuery keys (iu_Name u) PolicyName) w =
      (ok_reply {| ib_Code := ""; ib_Message := ""; ib_PolicyDocument := document u |}, w);
  policies_rendered u : u ∈ users ->
    json_decode (decodePolicyDocument (document u)) = Some (RenderPolicy (grants_of u)) /\
    forallb (fun g => no_slash (g_Bucket g)) (grants_of u) = true }.

Definition mirror_entry (name : string) (u : IAMUser) : option S3BucketAttachedUser :=
  (fun l => {| au_Name := iu_Name u; au_AccessLevel := l |}) <$> granted_level (grants_of u) name.

Lemma attached_loop_exact name us (s : bucket) w :
  granting w -> no_slash name = true -> us ⊆ users ->
  wp (attached_loop json_decode keys name us) (fun r s' w' _ => r = Ok (omap (mirror_entry name) us) /\ s' = s /\ w' = w) s w.
Proof.
  intros Hw Hn. induction us as [|u us IH]; intros Hsub; cbn [attached_loop]; [by wp_step|].
  assert (u ∈ users) as Hu by set_solver. destruct (policies_rendered w Hw u Hu) as [Hd Hg].
  do 2 wp_step. unfold GetUserPolicy. do 2 wp_step. rewrite (policies_read w Hw u Hu) in H. injection H as <- <-.
  eapply wp_mono; [apply IH; set_solver|]. intros r' s' w' t (-> & -> & ->). wp_step. split; [|done].
  unfold iam_document. cbn [iam_reply_of iam_do ok_reply StatusCode Z.leb Z.compare Pos.compare Pos.compare_cont Z.ltb andb].
  cbn [ib_PolicyDocument]. rewrite Hd, derived_level by done. unfold mirror_entry at 2. cbn [omap list_omap].
  unfold mirror_entry. by destruct (granted_level (grants_of u) name).
Qed.

Lemma populateAttachedUsers_exact (s : bucket) w :
  granting w -> users <> [] -> no_slash (bp_Name (ForProvider s)) = true ->
  wp (populateAttachedUsers true json_decode) (fun r s' w' _ =>
    r = Ok tt /\ s' = set_attached_users (omap (mirror_entry (bp_Name (ForProvider s))) users) s /\ w' = w) s w.
Proof.
  intros Hw Hu Hn. unfold populateAttachedUsers. cbn [negb]. do 3 wp_step. rewrite (users_listed w Hw) in H.
  injection H as <- <-. change (read_reply (ok_reply users)) with (Ok (E := error) users). cbv beta iota.
  destruct users as [|u us] eqn:Eu; [done|]. rewrite <- Eu in *. do 2 wp_step. unfold DeriveAdminKeys. do 2 wp_step.
  destruct (keys_listed w Hw) as [rest Hk]. rewrite Hk in H. injection H as <- <-.
  change (read_reply (ok_reply (keys :: rest))) with (Ok (E := error) (keys :: rest)). cbv beta iota.
  destruct (keys_set w Hw) as [Ha Hs]. rewrite (bool_decide_eq_false_2 _ Ha), (bool_decide_eq_false_2 _ Hs). cbn [orb].
  do 4 wp_step. eapply wp_mono; [by apply attached_loop_exact|]. intros r s' w' t (-> & -> & ->). by wp_step.
Qed.

(** C27. The attached users of a bucket are the users whose grants name it, each at the
    highest level granted to it: what the bucket's [Observe] mirrors is what the user
    controller rendered into their policies. *)
Theorem bucket_mirrors_grants (cr : bucket) (w : World) (id : Z) (b : Bucket) (Hid : DecodeID (ExternalName cr) = Ok id)
    (Hb : bucket_steady id b w) (Hw : granting w) (Hu : users <> []) (Hn : no_slash (bp_Name (ForProvider cr)) = true) :
  bo_AttachedUsers (AtProvider (final (Observe recorder true json_decode cr w))) =
    omap (mirror_entry (bp_Name (ForProvider cr))) users.
Proof.
  change (wp (Observe recorder true json_decode) (fun _ s' _ _ =>
    bo_AttachedUsers (AtProvider s') = omap (mirror_entry (bp_Name (ForProvider cr))) users) cr w).
  eapply wp_Observe_ok; [done..|]. unfold observe_bucket, setBucketReadyCondition, setStorageClassDriftCondition.
  do 3 wp_step. eapply wp_mono; [by apply populateAttachedUsers_exact|]. intros r s' w' t (-> & -> & ->).
  cbv beta iota. repeat wp_step.
  match goal with |- context [drift_condition ?d ?o ?c] => destruct (drift_condition d o c) end; by repeat wp_step.
Qed.
End Mirror.

(** ** Witnesses *)

Definition sample_bucket : Bucket :=
  {| bk_Description := "logs of the shop"; bk_IsUnlimited := false; bk_Size := 10485760; bk_Used := 0;
     bk_Hostname := "s3.example.org"; bk_Id := 7; bk_Location := "ru-1"; bk_MovedInQuarantineAt := None;
     bk_Name := "data"; bk_ObjectAmount := 0; bk_PresetId := Some 401; bk_ProjectId := 1; bk_Status := "created";
     bk_StorageClass := "standard"; bk_Type := "private" |}.

Definition sample_params (size : Z) (description : option string) : S3BucketParameters :=
  {| bp_Name := "data"; bp_Type := "private"; bp_StorageClass := "standard"; bp_InitialSizeGB := size; bp_Location := None;
     bp_Description := description; bp_ProjectID := None |}.

Definition sample_cr (fp : S3BucketParameters) : managed S3BucketParameters S3BucketObservation :=
  {| ExternalName := "7"; ForProvider := fp; AtProvider := no_bucket; Conditions := no_conds; Events := [] |}.

(** An account with one bucket and the users of [sample_users]; [World] is the bucket. *)
Definition sample_user : IAMUser :=
  {| iu_ID := "u-1"; iu_Name := "app"; iu_AccessKey := "AK"; iu_SecretKey := ""; iu_Status := "active" |}.

Definition patch_bucket (body : UpdateStorageBody) (b : Bucket) : Bucket :=
  {| bk_Description := default (bk_Description b) (su_Description body); bk_IsUnlimited := bk_IsUnlimited b;
     bk_Size := bk_Size b; bk_Used := bk_Used b; bk_Hostname := bk_Hostname b; bk_Id := bk_Id b; bk_Location := bk_Location b;
     bk_MovedInQuarantineAt := bk_MovedInQuarantineAt b; bk_Name := bk_Name b; bk_ObjectAmount := bk_ObjectAmount b;
     bk_PresetId := match su_PresetId body with Some p => Some p | None => bk_PresetId b end; bk_ProjectId := bk_ProjectId b;
     bk_Status := bk_Status b; bk_StorageClass := bk_StorageClass b; bk_Type := default (bk_Type b) (su_BucketType body) |}.

Definition one_bucket_serve (q : storage_request) (b : Bucket) : reply (storage_reply q) * Bucket :=
  match q with
  | GetStorage _ => (ok_reply b, b)
  | UpdateStorage _ body => (ok_reply tt, patch_bucket body b)
  | ListStorageUsersV2 => (ok_reply [sample_user], b)
  | GetStorageUsers => (ok_reply [{| ak_AccessKey := "root"; ak_SecretKey := "key" |}], b)
  | GetUserPolicyQuery _ _ _ => (ok_reply {| ib_Code := ""; ib_Message := ""; ib_PolicyDocument := "policy" |}, b)
  | _ => (NetErr "not served", b)
  end.

#[export] Instance OneBucket : Upstream storage_request storage_reply := {| World := Bucket; serve := one_bucket_serve |}.

Definition sample_decode (doc : string) : option json :=
  if bool_decide (doc = "policy") then Some (RenderPolicy sample_grants) else None.

Definition sample_resolve (w : Bucket) (d : Dimension) (i : ResolveInput) : result error ResolveOutput := Ok (OutPreset 403).

Lemma bucket_observe_spec_witness :
  let run := Observe (R := MapRuntime) (U := OneBucket) true true sample_decode (sample_cr (sample_params 10 None)) sample_bucket in
  Forall (fun q => s3_read q = true) (calls run).
Proof.
  apply (bucket_observe_spec (L := MapRuntime_laws) (U := OneBucket) true true sample_decode
           (sample_cr (sample_params 10 None)) sample_bucket 7); [reflexivity|discriminate].
Defined.

Lemma bucket_update_spec_witness :
  calls (Update (R := MapRuntime) (U := OneBucket) true sample_resolve (sample_cr (sample_params 100 (Some "new"))) sample_bucket) =
    [GetStorage 7; UpdateStorage 7 {| su_BucketType := Some "private"; su_Description := Some "new"; su_PresetId := Some 403 |}].
Proof.
  destruct (bucket_update_spec (L := MapRuntime_laws) (U := OneBucket) true sample_resolve
              (sample_cr (sample_params 100 (Some "new"))) sample_bucket 7 eq_refl) as (rep & t & Ht & _).
  vm_compute. reflexivity.
Defined.

Lemma bucket_size_edit_unnoticed_witness :
  resize_due (sample_params 250 (Some "logs of the shop")) sample_bucket = true /\
  calls (reconciles (U := OneBucket) 3
           (bucket_controller (R := MapRuntime) (U := OneBucket) true false sample_resolve sample_decode) false
           (sample_cr (sample_params 250 (Some "logs of the shop"))) sample_bucket) =
    [GetStorage 7; GetStorage 7; GetStorage 7].
Proof.
  split; [vm_compute; reflexivity|].
  apply (bucket_size_edit_unnoticed (R := MapRuntime) (U := OneBucket) true sample_resolve sample_decode 7
           (sample_params 250 (Some "logs of the shop")) sample_bucket eq_refl 3
           (sample_cr (sample_params 250 (Some "logs of the shop"))) sample_bucket); [split|]; reflexivity.
Defined.

Lemma bucket_edit_never_settles_witness :
  calls (reconciles (U := OneBucket) 2
           (bucket_controller (R := MapRuntime) (U := OneBucket) true false sample_resolve sample_decode) false
           (sample_cr (sample_params 10 None)) sample_bucket) =
    [GetStorage 7; GetStorage 7; UpdateStorage 7 (update_body (sample_params 10 None) None);
     GetStorage 7; GetStorage 7; UpdateStorage 7 (update_body (sample_params 10 None) None)].
Proof.
  apply (bucket_edit_never_settles (R := MapRuntime) (U := OneBucket) true sample_resolve sample_decode 7
           (sample_params 10 None) (fun w => w) (fun w => eq_refl)) with (n := 2%nat).
  - intros body w. exists (patch_bucket body w). split; [reflexivity|]. repeat split; intros E; cbn; by rewrite ?E.
  - split; reflexivity.
  - split_and!; try reflexivity. left. split; [reflexivity|discriminate].
Defined.

Lemma bucket_mirrors_grants_witness :
  bo_AttachedUsers (AtProvider (final (Observe (R := MapRuntime) (U := OneBucket) true true sample_decode
    (sample_cr (sample_params 10 None)) sample_bucket))) = [{| au_Name := "app"; au_AccessLevel := "admin" |}].
Proof.
  refine (bucket_mirrors_grants (L := MapRuntime_laws) (U := OneBucket) true sample_decode [sample_user]
           {| ak_AccessKey := "root"; ak_SecretKey := "key" |} (fun _ => sample_grants) (fun _ => "policy")
           (sample_cr (sample_params 10 None)) sample_bucket 7 sample_bucket eq_refl eq_refl _ _ eq_refl); [|discriminate].
  split; [reflexivity|by exists []|split; discriminate|reflexivity|split; reflexivity].
Defined.
