(* ===== verification/S3User.v ===== *)
(** * S3User: the scoped-user controller

    [internal/controller/s3user/]: the grants of [connector.go], the external client of
    [external.go]. A user is named by its upstream id, its one inline policy by its
    declared name; the secret key is published by [Create] and never read again. *)

From S2P Require Import Prelude Errors Timeweb Shared Effects Lifecycle RouterRefs Policy Storage.

(** ** The managed resource *)

(** A reference is the name it carries. *)
Record BucketGrant := {
  bg_BucketRef : option string;
  bg_BucketName : option string;
  bg_AccessLevel : string }.

Record S3UserParameters := { xp_Name : string; xp_BucketAccess : list BucketGrant; xp_ProjectID : option Z }.

Record S3UserObservation := {
  xo_ID : option string;
  xo_Status : option string;
  xo_AccessKeyID : option string;
  xo_PolicyHash : option string;
  xo_ResolvedBuckets : list Grant }.

Definition dataEndpoint : string := "https://s3.twcstorage.ru".

(** ** Grants *)

(** What [resolveBucketName] reads of a referenced bucket. *)
Record S3BucketView := { bv_Ready : ConditionStatus; bv_Name : string; bv_Location : option string }.

Definition set_name (n : option string) : bool := negb (bool_decide (default_str n = "")).

Section Grants.
(** The bucket of a namespace and a name. *)
Variable get_s3bucket : string -> string -> kube_get S3BucketView.
Variable ns : string.

Definition s3_not_ready (name why : string) : error :=
  wrap_post (Sentinel ErrS3TargetNotReady) (": S3Bucket " +:+ quote name +:+ why).

Definition resolveBucketName (g : BucketGrant) : result error (string * string) :=
  match bg_BucketName g, bg_BucketRef g with
  | Some name, None =>
      if set_name (Some name) then Ok (name, "") else Err (wrap_post (Sentinel ErrGrantSpec) "")
  | name, Some ref =>
      if set_name name then Err (wrap_post (Sentinel ErrGrantSpec) "")
      else match get_s3bucket ns ref with
           | KNotFound => Err (wrap_post (Sentinel ErrS3TargetNotFound) (": S3Bucket " +:+ quote ref))
           | KError msg => Err (get_failed "S3Bucket" ref ns msg)
           | KFound target =>
               if negb (bool_decide (bv_Ready target = CTrue)) then Err (s3_not_ready ref " (not Ready=True)")
               else if bool_decide (bv_Name target = "") then Err (s3_not_ready ref " (empty bucket name)")
               else Ok (bv_Name target, default_str (bv_Location target))
           end
  | None, None => Err (wrap_post (Sentinel ErrGrantSpec) "")
  end.

(** The loop of [resolveGrants]: [out] so far with the regions; a bucket is seen when it
    is in it. While the user is being deleted a reference that does not resolve is
    skipped. *)
Fixpoint grants_loop (deleting : bool) (access : list BucketGrant) (out : list (Grant * string))
  : result error (list (Grant * string)) :=
  match access with
  | [] => Ok out
  | g :: access =>
      match resolveBucketName g with
      | Err e => if deleting then grants_loop deleting access out else Err e
      | Ok (name, reg) =>
          if bool_decide (name ∈ map (fun x => g_Bucket x.1) out)
          then Err (wrap_post (Sentinel ErrDuplicateBucket) (": " +:+ quote name))
          else grants_loop deleting access (out ++ [({| g_Bucket := name; g_Level := bg_AccessLevel g |}, reg)])
      end
  end.

Definition sort_resolved (out : list (Grant * string)) : list (Grant * string) :=
  sort_by (fun a b => str_leb (g_Bucket a.1) (g_Bucket b.1)) out.

(** The grants by bucket name, with the region of the first. *)
Definition resolveGrants (deleting : bool) (access : list BucketGrant) : result error (list Grant * string) :=
  match grants_loop deleting access [] with
  | Err e => Err e
  | Ok out => Ok (map fst (sort_resolved out), match sort_resolved out with x :: _ => x.2 | [] => "" end)
  end.
End Grants.

(** ** The external client *)

(** [external]: the keys of its IAM client, the grants and the primary region. *)
Record s3_session := { ss_Keys : AdminKeys; ss_Grants : list Grant; ss_Region : string }.

Definition buildUserConnection (u : IAMUser) (x : s3_session) : gmap string string :=
  let names := map g_Bucket (ss_Grants x) in
  let out : gmap string string :=
    <["access_key" := iu_AccessKey u]> (<["secret_key" := iu_SecretKey u]> (<["endpoint" := dataEndpoint]>
      (<["bucket" := match names with n :: _ => n | [] => "" end]> (<["buckets" := join "," names]> ∅)))) in
  if bool_decide (ss_Region x = "") then out else <["region" := ss_Region x]> out.

Section S3UserExternal.
Context `{R : CrossplaneRuntime} {U : Upstream storage_request storage_reply}.
Variable recorder : bool.
(** [encoding/json] on policy documents, [hex(sha256(...))]. *)
Variable json_encode : json -> string.
Variable json_decode : string -> option json.
Variable sha256_hex : string -> string.

Notation s3user := (managed S3UserParameters S3UserObservation).
Notation XM := (M U s3user).

Section Session.
Variable x : s3_session.

Definition desired_policy : string := json_encode (RenderPolicy (ss_Grants x)).

Definition populateUserStatus (u : IAMUser) (desired : string) (cr : s3user) : s3user :=
  set_at_provider {| xo_ID := Some (iu_ID u); xo_Status := Some (iu_Status u); xo_AccessKeyID := Some (iu_AccessKey u);
                     xo_PolicyHash := Some (PolicyHash sha256_hex (json_decode desired));
                     xo_ResolvedBuckets := ss_Grants x |} cr.

Definition user_condition (status : string) : Condition :=
  if bool_decide (trim_space status = "") then Available
  else match ClassifyUpstreamState status with
       | StateUnfunded => ReadyFalse ReasonPaymentRequired (UnfundedMessage "object-storage user")
       | StateActive => Available
       | _ => Creating
       end.

(** [observed != "" && PoliciesEqual(observed, desired)]. *)
Definition policy_current (observed : string) : bool :=
  negb (bool_decide (observed = "")) && PoliciesEqual (json_decode observed) (json_decode desired_policy).

Definition observe_user (u : IAMUser) : XM ExternalObservation :=
  cr ← get;
  p ← try (GetUserPolicy (ss_Keys x) (xp_Name (ForProvider cr)) PolicyName);
  observed ← lift match p with
                  | Ok doc => Ok doc
                  | Err e => if error_is e ErrNoSuchEntity then Ok "" else Err e
                  end;
  modify (populateUserStatus u desired_policy);;
  note_condition recorder (user_condition (iu_Status u));;
  mret {| ResourceExists := true; ResourceUpToDate := policy_current observed |}.

Definition Observe : XM ExternalObservation :=
  cr ← get;
  if bool_decide (ExternalName cr = "") then mret not_exists
  else get_or_absent not_exists "s3user: " (GetStorageUserV2 (ExternalName cr)) observe_user.

(** The first user of that name. *)
Definition findUserByName (name : string) : XM (option IAMUser) :=
  users ← doJSON ListStorageUsersV2;
  mret (List.find (fun u => bool_decide (iu_Name u = name)) users).

Definition adoptOrCreate (name : string) : XM IAMUser :=
  existing ← findUserByName name;
  match existing with
  | Some u => mret u
  | None => call_decode "s3user: " (CreateStorageUserV2 name)
  end.

Definition secret_missing : string :=
  "adopted upstream storage user has no retrievable secret key; connection Secret not published (delete+recreate to mint a fresh key, or supply the key out of band)".

Definition Create : XM (gmap string string) :=
  cr ← get;
  user ← adoptOrCreate (xp_Name (ForProvider cr));
  modify (set_external_name (iu_ID user));;
  PutUserPolicy (ss_Keys x) (xp_Name (ForProvider cr)) PolicyName desired_policy;;
  modify (populateUserStatus user desired_policy);;
  if bool_decide (iu_SecretKey user = "") then
    note_event recorder EventWarning ReasonSecretMissing secret_missing;;
    throw (ErrorString secret_missing)
  else
    put_condition Creating;;
    mret (buildUserConnection user x).

Definition user_checks (fp : S3UserParameters) (u : IAMUser) : list ImmutableField :=
  [{| if_Name := "name"; if_Desired := xp_Name fp; if_Observed := iu_Name u |}].

Definition Update : XM unit :=
  cr ← get;
  user ← call_decode "s3user: " (GetStorageUserV2 (ExternalName cr));
  match FirstImmutableDiff (user_checks (ForProvider cr) user) with
  | Some field => reject (RejectImmutableChange recorder field)
  | None =>
      PutUserPolicy (ss_Keys x) (xp_Name (ForProvider cr)) PolicyName desired_policy;;
      modify (populateUserStatus user desired_policy)
  end.

Definition Delete : XM unit :=
  cr ← get;
  if bool_decide (ExternalName cr = "") then mret tt
  else
    r ← try (DeleteUserPolicy (ss_Keys x) (xp_Name (ForProvider cr)) PolicyName);
    match r with
    | Err e =>
        if error_is e ErrNoSuchEntity || error_is e ErrIAMTransient
        then delete_or_gone (DeleteStorageUserV2 (ExternalName cr)) (put_condition Deleting)
        else throw e
    | Ok _ => delete_or_gone (DeleteStorageUserV2 (ExternalName cr)) (put_condition Deleting)
    end.

Definition user_controller : Controller U s3user :=
  {| c_observe := Observe; c_create := Create;; mret tt; c_update := Update; c_delete := Delete |}.
End Session.

(** ** Connect, after the token *)
Variable get_s3bucket : World -> string -> string -> kube_get S3BucketView.
Variable ns : string.

Definition Connect (deleting : bool) : XM s3_session :=
  r ← try DeriveAdminKeys;
  keys ← lift match r with
              | Ok k => Ok k
              | Err e => if deleting then Ok {| ak_AccessKey := ""; ak_SecretKey := "" |} else Err (wrap_pre "s3user: " e)
              end;
  cr ← get;
  g ← consult (fun w => resolveGrants (get_s3bucket w) ns deleting (xp_BucketAccess (ForProvider cr)));
  g ← lift g;
  mret {| ss_Keys := keys; ss_Grants := g.1; ss_Region := g.2 |}.

(** A pass of the runtime: it connects, then drives the external client. *)
Definition user_pass (deleting : bool) : XM unit :=
  x ← Connect deleting;
  reconcile (user_controller x) deleting.
End S3UserExternal.
