(* ===== verification/S3UserFacts.v ===== *)
(** * S3UserFacts: what the scoped-user controller does

    The grants are the declared ones, each bucket once, in an order of their own;
    [Create] never makes a second user of a name and publishes a secret or fails;
    an edit of the grants settles in one pass; what deletion leaves behind. *)

From S2P Require Import Prelude Errors Timeweb Shared Effects Lifecycle RouterRefs Policy Storage S3User.

(** ** Grants *)
Section Grants.
Variable get_s3bucket : string -> string -> kube_get S3BucketView.
Variable ns : string.

Notation resolve_name := (resolveBucketName get_s3bucket ns).
Notation loop := (grants_loop get_s3bucket ns).
Notation resolve := (resolveGrants get_s3bucket ns).

(** A declared grant and what it resolves to. *)
Definition resolves (g : BucketGrant) (x : Grant * string) : Prop :=
  exists name reg, resolve_name g = Ok (name, reg) /\ x = ({| g_Bucket := name; g_Level := bg_AccessLevel g |}, reg).

Lemma grants_loop_spec access out res :
  loop false access out = Ok res -> NoDup (map (fun x : Grant * string => g_Bucket x.1) out) ->
  exists l, res = out ++ l /\ Forall2 resolves access l /\ NoDup (map (fun x : Grant * string => g_Bucket x.1) res).
Proof.
  revert out. induction access as [|g access IH]; intros out; cbn [grants_loop].
  - intros [= <-] Hn. exists []. by rewrite app_nil_r.
  - destruct (resolve_name g) as [[name reg]|e] eqn:E; [|done]. case_bool_decide as Hin; [done|].
    intros Hres Hn. apply IH in Hres as (l & -> & Hl & Hn'); [|].
    + exists (({| g_Bucket := name; g_Level := bg_AccessLevel g |}, reg) :: l). rewrite <- app_assoc.
      split; [done|]. split; [|by rewrite <- app_assoc in Hn']. constructor; [|done]. by exists name, reg.
    + rewrite map_app. apply NoDup_app. split; [done|]. split; [|apply NoDup_singleton].
      intros b Hb Hb'. apply list_elem_of_singleton in Hb' as ->. done.
Qed.

Lemma grants_loop_complete access out l :
  Forall2 resolves access l -> NoDup (map (fun x : Grant * string => g_Bucket x.1) (out ++ l)) ->
  loop false access out = Ok (out ++ l).
Proof.
  intros H. revert out. induction H as [|g x access l (name & reg & Hr & ->) Hl IH]; intros out Hn; cbn [grants_loop].
  - by rewrite app_nil_r.
  - rewrite Hr. rewrite bool_decide_eq_false_2.
    + rewrite (IH (out ++ _)); by rewrite <- app_assoc.
    + intros Hin. rewrite map_app in Hn. apply NoDup_app in Hn as (_ & Hd & _). apply (Hd name); [done|]. by left.
Qed.

(** Buckets told apart, the order by name is the only one. *)
Lemma sort_resolved_unique l l' :
  NoDup (map (fun x : Grant * string => g_Bucket x.1) l) -> l ≡ₚ l' -> sort_resolved l = sort_resolved l'.
Proof.
  intros Hn Hp. unfold sort_resolved.
  apply (StronglySorted_unique_strong (fun a b : Grant * string => str_leb (g_Bucket a.1) (g_Bucket b.1) = true)).
  - intros x y Hx Hy H1 H2. rewrite elem_of_sort_by in Hx, Hy. rewrite <- Hp in Hy.
    pose proof (str_leb_antisym _ _ H1 H2) as He. apply list_elem_of_lookup in Hx as [i Hi], Hy as [j Hj].
    assert (i = j) as ->; [|congruence]. eapply NoDup_lookup; [exact Hn| |]; rewrite list_lookup_fmap; [by rewrite Hi|].
    rewrite Hj. simpl. by rewrite He.
  - apply sort_by_sorted; [intros; apply str_leb_total|intros; eauto using str_leb_trans].
  - apply sort_by_sorted; [intros; apply str_leb_total|intros; eauto using str_leb_trans].
  - by rewrite !sort_by_perm.
Qed.

(** C28. What a user's grants are: each declared grant resolved, once per bucket, by bucket
    name; the region published is the first bucket's, and neither depends on the order of
    the declaration. *)
Theorem user_grants_spec (access : list BucketGrant) (grants : list Grant) (region : string)
    (Hok : resolve false access = Ok (grants, region)) :
  exists l, Forall2 resolves access l /\ map fst l ≡ₚ grants /\
    NoDup (map g_Bucket grants) /\ StronglySorted (fun a b => str_leb (g_Bucket a) (g_Bucket b) = true) grants /\
    match grants with g :: _ => (g, region) ∈ l | [] => region = "" end /\
    forall access', access ≡ₚ access' -> resolve false access' = Ok (grants, region).
Proof.
  unfold resolveGrants in *. destruct (loop false access []) as [l|e] eqn:E; [|done]. injection Hok as <- <-.
  destruct (grants_loop_spec _ _ _ E) as (l' & -> & Hl & Hn); [constructor|]. cbn [app] in *. rename l' into l.
  assert (map g_Bucket (map fst (sort_resolved l)) = map (fun x : Grant * string => g_Bucket x.1) (sort_resolved l)) as Hm
    by by rewrite map_map.
  exists l. split; [done|]. split; [unfold sort_resolved; by rewrite sort_by_perm|]. split_and!.
  - rewrite Hm. unfold sort_resolved. by rewrite sort_by_perm.
  - assert (StronglySorted (fun a b : Grant * string => str_leb (g_Bucket a.1) (g_Bucket b.1) = true) (sort_resolved l)) as Hs
      by (apply sort_by_sorted; [intros; apply str_leb_total|intros; eauto using str_leb_trans]).
    clear Hm. induction Hs as [|x k Hk IH Hx]; cbn [map]; [constructor|]. constructor; [done|]. by apply Forall_map.
  - destruct (sort_resolved l) as [|x k] eqn:Es; [done|]. cbn [map]. destruct x as [g r].
    rewrite <- (elem_of_sort_by (fun a b : Grant * string => str_leb (g_Bucket a.1) (g_Bucket b.1))).
    unfold sort_resolved in Es. rewrite Es. by left.
  - intros access' Hp. destruct (Permutation_Forall2 Hp Hl) as (l' & Hp' & Hl').
    rewrite (grants_loop_complete access' [] l' Hl') by (cbn [app]; by rewrite <- Hp').
    by rewrite (sort_resolved_unique l l').
Qed.

(** The buckets a declaration resolves to, references that do not resolve left out. *)
Definition resolved_names (access : list BucketGrant) : list string :=
  omap (fun g => match resolve_name g with Ok (name, _) => Some name | Err _ => None end) access.

Lemma deleting_loop_nodup access out res :
  loop true access out = Ok res -> NoDup (map (fun x : Grant * string => g_Bucket x.1) out) ->
  NoDup (map (fun x : Grant * string => g_Bucket x.1) out ++ resolved_names access).
Proof.
  revert out. induction access as [|g access IH]; intros out; cbn [grants_loop resolved_names omap list_omap].
  - by rewrite app_nil_r.
  - destruct (resolve_name g) as [[name reg]|e]; [|by apply IH]. case_bool_decide as Hin; [done|].
    intros Hres Hn. apply IH in Hres.
    + rewrite map_app, <- app_assoc in Hres. exact Hres.
    + rewrite map_app. apply NoDup_app. split; [done|]. split; [|apply NoDup_singleton].
      intros b Hb Hb'. apply list_elem_of_singleton in Hb' as ->. done.
Qed.

Lemma deleting_loop_error access out e :
  loop true access out = Err e -> exists name, e = wrap_post (Sentinel ErrDuplicateBucket) (": " +:+ quote name).
Proof.
  revert out. induction access as [|g access IH]; intros out; cbn [grants_loop]; [done|].
  destruct (resolve_name g) as [[name reg]|e']; [|by apply IH]. case_bool_decide; [intros [= <-]; eauto|by apply IH].
Qed.

(** A bucket declared twice is refused also while the user is being deleted. *)
Lemma duplicates_refused access :
  ~ NoDup (resolved_names access) ->
  exists name, resolve true access = Err (wrap_post (Sentinel ErrDuplicateBucket) (": " +:+ quote name)).
Proof.
  intros Hd. unfold resolveGrants. destruct (loop true access []) as [res|e] eqn:E.
  - destruct Hd. by apply (deleting_loop_nodup access [] res E); constructor.
  - destruct (deleting_loop_error _ _ _ E) as [name ->]. eauto.
Qed.
End Grants.

Section Facts.
Context `{R : CrossplaneRuntime} {U : Upstream storage_request storage_reply}.
Variables (recorder : bool) (json_encode : json -> string) (json_decode : string -> option json) (sha256_hex : string -> string).

Notation s3user := (managed S3UserParameters S3UserObservation).
Notation xt := (list (exchange storage_reply)).
Notation policy x := (desired_policy json_encode x).
Notation Observe := (Observe recorder json_encode json_decode sha256_hex).
Notation Create := (Create recorder json_encode json_decode sha256_hex).
Notation Update := (Update recorder json_encode json_decode sha256_hex).
Notation controller := (user_controller recorder json_encode json_decode sha256_hex).

(** ** Create *)

(** The end of a [Create] that has its user: the id is recorded, the whole policy is
    put, and the keys are published unless the secret is unknown, which is an error. *)
Definition provisioned (x : s3_session) (cr : s3user) (u : IAMUser) (o : result error (gmap string string)) (s' : s3user) (t : xt) : Prop :=
  ExternalName s' = iu_ID u /\
  exists rep, t = [Exchange (Rep := storage_reply)
                     (PutUserPolicyQuery (ss_Keys x) (xp_Name (ForProvider cr)) PolicyName (policy x)) rep] /\
    match iam_done rep with
    | Err e => o = Err e
    | Ok _ => (iu_SecretKey u = "" /\ is_ok o = false) \/
              (iu_SecretKey u <> "" /\ o = Ok (buildUserConnection u x) /\
               buildUserConnection u x !! "secret_key" = Some (iu_SecretKey u))
    end.

Lemma connection_secret u x : buildUserConnection u x !! "secret_key" = Some (iu_SecretKey u).
Proof. unfold buildUserConnection. destruct (bool_decide _); by simplify_map_eq. Qed.

Lemma wp_provision (x : s3_session) (cr : s3user) u w :
  wp (modify (set_external_name (iu_ID u));;
      PutUserPolicy (ss_Keys x) (xp_Name (ForProvider cr)) PolicyName (policy x);;
      modify (populateUserStatus json_decode sha256_hex x u (policy x));;
      if bool_decide (iu_SecretKey u = "") then
        note_event recorder EventWarning ReasonSecretMissing secret_missing;; throw (ErrorString secret_missing)
      else put_condition Creating;; mret (buildUserConnection u x))
     (fun o s' _ t => provisioned x cr u o s' t) cr w.
Proof.
  do 3 wp_step. unfold PutUserPolicy. wp_step. unfold provisioned. cbn [storage_reply] in *.
  destruct (iam_done r) as [[]|e] eqn:Ei.
  - do 2 wp_step. destruct (decide (iu_SecretKey u = "")) as [He|He].
    + rewrite (bool_decide_eq_true_2 _ He). repeat wp_step. unfold record_event.
      split; [by destruct recorder|]. exists r. split; [done|]. rewrite Ei. by left.
    + rewrite (bool_decide_eq_false_2 _ He). repeat wp_step. split; [done|]. exists r. split; [done|]. rewrite Ei. right.
      split; [done|]. split; [done|]. apply connection_secret.
  - split; [done|]. exists r. by rewrite Ei.
Qed.

Lemma not_listed name users u :
  List.find (fun u => bool_decide (iu_Name u = name)) users = None -> u ∈ users -> iu_Name u <> name.
Proof.
  intros Hf Hu%list_elem_of_In Hn. apply (find_none _ _ Hf) in Hu. by rewrite bool_decide_eq_true_2 in Hu.
Qed.

(** The user of a resource is never made twice: a user of the declared name that is
    listed is adopted, one is created only when the list was read and has none. Then the
    whole policy is put under it, and a [Create] that succeeds has published a secret
    that is not blank. *)
Theorem user_create_spec (x : s3_session) (cr : s3user) (w : World) :
  let run := Create x cr w in
  let name := xp_Name (ForProvider cr) in
  exists rep t, trace run = Exchange (Rep := storage_reply) ListStorageUsersV2 rep :: t /\
    match read_reply (A := list IAMUser) rep with
    | Err e => outcome run = Err e /\ t = [] /\ final run = cr
    | Ok users =>
        match List.find (fun u => bool_decide (iu_Name u = name)) users with
        | Some u => iu_Name u = name /\ provisioned x cr u (outcome run) (final run) t
        | None =>
            (forall u, u ∈ users -> iu_Name u <> name) /\
            exists rep' t', t = Exchange (Rep := storage_reply) (CreateStorageUserV2 name) rep' :: t' /\
              match read_reply_pre (A := IAMUser) "s3user: " rep' with
              | Err e => outcome run = Err e /\ t' = [] /\ final run = cr
              | Ok u => provisioned x cr u (outcome run) (final run) t'
              end
        end
    end.
Proof.
  cbv zeta. pattern (outcome (Create x cr w)), (final (Create x cr w)), (trace (Create x cr w)).
  match goal with |- ?P _ _ _ => change (wp (Create x) (fun o s' _ t => P o s' t) cr w) end.
  unfold S3User.Create, adoptOrCreate, findUserByName. do 6 wp_step. cbn [storage_reply] in *.
  destruct (read_reply r) as [users|e] eqn:Er; cbv beta iota; [|by exists r, []; rewrite Er].
  wp_step. destruct (List.find _ users) as [u|] eqn:Ef; cbv beta iota.
  - wp_step. apply find_some in Ef as Ef'. destruct Ef' as [_ Hn%bool_decide_eq_true].
    eapply wp_mono; [apply wp_provision|]. intros o s' w'' t Hp. exists r, t. split; [done|]. by rewrite Er, Ef.
  - wp_step. cbn [storage_reply] in *. destruct (read_reply_pre "s3user: " r0) as [u|e] eqn:Er0; cbv beta iota.
    + eapply wp_mono; [apply wp_provision|]. intros o s' w'' t Hp. exists r; eexists. split; [done|]. rewrite Er, Ef.
      split; [|exists r0, t; by rewrite Er0]. intros u' Hu'. by eapply not_listed.
    + exists r; eexists. split; [done|]. rewrite Er, Ef. split; [|exists r0, []; by rewrite Er0].
      intros u' Hu'. by eapply not_listed.
Qed.

(** ** Delete *)

(** What [Delete] does of a recorded user: it takes away the policy of the user the
    spec names, then, unless that was refused for good, the user the external name
    names. *)
Theorem user_delete_spec (x : s3_session) (cr : s3user) (w : World) (Hid : ExternalName cr <> "") :
  let run := Delete x cr w in
  exists rep t, trace run = Exchange (Rep := storage_reply)
                              (DeleteUserPolicyQuery (ss_Keys x) (xp_Name (ForProvider cr)) PolicyName) rep :: t /\
    match iam_done rep with
    | Err e =>
        if error_is e ErrNoSuchEntity || error_is e ErrIAMTransient
        then map request t = [DeleteStorageUserV2 (ExternalName cr)]
        else outcome run = Err e /\ t = [] /\ final run = cr
    | Ok _ => map request t = [DeleteStorageUserV2 (ExternalName cr)]
    end.
Proof.
  cbv zeta. pattern (outcome (Delete x cr w)), (final (Delete x cr w)), (trace (Delete x cr w)).
  match goal with |- ?P _ _ _ => change (wp (Delete x) (fun o s' _ t => P o s' t) cr w) end.
  unfold Delete. do 2 wp_step. rewrite (bool_decide_eq_false_2 _ Hid). do 2 wp_step. unfold DeleteUserPolicy. wp_step.
  cbn [storage_reply] in *.
  assert (forall Q : post unit, (forall o s' w'' t, map request t = [DeleteStorageUserV2 (ExternalName cr)] -> Q o s' w'' t) ->
    wp (delete_or_gone (DeleteStorageUserV2 (ExternalName cr)) (put_condition Deleting)) Q cr w') as Hdel.
  { intros Q HQ. apply wp_delete_or_gone. intros r' w'' _. destruct (write_reply r'); [wp_step|]; by apply HQ. }
  destruct (iam_done r) as [[]|e] eqn:Ei; cbv beta iota.
  - apply Hdel. intros o s' w'' t Ht. exists r, t. by rewrite Ei.
  - destruct (error_is e ErrNoSuchEntity || error_is e ErrIAMTransient) eqn:Ee.
    + apply Hdel. intros o s' w'' t Ht. exists r, t. by rewrite Ei, Ee.
    + wp_step. exists r, []. by rewrite Ei, Ee.
Qed.

(** ** An edit of the grants settles *)
Section Settle.
Variable x : s3_session.
Variables (id name : string) (u : IAMUser).
Variable policy_of : World -> option string.

(** A service at which the user is, whose calls succeed and which keeps the policy it is
    given, and a codec that reads what it writes and nothing from the empty text. *)
Record policy_service : Prop := {
  named : iu_Name u = name;
  user_read w : serve (GetStorageUserV2 id) w = (ok_reply u, w);
  policy_read w : exists rep, serve (GetUserPolicyQuery (ss_Keys x) name PolicyName) w = (rep, w) /\
    iam_document rep = match policy_of w with Some doc => Ok doc | None => Err (Sentinel ErrNoSuchEntity) end;
  policy_put w : exists rep w', serve (PutUserPolicyQuery (ss_Keys x) name PolicyName (policy x)) w = (rep, w') /\
    iam_done rep = Ok tt /\ policy_of w' = Some (policy x);
  codec : json_decode (policy x) = Some (RenderPolicy (ss_Grants x)) /\ policy x <> "";
  codec_blank : json_decode "" = None }.

Hypothesis service : policy_service.
Hypothesis grants_proper : proper_grants (ss_Grants x).

Notation current w := (policy_current json_encode json_decode x (default "" (policy_of w))).

Definition user_declares (s : s3user) : Prop := ExternalName s = id /\ id <> "" /\ xp_Name (ForProvider s) = name.

Definition user_reads : list storage_request := [GetStorageUserV2 id; GetUserPolicyQuery (ss_Keys x) name PolicyName].

Definition user_writes : list storage_request :=
  [GetStorageUserV2 id; PutUserPolicyQuery (ss_Keys x) name PolicyName (policy x)].

Lemma policy_current_self : policy_current json_encode json_decode x (policy x) = true.
Proof.
  unfold policy_current. destruct (codec service) as [Hc Hne].
  rewrite (bool_decide_eq_false_2 _ Hne), Hc. cbn [negb andb].
  unfold PoliciesEqual, canonicalStatements, RenderPolicy. rewrite doc_roundtrip. by apply bool_decide_eq_true.
Qed.

Lemma wp_user_observe s w (Q : post ExternalObservation) :
  user_declares s ->
  (forall s' t, user_declares s' -> map request t = user_reads ->
     Q (Ok {| ResourceExists := true; ResourceUpToDate := current w |}) s' w t) ->
  wp (Observe x) Q s w.
Proof.
  intros (He & Hid & Hn) HQ. unfold S3User.Observe. do 2 wp_step. rewrite bool_decide_eq_false_2 by congruence.
  apply wp_get_or_absent. intros rep w'. rewrite He, (user_read service). intros [= <- <-].
  change (read_reply_pre "s3user: " (ok_reply u)) with (Ok (E := error) u). cbv beta iota.
  unfold observe_user. do 4 wp_step. unfold GetUserPolicy. wp_step. rewrite Hn in *.
  destruct (policy_read service w) as (rep & Hs & Hd). cbn [storage_reply] in *. rewrite Hs in H. injection H as <- <-.
  rewrite Hd. do 2 wp_step.
  assert (match (match policy_of w with Some doc => Ok doc | None => Err (Sentinel ErrNoSuchEntity) end : result error string) with
          | Ok doc => Ok doc
          | Err e => if error_is e ErrNoSuchEntity then Ok "" else Err e
          end = Ok (default "" (policy_of w))) as -> by by destruct (policy_of w).
  repeat wp_step. by apply HQ.
Qed.

(** The document in force, and that it gives the declared grants. *)
Definition in_force (w : World) : option json := doc ← policy_of w; json_decode doc.

Definition granted_as_declared (w : World) : Prop :=
  gives (in_force w) (ss_Grants x) /\
  (forall g, g ∈ ss_Grants x -> DeriveLevelForBucket (in_force w) (g_Bucket g) = (g_Level g, true)) /\
  (forall bucket, no_slash bucket = true -> bucket ∉ map g_Bucket (ss_Grants x) -> DeriveLevelForBucket (in_force w) bucket = ("", false)).

Definition stored_well_written (w : World) : Prop := forall p, policy_unmarshal (in_force w) = Some p -> well_written p.

Lemma current_iff w : stored_well_written w -> (current w = true <-> gives (in_force w) (ss_Grants x)).
Proof.
  intros Hw. unfold stored_well_written, in_force in *. destruct (codec service) as [Hc _].
  unfold policy_current. rewrite Hc. destruct (policy_of w) as [doc|]; cbn [from_option Datatypes.id mbind option_bind] in *.
  - rewrite andb_true_iff, PoliciesEqual_gives by done. split; [by intros []|]. intros H. split; [|done].
    case_bool_decide as Hd; [|done]. subst doc. rewrite (codec_blank service) in H. by destruct H as (p & l & H & _).
  - split; [done|]. by intros (p & l & H & _).
Qed.

Lemma gives_granted w : gives (in_force w) (ss_Grants x) -> granted_as_declared w.
Proof.
  intros H. split; [done|]. split.
  - intros g Hg. rewrite (gives_level _ _ _ H). by apply derived_declared.
  - intros b Hb Hn. rewrite (gives_level _ _ _ H). by apply derived_undeclared.
Qed.

(** A pass that finds the policy current only reads. *)
Lemma wp_quiet s w1 : user_declares s /\ current w1 = true /\ gives (in_force w1) (ss_Grants x) ->
  wp (reconcile (controller x) false)
    (fun _ s' w' t => (user_declares s' /\ current w' = true /\ gives (in_force w') (ss_Grants x)) /\ map request t = user_reads) s w1.
Proof.
  intros (Hs & Hc & Hg). apply wp_reconcile, wp_user_observe; [done|]. intros s' t Hs' Ht. rewrite Hc.
  cbn [ResourceExists ResourceUpToDate negb]. wp_step. by rewrite app_nil_r.
Qed.

Lemma wp_first_pass cr w (Hcr : user_declares cr) (Hw : stored_well_written w) :
  wp (reconcile (controller x) false)
    (fun _ s' w' t => user_declares s' /\ current w' = true /\ gives (in_force w') (ss_Grants x) /\
       exists first, map request t = user_reads ++ first /\
         ((gives (in_force w) (ss_Grants x) /\ first = []) \/ (~ gives (in_force w) (ss_Grants x) /\ first = user_writes))) cr w.
Proof.
  pose proof (current_iff w Hw) as Hiff. destruct (current w) eqn:Hc.
  { eapply wp_mono; [apply wp_quiet; by rewrite <- Hiff|]. intros o s' w' t ((? & ? & ?) & Ht). split_and!; [done..|].
    exists []. rewrite app_nil_r. split; [done|]. left. by rewrite <- Hiff. }
  assert (~ gives (in_force w) (ss_Grants x)) as Hng by (intros H%Hiff; done).
  apply wp_reconcile, wp_user_observe; [done|]. intros s' t (He & Hid & Hn) Ht. rewrite Hc. cbn [ResourceExists ResourceUpToDate negb].
  cbn [c_update user_controller]. unfold S3User.Update. do 4 wp_step. rewrite He, (user_read service) in H. injection H as <- <-.
  change (read_reply_pre "s3user: " (ok_reply u)) with (Ok (E := error) u). cbv beta iota. rewrite same_no_diff
    by (repeat constructor; cbn [if_Desired if_Observed]; by rewrite Hn, (named service)).
  wp_step. unfold PutUserPolicy. wp_step. rewrite Hn in *. destruct (policy_put service w) as (rep & w2 & Hs & Hd & Hp).
  cbn [storage_reply] in *. rewrite Hs in H. injection H as <- <-. rewrite Hd. wp_step.
  split; [done|]. split; [rewrite Hp; apply policy_current_self|]. split.
  - unfold in_force. rewrite Hp. cbn [mbind option_bind]. rewrite (proj1 (codec service)). apply gives_rendered.
  - exists user_writes. rewrite map_app, Ht, He. split; [done|]. by right.
Qed.

(** C29. An edit of the grants is carried out in one pass and stays. Against a service whose
    calls succeed and which stores the policy it is given, for grants of distinct buckets
    and a stored policy in the grammar of policies: a pass reads the user and its policy,
    and puts the whole policy when the stored one does not say, statement by statement up
    to order, what the grants say, and only then; every later pass only reads; and from
    then on the policy in force is that of the grants, giving each declared bucket its
    level and no other bucket any. *)
Theorem user_edit_settles (n : nat) (cr : s3user) (w : World) (Hcr : user_declares cr) (Hw : stored_well_written w) :
  let run := reconciles (S n) (controller x) false cr w in
  (exists first, calls run = user_reads ++ first ++ concat (repeat user_reads n) /\
     ((gives (in_force w) (ss_Grants x) /\ first = []) \/ (~ gives (in_force w) (ss_Grants x) /\ first = user_writes))) /\
  granted_as_declared (world run).
Proof.
  cbv zeta.
  change (wp (reconciles (S n) (controller x) false) (fun _ _ w' t => (exists first, map request t =
    user_reads ++ first ++ concat (repeat user_reads n) /\
    ((gives (in_force w) (ss_Grants x) /\ first = []) \/ (~ gives (in_force w) (ss_Grants x) /\ first = user_writes))) /\
    granted_as_declared w') cr w).
  cbn [reconciles]. do 2 wp_step.
  eapply wp_mono; [exact (wp_first_pass cr w Hcr Hw)|]. intros r s1 w1 t1 (Hs1 & Hc1 & Hg1 & first & Ht1 & Hf). cbv beta iota.
  eapply wp_mono; [exact (wp_reconciles_alike (controller x) false _ user_reads wp_quiet n s1 w1 (conj Hs1 (conj Hc1 Hg1)))|].
  intros r' s2 w2 t2 [(_ & _ & Hg2) Ht2]. split; [|by apply gives_granted]. exists first. split; [|done].
  by rewrite map_app, Ht1, Ht2, <- app_assoc.
Qed.
End Settle.
End Facts.

(** ** What holds deletion up *)
Section Deletion.
Context `{R : CrossplaneRuntime} {U : Upstream storage_request storage_reply}.
Variables (recorder : bool) (json_encode : json -> string) (json_decode : string -> option json) (sha256_hex : string -> string).
Variables (kube : string -> string -> kube_get S3BucketView) (ns : string).

Notation s3user := (managed S3UserParameters S3UserObservation).
Notation user_pass := (user_pass recorder json_encode json_decode sha256_hex (fun _ => kube) ns).

Definition no_keys : AdminKeys := {| ak_AccessKey := ""; ak_SecretKey := "" |}.

Lemma DeriveAdminKeys_run (s : s3user) w :
  let r := DeriveAdminKeys s w in
  map request (trace r) = [GetStorageUsers] /\ final r = s /\ world r = (serve GetStorageUsers w).2.
Proof.
  change (wp DeriveAdminKeys (fun _ s' w' t => map request t = [GetStorageUsers] /\ s' = s /\ w' = (serve GetStorageUsers w).2) s w).
  unfold DeriveAdminKeys. do 2 wp_step. rewrite H. destruct (read_reply r) as [[|k l]|e]; cbv beta iota; [by wp_step| |done].
  destruct (_ || _); by wp_step.
Qed.

(** The keys a deleting connect goes on with: those it could derive, none otherwise. *)
Definition deleting_keys (r : result error AdminKeys) : AdminKeys := match r with Ok k => k | Err _ => no_keys end.

Lemma wp_deleting_connect (s : s3user) w (Q : post s3_session) :
  (forall t, map request t = [GetStorageUsers] ->
     Q match resolveGrants kube ns true (xp_BucketAccess (ForProvider s)) with
       | Ok g => Ok {| ss_Keys := deleting_keys (outcome (DeriveAdminKeys s w)); ss_Grants := g.1; ss_Region := g.2 |}
       | Err e => Err e
       end s (serve GetStorageUsers w).2 t) ->
  wp (Connect (fun _ => kube) ns true) Q s w.
Proof.
  intros HQ. unfold Connect. do 2 wp_step. unfold wp at 1. destruct (DeriveAdminKeys_run s w) as (Ht & -> & ->).
  specialize (HQ _ Ht). cbv beta iota. wp_step.
  replace (match outcome (DeriveAdminKeys s w) with Ok k => Ok k | Err _ => Ok {| ak_AccessKey := ""; ak_SecretKey := "" |} end)
    with (Ok (E := error) (deleting_keys (outcome (DeriveAdminKeys s w)))) by (by destruct (outcome (DeriveAdminKeys s w))).
  repeat wp_step. revert HQ.
  destruct (resolveGrants kube ns true _) as [g|e]; intros HQ; repeat wp_step; cbn [app]; by rewrite ?app_nil_r.
Qed.

(** A bucket declared twice holds the deletion of a user up: every pass stops at its
    connect, which refuses the grants it does not need, and neither the policy nor the
    user is taken away. *)
Theorem duplicate_grant_blocks_deletion (cr : s3user) (w : World)
    (Hd : ~ NoDup (resolved_names kube ns (xp_BucketAccess (ForProvider cr)))) :
  let run := user_pass true cr w in
  calls run = [GetStorageUsers] /\ final run = cr /\ is_ok (outcome run) = false.
Proof.
  change (wp (user_pass true) (fun o s' _ t => map request t = [GetStorageUsers] /\ s' = cr /\ is_ok o = false) cr w).
  unfold S3User.user_pass. wp_step. apply wp_deleting_connect. intros t Ht.
  by destruct (duplicates_refused _ _ _ Hd) as [name ->].
Qed.

(** A query the service refuses for good. *)
Definition refused (rep : reply iam_body) : Prop :=
  exists e, iam_document rep = Err e /\ error_is e ErrNoSuchEntity = false.

(** Without the account's keys the deletion of a user never ends either, although
    connect tolerates their absence: the pass observes first, its unsigned query is
    refused, and the user is not reached. *)
Theorem deletion_needs_admin_keys (cr : s3user) (w : World) (u : IAMUser)
    (Hid : ExternalName cr <> "") (Hu : read_reply_pre (A := IAMUser) "s3user: "
       (serve (GetStorageUserV2 (ExternalName cr)) (serve GetStorageUsers w).2).1 = Ok u)
    (Hk : is_ok (outcome (DeriveAdminKeys cr w)) = false)
    (Hrefused : forall name w', refused (serve (GetUserPolicyQuery no_keys name PolicyName) w').1) :
  let run := user_pass true cr w in
  Forall (fun q => match q with DeleteStorageUserV2 _ | DeleteUserPolicyQuery _ _ _ => False | _ => True end) (calls run) /\
  final run = cr /\ is_ok (outcome run) = false.
Proof.
  change (wp (user_pass true) (fun o s' _ t =>
    Forall (fun q => match q with DeleteStorageUserV2 _ | DeleteUserPolicyQuery _ _ _ => False | _ => True end) (map request t) /\
    s' = cr /\ is_ok o = false) cr w).
  unfold S3User.user_pass. wp_step. apply wp_deleting_connect. intros t Ht. destruct (outcome (DeriveAdminKeys cr w)); [done|]. cbn [deleting_keys].
  destruct (resolveGrants _ _ _ _) as [g|e']; [|rewrite Ht; split; [by repeat constructor|done]].
  apply wp_reconcile. cbn [c_observe user_controller]. unfold Observe. do 2 wp_step.
  rewrite (bool_decide_eq_false_2 _ Hid). apply wp_get_or_absent. intros rep w2 Hs.
  rewrite Hs in Hu. cbn [fst storage_reply] in *. rewrite Hu. unfold observe_user. do 4 wp_step. unfold GetUserPolicy. wp_step.
  cbn [ss_Keys] in *. destruct (Hrefused (xp_Name (ForProvider cr)) w2) as (e2 & He2 & Hne).
  cbn [storage_reply] in *. rewrite H in He2. cbn [fst] in He2. rewrite He2, Hne. do 2 wp_step.
  split; [|done]. rewrite !map_app, Ht. by repeat constructor.
Qed.
End Deletion.

(** ** Witnesses: an account with its users, its policies and its keys *)

Record account := { ac_users : list IAMUser; ac_policies : list (string * string); ac_keys : list AdminKeys }.

Definition policy_ok (doc : string) : reply iam_body := ok_reply {| ib_Code := ""; ib_Message := ""; ib_PolicyDocument := doc |}.

Definition policy_error (status : Z) (code : string) : reply iam_body :=
  Reply {| StatusCode := status; Body := BodyBytes "" None |} (Decoded {| ib_Code := code; ib_Message := ""; ib_PolicyDocument := "" |}).

Definition without (name : string) (l : list (string * string)) : list (string * string) :=
  List.filter (fun p => negb (bool_decide (p.1 = name))) l.

Definition new_user (name : string) : IAMUser :=
  {| iu_ID := "id-" +:+ name; iu_Name := name; iu_AccessKey := "AK"; iu_SecretKey := "SK"; iu_Status := "active" |}.

Definition with_policies (l : list (string * string)) (a : account) : account :=
  {| ac_users := ac_users a; ac_policies := l; ac_keys := ac_keys a |}.

Definition account_serve (q : storage_request) (a : account) : reply (storage_reply q) * account :=
  match q with
  | GetStorageUsers => (ok_reply (ac_keys a), a)
  | ListStorageUsersV2 => (ok_reply (ac_users a), a)
  | GetStorageUserV2 id => (match List.find (fun u => bool_decide (iu_ID u = id)) (ac_users a) with
                            | Some u => ok_reply u
                            | None => gone_reply
                            end, a)
  | CreateStorageUserV2 name =>
      (ok_reply (new_user name), {| ac_users := new_user name :: ac_users a; ac_policies := ac_policies a; ac_keys := ac_keys a |})
  | DeleteStorageUserV2 id =>
      (ok_reply tt, {| ac_users := List.filter (fun u => negb (bool_decide (iu_ID u = id))) (ac_users a);
                       ac_policies := ac_policies a; ac_keys := ac_keys a |})
  | GetUserPolicyQuery k name _ =>
      (if bool_decide (ak_AccessKey k = "") then policy_error 403 "AccessDenied"
       else match assoc name (ac_policies a) with Some doc => policy_ok doc | None => policy_error 404 "NoSuchEntity" end, a)
  | PutUserPolicyQuery _ name _ doc => (policy_ok "", with_policies ((name, doc) :: without name (ac_policies a)) a)
  | DeleteUserPolicyQuery _ name _ => (policy_ok "", with_policies (without name (ac_policies a)) a)
  | GetStorage _ | CreateStorage _ => (NetErr "not served", a)
  | UpdateStorage _ _ | DeleteStorage _ => (NetErr "not served", a)
  end.

#[export] Instance Account : Upstream storage_request storage_reply := {| World := account; serve := account_serve |}.

(** A codec for the policy of [sample_grants] and the empty one. *)
Definition sample_encode (j : json) : string := if PoliciesEqual (Some j) (Some (RenderPolicy sample_grants)) then "granted" else "empty".

Definition sample_keys : AdminKeys := {| ak_AccessKey := "root"; ak_SecretKey := "key" |}.

Definition sample_session : s3_session := {| ss_Keys := sample_keys; ss_Grants := sample_grants; ss_Region := "ru-1" |}.

Definition user_cr (ext name : string) (access : list BucketGrant) : managed S3UserParameters S3UserObservation :=
  {| ExternalName := ext; ForProvider := {| xp_Name := name; xp_BucketAccess := access; xp_ProjectID := None |};
     AtProvider := {| xo_ID := None; xo_Status := None; xo_AccessKeyID := None; xo_PolicyHash := None; xo_ResolvedBuckets := [] |};
     Conditions := no_conds; Events := [] |}.

Definition two_users : account :=
  {| ac_users := [new_user "app"; new_user "billing"]; ac_policies := [("app", "p1"); ("billing", "p2")]; ac_keys := [sample_keys] |}.

Definition no_bucket_view (ns name : string) : kube_get S3BucketView := KNotFound.

Definition by_name (bucket level : string) : BucketGrant :=
  {| bg_BucketRef := None; bg_BucketName := Some bucket; bg_AccessLevel := level |}.

Lemma user_grants_spec_witness :
  resolveGrants no_bucket_view "shop" false [by_name "data" "admin"; by_name "logs" "read"] =
    Ok ([{| g_Bucket := "data"; g_Level := "admin" |}; {| g_Bucket := "logs"; g_Level := "read" |}], "").
Proof.
  destruct (user_grants_spec no_bucket_view "shop" [by_name "logs" "read"; by_name "data" "admin"] _ _ eq_refl)
    as (l & _ & _ & _ & _ & _ & H).
  apply H. apply Permutation_swap.
Defined.

Lemma user_delete_spec_witness :
  calls (Delete (R := MapRuntime) (U := Account) sample_session (user_cr "id-app" "billing" []) two_users) =
    [DeleteUserPolicyQuery sample_keys "billing" PolicyName; DeleteStorageUserV2 "id-app"].
Proof.
  destruct (user_delete_spec (R := MapRuntime) (U := Account) sample_session (user_cr "id-app" "billing" []) two_users)
    as (rep & t & _); [discriminate|]. vm_compute. reflexivity.
Defined.

(** A user renamed in its spec, which [Update] refuses, takes the policy of the user of
    that name away when it is deleted. *)
Example renamed_user_deletes_another_policy :
  let cr := user_cr "id-app" "billing" [] in
  outcome (Update (R := MapRuntime) (U := Account) true sample_encode (fun _ => None) (fun s => s) sample_session cr two_users) =
    Err (Sentinel ErrImmutableFieldChange) /\
  ac_policies (world (Delete (R := MapRuntime) (U := Account) sample_session cr two_users)) = [("app", "p1")] /\
  map iu_Name (ac_users (world (Delete (R := MapRuntime) (U := Account) sample_session cr two_users))) = ["billing"].
Proof. vm_compute. done. Qed.

Lemma duplicate_grant_blocks_deletion_witness :
  let run := user_pass (R := MapRuntime) (U := Account) true sample_encode (fun _ => None) (fun s => s) (fun _ => no_bucket_view) "shop" true
               (user_cr "id-app" "app" [by_name "data" "read"; by_name "data" "admin"]) two_users in
  calls run = [GetStorageUsers] /\ is_ok (outcome run) = false.
Proof.
  destruct (duplicate_grant_blocks_deletion (R := MapRuntime) (U := Account) true sample_encode (fun _ => None) (fun s => s)
              no_bucket_view "shop" (user_cr "id-app" "app" [by_name "data" "read"; by_name "data" "admin"]) two_users) as (H & _ & H').
  - intros Hn. apply NoDup_cons in Hn as [Hn _]. apply Hn. by left.
  - split; [exact H|exact H'].
Defined.

Lemma deletion_needs_admin_keys_witness :
  let a := {| ac_users := [new_user "app"]; ac_policies := [("app", "p1")]; ac_keys := [] |} in
  is_ok (outcome (user_pass (R := MapRuntime) (U := Account) true sample_encode (fun _ => None) (fun s => s) (fun _ => no_bucket_view)
                    "shop" true (user_cr "id-app" "app" []) a)) = false.
Proof.
  apply (deletion_needs_admin_keys (R := MapRuntime) (U := Account) true sample_encode (fun _ => None) (fun s => s)
           no_bucket_view "shop" (user_cr "id-app" "app" [])
           {| ac_users := [new_user "app"]; ac_policies := [("app", "p1")]; ac_keys := [] |} (new_user "app")).
  - discriminate.
  - reflexivity.
  - reflexivity.
  - intros name w'. exists (classifyQueryError 403 "AccessDenied" ""). split; reflexivity.
Defined.

(** One user, whose policy is the world. *)
Definition one_policy_serve (q : storage_request) (w : option string) : reply (storage_reply q) * option string :=
  match q with
  | GetStorageUserV2 _ => (ok_reply (new_user "app"), w)
  | GetUserPolicyQuery _ _ _ => (match w with Some doc => policy_ok doc | None => policy_error 404 "NoSuchEntity" end, w)
  | PutUserPolicyQuery _ _ _ doc => (policy_ok "", Some doc)
  | _ => (NetErr "not served", w)
  end.

#[export] Instance OnePolicy : Upstream storage_request storage_reply := {| World := option string; serve := one_policy_serve |}.

(** The policies of the sample, none of them escaped. *)
Definition plain_decode (doc : string) : option json :=
  if bool_decide (doc = "granted") then Some (RenderPolicy sample_grants)
  else if bool_decide (doc = "empty") then Some (RenderPolicy []) else None.

Lemma user_edit_settles_witness :
  let run := reconciles (U := OnePolicy) 2
               (user_controller (R := MapRuntime) (U := OnePolicy) true sample_encode plain_decode (fun s => s) sample_session) false
               (user_cr "id-app" "app" []) (Some "empty") in
  calls run =
    [GetStorageUserV2 "id-app"; GetUserPolicyQuery sample_keys "app" PolicyName;
     GetStorageUserV2 "id-app"; PutUserPolicyQuery sample_keys "app" PolicyName "granted";
     GetStorageUserV2 "id-app"; GetUserPolicyQuery sample_keys "app" PolicyName] /\
  DeriveLevelForBucket (plain_decode (default "" (world run))) "data" = ("admin", true).
Proof.
  cbv zeta. split; [vm_compute; reflexivity|].
  destruct (user_edit_settles (R := MapRuntime) (U := OnePolicy) true sample_encode plain_decode (fun s => s) sample_session
           "id-app" "app" (new_user "app") (fun w => match w with Some d => Some (decodePolicyDocument d) | None => None end)
           ltac:(split; [reflexivity|reflexivity| | |split; [vm_compute; reflexivity|discriminate]|reflexivity];
                 [intros [d|]; [exists (policy_ok d)|exists (policy_error 404 "NoSuchEntity")]; split; reflexivity
                 |intros w; exists (policy_ok ""), (Some "granted"); split; [reflexivity|split; vm_compute; reflexivity]])
           ltac:(split; [apply (bool_decide_unpack _); vm_compute; exact I|repeat constructor; vm_compute; tauto])
           1 (user_cr "id-app" "app" []) (Some "empty")
           ltac:(split; [reflexivity|split; [discriminate|reflexivity]])
           ltac:(intros p Hp; vm_compute in Hp; injection Hp as <-; repeat constructor)) as [_ (_ & H & _)].
  specialize (H {| g_Bucket := "data"; g_Level := "admin" |}). cbn [g_Bucket g_Level] in H. rewrite <- H; [reflexivity|].
  right. left.
Defined.
