(* ===== verification/Registry.v ===== *)
(** * Registry: the container-registry controller

    [internal/controller/containerregistry/registry_external.go] and [credentials.go]:
    [Observe], [Create], [Update] and [Delete] of a registry, the tier resolved from its
    declared size, and the docker credentials synthesised from its name and the account's
    token. The timestamps are the texts the code's [Format] gives. *)

From S2P Require Import Prelude Errors Timeweb Slug Configurator Catalog Shared Effects Lifecycle Resolving.

(** ** Payloads *)

Record RegistryOut := {
  ro_CreatedAt : string;
  ro_Description : string;
  ro_Size : Z;
  ro_Used : Z;
  ro_Id : Z;
  ro_Name : string;
  ro_PresetId : Z;
  ro_ProjectId : Z;
  ro_UpdatedAt : string }.

Record RegistryIn := {
  ri_Description : option string;
  ri_Name : string;
  ri_PresetId : option Z;
  ri_ProjectId : option Z }.

Record RegistryEdit := { re_Description : option string; re_PresetId : option Z }.

Inductive registry_request : Type :=
| GetRegistry (id : Z)
| CreateRegistry (body : RegistryIn)
| UpdateRegistry (id : Z) (body : RegistryEdit)
| DeleteRegistry (id : Z).

Definition registry_reply (q : registry_request) : Type :=
  match q with GetRegistry _ | CreateRegistry _ => RegistryOut | _ => unit end.

(** ** The managed resource *)

Record ContainerRegistryParameters := {
  gp_Name : string;
  gp_Description : option string;
  gp_InitialSizeGB : Z;
  gp_Location : option string;
  gp_ProjectID : option Z }.

Record ContainerRegistryDiskStats := { gd_SizeGB : Z; gd_UsedGB : Z }.

Record ContainerRegistryObservation := {
  go_ID : option Z;
  go_LockedPresetID : option Z;
  go_ProjectID : option Z;
  go_DiskStats : option ContainerRegistryDiskStats;
  go_CreatedAt : option string;
  go_UpdatedAt : option string;
  go_Endpoint : option string }.

Definition DimContainerRegistryPreset : Dimension :=
  {| dim_Name := "ContainerRegistryPreset"; dim_Kind := DimensionPreset |}.

(** ** Base64, [encoding/base64]'s [StdEncoding] *)

Definition b64_table : string := "ABCDEFGHIJKLMNOPQRSTUVWXYZabcdefghijklmnopqrstuvwxyz0123456789+/".

Definition b64_char (n : Z) : ascii := default (byte_of 61) (String.get (Z.to_nat n) b64_table).

Definition b64_group (a b c : Z) : list Z := [a / 4; a mod 4 * 16 + b / 16; b mod 16 * 4 + c / 64; c mod 64].

Definition b64_chars (l : list Z) : string := fold_right (fun n s => String (b64_char n) s) "" l.

Fixpoint EncodeToString (s : string) : string :=
  match s with
  | EmptyString => ""
  | String a s1 =>
      match s1 with
      | EmptyString => b64_chars (take 2 (b64_group (byte_val a) 0 0)) +:+ "=="
      | String b s2 =>
          match s2 with
          | EmptyString => b64_chars (take 3 (b64_group (byte_val a) (byte_val b) 0)) +:+ "="
          | String c s3 => b64_chars (b64_group (byte_val a) (byte_val b) (byte_val c)) +:+ EncodeToString s3
          end
      end
  end.

(** ** Credentials *)

Definition registryEndpoint (registryName : string) : string := registryName +:+ ".registry.twcstorage.ru".

Definition deriveRegistryCredentials (registryName apiToken : string) : result error (string * string) :=
  if bool_decide (registryName = "") || bool_decide (apiToken = "") then Err (Sentinel ErrCredentialsUnavailable)
  else Ok (registryName, apiToken).

(** The [.dockerconfigjson] blob, as the JSON value marshalled. *)
Definition buildDockerConfigJSON (endpoint username password : string) : json :=
  JObj [("auths", JObj [(endpoint,
    JObj [("username", JStr username); ("password", JStr password);
          ("auth", JStr (EncodeToString (username +:+ ":" +:+ password)))])])].

(** ** Helpers *)

Definition isRegistryUpToDate (spec : ContainerRegistryParameters) (r : RegistryOut) : bool :=
  if negb (PtrEqString (gp_Description spec) (ro_Description r)) then false
  else match gp_ProjectID spec with
       | Some p => bool_decide (p = ro_ProjectId r)
       | None => true
       end.

Definition registry_status (o : ContainerRegistryObservation) (r : RegistryOut) : ContainerRegistryObservation :=
  {| go_ID := Some (ro_Id r);
     go_LockedPresetID := match go_LockedPresetID o with
                          | Some p => Some p
                          | None => if bool_decide (ro_PresetId r = 0) then None else Some (ro_PresetId r)
                          end;
     go_ProjectID := Some (ro_ProjectId r);
     go_DiskStats := Some {| gd_SizeGB := ro_Size r; gd_UsedGB := ro_Used r |};
     go_CreatedAt := Some (ro_CreatedAt r); go_UpdatedAt := Some (ro_UpdatedAt r);
     go_Endpoint := Some (registryEndpoint (ro_Name r)) |}.

Definition with_locked (p : Z) (o : ContainerRegistryObservation) : ContainerRegistryObservation :=
  {| go_ID := go_ID o; go_LockedPresetID := Some p; go_ProjectID := go_ProjectID o; go_DiskStats := go_DiskStats o;
     go_CreatedAt := go_CreatedAt o; go_UpdatedAt := go_UpdatedAt o; go_Endpoint := go_Endpoint o |}.

Definition registry_checks (fp : ContainerRegistryParameters) (r : RegistryOut) : list ImmutableField :=
  [{| if_Name := "name"; if_Desired := gp_Name fp; if_Observed := ro_Name r |}].

Definition registry_body (fp : ContainerRegistryParameters) (presetID : Z) : RegistryIn :=
  {| ri_Description := gp_Description fp; ri_Name := gp_Name fp; ri_PresetId := Some presetID; ri_ProjectId := gp_ProjectID fp |}.

Definition registry_edit (fp : ContainerRegistryParameters) (presetID : Z) : RegistryEdit :=
  {| re_Description := gp_Description fp; re_PresetId := Some presetID |}.

Definition registry_query (fp : ContainerRegistryParameters) : ResolveInput :=
  InPresetBySize {| bs_DiskGB := gp_InitialSizeGB fp; bs_Location := default_str (gp_Location fp); bs_StorageClass := "" |}.

(** ** The external client *)
Section RegistryExternal.
Context `{R : CrossplaneRuntime} {U : Upstream registry_request registry_reply}.
Variable recorder : bool.
Variable resolve : World -> Dimension -> ResolveInput -> result error ResolveOutput.
(** [encoding/json] writing a value; the operator's token. *)
Variable json_encode : json -> string.
Variable apiToken : string.

Notation registry := (managed ContainerRegistryParameters ContainerRegistryObservation).
Notation GM := (M U registry).

Definition buildConnection (endpoint username password : string) : gmap string string :=
  <["endpoint" := endpoint]> (<["username" := username]> (<["password" := password]>
    (<[".dockerconfigjson" := json_encode (buildDockerConfigJSON endpoint username password)]> ∅))).

Definition connectionDetails (r : RegistryOut) : result error (gmap string string) :=
  match deriveRegistryCredentials (ro_Name r) apiToken with
  | Err e => Err e
  | Ok (username, password) => Ok (buildConnection (registryEndpoint (ro_Name r)) username password)
  end.

(** [connectionDetails] with its unavailable credentials tolerated: nil then. *)
Definition connection_or_nil (r : RegistryOut) : result error (option (gmap string string)) :=
  match connectionDetails r with
  | Ok c => Ok (Some c)
  | Err e => if error_is e ErrCredentialsUnavailable then Ok None else Err e
  end.

Definition populateRegistryStatus (r : RegistryOut) (cr : registry) : registry :=
  set_at_provider (registry_status (AtProvider cr) r) cr.

Definition lock_preset (p : Z) (cr : registry) : registry := set_at_provider (with_locked p (AtProvider cr)) cr.

Definition observe_registry (r : RegistryOut) : GM (ExternalObservation * gmap string string) :=
  modify (populateRegistryStatus r);;
  note_condition recorder Available;;
  conn ← lift (connection_or_nil r);
  cr ← get;
  mret ({| ResourceExists := true; ResourceUpToDate := isRegistryUpToDate (ForProvider cr) r |},
        default (<["endpoint" := registryEndpoint (ro_Name r)]> ∅) conn).

Definition Observe : GM (ExternalObservation * gmap string string) :=
  cr ← get;
  if bool_decide (ExternalName cr = "") then mret (not_exists, ∅)
  else match DecodeID (ExternalName cr) with
       | Err _ => mret (not_exists, ∅)
       | Ok id => get_or_absent (not_exists, ∅) "containerregistry: " (GetRegistry id) observe_registry
       end.

Definition resolvePresetID : GM Z :=
  cr ← get;
  out ← ask resolve DimContainerRegistryPreset (registry_query (ForProvider cr));
  match out with
  | Err e => note_condition recorder (MapResolverErrorToCondition e);; throw e
  | Ok _ => lift (preset_output "containerregistry" out)
  end.

Definition Create : GM (option (gmap string string)) :=
  presetID ← resolvePresetID;
  cr ← get;
  r ← call_decode "containerregistry: " (CreateRegistry (registry_body (ForProvider cr) presetID));
  modify (set_external_name (EncodeID (ro_Id r)));;
  modify (populateRegistryStatus r);;
  modify (lock_preset (if bool_decide (ro_PresetId r = 0) then presetID else ro_PresetId r));;
  note_condition recorder Creating;;
  lift (connection_or_nil r).

Definition Update : GM (option (gmap string string)) :=
  cr ← get;
  match DecodeID (ExternalName cr) with
  | Err e => throw (wrap_pre "containerregistry: decode external-name: " e)
  | Ok id =>
      r ← call_decode "containerregistry: " (GetRegistry id);
      match FirstImmutableDiff (registry_checks (ForProvider cr) r) with
      | Some field => reject (RejectImmutableChange recorder field)
      | None =>
          presetID ← resolvePresetID;
          do_ (UpdateRegistry id (registry_edit (ForProvider cr) presetID));;
          modify (lock_preset presetID);;
          lift (connection_or_nil r)
      end
  end.

Definition Delete : GM unit :=
  cr ← get;
  match DecodeID (ExternalName cr) with
  | Err _ => mret tt
  | Ok id => delete_or_gone (DeleteRegistry id) (put_condition Deleting)
  end.

Definition registry_controller : Controller U registry :=
  {| c_observe := o ← Observe; mret o.1; c_create := Create;; mret tt; c_update := Update;; mret tt; c_delete := Delete |}.
End RegistryExternal.
