(* ===== verification/RegistryFacts.v ===== *)
(** * RegistryFacts: what the container-registry controller does

    The docker credentials say the registry's name and the account's token; [Update]
    sends one patch and always a tier; the edits it never makes. *)

From S2P Require Import Prelude Errors Timeweb Slug Configurator Catalog Shared Effects Lifecycle Resolving Registry.

(** ** Base64 reads back *)

Fixpoint index_of (c : ascii) (s : string) (n : Z) : option Z :=
  match s with
  | EmptyString => None
  | String c' s' => if bool_decide (c = c') then Some n else index_of c s' (n + 1)
  end.

Definition b64_value (c : ascii) : option Z := index_of c b64_table 0.

(** The inverse of one group: the bytes of four digits. *)
Definition b64_bytes (p q r s : Z) : list Z := [p * 4 + q / 16; q mod 16 * 16 + r / 4; r mod 4 * 64 + s].

Definition pad : ascii := byte_of 61.

(** The decoder of RFC 4648, by groups of four characters. *)
Fixpoint DecodeString (fuel : nat) (s : string) : option string :=
  match fuel, s with
  | O, _ => None
  | _, EmptyString => Some ""
  | S fuel, String p (String q (String r (String t rest))) =>
      p ← b64_value p; q ← b64_value q;
      match b64_value r, b64_value t with
      | None, None =>
          if bool_decide (r = pad) && bool_decide (t = pad) && bool_decide (rest = "")
          then Some (String (byte_of (p * 4 + q / 16)) "") else None
      | Some r, None =>
          if bool_decide (t = pad) && bool_decide (rest = "")
          then Some (String (byte_of (p * 4 + q / 16)) (String (byte_of (q mod 16 * 16 + r / 4)) "")) else None
      | Some r, Some t =>
          l ← DecodeString fuel rest;
          Some (fold_right (fun n s => String (byte_of n) s) l (b64_bytes p q r t))
      | None, Some _ => None
      end
  | _, _ => None
  end.

Lemma b64_value_char n : 0 <= n < 64 -> b64_value (b64_char n) = Some n.
Proof.
  intros H. assert (forallb (fun n => bool_decide (b64_value (b64_char (Z.of_nat n)) = Some (Z.of_nat n))) (seq 0 64) = true) as HF
    by (vm_compute; reflexivity).
  rewrite forallb_forall in HF. specialize (HF (Z.to_nat n)). rewrite Z2Nat.id in HF by lia.
  eapply bool_decide_eq_true, HF. apply in_seq. lia.
Qed.

Lemma byte_val_range c : 0 <= byte_val c < 256.
Proof. unfold byte_val. pose proof (Ascii.N_ascii_bounded c). lia. Qed.

Lemma byte_of_val c : byte_of (byte_val c) = c.
Proof. unfold byte_of, byte_val. rewrite N2Z.id. apply Ascii.ascii_N_embedding. Qed.

(** The four digits of a group are digits, and give its bytes back. *)
Lemma b64_group_range a b c : 0 <= a < 256 -> 0 <= b < 256 -> 0 <= c < 256 -> Forall (fun n => 0 <= n < 64) (b64_group a b c).
Proof.
  intros Ha Hb Hc. unfold b64_group. repeat constructor; Z.to_euclidean_division_equations; lia.
Qed.

Lemma b64_group_bytes a b c : 0 <= a < 256 -> 0 <= b < 256 -> 0 <= c < 256 ->
  match b64_group a b c with [p; q; r; s] => b64_bytes p q r s = [a; b; c] | _ => False end.
Proof.
  intros Ha Hb Hc. unfold b64_group, b64_bytes. repeat f_equal; Z.to_euclidean_division_equations; lia.
Qed.

(** One group decoded, whatever follows it. *)
Lemma decode_group fuel a b c rest :
  DecodeString (S fuel) (b64_chars (b64_group (byte_val a) (byte_val b) (byte_val c)) +:+ rest) =
    l ← DecodeString fuel rest; Some (String a (String b (String c l))).
Proof.
  pose proof (byte_val_range a) as Ha. pose proof (byte_val_range b) as Hb. pose proof (byte_val_range c) as Hc.
  pose proof (b64_group_range _ _ _ Ha Hb Hc) as Hr. pose proof (b64_group_bytes _ _ _ Ha Hb Hc) as Hg.
  destruct (b64_group _ _ _) as [|p [|q [|r [|t [|? ?]]]]]; try done.
  inversion Hr as [|? ? Hp Hr1]; subst. inversion Hr1 as [|? ? Hq Hr2]; subst.
  inversion Hr2 as [|? ? Hr' Hr3]; subst. inversion Hr3 as [|? ? Ht _]; subst.
  cbn [b64_chars fold_right String.append DecodeString]. rewrite !b64_value_char by done. cbn [mbind option_bind].
  rewrite Hg. cbn [fold_right]. by rewrite !byte_of_val.
Qed.

Lemma decode_one fuel a :
  DecodeString (S fuel) (b64_chars (take 2 (b64_group (byte_val a) 0 0)) +:+ "==") = Some (String a "").
Proof.
  pose proof (byte_val_range a) as Ha. unfold b64_group. cbn [take b64_chars fold_right String.append DecodeString].
  rewrite !b64_value_char by (Z.to_euclidean_division_equations; lia). cbn [mbind option_bind].
  change (b64_value "=") with (None (A := Z)). cbv beta iota. rewrite !bool_decide_eq_true_2 by reflexivity. cbn [andb].
  do 2 f_equal. transitivity (byte_of (byte_val a)); [|apply byte_of_val]. f_equal. Z.to_euclidean_division_equations; lia.
Qed.

Lemma decode_two fuel a b :
  DecodeString (S fuel) (b64_chars (take 3 (b64_group (byte_val a) (byte_val b) 0)) +:+ "=") = Some (String a (String b "")).
Proof.
  pose proof (byte_val_range a) as Ha. pose proof (byte_val_range b) as Hb.
  unfold b64_group. cbn [take b64_chars fold_right String.append DecodeString].
  rewrite !b64_value_char by (Z.to_euclidean_division_equations; lia). cbn [mbind option_bind].
  change (b64_value "=") with (None (A := Z)). cbv beta iota. rewrite !bool_decide_eq_true_2 by reflexivity. cbn [andb].
  assert (forall n c, n = byte_val c -> byte_of n = c) as HB by (intros n c ->; apply byte_of_val).
  f_equal. f_equal; [|f_equal]; apply HB; Z.to_euclidean_division_equations; lia.
Qed.

Lemma decode_encode fuel s : (String.length s < fuel)%nat -> DecodeString fuel (EncodeToString s) = Some s.
Proof.
  revert s. induction fuel as [|fuel IH]; intros s Hl; [lia|].
  destruct s as [|a [|b [|c s]]]; [done|apply decode_one|apply decode_two|].
  cbn [EncodeToString]. rewrite decode_group, IH; [done|]. cbn [String.length] in Hl. lia.
Qed.

(** Whether [s] is the base64 text of [t]. *)
Definition decodes_to (s t : string) : Prop := DecodeString (S (String.length t)) s = Some t.

Section Facts.
Context `{R : CrossplaneRuntime} {L : CrossplaneLaws R} {U : Upstream registry_request registry_reply}.
Variable recorder : bool.
Variable resolve : World -> Dimension -> ResolveInput -> result error ResolveOutput.
Variables (json_encode : json -> string) (apiToken : string).

Notation registry := (managed ContainerRegistryParameters ContainerRegistryObservation).
Notation Observe := (Observe recorder json_encode apiToken).
Notation Update := (Update recorder resolve json_encode apiToken).
Notation controller := (registry_controller recorder resolve json_encode apiToken).

(** The [auth] member of a docker configuration for an endpoint. *)
Definition docker_auth (config : json) (endpoint : string) : option string :=
  match config with
  | JObj [(k, JObj [(e, JObj [_; _; (a, JStr auth)])])] =>
      if bool_decide (k = "auths") && bool_decide (e = endpoint) && bool_decide (a = "auth") then Some auth else None
  | _ => None
  end.

(** C30. The connection details of an observed registry: with a name and a token, the raw
    keys and one docker configuration whose [auth] for the registry's endpoint is the
    base64 text of the very login the raw keys give; without, the endpoint alone. *)
Theorem registry_docker_login (r : RegistryOut) (cr : registry) (w : World) (id : Z)
    (Hid : DecodeID (ExternalName cr) = Ok id) (Hr : (serve (GetRegistry id) w).1 = ok_reply r) :
  let endpoint := ro_Name r +:+ ".registry.twcstorage.ru" in
  exists cd, outcome (Observe cr w) = Ok ({| ResourceExists := true; ResourceUpToDate := isRegistryUpToDate (ForProvider cr) r |}, cd) /\
    cd !! "endpoint" = Some endpoint /\
    if bool_decide (ro_Name r = "") || bool_decide (apiToken = "") then cd = {["endpoint" := endpoint]}
    else cd !! "username" = Some (ro_Name r) /\ cd !! "password" = Some apiToken /\
         exists config auth, cd !! ".dockerconfigjson" = Some (json_encode config) /\
           docker_auth config endpoint = Some auth /\ decodes_to auth (ro_Name r +:+ ":" +:+ apiToken).
Proof.
  cbv zeta. pattern (outcome (Observe cr w)).
  match goal with |- ?P _ => change (wp Observe (fun o _ _ _ => P o) cr w) end.
  unfold Registry.Observe. do 2 wp_step. rewrite bool_decide_eq_false_2, Hid
    by (intros He; rewrite He in Hid; discriminate Hid).
  apply wp_get_or_absent. intros rep w' Hs. rewrite Hs in Hr. cbn [fst] in Hr. subst rep.
  change (read_reply_pre "containerregistry: " (ok_reply r)) with (Ok (E := error) r). cbv beta iota.
  unfold observe_registry. repeat wp_step. unfold connection_or_nil, connectionDetails, deriveRegistryCredentials.
  destruct (bool_decide (ro_Name r = "") || bool_decide (apiToken = "")) eqn:Eb; cbv beta iota.
  - cbn [error_is]. rewrite bool_decide_eq_true_2 by reflexivity. repeat wp_step.
    eexists. split; [reflexivity|]. cbn [default from_option]. by simplify_map_eq.
  - repeat wp_step. eexists. split; [reflexivity|]. cbn [default from_option]. unfold buildConnection.
    split; [by simplify_map_eq|]. split; [by simplify_map_eq|]. split; [by simplify_map_eq|].
    exists (buildDockerConfigJSON (registryEndpoint (ro_Name r)) (ro_Name r) apiToken), (EncodeToString (ro_Name r +:+ ":" +:+ apiToken)).
    split; [by simplify_map_eq|]. split; [|by apply decode_encode; lia].
    unfold docker_auth, buildDockerConfigJSON. by rewrite !bool_decide_eq_true_2 by reflexivity.
Qed.

Lemma wp_registry_preset (s : registry) w (Q : post Z) :
  (forall p, preset_output "containerregistry" (resolve w DimContainerRegistryPreset (registry_query (ForProvider s))) = Ok p -> Q (Ok p) s w []) ->
  (forall e s', preset_output "containerregistry" (resolve w DimContainerRegistryPreset (registry_query (ForProvider s))) = Err e ->
     AtProvider s' = AtProvider s -> Q (Err e) s' w []) ->
  wp (resolvePresetID recorder resolve) Q s w.
Proof.
  intros HOk HErr. unfold resolvePresetID. do 2 wp_step. apply wp_bind, wp_ask. cbv beta iota.
  destruct (resolve _ _ _) as [out|e]; [|do 3 wp_step; by apply HErr].
  wp_step. destruct (preset_output _ (Ok out)) eqn:E; [by apply HOk|by apply HErr].
Qed.

(** A registry's [Update], after its one read: a renamed registry is refused and so is
    one whose size the catalog cannot serve, before anything is written; otherwise one
    patch is sent, which always carries the tier of the declared size, and the tier is
    recorded when that patch went through. *)
Theorem registry_update_spec (cr : registry) (w : World) (id : Z) (Hid : DecodeID (ExternalName cr) = Ok id) :
  let run := Update cr w in
  exists rep t, trace run = Exchange (Rep := registry_reply) (GetRegistry id) rep :: t /\
    match read_reply_pre (A := RegistryOut) "containerregistry: " rep with
    | Err e => outcome run = Err e /\ t = [] /\ final run = cr
    | Ok r =>
        match FirstImmutableDiff (registry_checks (ForProvider cr) r) with
        | Some _ => outcome run = Err (Sentinel ErrImmutableFieldChange) /\ t = []
        | None =>
            match preset_output "containerregistry"
                    (resolve (serve (GetRegistry id) w).2 DimContainerRegistryPreset (registry_query (ForProvider cr))) with
            | Err e => outcome run = Err e /\ t = [] /\ AtProvider (final run) = AtProvider cr
            | Ok p =>
                map request t = [UpdateRegistry id (registry_edit (ForProvider cr) p)] /\
                final run = (if is_ok (outcome run) then lock_preset p cr else cr)
            end
        end
    end.
Proof.
  cbv zeta. pattern (outcome (Update cr w)), (final (Update cr w)), (trace (Update cr w)).
  match goal with |- ?P _ _ _ => change (wp Update (fun o s' _ t => P o s' t) cr w) end.
  unfold Registry.Update. do 2 wp_step. rewrite Hid. do 2 wp_step. rewrite H. cbn [snd registry_reply] in *.
  destruct (read_reply_pre "containerregistry: " r) as [b|e] eqn:Er; [|by exists r, []; rewrite Er].
  destruct (FirstImmutableDiff _) as [f|] eqn:Ef; [wp_step; exists r, []; by rewrite Er, Ef|].
  wp_step. apply wp_registry_preset; [|intros e s' He Hs; exists r, []; by rewrite Er, Ef, He].
  intros p Hp. do 2 wp_step. cbn [registry_reply] in *. destruct (write_reply r0) as [[]|e] eqn:Ew.
  - repeat wp_step. exists r; eexists. split; [reflexivity|]. rewrite Er, Ef, Hp. split; [done|].
    assert (is_ok (connection_or_nil json_encode apiToken b) = true) as ->; [|done].
    unfold connection_or_nil, connectionDetails, deriveRegistryCredentials.
    destruct (_ || _); [|done]. cbn [error_is]. by rewrite bool_decide_eq_true_2.
  - exists r; eexists. split; [reflexivity|]. by rewrite Er, Ef, Hp.
Qed.

(** ** Edits that are never made *)
Variables (id : Z) (fp : ContainerRegistryParameters).

Definition declares (s : registry) : Prop := DecodeID (ExternalName s) = Ok id /\ ForProvider s = fp.

Definition registry_steady (r : RegistryOut) (w : World) : Prop := serve (GetRegistry id) w = (ok_reply r, w).

Lemma wp_registry_observe (s : registry) w r (Q : post ExternalObservation) :
  declares s -> registry_steady r w ->
  (forall s', declares s' -> Q (Ok {| ResourceExists := true; ResourceUpToDate := isRegistryUpToDate fp r |}) s' w
                               [Exchange (GetRegistry id) (ok_reply r)]) ->
  wp (c_observe controller) Q s w.
Proof.
  intros [Hid Hfp] Hr HQ. cbn [c_observe registry_controller]. wp_step. unfold Registry.Observe. do 2 wp_step.
  rewrite bool_decide_eq_false_2, Hid by (intros He; rewrite He in Hid; discriminate Hid).
  apply wp_get_or_absent. intros rep w'. rewrite Hr. intros [= <- <-].
  change (read_reply_pre "containerregistry: " (ok_reply r)) with (Ok (E := error) r). cbv beta iota.
  unfold observe_registry. repeat wp_step. unfold connection_or_nil, connectionDetails, deriveRegistryCredentials.
  destruct (bool_decide (ro_Name r = "") || bool_decide (apiToken = "")); cbv beta iota;
    [cbn [error_is]; rewrite bool_decide_eq_true_2 by reflexivity|]; repeat wp_step;
    cbn [ForProvider set_conditions record_condition_change populateRegistryStatus set_at_provider fst app]; rewrite Hfp; by apply HQ.
Qed.

(** An edit of the size alone does nothing: for a registry whose description and
    project are the declared ones every pass is one read, whatever the declared size. *)
Theorem registry_size_edit_unnoticed (r : RegistryOut) (Hup : isRegistryUpToDate fp r = true) (n : nat) (cr : registry) (w : World)
    (Hcr : declares cr) (Hr : registry_steady r w) :
  calls (reconciles n controller false cr w) = repeat (GetRegistry id) n.
Proof.
  enough (wp (reconciles n controller false) (fun _ s' w' t => (declares s' /\ w' = w) /\
            map request t = concat (repeat [GetRegistry id] n)) cr w) as [_ Ht].
  { unfold calls. by rewrite Ht, concat_repeat_one. }
  apply (wp_reconciles_alike controller false (fun s w' => declares s /\ w' = w) [GetRegistry id]); [|done].
  intros s w' [Hs ->]. apply wp_reconcile. eapply wp_registry_observe; [done..|].
  intros s' Hs'. rewrite Hup. cbn [ResourceExists ResourceUpToDate negb]. by wp_step.
Qed.

(** An edit the patch cannot carry: a description taken out of the spec, or a project
    the registry is not in. *)
Definition not_carried (r : RegistryOut) : Prop :=
  (gp_Description fp = None /\ ro_Description r <> "") \/ (exists p, gp_ProjectID fp = Some p /\ p <> ro_ProjectId r).

Lemma registry_not_carried_drift r : not_carried r -> isRegistryUpToDate fp r = false.
Proof.
  unfold not_carried, isRegistryUpToDate, PtrEqString. intros [[-> H]|(p & -> & H)]; rewrite (bool_decide_eq_false_2 _ H); [done|].
  by destruct (negb _).
Qed.

(** A service that applies to the registry what a patch carries and nothing else. *)
Variable stored : World -> RegistryOut.

Record registry_service : Prop := {
  registry_read w : serve (GetRegistry id) w = (ok_reply (stored w), w);
  registry_patched body w : exists w', serve (UpdateRegistry id body) w = (ok_reply tt, w') /\
    ro_Name (stored w') = ro_Name (stored w) /\ ro_ProjectId (stored w') = ro_ProjectId (stored w) /\
    ro_Description (stored w') = default (ro_Description (stored w)) (re_Description body) }.

Variable tier : Z.

(** Such an edit is never made and never given up: every pass reads the registry
    twice and sends it the same patch, tier included. *)
Theorem registry_edit_never_settles (service : registry_service) (n : nat) (cr : registry) (w : World)
    (Htier : forall w, resolve w DimContainerRegistryPreset (registry_query fp) = Ok (OutPreset tier))
    (Hcr : declares cr) (Hr : not_carried (stored w)) (Hname : ro_Name (stored w) = gp_Name fp) :
  calls (reconciles n controller false cr w) =
    concat (repeat [GetRegistry id; GetRegistry id; UpdateRegistry id (registry_edit fp tier)] n).
Proof.
  enough (wp (reconciles n controller false) (fun _ s' w' t =>
            (declares s' /\ not_carried (stored w') /\ ro_Name (stored w') = gp_Name fp) /\
            map request t = concat (repeat [GetRegistry id; GetRegistry id; UpdateRegistry id (registry_edit fp tier)] n)) cr w)
    as [_ Ht] by exact Ht.
  apply (wp_reconciles_alike controller false
           (fun s w' => declares s /\ not_carried (stored w') /\ ro_Name (stored w') = gp_Name fp)); [|done].
  clear n cr w Hcr Hr Hname. intros s w (Hs & Hr & Hname). apply wp_reconcile.
  eapply wp_registry_observe; [done|apply (registry_read service)|].
  intros s' [Hid Hfp]. rewrite (registry_not_carried_drift _ Hr). cbn [ResourceExists ResourceUpToDate negb].
  cbn [c_update registry_controller]. unfold Registry.Update. do 3 wp_step. rewrite Hid. do 2 wp_step.
  rewrite (registry_read service) in H. injection H as <- <-.
  change (read_reply_pre "containerregistry: " (ok_reply (stored w))) with (Ok (E := error) (stored w)). cbv beta iota.
  rewrite Hfp, same_no_diff by (by repeat constructor). wp_step. apply wp_registry_preset; rewrite Hfp, Htier; [|done].
  intros p [= <-]. do 2 wp_step. destruct (registry_patched service (registry_edit fp tier) w) as (w2 & H2 & Hn & Hp & Hd).
  rewrite H2 in H. injection H as <- <-. change (write_reply (ok_reply tt)) with (Ok (E := error) tt). cbv beta iota.
  repeat wp_step.
  assert ((declares (lock_preset tier s') /\ not_carried (stored w2) /\ ro_Name (stored w2) = gp_Name fp)) as Hkeep.
  { split; [done|]. split; [|congruence]. destruct Hr as [[Hd' He]|(q & Hq & Hne)]; [left|right; exists q; by rewrite Hp].
    split; [done|]. rewrite Hd. cbn [re_Description registry_edit]. by rewrite Hd'. }
  destruct (connection_or_nil _ _ _); [wp_step|]; by split.
Qed.
End Facts.

(** ** Witnesses *)

Definition sample_registry : RegistryOut :=
  {| ro_CreatedAt := "2026-05-01T00:00:00Z"; ro_Description := "images"; ro_Size := 5; ro_Used := 1; ro_Id := 9; ro_Name := "shop";
     ro_PresetId := 501; ro_ProjectId := 1; ro_UpdatedAt := "2026-05-02T00:00:00Z" |}.

Definition apply_edit (body : RegistryEdit) (r : RegistryOut) : RegistryOut :=
  {| ro_CreatedAt := ro_CreatedAt r; ro_Description := default (ro_Description r) (re_Description body); ro_Size := ro_Size r;
     ro_Used := ro_Used r; ro_Id := ro_Id r; ro_Name := ro_Name r; ro_PresetId := default (ro_PresetId r) (re_PresetId body);
     ro_ProjectId := ro_ProjectId r; ro_UpdatedAt := ro_UpdatedAt r |}.

Definition one_registry_serve (q : registry_request) (r : RegistryOut) : reply (registry_reply q) * RegistryOut :=
  match q with
  | GetRegistry _ => (ok_reply r, r)
  | UpdateRegistry _ body => (ok_reply tt, apply_edit body r)
  | CreateRegistry _ => (NetErr "not served", r)
  | DeleteRegistry _ => (gone_reply, r)
  end.

#[export] Instance OneRegistry : Upstream registry_request registry_reply := {| World := RegistryOut; serve := one_registry_serve |}.

Definition sample_params (size : Z) (description : option string) : ContainerRegistryParameters :=
  {| gp_Name := "shop"; gp_Description := description; gp_InitialSizeGB := size; gp_Location := None; gp_ProjectID := None |}.

Definition sample_cr (fp : ContainerRegistryParameters) : managed ContainerRegistryParameters ContainerRegistryObservation :=
  {| ExternalName := "9"; ForProvider := fp;
     AtProvider := {| go_ID := None; go_LockedPresetID := None; go_ProjectID := None; go_DiskStats := None; go_CreatedAt := None;
                      go_UpdatedAt := None; go_Endpoint := None |};
     Conditions := no_conds; Events := [] |}.

Definition sample_resolve (w : RegistryOut) (d : Dimension) (i : ResolveInput) : result error ResolveOutput := Ok (OutPreset 502).

(** The sample encoder writes the [auth] of a docker configuration. *)
Definition sample_encode (j : json) : string := default "" (docker_auth j "shop.registry.twcstorage.ru").

Lemma registry_docker_login_witness :
  exists cd, outcome (Observe (R := MapRuntime) (U := OneRegistry) true sample_encode "token" (sample_cr (sample_params 5 None)) sample_registry) =
      Ok ({| ResourceExists := true; ResourceUpToDate := false |}, cd) /\
    cd !! "endpoint" = Some "shop.registry.twcstorage.ru" /\ cd !! ".dockerconfigjson" = Some "c2hvcDp0b2tlbg==".
Proof.
  destruct (registry_docker_login (R := MapRuntime) (U := OneRegistry) true sample_encode "token" sample_registry
              (sample_cr (sample_params 5 None)) sample_registry 9 eq_refl eq_refl) as (cd & Ho & He & Hc).
  exists cd. split; [exact Ho|]. split; [exact He|].
  vm_compute in Ho. injection Ho as <-. reflexivity.
Defined.

Lemma registry_update_spec_witness :
  calls (Update (R := MapRuntime) (U := OneRegistry) true sample_resolve sample_encode "token" (sample_cr (sample_params 5 (Some "new"))) sample_registry) =
    [GetRegistry 9; UpdateRegistry 9 {| re_Description := Some "new"; re_PresetId := Some 502 |}].
Proof.
  destruct (registry_update_spec (R := MapRuntime) (U := OneRegistry) true sample_resolve sample_encode "token"
              (sample_cr (sample_params 5 (Some "new"))) sample_registry 9 eq_refl) as (rep & t & _).
  vm_compute. reflexivity.
Defined.

Lemma registry_size_edit_unnoticed_witness :
  calls (reconciles (U := OneRegistry) 2 (registry_controller (R := MapRuntime) (U := OneRegistry) true sample_resolve sample_encode "token") false
           (sample_cr (sample_params 100 (Some "images"))) sample_registry) = [GetRegistry 9; GetRegistry 9].
Proof.
  apply (registry_size_edit_unnoticed (R := MapRuntime) (U := OneRegistry) true sample_resolve sample_encode "token" 9
           (sample_params 100 (Some "images")) sample_registry eq_refl 2 (sample_cr (sample_params 100 (Some "images"))) sample_registry);
    [split|]; reflexivity.
Defined.

Lemma registry_edit_never_settles_witness :
  calls (reconciles (U := OneRegistry) 1 (registry_controller (R := MapRuntime) (U := OneRegistry) true sample_resolve sample_encode "token") false
           (sample_cr (sample_params 5 None)) sample_registry) =
    [GetRegistry 9; GetRegistry 9; UpdateRegistry 9 {| re_Description := None; re_PresetId := Some 502 |}].
Proof.
  apply (registry_edit_never_settles (R := MapRuntime) (U := OneRegistry) true sample_resolve sample_encode "token" 9
           (sample_params 5 None) (fun w => w) 502) with (n := 1%nat).
  - split; [reflexivity|]. intros body w. exists (apply_edit body w). by repeat split.
  - reflexivity.
  - split; reflexivity.
  - left. split; [reflexivity|discriminate].
  - reflexivity.
Defined.
