(* ===== verification/Repository.v ===== *)
(** * Repository: the observe-only repository controller

    [internal/controller/containerregistry/repository_external.go]: [Observe] lists the
    parent registry's repositories; [Create], [Update] and [Delete] call nothing. *)

From S2P Require Import Prelude Errors Timeweb Shared Effects Lifecycle RouterRefs.

(** ** Payloads *)

Record RepositoryTag := { rt_Tag : string; rt_Digest : string; rt_Size : Z }.
Record RepositoryOut := { rp_Name : string; rp_Tags : list RepositoryTag }.

Inductive repository_request : Type :=
| GetRegistryRepositories (registry : Z).

Definition repository_reply (q : repository_request) : Type :=
  match q with GetRegistryRepositories _ => list RepositoryOut end.

(** ** The managed resource *)

Record ContainerRegistryRepositoryParameters := { rr_RegistryRef : string; rr_Name : string }.

(** A tag of the status carries what the payload's does. *)
Record ContainerRegistryRepositoryObservation := {
  ry_Tags : list RepositoryTag;
  ry_TagCount : option Z }.

(** What [Observe] reads of the parent registry. *)
Record RegistryView := { gv_ExternalName : string; gv_Ready : ConditionStatus }.

Definition isParentReady (parent : RegistryView) : bool := bool_decide (gv_Ready parent = CTrue).

(** ** The external client *)
Section RepositoryExternal.
Context `{R : CrossplaneRuntime} {U : Upstream repository_request repository_reply}.
Variable recorder : bool.
(** The registry of a namespace and a name. *)
Variable get_registry : World -> string -> string -> kube_get RegistryView.
Variable ns : string.

Notation repository := (managed ContainerRegistryRepositoryParameters ContainerRegistryRepositoryObservation).
Notation YM := (M U repository).

(** A Ready condition with the reason, and a resource reported absent. *)
Definition absent_because (reason msg : string) : YM ExternalObservation :=
  note_condition recorder (ReadyFalse reason msg);;
  mret not_exists.

Definition composite_name (fp : ContainerRegistryRepositoryParameters) : string :=
  EncodeComposite (rr_RegistryRef fp) (rr_Name fp).

Definition observe_listed (repos : list RepositoryOut) : YM ExternalObservation :=
  cr ← get;
  match List.find (fun r => bool_decide (rp_Name r = rr_Name (ForProvider cr))) repos with
  | Some r =>
      modify (set_at_provider {| ry_Tags := rp_Tags r; ry_TagCount := Some (Z.of_nat (length (rp_Tags r))) |});;
      (if bool_decide (ExternalName cr = "") then modify (set_external_name (composite_name (ForProvider cr))) else mret tt);;
      note_condition recorder Available;;
      mret {| ResourceExists := true; ResourceUpToDate := true |}
  | None => absent_because ReasonRepositoryNotPushed "repository not present upstream — `docker push` first"
  end.

Definition parent_failed (parentRef msg : string) : error :=
  wrap_pre ("repository: get parent registry " +:+ ns +:+ "/" +:+ parentRef +:+ ": ") (ErrorString msg).

Definition Observe : YM ExternalObservation :=
  cr ← get;
  let parentRef := rr_RegistryRef (ForProvider cr) in
  parent ← consult (fun w => get_registry w ns parentRef);
  match parent with
  | KNotFound => throw (parent_failed parentRef "not found")
  | KError msg => throw (parent_failed parentRef msg)
  | KFound parent =>
      if bool_decide (gv_ExternalName parent = "")
      then absent_because ReasonParentNotReady "parent ContainerRegistry has no external-name yet"
      else if negb (isParentReady parent)
      then absent_because ReasonParentNotReady "parent ContainerRegistry is not yet Ready"
      else match DecodeID (gv_ExternalName parent) with
           | Err e => throw (wrap_pre "repository: parent external-name: " e)
           | Ok parentID =>
               r ← try (call_decode "repository: " (GetRegistryRepositories parentID));
               match r with
               | Ok repos => observe_listed repos
               | Err e =>
                   if error_is e ErrNotFound
                   then absent_because ReasonParentNotReady "parent registry not found upstream (404) — registry may have been deleted"
                   else throw e
               end
           end
  end.

Definition Create : YM unit :=
  cr ← get;
  modify (set_external_name (composite_name (ForProvider cr)));;
  put_condition (ReadyFalse ReasonRepositoryNotPushed "awaiting `docker push` to materialize the repository").

Definition Update : YM unit := mret tt.

Definition delete_notice : string :=
  "Timeweb API has no per-repository delete endpoint; CR removed but the upstream repository persists. Use `docker rmi` against the registry or the Timeweb dashboard to remove image content.".

Definition Delete : YM unit := note_event recorder EventNormal "DeleteNoOp" delete_notice.

Definition repository_controller : Controller U repository :=
  {| c_observe := Observe; c_create := Create; c_update := Update; c_delete := Delete |}.
End RepositoryExternal.

(** ** Facts *)
Section Facts.
Context `{R : CrossplaneRuntime} {L : CrossplaneLaws R} {U : Upstream repository_request repository_reply}.
Variable recorder : bool.
Variable get_registry : World -> string -> string -> kube_get RegistryView.
Variable ns : string.

Notation repository := (managed ContainerRegistryRepositoryParameters ContainerRegistryRepositoryObservation).
Notation Observe := (Observe recorder get_registry ns).
Notation controller := (repository_controller recorder get_registry ns).

(** The parent registry when it can be asked: its upstream id. *)
Definition parent_id (parent : kube_get RegistryView) : option Z :=
  match parent with
  | KFound p =>
      if isParentReady p then match DecodeID (gv_ExternalName p) with Ok id => Some id | Err _ => None end else None
  | _ => None
  end.

(** The repository's entry in a list. *)
Definition entry_of (cr : repository) (repos : list RepositoryOut) : option RepositoryOut :=
  List.find (fun r => bool_decide (rp_Name r = rr_Name (ForProvider cr))) repos.

Lemma wp_absent reason msg (s : repository) w (Q : post ExternalObservation) :
  (forall s', GetCondition TypeReady (Conditions s') = ReadyFalse reason msg -> AtProvider s' = AtProvider s ->
     ExternalName s' = ExternalName s -> Q (Ok not_exists) s' w []) ->
  wp (absent_because recorder reason msg) Q s w.
Proof.
  intros HQ. unfold absent_because. do 3 wp_step. apply HQ; [|done..].
  cbn [set_conditions Conditions record_condition_change]. set (k := ReadyFalse reason msg).
  change TypeReady with (cond_Type k). apply get_set_eq.
Qed.

(** What a repository's [Observe] does. It asks nothing unless its parent is Ready and
    has an id, and then lists the parent's repositories, once. The repository exists,
    and is then always up to date and Ready with the tags of its entry, exactly when it
    is in that list; it is absent, with the reason in its Ready condition, when the list
    lacks it or the registry is gone; every other failure is an error. *)
Theorem repository_observe_spec (cr : repository) (w : World) :
  let run := Observe cr w in
  match parent_id (get_registry w ns (rr_RegistryRef (ForProvider cr))) with
  | None => calls run = [] /\ (is_ok (outcome run) = true -> outcome run = Ok not_exists /\
              cond_Reason (GetCondition TypeReady (Conditions (final run))) = ReasonParentNotReady)
  | Some id =>
      exists rep, trace run = [Exchange (Rep := repository_reply) (GetRegistryRepositories id) rep] /\
        match read_reply_pre (A := list RepositoryOut) "repository: " rep with
        | Err e => if error_is e ErrNotFound
                   then outcome run = Ok not_exists /\
                        cond_Reason (GetCondition TypeReady (Conditions (final run))) = ReasonParentNotReady
                   else outcome run = Err e /\ final run = cr
        | Ok repos =>
            match entry_of cr repos with
            | Some r =>
                outcome run = Ok {| ResourceExists := true; ResourceUpToDate := true |} /\
                ry_Tags (AtProvider (final run)) = rp_Tags r /\
                GetCondition TypeReady (Conditions (final run)) = Available /\
                ExternalName (final run) = (if bool_decide (ExternalName cr = "") then composite_name (ForProvider cr) else ExternalName cr)
            | None =>
                outcome run = Ok not_exists /\ AtProvider (final run) = AtProvider cr /\
                cond_Reason (GetCondition TypeReady (Conditions (final run))) = ReasonRepositoryNotPushed
            end
        end
  end.
Proof.
  cbv zeta. unfold calls. pattern (outcome (Observe cr w)), (final (Observe cr w)), (trace (Observe cr w)).
  match goal with |- ?P _ _ _ => change (wp Observe (fun o s' _ t => P o s' t) cr w) end.
  unfold Repository.Observe. do 4 wp_step. destruct (get_registry w ns (rr_RegistryRef (ForProvider cr))) as [p| |msg]; cbn [parent_id];
    [|by wp_step..].
  destruct (decide (gv_ExternalName p = "")) as [He|He].
  { rewrite (bool_decide_eq_true_2 _ He), He. apply wp_absent. intros s' Hc _ _. rewrite Hc. by destruct (isParentReady p). }
  rewrite (bool_decide_eq_false_2 _ He). destruct (isParentReady p); cbn [negb]; [|apply wp_absent; intros s' Hc _ _; by rewrite Hc].
  destruct (DecodeID (gv_ExternalName p)) as [id|e]; [|by wp_step]. do 3 wp_step. cbn [repository_reply] in *.
  destruct (read_reply_pre "repository: " r) as [repos|e] eqn:Er; cbv beta iota.
  - unfold observe_listed. do 2 wp_step. fold (entry_of cr repos). destruct (entry_of cr repos) as [x|] eqn:Ex.
    + repeat wp_step. assert (forall (P : post unit) (s : repository),
        P (Ok tt) (if bool_decide (ExternalName cr = "") then set_external_name (composite_name (ForProvider cr)) s else s) w' [] ->
        wp (if bool_decide (ExternalName cr = "") then modify (set_external_name (composite_name (ForProvider cr))) else mret tt) P s w') as Hn
        by (intros P s HP; destruct (bool_decide _); by wp_step).
      apply Hn. repeat wp_step. exists r. split; [done|]. rewrite Er, Ex. pose proof (available_type (R := R)) as Ha.
      split; [done|]. destruct (bool_decide (ExternalName cr = ""));
        (split; [done|]; split; [|done]); cbn [set_conditions Conditions record_condition_change]; rewrite <- Ha; by rewrite get_set_eq.
    + apply wp_absent. intros s' Hc Ha _. exists r. split; [done|]. rewrite Er, Ex, Hc. done.
  - destruct (error_is e ErrNotFound) eqn:Ee; [apply wp_absent; intros s' Hc Ha _|wp_step]; exists r; (split; [done|]); rewrite Er, Ee; [by rewrite Hc|done].
Qed.

(** ** Deletion and creation *)
Variables (id : Z) (repos : list RepositoryOut) (fp : ContainerRegistryRepositoryParameters).

(** A registry that answers with the same repositories at every pass. *)
Definition registry_lists (w : World) : Prop :=
  parent_id (get_registry w ns (rr_RegistryRef fp)) = Some id /\
  serve (GetRegistryRepositories id) w = (ok_reply repos, w).

Definition listed : option RepositoryOut := List.find (fun r => bool_decide (rp_Name r = rr_Name fp)) repos.

Lemma wp_listing (s : repository) w (Q : post ExternalObservation) :
  ForProvider s = fp -> registry_lists w ->
  (forall s', ForProvider s' = fp -> Events s `prefix_of` Events s' ->
     Q (Ok match listed with Some _ => {| ResourceExists := true; ResourceUpToDate := true |} | None => not_exists end) s' w
       [Exchange (GetRegistryRepositories id) (ok_reply repos)]) ->
  wp Observe Q s w.
Proof.
  intros Hfp [Hp Hs] HQ. unfold Repository.Observe. do 4 wp_step. rewrite Hfp.
  destruct (get_registry w ns (rr_RegistryRef fp)) as [p| |msg]; cbn [parent_id] in Hp; try discriminate Hp.
  destruct (isParentReady p); [|discriminate Hp]. destruct (DecodeID (gv_ExternalName p)) as [i|e] eqn:Ed; [|discriminate Hp].
  injection Hp as ->. rewrite bool_decide_eq_false_2 by (intros He; rewrite He in Ed; discriminate Ed). cbn [negb].
  do 3 wp_step. rewrite Hs in H. injection H as <- <-.
  change (read_reply_pre "repository: " (ok_reply repos)) with (Ok (E := error) repos). cbv beta iota.
  unfold observe_listed. do 2 wp_step. rewrite Hfp. fold listed. destruct listed as [x|].
  - do 3 wp_step. destruct (bool_decide (ExternalName s = "")); repeat wp_step; (apply HQ; [done|]); by apply prefix_app_r.
  - unfold absent_because. repeat wp_step. apply HQ; [done|]. by apply prefix_app_r.
Qed.

(** Deleting the resource of a repository that is still listed never ends: every pass
    asks the registry again, finds the repository there and calls nothing that would
    remove it; the resource is still reported existing after any number of passes. *)
Theorem repository_deletion_never_ends (n : nat) (cr : repository) (w : World)
    (Hcr : ForProvider cr = fp) (Hw : registry_lists w) (Hlisted : is_Some listed) :
  let run := reconciles n controller true cr w in
  calls run = repeat (GetRegistryRepositories id) n /\
  outcome (Observe (final run) (world run)) = Ok {| ResourceExists := true; ResourceUpToDate := true |}.
Proof.
  destruct Hlisted as [x Hx].
  enough (wp (reconciles n controller true) (fun _ s' w' t => (ForProvider s' = fp /\ w' = w) /\
            map request t = concat (repeat [GetRegistryRepositories id] n)) cr w) as [[Hf Hw'] Ht].
  { cbv zeta. unfold calls. rewrite Ht, concat_repeat_one, Hw'. split; [done|].
    change (wp Observe (fun o _ _ _ => o = Ok {| ResourceExists := true; ResourceUpToDate := true |})
              (final (reconciles n controller true cr w)) w).
    apply wp_listing; [done..|]. intros. by rewrite Hx. }
  apply (wp_reconciles_alike controller true (fun s w' => ForProvider s = fp /\ w' = w) [GetRegistryRepositories id]); [|done].
  intros s w' [Hs ->]. apply wp_reconcile, wp_listing; [done..|]. intros s' Hs' _. rewrite Hx. cbn [ResourceExists].
  cbn [c_delete repository_controller]. unfold Delete. wp_step. split; [split|]; [by destruct recorder|done|done].
Qed.

(** The resource of a repository that is not pushed, after a pass. *)
Definition awaiting (w : World) (s : repository) (w' : World) : Prop :=
  (ForProvider s = fp /\ w' = w) /\ ExternalName s = composite_name fp /\
  cond_Reason (GetCondition TypeReady (Conditions s)) = ReasonRepositoryNotPushed.

(** While the repository is not pushed, every pass creates the resource again: it asks
    once, names the resource and reports why it is not ready. *)
Theorem unpushed_repository_created_again (n : nat) (cr : repository) (w : World)
    (Hcr : ForProvider cr = fp) (Hw : registry_lists w) (Hlisted : listed = None) :
  let run := reconciles (S n) controller false cr w in
  calls run = repeat (GetRegistryRepositories id) (S n) /\
  ExternalName (final run) = composite_name fp /\
  cond_Reason (GetCondition TypeReady (Conditions (final run))) = ReasonRepositoryNotPushed.
Proof.
  assert (forall s w', ForProvider s = fp /\ w' = w ->
    wp (reconcile controller false) (fun _ s' w' t => awaiting w s' w' /\ map request t = [GetRegistryRepositories id]) s w') as Hone;
    [|clear Hw Hlisted].
  2: { cbv zeta. unfold calls. rewrite <- concat_repeat_one.
       enough (wp (reconciles (S n) controller false) (fun _ s' w' t => awaiting w s' w' /\
                 map request t = concat (repeat [GetRegistryRepositories id] (S n))) cr w) as [(_ & H1 & H2) Ht] by done.
       cbn [reconciles repeat concat]. do 2 wp_step. eapply wp_mono; [by apply Hone|]. intros r s1 w1 t1 [H1 Ht]. cbv beta iota.
       eapply wp_mono; [apply (wp_reconciles_alike controller false (awaiting w) [GetRegistryRepositories id]); [|exact H1]|].
       - intros s w' [Hs _]. by apply Hone.
       - intros r' s2 w2 t2 [H2 Ht2]. split; [done|]. by rewrite map_app, Ht, Ht2. }
  intros s w' [Hs ->]. apply wp_reconcile, wp_listing; [done..|]. intros s' Hs' _. rewrite Hlisted. cbn [ResourceExists negb not_exists].
  cbn [c_create repository_controller]. unfold Create. repeat wp_step. split; [|done]. split; [done|].
  rewrite Hs'. split; [done|]. cbn [set_conditions Conditions set_external_name].
  set (k := ReadyFalse _ _). change TypeReady with (cond_Type k). by rewrite get_set_eq.
Qed.
End Facts.

(** ** Witnesses *)

Definition pushed : list RepositoryOut := [{| rp_Name := "web"; rp_Tags := [{| rt_Tag := "v1"; rt_Digest := "sha256:0"; rt_Size := 10 |}] |}].

Definition repositories_serve (q : repository_request) (w : list RepositoryOut) : reply (repository_reply q) * list RepositoryOut :=
  match q with GetRegistryRepositories _ => (ok_reply w, w) end.

#[export] Instance Repositories : Upstream repository_request repository_reply :=
  {| World := list RepositoryOut; serve := repositories_serve |}.

Definition ready_registry (w : list RepositoryOut) (ns name : string) : kube_get RegistryView :=
  KFound {| gv_ExternalName := "9"; gv_Ready := CTrue |}.

Definition web_fp : ContainerRegistryRepositoryParameters := {| rr_RegistryRef := "shop"; rr_Name := "web" |}.

Definition web : managed ContainerRegistryRepositoryParameters ContainerRegistryRepositoryObservation :=
  {| ExternalName := ""; ForProvider := web_fp; AtProvider := {| ry_Tags := []; ry_TagCount := None |};
     Conditions := no_conds; Events := [] |}.

Notation web_controller := (repository_controller (R := MapRuntime) (U := Repositories) true ready_registry "team").

Lemma repository_observe_spec_witness :
  outcome (Repository.Observe (U := Repositories) true ready_registry "team" web pushed) =
    Ok {| ResourceExists := true; ResourceUpToDate := true |}.
Proof.
  destruct (repository_observe_spec (L := MapRuntime_laws) (U := Repositories) true ready_registry "team" web pushed)
    as (rep & Ht & H).
  apply (f_equal (fun t => match t with
                           | [@Exchange _ _ (GetRegistryRepositories _) rep] => Some (read_reply_pre (A := list RepositoryOut) "repository: " rep)
                           | _ => None
                           end)) in Ht.
  injection Ht as Hr. rewrite <- Hr in H. exact (proj1 H).
Defined.

Lemma repository_deletion_never_ends_witness :
  calls (reconciles (U := Repositories) 2 web_controller true web pushed) = [GetRegistryRepositories 9; GetRegistryRepositories 9].
Proof.
  apply (repository_deletion_never_ends (R := MapRuntime) (U := Repositories) true ready_registry "team" 9 pushed web_fp 2 web pushed);
    [reflexivity|split; reflexivity|by eexists].
Defined.

Example deletion_announced_each_pass :
  count_occ String.string_dec (map ev_Reason (Events (final (reconciles (U := Repositories) 3 web_controller true web pushed)))) "DeleteNoOp" = 3%nat.
Proof. vm_compute. reflexivity. Qed.

Lemma unpushed_repository_created_again_witness :
  ExternalName (final (reconciles (U := Repositories) 2 web_controller false web [])) = "shop/web".
Proof.
  apply (unpushed_repository_created_again (L := MapRuntime_laws) (U := Repositories) true ready_registry "team" 9 [] web_fp 1 web []);
    [reflexivity|split; reflexivity|reflexivity].
Defined.
