(* ===== verification/Url.v ===== *)
(** * Url: the part of net/url the client stands on

    Escaping and unescaping with their modes, the resolution of a relative path,
    [url.Values] and the target a request built from a raw text addresses. Text is
    bytes; a URL is its scheme, host, escaped path and raw query. *)

From S2P Require Import Prelude Errors.

(** ** Escaping *)

Inductive encoding := encodePath | encodePathSegment | encodeQueryComponent | encodeFragment.

Definition is_one_of (s : string) (c : ascii) : bool := match index_byte s c with Some _ => true | None => false end.

Definition unreserved (c : ascii) : bool := is_lower c || is_upper c || is_digit c || is_one_of "-_.~" c.

(** [shouldEscape]. *)
Definition shouldEscape (mode : encoding) (c : ascii) : bool :=
  if unreserved c then false
  else if is_one_of "$&+,/:;=?@" c then
    match mode with
    | encodePath => is_one_of "?" c
    | encodePathSegment => is_one_of "/;,?" c
    | encodeQueryComponent => true
    | encodeFragment => false
    end
  else match mode with encodeFragment => negb (is_one_of "!()*" c) | _ => true end.

Definition upper_hex (z : Z) : ascii := byte_of (if z <? 10 then 48 + z else 55 + z).

(** [escape]: a space is a plus sign in a query, other bytes to be escaped are [%XX]. *)
Definition escape_byte (mode : encoding) (c : ascii) : string :=
  match mode with
  | encodeQueryComponent => if bool_decide (c = " "%char) then "+" else
      if shouldEscape mode c
      then String "%" (String (upper_hex (byte_val c / 16)) (String (upper_hex (byte_val c mod 16)) "")) else String c ""
  | _ =>
      if shouldEscape mode c
      then String "%" (String (upper_hex (byte_val c / 16)) (String (upper_hex (byte_val c mod 16)) "")) else String c ""
  end.

Fixpoint escape (mode : encoding) (s : string) : string :=
  match s with
  | EmptyString => ""
  | String c s => escape_byte mode c +:+ escape mode s
  end.

Definition PathEscape : string -> string := escape encodePathSegment.
Definition QueryEscape : string -> string := escape encodeQueryComponent.

Definition unhex (c : ascii) : option Z :=
  if is_digit c then Some (byte_val c - 48)
  else if (97 <=? byte_val c) && (byte_val c <=? 102) then Some (byte_val c - 87)
  else if (65 <=? byte_val c) && (byte_val c <=? 70) then Some (byte_val c - 55)
  else None.

Definition escape_error (s : string) : error := ErrorString ("invalid URL escape " +:+ quote (take_str 3 s)).

(** [unescape], for the modes that hold no host. *)
Fixpoint unescape (mode : encoding) (s : string) : result error string :=
  match s with
  | EmptyString => Ok ""
  | String c s1 =>
      if bool_decide (c = "%"%char) then
        match s1 with
        | String a (String b s2) =>
            match unhex a, unhex b with
            | Some x, Some y => r ← unescape mode s2; mret (String (byte_of (16 * x + y)) r)
            | _, _ => Err (escape_error s)
            end
        | _ => Err (escape_error s)
        end
      else
        r ← unescape mode s1;
        mret (String (match mode with
                      | encodeQueryComponent => if bool_decide (c = "+"%char) then " "%char else c
                      | _ => c
                      end) r)
  end.

(** What is escaped is read back, in every mode. *)
Lemma unescape_escape mode s : unescape mode (escape mode s) = Ok s.
Proof.
  induction s as [|c s IH]; [done|]. cbn [escape].
  assert (forall t, unescape mode (escape_byte mode c +:+ t) = (r ← unescape mode t; mret (String c r))) as ->.
  { intros t. destruct mode, c as [[] [] [] [] [] [] [] []]; reflexivity. }
  by rewrite IH.
Qed.

Lemma escape_inj mode s t : escape mode s = escape mode t -> s = t.
Proof. intros H. apply (f_equal (unescape mode)) in H. rewrite !unescape_escape in H. by injection H. Qed.

(** A byte that appears nowhere in a text. *)
Fixpoint free_of (b : ascii) (s : string) : bool :=
  match s with
  | EmptyString => true
  | String c s => negb (bool_decide (c = b)) && free_of b s
  end.

Lemma free_of_app b s t : free_of b (s +:+ t) = free_of b s && free_of b t.
Proof. induction s as [|c s IH]; [done|]. cbn [String.append free_of]. by rewrite IH, andb_assoc. Qed.

(** An escaped path segment has none of the bytes a URL is cut at. *)
Lemma PathEscape_free b s : is_one_of "/?#;, " b = true -> free_of b (PathEscape s) = true.
Proof.
  intros Hb. unfold PathEscape. induction s as [|c s IH]; [done|]. cbn [escape]. rewrite free_of_app, IH, andb_true_r.
  assert (In b ["/"; "?"; "#"; ";"; ","; " "]%char) as Hin.
  { clear -Hb. destruct b as [[] [] [] [] [] [] [] []]; try discriminate Hb; cbn; auto 10. }
  clear -Hin. repeat destruct Hin as [<-|Hin]; try destruct Hin; destruct c as [[] [] [] [] [] [] [] []]; reflexivity.
Qed.

Lemma PathEscape_nonempty s : s <> "" -> PathEscape s <> "".
Proof. intros Hs He. apply Hs, (escape_inj encodePathSegment). exact He. Qed.

(** A dot escapes to itself, so the dot segments are escaped from by nothing else. *)
Lemma PathEscape_dots s d : d = "." \/ d = ".." -> PathEscape s = d -> s = d.
Proof. intros [->| ->] H; apply (escape_inj encodePathSegment); exact H. Qed.

(** ** Relative paths *)

(** The loop of [resolvePath]: [str] is what it has written after the leading slash. *)
Fixpoint resolve_loop (elems : list string) (str : string) (first : bool) : string :=
  match elems with
  | [] => str
  | elem :: rest =>
      let str' :=
        if bool_decide (elem = ".") then str
        else if bool_decide (elem = "..") then match last_index_byte str "/"%char with Some i => take_str i str | None => "" end
        else (if first then str else str +:+ "/") +:+ elem in
      let first' :=
        if bool_decide (elem = ".") then false
        else if bool_decide (elem = "..") then match last_index_byte str "/"%char with Some _ => first | None => true end
        else false in
      match rest with
      | [] => if bool_decide (elem = ".") || bool_decide (elem = "..") then str' +:+ "/" else str'
      | _ => resolve_loop rest str' first'
      end
  end.

(** [resolvePath]: the reference replaces what follows the last slash of the base,
    then the dot segments are taken out. *)
Definition resolvePath (base ref : string) : string :=
  let full :=
    match ref with
    | EmptyString => base
    | String c _ =>
        if bool_decide (c = "/"%char) then ref
        else match last_index_byte base "/"%char with Some i => take_str (S i) base | None => "" end +:+ ref
    end in
  if bool_decide (full = "") then ""
  else let str := resolve_loop (split_byte "/"%char full) "" true in
       if has_prefix "/" str then str else "/" +:+ str.

Example resolve_plain : resolvePath "/" "./api/v1/routers/r-1" = "/api/v1/routers/r-1".
Proof. reflexivity. Qed.

Example resolve_dots : resolvePath "/" "./api/v1/routers/../networks/n" = "/api/v1/networks/n".
Proof. reflexivity. Qed.

Example resolve_last_dots : resolvePath "/" "./api/v1/routers/.." = "/api/v1/".
Proof. reflexivity. Qed.

(** ** Queries *)

Definition semicolon_error : error := ErrorString "invalid semicolon separator in query".

(** One pair of [parseQuery]; an empty one is skipped. *)
Definition parse_pair (pair : string) (rest : result error (list (string * string))) : result error (list (string * string)) :=
  if is_one_of pair ";"%char then Err semicolon_error
  else if bool_decide (pair = "") then rest
  else
    let '(key, value) := match index_byte pair "="%char with
                         | Some i => (take_str i pair, drop_str (S i) pair)
                         | None => (pair, "")
                         end in
    key ← unescape encodeQueryComponent key;
    value ← unescape encodeQueryComponent value;
    l ← rest;
    mret ((key, value) :: l).

(** [url.ParseQuery] for a caller that gives up on its error: the values in order. *)
Definition ParseQuery (query : string) : result error (list (string * string)) :=
  if bool_decide (query = "") then Ok []
  else foldr parse_pair (Ok []) (split_byte "&"%char query).

(** [Values.Encode]: sorted by key, the values of a key in order. *)
Definition Encode (values : list (string * string)) : string :=
  join "&" ((fun kv => QueryEscape kv.1 +:+ "=" +:+ QueryEscape kv.2) <$> sort_by (fun a b => str_leb a.1 b.1) values).

(** ** The target of a raw text *)

(** Where a URL points: scheme and host as given, the path escaped, the query raw. *)
Record URL := { u_Scheme : string; u_Host : string; u_Path : string; u_RawQuery : string }.

Fixpoint has_ctl (s : string) : bool :=
  match s with
  | EmptyString => false
  | String c s => (byte_val c <? 32) || (byte_val c =? 127) || has_ctl s
  end.

(** [validEncoded] for a path. *)
Fixpoint valid_path (s : string) : bool :=
  match s with
  | EmptyString => true
  | String c s => (is_one_of "!$&'()*+,;=:@[]%" c || negb (shouldEscape encodePath c)) && valid_path s
  end.

(** [setPath] then [EscapedPath]: the text itself when it is a valid encoding. *)
Definition escaped_path (p : string) : result error string :=
  path ← unescape encodePath p;
  mret (if valid_path p then p else escape encodePath path).

Definition cut (sep : ascii) (s : string) : string * option string :=
  match index_byte s sep with
  | Some i => (take_str i s, Some (drop_str (S i) s))
  | None => (s, None)
  end.

(** The parser's failures name the text it was given. *)
Definition parse_error (base : URL) (text : string) (e : error) : error :=
  wrap_pre ("parse " +:+ quote (u_Scheme base +:+ "://" +:+ u_Host base +:+ text) +:+ ": ") e.

Definition or_parse_error {A} (base : URL) (text : string) (r : result error A) : result error A :=
  match r with Ok a => Ok a | Err e => Err (parse_error base text e) end.

(** What [http.NewRequest] makes of a base URL (scheme, host and path) with a text
    after it: the fragment is cut off, then the query, and the path is checked. *)
Definition parse_target (base : URL) (rest : string) : result error URL :=
  let raw := u_Path base +:+ rest in
  let '(u, fragment) := cut "#"%char raw in
  let '(path, query) := cut "?"%char u in
  path ← or_parse_error base u
           (if has_ctl u then Err (ErrorString "net/url: invalid control character in URL") else escaped_path path);
  _ ← or_parse_error base raw (unescape encodeFragment (default "" fragment));
  mret {| u_Scheme := u_Scheme base; u_Host := u_Host base; u_Path := path; u_RawQuery := default "" query |}.
