(* ===== verification/Routes.v ===== *)
(** * Routes: the requests of the client, method and path

    The request builders of the generated client
    (clients/timeweb/generated/zz_generated_client.go) for the operations the
    controllers and the catalog use, the paths of the hand-written ones (firewall.go,
    cdn.go, storages_users_v2.go) and the form of an IAM query (rgwiam/sigv4.go). A
    request is its method, its target and its body's text. How the runtime of the
    generator styles a parameter is the class [ParamStyle], with the two laws the
    client relies on. *)

From S2P Require Import Prelude Errors Url.

Record http_request := { rq_Method : string; rq_URL : URL; rq_Content : option (string * string) }.

(** A parameter of an operation, and [runtime.StyleParamWithLocation] of the code
    generator's runtime: the text a parameter becomes in a path ("simple") and in a
    query ("form"). *)
Inductive param := PString (s : string) | PInt (n : Z).

Class ParamStyle := {
  style_path : string -> param -> result error string;
  style_query : string -> param -> result error string }.

Class ParamStyleLaws (S : ParamStyle) : Prop := {
  style_path_string name s : style_path name (PString s) = Ok (PathEscape s);
  style_path_int name n : style_path name (PInt n) = Ok (fmt_d n) }.

(** The runtime's documented behaviour: the value in decimal or escaped for its place. *)
#[export] Instance RuntimeStyle : ParamStyle := {|
  style_path _ p := Ok (match p with PString s => PathEscape s | PInt n => fmt_d n end);
  style_query name p := Ok (name +:+ "=" +:+ match p with PString s => QueryEscape s | PInt n => fmt_d n end) |}.

#[export] Instance RuntimeStyleLaws : ParamStyleLaws RuntimeStyle.
Proof. by split. Qed.

Record PageParams := { pp_Limit : option Z; pp_Offset : option Z }.
Record ConfirmParams := { cp_Hash : option string; cp_Code : option string }.

(** ** The generated builders *)
Section Builders.
Context {S : ParamStyle}.

(** The base URL of the client, which ends in a slash. *)
Variable server : URL.

(** The tail every builder shares: the operation's path, made relative with a dot, is
    resolved against the server's. *)
Definition new_request (method operationPath : string) (content : option (string * string)) : result error http_request :=
  Ok {| rq_Method := method;
        rq_URL := {| u_Scheme := u_Scheme server; u_Host := u_Host server;
                     u_Path := resolvePath (u_Path server) (if has_prefix "/" operationPath then "." +:+ operationPath else operationPath);
                     u_RawQuery := "" |};
        rq_Content := content |}.

(** One optional query parameter: its styled text is parsed back and added. *)
Definition add_query (values : result error (list (string * string))) (p : string * option param) : result error (list (string * string)) :=
  l ← values;
  match p.2 with
  | None => mret l
  | Some v => queryFrag ← style_query p.1 v; parsed ← ParseQuery queryFrag; mret (l ++ parsed)
  end.

Definition page_query (p : PageParams) : list (string * option param) :=
  [("limit", PInt <$> pp_Limit p); ("offset", PInt <$> pp_Offset p)].

Definition confirm_query (p : ConfirmParams) : list (string * option param) :=
  [("hash", PString <$> cp_Hash p); ("code", PString <$> cp_Code p)].

(** The tail of a builder with query parameters, absent or each optional. *)
Definition query_request (method operationPath : string) (params : option (list (string * option param))) : result error http_request :=
  r ← new_request method operationPath None;
  match params with
  | None => mret r
  | Some l =>
      values ← foldl add_query (Ok []) l;
      mret {| rq_Method := rq_Method r;
              rq_URL := {| u_Scheme := u_Scheme (rq_URL r); u_Host := u_Host (rq_URL r); u_Path := u_Path (rq_URL r);
                           u_RawQuery := Encode values |};
              rq_Content := rq_Content r |}
  end.

Definition NewGetK8sConfiguratorsRequest : result error http_request :=
  new_request "GET" "/api/v1/configurator/k8s" None.

Definition NewGetConfiguratorsRequest : result error http_request :=
  new_request "GET" "/api/v1/configurator/servers" None.

Definition NewCreateRegistryRequestWithBody (contentType body : string) : result error http_request :=
  new_request "POST" "/api/v1/container-registry" (Some (contentType, body)).

Definition NewGetRegistryPresetsRequest : result error http_request :=
  new_request "GET" "/api/v1/container-registry/presets" None.

Definition NewDeleteRegistryRequest (registryId : Z) : result error http_request :=
  pathParam0 ← style_path "registry_id" (PInt registryId);
  new_request "DELETE" ("/api/v1/container-registry/" +:+ pathParam0) None.

Definition NewGetRegistryRequest (registryId : Z) : result error http_request :=
  pathParam0 ← style_path "registry_id" (PInt registryId);
  new_request "GET" ("/api/v1/container-registry/" +:+ pathParam0) None.

Definition NewUpdateRegistryRequestWithBody (registryId : Z) (contentType body : string) : result error http_request :=
  pathParam0 ← style_path "registry_id" (PInt registryId);
  new_request "PATCH" ("/api/v1/container-registry/" +:+ pathParam0) (Some (contentType, body)).

Definition NewGetRegistryRepositoriesRequest (registryId : Z) : result error http_request :=
  pathParam0 ← style_path "registry_id" (PInt registryId);
  new_request "GET" ("/api/v1/container-registry/" +:+ pathParam0 +:+ "/repositories") None.

Definition NewGetFloatingIpsRequest : result error http_request :=
  new_request "GET" "/api/v1/floating-ips" None.

Definition NewCreateFloatingIpRequestWithBody (contentType body : string) : result error http_request :=
  new_request "POST" "/api/v1/floating-ips" (Some (contentType, body)).

Definition NewDeleteFloatingIPRequest (floatingIpId : string) : result error http_request :=
  pathParam0 ← style_path "floating_ip_id" (PString floatingIpId);
  new_request "DELETE" ("/api/v1/floating-ips/" +:+ pathParam0) None.

Definition NewGetFloatingIpRequest (floatingIpId : string) : result error http_request :=
  pathParam0 ← style_path "floating_ip_id" (PString floatingIpId);
  new_request "GET" ("/api/v1/floating-ips/" +:+ pathParam0) None.

Definition NewUpdateFloatingIPRequestWithBody (floatingIpId contentType body : string) : result error http_request :=
  pathParam0 ← style_path "floating_ip_id" (PString floatingIpId);
  new_request "PATCH" ("/api/v1/floating-ips/" +:+ pathParam0) (Some (contentType, body)).

Definition NewBindFloatingIpRequestWithBody (floatingIpId contentType body : string) : result error http_request :=
  pathParam0 ← style_path "floating_ip_id" (PString floatingIpId);
  new_request "POST" ("/api/v1/floating-ips/" +:+ pathParam0 +:+ "/bind") (Some (contentType, body)).

Definition NewUnbindFloatingIpRequest (floatingIpId : string) : result error http_request :=
  pathParam0 ← style_path "floating_ip_id" (PString floatingIpId);
  new_request "POST" ("/api/v1/floating-ips/" +:+ pathParam0 +:+ "/unbind") None.

Definition NewGetClustersRequest (params : option PageParams) : result error http_request :=
  query_request "GET" "/api/v1/k8s/clusters" (page_query <$> params).

Definition NewCreateClusterRequestWithBody (contentType body : string) : result error http_request :=
  new_request "POST" "/api/v1/k8s/clusters" (Some (contentType, body)).

Definition NewDeleteClusterRequest (clusterId : Z) (params : option ConfirmParams) : result error http_request :=
  pathParam0 ← style_path "cluster_id" (PInt clusterId);
  query_request "DELETE" ("/api/v1/k8s/clusters/" +:+ pathParam0) (confirm_query <$> params).

Definition NewGetClusterRequest (clusterId : Z) : result error http_request :=
  pathParam0 ← style_path "cluster_id" (PInt clusterId);
  new_request "GET" ("/api/v1/k8s/clusters/" +:+ pathParam0) None.

Definition NewUpdateClusterRequestWithBody (clusterId : Z) (contentType body : string) : result error http_request :=
  pathParam0 ← style_path "cluster_id" (PInt clusterId);
  new_request "PATCH" ("/api/v1/k8s/clusters/" +:+ pathParam0) (Some (contentType, body)).

Definition NewGetKubernetesAddonsRequest (clusterId : Z) : result error http_request :=
  pathParam0 ← style_path "cluster_id" (PInt clusterId);
  new_request "GET" ("/api/v1/k8s/clusters/" +:+ pathParam0 +:+ "/addons") None.

Definition NewPostKubernetesAddonsRequestWithBody (clusterId : Z) (contentType body : string) : result error http_request :=
  pathParam0 ← style_path "cluster_id" (PInt clusterId);
  new_request "POST" ("/api/v1/k8s/clusters/" +:+ pathParam0 +:+ "/addons") (Some (contentType, body)).

Definition NewGetKubernetesAddonsConfigRequest (clusterId : Z) : result error http_request :=
  pathParam0 ← style_path "cluster_id" (PInt clusterId);
  new_request "GET" ("/api/v1/k8s/clusters/" +:+ pathParam0 +:+ "/addons-configs") None.

Definition NewDeleteKubernetesAddonsRequest (clusterId addonId : Z) : result error http_request :=
  pathParam0 ← style_path "cluster_id" (PInt clusterId);
  pathParam1 ← style_path "addon_id" (PInt addonId);
  new_request "DELETE" ("/api/v1/k8s/clusters/" +:+ pathParam0 +:+ "/addons/" +:+ pathParam1) None.

Definition NewGetClusterNodeGroupsRequest (clusterId : Z) : result error http_request :=
  pathParam0 ← style_path "cluster_id" (PInt clusterId);
  new_request "GET" ("/api/v1/k8s/clusters/" +:+ pathParam0 +:+ "/groups") None.

Definition NewCreateClusterNodeGroupRequestWithBody (clusterId : Z) (contentType body : string) : result error http_request :=
  pathParam0 ← style_path "cluster_id" (PInt clusterId);
  new_request "POST" ("/api/v1/k8s/clusters/" +:+ pathParam0 +:+ "/groups") (Some (contentType, body)).

Definition NewDeleteClusterNodeGroupRequest (clusterId groupId : Z) : result error http_request :=
  pathParam0 ← style_path "cluster_id" (PInt clusterId);
  pathParam1 ← style_path "group_id" (PInt groupId);
  new_request "DELETE" ("/api/v1/k8s/clusters/" +:+ pathParam0 +:+ "/groups/" +:+ pathParam1) None.

Definition NewGetClusterNodeGroupRequest (clusterId groupId : Z) : result error http_request :=
  pathParam0 ← style_path "cluster_id" (PInt clusterId);
  pathParam1 ← style_path "group_id" (PInt groupId);
  new_request "GET" ("/api/v1/k8s/clusters/" +:+ pathParam0 +:+ "/groups/" +:+ pathParam1) None.

Definition NewUpdateClusterNodeGroupRequestWithBody (clusterId groupId : Z) (contentType body : string) : result error http_request :=
  pathParam0 ← style_path "cluster_id" (PInt clusterId);
  pathParam1 ← style_path "group_id" (PInt groupId);
  new_request "PATCH" ("/api/v1/k8s/clusters/" +:+ pathParam0 +:+ "/groups/" +:+ pathParam1) (Some (contentType, body)).

Definition NewReduceCountOfNodesInGroupRequestWithBody (clusterId groupId : Z) (contentType body : string) : result error http_request :=
  pathParam0 ← style_path "cluster_id" (PInt clusterId);
  pathParam1 ← style_path "group_id" (PInt groupId);
  new_request "DELETE" ("/api/v1/k8s/clusters/" +:+ pathParam0 +:+ "/groups/" +:+ pathParam1 +:+ "/nodes") (Some (contentType, body)).

Definition NewGetClusterNodesFromGroupRequest (clusterId groupId : Z) (params : option PageParams) : result error http_request :=
  pathParam0 ← style_path "cluster_id" (PInt clusterId);
  pathParam1 ← style_path "group_id" (PInt groupId);
  query_request "GET" ("/api/v1/k8s/clusters/" +:+ pathParam0 +:+ "/groups/" +:+ pathParam1 +:+ "/nodes") (page_query <$> params).

Definition NewIncreaseCountOfNodesInGroupRequestWithBody (clusterId groupId : Z) (contentType body : string) : result error http_request :=
  pathParam0 ← style_path "cluster_id" (PInt clusterId);
  pathParam1 ← style_path "group_id" (PInt groupId);
  new_request "POST" ("/api/v1/k8s/clusters/" +:+ pathParam0 +:+ "/groups/" +:+ pathParam1 +:+ "/nodes") (Some (contentType, body)).

Definition NewGetClusterKubeconfigRequest (clusterId : Z) : result error http_request :=
  pathParam0 ← style_path "cluster_id" (PInt clusterId);
  new_request "GET" ("/api/v1/k8s/clusters/" +:+ pathParam0 +:+ "/kubeconfig") None.

Definition NewUpdateClusterVersionRequestWithBody (clusterId : Z) (contentType body : string) : result error http_request :=
  pathParam0 ← style_path "cluster_id" (PInt clusterId);
  new_request "PATCH" ("/api/v1/k8s/clusters/" +:+ pathParam0 +:+ "/versions/update") (Some (contentType, body)).

Definition NewGetK8SVersionsRequest : result error http_request :=
  new_request "GET" "/api/v1/k8s/k8s-versions" None.

Definition NewGetOsListRequest : result error http_request :=
  new_request "GET" "/api/v1/os/servers" None.

Definition NewGetKubernetesPresetsRequest : result error http_request :=
  new_request "GET" "/api/v1/presets/k8s" None.

Definition NewGetRouterPresetsRequest : result error http_request :=
  new_request "GET" "/api/v1/presets/routers" None.

Definition NewGetServersPresetsRequest : result error http_request :=
  new_request "GET" "/api/v1/presets/servers" None.

Definition NewGetStoragesPresetsRequest : result error http_request :=
  new_request "GET" "/api/v1/presets/storages" None.

Definition NewCreateProjectRequestWithBody (contentType body : string) : result error http_request :=
  new_request "POST" "/api/v1/projects" (Some (contentType, body)).

Definition NewDeleteProjectRequest (projectId : Z) : result error http_request :=
  pathParam0 ← style_path "project_id" (PInt projectId);
  new_request "DELETE" ("/api/v1/projects/" +:+ pathParam0) None.

Definition NewGetProjectRequest (projectId : Z) : result error http_request :=
  pathParam0 ← style_path "project_id" (PInt projectId);
  new_request "GET" ("/api/v1/projects/" +:+ pathParam0) None.

Definition NewUpdateProjectRequestWithBody (projectId : Z) (contentType body : string) : result error http_request :=
  pathParam0 ← style_path "project_id" (PInt projectId);
  new_request "PUT" ("/api/v1/projects/" +:+ pathParam0) (Some (contentType, body)).

Definition NewGetRoutersRequest : result error http_request :=
  new_request "GET" "/api/v1/routers" None.

Definition NewCreateRouterRequestWithBody (contentType body : string) : result error http_request :=
  new_request "POST" "/api/v1/routers" (Some (contentType, body)).

Definition NewDeleteRouterRequest (routerId : string) : result error http_request :=
  pathParam0 ← style_path "router_id" (PString routerId);
  new_request "DELETE" ("/api/v1/routers/" +:+ pathParam0) None.

Definition NewGetRouterRequest (routerId : string) : result error http_request :=
  pathParam0 ← style_path "router_id" (PString routerId);
  new_request "GET" ("/api/v1/routers/" +:+ pathParam0) None.

Definition NewUpdateRouterRequestWithBody (routerId contentType body : string) : result error http_request :=
  pathParam0 ← style_path "router_id" (PString routerId);
  new_request "PATCH" ("/api/v1/routers/" +:+ pathParam0) (Some (contentType, body)).

Definition NewGetDnatRequest (routerId : string) : result error http_request :=
  pathParam0 ← style_path "router_id" (PString routerId);
  new_request "GET" ("/api/v1/routers/" +:+ pathParam0 +:+ "/dnat-rules") None.

Definition NewGetNetworksRequest (routerId : string) : result error http_request :=
  pathParam0 ← style_path "router_id" (PString routerId);
  new_request "GET" ("/api/v1/routers/" +:+ pathParam0 +:+ "/networks") None.

Definition NewAddNetworksRequestWithBody (routerId contentType body : string) : result error http_request :=
  pathParam0 ← style_path "router_id" (PString routerId);
  new_request "POST" ("/api/v1/routers/" +:+ pathParam0 +:+ "/networks") (Some (contentType, body)).

Definition NewDeleteRouterNetworkRequest (routerId networkName : string) : result error http_request :=
  pathParam0 ← style_path "router_id" (PString routerId);
  pathParam1 ← style_path "network_name" (PString networkName);
  new_request "DELETE" ("/api/v1/routers/" +:+ pathParam0 +:+ "/networks/" +:+ pathParam1) None.

Definition NewPatchNetworkRequestWithBody (routerId networkName contentType body : string) : result error http_request :=
  pathParam0 ← style_path "router_id" (PString routerId);
  pathParam1 ← style_path "network_name" (PString networkName);
  new_request "PATCH" ("/api/v1/routers/" +:+ pathParam0 +:+ "/networks/" +:+ pathParam1) (Some (contentType, body)).

Definition NewDeleteRouterNatRequest (routerId networkName : string) : result error http_request :=
  pathParam0 ← style_path "router_id" (PString routerId);
  pathParam1 ← style_path "network_name" (PString networkName);
  new_request "DELETE" ("/api/v1/routers/" +:+ pathParam0 +:+ "/networks/" +:+ pathParam1 +:+ "/nat") None.

Definition NewUpdateRouterNatRequestWithBody (routerId networkName contentType body : string) : result error http_request :=
  pathParam0 ← style_path "router_id" (PString routerId);
  pathParam1 ← style_path "network_name" (PString networkName);
  new_request "PATCH" ("/api/v1/routers/" +:+ pathParam0 +:+ "/networks/" +:+ pathParam1 +:+ "/nat") (Some (contentType, body)).

Definition NewGetStaticRoutesRequest (routerId : string) : result error http_request :=
  pathParam0 ← style_path "router_id" (PString routerId);
  new_request "GET" ("/api/v1/routers/" +:+ pathParam0 +:+ "/static-routes") None.

Definition NewPostStaticRouteRequestWithBody (routerId contentType body : string) : result error http_request :=
  pathParam0 ← style_path "router_id" (PString routerId);
  new_request "POST" ("/api/v1/routers/" +:+ pathParam0 +:+ "/static-routes") (Some (contentType, body)).

Definition NewDeleteStaticRouteRequest (routerId staticRouteId : string) : result error http_request :=
  pathParam0 ← style_path "router_id" (PString routerId);
  pathParam1 ← style_path "static_route_id" (PString staticRouteId);
  new_request "DELETE" ("/api/v1/routers/" +:+ pathParam0 +:+ "/static-routes/" +:+ pathParam1) None.

Definition NewCreateServerRequestWithBody (contentType body : string) : result error http_request :=
  new_request "POST" "/api/v1/servers" (Some (contentType, body)).

Definition NewDeleteServerRequest (serverId : Z) (params : option ConfirmParams) : result error http_request :=
  pathParam0 ← style_path "server_id" (PInt serverId);
  query_request "DELETE" ("/api/v1/servers/" +:+ pathParam0) (confirm_query <$> params).

Definition NewGetServerRequest (serverId : Z) : result error http_request :=
  pathParam0 ← style_path "server_id" (PInt serverId);
  new_request "GET" ("/api/v1/servers/" +:+ pathParam0) None.

Definition NewUpdateServerRequestWithBody (serverId : Z) (contentType body : string) : result error http_request :=
  pathParam0 ← style_path "server_id" (PInt serverId);
  new_request "PATCH" ("/api/v1/servers/" +:+ pathParam0) (Some (contentType, body)).

Definition NewCreateKeyRequestWithBody (contentType body : string) : result error http_request :=
  new_request "POST" "/api/v1/ssh-keys" (Some (contentType, body)).

Definition NewDeleteKeyRequest (sshKeyId : Z) : result error http_request :=
  pathParam0 ← style_path "ssh_key_id" (PInt sshKeyId);
  new_request "DELETE" ("/api/v1/ssh-keys/" +:+ pathParam0) None.

Definition NewGetKeyRequest (sshKeyId : Z) : result error http_request :=
  pathParam0 ← style_path "ssh_key_id" (PInt sshKeyId);
  new_request "GET" ("/api/v1/ssh-keys/" +:+ pathParam0) None.

Definition NewUpdateKeyRequestWithBody (sshKeyId : Z) (contentType body : string) : result error http_request :=
  pathParam0 ← style_path "ssh_key_id" (PInt sshKeyId);
  new_request "PATCH" ("/api/v1/ssh-keys/" +:+ pathParam0) (Some (contentType, body)).

Definition NewCreateStorageRequestWithBody (contentType body : string) : result error http_request :=
  new_request "POST" "/api/v1/storages/buckets" (Some (contentType, body)).

Definition NewDeleteStorageRequest (bucketId : Z) (params : option ConfirmParams) : result error http_request :=
  pathParam0 ← style_path "bucket_id" (PInt bucketId);
  query_request "DELETE" ("/api/v1/storages/buckets/" +:+ pathParam0) (confirm_query <$> params).

Definition NewGetStorageRequest (bucketId : Z) : result error http_request :=
  pathParam0 ← style_path "bucket_id" (PInt bucketId);
  new_request "GET" ("/api/v1/storages/buckets/" +:+ pathParam0) None.

Definition NewUpdateStorageRequestWithBody (bucketId : Z) (contentType body : string) : result error http_request :=
  pathParam0 ← style_path "bucket_id" (PInt bucketId);
  new_request "PATCH" ("/api/v1/storages/buckets/" +:+ pathParam0) (Some (contentType, body)).

Definition NewGetStorageUsersRequest : result error http_request :=
  new_request "GET" "/api/v1/storages/users" None.

Definition NewDeleteVPCRequest (vpcId : string) : result error http_request :=
  pathParam0 ← style_path "vpc_id" (PString vpcId);
  new_request "DELETE" ("/api/v1/vpcs/" +:+ pathParam0) None.

Definition NewCreateVPCRequestWithBody (contentType body : string) : result error http_request :=
  new_request "POST" "/api/v2/vpcs" (Some (contentType, body)).

Definition NewGetVPCRequest (vpcId : string) : result error http_request :=
  pathParam0 ← style_path "vpc_id" (PString vpcId);
  new_request "GET" ("/api/v2/vpcs/" +:+ pathParam0) None.

Definition NewUpdateVPCsRequestWithBody (vpcId contentType body : string) : result error http_request :=
  pathParam0 ← style_path "vpc_id" (PString vpcId);
  new_request "PATCH" ("/api/v2/vpcs/" +:+ pathParam0) (Some (contentType, body)).
End Builders.
