(* ===== verification/RoutesV2.v ===== *)
(** * RoutesV2: the hand-written requests

    clients/timeweb/firewall.go, cdn.go and storages_users_v2.go put their paths
    together as text behind the base URL. A request is what [doV2] builds before it is
    sent; a body given by a record is its JSON text, one given by a literal map is
    spelled out. *)

From S2P Require Import Prelude Errors Timeweb Url Routes.

Section V2.
(** [json.Marshal] on the literal maps, which cannot fail. *)
Variable json_encode : json -> string.

(** The base URL as configured: the paths start with a slash of their own. *)
Variable base : URL.

(** The request [doV2] builds once the limiter let it through. *)
Definition v2_request (method path : string) (body : option (result error string)) : result error http_request :=
  content ← match body with
            | None => Ok None
            | Some (Ok b) => Ok (Some ("application/json", b))
            | Some (Err e) => Err (wrap_pre "timeweb: marshal v2 body: " e)
            end;
  match parse_target base path with
  | Err e => Err (wrap_pre "timeweb: build v2 request: " e)
  | Ok u => Ok {| rq_Method := method; rq_URL := u; rq_Content := content |}
  end.

Definition literal (j : json) : option (result error string) := Some (Ok (json_encode j)).

(** ** storages_users_v2.go *)

Definition CreateStorageUserV2 (name : string) : result error http_request :=
  v2_request "POST" "/api/v2/storages/users" (literal (JObj [("name", JStr name)])).

Definition GetStorageUserV2 (id : string) : result error http_request :=
  v2_request "GET" ("/api/v2/storages/users/" +:+ id) None.

Definition ListStorageUsersV2 : result error http_request :=
  v2_request "GET" "/api/v2/storages/users" None.

Definition DeleteStorageUserV2 (id : string) : result error http_request :=
  v2_request "DELETE" ("/api/v2/storages/users/" +:+ id) None.

(** ** firewall.go *)

Definition firewallBase : string := "/api/v1/firewall/groups".

(** [url.Values] with at most the one key, left out when the value is empty. *)
Definition one_value (key value : string) : string := if bool_decide (value = "") then Encode [] else Encode [(key, value)].

Definition CreateFirewallGroup (name description policy : string) : result error http_request :=
  v2_request "POST" (firewallBase +:+ "?" +:+ one_value "policy" policy)
    (literal (JObj ((if bool_decide (description = "") then [] else [("description", JStr description)]) ++ [("name", JStr name)]))).

Definition GetFirewallGroup (id : string) : result error http_request :=
  v2_request "GET" (firewallBase +:+ "/" +:+ id) None.

Definition ListFirewallGroups : result error http_request := v2_request "GET" firewallBase None.

Definition PatchFirewallGroup (id name description : string) : result error http_request :=
  v2_request "PATCH" (firewallBase +:+ "/" +:+ id) (literal (JObj [("description", JStr description); ("name", JStr name)])).

Definition DeleteFirewallGroup (id : string) : result error http_request :=
  v2_request "DELETE" (firewallBase +:+ "/" +:+ id) None.

Definition ListFirewallRules (groupID : string) : result error http_request :=
  v2_request "GET" (firewallBase +:+ "/" +:+ groupID +:+ "/rules") None.

Definition CreateFirewallRule (groupID : string) (rule : result error string) : result error http_request :=
  v2_request "POST" (firewallBase +:+ "/" +:+ groupID +:+ "/rules") (Some rule).

Definition DeleteFirewallRule (groupID ruleID : string) : result error http_request :=
  v2_request "DELETE" (firewallBase +:+ "/" +:+ groupID +:+ "/rules/" +:+ ruleID) None.

Definition ListFirewallResources (groupID : string) : result error http_request :=
  v2_request "GET" (firewallBase +:+ "/" +:+ groupID +:+ "/resources") None.

Definition resourcePath (groupID resourceID resourceType : string) : string :=
  firewallBase +:+ "/" +:+ groupID +:+ "/resources/" +:+ PathEscape resourceID +:+ "?" +:+ one_value "resource_type" resourceType.

Definition LinkFirewallResource (groupID resourceID resourceType : string) : result error http_request :=
  v2_request "POST" (resourcePath groupID resourceID resourceType) None.

Definition UnlinkFirewallResource (groupID resourceID resourceType : string) : result error http_request :=
  v2_request "DELETE" (resourcePath groupID resourceID resourceType) None.

Definition GetServiceFirewallGroups (resourceType resourceID : string) : result error http_request :=
  v2_request "GET" ("/api/v1/firewall/service/" +:+ PathEscape resourceType +:+ "/" +:+ PathEscape resourceID) None.

(** ** cdn.go *)

Definition cdnBase : string := "/api/v1/cdn/http-resources".
Definition cdnCertBase : string := "/api/v1/cdn/certificates".

Definition ListCDNHTTPResources : result error http_request := v2_request "GET" cdnBase None.

Definition GetCDNHTTPResource (id : string) : result error http_request := v2_request "GET" (cdnBase +:+ "/" +:+ id) None.

Definition GetCDNHTTPResourceConfiguration (id : string) : result error http_request :=
  v2_request "GET" (cdnBase +:+ "/" +:+ id +:+ "/configuration") None.

Definition CreateCDNHTTPResource (body : result error string) : result error http_request :=
  v2_request "POST" cdnBase (Some body).

Definition PatchCDNHTTPResource (id : string) (body : result error string) : result error http_request :=
  v2_request "PATCH" (cdnBase +:+ "/" +:+ id) (Some body).

Definition DeleteCDNHTTPResource (id : string) : result error http_request :=
  v2_request "DELETE" (cdnBase +:+ "/" +:+ id) None.

(** No paths are an empty list, never null. *)
Definition ClearCDNCache (id purgeType : string) (paths : list string) : result error http_request :=
  v2_request "POST" (cdnBase +:+ "/" +:+ id +:+ "/clear-cache")
    (literal (JObj [("paths", JArr (JStr <$> paths)); ("purge_type", JStr purgeType)])).

Definition ListCDNPresets : result error http_request := v2_request "GET" "/api/v1/cdn/presets" None.

Definition ListCDNCertificates (resourceID : string) : result error http_request :=
  v2_request "GET" (cdnCertBase +:+ "?resource_id=" +:+ resourceID) None.

Definition ListAllCDNCertificates : result error http_request := v2_request "GET" cdnCertBase None.

Definition ListCDNCertificateTasks (resourceID : string) : result error http_request :=
  v2_request "GET" (cdnCertBase +:+ "/tasks?resource_id=" +:+ resourceID) None.

Definition UploadCDNCertificate (certPEM keyPEM : string) : result error http_request :=
  v2_request "POST" cdnCertBase (literal (JObj [("certificate", JStr certPEM); ("private_key", JStr keyPEM)])).

Definition IssueCDNCertificate (resourceID : Z) : result error http_request :=
  v2_request "POST" (cdnCertBase +:+ "/issue") (literal (JObj [("resource_id", JNum (fmt_d resourceID))])).

Definition DeleteCDNCertificate (id : string) : result error http_request :=
  v2_request "DELETE" (cdnCertBase +:+ "/" +:+ id) None.
End V2.

(** ** rgwiam/sigv4.go *)

Definition iamQueryVersion : string := "2010-05-08".

(** The form [iamClient.do] posts: the caller's values with the version, encoded. *)
Definition iam_form (params : list (string * string)) : string := Encode (params ++ [("Version", iamQueryVersion)]).

Definition put_user_policy_form (userName policyName policyDocument : string) : string :=
  iam_form [("Action", "PutUserPolicy"); ("UserName", userName); ("PolicyName", policyName); ("PolicyDocument", policyDocument)].

Definition get_user_policy_form (userName policyName : string) : string :=
  iam_form [("Action", "GetUserPolicy"); ("UserName", userName); ("PolicyName", policyName)].

Definition delete_user_policy_form (userName policyName : string) : string :=
  iam_form [("Action", "DeleteUserPolicy"); ("UserName", userName); ("PolicyName", policyName)].
