(* ===== verification/Wire.v ===== *)
(** * Wire: every request of the controllers, on the wire

    What each API call of the models is as an HTTP request ([route]), through the
    builders of [Routes] and [RoutesV2], and the table of endpoints those requests are
    to reach: the operations of docs/openapi-timeweb.json, and for the certificates and
    CDN resources, which it lacks, the ones cdn.go and storages_users_v2.go name.
    [dispatch] is the server's side: from a method and a path to an operation with its
    arguments. *)

From S2P Require Import Prelude Errors Timeweb Url Routes RoutesV2 Router Network FloatingIP Server Cluster Nodepool Addon Project SSHKey Registry Repository Firewall CdnExternal Storage.

(** The listings the catalog resolver fetches (shared/resolver/dimensions.go). *)
Inductive catalog_listing :=
| ListK8sConfigurators | ListConfigurators | ListRegistryPresets | ListK8SVersions | ListOs | ListKubernetesPresets
| ListRouterPresets | ListServersPresets | ListStoragesPresets.

Inductive api_request : Type :=
| RCatalog (q : catalog_listing)
| RRouter (q : Router.router_request)
| RNetwork (q : Network.network_request)
| RFloatingIP (q : FloatingIP.fip_request)
| RServer (q : Server.server_request)
| RCluster (q : Cluster.cluster_request)
| RNodepool (q : Nodepool.nodepool_request)
| RAddon (q : Addon.addon_request)
| RProject (q : Project.project_request)
| RSSHKey (q : SSHKey.sshkey_request)
| RRegistry (q : Registry.registry_request)
| RRepository (q : Repository.repository_request)
| RFirewall (q : Firewall.firewall_request)
| RCdn (q : CdnExternal.cdn_request)
| RStorage (q : Storage.storage_request).

(** ** From a call to its request *)
Section Route.
Context {S : ParamStyle}.

(** The API's base URL, with and without its last slash, and the IAM endpoint. *)
Variables (server base iam : URL).

(** [json.Marshal]: on a request's payload, and on a literal map. *)
Variable marshal : api_request -> result error string.
Variable json_encode : json -> string.

(** A builder called with a payload: [New<Operation>Request] of the generated client. *)
Definition json_body (q : api_request) (build : string -> string -> result error http_request) : result error http_request :=
  buf ← marshal q;
  build "application/json" buf.

Definition no_page : PageParams := {| pp_Limit := None; pp_Offset := None |}.
Definition unconfirmed : ConfirmParams := {| cp_Hash := None; cp_Code := None |}.

(** The request [iamClient.do] signs and posts. *)
Definition iam_request (form : string) : result error http_request :=
  Ok {| rq_Method := "POST"; rq_URL := iam; rq_Content := Some ("application/x-www-form-urlencoded; charset=utf-8", form) |}.

Definition route_catalog (q : catalog_listing) : result error http_request :=
  match q with
  | ListK8sConfigurators => NewGetK8sConfiguratorsRequest server
  | ListConfigurators => NewGetConfiguratorsRequest server
  | ListRegistryPresets => NewGetRegistryPresetsRequest server
  | ListK8SVersions => NewGetK8SVersionsRequest server
  | ListOs => NewGetOsListRequest server
  | ListKubernetesPresets => NewGetKubernetesPresetsRequest server
  | ListRouterPresets => NewGetRouterPresetsRequest server
  | ListServersPresets => NewGetServersPresetsRequest server
  | ListStoragesPresets => NewGetStoragesPresetsRequest server
  end.

Definition route_router (q : Router.router_request) : result error http_request :=
  match q with
  | Router.CreateRouter _ => json_body (RRouter q) (NewCreateRouterRequestWithBody server)
  | Router.GetRouter id => NewGetRouterRequest server id
  | Router.GetNetworks id => NewGetNetworksRequest server id
  | Router.GetRouters => NewGetRoutersRequest server
  | Router.UpdateRouter id _ _ => json_body (RRouter q) (NewUpdateRouterRequestWithBody server id)
  | Router.DeleteRouter id => NewDeleteRouterRequest server id
  | Router.AddNetworks id _ => json_body (RRouter q) (NewAddNetworksRequestWithBody server id)
  | Router.DeleteRouterNetwork id network => NewDeleteRouterNetworkRequest server id network
  | Router.PatchNetwork id network _ => json_body (RRouter q) (NewPatchNetworkRequestWithBody server id network)
  | Router.UpdateRouterNat id network _ => json_body (RRouter q) (NewUpdateRouterNatRequestWithBody server id network)
  | Router.DeleteRouterNat id network => NewDeleteRouterNatRequest server id network
  | Router.GetStaticRoutes id => NewGetStaticRoutesRequest server id
  | Router.PostStaticRoute id _ _ => json_body (RRouter q) (NewPostStaticRouteRequestWithBody server id)
  | Router.DeleteStaticRoute id r => NewDeleteStaticRouteRequest server id r
  | Router.GetFloatingIps => NewGetFloatingIpsRequest server
  | Router.BindFloatingIp fip _ => json_body (RRouter q) (NewBindFloatingIpRequestWithBody server fip)
  | Router.UnbindFloatingIp fip => NewUnbindFloatingIpRequest server fip
  | Router.GetDnat id => NewGetDnatRequest server id
  end.

Definition route_network (q : Network.network_request) : result error http_request :=
  match q with
  | Network.GetVPC id => NewGetVPCRequest server id
  | Network.CreateVPC _ => json_body (RNetwork q) (NewCreateVPCRequestWithBody server)
  | Network.UpdateVPCs id _ => json_body (RNetwork q) (NewUpdateVPCsRequestWithBody server id)
  | Network.DeleteVPC id => NewDeleteVPCRequest server id
  end.

Definition route_fip (q : FloatingIP.fip_request) : result error http_request :=
  match q with
  | FloatingIP.GetFloatingIp id => NewGetFloatingIpRequest server id
  | FloatingIP.CreateFloatingIp_ _ => json_body (RFloatingIP q) (NewCreateFloatingIpRequestWithBody server)
  | FloatingIP.UpdateFloatingIP id _ => json_body (RFloatingIP q) (NewUpdateFloatingIPRequestWithBody server id)
  | FloatingIP.DeleteFloatingIP id => NewDeleteFloatingIPRequest server id
  end.

Definition route_server (q : Server.server_request) : result error http_request :=
  match q with
  | Server.GetServer id => NewGetServerRequest server id
  | Server.CreateServer _ => json_body (RServer q) (NewCreateServerRequestWithBody server)
  | Server.UpdateServer id _ => json_body (RServer q) (NewUpdateServerRequestWithBody server id)
  | Server.DeleteServer id => NewDeleteServerRequest server id (Some unconfirmed)
  | Server.GetFloatingIp fip => NewGetFloatingIpRequest server fip
  | Server.BindFloatingIp fip _ _ => json_body (RServer q) (NewBindFloatingIpRequestWithBody server fip)
  | Server.UnbindFloatingIp fip => NewUnbindFloatingIpRequest server fip
  | Server.GetVPC id => NewGetVPCRequest server id
  end.

Definition route_cluster (q : Cluster.cluster_request) : result error http_request :=
  match q with
  | Cluster.GetCluster id => NewGetClusterRequest server id
  | Cluster.GetClusters => NewGetClustersRequest server (Some no_page)
  | Cluster.CreateCluster _ => json_body (RCluster q) (NewCreateClusterRequestWithBody server)
  | Cluster.UpdateCluster id _ _ => json_body (RCluster q) (NewUpdateClusterRequestWithBody server id)
  | Cluster.UpdateClusterWithBody id contentType body => NewUpdateClusterRequestWithBody server id contentType body
  | Cluster.UpdateClusterVersion id _ => json_body (RCluster q) (NewUpdateClusterVersionRequestWithBody server id)
  | Cluster.DeleteCluster id => NewDeleteClusterRequest server id (Some unconfirmed)
  | Cluster.GetClusterKubeconfig id => NewGetClusterKubeconfigRequest server id
  | Cluster.GetRouters => NewGetRoutersRequest server
  end.

Definition route_nodepool (q : Nodepool.nodepool_request) : result error http_request :=
  match q with
  | Nodepool.GetCluster c => NewGetClusterRequest server c
  | Nodepool.GetClusterNodeGroups c => NewGetClusterNodeGroupsRequest server c
  | Nodepool.GetClusterNodeGroup c g => NewGetClusterNodeGroupRequest server c g
  | Nodepool.GetClusterNodesFromGroup c g => NewGetClusterNodesFromGroupRequest server c g None
  | Nodepool.CreateClusterNodeGroup c _ => json_body (RNodepool q) (NewCreateClusterNodeGroupRequestWithBody server c)
  | Nodepool.UpdateClusterNodeGroup c g _ => json_body (RNodepool q) (NewUpdateClusterNodeGroupRequestWithBody server c g)
  | Nodepool.IncreaseCountOfNodesInGroup c g _ => json_body (RNodepool q) (NewIncreaseCountOfNodesInGroupRequestWithBody server c g)
  | Nodepool.ReduceCountOfNodesInGroup c g _ => json_body (RNodepool q) (NewReduceCountOfNodesInGroupRequestWithBody server c g)
  | Nodepool.DeleteClusterNodeGroup c g => NewDeleteClusterNodeGroupRequest server c g
  end.

Definition route_addon (q : Addon.addon_request) : result error http_request :=
  match q with
  | Addon.GetKubernetesAddons c => NewGetKubernetesAddonsRequest server c
  | Addon.GetKubernetesAddonsConfig c => NewGetKubernetesAddonsConfigRequest server c
  | Addon.PostKubernetesAddons c _ => json_body (RAddon q) (NewPostKubernetesAddonsRequestWithBody server c)
  | Addon.DeleteKubernetesAddons c addon => NewDeleteKubernetesAddonsRequest server c addon
  end.

Definition route_project (q : Project.project_request) : result error http_request :=
  match q with
  | Project.GetProject id => NewGetProjectRequest server id
  | Project.CreateProjectRequest _ => json_body (RProject q) (NewCreateProjectRequestWithBody server)
  | Project.UpdateProjectRequest id _ => json_body (RProject q) (NewUpdateProjectRequestWithBody server id)
  | Project.DeleteProject id => NewDeleteProjectRequest server id
  end.

Definition route_sshkey (q : SSHKey.sshkey_request) : result error http_request :=
  match q with
  | SSHKey.GetKey id => NewGetKeyRequest server id
  | SSHKey.CreateKey _ => json_body (RSSHKey q) (NewCreateKeyRequestWithBody server)
  | SSHKey.UpdateKey id _ => json_body (RSSHKey q) (NewUpdateKeyRequestWithBody server id)
  | SSHKey.DeleteKey id => NewDeleteKeyRequest server id
  end.

Definition route_registry (q : Registry.registry_request) : result error http_request :=
  match q with
  | Registry.GetRegistry id => NewGetRegistryRequest server id
  | Registry.CreateRegistry _ => json_body (RRegistry q) (NewCreateRegistryRequestWithBody server)
  | Registry.UpdateRegistry id _ => json_body (RRegistry q) (NewUpdateRegistryRequestWithBody server id)
  | Registry.DeleteRegistry id => NewDeleteRegistryRequest server id
  end.

Definition route_repository (q : Repository.repository_request) : result error http_request :=
  match q with
  | Repository.GetRegistryRepositories id => NewGetRegistryRepositoriesRequest server id
  end.

Definition route_firewall (q : Firewall.firewall_request) : result error http_request :=
  match q with
  | Firewall.CreateFirewallGroup n d p => RoutesV2.CreateFirewallGroup json_encode base n d p
  | Firewall.GetFirewallGroup id => RoutesV2.GetFirewallGroup base id
  | Firewall.ListFirewallGroups => RoutesV2.ListFirewallGroups base
  | Firewall.PatchFirewallGroup id n d => RoutesV2.PatchFirewallGroup json_encode base id n d
  | Firewall.DeleteFirewallGroup id => RoutesV2.DeleteFirewallGroup base id
  | Firewall.ListFirewallRules g => RoutesV2.ListFirewallRules base g
  | Firewall.CreateFirewallRule g _ => RoutesV2.CreateFirewallRule base g (marshal (RFirewall q))
  | Firewall.DeleteFirewallRule g r => RoutesV2.DeleteFirewallRule base g r
  | Firewall.ListFirewallResources g => RoutesV2.ListFirewallResources base g
  | Firewall.LinkFirewallResource g i t => RoutesV2.LinkFirewallResource base g i t
  | Firewall.UnlinkFirewallResource g i t => RoutesV2.UnlinkFirewallResource base g i t
  | Firewall.GetServiceFirewallGroups t i => RoutesV2.GetServiceFirewallGroups base t i
  end.

Definition route_cdn (q : CdnExternal.cdn_request) : result error http_request :=
  match q with
  | CdnExternal.ListCDNHTTPResources => RoutesV2.ListCDNHTTPResources base
  | CdnExternal.GetCDNHTTPResource id => RoutesV2.GetCDNHTTPResource base id
  | CdnExternal.GetCDNHTTPResourceConfiguration id => RoutesV2.GetCDNHTTPResourceConfiguration base id
  | CdnExternal.CreateCDNHTTPResource _ => RoutesV2.CreateCDNHTTPResource base (marshal (RCdn q))
  | CdnExternal.PatchCDNHTTPResource id _ => RoutesV2.PatchCDNHTTPResource base id (marshal (RCdn q))
  | CdnExternal.DeleteCDNHTTPResource id => RoutesV2.DeleteCDNHTTPResource base id
  | CdnExternal.ClearCDNCache id purgeType paths => RoutesV2.ClearCDNCache json_encode base id purgeType paths
  | CdnExternal.ListCDNPresets => RoutesV2.ListCDNPresets base
  | CdnExternal.ListCDNCertificates r => RoutesV2.ListCDNCertificates base r
  | CdnExternal.ListAllCDNCertificates => RoutesV2.ListAllCDNCertificates base
  | CdnExternal.ListCDNCertificateTasks r => RoutesV2.ListCDNCertificateTasks base r
  | CdnExternal.UploadCDNCertificate c k => RoutesV2.UploadCDNCertificate json_encode base c k
  | CdnExternal.IssueCDNCertificate r => RoutesV2.IssueCDNCertificate json_encode base r
  | CdnExternal.DeleteCDNCertificate id => RoutesV2.DeleteCDNCertificate base id
  end.

Definition route_storage (q : Storage.storage_request) : result error http_request :=
  match q with
  | Storage.GetStorage id => NewGetStorageRequest server id
  | Storage.CreateStorage _ => json_body (RStorage q) (NewCreateStorageRequestWithBody server)
  | Storage.UpdateStorage id _ => json_body (RStorage q) (NewUpdateStorageRequestWithBody server id)
  | Storage.DeleteStorage id => NewDeleteStorageRequest server id (Some unconfirmed)
  | Storage.GetStorageUsers => NewGetStorageUsersRequest server
  | Storage.ListStorageUsersV2 => RoutesV2.ListStorageUsersV2 base
  | Storage.GetStorageUserV2 id => RoutesV2.GetStorageUserV2 base id
  | Storage.CreateStorageUserV2 name => RoutesV2.CreateStorageUserV2 json_encode base name
  | Storage.DeleteStorageUserV2 id => RoutesV2.DeleteStorageUserV2 base id
  | Storage.GetUserPolicyQuery _ u p => iam_request (get_user_policy_form u p)
  | Storage.PutUserPolicyQuery _ u p d => iam_request (put_user_policy_form u p d)
  | Storage.DeleteUserPolicyQuery _ u p => iam_request (delete_user_policy_form u p)
  end.

Definition route (q : api_request) : result error http_request :=
  match q with
  | RCatalog q => route_catalog q
  | RRouter q => route_router q
  | RNetwork q => route_network q
  | RFloatingIP q => route_fip q
  | RServer q => route_server q
  | RCluster q => route_cluster q
  | RNodepool q => route_nodepool q
  | RAddon q => route_addon q
  | RProject q => route_project q
  | RSSHKey q => route_sshkey q
  | RRegistry q => route_registry q
  | RRepository q => route_repository q
  | RFirewall q => route_firewall q
  | RCdn q => route_cdn q
  | RStorage q => route_storage q
  end.
End Route.

(** ** The endpoints *)

Inductive segment := Lit (s : string) | Par.

Record endpoint := at_ { ep_Name : string; ep_Method : string; ep_Pattern : list segment }.

Definition endpoints : list endpoint :=
  [at_ "GetK8sConfigurators" "GET" [Lit "api"; Lit "v1"; Lit "configurator"; Lit "k8s"];
   at_ "GetConfigurators" "GET" [Lit "api"; Lit "v1"; Lit "configurator"; Lit "servers"];
   at_ "GetRegistryPresets" "GET" [Lit "api"; Lit "v1"; Lit "container-registry"; Lit "presets"];
   at_ "GetK8SVersions" "GET" [Lit "api"; Lit "v1"; Lit "k8s"; Lit "k8s-versions"];
   at_ "GetOsList" "GET" [Lit "api"; Lit "v1"; Lit "os"; Lit "servers"];
   at_ "GetKubernetesPresets" "GET" [Lit "api"; Lit "v1"; Lit "presets"; Lit "k8s"];
   at_ "GetRouterPresets" "GET" [Lit "api"; Lit "v1"; Lit "presets"; Lit "routers"];
   at_ "GetServersPresets" "GET" [Lit "api"; Lit "v1"; Lit "presets"; Lit "servers"];
   at_ "GetStoragesPresets" "GET" [Lit "api"; Lit "v1"; Lit "presets"; Lit "storages"];
   at_ "CreateRouter" "POST" [Lit "api"; Lit "v1"; Lit "routers"];
   at_ "GetRouter" "GET" [Lit "api"; Lit "v1"; Lit "routers"; Par];
   at_ "GetNetworks" "GET" [Lit "api"; Lit "v1"; Lit "routers"; Par; Lit "networks"];
   at_ "GetRouters" "GET" [Lit "api"; Lit "v1"; Lit "routers"];
   at_ "UpdateRouter" "PATCH" [Lit "api"; Lit "v1"; Lit "routers"; Par];
   at_ "DeleteRouter" "DELETE" [Lit "api"; Lit "v1"; Lit "routers"; Par];
   at_ "AddNetworks" "POST" [Lit "api"; Lit "v1"; Lit "routers"; Par; Lit "networks"];
   at_ "DeleteRouterNetwork" "DELETE" [Lit "api"; Lit "v1"; Lit "routers"; Par; Lit "networks"; Par];
   at_ "PatchNetwork" "PATCH" [Lit "api"; Lit "v1"; Lit "routers"; Par; Lit "networks"; Par];
   at_ "UpdateRouterNat" "PATCH" [Lit "api"; Lit "v1"; Lit "routers"; Par; Lit "networks"; Par; Lit "nat"];
   at_ "DeleteRouterNat" "DELETE" [Lit "api"; Lit "v1"; Lit "routers"; Par; Lit "networks"; Par; Lit "nat"];
   at_ "GetStaticRoutes" "GET" [Lit "api"; Lit "v1"; Lit "routers"; Par; Lit "static-routes"];
   at_ "PostStaticRoute" "POST" [Lit "api"; Lit "v1"; Lit "routers"; Par; Lit "static-routes"];
   at_ "DeleteStaticRoute" "DELETE" [Lit "api"; Lit "v1"; Lit "routers"; Par; Lit "static-routes"; Par];
   at_ "GetFloatingIps" "GET" [Lit "api"; Lit "v1"; Lit "floating-ips"];
   at_ "BindFloatingIp" "POST" [Lit "api"; Lit "v1"; Lit "floating-ips"; Par; Lit "bind"];
   at_ "UnbindFloatingIp" "POST" [Lit "api"; Lit "v1"; Lit "floating-ips"; Par; Lit "unbind"];
   at_ "GetDnat" "GET" [Lit "api"; Lit "v1"; Lit "routers"; Par; Lit "dnat-rules"];
   at_ "GetVPC" "GET" [Lit "api"; Lit "v2"; Lit "vpcs"; Par];
   at_ "CreateVPC" "POST" [Lit "api"; Lit "v2"; Lit "vpcs"];
   at_ "UpdateVPCs" "PATCH" [Lit "api"; Lit "v2"; Lit "vpcs"; Par];
   at_ "DeleteVPC" "DELETE" [Lit "api"; Lit "v1"; Lit "vpcs"; Par];
   at_ "GetFloatingIp" "GET" [Lit "api"; Lit "v1"; Lit "floating-ips"; Par];
   at_ "CreateFloatingIp" "POST" [Lit "api"; Lit "v1"; Lit "floating-ips"];
   at_ "UpdateFloatingIP" "PATCH" [Lit "api"; Lit "v1"; Lit "floating-ips"; Par];
   at_ "DeleteFloatingIP" "DELETE" [Lit "api"; Lit "v1"; Lit "floating-ips"; Par];
   at_ "GetServer" "GET" [Lit "api"; Lit "v1"; Lit "servers"; Par];
   at_ "CreateServer" "POST" [Lit "api"; Lit "v1"; Lit "servers"];
   at_ "UpdateServer" "PATCH" [Lit "api"; Lit "v1"; Lit "servers"; Par];
   at_ "DeleteServer" "DELETE" [Lit "api"; Lit "v1"; Lit "servers"; Par];
   at_ "GetCluster" "GET" [Lit "api"; Lit "v1"; Lit "k8s"; Lit "clusters"; Par];
   at_ "GetClusters" "GET" [Lit "api"; Lit "v1"; Lit "k8s"; Lit "clusters"];
   at_ "CreateCluster" "POST" [Lit "api"; Lit "v1"; Lit "k8s"; Lit "clusters"];
   at_ "UpdateCluster" "PATCH" [Lit "api"; Lit "v1"; Lit "k8s"; Lit "clusters"; Par];
   at_ "UpdateClusterVersion" "PATCH" [Lit "api"; Lit "v1"; Lit "k8s"; Lit "clusters"; Par; Lit "versions"; Lit "update"];
   at_ "DeleteCluster" "DELETE" [Lit "api"; Lit "v1"; Lit "k8s"; Lit "clusters"; Par];
   at_ "GetClusterKubeconfig" "GET" [Lit "api"; Lit "v1"; Lit "k8s"; Lit "clusters"; Par; Lit "kubeconfig"];
   at_ "GetClusterNodeGroups" "GET" [Lit "api"; Lit "v1"; Lit "k8s"; Lit "clusters"; Par; Lit "groups"];
   at_ "GetClusterNodeGroup" "GET" [Lit "api"; Lit "v1"; Lit "k8s"; Lit "clusters"; Par; Lit "groups"; Par];
   at_ "GetClusterNodesFromGroup" "GET" [Lit "api"; Lit "v1"; Lit "k8s"; Lit "clusters"; Par; Lit "groups"; Par; Lit "nodes"];
   at_ "CreateClusterNodeGroup" "POST" [Lit "api"; Lit "v1"; Lit "k8s"; Lit "clusters"; Par; Lit "groups"];
   at_ "UpdateClusterNodeGroup" "PATCH" [Lit "api"; Lit "v1"; Lit "k8s"; Lit "clusters"; Par; Lit "groups"; Par];
   at_ "IncreaseCountOfNodesInGroup" "POST" [Lit "api"; Lit "v1"; Lit "k8s"; Lit "clusters"; Par; Lit "groups"; Par; Lit "nodes"];
   at_ "ReduceCountOfNodesInGroup" "DELETE" [Lit "api"; Lit "v1"; Lit "k8s"; Lit "clusters"; Par; Lit "groups"; Par; Lit "nodes"];
   at_ "DeleteClusterNodeGroup" "DELETE" [Lit "api"; Lit "v1"; Lit "k8s"; Lit "clusters"; Par; Lit "groups"; Par];
   at_ "GetKubernetesAddons" "GET" [Lit "api"; Lit "v1"; Lit "k8s"; Lit "clusters"; Par; Lit "addons"];
   at_ "GetKubernetesAddonsConfig" "GET" [Lit "api"; Lit "v1"; Lit "k8s"; Lit "clusters"; Par; Lit "addons-configs"];
   at_ "PostKubernetesAddons" "POST" [Lit "api"; Lit "v1"; Lit "k8s"; Lit "clusters"; Par; Lit "addons"];
   at_ "DeleteKubernetesAddons" "DELETE" [Lit "api"; Lit "v1"; Lit "k8s"; Lit "clusters"; Par; Lit "addons"; Par];
   at_ "GetProject" "GET" [Lit "api"; Lit "v1"; Lit "projects"; Par];
   at_ "CreateProject" "POST" [Lit "api"; Lit "v1"; Lit "projects"];
   at_ "UpdateProject" "PUT" [Lit "api"; Lit "v1"; Lit "projects"; Par];
   at_ "DeleteProject" "DELETE" [Lit "api"; Lit "v1"; Lit "projects"; Par];
   at_ "GetKey" "GET" [Lit "api"; Lit "v1"; Lit "ssh-keys"; Par];
   at_ "CreateKey" "POST" [Lit "api"; Lit "v1"; Lit "ssh-keys"];
   at_ "UpdateKey" "PATCH" [Lit "api"; Lit "v1"; Lit "ssh-keys"; Par];
   at_ "DeleteKey" "DELETE" [Lit "api"; Lit "v1"; Lit "ssh-keys"; Par];
   at_ "GetRegistry" "GET" [Lit "api"; Lit "v1"; Lit "container-registry"; Par];
   at_ "CreateRegistry" "POST" [Lit "api"; Lit "v1"; Lit "container-registry"];
   at_ "UpdateRegistry" "PATCH" [Lit "api"; Lit "v1"; Lit "container-registry"; Par];
   at_ "DeleteRegistry" "DELETE" [Lit "api"; Lit "v1"; Lit "container-registry"; Par];
   at_ "GetRegistryRepositories" "GET" [Lit "api"; Lit "v1"; Lit "container-registry"; Par; Lit "repositories"];
   at_ "CreateFirewallGroup" "POST" [Lit "api"; Lit "v1"; Lit "firewall"; Lit "groups"];
   at_ "GetFirewallGroup" "GET" [Lit "api"; Lit "v1"; Lit "firewall"; Lit "groups"; Par];
   at_ "ListFirewallGroups" "GET" [Lit "api"; Lit "v1"; Lit "firewall"; Lit "groups"];
   at_ "PatchFirewallGroup" "PATCH" [Lit "api"; Lit "v1"; Lit "firewall"; Lit "groups"; Par];
   at_ "DeleteFirewallGroup" "DELETE" [Lit "api"; Lit "v1"; Lit "firewall"; Lit "groups"; Par];
   at_ "ListFirewallRules" "GET" [Lit "api"; Lit "v1"; Lit "firewall"; Lit "groups"; Par; Lit "rules"];
   at_ "CreateFirewallRule" "POST" [Lit "api"; Lit "v1"; Lit "firewall"; Lit "groups"; Par; Lit "rules"];
   at_ "DeleteFirewallRule" "DELETE" [Lit "api"; Lit "v1"; Lit "firewall"; Lit "groups"; Par; Lit "rules"; Par];
   at_ "ListFirewallResources" "GET" [Lit "api"; Lit "v1"; Lit "firewall"; Lit "groups"; Par; Lit "resources"];
   at_ "LinkFirewallResource" "POST" [Lit "api"; Lit "v1"; Lit "firewall"; Lit "groups"; Par; Lit "resources"; Par];
   at_ "UnlinkFirewallResource" "DELETE" [Lit "api"; Lit "v1"; Lit "firewall"; Lit "groups"; Par; Lit "resources"; Par];
   at_ "GetServiceFirewallGroups" "GET" [Lit "api"; Lit "v1"; Lit "firewall"; Lit "service"; Par; Par];
   at_ "ListCDNHTTPResources" "GET" [Lit "api"; Lit "v1"; Lit "cdn"; Lit "http-resources"];
   at_ "GetCDNHTTPResource" "GET" [Lit "api"; Lit "v1"; Lit "cdn"; Lit "http-resources"; Par];
   at_ "GetCDNHTTPResourceConfiguration" "GET" [Lit "api"; Lit "v1"; Lit "cdn"; Lit "http-resources"; Par; Lit "configuration"];
   at_ "CreateCDNHTTPResource" "POST" [Lit "api"; Lit "v1"; Lit "cdn"; Lit "http-resources"];
   at_ "PatchCDNHTTPResource" "PATCH" [Lit "api"; Lit "v1"; Lit "cdn"; Lit "http-resources"; Par];
   at_ "DeleteCDNHTTPResource" "DELETE" [Lit "api"; Lit "v1"; Lit "cdn"; Lit "http-resources"; Par];
   at_ "ClearCDNCache" "POST" [Lit "api"; Lit "v1"; Lit "cdn"; Lit "http-resources"; Par; Lit "clear-cache"];
   at_ "ListCDNPresets" "GET" [Lit "api"; Lit "v1"; Lit "cdn"; Lit "presets"];
   at_ "ListCDNCertificates" "GET" [Lit "api"; Lit "v1"; Lit "cdn"; Lit "certificates"];
   at_ "ListCDNCertificateTasks" "GET" [Lit "api"; Lit "v1"; Lit "cdn"; Lit "certificates"; Lit "tasks"];
   at_ "UploadCDNCertificate" "POST" [Lit "api"; Lit "v1"; Lit "cdn"; Lit "certificates"];
   at_ "IssueCDNCertificate" "POST" [Lit "api"; Lit "v1"; Lit "cdn"; Lit "certificates"; Lit "issue"];
   at_ "DeleteCDNCertificate" "DELETE" [Lit "api"; Lit "v1"; Lit "cdn"; Lit "certificates"; Par];
   at_ "GetStorage" "GET" [Lit "api"; Lit "v1"; Lit "storages"; Lit "buckets"; Par];
   at_ "CreateStorage" "POST" [Lit "api"; Lit "v1"; Lit "storages"; Lit "buckets"];
   at_ "UpdateStorage" "PATCH" [Lit "api"; Lit "v1"; Lit "storages"; Lit "buckets"; Par];
   at_ "DeleteStorage" "DELETE" [Lit "api"; Lit "v1"; Lit "storages"; Lit "buckets"; Par];
   at_ "GetStorageUsers" "GET" [Lit "api"; Lit "v1"; Lit "storages"; Lit "users"];
   at_ "ListStorageUsersV2" "GET" [Lit "api"; Lit "v2"; Lit "storages"; Lit "users"];
   at_ "GetStorageUserV2" "GET" [Lit "api"; Lit "v2"; Lit "storages"; Lit "users"; Par];
   at_ "CreateStorageUserV2" "POST" [Lit "api"; Lit "v2"; Lit "storages"; Lit "users"];
   at_ "DeleteStorageUserV2" "DELETE" [Lit "api"; Lit "v2"; Lit "storages"; Lit "users"; Par];
   at_ "IAM" "POST" [Lit ""]].

(** An operation with the arguments of its path and its query. *)
Record operation := call { op_Name : string; op_Args : list param; op_Query : list (string * string) }.

Definition unless_empty (key value : string) : list (string * string) := if bool_decide (value = "") then [] else [(key, value)].

Definition operation_catalog (q : catalog_listing) : operation :=
  match q with
  | ListK8sConfigurators => call "GetK8sConfigurators" [] []
  | ListConfigurators => call "GetConfigurators" [] []
  | ListRegistryPresets => call "GetRegistryPresets" [] []
  | ListK8SVersions => call "GetK8SVersions" [] []
  | ListOs => call "GetOsList" [] []
  | ListKubernetesPresets => call "GetKubernetesPresets" [] []
  | ListRouterPresets => call "GetRouterPresets" [] []
  | ListServersPresets => call "GetServersPresets" [] []
  | ListStoragesPresets => call "GetStoragesPresets" [] []
  end.

Definition operation_router (q : Router.router_request) : operation :=
  match q with
  | Router.CreateRouter _ => call "CreateRouter" [] []
  | Router.GetRouter id => call "GetRouter" [PString id] []
  | Router.GetNetworks id => call "GetNetworks" [PString id] []
  | Router.GetRouters => call "GetRouters" [] []
  | Router.UpdateRouter id _ _ => call "UpdateRouter" [PString id] []
  | Router.DeleteRouter id => call "DeleteRouter" [PString id] []
  | Router.AddNetworks id _ => call "AddNetworks" [PString id] []
  | Router.DeleteRouterNetwork id network => call "DeleteRouterNetwork" [PString id; PString network] []
  | Router.PatchNetwork id network _ => call "PatchNetwork" [PString id; PString network] []
  | Router.UpdateRouterNat id network _ => call "UpdateRouterNat" [PString id; PString network] []
  | Router.DeleteRouterNat id network => call "DeleteRouterNat" [PString id; PString network] []
  | Router.GetStaticRoutes id => call "GetStaticRoutes" [PString id] []
  | Router.PostStaticRoute id _ _ => call "PostStaticRoute" [PString id] []
  | Router.DeleteStaticRoute id route => call "DeleteStaticRoute" [PString id; PString route] []
  | Router.GetFloatingIps => call "GetFloatingIps" [] []
  | Router.BindFloatingIp fip _ => call "BindFloatingIp" [PString fip] []
  | Router.UnbindFloatingIp fip => call "UnbindFloatingIp" [PString fip] []
  | Router.GetDnat id => call "GetDnat" [PString id] []
  end.

Definition operation_network (q : Network.network_request) : operation :=
  match q with
  | Network.GetVPC id => call "GetVPC" [PString id] []
  | Network.CreateVPC _ => call "CreateVPC" [] []
  | Network.UpdateVPCs id _ => call "UpdateVPCs" [PString id] []
  | Network.DeleteVPC id => call "DeleteVPC" [PString id] []
  end.

Definition operation_fip (q : FloatingIP.fip_request) : operation :=
  match q with
  | FloatingIP.GetFloatingIp id => call "GetFloatingIp" [PString id] []
  | FloatingIP.CreateFloatingIp_ _ => call "CreateFloatingIp" [] []
  | FloatingIP.UpdateFloatingIP id _ => call "UpdateFloatingIP" [PString id] []
  | FloatingIP.DeleteFloatingIP id => call "DeleteFloatingIP" [PString id] []
  end.

Definition operation_server (q : Server.server_request) : operation :=
  match q with
  | Server.GetServer id => call "GetServer" [PInt id] []
  | Server.CreateServer _ => call "CreateServer" [] []
  | Server.UpdateServer id _ => call "UpdateServer" [PInt id] []
  | Server.DeleteServer id => call "DeleteServer" [PInt id] []
  | Server.GetFloatingIp fip => call "GetFloatingIp" [PString fip] []
  | Server.BindFloatingIp fip _ _ => call "BindFloatingIp" [PString fip] []
  | Server.UnbindFloatingIp fip => call "UnbindFloatingIp" [PString fip] []
  | Server.GetVPC id => call "GetVPC" [PString id] []
  end.

Definition operation_cluster (q : Cluster.cluster_request) : operation :=
  match q with
  | Cluster.GetCluster id => call "GetCluster" [PInt id] []
  | Cluster.GetClusters => call "GetClusters" [] []
  | Cluster.CreateCluster _ => call "CreateCluster" [] []
  | Cluster.UpdateCluster id _ _ => call "UpdateCluster" [PInt id] []
  | Cluster.UpdateClusterWithBody id _ _ => call "UpdateCluster" [PInt id] []
  | Cluster.UpdateClusterVersion id _ => call "UpdateClusterVersion" [PInt id] []
  | Cluster.DeleteCluster id => call "DeleteCluster" [PInt id] []
  | Cluster.GetClusterKubeconfig id => call "GetClusterKubeconfig" [PInt id] []
  | Cluster.GetRouters => call "GetRouters" [] []
  end.

Definition operation_nodepool (q : Nodepool.nodepool_request) : operation :=
  match q with
  | Nodepool.GetCluster c => call "GetCluster" [PInt c] []
  | Nodepool.GetClusterNodeGroups c => call "GetClusterNodeGroups" [PInt c] []
  | Nodepool.GetClusterNodeGroup c g => call "GetClusterNodeGroup" [PInt c; PInt g] []
  | Nodepool.GetClusterNodesFromGroup c g => call "GetClusterNodesFromGroup" [PInt c; PInt g] []
  | Nodepool.CreateClusterNodeGroup c _ => call "CreateClusterNodeGroup" [PInt c] []
  | Nodepool.UpdateClusterNodeGroup c g _ => call "UpdateClusterNodeGroup" [PInt c; PInt g] []
  | Nodepool.IncreaseCountOfNodesInGroup c g _ => call "IncreaseCountOfNodesInGroup" [PInt c; PInt g] []
  | Nodepool.ReduceCountOfNodesInGroup c g _ => call "ReduceCountOfNodesInGroup" [PInt c; PInt g] []
  | Nodepool.DeleteClusterNodeGroup c g => call "DeleteClusterNodeGroup" [PInt c; PInt g] []
  end.

Definition operation_addon (q : Addon.addon_request) : operation :=
  match q with
  | Addon.GetKubernetesAddons c => call "GetKubernetesAddons" [PInt c] []
  | Addon.GetKubernetesAddonsConfig c => call "GetKubernetesAddonsConfig" [PInt c] []
  | Addon.PostKubernetesAddons c _ => call "PostKubernetesAddons" [PInt c] []
  | Addon.DeleteKubernetesAddons c addon => call "DeleteKubernetesAddons" [PInt c; PInt addon] []
  end.

Definition operation_project (q : Project.project_request) : operation :=
  match q with
  | Project.GetProject id => call "GetProject" [PInt id] []
  | Project.CreateProjectRequest _ => call "CreateProject" [] []
  | Project.UpdateProjectRequest id _ => call "UpdateProject" [PInt id] []
  | Project.DeleteProject id => call "DeleteProject" [PInt id] []
  end.

Definition operation_sshkey (q : SSHKey.sshkey_request) : operation :=
  match q with
  | SSHKey.GetKey id => call "GetKey" [PInt id] []
  | SSHKey.CreateKey _ => call "CreateKey" [] []
  | SSHKey.UpdateKey id _ => call "UpdateKey" [PInt id] []
  | SSHKey.DeleteKey id => call "DeleteKey" [PInt id] []
  end.

Definition operation_registry (q : Registry.registry_request) : operation :=
  match q with
  | Registry.GetRegistry id => call "GetRegistry" [PInt id] []
  | Registry.CreateRegistry _ => call "CreateRegistry" [] []
  | Registry.UpdateRegistry id _ => call "UpdateRegistry" [PInt id] []
  | Registry.DeleteRegistry id => call "DeleteRegistry" [PInt id] []
  end.

Definition operation_repository (q : Repository.repository_request) : operation :=
  match q with
  | Repository.GetRegistryRepositories id => call "GetRegistryRepositories" [PInt id] []
  end.

Definition operation_firewall (q : Firewall.firewall_request) : operation :=
  match q with
  | Firewall.CreateFirewallGroup _ _ p => call "CreateFirewallGroup" [] (unless_empty "policy" p)
  | Firewall.GetFirewallGroup id => call "GetFirewallGroup" [PString id] []
  | Firewall.ListFirewallGroups => call "ListFirewallGroups" [] []
  | Firewall.PatchFirewallGroup id _ _ => call "PatchFirewallGroup" [PString id] []
  | Firewall.DeleteFirewallGroup id => call "DeleteFirewallGroup" [PString id] []
  | Firewall.ListFirewallRules g => call "ListFirewallRules" [PString g] []
  | Firewall.CreateFirewallRule g _ => call "CreateFirewallRule" [PString g] []
  | Firewall.DeleteFirewallRule g r => call "DeleteFirewallRule" [PString g; PString r] []
  | Firewall.ListFirewallResources g => call "ListFirewallResources" [PString g] []
  | Firewall.LinkFirewallResource g i t => call "LinkFirewallResource" [PString g; PString i] (unless_empty "resource_type" t)
  | Firewall.UnlinkFirewallResource g i t => call "UnlinkFirewallResource" [PString g; PString i] (unless_empty "resource_type" t)
  | Firewall.GetServiceFirewallGroups t i => call "GetServiceFirewallGroups" [PString t; PString i] []
  end.

Definition operation_cdn (q : CdnExternal.cdn_request) : operation :=
  match q with
  | CdnExternal.ListCDNHTTPResources => call "ListCDNHTTPResources" [] []
  | CdnExternal.GetCDNHTTPResource id => call "GetCDNHTTPResource" [PString id] []
  | CdnExternal.GetCDNHTTPResourceConfiguration id => call "GetCDNHTTPResourceConfiguration" [PString id] []
  | CdnExternal.CreateCDNHTTPResource _ => call "CreateCDNHTTPResource" [] []
  | CdnExternal.PatchCDNHTTPResource id _ => call "PatchCDNHTTPResource" [PString id] []
  | CdnExternal.DeleteCDNHTTPResource id => call "DeleteCDNHTTPResource" [PString id] []
  | CdnExternal.ClearCDNCache id _ _ => call "ClearCDNCache" [PString id] []
  | CdnExternal.ListCDNPresets => call "ListCDNPresets" [] []
  | CdnExternal.ListCDNCertificates r => call "ListCDNCertificates" [] [("resource_id", r)]
  | CdnExternal.ListAllCDNCertificates => call "ListCDNCertificates" [] []
  | CdnExternal.ListCDNCertificateTasks r => call "ListCDNCertificateTasks" [] [("resource_id", r)]
  | CdnExternal.UploadCDNCertificate _ _ => call "UploadCDNCertificate" [] []
  | CdnExternal.IssueCDNCertificate _ => call "IssueCDNCertificate" [] []
  | CdnExternal.DeleteCDNCertificate id => call "DeleteCDNCertificate" [PString id] []
  end.

Definition operation_storage (q : Storage.storage_request) : operation :=
  match q with
  | Storage.GetStorage id => call "GetStorage" [PInt id] []
  | Storage.CreateStorage _ => call "CreateStorage" [] []
  | Storage.UpdateStorage id _ => call "UpdateStorage" [PInt id] []
  | Storage.DeleteStorage id => call "DeleteStorage" [PInt id] []
  | Storage.GetStorageUsers => call "GetStorageUsers" [] []
  | Storage.ListStorageUsersV2 => call "ListStorageUsersV2" [] []
  | Storage.GetStorageUserV2 id => call "GetStorageUserV2" [PString id] []
  | Storage.CreateStorageUserV2 _ => call "CreateStorageUserV2" [] []
  | Storage.DeleteStorageUserV2 id => call "DeleteStorageUserV2" [PString id] []
  | _ => call "IAM" [] []
  end.

Definition operation_of (q : api_request) : operation :=
  match q with
  | RCatalog q => operation_catalog q
  | RRouter q => operation_router q
  | RNetwork q => operation_network q
  | RFloatingIP q => operation_fip q
  | RServer q => operation_server q
  | RCluster q => operation_cluster q
  | RNodepool q => operation_nodepool q
  | RAddon q => operation_addon q
  | RProject q => operation_project q
  | RSSHKey q => operation_sshkey q
  | RRegistry q => operation_registry q
  | RRepository q => operation_repository q
  | RFirewall q => operation_firewall q
  | RCdn q => operation_cdn q
  | RStorage q => operation_storage q
  end.

(** ** The server's side *)

(** A path fits a pattern, segment by segment. *)
Fixpoint fits (pattern : list segment) (segs : list string) : bool :=
  match pattern, segs with
  | [], [] => true
  | Lit s :: pattern, x :: segs => if bool_decide (x = s) then fits pattern segs else false
  | Par :: pattern, _ :: segs => fits pattern segs
  | _, _ => false
  end.

(** The segments at the parameters' places. *)
Fixpoint pick (pattern : list segment) (segs : list string) : list string :=
  match pattern, segs with
  | Par :: pattern, x :: segs => x :: pick pattern segs
  | Lit _ :: pattern, _ :: segs => pick pattern segs
  | _, _ => []
  end.

(** The first endpoint a method and a path fit, with the arguments unescaped. *)
Definition dispatch (method path : string) : option (string * list (result error string)) :=
  match split_byte "/"%char path with
  | "" :: segs =>
      match List.find (fun e => if bool_decide (ep_Method e = method) then fits (ep_Pattern e) segs else false) endpoints with
      | Some e => Some (ep_Name e, unescape encodePathSegment <$> pick (ep_Pattern e) segs)
      | None => None
      end
  | _ => None
  end.
