(* ===== verification/WireFacts.v ===== *)
(** * WireFacts: requests reach the endpoints they name

    For the requests of [Wire]: a call with proper ids is dispatched to its own
    operation with its own arguments; the calls the other files count as reads are GETs;
    and the ids for which this fails. *)

From S2P Require Import Prelude Errors Timeweb Url Routes RoutesV2 Router RouterFacts Network FloatingIP Server Cluster Nodepool Addon Project SSHKey Registry Repository Firewall CdnExternal CdnFacts Storage S3BucketFacts Wire.

(** ** Texts cut at a byte *)

Lemma split_byte_free sep s : free_of sep s = true -> split_byte sep s = [s].
Proof.
  induction s as [|c s IH]; [done|]. cbn [free_of split_byte]. intros H. apply andb_true_iff in H as [Hc Hs].
  destruct (bool_decide (c = sep)); [done|]. by rewrite IH.
Qed.

Lemma split_byte_cons sep s t : free_of sep s = true -> split_byte sep (s +:+ String sep t) = s :: split_byte sep t.
Proof.
  induction s as [|c s IH]; cbn [String.append free_of split_byte].
  - by rewrite bool_decide_eq_true_2.
  - intros H. apply andb_true_iff in H as [Hc Hs]. destruct (bool_decide (c = sep)); [done|]. by rewrite IH.
Qed.

Lemma split_join sep l : l <> [] -> forallb (free_of sep) l = true -> split_byte sep (join (String sep "") l) = l.
Proof.
  induction l as [|s [|t l] IH]; intros Hne H; [done| |]; cbn [forallb] in H; apply andb_true_iff in H as [Hs H].
  - by apply split_byte_free.
  - change (join (String sep "") (s :: t :: l)) with (s +:+ String sep (join (String sep "") (t :: l))).
    rewrite split_byte_cons by done. by rewrite IH.
Qed.

Lemma index_byte_free b s : free_of b s = true -> index_byte s b = None.
Proof.
  induction s as [|c s IH]; [done|]. cbn [free_of index_byte]. intros H. apply andb_true_iff in H as [Hc Hs].
  destruct (decide (c = b)) as [->|Hn]; [by rewrite bool_decide_eq_true_2 in Hc|]. rewrite IH by done.
  by rewrite bool_decide_eq_false_2.
Qed.

(** ** Paths of plain segments *)

(** Ids that a path keeps apart: not empty and no dot segment. *)
Definition plain_id (s : string) : bool := negb (bool_decide (s = "")) && negb (bool_decide (s = ".")) && negb (bool_decide (s = "..")).

(** Ids that need no escaping at all. *)
Fixpoint safe_id (s : string) : bool :=
  match s with EmptyString => true | String c s => unreserved c && safe_id s end.

Definition text (p : param) : string := match p with PString s => s | PInt n => fmt_d n end.

(** A path and the segments of an operation's pattern filled with its arguments. *)
Definition path_text (segs : list string) : string := "/" +:+ join "/" segs.

Fixpoint fill (pattern : list segment) (args : list string) : list string :=
  match pattern, args with
  | Lit s :: pattern, _ => s :: fill pattern args
  | Par :: pattern, a :: args => a :: fill pattern args
  | _, _ => []
  end.

Lemma PathEscape_safe s : safe_id s = true -> PathEscape s = s.
Proof.
  unfold PathEscape. induction s as [|c s IH]; [done|]. cbn [safe_id escape]. intros H. apply andb_true_iff in H as [Hc Hs].
  rewrite IH by done. unfold escape_byte, shouldEscape. by rewrite Hc.
Qed.

Lemma safe_fmt_d n : safe_id (fmt_d n) = true.
Proof.
  assert (forall z, 0 <= z -> safe_id (fmt_d z) = true) as H.
  { intros z Hz. apply fmt_d_digits in Hz as [Hz _]. revert Hz. generalize (fmt_d z). induction s as [|c s IH]; [done|].
    cbn [all_digits safe_id]. intros H. apply andb_true_iff in H as [Hc Hs]. rewrite IH, andb_true_r by done.
    unfold unreserved. by rewrite Hc, orb_true_r. }
  destruct n as [|p|p]; [done|by apply H; lia|]. exact (H (Z.pos p) ltac:(lia)).
Qed.

Lemma PathEscape_fmt_d n : PathEscape (fmt_d n) = fmt_d n.
Proof. apply PathEscape_safe, safe_fmt_d. Qed.

(** *** Resolving against the root *)

(** A segment the resolution of a path leaves alone. *)
Definition seg_ok (s : string) : bool := plain_id s && free_of "/" s.

Lemma plain_id_spec s : plain_id s = true <-> s <> "" /\ s <> "." /\ s <> "..".
Proof. unfold plain_id. rewrite !andb_true_iff, !negb_true_iff, !bool_decide_eq_false. tauto. Qed.

Lemma resolve_loop_plain segs str : forallb seg_ok segs = true -> segs <> [] ->
  resolve_loop segs str false = str +:+ "/" +:+ join "/" segs.
Proof.
  revert str. induction segs as [|s segs IH]; intros str H Hne; [done|]. cbn [forallb] in H. apply andb_true_iff in H as [Hs H].
  unfold seg_ok in Hs. apply andb_true_iff in Hs as [Hs _]. apply plain_id_spec in Hs as (_ & H1 & H2). cbn [resolve_loop].
  rewrite (bool_decide_eq_false_2 (s = ".")), (bool_decide_eq_false_2 (s = "..")) by done. cbn [orb].
  destruct segs as [|t segs]; [by rewrite append_assoc|].
  rewrite IH by done. change (join "/" (s :: t :: segs)) with (s +:+ "/" +:+ join "/" (t :: segs)). by rewrite !append_assoc.
Qed.

Lemma free_of_join b l : b <> "/"%char -> forallb (free_of b) l = true -> free_of b (join "/" l) = true.
Proof.
  intros Hb. induction l as [|s [|t l] IH]; intros H; [done| |]; cbn [forallb] in H; apply andb_true_iff in H as [Hs H]; [done|].
  change (join "/" (s :: t :: l)) with (s +:+ "/" +:+ join "/" (t :: l)). rewrite !free_of_app, Hs, IH by done.
  cbn [free_of]. by rewrite bool_decide_eq_false_2.
Qed.

Lemma has_prefix_slash s : has_prefix "/" (String "/" s) = true.
Proof. by destruct s. Qed.

(** An operation's path, resolved against the root, is itself. *)
Lemma resolve_root segs : forallb seg_ok segs = true -> segs <> [] -> resolvePath "/" ("." +:+ path_text segs) = path_text segs.
Proof.
  intros H Hne. unfold path_text. change ("." +:+ "/" +:+ join "/" segs) with ("./" +:+ join "/" segs).
  assert (split_byte "/"%char ("/./" +:+ join "/" segs) = "" :: "." :: segs) as Hsplit.
  { change ("/./" +:+ join "/" segs) with (String "/" ("." +:+ String "/" (join "/" segs))). cbn [split_byte].
    rewrite bool_decide_eq_true_2 by done. rewrite split_byte_cons by done. rewrite split_join; [done..|].
    apply forallb_forall. intros x Hx. rewrite forallb_forall in H. apply H in Hx. by apply andb_true_iff in Hx as [_ Hx]. }
  unfold resolvePath. change ("./" +:+ join "/" segs) with (String "." (String "/" (join "/" segs))). cbv beta iota zeta.
  rewrite bool_decide_eq_false_2 by done. change (last_index_byte "/" "/"%char) with (Some O). cbv beta iota.
  change (take_str 1 "/" +:+ String "." (String "/" (join "/" segs))) with ("/./" +:+ join "/" segs).
  rewrite bool_decide_eq_false_2 by done. rewrite Hsplit.
  destruct segs as [|s segs]; [done|].
  change (resolve_loop ("" :: "." :: s :: segs) "" true) with (resolve_loop (s :: segs) "" false).
  rewrite resolve_loop_plain by done. change ("" +:+ "/" +:+ join "/" (s :: segs)) with (String "/" (join "/" (s :: segs))).
  by rewrite has_prefix_slash.
Qed.

(** *** Texts of the hand-written requests *)

Fixpoint all_bytes (P : ascii -> bool) (s : string) : bool :=
  match s with EmptyString => true | String c s => P c && all_bytes P s end.

Lemma all_bytes_app P s t : all_bytes P (s +:+ t) = all_bytes P s && all_bytes P t.
Proof. induction s as [|c s IH]; [done|]. cbn [String.append all_bytes]. by rewrite IH, andb_assoc. Qed.

Lemma all_bytes_impl (P Q : ascii -> bool) s : (forall c, P c = true -> Q c = true) -> all_bytes P s = true -> all_bytes Q s = true.
Proof.
  intros HPQ. induction s as [|c s IH]; [done|]. cbn [all_bytes]. rewrite !andb_true_iff. intros [Hc Hs]. auto.
Qed.

Lemma all_bytes_free P b s : P b = false -> all_bytes P s = true -> free_of b s = true.
Proof.
  intros Hb. induction s as [|c s IH]; [done|]. cbn [all_bytes free_of]. rewrite !andb_true_iff. intros [Hc Hs].
  split; [|by apply IH]. apply negb_true_iff, bool_decide_eq_false. intros ->. congruence.
Qed.

(** The bytes of an escaped path, and of an encoded query. *)
Definition path_byte (c : ascii) : bool := unreserved c || is_one_of "/$&+=:@%" c.
Definition query_byte (c : ascii) : bool := unreserved c || is_one_of "&+=%" c.

Lemma PathEscape_bytes s : all_bytes path_byte (PathEscape s) = true.
Proof.
  unfold PathEscape. induction s as [|c s IH]; [done|]. cbn [escape]. rewrite all_bytes_app, IH, andb_true_r.
  destruct c as [[] [] [] [] [] [] [] []]; reflexivity.
Qed.

Lemma QueryEscape_bytes s : all_bytes (fun c => unreserved c || is_one_of "+%" c) (QueryEscape s) = true.
Proof.
  unfold QueryEscape. induction s as [|c s IH]; [done|]. cbn [escape]. rewrite all_bytes_app, IH, andb_true_r.
  destruct c as [[] [] [] [] [] [] [] []]; reflexivity.
Qed.

Lemma path_text_bytes raws : all_bytes path_byte (path_text (PathEscape <$> raws)) = true.
Proof.
  unfold path_text. change ("/" +:+ join "/" (PathEscape <$> raws)) with (String "/" (join "/" (PathEscape <$> raws))). cbn [all_bytes].
  change (path_byte "/") with true. cbn [andb]. induction raws as [|s [|t raws] IH]; [done|apply PathEscape_bytes|].
  change (join "/" (PathEscape <$> (s :: t :: raws))) with (PathEscape s +:+ "/" +:+ join "/" (PathEscape <$> (t :: raws))).
  by rewrite !all_bytes_app, PathEscape_bytes, IH.
Qed.

Lemma path_byte_valid s : all_bytes path_byte s = true -> valid_path s = true.
Proof.
  induction s as [|c s IH]; [done|]. cbn [all_bytes valid_path]. rewrite !andb_true_iff. intros [Hc Hs]. split; [|auto].
  revert Hc. clear. destruct c as [[] [] [] [] [] [] [] []]; vm_compute; done.
Qed.

Lemma bytes_no_ctl s : all_bytes (fun c => path_byte c || bool_decide (c = "?"%char)) s = true -> has_ctl s = false.
Proof.
  induction s as [|c s IH]; [done|]. cbn [all_bytes has_ctl]. rewrite andb_true_iff. intros [Hc Hs]. rewrite (IH Hs), orb_false_r.
  revert Hc. clear. destruct c as [[] [] [] [] [] [] [] []]; vm_compute; done.
Qed.

Lemma unescape_app mode s t a : unescape mode s = Ok a -> unescape mode (s +:+ t) = (r ← unescape mode t; mret (a +:+ r)).
Proof.
  remember (String.length s) as n eqn:Hn. revert s a Hn. induction n as [n IH] using (well_founded_induction lt_wf).
  intros [|c s] a ->; cbn [unescape String.append].
  - intros [= <-]. by destruct (unescape mode t).
  - destruct (bool_decide (c = "%"%char)).
    + destruct s as [|x [|y s]]; [done..|]. cbn [String.append]. destruct (unhex x), (unhex y); try done.
      destruct (unescape mode s) as [r|] eqn:E; intros [= <-].
      rewrite (IH (String.length s) ltac:(cbn; lia) s r eq_refl E). by destruct (unescape mode t).
    + destruct (unescape mode s) as [r|] eqn:E; intros [= <-].
      rewrite (IH (String.length s) ltac:(cbn; lia) s r eq_refl E). by destruct (unescape mode t).
Qed.

Lemma unescape_path_mode s : unescape encodePath s = unescape encodePathSegment s.
Proof.
  remember (String.length s) as n eqn:Hn. revert s Hn. induction n as [n IH] using (well_founded_induction lt_wf).
  intros [|c s] ->; [done|]. cbn [unescape]. rewrite <- (IH (String.length s)) by (cbn; lia || done).
  destruct (bool_decide _); [|done]. destruct s as [|x [|y s]]; [done..|]. by rewrite (IH (String.length s)) by (cbn; lia || done).
Qed.

Lemma unescape_path_text raws : unescape encodePath (path_text (PathEscape <$> raws)) = Ok (path_text raws).
Proof.
  unfold path_text. rewrite (unescape_app _ "/" _ "/") by done.
  assert (unescape encodePath (join "/" (PathEscape <$> raws)) = Ok (join "/" raws)) as ->; [|done].
  induction raws as [|s [|t raws] IH]; [done|by rewrite unescape_path_mode; apply unescape_escape|].
  change (join "/" (PathEscape <$> (s :: t :: raws))) with (PathEscape s +:+ "/" +:+ join "/" (PathEscape <$> (t :: raws))).
  rewrite (unescape_app _ _ _ s) by (rewrite unescape_path_mode; apply unescape_escape).
  by rewrite (unescape_app _ "/" _ "/"), IH.
Qed.

Lemma index_byte_app b s t : free_of b s = true -> index_byte (s +:+ String b t) b = Some (String.length s).
Proof.
  induction s as [|c s IH]; cbn [free_of String.append index_byte String.length]; [by rewrite bool_decide_eq_true_2|].
  intros H. apply andb_true_iff in H as [Hc Hs]. destruct (bool_decide (c = b)); [done|]. by rewrite IH.
Qed.

Lemma drop_str_past b s t : drop_str (S (String.length s)) (s +:+ String b t) = t.
Proof. induction s as [|c s IH]; [done|exact IH]. Qed.

Lemma cut_app b s t : free_of b s = true -> cut b (s +:+ String b t) = (s, Some t).
Proof.
  intros H. unfold cut. by rewrite index_byte_app, take_str_append, drop_str_past.
Qed.

(** A text of escaped segments, with a query or without, is where it says. *)
Lemma parse_target_plain base raws query : u_Path base = "" -> all_bytes query_byte (default "" query) = true ->
  parse_target base (path_text (PathEscape <$> raws) +:+ match query with Some q => "?" +:+ q | None => "" end) =
    Ok {| u_Scheme := u_Scheme base; u_Host := u_Host base; u_Path := path_text (PathEscape <$> raws); u_RawQuery := default "" query |}.
Proof.
  intros Hb Hq. pose proof (path_text_bytes raws) as Hp. set (p := path_text _) in *.
  assert (all_bytes (fun c => path_byte c || bool_decide (c = "?"%char)) (p +:+ match query with Some q => "?" +:+ q | None => "" end) = true) as Hall.
  { rewrite all_bytes_app, andb_true_iff. split; [by eapply all_bytes_impl, Hp; intros c ->|].
    destruct query as [q|]; [|done]. cbn [String.append all_bytes]. apply andb_true_iff. split; [done|].
    eapply all_bytes_impl, Hq. clear. intros c. destruct c as [[] [] [] [] [] [] [] []]; vm_compute; done. }
  unfold parse_target. rewrite Hb. change ("" +:+ ?x) with x. cbv zeta.
  assert (forall t, cut "#" (p +:+ t) = (p +:+ t, None) <-> index_byte (p +:+ t) "#" = None) as Hcut.
  { intros t. unfold cut. by destruct (index_byte _ _). }
  rewrite (proj2 (Hcut _)) by (apply index_byte_free; by eapply all_bytes_free, Hall). cbv beta iota.
  assert (cut "?" (p +:+ match query with Some q => "?" +:+ q | None => "" end) = (p, query)) as ->.
  { pose proof (all_bytes_free path_byte "?" p eq_refl Hp) as Hf. destruct query as [q|]; [by apply cut_app|].
    rewrite append_nil_r. unfold cut. by rewrite index_byte_free. }
  rewrite bytes_no_ctl by done. unfold escaped_path.
  rewrite (unescape_path_text raws : unescape encodePath p = Ok (path_text raws)). cbv beta iota.
  rewrite path_byte_valid by done. reflexivity.
Qed.

(** *** Queries *)

Lemma parse_pair_escaped k v rest :
  parse_pair (QueryEscape k +:+ "=" +:+ QueryEscape v) rest = (l ← rest; mret ((k, v) :: l)).
Proof.
  set (P := fun c => unreserved c || is_one_of "+%" c).
  assert (forall b s, P b = false -> free_of b (QueryEscape s) = true) as Hfree.
  { intros b s Hb. eapply (all_bytes_free P); [done|apply QueryEscape_bytes]. }
  unfold parse_pair, is_one_of. rewrite index_byte_free.
  2: { rewrite !free_of_app, !Hfree by reflexivity. reflexivity. }
  rewrite bool_decide_eq_false_2 by (intros H; destruct (QueryEscape k); discriminate H).
  change ("=" +:+ QueryEscape v) with (String "=" (QueryEscape v)).
  assert (free_of "=" (QueryEscape k) = true) as Hk by (by apply Hfree).
  rewrite index_byte_app, take_str_append, drop_str_past by done. cbv beta iota.
  unfold QueryEscape. by rewrite !unescape_escape.
Qed.

(** An encoded query is parsed back: the values, sorted by key. *)
Lemma ParseQuery_Encode l : ParseQuery (Encode l) = Ok (sort_by (fun a b => str_leb a.1 b.1) l).
Proof.
  unfold Encode. generalize (sort_by (fun a b : string * string => str_leb a.1 b.1) l). clear l. intros l. unfold ParseQuery.
  destruct l as [|kv l]; [done|]. rewrite bool_decide_eq_false_2.
  2: { destruct l as [|p l]; cbn [fmap list_fmap join]; intros H; destruct (QueryEscape kv.1); discriminate H. }
  change "&" with (String "&"%char ""). rewrite split_join; [|done|].
  2: { apply forallb_forall. intros x Hx. apply list_elem_of_In, list_elem_of_fmap in Hx as (p & -> & _).
       rewrite !free_of_app, !(all_bytes_free _ "&" _ eq_refl (QueryEscape_bytes _)). reflexivity. }
  generalize (kv :: l). clear. induction l as [|[k v] l IH]; [done|]. cbn [fmap list_fmap foldr]. rewrite parse_pair_escaped.
  change (fmap (FMap := list_fmap)) with (@fmap list _ (string * string) string) in IH. by rewrite IH.
Qed.

Lemma Encode_bytes l : all_bytes query_byte (Encode l) = true.
Proof.
  assert (forall s, all_bytes query_byte (QueryEscape s) = true) as HE.
  { intros s. eapply all_bytes_impl, QueryEscape_bytes. clear. intros c. destruct c as [[] [] [] [] [] [] [] []]; vm_compute; done. }
  unfold Encode. generalize (sort_by (fun a b : string * string => str_leb a.1 b.1) l). clear l.
  assert (forall p : string * string, all_bytes query_byte (QueryEscape p.1 +:+ "=" +:+ QueryEscape p.2) = true) as HP.
  { intros p. by rewrite !all_bytes_app, !HE. }
  intros l. induction l as [|p [|p' l] IH]; [done|exact (HP p)|].
  change (join "&" ((fun kv => QueryEscape kv.1 +:+ "=" +:+ QueryEscape kv.2) <$> (p :: p' :: l))) with
    ((QueryEscape p.1 +:+ "=" +:+ QueryEscape p.2) +:+ "&" +:+ join "&" ((fun kv => QueryEscape kv.1 +:+ "=" +:+ QueryEscape kv.2) <$> (p' :: l))).
  rewrite all_bytes_app, HP. exact IH.
Qed.

(** ** The requests of a call *)

Lemma plain_seg_ok s : plain_id s = true -> seg_ok (PathEscape s) = true.
Proof.
  intros H. unfold seg_ok. rewrite PathEscape_free by done. rewrite andb_true_r. apply plain_id_spec in H as (H0 & H1 & H2).
  apply plain_id_spec. split; [by apply PathEscape_nonempty|]. split; intros He.
  - by apply H1, (PathEscape_dots s "."); auto.
  - by apply H2, (PathEscape_dots s ".."); auto.
Qed.

Definition literals_ok (pattern : list segment) : bool :=
  forallb (fun x => match x with Lit s => safe_id s && plain_id s | Par => true end) pattern.

Lemma fill_escape pattern args : literals_ok pattern = true -> PathEscape <$> fill pattern args = fill pattern (PathEscape <$> args).
Proof.
  revert args. induction pattern as [|[s|] pattern IH]; intros args H; [done| |]; cbn [literals_ok forallb] in H.
  - apply andb_true_iff in H as [Hs H]. apply andb_true_iff in Hs as [Hs _]. cbn [fill fmap list_fmap]. rewrite PathEscape_safe by done.
    f_equal. by apply IH.
  - destruct args as [|a args]; [done|]. cbn [fill fmap list_fmap]. f_equal. by apply IH.
Qed.

Lemma fill_plain pattern args : literals_ok pattern = true -> forallb plain_id args = true -> forallb plain_id (fill pattern args) = true.
Proof.
  revert args. induction pattern as [|[s|] pattern IH]; intros args H Ha; [done| |]; cbn [literals_ok forallb] in H.
  - apply andb_true_iff in H as [Hs H]. apply andb_true_iff in Hs as [_ Hs]. cbn [fill forallb]. rewrite Hs. by apply IH.
  - destruct args as [|a args]; [done|]. cbn [fill forallb] in Ha |- *. apply andb_true_iff in Ha as [-> Ha]. by apply IH.
Qed.

Lemma escaped_seg_ok raws : forallb plain_id raws = true -> forallb seg_ok (PathEscape <$> raws) = true.
Proof. induction raws as [|s raws IH]; [done|]. cbn [forallb fmap list_fmap]. rewrite !andb_true_iff. intros [Hs H]. auto using plain_seg_ok. Qed.

Section Requests.
Variables (server base : URL).
Hypothesis (Hserver : u_Path server = "/") (Hbase : u_Path base = "").

Lemma new_request_at method pattern args p content r :
  literals_ok pattern = true -> forallb plain_id args = true -> pattern <> [] -> (args = [] -> hd Par pattern <> Par) ->
  p = path_text (fill pattern (PathEscape <$> args)) -> new_request server method p content = Ok r ->
  rq_Method r = method /\ rq_URL r = {| u_Scheme := u_Scheme server; u_Host := u_Host server;
                                       u_Path := path_text (PathEscape <$> fill pattern args); u_RawQuery := "" |}.
Proof.
  intros Hl Ha Hne Hhd -> [= <-]. cbn [rq_Method rq_URL]. split; [done|]. rewrite Hserver, fill_escape by done.
  assert (forall s, has_prefix "" s = true) as -> by (by intros []).
  change (String "." (path_text (fill pattern (PathEscape <$> args)))) with ("." +:+ path_text (fill pattern (PathEscape <$> args))).
  rewrite resolve_root; [done|rewrite <- fill_escape by done; by apply escaped_seg_ok, fill_plain|].
  destruct pattern as [|[s|] pattern]; [done..|]. destruct args; [|done]. by destruct (Hhd eq_refl).
Qed.

Lemma v2_request_at method pattern args p query body r :
  literals_ok pattern = true -> p = path_text (fill pattern (PathEscape <$> args)) +:+ match query with Some l => "?" +:+ Encode l | None => "" end ->
  v2_request base method p body = Ok r ->
  rq_Method r = method /\ rq_URL r = {| u_Scheme := u_Scheme base; u_Host := u_Host base;
                                       u_Path := path_text (PathEscape <$> fill pattern args); u_RawQuery := Encode (default [] query) |}.
Proof.
  intros Hl -> H. unfold v2_request in H. rewrite <- fill_escape in H by done.
  assert (parse_target base (path_text (PathEscape <$> fill pattern args) +:+ match query with Some l => "?" +:+ Encode l | None => "" end) =
    Ok {| u_Scheme := u_Scheme base; u_Host := u_Host base; u_Path := path_text (PathEscape <$> fill pattern args); u_RawQuery := Encode (default [] query) |}) as Ht.
  { destruct query as [l|]; [exact (parse_target_plain base _ (Some (Encode l)) Hbase (Encode_bytes l))|].
    exact (parse_target_plain base _ None Hbase eq_refl). }
  rewrite Ht in H. destruct body as [[b|e]|]; [|done|]; injection H as <-; done.
Qed.
End Requests.

Ltac head_of f := lazymatch f with ?g _ => head_of g | _ => f end.

(** The ids the hand-written requests take as they are. *)
Definition raw_ids (q : api_request) : list string :=
  match q with
  | RFirewall q =>
      match q with
      | Firewall.GetFirewallGroup id | Firewall.PatchFirewallGroup id _ _ | Firewall.DeleteFirewallGroup id
      | Firewall.ListFirewallRules id | Firewall.CreateFirewallRule id _ | Firewall.ListFirewallResources id
      | Firewall.LinkFirewallResource id _ _ | Firewall.UnlinkFirewallResource id _ _ => [id]
      | Firewall.DeleteFirewallRule g r => [g; r]
      | _ => []
      end
  | RCdn q =>
      match q with
      | CdnExternal.GetCDNHTTPResource id | CdnExternal.GetCDNHTTPResourceConfiguration id | CdnExternal.PatchCDNHTTPResource id _
      | CdnExternal.DeleteCDNHTTPResource id | CdnExternal.ClearCDNCache id _ _ | CdnExternal.ListCDNCertificates id
      | CdnExternal.ListCDNCertificateTasks id | CdnExternal.DeleteCDNCertificate id => [id]
      | _ => []
      end
  | RStorage (Storage.GetStorageUserV2 id) | RStorage (Storage.DeleteStorageUserV2 id) => [id]
  | _ => []
  end.

(** A call whose ids a path can carry: none empty or a dot segment, and those that are
    not escaped in need of no escaping. *)
Definition well_addressed (q : api_request) : bool :=
  forallb plain_id (text <$> op_Args (operation_of q)) && forallb safe_id (raw_ids q).

Definition is_iam (q : api_request) : bool :=
  match q with
  | RStorage (Storage.GetUserPolicyQuery _ _ _) | RStorage (Storage.PutUserPolicyQuery _ _ _ _)
  | RStorage (Storage.DeleteUserPolicyQuery _ _ _) => true
  | _ => false
  end.

Definition endpoint_named (name : string) : option endpoint := List.find (fun e => bool_decide (ep_Name e = name)) endpoints.

Lemma one_value_encode k v : one_value k v = Encode (unless_empty k v).
Proof. unfold one_value, unless_empty. by destruct (bool_decide _). Qed.

Lemma QueryEscape_safe s : safe_id s = true -> QueryEscape s = s.
Proof.
  unfold QueryEscape. induction s as [|c s IH]; [done|]. cbn [safe_id escape]. intros H. apply andb_true_iff in H as [Hc Hs].
  rewrite IH by done. unfold escape_byte, shouldEscape. rewrite Hc, bool_decide_eq_false_2; [done|]. intros ->. discriminate Hc.
Qed.

(** What the other files count as reads. *)
Definition counted_read (q : api_request) : option bool :=
  match q with
  | RCatalog _ => Some true
  | RRouter q => Some (negb (router_write q))
  | RFirewall q => Some (negb (fw_write q))
  | RCdn q => Some (negb (mutates q))
  | RStorage q => Some (s3_read q)
  | RRepository _ => Some true
  | _ => None
  end.

Section Shape.
Context {S : ParamStyle} {SL : ParamStyleLaws S}.
Variables (server base iam : URL).
Hypothesis (Hserver : u_Path server = "/") (Hbase : u_Path base = "") (Hhost : u_Host base = u_Host server).
Variable marshal : api_request -> result error string.
Variable json_encode : json -> string.

Notation route := (route server base iam marshal json_encode).

(** What the request of a call is: the method of its operation's endpoint, the pattern
    of the endpoint filled with the call's arguments, and the call's query. *)
Definition shaped (q : api_request) (r : http_request) : Prop :=
  exists e, endpoint_named (op_Name (operation_of q)) = Some e /\ rq_Method r = ep_Method e /\
    u_Host (rq_URL r) = u_Host server /\
    u_Path (rq_URL r) = path_text (PathEscape <$> fill (ep_Pattern e) (text <$> op_Args (operation_of q))) /\
    u_RawQuery (rq_URL r) = Encode (op_Query (operation_of q)).

Lemma shaped_generated q r e method p content :
  endpoint_named (op_Name (operation_of q)) = Some e -> ep_Method e = method -> literals_ok (ep_Pattern e) = true ->
  hd Par (ep_Pattern e) <> Par -> op_Query (operation_of q) = [] -> well_addressed q = true ->
  p = path_text (fill (ep_Pattern e) (PathEscape <$> (text <$> op_Args (operation_of q)))) ->
  new_request server method p content = Ok r -> shaped q r.
Proof.
  intros He Hm Hl Hhd Hq Hw Hp H. apply andb_true_iff in Hw as [Hw _].
  apply (new_request_at server Hserver method (ep_Pattern e) (text <$> op_Args (operation_of q))) in H as [H1 H2]; try done.
  - exists e. rewrite H1, H2, Hq. by repeat split.
  - intros Hn. by rewrite Hn in Hhd.
Qed.

Lemma shaped_v2 q r e method p query body :
  endpoint_named (op_Name (operation_of q)) = Some e -> ep_Method e = method -> literals_ok (ep_Pattern e) = true ->
  op_Query (operation_of q) = default [] query ->
  p = path_text (fill (ep_Pattern e) (PathEscape <$> (text <$> op_Args (operation_of q)))) +:+
      match query with Some l => "?" +:+ Encode l | None => "" end ->
  v2_request base method p body = Ok r -> shaped q r.
Proof.
  intros He Hm Hl Hq Hp H.
  apply (v2_request_at base Hbase method (ep_Pattern e) (text <$> op_Args (operation_of q))) with (query := query) in H as [H1 H2]; try done.
  exists e. rewrite H1, H2, Hq. by repeat split.
Qed.

Lemma unpaged method p : query_request server method p (Some (page_query no_page)) = new_request server method p None.
Proof. reflexivity. Qed.

Lemma unconfirmed_plain method p : query_request server method p (Some (confirm_query unconfirmed)) = new_request server method p None.
Proof. reflexivity. Qed.

Lemma no_params method p : query_request server method p None = new_request server method p None.
Proof. reflexivity. Qed.

(** The request of a generated operation: unfold its builder, style its parameters. *)
Ltac generated :=
  intros Hw H; unfold json_body in H; cbn [fmap option_fmap option_map] in H;
  try (destruct (marshal _) as [buf|]; [cbn [mbind result_bind] in H|discriminate H]);
  match type of H with ?f = Ok _ => let h := head_of f in unfold h in H end;
  rewrite ?style_path_string, ?style_path_int in H; cbn [mbind result_bind] in H;
  rewrite ?style_path_string, ?style_path_int in H; cbn [mbind result_bind] in H;
  cbn [fmap option_fmap option_map] in H; rewrite ?unpaged, ?unconfirmed_plain, ?no_params in H;
  (eapply shaped_generated; [vm_compute; reflexivity|reflexivity|reflexivity|discriminate|reflexivity|exact Hw| |exact H]);
  cbn [operation_of operation_catalog operation_router operation_network operation_fip operation_server operation_cluster operation_nodepool operation_addon operation_project operation_sshkey operation_registry operation_repository operation_firewall operation_cdn operation_storage op_Args fmap list_fmap text]; rewrite ?PathEscape_fmt_d; reflexivity.

Lemma route_catalog_shape q r : well_addressed (RCatalog q) = true -> route_catalog server q = Ok r -> shaped (RCatalog q) r.
Proof. destruct q; cbn [route_catalog]; generated. Qed.

Lemma route_router_shape q r : well_addressed (RRouter q) = true -> route_router server marshal q = Ok r -> shaped (RRouter q) r.
Proof. destruct q; cbn [route_router]; generated. Qed.

Lemma route_network_shape q r : well_addressed (RNetwork q) = true -> route_network server marshal q = Ok r -> shaped (RNetwork q) r.
Proof. destruct q; cbn [route_network]; generated. Qed.

Lemma route_fip_shape q r : well_addressed (RFloatingIP q) = true -> route_fip server marshal q = Ok r -> shaped (RFloatingIP q) r.
Proof. destruct q; cbn [route_fip]; generated. Qed.

Lemma route_server_shape q r : well_addressed (RServer q) = true -> route_server server marshal q = Ok r -> shaped (RServer q) r.
Proof. destruct q; cbn [route_server]; generated. Qed.

Lemma route_cluster_shape q r : well_addressed (RCluster q) = true -> route_cluster server marshal q = Ok r -> shaped (RCluster q) r.
Proof. destruct q; cbn [route_cluster]; generated. Qed.

Lemma route_nodepool_shape q r : well_addressed (RNodepool q) = true -> route_nodepool server marshal q = Ok r -> shaped (RNodepool q) r.
Proof. destruct q; cbn [route_nodepool]; generated. Qed.

Lemma route_addon_shape q r : well_addressed (RAddon q) = true -> route_addon server marshal q = Ok r -> shaped (RAddon q) r.
Proof. destruct q; cbn [route_addon]; generated. Qed.

Lemma route_project_shape q r : well_addressed (RProject q) = true -> route_project server marshal q = Ok r -> shaped (RProject q) r.
Proof. destruct q; cbn [route_project]; generated. Qed.

Lemma route_sshkey_shape q r : well_addressed (RSSHKey q) = true -> route_sshkey server marshal q = Ok r -> shaped (RSSHKey q) r.
Proof. destruct q; cbn [route_sshkey]; generated. Qed.

Lemma route_registry_shape q r : well_addressed (RRegistry q) = true -> route_registry server marshal q = Ok r -> shaped (RRegistry q) r.
Proof. destruct q; cbn [route_registry]; generated. Qed.

Lemma route_repository_shape q r : well_addressed (RRepository q) = true -> route_repository server q = Ok r -> shaped (RRepository q) r.
Proof. destruct q; cbn [route_repository]; generated. Qed.

(** The request of a hand-written operation: its text is the escaped one where no id
    needs escaping. *)
Ltac handwritten ql :=
  intros Hw H; apply andb_true_iff in Hw as [_ Hw]; cbn [raw_ids forallb] in Hw; split_and_or;
  lazymatch type of H with v2_request _ _ _ _ = _ => idtac | ?f = Ok _ => let h := head_of f in unfold h in H end;
  (eapply shaped_v2 with (query := ql); [vm_compute; reflexivity|reflexivity|reflexivity|reflexivity| |exact H]);
  cbn [operation_of operation_catalog operation_router operation_network operation_fip operation_server operation_cluster operation_nodepool operation_addon operation_project operation_sshkey operation_registry operation_repository operation_firewall operation_cdn operation_storage op_Args fmap list_fmap text]; rewrite ?append_nil_r;
  repeat match goal with Hs : safe_id ?x = true |- _ => rewrite (PathEscape_safe x Hs); clear Hs end;
  unfold path_text, firewallBase, cdnBase, cdnCertBase; cbn [fill join ep_Pattern]; rewrite ?append_assoc; reflexivity.

Lemma route_storage_shape q r : well_addressed (RStorage q) = true -> is_iam (RStorage q) = false ->
  route_storage server base iam marshal json_encode q = Ok r -> shaped (RStorage q) r.
Proof.
  intros Hw Hi. revert Hw. destruct q; try discriminate Hi; cbn [route_storage]; first [generated|handwritten (@None (list (string * string)))].
Qed.
Lemma route_firewall_shape q r : well_addressed (RFirewall q) = true ->
  route_firewall base marshal json_encode q = Ok r -> shaped (RFirewall q) r.
Proof.
  destruct q as [n d p| | | | | | | | |g i t|g i t|]; cbn [route_firewall]; unfold RoutesV2.CreateFirewallGroup, RoutesV2.LinkFirewallResource,
    RoutesV2.UnlinkFirewallResource, RoutesV2.resourcePath; rewrite ?one_value_encode.
  1: handwritten (Some (unless_empty "policy" p)).
  9-10: handwritten (Some (unless_empty "resource_type" t)).
  all: handwritten (@None (list (string * string))).
Qed.

Lemma route_cdn_shape q r : well_addressed (RCdn q) = true -> route_cdn base marshal json_encode q = Ok r -> shaped (RCdn q) r.
Proof.
  destruct q as [| | | | | | | |id| |id| | |]; cbn [route_cdn].
  9, 11: intros Hw H; assert (safe_id id = true) as Hid by (apply andb_true_iff in Hw as [_ Hw]; by apply andb_true_iff in Hw as [Hw _]);
    rewrite <- (QueryEscape_safe id Hid) in H; revert Hw H; handwritten (Some [("resource_id", id)]).
  all: handwritten (@None (list (string * string))).
Qed.

(** A call with proper ids, made into a request, is shaped as its operation. *)
Lemma route_shape q r : well_addressed q = true -> is_iam q = false -> route q = Ok r -> shaped q r.
Proof.
  intros Hw Hi H. destruct q; cbn [Wire.route] in H;
    first [by apply route_catalog_shape|by apply route_router_shape|by apply route_network_shape|by apply route_fip_shape
          |by apply route_server_shape|by apply route_cluster_shape|by apply route_nodepool_shape|by apply route_addon_shape
          |by apply route_project_shape|by apply route_sshkey_shape|by apply route_registry_shape|by apply route_repository_shape
          |by apply route_firewall_shape|by apply route_cdn_shape|by apply route_storage_shape].
Qed.
(** ** Dispatch *)

Fixpoint params_of (pattern : list segment) : nat :=
  match pattern with
  | [] => O
  | Par :: pattern => Datatypes.S (params_of pattern)
  | Lit _ :: pattern => params_of pattern
  end.

Lemma pick_fill pattern args : params_of pattern = length args -> pick pattern (PathEscape <$> fill pattern args) = PathEscape <$> args.
Proof.
  revert args. induction pattern as [|[x|] pattern IH]; intros args H; cbn [params_of] in H.
  - by destruct args.
  - cbn [fill fmap list_fmap pick]. by apply IH.
  - destruct args as [|a args]; [done|]. injection H as H. cbn [fill fmap list_fmap pick]. f_equal. by apply IH.
Qed.

Lemma decimal_not_presets n : PathEscape (fmt_d n) <> "presets".
Proof.
  rewrite PathEscape_fmt_d. intros Hs. pose proof (proj1 (fmt_d_digits (Z.abs n) (Z.abs_nonneg n))) as H.
  destruct n as [|p|p]; [discriminate Hs| |discriminate Hs].
  change (Z.abs (Z.pos p)) with (Z.pos p) in H. rewrite Hs in H. discriminate H.
Qed.

(** No other endpoint before it fits the path of a call. *)
Lemma endpoint_found q e : is_iam q = false -> endpoint_named (op_Name (operation_of q)) = Some e ->
  let segs := PathEscape <$> fill (ep_Pattern e) (text <$> op_Args (operation_of q)) in
  List.find (fun e' => if bool_decide (ep_Method e' = ep_Method e) then fits (ep_Pattern e') segs else false) endpoints = Some e /\
  params_of (ep_Pattern e) = length (op_Args (operation_of q)) /\ segs <> [].
Proof.
  intros Hi He segs. subst segs. destruct q as [q|q|q|q|q|q|q|q|q|q|q|q|q|q|q]; destruct q; try discriminate Hi.
  all: vm_compute in He; injection He as <-.
  all: split; [|split; [reflexivity|discriminate]].
  all: try (vm_compute; reflexivity).
  all: cbn [operation_of operation_registry operation_repository op_Args fmap list_fmap text fill ep_Pattern]; pose proof (decimal_not_presets) as Hn;
    match goal with |- context [fmt_d ?n] => specialize (Hn n); revert Hn; generalize (PathEscape (fmt_d n)) end; intros x Hx;
    cbn [endpoints List.find ep_Method ep_Pattern fits]; rewrite (bool_decide_eq_false_2 (x = "presets")) by done; vm_compute; reflexivity.
Qed.

Lemma dispatch_path method segs : segs <> [] -> forallb (free_of "/") segs = true ->
  dispatch method (path_text segs) =
    match List.find (fun e => if bool_decide (ep_Method e = method) then fits (ep_Pattern e) segs else false) endpoints with
    | Some e => Some (ep_Name e, unescape encodePathSegment <$> pick (ep_Pattern e) segs)
    | None => None
    end.
Proof.
  intros Hne H. unfold dispatch, path_text. change ("/" +:+ join "/" segs) with ("" +:+ String "/" (join (String "/" "") segs)).
  by rewrite split_byte_cons, split_join.
Qed.

(** C18. Every call with proper ids reaches its own operation: the request its client method
    sends, given to a server that goes by method and path, is the operation of that
    name with the call's own arguments, on the API's host and with the call's query. *)
Theorem request_dispatched q r (Hw : well_addressed q = true) (Hi : is_iam q = false) (Hr : route q = Ok r) :
  dispatch (rq_Method r) (u_Path (rq_URL r)) = Some (op_Name (operation_of q), (fun p => Ok (text p)) <$> op_Args (operation_of q)) /\
  u_Host (rq_URL r) = u_Host server /\
  ParseQuery (u_RawQuery (rq_URL r)) = Ok (op_Query (operation_of q)).
Proof.
  destruct (route_shape q r Hw Hi Hr) as (e & He & -> & -> & -> & ->). destruct (endpoint_found q e Hi He) as (Hf & Hn & Hne).
  split; [|split; [done|]].
  - rewrite dispatch_path, Hf.
    2: done.
    2: { apply forallb_forall. intros x Hx. apply list_elem_of_In, list_elem_of_fmap in Hx as (y & -> & _). by apply PathEscape_free. }
    rewrite pick_fill by (by rewrite length_fmap). rewrite <- !list_fmap_compose.
    apply find_some in He as [_ He]. apply bool_decide_eq_true in He as ->. do 2 f_equal.
    apply list_fmap_ext. intros i p _. apply unescape_escape.
  - rewrite ParseQuery_Encode. destruct q as [q|q|q|q|q|q|q|q|q|q|q|q|q|q|q]; destruct q; try reflexivity;
      cbn [operation_of operation_firewall op_Query]; unfold unless_empty; by destruct (bool_decide _).
Qed.
(** *** What is read *)

Lemma v2_request_method method p body r : v2_request base method p body = Ok r -> rq_Method r = method.
Proof.
  unfold v2_request. destruct body as [[b|e]|]; cbn [mbind result_bind]; [|done|]; destruct (parse_target base p); try done; by intros [= <-].
Qed.

Lemma v2_request_host method p body r : v2_request base method p body = Ok r -> u_Host (rq_URL r) = u_Host base.
Proof.
  assert (forall u, parse_target base p = Ok u -> u_Host u = u_Host base) as Hu.
  { intros u. unfold parse_target. destruct (cut _ _) as [x f]. destruct (cut _ _) as [y z]. intros H.
    apply bind_ok in H as (path & _ & H). apply bind_ok in H as (fragment & _ & H). by injection H as <-. }
  unfold v2_request. destruct body as [[b|e]|]; cbn [mbind result_bind]; [|done|]; destruct (parse_target base p) as [u|] eqn:E; try done;
    intros [= <-]; by apply Hu.
Qed.

(** Whatever the ids, the request of a call is for the API's host. *)
Lemma route_host q r : is_iam q = false -> route q = Ok r -> u_Host (rq_URL r) = u_Host server.
Proof.
  intros Hi Hr. destruct q as [q|q|q|q|q|q|q|q|q|q|q|q|q|q|q]; destruct q; try discriminate Hi;
    cbn [Wire.route route_catalog route_router route_network route_fip route_server route_cluster route_nodepool route_addon route_project
         route_sshkey route_registry route_firewall route_cdn route_storage route_repository] in Hr; unfold json_body in Hr;
    try (destruct (marshal _) as [buf|]; [cbn [mbind result_bind] in Hr|discriminate Hr]);
    match type of Hr with ?f = Ok _ => let h := head_of f in unfold h in Hr end;
    rewrite ?style_path_string, ?style_path_int in Hr; cbn [mbind result_bind] in Hr;
    rewrite ?style_path_string, ?style_path_int in Hr; cbn [mbind result_bind] in Hr;
    first [rewrite <- Hhost; exact (v2_request_host _ _ _ _ Hr)|injection Hr as <-; reflexivity].
Qed.

(** The calls the other files' theorems count as reads are the ones sent as GETs: a
    pass said only to read changes nothing upstream. *)
Lemma counted_get q r (Hi : is_iam q = false) (Hr : route q = Ok r) (Hq : counted_read q <> None) :
  counted_read q = Some (bool_decide (rq_Method r = "GET")).
Proof.
  assert (forall m, counted_read q = Some (bool_decide (m = "GET")) -> rq_Method r = m ->
    counted_read q = Some (bool_decide (rq_Method r = "GET"))) as Hm by (by intros m H ->).
  destruct q as [q|q|q|q|q|q|q|q|q|q|q|q|q|q|q]; destruct q; try discriminate Hi; try (by destruct Hq);
    cbn [Wire.route route_catalog route_router route_firewall route_cdn route_storage route_repository] in Hr; unfold json_body in Hr;
    try (destruct (marshal _) as [buf|]; [cbn [mbind result_bind] in Hr|discriminate Hr]);
    match type of Hr with ?f = Ok _ => let h := head_of f in unfold h in Hr end;
    rewrite ?style_path_string, ?style_path_int in Hr; cbn [mbind result_bind] in Hr;
    rewrite ?style_path_string, ?style_path_int in Hr; cbn [mbind result_bind] in Hr;
    first [eapply Hm; [|exact (v2_request_method _ _ _ _ Hr)]; reflexivity|injection Hr as <-; reflexivity].
Qed.

(** No listing asks for a page: where the API answers a hundred rows by default, a
    hundred rows are all the client sees. *)
Definition is_listing (q : api_request) : bool :=
  match q with
  | RRouter q => match q with Router.GetRouters | Router.GetNetworks _ | Router.GetFloatingIps | Router.GetStaticRoutes _ => true | _ => false end
  | RCluster q => match q with Cluster.GetClusters | Cluster.GetRouters => true | _ => false end
  | RNodepool q => match q with Nodepool.GetClusterNodeGroups _ | Nodepool.GetClusterNodesFromGroup _ _ => true | _ => false end
  | RAddon q => match q with Addon.GetKubernetesAddons _ => true | _ => false end
  | RFirewall q => match q with Firewall.ListFirewallGroups | Firewall.ListFirewallRules _ | Firewall.ListFirewallResources _ => true | _ => false end
  | RStorage q => match q with Storage.ListStorageUsersV2 | Storage.GetStorageUsers => true | _ => false end
  | RRepository _ => true
  | RCdn q => match q with CdnExternal.ListCDNHTTPResources | CdnExternal.ListAllCDNCertificates => true | _ => false end
  | _ => false
  end.

Theorem listings_unpaged q r (Hl : is_listing q = true) (Hw : well_addressed q = true) (Hr : route q = Ok r) :
  u_RawQuery (rq_URL r) = "".
Proof.
  assert (is_iam q = false) as Hi by (destruct q as [q|q|q|q|q|q|q|q|q|q|q|q|q|q|q]; destruct q; done).
  destruct (route_shape q r Hw Hi Hr) as (e & _ & _ & _ & _ & ->).
  destruct q as [q|q|q|q|q|q|q|q|q|q|q|q|q|q|q]; destruct q; try discriminate Hl; reflexivity.
Qed.
End Shape.

(** ** Witnesses and counterexamples *)

Definition api_host : URL := {| u_Scheme := "https"; u_Host := "api.timeweb.cloud"; u_Path := ""; u_RawQuery := "" |}.
Definition api_server : URL := {| u_Scheme := "https"; u_Host := "api.timeweb.cloud"; u_Path := "/"; u_RawQuery := "" |}.
Definition iam_host : URL := {| u_Scheme := "https"; u_Host := "panel.s3.twcstorage.ru"; u_Path := "/"; u_RawQuery := "" |}.

Definition sample_route : api_request -> result error http_request := route api_server api_host iam_host (fun _ => Ok "{}") (fun _ => "{}").

Definition line (r : result error http_request) : option (string * string * string) :=
  match r with Ok r => Some (rq_Method r, u_Path (rq_URL r), u_RawQuery (rq_URL r)) | Err _ => None end.

Lemma request_dispatched_witness :
  dispatch "DELETE" "/api/v1/routers/r-1/networks/my%20net/nat" = Some ("DeleteRouterNat", [Ok "r-1"; Ok "my net"]).
Proof.
  exact (proj1 (request_dispatched api_server api_host iam_host eq_refl eq_refl eq_refl (fun _ => Ok "{}") (fun _ => "{}")
    (RRouter (Router.DeleteRouterNat "r-1" "my net")) _ eq_refl eq_refl eq_refl)).
Defined.

Lemma counted_get_witness : counted_read (RRouter (Router.GetDnat "r-1")) = Some true.
Proof.
  exact (counted_get api_server api_host iam_host (fun _ => Ok "{}") (fun _ => "{}")
    (RRouter (Router.GetDnat "r-1")) _ eq_refl eq_refl ltac:(discriminate)).
Defined.

Lemma listings_unpaged_witness : exists r, sample_route (RFirewall (Firewall.ListFirewallRules "g-1")) = Ok r /\ u_RawQuery (rq_URL r) = "".
Proof.
  eexists. split; [reflexivity|]. apply (listings_unpaged api_server api_host iam_host eq_refl eq_refl eq_refl (fun _ => Ok "{}") (fun _ => "{}")
    (RFirewall (Firewall.ListFirewallRules "g-1"))); reflexivity.
Defined.

(** An id of two dots climbs out of its collection. *)
Example dots_climb : line (sample_route (RRouter (Router.DeleteRouterNetwork ".." "n-1"))) = Some ("DELETE", "/api/v1/networks/n-1", "").
Proof. reflexivity. Qed.

(** An empty id is the collection itself, with a slash. *)
Example empty_id_is_collection : line (sample_route (RFloatingIP (FloatingIP.DeleteFloatingIP ""))) = Some ("DELETE", "/api/v1/floating-ips/", "").
Proof. reflexivity. Qed.

(** The hand-written paths do not escape their ids: deleting a group of this name is
    deleting a rule of another group. *)
Example unescaped_id_deletes_rule :
  sample_route (RFirewall (Firewall.DeleteFirewallGroup "g-1/rules/r-1")) = sample_route (RFirewall (Firewall.DeleteFirewallRule "g-1" "r-1")) /\
  line (sample_route (RStorage (Storage.DeleteStorageUserV2 "u-1?force=1"))) = Some ("DELETE", "/api/v2/storages/users/u-1", "force=1").
Proof. split; reflexivity. Qed.

(** The form of an IAM query, read back. *)
Lemma iam_form_parses params :
  ParseQuery (iam_form params) = Ok (sort_by (fun a b => str_leb a.1 b.1) (params ++ [("Version", iamQueryVersion)])).
Proof. apply ParseQuery_Encode. Qed.
