(* ===== verification/Transport.v ===== *)
(** * Transport: the client's HTTP layer

    clients/timeweb/client.go: the process-wide limiter and base transport of a host,
    [New], the transport that adds the credential, the redirect policy, and what
    [net/http]'s client makes of them: a request, its redirects, and what goes out on
    the network. The network, the parser of URLs, the resolution of a Location and the
    token bucket of golang.org/x/time/rate are parameters nothing is assumed of. *)

From Stdlib Require Import QArith.
From S2P Require Import Prelude Errors Timeweb Url Routes Wire.

#[local] Open Scope Z_scope.

(** ** Configuration and shared state *)

Definition DefaultBaseURL : string := "https://api.timeweb.cloud".
Definition DefaultRateLimit : Q := 2 # 1.
Definition DefaultBurst : Z := 3.
(** Seconds. *)
Definition DefaultTimeout : Z := 60.

Record Config := { cf_Token : string; cf_BaseURL : string; cf_RateLimit : Q; cf_Burst : Z; cf_Timeout : Z }.

(** A limiter and a base transport are known by the order they were made in. *)
Record limiter := { lim_ID : nat; lim_Rate : Q; lim_Burst : Z }.

Record shared := { sharedLimiters : gmap string limiter; sharedTransports : gmap string nat; next_id : nat }.

Definition nothing_shared : shared := {| sharedLimiters := ∅; sharedTransports := ∅; next_id := O |}.

(** [authTransport] over the base transport of its host, and the client around it. *)
Record authTransport := { at_token : string; at_host : string; at_next : nat }.

Record client := { cl_limiter : limiter; cl_transport : authTransport; cl_timeout : Z; cl_baseURL : string; cl_server : string }.

Section New.
(** [url.Parse]; [None] is its error. *)
Variable url_Parse : string -> option URL.

Definition hostKey (baseURL : string) : string :=
  match url_Parse baseURL with
  | Some u => if bool_decide (u_Host u = "") then baseURL else u_Host u
  | None => baseURL
  end.

(** The limiter of a host, made by the first caller. *)
Definition sharedLimiter (baseURL : string) (rl : Q) (burst : Z) (s : shared) : limiter * shared :=
  match sharedLimiters s !! hostKey baseURL with
  | Some l => (l, s)
  | None =>
      let l := {| lim_ID := next_id s; lim_Rate := rl; lim_Burst := burst |} in
      (l, {| sharedLimiters := <[hostKey baseURL := l]> (sharedLimiters s); sharedTransports := sharedTransports s; next_id := S (next_id s) |})
  end.

Definition sharedTransport (baseURL : string) (s : shared) : nat * shared :=
  match sharedTransports s !! hostKey baseURL with
  | Some t => (t, s)
  | None =>
      (next_id s, {| sharedLimiters := sharedLimiters s; sharedTransports := <[hostKey baseURL := next_id s]> (sharedTransports s);
                     next_id := S (next_id s) |})
  end.

Definition has_slash (s : string) : bool := match last_index_byte s "/"%char with Some i => Nat.eqb (S i) (String.length s) | None => false end.

(** [generated.NewClient]: the server URL ends in a slash. No option of [New]'s fails. *)
Definition NewClient (server : string) : string := if has_slash server then server else server +:+ "/".

Definition base_of (cfg : Config) : string := if bool_decide (cf_BaseURL cfg = "") then DefaultBaseURL else cf_BaseURL cfg.

(** [New] without an [HTTPTransport] of the caller's. *)
Definition New (cfg : Config) (s : shared) : result error client * shared :=
  if bool_decide (trim_space (cf_Token cfg) = "") then (Err (ErrorString "timeweb: token is required"), s)
  else
    let baseURL := base_of cfg in
    let rl := if Qeq_bool (cf_RateLimit cfg) 0 then DefaultRateLimit else cf_RateLimit cfg in
    let burst := if cf_Burst cfg =? 0 then DefaultBurst else cf_Burst cfg in
    let timeout := if cf_Timeout cfg =? 0 then DefaultTimeout else cf_Timeout cfg in
    let '(lim, s) := sharedLimiter baseURL rl burst s in
    let '(transport, s) := sharedTransport baseURL s in
    let apiHost := match url_Parse baseURL with Some u => u_Host u | None => "" end in
    (Ok {| cl_limiter := lim; cl_transport := {| at_token := cf_Token cfg; at_host := apiHost; at_next := transport |};
           cl_timeout := timeout; cl_baseURL := baseURL; cl_server := NewClient baseURL |}, s).

(** A process constructs clients one after the other: [sharedMu] orders the accesses. *)
Fixpoint constructs (cfgs : list Config) (s : shared) : list (result error client) * shared :=
  match cfgs with
  | [] => ([], s)
  | cfg :: cfgs =>
      let '(c, s) := New cfg s in
      let '(cs, s) := constructs cfgs s in
      (c :: cs, s)
  end.
End New.

(** ** A request and its redirects *)

(** What goes out: a request with its headers and body. *)
Record wire_request := { w_Method : string; w_URL : URL; w_Header : gmap string string; w_Body : option string }.

(** What comes back: the status, the Location, and the response as the caller reads it. *)
Record wire_response := { r_StatusCode : Z; r_Location : string; r_Response : http_response }.

(** The network, below the shared transport: a failure is its text. *)
Class Network := { Net : Type; send : wire_request -> Net -> result string wire_response * Net }.

Definition EqualFold (s t : string) : bool := bool_decide (lower_with true s = lower_with true t).

(** [authTransport.RoundTrip]: the credential is added to a copy, for the API's host. *)
Definition RoundTrip (t : authTransport) (req : wire_request) : wire_request :=
  let h := if bool_decide (at_host t = "") || EqualFold (u_Host (w_URL req)) (at_host t)
           then <["Authorization" := "Bearer " +:+ at_token t]> (w_Header req) else w_Header req in
  {| w_Method := w_Method req; w_URL := w_URL req; w_Header := <["Accept" := "application/json"]> h; w_Body := w_Body req |}.

Definition cross_host (host apiHost : string) : error :=
  ErrorString ("timeweb: refusing cross-host redirect to " +:+ quote host +:+ " (credential is bound to " +:+ quote apiHost +:+ ")").

(** The [CheckRedirect] of [New], after [via] requests. *)
Definition CheckRedirect (apiHost : string) (u : URL) (via : nat) : option error :=
  if negb (bool_decide (apiHost = "")) && negb (EqualFold (u_Host u) apiHost) then Some (cross_host (u_Host u) apiHost)
  else if (10 <=? via)%nat then Some (ErrorString "timeweb: stopped after 10 redirects")
  else None.

(** [net/http]'s [redirectBehavior], for requests that can be sent again: the method of
    the next request, and whether the body goes along. *)
Definition redirectBehavior (method : string) (status : Z) : option (string * bool) :=
  if bool_decide (status ∈ [301; 302; 303]) then
    Some (if bool_decide (method = "GET") || bool_decide (method = "HEAD") then method else "GET", false)
  else if bool_decide (status ∈ [307; 308]) then Some (method, true)
  else None.

Definition url_string (u : URL) : string :=
  u_Scheme u +:+ "://" +:+ u_Host u +:+ u_Path u +:+ (if bool_decide (u_RawQuery u = "") then "" else "?" +:+ u_RawQuery u).

(** [refererForURL], no Referer being set explicitly. *)
Definition refererForURL (last new : URL) : string :=
  if bool_decide (u_Scheme last = "https") && bool_decide (u_Scheme new = "http") then "" else url_string last.

(** The request of a redirect: the first one's headers, without those of a body that is
    dropped, and the Referer. No sensitive header is ever among them: the credential is
    added below. *)
Definition redirected (first : wire_request) (last u : URL) (method : string) (includeBody : bool) : wire_request :=
  let h := if includeBody then w_Header first else delete "Content-Type" (w_Header first) in
  let ref := refererForURL last u in
  {| w_Method := method; w_URL := u; w_Header := if bool_decide (ref = "") then h else <["Referer" := ref]> h;
     w_Body := if includeBody then w_Body first else None |}.

(** [url.Error], with the verb of a method. *)
Definition urlErrorOp (method : string) : string :=
  match method with String c rest => String c (lower_with false rest) | EmptyString => "Get" end.

Definition url_error (first : wire_request) (u : string) (e : error) : error :=
  wrap_pre (urlErrorOp (w_Method first) +:+ " " +:+ quote u +:+ ": ") e.

Section Do.
Context {N : Network}.

(** [URL.Parse] of a Location against the request's URL; [Err] is its error's text. *)
Variable resolve_location : URL -> string -> result string URL.

Variable t : authTransport.

(** [http.Client.do] from a request on, [via] having been sent: what was sent is
    recorded, and no fuel left is [None]. *)
Fixpoint do_loop (fuel : nat) (first req : wire_request) (via : nat) (w : Net)
  : option (result error http_response * Net * list wire_request) :=
  match fuel with
  | O => None
  | S fuel =>
      let out := RoundTrip t req in
      match send out w with
      | (Err msg, w) => Some (Err (url_error first (url_string (w_URL req)) (ErrorString msg)), w, [out])
      | (Ok resp, w) =>
          match redirectBehavior (w_Method req) (r_StatusCode resp) with
          | None => Some (Ok (r_Response resp), w, [out])
          | Some (method, includeBody) =>
              if bool_decide (r_Location resp = "") then Some (Ok (r_Response resp), w, [out])
              else
                match resolve_location (w_URL req) (r_Location resp) with
                | Err msg =>
                    Some (Err (url_error first (url_string (w_URL req)) (ErrorString
                      ("failed to parse Location header " +:+ quote (r_Location resp) +:+ ": " +:+ msg))), w, [out])
                | Ok u =>
                    match CheckRedirect (at_host t) u (S via) with
                    | Some e => Some (Err (url_error first (r_Location resp) e), w, [out])
                    | None =>
                        match do_loop fuel first (redirected first (w_URL req) u method includeBody) (S via) w with
                        | Some (r, w, sent) => Some (r, w, out :: sent)
                        | None => None
                        end
                    end
                end
          end
      end
  end.

(** The request of a builder, as [net/http] holds it. *)
Definition wire (r : http_request) : wire_request :=
  {| w_Method := rq_Method r; w_URL := rq_URL r;
     w_Header := match rq_Content r with Some (ct, _) => {["Content-Type" := ct]} | None => ∅ end;
     w_Body := match rq_Content r with Some (_, b) => Some b | None => None end |}.

(** Ten redirects at most: eleven rounds are enough ([do_enough]). *)
Definition Do (r : http_request) (w : Net) : option (result error http_response * Net * list wire_request) :=
  do_loop 11 (wire r) (wire r) O w.

(** ** A call of the client *)

(** [limiter.Wait]: lets the call through, or the context's error. *)
Variable Wait : Net -> option error * Net.

(** What a call leaves behind: waits at the limiter and requests on the wire. *)
Inductive event := Waited | Sent (r : wire_request).

(** A method of the generated client: build, wait in the request editor, do. *)
Definition generated_call (build : result error http_request) (w : Net) : option (result error http_response * Net * list event) :=
  match build with
  | Err e => Some (Err e, w, [])
  | Ok r =>
      match Wait w with
      | (Some e, w) => Some (Err e, w, [Waited])
      | (None, w) => match Do r w with Some (res, w, sent) => Some (res, w, Waited :: (Sent <$> sent)) | None => None end
      end
  end.

(** [doV2]: wait, build, do. *)
Definition doV2 (build : result error http_request) (w : Net) : option (result error http_response * Net * list event) :=
  match Wait w with
  | (Some e, w) => Some (Err (wrap_pre "timeweb: rate limiter: " e), w, [Waited])
  | (None, w) =>
      match build with
      | Err e => Some (Err e, w, [Waited])
      | Ok r => match Do r w with Some (res, w, sent) => Some (res, w, Waited :: (Sent <$> sent)) | None => None end
      end
  end.

(** A controller's API call. *)
Definition hand_written (q : api_request) : bool :=
  match q with
  | RFirewall _ | RCdn _ => true
  | RStorage q => match q with
                  | Storage.ListStorageUsersV2 | Storage.GetStorageUserV2 _ | Storage.CreateStorageUserV2 _ | Storage.DeleteStorageUserV2 _ => true
                  | _ => false
                  end
  | _ => false
  end.

Definition perform (q : api_request) (build : result error http_request) (w : Net) : option (result error http_response * Net * list event) :=
  if hand_written q then doV2 build w else generated_call build w.
End Do.
