(* ===== verification/TransportFacts.v ===== *)
(** * TransportFacts: where the credential goes, and what a host's clients share

    Theorems about [Transport]: the redirect loop ends; whatever the network answers, a
    call of a controller sends its requests to the API's host alone, each with its own
    client's token, after one wait at the limiter; what is counted as a read sends GETs
    alone; the clients of a host share one limiter and one base transport. *)

From Stdlib Require Import QArith.
From S2P Require Import Prelude Errors Timeweb Url Routes RoutesV2 Router Network FloatingIP Server Cluster Nodepool Addon Project SSHKey Registry Repository Firewall CdnExternal Storage Wire WireFacts Transport.

#[local] Open Scope Z_scope.

Section Facts.
Context {N : Network}.
Variable resolve_location : URL -> string -> result string URL.
Variable t : authTransport.

Notation do_loop := (do_loop resolve_location t).
Notation Do := (Do resolve_location t).

(** ** The redirect loop *)

(** Where a redirect may go. *)
Definition allowed (u : URL) : Prop := at_host t = "" \/ EqualFold (u_Host u) (at_host t) = true.

Lemma CheckRedirect_none u via : CheckRedirect (at_host t) u via = None -> allowed u /\ (via < 10)%nat.
Proof.
  unfold CheckRedirect, allowed. destruct (decide (at_host t = "")) as [Hh|Hh].
  - rewrite bool_decide_eq_true_2 by done. cbn [negb andb]. destruct (Nat.leb_spec 10 via); [done|]. auto.
  - rewrite bool_decide_eq_false_2 by done. cbn [negb andb]. destruct (EqualFold _ _); [|done]. cbn [negb].
    destruct (Nat.leb_spec 10 via); [done|]. auto.
Qed.

Lemma do_loop_enough fuel first req via w : (11 <= fuel + via)%nat -> (via <= 9)%nat -> do_loop fuel first req via w <> None.
Proof.
  revert req via w. induction fuel as [|fuel IH]; intros req via w Hf Hv; [lia|]. cbn [Transport.do_loop].
  destruct (send _ w) as [[resp|msg] w']; [|done]. destruct (redirectBehavior _ _) as [[method ib]|]; [|done].
  destruct (bool_decide _); [done|]. destruct (resolve_location _ _) as [u|msg]; [|done].
  destruct (CheckRedirect _ _ _) as [e|] eqn:Ec; [done|]. apply CheckRedirect_none in Ec as [_ Hlt].
  specialize (IH (redirected first (w_URL req) u method ib) (S via) w' ltac:(lia) ltac:(lia)).
  by destruct (do_loop fuel _ _ _ w') as [[[r w''] sent]|].
Qed.

(** A request of the client ends. *)
Lemma do_enough r w : Do r w <> None.
Proof. apply do_loop_enough; lia. Qed.

(** What holds of a request and of each redirect it may take holds of all that is sent;
    ten requests are sent at most. *)
Lemma do_loop_sent (P : wire_request -> Prop) fuel first req via w res w' sent
    (Hstep : forall r u method ib status, P r -> allowed u -> redirectBehavior (w_Method r) status = Some (method, ib) ->
       P (redirected first (w_URL r) u method ib)) :
  (via <= 9)%nat -> do_loop fuel first req via w = Some (res, w', sent) -> P req ->
  Forall (fun out => exists r, out = RoundTrip t r /\ P r) sent /\ (1 <= length sent <= 10 - via)%nat.
Proof.
  revert req via w res w' sent. induction fuel as [|fuel IH]; intros req via w res w' sent Hv H HP; [done|].
  cbn [Transport.do_loop] in H.
  assert (Forall (fun out => exists r, out = RoundTrip t r /\ P r) [RoundTrip t req] /\ (1 <= length [RoundTrip t req] <= 10 - via)%nat) as Hone
    by (split; [repeat constructor; eauto|cbn; lia]).
  destruct (send _ w) as [[resp|msg] w1]; [|by injection H as <- <- <-].
  destruct (redirectBehavior _ _) as [[method ib]|] eqn:Eb; [|by injection H as <- <- <-].
  destruct (bool_decide _); [by injection H as <- <- <-|]. destruct (resolve_location _ _) as [u|msg]; [|by injection H as <- <- <-].
  destruct (CheckRedirect _ _ _) as [e|] eqn:Ec; [by injection H as <- <- <-|]. apply CheckRedirect_none in Ec as [Hu Hlt].
  destruct (do_loop fuel _ _ _ w1) as [[[r w2] sent']|] eqn:E; [|done]. injection H as <- <- <-.
  apply IH in E as [Hs Hl]; [|lia|by eauto]. split; [by constructor; eauto|cbn [length]; lia].
Qed.

Lemma do_loop_first fuel first req via w res w' out rest :
  do_loop fuel first req via w = Some (res, w', out :: rest) -> out = RoundTrip t req.
Proof.
  destruct fuel as [|fuel]; [done|]. cbn [Transport.do_loop]. destruct (send _ w) as [[resp|msg] w1]; [|by intros [= _ _ <-]].
  destruct (redirectBehavior _ _) as [[method ib]|]; [|by intros [= _ _ <-]]. destruct (bool_decide _); [by intros [= _ _ <-]|].
  destruct (resolve_location _ _) as [u|msg]; [|by intros [= _ _ <-]]. destruct (CheckRedirect _ _ _) as [e|]; [by intros [= _ _ <-]|].
  destruct (do_loop fuel _ _ _ w1) as [[[r w2] sent']|]; [|done]. by intros [= _ _ <-].
Qed.

(** ** Where the credential goes *)

Definition at_home (out : wire_request) : Prop :=
  EqualFold (u_Host (w_URL out)) (at_host t) = true /\ w_Header out !! "Authorization" = Some ("Bearer " +:+ at_token t).

Lemma RoundTrip_home r : EqualFold (u_Host (w_URL r)) (at_host t) = true -> at_home (RoundTrip t r).
Proof.
  intros H. split; [done|]. unfold RoundTrip. rewrite H, orb_true_r. cbn [w_Header]. rewrite lookup_insert_ne by done. apply lookup_insert_eq.
Qed.

Variable Wait : Net -> option error * Net.
Notation perform := (perform resolve_location t Wait).

Definition sent_of (evs : list event) : list wire_request := omap (fun e => match e with Sent r => Some r | Waited => None end) evs.

Lemma sent_of_sent l : sent_of (Sent <$> l) = l.
Proof. induction l as [|r l IH]; [done|]. cbn. by f_equal. Qed.

(** A call either sends nothing or, after its one wait, what [Do] sends of its request. *)
Lemma perform_cases q build w res w' evs : perform q build w = Some (res, w', evs) ->
  (sent_of evs = [] /\ is_ok res = false /\ (evs = [] \/ evs = [Waited])) \/
  exists r w1 sent, build = Ok r /\ Do r w1 = Some (res, w', sent) /\ evs = Waited :: (Sent <$> sent).
Proof.
  unfold Transport.perform, doV2, generated_call. destruct (hand_written q).
  - destruct (Wait w) as [[e|] w1]; [by intros [= <- <- <-]; left; auto|].
    destruct build as [r|e]; [|by intros [= <- <- <-]; left; auto].
    destruct (Do r w1) as [[[res' w2] sent]|] eqn:E; [|done]. intros [= <- <- <-]. right; eauto 10.
  - destruct build as [r|e]; [|by intros [= <- <- <-]; left; auto].
    destruct (Wait w) as [[e|] w1]; [by intros [= <- <- <-]; left; auto|].
    destruct (Do r w1) as [[[res' w2] sent]|] eqn:E; [|done]. intros [= <- <- <-]. right; eauto 10.
Qed.
Lemma perform_ends q build w : perform q build w <> None.
Proof.
  unfold Transport.perform, doV2, generated_call. destruct (hand_written q), build as [r|e]; try done;
    destruct (Wait w) as [[e'|] w1]; try done; by pose proof (do_enough r w1); destruct (Do r w1) as [[[? ?] ?]|].
Qed.

Context {S : ParamStyle} {SL : ParamStyleLaws S}.
Variables (server base iam : URL).
Hypothesis (Hhost : u_Host base = u_Host server) (Hapi : EqualFold (u_Host server) (at_host t) = true) (Hbound : at_host t <> "").
Variable marshal : api_request -> result error string.
Variable json_encode : json -> string.

Notation route := (route server base iam marshal json_encode).

Lemma perform_home (q : api_request) w res w' evs : is_iam q = false -> perform q (route q) w = Some (res, w', evs) ->
  Forall at_home (sent_of evs) /\ (length (sent_of evs) <= 10)%nat.
Proof.
  intros Hi E. apply perform_cases in E as [(-> & _)|(r & w1 & sent & Hr & Hdo & ->)]; [split; [constructor|cbn; lia]|].
  cbn [sent_of omap list_omap]. change (omap _ (Sent <$> sent)) with (sent_of (Sent <$> sent)). rewrite sent_of_sent.
  apply (do_loop_sent (fun r => EqualFold (u_Host (w_URL r)) (at_host t) = true)) in Hdo as [Hs Hl]; [|by intros ? ? ? ? ? _ [?|?] _|lia|].
  - split; [|lia]. eapply Forall_impl; [exact Hs|]. intros out (r' & -> & Hh). by apply RoundTrip_home.
  - cbn [w_URL wire]. by rewrite (route_host server base iam Hhost marshal json_encode q r Hi Hr).
Qed.

(** C11. An API call of a controller, whatever the network answers and redirects it to: it
    ends; all it sends goes to the API's host with this client's token and no other,
    ten requests at most, after exactly one wait at the host's limiter; the first
    request sent is the call's own, and nothing is sent only where the call fails. *)
Theorem credential_stays_home (q : api_request) (w : Net) (Hi : is_iam q = false) :
  exists res w' evs, perform q (route q) w = Some (res, w', evs) /\
    Forall at_home (sent_of evs) /\ (length (sent_of evs) <= 10)%nat /\
    match sent_of evs with
    | [] => is_ok res = false
    | first :: rest => evs = Waited :: Sent first :: (Sent <$> rest) /\ exists r, route q = Ok r /\ first = RoundTrip t (wire r)
    end.
Proof.
  destruct (perform q (route q) w) as [[[res w'] evs]|] eqn:E; [|by apply perform_ends in E].
  exists res, w', evs. split; [done|]. destruct (perform_home q w res w' evs Hi E) as [Hh Hl]. split; [done|split; [done|]].
  apply perform_cases in E as [(-> & Hres & _)|(r & w1 & sent & Hr & Hdo & ->)]; [done|].
  cbn [sent_of omap list_omap] in *. change (omap _ (Sent <$> sent)) with (sent_of (Sent <$> sent)). rewrite sent_of_sent.
  destruct sent as [|first rest]; [|split; [done|]; exists r; split; [done|]; by eapply do_loop_first].
  unfold Transport.Do in Hdo. apply (do_loop_sent (fun _ => True)) in Hdo as [_ Hl']; [cbn in Hl'; lia|done|lia|done].
Qed.

(** C19. A call of the Timeweb API that the models count as a read sends GETs and nothing
    else: no redirect makes it a write. The three calls of the storage account's IAM
    endpoint are excluded: it is queried by signed POSTs, reads included. *)
Theorem reads_stay_reads (q : api_request) (w : Net) (Hi : is_iam q = false) (Hq : counted_read q = Some true) :
  exists res w' evs, perform q (route q) w = Some (res, w', evs) /\ Forall (fun r => w_Method r = "GET") (sent_of evs).
Proof.
  destruct (perform q (route q) w) as [[[res w'] evs]|] eqn:E; [|by apply perform_ends in E].
  exists res, w', evs. split; [done|].
  apply perform_cases in E as [(-> & _)|(r & w1 & sent & Hr & Hdo & ->)]; [constructor|].
  cbn [sent_of omap list_omap]. change (omap _ (Sent <$> sent)) with (sent_of (Sent <$> sent)). rewrite sent_of_sent.
  apply (do_loop_sent (fun r => w_Method r = "GET")) in Hdo as [Hs _]; [| |lia|].
  - eapply Forall_impl; [exact Hs|]. by intros out (r' & -> & Hm).
  - intros r0 u m ib status Hm _ Hb. unfold redirectBehavior in Hb. rewrite Hm in Hb.
    destruct (bool_decide _) in Hb; [by injection Hb as <- <-|]. destruct (bool_decide _) in Hb; [by injection Hb as <- <-|done].
  - pose proof (counted_get server base iam marshal json_encode q r Hi Hr ltac:(by rewrite Hq)) as Hc. rewrite Hq in Hc.
    injection Hc as Hc. symmetry in Hc. by apply bool_decide_eq_true in Hc.
Qed.
End Facts.

(** ** What the clients of a host share *)
Section Sharing.
Variable url_Parse : string -> option URL.

Notation hostKey := (hostKey url_Parse).
Notation New := (New url_Parse).
Notation constructs := (constructs url_Parse).

Definition key_of (cfg : Config) : string := hostKey (base_of cfg).
Definition rate_of (cfg : Config) : Q := if Qeq_bool (cf_RateLimit cfg) 0 then DefaultRateLimit else cf_RateLimit cfg.
Definition burst_of (cfg : Config) : Z := if cf_Burst cfg =? 0 then DefaultBurst else cf_Burst cfg.

(** Identities are fresh: no two hosts have a limiter or a transport in common. *)
Definition distinct {A} (id : A -> nat) (m : gmap string A) (n : nat) : Prop :=
  (forall k a, m !! k = Some a -> (id a < n)%nat) /\ (forall k k' a a', m !! k = Some a -> m !! k' = Some a' -> id a = id a' -> k = k').

Definition shared_ok (s : shared) : Prop :=
  distinct lim_ID (sharedLimiters s) (next_id s) /\ distinct (fun n => n) (sharedTransports s) (next_id s).

Lemma distinct_mono {A} (id : A -> nat) m n n' : (n <= n')%nat -> distinct id m n -> distinct id m n'.
Proof. intros Hn [H1 H2]. split; [|done]. intros k a H. specialize (H1 k a H). lia. Qed.

Lemma distinct_insert {A} (id : A -> nat) m n k a : distinct id m n -> id a = n -> m !! k = None -> distinct id (<[k := a]> m) (S n).
Proof.
  intros [H1 H2] Ha Hk. split.
  - intros k' a' H. apply lookup_insert_Some in H as [[<- <-]|[_ H]]; [lia|]. specialize (H1 k' a' H). lia.
  - intros k1 k2 a1 a2 Hl1 Hl2 He. apply lookup_insert_Some in Hl1 as [[<- <-]|[_ Hl1]], Hl2 as [[<- <-]|[_ Hl2]]; [done| | |by eapply H2].
    + specialize (H1 _ _ Hl2). lia.
    + specialize (H1 _ _ Hl1). lia.
Qed.

(** The limiter made for a configuration. *)
Definition made_by (cfg : Config) (l : limiter) : Prop := lim_Rate l = rate_of cfg /\ lim_Burst l = burst_of cfg.

Lemma sharedLimiter_spec b rl burst s l s' : shared_ok s -> sharedLimiter url_Parse b rl burst s = (l, s') ->
  shared_ok s' /\ sharedTransports s' = sharedTransports s /\ sharedLimiters s ⊆ sharedLimiters s' /\
  sharedLimiters s' !! hostKey b = Some l /\
  forall k l', sharedLimiters s !! k = None -> sharedLimiters s' !! k = Some l' -> k = hostKey b /\ lim_Rate l' = rl /\ lim_Burst l' = burst.
Proof.
  intros [Hl Ht]. unfold sharedLimiter. destruct (sharedLimiters s !! hostKey b) as [l0|] eqn:El; intros [= <- <-].
  - repeat split; try done; try apply Hl; try apply Ht; congruence.
  - cbn [sharedLimiters sharedTransports next_id]. split; [|split; [done|split; [by apply insert_subseteq|split; [apply lookup_insert_eq|]]]].
    + split; [by apply distinct_insert|]. eapply distinct_mono; [|exact Ht]. cbn. lia.
    + intros k l' Hn H. apply lookup_insert_Some in H as [[<- <-]|[_ H]]; [done|congruence].
Qed.

Lemma sharedTransport_spec b s n s' : shared_ok s -> sharedTransport url_Parse b s = (n, s') ->
  shared_ok s' /\ sharedLimiters s' = sharedLimiters s /\ sharedTransports s ⊆ sharedTransports s' /\ sharedTransports s' !! hostKey b = Some n.
Proof.
  intros [Hl Ht]. unfold sharedTransport. destruct (sharedTransports s !! hostKey b) as [n0|] eqn:Et; intros [= <- <-]; [done|].
  cbn [sharedLimiters sharedTransports next_id]. split; [|split; [done|split; [by apply insert_subseteq|apply lookup_insert_eq]]].
  split; [eapply distinct_mono; [|exact Hl]; cbn; lia|by apply (distinct_insert (fun n => n))].
Qed.

Lemma New_spec cfg s c s' : shared_ok s -> New cfg s = (c, s') ->
  shared_ok s' /\ sharedLimiters s ⊆ sharedLimiters s' /\ sharedTransports s ⊆ sharedTransports s' /\
  (forall k l, sharedLimiters s !! k = None -> sharedLimiters s' !! k = Some l -> is_ok c = true /\ key_of cfg = k /\ made_by cfg l) /\
  match c with
  | Ok c => sharedLimiters s' !! key_of cfg = Some (cl_limiter c) /\ sharedTransports s' !! key_of cfg = Some (at_next (cl_transport c)) /\
            at_token (cl_transport c) = cf_Token cfg
  | Err _ => True
  end.
Proof.
  intros Hs. unfold Transport.New. destruct (bool_decide _); [intros [= <- <-]; split; [done|split; [done|split; [done|split; [congruence|done]]]]|].
  fold (rate_of cfg) (burst_of cfg).
  destruct (sharedLimiter _ _ _ _ s) as [l s1] eqn:El. apply sharedLimiter_spec in El as (H1 & Ht1 & Hsub1 & Hl1 & Hnew); [|done].
  destruct (sharedTransport _ _ s1) as [n s2] eqn:Et. apply sharedTransport_spec in Et as (H2 & Hl2 & Hsub2 & Hn2); [|done].
  intros [= <- <-]. rewrite Hl2. cbn [cl_limiter cl_transport at_next at_token]. split; [done|]. split; [done|].
  split; [by rewrite <- Ht1|]. split; [|done]. intros k l' Hk Hk'. destruct (Hnew k l' Hk Hk') as (-> & Hr & Hb). by repeat split.
Qed.

Lemma constructs_spec cfgs s cs s' : shared_ok s -> constructs cfgs s = (cs, s') ->
  shared_ok s' /\ sharedLimiters s ⊆ sharedLimiters s' /\
  (forall i cfg c, cfgs !! i = Some cfg -> cs !! i = Some (Ok c) ->
     sharedLimiters s' !! key_of cfg = Some (cl_limiter c) /\ sharedTransports s' !! key_of cfg = Some (at_next (cl_transport c)) /\
     at_token (cl_transport c) = cf_Token cfg) /\
  sharedTransports s ⊆ sharedTransports s' /\
  (forall i cfg c l, cfgs !! i = Some cfg -> cs !! i = Some (Ok c) -> sharedLimiters s !! key_of cfg = None ->
     (forall j cfg' c', (j < i)%nat -> cfgs !! j = Some cfg' -> cs !! j = Some (Ok c') -> key_of cfg' <> key_of cfg) ->
     sharedLimiters s' !! key_of cfg = Some l -> made_by cfg l).
Proof.
  revert s cs. induction cfgs as [|cfg cfgs IH]; intros s cs Hs H; cbn [Transport.constructs] in H.
  { injection H as <- <-. do 2 (split; [done|]). split; [by intros [|i]|split; [done|by intros [|i]]]. }
  destruct (New cfg s) as [c s1] eqn:En. destruct (constructs cfgs s1) as [cs1 s2] eqn:Ec. injection H as <- <-.
  destruct (New_spec _ _ _ _ Hs En) as (H1 & Hsub & Hsubt & Hnew & Hc). destruct (IH s1 cs1 H1 Ec) as (H2 & Hsub2 & Hall & Hsubt2 & Hfirst).
  split; [done|]. split; [by transitivity (sharedLimiters s1)|]. split; [|split; [by transitivity (sharedTransports s1)|]].
  - intros [|i] g c' Hg Hc'; cbn in Hg, Hc'; [|by eapply Hall]. simplify_eq. destruct Hc as (Ha & Hb & Hd).
    split; [by eapply lookup_weaken|]. split; [by eapply lookup_weaken|done].
  - intros [|i] g c' l Hg Hc' Hn Hearlier Hl; cbn in Hg, Hc'.
    + simplify_eq. destruct Hc as (Ha & _ & _). rewrite (lookup_weaken _ _ _ _ Ha Hsub2) in Hl. simplify_eq. by apply (Hnew (key_of g)).
    + destruct (sharedLimiters s1 !! key_of g) as [l1|] eqn:E1.
      * destruct (Hnew _ _ Hn E1) as (Hok & Hk & _). destruct c as [c0|]; [|done]. exfalso. by apply (Hearlier O cfg c0); [lia|done|done|].
      * eapply (Hfirst i); [done..| |done]. intros j g' c'' Hj Hg' Hc''. by apply (Hearlier (S j) g' c''); [lia|..].
Qed.

(** The host that a configuration's base URL names. *)
Definition names_host (cfg : Config) (host : string) : Prop :=
  host <> "" /\ exists u, url_Parse (base_of cfg) = Some u /\ u_Host u = host.

Lemma key_of_host cfg host : names_host cfg host -> key_of cfg = host.
Proof. intros [Hn (u & Hu & <-)]. unfold key_of, Transport.hostKey. by rewrite Hu, bool_decide_false. Qed.

Lemma key_not_host cfg host : ~ names_host cfg host -> base_of cfg <> host -> host <> "" -> key_of cfg <> host.
Proof.
  intros Hno Hb Hn. unfold key_of, Transport.hostKey. destruct (url_Parse (base_of cfg)) as [u|] eqn:Hu; [|done].
  case_bool_decide; [done|]. intros He. apply Hno. split; [done|]. by exists u.
Qed.

(** C20. However many clients a process makes: two whose base URLs name the same host, with
    whatever scheme or path, share one limiter and one base transport; two whose base
    URLs name different hosts share neither; the first client of a host decides the
    limiter's rate and burst; and each keeps the token it was made with. A base URL that
    names no host, or is a bare host name in place of a URL, is outside the claim. *)
Theorem clients_share_per_host (cfgs : list Config) (i j : nat) (gi gj : Config) (ci cj : client)
    (hi hj : string) (Hi : cfgs !! i = Some gi) (Hj : cfgs !! j = Some gj) (Hhi : names_host gi hi) (Hhj : names_host gj hj)
    (Hci : (constructs cfgs nothing_shared).1 !! i = Some (Ok ci)) (Hcj : (constructs cfgs nothing_shared).1 !! j = Some (Ok cj)) :
  (hi = hj <-> cl_limiter ci = cl_limiter cj) /\
  (hi = hj <-> at_next (cl_transport ci) = at_next (cl_transport cj)) /\
  at_token (cl_transport ci) = cf_Token gi /\
  ((forall k g c, (k < i)%nat -> cfgs !! k = Some g -> (constructs cfgs nothing_shared).1 !! k = Some (Ok c) ->
      ~ names_host g hi /\ base_of g <> hi) ->
   made_by gi (cl_limiter ci)).
Proof.
  pose proof (key_of_host _ _ Hhi) as Hki. pose proof (key_of_host _ _ Hhj) as Hkj. rewrite <- Hki at 1 2. rewrite <- Hkj.
  assert (shared_ok nothing_shared) as Hs0 by (split; split; intros *; cbn; rewrite lookup_empty; discriminate).
  destruct (constructs cfgs nothing_shared) as [cs s] eqn:E. cbn [fst] in *.
  destruct (constructs_spec _ _ _ _ Hs0 E) as ([[_ Hl] [_ Ht]] & _ & Hall & _ & Hfirst).
  destruct (Hall _ _ _ Hi Hci) as (Li & Ti & Toki). destruct (Hall _ _ _ Hj Hcj) as (Lj & Tj & _).
  split; [split; [intros He; rewrite He in Li; congruence|intros He; eapply Hl; [exact Li|exact Lj|by rewrite He]]|].
  split; [split; [intros He; rewrite He in Ti; congruence|intros He; eapply Ht; [exact Ti|exact Tj|done]]|].
  split; [done|]. intros Hno. eapply Hfirst; [exact Hi|exact Hci|apply lookup_empty| |exact Li].
  intros k g c Hk Hg Hc. rewrite Hki. destruct (Hno k g c Hk Hg Hc). apply key_not_host; [done|done|by destruct Hhi].
Qed.
End Sharing.

(** ** Witnesses *)

(** An API that redirects everything to another host. *)
Definition empty_response (status : Z) : http_response := {| StatusCode := status; Body := BodyBytes "" None |}.

#[export] Instance Hostile : Network := {|
  Net := unit;
  send _ w := (Ok {| r_StatusCode := 307; r_Location := "https://evil.example/steal"; r_Response := empty_response 307 |}, w) |}.

Definition evil : URL := {| u_Scheme := "https"; u_Host := "evil.example"; u_Path := "/steal"; u_RawQuery := "" |}.
Definition to_evil (_ : URL) (_ : string) : result string URL := Ok evil.
Definition api_auth : authTransport := {| at_token := "s3cret"; at_host := "api.timeweb.cloud"; at_next := O |}.
Definition no_wait (w : unit) : option error * unit := (None, w).
Definition delete_router : api_request := RRouter (Router.DeleteRouter "r-1").

(** The request goes out once, with the token, and the redirect is refused. *)
Example hostile_redirect_refused :
  match perform to_evil api_auth no_wait delete_router (sample_route delete_router) tt with
  | Some (Err e, _, [Waited; Sent r]) =>
      (url_string (w_URL r), w_Header r !! "Authorization", Error e) =
      ("https://api.timeweb.cloud/api/v1/routers/r-1", Some "Bearer s3cret",
       "Delete " +:+ quote "https://evil.example/steal" +:+ ": timeweb: refusing cross-host redirect to " +:+ quote "evil.example" +:+
       " (credential is bound to " +:+ quote "api.timeweb.cloud" +:+ ")")
  | _ => False
  end.
Proof. vm_compute. reflexivity. Qed.

(** A client whose base URL names no host guards nothing: the token follows the redirect. *)
Example no_host_no_guard :
  match perform to_evil {| at_token := "s3cret"; at_host := ""; at_next := O |} no_wait delete_router (sample_route delete_router) tt with
  | Some (_, _, Waited :: Sent _ :: Sent r :: _) => (u_Host (w_URL r), w_Header r !! "Authorization") = ("evil.example", Some "Bearer s3cret")
  | _ => False
  end.
Proof. vm_compute. reflexivity. Qed.

Lemma credential_stays_home_witness :
  exists res w' evs, perform to_evil api_auth no_wait delete_router (sample_route delete_router) tt = Some (res, w', evs) /\
    Forall (at_home api_auth) (sent_of evs).
Proof.
  destruct (credential_stays_home (N := Hostile) to_evil api_auth no_wait api_server api_host iam_host eq_refl eq_refl ltac:(discriminate)
    (fun _ => Ok "{}") (fun _ => "{}") delete_router tt eq_refl) as (res & w' & evs & H & Hh & _).
  exists res, w', evs. by split.
Defined.

Lemma reads_stay_reads_witness :
  exists res w' evs, perform to_evil api_auth no_wait (RRouter Router.GetRouters) (sample_route (RRouter Router.GetRouters)) tt = Some (res, w', evs) /\
    Forall (fun r => w_Method r = "GET") (sent_of evs).
Proof.
  exact (reads_stay_reads (N := Hostile) to_evil api_auth no_wait api_server api_host iam_host
    (fun _ => Ok "{}") (fun _ => "{}") (RRouter Router.GetRouters) tt eq_refl eq_refl).
Defined.

(** Three base URLs: two of one host, one of another. *)
Definition parse_base (s : string) : option URL :=
  if bool_decide (s = "https://api.timeweb.cloud/a") then Some {| u_Scheme := "https"; u_Host := "api.timeweb.cloud"; u_Path := "/a"; u_RawQuery := "" |}
  else if bool_decide (s = "https://api.timeweb.cloud/b") then Some {| u_Scheme := "https"; u_Host := "api.timeweb.cloud"; u_Path := "/b"; u_RawQuery := "" |}
  else if bool_decide (s = "https://api.staging.example/a") then
    Some {| u_Scheme := "https"; u_Host := "api.staging.example"; u_Path := "/a"; u_RawQuery := "" |}
  else None.
Definition tenant (base token : string) (rate : Q) : Config :=
  {| cf_Token := token; cf_BaseURL := base; cf_RateLimit := rate; cf_Burst := 0; cf_Timeout := 0 |}.
Definition tenants : list Config :=
  [tenant "https://api.timeweb.cloud/a" "tok-1" (5 # 1); tenant "https://api.timeweb.cloud/b" "tok-2" (9 # 1);
   tenant "https://api.staging.example/a" "tok-3" (9 # 1)].

Lemma clients_share_per_host_witness :
  exists c1 c2 c3, (constructs parse_base tenants nothing_shared).1 = [Ok c1; Ok c2; Ok c3] /\ cl_limiter c1 = cl_limiter c2 /\
    cl_limiter c1 <> cl_limiter c3 /\ made_by (tenant "https://api.timeweb.cloud/a" "tok-1" (5 # 1)) (cl_limiter c1).
Proof.
  eexists _, _, _. split; [vm_compute; reflexivity|].
  assert (names_host parse_base (tenant "https://api.timeweb.cloud/a" "tok-1" (5 # 1)) "api.timeweb.cloud") as H1
    by (split; [discriminate|eexists; split; vm_compute; reflexivity]).
  assert (names_host parse_base (tenant "https://api.timeweb.cloud/b" "tok-2" (9 # 1)) "api.timeweb.cloud") as H2
    by (split; [discriminate|eexists; split; vm_compute; reflexivity]).
  assert (names_host parse_base (tenant "https://api.staging.example/a" "tok-3" (9 # 1)) "api.staging.example") as H3
    by (split; [discriminate|eexists; split; vm_compute; reflexivity]).
  split; [|split].
  - by apply (clients_share_per_host parse_base tenants 0 1 _ _ _ _ _ _ eq_refl eq_refl H1 H2
      ltac:(vm_compute; reflexivity) ltac:(vm_compute; reflexivity)).
  - intros He. apply (clients_share_per_host parse_base tenants 0 2 _ _ _ _ _ _ eq_refl eq_refl H1 H3
      ltac:(vm_compute; reflexivity) ltac:(vm_compute; reflexivity)) in He. discriminate He.
  - apply (clients_share_per_host parse_base tenants 0 1 _ _ _ _ _ _ eq_refl eq_refl H1 H2
      ltac:(vm_compute; reflexivity) ltac:(vm_compute; reflexivity)). intros k g c Hk. lia.
Defined.
