(* ===== verification/Iam.v ===== *)
(** * Iam: the IAM client of the S3 users

    clients/rgwiam/sigv4.go below the Query calls of [Storage]: the client [New] makes,
    the signature of a form, and the requests its own [http.Client] sends, redirects
    included. The signer of the AWS SDK is the class [Signer]; SHA-256 is a parameter. *)

From S2P Require Import Prelude Errors Timeweb Url Routes RoutesV2 Storage Wire WireFacts Transport TransportFacts.

#[local] Open Scope Z_scope.

Definition DefaultEndpoint : string := "https://panel.s3.twcstorage.ru/".
Definition DefaultRegion : string := "ru-1".
Definition iamService : string := "iam".

(** [v4.Signer.SignHTTP]: the headers it sets on a request, for the keys, the hash of the
    payload, the service, the region and the time (seconds). *)
Class Signer := { SignHTTP : AdminKeys -> wire_request -> string -> string -> string -> Z -> gmap string string }.

(** The Authorization header of Signature Version 4 names its algorithm. *)
Definition sigv4_scheme : string := "AWS4-HMAC-SHA256 ".

Class SignerLaws (G : Signer) :=
  signed_scheme keys req hash service region now v :
    SignHTTP keys req hash service region now !! "Authorization" = Some v -> has_prefix sigv4_scheme v = true.

(** ** Redirects of a plain [http.Client] *)

(** The host name of a URL, without its port; IPv6 literals aside. *)
Definition hostname (u : URL) : string := match index_byte (u_Host u) ":"%char with Some i => take_str i (u_Host u) | None => u_Host u end.

(** [isDomainOrSubdomain]. *)
Definition isDomainOrSubdomain (sub parent : string) : bool :=
  bool_decide (sub = parent) ||
  (let n := (String.length sub - String.length parent)%nat in
   (String.length parent <? String.length sub)%nat && bool_decide (drop_str n sub = parent) && bool_decide (drop_str (n - 1) sub = "." +:+ parent)).

(** [shouldCopyHeaderOnRedirect], for a header that carries a credential. *)
Definition keeps_credentials (initial dest : URL) : bool := isDomainOrSubdomain (lower_with false (hostname dest)) (lower_with false (hostname initial)).

(** [defaultCheckRedirect]. *)
Definition defaultCheckRedirect (via : nat) : option error :=
  if (10 <=? via)%nat then Some (ErrorString "stopped after 10 redirects") else None.

Section Iam.
Context {N : Network} {G : Signer}.
Variable resolve_location : URL -> string -> result string URL.
Variable sha256_hex : string -> string.

(** [http.Client.do] without a [CheckRedirect]: a credential that did not come along once
    does not come along again. *)
Fixpoint follow (fuel : nat) (first req : wire_request) (via : nat) (w : Net) : option (result error http_response * Net * list wire_request) :=
  match fuel with
  | O => None
  | S fuel =>
      match send req w with
      | (Err msg, w) => Some (Err (url_error first (url_string (w_URL req)) (ErrorString msg)), w, [req])
      | (Ok resp, w) =>
          match redirectBehavior (w_Method req) (r_StatusCode resp) with
          | None => Some (Ok (r_Response resp), w, [req])
          | Some (method, includeBody) =>
              if bool_decide (r_Location resp = "") then Some (Ok (r_Response resp), w, [req])
              else
                match resolve_location (w_URL req) (r_Location resp) with
                | Err msg =>
                    Some (Err (url_error first (url_string (w_URL req)) (ErrorString
                      ("failed to parse Location header " +:+ quote (r_Location resp) +:+ ": " +:+ msg))), w, [req])
                | Ok u =>
                    match defaultCheckRedirect (S via) with
                    | Some e => Some (Err (url_error first (r_Location resp) e), w, [req])
                    | None =>
                        let first := if keeps_credentials (w_URL first) u then first
                                     else {| w_Method := w_Method first; w_URL := w_URL first; w_Header := delete "Authorization" (w_Header first);
                                             w_Body := w_Body first |} in
                        match follow fuel first (redirected first (w_URL req) u method includeBody) (S via) w with
                        | Some (r, w, sent) => Some (r, w, req :: sent)
                        | None => None
                        end
                    end
                end
          end
      end
  end.

(** The form as [iamClient.do] sends it: signed with the key pair of the call. *)
Definition signed (keys : AdminKeys) (now : Z) (r : http_request) : wire_request :=
  let req := wire r in
  {| w_Method := w_Method req; w_URL := w_URL req;
     w_Header := SignHTTP keys req (sha256_hex (default_str (w_Body req))) iamService DefaultRegion now ∪ w_Header req; w_Body := w_Body req |}.

(** [iamClient.do] up to the answer. No limiter is asked. *)
Definition iam_call (keys : AdminKeys) (now : Z) (build : result error http_request) (w : Net)
  : option (result error http_response * Net * list wire_request) :=
  match build with
  | Err e => Some (Err e, w, [])
  | Ok r => follow 11 (signed keys now r) (signed keys now r) O w
  end.

(** The key pair a Query call is made with. *)
Definition keys_of (q : api_request) : option AdminKeys :=
  match q with
  | RStorage q => match q with
                  | Storage.GetUserPolicyQuery k _ _ | Storage.PutUserPolicyQuery k _ _ _ | Storage.DeleteUserPolicyQuery k _ _ => Some k
                  | _ => None
                  end
  | _ => None
  end.

(** ** What it sends *)

(** A request without a credential of the API: none at all, or a signature. *)
Definition no_bearer (r : wire_request) : Prop := forall v, w_Header r !! "Authorization" = Some v -> has_prefix sigv4_scheme v = true.

Lemma no_bearer_token r token : no_bearer r -> w_Header r !! "Authorization" <> Some ("Bearer " +:+ token).
Proof. intros H E. by specialize (H _ E). Qed.

Lemma follow_enough fuel first req via w : (11 <= fuel + via)%nat -> (via <= 9)%nat -> follow fuel first req via w <> None.
Proof.
  revert first req via w. induction fuel as [|fuel IH]; intros first req via w Hf Hv; [lia|]. cbn [follow].
  destruct (send _ w) as [[resp|msg] w']; [|done]. destruct (redirectBehavior _ _) as [[method ib]|]; [|done].
  destruct (bool_decide _); [done|]. destruct (resolve_location _ _) as [u|msg]; [|done].
  unfold defaultCheckRedirect. destruct (Nat.leb_spec 10 (S via)); [done|]. cbv zeta.
  match goal with |- context [follow fuel ?f ?r ?v w'] => pose proof (IH f r v w' ltac:(lia) ltac:(lia)); by destruct (follow fuel f r v w') as [[[? ?] ?]|] end.
Qed.

Lemma redirected_no_bearer first last u method ib : no_bearer first -> no_bearer (redirected first last u method ib).
Proof.
  intros H v. unfold redirected. cbn [w_Header]. destruct (bool_decide _); [|rewrite lookup_insert_ne by done];
    (destruct ib; [apply H|rewrite lookup_delete_ne by done; apply H]).
Qed.

Lemma follow_no_bearer fuel first req via w res w' sent : follow fuel first req via w = Some (res, w', sent) -> (via <= 9)%nat ->
  no_bearer first -> no_bearer req -> Forall no_bearer sent /\ (1 <= length sent <= 10 - via)%nat.
Proof.
  revert first req via w res w' sent. induction fuel as [|fuel IH]; intros first req via w res w' sent H Hv Hf Hr; [done|].
  cbn [follow] in H.
  assert (Forall no_bearer [req] /\ (1 <= length [req] <= 10 - via)%nat) as Hone by (split; [repeat constructor; auto|cbn; lia]).
  destruct (send _ w) as [[resp|msg] w1]; [|by injection H as <- <- <-].
  destruct (redirectBehavior _ _) as [[method ib]|] eqn:Eb; [|by injection H as <- <- <-].
  destruct (bool_decide _); [by injection H as <- <- <-|]. destruct (resolve_location _ _) as [u|msg]; [|by injection H as <- <- <-].
  unfold defaultCheckRedirect in H. destruct (Nat.leb_spec 10 (S via)); [by injection H as <- <- <-|]. cbv zeta in H.
  match type of H with context [follow fuel ?f ?r ?v w1] =>
    assert (no_bearer f) as Hf' by (destruct (keeps_credentials _ _); [done|intros v0; cbn [w_Header]; by rewrite lookup_delete_eq]);
    destruct (follow fuel f r v w1) as [[[r' w2] sent']|] eqn:E; [|done] end.
  injection H as <- <- <-. apply IH in E as [Hs Hl]; [|lia|done|by apply redirected_no_bearer].
  split; [by constructor|cbn [length]; lia].
Qed.

Context {GL : SignerLaws G}.

Lemma signed_no_bearer keys now r : no_bearer (signed keys now r).
Proof.
  intros v. unfold signed. cbn [w_Header]. intros [H|[_ H]]%lookup_union_Some_raw; [by apply signed_scheme in H|].
  unfold wire in H. cbn [w_Header] in H. destruct (rq_Content r) as [[ct b]|]; [|by rewrite lookup_empty in H].
  by rewrite lookup_singleton_ne in H.
Qed.

(** A Query call ends within ten requests, the first of which is the signed form; none
    carries a bearer token, wherever the redirects lead. *)
Lemma iam_call_sent keys now build w : exists res w' sent,
  iam_call keys now build w = Some (res, w', sent) /\ Forall no_bearer sent /\ (length sent <= 10)%nat.
Proof.
  unfold iam_call. destruct build as [r|e]; [|by exists (Err e), w, []; split; [done|split; [constructor|cbn; lia]]].
  destruct (follow 11 _ _ O w) as [[[res w'] sent]|] eqn:E; [|by apply follow_enough in E; lia].
  exists res, w', sent. split; [done|]. apply follow_no_bearer in E as [Hs Hl]; [|lia|apply signed_no_bearer..]. split; [done|lia].
Qed.
End Iam.
