(* ===== verification/Online.v ===== *)
(** * Online: controllers over the HTTP client

    The service the controllers are modelled against ([Upstream]) instantiated by the
    clients: a call is carried out by [exec], its answer is classified as the
    controllers do, and all that goes over the network is logged. What holds of each
    request of a call holds, however many passes a controller runs, of the whole log:
    for the calls of the API ([api_exec]), that it went to the API's host with the
    client's own token; for those of the S3 kinds, IAM included ([client_exec]), that or
    that it carried no token. *)

From Stdlib Require Import QArith.
From S2P Require Import Prelude Errors Timeweb Shared Effects Lifecycle Url Routes RoutesV2 Network FloatingIP Project SSHKey Registry Repository Firewall Router Server Storage Kubernetes Nodepool Cluster Addon Cdn CdnSSL CdnExternal Wire WireFacts Transport TransportFacts Iam S3Bucket S3User.

#[local] Open Scope Z_scope.

Section Online.
Context {N : Transport.Network}.
(** How the client carries out a call: the answer, the network after it, and what was sent. *)
Variable exec : api_request -> Net -> option (result error http_response * Net * list wire_request).
(** What is claimed of each request sent. *)
Variable claim : wire_request -> Prop.

(** The world of the client: the network's, and what was sent so far. *)
Definition online_world : Type := Net * list wire_request.

(** A call as the controllers see it: an error of the transport is its text. *)
Definition online_reply {A} (decode : http_response -> payload A) (res : result error http_response) : reply A :=
  match res with
  | Ok resp => Reply resp (decode resp)
  | Err e => NetErr (Error e)
  end.

(** The service of a kind of controller: how its requests are API calls, and how the
    bodies of their answers decode. No call of the client is without an end. *)
Definition online {Req : Type} {Rep : Req -> Type} (call_of : Req -> api_request) (decode : forall q, http_response -> payload (Rep q))
  : Upstream Req Rep :=
  {| World := online_world;
     serve q w :=
       match exec (call_of q) w.1 with
       | Some (res, n, sent) => (online_reply (decode q) res, (n, w.2 ++ sent))
       | None => (NetErr "", w)
       end |}.

(** The claim holds of all that was sent. *)
Definition kept (w : online_world) : Prop := Forall claim w.2.

Section Kind.
Context {Req : Type} {Rep : Req -> Type} (call_of : Req -> api_request) (decode : forall q, http_response -> payload (Rep q)).
Hypothesis Hcalls : forall q w res w' sent, exec (call_of q) w = Some (res, w', sent) -> Forall claim sent.

Notation U := (online call_of decode).

Lemma serve_kept q w r w' : serve (Upstream := U) q w = (r, w') -> kept w -> kept w'.
Proof.
  cbn [serve online]. destruct (exec _ _) as [[[res n] sent]|] eqn:E; [|by intros [= <- <-]].
  intros [= <- <-] Hw. apply Forall_app. split; [done|]. exact (Hcalls _ _ _ _ _ E).
Qed.

Context {St : Type}.

(** A computation keeps the claim. *)
Definition stays_home {A} (m : M U St A) : Prop := steps (U := U) (fun _ w _ w' => kept w -> kept w') m.

Lemma kept_refl (x : St) (w : online_world) (y : St) (w' : online_world) : w = w' -> kept w -> kept w'.
Proof. by intros ->. Qed.

Lemma stays_home_bind {A B} (m : M U St A) (f : A -> M U St B) : stays_home m -> (forall a, stays_home (f a)) -> stays_home (m ≫= f).
Proof. intros Hm Hf. apply steps_bind; [by auto|exact Hm|exact Hf]. Qed.

Lemma stays_home_pure {A} (m : M U St A) : (forall s w, world (m s w) = w) -> stays_home m.
Proof. intros H s w Hw. by rewrite H. Qed.

Lemma stays_home_try {A} (m : M U St A) : stays_home m -> stays_home (try m).
Proof. intros H s w. exact (H s w). Qed.

(** Every form of a call: its world is what [serve] leaves. *)
Lemma stays_home_call {A} (q : Req) (m : M U St A) : (forall s w, world (m s w) = (serve (Upstream := U) q w).2) -> stays_home m.
Proof. intros H s w Hw. rewrite H. destruct (serve q w) as [r w'] eqn:E. exact (serve_kept q w r w' E Hw). Qed.

Lemma stays_home_reconciles (c : Controller U St) deleting n :
  stays_home (c_observe c) -> stays_home (c_create c) -> stays_home (c_update c) -> stays_home (c_delete c) ->
  stays_home (reconciles n c deleting).
Proof.
  intros Ho Hc Hu Hd. induction n as [|n IH]; cbn [reconciles]; [by apply stays_home_pure|].
  apply stays_home_bind; [|done]. apply stays_home_try. unfold reconcile. apply stays_home_bind; [done|]. intros o.
  destruct deleting; [destruct (ResourceExists o); [done|by apply stays_home_pure]|].
  destruct (negb _); [done|]. destruct (negb _); [done|by apply stays_home_pure].
Qed.
End Kind.

Ltac by_answer := match goal with |- context [@serve ?a ?b ?c ?q ?w] => by destruct (@serve a b c q w) end.

(** Walk through a method: its calls, its branches, the helpers it is made of. *)
Ltac walk_home Hcalls :=
  repeat lazymatch goal with
  | |- forall _, _ => intros ?
  | |- stays_home _ _ (mbind _ _) => apply stays_home_bind; [|intros ?]
  | |- stays_home _ _ (try _) => apply stays_home_try
  | |- stays_home _ _ (doJSON ?q) => apply (stays_home_call _ _ Hcalls q); intros; unfold doJSON; by_answer
  | |- stays_home _ _ (call_decode _ ?q) => apply (stays_home_call _ _ Hcalls q); intros; unfold call_decode; by_answer
  | |- stays_home _ _ (call_pre _ _ ?q) => apply (stays_home_call _ _ Hcalls q); intros; unfold call_pre; by_answer
  | |- stays_home _ _ (do_pre _ ?q) => apply (stays_home_call _ _ Hcalls q); intros; unfold do_pre; by_answer
  | |- stays_home _ _ (call_raw _ ?q) => apply (stays_home_call _ _ Hcalls q); intros; unfold call_raw; by_answer
  | |- stays_home _ _ (call_with ?q _) => apply (stays_home_call _ _ Hcalls q); intros; unfold call_with; by_answer
  | |- stays_home _ _ (do_ ?q) => apply (stays_home_call _ _ Hcalls q); intros; unfold do_; by_answer
  | |- stays_home _ _ (mret _) => by apply stays_home_pure
  | |- stays_home _ _ (throw _) => by apply stays_home_pure
  | |- stays_home _ _ get => by apply stays_home_pure
  | |- stays_home _ _ (modify _) => by apply stays_home_pure
  | |- stays_home _ _ (lift _) => by apply stays_home_pure
  | |- stays_home _ _ (consult _) => by apply stays_home_pure
  | |- stays_home _ _ (match ?x with _ => _ end) => destruct x
  | |- stays_home _ _ (let _ := _ in _) => cbv zeta
  | |- stays_home _ _ ?m => first [by apply stays_home_pure | match goal with H : _ |- _ => apply H end | let h := head_of m in unfold h]
  end.

Section Kinds.
Context {R : CrossplaneRuntime}.
Variable recorder : bool.
(** The calls of the API proper. *)
Hypothesis Hapi : forall q w res w' sent, is_iam q = false -> exec q w = Some (res, w', sent) -> Forall claim sent.

Lemma network_home decode n deleting : stays_home RNetwork decode (reconciles n (network_controller (U := online RNetwork decode) recorder) deleting).
Proof.
  assert (forall q w res w' sent, exec (RNetwork q) w = Some (res, w', sent) -> Forall claim sent) as Hcalls by (intros q ? ? ? ?; by apply Hapi).
  apply stays_home_reconciles; cbn [c_observe c_create c_update c_delete network_controller]; walk_home Hcalls.
Qed.

Lemma project_home decode n deleting : stays_home RProject decode (reconciles n (project_controller (U := online RProject decode) recorder) deleting).
Proof.
  assert (forall q w res w' sent, exec (RProject q) w = Some (res, w', sent) -> Forall claim sent) as Hcalls by (intros q ? ? ? ?; by apply Hapi).
  apply stays_home_reconciles; cbn [c_observe c_create c_update c_delete project_controller]; walk_home Hcalls.
Qed.

Lemma sshkey_home decode n deleting : stays_home RSSHKey decode (reconciles n (sshkey_controller (U := online RSSHKey decode) recorder) deleting).
Proof.
  assert (forall q w res w' sent, exec (RSSHKey q) w = Some (res, w', sent) -> Forall claim sent) as Hcalls by (intros q ? ? ? ?; by apply Hapi).
  apply stays_home_reconciles; cbn [c_observe c_create c_update c_delete sshkey_controller]; walk_home Hcalls.
Qed.

Definition floatingip_passes decode : Controller (online RFloatingIP decode) (managed FloatingIPParameters FloatingIPObservation) :=
  {| c_observe := o ← FloatingIP.Observe recorder; mret o.1; c_create := FloatingIP.Create recorder;; mret tt;
     c_update := FloatingIP.Update recorder; c_delete := FloatingIP.Delete recorder |}.

Lemma floatingip_home decode n deleting : stays_home RFloatingIP decode (reconciles n (floatingip_passes decode) deleting).
Proof.
  assert (forall q w res w' sent, exec (RFloatingIP q) w = Some (res, w', sent) -> Forall claim sent) as Hcalls by (intros q ? ? ? ?; by apply Hapi).
  apply stays_home_reconciles; cbn [c_observe c_create c_update c_delete floatingip_passes]; walk_home Hcalls.
Qed.
Lemma registry_home decode resolve json_encode' apiToken n deleting :
  stays_home RRegistry decode (reconciles n (registry_controller (U := online RRegistry decode) recorder resolve json_encode' apiToken) deleting).
Proof.
  assert (forall q w res w' sent, exec (RRegistry q) w = Some (res, w', sent) -> Forall claim sent) as Hcalls by (intros q ? ? ? ?; by apply Hapi).
  apply stays_home_reconciles; cbn [c_observe c_create c_update c_delete registry_controller]; walk_home Hcalls.
Qed.

Lemma repository_home decode get_registry ns n deleting :
  stays_home RRepository decode (reconciles n (repository_controller (U := online RRepository decode) recorder get_registry ns) deleting).
Proof.
  assert (forall q w res w' sent, exec (RRepository q) w = Some (res, w', sent) -> Forall claim sent) as Hcalls by (intros q ? ? ? ?; by apply Hapi).
  apply stays_home_reconciles; cbn [c_observe c_create c_update c_delete repository_controller]; walk_home Hcalls.
Qed.

Lemma server_home decode resolve resolved n deleting :
  stays_home RServer decode (reconciles n (server_controller (U := online RServer decode) recorder resolve resolved) deleting).
Proof.
  assert (forall q w res w' sent, exec (RServer q) w = Some (res, w', sent) -> Forall claim sent) as Hcalls by (intros q ? ? ? ?; by apply Hapi).
  assert (forall fips id, stays_home RServer decode (observe_loop (U := online RServer decode) fips id)) as H1
    by (intros fips; induction fips; intros; cbn [observe_loop]; walk_home Hcalls).
  assert (forall fips d, stays_home RServer decode (unbind_loop (U := online RServer decode) fips d)) as H2
    by (intros fips; induction fips; intros; cbn [unbind_loop]; walk_home Hcalls).
  assert (forall fips b id on, stays_home RServer decode (bind_loop (U := online RServer decode) fips b id on)) as H3
    by (intros fips; induction fips; intros; cbn [bind_loop]; walk_home Hcalls).
  assert (forall fips, stays_home RServer decode (unbind_all (U := online RServer decode) fips)) as H4
    by (intros fips; induction fips; intros; cbn [unbind_all]; walk_home Hcalls).
  apply stays_home_reconciles; cbn [c_observe c_create c_update c_delete server_controller]; walk_home Hcalls.
Qed.
Definition firewall_passes decode : Controller (online RFirewall decode) (managed FirewallParameters FirewallObservation) :=
  {| c_observe := Firewall.Observe; c_create := Firewall.Create recorder; c_update := Firewall.Update recorder; c_delete := Firewall.Delete |}.

Lemma firewall_home decode n deleting : stays_home RFirewall decode (reconciles n (firewall_passes decode) deleting).
Proof.
  assert (forall q w res w' sent, exec (RFirewall q) w = Some (res, w', sent) -> Forall claim sent) as Hcalls by (intros q ? ? ? ?; by apply Hapi).
  assert (forall l id d seen b, stays_home RFirewall decode (prune_rules (U := online RFirewall decode) id d l seen b)) as H1
    by (intros l; induction l; intros; cbn [prune_rules]; walk_home Hcalls).
  assert (forall l id seen b, stays_home RFirewall decode (create_rules (U := online RFirewall decode) id seen l b)) as H2
    by (intros l; induction l; intros; cbn [create_rules]; walk_home Hcalls).
  assert (forall l id d seen b, stays_home RFirewall decode (prune_attachments (U := online RFirewall decode) id d l seen b)) as H3
    by (intros l; induction l; intros; cbn [prune_attachments]; walk_home Hcalls).
  assert (forall l id seen b, stays_home RFirewall decode (link_attachments (U := online RFirewall decode) recorder id seen l b)) as H4
    by (intros l; induction l; intros; cbn [link_attachments]; walk_home Hcalls).
  assert (forall A (f : A -> _) l, (forall a, stays_home RFirewall decode (f a)) -> stays_home RFirewall decode (each (U := online RFirewall decode) f l)) as H5
    by (intros A f l Hf; induction l; intros; cbn [each]; walk_home Hcalls).
  apply stays_home_reconciles; cbn [c_observe c_create c_update c_delete firewall_passes]; walk_home Hcalls.
Qed.

Definition router_passes decode resolve_preset networks project routes ambiguous
  : Controller (online RRouter decode) (managed RouterParameters RouterObservation) :=
  {| c_observe := Router.Observe recorder resolve_preset networks routes;
     c_create := Router.Create recorder resolve_preset networks project ambiguous;
     c_update := Router.Update recorder resolve_preset networks routes; c_delete := Router.Delete recorder |}.

Lemma router_home decode resolve_preset networks project routes ambiguous n deleting :
  stays_home RRouter decode (reconciles n (router_passes decode resolve_preset networks project routes ambiguous) deleting).
Proof.
  assert (forall q w res w' sent, exec (RRouter q) w = Some (res, w', sent) -> Forall claim sent) as Hcalls by (intros q ? ? ? ?; by apply Hapi).
  assert (forall l, stays_home RRouter decode (attached_events (U := online RRouter decode) recorder l)) as H1
    by (intros l; induction l; cbn [attached_events]; walk_home Hcalls).
  assert (forall l id c ops, stays_home RRouter decode (detach_phase (U := online RRouter decode) recorder networks id l c ops)) as H2
    by (intros l; induction l; intros; cbn [detach_phase]; walk_home Hcalls).
  assert (forall l id o b ops, stays_home RRouter decode (converge_phase (U := online RRouter decode) recorder networks id o b l ops)) as H3
    by (intros l; induction l; intros; cbn [converge_phase]; walk_home Hcalls).
  assert (forall l id d o ops, stays_home RRouter decode (delete_routes (U := online RRouter decode) id d l o ops)) as H4
    by (intros l; induction l; intros; cbn [delete_routes]; walk_home Hcalls).
  assert (forall l id o ops, stays_home RRouter decode (post_routes (U := online RRouter decode) id o l ops)) as H5
    by (intros l; induction l; intros; cbn [post_routes]; walk_home Hcalls).
  assert (forall l id o b m, stays_home RRouter decode (blocked_loop (U := online RRouter decode) id o b l m)) as H6
    by (intros l; induction l; intros; cbn [blocked_loop]; walk_home Hcalls).
  apply stays_home_reconciles; cbn [c_observe c_create c_update c_delete router_passes]; walk_home Hcalls.
Qed.

Definition nodepool_passes decode resolve cluster incomplete failed
  : Controller (online RNodepool decode) (managed NodepoolParameters NodepoolObservation) :=
  {| c_observe := Nodepool.Observe recorder cluster; c_create := Nodepool.Create recorder resolve cluster incomplete failed;
     c_update := Nodepool.Update recorder cluster; c_delete := Nodepool.Delete cluster |}.

Lemma nodepool_home decode resolve cluster incomplete failed n deleting :
  stays_home RNodepool decode (reconciles n (nodepool_passes decode resolve cluster incomplete failed) deleting).
Proof.
  assert (forall q w res w' sent, exec (RNodepool q) w = Some (res, w', sent) -> Forall claim sent) as Hcalls by (intros q ? ? ? ?; by apply Hapi).
  apply stays_home_reconciles; cbn [c_observe c_create c_update c_delete nodepool_passes]; walk_home Hcalls.
Qed.

Definition cluster_passes decode resolve network project router incomplete failed
  : Controller (online RCluster decode) (managed KubernetesClusterParameters KubernetesClusterObservation) :=
  {| c_observe := o ← Cluster.Observe recorder network router; mret o.1;
     c_create := Cluster.Create recorder resolve network project incomplete failed;
     c_update := Cluster.Update recorder resolve network router; c_delete := Cluster.Delete |}.

Lemma cluster_home decode resolve network project router incomplete failed n deleting :
  stays_home RCluster decode (reconciles n (cluster_passes decode resolve network project router incomplete failed) deleting).
Proof.
  assert (forall q w res w' sent, exec (RCluster q) w = Some (res, w', sent) -> Forall claim sent) as Hcalls by (intros q ? ? ? ?; by apply Hapi).
  apply stays_home_reconciles; cbn [c_observe c_create c_update c_delete cluster_passes]; walk_home Hcalls.
Qed.

Definition addon_passes decode cluster
  : Controller (online RAddon decode) (managed KubernetesClusterAddonParameters KubernetesClusterAddonObservation) :=
  {| c_observe := Addon.Observe recorder cluster; c_create := Addon.Create cluster; c_update := Addon.Update; c_delete := Addon.Delete cluster |}.

Lemma addon_home decode cluster n deleting : stays_home RAddon decode (reconciles n (addon_passes decode cluster) deleting).
Proof.
  assert (forall q w res w' sent, exec (RAddon q) w = Some (res, w', sent) -> Forall claim sent) as Hcalls by (intros q ? ? ? ?; by apply Hapi).
  apply stays_home_reconciles; cbn [c_observe c_create c_update c_delete addon_passes]; walk_home Hcalls.
Qed.

Lemma cdn_home decode name now read_secret read_bucket kube_patch pem x509 n deleting :
  stays_home RCdn decode (reconciles n (cdn_controller (U := online RCdn decode) recorder name deleting now read_secret read_bucket kube_patch pem x509) deleting).
Proof.
  assert (forall q w res w' sent, exec (RCdn q) w = Some (res, w', sent) -> Forall claim sent) as Hcalls by (intros q ? ? ? ?; by apply Hapi).
  apply stays_home_reconciles; cbn [c_observe c_create c_update c_delete cdn_controller]; walk_home Hcalls.
Qed.

(** The controllers of the API over this client: [n] passes of each, whatever the resource,
    the references and the answers, leave a log of requests that stayed home. *)
Definition fleet_kept (n : nat) (deleting : bool) (w : online_world) : Prop :=
  (forall decode resolve_preset networks project routes ambiguous cr,
     kept (world (reconciles n (router_passes decode resolve_preset networks project routes ambiguous) deleting cr w))) /\
  (forall decode cr, kept (world (reconciles n (firewall_passes decode) deleting cr w))) /\
  (forall decode resolve resolved cr,
     kept (world (reconciles n (server_controller (U := online RServer decode) recorder resolve resolved) deleting cr w))) /\
  (forall decode resolve network project router incomplete failed cr,
     kept (world (reconciles n (cluster_passes decode resolve network project router incomplete failed) deleting cr w))) /\
  (forall decode resolve cluster incomplete failed cr,
     kept (world (reconciles n (nodepool_passes decode resolve cluster incomplete failed) deleting cr w))) /\
  (forall decode cluster cr, kept (world (reconciles n (addon_passes decode cluster) deleting cr w))) /\
  (forall decode name now read_secret read_bucket kube_patch pem x509 cr,
     kept (world (reconciles n (cdn_controller (U := online RCdn decode) recorder name deleting now read_secret read_bucket kube_patch pem x509)
       deleting cr w))) /\
  (forall decode cr, kept (world (reconciles n (network_controller (U := online RNetwork decode) recorder) deleting cr w))) /\
  (forall decode cr, kept (world (reconciles n (floatingip_passes decode) deleting cr w))) /\
  (forall decode cr, kept (world (reconciles n (project_controller (U := online RProject decode) recorder) deleting cr w))) /\
  (forall decode cr, kept (world (reconciles n (sshkey_controller (U := online RSSHKey decode) recorder) deleting cr w))) /\
  (forall decode resolve json_encode' apiToken cr,
     kept (world (reconciles n (registry_controller (U := online RRegistry decode) recorder resolve json_encode' apiToken) deleting cr w))) /\
  (forall decode get_registry ns cr,
     kept (world (reconciles n (repository_controller (U := online RRepository decode) recorder get_registry ns) deleting cr w))).

Lemma fleet_home (n : nat) (deleting : bool) (w : online_world) : kept w -> fleet_kept n deleting w.
Proof.
  intros Hw. repeat split; intros; revert Hw.
  all: first [apply router_home | apply firewall_home | apply server_home | apply cluster_home | apply nodepool_home | apply addon_home
    | apply cdn_home | apply network_home | apply floatingip_home | apply project_home | apply sshkey_home | apply registry_home | apply repository_home].
Qed.

(** ** The S3 kinds, which also call IAM *)

Section S3.
(** Every call, those of IAM included. *)
Hypothesis Hall : forall q w res w' sent, exec q w = Some (res, w', sent) -> Forall claim sent.

Lemma bucket_home decode twFull resolve json_decode n deleting :
  stays_home RStorage decode (reconciles n (bucket_controller (U := online RStorage decode) recorder twFull resolve json_decode) deleting).
Proof.
  assert (forall q w res w' sent, exec (RStorage q) w = Some (res, w', sent) -> Forall claim sent) as Hcalls by (intros q ? ? ? ?; by apply Hall).
  assert (forall users k b, stays_home RStorage decode (attached_loop (U := online RStorage decode) json_decode k b users)) as H1
    by (intros users; induction users; intros; cbn [attached_loop]; walk_home Hcalls).
  apply stays_home_reconciles; cbn [c_observe c_create c_update c_delete bucket_controller]; walk_home Hcalls.
Qed.

(** Passes of the S3 user, which connects in each. *)
Fixpoint user_passes decode json_encode json_decode sha256_hex get_s3bucket ns (n : nat) (deleting : bool)
  : M (online RStorage decode) (managed S3UserParameters S3UserObservation) unit :=
  match n with
  | O => mret tt
  | S n => try (user_pass (U := online RStorage decode) recorder json_encode json_decode sha256_hex get_s3bucket ns deleting);;
           user_passes decode json_encode json_decode sha256_hex get_s3bucket ns n deleting
  end.

Lemma user_home decode json_encode json_decode sha256_hex get_s3bucket ns n deleting :
  stays_home RStorage decode (user_passes decode json_encode json_decode sha256_hex get_s3bucket ns n deleting).
Proof.
  assert (forall q w res w' sent, exec (RStorage q) w = Some (res, w', sent) -> Forall claim sent) as Hcalls by (intros q ? ? ? ?; by apply Hall).
  induction n as [|n IH]; cbn [user_passes]; [by apply stays_home_pure|]. apply stays_home_bind; [|done]. apply stays_home_try.
  unfold user_pass. apply stays_home_bind; [walk_home Hcalls|]. intros x. unfold reconcile.
  apply stays_home_bind; [cbn [c_observe user_controller]; walk_home Hcalls|]. intros o. cbn [c_create c_update c_delete user_controller].
  walk_home Hcalls.
Qed.

Definition s3_kept (n : nat) (deleting : bool) (w : online_world) : Prop :=
  (forall decode twFull resolve json_decode cr,
     kept (world (reconciles n (bucket_controller (U := online RStorage decode) recorder twFull resolve json_decode) deleting cr w))) /\
  (forall decode json_encode json_decode sha256_hex get_s3bucket ns cr,
     kept (world (user_passes decode json_encode json_decode sha256_hex get_s3bucket ns n deleting cr w))).

Lemma s3_home (n : nat) (deleting : bool) (w : online_world) : kept w -> s3_kept n deleting w.
Proof. intros Hw. split; intros; revert Hw; [apply bucket_home|apply user_home]. Qed.
End S3.
End Kinds.
End Online.

(** ** The client's calls *)

Section Exec.
Context {N : Transport.Network} {S : ParamStyle} {SL : ParamStyleLaws S} {G : Signer} {GL : SignerLaws G}.
Variable resolve_location : URL -> string -> result string URL.
Variable t : authTransport.
Variable Wait : Net -> option error * Net.
Variables (server base iam : URL).
Variable marshal : api_request -> result error string.
Variable json_encode : json -> string.
Variable sha256_hex : string -> string.
(** The signing clock. *)
Variable now : Net -> Z.

(** A call of the API. *)
Definition api_exec (q : api_request) (w : Net) : option (result error http_response * Net * list wire_request) :=
  match perform resolve_location t Wait q (route server base iam marshal json_encode q) w with
  | Some (res, w', evs) => Some (res, w', sent_of evs)
  | None => None
  end.

(** Any call: the Query calls go through the IAM client, signed with their key pair. *)
Definition client_exec (q : api_request) (w : Net) : option (result error http_response * Net * list wire_request) :=
  match keys_of q with
  | Some keys => iam_call resolve_location sha256_hex keys (now w) (route server base iam marshal json_encode q) w
  | None => api_exec q w
  end.

Hypothesis (Hhost : u_Host base = u_Host server) (Hserver : EqualFold (u_Host server) (at_host t) = true) (Hbound : at_host t <> "").

Lemma api_exec_home q w res w' sent : is_iam q = false -> api_exec q w = Some (res, w', sent) -> Forall (at_home t) sent.
Proof.
  unfold api_exec. intros Hq. destruct (perform _ _ _ _ _ _) as [[[r n] evs]|] eqn:E; [|done]. intros [= <- <- <-].
  exact (proj1 (perform_home resolve_location t Wait server base iam Hhost Hserver Hbound marshal json_encode _ _ _ _ _ Hq E)).
Qed.

(** Home with the token, or without any. *)
Definition discreet (r : wire_request) : Prop := at_home t r \/ no_bearer r.

Lemma keys_of_iam q : keys_of q = None -> is_iam q = false.
Proof. destruct q as [q|q|q|q|q|q|q|q|q|q|q|q|q|q|q]; try done. by destruct q. Qed.

Lemma client_exec_discreet q w res w' sent : client_exec q w = Some (res, w', sent) -> Forall discreet sent.
Proof.
  unfold client_exec. destruct (keys_of q) as [keys|] eqn:Ek.
  - destruct (iam_call_sent resolve_location sha256_hex keys (now w) (route server base iam marshal json_encode q) w) as (r & n & l & -> & Hl & _).
    intros [= <- <- <-]. eapply Forall_impl; [exact Hl|]. by right.
  - intros H. eapply Forall_impl; [eapply api_exec_home; [by apply keys_of_iam|exact H]|]. by left.
Qed.
End Exec.

(** ** A pass over a hostile network *)

Definition no_body {A} (_ : http_response) : payload A := DecodeFailed "".

Definition hostile_exec : api_request -> unit -> option (result error http_response * unit * list wire_request) :=
  api_exec (N := Hostile) to_evil api_auth no_wait api_server api_host iam_host (fun _ => Ok "{}") (fun _ => "{}").

(** Two passes, two reads on the wire: the redirects are refused. *)
Example two_reads :
  let w := world (reconciles 2 (project_controller (U := online (N := Hostile) hostile_exec RProject (fun _ => no_body)) (R := MapRuntime) true)
    false Project.sample_cr (tt, [])) in
  (fun r => (w_Method r, u_Path (w_URL r))) <$> w.2 = [("GET", "/api/v1/projects/3"); ("GET", "/api/v1/projects/3")].
Proof. vm_compute. reflexivity. Qed.
