(* ===== verification/Connector.v ===== *)
(** * Connector: from a managed resource to the client of its controller

    The [Connect] methods of the connectors (internal/controller/*/connector.go): the
    use of the ProviderConfig is tracked, its token resolved, a client made for the
    token, and what the kind references resolved, except during deletion. The
    composition with [Credentials], [Transport] and [Online]: whose token the requests
    of a resource carry.

    The tracker of crossplane-runtime, [url.Parse] and the Kubernetes reads are
    parameters; a logger and an event recorder are not represented. *)

From Stdlib Require Import QArith.
From S2P Require Import Prelude Errors Timeweb Shared Catalog Credentials Effects Lifecycle Url Routes RouterRefs Router Firewall Network FloatingIP Server Kubernetes Project SSHKey Storage S3User Registry Repository Wire WireFacts Transport TransportFacts Iam Online.

#[local] Open Scope Z_scope.

(** ** What a connector looks at *)

Record object_meta := { om_Namespace : string; om_Ref : option ProviderConfigReference; om_Deleting : bool }.

(** The managed resource by its Go type, with the fields its Connect reads. A resource
    of another type is [modern] when it has a namespaced reference to its config. *)
Inductive managed_resource (Selector : Type) : Type :=
| MProject
| MSSHKey
| MCdn
| MServer (fp : ServerParameters)
| MNetwork
| MFloatingIP
| MRouter (networks : list (RouterNetworkAttachment Selector)) (projectID : option Z) (projectRef : option string)
    (routes : list RouterStaticRoute)
| MFirewall
| MCluster (deps : ClusterDeps)
| MNodepool (ref : option string) (selector : bool) (id : option string)
| MAddon (ref : option string) (selector : bool) (id : option string)
| MRegistry
| MRepository
| MS3Bucket
| MS3User
| MOther (modern : bool).
Arguments MProject {_}.
Arguments MSSHKey {_}.
Arguments MCdn {_}.
Arguments MServer {_} _.
Arguments MNetwork {_}.
Arguments MFloatingIP {_}.
Arguments MRouter {_} _ _ _ _.
Arguments MFirewall {_}.
Arguments MCluster {_} _.
Arguments MNodepool {_} _ _ _.
Arguments MAddon {_} _ _ _.
Arguments MRegistry {_}.
Arguments MRepository {_}.
Arguments MS3Bucket {_}.
Arguments MS3User {_}.
Arguments MOther {_} _.

Definition is_modern {Selector} (r : managed_resource Selector) : bool := match r with MOther modern => modern | _ => true end.

(** The external client of a kind. *)
Inductive external : Type :=
| projectExternal (tw : client)
| sshkeyExternal (tw : client)
| cdnExternal (tw : client)
| serverExternal (tw : client) (pcRef : PCRef) (resolved : resolvedRefs)
| networkExternal (tw : client)
| floatingIPExternal (tw : client)
| routerExternal (tw : client) (pcRef : PCRef) (resolvedNetworks : list resolvedAttachment) (resolvedProjectID : option Z)
    (resolvedRoutes : list resolvedRoute)
| firewallExternal (tw : client)
| clusterExternal (tw : client) (pcRef : PCRef) (resolvedNetworkID : string) (resolvedProjectID : option Z) (resolvedRouterID : string)
| nodepoolExternal (tw : client) (pcRef : PCRef) (resolvedClusterID : string)
| addonExternal (tw : client) (resolvedClusterID : string)
| registryExternal (tw : client) (pcRef : PCRef) (apiToken : string)
| repositoryExternal (tw : client)
| bucketExternal (tw : client) (pcRef : PCRef).

Definition tw_of (x : external) : client :=
  match x with
  | projectExternal tw | sshkeyExternal tw | cdnExternal tw | serverExternal tw _ _ | networkExternal tw | floatingIPExternal tw
  | routerExternal tw _ _ _ _ | firewallExternal tw | clusterExternal tw _ _ _ _ | nodepoolExternal tw _ _ | addonExternal tw _
  | registryExternal tw _ _ | repositoryExternal tw | bucketExternal tw _ => tw
  end.

(** The key the catalog cache is asked under, for the kinds that have a resolver. *)
Definition pcRef_of (x : external) : option PCRef :=
  match x with
  | serverExternal _ p _ | routerExternal _ p _ _ _ | clusterExternal _ p _ _ _ | nodepoolExternal _ p _ | registryExternal _ p _
  | bucketExternal _ p => Some p
  | _ => None
  end.

(** One connector per controller group; the S3 user's, which calls the API, is below. *)
Inductive connector : Type :=
| ProjectConnector | SSHKeyConnector | CdnConnector | ComputeConnector | NetworkConnector | KubernetesConnector
| RegistryConnector | RepositoryConnector | BucketConnector.

Definition not_a (kind : string) : error := ErrorString ("managed resource is not a " +:+ kind).

Section Connect.
Context {Selector : Type}.
Variable url_Parse : string -> option URL.
(** [usage.Track]. *)
Variable Track : object_meta -> option error.
Variable secrets : SecretReader.

(** ** The common prefix *)

(** Track the use of the config, resolve the token, make the client. *)
Definition dial (group : string) (mg : object_meta) (s : shared) : result error (string * client) * shared :=
  match Track mg with
  | Some e => (Err (wrap_pre (group +:+ ": track ProviderConfigUsage: ") e), s)
  | None =>
      match ResolveToken secrets (om_Namespace mg) (om_Ref mg) with
      | Err e => (Err (wrap_pre (group +:+ ": ") e), s)
      | Ok (token, _) =>
          match New url_Parse {| cf_Token := token; cf_BaseURL := ""; cf_RateLimit := 0; cf_Burst := 0; cf_Timeout := 0 |} s with
          | (Err e, s) => (Err (wrap_pre (group +:+ ": build Timeweb client: ") e), s)
          | (Ok tw, s) => (Ok (token, tw), s)
          end
      end
  end.

Definition pcRefFor (mg : object_meta) : PCRef :=
  match om_Ref mg with
  | None => {| pc_Kind := ""; pc_Name := ""; pc_Namespace := "" |}
  | Some ref => {| pc_Kind := pcr_Kind ref; pc_Name := pcr_Name ref; pc_Namespace := om_Namespace mg |}
  end.

(** The client in hand, the rest of a Connect reads the cluster only. *)
Definition dialled (r : result error (string * client) * shared) (f : string -> client -> result error external)
  : result error external * shared := (x ← r.1; f x.1 x.2, r.2).

Section Refs.
Variable kube : Kube Selector.
Variable servers : ServerReads.
Variable clusters : KubeReads.

(** ** The connectors *)

Definition project_Connect (r : managed_resource Selector) (mg : object_meta) (s : shared) : result error external * shared :=
  match r with
  | MProject => dialled (dial "project" mg s) (fun _ tw => Ok (projectExternal tw))
  | _ => (Err (not_a "Project"), s)
  end.

Definition sshkey_Connect (r : managed_resource Selector) (mg : object_meta) (s : shared) : result error external * shared :=
  match r with
  | MSSHKey => dialled (dial "sshkey" mg s) (fun _ tw => Ok (sshkeyExternal tw))
  | _ => (Err (not_a "SSHKey"), s)
  end.

Definition cdn_Connect (r : managed_resource Selector) (mg : object_meta) (s : shared) : result error external * shared :=
  match r with
  | MCdn => dialled (dial "cdn" mg s) (fun _ tw => Ok (cdnExternal tw))
  | _ => (Err (not_a "Cdn"), s)
  end.

Definition compute_Connect (r : managed_resource Selector) (mg : object_meta) (s : shared) : result error external * shared :=
  match r with
  | MServer fp =>
      dialled (dial "compute/server" mg s) (fun _ tw =>
        resolved ← connect_server servers (om_Namespace mg) (om_Deleting mg) fp;
        Ok (serverExternal tw (pcRefFor mg) resolved))
  | _ => (Err (not_a "Server"), s)
  end.

Definition errUnknownKind (group : string) : error := ErrorString (group +:+ " connector: unsupported managed resource kind").

Definition network_Connect (r : managed_resource Selector) (mg : object_meta) (s : shared) : result error external * shared :=
  if negb (is_modern r) then (Err (errUnknownKind "network"), s)
  else
    dialled (dial "network" mg s) (fun _ tw =>
      match r with
      | MNetwork => Ok (networkExternal tw)
      | MFloatingIP => Ok (floatingIPExternal tw)
      | MRouter networks projectID projectRef routes =>
          x ← connect_router kube (om_Namespace mg) (om_Deleting mg) networks projectID projectRef routes;
          Ok (routerExternal tw (pcRefFor mg) x.1.1 x.1.2 x.2)
      | MFirewall => Ok (firewallExternal tw)
      | _ => Err (errUnknownKind "network")
      end).

Definition kubernetes_Connect (r : managed_resource Selector) (mg : object_meta) (s : shared) : result error external * shared :=
  if negb (is_modern r) then (Err (errUnknownKind "kubernetes"), s)
  else
    dialled (dial "kubernetes" mg s) (fun _ tw =>
      match r with
      | MCluster deps =>
          x ← connect_cluster clusters (om_Namespace mg) (om_Deleting mg) deps;
          Ok (clusterExternal tw (pcRefFor mg) x.1.1 x.1.2 x.2)
      | MNodepool ref selector id =>
          cluster ← connect_nodepool clusters (om_Namespace mg) (om_Deleting mg) ref selector id;
          Ok (nodepoolExternal tw (pcRefFor mg) cluster)
      | MAddon ref selector id =>
          cluster ← connect_addon clusters (om_Namespace mg) (om_Deleting mg) ref selector id;
          Ok (addonExternal tw cluster)
      | _ => Err (errUnknownKind "kubernetes")
      end).

Definition registry_Connect (r : managed_resource Selector) (mg : object_meta) (s : shared) : result error external * shared :=
  match r with
  | MRegistry => dialled (dial "containerregistry" mg s) (fun token tw => Ok (registryExternal tw (pcRefFor mg) token))
  | _ => (Err (not_a "ContainerRegistry"), s)
  end.

Definition repository_Connect (r : managed_resource Selector) (mg : object_meta) (s : shared) : result error external * shared :=
  match r with
  | MRepository => dialled (dial "containerregistryrepository" mg s) (fun _ tw => Ok (repositoryExternal tw))
  | _ => (Err (not_a "ContainerRegistryRepository"), s)
  end.

(** The reference is dereferenced unchecked. *)
Definition bucket_Connect (r : managed_resource Selector) (mg : object_meta) (s : shared) : result error external * shared :=
  match r with
  | MS3Bucket =>
      dialled (dial "s3bucket" mg s) (fun _ tw =>
        match om_Ref mg with
        | None => Err nil_dereference
        | Some ref => Ok (bucketExternal tw {| pc_Kind := pcr_Kind ref; pc_Name := pcr_Name ref; pc_Namespace := om_Namespace mg |})
        end)
  | _ => (Err (not_a "S3Bucket"), s)
  end.

Definition connect (c : connector) : managed_resource Selector -> object_meta -> shared -> result error external * shared :=
  match c with
  | ProjectConnector => project_Connect
  | SSHKeyConnector => sshkey_Connect
  | CdnConnector => cdn_Connect
  | ComputeConnector => compute_Connect
  | NetworkConnector => network_Connect
  | KubernetesConnector => kubernetes_Connect
  | RegistryConnector => registry_Connect
  | RepositoryConnector => repository_Connect
  | BucketConnector => bucket_Connect
  end.

Definition group_of (c : connector) : string :=
  match c with
  | ProjectConnector => "project" | SSHKeyConnector => "sshkey" | CdnConnector => "cdn" | ComputeConnector => "compute/server"
  | NetworkConnector => "network" | KubernetesConnector => "kubernetes" | RegistryConnector => "containerregistry"
  | RepositoryConnector => "containerregistryrepository" | BucketConnector => "s3bucket"
  end.

(** The S3 user's: after the client, the admin keys and the grants ([S3User.Connect]). *)
Section User.
Context `{R : CrossplaneRuntime} {U : Upstream storage_request storage_reply}.

Definition s3user_Connect (get_s3bucket : World -> string -> string -> kube_get S3BucketView) (r : managed_resource Selector) (mg : object_meta)
    (s : shared) : M U (managed S3UserParameters S3UserObservation) (client * s3_session) * shared :=
  match r with
  | MS3User =>
      let '(d, s) := dial "s3user" mg s in
      ((x ← lift d; session ← S3User.Connect get_s3bucket (om_Namespace mg) (om_Deleting mg); mret (x.2, session)), s)
  | _ => (throw (not_a "S3User"), s)
  end.
End User.

(** The kinds a connector is registered for. *)
Definition serves (c : connector) (r : managed_resource Selector) : bool :=
  match c, r with
  | ProjectConnector, MProject | SSHKeyConnector, MSSHKey | CdnConnector, MCdn | ComputeConnector, MServer _
  | NetworkConnector, (MNetwork | MFloatingIP | MRouter _ _ _ _ | MFirewall)
  | KubernetesConnector, (MCluster _ | MNodepool _ _ _ | MAddon _ _ _)
  | RegistryConnector, MRegistry | RepositoryConnector, MRepository | BucketConnector, MS3Bucket => true
  | _, _ => false
  end.
End Refs.

(** ** The prefix *)

(** A token that resolved was read from a Secret: the one of its own namespace for a
    namespaced config. *)
Lemma token_read ns ref token pc : ResolveToken secrets ns ref = Ok (token, pc) ->
  exists r src, ref = Some r /\ token_source secrets ns r pc src /\ secret_token secrets pc src token.
Proof.
  destruct ref as [ref|]; [|done]. unfold ResolveToken. case_bool_decide; [done|].
  destruct (lookupProviderConfig secrets ns ref) as [[pc' b]|e] eqn:El; [|done]. cbn [mbind result_bind fst snd].
  destruct (read_token secrets (pcr_Name ref) pc' b) as [tok|e] eqn:Et; [|done]. cbn [mbind result_bind]. intros [= -> ->].
  apply read_token_iff in Et as (_ & _ & _ & src & Hns & Htok). apply secret_namespace_iff in Hns.
  exists ref, src. split; [done|]. split; [|done].
  apply lookup_iff in El as [(-> & ? & ? & ?)|(-> & ? & ?)]; destruct Hns as [-> ?]; [by left|by right].
Qed.

(** Such a token is never refused by [New]: it was trimmed and is not blank. *)
Lemma token_not_blank ns ref token pc : ResolveToken secrets ns ref = Ok (token, pc) -> trim_space token <> "".
Proof.
  intros (r & src & _ & _ & data & raw & _ & _ & <- & Hne)%token_read. by rewrite trim_space_idem.
Qed.

Lemma New_ok cfg s : trim_space (cf_Token cfg) <> "" ->
  exists tw s', New url_Parse cfg s = (Ok tw, s') /\ at_token (cl_transport tw) = cf_Token cfg /\ cl_baseURL tw = base_of cfg /\
    cl_server tw = NewClient (base_of cfg) /\
    at_host (cl_transport tw) = match url_Parse (base_of cfg) with Some u => u_Host u | None => "" end.
Proof.
  intros Ht. unfold New. rewrite bool_decide_false by done. destruct (sharedLimiter _ _ _ _ s) as [l s1]. destruct (sharedTransport _ _ s1) as [n s2].
  by eexists _, s2.
Qed.

(** The client a connector makes: of this token, for the default API. *)
Definition made_for (token : string) (tw : client) : Prop :=
  at_token (cl_transport tw) = token /\ cl_baseURL tw = DefaultBaseURL /\ cl_server tw = NewClient DefaultBaseURL /\
  at_host (cl_transport tw) = match url_Parse DefaultBaseURL with Some u => u_Host u | None => "" end.

(** The prefix fails where the tracker or the token does, and nowhere else. *)
Lemma dial_spec group mg s :
  match Track mg, ResolveToken secrets (om_Namespace mg) (om_Ref mg) with
  | Some e, _ => dial group mg s = (Err (wrap_pre (group +:+ ": track ProviderConfigUsage: ") e), s)
  | None, Err e => dial group mg s = (Err (wrap_pre (group +:+ ": ") e), s)
  | None, Ok (token, _) => exists tw s', dial group mg s = (Ok (token, tw), s') /\ made_for token tw
  end.
Proof.
  unfold dial. destruct (Track mg) as [e|]; [done|]. destruct (ResolveToken _ _ _) as [[token pc]|e] eqn:E; [|done].
  apply token_not_blank in E. destruct (New_ok {| cf_Token := token; cf_BaseURL := ""; cf_RateLimit := 0; cf_Burst := 0; cf_Timeout := 0 |} s E)
    as (tw & s' & Hn & Ht & Hb & Hs & Hh). rewrite Hn. by exists tw, s'.
Qed.

Lemma dial_ok group mg s token tw s' : dial group mg s = (Ok (token, tw), s') ->
  Track mg = None /\ made_for token tw /\ exists pc, ResolveToken secrets (om_Namespace mg) (om_Ref mg) = Ok (token, pc).
Proof.
  intros H. pose proof (dial_spec group mg s) as Hd. destruct (Track mg); [congruence|].
  destruct (ResolveToken _ _ _) as [[token' pc]|e]; [|congruence]. destruct Hd as (tw' & s1 & Hd & Hm).
  assert (token' = token /\ tw' = tw) as [-> ->] by (split; congruence). split; [done|]. split; [done|by exists pc].
Qed.

(** ** The connectors over the prefix *)

Lemma dialled_ok d f x s : dialled d f = (Ok x, s) -> exists token tw, d = (Ok (token, tw), s) /\ f token tw = Ok x.
Proof. unfold dialled. destruct d as [[[token tw]|e] s1]; cbn; [|done]. intros [= H ->]. by exists token, tw. Qed.

Section Arms.
Variable kube : Kube Selector.
Variable servers : ServerReads.
Variable clusters : KubeReads.

(** A connector that succeeds made the client of its external by the prefix, and asks the
    catalog under the reference of its resource. *)
Lemma connect_dialled c r mg s x s' : connect kube servers clusters c r mg s = (Ok x, s') ->
  serves c r = true /\ exists token, dial (group_of c) mg s = (Ok (token, tw_of x), s') /\
    forall p, pcRef_of x = Some p -> p = pcRefFor mg.
Proof.
  intros H. destruct c, r; try discriminate H; cbn [connect group_of] in *.
  all: try (unfold network_Connect, kubernetes_Connect in H; cbn [is_modern negb] in H).
  all: try (destruct modern; [|discriminate H]; cbn [negb] in H).
  all: first [apply dialled_ok in H as (token & tw & Hd & H)|idtac].
  all: try discriminate H.
  all: split; [reflexivity|exists token].
  all: repeat match type of H with (mbind _ ?m = _) => destruct m; [cbn [mbind result_bind] in H|discriminate H] end.
  all: try (destruct (om_Ref mg) as [ref|] eqn:Hr; [|discriminate H]).
  all: injection H as <-; split; [exact Hd|].
  all: intros p; cbn [pcRef_of]; try discriminate; intros [= <-]; try reflexivity.
  unfold pcRefFor. by rewrite Hr.
Qed.

(** C13. For every kind but the S3 user: a resource that is being deleted connects whenever
    the use of its ProviderConfig is tracked and its token resolves. No network, router,
    project or cluster it refers to has to exist, to be ready or even to be readable, and
    its finalizer is not held up by one that is gone. (The S3 user is excluded: its
    duplicate-grant check also runs while deleting, [duplicate_grant_blocks_deletion].) *)
Theorem deletion_needs_no_reference (c : connector) (r : managed_resource Selector) (mg : object_meta) (s : shared)
    (token : string) (pc : ProviderConfig)
    (Hserves : serves c r = true) (Hdeleting : om_Deleting mg = true) (Htrack : Track mg = None)
    (Htoken : ResolveToken secrets (om_Namespace mg) (om_Ref mg) = Ok (token, pc)) :
  exists x s', connect kube servers clusters c r mg s = (Ok x, s') /\ made_for token (tw_of x).
Proof.
  pose proof (dial_spec (group_of c) mg s) as Hd. rewrite Htrack, Htoken in Hd. destruct Hd as (tw & s' & Hd & Hm).
  destruct c, r; try discriminate Hserves; cbn [connect group_of] in *.
  all: unfold project_Connect, sshkey_Connect, cdn_Connect, compute_Connect, network_Connect, kubernetes_Connect, registry_Connect,
    repository_Connect, bucket_Connect, dialled; cbn [is_modern negb]; rewrite Hd; cbn [fst snd mbind result_bind].
  all: rewrite ?Hdeleting; cbn [connect_server connect_router connect_cluster connect_nodepool connect_addon mbind result_bind].
  all: try (eexists _, _; split; [reflexivity|exact Hm]).
  destruct (om_Ref mg) as [ref|]; [|discriminate Htoken]. by eexists _, _.
Qed.

(** C14. The catalog cache crosses no tenant: two resources that ask it under the same key
    resolved the same token, so what one fetched the other may see. *)
Theorem cache_key_one_token (c1 c2 : connector) (r1 r2 : managed_resource Selector) (mg1 mg2 : object_meta) (s1 s2 s1' s2' : shared)
    (x1 x2 : external) (p : PCRef)
    (H1 : connect kube servers clusters c1 r1 mg1 s1 = (Ok x1, s1')) (H2 : connect kube servers clusters c2 r2 mg2 s2 = (Ok x2, s2'))
    (Hp1 : pcRef_of x1 = Some p) (Hp2 : pcRef_of x2 = Some p) :
  at_token (cl_transport (tw_of x1)) = at_token (cl_transport (tw_of x2)) /\ om_Namespace mg1 = om_Namespace mg2 /\ om_Ref mg1 = om_Ref mg2.
Proof.
  apply connect_dialled in H1 as (_ & t1 & Hd1 & Hr1). apply connect_dialled in H2 as (_ & t2 & Hd2 & Hr2).
  apply dial_ok in Hd1 as (_ & (Ht1 & _) & pc1 & Hk1). apply dial_ok in Hd2 as (_ & (Ht2 & _) & pc2 & Hk2).
  specialize (Hr1 p Hp1). specialize (Hr2 p Hp2). rewrite Hr1 in Hr2. unfold pcRefFor in Hr2.
  destruct (om_Ref mg1) as [ref1|]; [|discriminate Hk1]. destruct (om_Ref mg2) as [ref2|]; [|discriminate Hk2].
  assert (ref1 = ref2) as -> by (destruct ref1, ref2; cbn in Hr2; congruence). injection Hr2 as Hns.
  rewrite Hns in Hk1. rewrite Ht1, Ht2. split; [congruence|]. by split.
Qed.
End Arms.
End Connect.

(** ** Whose token a resource's requests carry *)

Section Tenant.
Context {N : Transport.Network} {PS : ParamStyle} {SL : ParamStyleLaws PS} {G : Signer} {GL : SignerLaws G} {R : CrossplaneRuntime} {Selector : Type}.
Variable url_Parse : string -> option URL.
Variable Track : object_meta -> option error.
Variable secrets : SecretReader.
Variable kube : Kube Selector.
Variable servers : ServerReads.
Variable clusters : KubeReads.
Variable resolve_location : URL -> string -> result string URL.
Variable Wait : Net -> option error * Net.
Variables (server base iam : URL).
Variable marshal : api_request -> result error string.
Variable json_encode : json -> string.
Variable sha256_hex : string -> string.
Variable now : Net -> Z.
Variable recorder : bool.

(** The calls of a client, of the API and of IAM. *)
Definition api_of (tw : client) := api_exec resolve_location (cl_transport tw) Wait server base iam marshal json_encode.
Definition all_of (tw : client) := client_exec resolve_location (cl_transport tw) Wait server base iam marshal json_encode sha256_hex now.

(** C12. From the resource to the wire: the client a connector makes for a resource whose
    config is namespaced carries the token in the Secret that config names, a Secret of
    the resource's own namespace; and however many passes the controllers run over it,
    against whatever the network answers, each request goes to the default API's host
    with that token and no other. The S3 kinds also send signed IAM queries, and those
    never carry a token, wherever they are redirected. *)
Theorem tenant_traffic (c : connector) (r : managed_resource Selector) (mg : object_meta) (s s' : shared) (x : external)
    (ref : ProviderConfigReference)
    (Hc : connect url_Parse Track secrets kube servers clusters c r mg s = (Ok x, s'))
    (Href : om_Ref mg = Some ref) (Hkind : pcr_Kind ref = PCKindNamespaced)
    (Hown : forall n pc, get_provider_config secrets (om_Namespace mg) n = KFound pc -> pc_Own pc = om_Namespace mg)
    (Hbase : url_Parse (cl_baseURL (tw_of x)) = Some base) (Hserver : url_Parse (cl_server (tw_of x)) = Some server)
    (Hhost : u_Host server = u_Host base) (Hnamed : u_Host base <> "") :
  (exists pc, get_provider_config secrets (om_Namespace mg) (pcr_Name ref) = KFound pc /\
     secret_token secrets pc (om_Namespace mg) (at_token (cl_transport (tw_of x)))) /\
  (forall n deleting w, kept (at_home (cl_transport (tw_of x))) w ->
     fleet_kept (api_of (tw_of x)) (at_home (cl_transport (tw_of x))) recorder n deleting w) /\
  (forall n deleting w, kept (discreet (cl_transport (tw_of x))) w ->
     s3_kept (all_of (tw_of x)) (discreet (cl_transport (tw_of x))) recorder n deleting w).
Proof.
  apply connect_dialled in Hc as (_ & token & Hd & _). apply dial_ok in Hd as (_ & (Ht & Hb & Hs & Hh) & pc & Htok).
  rewrite Hb in Hbase. rewrite Hbase in Hh.
  assert (EqualFold (u_Host server) (at_host (cl_transport (tw_of x))) = true) as Hfold by (rewrite Hh, Hhost; by apply bool_decide_eq_true).
  split; [|split].
  - apply token_read in Htok as (r' & src & Hr' & Hsrc & Hsec). assert (r' = ref) as -> by congruence.
    destruct Hsrc as [(_ & _ & Hpc & -> & _)|([Hk|Hk] & _)]; [|rewrite Hkind in Hk; discriminate Hk..].
    exists pc. split; [done|]. rewrite Ht, <- (Hown _ _ Hpc). exact Hsec.
  - intros n deleting w Hw. apply fleet_home; [|exact Hw]. intros q w0 res w1 sent Hq. apply api_exec_home; [by symmetry|exact Hfold|by rewrite Hh|exact Hq].
  - intros n deleting w Hw. apply s3_home; [|exact Hw]. intros q w0 res w1 sent. apply client_exec_discreet; [by symmetry|exact Hfold|by rewrite Hh].
Qed.
End Tenant.

(** ** Witnesses *)

Definition parse_api (s : string) : option URL := if has_slash s then Some api_server else Some api_host.
Definition tracked (_ : object_meta) : option error := None.
Definition of_team_a (deleting : bool) : object_meta := {| om_Namespace := "team-a"; om_Ref := Some sample_ref; om_Deleting := deleting |}.
Definition no_servers : ServerReads :=
  {| read_server_network _ _ := KNotFound; read_server_project _ _ := KNotFound; read_server_key _ _ := KNotFound; read_server_fip _ _ := KNotFound |}.
Definition no_clusters : KubeReads :=
  {| read_cluster _ _ := KNotFound; read_router _ _ := KNotFound; read_network _ _ := KNotFound; read_project _ _ := KNotFound |}.

Notation sample_connect := (connect parse_api tracked (sample_reader "other") sample_kube no_servers no_clusters).

(** A node pool of a cluster that is gone does not connect, except to be deleted. *)
Example orphan_waits :
  match (sample_connect KubernetesConnector (MNodepool (Some "gone") false None) (of_team_a false) nothing_shared).1 with
  | Ok _ => False
  | Err e => contains_str (Error e) "kubernetes/nodepool: resolve cluster reference: " = true
  end.
Proof. vm_compute. reflexivity. Qed.

Lemma deletion_needs_no_reference_witness :
  exists x s', sample_connect KubernetesConnector (MNodepool (Some "gone") false None) (of_team_a true) nothing_shared = (Ok x, s') /\
    made_for parse_api "s3cr3t" (tw_of x).
Proof.
  apply (deletion_needs_no_reference parse_api tracked (sample_reader "other") sample_kube no_servers no_clusters KubernetesConnector
    (MNodepool (Some "gone") false None) (of_team_a true) nothing_shared "s3cr3t" (sample_config "")); [reflexivity..|vm_compute; reflexivity].
Defined.

Lemma cache_key_one_token_witness :
  exists x1 x2, (sample_connect RegistryConnector MRegistry (of_team_a false) nothing_shared).1 = Ok x1 /\
    (sample_connect BucketConnector MS3Bucket (of_team_a true) nothing_shared).1 = Ok x2 /\
    at_token (cl_transport (tw_of x1)) = at_token (cl_transport (tw_of x2)).
Proof.
  eexists _, _. split; [vm_compute; reflexivity|]. split; [vm_compute; reflexivity|].
  eapply (cache_key_one_token parse_api tracked (sample_reader "other") sample_kube no_servers no_clusters RegistryConnector BucketConnector
    MRegistry MS3Bucket (of_team_a false) (of_team_a true) nothing_shared nothing_shared); [vm_compute; reflexivity..].
Defined.

(** The signature of a fixed string. *)
#[export] Instance FixedSigner : Signer := {|
  SignHTTP k _ _ service region _ := {["Authorization" := sigv4_scheme +:+ "Credential=" +:+ ak_AccessKey k +:+ "/" +:+ region +:+ "/" +:+ service]} |}.

#[export] Instance FixedSignerLaws : SignerLaws FixedSigner.
Proof. intros k req hash service region now v. cbn [SignHTTP FixedSigner]. rewrite lookup_singleton_eq. by intros [= <-]. Qed.

Definition hostile_api (tw : client) := api_of (N := Hostile) to_evil no_wait api_server api_host iam_host (fun _ => Ok "{}") (fun _ => "{}") tw.
Definition hostile_projects (tw : client) : Upstream Project.project_request Project.project_reply :=
  online (N := Hostile) (hostile_api tw) RProject (fun _ => no_body).

(** A project of team-a over a network that redirects everything elsewhere. *)
Lemma tenant_traffic_witness :
  exists x s', sample_connect ProjectConnector MProject (of_team_a false) nothing_shared = (Ok x, s') /\
    kept (at_home (cl_transport (tw_of x))) (world (reconciles (U := hostile_projects (tw_of x)) 2 (project_controller (R := MapRuntime) true) false Project.sample_cr (tt, []))).
Proof.
  eexists _, _. split; [vm_compute; reflexivity|].
  edestruct (tenant_traffic (N := Hostile) (R := MapRuntime) parse_api tracked (sample_reader "other") sample_kube no_servers no_clusters
    to_evil no_wait api_server api_host iam_host (fun _ => Ok "{}") (fun _ => "{}") (fun s => s) (fun _ => 0) true ProjectConnector MProject
    (of_team_a false) nothing_shared) as (_ & H & _); [vm_compute; reflexivity|reflexivity|reflexivity|..].
  - intros n pc. cbn. by intros [= <-].
  - reflexivity.
  - reflexivity.
  - reflexivity.
  - discriminate.
  - destruct (H 2%nat false (tt, []) ltac:(constructor)) as (_ & _ & _ & _ & _ & _ & _ & _ & _ & Hp & _). apply Hp.
Defined.
