(* ===== verification/Flight.v ===== *)
(** * Flight: the catalog cache under concurrent callers

    [getOrFetch] of shared/resolver/cache.go as many goroutines run it: the fast path
    under the read lock, the flight that [singleflight.Group.Do] opens or joins, the
    second look, the fetch without a lock, the store under the write lock. A step of one
    caller is what the code does between two points where another may run; the clock
    moves and other code invalidates in between.

    golang.org/x/sync/singleflight is the class [Singleflight]: [Do] runs one function
    per key at a time, and a duplicate caller waits for it and receives its result. *)

From S2P Require Import Prelude Errors Slug Configurator Catalog Shared.

#[local] Open Scope Z_scope.

(** ** Singleflight *)

(** A group is known by the keys that are in flight. *)
Class Singleflight := {
  Group : Type;
  idle : Group;
  flying : Group -> string -> bool;
  take_off : string -> Group -> Group;
  land : string -> Group -> Group }.

Class SingleflightLaws (F : Singleflight) := {
  flying_idle k : flying idle k = false;
  flying_take_off k g k' : flying (take_off k g) k' = bool_decide (k = k') || flying g k';
  flying_land k g k' : flying (land k g) k' = negb (bool_decide (k = k')) && flying g k' }.

#[export] Instance KeySet : Singleflight := {|
  Group := gset string; idle := ∅; flying g k := bool_decide (k ∈ g); take_off k g := {[k]} ∪ g; land k g := g ∖ {[k]} |}.

#[export] Instance KeySetLaws : SingleflightLaws KeySet.
Proof.
  split; cbn; intros.
  - by apply bool_decide_eq_false.
  - repeat case_bool_decide; set_solver.
  - repeat case_bool_decide; set_solver.
Qed.

(** ** The calls *)

(** The key of a flight. *)
Definition sfKey (key : cacheKey) : string :=
  pc_Kind (key_pc key) +:+ "|" +:+ pc_Namespace (key_pc key) +:+ "|" +:+ pc_Name (key_pc key) +:+ "|" +:+ dim_Name (key_dim key).

(** The keys [Resolve] asks for, with the names Kubernetes allows: no bar in them, and a
    dimension of the registry under its own kind. *)
Definition flyable (key : cacheKey) : bool :=
  no_byte "|"%char (pc_Kind (key_pc key)) && no_byte "|"%char (pc_Namespace (key_pc key)) && no_byte "|"%char (pc_Name (key_pc key)) &&
  match assoc (dim_Name (key_dim key)) defaultRegistry with
  | Some def => bool_decide (def_kind def = dim_Kind (key_dim key))
  | None => false
  end.

(** Such keys that share a flight are one key. *)
Lemma sfKey_apart k k' : flyable k = true -> flyable k' = true -> sfKey k = sfKey k' -> k = k'.
Proof.
  destruct k as [[pk pn pns] [dn dk]], k' as [[pk' pn' pns'] [dn' dk']]. unfold flyable, sfKey. cbn [key_pc key_dim pc_Kind pc_Name pc_Namespace dim_Name dim_Kind].
  intros H H' E. split_and_or. apply separator_split in E as [-> E]; [|done..]. apply separator_split in E as [-> E]; [|done..].
  apply separator_split in E as [-> ->]; [|done..]. destruct (assoc dn' defaultRegistry) as [def|]; [|done].
  do 2 case_bool_decide; [|done..]. congruence.
Qed.

(** What the flight makes of the fetcher's answer: the cache it leaves, and the result. *)
Definition keep (c : cache) (key : cacheKey) (r : result error catalog_payload) (now : Z) : cache * result error catalog_payload :=
  match r with
  | Err e => (if error_is e ErrCatalogUnauthorized then store c key (Err e) now else c, Err e)
  | Ok p =>
      if isEmptySlice p then (c, Err (wrap_post (Sentinel ErrCatalogTransient) ": catalog returned 0 entries"))
      else (store c key (Ok p) now, Ok p)
  end.

(** After two misses [getOrFetch] does this. *)
Lemma keep_getOrFetch c key t1 t2 t3 f : cached c key t1 = None -> cached c key t2 = None ->
  keep c key f t3 = (getOrFetch c key t1 t2 t3 f).1.
Proof. intros H1 H2. unfold getOrFetch, keep. rewrite H1, H2. by repeat case_match. Qed.

(** How far a caller is. *)
Inductive stage : Type :=
| Arrived                                               (* before the fast path *)
| Looked (e : option cacheEntry)                        (* the read lock released, the clock not read *)
| Missed                                                (* before [c.sf.Do] *)
| Waiting (leader : nat)                                (* in [Do], behind another caller *)
| Leading                                               (* in the callback, before the second look *)
| LookedAgain (e : option cacheEntry)
| Fetching                                              (* in [f(ctx)] *)
| Fetched (r : result error catalog_payload)            (* before the write lock *)
| Publishing (r : result error catalog_payload)         (* the callback has returned *)
| Returned (r : result error catalog_payload).

Record system {F : Singleflight} := {
  sy_cache : cache;
  sy_group : Group;
  sy_clock : Z;
  sy_callers : list stage;
  sy_fetches : list nat }.                              (* who called the upstream, latest first *)
Arguments system : clear implicits.

Definition is_leading (st : stage) : bool :=
  match st with Leading | LookedAgain _ | Fetching | Fetched _ | Publishing _ => true | _ => false end.

(** The waiting of a flight receive its result. *)
Definition wake (leader : nat) (r : result error catalog_payload) (st : stage) : stage :=
  match st with Waiting j => if bool_decide (j = leader) then Returned r else st | _ => st end.

Section Steps.
Context {F : Singleflight}.
(** The key each caller asks for. *)
Variable key : nat -> cacheKey.
(** What the upstream may answer to a fetch of a key. *)
Variable answers : cacheKey -> result error catalog_payload -> Prop.
(** The keys other code invalidates. *)
Variable invalidates : cacheKey -> Prop.

Definition flight (i : nat) : string := sfKey (key i).

Definition at_stage (s : system F) (i : nat) (st : stage) : Prop := sy_callers s !! i = Some st.

Definition leads_in (l : list stage) (i : nat) : Prop := exists st, l !! i = Some st /\ is_leading st = true.
Definition leads (s : system F) (i : nat) : Prop := leads_in (sy_callers s) i.

Definition move (i : nat) (st : stage) (s : system F) : system F :=
  {| sy_cache := sy_cache s; sy_group := sy_group s; sy_clock := sy_clock s;
     sy_callers := <[i := st]> (sy_callers s); sy_fetches := sy_fetches s |}.

Definition set_group (g : Group) (s : system F) : system F :=
  {| sy_cache := sy_cache s; sy_group := g; sy_clock := sy_clock s; sy_callers := sy_callers s; sy_fetches := sy_fetches s |}.

Definition set_cache (c : cache) (s : system F) : system F :=
  {| sy_cache := c; sy_group := sy_group s; sy_clock := sy_clock s; sy_callers := sy_callers s; sy_fetches := sy_fetches s |}.

Definition set_clock (t : Z) (s : system F) : system F :=
  {| sy_cache := sy_cache s; sy_group := sy_group s; sy_clock := t; sy_callers := sy_callers s; sy_fetches := sy_fetches s |}.

Definition note_fetch (i : nat) (s : system F) : system F :=
  {| sy_cache := sy_cache s; sy_group := sy_group s; sy_clock := sy_clock s; sy_callers := sy_callers s; sy_fetches := i :: sy_fetches s |}.

Definition publish (i : nat) (r : result error catalog_payload) (s : system F) : system F :=
  {| sy_cache := sy_cache s; sy_group := land (flight i) (sy_group s); sy_clock := sy_clock s;
     sy_callers := <[i := Returned r]> (wake i r <$> sy_callers s); sy_fetches := sy_fetches s |}.

(** [ok && !c.expired(e)], of the entry read before. *)
Definition fresh (s : system F) (e : option cacheEntry) : option (result error catalog_payload) :=
  match e with
  | Some e => if expired (sy_cache s) (sy_clock s) e then None else Some (entry_result e)
  | None => None
  end.

Definition entry_of (s : system F) (i : nat) : option cacheEntry := entries (sy_cache s) !! key i.

(** A step of a caller, or of the surroundings. *)
Inductive step (s : system F) : option nat -> system F -> Prop :=
| step_tick t : sy_clock s <= t -> step s None (set_clock t s)
| step_invalidate k : invalidates k -> step s None (set_cache (invalidate (sy_cache s) k) s)
| step_look i : at_stage s i Arrived -> step s (Some i) (move i (Looked (entry_of s i)) s)
| step_hit i e r : at_stage s i (Looked e) -> fresh s e = Some r -> step s (Some i) (move i (Returned r) s)
| step_miss i e : at_stage s i (Looked e) -> fresh s e = None -> step s (Some i) (move i Missed s)
| step_lead i : at_stage s i Missed -> flying (sy_group s) (flight i) = false ->
    step s (Some i) (move i Leading (set_group (take_off (flight i) (sy_group s)) s))
| step_join i j : at_stage s i Missed -> flying (sy_group s) (flight i) = true -> leads s j -> flight j = flight i ->
    step s (Some i) (move i (Waiting j) s)
| step_look_again i : at_stage s i Leading -> step s (Some i) (move i (LookedAgain (entry_of s i)) s)
| step_second_hit i e r : at_stage s i (LookedAgain e) -> fresh s e = Some r -> step s (Some i) (move i (Publishing r) s)
| step_second_miss i e : at_stage s i (LookedAgain e) -> fresh s e = None -> step s (Some i) (move i Fetching (note_fetch i s))
| step_fetch i r : at_stage s i Fetching -> answers (key i) r -> step s (Some i) (move i (Fetched r) s)
| step_keep i r : at_stage s i (Fetched r) ->
    step s (Some i) (move i (Publishing (keep (sy_cache s) (key i) r (sy_clock s)).2)
                       (set_cache (keep (sy_cache s) (key i) r (sy_clock s)).1 s))
| step_publish i r : at_stage s i (Publishing r) -> step s (Some i) (publish i r s).

(** A schedule: the steps in order, by who makes them. *)
Inductive runs : system F -> list (option nat) -> system F -> Prop :=
| runs_nil s : runs s [] s
| runs_cons s l s1 ls s2 : step s l s1 -> runs s1 ls s2 -> runs s (l :: ls) s2.

(** [n] callers before a cache. *)
Definition start (n : nat) (c : cache) (t : Z) : system F :=
  {| sy_cache := c; sy_group := idle; sy_clock := t; sy_callers := replicate n Arrived; sy_fetches := [] |}.

(** ** One flight per key *)

Context {FL : SingleflightLaws F}.

(** The flights in the group are those of the leading callers, one each; who waits does
    so behind a caller that leads its own flight. *)
Record orderly (g : Group) (l : list stage) : Prop := {
  one_leader i j : leads_in l i -> leads_in l j -> flight i = flight j -> i = j;
  in_flight k : flying g k = true <-> exists i, leads_in l i /\ flight i = k;
  behind_leader i j : l !! i = Some (Waiting j) -> leads_in l j /\ flight j = flight i }.

Definition is_waiting (st : stage) : bool := match st with Waiting _ => true | _ => false end.

Lemma leads_in_insert l i st st0 j : l !! i = Some st0 ->
  leads_in (<[i := st]> l) j <-> if decide (i = j) then is_leading st = true else leads_in l j.
Proof.
  intros Hi. unfold leads_in. destruct (decide (i = j)) as [->|Hn].
  - rewrite list_lookup_insert_eq by (by eapply lookup_lt_Some). split; [by intros (? & [= <-] & H)|by intros H; exists st].
  - by rewrite list_lookup_insert_ne.
Qed.

(** A move that neither opens nor ends a flight, nor joins one. *)
Lemma orderly_move g l i st st0 : l !! i = Some st0 -> is_leading st = is_leading st0 -> is_waiting st = false ->
  orderly g l -> orderly g (<[i := st]> l).
Proof.
  intros Hi Hl Hw [H1 H2 H3].
  assert (forall j, leads_in (<[i := st]> l) j <-> leads_in l j) as Heq.
  { intros j. rewrite leads_in_insert by done. destruct (decide (i = j)) as [<-|]; [|done]. rewrite Hl. unfold leads_in. rewrite Hi.
    split; [by exists st0|by intros (? & [= <-] & ?)]. }
  split.
  - intros a b. rewrite !Heq. apply H1.
  - intros k. rewrite H2. by setoid_rewrite Heq.
  - intros a b [(-> & -> & _)|(_ & Ha)]%list_lookup_insert_Some; [done|]. rewrite Heq. by apply H3.
Qed.

Lemma orderly_lead g l i : l !! i = Some Missed -> flying g (flight i) = false -> orderly g l ->
  orderly (take_off (flight i) g) (<[i := Leading]> l).
Proof.
  intros Hi Hf [H1 H2 H3].
  assert (forall j, leads_in (<[i := Leading]> l) j <-> i = j \/ leads_in l j) as Heq.
  { intros j. rewrite leads_in_insert by done. destruct (decide (i = j)) as [<-|Hn]; [split; [by left|done]|]. split; [by right|by intros [?|?]]. }
  assert (forall j, leads_in l j -> flight j <> flight i) as Hnone.
  { intros j Hj He. assert (flying g (flight i) = true) by (apply H2; by exists j). congruence. }
  split.
  - intros a b. rewrite !Heq. intros [<-|Ha] [<-|Hb] He; [done| | |by apply H1]; exfalso; by eapply Hnone.
  - intros k. rewrite flying_take_off, orb_true_iff, bool_decide_eq_true, H2. setoid_rewrite Heq. split.
    + intros [<-|(j & Hj & <-)]; [exists i|exists j]; auto.
    + intros (j & [<-|Hj] & <-); [by left|right; by exists j].
  - intros a b [(_ & [=] & _)|(_ & Ha)]%list_lookup_insert_Some. rewrite Heq. destruct (H3 a b Ha). auto.
Qed.

Lemma orderly_join g l i j : l !! i = Some Missed -> leads_in l j -> flight j = flight i -> orderly g l -> orderly g (<[i := Waiting j]> l).
Proof.
  intros Hi Hj Hf [H1 H2 H3].
  assert (forall a, leads_in (<[i := Waiting j]> l) a <-> leads_in l a) as Heq.
  { intros a. rewrite leads_in_insert by done. destruct (decide (i = a)) as [<-|]; [|done]. unfold leads_in. rewrite Hi.
    split; [done|by intros (? & [= <-] & ?)]. }
  split.
  - intros a b. rewrite !Heq. apply H1.
  - intros k. rewrite H2. by setoid_rewrite Heq.
  - intros a b [(<- & [= ->] & _)|(_ & Ha)]%list_lookup_insert_Some; rewrite Heq; [done|by apply H3].
Qed.

Lemma wake_leading i r st : is_leading (wake i r st) = is_leading st.
Proof. destruct st; try done. cbn. by case_bool_decide. Qed.

Lemma orderly_publish g l i r : l !! i = Some (Publishing r) -> orderly g l -> orderly (land (flight i) g) (<[i := Returned r]> (wake i r <$> l)).
Proof.
  intros Hi [H1 H2 H3].
  assert (leads_in l i) as Hli by (by eexists).
  assert (forall j, leads_in (<[i := Returned r]> (wake i r <$> l)) j <-> i <> j /\ leads_in l j) as Heq.
  { intros j. rewrite leads_in_insert by (by rewrite list_lookup_fmap, Hi). destruct (decide (i = j)) as [<-|Hn]; [split; [done|by intros []]|].
    unfold leads_in. rewrite list_lookup_fmap. split.
    - intros (st & (st0 & -> & Hl)%fmap_Some & H). split; [done|]. exists st0. split; [done|]. by rewrite Hl, wake_leading in H.
    - intros (_ & st & Hl & H). exists (wake i r st). rewrite Hl, wake_leading. by split. }
  split.
  - intros a b. rewrite !Heq. intros [_ Ha] [_ Hb]. by apply H1.
  - intros k. rewrite flying_land, andb_true_iff, negb_true_iff, bool_decide_eq_false, H2. setoid_rewrite Heq. split.
    + intros [Hk (j & Hj & <-)]. exists j. split; [|done]. split; [congruence|done].
    + intros (j & [Hn Hj] & <-). split; [|by exists j]. intros He. by apply Hn, H1.
  - intros a b [(_ & [=] & _)|(Hn & Ha)]%list_lookup_insert_Some. rewrite list_lookup_fmap in Ha. apply fmap_Some in Ha as (st & Ha & Hw).
    destruct st; try discriminate Hw. cbn in Hw. case_bool_decide as Hl; [discriminate Hw|]. injection Hw as ->.
    destruct (H3 a leader Ha) as [Hb Hf]. rewrite Heq. split; [split; [congruence|done]|done].
Qed.

Lemma step_orderly s l s' : step s l s' -> orderly (sy_group s) (sy_callers s) -> orderly (sy_group s') (sy_callers s').
Proof.
  destruct 1; cbn [sy_group sy_callers set_clock set_cache move set_group note_fetch publish]; auto.
  all: unfold at_stage in *.
  all: try (eapply orderly_move; [eassumption|reflexivity|reflexivity]).
  - by apply orderly_lead.
  - by apply orderly_join.
  - by apply orderly_publish.
Qed.

Lemma runs_orderly s ls s' : runs s ls s' -> orderly (sy_group s) (sy_callers s) -> orderly (sy_group s') (sy_callers s').
Proof. induction 1; eauto using step_orderly. Qed.

Lemma start_orderly n : orderly idle (replicate n Arrived).
Proof.
  assert (forall i, ~ leads_in (replicate n Arrived) i) as Hn by (intros i (st & [-> _]%lookup_replicate & H); done).
  split.
  - intros i j Hi. by apply Hn in Hi.
  - intros k. rewrite flying_idle. split; [done|]. by intros (i & Hi & _); apply Hn in Hi.
  - intros i j [[=] _]%lookup_replicate.
Qed.

(** ** Every caller returns *)

(** Steps a caller has before it at most. *)
Definition weight (st : stage) : nat :=
  match st with
  | Arrived => 9 | Looked _ => 8 | Missed => 7 | Leading => 6 | LookedAgain _ => 5 | Fetching => 4 | Fetched _ => 3
  | Publishing _ => 2 | Waiting _ => 1 | Returned _ => 0
  end%nat.

Definition work (l : list stage) : nat := sum_list_with weight l.

Lemma work_cons x l : work (x :: l) = (weight x + work l)%nat.
Proof. done. Qed.

Lemma work_insert l i st st0 : l !! i = Some st0 -> (work (<[i := st]> l) + weight st0 = work l + weight st)%nat.
Proof.
  revert i. induction l as [|x l IH]; intros [|i] H; [done|done| |]; cbn [lookup list_lookup] in H.
  - injection H as ->. change (<[0%nat := st]> (st0 :: l)) with (st :: l). rewrite !work_cons. lia.
  - change (<[S i := st]> (x :: l)) with (x :: <[i := st]> l). rewrite !work_cons. specialize (IH i H). lia.
Qed.

Lemma work_wake i r l : (work (wake i r <$> l) <= work l)%nat.
Proof.
  induction l as [|x l IH]; [done|]. rewrite fmap_cons, !work_cons. enough (weight (wake i r x) <= weight x)%nat by lia.
  destruct x; try done. cbn. case_bool_decide; cbn; lia.
Qed.

Lemma step_work s l s' : step s l s' ->
  match l with Some _ => (work (sy_callers s') < work (sy_callers s))%nat | None => sy_callers s' = sy_callers s end.
Proof.
  intros Hs. destruct Hs; try done; unfold at_stage in *; cbn [sy_callers set_clock set_cache move set_group note_fetch publish].
  all: try (match goal with H : ?l !! ?i = Some ?st0 |- context [<[?i := ?st]> ?l] => pose proof (work_insert _ _ st st0 H) as Hw; cbn [weight] in Hw; lia end).
  assert ((wake i r <$> sy_callers s) !! i = Some (Publishing r)) as Hp by (by rewrite list_lookup_fmap, H).
  pose proof (work_insert _ _ (Returned r) _ Hp) as Hw. pose proof (work_wake i r (sy_callers s)). cbn [weight] in Hw. lia.
Qed.

Lemma work_replicate n : work (replicate n Arrived) = (9 * n)%nat.
Proof. induction n as [|n IH]; [done|]. cbn [replicate]. rewrite work_cons, IH. cbn [weight]. lia. Qed.

(** The steps of the callers in a schedule. *)
Definition moves (ls : list (option nat)) : nat := length (omap id ls).

Lemma runs_work s ls s' : runs s ls s' -> (moves ls + work (sy_callers s') <= work (sy_callers s))%nat.
Proof.
  induction 1 as [|s l s1 ls s2 Hs _ IH]; [done|]. apply step_work in Hs. unfold moves in *. destruct l; cbn in *; [lia|]. by rewrite <- Hs.
Qed.

Section Progress.
Hypothesis Hanswers : forall k, exists r, answers k r.

(** A caller that is not behind another can always go on. *)
Lemma can_move s i st : orderly (sy_group s) (sy_callers s) -> at_stage s i st -> is_waiting st = false ->
  (exists r, st = Returned r) \/ exists s', step s (Some i) s'.
Proof.
  intros Ho Hi Hw. destruct st; try discriminate Hw; [right..|left; by eexists].
  - eexists. by apply step_look.
  - destruct (fresh s e) eqn:E; eexists; [by eapply step_hit|by eapply step_miss].
  - destruct (flying (sy_group s) (flight i)) eqn:E; [|eexists; by apply step_lead].
    destruct (proj1 (in_flight _ _ Ho _) E) as (j & Hj & Hf). eexists. by eapply step_join.
  - eexists. by apply step_look_again.
  - destruct (fresh s e) eqn:E; eexists; [by eapply step_second_hit|by eapply step_second_miss].
  - destruct (Hanswers (key i)) as (r & Hr). eexists. by eapply step_fetch.
  - eexists. by eapply step_keep.
  - eexists. by eapply step_publish.
Qed.

Lemma progress s i st : orderly (sy_group s) (sy_callers s) -> at_stage s i st -> (exists r, st = Returned r) \/ exists j s', step s (Some j) s'.
Proof.
  intros Ho Hi. destruct (is_waiting st) eqn:Hw.
  - destruct st; try discriminate Hw. destruct (behind_leader _ _ Ho _ _ Hi) as [(st' & Hj & Hl) _].
    destruct (can_move s leader st' Ho Hj) as [(r & ->)|(s' & Hs)]; [by destruct st'|done|right; by exists leader, s'].
  - destruct (can_move s i st Ho Hi Hw) as [?|(s' & Hs)]; [by left|right; by exists i, s'].
Qed.

Lemma runs_length s ls s' : runs s ls s' -> length (sy_callers s') = length (sy_callers s).
Proof.
  induction 1 as [|s l s1 ls s2 Hs _ IH]; [done|]. rewrite IH. destruct Hs; try done; cbn; rewrite ?length_insert, ?length_fmap; done.
Qed.

(** C17. However the callers, the clock and other code's invalidations interleave: [n] callers
    make nine steps each at most, and where none can make a step all have returned. No
    caller waits for ever behind a flight. *)
Theorem callers_return (n : nat) (c : cache) (t : Z) (ls : list (option nat)) (s : system F) (Hrun : runs (start n c t) ls s) :
  (moves ls <= 9 * n)%nat /\
  ((forall i s', ~ step s (Some i) s') -> forall i, (i < n)%nat -> exists r, at_stage s i (Returned r)).
Proof.
  split.
  - apply runs_work in Hrun. cbn [start sy_callers] in Hrun. rewrite work_replicate in Hrun. lia.
  - intros Hstuck i Hi. pose proof (runs_length _ _ _ Hrun) as Hlen. cbn [start sy_callers] in Hlen. rewrite length_replicate in Hlen.
    apply runs_orderly in Hrun; [|apply start_orderly]. destruct (lookup_lt_is_Some_2 (sy_callers s) i) as (st & Hst); [lia|].
    destruct (progress s i st Hrun Hst) as [(r & ->)|(j & s' & Hs)]; [by exists r|by apply Hstuck in Hs].
Qed.
End Progress.

(** ** No caller gets another key's catalog *)

Section Results.
(** What a caller of a key may be given; it may be what the cache held at the start, and
    is what the flight makes of an answer. *)
Variable good : cacheKey -> result error catalog_payload -> Prop.
Hypothesis Hkeep : forall c k r now, answers k r -> good k (keep c k r now).2.
(** Callers share a flight only when they ask for the same key. *)
Hypothesis Hapart : forall i j, flight i = flight j -> key i = key j.

Definition cache_good (c : cache) : Prop := map_Forall (fun k e => good k (entry_result e)) (entries c).

Definition entry_good (k : cacheKey) (e : option cacheEntry) : Prop := match e with Some e => good k (entry_result e) | None => True end.

Definition stage_good (k : cacheKey) (st : stage) : Prop :=
  match st with
  | Looked e | LookedAgain e => entry_good k e
  | Fetched r => answers k r
  | Publishing r | Returned r => good k r
  | _ => True
  end.

Definition all_good (s : system F) : Prop := cache_good (sy_cache s) /\ forall i st, at_stage s i st -> stage_good (key i) st.

Lemma keep_good c k r now : cache_good c -> answers k r -> cache_good (keep c k r now).1.
Proof.
  intros Hc Hr. pose proof (Hkeep c k r now Hr) as Hg. unfold keep in *. destruct r as [p|e].
  - destruct (isEmptySlice p); [done|]. by apply map_Forall_insert_2.
  - destruct (error_is e ErrCatalogUnauthorized); [|done]. by apply map_Forall_insert_2.
Qed.

Lemma moved_good (l : list stage) i st : (forall j sj, l !! j = Some sj -> stage_good (key j) sj) -> stage_good (key i) st ->
  forall j sj, <[i := st]> l !! j = Some sj -> stage_good (key j) sj.
Proof. intros Hl Hst j sj [(-> & -> & _)|(_ & Hj)]%list_lookup_insert_Some; [done|by apply Hl]. Qed.

Lemma entry_good_of s i : cache_good (sy_cache s) -> entry_good (key i) (entry_of s i).
Proof. intros Hc. unfold entry_of, entry_good. destruct (entries (sy_cache s) !! key i) eqn:E; [exact (Hc _ _ E)|done]. Qed.

Lemma fresh_good s k e r : entry_good k e -> fresh s e = Some r -> good k r.
Proof. destruct e as [e|]; [|done]. cbn. intros Hg. destruct (expired _ _ _); [done|]. by intros [= <-]. Qed.

Lemma step_good s l s' : step s l s' -> orderly (sy_group s) (sy_callers s) -> all_good s -> all_good s'.
Proof.
  intros Hs Ho [Hc Ha]. destruct Hs; (split; cbn [sy_cache set_clock set_cache move set_group note_fetch publish]; try exact Hc);
    unfold at_stage in *; cbn [sy_callers set_clock set_cache move set_group note_fetch publish]; try exact Ha.
  all: try (match goal with H : sy_callers _ !! _ = Some _ |- _ => pose proof (Ha _ _ H) as Hst; cbn [stage_good] in Hst end).
  all: try (apply moved_good; [exact Ha|cbn [stage_good]; eauto using entry_good_of, fresh_good]).
  - by apply map_Forall_delete.
  - by apply keep_good.
  - apply moved_good; [|exact Hst]. intros j sj. rewrite list_lookup_fmap. intros (st & Hj & ->)%fmap_Some. specialize (Ha j st Hj).
    destruct st; try exact Ha. cbn [wake]. case_bool_decide as Hl; [|done]. subst leader. destruct (behind_leader _ _ Ho j i Hj) as [_ Hf].
    cbn [stage_good]. by rewrite <- (Hapart _ _ Hf).
Qed.

Lemma runs_good s ls s' : runs s ls s' -> orderly (sy_group s) (sy_callers s) -> all_good s -> all_good s'.
Proof. induction 1; eauto using step_orderly, step_good. Qed.
End Results.

(** The answers the cache stores: a catalog that is not empty, and a refused token. *)
Definition pinned (r : result error catalog_payload) : bool :=
  match r with Ok p => negb (isEmptySlice p) | Err e => error_is e ErrCatalogUnauthorized end.

Lemma keep_pinned c k r now : pinned r = true ->
  keep c k r now = (store c k r now, r).
Proof. destruct r as [p|e]; cbn; [destruct (isEmptySlice p); [done|reflexivity]|by intros ->]. Qed.

Lemma keep_discarded c k r now : pinned r = false -> (keep c k r now).1 = c.
Proof. destruct r as [p|e]; cbn; [by destruct (isEmptySlice p)|by intros ->]. Qed.

(** What an answer of the upstream gives to who asked: itself, but an empty catalog is a failure. *)
Definition concluded (r : result error catalog_payload) : result error catalog_payload :=
  match r with
  | Ok p => if isEmptySlice p then Err (wrap_post (Sentinel ErrCatalogTransient) ": catalog returned 0 entries") else Ok p
  | Err e => Err e
  end.

Lemma keep_concluded c k r now : (keep c k r now).2 = concluded r.
Proof. unfold keep, concluded. destruct r as [p|e]; [by destruct (isEmptySlice p)|done]. Qed.

(** C16. Whatever the interleaving, a caller returns with what the cache held for its own key at
    the start or with an answer of the upstream to its own key: neither a flight nor the
    map hands it the catalog, or the failure, of another ProviderConfig or dimension. *)
Theorem flights_keep_keys_apart (n : nat) (c : cache) (t : Z) (ls : list (option nat)) (s : system F) (i : nat) (r : result error catalog_payload)
    (Hkeys : forall i, flyable (key i) = true)
    (Hrun : runs (start n c t) ls s) (Hret : at_stage s i (Returned r)) :
  (exists e, entries c !! key i = Some e /\ entry_result e = r) \/ (exists a, answers (key i) a /\ r = concluded a).
Proof.
  apply (runs_good (fun k r => (exists e, entries c !! k = Some e /\ entry_result e = r) \/ (exists a, answers k a /\ r = concluded a))) in Hrun
    as [_ Ha].
  - exact (Ha i _ Hret).
  - intros c' k a now Ha. right. exists a. by rewrite keep_concluded.
  - intros j j' Hf. by apply sfKey_apart.
  - apply start_orderly.
  - split; [intros k e He; left; by exists e|]. intros j st [-> _]%lookup_replicate. done.
Qed.

(** ** One fetch for a herd *)

Section Herd.
(** A key nobody else invalidates. *)
Variable k : cacheKey.
Hypothesis Hkeys : forall i, flyable (key i) = true.
Hypothesis Hquiet : ~ invalidates k.

(** The fetches of the key. *)
Definition fetches_of (s : system F) : list nat := List.filter (fun i => bool_decide (key i = k)) (sy_fetches s).

(** A caller of the key before anyone fetched; one that is not in the flight; the one that
    fetches; and all of them once the answer is kept. *)
Definition cold (st : stage) : Prop :=
  match st with Arrived | Looked None | Missed | Waiting _ | Leading | LookedAgain None => True | _ => False end.

Definition outside (st : stage) : Prop := match st with Arrived | Looked None | Missed | Waiting _ => True | _ => False end.

Definition calling (st : stage) : Prop :=
  match st with Fetching => True | Fetched r => pinned r = true | _ => False end.

Definition served (e : cacheEntry) (st : stage) : Prop :=
  match st with
  | Arrived | Looked None | Missed | Waiting _ | Leading => True
  | Looked (Some e') | LookedAgain (Some e') => e' = e
  | Publishing r | Returned r => r = entry_result e
  | _ => False
  end.

(** The callers of the key, one by one. *)
Definition callers_of (s : system F) (Q : nat -> stage -> Prop) : Prop := forall i st, at_stage s i st -> key i = k -> Q i st.

(** Before an answer is kept: who looked saw nothing. *)
Definition unseen (st : stage) : Prop := match st with Looked (Some _) | LookedAgain (Some _) => False | _ => True end.

Definition unkept (s : system F) : Prop := entries (sy_cache s) !! k = None /\ callers_of s (fun _ => unseen).

Variable t0 : Z.

(** Once the entry [e] is kept: nobody fetches any more, and those that had not returned
    before ([D]) return with it. *)
Record steady (D : nat -> Prop) (fs : list nat) (e : cacheEntry) (s : system F) : Prop := {
  steady_entry : entries (sy_cache s) !! k = Some e;
  steady_since : t0 <= fetchedAt e;
  steady_fetches : fetches_of s = fs;
  steady_callers : callers_of s (fun i st => (D i /\ exists r, st = Returned r) \/ served e st) }.

Inductive phase (s : system F) : Prop :=
| nobody_fetched : entries (sy_cache s) !! k = None -> fetches_of s = [] -> callers_of s (fun _ => cold) -> phase s
| one_fetches j st : entries (sy_cache s) !! k = None -> fetches_of s = [j] -> key j = k -> at_stage s j st -> calling st ->
    callers_of s (fun i st => i <> j -> outside st) -> phase s
| answer_kept e j : steady (fun _ => False) [j] e s -> phase s.

(** What does not touch the key leaves the phase. *)
Record same_for_key (s s' : system F) : Prop := {
  same_entry : entries (sy_cache s') !! k = entries (sy_cache s) !! k;
  same_fetches : fetches_of s' = fetches_of s;
  same_callers i : key i = k -> sy_callers s' !! i = sy_callers s !! i }.

Lemma same_callers_of s s' Q : same_for_key s s' -> callers_of s Q -> callers_of s' Q.
Proof. intros [_ _ Hc] H i st Hi Hk. unfold at_stage in Hi. rewrite Hc in Hi by done. by apply H. Qed.

Lemma steady_same D fs e s s' : same_for_key s s' -> steady D fs e s -> steady D fs e s'.
Proof.
  intros Hs [H1 H2 H3 H4]. split; [by rewrite (same_entry _ _ Hs)|done|by rewrite (same_fetches _ _ Hs)|by eapply same_callers_of].
Qed.

Lemma phase_same s s' : same_for_key s s' -> phase s -> phase s'.
Proof.
  intros Hs [H1 H2 H3|j st H1 H2 H3 H4 H5 H6|e j H].
  - apply nobody_fetched; [by rewrite (same_entry _ _ Hs)|by rewrite (same_fetches _ _ Hs)|by eapply same_callers_of].
  - eapply (one_fetches _ j st); [by rewrite (same_entry _ _ Hs)|by rewrite (same_fetches _ _ Hs)|done| |done|by eapply same_callers_of].
    unfold at_stage. by rewrite (same_callers _ _ Hs).
  - by eapply answer_kept, steady_same.
Qed.

Lemma wake_same s i r j : orderly (sy_group s) (sy_callers s) -> key j = k -> key i <> k -> (wake i r <$> sy_callers s) !! j = sy_callers s !! j.
Proof.
  intros Ho Hj Hi. rewrite list_lookup_fmap. destruct (sy_callers s !! j) as [st|] eqn:E; [|done]. cbn. f_equal.
  destruct st; try done. cbn. case_bool_decide as Hl; [|done]. subst leader. destruct (behind_leader _ _ Ho _ _ E) as [_ Hf].
  exfalso. apply Hi. rewrite <- Hj. by apply sfKey_apart.
Qed.

Lemma step_same_key s l s' : step s l s' -> orderly (sy_group s) (sy_callers s) -> match l with Some i => key i <> k | None => True end -> same_for_key s s'.
Proof.
  intros Hs Ho Hl.
  destruct Hs; split; unfold fetches_of; cbn [sy_cache sy_fetches sy_callers set_clock set_cache move set_group note_fetch publish]; try done.
  all: try (intros a Ha; rewrite list_lookup_insert_ne by congruence; done).
  - cbn. rewrite lookup_delete_ne; [done|]. intros ->. by apply Hquiet.
  - cbn [List.filter]. destruct (bool_decide (key i = k)) eqn:Eb; [|done]. by apply bool_decide_eq_true in Eb.
  - unfold keep. repeat case_match; cbn; rewrite ?lookup_insert_ne; done.
  - intros j Hj. rewrite list_lookup_insert_ne by congruence. by apply wake_same.
Qed.

Lemma moved_callers s i st (Q : nat -> stage -> Prop) : callers_of s Q -> Q i st -> callers_of (move i st s) Q.
Proof. intros H Hst a sa [(-> & -> & _)|(_ & Ha)]%list_lookup_insert_Some Hk; [done|by apply H]. Qed.

Lemma callers_weaken s (Q Q' : nat -> stage -> Prop) : callers_of s Q -> (forall i st, at_stage s i st -> key i = k -> Q i st -> Q' i st) -> callers_of s Q'.
Proof. intros H HQ i st Hi Hk. auto. Qed.

(** Two callers of the key do not lead both. *)
Lemma one_leads s i st j sj : orderly (sy_group s) (sy_callers s) -> at_stage s i st -> is_leading st = true -> key i = k ->
  at_stage s j sj -> key j = k -> i <> j -> is_leading sj = false.
Proof.
  intros Ho Hi Hl Hk Hj Hkj Hn. destruct (is_leading sj) eqn:E; [|done]. exfalso. apply Hn.
  apply (one_leader _ _ Ho); [by exists st|by exists sj|]. unfold flight. by rewrite Hk, Hkj.
Qed.

Lemma cold_step s i s' : step s (Some i) s' -> orderly (sy_group s) (sy_callers s) -> key i = k ->
  entries (sy_cache s) !! k = None -> fetches_of s = [] -> callers_of s (fun _ => cold) -> phase s'.
Proof.
  intros Hs Ho Hk He Hf Hc. remember (Some i) as l eqn:El. destruct Hs; try discriminate El; injection El as ->.
  all: match goal with H : at_stage _ _ _ |- _ => pose proof (Hc _ _ H Hk) as Hi; cbn [cold] in Hi end; try contradiction.
  all: try (apply nobody_fetched; [done|done|]; apply moved_callers; [exact Hc|]; cbn [cold]; unfold entry_of; rewrite ?Hk, ?He; done).
  - destruct e; [contradiction|discriminate].
  - destruct e; [contradiction|discriminate].
  - destruct e; [contradiction|]. apply (one_fetches _ i Fetching); [done| |done| |done|].
    + unfold fetches_of. cbn [sy_fetches move note_fetch List.filter]. rewrite bool_decide_true by done. by f_equal.
    + unfold at_stage. cbn. rewrite list_lookup_insert_eq; [done|]. by eapply lookup_lt_Some.
    + apply moved_callers; [|done]. apply (callers_weaken _ _ _ Hc). intros a sa Ha Hka Hcold Hn.
      pose proof (one_leads s i _ a sa Ho H eq_refl Hk Ha Hka (not_eq_sym Hn)). by destruct sa as [|[]| | | |[]| | | |].
Qed.

Lemma at_stage_move s i st st0 : at_stage s i st0 -> at_stage (move i st s) i st.
Proof. intros H. unfold at_stage in *. cbn. rewrite list_lookup_insert_eq; [done|]. by eapply lookup_lt_Some. Qed.

(** Keeping an answer, while the others are outside the flight or have returned. *)
Lemma keep_steady (D : nat -> Prop) s i r : at_stage s i (Fetched r) -> key i = k -> pinned r = true -> t0 <= sy_clock s ->
  callers_of s (fun a sa => a <> i -> outside sa \/ (D a /\ exists r, sa = Returned r)) ->
  steady D (fetches_of s) {| entry_result := r; fetchedAt := sy_clock s |}
    (move i (Publishing (keep (sy_cache s) (key i) r (sy_clock s)).2) (set_cache (keep (sy_cache s) (key i) r (sy_clock s)).1 s)).
Proof.
  intros Hi Hk Hp Ht Hc. rewrite keep_pinned by done. cbn [fst snd]. rewrite Hk. split; [apply lookup_insert_eq|done|done|].
  intros a sa [(<- & <- & _)|(Hn & Ha)]%list_lookup_insert_Some Hka; [by right|].
  destruct (Hc a sa Ha Hka (not_eq_sym Hn)) as [Ho|Hd]; [right|by left]. by destruct sa as [|[]| | | |[]| | | |].
Qed.

Lemma kept_step D fs e s i s' : step s (Some i) s' -> key i = k -> sy_clock s - t0 < ttl (sy_cache s) -> steady D fs e s -> steady D fs e s'.
Proof.
  intros Hs Hk Ht [He Hat Hf Hc].
  assert (fresh s (Some e) = Some (entry_result e)) as Hfresh.
  { cbn. unfold expired. by replace (_ >=? _) with false by lia. }
  remember (Some i) as l eqn:El. destruct Hs; try discriminate El; injection El as ->.
  all: match goal with H : at_stage _ _ _ |- _ => destruct (Hc _ _ H Hk) as [(_ & ? & [=])|Hi]; cbn [served] in Hi end; try contradiction.
  all: try (split; [done..|]; apply moved_callers; [exact Hc|]; right; cbn [served]; unfold entry_of; rewrite ?Hk, ?He; done).
  - destruct e0; [|discriminate]. subst. split; [done..|]. apply moved_callers; [exact Hc|]. right. cbn [served]. congruence.
  - destruct e0; [|contradiction]. subst. split; [done..|]. apply moved_callers; [exact Hc|]. right. cbn [served]. congruence.
  - destruct e0; [|contradiction]. subst. congruence.
  - split; [done..|]. intros a sa [(<- & <- & _)|(_ & Ha)]%list_lookup_insert_Some Hka; [by right|].
    rewrite list_lookup_fmap in Ha. apply fmap_Some in Ha as (sb & Hb & ->). destruct (Hc a sb Hb Hka) as [(Hd & r0 & ->)|Hsv]; [left; eauto|].
    right. destruct sb; try exact Hsv. cbn [wake]. by case_bool_decide.
Qed.

(** Until an answer is kept, whatever comes. *)
Lemma unkept_step s i s' : step s (Some i) s' -> orderly (sy_group s) (sy_callers s) -> key i = k -> t0 <= sy_clock s -> unkept s ->
  unkept s' \/ exists D fs e, steady D fs e s'.
Proof.
  intros Hs Ho Hk Ht [He Hc]. remember (Some i) as l eqn:El. destruct Hs; try discriminate El; injection El as ->.
  all: try (left; split; [done|apply moved_callers; [exact Hc|]; cbn [unseen]; unfold entry_of; rewrite ?Hk, ?He; done]).
  - destruct (pinned r) eqn:Hp.
    + right. exists (fun _ => True), (fetches_of s), {| entry_result := r; fetchedAt := sy_clock s |}. apply keep_steady; [done..|].
      apply (callers_weaken _ _ _ Hc). intros a sa Ha Hka Hu Hn.
      pose proof (one_leads s i _ a sa Ho H eq_refl Hk Ha Hka (not_eq_sym Hn)). destruct sa as [|[]| | | |[]| | | |]; try done; eauto.
    + left. split; [cbn; by rewrite keep_discarded|by apply moved_callers].
  - left. split; [done|]. intros a sa [(<- & <- & _)|(_ & Ha)]%list_lookup_insert_Some Hka; [done|].
    rewrite list_lookup_fmap in Ha. apply fmap_Some in Ha as (sb & Hb & ->). specialize (Hc a sb Hb Hka).
    destruct sb; try exact Hc. cbn [wake]. by case_bool_decide.
Qed.

Lemma step_clock s l s' : step s l s' -> sy_clock s <= sy_clock s' /\ ttl (sy_cache s') = ttl (sy_cache s).
Proof. destruct 1; cbn; try (split; [lia|done]). split; [lia|]. unfold keep. by repeat case_match. Qed.

Lemma runs_clock s ls s' : runs s ls s' -> sy_clock s <= sy_clock s'.
Proof. induction 1 as [|s l s1 ls s2 Hs _ IH]; [done|]. destruct (step_clock _ _ _ Hs). lia. Qed.

Lemma runs_steady D fs e s ls s' : runs s ls s' -> orderly (sy_group s) (sy_callers s) -> sy_clock s' - t0 < ttl (sy_cache s) ->
  steady D fs e s -> steady D fs e s'.
Proof.
  induction 1 as [s|s l s1 ls s2 Hs Hr IH]; [done|]. intros Ho Httl Hp. destruct (step_clock _ _ _ Hs) as [Hc Htt].
  pose proof (runs_clock _ _ _ Hr). apply IH; [by eapply step_orderly|by rewrite Htt|].
  destruct l as [i|]; [|by eapply steady_same; [eapply step_same_key|]].
  destruct (decide (key i = k)) as [Hk|Hk]; [|by eapply steady_same; [eapply step_same_key|]]. eapply kept_step; [done|done|lia|done].
Qed.

Lemma runs_unkept s ls s' : runs s ls s' -> orderly (sy_group s) (sy_callers s) -> t0 <= sy_clock s -> sy_clock s' - t0 < ttl (sy_cache s) ->
  unkept s -> unkept s' \/ exists D fs e, steady D fs e s'.
Proof.
  induction 1 as [s|s l s1 ls s2 Hs Hr IH]; [by left|]. intros Ho Ht Httl [He Hu]. destruct (step_clock _ _ _ Hs) as [Hc Htt].
  pose proof (runs_clock _ _ _ Hr). assert (orderly (sy_group s1) (sy_callers s1)) as Ho1 by (by eapply step_orderly).
  assert (unkept s1 \/ exists D fs e, steady D fs e s1) as [Hu1|(D & fs & e & Hst)].
  { assert (same_for_key s s1 -> unkept s1) as Hsame.
    { intros Hsk. split; [by rewrite (same_entry _ _ Hsk)|by eapply same_callers_of]. }
    destruct l as [i|]; [|left; by eapply Hsame, step_same_key].
    destruct (decide (key i = k)) as [Hk|Hk]; [by eapply unkept_step|left; by eapply Hsame, step_same_key]. }
  - apply IH; [done|lia|by rewrite Htt|done].
  - right. exists D, fs, e. eapply runs_steady; [done|done|by rewrite Htt|done].
Qed.

(** Those that have returned do not count any more. *)
Lemma steady_from D fs e s : steady D fs e s -> steady (fun i => exists r, at_stage s i (Returned r)) (fetches_of s) e s.
Proof.
  intros [H1 H2 H3 H4]. split; [done..|]. apply (callers_weaken _ _ _ H4). intros i st Hi _ [(_ & r & ->)|H]; [left|by right]. eauto.
Qed.

Section Pinned.
Hypothesis Hpinned : forall r, answers k r -> pinned r = true.

(** The caller that fetches gets its answer, and keeps it. *)
Lemma fetcher_step s i s' : step s (Some i) s' -> key i = k -> t0 <= sy_clock s -> entries (sy_cache s) !! k = None -> fetches_of s = [i] ->
  (forall st, at_stage s i st -> calling st) -> callers_of s (fun a sa => a <> i -> outside sa) -> phase s'.
Proof.
  intros Hs Hk Ht He Hf Hi Hc. remember (Some i) as l eqn:El. destruct Hs; try discriminate El; injection El as ->.
  all: match goal with H : at_stage _ _ _ |- _ => pose proof (Hi _ H) as Hcall; cbn [calling] in Hcall end; try contradiction.
  - rewrite Hk in H0. apply Hpinned in H0. eapply (one_fetches _ i); [done|done|done|by eapply at_stage_move|exact H0|].
    by apply moved_callers.
  - eapply answer_kept. rewrite <- Hf. apply keep_steady; [done..|]. apply (callers_weaken _ _ _ Hc). auto.
Qed.

(** The others stay outside its flight. *)
Lemma outsider_step s i s' j st : step s (Some i) s' -> orderly (sy_group s) (sy_callers s) -> key i = k -> i <> j ->
  entries (sy_cache s) !! k = None -> fetches_of s = [j] -> key j = k -> at_stage s j st -> calling st ->
  callers_of s (fun i st => i <> j -> outside st) -> phase s'.
Proof.
  intros Hs Ho Hk Hn He Hf Hkj Hj Hcall Hc. remember (Some i) as l eqn:El. destruct Hs; try discriminate El; injection El as ->.
  all: match goal with H : at_stage _ _ _ |- _ => pose proof (Hc _ _ H Hk Hn) as Hi; cbn [outside] in Hi end; try contradiction.
  all: try (match goal with |- phase (move _ ?x _) => apply (one_fetches _ j st); [done|done|done| |exact Hcall|apply moved_callers; [exact Hc|]] end;
    [unfold at_stage; cbn; by rewrite list_lookup_insert_ne|cbn [outside]; unfold entry_of; rewrite ?Hk, ?He; done]).
  - destruct e; [contradiction|discriminate].
  - exfalso. enough (flying (sy_group s) (flight i) = true) by congruence. apply (in_flight _ _ Ho). exists j. split.
    + exists st. split; [done|]. by destruct st.
    + unfold flight. by rewrite Hk, Hkj.
Qed.

Lemma step_phase s l s' : step s l s' -> orderly (sy_group s) (sy_callers s) -> t0 <= sy_clock s -> sy_clock s - t0 < ttl (sy_cache s) ->
  phase s -> phase s'.
Proof.
  intros Hs Ho Ht Httl Hp. destruct l as [i|]; [|by eapply phase_same; [eapply step_same_key|]].
  destruct (decide (key i = k)) as [Hk|Hk]; [|by eapply phase_same; [eapply step_same_key|]].
  destruct Hp as [H1 H2 H3|j st H1 H2 H3 H4 H5 H6|e j H].
  - by eapply cold_step.
  - destruct (decide (i = j)) as [->|Hn]; [|by eapply outsider_step]. eapply fetcher_step; eauto.
    intros st' Hst'. unfold at_stage in *. congruence.
  - by eapply answer_kept, kept_step.
Qed.

Lemma runs_phase s ls s' : runs s ls s' -> orderly (sy_group s) (sy_callers s) -> t0 <= sy_clock s -> sy_clock s' - t0 < ttl (sy_cache s) ->
  phase s -> phase s'.
Proof.
  induction 1 as [s|s l s1 ls s2 Hs Hr IH]; [done|]. intros Ho Ht Httl Hp. destruct (step_clock _ _ _ Hs) as [Hc Htt].
  pose proof (runs_clock _ _ _ Hr). apply IH; [by eapply step_orderly|lia|by rewrite Htt|]. eapply step_phase; [done|done|done|lia|done].
Qed.
End Pinned.
End Herd.

Lemma runs_ttl s ls s' : runs s ls s' -> sy_clock s <= sy_clock s' /\ ttl (sy_cache s') = ttl (sy_cache s).
Proof. induction 1 as [|s l s1 ls s2 Hs _ IH]; [done|]. destruct (step_clock _ _ _ Hs). split; [lia|]. by rewrite (proj2 IH). Qed.

Lemma runs_app s ls1 s1 ls2 s2 : runs s ls1 s1 -> runs s1 ls2 s2 -> runs s (ls1 ++ ls2) s2.
Proof. induction 1; [done|]. intros. eapply runs_cons; eauto. Qed.

Lemma one_fetch (n : nat) (c : cache) (t : Z) (ls : list (option nat)) (s : system F) (k : cacheKey) :
  (forall i, flyable (key i) = true) -> ~ invalidates k -> (forall r, answers k r -> pinned r = true) ->
  entries c !! k = None -> runs (start n c t) ls s -> sy_clock s - t < ttl c ->
  (length (fetches_of k s) <= 1)%nat /\ exists r0, forall i r, at_stage s i (Returned r) -> key i = k -> r = r0.
Proof.
  intros Hkeys Hquiet Hpinned Hcold Hrun Httl.
  eapply (runs_phase k Hkeys Hquiet t Hpinned) in Hrun as [H1 H2 H3|j st H1 H2 H3 H4 H5 H6|e j H].
  - rewrite H2. split; [cbn; lia|]. exists (Ok (PValues [])). intros i r Hi Hk. by specialize (H3 i _ Hi Hk).
  - rewrite H2. split; [cbn; lia|]. exists (Ok (PValues [])). intros i r Hi Hk. destruct (decide (i = j)) as [->|Hn].
    + unfold at_stage in *. replace st with (Returned r) in H5 by congruence. done.
    + by specialize (H6 i _ Hi Hk Hn).
  - rewrite (steady_fetches _ _ _ _ _ _ H). split; [cbn; lia|]. exists (entry_result e). intros i r Hi Hk.
    by destruct (steady_callers _ _ _ _ _ _ H i _ Hi Hk) as [([] & _)|Hs].
  - apply start_orderly.
  - cbn. lia.
  - exact Httl.
  - apply nobody_fetched; [done|done|]. by intros i st [-> _]%lookup_replicate _.
Qed.

(** C15. A herd on a cold cache. Take a key that nobody invalidates, callers that ask for
    it and for other keys in any interleaving, and a run that stays within the TTL of its
    start. Whatever the upstream answers, no two callers fetch the key at a time; and
    once an answer is kept (a non-empty catalog, or a refused token), no caller fetches
    again and each one that had not returned by then returns with it. So where the
    upstream gives only answers that are kept, it is asked at most once and all return
    the same; a transient failure or an empty catalog is not kept, and each one may cost
    one more fetch. *)
Theorem herd_one_fetch (n : nat) (c : cache) (t : Z) (ls1 ls2 : list (option nat)) (s1 s2 : system F) (k : cacheKey)
    (Hkeys : forall i, flyable (key i) = true) (Hquiet : ~ invalidates k) (Hcold : entries c !! k = None)
    (Hrun1 : runs (start n c t) ls1 s1) (Hrun2 : runs s1 ls2 s2) (Httl : sy_clock s2 - t < ttl c) :
  (forall i j, at_stage s1 i Fetching -> at_stage s1 j Fetching -> key i = k -> key j = k -> i = j) /\
  (forall e, entries (sy_cache s1) !! k = Some e ->
    fetches_of k s2 = fetches_of k s1 /\
    forall i r, (forall r1, ~ at_stage s1 i (Returned r1)) -> at_stage s2 i (Returned r) -> key i = k -> r = entry_result e) /\
  ((forall r, answers k r -> pinned r = true) ->
    (length (fetches_of k s2) <= 1)%nat /\ exists r0, forall i r, at_stage s2 i (Returned r) -> key i = k -> r = r0).
Proof.
  assert (orderly (sy_group s1) (sy_callers s1)) as Ho1 by (eapply runs_orderly; [done|apply start_orderly]).
  pose proof (runs_clock _ _ _ Hrun2). destruct (runs_ttl _ _ _ Hrun1) as [Hc1 Ht1]. cbn [start sy_clock sy_cache] in Hc1, Ht1.
  split; [|split].
  - intros i j Hi Hj Hki Hkj. apply (one_leader _ _ Ho1); [by exists Fetching..|]. unfold flight. by rewrite Hki, Hkj.
  - intros e He.
    destruct (runs_unkept k Hkeys Hquiet t _ _ _ Hrun1) as [[He' _]|(D & fs & e' & Hst)]; [apply start_orderly|cbn; lia|cbn; lia| |congruence|].
    { split; [done|]. by intros i st [-> _]%lookup_replicate. }
    assert (e' = e) as -> by (pose proof (steady_entry _ _ _ _ _ _ Hst); congruence).
    apply steady_from in Hst. eapply (runs_steady k Hkeys Hquiet) in Hst; [|exact Hrun2|done|by rewrite Ht1].
    split; [by apply steady_fetches in Hst|]. intros i r Hn Hi Hk. destruct (steady_callers _ _ _ _ _ _ Hst i _ Hi Hk) as [((r1 & H1) & _)|Hs]; [|done].
    by apply Hn in H1.
  - intros Hpinned. eapply runs_app in Hrun2; [|exact Hrun1]. by eapply one_fetch.
Qed.
End Steps.

(** ** Schedules *)

Definition served_values (k : cacheKey) (r : result error catalog_payload) : Prop := r = Ok (PValues [pc_Namespace (key_pc k)]).
Definition nothing_invalidated (_ : cacheKey) : Prop := False.

(** The first caller opens a flight, the second joins it, the first fetches. *)
Definition joined : list (option nat) :=
  [Some 0; Some 0; Some 1; Some 1; Some 0; Some 1; Some 0; Some 0; Some 0; Some 0; Some 0]%nat.

Ltac joined_run :=
  eexists; split;
    [ eapply runs_cons; [by eapply (step_look _ _ _ _ 0%nat)|]; eapply runs_cons; [by eapply (step_miss _ _ _ _ 0%nat)|];
      eapply runs_cons; [by eapply (step_look _ _ _ _ 1%nat)|]; eapply runs_cons; [by eapply (step_miss _ _ _ _ 1%nat)|];
      eapply runs_cons; [by eapply (step_lead _ _ _ _ 0%nat)|];
      eapply runs_cons; [eapply (step_join _ _ _ _ 1%nat 0%nat); [done|vm_compute; reflexivity|by exists Leading|done]|];
      eapply runs_cons; [by eapply (step_look_again _ _ _ _ 0%nat)|]; eapply runs_cons; [by eapply (step_second_miss _ _ _ _ 0%nat)|];
      eapply runs_cons; [by eapply (step_fetch _ _ _ _ 0%nat)|]; eapply runs_cons; [by eapply (step_keep _ _ _ _ 0%nat)|];
      eapply runs_cons; [by eapply (step_publish _ _ _ _ 0%nat)|]; apply runs_nil
    | vm_compute; reflexivity ].

Lemma two_callers :
  exists s, runs (F := KeySet) (fun _ => router_key) served_values nothing_invalidated (start 2 (newCache DefaultTTL) 0) joined s /\
    (sy_callers s, sy_clock s, sy_fetches s) = ([Returned (Ok (PValues ["team-a"])); Returned (Ok (PValues ["team-a"]))], 0, [0%nat]).
Proof. joined_run. Qed.

Definition with_bar (namespace name : string) : cacheKey :=
  {| key_pc := {| pc_Kind := "ProviderConfig"; pc_Name := name; pc_Namespace := namespace |}; key_dim := router_dim |}.

(** Were bars allowed in names, two configs could share a flight: the second caller gets
    the catalog of the first. *)
Example bar_crosses_flights :
  exists s, runs (F := KeySet) (fun i => if bool_decide (i = 0%nat) then with_bar "a" "b|c" else with_bar "a|b" "c") served_values
    nothing_invalidated (start 2 (newCache DefaultTTL) 0) joined s /\
    sy_callers s = [Returned (Ok (PValues ["a"])); Returned (Ok (PValues ["a"]))].
Proof. joined_run. Qed.

Lemma callers_return_witness :
  exists s, (moves joined <= 9 * 2)%nat /\ sy_callers s = [Returned (Ok (PValues ["team-a"])); Returned (Ok (PValues ["team-a"]))].
Proof.
  destruct two_callers as (s & Hr & Hs). exists s. split; [|congruence].
  apply (callers_return (F := KeySet) (fun _ => router_key) served_values nothing_invalidated (fun k => ex_intro _ _ eq_refl)
    2 (newCache DefaultTTL) 0 joined s Hr).
Defined.

Lemma flights_keep_keys_apart_witness :
  exists a, served_values router_key a /\ Ok (PValues ["team-a"]) = concluded a.
Proof.
  destruct two_callers as (s & Hr & Hs).
  destruct (flights_keep_keys_apart (F := KeySet) (fun _ => router_key) served_values nothing_invalidated
    2 (newCache DefaultTTL) 0 joined s 1 (Ok (PValues ["team-a"])) (fun _ => eq_refl) Hr) as [(e & He & _)|H].
  - unfold at_stage. injection Hs as -> _ _. reflexivity.
  - cbn in He. rewrite lookup_empty in He. discriminate He.
  - exact H.
Defined.

(** The same schedule, cut where the answer has been kept and nobody has returned. *)
Lemma two_callers_cut :
  exists s1 s2, runs (F := KeySet) (fun _ => router_key) served_values nothing_invalidated (start 2 (newCache DefaultTTL) 0) (take 10 joined) s1 /\
    runs (F := KeySet) (fun _ => router_key) served_values nothing_invalidated s1 (drop 10 joined) s2 /\
    (sy_callers s1, entries (sy_cache s1) !! router_key) =
      ([Publishing (Ok (PValues ["team-a"])); Waiting 0], Some {| entry_result := Ok (PValues ["team-a"]); fetchedAt := 0 |}) /\
    (sy_callers s2, sy_clock s2, sy_fetches s2) = ([Returned (Ok (PValues ["team-a"])); Returned (Ok (PValues ["team-a"]))], 0, [0%nat]).
Proof.
  eexists _, _. split; [|split; [|split]]; cbn [take drop joined].
  - eapply runs_cons; [by eapply (step_look _ _ _ _ 0%nat)|]. eapply runs_cons; [by eapply (step_miss _ _ _ _ 0%nat)|].
    eapply runs_cons; [by eapply (step_look _ _ _ _ 1%nat)|]. eapply runs_cons; [by eapply (step_miss _ _ _ _ 1%nat)|].
    eapply runs_cons; [by eapply (step_lead _ _ _ _ 0%nat)|].
    eapply runs_cons; [eapply (step_join _ _ _ _ 1%nat 0%nat); [done|vm_compute; reflexivity|by exists Leading|done]|].
    eapply runs_cons; [by eapply (step_look_again _ _ _ _ 0%nat)|]. eapply runs_cons; [by eapply (step_second_miss _ _ _ _ 0%nat)|].
    eapply runs_cons; [by eapply (step_fetch _ _ _ _ 0%nat)|]. eapply runs_cons; [by eapply (step_keep _ _ _ _ 0%nat)|]. apply runs_nil.
  - eapply runs_cons; [by eapply (step_publish _ _ _ _ 0%nat)|]. apply runs_nil.
  - vm_compute. reflexivity.
  - vm_compute. reflexivity.
Qed.

Lemma herd_one_fetch_witness :
  exists s1 s2, sy_callers s1 = [Publishing (Ok (PValues ["team-a"])); Waiting 0] /\
    fetches_of (F := KeySet) (fun _ => router_key) router_key s2 = fetches_of (F := KeySet) (fun _ => router_key) router_key s1 /\
    (length (fetches_of (F := KeySet) (fun _ => router_key) router_key s2) <= 1)%nat.
Proof.
  destruct two_callers_cut as (s1 & s2 & Hr1 & Hr2 & H1 & H2). exists s1, s2. injection H1 as Hc1 He1. injection H2 as Hc2 Hk2 Hf2.
  split; [exact Hc1|].
  destruct (herd_one_fetch (F := KeySet) (fun _ => router_key) served_values nothing_invalidated 2 (newCache DefaultTTL) 0 (take 10 joined)
    (drop 10 joined) s1 s2 router_key (fun _ => eq_refl) (fun H => H) (lookup_empty _) Hr1 Hr2) as (_ & Hkept & Hone).
  - rewrite Hk2. reflexivity.
  - split; [exact (proj1 (Hkept _ He1))|]. apply Hone. intros r ->. reflexivity.
Defined.
