(* ===== verification/Responses.v ===== *)
(** * Responses: the parsed answers of the catalog

    The [...WithResponse] methods of the generated client that the resolver calls, and
    their [Parse...Response] functions: the body is read, and decoded where the content
    type says JSON and the status is one the API document declares. encoding/json is a
    parameter. *)

From S2P Require Import Prelude Errors Slug Configurator Catalog Wire.

#[local] Open Scope Z_scope.

(** An answer with its headers; its body, or the error of reading it. *)
Record full_response := { fr_Head : http_head; fr_Body : result string string }.

(** The decoders: one per listing for a 200, and one per declared failure status. *)
Class Decoders := {
  decode_k8s_configurators : string -> result string (list ServersConfigurator);
  decode_configurators : string -> result string (list ServersConfigurator);
  decode_registry_presets : string -> result string (list RegistryPresetOut);
  decode_versions : string -> result string (list string);
  decode_os : string -> result string (list ServersOsOut);
  decode_k8s_presets : string -> result string (list K8sPresetOut);
  decode_router_presets : string -> result string (list RouterPresetOut);
  decode_server_presets : string -> result string (list ServerPresetOut);
  decode_storage_presets : string -> result string (list StoragePresetOut);
  decode_failure : Z -> string -> result string unit }.

Section Parse.
Context {D : Decoders}.

Definition is_json (h : http_head) : bool := contains_str (default_str (assoc "Content-Type" (hd_Headers h))) "json".

(** [switch]: the 200 first, then the failures declared. *)
Definition parse {A} (decode200 : string -> result string A) (declared : list Z) (rsp : full_response) : catalog_reply A :=
  match fr_Body rsp with
  | Err msg => CatErr (ErrorString msg)
  | Ok bodyBytes =>
      if is_json (fr_Head rsp) && (hd_Status (fr_Head rsp) =? 200) then
        match decode200 bodyBytes with
        | Ok dest => CatResp (fr_Head rsp) (Some dest)
        | Err msg => CatErr (ErrorString msg)
        end
      else if is_json (fr_Head rsp) && bool_decide (hd_Status (fr_Head rsp) ∈ declared) then
        match decode_failure (hd_Status (fr_Head rsp)) bodyBytes with
        | Ok _ => CatResp (fr_Head rsp) None
        | Err msg => CatErr (ErrorString msg)
        end
      else CatResp (fr_Head rsp) None
  end.

Definition ParseGetK8sConfiguratorsResponse := parse decode_k8s_configurators [400; 401; 403; 429; 500].
Definition ParseGetConfiguratorsResponse := parse decode_configurators [400; 401; 403; 429; 500].
Definition ParseGetRegistryPresetsResponse := parse decode_registry_presets [400; 401; 429; 500].
Definition ParseGetK8SVersionsResponse := parse decode_versions [400; 401; 429; 500].
Definition ParseGetOsListResponse := parse decode_os [400; 401; 403; 404; 429; 500].
Definition ParseGetKubernetesPresetsResponse := parse decode_k8s_presets [400; 401; 429; 500].
Definition ParseGetRouterPresetsResponse := parse decode_router_presets [400; 401; 429; 500].
Definition ParseGetServersPresetsResponse := parse decode_server_presets [400; 401; 403; 429; 500].
Definition ParseGetStoragesPresetsResponse := parse decode_storage_presets [400; 401; 403; 404; 429; 500].

(** A [...WithResponse] method: the call, then the parse. *)
Definition with_response {A} (Parse : full_response -> catalog_reply A) (rsp : result error full_response) : catalog_reply A :=
  match rsp with
  | Err e => CatErr e
  | Ok rsp => Parse rsp
  end.

(** [ClientWithResponses] as the resolver's [CatalogClient]: what each listing is answered. *)
Definition ClientWithResponses (call : catalog_listing -> result error full_response) : CatalogClient := {|
  GetRegistryPresets := with_response ParseGetRegistryPresetsResponse (call ListRegistryPresets);
  GetStoragesPresets := with_response ParseGetStoragesPresetsResponse (call ListStoragesPresets);
  GetServersPresets := with_response ParseGetServersPresetsResponse (call ListServersPresets);
  GetOsList := with_response ParseGetOsListResponse (call ListOs);
  GetKubernetesPresets := with_response ParseGetKubernetesPresetsResponse (call ListKubernetesPresets);
  GetK8SVersions := with_response ParseGetK8SVersionsResponse (call ListK8SVersions);
  GetConfigurators := with_response ParseGetConfiguratorsResponse (call ListConfigurators);
  GetK8sConfigurators := with_response ParseGetK8sConfiguratorsResponse (call ListK8sConfigurators);
  GetRouterPresets := with_response ParseGetRouterPresetsResponse (call ListRouterPresets) |}.

(** ** What a fetch makes of an answer *)

(** The listing a dimension is read from. *)
Definition listing_of (name : string) : option catalog_listing :=
  assoc name [("ContainerRegistryPreset", ListRegistryPresets); ("S3BucketPreset", ListStoragesPresets); ("ServerPreset", ListServersPresets);
    ("ServerOSImage", ListOs); ("KubernetesMasterPreset", ListKubernetesPresets); ("KubernetesWorkerPreset", ListKubernetesPresets);
    ("KubernetesVersion", ListK8SVersions); ("ServerConfigurator", ListConfigurators);
    ("KubernetesMasterConfigurator", ListK8sConfigurators); ("KubernetesWorkerConfigurator", ListK8sConfigurators);
    ("RouterPreset", ListRouterPresets)].

(** The failures the API document declares for a listing. *)
Definition declared_of (l : catalog_listing) : list Z :=
  match l with
  | ListOs | ListStoragesPresets => [400; 401; 403; 404; 429; 500]
  | ListK8sConfigurators | ListConfigurators | ListServersPresets => [400; 401; 403; 429; 500]
  | _ => [400; 401; 429; 500]
  end.

(** A failure whose body does not decode is an error of the client, not an answer. *)
Definition garbled (l : catalog_listing) (h : http_head) (raw : string) : bool :=
  is_json h && bool_decide (hd_Status h ∈ declared_of l) && negb (is_ok (decode_failure (hd_Status h) raw)).

Lemma parse_refused {A B} (decode200 : string -> result string A) (k : A -> B) l rsp h raw :
  fr_Head rsp = h -> fr_Body rsp = Ok raw -> hd_Status h <> 200 ->
  exists cause, (garbled l h raw = true /\ parse decode200 (declared_of l) rsp = CatErr (ErrorString cause)) \/
    (garbled l h raw = false /\ parse decode200 (declared_of l) rsp = CatResp h None).
Proof.
  intros <- Hb Hs. unfold parse, garbled. rewrite Hb. replace (hd_Status (fr_Head rsp) =? 200) with false by lia. rewrite andb_false_r.
  destruct (is_json (fr_Head rsp) && _); cbn [andb]; [|exists ""; by right].
  destruct (decode_failure _ _) as [u|msg]; cbn; [exists ""; by right|exists msg; by left].
Qed.

Lemma fetch_refused {A} (decode200 : string -> result string A) (k : A -> catalog_payload) l rsp h raw :
  fr_Head rsp = h -> fr_Body rsp = Ok raw -> hd_Status h <> 200 ->
  exists e, fetch_body (with_response (parse decode200 (declared_of l)) (Ok rsp)) k = Err e /\
    error_is e ErrCatalogUnauthorized = negb (garbled l h raw) && ((hd_Status h =? 401) || (hd_Status h =? 403)) /\
    error_is e ErrCatalogTransient = garbled l h raw || (hd_Status h >=? 500) || (hd_Status h =? 0).
Proof.
  intros Hh Hb Hs. destruct (parse_refused decode200 k l rsp h raw Hh Hb Hs) as (cause & [[-> Hp]|[-> Hp]]);
    cbn [with_response]; rewrite Hp; (eexists; split; [reflexivity|]); cbn [negb andb orb].
  - by split.
  - unfold classifyUpstream. cbv zeta. destruct (hd_Status h =? 401) eqn:E1; [replace (hd_Status h) with 401 by lia; by split|].
    destruct (hd_Status h =? 403) eqn:E3; [replace (hd_Status h) with 403 by lia; by split|]. cbn [orb].
    destruct (hd_Status h >=? 500); cbn [orb]; [by split|]. by destruct (hd_Status h =? 0).
Qed.

(** C38. A catalog read answered with another status than 200, for every dimension that has
    a listing. Call the answer garbled when its content type announces JSON, its status is
    one of the failures the API document declares for that listing, and its body does not
    decode. Then the read is an authorization failure, which the cache pins, exactly when
    the answer is not garbled and the status is 401 or 403; and it is transient exactly
    when the answer is garbled, or the status is 5xx or more, or 0. So a garbled 401 is
    transient, which is not what the comment of classifyUpstream says
    ([garbled_refusal_is_transient]). *)
Theorem refusal_classified (name : string) (def : dimensionDef) (l : catalog_listing) (call : catalog_listing -> result error full_response)
    (rsp : full_response) (raw : string)
    (Hdef : assoc name defaultRegistry = Some def) (Hl : listing_of name = Some l)
    (Hcall : call l = Ok rsp) (Hraw : fr_Body rsp = Ok raw) (Hstatus : hd_Status (fr_Head rsp) <> 200) :
  exists e, def_fetch def (ClientWithResponses call) = Err e /\
    error_is e ErrCatalogUnauthorized =
      negb (garbled l (fr_Head rsp) raw) && ((hd_Status (fr_Head rsp) =? 401) || (hd_Status (fr_Head rsp) =? 403)) /\
    error_is e ErrCatalogTransient =
      garbled l (fr_Head rsp) raw || (hd_Status (fr_Head rsp) >=? 500) || (hd_Status (fr_Head rsp) =? 0).
Proof.
  apply assoc_elem_of in Hdef. unfold defaultRegistry in Hdef.
  repeat (apply elem_of_cons in Hdef as [[= -> ->]|Hdef];
    [vm_compute in Hl; first [discriminate Hl|injection Hl as <-]; cbn [def_fetch];
     unfold fetchContainerRegistryPresets, fetchS3BucketPresets, fetchServerPresets, fetchServerOSImages, fetchK8sMasterPresets,
       fetchK8sWorkerPresets, fetchK8sPresetsByType, fetchK8sVersions, fetchServerConfigurators, fetchK8sMasterConfigurators,
       fetchK8sWorkerConfigurators, fetchK8sConfiguratorsByRole, fetchRouterPresets;
     cbn [ClientWithResponses GetRegistryPresets GetStoragesPresets GetServersPresets GetOsList GetKubernetesPresets GetK8SVersions
       GetConfigurators GetK8sConfigurators GetRouterPresets]; rewrite Hcall; match goal with |- context [garbled ?l _ _] => exact (fetch_refused _ _ l rsp _ raw eq_refl Hraw Hstatus) end|]).
  by apply elem_of_nil in Hdef.
Qed.
End Parse.

(** ** Witness *)

(** Decoders that accept what looks like an object. *)
Definition object_only {A} (a : A) (raw : string) : result string A := if has_prefix "{" raw then Ok a else Err "invalid character".

#[export] Instance ObjectDecoders : Decoders := {|
  decode_k8s_configurators := object_only []; decode_configurators := object_only []; decode_registry_presets := object_only [];
  decode_versions := object_only []; decode_os := object_only []; decode_k8s_presets := object_only []; decode_router_presets := object_only [];
  decode_server_presets := object_only []; decode_storage_presets := object_only []; decode_failure _ := object_only tt |}.

Definition refused (raw : string) (_ : catalog_listing) : result error full_response :=
  Ok {| fr_Head := {| hd_Status := 401; hd_Headers := [("Content-Type", "application/json")] |}; fr_Body := Ok raw |}.

Lemma refusal_classified_witness :
  exists e, fetchRouterPresets (ClientWithResponses (refused "{}")) = Err e /\ error_is e ErrCatalogUnauthorized = true.
Proof.
  destruct (refusal_classified "RouterPreset" {| def_kind := DimensionPreset; def_fetch := fetchRouterPresets |} ListRouterPresets (refused "{}")
    {| fr_Head := {| hd_Status := 401; hd_Headers := [("Content-Type", "application/json")] |}; fr_Body := Ok "{}" |} "{}"
    eq_refl eq_refl eq_refl eq_refl ltac:(discriminate)) as (e & He & Hu & _).
  exists e. split; [exact He|]. rewrite Hu. reflexivity.
Defined.

(** A page of the edge served as JSON hides a refused token: transient, asked again on
    every pass. *)
Example garbled_refusal_is_transient :
  match fetchRouterPresets (ClientWithResponses (refused "<html>")) with
  | Ok _ => False
  | Err e => error_is e ErrCatalogUnauthorized = false /\ error_is e ErrCatalogTransient = true
  end.
Proof. vm_compute. by split. Qed.
